(* ===== verification/_CoqProject ===== *)
-Q . S2P
Prelude.v
Aes.v
Cmac.v
Ccm.v
Drbg.v
Bigint.v
Curve25519.v
S2Types.v
Keystore.v
S2Core.v
S2Inclusion.v
S2Safe.v
S2Fsm.v
S2Channel.v
S2Link.v
S2Keys.v
S2IncSpec.v
S2Run.v
ConHandle.v
Effects.v
Transport.v
TransportSpec.v
TransportLink.v
TransportSafe.v
Scheme0.v
Scheme0Spec.v
Scheme0Link.v
Scheme0Runs.v
Pool.v
SendQueue.v
SendQueueSpec.v
SendQueueFifo.v
SendQueueRuns.v
SendRequest.v
SendRequestSpec.v
Analyzer.v
PacketQueue.v
Crc32.v
NodeQueue.v
NodeQueueSpec.v
NodeQueueRuns.v
Mailbox.v
MailboxSpec.v
MailboxRuns.v
SerialApi.v
SerialCommands.v
SerialApiSpec.v
SerialApiRuns.v
SerialTimers.v
ProvisioningList.v
ProvisioningSpec.v
ProvisioningRuns.v
