(* ===== verification/Prelude.v ===== *)
(** * Verification of the Z-Wave security and transport stack of the Z/IP gateway

    The program is a gateway between IP and a Z-Wave radio network.  Its core is the Security 2 (S2)
    library under libs2/: the cryptographic primitives, the S2 transport that encrypts and decrypts
    frames and keeps the nonce state of every peer, and the inclusion that hands out keys.  Beside it
    the transport service cuts datagrams that do not fit into a radio frame.  The older security class,
    scheme 0, is the gateway's own (src/transport/), and so are the queues through which everything is
    sent.  Under src/serialapi/ the serial API, over a framing layer, carries commands between the
    gateway and its radio module.

    ** Parts and how they interact

    An application calls [S2_send_data]; the transport ([S2_fsm_post_event], one state machine per
    context) finds the peer's SPAN, asks for a nonce when the SPAN is not synchronised, encrypts with
    CCM under a nonce of the SPAN's CTR_DRBG and passes the frame to the radio.  Received frames enter
    through [S2_application_command_handler], which checks the sequence number, parses extensions,
    decrypts and delivers; a failure is answered with a nonce report, which restarts synchronisation.
    Commands of the key exchange, decryption failures and the end of a transmission are passed on to
    the inclusion machine (s2_inclusion.c), which sends its own frames through the transport, agrees
    on a temporary key with Curve25519 and moves network keys from one key store to the other.
    Scheme 0 ([sec0_send_data]) asks the peer for a nonce with every frame, encrypts under keys derived
    from one network key and sends a message in at most two frames; what it receives enters through
    [security_CommandHandler].
    The application sends through [ZW_SendDataAppl]: one message at a time is taken from its queue,
    given to a security scheme or, as it is, to the lower queue, whose frames go to the transport
    service or the radio; the schemes send their own frames through the lower queue.  [ZW_SendRequest]
    sends a command this way and waits for the answer.
    Packets from the LAN wait in the node queue ([node_input_queued]) until they are given, one at a
    time, to [ClassicZIPNode_input], which sends their commands through [ZW_SendDataAppl] and reports
    the end of each with [queue_send_done].  Those for sleeping nodes are posted to the mailbox
    ([mb_post_uipbuf]), which gives them to [ClassicZIPNode_input] when the node wakes up
    ([mb_wakeup_event]) and then sends the node back to sleep.
    What is sent in the end is a command of the serial API, such as [ZW_SendData]: it is written to the
    module until it is acknowledged and its response is awaited ([SendFrameWithResponse]); frames the
    module sends by itself are queued, and [SerialAPI_Poll] gives them to the application.
    Devices that may join by themselves, and the keys expected of them, are in the provisioning list,
    which is kept in a file.

    ** Files

    - [Prelude]: machine integers, byte strings, the hint databases and tactics, and the classes
      [BlockCipher] (a block cipher) and [BlockCipherOk] (16 bytes in, 16 bytes out), the interface
      through which every mode of operation uses the cipher.
    - [Aes] (crypto/aes/aes.c): AES-128, the instance of [BlockCipher] used by the program.
    - [Cmac] (crypto/aes-cmac/aes_cmac.c), [Ccm] (crypto/ccm/ccm.c): the two modes, with reference
      definitions written from RFC 4493 and SP 800-38C.
    - [Drbg]: modules [CtrDrbg] (crypto/ctr_drbg), [NextNonce] (crypto/nextnonce), [Kderiv]
      (crypto/kderiv).
    - [Bigint] (crypto/curve25519/generic/bigint.c): multi-precision arithmetic.
    - [Curve25519] (crypto/curve25519/generic/smult.c, base.c): the field of 2^255 - 19 elements on
      limbs and the Montgomery ladder.
    - [S2Types] (include/s2_protocol.h, S2.h): the context [S2], the monad [M] (state, trace of calls
      to the outside, memory faults as values) and the interfaces [InclusionFsm] and [Platform].
    - [Keystore] (src/transport/s2_keystore.c): the stored network keys.
    - [S2Core] (protocol/S2.c, and s2_restore_keys of inclusion/s2_inclusion.c): every function of
      the transport, in the generic build (neither 8051 nor secure vault).
    - [S2Inclusion] (inclusion/s2_inclusion.c): the inclusion machine of the controller build: its
      transition table, every action, the check of received frames, the functions of its API.
    - [S2Safe]: the invariant of the context, a program logic for it, memory safety.
    - [S2Fsm]: SPAN table, duplicate window, accounting of transmissions, termination of the machine.
    - [S2Channel], [S2Link]: the frames of a sender and what a receiver makes of them; the channel
      between two nodes.
    - [S2Keys]: keys, associated data, multicast nonce, KEX_FAIL.
    - [S2IncSpec]: what the inclusion machine guarantees; [S2Run]: two nodes, the radio between them,
      and a whole inclusion run on them.
    - [ConHandle] (src/serialapi/conhandle.c): frames on the serial line.
    - [SerialApi] (src/serialapi/Serialapi.c): sending with repetitions, responses, the queue and the
      dispatch of requests; [SerialCommands] (the same file): its commands and its initialisation;
      [SerialApiSpec]: commands reach the module and requests the application; [SerialApiRuns]: runs;
      [SerialTimers]: its timers.
    - [Effects]: the monad of stateful code with faults, its logic ([wp], [wlp]) and networks of
      components ([iterate], [reaches]), shared by the following groups.
    - [Transport] (transport_service/transport_service2.c, transport2_fsm.c, src/utls/zgw_crc.c): every
      function of the transport service; [TransportSpec]: the checksum, the set of received bytes, a
      program logic and what a receiver makes of the frames of a session; [TransportLink]: the sender's
      side, and two nodes with a lossy radio between them; [TransportSafe]: memory safety of the
      receiver and the runs in which the service fails.
    - [Scheme0] (src/transport/Security_Scheme0.c, ZW_PRNG.c, and of security_layer.c the command
      handler): every function of scheme 0; [Scheme0Spec]: its cipher modes, the nonce table, what the
      receiver accepts and its memory safety; [Scheme0Link]: two nodes and the radio between them;
      [Scheme0Runs]: runs with AES.
    - [Pool] (contiki/core/lib/memb.c, list.c): pools of blocks and lists of them.
    - [SendQueue] (src/transport/ZW_SendDataAppl.c, zw_frame_buffer.c): every function of the send
      queues in the build without multicast; [SendQueueSpec]: their invariant, what becomes of
      callbacks, scheme selection; [SendQueueFifo]: messages are sent in order; [SendQueueRuns]: runs.
    - [SendRequest] (src/transport/ZW_SendRequest.c): requests; [SendRequestSpec]: what they guarantee.
    - [PacketQueue] (contiki/core/net/uip-packetqueue.c): queues of packets over one pool;
      [Crc32] (src/crc32alg.c): fingerprints; [NodeQueue] (src/node_queue.c, and of ClassicZIPNode.c the
      buffer of the packet being sent): every function of the node queue; [NodeQueueSpec]: the fate of a
      packet; [NodeQueueRuns]: its invariant, delivery, and runs.
    - [Mailbox] (src/Mailbox.c): every function of the mailbox; [MailboxSpec]: its invariant, that its
      state machine ends, and delivery; [MailboxRuns]: runs.
    - [ProvisioningList] (src/provisioning_list.c): the list of devices and its file;
      [ProvisioningSpec]: it is a finite map; [ProvisioningRuns]: runs.
    - [Analyzer] (src/analyzer/CommandAnalyzer.c, src-gen/get_list.c): the kind of a command.

    ** State and effects

    A C structure is a record with its fields; a w-bit integer is a [Z] wrapped by [u8], [u16] or
    [u32] where the code wraps it; a buffer is a [list Z] of the size the code declares.  An access
    outside a buffer, a null pointer, a failed assertion, a read of an unset local and exhausted fuel
    are the faults of [S2Types.fault] and of [Effects.fault]; a theorem that excludes them proves that they do not occur.
    Calls to the outside (radio, timer, application) are recorded in [outs]; whether the radio takes
    a frame is read from the stream [tx_accept].  The state [World] is the context, the random
    generator, the static variables of s2_inclusion.c ([Inc]) and the stored keys ([Nvm]).

    The transport and the inclusion machine call each other.  The transport is written against the
    class [InclusionFsm]; its theorems assume [InclusionIdle], that the machine does nothing while no
    inclusion runs, and the instance [inclusion_idle] of [S2IncSpec] proves this of the real machine.
    The application's event handler is the trace of the events ([InclusionEvent]).

    ** What the theorems show

    - The channel: [channel_stream] (messages of two synchronised nodes arrive once, unchanged and in
      order) and [channel_resync] (a sender out of step gets back in step by the handshake).
    - Accounting: [send_accepted_once], [fsm_send_done_exactly_once], [timeout_completes]: one
      send-done event per accepted transmission.
    - Memory safety: [reachable_ctxt_ok], [transmit_memory_safe], [receive_memory_safe], for payloads
      of at most 1210 bytes and complete frames between classic nodes; the theorems on overflow and
      over-read show that these limits are needed.
    - Tables and keys: [find_span_by_node_spec], [S2_verify_seq_window], [make_aad_binds],
      [s2_restore_keys_spec], [S2_network_key_update_spec].
    - Inclusion: [frame_gate] (what is done with a frame of the exchange), [network_key_release] and
      [network_key_received] (a key leaves one node and enters another only as granted),
      [temp_key_agreement], [kex_get_clears_keys], [next_key_terminates], [inclusion_ends] (the
      timer, but for tries of the echo that are left, and unexpected events end it with the stored keys
      restored), [idle_machine_inert], and the run [inclusion_transfers_keys] of a complete exchange
      between two nodes, computed with a small curve and cipher.
    - Key store: [keystore_refines_map], it is a finite map from key classes to keys.
    - Cryptography: X25519 of RFC 7748 for points below 2^255 ([crypto_scalarmult_is_x25519]; the code
      does not mask the top bit of other points), equality with the standards' functions (CMAC, CCM with
      at most 255 bytes of associated data, CTR_DRBG, key derivation), round trips (AES, CCM), the
      arithmetic meaning of the Karatsuba product.
    - Serial line: round trip of a frame with its acknowledgement, detection of a corrupted byte,
      resynchronisation after noise, the driver's invariant.
    - Serial API: [serial_command_answered] (a command and its response get through although attempts
      fail and other frames come between), [serial_poll_is_queue] (commands reach the application once
      and in order), [send_data_bounds] (which lengths of data are sent, refused or overrun a buffer).
    - Transport service: [datagram_delivered] (a datagram arrives once and unchanged although
      fragments are lost), [receiver_memory_safe] (any fragments keep within the buffers),
      [crc_detects_burst] (corruption of two neighbouring bytes is detected).
    - Scheme 0: [s0_message_delivered] (a message of at most 52 bytes arrives once and unchanged),
      [s0_accepts_authentic] and [s0_no_replay] (what is accepted is the payload that was encrypted with
      the key, and it is accepted once),
      [s0_receiver_memory_safe] for frames of at most 52 bytes, [s0_modes_are_block_modes].
    - Send queues: [send_queues_safe] (no run of allowed calls, reports and timeouts faults or loses a
      session), [callbacks_called_once], [queue_capacity], [messages_sent_in_order] (messages are sent
      and called back one after the other), [scheme_not_downgraded].
    - Node queue: [node_queue_drained] (every packet is tried, in order, and again if it was not
      acknowledged, and no node's packets are reordered where none overtakes one put off), [node_queue_safe] (no run of events faults while the lifetime of the packet being
      sent does not end); [crc32_is_bitwise].
    - Mailbox: [mailbox_delivers] (a node that wakes up gets its messages once and in order and is then
      sent to sleep), [mailbox_safe] (no run of events of a mailbox without a proxy faults).
    - Provisioning list: [provisioning_list_is_map] (the list is a finite map from DSKs to devices, also
      after the gateway has been started again from the file).
    - Requests: [requests_ended_once], [answer_matches_request], [request_gets_answer]; the lookup of
      commands is membership ([bsearch_is_membership]).
    - Defects: what the code does where it does not do what it means to (multicast nonces that repeat,
      a message replaced by a KEX_FAIL, lengths that wrap or overflow, messages of scheme 0 that are cut
      or lost while the sender is told that they arrived, a send queue that stops for good after a reset,
      fails its first message when it is full, or does not abort, packets that the node queue sends twice,
      out of order or not at all, messages that leave the mailbox unsent, assertions and an overflow
      that another gateway's mailbox commands lead to, and commands of the serial API that take what
      their buffer holds for a response when none has come).

    ** Fuel and bounds

    [fsm_post] recurses through a refused radio frame; its fuel of 2 is enough by
    [post_event_terminates].  [parse_ext] and [parse_enc_ext] get one unit more than the bytes they
    parse, and every round consumes at least one byte; [receive_memory_safe] excludes the fault
    [OutOfFuel].  [machine] of the inclusion gets the depth to which its calls may nest through the
    transport; the theorems hold for every depth, and the run of an inclusion needs 6.  [next_key]
    gets 9 rounds: after 8 shifts of an 8-bit key nothing is left.  [rx_loop] gets the number of bytes that wait on the line.  [generate_loop] of the
    DRBG gets the number of blocks.  The loops of the transport service that offer a frame to the radio
    again get one round more than the radio announces refusals; [net], the network of two nodes, stops
    when nothing is left to do, which [datagram_delivered] and [s0_message_delivered] prove it reaches.
    [fresh] of scheme 0 draws random nonces until one begins with a byte no live nonce begins with; the
    C loop has no bound, the model gives up after 256 draws.  The environment of the send queues stops
    when no event, frame or timer is left, which [messages_sent_in_order] proves it reaches.  The loop of
    [bsearch] gets one round more than the list has elements, [pop_all] of the node queue as many as there
    are packets.  The mailbox's state machine calls itself at most twice per message and nine times more,
    which [mailbox_safe] proves enough by a rank of states and events.  [wait_loop] of the serial API gets
    one round more than there are looks at the line to come, after which its timer has expired;
    [drain_loop] and [send_loop] one for each byte to come, as a frame has several, and the latter twenty
    for its attempts; [serial_command_answered] and [serial_poll_is_queue] prove that a result is reached.
    [lr_loop] gets 32 chunks, of which four are defined.  [import_tlvs] of the provisioning list gets more
    rounds than bytes are left, of which each TLV takes 24 at least.

    ** Not modelled

    The radio and the source of true random bytes (class [Platform]), the slave and the secure-vault
    builds of the S2 library, the secondary key pair of the gateway, the CBC functions of aes.c (no
    caller uses them), the state chart of the scheme 0 inclusion (generated code; its interface is the
    trace of [Learn] calls) and the gateway's applications.  Debug output has no effect and is left out.
    Of the send queues: multicast (TEST_MULTICAST_TX, not built), failing memory allocation, the limit
    of the operating system's event queue, and calls a callback makes before it returns, which are
    taken to happen after the operation that called it.  What a security scheme does with a message is
    outside: it may send frames, and ends the message it was given once.  Of the node queue: what
    [ClassicZIPNode_input] does with a packet it has taken.  Of the mailbox: the sessions
    with a proxy are modelled, and run, but the theorems are on a mailbox that serves its own network.  Of the
    serial API: its pseudo-random bytes, the version of the module's application, and callbacks that send a command before they return.  Of the provisioning list: printing,
    the configuration file, failing allocation and failing writes.  The resource directory,
    mDNS, network management and the firmware update are services of the gateway around the parts
    above, and are not modelled.  That the two shared
    secrets of [temp_key_agreement] are equal is a hypothesis on the two key pairs: the group law of
    the curve is not proved.

    ** Plan

    The state chart of the scheme 0 inclusion, the multicast round trip, memory safety while an
    inclusion runs. *)
From Stdlib Require Export ZArith Lia Btauto.
From stdpp Require Export base list numbers option tactics.

Declare Scope zw_scope.
Delimit Scope zw_scope with zw.
#[global] Open Scope Z_scope.

(** ** Machine integers *)

(** Wrap-around of the unsigned C types the sources use. *)
Definition u8 (x : Z) : Z := x `mod` 256.
Definition u16 (x : Z) : Z := x `mod` 65536.
Definition u32 (x : Z) : Z := x `mod` 4294967296.

(** A value of type [uint8_t], and a buffer of them. *)
Definition is_byte (b : Z) : Prop := 0 <= b < 256.
Definition bytes (l : list Z) : Prop := Forall is_byte l.

#[global] Instance is_byte_dec b : Decision (is_byte b).
Proof. unfold is_byte. apply _. Defined.

#[global] Instance bytes_dec l : Decision (bytes l).
Proof. unfold bytes. apply _. Defined.

(** C truth value of a bit test [x & mask]. *)
Definition has_bits (x mask : Z) : bool := negb (Z.land x mask =? 0).

(** ** Buffers *)

(** [sub off n l]: the [n] bytes of [l] from offset [off], [&l[off]]. *)
Definition sub (off n : nat) (l : list Z) : list Z := take n (drop off l).

(** [splice off bs l]: [memcpy(&l[off], bs, length bs)]. *)
Definition splice (off : nat) (bs l : list Z) : list Z :=
  take off l ++ bs ++ drop (off + length bs) l.

(** Bytewise xor of two buffers (the length of the shorter one). *)
Definition xor_bytes (a b : list Z) : list Z := zip_with Z.lxor a b.

(** Big-endian and little-endian value of a buffer. *)
Definition be_val (l : list Z) : Z := foldl (fun acc b => acc * 256 + b) 0 l.
Fixpoint le_val (l : list Z) : Z :=
  match l with
  | [] => 0
  | b :: l' => b + 256 * le_val l'
  end.

Notation "a ⊕ b" := (xor_bytes a b) (at level 45, left associativity) : zw_scope.
#[global] Open Scope zw_scope.

(** [buf[i]] of a table or buffer the code indexes within its bounds. *)
Definition at_ (l : list Z) (i : nat) : Z := default 0 (l !! i).

(** ** The block cipher interface *)

(** [AES128_ECB_encrypt(input, key, output)] as its callers see it: the C build selects the
    implementation (crypto/aes/aes.c, or the hardware one through the macro of aes.h), and CMAC,
    CCM and the DRBG use nothing but this function. *)
Class BlockCipher := block_encrypt : list Z -> list Z -> list Z.

(** What the modes rely on: a 16-byte block in, a 16-byte block out. *)
Class BlockCipherOk (C : BlockCipher) := {
  block_length : forall b k, length b = 16%nat -> length (block_encrypt b k) = 16%nat;
  block_bytes : forall b k,
    length b = 16%nat -> length k = 16%nat -> bytes b -> bytes k -> bytes (block_encrypt b k)
}.

(** The key exchange, as the inclusion uses it: [scalarmult n p], and that it maps 32-byte strings to
    32-byte strings. *)
Class Curve := scalarmult : list Z -> list Z -> list Z.

Class CurveOk (K : Curve) := {
  scalarmult_ok n p : length n = 32%nat -> bytes n -> length p = 32%nat -> bytes p ->
    length (scalarmult n p) = 32%nat /\ bytes (scalarmult n p)
}.

(** ** Hint databases and tactics of the development *)

Create HintDb zw.
Create HintDb zw_len.

(** Case analysis on the boolean comparisons of a goal or hypothesis. *)
Ltac zbool :=
  repeat match goal with
  | H : (_ && _)%bool = true |- _ => apply andb_prop in H as [? ?]
  | H : (_ || _)%bool = false |- _ => apply orb_false_elim in H as [? ?]
  | H : negb _ = true |- _ => apply negb_true_iff in H
  | H : negb _ = false |- _ => apply negb_false_iff in H
  | H : (_ =? _) = true |- _ => apply Z.eqb_eq in H
  | H : (_ =? _) = false |- _ => apply Z.eqb_neq in H
  | H : (_ <? _) = true |- _ => apply Z.ltb_lt in H
  | H : (_ <? _) = false |- _ => apply Z.ltb_ge in H
  | H : (_ <=? _) = true |- _ => apply Z.leb_le in H
  | H : (_ <=? _) = false |- _ => apply Z.leb_gt in H
  end.

(** Equality of two bit expressions over [Z.lxor]: bit by bit. *)
Ltac xor_solve :=
  apply Z.bits_inj'; let n := fresh "n" in intros n _;
  rewrite ?Z.lxor_spec, ?Z.bits_0; btauto.

(** ** Lemmas on machine integers *)

Lemma u8_small x : 0 <= x < 256 -> u8 x = x.
Proof. apply Z.mod_small. Qed.

Lemma u16_small x : 0 <= x < 65536 -> u16 x = x.
Proof. apply Z.mod_small. Qed.

Lemma u8_byte x : is_byte (u8 x).
Proof. apply Z.mod_pos_bound. lia. Qed.

Lemma u8_u8 x : u8 (u8 x) = u8 x.
Proof. apply u8_small, u8_byte. Qed.

(** Range of a bitwise operation on bounded numbers. *)
Lemma lxor_bound n a b : 0 <= n -> 0 <= a < 2 ^ n -> 0 <= b < 2 ^ n -> 0 <= Z.lxor a b < 2 ^ n.
Proof.
  intros Hn Ha Hb.
  assert (0 <= Z.lxor a b) by (apply Z.lxor_nonneg; lia).
  split; [done|].
  destruct (Z.eq_dec (Z.lxor a b) 0) as [->|Hz]; [apply Z.pow_pos_nonneg; lia|].
  apply Z.log2_lt_pow2; [lia|].
  assert (0 < n).
  { destruct (Z.eq_dec n 0) as [->|]; [|lia].
    assert (a = 0) as -> by lia. assert (b = 0) as -> by lia. done. }
  pose proof (Z.log2_lxor a b ltac:(lia) ltac:(lia)).
  assert (forall c, 0 <= c < 2 ^ n -> Z.log2 c < n) as Hl.
  { intros c Hc. destruct (Z.eq_dec c 0) as [->|]; [simpl; lia|]. apply Z.log2_lt_pow2; lia. }
  pose proof (Hl a Ha). pose proof (Hl b Hb). lia.
Qed.

Lemma lxor_byte a b : is_byte a -> is_byte b -> is_byte (Z.lxor a b).
Proof. apply (lxor_bound 8). lia. Qed.

Lemma lxor_cancel_l a b : Z.lxor a (Z.lxor a b) = b.
Proof. by rewrite <- Z.lxor_assoc, Z.lxor_nilpotent, Z.lxor_0_l. Qed.

Lemma lxor_cancel_r a b : Z.lxor (Z.lxor a b) b = a.
Proof. by rewrite Z.lxor_assoc, Z.lxor_nilpotent, Z.lxor_0_r. Qed.

#[export] Hint Resolve u8_byte lxor_byte : zw.
#[export] Hint Extern 3 (is_byte _) => (done) : zw.

(** ** Lemmas on buffers *)

Lemma bytes_app a b : bytes (a ++ b) <-> bytes a /\ bytes b.
Proof. apply Forall_app. Qed.

Lemma bytes_nil : bytes [].
Proof. constructor. Qed.

Lemma bytes_cons b l : is_byte b -> bytes l -> bytes (b :: l).
Proof. by constructor. Qed.

Lemma bytes_cons_inv b l : bytes (b :: l) -> is_byte b /\ bytes l.
Proof. intros H. by inversion_clear H. Qed.

Lemma bytes_take n l : bytes l -> bytes (take n l).
Proof. apply Forall_take. Qed.

Lemma bytes_drop n l : bytes l -> bytes (drop n l).
Proof. apply Forall_drop. Qed.

Lemma bytes_sub off n l : bytes l -> bytes (sub off n l).
Proof. intros. by apply bytes_take, bytes_drop. Qed.

Lemma bytes_replicate n b : is_byte b -> bytes (replicate n b).
Proof. apply Forall_replicate. Qed.

Lemma bytes_lookup (l : list Z) i b : bytes l -> l !! i = Some b -> is_byte b.
Proof. apply Forall_lookup_1. Qed.

Lemma at_byte l i : bytes l -> is_byte (at_ l i).
Proof.
  intros Hl. unfold at_. destruct (l !! i) eqn:E; simpl; [by eapply bytes_lookup|].
  unfold is_byte; lia.
Qed.

Lemma bytes_xor a b : bytes a -> bytes b -> bytes (a ⊕ b).
Proof.
  revert b. induction a as [|x a IH]; intros [|y b] Ha Hb; try constructor.
  - inversion_clear Ha. inversion_clear Hb. by apply lxor_byte.
  - inversion_clear Ha. inversion_clear Hb. by apply IH.
Qed.

Lemma bytes_splice off bs l : bytes bs -> bytes l -> bytes (splice off bs l).
Proof.
  intros. unfold splice. apply bytes_app; split; [by apply bytes_take|].
  apply bytes_app; split; [done|by apply bytes_drop].
Qed.

#[export] Hint Resolve bytes_nil bytes_cons bytes_take bytes_drop bytes_sub bytes_replicate bytes_xor bytes_splice : zw.

Lemma length_sub off n l : (off + n <= length l)%nat -> length (sub off n l) = n.
Proof. intros. unfold sub. rewrite length_take, length_drop. lia. Qed.

Lemma length_xor (a b : list Z) : length (a ⊕ b) = (length a `min` length b)%nat.
Proof. apply length_zip_with. Qed.

Lemma length_xor_same (a b : list Z) : length a = length b -> length (a ⊕ b) = length a.
Proof. intros. rewrite length_xor. lia. Qed.

Lemma length_splice off bs l : (off + length bs <= length l)%nat -> length (splice off bs l) = length l.
Proof. intros. unfold splice. rewrite !length_app, length_take, length_drop. lia. Qed.

Lemma sub_0 n l : sub 0 n l = take n l.
Proof. by unfold sub; rewrite drop_0. Qed.

Lemma sub_all l : sub 0 (length l) l = l.
Proof. by rewrite sub_0, take_ge. Qed.

(** Two consecutive slices are one slice. *)
Lemma sub_app off n m (l : list Z) : sub off n l ++ sub (off + n) m l = sub off (n + m) l.
Proof. unfold sub. by rewrite <- drop_drop, take_take_drop. Qed.

Lemma sub_app_l off n (a b : list Z) : (off + n <= length a)%nat -> sub off n (a ++ b) = sub off n a.
Proof. intros. unfold sub. rewrite drop_app_le, take_app_le; [done| |lia]. rewrite length_drop; lia. Qed.

Lemma sub_app_r n (a b : list Z) off : off = length a -> sub off n (a ++ b) = take n b.
Proof. intros ->. unfold sub. by rewrite drop_app_length. Qed.

(** A write at [off] extends the prefix written so far. *)
Lemma take_splice off bs (l : list Z) n :
  (off <= length l)%nat -> n = (off + length bs)%nat -> take n (splice off bs l) = take off l ++ bs.
Proof.
  intros ? ->. unfold splice. rewrite app_assoc.
  rewrite take_app_length' by (rewrite length_app, length_take; lia). done.
Qed.

(** A write past a prefix keeps the prefix. *)
Lemma take_splice_lt off bs (l : list Z) n :
  (n <= off)%nat -> (off <= length l)%nat -> take n (splice off bs l) = take n l.
Proof.
  intros. unfold splice. rewrite take_app_le by (rewrite length_take; lia).
  rewrite take_take. f_equal. lia.
Qed.

(** A write inside a prefix is a write to the prefix. *)
Lemma take_splice_ge off bs (l : list Z) n :
  (off + length bs <= n)%nat -> (n <= length l)%nat -> take n (splice off bs l) = splice off bs (take n l).
Proof.
  intros H1 H2. unfold splice. rewrite take_app, length_take, !take_take.
  rewrite (Nat.min_r n off), (Nat.min_l off n), (Nat.min_l off (length l)) by lia. f_equal.
  rewrite take_app, (take_ge bs) by lia. f_equal.
  rewrite skipn_firstn_comm. f_equal. lia.
Qed.

Lemma sub_splice off bs (l : list Z) n :
  (off <= length l)%nat -> n = length bs -> sub off n (splice off bs l) = bs.
Proof.
  intros ? ->. unfold sub, splice.
  rewrite drop_app_length' by (rewrite length_take; lia). by rewrite take_app_length.
Qed.

Lemma drop_splice off bs (l : list Z) n :
  (off <= length l)%nat -> n = (off + length bs)%nat -> drop n (splice off bs l) = drop n l.
Proof.
  intros ? ->. unfold splice. rewrite app_assoc.
  rewrite drop_app_length' by (rewrite length_app, length_take; lia). done.
Qed.

Lemma splice_0_all bs (l : list Z) : length bs = length l -> splice 0 bs l = bs.
Proof. intros H. unfold splice. rewrite take_0, drop_ge by lia. simpl. by rewrite app_nil_r. Qed.

(** *** xor on buffers *)

Lemma xor_comm (a b : list Z) : a ⊕ b = b ⊕ a.
Proof.
  revert b. induction a as [|x a IH]; intros [|y b]; try done.
  unfold xor_bytes in *. simpl. rewrite Z.lxor_comm. f_equal. apply IH.
Qed.

Lemma xor_cancel (k d : list Z) : (length d <= length k)%nat -> k ⊕ (k ⊕ d) = d.
Proof.
  revert d. induction k as [|x k IH]; intros [|y d]; simpl; try done; [lia|].
  intros. unfold xor_bytes in *. simpl. rewrite lxor_cancel_l. f_equal. apply IH. lia.
Qed.

Lemma xor_app a1 a2 b1 b2 : length a1 = length b1 -> (a1 ++ a2) ⊕ (b1 ++ b2) = (a1 ⊕ b1) ++ (a2 ⊕ b2).
Proof. intros. unfold xor_bytes. by rewrite zip_with_app. Qed.

Lemma xor_take n (a b : list Z) : take n (a ⊕ b) = take n a ⊕ take n b.
Proof. unfold xor_bytes. by rewrite zip_with_take. Qed.

Lemma xor_nil_r (a : list Z) : a ⊕ [] = [].
Proof. by destruct a. Qed.

(** Only as much of the key stream as there is data matters. *)
Lemma xor_take_l n (a b : list Z) : (length b <= n)%nat -> take n a ⊕ b = a ⊕ b.
Proof.
  revert n b. induction a as [|x a IH]; intros [|n] [|y b]; simpl; try done; [lia|].
  intros. unfold xor_bytes in *. simpl. f_equal. apply IH. lia.
Qed.

Lemma xor_zeros_r l k : (length l <= k)%nat -> l ⊕ replicate k 0 = l.
Proof.
  revert k. induction l as [|x l IH]; intros [|k] Hk; try done; [simpl in Hk; lia|].
  unfold xor_bytes in *. simpl. rewrite Z.lxor_0_r. f_equal. apply IH. simpl in Hk. lia.
Qed.

(** *** Endianness *)

Lemma be_val_acc l acc : foldl (fun a b => a * 256 + b) acc l = acc * 256 ^ Z.of_nat (length l) + be_val l.
Proof.
  unfold be_val. revert acc. induction l as [|b l IH]; intros acc; simpl; [lia|].
  rewrite IH, (IH (0 * 256 + b)).
  replace (Z.of_nat (S (length l))) with (Z.of_nat (length l) + 1) by lia.
  rewrite Z.pow_add_r by lia. lia.
Qed.

Lemma be_val_app a b : be_val (a ++ b) = be_val a * 256 ^ Z.of_nat (length b) + be_val b.
Proof. unfold be_val at 1. rewrite foldl_app, be_val_acc. done. Qed.

Lemma be_val_cons b l : be_val (b :: l) = b * 256 ^ Z.of_nat (length l) + be_val l.
Proof. unfold be_val at 1. simpl. rewrite be_val_acc. done. Qed.

Lemma be_val_bound l : bytes l -> 0 <= be_val l < 256 ^ Z.of_nat (length l).
Proof.
  induction l as [|b l IH]; intros Hl; [done|].
  inversion_clear Hl as [|? ? Hb Hl']. specialize (IH Hl').
  rewrite be_val_cons. simpl length.
  replace (Z.of_nat (S (length l))) with (Z.of_nat (length l) + 1) by lia.
  rewrite Z.pow_add_r by lia. unfold is_byte in Hb. nia.
Qed.

Lemma le_val_bound l : bytes l -> 0 <= le_val l < 256 ^ Z.of_nat (length l).
Proof.
  induction l as [|b l IH]; intros Hl; simpl le_val; [simpl; lia|].
  inversion_clear Hl as [|? ? Hb Hl']. specialize (IH Hl'). simpl length.
  replace (Z.of_nat (S (length l))) with (Z.of_nat (length l) + 1) by lia.
  rewrite Z.pow_add_r by lia. unfold is_byte in Hb. nia.
Qed.

(** The [n] low-order bytes of [v], most significant first. *)
Fixpoint be_bytes (n : nat) (v : Z) : list Z :=
  match n with
  | O => []
  | S n' => u8 (v `div` 256 ^ Z.of_nat n') :: be_bytes n' v
  end.

Lemma be_bytes_length n v : length (be_bytes n v) = n.
Proof. induction n; simpl; congruence. Qed.

Lemma be_bytes_bytes n v : bytes (be_bytes n v).
Proof. induction n; simpl; auto with zw. Qed.

Lemma pow256_pos n : 0 < 256 ^ Z.of_nat n.
Proof. apply Z.pow_pos_nonneg; lia. Qed.

Lemma pow256_succ n : 256 ^ Z.of_nat (S n) = 256 * 256 ^ Z.of_nat n.
Proof. rewrite Nat2Z.inj_succ, Z.pow_succ_r; lia. Qed.

Lemma be_val_be_bytes n v : be_val (be_bytes n v) = v `mod` 256 ^ Z.of_nat n.
Proof.
  induction n as [|n IH]; [by rewrite Z.mod_1_r|].
  simpl. rewrite be_val_cons, be_bytes_length, IH, pow256_succ, (Z.mul_comm 256).
  pose proof (pow256_pos n). rewrite Z.rem_mul_r by lia. unfold u8. lia.
Qed.

Lemma be_val_inj a b : length a = length b -> bytes a -> bytes b -> be_val a = be_val b -> a = b.
Proof.
  revert b. induction a as [|x a IH]; intros [|y b] Hl Ha Hb; try discriminate; [done|].
  apply bytes_cons_inv in Ha as [? Ha], Hb as [? Hb]. injection Hl as Hl.
  rewrite !be_val_cons, Hl. intros E.
  pose proof (be_val_bound a Ha). pose proof (be_val_bound b Hb). rewrite Hl in *.
  assert (x = y) as -> by nia. f_equal. apply IH; auto. lia.
Qed.

Lemma be_bytes_val l : bytes l -> be_bytes (length l) (be_val l) = l.
Proof.
  intros H. apply be_val_inj; auto using be_bytes_length, be_bytes_bytes.
  rewrite be_val_be_bytes. apply Z.mod_small, be_val_bound, H.
Qed.

(** xor distributes over the concatenation of a high and a low part. *)
Lemma lxor_split k a b c d :
  0 <= k -> 0 <= c < 2 ^ k -> 0 <= d < 2 ^ k ->
  Z.lxor (a * 2 ^ k + c) (b * 2 ^ k + d) = Z.lxor a b * 2 ^ k + Z.lxor c d.
Proof.
  intros Hk Hc Hd.
  assert (Hj : forall a c, 0 <= c < 2 ^ k -> a * 2 ^ k + c = Z.lxor (Z.shiftl a k) c).
  { intros u w Hw. rewrite <- Z.shiftl_mul_pow2 by lia. apply Z.add_nocarry_lxor.
    apply Z.bits_inj'. intros n Hn. rewrite Z.land_spec, Z.bits_0, Z.shiftl_spec by lia.
    destruct (Z.ltb_spec n k); [rewrite Z.testbit_neg_r by lia; done|].
    rewrite <- (Z.mod_small w (2 ^ k)), Z.mod_pow2_bits_high by lia. apply andb_false_r. }
  rewrite !Hj by (auto using lxor_bound). rewrite Z.shiftl_lxor. xor_solve.
Qed.

Lemma be_val_xor a b :
  length a = length b -> bytes a -> bytes b -> be_val (a ⊕ b) = Z.lxor (be_val a) (be_val b).
Proof.
  revert b. induction a as [|x a IH]; intros [|y b] Hl Ha Hb; try discriminate; [done|].
  apply bytes_cons_inv in Ha as [? Ha], Hb as [? Hb]. injection Hl as Hl.
  change ((x :: a) ⊕ (y :: b)) with (Z.lxor x y :: a ⊕ b).
  rewrite !be_val_cons, IH, length_xor_same, <- Hl by done.
  pose proof (be_val_bound a Ha). pose proof (be_val_bound b Hb). rewrite <- Hl in *.
  change 256 with (2 ^ 8) in *. rewrite <- Z.pow_mul_r in * by lia.
  by rewrite lxor_split by lia.
Qed.
