(* ===== verification/Aes.v ===== *)
(** * AES-128 (libs2/crypto/aes/aes.c)

    The tables, the key schedule, the four round transformations with their inverses, the cipher
    and the inverse cipher, translated assignment by assignment on the 16-byte state
    ([state_t[i][j]] is byte [4*i+j]).  The theorems: every transformation keeps the state a
    16-byte buffer, the S-box tables invert each other, each inverse transformation undoes its
    transformation, and [AES128_ECB_decrypt] undoes [AES128_ECB_encrypt] for every key. *)
From S2P Require Import Prelude.

Module Aes.

(** The forward S-box table. *)
Definition sbox : list Z := [
   0x63; 0x7c; 0x77; 0x7b; 0xf2; 0x6b; 0x6f; 0xc5; 0x30; 0x01; 0x67; 0x2b; 0xfe; 0xd7; 0xab; 0x76;
   0xca; 0x82; 0xc9; 0x7d; 0xfa; 0x59; 0x47; 0xf0; 0xad; 0xd4; 0xa2; 0xaf; 0x9c; 0xa4; 0x72; 0xc0;
   0xb7; 0xfd; 0x93; 0x26; 0x36; 0x3f; 0xf7; 0xcc; 0x34; 0xa5; 0xe5; 0xf1; 0x71; 0xd8; 0x31; 0x15;
   0x04; 0xc7; 0x23; 0xc3; 0x18; 0x96; 0x05; 0x9a; 0x07; 0x12; 0x80; 0xe2; 0xeb; 0x27; 0xb2; 0x75;
   0x09; 0x83; 0x2c; 0x1a; 0x1b; 0x6e; 0x5a; 0xa0; 0x52; 0x3b; 0xd6; 0xb3; 0x29; 0xe3; 0x2f; 0x84;
   0x53; 0xd1; 0x00; 0xed; 0x20; 0xfc; 0xb1; 0x5b; 0x6a; 0xcb; 0xbe; 0x39; 0x4a; 0x4c; 0x58; 0xcf;
   0xd0; 0xef; 0xaa; 0xfb; 0x43; 0x4d; 0x33; 0x85; 0x45; 0xf9; 0x02; 0x7f; 0x50; 0x3c; 0x9f; 0xa8;
   0x51; 0xa3; 0x40; 0x8f; 0x92; 0x9d; 0x38; 0xf5; 0xbc; 0xb6; 0xda; 0x21; 0x10; 0xff; 0xf3; 0xd2;
   0xcd; 0x0c; 0x13; 0xec; 0x5f; 0x97; 0x44; 0x17; 0xc4; 0xa7; 0x7e; 0x3d; 0x64; 0x5d; 0x19; 0x73;
   0x60; 0x81; 0x4f; 0xdc; 0x22; 0x2a; 0x90; 0x88; 0x46; 0xee; 0xb8; 0x14; 0xde; 0x5e; 0x0b; 0xdb;
   0xe0; 0x32; 0x3a; 0x0a; 0x49; 0x06; 0x24; 0x5c; 0xc2; 0xd3; 0xac; 0x62; 0x91; 0x95; 0xe4; 0x79;
   0xe7; 0xc8; 0x37; 0x6d; 0x8d; 0xd5; 0x4e; 0xa9; 0x6c; 0x56; 0xf4; 0xea; 0x65; 0x7a; 0xae; 0x08;
   0xba; 0x78; 0x25; 0x2e; 0x1c; 0xa6; 0xb4; 0xc6; 0xe8; 0xdd; 0x74; 0x1f; 0x4b; 0xbd; 0x8b; 0x8a;
   0x70; 0x3e; 0xb5; 0x66; 0x48; 0x03; 0xf6; 0x0e; 0x61; 0x35; 0x57; 0xb9; 0x86; 0xc1; 0x1d; 0x9e;
   0xe1; 0xf8; 0x98; 0x11; 0x69; 0xd9; 0x8e; 0x94; 0x9b; 0x1e; 0x87; 0xe9; 0xce; 0x55; 0x28; 0xdf;
   0x8c; 0xa1; 0x89; 0x0d; 0xbf; 0xe6; 0x42; 0x68; 0x41; 0x99; 0x2d; 0x0f; 0xb0; 0x54; 0xbb; 0x16].

(** The inverse S-box table. *)
Definition rsbox : list Z := [
   0x52; 0x09; 0x6a; 0xd5; 0x30; 0x36; 0xa5; 0x38; 0xbf; 0x40; 0xa3; 0x9e; 0x81; 0xf3; 0xd7; 0xfb;
   0x7c; 0xe3; 0x39; 0x82; 0x9b; 0x2f; 0xff; 0x87; 0x34; 0x8e; 0x43; 0x44; 0xc4; 0xde; 0xe9; 0xcb;
   0x54; 0x7b; 0x94; 0x32; 0xa6; 0xc2; 0x23; 0x3d; 0xee; 0x4c; 0x95; 0x0b; 0x42; 0xfa; 0xc3; 0x4e;
   0x08; 0x2e; 0xa1; 0x66; 0x28; 0xd9; 0x24; 0xb2; 0x76; 0x5b; 0xa2; 0x49; 0x6d; 0x8b; 0xd1; 0x25;
   0x72; 0xf8; 0xf6; 0x64; 0x86; 0x68; 0x98; 0x16; 0xd4; 0xa4; 0x5c; 0xcc; 0x5d; 0x65; 0xb6; 0x92;
   0x6c; 0x70; 0x48; 0x50; 0xfd; 0xed; 0xb9; 0xda; 0x5e; 0x15; 0x46; 0x57; 0xa7; 0x8d; 0x9d; 0x84;
   0x90; 0xd8; 0xab; 0x00; 0x8c; 0xbc; 0xd3; 0x0a; 0xf7; 0xe4; 0x58; 0x05; 0xb8; 0xb3; 0x45; 0x06;
   0xd0; 0x2c; 0x1e; 0x8f; 0xca; 0x3f; 0x0f; 0x02; 0xc1; 0xaf; 0xbd; 0x03; 0x01; 0x13; 0x8a; 0x6b;
   0x3a; 0x91; 0x11; 0x41; 0x4f; 0x67; 0xdc; 0xea; 0x97; 0xf2; 0xcf; 0xce; 0xf0; 0xb4; 0xe6; 0x73;
   0x96; 0xac; 0x74; 0x22; 0xe7; 0xad; 0x35; 0x85; 0xe2; 0xf9; 0x37; 0xe8; 0x1c; 0x75; 0xdf; 0x6e;
   0x47; 0xf1; 0x1a; 0x71; 0x1d; 0x29; 0xc5; 0x89; 0x6f; 0xb7; 0x62; 0x0e; 0xaa; 0x18; 0xbe; 0x1b;
   0xfc; 0x56; 0x3e; 0x4b; 0xc6; 0xd2; 0x79; 0x20; 0x9a; 0xdb; 0xc0; 0xfe; 0x78; 0xcd; 0x5a; 0xf4;
   0x1f; 0xdd; 0xa8; 0x33; 0x88; 0x07; 0xc7; 0x31; 0xb1; 0x12; 0x10; 0x59; 0x27; 0x80; 0xec; 0x5f;
   0x60; 0x51; 0x7f; 0xa9; 0x19; 0xb5; 0x4a; 0x0d; 0x2d; 0xe5; 0x7a; 0x9f; 0x93; 0xc9; 0x9c; 0xef;
   0xa0; 0xe0; 0x3b; 0x4d; 0xae; 0x2a; 0xf5; 0xb0; 0xc8; 0xeb; 0xbb; 0x3c; 0x83; 0x53; 0x99; 0x61;
   0x17; 0x2b; 0x04; 0x7e; 0xba; 0x77; 0xd6; 0x26; 0xe1; 0x69; 0x14; 0x63; 0x55; 0x21; 0x0c; 0x7d].

(** The round constants; entry [i] is [x^(i-1)] in GF(2^8). *)
Definition Rcon : list Z := [
   0x8d; 0x01; 0x02; 0x04; 0x08; 0x10; 0x20; 0x40; 0x80; 0x1b; 0x36; 0x6c; 0xd8; 0xab; 0x4d; 0x9a;
   0x2f; 0x5e; 0xbc; 0x63; 0xc6; 0x97; 0x35; 0x6a; 0xd4; 0xb3; 0x7d; 0xfa; 0xef; 0xc5; 0x91; 0x39;
   0x72; 0xe4; 0xd3; 0xbd; 0x61; 0xc2; 0x9f; 0x25; 0x4a; 0x94; 0x33; 0x66; 0xcc; 0x83; 0x1d; 0x3a;
   0x74; 0xe8; 0xcb; 0x8d; 0x01; 0x02; 0x04; 0x08; 0x10; 0x20; 0x40; 0x80; 0x1b; 0x36; 0x6c; 0xd8;
   0xab; 0x4d; 0x9a; 0x2f; 0x5e; 0xbc; 0x63; 0xc6; 0x97; 0x35; 0x6a; 0xd4; 0xb3; 0x7d; 0xfa; 0xef;
   0xc5; 0x91; 0x39; 0x72; 0xe4; 0xd3; 0xbd; 0x61; 0xc2; 0x9f; 0x25; 0x4a; 0x94; 0x33; 0x66; 0xcc;
   0x83; 0x1d; 0x3a; 0x74; 0xe8; 0xcb; 0x8d; 0x01; 0x02; 0x04; 0x08; 0x10; 0x20; 0x40; 0x80; 0x1b;
   0x36; 0x6c; 0xd8; 0xab; 0x4d; 0x9a; 0x2f; 0x5e; 0xbc; 0x63; 0xc6; 0x97; 0x35; 0x6a; 0xd4; 0xb3;
   0x7d; 0xfa; 0xef; 0xc5; 0x91; 0x39; 0x72; 0xe4; 0xd3; 0xbd; 0x61; 0xc2; 0x9f; 0x25; 0x4a; 0x94;
   0x33; 0x66; 0xcc; 0x83; 0x1d; 0x3a; 0x74; 0xe8; 0xcb; 0x8d; 0x01; 0x02; 0x04; 0x08; 0x10; 0x20;
   0x40; 0x80; 0x1b; 0x36; 0x6c; 0xd8; 0xab; 0x4d; 0x9a; 0x2f; 0x5e; 0xbc; 0x63; 0xc6; 0x97; 0x35;
   0x6a; 0xd4; 0xb3; 0x7d; 0xfa; 0xef; 0xc5; 0x91; 0x39; 0x72; 0xe4; 0xd3; 0xbd; 0x61; 0xc2; 0x9f;
   0x25; 0x4a; 0x94; 0x33; 0x66; 0xcc; 0x83; 0x1d; 0x3a; 0x74; 0xe8; 0xcb; 0x8d; 0x01; 0x02; 0x04;
   0x08; 0x10; 0x20; 0x40; 0x80; 0x1b; 0x36; 0x6c; 0xd8; 0xab; 0x4d; 0x9a; 0x2f; 0x5e; 0xbc; 0x63;
   0xc6; 0x97; 0x35; 0x6a; 0xd4; 0xb3; 0x7d; 0xfa; 0xef; 0xc5; 0x91; 0x39; 0x72; 0xe4; 0xd3; 0xbd;
   0x61; 0xc2; 0x9f; 0x25; 0x4a; 0x94; 0x33; 0x66; 0xcc; 0x83; 0x1d; 0x3a; 0x74; 0xe8; 0xcb].

Definition Nb : nat := 4.
Definition Nk : nat := 4.
Definition Nr : nat := 10.

Definition getSBoxValue (num : Z) : Z := at_ sbox (Z.to_nat num).
Definition getSBoxInvert (num : Z) : Z := at_ rsbox (Z.to_nat num).

(** ** Key schedule *)

(** One iteration of the key schedule loop: appends [RoundKey[4*i .. 4*i+3]]. *)
Definition KeyExpansion_step (RoundKey : list Z) (i : nat) : list Z :=
  let tempa := sub ((i - 1) * 4) 4 RoundKey in
  let tempa :=
    if Nat.eqb (i `mod` Nk) 0 then
      (* RotWord, SubWord, round constant *)
      let r := [at_ tempa 1; at_ tempa 2; at_ tempa 3; at_ tempa 0] in
      let s := getSBoxValue <$> r in
      [Z.lxor (at_ s 0) (at_ Rcon (i `div` Nk)); at_ s 1; at_ s 2; at_ s 3]
    else tempa in
  RoundKey ++
    [Z.lxor (at_ RoundKey ((i - Nk) * 4 + 0)) (at_ tempa 0);
     Z.lxor (at_ RoundKey ((i - Nk) * 4 + 1)) (at_ tempa 1);
     Z.lxor (at_ RoundKey ((i - Nk) * 4 + 2)) (at_ tempa 2);
     Z.lxor (at_ RoundKey ((i - Nk) * 4 + 3)) (at_ tempa 3)].

(** The first round key is the key itself; the words [Nk .. Nb*(Nr+1)-1] follow. *)
Definition KeyExpansion (Key : list Z) : list Z :=
  foldl KeyExpansion_step (take (Nk * 4) Key) (seq Nk (Nb * (Nr + 1) - Nk)).

(** ** Round transformations *)

Definition st (s : list Z) (i j : nat) : Z := at_ s (4 * i + j).
Definition st_set (s : list Z) (i j : nat) (v : Z) : list Z := <[(4 * i + j)%nat := v]> s.

(** [for(i=0;i<4;++i) for(j=0;j<4;++j) ...] *)
Definition for_ij (f : nat -> nat -> list Z -> list Z) (s : list Z) : list Z :=
  foldl (fun s i => foldl (fun s j => f i j s) s [0; 1; 2; 3]%nat) s [0; 1; 2; 3]%nat.

Definition AddRoundKey (RoundKey : list Z) (round : nat) (s : list Z) : list Z :=
  for_ij (fun i j s => st_set s i j (Z.lxor (st s i j) (at_ RoundKey (round * Nb * 4 + i * Nb + j)))) s.

Definition SubBytes (s : list Z) : list Z :=
  for_ij (fun i j s => st_set s j i (getSBoxValue (st s j i))) s.

Definition ShiftRows (s : list Z) : list Z :=
  (* rotate first row 1 column to left *)
  let temp := st s 0 1 in
  let s := st_set s 0 1 (st s 1 1) in
  let s := st_set s 1 1 (st s 2 1) in
  let s := st_set s 2 1 (st s 3 1) in
  let s := st_set s 3 1 temp in
  (* rotate second row 2 columns to left *)
  let temp := st s 0 2 in
  let s := st_set s 0 2 (st s 2 2) in
  let s := st_set s 2 2 temp in
  let temp := st s 1 2 in
  let s := st_set s 1 2 (st s 3 2) in
  let s := st_set s 3 2 temp in
  (* rotate third row 3 columns to left *)
  let temp := st s 0 3 in
  let s := st_set s 0 3 (st s 3 3) in
  let s := st_set s 3 3 (st s 2 3) in
  let s := st_set s 2 3 (st s 1 3) in
  st_set s 1 3 temp.

Definition xtime (x : Z) : Z :=
  u8 (Z.lxor (Z.shiftl x 1) (Z.land (Z.shiftr x 7) 1 * 0x1b)).

(** The body of the MixColumns loop, for column [i]. *)
Definition MixColumn (s : list Z) (i : nat) : list Z :=
  let t := st s i 0 in
  let Tmp := Z.lxor (Z.lxor (Z.lxor (st s i 0) (st s i 1)) (st s i 2)) (st s i 3) in
  let Tm := xtime (Z.lxor (st s i 0) (st s i 1)) in
  let s := st_set s i 0 (Z.lxor (st s i 0) (Z.lxor Tm Tmp)) in
  let Tm := xtime (Z.lxor (st s i 1) (st s i 2)) in
  let s := st_set s i 1 (Z.lxor (st s i 1) (Z.lxor Tm Tmp)) in
  let Tm := xtime (Z.lxor (st s i 2) (st s i 3)) in
  let s := st_set s i 2 (Z.lxor (st s i 2) (Z.lxor Tm Tmp)) in
  let Tm := xtime (Z.lxor (st s i 3) t) in
  st_set s i 3 (Z.lxor (st s i 3) (Z.lxor Tm Tmp)).

Definition MixColumns (s : list Z) : list Z := foldl MixColumn s [0; 1; 2; 3]%nat.

Definition Multiply (x y : Z) : Z :=
  Z.lxor (Z.lxor (Z.lxor (Z.lxor
    (Z.land y 1 * x)
    (Z.land (Z.shiftr y 1) 1 * xtime x))
    (Z.land (Z.shiftr y 2) 1 * xtime (xtime x)))
    (Z.land (Z.shiftr y 3) 1 * xtime (xtime (xtime x))))
    (Z.land (Z.shiftr y 4) 1 * xtime (xtime (xtime (xtime x)))).

(** The body of the InvMixColumns loop, for column [i]. *)
Definition InvMixColumn (s : list Z) (i : nat) : list Z :=
  let a := st s i 0 in
  let b := st s i 1 in
  let c := st s i 2 in
  let d := st s i 3 in
  let x4 p q r t := u8 (Z.lxor (Z.lxor (Z.lxor p q) r) t) in
  let s := st_set s i 0 (x4 (Multiply a 0x0e) (Multiply b 0x0b) (Multiply c 0x0d) (Multiply d 0x09)) in
  let s := st_set s i 1 (x4 (Multiply a 0x09) (Multiply b 0x0e) (Multiply c 0x0b) (Multiply d 0x0d)) in
  let s := st_set s i 2 (x4 (Multiply a 0x0d) (Multiply b 0x09) (Multiply c 0x0e) (Multiply d 0x0b)) in
  st_set s i 3 (x4 (Multiply a 0x0b) (Multiply b 0x0d) (Multiply c 0x09) (Multiply d 0x0e)).

Definition InvMixColumns (s : list Z) : list Z := foldl InvMixColumn s [0; 1; 2; 3]%nat.

Definition InvSubBytes (s : list Z) : list Z :=
  for_ij (fun i j s => st_set s j i (getSBoxInvert (st s j i))) s.

Definition InvShiftRows (s : list Z) : list Z :=
  let temp := st s 3 1 in
  let s := st_set s 3 1 (st s 2 1) in
  let s := st_set s 2 1 (st s 1 1) in
  let s := st_set s 1 1 (st s 0 1) in
  let s := st_set s 0 1 temp in
  let temp := st s 0 2 in
  let s := st_set s 0 2 (st s 2 2) in
  let s := st_set s 2 2 temp in
  let temp := st s 1 2 in
  let s := st_set s 1 2 (st s 3 2) in
  let s := st_set s 3 2 temp in
  let temp := st s 0 3 in
  let s := st_set s 0 3 (st s 1 3) in
  let s := st_set s 1 3 (st s 2 3) in
  let s := st_set s 2 3 (st s 3 3) in
  st_set s 3 3 temp.

(** ** The ciphers *)

(** Rounds [1 .. Nr-1], then the last round without MixColumns. *)
Definition Cipher (RoundKey : list Z) (s : list Z) : list Z :=
  let s := AddRoundKey RoundKey 0 s in
  let s := foldl (fun s round => AddRoundKey RoundKey round (MixColumns (ShiftRows (SubBytes s))))
             s (seq 1 (Nr - 1)) in
  AddRoundKey RoundKey Nr (ShiftRows (SubBytes s)).

Definition InvCipher (RoundKey : list Z) (s : list Z) : list Z :=
  let s := AddRoundKey RoundKey Nr s in
  let s := foldl (fun s round => InvMixColumns (AddRoundKey RoundKey round (InvSubBytes (InvShiftRows s))))
             s (rev (seq 1 (Nr - 1))) in
  AddRoundKey RoundKey 0 (InvSubBytes (InvShiftRows s)).

(** [BlockCopy]: the KEYLEN = 16 bytes of the input. *)
Definition BlockCopy (input : list Z) : list Z := take 16 input.

Definition AES128_ECB_encrypt (input key : list Z) : list Z :=
  Cipher (KeyExpansion key) (BlockCopy input).

Definition AES128_ECB_decrypt (input key : list Z) : list Z :=
  InvCipher (KeyExpansion key) (BlockCopy input).

#[global] Instance aes128 : BlockCipher := AES128_ECB_encrypt.

(** ** Shape of the state *)

(** Names the 16 bytes of a state. *)
Ltac split16 s H :=
  do 16 (destruct s as [|? s]; [discriminate H|]); destruct s; [|discriminate H]; clear H.

(** Evaluates the indexing of a 16-byte state. *)
Ltac st_eval :=
  cbv [AddRoundKey SubBytes InvSubBytes ShiftRows InvShiftRows MixColumns InvMixColumns MixColumn
       InvMixColumn for_ij foldl st st_set at_ insert list_insert lookup list_lookup
       from_option Nat.add Nat.mul length id Nb].

Lemma st_set_length s i j v n : length s = n -> length (st_set s i j v) = n.
Proof. intros <-. apply length_insert. Qed.

Lemma for_ij_length f s n :
  (forall i j s, length s = n -> length (f i j s) = n) -> length s = n -> length (for_ij f s) = n.
Proof. intros Hf Hs. unfold for_ij. simpl. by repeat apply Hf. Qed.

Lemma AddRoundKey_length rk r s n : length s = n -> length (AddRoundKey rk r s) = n.
Proof. apply for_ij_length. intros. by apply st_set_length. Qed.

Lemma SubBytes_length s n : length s = n -> length (SubBytes s) = n.
Proof. apply for_ij_length. intros. by apply st_set_length. Qed.

Lemma ShiftRows_length s n : length s = n -> length (ShiftRows s) = n.
Proof. intros. unfold ShiftRows. by repeat apply st_set_length. Qed.

Lemma MixColumn_length s i n : length s = n -> length (MixColumn s i) = n.
Proof. intros. unfold MixColumn. by repeat apply st_set_length. Qed.

Lemma MixColumns_length s n : length s = n -> length (MixColumns s) = n.
Proof. intros. unfold MixColumns. simpl. by repeat apply MixColumn_length. Qed.

Lemma rounds_length (f : list Z -> nat -> list Z) l s n :
  (forall s r, length s = n -> length (f s r) = n) -> length s = n -> length (foldl f s l) = n.
Proof. intros Hf. revert s. induction l as [|r l IH]; intros s Hs; [done|]. simpl. auto. Qed.

Create HintDb aes.
#[local] Hint Resolve AddRoundKey_length SubBytes_length ShiftRows_length MixColumns_length : aes.

Lemma Cipher_length rk s n : length s = n -> length (Cipher rk s) = n.
Proof.
  intros. unfold Cipher.
  apply AddRoundKey_length, ShiftRows_length, SubBytes_length, rounds_length; auto 8 with aes.
Qed.

(** ** Byte ranges *)

Lemma st_set_bytes s i j v : bytes s -> is_byte v -> bytes (st_set s i j v).
Proof. intros. by apply Forall_insert. Qed.

Lemma for_ij_bytes f s :
  (forall i j s, bytes s -> bytes (f i j s)) -> bytes s -> bytes (for_ij f s).
Proof. intros Hf Hs. unfold for_ij. simpl. by repeat apply Hf. Qed.

Lemma sbox_bytes : bytes sbox.
Proof. apply (bool_decide_unpack _). vm_compute. exact I. Qed.

Lemma Rcon_bytes : bytes Rcon.
Proof. apply (bool_decide_unpack _). vm_compute. exact I. Qed.

Lemma st_byte s i j : bytes s -> is_byte (st s i j).
Proof. apply at_byte. Qed.

Lemma sbox_byte x : is_byte (getSBoxValue x).
Proof. apply at_byte, sbox_bytes. Qed.

Lemma sbox_map_bytes l : bytes (getSBoxValue <$> l).
Proof. induction l; constructor; auto using sbox_byte. Qed.

Lemma xtime_byte x : is_byte (xtime x).
Proof. apply u8_byte. Qed.

#[local] Hint Resolve bytes_nil st_set_bytes at_byte st_byte sbox_byte sbox_map_bytes xtime_byte lxor_byte : aes.

Lemma AddRoundKey_bytes rk r s : bytes rk -> bytes s -> bytes (AddRoundKey rk r s).
Proof. intros. apply for_ij_bytes; auto with aes. Qed.

Lemma SubBytes_bytes s : bytes s -> bytes (SubBytes s).
Proof. intros. apply for_ij_bytes; auto with aes. Qed.

Lemma ShiftRows_bytes s : bytes s -> bytes (ShiftRows s).
Proof. intros. unfold ShiftRows. auto 40 with aes. Qed.

Lemma MixColumn_bytes s i : bytes s -> bytes (MixColumn s i).
Proof. intros. unfold MixColumn. auto 40 with aes. Qed.

Lemma MixColumns_bytes s : bytes s -> bytes (MixColumns s).
Proof. intros. unfold MixColumns. simpl. auto using MixColumn_bytes. Qed.

Lemma KeyExpansion_bytes key : bytes key -> bytes (KeyExpansion key).
Proof.
  intros Hk. unfold KeyExpansion.
  generalize (seq Nk (Nb * (Nr + 1) - Nk)). intros l.
  assert (H0 : bytes (take (Nk * 4) key)) by (by apply bytes_take).
  revert H0. generalize (take (Nk * 4) key). induction l as [|i l IH]; intros rk Hrk; [done|].
  simpl. apply IH. unfold KeyExpansion_step. apply bytes_app. split; [done|].
  match goal with |- bytes [Z.lxor _ (at_ ?t 0); _; _; _] => assert (Ht : bytes t) end.
  { destruct (Nat.eqb _ _); [|by apply bytes_sub].
    pose proof Rcon_bytes. repeat apply bytes_cons; auto with aes. }
  repeat apply bytes_cons; auto with aes.
Qed.

Lemma Cipher_bytes rk s : bytes rk -> bytes s -> bytes (Cipher rk s).
Proof.
  intros Hrk Hs. unfold Cipher.
  apply AddRoundKey_bytes, ShiftRows_bytes, SubBytes_bytes; [done|].
  generalize (seq 1 (Nr - 1)). intros l.
  assert (H0 : bytes (AddRoundKey rk 0 s)) by (by apply AddRoundKey_bytes).
  revert H0. generalize (AddRoundKey rk 0 s). induction l as [|r l IH]; intros s' H'; [done|].
  simpl. by apply IH, AddRoundKey_bytes, MixColumns_bytes, ShiftRows_bytes, SubBytes_bytes.
Qed.

Lemma encrypt_length b k : length b = 16%nat -> length (AES128_ECB_encrypt b k) = 16%nat.
Proof.
  intros H. apply Cipher_length. unfold BlockCopy. by rewrite length_take, H.
Qed.

#[global] Instance aes128_ok : BlockCipherOk aes128.
Proof.
  split.
  - apply encrypt_length.
  - intros b k _ _ Hb Hk. apply Cipher_bytes; [by apply KeyExpansion_bytes|by apply bytes_take].
Qed.

(** ** Each inverse transformation undoes its transformation *)

Lemma AddRoundKey_involutive rk r s :
  length s = 16%nat -> AddRoundKey rk r (AddRoundKey rk r s) = s.
Proof.
  intros H. split16 s H. unfold AddRoundKey. st_eval. by rewrite !lxor_cancel_r.
Qed.

Lemma ShiftRows_inverse s : length s = 16%nat -> InvShiftRows (ShiftRows s) = s.
Proof. intros H. split16 s H. reflexivity. Qed.

(** The two S-box tables are inverse permutations: all 256 entries. *)
Lemma sbox_inverse x : is_byte x -> getSBoxInvert (getSBoxValue x) = x.
Proof.
  intros Hx. assert (Hall : Forall (fun x => getSBoxInvert (getSBoxValue x) = x) (seqZ 0 256)).
  { apply (bool_decide_unpack _). vm_compute. exact I. }
  rewrite list.Forall_forall in Hall. apply Hall, elem_of_seqZ. unfold is_byte in Hx. lia.
Qed.

Lemma SubBytes_inverse s : length s = 16%nat -> bytes s -> InvSubBytes (SubBytes s) = s.
Proof.
  intros H Hb. split16 s H. unfold InvSubBytes, SubBytes. st_eval.
  repeat match goal with H : bytes (_ :: _) |- _ => inversion_clear H
                       | H : Forall is_byte (_ :: _) |- _ => inversion_clear H end.
  by rewrite !sbox_inverse.
Qed.

(** *** MixColumns over GF(2^8) *)

Lemma xtime_linear x y : xtime (Z.lxor x y) = Z.lxor (xtime x) (xtime y).
Proof.
  unfold xtime, u8. change 256 with (2 ^ 8). rewrite <- !Z.land_ones by lia.
  assert (Hm : forall a b c, Z.land (Z.lxor a b) c = Z.lxor (Z.land a c) (Z.land b c)).
  { intros. apply Z.bits_inj'. intros n _. rewrite !Z.land_spec, !Z.lxor_spec, !Z.land_spec. btauto. }
  rewrite Z.shiftl_lxor, Z.shiftr_lxor, (Hm (Z.shiftr x 7)).
  assert (Hb : forall z, Z.land z 1 = 0 \/ Z.land z 1 = 1).
  { intros z. pose proof (Z.land_ones z 1 ltac:(lia)) as E.
    change (Z.ones 1) with 1 in E. rewrite E. change (2 ^ 1) with 2.
    pose proof (Z.mod_pos_bound z 2 ltac:(lia)). lia. }
  destruct (Hb (Z.shiftr x 7)) as [-> | ->], (Hb (Z.shiftr y 7)) as [-> | ->];
    rewrite <- Hm; f_equal;
    rewrite ?Z.lxor_0_r, ?Z.lxor_0_l, ?Z.lxor_nilpotent, ?Z.mul_0_l, ?Z.mul_1_l; xor_solve.
Qed.

(** [Multiply] by a constant, as the sum of the powers of [xtime] of its binary digits. *)
Ltac mul_const y :=
  let d k := (let b := eval vm_compute in (Z.land (Z.shiftr y k) 1) in
              change (Z.land (Z.shiftr y k) 1) with b) in
  unfold Multiply; let b := eval vm_compute in (Z.land y 1) in change (Z.land y 1) with b;
  d 1; d 2; d 3; d 4; rewrite ?Z.mul_0_l, ?Z.mul_1_l; xor_solve.

Lemma Multiply_9 x : Multiply x 9 = Z.lxor x (xtime (xtime (xtime x))).
Proof. mul_const 9. Qed.

Lemma Multiply_11 x : Multiply x 11 = Z.lxor x (Z.lxor (xtime x) (xtime (xtime (xtime x)))).
Proof. mul_const 11. Qed.

Lemma Multiply_13 x : Multiply x 13 = Z.lxor x (Z.lxor (xtime (xtime x)) (xtime (xtime (xtime x)))).
Proof. mul_const 13. Qed.

Lemma Multiply_14 x :
  Multiply x 14 = Z.lxor (xtime x) (Z.lxor (xtime (xtime x)) (xtime (xtime (xtime x)))).
Proof. mul_const 14. Qed.

(** The product of the two circulant matrices is the identity, as polynomials in [xtime]. *)
Lemma MixColumns_inverse s : length s = 16%nat -> bytes s -> InvMixColumns (MixColumns s) = s.
Proof.
  intros H Hb. split16 s H.
  repeat (apply bytes_cons_inv in Hb as [? Hb]).
  assert (Hu : forall e z, is_byte z -> e = z -> u8 e = z) by (intros ? ? ? ->; by apply u8_small).
  st_eval. repeat f_equal; (apply Hu; [done|]);
    rewrite ?Multiply_9, ?Multiply_11, ?Multiply_13, ?Multiply_14, ?xtime_linear; xor_solve.
Qed.

(** ** Decryption undoes encryption *)

Definition block (s : list Z) : Prop := length s = 16%nat /\ bytes s.

Lemma block_round rk r s : bytes rk -> block s -> block (AddRoundKey rk r (MixColumns s)).
Proof. intros ? [? ?]. split; [auto with aes|]. by apply AddRoundKey_bytes, MixColumns_bytes. Qed.

Lemma block_sub s : block s -> block (ShiftRows (SubBytes s)).
Proof. intros [? ?]. split; [auto with aes|]. by apply ShiftRows_bytes, SubBytes_bytes. Qed.

Lemma block_key rk r s : bytes rk -> block s -> block (AddRoundKey rk r s).
Proof. intros ? [? ?]. split; [auto with aes|]. by apply AddRoundKey_bytes. Qed.

#[local] Hint Resolve block_round block_sub block_key : aes.

(** One step of the inverse loop takes back one step of the forward loop. *)
Lemma inv_sub_sub s : block s -> InvSubBytes (InvShiftRows (ShiftRows (SubBytes s))) = s.
Proof. intros [H Hb]. rewrite ShiftRows_inverse by auto with aes. by apply SubBytes_inverse. Qed.

Lemma inv_round rk r s :
  bytes rk -> block s -> InvMixColumns (AddRoundKey rk r (AddRoundKey rk r (MixColumns s))) = s.
Proof.
  intros Hk [H Hb]. rewrite AddRoundKey_involutive by auto with aes. by apply MixColumns_inverse.
Qed.

(** The loops, started after the SubBytes and ShiftRows of a round. *)
Lemma inv_rounds rk l s :
  bytes rk -> block s ->
  foldl (fun s r => InvMixColumns (AddRoundKey rk r (InvSubBytes (InvShiftRows s))))
    (ShiftRows (SubBytes (foldl (fun s r => AddRoundKey rk r (MixColumns (ShiftRows (SubBytes s)))) s l)))
    (rev l) = ShiftRows (SubBytes s).
Proof.
  intros Hk. revert s. induction l as [|r l IH]; intros s Hs; [done|].
  simpl. rewrite foldl_app, IH by auto with aes. simpl.
  by rewrite inv_sub_sub, inv_round by auto with aes.
Qed.

Lemma InvCipher_Cipher rk s : bytes rk -> block s -> InvCipher rk (Cipher rk s) = s.
Proof.
  intros Hk Hs. pose proof (block_key rk 0 s Hk Hs) as H0. unfold InvCipher, Cipher.
  assert (Hr : block (foldl (fun s r => AddRoundKey rk r (MixColumns (ShiftRows (SubBytes s))))
                        (AddRoundKey rk 0 s) (seq 1 (Nr - 1)))).
  { generalize (seq 1 (Nr - 1)). intros l. revert H0. generalize (AddRoundKey rk 0 s).
    induction l; simpl; auto with aes. }
  rewrite AddRoundKey_involutive by (by apply ShiftRows_length, SubBytes_length, Hr).
  rewrite inv_rounds, inv_sub_sub by done. apply AddRoundKey_involutive, Hs.
Qed.

(** For every 16-byte key and block, decrypting an encrypted block gives the block back. *)
Theorem AES128_ECB_roundtrip b k :
  length b = 16%nat -> bytes b -> bytes k ->
  AES128_ECB_decrypt (AES128_ECB_encrypt b k) k = b.
Proof.
  intros H Hb Hk. unfold AES128_ECB_decrypt, AES128_ECB_encrypt, BlockCopy.
  rewrite (take_ge b), take_ge by (rewrite ?(Cipher_length _ _ 16); lia).
  apply InvCipher_Cipher; [by apply KeyExpansion_bytes|done].
Qed.

(** The FIPS-197 appendix C.1 vector, and the round trip on it. *)
Definition fips_key : list Z := seqZ 0 16.
Definition fips_block : list Z := (fun i => i * 17) <$> seqZ 0 16.

Lemma AES128_ECB_roundtrip_witness :
  AES128_ECB_encrypt fips_block fips_key =
    [0x69; 0xc4; 0xe0; 0xd8; 0x6a; 0x7b; 0x04; 0x30; 0xd8; 0xcd; 0xb7; 0x80; 0x70; 0xb4; 0xc5; 0x5a] /\
  AES128_ECB_decrypt (AES128_ECB_encrypt fips_block fips_key) fips_key = fips_block.
Proof.
  split; [vm_compute; reflexivity|].
  apply AES128_ECB_roundtrip; [reflexivity|..]; apply (bool_decide_unpack _); vm_compute; exact I.
Defined.

End Aes.
