(* ===== verification/Cmac.v ===== *)
(** * AES-CMAC (libs2/crypto/aes-cmac/aes_cmac.c)

    The subkey generation, the padding and the block loop of [aes_cmac_calculate], with the
    block counter kept at the [uint8_t] width the source gives it, and [aes_cmac_verify].
    The theorems: the code computes the RFC 4493 function on messages of at most 4080 bytes,
    and past that bound the wrapped block counter drops most of the message. *)
From S2P Require Import Prelude Aes.

Module Cmac.
Section Cmac.
Context {C : BlockCipher}.

Definition xor_128 (a b : list Z) : list Z := take 16 a ⊕ take 16 b.

(** The loop runs from the last byte to the first, carrying [overflow]. *)
Definition leftshift_onebit (input : list Z) : list Z :=
  fst (foldr (fun b '(output, overflow) =>
                (Z.lor (u8 (Z.shiftl b 1)) overflow :: output, if has_bits b 0x80 then 1 else 0))
         ([], 0) input).

Definition const_Zero : list Z := replicate 16 0.
Definition const_Rb : list Z := replicate 15 0 ++ [0x87].

Definition generate_subkey (key : list Z) : list Z * list Z :=
  let L := block_encrypt const_Zero key in
  let K1 := if Z.land (at_ L 0) 0x80 =? 0 then leftshift_onebit L
            else xor_128 (leftshift_onebit L) const_Rb in
  let K2 := if Z.land (at_ K1 0) 0x80 =? 0 then leftshift_onebit K1
            else xor_128 (leftshift_onebit K1) const_Rb in
  (K1, K2).

Definition padding (lastb : list Z) (len : nat) : list Z :=
  (fun j => if Nat.ltb j len then at_ lastb j else if Nat.eqb j len then 0x80 else 0x00) <$> seq 0 16.

(** The loop over the blocks before the last one: [i] from its argument, [n] iterations. *)
Fixpoint cmac_loop (key message : list Z) (i n : nat) (X : list Z) : list Z :=
  match n with
  | O => X
  | S n' =>
      let Y := xor_128 X (drop (16 * i) message) in
      cmac_loop key message (S i) n' (block_encrypt Y key)
  end.

Definition aes_cmac_calculate (key message : list Z) (message_length : Z) : list Z :=
  let '(K1, K2) := generate_subkey key in
  let n0 := u8 ((message_length + 15) `div` 16) in
  let '(n, flag) :=
    if n0 =? 0 then (1, false) else (n0, message_length `mod` 16 =? 0) in
  let last := drop (Z.to_nat (16 * (n - 1))) message in
  let M_last :=
    if flag : bool then xor_128 last K1
    else xor_128 (padding last (Z.to_nat (message_length `mod` 16))) K2 in
  let X := cmac_loop key message 0 (Z.to_nat (n - 1)) (replicate 16 0) in
  block_encrypt (xor_128 X M_last) key.

(** [CMAC_VALID] is [true], [CMAC_INVALID] is [false]. *)
Definition aes_cmac_verify (key message : list Z) (message_length : Z) (mac : list Z) : bool :=
  let calculated_mac := aes_cmac_calculate key message message_length in
  forallb (fun count => at_ mac count =? at_ calculated_mac count) (seq 0 16).

(** ** The reference: RFC 4493 *)

(** Doubling in GF(2^128), on the big-endian value of a block. *)
Definition dbl (L : list Z) : list Z :=
  let v := be_val L in
  be_bytes 16 (Z.lxor ((2 * v) `mod` 2 ^ 128) (if v <? 2 ^ 127 then 0 else 0x87)).

(** The last block: complete with K1, or padded with 10* and K2. *)
Definition last_block (K1 K2 M : list Z) : list Z :=
  if Nat.eqb (length M) 16 then M ⊕ K1
  else (M ++ [0x80] ++ replicate (15 - length M) 0) ⊕ K2.

(** CBC over the message, 16 bytes at a time; [fuel] is a bound on the number of blocks. *)
Fixpoint cmac_chain (fuel : nat) (key K1 K2 X M : list Z) : list Z :=
  match fuel with
  | O => []
  | S fuel' =>
      if Nat.leb (length M) 16 then block_encrypt (X ⊕ last_block K1 K2 M) key
      else cmac_chain fuel' key K1 K2 (block_encrypt (X ⊕ take 16 M) key) (drop 16 M)
  end.

Definition AES_CMAC (key M : list Z) : list Z :=
  let K1 := dbl (block_encrypt (replicate 16 0) key) in
  let K2 := dbl K1 in
  cmac_chain (S (length M)) key K1 K2 (replicate 16 0) M.

(** ** Subkeys *)

Context {HC : BlockCipherOk C}.

Lemma shift_carry b : is_byte b -> (if has_bits b 0x80 then 1 else 0) = (2 * b) `div` 256.
Proof.
  intros H. unfold has_bits.
  assert (Hall : Forall (fun b => (if negb (Z.land b 0x80 =? 0) then 1 else 0) = (2 * b) `div` 256) (seqZ 0 256)).
  { apply (bool_decide_unpack _). vm_compute. exact I. }
  rewrite list.Forall_forall in Hall. apply Hall, elem_of_seqZ. unfold is_byte in H. lia.
Qed.

Lemma shift_byte b ov :
  is_byte b -> ov = 0 \/ ov = 1 -> Z.lor (u8 (Z.shiftl b 1)) ov = (2 * b) `mod` 256 + ov.
Proof.
  intros H Ho.
  assert (Hall : Forall (fun b => Z.lor (u8 (Z.shiftl b 1)) 0 = (2 * b) `mod` 256 + 0 /\
                                  Z.lor (u8 (Z.shiftl b 1)) 1 = (2 * b) `mod` 256 + 1) (seqZ 0 256)).
  { apply (bool_decide_unpack _). vm_compute. exact I. }
  rewrite list.Forall_forall in Hall. destruct (Hall b) as [H0 H1].
  { apply elem_of_seqZ. unfold is_byte in H. lia. }
  by destruct Ho as [-> | ->].
Qed.

(** The shift loop computes [2*v mod 256^n] and leaves the carry in [overflow]. *)
Lemma leftshift_spec l :
  bytes l ->
  let r := foldr (fun b '(output, overflow) =>
             (Z.lor (u8 (Z.shiftl b 1)) overflow :: output, if has_bits b 0x80 then 1 else 0)) ([], 0) l in
  length r.1 = length l /\ bytes r.1 /\ (r.2 = 0 \/ r.2 = 1) /\
  r.2 * 256 ^ Z.of_nat (length l) + be_val r.1 = 2 * be_val l.
Proof.
  induction l as [|b l IH]; intros Hl; [simpl; auto with zw|].
  apply bytes_cons_inv in Hl as [Hb Hl]. specialize (IH Hl). simpl in *.
  destruct (foldr _ _ l) as [out ov]. simpl in *. destruct IH as (Hlen & Hby & Hov & Hval).
  rewrite shift_carry, shift_byte by done. unfold is_byte in Hb.
  pose proof (Z.div_mod (2 * b) 256). pose proof (Z.mod_pos_bound (2 * b) 256).
  split; [congruence|]. split.
  { apply bytes_cons; [|done]. unfold is_byte.
    assert ((2 * b) `mod` 256 <= 254); [|lia].
    pose proof (Z.mod_pos_bound (2 * b) 256).
    enough ((2 * b) `mod` 256 <> 255) by lia.
    intros E. pose proof (Z.div_mod (2 * b) 256). lia. }
  split; [lia|].
  rewrite !be_val_cons, pow256_succ, Hlen. pose proof (pow256_pos (length l)). nia.
Qed.

Lemma dbl_code L :
  length L = 16%nat -> bytes L ->
  (if Z.land (at_ L 0) 0x80 =? 0 then leftshift_onebit L
   else xor_128 (leftshift_onebit L) const_Rb) = dbl L.
Proof.
  intros Hlen HL. pose proof (leftshift_spec L HL) as (Hl1 & Hb1 & Hov & Hval).
  fold (leftshift_onebit L) in Hl1, Hb1, Hval.
  assert (Hb : bytes const_Rb) by (apply (bool_decide_unpack _); vm_compute; exact I).
  set (S := leftshift_onebit L) in *.
  assert (HS : be_val S = (2 * be_val L) `mod` 2 ^ 128).
  { rewrite Hlen in Hval. change (256 ^ Z.of_nat 16) with (2 ^ 128) in Hval.
    rewrite <- Hval, Z.add_comm, Z.mod_add by done. rewrite Z.mod_small; [done|].
    pose proof (be_val_bound S Hb1) as Hs. by rewrite Hl1, Hlen in Hs. }
  assert (Hmsb : (Z.land (at_ L 0) 0x80 =? 0) = (be_val L <? 2 ^ 127)).
  { destruct L as [|b L]; [discriminate|]. unfold at_. simpl.
    apply bytes_cons_inv in HL as [Hbb HL].
    pose proof (shift_carry b Hbb) as Hc. unfold has_bits in Hc.
    rewrite be_val_cons. injection Hlen as Hlen.
    pose proof (be_val_bound L HL) as Hv. rewrite Hlen in *.
    change (256 ^ Z.of_nat 15) with (2 ^ 120) in *. unfold is_byte in Hbb.
    destruct (Z.land b 128 =? 0); simpl in Hc; symmetry; [apply Z.ltb_lt | apply Z.ltb_ge];
      pose proof (Z.div_mod (2 * b) 256); pose proof (Z.mod_pos_bound (2 * b) 256);
      change (2 ^ 127) with (128 * 2 ^ 120); nia. }
  unfold dbl. rewrite <- HS, Hmsb.
  destruct (be_val L <? 2 ^ 127).
  - rewrite Z.lxor_0_r, <- Hlen, <- Hl1. symmetry. by apply be_bytes_val.
  - unfold xor_128. rewrite !take_ge by (rewrite ?Hl1; lia || done).
    change 135 with (be_val const_Rb). assert (HlS : length S = 16%nat) by congruence.
    rewrite <- be_val_xor by done.
    rewrite <- (be_bytes_val (S ⊕ const_Rb)) at 1 by auto with zw.
    by rewrite length_xor_same, HlS.
Qed.

Lemma dbl_block L : length (dbl L) = 16%nat /\ bytes (dbl L).
Proof. split; [apply be_bytes_length|apply be_bytes_bytes]. Qed.
Lemma subkeys key :
  length key = 16%nat -> bytes key ->
  generate_subkey key =
    (dbl (block_encrypt (replicate 16 0) key), dbl (dbl (block_encrypt (replicate 16 0) key))).
Proof.
  intros Hl Hb. unfold generate_subkey, const_Zero.
  rewrite dbl_code, dbl_code; [done|apply dbl_block|apply dbl_block|..].
  - by apply block_length.
  - apply block_bytes; auto with zw.
Qed.

(** ** The block loop *)

Lemma padding_spec M :
  (length M < 16)%nat -> padding M (length M) = M ++ [0x80] ++ replicate (15 - length M) 0.
Proof. intros H. do 16 (destruct M as [|? M]; [reflexivity|]). simpl in H. lia. Qed.

Lemma last_block_length K1 K2 M :
  length K1 = 16%nat -> length K2 = 16%nat -> (length M <= 16)%nat ->
  length (last_block K1 K2 M) = 16%nat.
Proof.
  intros H1 H2 HM. unfold last_block. destruct (Nat.eqb_spec (length M) 16).
  - rewrite length_xor. lia.
  - rewrite length_xor, !length_app, length_replicate. simpl. lia.
Qed.

(** The loop of the code, from block [i] on, is the reference chain on the rest of the message. *)
Lemma loop_chain key K1 K2 m n : forall i X fuel,
  length K1 = 16%nat -> length K2 = 16%nat -> length X = 16%nat -> (n < fuel)%nat ->
  (n = 0%nat \/ (16 * (i + n) < length m)%nat) -> (length m <= 16 * (i + n + 1))%nat ->
  block_encrypt (cmac_loop key m i n X ⊕ last_block K1 K2 (drop (16 * (i + n)) m)) key =
  cmac_chain fuel key K1 K2 X (drop (16 * i) m).
Proof.
  induction n as [|n IH]; intros i X fuel H1 H2 HX Hf Hlt Hle; (destruct fuel as [|fuel]; [lia|]).
  - cbn [cmac_loop cmac_chain]. rewrite Nat.add_0_r. replace (length _ <=? 16)%nat with true; [done|].
    symmetry. apply Nat.leb_le. rewrite length_drop. lia.
  - cbn [cmac_chain]. replace (length _ <=? 16)%nat with false.
    2:{ symmetry. apply Nat.leb_gt. rewrite length_drop. lia. }
    rewrite drop_drop. replace (16 * i + 16)%nat with (16 * S i)%nat by lia.
    rewrite <- IH; try done; try lia.
    + cbn [cmac_loop]. unfold xor_128. rewrite (take_ge X) by lia.
      by replace (i + S n)%nat with (S i + n)%nat by lia.
    + apply block_length. rewrite length_xor, length_take, length_drop. lia.
Qed.

Lemma cmac_loop_length key m n : forall i X,
  length X = 16%nat -> (16 * (i + n) <= length m)%nat -> length (cmac_loop key m i n X) = 16%nat.
Proof.
  induction n as [|n IH]; intros i X HX Hm; [done|]. simpl. apply IH; [|lia].
  apply block_length. unfold xor_128. rewrite length_xor, !length_take, length_drop. lia.
Qed.

(** What the code computes from the block count [n] and the [flag] it derives. *)
Lemma cmac_from_blocks key K1 K2 (m : list Z) n (flag : bool) :
  length K1 = 16%nat -> length K2 = 16%nat -> (0 < n)%nat ->
  (n = 1%nat \/ (16 * (n - 1) < length m)%nat) -> (length m <= 16 * n)%nat ->
  flag = Nat.eqb (length m) (16 * n) ->
  let last := drop (16 * (n - 1)) m in
  block_encrypt (xor_128 (cmac_loop key m 0 (n - 1) (replicate 16 0))
    (if flag then xor_128 last K1 else xor_128 (padding last (length last)) K2)) key =
  cmac_chain (S (length m)) key K1 K2 (replicate 16 0) m.
Proof.
  intros H1 H2 Hn Hlt Hle Hflag last.
  pose proof (loop_chain key K1 K2 m (n - 1) 0 (replicate 16 0) (S (length m))) as HL.
  rewrite Nat.mul_0_r, drop_0 in HL. rewrite <- HL; try done; try lia.
  rewrite Nat.add_0_l. fold last.
  assert (Hlast : length last = (length m - 16 * (n - 1))%nat) by apply length_drop.
  unfold xor_128 at 1. rewrite (take_ge (cmac_loop _ _ _ _ _)).
  2:{ rewrite cmac_loop_length; [done|done|]. lia. }
  do 2 f_equal. unfold last_block.
  destruct (Nat.eqb_spec (length m) (16 * n)) as [E|E]; subst flag.
  - replace (length last =? 16)%nat with true by (symmetry; apply Nat.eqb_eq; lia).
    unfold xor_128. rewrite (take_ge last), (take_ge K1) by lia.
    apply take_ge. rewrite length_xor. lia.
  - replace (length last =? 16)%nat with false by (symmetry; apply Nat.eqb_neq; lia).
    rewrite padding_spec by lia. unfold xor_128. rewrite (take_ge K2) by lia.
    rewrite (take_ge (last ++ _)) by (rewrite !length_app, length_replicate; simpl; lia).
    apply take_ge. rewrite length_xor. lia.
Qed.

(** The block count and the flag, as the code computes them, for a message that fits. *)
Lemma cmac_counts (len : nat) :
  (len <= 4080)%nat ->
  exists n, (0 < n)%nat /\ (n = 1%nat \/ (16 * (n - 1) < len)%nat) /\ (len <= 16 * n)%nat /\
  (if u8 ((Z.of_nat len + 15) `div` 16) =? 0 then (1, false)
   else (u8 ((Z.of_nat len + 15) `div` 16), Z.of_nat len `mod` 16 =? 0)) =
  (Z.of_nat n, Nat.eqb len (16 * n)).
Proof.
  intros H. set (q := (Z.of_nat len + 15) `div` 16).
  assert (Hq : 16 * q <= Z.of_nat len + 15 < 16 * q + 16).
  { pose proof (Z.div_mod (Z.of_nat len + 15) 16). pose proof (Z.mod_pos_bound (Z.of_nat len + 15) 16).
    lia. }
  rewrite u8_small by lia. destruct (Z.eqb_spec q 0) as [E|E].
  - exists 1%nat. repeat split; try lia. f_equal. symmetry. apply Nat.eqb_neq. lia.
  - exists (Z.to_nat q). repeat split; try lia. f_equal; [lia|].
    pose proof (Z.div_mod (Z.of_nat len) 16). pose proof (Z.mod_pos_bound (Z.of_nat len) 16).
    destruct (Z.eqb_spec (Z.of_nat len `mod` 16) 0), (Nat.eqb_spec len (16 * Z.to_nat q)); lia.
Qed.

Lemma cmac_correct key m :
  length key = 16%nat -> bytes key -> (length m <= 4080)%nat ->
  aes_cmac_calculate key m (Z.of_nat (length m)) = AES_CMAC key m.
Proof.
  intros Hk Hb Hm. unfold aes_cmac_calculate. rewrite subkeys by done.
  destruct (cmac_counts (length m) Hm) as (n & Hn & Hlt & Hle & E). rewrite E.
  replace (Z.to_nat (16 * (Z.of_nat n - 1))) with (16 * (n - 1))%nat by lia.
  replace (Z.to_nat (Z.of_nat n - 1)) with (n - 1)%nat by lia.
  unfold AES_CMAC. rewrite <- (cmac_from_blocks _ _ _ m n (Nat.eqb (length m) (16 * n)));
    try apply dbl_block; try done.
  do 2 f_equal. destruct (Nat.eqb_spec (length m) (16 * n)) as [|Hne]; [done|].
  do 2 f_equal. rewrite length_drop.
  replace (Z.of_nat (length m)) with (Z.of_nat (length m - 16 * (n - 1)) + Z.of_nat (n - 1) * 16) by lia.
  rewrite Z.mod_add, Z.mod_small by lia. lia.
Qed.

Lemma cmac_chain_block key K1 K2 n : forall X M,
  length X = 16%nat -> bytes X -> length K1 = 16%nat -> bytes K1 -> length K2 = 16%nat -> bytes K2 ->
  length key = 16%nat -> bytes key -> bytes M -> (length M < n)%nat ->
  length (cmac_chain n key K1 K2 X M) = 16%nat /\ bytes (cmac_chain n key K1 K2 X M).
Proof.
  induction n as [|n IH]; intros X M HX HXb H1 H1b H2 H2b Hk Hkb HM Hn; [lia|].
  cbn [cmac_chain]. destruct (Nat.leb_spec (length M) 16) as [Hle|Hgt].
  - assert (HL : length (last_block K1 K2 M) = 16%nat) by (by apply last_block_length).
    assert (bytes (last_block K1 K2 M)).
    { unfold last_block. destruct (length M =? 16)%nat; [by apply bytes_xor|].
      apply bytes_xor; [|done]. apply bytes_app. split; [done|].
      apply bytes_app. split; [by repeat constructor|by apply bytes_replicate]. }
    split; [apply block_length|apply block_bytes; auto with zw]; rewrite length_xor; lia.
  - assert (HL : length (X ⊕ take 16 M) = 16%nat) by (rewrite length_xor, length_take; lia).
    apply IH; auto with zw; [by apply block_length|by apply block_bytes; auto with zw|].
    rewrite length_drop. lia.
Qed.

(** A MAC is a 16-byte block. *)
Lemma AES_CMAC_block key m :
  length key = 16%nat -> bytes key -> bytes m ->
  length (AES_CMAC key m) = 16%nat /\ bytes (AES_CMAC key m).
Proof.
  intros. unfold AES_CMAC.
  apply cmac_chain_block; try apply dbl_block; auto with zw; try lia.
Qed.

(** C37: CMAC: for every key and message of at most 4080 bytes, the code computes AES-CMAC as RFC 4493
    defines it (subkeys by doubling in GF(2^128), 10* padding, CBC chain). *)
Theorem aes_cmac_calculate_rfc4493 key m :
  length key = 16%nat -> bytes key -> (length m <= 4080)%nat ->
  aes_cmac_calculate key m (Z.of_nat (length m)) = AES_CMAC key m.
Proof. apply cmac_correct. Qed.

(** Past 4080 bytes the block counter wraps to 0: the MAC covers only the first
    [length m mod 16] bytes of the message. *)
Theorem aes_cmac_calculate_wraps key m :
  length key = 16%nat -> bytes key -> (4081 <= length m <= 4096)%nat ->
  aes_cmac_calculate key m (Z.of_nat (length m)) =
  AES_CMAC key (take (length m `mod` 16)%nat m).
Proof.
  intros Hk Hb Hm. set (r := (length m `mod` 16)%nat).
  assert (Hr : (r < 16)%nat) by (apply Nat.mod_upper_bound; lia).
  assert (Htr : length (take r m) = r) by (rewrite length_take; lia).
  rewrite <- cmac_correct by (rewrite ?Htr; lia || done).
  unfold aes_cmac_calculate. rewrite subkeys by done. rewrite Htr.
  assert ((Z.of_nat (length m) + 15) `div` 16 = 256) as ->.
  { symmetry. apply Z.div_unique with ((Z.of_nat (length m) + 15) - 16 * 256); lia. }
  change (u8 256 =? 0) with true. cbv iota.
  assert (Hmod : Z.of_nat (length m) `mod` 16 = Z.of_nat r).
  { unfold r. by rewrite Nat2Z.inj_mod. }
  rewrite Hmod.
  assert (Hpad : padding m r = padding (take r m) r).
  { unfold padding. apply map_ext_in. intros j Hj. destruct (Nat.ltb_spec j r); [|done].
    unfold at_. by rewrite lookup_take_lt by lia. }
  destruct (Z.eqb_spec (u8 ((Z.of_nat r + 15) `div` 16)) 0) as [E0|E0].
  - simpl. rewrite Nat2Z.id, drop_0, Hpad, Z.mod_small, Nat2Z.id, drop_0 by lia. done.
  - assert (u8 ((Z.of_nat r + 15) `div` 16) = 1) as E1.
    { assert (0 <= (Z.of_nat r + 15) `div` 16 < 2).
      { split; [apply Z.div_pos; lia|apply Z.div_lt_upper_bound; lia]. }
      rewrite u8_small in * by lia. lia. }
    rewrite E1, Z.mod_small by lia.
    destruct (Z.eqb_spec (Z.of_nat r) 0) as [Er|]; [|].
    { exfalso. rewrite Er in E1. done. }
    simpl. by rewrite Nat2Z.id, !drop_0, Hpad.
Qed.

(** Verification accepts exactly the MAC the calculation gives. *)
Theorem aes_cmac_verify_correct key m len mac :
  length mac = 16%nat -> length (aes_cmac_calculate key m len) = 16%nat ->
  aes_cmac_verify key m len mac = true <-> mac = aes_cmac_calculate key m len.
Proof.
  intros H1 H2. unfold aes_cmac_verify. rewrite forallb_forall. split; [|intros -> x _; apply Z.eqb_refl].
  intros H. apply list_eq_same_length with 16%nat; [done|done|].
  intros i x y Hi Hx Hy. specialize (H i). rewrite in_seq in H. apply Z.eqb_eq in H; [|lia].
  unfold at_ in H. by rewrite Hx, Hy in H.
Qed.
End Cmac.

(** ** Witnesses: the RFC 4493 example key *)

Definition rfc_key : list Z :=
  [0x2b; 0x7e; 0x15; 0x16; 0x28; 0xae; 0xd2; 0xa6; 0xab; 0xf7; 0x15; 0x88; 0x09; 0xcf; 0x4f; 0x3c].
Definition rfc_message : list Z :=
  [0x6b; 0xc1; 0xbe; 0xe2; 0x2e; 0x40; 0x9f; 0x96; 0xe9; 0x3d; 0x7e; 0x11; 0x73; 0x93; 0x17; 0x2a;
   0xae; 0x2d; 0x8a; 0x57; 0x1e; 0x03; 0xac; 0x9c; 0x9e; 0xb7; 0x6f; 0xac; 0x45; 0xaf; 0x8e; 0x51;
   0x30; 0xc8; 0x1c; 0x46; 0xa3; 0x5c; 0xe4; 0x11].

Lemma aes_cmac_calculate_rfc4493_witness :
  aes_cmac_calculate rfc_key rfc_message 40 = AES_CMAC rfc_key rfc_message /\
  AES_CMAC rfc_key rfc_message =
    [0xdf; 0xa6; 0x67; 0x47; 0xde; 0x9a; 0xe6; 0x30; 0x30; 0xca; 0x32; 0x61; 0x14; 0x97; 0xc8; 0x27].
Proof.
  split; [|vm_compute; reflexivity].
  apply (aes_cmac_calculate_rfc4493 rfc_key rfc_message);
    [reflexivity|apply (bool_decide_unpack _); vm_compute; exact I|simpl; lia].
Defined.

Lemma aes_cmac_calculate_wraps_witness :
  aes_cmac_calculate rfc_key (replicate 4081 7) 4081 = AES_CMAC rfc_key [7] /\
  AES_CMAC rfc_key [7] <> AES_CMAC rfc_key (replicate 4081 7).
Proof.
  split; [|vm_compute; discriminate].
  apply (aes_cmac_calculate_wraps rfc_key (replicate 4081 7));
    [reflexivity|apply (bool_decide_unpack _); vm_compute; exact I|rewrite length_replicate; lia].
Defined.

Lemma aes_cmac_verify_correct_witness :
  aes_cmac_verify rfc_key rfc_message 40 (AES_CMAC rfc_key rfc_message) = true <->
  AES_CMAC rfc_key rfc_message = aes_cmac_calculate rfc_key rfc_message 40.
Proof. apply aes_cmac_verify_correct; vm_compute; reflexivity. Defined.
End Cmac.
