(* ===== verification/Ccm.v ===== *)
(** * AES-CCM (libs2/crypto/ccm/ccm.c)

    [CCM_encrypt_and_auth] and [CCM_decrypt_and_auth] with the predefined parameters of the
    build (q = 2, n = 13, t = 8): block formatting, the CBC-MAC loops, the counter loop that
    works in place on the buffer.  The theorems: encryption computes the NIST SP 800-38C function
    for associated data of 1 to 255 bytes, decryption accepts exactly the frames whose tag is the
    one the reference gives, and decryption undoes encryption. *)
From S2P Require Import Prelude Aes.

Module Ccm.

Definition q : nat := 2.
Definition n : nat := 13.
Definition t : nat := 8.
Definition BLOCK_SIZE : nat := 16.

Section Ccm.
Context {C : BlockCipher}.

Definition convert_to_octet_string (text_to_encrypt_len : Z) (q : nat) : list Z :=
  replicate (q - 2) 0 ++
  [Z.shiftr (Z.land text_to_encrypt_len 0xff00) 8; Z.land text_to_encrypt_len 0x00ff].

Definition format_b0 (t : nat) (text_to_encrypt_len : Z) (nonce : list Z) : list Z :=
  let b := Z.lor 0 0x40 in
  let b := Z.lor b (Z.shiftl (Z.land ((Z.of_nat t - 2) `div` 2) 0x7) 3) in
  let b := Z.lor b (Z.land (Z.of_nat q - 1) 0x7) in
  b :: take n nonce ++ convert_to_octet_string text_to_encrypt_len q.

(** [bit_xor(blocks[1], blocks[0], BLOCK_SIZE); ciph_block(blocks[0], key)]. *)
Definition cbc_step (key block1 block0 : list Z) : list Z := block_encrypt (block1 ⊕ block0) key.

(** The loop over the 16-byte blocks of [data], the last one zero-padded when [len] is no multiple
    of the block size; [nb] blocks are left, starting at [offset]. *)
Fixpoint block_loop (key data : list Z) (len offset nb : nat) (block0 : list Z) : list Z :=
  match nb with
  | O => block0
  | S nb' =>
      if Nat.eqb nb' 0 && negb (Nat.eqb (len `mod` BLOCK_SIZE) 0) then
        cbc_step key (sub offset (len `mod` BLOCK_SIZE) data ++
                      replicate (BLOCK_SIZE - len `mod` BLOCK_SIZE) 0) block0
      else
        block_loop key data len (offset + BLOCK_SIZE) nb'
          (cbc_step key (sub offset BLOCK_SIZE data) block0)
  end.

(** Number of blocks of [len] bytes. *)
Definition no_of_blocks (len : nat) : nat :=
  (len `div` BLOCK_SIZE + if Nat.eqb (len `mod` BLOCK_SIZE) 0 then 0 else 1)%nat.

(** The header of the first AAD block and the number of AAD bytes that fit in it; [None] is the
    unsupported length. *)
Definition aad_header (aad_len : Z) : option (list Z * nat) :=
  if aad_len <? 65280 then Some ([0x0; u8 aad_len], 14%nat)
  else if aad_len <=? 0xffffffff then Some ([0xff; 0xfe; 0; 1; 0; 0], 10%nat)
  else None.

Definition format_aad (block0 aad key : list Z) : option (list Z) :=
  let aad_len := length aad in
  match aad_header (Z.of_nat aad_len) with
  | None => None
  | Some (hdr, aad_bytes_in_first_block) =>
      let block1 := hdr ++ take (aad_len `min` aad_bytes_in_first_block) aad in
      if Nat.ltb aad_len aad_bytes_in_first_block then
        Some (cbc_step key (block1 ++ replicate (aad_bytes_in_first_block - aad_len) 0) block0)
      else
        let block0 := cbc_step key block1 block0 in
        if Nat.ltb aad_bytes_in_first_block aad_len then
          let new_aad_len := (aad_len - aad_bytes_in_first_block)%nat in
          Some (block_loop key aad new_aad_len aad_bytes_in_first_block
                  (no_of_blocks new_aad_len) block0)
        else Some block0
  end.

Definition format_payload_block (block0 P key : list Z) : list Z :=
  block_loop key P (length P) 0 (no_of_blocks (length P)) block0.

(** The counter block [i] before encryption. *)
Definition ctr_block (nonce : list Z) (i : Z) : list Z :=
  Z.land (Z.of_nat q - 1) 0x7 :: take n nonce ++ [Z.shiftr (Z.land i 0xff00) 8; Z.land i 0xff].

(** [bit_xor(block, &data[off], size)]. *)
Definition bit_xor (block data : list Z) (off size : nat) : list Z :=
  splice off (take size block ⊕ sub off size data) data.

(** Iterations [i >= 1] of the counter loop: [m] of them are left, [len] is the local [length]. *)
Fixpoint ctr_loop (key nonce : list Z) (i m : nat) (len : Z) (data : list Z) : list Z :=
  match m with
  | O => data
  | S m' =>
      let ctr := block_encrypt (ctr_block nonce (Z.of_nat i)) key in
      let size := if Z.of_nat BLOCK_SIZE <=? len then BLOCK_SIZE else Z.to_nat len in
      ctr_loop key nonce (S i) m' (u16 (len - Z.of_nat BLOCK_SIZE))
        (bit_xor ctr data ((i - 1) * BLOCK_SIZE) size)
  end.

Inductive mode := ENCRYPT | DECRYPT.

(** Returns the processed data and the block the first counter block went into: the encrypted MAC
    when encrypting, the counter block itself when decrypting. *)
Definition encrypt_or_decrypt (data : list Z) (num_ctr_blks : nat) (nonce : list Z) (mac_len : nat)
    (key mac : list Z) (md : mode) : list Z * list Z :=
  match num_ctr_blks with
  | O => (data, mac)
  | S m =>
      let ctr := block_encrypt (ctr_block nonce 0) key in
      let block := match md with ENCRYPT => bit_xor ctr mac 0 mac_len | DECRYPT => ctr end in
      (ctr_loop key nonce 1 m (u16 (Z.of_nat (length data))) data, block)
  end.

(** The ciphertext followed by the tag; [None] is the return value 0 for unsupported AAD. *)
Definition CCM_encrypt_and_auth (key nonce aad plain : list Z) : option (list Z) :=
  let mac_len := t in
  let counter_blocks := (length plain `div` BLOCK_SIZE + 1 +
                         if Nat.eqb (length plain `mod` BLOCK_SIZE) 0 then 0 else 1)%nat in
  let block0 := block_encrypt (format_b0 mac_len (Z.of_nat (length plain)) nonce) key in
  match format_aad block0 aad key with
  | None => None
  | Some block0 =>
      let block0 := format_payload_block block0 plain key in
      let '(cipher, mac) := encrypt_or_decrypt plain counter_blocks nonce mac_len key block0 ENCRYPT in
      Some (cipher ++ take mac_len mac)
  end.

(** The return value (0: rejected) and the buffer, which is decrypted in place either way. *)
Definition CCM_decrypt_and_auth (key nonce aad buf : list Z) : nat * list Z :=
  if Nat.ltb (length buf) t then (0%nat, buf)
  else
    let len := (length buf - t)%nat in
    let num_counter_blocks := (len `div` BLOCK_SIZE + 1 +
                               if Nat.eqb (len `mod` BLOCK_SIZE) 0 then 0 else 1)%nat in
    let '(data, block) := encrypt_or_decrypt (take len buf) num_counter_blocks nonce t key [] DECRYPT in
    let mac := take t (drop len buf) ⊕ take t block in
    let buf' := data ++ drop len buf in
    let block0 := block_encrypt (format_b0 t (Z.of_nat len) nonce) key in
    match format_aad block0 aad key with
    | None => (0%nat, buf')
    | Some block0 =>
        let block0 := format_payload_block block0 data key in
        if bool_decide (take t block0 = mac) then (len, buf') else (0%nat, buf')
    end.

(** ** The reference: NIST SP 800-38C *)

(** CBC-MAC over [k] blocks of [l], from the chaining value [X]. *)
Fixpoint cbc (key : list Z) (k : nat) (X l : list Z) : list Z :=
  match k with
  | O => X
  | S k' => cbc key k' (block_encrypt (take 16 l ⊕ X) key) (drop 16 l)
  end.

(** Zero padding to a multiple of 16 bytes. *)
Definition pad16 (l : list Z) : list Z := l ++ replicate ((16 - length l `mod` 16) `mod` 16) 0.

(** The formatted input B of section A.2: the block B0, the encoded associated data [A], the
    payload. *)
Definition ccm_B (nonce A plain : list Z) : list Z :=
  let p := Z.of_nat (length plain) in
  (0x40 + 8 * ((8 - 2) `div` 2) + (2 - 1) :: take 13 nonce ++ [p `div` 256; p `mod` 256]) ++
  pad16 A ++ pad16 plain.

(** The encoding of associated data of 1 to 65279 bytes (section A.2.2). *)
Definition ccm_A (aad : list Z) : list Z :=
  let a := Z.of_nat (length aad) in [a `div` 256; a `mod` 256] ++ aad.

(** The encoding the code uses: the low byte of the length only. *)
Definition ccm_A8 (aad : list Z) : list Z := [0; u8 (Z.of_nat (length aad))] ++ aad.

Definition ccm_T (key nonce A plain : list Z) : list Z :=
  let B := ccm_B nonce A plain in
  take 8 (cbc key (length B `div` 16) (replicate 16 0) B).

(** Counter block [j] of section A.3 and the key stream of blocks [i .. i+m-1]. *)
Definition ccm_ctr (nonce : list Z) (j : nat) : list Z :=
  (2 - 1) :: take 13 nonce ++ [Z.of_nat j `div` 256; Z.of_nat j `mod` 256].

Definition keystream (key nonce : list Z) (i m : nat) : list Z :=
  concat ((fun j => block_encrypt (ccm_ctr nonce j) key) <$> seq i m).

(** Payload under the key stream, and the tag. *)
Definition ccm_payload (key nonce P : list Z) : list Z :=
  keystream key nonce 1 (no_of_blocks (length P)) ⊕ P.

Definition ccm_tag (key nonce A plain : list Z) : list Z :=
  take 8 (keystream key nonce 0 1) ⊕ ccm_T key nonce A plain.

Definition ccm_encrypt (key nonce A plain : list Z) : list Z :=
  ccm_payload key nonce plain ++ ccm_tag key nonce A plain.

(** ** The CBC loops *)

Context {HC : BlockCipherOk C}.

Lemma cbc_app key j k X a b :
  length a = (16 * j)%nat -> cbc key (j + k) X (a ++ b) = cbc key k (cbc key j X a) b.
Proof.
  revert X a. induction j as [|j IH]; intros X a Ha; simpl.
  - destruct a; [done|discriminate].
  - rewrite take_app_le, drop_app_le by lia. apply IH. rewrite length_drop. lia.
Qed.

Lemma cbc_length key k : forall X l, length X = 16%nat -> length l = (16 * k)%nat ->
  length (cbc key k X l) = 16%nat.
Proof.
  induction k as [|k IH]; intros X l HX Hl; [done|]. cbn [cbc]. apply IH.
  - apply block_length. rewrite length_xor, length_take. lia.
  - rewrite length_drop. lia.
Qed.

Lemma no_of_blocks_bounds len :
  (len <= 16 * no_of_blocks len)%nat /\ (16 * no_of_blocks len < len + 16)%nat.
Proof.
  unfold no_of_blocks, BLOCK_SIZE. pose proof (Nat.div_mod_eq len 16).
  pose proof (Nat.mod_upper_bound len 16 ltac:(lia)).
  destruct (Nat.eqb_spec (len `mod` 16) 0); lia.
Qed.

Lemma no_of_blocks_unique len k :
  (len <= 16 * k)%nat -> (16 * k < len + 16)%nat -> no_of_blocks len = k.
Proof. pose proof (no_of_blocks_bounds len). lia. Qed.

Lemma pad16_length l : length (pad16 l) = (16 * no_of_blocks (length l))%nat.
Proof.
  unfold pad16, no_of_blocks, BLOCK_SIZE. rewrite length_app, length_replicate.
  pose proof (Nat.div_mod_eq (length l) 16). pose proof (Nat.mod_upper_bound (length l) 16 ltac:(lia)).
  destruct (Nat.eqb_spec (length l `mod` 16) 0) as [E|E].
  - rewrite E. change ((16 - 0) `mod` 16)%nat with 0%nat. lia.
  - rewrite Nat.mod_small by lia. lia.
Qed.

Lemma pad16_full a b : length a = 16%nat -> pad16 (a ++ b) = a ++ pad16 b.
Proof.
  intros Ha. unfold pad16. rewrite <- app_assoc, length_app, Ha.
  replace (16 + length b)%nat with (length b + 1 * 16)%nat by lia.
  by rewrite Nat.Div0.mod_add.
Qed.

Lemma mod_sub_16 r : (16 <= r)%nat -> ((r - 16) `mod` 16 = r `mod` 16)%nat.
Proof.
  intros. replace r with ((r - 16) + 1 * 16)%nat at 2 by lia. by rewrite Nat.Div0.mod_add.
Qed.

(** The block loop is CBC-MAC over the zero-padded rest of the data. *)
Lemma block_loop_cbc key data len nb : forall offset X,
  (offset <= length data)%nat -> nb = no_of_blocks (length data - offset) ->
  (len `mod` 16 = (length data - offset) `mod` 16)%nat ->
  block_loop key data len offset nb X = cbc key nb X (pad16 (drop offset data)).
Proof.
  induction nb as [|nb IH]; intros offset X Ho Hnb Hmod; [done|].
  pose proof (no_of_blocks_bounds (length data - offset)) as [Hb1 Hb2].
  rewrite <- Hnb in Hb1, Hb2. cbn [block_loop]. unfold BLOCK_SIZE. rewrite Hmod.
  set (r := (length data - offset)%nat) in *.
  assert (Hr : length (drop offset data) = r) by apply length_drop.
  destruct (Nat.eqb_spec nb 0) as [Hz|Hz], (Nat.eqb_spec (r `mod` 16) 0) as [Hm|Hm];
    cbn [negb andb].
  2:{ (* the short last block *)
      subst nb. assert (r < 16)%nat.
      { destruct (decide (r = 16)%nat) as [E|]; [|lia]. rewrite E in Hm. done. }
      rewrite (Nat.mod_small r 16) by lia. cbn [cbc]. unfold cbc_step. do 2 f_equal.
      rewrite take_ge by (rewrite pad16_length, Hr; lia).
      unfold pad16. rewrite Hr, (Nat.mod_small r) by lia.
      rewrite Nat.mod_small by lia. f_equal. unfold sub. by rewrite take_ge by lia. }
  all: assert (16 <= r)%nat by
    (destruct (decide (r < 16)%nat); [|lia]; rewrite ?Nat.mod_small in * by lia; lia).
  all: assert (Hsplit : drop offset data = sub offset 16 data ++ drop (offset + 16) data)
    by (unfold sub; rewrite <- drop_drop; by rewrite take_drop).
  all: assert (Hs : length (sub offset 16 data) = 16%nat) by (apply length_sub; lia).
  all: rewrite Hsplit, pad16_full by done; cbn [cbc];
    rewrite take_app_length', drop_app_length' by done;
    replace (length data - (offset + 16))%nat with (r - 16)%nat in * by lia;
    rewrite IH; [done|lia| |]; replace (length data - (offset + 16))%nat with (r - 16)%nat by lia.
  all: try (by rewrite mod_sub_16).
  all: symmetry; apply no_of_blocks_unique; lia.
Qed.

(** The encoded associated data, as the code writes its length: one byte, wrapped. *)
Lemma format_aad_cbc key X aad :
  Z.of_nat (length aad) < 65280 ->
  format_aad X aad key = Some (cbc key (no_of_blocks (length (ccm_A8 aad))) X (pad16 (ccm_A8 aad))).
Proof.
  set (A := ccm_A8 aad). intros Ha. unfold format_aad, aad_header.
  replace (Z.of_nat (length aad) <? 65280) with true by (symmetry; by apply Z.ltb_lt).
  destruct (Nat.ltb_spec (length aad) 14).
  - rewrite Nat.min_l, take_ge by lia. f_equal.
    assert (HA : length A = (2 + length aad)%nat) by done.
    assert (HP : length (pad16 A) = 16%nat)
      by (rewrite pad16_length, (no_of_blocks_unique _ 1); lia).
    rewrite (no_of_blocks_unique _ 1) by lia. cbn [cbc]. unfold cbc_step.
    rewrite take_ge by lia. do 2 f_equal.
    unfold pad16. rewrite HA, (Nat.mod_small (2 + length aad) 16) by lia. rewrite (Nat.mod_small (16 - _) 16) by lia. f_equal.
  - rewrite Nat.min_r by lia.
    assert (HA : A = ([0; u8 (Z.of_nat (length aad))] ++ take 14 aad) ++ drop 14 aad)
      by (unfold A, ccm_A8; by rewrite <- app_assoc, take_drop).
    assert (Hl : length ([0; u8 (Z.of_nat (length aad))] ++ take 14 aad) = 16%nat)
      by (simpl; rewrite length_take; lia).
    rewrite HA, pad16_full by done.
    rewrite (length_app _ (drop 14 aad)), Hl, length_drop.
    rewrite (no_of_blocks_unique (16 + (length aad - 14)) (1 + no_of_blocks (length aad - 14)))
      by (pose proof (no_of_blocks_bounds (length aad - 14)); lia).
    rewrite cbc_app by done. cbn [cbc]. rewrite (take_ge (_ ++ _) 16) by lia. unfold cbc_step.
    destruct (Nat.ltb_spec 14 (length aad)).
    + f_equal. by rewrite block_loop_cbc by (done || lia).
    + replace (length aad - 14)%nat with 0%nat by lia. done.
Qed.

Lemma format_payload_cbc key X P :
  format_payload_block X P key = cbc key (no_of_blocks (length P)) X (pad16 P).
Proof. unfold format_payload_block. by rewrite block_loop_cbc, drop_0 by (rewrite ?Nat.sub_0_r; done || lia). Qed.

(** ** The counter loop *)

Lemma len_octets z : 0 <= z < 65536 ->
  Z.shiftr (Z.land z 0xff00) 8 = z `div` 256 /\ Z.land z 0xff = z `mod` 256.
Proof.
  intros Hz. split.
  - rewrite Z.shiftr_land. change (Z.shiftr 0xff00 8) with (Z.ones 8).
    rewrite Z.land_ones, Z.shiftr_div_pow2 by lia. change (2 ^ 8) with 256.
    apply Z.mod_small. split; [apply Z.div_pos; lia|apply Z.div_lt_upper_bound; lia].
  - change 0xff with (Z.ones 8). by rewrite Z.land_ones by lia.
Qed.

Lemma ctr_block_ref nonce (i : nat) :
  Z.of_nat i < 65536 -> ctr_block nonce (Z.of_nat i) = ccm_ctr nonce i.
Proof.
  intros Hi. unfold ctr_block, ccm_ctr. destruct (len_octets (Z.of_nat i)) as [-> ->]; [lia|done].
Qed.

Lemma ccm_ctr_length nonce j : length nonce = 13%nat \/ length nonce = 16%nat -> length (ccm_ctr nonce j) = 16%nat.
Proof. intros H. unfold ccm_ctr. rewrite length_cons, length_app, length_take. cbn [length]. lia. Qed.

Definition nonce_ok (nonce : list Z) : Prop := length nonce = 13%nat \/ length nonce = 16%nat.

Lemma keystream_cons key nonce i m :
  keystream key nonce i (S m) = block_encrypt (ccm_ctr nonce i) key ++ keystream key nonce (S i) m.
Proof. done. Qed.

Lemma keystream_length key nonce i m :
  nonce_ok nonce -> length (keystream key nonce i m) = (16 * m)%nat.
Proof.
  intros Hn. revert i. induction m as [|m IH]; intros i; [done|].
  rewrite keystream_cons, length_app, IH, block_length by (by apply ccm_ctr_length). lia.
Qed.

(** From block [i] on, the loop xors the key stream onto the rest of the data. *)
Lemma ctr_loop_keystream key nonce m : forall i len data,
  nonce_ok nonce -> (1 <= i)%nat -> Z.of_nat (i + m) <= 65536 ->
  ((i - 1) * 16 <= length data)%nat -> len = Z.of_nat (length data - (i - 1) * 16) -> len < 65536 ->
  m = no_of_blocks (length data - (i - 1) * 16) ->
  ctr_loop key nonce i m len data =
  take ((i - 1) * 16) data ++ (keystream key nonce i m ⊕ drop ((i - 1) * 16) data).
Proof.
  induction m as [|m IH]; intros i len data Hn Hi Him Hoff Hlen Hlt Hm.
  { pose proof (no_of_blocks_bounds (length data - (i - 1) * 16)) as [Hb _]. rewrite <- Hm in Hb.
    cbn [ctr_loop keystream seq]. change (keystream key nonce i 0) with (@nil Z). rewrite take_ge by lia. by rewrite app_nil_r. }
  cbn [ctr_loop]. rewrite ctr_block_ref, keystream_cons by lia.
  pose proof (no_of_blocks_bounds (length data - (i - 1) * 16)) as [Hb1 Hb2].
  rewrite <- Hm in Hb1, Hb2. set (off := ((i - 1) * 16)%nat) in *.
  set (ks := block_encrypt (ccm_ctr nonce i) key).
  assert (Hks : length ks = 16%nat) by (by apply block_length, ccm_ctr_length).
  unfold BLOCK_SIZE. fold off.
  destruct (Z.leb_spec (Z.of_nat 16) len) as [Hfull|Hshort].
  - (* a full block *)
    assert (Hsub : length (sub off 16 data) = 16%nat) by (apply length_sub; lia).
    assert (Hx : length (take 16 ks ⊕ sub off 16 data) = 16%nat) by (rewrite length_xor, length_take; lia).
    assert (Hsp : length (bit_xor ks data off 16) = length data) by (apply length_splice; lia).
    rewrite IH; rewrite ?Hsp;
      replace ((S i - 1) * 16)%nat with (off + 16)%nat by lia; try done; try lia.
    + unfold bit_xor. rewrite take_splice, drop_splice by lia.
      rewrite <- app_assoc. f_equal.
      replace (drop off data) with (sub off 16 data ++ drop (off + 16) data)
        by (unfold sub; rewrite <- drop_drop; by rewrite take_drop).
      rewrite xor_app by lia. by rewrite take_ge by lia.
    + rewrite u16_small; lia.
    + rewrite u16_small; lia.
    + symmetry. apply no_of_blocks_unique; lia.
  - (* the short last block *)
    assert (m = 0%nat) as -> by lia. cbn [ctr_loop]. change (keystream key nonce (S i) 0) with (@nil Z).
    rewrite app_nil_r. unfold bit_xor, splice.
    replace (Z.to_nat len) with (length data - off)%nat by lia.
    assert (Hs : sub off (length data - off) data = drop off data)
      by (unfold sub; apply take_ge; rewrite length_drop; lia).
    rewrite Hs, (drop_ge data (off + _)), app_nil_r
      by (rewrite length_xor, length_take, length_drop; lia).
    f_equal. apply xor_take_l. rewrite length_drop. lia.
Qed.

(** The whole buffer: the data xored with the key stream, and the first counter block. *)
Lemma encrypt_or_decrypt_spec key nonce data mac_len mac md num :
  nonce_ok nonce -> Z.of_nat (length data) < 65536 -> num = (no_of_blocks (length data) + 1)%nat ->
  encrypt_or_decrypt data num nonce mac_len key mac md =
  (keystream key nonce 1 (no_of_blocks (length data)) ⊕ data,
   match md with
   | ENCRYPT => bit_xor (keystream key nonce 0 1) mac 0 mac_len
   | DECRYPT => keystream key nonce 0 1
   end).
Proof.
  intros Hn Hd ->. rewrite Nat.add_comm. cbn [Nat.add encrypt_or_decrypt].
  assert (E0 : block_encrypt (ctr_block nonce 0) key = keystream key nonce 0 1).
  { rewrite keystream_cons, app_nil_r. by rewrite <- (ctr_block_ref nonce 0). }
  rewrite E0. f_equal. pose proof (no_of_blocks_bounds (length data)).
  rewrite (ctr_loop_keystream _ _ _ 1); rewrite ?Nat.sub_0_r; try done; try lia;
    rewrite u16_small; lia.
Qed.

Lemma counter_blocks_eq len :
  (len `div` BLOCK_SIZE + 1 + (if Nat.eqb (len `mod` BLOCK_SIZE) 0 then 0 else 1) = no_of_blocks len + 1)%nat.
Proof. unfold no_of_blocks. lia. Qed.

(** ** The MAC *)

Lemma format_b0_ref nonce (p : nat) :
  Z.of_nat p < 65536 -> format_b0 t (Z.of_nat p) nonce =
  0x40 + 8 * ((8 - 2) `div` 2) + (2 - 1) :: take 13 nonce ++ [Z.of_nat p `div` 256; Z.of_nat p `mod` 256].
Proof.
  intros Hp. unfold format_b0, convert_to_octet_string.
  destruct (len_octets (Z.of_nat p)) as [-> ->]; [lia|done].
Qed.

(** The CBC-MAC the code computes for encoded data of [aad] and payload [P]. *)
Lemma code_mac key nonce aad P :
  nonce_ok nonce -> Z.of_nat (length aad) < 65280 -> Z.of_nat (length P) < 65536 ->
  exists X, format_aad (block_encrypt (format_b0 t (Z.of_nat (length P)) nonce) key) aad key = Some X /\
  take t (format_payload_block X P key) = ccm_T key nonce (ccm_A8 aad) P /\
  length (format_payload_block X P key) = 16%nat.
Proof.
  intros Hn Ha Hp. rewrite format_aad_cbc by done. eexists. split; [done|].
  rewrite format_payload_cbc, format_b0_ref by done. unfold ccm_T, ccm_B.
  set (B0 := _ :: take 13 nonce ++ _).
  assert (HB0 : length B0 = 16%nat) by (apply (ccm_ctr_length nonce 0) in Hn; unfold ccm_ctr in Hn;
    unfold B0; rewrite !length_cons, !length_app in *; done).
  rewrite !length_app, HB0, !pad16_length.
  replace ((16 + _) `div` 16)%nat with (1 + (no_of_blocks (length (ccm_A8 aad)) + no_of_blocks (length P)))%nat
    by (apply (Nat.div_unique _ _ _ 0); lia).
  rewrite !cbc_app by (rewrite ?pad16_length; done). cbn [cbc].
  rewrite (take_ge B0), xor_zeros_r by lia. split; [done|].
  apply cbc_length; [|by rewrite pad16_length].
  apply cbc_length; [by apply block_length|by rewrite pad16_length].
Qed.

(** ** Encryption and decryption *)

Lemma ccm_payload_length key nonce P : nonce_ok nonce -> length (ccm_payload key nonce P) = length P.
Proof.
  intros Hn. unfold ccm_payload. pose proof (no_of_blocks_bounds (length P)).
  rewrite length_xor, keystream_length by done. lia.
Qed.

Lemma ccm_payload_involutive key nonce P :
  nonce_ok nonce -> ccm_payload key nonce (ccm_payload key nonce P) = P.
Proof.
  intros Hn. unfold ccm_payload at 1. rewrite ccm_payload_length by done. unfold ccm_payload.
  apply xor_cancel. rewrite keystream_length by done. apply no_of_blocks_bounds.
Qed.

Lemma ccm_T_length key nonce aad P :
  nonce_ok nonce -> Z.of_nat (length aad) < 65280 -> Z.of_nat (length P) < 65536 ->
  length (ccm_T key nonce (ccm_A8 aad) P) = 8%nat.
Proof.
  intros. destruct (code_mac key nonce aad P) as (X & _ & <- & HX); [done..|].
  rewrite length_take, HX. done.
Qed.

Lemma ccm_tag_length key nonce aad P :
  nonce_ok nonce -> Z.of_nat (length aad) < 65280 -> Z.of_nat (length P) < 65536 ->
  length (ccm_tag key nonce (ccm_A8 aad) P) = 8%nat.
Proof.
  intros. unfold ccm_tag. rewrite length_xor, length_take, ccm_T_length, keystream_length by done. done.
Qed.

Lemma encrypt_spec key nonce aad plain :
  nonce_ok nonce -> Z.of_nat (length aad) < 65280 -> Z.of_nat (length plain) < 65536 ->
  CCM_encrypt_and_auth key nonce aad plain = Some (ccm_encrypt key nonce (ccm_A8 aad) plain).
Proof.
  intros Hn Ha Hp. unfold CCM_encrypt_and_auth.
  destruct (code_mac key nonce aad plain) as (X & -> & HT & HL); [done..|].
  rewrite counter_blocks_eq, encrypt_or_decrypt_spec by done. unfold ccm_encrypt. do 2 f_equal.
  unfold ccm_tag. rewrite <- HT. unfold bit_xor, splice. rewrite sub_0, take_0. simpl app.
  apply take_app_length'. by rewrite length_xor, !length_take, keystream_length, HL.
Qed.

Lemma decrypt_spec key nonce aad c tag :
  nonce_ok nonce -> Z.of_nat (length aad) < 65280 -> Z.of_nat (length c) < 65536 ->
  length tag = 8%nat ->
  let p := ccm_payload key nonce c in
  CCM_decrypt_and_auth key nonce aad (c ++ tag) =
  (if bool_decide (tag = ccm_tag key nonce (ccm_A8 aad) p) then length c else 0%nat, p ++ tag).
Proof.
  intros Hn Ha Hc Ht p. unfold CCM_decrypt_and_auth. rewrite length_app, Ht.
  assert (Hp : length p = length c) by (by apply ccm_payload_length).
  replace (length c + 8 - t)%nat with (length c) by (unfold t; lia).
  destruct (Nat.ltb_spec (length c + 8) t) as [Hlt|_]; [unfold t in Hlt; lia|].
  rewrite take_app_length, drop_app_length, counter_blocks_eq, encrypt_or_decrypt_spec by done.
  fold (ccm_payload key nonce c). fold p.
  destruct (code_mac key nonce aad p) as (X & HX & HT & _); [done|done|lia|].
  rewrite Hp in HX. rewrite HX, HT, (take_ge tag) by (unfold t; lia).
  pose proof (ccm_T_length key nonce aad p Hn Ha ltac:(lia)) as HTl.
  set (s := take t (keystream key nonce 0 1)).
  assert (Hs : length s = 8%nat) by (unfold s; rewrite length_take, keystream_length by done; done).
  unfold ccm_tag. change (take 8 (keystream key nonce 0 1)) with s.
  rewrite (bool_decide_ext _ (tag = s ⊕ ccm_T key nonce (ccm_A8 aad) p)); [by case_bool_decide|].
  split; intros E.
  - rewrite E, (xor_comm tag). symmetry. apply xor_cancel. lia.
  - rewrite E, (xor_comm _ s). symmetry. apply xor_cancel. lia.
Qed.

(** *** Results are bytes *)

Lemma div256_byte z : 0 <= z < 65536 -> is_byte (z `div` 256).
Proof. intros. split; [apply Z.div_pos; lia|apply Z.div_lt_upper_bound; lia]. Qed.

Lemma ccm_ctr_bytes nonce j : bytes nonce -> Z.of_nat j < 65536 -> bytes (ccm_ctr nonce j).
Proof.
  intros Hn Hj. unfold ccm_ctr. apply bytes_cons; [done|]. apply bytes_app. split; [auto with zw|].
  apply bytes_cons; [apply div256_byte; lia|]. apply bytes_cons; [apply u8_byte|constructor].
Qed.

Lemma keystream_bytes key nonce m : forall i,
  nonce_ok nonce -> bytes nonce -> length key = 16%nat -> bytes key -> Z.of_nat (i + m) <= 65536 ->
  bytes (keystream key nonce i m).
Proof.
  induction m as [|m IH]; intros i Hn Hb Hk Hkb Hm; [constructor|].
  rewrite keystream_cons. apply bytes_app. split; [|apply IH; auto; lia].
  apply block_bytes; auto; [by apply ccm_ctr_length|apply ccm_ctr_bytes; [done|lia]].
Qed.

Lemma ccm_payload_bytes key nonce P :
  nonce_ok nonce -> bytes nonce -> length key = 16%nat -> bytes key -> bytes P ->
  Z.of_nat (length P) < 65536 -> bytes (ccm_payload key nonce P).
Proof.
  intros. apply bytes_xor; [|done]. apply keystream_bytes; auto.
  pose proof (no_of_blocks_bounds (length P)). lia.
Qed.

Lemma cbc_bytes key k : forall X l,
  length key = 16%nat -> bytes key -> length X = 16%nat -> bytes X -> bytes l -> length l = (16 * k)%nat ->
  bytes (cbc key k X l).
Proof.
  induction k as [|k IH]; intros X l Hk Hkb HX HXb Hl Hlen; [done|]. cbn [cbc].
  assert (HL : length (take 16 l ⊕ X) = 16%nat) by (rewrite length_xor, length_take; lia).
  apply IH; auto with zw; [by apply block_length|by apply block_bytes; auto with zw|].
  rewrite length_drop. lia.
Qed.

Lemma pad16_bytes l : bytes l -> bytes (pad16 l).
Proof. intros. apply bytes_app. split; [done|by apply bytes_replicate]. Qed.

Lemma ccm_tag_bytes key nonce aad P :
  nonce_ok nonce -> bytes nonce -> length key = 16%nat -> bytes key -> bytes aad -> bytes P ->
  Z.of_nat (length P) < 65536 -> bytes (ccm_tag key nonce (ccm_A8 aad) P).
Proof.
  intros Hn Hnb Hk Hkb Ha Hp Hl.
  apply bytes_xor; [apply bytes_take, keystream_bytes; auto; lia|].
  unfold ccm_T. apply bytes_take. set (B := ccm_B nonce (ccm_A8 aad) P).
  assert (HB : bytes B).
  { unfold B, ccm_B. apply bytes_app. split.
    - apply bytes_cons; [done|]. apply bytes_app. split; [auto with zw|].
      apply bytes_cons; [apply div256_byte; lia|]. apply bytes_cons; [apply u8_byte|constructor].
    - apply bytes_app. split; apply pad16_bytes; [|done].
      apply bytes_cons; [done|]. apply bytes_cons; [apply u8_byte|done]. }
  apply cbc_bytes; auto; [by apply bytes_replicate|].
  unfold B, ccm_B. rewrite !length_app, !pad16_length, length_cons, length_app, length_take.
  cbn [length].
  set (m := (no_of_blocks (length (ccm_A8 aad)) + no_of_blocks (length P))%nat).
  replace (_ + _)%nat with ((1 + m) * 16)%nat by (destruct Hn; lia).
  rewrite Nat.div_mul by lia. lia.
Qed.

(** Encryption of a frame always succeeds, with 8 more bytes. *)
Lemma encrypt_total key nonce aad plain :
  nonce_ok nonce -> Z.of_nat (length aad) < 65280 -> Z.of_nat (length plain) < 65536 ->
  length key = 16%nat -> bytes key -> bytes nonce -> bytes aad -> bytes plain ->
  exists c, CCM_encrypt_and_auth key nonce aad plain = Some c /\
    length c = (length plain + 8)%nat /\ bytes c.
Proof.
  intros. eexists. split; [by apply encrypt_spec|]. unfold ccm_encrypt.
  rewrite length_app, ccm_payload_length, ccm_tag_length by done. split; [done|].
  apply bytes_app. split; [by apply ccm_payload_bytes|by apply ccm_tag_bytes].
Qed.

(** Decryption works in place and returns no more than the buffer holds. *)
Lemma decrypt_total key nonce aad buf :
  nonce_ok nonce -> Z.of_nat (length aad) < 65280 -> Z.of_nat (length buf) < 65536 ->
  length key = 16%nat -> bytes key -> bytes nonce -> bytes aad -> bytes buf ->
  let '(n, buf') := CCM_decrypt_and_auth key nonce aad buf in
  length buf' = length buf /\ bytes buf' /\ (n = 0 \/ n + 8 = length buf)%nat.
Proof.
  intros Hn Ha Hb Hk Hkb Hnb Hab Hbb.
  destruct (decide (length buf < 8)%nat) as [Hlt|Hge].
  { unfold CCM_decrypt_and_auth. destruct (Nat.ltb_spec (length buf) t) as [_|Hx]; [by auto|].
    unfold t in Hx. lia. }
  set (c := take (length buf - 8) buf). set (tag := drop (length buf - 8) buf).
  assert (E : CCM_decrypt_and_auth key nonce aad buf = CCM_decrypt_and_auth key nonce aad (c ++ tag))
    by (unfold c, tag; by rewrite take_drop).
  assert (Hc : length c = (length buf - 8)%nat) by (unfold c; rewrite length_take; lia).
  assert (Ht : length tag = 8%nat) by (unfold tag; rewrite length_drop; lia).
  rewrite E, decrypt_spec by (done || lia).
  rewrite length_app, ccm_payload_length by done. split; [lia|]. split.
  - apply bytes_app. split; [apply ccm_payload_bytes; auto; [unfold c; auto with zw|lia]|unfold tag; auto with zw].
  - case_bool_decide; lia.
Qed.

Lemma ccm_A8_short aad : Z.of_nat (length aad) < 256 -> ccm_A8 aad = ccm_A aad.
Proof.
  intros. unfold ccm_A8, ccm_A. by rewrite u8_small, Z.div_small, Z.mod_small by lia.
Qed.

(** Decrypting a ciphertext of the code gives the payload, followed by the tag. *)
Lemma decrypt_encrypt key nonce aad plain :
  nonce_ok nonce -> Z.of_nat (length aad) < 65280 -> Z.of_nat (length plain) < 65536 ->
  CCM_decrypt_and_auth key nonce aad (ccm_encrypt key nonce (ccm_A8 aad) plain) =
  (length plain, plain ++ ccm_tag key nonce (ccm_A8 aad) plain).
Proof.
  intros Hn Ha Hp. unfold ccm_encrypt. pose proof (ccm_payload_length key nonce plain Hn) as Hl.
  rewrite decrypt_spec by (rewrite ?Hl, ?ccm_tag_length; done).
  by rewrite ccm_payload_involutive, bool_decide_eq_true_2, Hl by done.
Qed.

(** ** Properties *)

(** C34: for 1 to 255 bytes of associated data and a payload of less than 65536 bytes, encryption
    computes exactly the CCM function of NIST SP 800-38C with an 8-byte tag: payload xored with the
    counter key stream, followed by the encrypted CBC-MAC of the formatted input.  (For 256 bytes of
    associated data and more it does not: [CCM_encrypt_long_aad].) *)
Theorem CCM_encrypt_nist key nonce aad plain :
  nonce_ok nonce -> 0 < Z.of_nat (length aad) < 256 -> Z.of_nat (length plain) < 65536 ->
  CCM_encrypt_and_auth key nonce aad plain = Some (ccm_encrypt key nonce (ccm_A aad) plain).
Proof. intros. rewrite <- ccm_A8_short by lia. apply encrypt_spec; [done|lia..]. Qed.

(** C35: for 1 to 255 bytes of associated data and a payload of less than 65536 bytes, decryption
    compares the last 8 bytes with the CCM tag of the decrypted payload: it returns the payload length
    when they are equal and 0 otherwise, and in both cases leaves the decrypted payload followed by the
    received tag in the buffer.  So a frame with a payload is accepted, by a return value other than 0,
    exactly when its tag is right; a frame without one gets 0 whatever its tag is. *)
Theorem CCM_decrypt_accepts key nonce aad c tag :
  nonce_ok nonce -> 0 < Z.of_nat (length aad) < 256 -> Z.of_nat (length c) < 65536 ->
  length tag = 8%nat ->
  let p := ccm_payload key nonce c in
  let r := CCM_decrypt_and_auth key nonce aad (c ++ tag) in
  r = (if bool_decide (tag = ccm_tag key nonce (ccm_A aad) p) then length c else 0%nat, p ++ tag) /\
  (c <> [] -> (fst r <> 0%nat <-> tag = ccm_tag key nonce (ccm_A aad) p)) /\ (c = [] -> fst r = 0%nat).
Proof.
  intros Hn Ha Hc Ht p r.
  assert (E : r = (if bool_decide (tag = ccm_tag key nonce (ccm_A aad) p) then length c else 0%nat, p ++ tag)).
  { rewrite <- ccm_A8_short by lia. apply decrypt_spec; [done|lia|done..]. }
  split; [done|]. rewrite E. cbn [fst]. split; [|intros ->; by case_bool_decide].
  intros Hne. case_bool_decide; [|tauto]. split; [done|]. by destruct c.
Qed.

(** C33: decrypting what encryption produced, under the same key, nonce and associated data, returns
    the payload. *)
Theorem CCM_roundtrip key nonce aad plain c :
  nonce_ok nonce -> Z.of_nat (length aad) < 65280 -> Z.of_nat (length plain) < 65536 ->
  CCM_encrypt_and_auth key nonce aad plain = Some c ->
  fst (CCM_decrypt_and_auth key nonce aad c) = length plain /\
  take (length plain) (snd (CCM_decrypt_and_auth key nonce aad c)) = plain.
Proof.
  intros Hn Ha Hp E. rewrite encrypt_spec in E by done. injection E as <-.
  rewrite decrypt_encrypt by done. simpl. split; [done|by rewrite take_app_length].
Qed.

(** With 256 bytes of associated data or more the code encodes only the low byte of the length
    in the first block: what it computes is CCM over an encoding that is not the one of the
    standard. *)
Theorem CCM_encrypt_long_aad key nonce aad plain :
  nonce_ok nonce -> 256 <= Z.of_nat (length aad) < 65280 -> Z.of_nat (length plain) < 65536 ->
  CCM_encrypt_and_auth key nonce aad plain = Some (ccm_encrypt key nonce (ccm_A8 aad) plain) /\
  ccm_A8 aad <> ccm_A aad.
Proof.
  intros Hn Ha Hp. split; [apply encrypt_spec; [done|lia|done]|].
  intros E. injection E as E. pose proof (Z.div_le_lower_bound (Z.of_nat (length aad)) 256 1). lia.
Qed.
End Ccm.

(** *** RFC 3610, packet vector 1 *)

Definition rfc_key : list Z := (fun i => 0xc0 + Z.of_nat i) <$> seq 0 16.
Definition rfc_nonce : list Z := [0; 0; 0; 3; 2; 1; 0] ++ ((fun i => 0xa0 + Z.of_nat i) <$> seq 0 6).
Definition rfc_aad : list Z := Z.of_nat <$> seq 0 8.
Definition rfc_plain : list Z := Z.of_nat <$> seq 8 23.
Definition rfc_cipher : list Z :=
  [0x58; 0x8c; 0x97; 0x9a; 0x61; 0xc6; 0x63; 0xd2; 0xf0; 0x66; 0xd0; 0xc2; 0xc0; 0xf9; 0x89; 0x80;
   0x6d; 0x5f; 0x6b; 0x61; 0xda; 0xc3; 0x84].
Definition rfc_tag : list Z := [0x17; 0xe8; 0xd1; 0x2c; 0xfd; 0xf9; 0x26; 0xe0].

Lemma CCM_encrypt_nist_witness :
  ccm_encrypt rfc_key rfc_nonce (ccm_A rfc_aad) rfc_plain = rfc_cipher ++ rfc_tag /\
  CCM_encrypt_and_auth rfc_key rfc_nonce rfc_aad rfc_plain =
    Some (ccm_encrypt rfc_key rfc_nonce (ccm_A rfc_aad) rfc_plain).
Proof.
  split; [vm_compute; reflexivity|].
  apply CCM_encrypt_nist; [left; reflexivity|vm_compute; split; reflexivity|reflexivity].
Defined.

Lemma CCM_decrypt_accepts_witness :
  bool_decide (rfc_tag = ccm_tag rfc_key rfc_nonce (ccm_A rfc_aad)
    (ccm_payload rfc_key rfc_nonce rfc_cipher)) = true /\
  CCM_decrypt_and_auth rfc_key rfc_nonce rfc_aad (rfc_cipher ++ rfc_tag) =
  (if bool_decide (rfc_tag = ccm_tag rfc_key rfc_nonce (ccm_A rfc_aad)
      (ccm_payload rfc_key rfc_nonce rfc_cipher)) then length rfc_cipher else 0%nat,
   ccm_payload rfc_key rfc_nonce rfc_cipher ++ rfc_tag).
Proof.
  split; [vm_compute; reflexivity|].
  apply (CCM_decrypt_accepts rfc_key rfc_nonce rfc_aad rfc_cipher rfc_tag);
    [left; reflexivity|vm_compute; split; reflexivity|reflexivity|reflexivity].
Defined.

Lemma CCM_roundtrip_witness :
  fst (CCM_decrypt_and_auth rfc_key rfc_nonce rfc_aad (rfc_cipher ++ rfc_tag)) = length rfc_plain /\
  take (length rfc_plain)
    (snd (CCM_decrypt_and_auth rfc_key rfc_nonce rfc_aad (rfc_cipher ++ rfc_tag))) = rfc_plain.
Proof.
  apply CCM_roundtrip; [left; reflexivity|reflexivity|reflexivity|vm_compute; reflexivity].
Defined.

Lemma CCM_encrypt_long_aad_witness :
  CCM_encrypt_and_auth rfc_key rfc_nonce (replicate 256 0) rfc_plain =
    Some (ccm_encrypt rfc_key rfc_nonce (ccm_A8 (replicate 256 0)) rfc_plain) /\
  ccm_A8 (replicate 256 0) <> ccm_A (replicate 256 0).
Proof.
  apply CCM_encrypt_long_aad;
    [left; reflexivity|vm_compute; split; [discriminate|reflexivity]|reflexivity].
Defined.
End Ccm.
