(* ===== verification/Drbg.v ===== *)
(** * The CTR_DRBG, the nonce generator and the key derivation
    (libs2/crypto/ctr_drbg/ctr_drbg.c, nextnonce/nextnonce.c, kderiv/kderiv.c)

    [CtrDrbg] is the AES-128 CTR_DRBG of NIST SP 800-90A without derivation function; [NextNonce]
    the generator of the SPAN nonces, seeded from the entropy inputs of the two nodes; [Kderiv] the
    expansion of a network key into the CCM key, the personalization string and the MPAN key. *)
From S2P Require Import Prelude Aes Cmac.

Module CtrDrbg.

Definition OUTLEN : nat := 16.
Definition KEYLEN : nat := 16.
Definition SEEDLEN : nat := OUTLEN + KEYLEN.
Definition RANDLEN : nat := 16.

Record CTR_DRBG_CTX := mkCtx { df : Z; v : list Z; k : list Z }.

#[global] Instance ctx_eq_dec : EqDecision CTR_DRBG_CTX.
Proof. solve_decision. Defined.

Section CtrDrbg.
Context {C : BlockCipher}.

(** [while (size--) { data[size]++; if (data[size]) break; }]: the fold runs from the last byte to
    the first, the flag says that the loop has not been left. *)
Definition AES_CTR_DRBG_Increment (data : list Z) : list Z :=
  fst (foldr (fun b '(out, running) =>
                if running : bool then (u8 (b + 1) :: out, u8 (b + 1) =? 0) else (b :: out, false))
         ([], true) data).

(** The loop of the update: [n] output blocks appended to [tmp], and the advanced counter. *)
Fixpoint update_loop (n : nat) (k v tmp : list Z) : list Z * list Z :=
  match n with
  | O => (tmp, v)
  | S n' =>
      let v := AES_CTR_DRBG_Increment v in
      update_loop n' k v (tmp ++ block_encrypt v k)
  end.

Definition AES_CTR_DRBG_Update (ctx : CTR_DRBG_CTX) (data : list Z) : CTR_DRBG_CTX :=
  let '(tmp, v') := update_loop (SEEDLEN / OUTLEN) (k ctx) (v ctx) [] in
  let tmp := tmp ⊕ data in
  {| df := df ctx; k := take KEYLEN tmp; v := sub KEYLEN OUTLEN tmp |}.

Definition AES_CTR_DRBG_Reseed (ctx : CTR_DRBG_CTX) (seed : list Z) : CTR_DRBG_CTX :=
  AES_CTR_DRBG_Update ctx seed.

(** The context and the entropy buffer, which the personalization string is xored onto. *)
Definition AES_CTR_DRBG_Instantiate (entropy personal : list Z) : CTR_DRBG_CTX * list Z :=
  let entropy := take SEEDLEN entropy ⊕ take SEEDLEN personal in
  let ctx := {| k := replicate KEYLEN 0; v := replicate OUTLEN 0; df := 0 |} in
  (AES_CTR_DRBG_Reseed ctx entropy, entropy).

(** The loop [while (size)] of the generate function; [fuel] bounds its iterations. *)
Fixpoint generate_loop (fuel size : nat) (k v rand : list Z) : list Z * list Z :=
  match fuel, size with
  | S fuel', S _ =>
      let v := AES_CTR_DRBG_Increment v in
      let data := block_encrypt v k in
      let copy := if Nat.ltb size OUTLEN then size else OUTLEN in
      generate_loop fuel' (size - copy) k v (rand ++ take copy data)
  | _, _ => (rand, v)
  end.

Definition AES_CTR_DRBG_Generate (ctx : CTR_DRBG_CTX) : list Z * CTR_DRBG_CTX :=
  let '(rand, v') := generate_loop RANDLEN RANDLEN (k ctx) (v ctx) [] in
  (rand, AES_CTR_DRBG_Update {| df := df ctx; v := v'; k := k ctx |} (replicate SEEDLEN 0)).

(** ** The reference: SP 800-90A, section 10.2.1, on the counter as a 128-bit number *)

(** Output block for the counter value [c]. *)
Definition out_block (k : list Z) (c : Z) : list Z := block_encrypt (be_bytes 16 c) k.

Definition drbg_update (f : Z) (k : list Z) (V : Z) (data : list Z) : CTR_DRBG_CTX :=
  let temp := (out_block k (V + 1) ++ out_block k (V + 2)) ⊕ data in
  {| df := f; k := take 16 temp; v := drop 16 temp |}.

Definition drbg_instantiate (entropy personal : list Z) : CTR_DRBG_CTX :=
  drbg_update 0 (replicate 16 0) 0 (entropy ⊕ personal).

(** ** Invariant *)

Definition drbg_ok (ctx : CTR_DRBG_CTX) : Prop :=
  is_byte (df ctx) /\ length (v ctx) = 16%nat /\ length (k ctx) = 16%nat /\ bytes (v ctx) /\ bytes (k ctx).

#[global] Instance drbg_ok_dec ctx : Decision (drbg_ok ctx).
Proof. unfold drbg_ok. apply _. Defined.

Context {HC : BlockCipherOk C}.

(** The byte loop adds one to the big-endian number, and tells whether it carried out. *)
Lemma increment_carry l :
  bytes l ->
  let '(out, running) := foldr (fun b '(out, running) =>
     if running : bool then (u8 (b + 1) :: out, u8 (b + 1) =? 0) else (b :: out, false)) ([], true) l in
  length out = length l /\ bytes out /\
  be_val out + (if running : bool then 256 ^ Z.of_nat (length l) else 0) = be_val l + 1.
Proof.
  induction l as [|b l IH]; intros Hl; [done|].
  apply bytes_cons_inv in Hl as [Hb Hl]. cbn [foldr]. specialize (IH Hl).
  destruct (foldr _ _ l) as [out [|]]; destruct IH as (Hlen & Hout & IH).
  - split; [by simpl; rewrite Hlen|]. split; [auto with zw|].
    rewrite !be_val_cons, Hlen. cbn [length]. rewrite pow256_succ. unfold is_byte in Hb.
    destruct (decide (b = 255)) as [->|].
    + change (u8 (255 + 1)) with 0. change (0 =? 0) with true. lia.
    + rewrite u8_small by lia. destruct (Z.eqb_spec (b + 1) 0); [lia|]. lia.
  - split; [by simpl; rewrite Hlen|]. split; [auto with zw|].
    rewrite !be_val_cons, Hlen. lia.
Qed.

Lemma increment_spec l :
  bytes l -> AES_CTR_DRBG_Increment l = be_bytes (length l) (be_val l + 1).
Proof.
  intros Hl. pose proof (increment_carry l Hl) as H. unfold AES_CTR_DRBG_Increment.
  destruct (foldr _ _ l) as [out running]. destruct H as (Hlen & Hout & H). simpl.
  apply be_val_inj; rewrite ?be_bytes_length; auto using be_bytes_bytes.
  rewrite be_val_be_bytes. pose proof (be_val_bound out Hout) as Hb. rewrite Hlen in Hb.
  destruct running.
  - rewrite <- H. rewrite <- (Z.mul_1_l (256 ^ _)) at 1. rewrite Z.mod_add, Z.mod_small by lia. done.
  - rewrite Z.mod_small; lia.
Qed.

(** Counting on from an encoded number. *)
Lemma increment_be_bytes x : AES_CTR_DRBG_Increment (be_bytes 16 x) = be_bytes 16 (x + 1).
Proof.
  rewrite increment_spec, be_bytes_length by apply be_bytes_bytes.
  apply be_val_inj; rewrite ?be_bytes_length; auto using be_bytes_bytes.
  by rewrite !be_val_be_bytes, Zplus_mod_idemp_l.
Qed.

Lemma out_block_ok k c :
  length k = 16%nat -> bytes k -> length (out_block k c) = 16%nat /\ bytes (out_block k c).
Proof.
  intros. unfold out_block.
  split; [apply block_length|apply block_bytes]; auto using be_bytes_length, be_bytes_bytes.
Qed.

Lemma update_spec ctx V data :
  v ctx = be_bytes 16 V -> length (k ctx) = 16%nat -> bytes (k ctx) -> length data = 32%nat ->
  AES_CTR_DRBG_Update ctx data = drbg_update (df ctx) (k ctx) V data.
Proof.
  intros Hv Hk Hkb Hd. unfold AES_CTR_DRBG_Update, drbg_update. change (SEEDLEN / OUTLEN)%nat with 2%nat.
  cbn [update_loop]. rewrite Hv, !increment_be_bytes. cbn [app].
  replace (V + 1 + 1) with (V + 2) by lia. fold (out_block (k ctx) (V + 1)) (out_block (k ctx) (V + 2)).
  f_equal. unfold sub. apply take_ge.
  destruct (out_block_ok (k ctx) (V + 1)), (out_block_ok (k ctx) (V + 2)); [done..|].
  rewrite length_drop, length_xor, length_app. unfold KEYLEN, OUTLEN. lia.
Qed.

Lemma drbg_update_ok f k V data :
  is_byte f -> length k = 16%nat -> bytes k -> length data = 32%nat -> bytes data -> drbg_ok (drbg_update f k V data).
Proof.
  intros Hf Hk Hkb Hd Hdb. unfold drbg_update.
  destruct (out_block_ok k (V + 1)) as [L1 B1], (out_block_ok k (V + 2)) as [L2 B2]; [done..|].
  assert (bytes ((out_block k (V + 1) ++ out_block k (V + 2)) ⊕ data)).
  { apply bytes_xor; [by apply bytes_app|done]. }
  split; [done|]. cbn [CtrDrbg.k v df].
  rewrite length_drop, length_take, length_xor, length_app.
  split; [lia|]. split; [lia|]. auto with zw.
Qed.

(** One block is enough for RANDLEN = 16 bytes. *)
Lemma generate_loop_16 f k v :
  generate_loop (S f) 16 k v [] =
  (take 16 (block_encrypt (AES_CTR_DRBG_Increment v) k), AES_CTR_DRBG_Increment v).
Proof. by destruct f. Qed.

Lemma generate_spec ctx :
  drbg_ok ctx -> let V := be_val (v ctx) in
  AES_CTR_DRBG_Generate ctx =
  (out_block (k ctx) (V + 1), drbg_update (df ctx) (k ctx) (V + 1) (replicate 32 0)).
Proof.
  intros (Hdf & Hv & Hk & Hvb & Hkb) V. unfold AES_CTR_DRBG_Generate.
  unfold RANDLEN. rewrite (generate_loop_16 15).
  assert (HV : v ctx = be_bytes 16 V) by (unfold V; rewrite <- Hv; symmetry; by apply be_bytes_val).
  rewrite HV, increment_be_bytes. f_equal.
  - apply take_ge. destruct (out_block_ok (k ctx) (V + 1)) as [-> _]; done.
  - by rewrite (update_spec _ (V + 1)).
Qed.

(** The invariant is kept, and an output is a 16-byte block. *)
Lemma generate_ok ctx :
  drbg_ok ctx ->
  length (fst (AES_CTR_DRBG_Generate ctx)) = 16%nat /\ bytes (fst (AES_CTR_DRBG_Generate ctx)) /\
  drbg_ok (snd (AES_CTR_DRBG_Generate ctx)).
Proof.
  intros Hok. rewrite generate_spec by done. destruct Hok as (Hdf & Hv & Hk & Hvb & Hkb).
  destruct (out_block_ok (k ctx) (be_val (v ctx) + 1)); [done..|].
  split; [done|]. split; [done|]. apply drbg_update_ok; try done. by apply bytes_replicate.
Qed.

Lemma instantiate_spec entropy personal :
  length entropy = 32%nat -> length personal = 32%nat ->
  AES_CTR_DRBG_Instantiate entropy personal =
  (drbg_instantiate entropy personal, entropy ⊕ personal).
Proof.
  intros He Hp. unfold AES_CTR_DRBG_Instantiate, AES_CTR_DRBG_Reseed.
  rewrite !take_ge by (unfold SEEDLEN, OUTLEN, KEYLEN; lia).
  rewrite (update_spec _ 0); try done; [by apply bytes_replicate|]. rewrite length_xor. lia.
Qed.

Lemma drbg_instantiate_ok entropy personal :
  length entropy = 32%nat -> length personal = 32%nat -> bytes entropy -> bytes personal ->
  drbg_ok (drbg_instantiate entropy personal).
Proof.
  intros. apply drbg_update_ok; auto with zw. rewrite length_xor. lia.
Qed.

(** ** Properties *)

(** C38: the generate function is CTR_DRBG of SP 800-90A (no derivation function, no additional
    input): it returns the block of counter V+1 and leaves the key and counter blocks of V+2 and
    V+3, all counters modulo 2^128, and keeps the context well formed. *)
Theorem AES_CTR_DRBG_Generate_nist ctx :
  drbg_ok ctx -> let V := be_val (v ctx) in
  fst (AES_CTR_DRBG_Generate ctx) = out_block (k ctx) (V + 1) /\
  k (snd (AES_CTR_DRBG_Generate ctx)) = out_block (k ctx) (V + 2) /\
  v (snd (AES_CTR_DRBG_Generate ctx)) = out_block (k ctx) (V + 3) /\
  drbg_ok (snd (AES_CTR_DRBG_Generate ctx)).
Proof.
  intros Hok V. pose proof (generate_ok ctx Hok) as (_ & _ & Hok').
  rewrite generate_spec in * by done. destruct Hok as (Hdf & Hv & Hk & Hvb & Hkb).
  unfold V in *. cbn [fst snd drbg_update k v].
  replace (be_val (v ctx) + 1 + 1) with (be_val (v ctx) + 2) by lia.
  replace (be_val (v ctx) + 1 + 2) with (be_val (v ctx) + 3) by lia.
  destruct (out_block_ok (k ctx) (be_val (v ctx) + 2)) as [L1 _]; [done..|].
  destruct (out_block_ok (k ctx) (be_val (v ctx) + 3)) as [L2 _]; [done..|].
  rewrite xor_zeros_r by (rewrite length_app; lia).
  rewrite take_app_length', drop_app_length' by done. done.
Qed.
End CtrDrbg.

Definition zero_ctx : CTR_DRBG_CTX := {| df := 0; v := replicate 15 0 ++ [255]; k := replicate 16 0 |}.

Lemma AES_CTR_DRBG_Generate_nist_witness :
  fst (AES_CTR_DRBG_Generate zero_ctx) = out_block (k zero_ctx) (be_val (v zero_ctx) + 1) /\
  k (snd (AES_CTR_DRBG_Generate zero_ctx)) = out_block (k zero_ctx) (be_val (v zero_ctx) + 2) /\
  v (snd (AES_CTR_DRBG_Generate zero_ctx)) = out_block (k zero_ctx) (be_val (v zero_ctx) + 3) /\
  drbg_ok (snd (AES_CTR_DRBG_Generate zero_ctx)).
Proof. apply AES_CTR_DRBG_Generate_nist. apply (bool_decide_unpack _). vm_compute. exact I. Defined.
End CtrDrbg.

Module NextNonce.
Import CtrDrbg.

Definition constant_ei : list Z := replicate 15 0x88.
Definition constant_nonce : list Z := replicate 16 0x26.

Section NextNonce.
Context {C : BlockCipher}.

Definition ckdf_nonce0_expand (prk : list Z) : list Z :=
  let t0 := constant_ei ++ [0] ++ constant_ei ++ [1] in
  let t1 := Cmac.aes_cmac_calculate prk t0 32 in
  let t0 := t1 ++ constant_ei ++ [2] in
  let t2 := Cmac.aes_cmac_calculate prk t0 32 in
  t1 ++ t2.

Definition next_nonce_instantiate (ei_sender ei_receiver k_nonce : list Z) : CTR_DRBG_CTX :=
  let temp := take 16 ei_sender ++ take 16 ei_receiver in
  let X := Cmac.aes_cmac_calculate constant_nonce temp 32 in
  let mei := ckdf_nonce0_expand X in
  fst (AES_CTR_DRBG_Instantiate mei k_nonce).

Definition next_nonce_generate (ctx : CTR_DRBG_CTX) : list Z * CTR_DRBG_CTX :=
  AES_CTR_DRBG_Generate ctx.

(** ** The reference: mixed entropy input by CKDF *)

Definition MEI (ei_sender ei_receiver : list Z) : list Z :=
  let nonce_prk := Cmac.AES_CMAC constant_nonce (ei_sender ++ ei_receiver) in
  let T0 := constant_ei ++ [0] in
  let T1 := Cmac.AES_CMAC nonce_prk (T0 ++ constant_ei ++ [1]) in
  let T2 := Cmac.AES_CMAC nonce_prk (T1 ++ constant_ei ++ [2]) in
  T1 ++ T2.

Context {HC : BlockCipherOk C}.

Lemma cmac32 key m :
  length key = 16%nat -> bytes key -> length m = 32%nat ->
  Cmac.aes_cmac_calculate key m 32 = Cmac.AES_CMAC key m.
Proof. intros Hk Hb Hm. rewrite <- Cmac.cmac_correct, Hm by (done || lia). done. Qed.

Lemma constant_ei_block b :
  is_byte b -> length (constant_ei ++ [b]) = 16%nat /\ bytes (constant_ei ++ [b]).
Proof.
  intros Hb. split; [done|]. apply bytes_app. split; [by apply bytes_replicate|auto with zw].
Qed.

Lemma ckdf_spec prk :
  length prk = 16%nat -> bytes prk ->
  let T1 := Cmac.AES_CMAC prk ((constant_ei ++ [0]) ++ constant_ei ++ [1]) in
  let T2 := Cmac.AES_CMAC prk (T1 ++ constant_ei ++ [2]) in
  ckdf_nonce0_expand prk = T1 ++ T2 /\ length T1 = 16%nat /\ length T2 = 16%nat /\ bytes T1 /\ bytes T2.
Proof.
  intros Hk Hb T1 T2.
  destruct (constant_ei_block 0) as [L0 B0]; [done|]. destruct (constant_ei_block 1) as [L1 B1]; [done|].
  destruct (constant_ei_block 2) as [L2 B2]; [done|].
  destruct (Cmac.AES_CMAC_block prk ((constant_ei ++ [0]) ++ constant_ei ++ [1])) as [LT1 BT1];
    [done|done|by apply bytes_app|]. fold T1 in LT1, BT1.
  destruct (Cmac.AES_CMAC_block prk (T1 ++ constant_ei ++ [2])) as [LT2 BT2];
    [done|done|by apply bytes_app|].
  unfold ckdf_nonce0_expand. rewrite (app_assoc constant_ei [0]).
  rewrite (cmac32 _ (_ ++ _ ++ [1])) by (rewrite ?length_app, ?L0, ?L1; done). fold T1.
  rewrite cmac32 by (rewrite ?length_app, ?LT1, ?L2; done). done.
Qed.

Lemma MEI_ok ei_s ei_r :
  length ei_s = 16%nat -> length ei_r = 16%nat -> bytes ei_s -> bytes ei_r ->
  length (MEI ei_s ei_r) = 32%nat /\ bytes (MEI ei_s ei_r) /\
  ckdf_nonce0_expand (Cmac.aes_cmac_calculate constant_nonce (ei_s ++ ei_r) 32) = MEI ei_s ei_r.
Proof.
  intros Hs Hr Bs Br.
  assert (length constant_nonce = 16%nat /\ bytes constant_nonce) as [Ln Bn]
    by (split; [done|by apply bytes_replicate]).
  destruct (Cmac.AES_CMAC_block constant_nonce (ei_s ++ ei_r)) as [LX BX];
    [done|done|by apply bytes_app|].
  destruct (ckdf_spec (Cmac.AES_CMAC constant_nonce (ei_s ++ ei_r)) LX BX) as (E & L1 & L2 & B1 & B2).
  rewrite cmac32 by (rewrite ?length_app, ?Hs, ?Hr; done). rewrite E. unfold MEI.
  split; [rewrite length_app, L1, L2; done|]. split; [by apply bytes_app|done].
Qed.

Lemma instantiate_MEI ei_s ei_r k_nonce :
  length ei_s = 16%nat -> length ei_r = 16%nat -> length k_nonce = 32%nat ->
  bytes ei_s -> bytes ei_r -> bytes k_nonce ->
  next_nonce_instantiate ei_s ei_r k_nonce = drbg_instantiate (MEI ei_s ei_r) k_nonce /\
  drbg_ok (next_nonce_instantiate ei_s ei_r k_nonce).
Proof.
  intros Hs Hr Hk Bs Br Bk. unfold next_nonce_instantiate. rewrite !take_ge by lia.
  destruct (MEI_ok ei_s ei_r) as (L & B & ->); [done..|].
  rewrite instantiate_spec by done. split; [done|]. by apply drbg_instantiate_ok.
Qed.

(** The SPAN generator is CTR_DRBG instantiated with the mixed entropy input
    CKDF(CMAC(0x26^16, sender EI | receiver EI)) and the personalization string of the key, and the
    instantiated context satisfies the generator's invariant. *)
Theorem next_nonce_instantiate_spec ei_s ei_r k_nonce :
  length ei_s = 16%nat -> length ei_r = 16%nat -> length k_nonce = 32%nat ->
  bytes ei_s -> bytes ei_r -> bytes k_nonce ->
  next_nonce_instantiate ei_s ei_r k_nonce = drbg_instantiate (MEI ei_s ei_r) k_nonce /\
  drbg_ok (next_nonce_instantiate ei_s ei_r k_nonce).
Proof. apply instantiate_MEI. Qed.
End NextNonce.

Lemma next_nonce_instantiate_spec_witness :
  next_nonce_instantiate (replicate 16 1) (replicate 16 2) (replicate 32 3) =
    drbg_instantiate (MEI (replicate 16 1) (replicate 16 2)) (replicate 32 3) /\
  drbg_ok (next_nonce_instantiate (replicate 16 1) (replicate 16 2) (replicate 32 3)).
Proof.
  apply next_nonce_instantiate_spec; try reflexivity; apply (bool_decide_unpack _); vm_compute; exact I.
Defined.
End NextNonce.

Module Kderiv.

Definition CONSTANT_NK_LEN : nat := 15.

Section Kderiv.
Context {C : BlockCipher}.

(** The CCM key, the 32-byte personalization string and the MPAN key; [key_id] is
    ZWAVE_KEY_ID_NONE in a build without the PSA vault. *)
Definition generic_expand (network_key constant_nk : list Z) : list Z * list Z * list Z :=
  let temp := take 15 constant_nk ++ [0x01] in
  let ccm_key := Cmac.aes_cmac_calculate network_key temp 16 in
  let temp := ccm_key ++ take 15 constant_nk ++ [0x02] in
  let pstring_lo := Cmac.aes_cmac_calculate network_key temp 32 in
  let temp := pstring_lo ++ take 15 constant_nk ++ [0x03] in
  let pstring_hi := Cmac.aes_cmac_calculate network_key temp 32 in
  let temp := pstring_hi ++ take 15 constant_nk ++ [0x04] in
  let mpan_key := Cmac.aes_cmac_calculate network_key temp 32 in
  (ccm_key, pstring_lo ++ pstring_hi, mpan_key).

Definition networkkey_expand (network_key : list Z) : list Z * list Z * list Z :=
  generic_expand network_key (replicate 15 0x55).

Definition tempkey_extract (ecdh_share_secret auth_tag : list Z) : list Z :=
  let temp := take 32 ecdh_share_secret ++ take 64 auth_tag in
  Cmac.aes_cmac_calculate (replicate 16 0x33) temp 96.

Definition tempkey_expand (prk : list Z) : list Z * list Z * list Z :=
  generic_expand prk (replicate 15 0x88).

(** ** The reference: the chain documented in kderiv.h *)

(** T(0) is empty, T(i) = CMAC(key, T(i-1) | constant | i). *)
Fixpoint T (key constant : list Z) (i : nat) : list Z :=
  match i with
  | O => []
  | S i' => Cmac.AES_CMAC key (T key constant i' ++ constant ++ [Z.of_nat i])
  end.

Context {HC : BlockCipherOk C}.

Lemma T_block key c i :
  length key = 16%nat -> bytes key -> bytes c -> (i < 255)%nat ->
  bytes (T key c i) /\ (0 < i -> length (T key c i) = 16)%nat.
Proof.
  intros Hk Hb Hc. induction i as [|i IH]; intros Hi; [split; [constructor|lia]|].
  destruct IH as [IH _]; [lia|].
  destruct (Cmac.AES_CMAC_block key (T key c i ++ c ++ [Z.of_nat (S i)])) as [HL HB]; [done|done| |done].
  apply bytes_app. split; [done|]. apply bytes_app. split; [done|].
  apply bytes_cons; [unfold is_byte; lia|constructor].
Qed.

(** The expansion is the documented chain, and its parts are keys of the sizes the callers use. *)
Lemma expand_chain key c :
  length key = 16%nat -> bytes key -> length c = 15%nat -> bytes c ->
  generic_expand key c = (T key c 1, T key c 2 ++ T key c 3, T key c 4) /\
  length (T key c 1) = 16%nat /\ length (T key c 2 ++ T key c 3) = 32%nat /\
  length (T key c 4) = 16%nat /\
  bytes (T key c 1) /\ bytes (T key c 2 ++ T key c 3) /\ bytes (T key c 4).
Proof.
  intros Hk Hb Hc Hcb.
  destruct (T_block key c 1) as [B1 L1]; [done..|lia|]. destruct (T_block key c 2) as [B2 L2]; [done..|lia|].
  destruct (T_block key c 3) as [B3 L3]; [done..|lia|]. destruct (T_block key c 4) as [B4 L4]; [done..|lia|].
  specialize (L1 ltac:(lia)). specialize (L2 ltac:(lia)). specialize (L3 ltac:(lia)). specialize (L4 ltac:(lia)).
  assert (Hstep : forall i z, (length (T key c i) = 16)%nat -> z = Z.of_nat (S i) ->
    Cmac.aes_cmac_calculate key (T key c i ++ c ++ [z]) 32 = T key c (S i)).
  { intros i z Hi ->. rewrite NextNonce.cmac32 by (rewrite ?length_app, ?Hi, ?Hc; done). done. }
  unfold generic_expand. rewrite !take_ge by lia.
  assert (Cmac.aes_cmac_calculate key (c ++ [1]) 16 = T key c 1) as ->.
  { pose proof (Cmac.cmac_correct key (c ++ [1])) as E. rewrite length_app, Hc in E.
    cbn [length Nat.add] in E. apply E; [done|done|lia]. }
  rewrite (Hstep 1%nat 2), (Hstep 2%nat 3), (Hstep 3%nat 4) by done.
  split; [done|]. rewrite length_app. split; [done|]. split; [lia|]. split; [done|].
  split; [done|]. split; [by apply bytes_app|done].
Qed.

(** Expanding a network key gives the documented chain T1 | T2 | T3 | T4 over the constant
    0x55^15: CCM key T1, personalization string T2|T3, MPAN key T4. *)
Theorem networkkey_expand_spec key :
  length key = 16%nat -> bytes key ->
  let c := replicate 15 0x55 in
  networkkey_expand key = (T key c 1, T key c 2 ++ T key c 3, T key c 4).
Proof. intros. apply expand_chain; try done. by apply bytes_replicate. Qed.

Lemma tempkey_extract_block secret auth_tag :
  length secret = 32%nat -> length auth_tag = 64%nat -> bytes secret -> bytes auth_tag ->
  tempkey_extract secret auth_tag = Cmac.AES_CMAC (replicate 16 0x33) (secret ++ auth_tag) /\
  length (tempkey_extract secret auth_tag) = 16%nat /\ bytes (tempkey_extract secret auth_tag).
Proof.
  intros Hs Ha Bs Ba.
  assert (E : tempkey_extract secret auth_tag = Cmac.AES_CMAC (replicate 16 0x33) (secret ++ auth_tag)).
  { unfold tempkey_extract. rewrite !take_ge by lia.
    rewrite <- Cmac.cmac_correct, length_app, Hs, Ha; try done; [by apply bytes_replicate|].
    rewrite length_app. lia. }
  split; [done|]. rewrite E. apply Cmac.AES_CMAC_block; [done|by apply bytes_replicate|by apply bytes_app].
Qed.

(** The temporary key of the inclusion: PRK = CMAC(0x33^16, shared secret | public keys), and
    its expansion with the constant 0x88^15. *)
Theorem tempkey_spec secret auth_tag :
  length secret = 32%nat -> length auth_tag = 64%nat -> bytes secret -> bytes auth_tag ->
  let prk := Cmac.AES_CMAC (replicate 16 0x33) (secret ++ auth_tag) in
  let c := replicate 15 0x88 in
  tempkey_extract secret auth_tag = prk /\
  tempkey_expand prk = (T prk c 1, T prk c 2 ++ T prk c 3, T prk c 4).
Proof.
  intros Hs Ha Bs Ba prk c. destruct (tempkey_extract_block secret auth_tag) as (E & HL & HB); [done..|].
  split; [done|]. rewrite E in HL, HB. apply expand_chain; try done. by apply bytes_replicate.
Qed.
End Kderiv.

Lemma networkkey_expand_spec_witness :
  networkkey_expand Cmac.rfc_key =
    (T Cmac.rfc_key (replicate 15 0x55) 1,
     T Cmac.rfc_key (replicate 15 0x55) 2 ++ T Cmac.rfc_key (replicate 15 0x55) 3,
     T Cmac.rfc_key (replicate 15 0x55) 4).
Proof. apply networkkey_expand_spec; [reflexivity|apply (bool_decide_unpack _); vm_compute; exact I]. Defined.

Lemma tempkey_spec_witness :
  let prk := Cmac.AES_CMAC (replicate 16 0x33) (replicate 32 1 ++ replicate 64 2) in
  tempkey_extract (replicate 32 1) (replicate 64 2) = prk /\
  tempkey_expand prk =
    (T prk (replicate 15 0x88) 1, T prk (replicate 15 0x88) 2 ++ T prk (replicate 15 0x88) 3,
     T prk (replicate 15 0x88) 4).
Proof.
  apply tempkey_spec; try reflexivity; apply (bool_decide_unpack _); vm_compute; exact I.
Defined.
End Kderiv.
