(* ===== verification/Bigint.v ===== *)
(** * Little-endian multi-precision arithmetic (libs2/crypto/curve25519/generic/bigint.c)

    Addition, subtraction, schoolbook and Karatsuba multiplication and the conditional move on
    byte arrays, least significant byte first, with the 16-bit intermediate of the code.  The
    theorems give each routine its arithmetic meaning. *)
From S2P Require Import Prelude.

Module Bigint.

(** The loop of [bigint_add] with the running [tmp]; both operands have [len] bytes. *)
Fixpoint add_loop (a b : list Z) (tmp : Z) : list Z * Z :=
  match a, b with
  | x :: a', y :: b' =>
      let tmp := u16 (x + y + tmp) in
      let '(r, c) := add_loop a' b' (Z.shiftr tmp 8) in
      (Z.land tmp 0xff :: r, c)
  | _, _ => ([], tmp)
  end.

Definition bigint_add (a b : list Z) : list Z * Z :=
  let '(r, tmp) := add_loop a b 0 in (r, u8 tmp).

Fixpoint sub_loop (a b : list Z) (tmp : Z) : list Z * Z :=
  match a, b with
  | x :: a', y :: b' =>
      let tmp := u16 (x - y - tmp) in
      let '(r, c) := sub_loop a' b' (Z.shiftr tmp 15) in
      (Z.land tmp 0xff :: r, c)
  | _, _ => ([], tmp)
  end.

Definition bigint_sub (a b : list Z) : list Z * Z :=
  let '(r, tmp) := sub_loop a b 0 in (r, u8 tmp).

(** The inner loop of [bigint_mul]: row [x] times [b], onto the bytes [r] from position [i]; the
    last carry [t >> 8] goes to [r[i + len]]. *)
Fixpoint mul_row (x : Z) (b r : list Z) (t : Z) : list Z :=
  match b, r with
  | y :: b', z :: r' =>
      let t := u16 (z + x * y + Z.shiftr t 8) in
      Z.land t 0xff :: mul_row x b' r' t
  | [], _ :: r' => Z.shiftr t 8 :: r'
  | _, [] => []
  end.

(** The outer loop: one row per byte of [a], each one byte further up. *)
Fixpoint mul_rows (a b r : list Z) : list Z :=
  match a, mul_row (hd 0 a) b r 0 with
  | _ :: a', z :: r' => z :: mul_rows a' b r'
  | _, _ => r
  end.

Definition bigint_mul (a b : list Z) : list Z :=
  mul_rows a b (replicate (length a + length a) 0).

Definition bigint_cmov (r x : list Z) (b : Z) : list Z :=
  let mask := u8 (- b) in
  zip_with (fun ri xi => Z.lxor ri (Z.land mask (Z.lxor xi ri))) r x.

(** The carry [u] run through the bytes [l], the loop at the end of the Karatsuba products. *)
Fixpoint carry_loop (l : list Z) (u : Z) : list Z :=
  match l with
  | [] => []
  | x :: l' => let u := u + x in Z.land u 0xff :: carry_loop l' (Z.shiftr u 8)
  end.

(** [u = bigint_add(r + off, r + off, t, n)] and the carry to the end of [r]. *)
Definition add_at (off n : nat) (r t : list Z) : list Z :=
  let '(m, u) := bigint_add (sub off n r) (take n t) in
  take off r ++ m ++ carry_loop (drop (off + n) r) u.

(** [t[n] -= bigint_sub(t, t, x, n)]: the byte after the difference takes the borrow. *)
Definition sub_borrow (n : nat) (t x : list Z) : list Z :=
  let '(m, c) := bigint_sub (take n t) (take n x) in
  m ++ u8 (at_ t n - c) :: drop (S n) t.

Definition bigint_mul16 (a b : list Z) : list Z :=
  let r := bigint_mul (take 8 a) (take 8 b) ++ bigint_mul (sub 8 8 a) (sub 8 8 b) in
  let '(s0, c0) := bigint_add (take 8 a) (sub 8 8 a) in
  let '(s1, c1) := bigint_add (take 8 b) (sub 8 8 b) in
  let t := bigint_mul (s0 ++ [c0]) (s1 ++ [c1]) in
  let t := sub_borrow 16 t r in
  let t := sub_borrow 16 t (drop 16 r) in
  add_at 8 17 r t.

(** The 17-byte product.  [u] is an [int]: [u >>= 15] is -1 after a borrow. *)
Definition bigint_mul16c (a b : list Z) : list Z :=
  let r := bigint_mul (take 8 a) (take 8 b) ++ bigint_mul (sub 8 9 a) (sub 8 9 b) in
  let '(s0, c0) := bigint_add (take 8 a) (sub 8 8 a) in
  let '(s1, c1) := bigint_add (take 8 b) (sub 8 8 b) in
  let t := bigint_mul (s0 ++ [u8 (at_ a 16 + c0)]) (s1 ++ [u8 (at_ b 16 + c1)]) in
  let t := sub_borrow 17 t (drop 16 r) in
  let '(m, c) := bigint_sub (take 16 t) (take 16 r) in
  let u := at_ t 16 - c in
  let t := m ++ [Z.land u 0xff; u8 (at_ t 17 - Z.shiftr u 15)] in
  add_at 8 17 r t.

Definition bigint_mul32 (a b : list Z) : list Z :=
  let r := bigint_mul16 (take 16 a) (take 16 b) ++ bigint_mul16 (sub 16 16 a) (sub 16 16 b) in
  let '(s0, c0) := bigint_add (take 16 a) (sub 16 16 a) in
  let '(s1, c1) := bigint_add (take 16 b) (sub 16 16 b) in
  let t := bigint_mul16c (s0 ++ [c0]) (s1 ++ [c1]) in
  let t := sub_borrow 32 t r in
  let t := sub_borrow 32 t (drop 32 r) in
  add_at 16 33 r t.

Lemma land_255 z : Z.land z 0xff = u8 z.
Proof. change 0xff with (Z.ones 8). by rewrite Z.land_ones. Qed.

Lemma shiftr_8 z : Z.shiftr z 8 = z `div` 256.
Proof. by rewrite Z.shiftr_div_pow2. Qed.

Lemma byte_split z : z = u8 z + 256 * (z `div` 256).
Proof. unfold u8. pose proof (Z.div_mod z 256). lia. Qed.

Lemma add_loop_spec a : forall b tmp,
  length a = length b -> bytes a -> bytes b -> 0 <= tmp <= 1 ->
  let '(r, c) := add_loop a b tmp in
  length r = length a /\ bytes r /\ 0 <= c <= 1 /\
  le_val r + 256 ^ Z.of_nat (length a) * c = le_val a + le_val b + tmp.
Proof.
  induction a as [|x a IH]; intros [|y b] tmp Hl Ha Hb Ht; try discriminate.
  { simpl. repeat split; [constructor|lia|lia|lia]. }
  apply bytes_cons_inv in Ha as [Hx Ha], Hb as [Hy Hb]. unfold is_byte in Hx, Hy.
  injection Hl as Hl. cbn [add_loop]. rewrite u16_small, land_255, shiftr_8 by lia.
  pose proof (byte_split (x + y + tmp)) as Hsp. pose proof (u8_byte (x + y + tmp)) as Hu.
  set (s := x + y + tmp) in *.
  assert (0 <= s `div` 256 <= 1) by (unfold is_byte in Hu; lia).
  specialize (IH b (s `div` 256) Hl Ha Hb ltac:(done)).
  destruct (add_loop a b (s `div` 256)) as [r c]. destruct IH as (Hr & Hrb & Hc & E).
  split; [by simpl; rewrite Hr|]. split; [auto with zw|]. split; [done|].
  cbn [le_val length]. rewrite pow256_succ. lia.
Qed.

Lemma sub_loop_spec a : forall b tmp,
  length a = length b -> bytes a -> bytes b -> 0 <= tmp <= 1 ->
  let '(r, c) := sub_loop a b tmp in
  length r = length a /\ bytes r /\ 0 <= c <= 1 /\
  le_val r - 256 ^ Z.of_nat (length a) * c = le_val a - le_val b - tmp.
Proof.
  induction a as [|x a IH]; intros [|y b] tmp Hl Ha Hb Ht; try discriminate.
  { simpl. repeat split; [constructor|lia|lia|lia]. }
  apply bytes_cons_inv in Ha as [Hx Ha], Hb as [Hy Hb]. unfold is_byte in Hx, Hy.
  injection Hl as Hl. cbn [sub_loop]. rewrite land_255, Z.shiftr_div_pow2 by lia.
  change (2 ^ 15) with 32768. set (s := x - y - tmp) in *.
  assert (Hs : u8 (u16 s) = u8 s /\ u16 s `div` 32768 = if s <? 0 then 1 else 0).
  { unfold u16. destruct (Z.ltb_spec s 0).
    - rewrite <- (Z.mod_unique s 65536 (-1) (s + 65536)) by lia.
      split; [|symmetry; apply (Z.div_unique _ _ 1 (s + 32768)); lia].
      unfold u8. replace (s + 65536) with (s + 256 * 256) by lia. by rewrite Z.mod_add.
    - rewrite Z.mod_small by lia. split; [done|apply Z.div_small; lia]. }
  destruct Hs as [-> ->].
  pose proof (byte_split s) as Hsp. pose proof (u8_byte s) as Hu. unfold is_byte in Hu.
  specialize (IH b (if s <? 0 then 1 else 0) Hl Ha Hb ltac:(destruct (s <? 0); lia)).
  destruct (sub_loop a b _) as [r c]. destruct IH as (Hr & Hrb & Hc & E).
  split; [by simpl; rewrite Hr|]. split; [apply bytes_cons; [apply u8_byte|done]|]. split; [done|].
  cbn [le_val length]. rewrite pow256_succ. destruct (Z.ltb_spec s 0); lia.
Qed.

(** ** Meaning of the routines *)

Lemma le_val_app a b : le_val (a ++ b) = le_val a + 256 ^ Z.of_nat (length a) * le_val b.
Proof.
  induction a as [|x a IH]; [cbn [app le_val length]; change (256 ^ Z.of_nat 0) with 1; lia|]. cbn [app le_val length]. rewrite IH, pow256_succ. lia.
Qed.

Lemma le_val_split n l : le_val l = le_val (take n l) + 256 ^ Z.of_nat (length (take n l)) * le_val (drop n l).
Proof. by rewrite <- le_val_app, take_drop. Qed.

(** A value that fits the first [n] bytes is their value. *)
Lemma le_val_low n l : bytes l -> (n <= length l)%nat -> le_val l < 256 ^ Z.of_nat n -> le_val (take n l) = le_val l.
Proof.
  intros Hl Hn Hv. pose proof (le_val_split n l) as E. rewrite length_take, Nat.min_l in E by lia.
  pose proof (le_val_bound (take n l) (bytes_take n l Hl)). pose proof (le_val_bound (drop n l) (bytes_drop n l Hl)).
  pose proof (pow256_pos n). assert (le_val (drop n l) = 0) as E0 by nia. rewrite E0 in E. lia.
Qed.

Lemma add_spec a b :
  length a = length b -> bytes a -> bytes b ->
  let '(r, c) := bigint_add a b in
  length r = length a /\ bytes r /\ 0 <= c <= 1 /\ le_val r + 256 ^ Z.of_nat (length a) * c = le_val a + le_val b.
Proof.
  intros Hl Ha Hb. unfold bigint_add. pose proof (add_loop_spec a b 0 Hl Ha Hb ltac:(lia)) as H.
  destruct (add_loop a b 0) as [r c]. destruct H as (? & ? & ? & E). unfold u8. rewrite Z.mod_small by lia.
  split_and!; try done; lia.
Qed.

Lemma sub_spec a b :
  length a = length b -> bytes a -> bytes b ->
  let '(r, c) := bigint_sub a b in
  length r = length a /\ bytes r /\ 0 <= c <= 1 /\ le_val r - 256 ^ Z.of_nat (length a) * c = le_val a - le_val b.
Proof.
  intros Hl Ha Hb. unfold bigint_sub. pose proof (sub_loop_spec a b 0 Hl Ha Hb ltac:(lia)) as H.
  destruct (sub_loop a b 0) as [r c]. destruct H as (? & ? & ? & E). unfold u8. rewrite Z.mod_small by lia.
  split_and!; try done; lia.
Qed.

(** One row of the schoolbook product: [z] is overwritten by the last carry. *)
Lemma mul_row_spec x b : forall r1 z r2 t,
  is_byte x -> bytes b -> bytes r1 -> length r1 = length b -> 0 <= t < 65536 ->
  exists row c, mul_row x b (r1 ++ z :: r2) t = row ++ c :: r2 /\ length row = length b /\ bytes row /\ is_byte c /\
    le_val row + 256 ^ Z.of_nat (length b) * c = le_val r1 + x * le_val b + t `div` 256.
Proof.
  induction b as [|y b IH]; intros [|w r1] z r2 t Hx Hb Hr HL Ht; try discriminate.
  { exists [], (t `div` 256). cbn [mul_row app length le_val]. rewrite shiftr_8.
    pose proof (byte_split t) as Hsp. pose proof (u8_byte t) as Hu. unfold is_byte in *.
    split; [done|]. split; [done|]. split; [by constructor|]. change (256 ^ Z.of_nat 0) with 1. split; lia. }
  apply bytes_cons_inv in Hb as [Hy Hb], Hr as [Hw Hr]. injection HL as HL. unfold is_byte in *.
  cbn [app mul_row]. rewrite shiftr_8. set (t' := w + x * y + t `div` 256).
  pose proof (byte_split t) as Hsp. pose proof (u8_byte t) as Hu. unfold is_byte in Hu.
  assert (Ht' : 0 <= t' < 65536) by (unfold t'; nia). rewrite u16_small by done.
  destruct (IH r1 z r2 t' Hx Hb Hr HL Ht') as (row & c & -> & HLr & HBr & Hc & E).
  exists (Z.land t' 0xff :: row), c. rewrite land_255.
  split; [done|]. split; [simpl; by rewrite HLr|]. split; [by auto with zw|]. split; [done|].
  cbn [le_val length]. rewrite pow256_succ. pose proof (byte_split t'). unfold t' in *. nia.
Qed.

Lemma mul_rows_spec a b : forall r1,
  bytes a -> bytes b -> bytes r1 -> length r1 = length b -> (0 < length b)%nat ->
  let r := mul_rows a b (r1 ++ replicate (length a) 0) in
  length r = (length b + length a)%nat /\ bytes r /\ le_val r = le_val r1 + le_val a * le_val b.
Proof.
  induction a as [|x a IH]; intros r1 Ha Hb Hr HL H0.
  { cbn [mul_rows length replicate hd le_val]. rewrite app_nil_r. split_and!; [lia|done|lia]. }
  apply bytes_cons_inv in Ha as [Hx Ha]. cbn [mul_rows length replicate hd].
  destruct (mul_row_spec x b r1 0 (replicate (length a) 0) 0 Hx Hb Hr HL ltac:(lia)) as (row & c & -> & HLr & HBr & Hc & E).
  destruct row as [|z row]; [simpl in HLr; lia|]. apply bytes_cons_inv in HBr as [Hz HBr]. cbn [app].
  replace (row ++ c :: replicate (length a) 0) with ((row ++ [c]) ++ replicate (length a) 0) by (by rewrite <- app_assoc).
  destruct (IH (row ++ [c])) as (HL' & HB' & E'); try done.
  - apply bytes_app. split; [done|]. by auto with zw.
  - rewrite length_app. simpl in *. lia.
  - set (rr := mul_rows _ _ _) in *. split_and!.
    + simpl. rewrite HL'. lia.
    + by auto with zw.
    + cbn [le_val]. rewrite E'. cbn [le_val] in E. rewrite <- HLr in E. cbn [length] in E.
      rewrite pow256_succ in E. rewrite le_val_app. cbn [le_val]. rewrite Z.div_0_l in E by lia. nia.
Qed.

Lemma mul_spec a b :
  length a = length b -> bytes a -> bytes b -> (0 < length a)%nat ->
  length (bigint_mul a b) = (length a + length a)%nat /\ bytes (bigint_mul a b) /\
  le_val (bigint_mul a b) = le_val a * le_val b.
Proof.
  intros HL Ha Hb H0. unfold bigint_mul. rewrite replicate_add.
  destruct (mul_rows_spec a b (replicate (length a) 0)) as (H1 & H2 & H3); try done.
  - by apply bytes_replicate.
  - by rewrite length_replicate.
  - lia.
  - split_and!; [lia|done|]. rewrite H3.
    assert (E : forall n, le_val (replicate n 0) = 0) by (induction n as [|n IHn]; simpl; [done|rewrite IHn; done]).
    rewrite E. lia.
Qed.

Lemma carry_loop_spec l : forall u,
  bytes l -> 0 <= u <= 1 ->
  length (carry_loop l u) = length l /\ bytes (carry_loop l u) /\
  exists c, 0 <= c <= 1 /\ le_val (carry_loop l u) + 256 ^ Z.of_nat (length l) * c = le_val l + u.
Proof.
  induction l as [|x l IH]; intros u Hl Hu.
  { split_and!; [done|constructor|]. exists u. cbn [carry_loop le_val length]. change (256 ^ Z.of_nat 0) with 1. lia. }
  apply bytes_cons_inv in Hl as [Hx Hl]. unfold is_byte in Hx. cbn [carry_loop]. rewrite land_255, shiftr_8.
  pose proof (byte_split (u + x)). pose proof (u8_byte (u + x)) as Hb. unfold is_byte in Hb.
  destruct (IH ((u + x) `div` 256) Hl ltac:(lia)) as (H1 & H2 & c & Hc & E).
  split_and!; [simpl; by rewrite H1|by auto with zw|]. exists c. split; [done|].
  cbn [le_val length]. rewrite pow256_succ. lia.
Qed.

(** [r + 256^off * t] when it fits. *)
Lemma add_at_spec off n r t :
  (off + n <= length r)%nat -> (n <= length t)%nat -> bytes r -> bytes t ->
  le_val r + 256 ^ Z.of_nat off * le_val (take n t) < 256 ^ Z.of_nat (length r) ->
  length (add_at off n r t) = length r /\ bytes (add_at off n r t) /\
  le_val (add_at off n r t) = le_val r + 256 ^ Z.of_nat off * le_val (take n t).
Proof.
  intros HL Hn Hr Ht Hfit. unfold add_at.
  assert (L1 : length (sub off n r) = n) by (rewrite length_sub; lia).
  assert (L2 : length (take n t) = n) by (rewrite length_take; lia).
  pose proof (add_spec (sub off n r) (take n t) ltac:(lia) ltac:(auto with zw) ltac:(auto with zw)) as HA.
  destruct (bigint_add (sub off n r) (take n t)) as [m u]. destruct HA as (Lm & Bm & Hu & Em).
  destruct (carry_loop_spec (drop (off + n) r) u ltac:(auto with zw) Hu) as (Lc & Bc & c & Hc & Ec).
  rewrite length_drop in Lc, Ec. rewrite L1 in Lm, Em.
  assert (LL : length (take off r ++ m ++ carry_loop (drop (off + n) r) u) = length r).
  { rewrite !length_app, length_take, Lm, Lc. lia. }
  assert (BB : bytes (take off r ++ m ++ carry_loop (drop (off + n) r) u)) by (apply bytes_app; split; [auto with zw|]; by apply bytes_app).
  split; [done|]. split; [done|].
  assert (Er : le_val r = le_val (take off r) + 256 ^ Z.of_nat off *
    (le_val (sub off n r) + 256 ^ Z.of_nat n * le_val (drop (off + n) r))).
  { rewrite (le_val_split off r) at 1. rewrite length_take, Nat.min_l by lia. f_equal. f_equal.
    rewrite (le_val_split n (drop off r)) at 1. rewrite length_take, length_drop, Nat.min_l, drop_drop by lia. done. }
  pose proof (le_val_bound _ BB) as Hb. rewrite LL in Hb. rewrite !le_val_app, Lm in Hb |- *.
  rewrite length_take, Nat.min_l in Hb |- * by lia.
  assert (Ep : 256 ^ Z.of_nat (length r) = 256 ^ Z.of_nat off * (256 ^ Z.of_nat n * 256 ^ Z.of_nat (length r - (off + n)))).
  { rewrite <- !Z.pow_add_r by lia. f_equal. lia. }
  set (P := 256 ^ Z.of_nat off) in *. set (Q := 256 ^ Z.of_nat n) in *. set (R := 256 ^ Z.of_nat (length r - (off + n))) in *.
  assert (Ev : le_val (take off r) + P * (le_val m + Q * le_val (carry_loop (drop (off + n) r) u)) + P * (Q * R) * c =
    le_val r + P * le_val (take n t)) by (rewrite Er; nia).
  pose proof (pow256_pos (length r)). rewrite Ep in *. assert (c = 0) by nia. subst c. lia.
Qed.

Lemma take_S_at (l : list Z) n : (n < length l)%nat -> take (S n) l = take n l ++ [at_ l n].
Proof.
  intros H. unfold at_. destruct (lookup_lt_is_Some_2 l n H) as [x Hx]. rewrite Hx. by apply take_S_r.
Qed.

(** The difference of the first [n + 1] bytes of [t] and the first [n] of [x], when it is not negative. *)
Lemma sub_borrow_spec n t x :
  (n < length t)%nat -> (n <= length x)%nat -> bytes t -> bytes x -> le_val (take n x) <= le_val (take (S n) t) ->
  length (sub_borrow n t x) = length t /\ bytes (sub_borrow n t x) /\
  le_val (take (S n) (sub_borrow n t x)) = le_val (take (S n) t) - le_val (take n x).
Proof.
  intros HL Hx Ht Hxb Hle. unfold sub_borrow.
  assert (L1 : length (take n t) = n) by (rewrite length_take; lia).
  assert (L2 : length (take n x) = n) by (rewrite length_take; lia).
  pose proof (sub_spec (take n t) (take n x) ltac:(lia) ltac:(auto with zw) ltac:(auto with zw)) as HS.
  destruct (bigint_sub (take n t) (take n x)) as [m c]. destruct HS as (Lm & Bm & Hc & Em). rewrite L1 in Lm, Em.
  split; [rewrite length_app, Lm; cbn [length]; rewrite length_drop; lia|].
  split; [apply bytes_app; split; [done|]; by auto with zw|].
  assert (E1 : take (S n) (m ++ u8 (at_ t n - c) :: drop (S n) t) = m ++ [u8 (at_ t n - c)]).
  { change (m ++ u8 (at_ t n - c) :: drop (S n) t) with (m ++ [u8 (at_ t n - c)] ++ drop (S n) t).
    rewrite app_assoc, take_app_length'; [done|]. rewrite length_app, Lm. simpl. lia. }
  rewrite E1, (take_S_at t n HL), !le_val_app, Lm, L1 in *. cbn [le_val] in *.
  pose proof (at_byte t n Ht) as Hb. unfold is_byte in Hb.
  pose proof (le_val_bound _ Bm) as Hmb. rewrite Lm in Hmb. pose proof (pow256_pos n).
  assert (0 <= at_ t n - c) by nia. unfold u8. rewrite Z.mod_small by lia. nia.
Qed.

(** The two halves of an operand. *)
Lemma halves n l : (n <= length l)%nat ->
  le_val l = le_val (take n l) + 256 ^ Z.of_nat n * le_val (sub n (length l - n) l).
Proof.
  intros H. rewrite (le_val_split n l) at 1. rewrite length_take, Nat.min_l by done. unfold sub.
  by rewrite (take_ge (drop n l)) by (rewrite length_drop; lia).
Qed.

(** The sum of two halves with its carry as the last byte. *)
Lemma sum_spec a b k :
  length a = length b -> bytes a -> bytes b -> 0 <= k <= 1 ->
  let '(s, c) := bigint_add a b in
  length (s ++ [u8 (k + c)]) = S (length a) /\ bytes (s ++ [u8 (k + c)]) /\
  le_val (s ++ [u8 (k + c)]) = le_val a + le_val b + 256 ^ Z.of_nat (length a) * k.
Proof.
  intros HL Ha Hb Hk. pose proof (add_spec a b HL Ha Hb) as H. destruct (bigint_add a b) as [s c].
  destruct H as (Ls & Bs & Hc & E). split; [rewrite length_app, Ls; simpl; lia|].
  split; [apply bytes_app; split; [done|by auto with zw]|].
  rewrite le_val_app, Ls. cbn [le_val]. unfold u8. rewrite Z.mod_small by lia. lia.
Qed.

Lemma sum_carry c : 0 <= c <= 1 -> u8 (0 + c) = c.
Proof. intros. unfold u8. rewrite Z.mod_small; lia. Qed.

(** The step all three products share: with the products of the low halves and of the high halves in
    [r] and the mixed terms in the first [n] bytes of [t], adding [t] at [off] gives the product. *)
Lemma karatsuba off n r t a0 a1 b0 b1 :
  (off + n <= length r)%nat -> (n <= length t)%nat -> bytes r -> bytes t ->
  le_val r = a0 * b0 + 256 ^ Z.of_nat off * 256 ^ Z.of_nat off * (a1 * b1) ->
  le_val (take n t) = a0 * b1 + a1 * b0 ->
  (a0 + 256 ^ Z.of_nat off * a1) * (b0 + 256 ^ Z.of_nat off * b1) < 256 ^ Z.of_nat (length r) ->
  length (add_at off n r t) = length r /\ bytes (add_at off n r t) /\
  le_val (add_at off n r t) = (a0 + 256 ^ Z.of_nat off * a1) * (b0 + 256 ^ Z.of_nat off * b1).
Proof.
  intros HL Hn Hr Ht Er Et Hfit.
  assert (E : le_val r + 256 ^ Z.of_nat off * le_val (take n t) =
    (a0 + 256 ^ Z.of_nat off * a1) * (b0 + 256 ^ Z.of_nat off * b1)) by (rewrite Er, Et; ring).
  destruct (add_at_spec off n r t HL Hn Hr Ht) as (H1 & H2 & H3); [lia|].
  split; [done|]. split; [done|]. by rewrite H3, E.
Qed.

Lemma le_val_range l n : bytes l -> length l = n -> 0 <= le_val l < 256 ^ Z.of_nat n.
Proof. intros Hb <-. by apply le_val_bound. Qed.

(** The products of two equal halves of [h] bytes. *)
Lemma karatsuba_even h r0 r1 t a0 a1 b0 b1 :
  (0 < h)%nat -> length r0 = (2 * h)%nat -> length r1 = (2 * h)%nat -> (2 * h + 1 <= length t)%nat ->
  bytes r0 -> bytes r1 -> bytes t ->
  0 <= a0 < 256 ^ Z.of_nat h -> 0 <= a1 < 256 ^ Z.of_nat h -> 0 <= b0 < 256 ^ Z.of_nat h -> 0 <= b1 < 256 ^ Z.of_nat h ->
  le_val r0 = a0 * b0 -> le_val r1 = a1 * b1 -> le_val t = (a0 + a1) * (b0 + b1) ->
  let r := r0 ++ r1 in
  let p := add_at h (2 * h + 1) r (sub_borrow (2 * h) (sub_borrow (2 * h) t r) (drop (2 * h) r)) in
  length p = (4 * h)%nat /\ bytes p /\
  le_val p = (a0 + 256 ^ Z.of_nat h * a1) * (b0 + 256 ^ Z.of_nat h * b1).
Proof.
  intros Hh L0 L1 Lt B0 B1 Bt Ha0 Ha1 Hb0 Hb1 E0 E1 Et r p.
  assert (Lr : length r = (4 * h)%nat) by (unfold r; rewrite length_app; lia).
  assert (Br : bytes r) by (by apply bytes_app).
  assert (Elo : take (2 * h) r = r0) by (unfold r; by rewrite take_app_length').
  assert (Ehi : drop (2 * h) r = r1) by (unfold r; by rewrite drop_app_length').
  assert (EB : 256 ^ Z.of_nat (2 * h) = 256 ^ Z.of_nat h * 256 ^ Z.of_nat h) by (rewrite <- Z.pow_add_r by lia; f_equal; lia).
  assert (EB1 : 256 ^ Z.of_nat (S (2 * h)) = 256 * (256 ^ Z.of_nat h * 256 ^ Z.of_nat h)) by (by rewrite pow256_succ, EB).
  assert (EB4 : 256 ^ Z.of_nat (4 * h) = 256 ^ Z.of_nat (2 * h) * 256 ^ Z.of_nat (2 * h)) by (rewrite <- Z.pow_add_r by lia; f_equal; lia).
  set (B := 256 ^ Z.of_nat h) in *.
  assert (Et1 : le_val (take (S (2 * h)) t) = (a0 + a1) * (b0 + b1)) by (rewrite le_val_low; [done|done|lia|]; nia).
  destruct (sub_borrow_spec (2 * h) t r) as (Lt1 & Bt1 & Ev1); [lia|lia|done|done|rewrite Elo, Et1; nia|].
  rewrite Elo, Et1 in Ev1. set (t1 := sub_borrow (2 * h) t r) in *.
  destruct (sub_borrow_spec (2 * h) t1 (drop (2 * h) r)) as (Lt2 & Bt2 & Ev2); [lia|rewrite Ehi; lia|done|auto with zw| |].
  { rewrite Ehi, (take_ge r1), Ev1 by lia. nia. }
  rewrite Ehi, (take_ge r1), Ev1 in Ev2 by lia. rewrite Ehi in Lt2, Bt2.
  unfold p. rewrite Ehi, Nat.add_1_r.
  destruct (karatsuba h (S (2 * h)) r (sub_borrow (2 * h) t1 r1) a0 a1 b0 b1) as (H1 & H2 & H3); try done; try lia.
  - unfold r. rewrite le_val_app, L0, EB. fold B. nia.
  - fold B. rewrite Lr, EB4, EB. assert (0 <= a0 + B * a1 < B * B) by nia. assert (0 <= b0 + B * b1 < B * B) by nia.
    nia.
  - split; [exact (eq_trans H1 Lr)|]. by split.
Qed.

(** An operand of [h + k] bytes as its two halves. *)
Lemma split_halves h k l :
  length l = (h + k)%nat -> bytes l ->
  length (take h l) = h /\ length (sub h k l) = k /\ bytes (take h l) /\ bytes (sub h k l) /\
  le_val l = le_val (take h l) + 256 ^ Z.of_nat h * le_val (sub h k l).
Proof.
  intros HL HB. split; [rewrite length_take; lia|]. split; [rewrite length_sub; lia|].
  split; [auto with zw|]. split; [auto with zw|]. rewrite (halves h l) at 1 by lia.
  by replace (length l - h)%nat with k by lia.
Qed.

(** Both 16- and 32-byte products: [mul] multiplies the halves, [mul'] their sums. *)
Lemma even_product h (mul mul' : list Z -> list Z -> list Z) a b :
  (0 < h)%nat -> length a = (h + h)%nat -> length b = (h + h)%nat -> bytes a -> bytes b ->
  (forall x y, length x = h -> length y = h -> bytes x -> bytes y ->
     length (mul x y) = (2 * h)%nat /\ bytes (mul x y) /\ le_val (mul x y) = le_val x * le_val y) ->
  (forall x y, length x = S h -> length y = S h -> bytes x -> bytes y ->
     le_val x < 2 * 256 ^ Z.of_nat h -> le_val y < 2 * 256 ^ Z.of_nat h ->
     length (mul' x y) = (2 * h + 2)%nat /\ bytes (mul' x y) /\ le_val (mul' x y) = le_val x * le_val y) ->
  let r := mul (take h a) (take h b) ++ mul (sub h h a) (sub h h b) in
  let '(s0, c0) := bigint_add (take h a) (sub h h a) in
  let '(s1, c1) := bigint_add (take h b) (sub h h b) in
  let t := mul' (s0 ++ [c0]) (s1 ++ [c1]) in
  let p := add_at h (2 * h + 1) r (sub_borrow (2 * h) (sub_borrow (2 * h) t r) (drop (2 * h) r)) in
  length p = (4 * h)%nat /\ bytes p /\ le_val p = le_val a * le_val b.
Proof.
  intros Hh La Lb Ba Bb Hmul Hmul' r.
  destruct (split_halves h h a La Ba) as (La0 & La1 & Ba0 & Ba1 & Ea).
  destruct (split_halves h h b Lb Bb) as (Lb0 & Lb1 & Bb0 & Bb1 & Eb).
  destruct (Hmul (take h a) (take h b)) as (L0 & B0 & E0); [done..|].
  destruct (Hmul (sub h h a) (sub h h b)) as (L1 & B1 & E1); [done..|].
  pose proof (sum_spec (take h a) (sub h h a) 0 ltac:(congruence) Ba0 Ba1 ltac:(lia)) as S0.
  pose proof (sum_spec (take h b) (sub h h b) 0 ltac:(congruence) Bb0 Bb1 ltac:(lia)) as S1.
  pose proof (add_spec (take h a) (sub h h a) ltac:(congruence) Ba0 Ba1) as C0. pose proof (add_spec (take h b) (sub h h b) ltac:(congruence) Bb0 Bb1) as C1.
  destruct (bigint_add (take h a) _) as [s0 c0], (bigint_add (take h b) _) as [s1 c1].
  destruct C0 as (_ & _ & Hc0 & _), C1 as (_ & _ & Hc1 & _). rewrite sum_carry in S0, S1 by done.
  destruct S0 as (Ls0 & Bs0 & Es0), S1 as (Ls1 & Bs1 & Es1).
  pose proof (le_val_range _ h Ba0 La0). pose proof (le_val_range _ h Ba1 La1).
  pose proof (le_val_range _ h Bb0 Lb0). pose proof (le_val_range _ h Bb1 Lb1).
  destruct (Hmul' (s0 ++ [c0]) (s1 ++ [c1])) as (Lt & Bt & Et); [lia|lia|done|done|lia|lia|].
  rewrite Ea, Eb. apply karatsuba_even; try done; [lia|]. rewrite Et, Es0, Es1. ring.
Qed.

Lemma mul16_spec a b :
  length a = 16%nat -> length b = 16%nat -> bytes a -> bytes b ->
  length (bigint_mul16 a b) = 32%nat /\ bytes (bigint_mul16 a b) /\
  le_val (bigint_mul16 a b) = le_val a * le_val b.
Proof.
  intros La Lb Ba Bb. unfold bigint_mul16.
  pose proof (even_product 8 bigint_mul bigint_mul a b ltac:(lia) La Lb Ba Bb) as H. cbv zeta in H.
  destruct (bigint_add (take 8 a) _) as [s0 c0], (bigint_add (take 8 b) _) as [s1 c1]. apply H.
  - intros x y Lx Ly Bx By. destruct (mul_spec x y) as (? & ? & ?); [lia|done|done|lia|]. split; [lia|done].
  - intros x y Lx Ly Bx By _ _. destruct (mul_spec x y) as (? & ? & ?); [lia|done|done|lia|]. split; [lia|done].
Qed.

Lemma sub_1 (l : list Z) n : (n < length l)%nat -> sub n 1 l = [at_ l n].
Proof.
  intros H. unfold sub, at_. destruct (lookup_lt_is_Some_2 l n H) as [x Hx]. by rewrite (drop_S l x n Hx), Hx.
Qed.

(** The last byte of a 17-byte operand below [2 * 256^16]. *)
Lemma top_byte a :
  length a = 17%nat -> bytes a -> le_val a < 2 * 256 ^ Z.of_nat 16 ->
  0 <= at_ a 16 <= 1 /\ le_val (sub 8 9 a) = le_val (sub 8 8 a) + 256 ^ Z.of_nat 8 * at_ a 16.
Proof.
  intros La Ba Va. pose proof (at_byte a 16 Ba) as Hb. unfold is_byte in Hb.
  assert (E : le_val a = le_val (take 16 a) + 256 ^ Z.of_nat 16 * at_ a 16).
  { rewrite <- (take_ge a 17) at 1 by lia. rewrite take_S_at, le_val_app, length_take by lia.
    replace (16 `min` length a)%nat with 16%nat by lia. cbn [le_val]. lia. }
  split.
  - pose proof (le_val_range (take 16 a) 16 ltac:(auto with zw) ltac:(rewrite length_take; lia)).
    set (P := 256 ^ Z.of_nat 16) in *. assert (0 < P) by apply pow256_pos. nia.
  - change (sub 8 9 a) with (sub 8 (8 + 1) a). rewrite <- (sub_app 8 8 1 a), le_val_app, length_sub, sub_1 by lia.
    cbn [le_val]. change (8 + 8)%nat with 16%nat. lia.
Qed.

(** The 17-byte product, for operands whose last byte is at most 1. *)
(** Karatsuba's middle term: the product of the sums less the two products of halves. *)
Lemma middle_spec t r0 r1 a0 a1 b0 b1 : length t = 18%nat -> bytes t -> le_val t = (a0 + a1) * (b0 + b1) ->
  length r0 = 16%nat -> bytes r0 -> le_val r0 = a0 * b0 -> length r1 = 18%nat -> bytes r1 -> le_val r1 = a1 * b1 ->
  0 <= a0 < 256 ^ Z.of_nat 8 -> 0 <= b0 < 256 ^ Z.of_nat 8 -> 0 <= a1 < 2 * 256 ^ Z.of_nat 8 -> 0 <= b1 < 2 * 256 ^ Z.of_nat 8 ->
  let t1 := sub_borrow 17 t r1 in
  length t1 = 18%nat /\ bytes t1 /\
  let '(m, c) := bigint_sub (take 16 t1) r0 in length m = 16%nat /\ bytes m /\ le_val (m ++ [u8 (at_ t1 16 - c)]) = a0 * b1 + a1 * b0.
Proof.
  intros Lt Bt Et L0 B0 E0 L1 B1 E1 R0 R1 R2 R3 t1.
  assert (E17 : 256 ^ Z.of_nat 17 = 256 * (256 ^ Z.of_nat 8 * 256 ^ Z.of_nat 8)) by done.
  assert (HB : 256 ^ Z.of_nat 8 = 18446744073709551616) by done. set (B := 256 ^ Z.of_nat 8) in *.
  assert (Hr1 : a1 * b1 < 256 ^ Z.of_nat 17) by nia. assert (Ht : (a0 + a1) * (b0 + b1) < 256 ^ Z.of_nat 17) by nia.
  assert (E18 : le_val (take 18 t) = (a0 + a1) * (b0 + b1)) by (by rewrite take_ge by lia).
  assert (Er1 : le_val (take 17 r1) = a1 * b1) by (rewrite le_val_low; [done|done|lia|lia]).
  destruct (sub_borrow_spec 17 t r1) as (Lt1 & Bt1 & Ev1); [lia|lia|done|done|rewrite Er1, E18; nia|].
  rewrite Er1, E18 in Ev1. fold t1 in Lt1, Bt1, Ev1. rewrite (take_ge t1) in Ev1 by lia.
  assert (E17t : le_val (take 17 t1) = (a0 + a1) * (b0 + b1) - a1 * b1) by (rewrite le_val_low; [done|done|lia|nia]).
  assert (E16 : take 16 r0 = r0) by (by rewrite take_ge by lia).
  destruct (sub_borrow_spec 16 t1 r0) as (_ & _ & Ev2); [lia|lia|done|done|rewrite E16, E17t, E0; nia|].
  unfold sub_borrow in Ev2. rewrite E16, E17t, E0 in Ev2.
  pose proof (sub_spec (take 16 t1) r0 ltac:(rewrite length_take; lia) ltac:(auto with zw) B0) as HS.
  split; [lia|]. split; [done|]. destruct (bigint_sub (take 16 t1) r0) as [m c]. destruct HS as (Lm & Bm & _ & _).
  rewrite length_take, Lt1, Lt in Lm. change (16 `min` 18)%nat with 16%nat in Lm. split; [done|]. split; [done|].
  set (x := u8 (at_ t1 16 - c)) in *.
  assert (Etk : forall l, take 17 (m ++ x :: l) = m ++ [x]).
  { intros l. change (m ++ x :: l) with (m ++ [x] ++ l). rewrite app_assoc, take_app_length'; [done|]. rewrite length_app, Lm. done. }
  rewrite Etk in Ev2. rewrite Ev2. lia.
Qed.

Lemma mul16c_spec a b :
  length a = 17%nat -> length b = 17%nat -> bytes a -> bytes b ->
  le_val a < 2 * 256 ^ Z.of_nat 16 -> le_val b < 2 * 256 ^ Z.of_nat 16 ->
  length (bigint_mul16c a b) = 34%nat /\ bytes (bigint_mul16c a b) /\
  le_val (bigint_mul16c a b) = le_val a * le_val b.
Proof.
  intros La Lb Ba Bb Va Vb. unfold bigint_mul16c.
  destruct (split_halves 8 9 a La Ba) as (La0 & La1 & Ba0 & Ba1 & Ea).
  destruct (split_halves 8 9 b Lb Bb) as (Lb0 & Lb1 & Bb0 & Bb1 & Eb).
  destruct (mul_spec (take 8 a) (take 8 b)) as (L0 & B0 & E0); [lia|done|done|lia|].
  destruct (mul_spec (sub 8 9 a) (sub 8 9 b)) as (L1 & B1 & E1); [lia|done|done|lia|].
  destruct (top_byte a La Ba Va) as [Ta Ha]. destruct (top_byte b Lb Bb Vb) as [Tb Hb].
  assert (La2 : length (sub 8 8 a) = 8%nat) by (rewrite length_sub; lia).
  assert (Lb2 : length (sub 8 8 b) = 8%nat) by (rewrite length_sub; lia).
  pose proof (sum_spec (take 8 a) (sub 8 8 a) (at_ a 16) ltac:(lia) Ba0 ltac:(auto with zw) Ta) as S0.
  pose proof (sum_spec (take 8 b) (sub 8 8 b) (at_ b 16) ltac:(lia) Bb0 ltac:(auto with zw) Tb) as S1.
  destruct (bigint_add (take 8 a) _) as [s0 c0], (bigint_add (take 8 b) _) as [s1 c1].
  destruct S0 as (Ls0 & Bs0 & Es0), S1 as (Ls1 & Bs1 & Es1). rewrite La0 in Ls0, Es0. rewrite Lb0 in Ls1, Es1.
  rewrite <- Z.add_assoc, <- Ha in Es0. rewrite <- Z.add_assoc, <- Hb in Es1.

  set (r0 := bigint_mul (take 8 a) (take 8 b)) in *. set (r1 := bigint_mul (sub 8 9 a) (sub 8 9 b)) in *.
  rewrite La0 in L0. rewrite La1 in L1. change (8 + 8)%nat with 16%nat in L0. change (9 + 9)%nat with 18%nat in L1.
  set (r := r0 ++ r1).
  assert (Lr : length r = 34%nat) by (unfold r; rewrite length_app; lia). assert (Br : bytes r) by (by apply bytes_app).
  assert (Elo : take 16 r = r0) by (unfold r; by rewrite take_app_length').
  assert (Ehi : drop 16 r = r1) by (unfold r; by rewrite drop_app_length').
  destruct (mul_spec (s0 ++ [u8 (at_ a 16 + c0)]) (s1 ++ [u8 (at_ b 16 + c1)])) as (Lt & Bt & Et); [lia|done|done|lia|].
  set (t := bigint_mul (s0 ++ _) _) in *. rewrite Ls0 in Lt. change (9 + 9)%nat with 18%nat in Lt. rewrite Es0, Es1 in Et.
  pose proof (le_val_range _ 8 Ba0 La0) as R0. pose proof (le_val_range _ 8 Bb0 Lb0) as R1.
  pose proof (le_val_bound _ Ba1) as [R2 _]. pose proof (le_val_bound _ Bb1) as [R3 _].
  rewrite Ea in Va. rewrite Eb in Vb. set (a0 := le_val (take 8 a)) in *. set (a1 := le_val (sub 8 9 a)) in *.
  set (b0 := le_val (take 8 b)) in *. set (b1 := le_val (sub 8 9 b)) in *.
  change (256 ^ Z.of_nat 16) with (256 ^ Z.of_nat 8 * 256 ^ Z.of_nat 8) in Va, Vb.
  assert (E34 : 256 ^ Z.of_nat 34 = 65536 * (256 ^ Z.of_nat 8 * 256 ^ Z.of_nat 8) * (256 ^ Z.of_nat 8 * 256 ^ Z.of_nat 8)) by done.
  assert (HB : 256 ^ Z.of_nat 8 = 18446744073709551616) by done. set (B := 256 ^ Z.of_nat 8) in *.
  assert (Ha1 : a1 < 2 * B) by nia. assert (Hb1 : b1 < 2 * B) by nia.
  pose proof (middle_spec t r0 r1 a0 a1 b0 b1 Lt Bt Et L0 B0 E0 L1 B1 E1 R0 R1 (conj R2 Ha1) (conj R3 Hb1)) as (Lt1 & Bt1 & HM).
  rewrite Ehi, Elo. set (t1 := sub_borrow 17 t r1) in *. destruct (bigint_sub (take 16 t1) r0) as [m c]. destruct HM as (Lm & Bm & Ev2).
  rewrite land_255. set (x := u8 (at_ t1 16 - c)) in *. set (y := u8 (at_ t1 17 - _)).
  assert (Etk : take 17 (m ++ [x; y]) = m ++ [x]).
  { change (m ++ [x; y]) with (m ++ [x] ++ [y]). rewrite app_assoc, take_app_length'; [done|]. rewrite length_app, Lm. done. }
  destruct (karatsuba 8 17 r (m ++ [x; y]) a0 a1 b0 b1) as (H1 & H2 & H3); [lia| |done| | | | |].
  - rewrite length_app, Lm. simpl. lia.
  - apply bytes_app. split; [done|]. unfold x, y. by auto with zw.
  - fold B. unfold r. rewrite le_val_app, L0, E0, E1. change (256 ^ Z.of_nat 16) with (B * B). lia.
  - rewrite Etk, Ev2. lia.
  - fold B. rewrite Lr, E34. assert (0 <= a0 + B * a1 < 2 * (B * B)) by nia. assert (0 <= b0 + B * b1 < 2 * (B * B)) by nia. nia.
  - rewrite Ea, Eb. split; [by rewrite H1|]. by split.
Qed.

Lemma mul32_spec a b :
  length a = 32%nat -> length b = 32%nat -> bytes a -> bytes b ->
  length (bigint_mul32 a b) = 64%nat /\ bytes (bigint_mul32 a b) /\
  le_val (bigint_mul32 a b) = le_val a * le_val b.
Proof.
  intros La Lb Ba Bb. unfold bigint_mul32.
  pose proof (even_product 16 bigint_mul16 bigint_mul16c a b ltac:(lia) La Lb Ba Bb) as H. cbv zeta in H.
  destruct (bigint_add (take 16 a) _) as [s0 c0], (bigint_add (take 16 b) _) as [s1 c1]. apply H.
  - intros. by apply mul16_spec.
  - intros. by apply mul16c_spec.
Qed.

(** The Karatsuba product of two 32-byte numbers, computed by three 16-byte products which are
    themselves made of 8- and 9-byte schoolbook products, is their 64-byte product; no carry and no
    borrow is lost. *)
Theorem bigint_mul32_product a b :
  length a = 32%nat -> length b = 32%nat -> bytes a -> bytes b ->
  length (bigint_mul32 a b) = 64%nat /\ bytes (bigint_mul32 a b) /\
  le_val (bigint_mul32 a b) = le_val a * le_val b.
Proof. apply mul32_spec. Qed.

Lemma bigint_mul32_product_witness :
  le_val (bigint_mul32 (replicate 32 255) (replicate 32 255)) = (2 ^ 256 - 1) * (2 ^ 256 - 1).
Proof.
  destruct (bigint_mul32_product (replicate 32 255) (replicate 32 255)) as (_ & _ & E).
  - reflexivity.
  - reflexivity.
  - apply bytes_replicate. done.
  - apply bytes_replicate. done.
  - rewrite E. vm_compute. reflexivity.
Defined.

(** The conditional move, which uses no branch, overwrites [r] with [x] when the flag is 1 and
    leaves it alone when the flag is 0. *)
Theorem bigint_cmov_select r x b :
  length r = length x -> bytes r -> bytes x -> b = 0 \/ b = 1 ->
  bigint_cmov r x b = if b =? 1 then x else r.
Proof.
  intros HL Hr Hx Hb. unfold bigint_cmov. revert x HL Hx. induction r as [|y r IH]; intros [|z x] HL Hx; try discriminate.
  { by destruct Hb as [-> | ->]. }
  apply bytes_cons_inv in Hr as [Hy Hr], Hx as [Hz Hx]. injection HL as HL. cbn [zip_with].
  rewrite (IH Hr x HL Hx). destruct Hb as [-> | ->].
  - change (u8 (- 0)) with 0. rewrite Z.land_0_l, Z.lxor_0_r. done.
  - change (u8 (- (1))) with (Z.ones 8). change (1 =? 1) with true. cbv iota. f_equal.
    rewrite Z.land_comm, Z.land_ones, Z.mod_small by (try lia; apply lxor_byte; done).
    rewrite Z.lxor_comm, Z.lxor_assoc, Z.lxor_nilpotent. apply Z.lxor_0_r.
Qed.

Lemma bigint_cmov_select_witness : bigint_cmov [1; 2] [3; 4] 1 = [3; 4] /\ bigint_cmov [1; 2] [3; 4] 0 = [1; 2].
Proof.
  split.
  - apply (bigint_cmov_select [1; 2] [3; 4] 1); [reflexivity|..|auto]; apply (bool_decide_unpack _); vm_compute; exact I.
  - apply (bigint_cmov_select [1; 2] [3; 4] 0); [reflexivity|..|auto]; apply (bool_decide_unpack _); vm_compute; exact I.
Defined.
End Bigint.
