(* ===== verification/Curve25519.v ===== *)
(** * Curve25519 (libs2/crypto/curve25519/generic/smult.c, base.c)

    The scalar multiplication of the key exchange: field elements are 32 limbs of 8 bits, held in
    [unsigned int]s, least significant first; the highest limb is not reduced to a byte.  Every
    [unsigned int] assignment wraps modulo 2^32.  The theorems: with limbs in the ranges the ladder
    keeps, nothing wraps and each routine is the operation of the field of 2^255 - 19 elements it is
    named after; [recip] is the power p - 2; and [crypto_scalarmult_curve25519] is the Montgomery
    ladder over the clamped scalar, written out in canonical little-endian form.  For points below
    2^255 that is X25519 of RFC 7748; the top bit of a point is not masked. *)
From Stdlib Require Import Zpow_facts.
From S2P Require Import Prelude Bigint.

Module Curve25519.

(** ** The code *)

(** [for (...) { u += x; out = u & 255; u >>= 8; }] over the limbs [l]: the bytes and the carry. *)
Fixpoint carry (l : list Z) (u : Z) : list Z * Z :=
  match l with
  | [] => ([], u)
  | x :: l' =>
      let u := u32 (u + x) in
      let '(r, u') := carry l' (Z.shiftr u 8) in (Z.land u 255 :: r, u')
  end.

Definition add (a b : list Z) : list Z :=
  let '(lo, u) := carry (zip_with (fun x y => u32 (x + y)) (take 31 a) (take 31 b)) 0 in
  lo ++ [u32 (u + u32 (at_ a 31 + at_ b 31))].

Definition sub (a b : list Z) : list Z :=
  let '(lo, u) := carry (zip_with (fun x y => u32 (x + 65280 - y)) (take 31 a) (take 31 b)) 218 in
  lo ++ [u32 (u + u32 (at_ a 31 - at_ b 31))].

(** The second half of [squeeze] and of [mult121665]: the bits above 2^255 come back times 19. *)
Definition reduce_top (lo : list Z) (u : Z) : list Z :=
  let top := Z.land u 127 in
  let '(lo, u) := carry lo (u32 (19 * Z.shiftr u 7)) in
  lo ++ [u32 (u + top)].

Definition squeeze (a : list Z) : list Z :=
  let '(lo, u) := carry (take 31 a) 0 in reduce_top lo (u32 (u + at_ a 31)).

Definition minusp : list Z := 19 :: replicate 30 0 ++ [128].

Definition freeze (aorig : list Z) : list Z :=
  let a := add aorig minusp in
  let negative := u32 (- Z.land (Z.shiftr (at_ a 31) 7) 1) in
  zip_with (fun x y => Z.lxor y (Z.land negative (Z.lxor x y))) aorig a.

(** Limb [i] of a product, before [squeeze]; the two loops over [j]. *)
Definition mult_limb (a b : list Z) (i : nat) : Z :=
  let u := foldl (fun u j => u32 (u + at_ a j * at_ b (i - j))) 0 (seq 0 (S i)) in
  foldl (fun u j => u32 (u + 38 * at_ a j * at_ b (i + 32 - j))) u (seq (S i) (31 - i)).

Definition mult (a b : list Z) : list Z := squeeze (mult_limb a b <$> seq 0 32).

Definition mult121665 (a : list Z) : list Z :=
  let '(lo, u) := carry ((fun x => u32 (121665 * x)) <$> take 31 a) 0 in
  reduce_top lo (u32 (u + u32 (121665 * at_ a 31))).

(** [j < i - j] holds for the first [(i + 1) / 2] values of [j], and [j < i + 32 - j], from [i + 1]
    on, below [(i + 33) / 2]. *)
Definition square_limb (a : list Z) (i : nat) : Z :=
  let u := foldl (fun u j => u32 (u + at_ a j * at_ a (i - j))) 0 (seq 0 ((i + 1) / 2)) in
  let u := foldl (fun u j => u32 (u + 38 * at_ a j * at_ a (i + 32 - j))) u
             (seq (S i) ((i + 33) / 2 - S i)) in
  let u := u32 (u * 2) in
  if Nat.even i then
    let u := u32 (u + at_ a (i / 2) * at_ a (i / 2)) in
    u32 (u + 38 * at_ a (i / 2 + 16) * at_ a (i / 2 + 16))
  else u.

Definition square (a : list Z) : list Z := squeeze (square_limb a <$> seq 0 32).

(** Returns [p] and [q]. *)
Definition select (r s : list Z) (b : Z) : list Z * list Z :=
  let bminus1 := u32 (b - 1) in
  let t := zip_with (fun x y => Z.land bminus1 (Z.lxor x y)) r s in
  (zip_with Z.lxor s t, zip_with Z.lxor r t).

(** The field operations of a round: the doubled point [xznb] and the sum [xzn1b]. *)
Definition ladder_core (work xzmb xzm1b : list Z) : list Z * list Z :=
  let a0 := add (take 32 xzmb) (drop 32 xzmb) in
  let a0' := sub (take 32 xzmb) (drop 32 xzmb) in
  let a1 := add (take 32 xzm1b) (drop 32 xzm1b) in
  let a1' := sub (take 32 xzm1b) (drop 32 xzm1b) in
  let b0 := square a0 in
  let b0' := square a0' in
  let b1 := mult a1 a0' in
  let b1' := mult a1' a0 in
  let c1 := add b1 b1' in
  let c1' := sub b1 b1' in
  let r := square c1' in
  let s := sub b0 b0' in
  let t := mult121665 s in
  let u := add t b0 in
  (mult b0 b0' ++ mult s u, square c1 ++ mult r work).

(** One round of [mainloop] on [(xzm, xzm1)], for the bit [b]. *)
Definition ladder_round (work : list Z) (b : Z) (st : list Z * list Z) : list Z * list Z :=
  let '(xzmb, xzm1b) := select (fst st) (snd st) b in
  let '(xznb, xzn1b) := ladder_core work xzmb xzm1b in
  select xznb xzn1b b.

Definition scalar_bit (e : list Z) (pos : nat) : Z :=
  Z.land (Z.shiftr (at_ e (pos / 8)) (Z.of_nat (pos `mod` 8))) 1.

(** [pos] runs from 254 down to 0; the two points after the last round. *)
Definition ladder_rounds (work e : list Z) (n : nat) : list Z * list Z :=
  foldl (fun st pos => ladder_round work (scalar_bit e pos) st)
    (1 :: replicate 63 0, work ++ 1 :: replicate 31 0) (reverse (seq 0 n)).

Definition mainloop (work e : list Z) : list Z := fst (ladder_rounds work e 255).

(** [n] squarings, two to a round of the loops of [recip]. *)
Definition square_n (n : nat) (a : list Z) : list Z := Nat.iter n square a.

Definition recip (z : list Z) : list Z :=
  let z2 := square z in
  let z9 := mult (square (square z2)) z in
  let z11 := mult z9 z2 in
  let z2_5_0 := mult (square z11) z9 in
  let z2_10_0 := mult (square_n 5 z2_5_0) z2_5_0 in
  let z2_20_0 := mult (square_n 8 (square_n 2 z2_10_0)) z2_10_0 in
  let z2_40_0 := mult (square_n 18 (square_n 2 z2_20_0)) z2_20_0 in
  let z2_50_0 := mult (square_n 8 (square_n 2 z2_40_0)) z2_10_0 in
  let z2_100_0 := mult (square_n 48 (square_n 2 z2_50_0)) z2_50_0 in
  let z2_200_0 := mult (square_n 98 (square_n 2 z2_100_0)) z2_100_0 in
  let z2_250_0 := mult (square_n 48 (square_n 2 z2_200_0)) z2_50_0 in
  mult (square_n 5 z2_250_0) z11.

(** [e[0] &= 248; e[31] &= 127; e[31] |= 64]. *)
Definition clamp (n : list Z) : list Z :=
  Z.land (at_ n 0) 248 :: take 30 (drop 1 n) ++ [Z.lor (Z.land (at_ n 31) 127) 64].

Definition crypto_scalarmult_curve25519 (n p : list Z) : list Z :=
  let work := mainloop p (clamp n) in
  let z := recip (drop 32 work) in
  u8 <$> freeze (mult (take 32 work) z).

Definition base : list Z := 9 :: replicate 31 0.
Definition crypto_scalarmult_curve25519_base (n : list Z) : list Z := crypto_scalarmult_curve25519 n base.

(** ** The reference: the Montgomery ladder over the integers modulo p *)

Definition p25519 : Z := 2 ^ 255 - 19.

Definition fmul (x y : Z) : Z := (x * y) `mod` p25519.
Definition fadd (x y : Z) : Z := (x + y) `mod` p25519.
Definition fsub (x y : Z) : Z := (x - y) `mod` p25519.
Definition fpow (x e : Z) : Z := Zpow_mod x e p25519.

(** Doubling and differential addition, on projective x-coordinates; [x1] is the difference. *)
Definition xz_step (x1 : Z) (P Q : Z * Z) : (Z * Z) * (Z * Z) :=
  let '(x2, z2) := P in
  let '(x3, z3) := Q in
  let A := fadd x2 z2 in let AA := fmul A A in
  let B := fsub x2 z2 in let BB := fmul B B in
  let E := fsub AA BB in
  let DA := fmul (fsub x3 z3) A in
  let CB := fmul (fadd x3 z3) B in
  let s := fadd DA CB in let d := fsub DA CB in
  ((fmul AA BB, fmul E (fadd AA (fmul 121665 E))), (fmul s s, fmul x1 (fmul d d))).

(** After the bits of [k] from [n - 1] down to 0. *)
Fixpoint xz_ladder (x1 k : Z) (n : nat) (P Q : Z * Z) : (Z * Z) * (Z * Z) :=
  match n with
  | O => (P, Q)
  | S n' =>
      let '(P', Q') :=
        if Z.testbit k (Z.of_nat n') then let '(Q', P') := xz_step x1 Q P in (P', Q') else xz_step x1 P Q in
      xz_ladder x1 k n' P' Q'
  end.

Definition ladder (k u : Z) : Z :=
  let '((x, z), _) := xz_ladder u k 255 (1, 0) (u, 1) in fmul x (fpow z (p25519 - 2)).

(** The scalar with its three lowest bits cleared, bit 254 set and bit 255 cleared. *)
Definition clamped (k : Z) : Z := 2 ^ 254 + 8 * ((k `mod` 2 ^ 254) `div` 8).

(** X25519 of RFC 7748, section 5: the scalar is clamped, and the most significant bit of the
    u-coordinate is masked. *)
Definition x25519 (n p : list Z) : Z := ladder (clamped (le_val n)) (le_val p `mod` 2 ^ 255).

(** ** Congruence modulo p *)

Definition eqP (x y : Z) : Prop := x `mod` p25519 = y `mod` p25519.
Notation "x ≡p y" := (eqP x y) (at level 70) : zw_scope.
#[local] Open Scope zw_scope.

#[global] Instance eqP_equiv : Equivalence eqP.
Proof. split; unfold eqP; [done|by intros ???|intros ??? -> ->; done]. Qed.

#[global] Instance eqP_add : Proper (eqP ==> eqP ==> eqP) Z.add.
Proof. intros x x' Hx y y' Hy. unfold eqP in *. by rewrite Zplus_mod, Hx, Hy, <- Zplus_mod. Qed.

#[global] Instance eqP_sub : Proper (eqP ==> eqP ==> eqP) Z.sub.
Proof. intros x x' Hx y y' Hy. unfold eqP in *. by rewrite Zminus_mod, Hx, Hy, <- Zminus_mod. Qed.

#[global] Instance eqP_mul : Proper (eqP ==> eqP ==> eqP) Z.mul.
Proof. intros x x' Hx y y' Hy. unfold eqP in *. by rewrite Zmult_mod, Hx, Hy, <- Zmult_mod. Qed.

Lemma eqP_mod x : x `mod` p25519 ≡p x.
Proof. unfold eqP. apply Zmod_mod. Qed.

Lemma eqP_multiple x y k : x = y + k * p25519 -> x ≡p y.
Proof. intros ->. unfold eqP. apply Z_mod_plus_full. Qed.

(** ** Limbs *)

(** A field element in limbs, the highest of them at most [B]. *)
Record fe (B : Z) (a : list Z) : Prop := {
  fe_length : length a = 32%nat;
  fe_low : bytes (take 31 a);
  fe_top : 0 <= at_ a 31 <= B
}.

Lemma u32_small x : 0 <= x < 4294967296 -> u32 x = x.
Proof. apply Z.mod_small. Qed.

Lemma take_31_app (lo : list Z) t : length lo = 31%nat -> take 31 (lo ++ [t]) = lo.
Proof. intros L. by rewrite take_app_length' by done. Qed.

Lemma at_31_app lo t : length lo = 31%nat -> at_ (lo ++ [t]) 31 = t.
Proof. intros L. unfold at_. by rewrite lookup_app_r, L by lia. Qed.

Lemma split_top a : length a = 32%nat -> a = take 31 a ++ [at_ a 31].
Proof.
  intros L. rewrite <- (take_drop 31 a) at 1. f_equal.
  destruct (drop 31 a) as [|x [|y l]] eqn:E; pose proof (f_equal length E) as E'; rewrite length_drop in E'; simpl in E'; try lia.
  unfold at_. change 31%nat with (31 + 0)%nat at 1. by rewrite <- lookup_drop, E.
Qed.

Lemma val_top a : length a = 32%nat -> le_val a = le_val (take 31 a) + 256 ^ 31 * at_ a 31.
Proof.
  intros L. rewrite (split_top a L) at 1. rewrite Bigint.le_val_app, length_take, Nat.min_l by lia.
  cbn [le_val]. change (Z.of_nat 31) with 31. lia.
Qed.

(** The bound of the highest limb is a bound of the value, and conversely. *)
Lemma fe_of_value lo t B :
  length lo = 31%nat -> bytes lo -> 0 <= le_val (lo ++ [t]) < 256 ^ 31 * (B + 1) -> fe B (lo ++ [t]).
Proof.
  intros L Hb. rewrite Bigint.le_val_app, L. pose proof (Bigint.le_val_range lo 31 Hb L).
  change (Z.of_nat 31) with 31 in *. cbn [le_val]. intros Hv.
  assert (0 <= t <= B) by nia.
  split; [rewrite length_app, L; done|by rewrite take_31_app|by rewrite at_31_app].
Qed.

Lemma fe_value B a : fe B a -> 0 <= le_val a < 256 ^ 31 * (B + 1).
Proof.
  intros [L Hb Ht]. rewrite (val_top a L).
  pose proof (Bigint.le_val_range (take 31 a) 31 Hb). rewrite length_take, L in H.
  specialize (H eq_refl). change (Z.of_nat 31) with 31 in H. nia.
Qed.

Lemma fe_weaken A B a : A <= B -> fe A a -> fe B a.
Proof. intros H [L Hb Ht]. split; [done..|lia]. Qed.

(** A carry chain keeps the value: bytes, and the carry above them. *)
Lemma carry_spec l : forall u,
  Forall (fun x => 0 <= x < 2 ^ 31) l -> 0 <= u < 2 ^ 31 ->
  let '(r, u') := carry l u in
  length r = length l /\ bytes r /\ 0 <= u' < 2 ^ 31 /\
  le_val r + 256 ^ Z.of_nat (length l) * u' = le_val l + u.
Proof.
  induction l as [|x l IH]; intros u Hl Hu; cbn [carry].
  { cbn [le_val length]. change (256 ^ Z.of_nat 0) with 1. split_and!; [done|constructor|lia..]. }
  apply list.Forall_cons in Hl as [Hx Hl]. rewrite u32_small by lia. rewrite Bigint.land_255, Bigint.shiftr_8.
  pose proof (Bigint.byte_split (u + x)) as E. pose proof (u8_byte (u + x)) as Hb. unfold is_byte in Hb.
  specialize (IH ((u + x) `div` 256) Hl ltac:(lia)).
  destruct (carry l ((u + x) `div` 256)) as [r u'] eqn:Ec. destruct IH as (L & B & Hu' & V).
  cbn [length le_val]. rewrite pow256_succ. split_and!; [lia|by apply bytes_cons|lia|lia|]. nia.
Qed.

(** A limb-wise operation followed by a carry chain, in the shape of [add] and [sub]. *)
Lemma carry_value l u top V B :
  length l = 31%nat -> Forall (fun x => 0 <= x < 2 ^ 31) l -> 0 <= u < 2 ^ 31 ->
  le_val l + u + 256 ^ 31 * top = V -> 0 <= V < 256 ^ 31 * (B + 1) -> B < 2 ^ 31 -> 
  let out := let '(lo, c) := carry l u in lo ++ [u32 (c + u32 top)] in fe B out /\ le_val out = V.
Proof.
  intros L Hl Hu E HV HB out. subst out. pose proof (carry_spec l u Hl Hu) as H.
  destruct (carry l u) as [lo c]. destruct H as (L' & Hb & Hc & Ev). rewrite L in *.
  change (Z.of_nat 31) with 31 in *.
  pose proof (Bigint.le_val_range lo 31 Hb L') as Hr. change (Z.of_nat 31) with 31 in Hr.
  assert (Et : u32 (c + u32 top) = c + top).
  { unfold u32. rewrite Zplus_mod_idemp_r. apply Z.mod_small. nia. }
  rewrite Et. assert (Ev' : le_val (lo ++ [c + top]) = V).
  { rewrite Bigint.le_val_app, L'. change (Z.of_nat 31) with 31. cbn [le_val]. lia. }
  split; [|done]. apply fe_of_value; [done..|]. by rewrite Ev'.
Qed.

Lemma zip_add a : forall b, length a = length b -> bytes a -> bytes b ->
  let l := zip_with (fun x y => u32 (x + y)) a b in
  Forall (fun x => 0 <= x < 2 ^ 31) l /\ le_val l = le_val a + le_val b.
Proof.
  induction a as [|x a IH]; intros [|y b] L Ha Hb; try done.
  apply list.Forall_cons in Ha as [Hx Ha], Hb as [Hy Hb]. unfold is_byte in *.
  destruct (IH b ltac:(by injection L) Ha Hb) as [H1 H2]. cbn [zip_with le_val]. rewrite u32_small by lia.
  split; [constructor; [lia|done]|lia].
Qed.

Lemma zip_sub a : forall b, length a = length b -> bytes a -> bytes b ->
  let l := zip_with (fun x y => u32 (x + 65280 - y)) a b in
  Forall (fun x => 0 <= x < 2 ^ 31) l /\
  le_val l = le_val a - le_val b + 256 * (256 ^ Z.of_nat (length a) - 1).
Proof.
  induction a as [|x a IH]; intros [|y b] L Ha Hb; try done.
  apply list.Forall_cons in Ha as [Hx Ha], Hb as [Hy Hb]. unfold is_byte in *.
  destruct (IH b ltac:(by injection L) Ha Hb) as [H1 H2]. cbn [zip_with le_val length].
  rewrite u32_small, pow256_succ by lia. split; [constructor; [lia|done]|lia].
Qed.

Lemma zip_31 (f : Z -> Z -> Z) a b : length a = 32%nat -> length b = 32%nat ->
  length (zip_with f (take 31 a) (take 31 b)) = 31%nat /\ length (take 31 a) = length (take 31 b).
Proof. intros La Lb. rewrite length_zip_with, !length_take. lia. Qed.

Lemma field_add_spec A B a b :
  fe A a -> fe B b -> A + B < 2 ^ 30 ->
  fe (A + B + 1) (add a b) /\ le_val (add a b) = le_val a + le_val b.
Proof.
  intros Ha Hb HB. pose proof (fe_value _ _ Ha). pose proof (fe_value _ _ Hb).
  destruct Ha as [La Ba Ta], Hb as [Lb Bb Tb]. destruct (zip_31 (fun x y => u32 (x + y)) a b La Lb) as [L L'].
  destruct (zip_add _ _ L' Ba Bb) as [F V]. unfold add.
  apply carry_value; try done; [|lia..]. rewrite V, (val_top a La), (val_top b Lb). lia.
Qed.

(** The difference is kept positive by 2p. *)
Lemma field_sub_spec A a b :
  fe A a -> fe 128 b -> A < 2 ^ 30 ->
  fe (A + 256) (sub a b) /\ le_val (sub a b) = le_val a - le_val b + 2 * p25519.
Proof.
  intros Ha Hb HB. pose proof (fe_value _ _ Ha). pose proof (fe_value _ _ Hb).
  destruct Ha as [La Ba Ta], Hb as [Lb Bb Tb].
  destruct (zip_31 (fun x y => u32 (x + 65280 - y)) a b La Lb) as [L L'].
  destruct (zip_sub _ _ L' Ba Bb) as [F V]. rewrite length_take, La in V. change (Z.of_nat _) with 31 in V.
  unfold sub, p25519 in *. apply carry_value; try done; [|lia..].
  rewrite V, (val_top a La), (val_top b Lb). lia.
Qed.

(** Folding what is above 2^255 back in, times 19. *)
Lemma reduce_top_spec lo u V :
  length lo = 31%nat -> bytes lo -> 0 <= u < 2 ^ 32 -> le_val lo + 256 ^ 31 * u = V ->
  fe 128 (reduce_top lo u) /\ le_val (reduce_top lo u) ≡p V /\
  0 <= le_val (reduce_top lo u) < 2 * p25519.
Proof.
  intros L Hb Hu E. unfold reduce_top. change 127 with (Z.ones 7). rewrite Z.land_ones, Z.shiftr_div_pow2 by lia.
  pose proof (Z.div_mod u (2 ^ 7)) as Ed. pose proof (Z.mod_pos_bound u (2 ^ 7)) as Hm.
  rewrite (u32_small (19 * _)) by lia.
  assert (Hl : Forall (fun x => 0 <= x < 2 ^ 31) lo) by (eapply list.Forall_impl; [exact Hb|unfold is_byte; intros; cbn beta in *; lia]).
  pose proof (Bigint.le_val_range lo 31 Hb L) as Hr. change (Z.of_nat 31) with 31 in Hr.
  pose proof (carry_value lo (19 * (u `div` 2 ^ 7)) (u `mod` 2 ^ 7)
    (le_val lo + 19 * (u `div` 2 ^ 7) + 256 ^ 31 * (u `mod` 2 ^ 7)) 128 L Hl ltac:(lia) eq_refl ltac:(lia) ltac:(lia)) as H.
  destruct (carry lo _) as [lo' c]. rewrite (u32_small (u `mod` 2 ^ 7)) in H by lia. destruct H as [H1 H2].
  split; [done|]. rewrite H2. unfold p25519. split; [|lia]. rewrite <- E. symmetry.
  apply (eqP_multiple _ _ (u `div` 2 ^ 7)). unfold p25519. lia.
Qed.

(** ** Products *)

Definition zsum (f : nat -> Z) (l : list nat) : Z := foldr (fun j s => f j + s) 0 l.

Lemma zsum_app f l1 l2 : zsum f (l1 ++ l2) = zsum f l1 + zsum f l2.
Proof. induction l1 as [|j l IH]; cbn [app zsum foldr]; [done|]. unfold zsum in IH. rewrite IH. unfold zsum. lia. Qed.

Lemma zsum_ext f g l : (forall j, j ∈ l -> f j = g j) -> zsum f l = zsum g l.
Proof.
  induction l as [|j l IH]; intros H; cbn [zsum foldr]; [done|].
  rewrite (H j) by left. f_equal. apply IH. intros k Hk. apply H. by right.
Qed.

Lemma zsum_bound f l M : (forall j, j ∈ l -> 0 <= f j <= M) -> 0 <= zsum f l <= M * Z.of_nat (length l).
Proof.
  induction l as [|j l IH]; intros H; cbn [zsum foldr length]; [lia|].
  pose proof (H j ltac:(left)). specialize (IH (fun k Hk => H k (list_elem_of_further k j l Hk))). unfold zsum in IH. lia.
Qed.

(** An accumulating loop in an [unsigned int] computes its sum modulo 2^32. *)
Lemma foldl_u32 f l : forall u, foldl (fun u j => u32 (u + f j)) (u32 u) l = u32 (u + zsum f l).
Proof.
  induction l as [|j l IH]; intros u; cbn [foldl zsum foldr]; [f_equal; lia|].
  replace (u32 (u32 u + f j)) with (u32 (u + f j)) by (unfold u32; by rewrite Zplus_mod_idemp_l). rewrite IH. unfold zsum. f_equal. lia.
Qed.

Lemma foldl_u32_0 f l : foldl (fun u j => u32 (u + f j)) 0 l = u32 (zsum f l).
Proof. exact (foldl_u32 f l 0). Qed.

(** The limbs of [256^j * b], those above the highest folded back times 38 = 2^256 - 2p. *)
Definition row (b : list Z) (j : nat) : list Z :=
  (Z.mul 38 <$> drop (32 - j) b) ++ take (32 - j) b.

Lemma row_length b j : length b = 32%nat -> (j <= 32)%nat -> length (row b j) = 32%nat.
Proof. intros L Hj. unfold row. rewrite length_app, length_fmap, length_drop, length_take. lia. Qed.

Lemma at_row_low b i j : length b = 32%nat -> (j <= i < 32)%nat -> at_ (row b j) i = at_ b (i - j).
Proof.
  intros L Hi. unfold at_, row. rewrite lookup_app_r; rewrite length_fmap, length_drop, L; [|lia].
  rewrite lookup_take_lt by lia. do 2 f_equal. lia.
Qed.

Lemma at_row_high b i j : length b = 32%nat -> (i < j <= 32)%nat -> at_ (row b j) i = 38 * at_ b (i + 32 - j).
Proof.
  intros L Hi. unfold at_, row. rewrite lookup_app_l by (rewrite length_fmap, length_drop; lia).
  rewrite list_lookup_fmap, lookup_drop. replace (32 - j + i)%nat with (i + 32 - j)%nat by lia.
  destruct (lookup_lt_is_Some_2 b (i + 32 - j)) as [x ->]; [lia|done].
Qed.

Lemma le_val_scale k l : le_val (Z.mul k <$> l) = k * le_val l.
Proof. induction l as [|x l IH]; rewrite ?fmap_cons; cbn [le_val]; [cbn; lia|]. rewrite IH. lia. Qed.

Lemma row_value b j : length b = 32%nat -> (j <= 32)%nat -> le_val (row b j) ≡p 256 ^ Z.of_nat j * le_val b.
Proof.
  intros L Hj. symmetry. apply (eqP_multiple _ _ (2 * le_val (drop (32 - j) b))).
  unfold row. rewrite Bigint.le_val_app, length_fmap, length_drop, le_val_scale, L.
  replace (32 - (32 - j))%nat with j by lia.
  rewrite (Bigint.le_val_split (32 - j) b) at 1. rewrite length_take, Nat.min_l by lia.
  rewrite Z.mul_add_distr_l, Z.mul_assoc, <- Z.pow_add_r by lia.
  replace (Z.of_nat j + Z.of_nat (32 - j)) with 32 by lia. unfold p25519. lia.
Qed.

Lemma mult_limb_sum a b i : length b = 32%nat -> (i < 32)%nat ->
  mult_limb a b i = u32 (zsum (fun j => at_ a j * at_ (row b j) i) (seq 0 32)).
Proof.
  intros L Hi. unfold mult_limb. rewrite foldl_u32_0, foldl_u32. f_equal.
  replace (seq 0 32) with (seq 0 (S i) ++ seq (S i) (31 - i)) by (rewrite <- (seq_app (S i)); f_equal; lia).
  rewrite zsum_app. f_equal.
  - apply zsum_ext. intros j Hj%elem_of_seq. rewrite at_row_low by lia. done.
  - apply zsum_ext. intros j Hj%elem_of_seq. rewrite at_row_high by lia. lia.
Qed.

Lemma at_seq l n : length l = n -> at_ l <$> seq 0 n = l.
Proof.
  intros <-. apply list_eq_same_length with (length l); rewrite ?length_fmap, ?length_seq; [done..|].
  intros i x y Hi Hx Hy. rewrite list_lookup_fmap, lookup_seq_lt in Hx by done. injection Hx as <-.
  unfold at_. simpl. by rewrite Hy.
Qed.

Lemma le_val_linear (c : Z) f g (l : list nat) :
  le_val ((fun i => c * f i + g i) <$> l) = c * le_val (f <$> l) + le_val (g <$> l).
Proof. induction l as [|i l IH]; rewrite ?fmap_cons; cbn [le_val]; [cbn; lia|]. rewrite IH. lia. Qed.

Lemma le_val_zsum (c : nat -> Z) (R : nat -> nat -> Z) js (l : list nat) :
  le_val ((fun i => zsum (fun j => c j * R j i) js) <$> l) = zsum (fun j => c j * le_val (R j <$> l)) js.
Proof.
  induction js as [|j js IH]; cbn [zsum foldr].
  - induction l as [|i l IHl]; rewrite ?fmap_cons; cbn [le_val]; [done|]. lia.
  - unfold zsum in IH. by rewrite le_val_linear, IH.
Qed.

Lemma le_val_powers f n : forall k, 256 ^ Z.of_nat k * le_val (f <$> seq k n) = zsum (fun j => f j * 256 ^ Z.of_nat j) (seq k n).
Proof.
  induction n as [|n IH]; intros k; cbn [seq]; [cbn; lia|]. rewrite fmap_cons. cbn [le_val zsum foldr].
  specialize (IH (S k)). unfold zsum in IH. rewrite <- IH, pow256_succ. lia.
Qed.

Lemma zsum_eqP f g l : (forall j, j ∈ l -> f j ≡p g j) -> zsum f l ≡p zsum g l.
Proof.
  induction l as [|j l IH]; intros H; cbn [zsum foldr]; [done|].
  rewrite (H j) by left. fold (zsum f l). rewrite IH; [done|]. intros k Hk. apply H. by right.
Qed.

(** The rows add up to the product. *)
Lemma rows_product a b : length a = 32%nat -> length b = 32%nat ->
  le_val ((fun i => zsum (fun j => at_ a j * at_ (row b j) i) (seq 0 32)) <$> seq 0 32) ≡p le_val a * le_val b.
Proof.
  intros La Lb. rewrite (le_val_zsum (at_ a) (fun j => at_ (row b j))).
  transitivity (zsum (fun j => at_ a j * 256 ^ Z.of_nat j * le_val b) (seq 0 32)).
  { apply zsum_eqP. intros j Hj%elem_of_seq. rewrite at_seq by (apply row_length; lia).
    rewrite row_value by lia. by rewrite Z.mul_assoc. }
  pose proof (le_val_powers (at_ a) 32 0) as E. change (256 ^ Z.of_nat 0) with 1 in E.
  rewrite Z.mul_1_l, (at_seq a 32 La) in E. rewrite E. unfold zsum. generalize (seq 0 32). intros l. induction l as [|j l IH]; cbn [foldr]; [done|].
  by rewrite IH, Z.mul_add_distr_r.
Qed.

(** Limbs small enough for the products: those of [fe 1023]. *)
Lemma fe_limb B a j : fe B a -> 0 <= B < 1024 -> 0 <= at_ a j < 1024.
Proof.
  intros [L Hb Ht] HB. destruct (Nat.eq_dec j 31%nat) as [->|]; [lia|].
  assert (E : at_ a j = at_ (take 31 a) j \/ at_ a j = 0).
  { unfold at_. destruct (Nat.lt_ge_cases j 31%nat); [left; by rewrite lookup_take_lt|right].
    by rewrite lookup_ge_None_2 by lia. }
  pose proof (at_byte _ j Hb) as H. unfold is_byte in H. lia.
Qed.

Lemma limb_bound A B a b i : fe A a -> fe B b -> 0 <= A < 1024 -> 0 <= B < 1024 -> (i < 32)%nat ->
  0 <= zsum (fun j => at_ a j * at_ (row b j) i) (seq 0 32) < 2 ^ 31.
Proof.
  intros Ha Hb HA HB Hi. pose proof (fe_length _ _ Hb) as L.
  pose proof (zsum_bound (fun j => at_ a j * at_ (row b j) i) (seq 0 32) (38 * 1024 * 1024)) as H.
  rewrite length_seq in H. enough (forall j, j ∈ seq 0 32 -> 0 <= at_ a j * at_ (row b j) i <= 38 * 1024 * 1024) by (specialize (H H0); lia).
  intros j Hj%elem_of_seq. pose proof (fe_limb _ _ j Ha HA).
  destruct (Nat.le_gt_cases j i).
  - rewrite at_row_low by lia. pose proof (fe_limb _ _ (i - j) Hb HB). nia.
  - rewrite at_row_high by lia. pose proof (fe_limb _ _ (i + 32 - j) Hb HB). nia.
Qed.

Lemma squeeze_spec a :
  length a = 32%nat -> Forall (fun x => 0 <= x < 2 ^ 31) a ->
  fe 128 (squeeze a) /\ le_val (squeeze a) ≡p le_val a /\ 0 <= le_val (squeeze a) < 2 * p25519.
Proof.
  intros L F. unfold squeeze. pose proof (carry_spec (take 31 a) 0 (list.Forall_take _ 31 a F) ltac:(lia)) as H.
  destruct (carry (take 31 a) 0) as [lo u]. destruct H as (L' & Hb & Hu & E). rewrite length_take, L in *.
  change (Z.of_nat _) with 31 in E.
  assert (Ht : 0 <= at_ a 31 < 2 ^ 31).
  { unfold at_. destruct (a !! 31%nat) as [x|] eqn:Ex; [exact (Forall_lookup_1 _ _ _ _ F Ex)|done]. }
  rewrite u32_small by lia. apply reduce_top_spec; [done..|lia|]. rewrite (val_top a L). lia.
Qed.

Lemma mult_spec A B a b :
  fe A a -> fe B b -> 0 <= A < 1024 -> 0 <= B < 1024 ->
  fe 128 (mult a b) /\ le_val (mult a b) ≡p le_val a * le_val b /\ 0 <= le_val (mult a b) < 2 * p25519.
Proof.
  intros Ha Hb HA HB. pose proof (fe_length _ _ Ha) as La. pose proof (fe_length _ _ Hb) as Lb.
  unfold mult. set (f i := zsum (fun j => at_ a j * at_ (row b j) i) (seq 0 32)).
  assert (E : mult_limb a b <$> seq 0 32 = f <$> seq 0 32).
  { apply list_fmap_ext. intros k i Hk. apply lookup_seq in Hk as [-> Hk].
    rewrite mult_limb_sum by (done || lia). apply u32_small. pose proof (limb_bound A B a b (0 + k) Ha Hb HA HB Hk). unfold f. lia. }
  rewrite E. destruct (squeeze_spec (f <$> seq 0 32)) as (H1 & H2 & H3).
  - by rewrite length_fmap, length_seq.
  - apply Forall_fmap, list.Forall_forall. intros i Hi%elem_of_seq. by eapply limb_bound; try done; lia.
  - split; [done|]. split; [|done]. rewrite H2. by apply rows_product.
Qed.

(** ** Squares *)

Definition square_sum (a : list Z) (i : nat) : Z :=
  2 * (zsum (fun j => at_ a j * at_ a (i - j)) (seq 0 ((i + 1) / 2)) +
       zsum (fun j => 38 * at_ a j * at_ a (i + 32 - j)) (seq (S i) ((i + 33) / 2 - S i))) +
  (if Nat.even i then at_ a (i / 2) * at_ a (i / 2) + 38 * at_ a (i / 2 + 16) * at_ a (i / 2 + 16) else 0).

Lemma u32_idem_add x y : u32 (u32 x + y) = u32 (x + y).
Proof. unfold u32. by rewrite Zplus_mod_idemp_l. Qed.

Lemma u32_idem_mul x y : u32 (u32 x * y) = u32 (x * y).
Proof. unfold u32. by rewrite Zmult_mod_idemp_l. Qed.

Lemma square_limb_sum a i : square_limb a i = u32 (square_sum a i).
Proof.
  unfold square_limb, square_sum. cbv zeta. rewrite foldl_u32_0, foldl_u32, u32_idem_mul.
  destruct (Nat.even i); [rewrite u32_idem_add, <- Z.add_assoc, u32_idem_add|]; f_equal; ring.
Qed.

(** Pairing the equal products of a square: the two limbs agree, whatever the limbs are. *)
Lemma square_mult_limb a i : (i < 32)%nat -> square_limb a i = mult_limb a a i.
Proof.
  intros Hi. rewrite square_limb_sum. unfold mult_limb. rewrite foldl_u32_0, foldl_u32.
  f_equal. unfold square_sum.
  do 32 (destruct i as [|i]; [cbn -[Z.mul Z.add at_]; ring|]). lia.
Qed.

Lemma square_mult a : square a = mult a a.
Proof.
  unfold square, mult. f_equal. apply list_fmap_ext. intros k i Hk. apply lookup_seq in Hk as [-> Hk].
  by apply square_mult_limb.
Qed.

(** ** The other operations *)

Lemma scale_limbs k l : 0 <= k < 2 ^ 17 -> bytes l ->
  let r := (fun x => u32 (k * x)) <$> l in Forall (fun x => 0 <= x < 2 ^ 31) r /\ le_val r = k * le_val l.
Proof.
  intros Hk. induction l as [|x l IH]; intros Hl; [split; [constructor|cbn; lia]|].
  apply list.Forall_cons in Hl as [Hx Hl]. destruct (IH Hl) as [H1 H2]. unfold is_byte in Hx.
  rewrite fmap_cons. cbn [le_val]. rewrite u32_small, H2 by nia. split; [constructor; [nia|done]|lia].
Qed.

Lemma mult121665_spec B a :
  fe B a -> 0 <= B < 1024 ->
  fe 128 (mult121665 a) /\ le_val (mult121665 a) ≡p 121665 * le_val a.
Proof.
  intros [L Hb Ht] HB. unfold mult121665. destruct (scale_limbs 121665 (take 31 a) ltac:(lia) Hb) as [F V].
  pose proof (carry_spec _ 0 F ltac:(lia)) as H. destruct (carry _ 0) as [lo u]. destruct H as (L' & Hb' & Hu & E).
  rewrite length_fmap, length_take, L in *. change (Z.of_nat _) with 31 in E.
  rewrite (u32_small (121665 * _)), u32_small by nia.
  destruct (reduce_top_spec lo (u + 121665 * at_ a 31) (121665 * le_val a)) as (H1 & H2 & _); try done; [nia|].
  rewrite (val_top a L). lia.
Qed.

Lemma land_ones_32 x : 0 <= x < 2 ^ 32 -> Z.land 4294967295 x = x.
Proof. intros H. change 4294967295 with (Z.ones 32). rewrite Z.land_comm, Z.land_ones by lia. by apply Z.mod_small. Qed.

Definition word (x : Z) : Prop := 0 <= x < 2 ^ 32.

(** The masked exchange: all ones choose [x], zeros [y]. *)
Lemma choose_x x y : word x -> word y -> Z.lxor y (Z.land 4294967295 (Z.lxor x y)) = x.
Proof.
  intros Hx Hy. rewrite land_ones_32 by (apply (lxor_bound 32); done || lia).
  by rewrite (Z.lxor_comm x y), <- Z.lxor_assoc, Z.lxor_nilpotent, Z.lxor_0_l.
Qed.

Lemma select_1 r : forall s, length r = length s -> select r s 1 = (s, r).
Proof.
  unfold select. change (u32 (1 - 1)) with 0.
  induction r as [|x r IH]; intros [|y s] L; try done. cbn [zip_with].
  injection (IH s ltac:(by injection L)) as E1 E2. by rewrite E1, E2, Z.land_0_l, !Z.lxor_0_r.
Qed.

Lemma select_0 r : forall s, length r = length s -> Forall word r -> Forall word s -> select r s 0 = (r, s).
Proof.
  unfold select. change (u32 (0 - 1)) with 4294967295.
  induction r as [|x r IH]; intros [|y s] L Hr Hs; try done.
  apply list.Forall_cons in Hr as [Hx Hr], Hs as [Hy Hs]. cbn [zip_with].
  injection (IH s ltac:(by injection L) Hr Hs) as E1 E2. rewrite E1, E2.
  by rewrite (choose_x x y), (Z.lxor_comm x y), (choose_x y x).
Qed.

Lemma mask_all a : forall b, length a = length b -> Forall word a -> Forall word b ->
  zip_with (fun x y => Z.lxor y (Z.land 4294967295 (Z.lxor x y))) a b = a.
Proof.
  induction a as [|x a IH]; intros [|y b] L Ha Hb; try done.
  apply list.Forall_cons in Ha as [Hx Ha], Hb as [Hy Hb]. cbn [zip_with].
  by rewrite (choose_x x y), IH by (done || by injection L).
Qed.

Lemma mask_none a : forall b, length a = length b ->
  zip_with (fun x y => Z.lxor y (Z.land 0 (Z.lxor x y))) a b = b.
Proof.
  induction a as [|x a IH]; intros [|y b] L; try done. cbn [zip_with].
  by rewrite Z.land_0_l, Z.lxor_0_r, IH by (by injection L).
Qed.

Lemma fe_words B a : fe B a -> B < 2 ^ 32 -> Forall word a.
Proof.
  intros [L Hb Ht] HB. rewrite (split_top a L). apply Forall_app. split.
  - eapply list.Forall_impl; [exact Hb|]. unfold is_byte, word. intros. cbn beta in *. lia.
  - constructor; [unfold word; lia|constructor].
Qed.

Lemma minusp_fe : fe 128 minusp.
Proof. split; [done|apply (bool_decide_unpack _); vm_compute; exact Logic.I|vm_compute; split; discriminate]. Qed.

(** Bytes of a value below 2^255 stay as they are; a highest limb of 256 to 511 loses 256. *)
Lemma to_bytes lo t : length lo = 31%nat -> bytes lo -> 0 <= t < 512 ->
  u8 <$> (lo ++ [t]) = lo ++ [if t <? 256 then t else t - 256].
Proof.
  intros L Hb Ht. rewrite fmap_app. f_equal.
  - clear L. induction Hb as [|x l Hx Hl IH]; [done|]. rewrite fmap_cons, IH, u8_small by done. done.
  - cbn. f_equal. unfold u8. destruct (Z.ltb_spec t 256); [by rewrite Z.mod_small by lia|].
    symmetry. apply (Z.mod_unique_pos _ _ 1); lia.
Qed.

(** The [unsigned char]s of a limb string: the highest limb is cut to a byte. *)
Lemma to_bytes_value x : length x = 32%nat -> bytes (take 31 x) -> 0 <= at_ x 31 < 512 ->
  length (u8 <$> x) = 32%nat /\ bytes (u8 <$> x) /\
  le_val (u8 <$> x) = le_val x - (if at_ x 31 <? 256 then 0 else 2 ^ 256).
Proof.
  intros Lx Bx Tx. assert (L : length (take 31 x) = 31%nat) by (rewrite length_take; lia).
  rewrite (val_top x Lx). rewrite (split_top x Lx) at 1 2 3. rewrite to_bytes by done.
  rewrite length_app, Bigint.le_val_app, L. change (Z.of_nat 31) with 31. cbn [le_val].
  split; [done|]. split; [|destruct (Z.ltb_spec (at_ x 31) 256); lia].
  apply bytes_app. split; [done|]. apply bytes_cons; [|constructor].
  unfold is_byte. destruct (Z.ltb_spec (at_ x 31) 256); lia.
Qed.

(** The highest limb is the value divided by 256^31. *)
Lemma fe_top_div B a : fe B a -> at_ a 31 = le_val a `div` 256 ^ 31.
Proof.
  intros [L Hb Ht]. rewrite (val_top a L). pose proof (Bigint.le_val_range (take 31 a) 31 Hb) as H.
  rewrite length_take, L in H. specialize (H eq_refl). change (Z.of_nat 31) with 31 in H.
  apply (Z.div_unique_pos _ _ _ (le_val (take 31 a))); lia.
Qed.

(** Bit 7 of the highest limb of [a + 2^255 + 19] tells whether [a] is below p. *)
Lemma freeze_select a : fe 128 a -> le_val a < 2 * p25519 ->
  fe 257 (add a minusp) /\ le_val (add a minusp) = le_val a + 2 ^ 256 - p25519 /\
  freeze a = if le_val a <? p25519 then a else add a minusp.
Proof.
  intros Ha Hv. pose proof (fe_value _ _ Ha) as Hv0.
  destruct (field_add_spec 128 128 a minusp Ha minusp_fe ltac:(lia)) as [Hf Ev].
  change (le_val minusp) with (2 ^ 255 + 19) in Ev. unfold p25519 in *.
  split; [done|]. split; [lia|]. pose proof (fe_top_div _ _ Hf) as Tf. rewrite Ev in Tf.
  unfold freeze. rewrite Tf. rewrite Z.shiftr_div_pow2, Zdiv_Zdiv by lia.
  pose proof (fe_length _ _ Ha). pose proof (fe_length _ _ Hf).
  destruct (Z.ltb_spec (le_val a) (2 ^ 255 - 19)).
  - rewrite <- (Z.div_unique_pos _ (256 ^ 31 * 2 ^ 7) 1 (le_val a + 19)) by lia.
    change (u32 (- Z.land 1 1)) with 4294967295. apply mask_all; [lia|by eapply fe_words|by eapply fe_words].
  - rewrite <- (Z.div_unique_pos _ (256 ^ 31 * 2 ^ 7) 2 (le_val a + 19 - 2 ^ 255)) by lia.
    change (u32 (- Z.land 2 1)) with 0. apply mask_none. lia.
Qed.

Lemma freeze_spec a : fe 128 a -> le_val a < 2 * p25519 ->
  let r := u8 <$> freeze a in length r = 32%nat /\ bytes r /\ le_val r = le_val a `mod` p25519.
Proof.
  intros Ha Hv r. subst r. destruct (freeze_select a Ha Hv) as (Hf & Ev & ->).
  pose proof (fe_value _ _ Ha) as Hv0. pose proof (fe_top _ _ Ha). pose proof (fe_top _ _ Hf).
  pose proof (fe_top_div _ _ Hf) as Tf. rewrite Ev in Tf.
  destruct (Z.ltb_spec (le_val a) p25519).
  - destruct (to_bytes_value a (fe_length _ _ Ha) (fe_low _ _ Ha)) as (E1 & E2 & E3); [lia|].
    split; [done|]. split; [done|]. rewrite E3, Z.mod_small by lia.
    destruct (Z.ltb_spec (at_ a 31) 256); lia.
  - destruct (to_bytes_value _ (fe_length _ _ Hf) (fe_low _ _ Hf)) as (E1 & E2 & E3); [lia|].
    split; [done|]. split; [done|]. rewrite E3, Ev, Tf.
    assert (256 <= (le_val a + 2 ^ 256 - p25519) `div` 256 ^ 31) by (apply Z.div_le_lower_bound; lia).
    destruct (Z.ltb_spec ((le_val a + 2 ^ 256 - p25519) `div` 256 ^ 31) 256); [lia|].
    apply (Z.mod_unique_pos _ _ 1); unfold p25519 in *; lia.
Qed.

(** ** The operations as field operations *)

(** The limbs [a], with highest limb at most [B], stand for the field element [x]. *)
Definition rep (B : Z) (a : list Z) (x : Z) : Prop := fe B a /\ le_val a ≡p x.

Lemma rep_eqP B a x y : x ≡p y -> rep B a x -> rep B a y.
Proof. intros E [H1 H2]. split; [done|]. by rewrite H2. Qed.

Lemma rep_weaken A B a x : A <= B -> rep A a x -> rep B a x.
Proof. intros H [H1 H2]. split; [by eapply fe_weaken|done]. Qed.

Lemma rep_add A B a b x y : rep A a x -> rep B b y -> A + B < 2 ^ 30 -> rep (A + B + 1) (add a b) (fadd x y).
Proof.
  intros [Ha Ea] [Hb Eb] H. destruct (field_add_spec A B a b Ha Hb H) as [H1 H2]. split; [done|].
  unfold fadd. by rewrite eqP_mod, H2, Ea, Eb.
Qed.

Lemma rep_sub A a b x y : rep A a x -> rep 128 b y -> A < 2 ^ 30 -> rep (A + 256) (sub a b) (fsub x y).
Proof.
  intros [Ha Ea] [Hb Eb] H. destruct (field_sub_spec A a b Ha Hb H) as [H1 H2]. split; [done|].
  unfold fsub. rewrite eqP_mod, <- Ea, <- Eb, H2. by apply (eqP_multiple _ _ 2).
Qed.

Lemma rep_mult A B a b x y :
  rep A a x -> rep B b y -> 0 <= A < 1024 -> 0 <= B < 1024 -> rep 128 (mult a b) (fmul x y).
Proof.
  intros [Ha Ea] [Hb Eb] HA HB. destruct (mult_spec A B a b Ha Hb HA HB) as (H1 & H2 & _). split; [done|].
  unfold fmul. by rewrite eqP_mod, H2, Ea, Eb.
Qed.

Lemma rep_square A a x : rep A a x -> 0 <= A < 1024 -> rep 128 (square a) (fmul x x).
Proof. intros Ha HA. rewrite square_mult. by eapply rep_mult. Qed.

Lemma rep_121665 A a x : rep A a x -> 0 <= A < 1024 -> rep 128 (mult121665 a) (fmul 121665 x).
Proof.
  intros [Ha Ea] HA. destruct (mult121665_spec A a Ha HA) as (H1 & H2). split; [done|].
  unfold fmul. by rewrite eqP_mod, H2, Ea.
Qed.

(** ** Inversion *)

Definition power (z e : Z) (a : list Z) : Prop := rep 128 a (z ^ e).

Lemma power_mult z e f a b : 0 <= e -> 0 <= f -> power z e a -> power z f b -> power z (e + f) (mult a b).
Proof.
  intros He Hf Ha Hb. unfold power. rewrite Z.pow_add_r by done.
  eapply rep_eqP; [apply eqP_mod|]. by apply (rep_mult 128 128).
Qed.

Lemma power_square z e a : 0 <= e -> power z e a -> power z (2 * e) (square a).
Proof. intros He Ha. rewrite square_mult. replace (2 * e) with (e + e) by lia. by apply power_mult. Qed.

Lemma power_square_n z e n a : 0 <= e -> power z e a -> power z (2 ^ Z.of_nat n * e) (square_n n a).
Proof.
  intros He Ha. induction n as [|n IH]; [by rewrite Z.mul_1_l|].
  rewrite Nat2Z.inj_succ, Z.pow_succ_r, <- Z.mul_assoc by lia. apply power_square; [lia|done].
Qed.

(** [m] ones, [n] squarings, times [n] ones. *)
Lemma power_ones z m n j b c :
  0 <= m -> n = Z.of_nat j -> power z (2 ^ m - 1) b -> power z (2 ^ n - 1) c ->
  power z (2 ^ (m + n) - 1) (mult (square_n j b) c).
Proof.
  intros Hm -> Hb Hc. rewrite Z.pow_add_r by lia. set (n := Z.of_nat j) in *.
  replace (2 ^ m * 2 ^ n - 1) with (2 ^ n * (2 ^ m - 1) + (2 ^ n - 1)) by lia.
  pose proof (Z.pow_pos_nonneg 2 m). pose proof (Z.pow_pos_nonneg 2 n).
  apply power_mult; [nia|lia| |done]. apply power_square_n; [lia|done].
Qed.

Lemma square_n_add m n a : square_n m (square_n n a) = square_n (m + n) a.
Proof. unfold square_n. by rewrite Nat.iter_add. Qed.

(** The next local of [recip] is the power [e]; from then on only that is known of it. *)
Ltac power_let e H :=
  lazymatch goal with
  | |- power ?z ?g (let x := ?t in @?f x) =>
      assert (H : power z e t);
      [rewrite ?square_n_add
      |revert H; change (power z e t -> power z g (f t)); generalize t; intros ? H; cbv beta]
  end.

Lemma recip_spec a : fe 128 a -> power (le_val a) (p25519 - 2) (recip a).
Proof.
  intros Ha. set (z := le_val a). assert (H1 : power z 1 a) by (split; [done|by rewrite Z.pow_1_r]).
  cbv beta delta [recip].
  power_let 2 H2. { by apply (power_square z 1). }
  power_let 9 H9.
  { apply (power_mult z 8 1); [lia..| |done]. apply (power_square z 4); [lia|]. by apply (power_square z 2). }
  power_let 11 H11. { by apply (power_mult z 9 2). }
  power_let (2 ^ 5 - 1) H5. { apply (power_mult z 22 9); [lia..| |done]. by apply (power_square z 11). }
  power_let (2 ^ (5 + 5) - 1) H10. { exact (power_ones z 5 5 5 _ _ ltac:(lia) eq_refl H5 H5). }
  change (5 + 5) with 10 in H10.
  power_let (2 ^ (10 + 10) - 1) H20. { exact (power_ones z 10 10 10 _ _ ltac:(lia) eq_refl H10 H10). } change (10 + 10) with 20 in H20.
  power_let (2 ^ (20 + 20) - 1) H40. { exact (power_ones z 20 20 20 _ _ ltac:(lia) eq_refl H20 H20). } change (20 + 20) with 40 in H40.
  power_let (2 ^ (40 + 10) - 1) H50. { exact (power_ones z 40 10 10 _ _ ltac:(lia) eq_refl H40 H10). } change (40 + 10) with 50 in H50.
  power_let (2 ^ (50 + 50) - 1) H100. { exact (power_ones z 50 50 50 _ _ ltac:(lia) eq_refl H50 H50). } change (50 + 50) with 100 in H100.
  power_let (2 ^ (100 + 100) - 1) H200. { exact (power_ones z 100 100 100 _ _ ltac:(lia) eq_refl H100 H100). } change (100 + 100) with 200 in H200.
  power_let (2 ^ (200 + 50) - 1) H250. { exact (power_ones z 200 50 50 _ _ ltac:(lia) eq_refl H200 H50). }
  replace (p25519 - 2) with (2 ^ Z.of_nat 5 * (2 ^ (200 + 50) - 1) + 11) by done.
  apply power_mult; [done..| |exact H11]. apply power_square_n; [done|exact H250].
Qed.

(** ** The ladder *)

(** A pair of limb strings [x] and [z], as [mainloop] keeps it, stands for a projective point. *)
Record rep_point (l : list Z) (P : Z * Z) : Prop := {
  rp_length : length l = 64%nat;
  rp_x : rep 255 (take 32 l) (fst P);
  rp_z : rep 128 (drop 32 l) (snd P)
}.

Lemma rep_point_app a b P : rep 128 a (fst P) -> rep 128 b (snd P) -> rep_point (a ++ b) P.
Proof.
  intros Ha Hb. pose proof (fe_length _ _ (proj1 Ha)) as La. pose proof (fe_length _ _ (proj1 Hb)) as Lb.
  split; [by rewrite length_app, La, Lb| |].
  - rewrite take_app_length' by done. by apply (rep_weaken 128).
  - by rewrite drop_app_length' by done.
Qed.

Lemma rep_point_words l P : rep_point l P -> Forall word l.
Proof.
  intros [_ [H1 _] [H2 _]]. rewrite <- (take_drop 32 l). apply Forall_app.
  split; [by apply (fe_words 255)|by apply (fe_words 128)].
Qed.

Lemma fmul_comm x y : fmul x y = fmul y x.
Proof. unfold fmul. by rewrite Z.mul_comm. Qed.

Lemma fadd_comm x y : fadd x y = fadd y x.
Proof. unfold fadd. by rewrite Z.add_comm. Qed.

Lemma fsub_square x y : fmul (fsub x y) (fsub x y) = fmul (fsub y x) (fsub y x).
Proof.
  change (fmul (fsub x y) (fsub x y)) with ((fsub x y * fsub x y) `mod` p25519).
  change ((fsub x y * fsub x y) `mod` p25519 = (fsub y x * fsub y x) `mod` p25519).
  fold (eqP (fsub x y * fsub x y) (fsub y x * fsub y x)). unfold fsub. rewrite !eqP_mod.
  replace ((x - y) * (x - y)) with ((y - x) * (y - x)) by lia. done.
Qed.

Lemma ladder_core_spec work x1 m m1 P Q :
  rep 255 work x1 -> rep_point m P -> rep_point m1 Q ->
  rep_point (fst (ladder_core work m m1)) (fst (xz_step x1 P Q)) /\
  rep_point (snd (ladder_core work m m1)) (snd (xz_step x1 P Q)).
Proof.
  intros Hw [_ Hx Hz] [_ Hx1 Hz1]. destruct P as [x2 z2], Q as [x3 z3]. cbn [fst snd] in *.
  pose proof (rep_add _ _ _ _ _ _ Hx Hz ltac:(lia)) as A0. pose proof (rep_sub _ _ _ _ _ Hx Hz ltac:(lia)) as A0'.
  pose proof (rep_add _ _ _ _ _ _ Hx1 Hz1 ltac:(lia)) as A1. pose proof (rep_sub _ _ _ _ _ Hx1 Hz1 ltac:(lia)) as A1'.
  pose proof (rep_square _ _ _ A0 ltac:(lia)) as B0. pose proof (rep_square _ _ _ A0' ltac:(lia)) as B0'.
  pose proof (rep_mult _ _ _ _ _ _ A1 A0' ltac:(lia) ltac:(lia)) as B1.
  pose proof (rep_mult _ _ _ _ _ _ A1' A0 ltac:(lia) ltac:(lia)) as B1'.
  pose proof (rep_add _ _ _ _ _ _ B1 B1' ltac:(lia)) as C1. pose proof (rep_sub _ _ _ _ _ B1 B1' ltac:(lia)) as C1'.
  pose proof (rep_square _ _ _ C1' ltac:(lia)) as R. pose proof (rep_sub _ _ _ _ _ B0 B0' ltac:(lia)) as S.
  pose proof (rep_121665 _ _ _ S ltac:(lia)) as T. pose proof (rep_add _ _ _ _ _ _ T B0 ltac:(lia)) as U.
  unfold xz_step, ladder_core. cbn [fst snd]. split; apply rep_point_app; cbn [fst snd].
  - apply (rep_mult _ _ _ _ _ _ B0 B0'); lia.
  - rewrite (fadd_comm (fmul (fadd x2 z2) _)). apply (rep_mult _ _ _ _ _ _ S U); lia.
  - rewrite (fadd_comm (fmul (fsub x3 z3) _)). apply (rep_square _ _ _ C1); lia.
  - rewrite (fmul_comm x1), (fsub_square (fmul (fsub x3 z3) _)). apply (rep_mult _ _ _ _ _ _ R Hw); lia.
Qed.

(** One step of the reference ladder, for one bit. *)
Definition xz_round (x1 : Z) (b : bool) (st : (Z * Z) * (Z * Z)) : (Z * Z) * (Z * Z) :=
  if b then let '(Q', P') := xz_step x1 (snd st) (fst st) in (P', Q') else xz_step x1 (fst st) (snd st).

Lemma ladder_round_spec work x1 b st P Q :
  rep 255 work x1 -> rep_point (fst st) P -> rep_point (snd st) Q ->
  let st' := ladder_round work (Z.b2z b) st in
  rep_point (fst st') (fst (xz_round x1 b (P, Q))) /\ rep_point (snd st') (snd (xz_round x1 b (P, Q))).
Proof.
  intros Hw Hm Hm1. cbv zeta. unfold ladder_round, xz_round. cbn [fst snd].
  assert (L : length (fst st) = length (snd st)) by (by rewrite (rp_length _ _ Hm), (rp_length _ _ Hm1)).
  destruct b; cbn [Z.b2z].
  - rewrite (select_1 _ _ L). destruct (ladder_core_spec work x1 _ _ _ _ Hw Hm1 Hm) as [H1 H2].
    destruct (ladder_core work (snd st) (fst st)) as [n n1], (xz_step x1 Q P) as [Q' P']. cbn [fst snd] in *.
    rewrite select_1; [done|]. by rewrite (rp_length _ _ H1), (rp_length _ _ H2).
  - rewrite (select_0 _ _ L) by (by eapply rep_point_words).
    destruct (ladder_core_spec work x1 _ _ _ _ Hw Hm Hm1) as [H1 H2].
    destruct (ladder_core work (fst st) (snd st)) as [n n1]. cbn [fst snd] in *.
    rewrite select_0; [done| |by eapply rep_point_words..]. by rewrite (rp_length _ _ H1), (rp_length _ _ H2).
Qed.

(** ** The scalar *)

Lemma testbit_le_val l : forall n, bytes l ->
  Z.testbit (le_val l) (Z.of_nat n) = Z.testbit (at_ l (n / 8)) (Z.of_nat (n `mod` 8)).
Proof.
  induction l as [|x l IH]; intros n Hl; [change (at_ [] (n / 8)) with 0; cbn [le_val]; by rewrite !Z.testbit_0_l|].
  apply list.Forall_cons in Hl as [Hx Hl]. unfold is_byte in Hx. cbn [le_val].
  destruct (Nat.lt_ge_cases n 8) as [Hn|Hn].
  - rewrite Nat.div_small, Nat.mod_small by done. change (at_ (x :: l) 0) with x.
    rewrite <- (Z.mod_pow2_bits_low _ 8) by lia. f_equal. symmetry. apply (Z.mod_unique_pos _ _ (le_val l)); lia.
  - destruct (Nat.le_exists_sub 8 n Hn) as (m & -> & _).
    replace ((m + 8) / 8)%nat with (m / 8 + 1)%nat by (symmetry; exact (Nat.div_add m 1 8 ltac:(done))). rewrite Nat.add_1_r.
    replace ((m + 8) `mod` 8)%nat with (m `mod` 8)%nat by (symmetry; exact (Nat.Div0.mod_add m 1 8)).
    change (at_ (x :: l) (S (m / 8))) with (at_ l (m / 8)). rewrite <- (IH m Hl), Nat2Z.inj_add.
    change (Z.of_nat 8) with 8. rewrite <- Z.div_pow2_bits by lia. f_equal.
    symmetry. apply (Z.div_unique_pos _ _ _ x); lia.
Qed.

Lemma scalar_bit_spec e pos : bytes e -> scalar_bit e pos = Z.b2z (Z.testbit (le_val e) (Z.of_nat pos)).
Proof.
  intros He. rewrite testbit_le_val by done. unfold scalar_bit.
  change 1 with (Z.ones 1). rewrite Z.land_ones, Z.shiftr_div_pow2, Z.testbit_spec' by lia. done.
Qed.

(** The three assignments of [clamp] on a byte, by exhaustion. *)
Lemma clamp_low x : is_byte x -> Z.land x 248 = 8 * (x `div` 8).
Proof.
  intros Hx.
  assert (H : Forall (fun x => Z.land x 248 = 8 * (x `div` 8)) (seqZ 0 256)) by (apply (bool_decide_unpack _); vm_compute; exact Logic.I).
  eapply list.Forall_forall in H; [exact H|]. apply elem_of_seqZ. unfold is_byte in Hx. lia.
Qed.

Lemma clamp_high x : is_byte x -> Z.lor (Z.land x 127) 64 = 64 + x `mod` 64.
Proof.
  intros Hx.
  assert (H : Forall (fun x => Z.lor (Z.land x 127) 64 = 64 + x `mod` 64) (seqZ 0 256)) by (apply (bool_decide_unpack _); vm_compute; exact Logic.I).
  eapply list.Forall_forall in H; [exact H|]. apply elem_of_seqZ. unfold is_byte in Hx. lia.
Qed.

Lemma clamp_spec n : length n = 32%nat -> bytes n ->
  length (clamp n) = 32%nat /\ bytes (clamp n) /\ le_val (clamp n) = clamped (le_val n).
Proof.
  intros L Hn. destruct n as [|x l]; [done|]. injection L as L. apply list.Forall_cons in Hn as [Hx Hl].
  assert (Ll : length l = 31%nat) by done.
  set (mid := take 30 l). set (y := at_ l 30).
  assert (El : l = mid ++ [y]).
  { rewrite <- (take_drop 30 l) at 1. f_equal. destruct (drop 30 l) as [|u [|v t]] eqn:E;
    pose proof (f_equal length E) as E'; rewrite length_drop in E'; simpl in E'; try lia.
    unfold y, at_. change 30%nat with (30 + 0)%nat. by rewrite <- lookup_drop, E. }
  assert (Hm : bytes mid) by (by apply bytes_take). assert (Lm : length mid = 30%nat) by (unfold mid; rewrite length_take; lia).
  assert (Hy : is_byte y) by (by apply at_byte).
  unfold clamp. change (at_ (x :: l) 0) with x. change (at_ (x :: l) 31) with y. change (drop 1 (x :: l)) with l.
  fold mid. rewrite (clamp_low x Hx), (clamp_high y Hy).
  pose proof (Bigint.le_val_range mid 30 Hm Lm) as Hr. unfold is_byte in *.
  pose proof (Z.div_mod x 8 ltac:(done)). pose proof (Z.mod_pos_bound x 8 ltac:(done)).
  pose proof (Z.div_mod y 64 ltac:(done)). pose proof (Z.mod_pos_bound y 64 ltac:(done)).
  split; [cbn [length]; rewrite length_app, Lm; done|]. split.
  { apply bytes_cons; [unfold is_byte; lia|]. apply bytes_app. split; [done|].
    apply bytes_cons; [unfold is_byte; lia|constructor]. }
  cbn [le_val]. rewrite El at 1. rewrite !Bigint.le_val_app, Lm. cbn [le_val]. unfold clamped.
  change (Z.of_nat 30) with 30 in *.
  assert (E : (x + 256 * (le_val mid + 256 ^ 30 * (y + 256 * 0))) `mod` 2 ^ 254 = x + 256 * (le_val mid + 256 ^ 30 * (y `mod` 64))).
  { symmetry. apply (Z.mod_unique_pos _ _ (y `div` 64)); lia. }
  rewrite E. assert (E8 : (x + 256 * (le_val mid + 256 ^ 30 * (y `mod` 64))) `div` 8 = x `div` 8 + 32 * (le_val mid + 256 ^ 30 * (y `mod` 64))).
  { symmetry. apply (Z.div_unique_pos _ _ _ (x `mod` 8)); lia. }
  rewrite E8. lia.
Qed.

(** ** The whole computation *)

Lemma xz_ladder_rounds x1 k n : forall st,
  xz_ladder x1 k n (fst st) (snd st) =
  foldl (fun st pos => xz_round x1 (Z.testbit k (Z.of_nat pos)) st) st (reverse (seq 0 n)).
Proof.
  induction n as [|n IH]; intros st; [by destruct st|].
  rewrite seq_S, reverse_snoc. cbn [foldl xz_ladder]. rewrite <- IH. unfold xz_round. rewrite Nat.add_0_l.
  destruct (Z.testbit k (Z.of_nat n)); destruct (xz_step _ _ _); done.
Qed.

Lemma rounds_spec work e x1 l : forall st P Q,
  rep 255 work x1 -> bytes e -> rep_point (fst st) P -> rep_point (snd st) Q ->
  let st' := foldl (fun st pos => ladder_round work (scalar_bit e pos) st) st l in
  let R := foldl (fun st pos => xz_round x1 (Z.testbit (le_val e) (Z.of_nat pos)) st) (P, Q) l in
  rep_point (fst st') (fst R) /\ rep_point (snd st') (snd R).
Proof.
  induction l as [|pos l IH]; intros st P Q Hw He Hm Hm1; [done|]. cbn [foldl].
  rewrite (scalar_bit_spec e pos He).
  destruct (ladder_round_spec work x1 (Z.testbit (le_val e) (Z.of_nat pos)) st P Q Hw Hm Hm1) as [H1 H2].
  destruct (xz_round x1 _ (P, Q)) as [P' Q']. by apply IH.
Qed.

Lemma rep_bytes a : length a = 32%nat -> bytes a -> rep 255 a (le_val a).
Proof.
  intros L Hb. split; [|done]. split; [done|by apply bytes_take|].
  pose proof (at_byte a 31 Hb) as H. unfold is_byte in H. lia.
Qed.

Lemma const_points p : length p = 32%nat -> bytes p ->
  rep_point (1 :: replicate 63 0) (1, 0) /\ rep_point (p ++ 1 :: replicate 31 0) (le_val p, 1).
Proof.
  intros L Hb. split.
  - split; [done|..]; (split; [split|]); try done; try (apply (bool_decide_unpack _); vm_compute; exact Logic.I); cbn; lia.
  - split; [by rewrite length_app, L| |]; cbn [fst snd].
    + rewrite take_app_length' by done. by apply rep_bytes.
    + rewrite drop_app_length' by done. (split; [split|]); try done; try (apply (bool_decide_unpack _); vm_compute; exact Logic.I); cbn; lia.
Qed.

Lemma mainloop_spec p e : length p = 32%nat -> bytes p -> bytes e ->
  rep_point (mainloop p e) (fst (xz_ladder (le_val p) (le_val e) 255 (1, 0) (le_val p, 1))).
Proof.
  intros Lp Bp Be. destruct (const_points p Lp Bp) as [H1 H2].
  pose proof (xz_ladder_rounds (le_val p) (le_val e) 255 ((1, 0), (le_val p, 1))) as E. cbn [fst snd] in E. rewrite E.
  exact (proj1 (rounds_spec p e (le_val p) (reverse (seq 0 255))
    (1 :: replicate 63 0, p ++ 1 :: replicate 31 0) (1, 0) (le_val p, 1) (rep_bytes p Lp Bp) Be H1 H2)).
Qed.

(** The last three steps of the scalar multiplication: division, canonical form. *)
Lemma finish_spec w x z :
  rep_point w (x, z) ->
  let q := u8 <$> freeze (mult (take 32 w) (recip (drop 32 w))) in
  length q = 32%nat /\ bytes q /\ le_val q = fmul x (fpow z (p25519 - 2)).
Proof.
  intros [_ [Fx Ex] [Fz Ez]] q. destruct (recip_spec _ Fz) as [F Ep].
  destruct (mult_spec _ _ _ _ Fx F ltac:(lia) ltac:(lia)) as (G & Em & Hb).
  destruct (freeze_spec _ G (proj2 Hb)) as (R1 & R2 & R3). split; [done|]. split; [done|].
  unfold q. rewrite R3. unfold fmul, fpow. rewrite Zpow_mod_correct by done. cbn [fst snd] in *.
  rewrite Zmult_mod_idemp_r. fold (eqP (le_val (mult (take 32 w) (recip (drop 32 w)))) (x * z ^ (p25519 - 2))).
  rewrite Em, Ep, Ex. apply eqP_mul; [done|]. unfold eqP in *.
  rewrite (Zpower_mod (le_val _)), (Zpower_mod z) by done. by rewrite Ez.
Qed.

Lemma scalarmult_value n p :
  length n = 32%nat -> bytes n -> length p = 32%nat -> bytes p ->
  let q := crypto_scalarmult_curve25519 n p in
  length q = 32%nat /\ bytes q /\ le_val q = ladder (clamped (le_val n)) (le_val p).
Proof.
  intros Ln Bn Lp Bp q. destruct (clamp_spec n Ln Bn) as (Le & Be & Ee).
  pose proof (mainloop_spec p (clamp n) Lp Bp Be) as H. rewrite Ee in H.
  unfold ladder. destruct (xz_ladder _ _ _ _ _) as [[x z] R]. exact (finish_spec _ x z H).
Qed.

#[global] Instance curve25519 : Curve := crypto_scalarmult_curve25519.

#[global] Instance curve25519_ok : CurveOk curve25519.
Proof. split. intros n p Ln Bn Lp Bp. by destruct (scalarmult_value n p Ln Bn Lp Bp) as (? & ? & _). Qed.

(** The ladder depends on the point modulo p only. *)
Lemma xz_step_mod x1 x1' P P' Q Q' : x1 ≡p x1' -> fst P ≡p fst P' -> snd P ≡p snd P' -> fst Q ≡p fst Q' -> snd Q ≡p snd Q' ->
  xz_step x1 P Q = xz_step x1' P' Q'.
Proof.
  destruct P as [a b], P' as [a' b'], Q as [c d], Q' as [c' d']. cbn [fst snd]. intros Hx Ha Hb Hc Hd. unfold xz_step.
  assert (fadd a b = fadd a' b') as -> by (by apply eqP_add). assert (fsub a b = fsub a' b') as -> by (by apply eqP_sub).
  assert (fadd c d = fadd c' d') as -> by (by apply eqP_add). assert (fsub c d = fsub c' d') as -> by (by apply eqP_sub).
  match goal with |- (_, (_, fmul x1 ?y)) = _ => assert (fmul x1 y = fmul x1' y) as -> by (by apply eqP_mul) end. done.
Qed.

Lemma xz_ladder_mod x1 x1' k n P Q : x1 ≡p x1' -> xz_ladder x1 k n P Q = xz_ladder x1' k n P Q.
Proof.
  intros Hx. revert P Q. induction n as [|n IH]; intros P Q; [done|]. cbn [xz_ladder].
  rewrite (xz_step_mod x1 x1' Q Q P P), (xz_step_mod x1 x1' P P Q Q) by done.
  destruct (Z.testbit k _); destruct (xz_step _ _ _) as [P' Q']; apply IH.
Qed.

Lemma ladder_mod k u u' : u ≡p u' -> ladder k u = ladder k u'.
Proof.
  intros Hu. assert (H : forall n, xz_ladder u k (S n) (1, 0) (u, 1) = xz_ladder u' k (S n) (1, 0) (u', 1)).
  { intros n. cbn [xz_ladder].
    rewrite (xz_step_mod u u' (u, 1) (u', 1) (1, 0) (1, 0)), (xz_step_mod u u' (1, 0) (1, 0) (u, 1) (u', 1)) by done.
    destruct (Z.testbit k _); destruct (xz_step _ _ _) as [P' Q']; by rewrite (xz_ladder_mod u u'). }
  unfold ladder. by rewrite (H 254%nat).
Qed.

(** C32: for every scalar and every point of 32 bytes the scalar multiplication gives the canonical
    32-byte little-endian form of an element of the field of p = 2^255 - 19 elements, without losing a
    carry or wrapping an [unsigned int].  For a point below 2^255 it is X25519 of RFC 7748.  For a point
    with its top bit set, which the RFC masks and the code does not, it is what the RFC's ladder gives
    for the coordinate 19 higher than the masked one. *)
Theorem crypto_scalarmult_is_x25519 n p :
  length n = 32%nat -> bytes n -> length p = 32%nat -> bytes p ->
  let q := crypto_scalarmult_curve25519 n p in
  length q = 32%nat /\ bytes q /\
  (le_val p < 2 ^ 255 -> le_val q = x25519 n p) /\
  (2 ^ 255 <= le_val p -> le_val q = ladder (clamped (le_val n)) (le_val p `mod` 2 ^ 255 + 19)).
Proof.
  intros Ln Bn Lp Bp q. destruct (scalarmult_value n p Ln Bn Lp Bp) as (L & B & V). pose proof (le_val_bound p Bp) as [H0 H1].
  rewrite Lp in H1. change (256 ^ Z.of_nat 32) with (2 * 2 ^ 255) in H1.
  split; [exact L|]. split; [exact B|]. split; intros Hp.
  - unfold x25519. rewrite Z.mod_small by lia. exact V.
  - etransitivity; [exact V|]. apply ladder_mod.
    assert (le_val p `mod` 2 ^ 255 = le_val p - 2 ^ 255) as -> by (symmetry; apply Z.mod_unique with 1; lia).
    unfold eqP. rewrite <- (Z.mod_add (le_val p - 2 ^ 255 + 19) 1) by done. f_equal. unfold p25519. lia.
Qed.

(** The first test vector of RFC 7748, section 5.2. *)
Definition rfc_scalar : list Z :=
  [0xa5; 0x46; 0xe3; 0x6b; 0xf0; 0x52; 0x7c; 0x9d; 0x3b; 0x16; 0x15; 0x4b; 0x82; 0x46; 0x5e; 0xdd;
   0x62; 0x14; 0x4c; 0x0a; 0xc1; 0xfc; 0x5a; 0x18; 0x50; 0x6a; 0x22; 0x44; 0xba; 0x44; 0x9a; 0xc4].
Definition rfc_point : list Z :=
  [0xe6; 0xdb; 0x68; 0x67; 0x58; 0x30; 0x30; 0xdb; 0x35; 0x94; 0xc1; 0xa4; 0x24; 0xb1; 0x5f; 0x7c;
   0x72; 0x66; 0x24; 0xec; 0x26; 0xb3; 0x35; 0x3b; 0x10; 0xa9; 0x03; 0xa6; 0xd0; 0xab; 0x1c; 0x4c].

Lemma crypto_scalarmult_is_x25519_witness :
  le_val (crypto_scalarmult_curve25519 rfc_scalar rfc_point) = x25519 rfc_scalar rfc_point.
Proof.
  destruct (crypto_scalarmult_is_x25519 rfc_scalar rfc_point) as (_ & _ & H & _).
  - reflexivity.
  - apply (bool_decide_unpack _). vm_compute. exact Logic.I.
  - reflexivity.
  - apply (bool_decide_unpack _). vm_compute. exact Logic.I.
  - apply H. vm_compute. reflexivity.
Defined.
End Curve25519.
