(* ===== verification/S2Types.v ===== *)
(** * The S2 context (libs2/include/s2_protocol.h, S2.h, S2_external.h)

    The data of the S2 transport as the C structures have it, the effects of its functions (the
    context, the global random generator, the calls to the glue layer as a trace, memory faults as
    values) as a small state-and-error monad, and the interfaces to the inclusion state machine and
    to the platform. *)
From S2P Require Import Prelude Aes Cmac Ccm Drbg.
Import CtrDrbg.

Module S2Types.

(** ** Constants *)

Definition COMMAND_CLASS_SECURITY_2 : Z := 0x9F.
Definition SECURITY_2_NONCE_GET : Z := 0x01.
Definition SECURITY_2_NONCE_REPORT : Z := 0x02.
Definition SECURITY_2_MESSAGE_ENCAPSULATION : Z := 0x03.
Definition KEX_FAIL : Z := 0x07.
Definition SECURITY_2_COMMANDS_SUPPORTED_GET : Z := 0x0D.
Definition SECURITY_2_COMMANDS_SUPPORTED_REPORT : Z := 0x0E.
Definition SOS_BIT_MASK : Z := 0x01.
Definition MOS_BIT_MASK : Z := 0x02.
Definition EXTENSION_BIT_MASK : Z := 0x01.
Definition ENCRYPTED_EXTENSION_BIT_MASK : Z := 0x02.

Definition S2_MSG_EXTHDR_CRITICAL_FLAG : Z := 0x40.
Definition S2_MSG_EXTHDR_MORE_FLAG : Z := 0x80.
Definition S2_MSG_EXTHDR_TYPE_MASK : Z := 0x3F.
Definition S2_MSG_EXTHDR_TYPE_SN : Z := 1.
Definition S2_MSG_EXTHDR_TYPE_MPAN : Z := 2.
Definition S2_MSG_EXTHDR_TYPE_MGRP : Z := 3.
Definition S2_MSG_EXTHDR_TYPE_MOS : Z := 4.

Definition S2_TXOPTION_VERIFY_DELIVERY : Z := 1.
Definition S2_TXOPTION_SINGLECAST_FOLLOWUP : Z := 2.
Definition S2_TXOPTION_FIRST_SINGLECAST_FOLLOWUP : Z := 4.
Definition S2_RXOPTION_MULTICAST : Z := 1.
Definition S2_RXOPTION_FOLLOWUP : Z := 2.

Definition S2_SEQ_DUPL_WINDOW_SIZE : Z := 2.
Definition UNENCRYPTED_CLASS : Z := 0xFF.
Definition SPAN_TABLE_SIZE : nat := 254.
Definition MPAN_TABLE_SIZE : nat := 254.
Definition MOS_LIST_LENGTH : nat := 3.
Definition WORKBUF_SIZE : nat := 1280.
Definition WORKBUF_LEN : nat := WORKBUF_SIZE + 10 + 8 + 4.
Definition N_SEC_CLASS : nat := 7.
Definition AUTH_TAG_LEN : nat := 8.
Definition SEND_DATA_TIMEOUT : Z := 65000.
Definition LOWEST_LONG_RANGE_NODE_ID : Z := 0x0100.

Definition UNAUTHENTICATED_KEY_SLOT : Z := 0.
Definition AUTHENTICATED_KEY_SLOT : Z := 1.
Definition ACCESS_KEY_SLOT : Z := 2.
Definition LR_AUTHENTICATED_KEY_SLOT : Z := 3.
Definition LR_ACCESS_KEY_SLOT : Z := 4.

Definition S2_TRANSMIT_COMPLETE_OK : Z := 0x00.
Definition S2_TRANSMIT_COMPLETE_NO_ACK : Z := 0x01.
Definition S2_TRANSMIT_COMPLETE_FAIL : Z := 0x02.
Definition S2_TRANSMIT_COMPLETE_VERIFIED : Z := 0x5.

Definition IS_LR_NODE (nodeid : Z) : bool := (256 <=? nodeid) && (nodeid <=? 4000).

(** ** Enumerations *)

Inductive span_state_t :=
  SPAN_NOT_USED | SPAN_NO_SEQ | SPAN_SOS | SPAN_SOS_LOCAL_NONCE | SPAN_SOS_REMOTE_NONCE
| SPAN_INSTANTIATE | SPAN_NEGOTIATED.

Inductive mpan_state_t := MPAN_NOT_USED | MPAN_SET | MPAN_MOS.

Inductive s2_inclusion_state_t :=
  S2_INC_IDLE | S2_AWAITING_KEX_GET | S2_AWAITING_KEX_REPORT | S2_AWAITING_KEY_USER_ACCEPT
| S2_AWAITING_KEX_SET | S2_AWAITING_PUB_KEY_A | S2_AWAITING_PUB_KEY_B | S2_AWAITING_USER_ACCEPT
| S2_AWAITING_USER_A_ACCEPT | S2_PENDING_ECHO_KEX_REPORT | S2_ECHO_KEX_SET_SENDING
| S2_AWAITING_ECHO_KEX_SET | S2_AWAITING_ECHO_KEX_REPORT | S2_AWAITING_NET_KEY_GET
| S2_AWAITING_NET_KEY_REPORT | S2_AWAITING_NET_KEY_VERIFY | S2_AWAITING_TRANSFER_END
| S2_KEY_EXCHANGED | S2_SENDING_FINAL_TRANSFER_END | S2_ERROR_SENT | S2_INC_STATE_ANY.

Inductive inclusion_mode_t := INCLUSION_MODE_CSA | INCLUSION_MODE_SSA.

Inductive states_t :=
  IDLE | WAIT_NONCE_RAPORT | SENDING_MSG | SENDING_MULTICAST | VERIFYING_DELIVERY | IS_MOS_WAIT_REPLY.

Inductive event_t :=
  SEND_MSG | SEND_MULTICAST | SEND_DONE | GOT_NONCE_GET | GOT_NONCE_RAPORT | GOT_ENC_MSG
| GOT_BAD_ENC_MSG | GOT_ENC_MSG_MOS | TIMEOUT | ABORT | SEND_FOLLOW_UP.

Inductive decrypt_return_code_t := AUTH_OK | PARSE_FAIL | AUTH_FAIL | SEQUENCE_FAIL.

Inductive zwave_s2_keyset_t := ZWAVE_KEYSET | ZWAVE_LONG_RANGE_KEYSET | UNKNOWN_KEYSET.

Inductive sos_event_reason_t := SOS_EVENT_REASON_UNANSWERED.

#[global] Instance span_state_eq_dec : EqDecision span_state_t.
Proof. solve_decision. Defined.
#[global] Instance mpan_state_eq_dec : EqDecision mpan_state_t.
Proof. solve_decision. Defined.
#[global] Instance inclusion_state_eq_dec : EqDecision s2_inclusion_state_t.
Proof. solve_decision. Defined.
#[global] Instance inclusion_mode_eq_dec : EqDecision inclusion_mode_t.
Proof. solve_decision. Defined.
#[global] Instance states_eq_dec : EqDecision states_t.
Proof. solve_decision. Defined.
#[global] Instance event_eq_dec : EqDecision event_t.
Proof. solve_decision. Defined.
#[global] Instance decrypt_code_eq_dec : EqDecision decrypt_return_code_t.
Proof. solve_decision. Defined.

(** ** Structures *)

Record s2_connection_t := mkConn {
  l_node : Z; r_node : Z; tx_options : Z; rx_options : Z; zw_tx_options : Z; zw_rx_status : Z;
  zw_rx_RSSIval : Z; mgrp_group_id : Z; class_id : Z
}.

#[global] Instance conn_eq_dec : EqDecision s2_connection_t.
Proof. solve_decision. Defined.

Definition with_l_node (x : Z) (c : s2_connection_t) : s2_connection_t :=
  mkConn x (r_node c) (tx_options c) (rx_options c) (zw_tx_options c) (zw_rx_status c)
    (zw_rx_RSSIval c) (mgrp_group_id c) (class_id c).
Definition with_tx_options (x : Z) (c : s2_connection_t) : s2_connection_t :=
  mkConn (l_node c) (r_node c) x (rx_options c) (zw_tx_options c) (zw_rx_status c)
    (zw_rx_RSSIval c) (mgrp_group_id c) (class_id c).
Definition with_rx_options (x : Z) (c : s2_connection_t) : s2_connection_t :=
  mkConn (l_node c) (r_node c) (tx_options c) x (zw_tx_options c) (zw_rx_status c)
    (zw_rx_RSSIval c) (mgrp_group_id c) (class_id c).
Definition with_class_id (x : Z) (c : s2_connection_t) : s2_connection_t :=
  mkConn (l_node c) (r_node c) (tx_options c) (rx_options c) (zw_tx_options c) (zw_rx_status c)
    (zw_rx_RSSIval c) (mgrp_group_id c) x.

(** The union [d] is its 33 bytes: the generator context is the byte [df], the 16 bytes [v] and the
    16 bytes [k]; the receiver nonce is the first 16 bytes. *)
Record SPAN := mkSpan {
  d : list Z; lnode : Z; rnode : Z; rx_seq : Z; tx_seq : Z; sp_class : Z; sp_state : span_state_t
}.

Definition d_rng (s : SPAN) : CTR_DRBG_CTX :=
  {| df := at_ (d s) 0; v := sub 1 16 (d s); k := sub 17 16 (d s) |}.
Definition d_r_nonce (s : SPAN) : list Z := take 16 (d s).

Definition set_rng (g : CTR_DRBG_CTX) (s : SPAN) : SPAN :=
  mkSpan (df g :: v g ++ k g) (lnode s) (rnode s) (rx_seq s) (tx_seq s) (sp_class s) (sp_state s).
Definition set_r_nonce (n : list Z) (s : SPAN) : SPAN :=
  mkSpan (splice 0 n (d s)) (lnode s) (rnode s) (rx_seq s) (tx_seq s) (sp_class s) (sp_state s).
Definition set_rx_seq (x : Z) (s : SPAN) : SPAN :=
  mkSpan (d s) (lnode s) (rnode s) x (tx_seq s) (sp_class s) (sp_state s).
Definition set_tx_seq (x : Z) (s : SPAN) : SPAN :=
  mkSpan (d s) (lnode s) (rnode s) (rx_seq s) x (sp_class s) (sp_state s).
Definition set_sp_class (x : Z) (s : SPAN) : SPAN :=
  mkSpan (d s) (lnode s) (rnode s) (rx_seq s) (tx_seq s) x (sp_state s).
Definition set_sp_state (x : span_state_t) (s : SPAN) : SPAN :=
  mkSpan (d s) (lnode s) (rnode s) (rx_seq s) (tx_seq s) (sp_class s) x.

Record MPAN := mkMpan {
  owner_id : Z; group_id : Z; inner_state : list Z; mp_class : Z; mp_state : mpan_state_t
}.

Definition set_inner (x : list Z) (m : MPAN) : MPAN :=
  mkMpan (owner_id m) (group_id m) x (mp_class m) (mp_state m).
Definition set_mp_class (x : Z) (m : MPAN) : MPAN :=
  mkMpan (owner_id m) (group_id m) (inner_state m) x (mp_state m).
Definition set_mp_state (x : mpan_state_t) (m : MPAN) : MPAN :=
  mkMpan (owner_id m) (group_id m) (inner_state m) (mp_class m) x.

Record MOS_LIST := mkMos { node_id : Z; mos_group : Z }.

Record sec_group := mkSg { enc_key : list Z; mpan_key : list Z; nonce_key : list Z }.

(** A [const uint8_t*] of the context: null, a buffer of the caller (by the bytes it holds, which
    the caller must not change before the send is done), or the context's own buffer [u]. *)
Inductive buf_ptr := BufNull | BufExt (l : list Z) | BufU.

(** The context.  The fields [span], [sec_commands_supported_frame] and its size, which no function
    reads, are left out; [length_] is the field [length]; the pointer [mpan] is an index into
    [mpan_table]. *)
Record S2 := mkS2 {
  sg : list sec_group;
  csa_support : Z;
  kex_set_byte2 : Z;
  scheme_support : Z;
  curve_support : Z;
  key_granted : Z;
  key_exchange : Z;
  key_requested : Z;
  kex_report_keys : Z;
  loaded_keys : Z;
  my_home_id : Z;
  peer : s2_connection_t;
  inclusion_peer : s2_connection_t;
  buf : buf_ptr;
  length_ : Z;
  mpan : option nat;
  span_table : list SPAN;
  mpan_table : list MPAN;
  mos_list : list MOS_LIST;
  fsm : states_t;
  retry : Z;
  inclusion_state : s2_inclusion_state_t;
  inclusion_mode : inclusion_mode_t;
  kex_fail_code : Z;
  workbuf : list Z;
  u : list Z;
  inclusion_buf_length : Z;
  public_key : list Z
}.

Definition set_sg (x : list sec_group) (c : S2) : S2 :=
  mkS2 x (csa_support c) (kex_set_byte2 c) (scheme_support c) (curve_support c) (key_granted
    c) (key_exchange c) (key_requested c) (kex_report_keys c) (loaded_keys c) (my_home_id c)
    (peer c) (inclusion_peer c) (buf c) (length_ c) (mpan c) (span_table c) (mpan_table c)
    (mos_list c) (fsm c) (retry c) (inclusion_state c) (inclusion_mode c) (kex_fail_code c)
    (workbuf c) (u c) (inclusion_buf_length c) (public_key c).
Definition set_loaded_keys (x : Z) (c : S2) : S2 :=
  mkS2 (sg c) (csa_support c) (kex_set_byte2 c) (scheme_support c) (curve_support c)
    (key_granted c) (key_exchange c) (key_requested c) (kex_report_keys c) x (my_home_id c)
    (peer c) (inclusion_peer c) (buf c) (length_ c) (mpan c) (span_table c) (mpan_table c)
    (mos_list c) (fsm c) (retry c) (inclusion_state c) (inclusion_mode c) (kex_fail_code c)
    (workbuf c) (u c) (inclusion_buf_length c) (public_key c).
Definition set_peer (x : s2_connection_t) (c : S2) : S2 :=
  mkS2 (sg c) (csa_support c) (kex_set_byte2 c) (scheme_support c) (curve_support c)
    (key_granted c) (key_exchange c) (key_requested c) (kex_report_keys c) (loaded_keys c)
    (my_home_id c) x (inclusion_peer c) (buf c) (length_ c) (mpan c) (span_table c) (mpan_table
    c) (mos_list c) (fsm c) (retry c) (inclusion_state c) (inclusion_mode c) (kex_fail_code c)
    (workbuf c) (u c) (inclusion_buf_length c) (public_key c).
Definition set_inclusion_peer (x : s2_connection_t) (c : S2) : S2 :=
  mkS2 (sg c) (csa_support c) (kex_set_byte2 c) (scheme_support c) (curve_support c)
    (key_granted c) (key_exchange c) (key_requested c) (kex_report_keys c) (loaded_keys c)
    (my_home_id c) (peer c) x (buf c) (length_ c) (mpan c) (span_table c) (mpan_table c)
    (mos_list c) (fsm c) (retry c) (inclusion_state c) (inclusion_mode c) (kex_fail_code c)
    (workbuf c) (u c) (inclusion_buf_length c) (public_key c).
Definition set_buf (x : buf_ptr) (c : S2) : S2 :=
  mkS2 (sg c) (csa_support c) (kex_set_byte2 c) (scheme_support c) (curve_support c)
    (key_granted c) (key_exchange c) (key_requested c) (kex_report_keys c) (loaded_keys c)
    (my_home_id c) (peer c) (inclusion_peer c) x (length_ c) (mpan c) (span_table c) (mpan_table
    c) (mos_list c) (fsm c) (retry c) (inclusion_state c) (inclusion_mode c) (kex_fail_code c)
    (workbuf c) (u c) (inclusion_buf_length c) (public_key c).
Definition set_length (x : Z) (c : S2) : S2 :=
  mkS2 (sg c) (csa_support c) (kex_set_byte2 c) (scheme_support c) (curve_support c)
    (key_granted c) (key_exchange c) (key_requested c) (kex_report_keys c) (loaded_keys c)
    (my_home_id c) (peer c) (inclusion_peer c) (buf c) x (mpan c) (span_table c) (mpan_table c)
    (mos_list c) (fsm c) (retry c) (inclusion_state c) (inclusion_mode c) (kex_fail_code c)
    (workbuf c) (u c) (inclusion_buf_length c) (public_key c).
Definition set_mpan (x : option nat) (c : S2) : S2 :=
  mkS2 (sg c) (csa_support c) (kex_set_byte2 c) (scheme_support c) (curve_support c)
    (key_granted c) (key_exchange c) (key_requested c) (kex_report_keys c) (loaded_keys c)
    (my_home_id c) (peer c) (inclusion_peer c) (buf c) (length_ c) x (span_table c) (mpan_table
    c) (mos_list c) (fsm c) (retry c) (inclusion_state c) (inclusion_mode c) (kex_fail_code c)
    (workbuf c) (u c) (inclusion_buf_length c) (public_key c).
Definition set_span_table (x : list SPAN) (c : S2) : S2 :=
  mkS2 (sg c) (csa_support c) (kex_set_byte2 c) (scheme_support c) (curve_support c)
    (key_granted c) (key_exchange c) (key_requested c) (kex_report_keys c) (loaded_keys c)
    (my_home_id c) (peer c) (inclusion_peer c) (buf c) (length_ c) (mpan c) x (mpan_table c)
    (mos_list c) (fsm c) (retry c) (inclusion_state c) (inclusion_mode c) (kex_fail_code c)
    (workbuf c) (u c) (inclusion_buf_length c) (public_key c).
Definition set_mpan_table (x : list MPAN) (c : S2) : S2 :=
  mkS2 (sg c) (csa_support c) (kex_set_byte2 c) (scheme_support c) (curve_support c)
    (key_granted c) (key_exchange c) (key_requested c) (kex_report_keys c) (loaded_keys c)
    (my_home_id c) (peer c) (inclusion_peer c) (buf c) (length_ c) (mpan c) (span_table c) x
    (mos_list c) (fsm c) (retry c) (inclusion_state c) (inclusion_mode c) (kex_fail_code c)
    (workbuf c) (u c) (inclusion_buf_length c) (public_key c).
Definition set_mos_list (x : list MOS_LIST) (c : S2) : S2 :=
  mkS2 (sg c) (csa_support c) (kex_set_byte2 c) (scheme_support c) (curve_support c)
    (key_granted c) (key_exchange c) (key_requested c) (kex_report_keys c) (loaded_keys c)
    (my_home_id c) (peer c) (inclusion_peer c) (buf c) (length_ c) (mpan c) (span_table c)
    (mpan_table c) x (fsm c) (retry c) (inclusion_state c) (inclusion_mode c) (kex_fail_code c)
    (workbuf c) (u c) (inclusion_buf_length c) (public_key c).
Definition set_fsm (x : states_t) (c : S2) : S2 :=
  mkS2 (sg c) (csa_support c) (kex_set_byte2 c) (scheme_support c) (curve_support c)
    (key_granted c) (key_exchange c) (key_requested c) (kex_report_keys c) (loaded_keys c)
    (my_home_id c) (peer c) (inclusion_peer c) (buf c) (length_ c) (mpan c) (span_table c)
    (mpan_table c) (mos_list c) x (retry c) (inclusion_state c) (inclusion_mode c)
    (kex_fail_code c) (workbuf c) (u c) (inclusion_buf_length c) (public_key c).
Definition set_retry (x : Z) (c : S2) : S2 :=
  mkS2 (sg c) (csa_support c) (kex_set_byte2 c) (scheme_support c) (curve_support c)
    (key_granted c) (key_exchange c) (key_requested c) (kex_report_keys c) (loaded_keys c)
    (my_home_id c) (peer c) (inclusion_peer c) (buf c) (length_ c) (mpan c) (span_table c)
    (mpan_table c) (mos_list c) (fsm c) x (inclusion_state c) (inclusion_mode c) (kex_fail_code
    c) (workbuf c) (u c) (inclusion_buf_length c) (public_key c).
Definition set_inclusion_state (x : s2_inclusion_state_t) (c : S2) : S2 :=
  mkS2 (sg c) (csa_support c) (kex_set_byte2 c) (scheme_support c) (curve_support c)
    (key_granted c) (key_exchange c) (key_requested c) (kex_report_keys c) (loaded_keys c)
    (my_home_id c) (peer c) (inclusion_peer c) (buf c) (length_ c) (mpan c) (span_table c)
    (mpan_table c) (mos_list c) (fsm c) (retry c) x (inclusion_mode c) (kex_fail_code c)
    (workbuf c) (u c) (inclusion_buf_length c) (public_key c).
Definition set_workbuf (x : list Z) (c : S2) : S2 :=
  mkS2 (sg c) (csa_support c) (kex_set_byte2 c) (scheme_support c) (curve_support c)
    (key_granted c) (key_exchange c) (key_requested c) (kex_report_keys c) (loaded_keys c)
    (my_home_id c) (peer c) (inclusion_peer c) (buf c) (length_ c) (mpan c) (span_table c)
    (mpan_table c) (mos_list c) (fsm c) (retry c) (inclusion_state c) (inclusion_mode c)
    (kex_fail_code c) x (u c) (inclusion_buf_length c) (public_key c).
Definition set_u (x : list Z) (c : S2) : S2 :=
  mkS2 (sg c) (csa_support c) (kex_set_byte2 c) (scheme_support c) (curve_support c)
    (key_granted c) (key_exchange c) (key_requested c) (kex_report_keys c) (loaded_keys c)
    (my_home_id c) (peer c) (inclusion_peer c) (buf c) (length_ c) (mpan c) (span_table c)
    (mpan_table c) (mos_list c) (fsm c) (retry c) (inclusion_state c) (inclusion_mode c)
    (kex_fail_code c) (workbuf c) x (inclusion_buf_length c) (public_key c).
Definition set_csa_support (x : Z) (c : S2) : S2 :=
  mkS2 (sg c) x (kex_set_byte2 c) (scheme_support c) (curve_support c) (key_granted c)
    (key_exchange c) (key_requested c) (kex_report_keys c) (loaded_keys c) (my_home_id c) (peer
    c) (inclusion_peer c) (buf c) (length_ c) (mpan c) (span_table c) (mpan_table c) (mos_list
    c) (fsm c) (retry c) (inclusion_state c) (inclusion_mode c) (kex_fail_code c) (workbuf c) (u
    c) (inclusion_buf_length c) (public_key c).
Definition set_kex_set_byte2 (x : Z) (c : S2) : S2 :=
  mkS2 (sg c) (csa_support c) x (scheme_support c) (curve_support c) (key_granted c)
    (key_exchange c) (key_requested c) (kex_report_keys c) (loaded_keys c) (my_home_id c) (peer
    c) (inclusion_peer c) (buf c) (length_ c) (mpan c) (span_table c) (mpan_table c) (mos_list
    c) (fsm c) (retry c) (inclusion_state c) (inclusion_mode c) (kex_fail_code c) (workbuf c) (u
    c) (inclusion_buf_length c) (public_key c).
Definition set_scheme_support (x : Z) (c : S2) : S2 :=
  mkS2 (sg c) (csa_support c) (kex_set_byte2 c) x (curve_support c) (key_granted c)
    (key_exchange c) (key_requested c) (kex_report_keys c) (loaded_keys c) (my_home_id c) (peer
    c) (inclusion_peer c) (buf c) (length_ c) (mpan c) (span_table c) (mpan_table c) (mos_list
    c) (fsm c) (retry c) (inclusion_state c) (inclusion_mode c) (kex_fail_code c) (workbuf c) (u
    c) (inclusion_buf_length c) (public_key c).
Definition set_curve_support (x : Z) (c : S2) : S2 :=
  mkS2 (sg c) (csa_support c) (kex_set_byte2 c) (scheme_support c) x (key_granted c)
    (key_exchange c) (key_requested c) (kex_report_keys c) (loaded_keys c) (my_home_id c) (peer
    c) (inclusion_peer c) (buf c) (length_ c) (mpan c) (span_table c) (mpan_table c) (mos_list
    c) (fsm c) (retry c) (inclusion_state c) (inclusion_mode c) (kex_fail_code c) (workbuf c) (u
    c) (inclusion_buf_length c) (public_key c).
Definition set_key_granted (x : Z) (c : S2) : S2 :=
  mkS2 (sg c) (csa_support c) (kex_set_byte2 c) (scheme_support c) (curve_support c) x
    (key_exchange c) (key_requested c) (kex_report_keys c) (loaded_keys c) (my_home_id c) (peer
    c) (inclusion_peer c) (buf c) (length_ c) (mpan c) (span_table c) (mpan_table c) (mos_list
    c) (fsm c) (retry c) (inclusion_state c) (inclusion_mode c) (kex_fail_code c) (workbuf c) (u
    c) (inclusion_buf_length c) (public_key c).
Definition set_key_exchange (x : Z) (c : S2) : S2 :=
  mkS2 (sg c) (csa_support c) (kex_set_byte2 c) (scheme_support c) (curve_support c)
    (key_granted c) x (key_requested c) (kex_report_keys c) (loaded_keys c) (my_home_id c) (peer
    c) (inclusion_peer c) (buf c) (length_ c) (mpan c) (span_table c) (mpan_table c) (mos_list
    c) (fsm c) (retry c) (inclusion_state c) (inclusion_mode c) (kex_fail_code c) (workbuf c) (u
    c) (inclusion_buf_length c) (public_key c).
Definition set_key_requested (x : Z) (c : S2) : S2 :=
  mkS2 (sg c) (csa_support c) (kex_set_byte2 c) (scheme_support c) (curve_support c)
    (key_granted c) (key_exchange c) x (kex_report_keys c) (loaded_keys c) (my_home_id c) (peer
    c) (inclusion_peer c) (buf c) (length_ c) (mpan c) (span_table c) (mpan_table c) (mos_list
    c) (fsm c) (retry c) (inclusion_state c) (inclusion_mode c) (kex_fail_code c) (workbuf c) (u
    c) (inclusion_buf_length c) (public_key c).
Definition set_kex_report_keys (x : Z) (c : S2) : S2 :=
  mkS2 (sg c) (csa_support c) (kex_set_byte2 c) (scheme_support c) (curve_support c)
    (key_granted c) (key_exchange c) (key_requested c) x (loaded_keys c) (my_home_id c) (peer c)
    (inclusion_peer c) (buf c) (length_ c) (mpan c) (span_table c) (mpan_table c) (mos_list c)
    (fsm c) (retry c) (inclusion_state c) (inclusion_mode c) (kex_fail_code c) (workbuf c) (u c)
    (inclusion_buf_length c) (public_key c).
Definition set_inclusion_mode (x : inclusion_mode_t) (c : S2) : S2 :=
  mkS2 (sg c) (csa_support c) (kex_set_byte2 c) (scheme_support c) (curve_support c)
    (key_granted c) (key_exchange c) (key_requested c) (kex_report_keys c) (loaded_keys c)
    (my_home_id c) (peer c) (inclusion_peer c) (buf c) (length_ c) (mpan c) (span_table c)
    (mpan_table c) (mos_list c) (fsm c) (retry c) (inclusion_state c) x (kex_fail_code c)
    (workbuf c) (u c) (inclusion_buf_length c) (public_key c).
Definition set_kex_fail_code (x : Z) (c : S2) : S2 :=
  mkS2 (sg c) (csa_support c) (kex_set_byte2 c) (scheme_support c) (curve_support c)
    (key_granted c) (key_exchange c) (key_requested c) (kex_report_keys c) (loaded_keys c)
    (my_home_id c) (peer c) (inclusion_peer c) (buf c) (length_ c) (mpan c) (span_table c)
    (mpan_table c) (mos_list c) (fsm c) (retry c) (inclusion_state c) (inclusion_mode c) x
    (workbuf c) (u c) (inclusion_buf_length c) (public_key c).
Definition set_inclusion_buf_length (x : Z) (c : S2) : S2 :=
  mkS2 (sg c) (csa_support c) (kex_set_byte2 c) (scheme_support c) (curve_support c)
    (key_granted c) (key_exchange c) (key_requested c) (kex_report_keys c) (loaded_keys c)
    (my_home_id c) (peer c) (inclusion_peer c) (buf c) (length_ c) (mpan c) (span_table c)
    (mpan_table c) (mos_list c) (fsm c) (retry c) (inclusion_state c) (inclusion_mode c)
    (kex_fail_code c) (workbuf c) (u c) x (public_key c).
Definition set_public_key (x : list Z) (c : S2) : S2 :=
  mkS2 (sg c) (csa_support c) (kex_set_byte2 c) (scheme_support c) (curve_support c)
    (key_granted c) (key_exchange c) (key_requested c) (kex_report_keys c) (loaded_keys c)
    (my_home_id c) (peer c) (inclusion_peer c) (buf c) (length_ c) (mpan c) (span_table c)
    (mpan_table c) (mos_list c) (fsm c) (retry c) (inclusion_state c) (inclusion_mode c)
    (kex_fail_code c) (workbuf c) (u c) (inclusion_buf_length c) x.

(** The data of an event: a frame buffer and its connection, the status and time of a transmission
    (the time is not set on a failure to send), a connection only, or a null pointer. *)
Inductive event_data_t :=
| EvBuf (con : s2_connection_t) (buffer : buf_ptr) (len : Z)
| EvTx (status : Z) (time : option Z)
| EvCon (con : s2_connection_t)
| EvNull.

(** ** Effects *)

(** What the inclusion machine tells the application ([zwave_event_t]). *)
Inductive s2_event_t :=
| S2_NODE_INCLUSION_FAILED_EVENT (kex_fail_type : Z)
| S2_NODE_INCLUSION_INITIATED_EVENT
| S2_NODE_INCLUSION_PUBLIC_KEY_CHALLENGE_EVENT (key : list Z) (granted_keys dsk_length : Z)
| S2_NODE_INCLUSION_KEX_REPORT_EVENT (security_keys : Z) (csa : bool)
| S2_NODE_INCLUSION_COMPLETE_EVENT (exchanged_keys : Z)
| S2_NODE_JOINING_COMPLETE_EVENT (exchanged_keys : Z)
| S2_JOINING_COMPLETE_NEVER_STARTED_EVENT (exchanged_keys : Z).

(** Calls to the glue layer, in the order they are made. *)
Inductive out :=
| SendFrame (p : s2_connection_t) (frame : list Z)
| SendFrameNoCb (p : s2_connection_t) (frame : list Z)
| SendFrameMulti (p : s2_connection_t) (frame : list Z)
| SetTimeout (interval : Z)
| StopTimeout
| SendDoneEvent (status : Z)
| MsgReceived (p : s2_connection_t) (msg : list Z)
| Resynchronization (remote : Z) (reason : sos_event_reason_t) (seqno local : Z)
| IncSetTimeout (interval : Z)
| IncStopTimeout
| InclusionEvent (p : s2_connection_t) (e : s2_event_t)
| Sec0SetKey (key : list Z).

(** The static variables of s2_inclusion.c. *)
Record Inc := mkInc {
  m_retry_counter : Z; m_schemes : Z; m_curves : Z; m_keys : Z;
  shared_key_mem : list Z; shared_secret : list Z
}.

Definition set_retry_counter (x : Z) (i : Inc) : Inc :=
  mkInc x (m_schemes i) (m_curves i) (m_keys i) (shared_key_mem i) (shared_secret i).
Definition set_m_keys (x : Z) (i : Inc) : Inc :=
  mkInc (m_retry_counter i) (m_schemes i) (m_curves i) x (shared_key_mem i) (shared_secret i).
Definition set_supported (schemes curves keys : Z) (i : Inc) : Inc :=
  mkInc (m_retry_counter i) schemes curves keys (shared_key_mem i) (shared_secret i).
Definition set_shared_key_mem (x : list Z) (i : Inc) : Inc :=
  mkInc (m_retry_counter i) (m_schemes i) (m_curves i) (m_keys i) x (shared_secret i).
Definition set_shared_secret (x : list Z) (i : Inc) : Inc :=
  mkInc (m_retry_counter i) (m_schemes i) (m_curves i) (m_keys i) (shared_key_mem i) x.

(** The part of the gateway's non-volatile configuration that holds network keys. *)
Record Nvm := mkNvm {
  security_netkey : list Z; security2_key : list (list Z); security2_lr_key : list (list Z);
  assigned_keys : Z
}.

(** The context, the global generator [s2_ctr_drbg], the answers [S2_send_frame] and
    [S2_send_frame_multi] are going to give (accepted once the list is used up), the calls made, the
    latest first, the statics of the inclusion and the stored keys. *)
Record World := mkWorld {
  ctxt : S2; s2_ctr_drbg : CTR_DRBG_CTX; tx_accept : list bool; outs : list out; inc : Inc; nvm : Nvm
}.

Definition set_ctxt (c : S2) (w : World) : World := mkWorld c (s2_ctr_drbg w) (tx_accept w) (outs w) (inc w) (nvm w).
Definition set_drbg (g : CTR_DRBG_CTX) (w : World) : World :=
  mkWorld (ctxt w) g (tx_accept w) (outs w) (inc w) (nvm w).
Definition set_outs (l : list out) (w : World) : World :=
  mkWorld (ctxt w) (s2_ctr_drbg w) (tx_accept w) l (inc w) (nvm w).
Definition set_accept (l : list bool) (w : World) : World :=
  mkWorld (ctxt w) (s2_ctr_drbg w) l (outs w) (inc w) (nvm w).
Definition set_inc (i : Inc) (w : World) : World :=
  mkWorld (ctxt w) (s2_ctr_drbg w) (tx_accept w) (outs w) i (nvm w).
Definition set_nvm (n : Nvm) (w : World) : World :=
  mkWorld (ctxt w) (s2_ctr_drbg w) (tx_accept w) (outs w) (inc w) n.
Definition add_out (o : out) (w : World) : World := set_outs (o :: outs w) w.

Inductive fault := OutOfBounds | NullDeref | AssertFail | UninitRead | OutOfFuel.

Inductive res (A : Type) := Ok (a : A) | Fault (f : fault).
#[global] Arguments Ok {A} a.
#[global] Arguments Fault {A} f.

Definition M (A : Type) : Type := World -> res (A * World).

#[global] Instance M_ret : MRet M := fun A a w => Ok (a, w).
#[global] Instance M_bind : MBind M := fun A B f m w =>
  match m w with Ok (a, w') => f a w' | Fault e => Fault e end.

Definition fail {A} (f : fault) : M A := fun _ => Fault f.
Definition get : M S2 := fun w => Ok (ctxt w, w).
Definition gets {A} (f : S2 -> A) : M A := fun w => Ok (f (ctxt w), w).
Definition modify (f : S2 -> S2) : M unit := fun w => Ok (tt, set_ctxt (f (ctxt w)) w).
Definition emit (o : out) : M unit := fun w => Ok (tt, add_out o w).
Definition get_inc : M Inc := fun w => Ok (inc w, w).
Definition modify_inc (f : Inc -> Inc) : M unit := fun w => Ok (tt, set_inc (f (inc w)) w).
Definition get_nvm : M Nvm := fun w => Ok (nvm w, w).
Definition modify_nvm (f : Nvm -> Nvm) : M unit := fun w => Ok (tt, set_nvm (f (nvm w)) w).
Definition assert_ (b : bool) : M unit := if b then mret tt else fail AssertFail.

Lemma bind_ok {A B} (m : M A) (k : A -> M B) w a w' : m w = Ok (a, w') -> (m ≫= k) w = k a w'.
Proof. intros E. unfold mbind, M_bind. by rewrite E. Qed.

Lemma bind_inv {A B} (m : M A) (k : A -> M B) w r :
  (m ≫= k) w = Ok r -> exists a w', m w = Ok (a, w') /\ k a w' = Ok r.
Proof. unfold mbind, M_bind. destruct (m w) as [[a w']|f]; [|done]. intros H. by exists a, w'. Qed.

Lemma get_ok w : get w = Ok (ctxt w, w).
Proof. done. Qed.

(** [AES_CTR_DRBG_Generate(&s2_ctr_drbg, rnd)]. *)
Definition drbg_generate {C : BlockCipher} : M (list Z) := fun w =>
  let '(rnd, g) := AES_CTR_DRBG_Generate (s2_ctr_drbg w) in Ok (rnd, set_drbg g w).

(** The answer of the glue layer to a frame it is given. *)
Definition next_accept : M bool := fun w =>
  match tx_accept w with
  | [] => Ok (true, w)
  | b :: l => Ok (b, set_accept l w)
  end.

Definition of_option {A} (f : fault) (o : option A) : M A :=
  match o with Some a => mret a | None => fail f end.

(** Reads and writes of a buffer, checked against its size. *)
Definition rd (l : list Z) (i : nat) : M Z := of_option OutOfBounds (l !! i).
Definition rds (l : list Z) (off n : nat) : M (list Z) :=
  if Nat.leb (off + n) (length l) then mret (sub off n l) else fail OutOfBounds.
Definition wrs (l : list Z) (off : nat) (bs : list Z) : M (list Z) :=
  if Nat.leb (off + length bs) (length l) then mret (splice off bs l) else fail OutOfBounds.

(** [memcpy] into the work buffer, and a byte of it. *)
Definition wb_write (off : nat) (bs : list Z) : M unit :=
  c ← get; wb ← wrs (workbuf c) off bs; modify (set_workbuf wb).
Definition wb_or (off : nat) (mask : Z) : M unit :=
  c ← get; x ← rd (workbuf c) off; wb_write off [Z.lor x mask].
Definition wb_and (off : nat) (mask : Z) : M unit :=
  c ← get; x ← rd (workbuf c) off; wb_write off [Z.land x mask].

(** Table entries through the pointers of the code. *)
Definition get_span (i : nat) : M SPAN := c ← get; of_option OutOfBounds (span_table c !! i).
Definition upd_span (i : nat) (f : SPAN -> SPAN) : M unit :=
  c ← get;
  match span_table c !! i with
  | Some s => modify (set_span_table (<[i := f s]> (span_table c)))
  | None => fail OutOfBounds
  end.
Definition get_mpan (i : nat) : M MPAN := c ← get; of_option OutOfBounds (mpan_table c !! i).
Definition upd_mpan (i : nat) (f : MPAN -> MPAN) : M unit :=
  c ← get;
  match mpan_table c !! i with
  | Some s => modify (set_mpan_table (<[i := f s]> (mpan_table c)))
  | None => fail OutOfBounds
  end.
Definition get_sg (cls : Z) : M sec_group := c ← get; of_option OutOfBounds (sg c !! Z.to_nat cls).

(** [n] bytes through a buffer pointer. *)
Definition deref (p : buf_ptr) (n : nat) : M (list Z) :=
  match p with
  | BufNull => if Nat.eqb n 0 then mret [] else fail NullDeref
  | BufExt l => rds l 0 n
  | BufU => c ← get; rds (u c) 0 n
  end.
Definition buf_byte (p : buf_ptr) (i : nat) : M Z :=
  match p with
  | BufNull => fail NullDeref
  | BufExt l => rd l i
  | BufU => c ← get; rd (u c) i
  end.

(** Index of the first entry a loop over a table finds. *)
Fixpoint find_idx {A} (f : A -> bool) (l : list A) : option nat :=
  match l with
  | [] => None
  | x :: l' => if f x then Some 0%nat else S <$> find_idx f l'
  end.

(** ** Interfaces *)

(** The inclusion state machine (libs2/inclusion/s2_inclusion.c) as the transport calls it. *)
Class InclusionFsm := {
  s2_inclusion_post_event : s2_connection_t -> M unit;
  s2_inclusion_send_done : bool -> M unit;
  s2_inclusion_decryption_failure : s2_connection_t -> M unit
}.

(** The received command is there to be looked at: its class and command byte can be read. *)
Definition command_ready (c : S2) : Prop := exists l, buf c = BufExt l /\ (2 <= length l)%nat.

(** What the transport relies on while no inclusion is running: the hooks change nothing but the
    statics of the inclusion machine and, for a received command, the recorded inclusion peer. *)
Class InclusionIdle (I : InclusionFsm) := {
  idle_send_done : forall b w, inclusion_state (ctxt w) = S2_INC_IDLE ->
    exists i, s2_inclusion_send_done b w = Ok (tt, set_inc i w);
  idle_decryption_failure : forall con w, inclusion_state (ctxt w) = S2_INC_IDLE ->
    exists i, s2_inclusion_decryption_failure con w = Ok (tt, set_inc i w);
  idle_post_event : forall con w, inclusion_state (ctxt w) = S2_INC_IDLE -> command_ready (ctxt w) ->
    exists p i, s2_inclusion_post_event con w = Ok (tt, set_inc i (set_ctxt (set_inclusion_peer p (ctxt w)) w))
}.

(** The platform: the command classes to report, the hardware random bytes, the private key of the
    key exchange (gw_keystore_private_key_read). *)
Class Platform := {
  S2_get_commands_supported : Z -> Z -> list Z;
  S2_get_hw_random : nat -> list Z;
  keystore_private_key : list Z
}.
End S2Types.
