(* ===== verification/Keystore.v ===== *)
(** * The key store (src/transport/s2_keystore.c)

    Network keys in the non-volatile configuration, one field per key class and a bit mask of the
    classes that have been assigned.  A read gives a key only for an assigned class; a write assigns
    the class; clearing overwrites the key with random bytes and takes the class away.  The theorem:
    reads, writes and clears behave as operations on a map from key classes to keys. *)
From stdpp Require Import gmap.
From S2P Require Import Prelude Aes Cmac Ccm Drbg Bigint Curve25519 S2Types.
Import CtrDrbg S2Types.

Module Keystore.

Definition KEY_CLASS_S0 : Z := 0x80.
Definition KEY_CLASS_S2_UNAUTHENTICATED : Z := 0x01.
Definition KEY_CLASS_S2_AUTHENTICATED : Z := 0x02.
Definition KEY_CLASS_S2_ACCESS : Z := 0x04.
Definition KEY_CLASS_S2_AUTHENTICATED_LR : Z := 0x08.
Definition KEY_CLASS_S2_ACCESS_LR : Z := 0x10.
Definition KEY_CLASS_ALL : Z := 0xFF.

(** The field of the configuration that holds the key of a class. *)
Inductive key_field := NetKey | Key2 (i : nat) | KeyLr (i : nat).

Definition field_of (keyclass : Z) : option key_field :=
  if keyclass =? KEY_CLASS_S0 then Some NetKey
  else if keyclass =? KEY_CLASS_S2_UNAUTHENTICATED then Some (Key2 0)
  else if keyclass =? KEY_CLASS_S2_AUTHENTICATED then Some (Key2 1)
  else if keyclass =? KEY_CLASS_S2_ACCESS then Some (Key2 2)
  else if keyclass =? KEY_CLASS_S2_AUTHENTICATED_LR then Some (KeyLr 0)
  else if keyclass =? KEY_CLASS_S2_ACCESS_LR then Some (KeyLr 1)
  else None.

Definition nvm_get (f : key_field) (n : Nvm) : list Z :=
  match f with
  | NetKey => security_netkey n
  | Key2 i => default [] (security2_key n !! i)
  | KeyLr i => default [] (security2_lr_key n !! i)
  end.

Definition nvm_set (f : key_field) (key : list Z) (n : Nvm) : Nvm :=
  match f with
  | NetKey => mkNvm key (security2_key n) (security2_lr_key n) (assigned_keys n)
  | Key2 i => mkNvm (security_netkey n) (<[i := key]> (security2_key n)) (security2_lr_key n) (assigned_keys n)
  | KeyLr i => mkNvm (security_netkey n) (security2_key n) (<[i := key]> (security2_lr_key n)) (assigned_keys n)
  end.

Definition set_assigned (x : Z) (n : Nvm) : Nvm :=
  mkNvm (security_netkey n) (security2_key n) (security2_lr_key n) x.

(** [None] is the return value 0, the buffer is not written then. *)
Definition keystore_network_key_read (keyclass : Z) : M (option (list Z)) :=
  n ← get_nvm;
  if Z.land keyclass (assigned_keys n) =? 0 then mret None
  else
    match field_of keyclass with
    | Some f => mret (Some (nvm_get f n))
    | None => fail AssertFail
    end.

Definition keystore_network_key_write (keyclass : Z) (key : list Z) : M bool :=
  match field_of keyclass with
  | Some f =>
      modify_nvm (nvm_set f (take 16 key));;
      (if keyclass =? KEY_CLASS_S0 then emit (Sec0SetKey (take 16 key)) else mret tt);;
      modify_nvm (fun n => set_assigned (Z.lor (assigned_keys n) keyclass) n);;
      mret true
  | None => fail AssertFail
  end.

Section Random.
Context {C : BlockCipher}.

(** Clearing one class: 16 random bytes take the place of the key. *)
Definition clear_one (keyclass : Z) : M bool :=
  random_bytes ← drbg_generate;
  ok ← keystore_network_key_write keyclass random_bytes;
  if ok : bool then
    modify_nvm (fun n => set_assigned (Z.land (assigned_keys n) (u8 (Z.lnot keyclass))) n);; mret true
  else mret false.

Definition keystore_network_key_clear (keyclass : Z) : M bool :=
  if keyclass =? KEY_CLASS_ALL then
    _ ← drbg_generate;
    _ ← clear_one KEY_CLASS_S0;
    _ ← clear_one KEY_CLASS_S2_UNAUTHENTICATED;
    _ ← clear_one KEY_CLASS_S2_AUTHENTICATED;
    _ ← clear_one KEY_CLASS_S2_ACCESS;
    _ ← clear_one KEY_CLASS_S2_AUTHENTICATED_LR;
    _ ← clear_one KEY_CLASS_S2_ACCESS_LR;
    mret true
  else clear_one keyclass.
End Random.

(** The private key is read through the platform; the public key is computed from it each time. *)
Section Ecdh.
Context {K : Curve} {P : Platform}.
Definition keystore_private_key_read : list Z := keystore_private_key.
Definition keystore_public_key_read : list Z :=
  scalarmult keystore_private_key_read Curve25519.base.
End Ecdh.
(** ** The stored keys as a map *)

(** The key of a class, if it has been assigned. *)
Definition stored (n : Nvm) (keyclass : Z) : option (list Z) :=
  if Z.land keyclass (assigned_keys n) =? 0 then None else (fun f => nvm_get f n) <$> field_of keyclass.

Lemma key_read_run kc w : field_of kc <> None -> keystore_network_key_read kc w = Ok (stored (nvm w) kc, w).
Proof.
  intros Hf. unfold keystore_network_key_read, stored, get_nvm, mbind, M_bind.
  destruct (Z.land kc _ =? 0); [done|]. by destruct (field_of kc).
Qed.

(** Stored keys are 16 bytes, three of them for S2 and two for long range. *)
Definition key16 (k : list Z) : Prop := length k = 16%nat /\ bytes k.
Record nvm_ok (n : Nvm) : Prop := {
  ok_netkey : key16 (security_netkey n);
  ok_key2_len : length (security2_key n) = 3%nat;
  ok_key2 : Forall key16 (security2_key n);
  ok_lr_len : length (security2_lr_key n) = 2%nat;
  ok_lr : Forall key16 (security2_lr_key n)
}.

Lemma lookup_key16 (l : list (list Z)) i : Forall key16 l -> (i < length l)%nat -> key16 (default [] (l !! i)).
Proof.
  intros H Hi. destruct (lookup_lt_is_Some_2 l i Hi) as [x Hx]. rewrite Hx.
  by apply (Forall_lookup_1 _ _ _ _ H Hx).
Qed.

Lemma nvm_get_ok f kc n : field_of kc = Some f -> nvm_ok n -> key16 (nvm_get f n).
Proof.
  intros Hf [H0 L2 H2 L3 H3]. unfold field_of in Hf. repeat case_match; simplify_eq; cbn [nvm_get]; [done|..].
  all: apply lookup_key16; [done|lia].
Qed.

(** Every class is one bit, and has its own field. *)
Definition key_classes : list Z :=
  [KEY_CLASS_S0; KEY_CLASS_S2_UNAUTHENTICATED; KEY_CLASS_S2_AUTHENTICATED; KEY_CLASS_S2_ACCESS;
   KEY_CLASS_S2_AUTHENTICATED_LR; KEY_CLASS_S2_ACCESS_LR].

(** The abstract key store: a finite map from key classes to network keys. *)
Definition key_map (n : Nvm) : gmap Z (list Z) :=
  list_to_map (omap (fun kc => pair kc <$> stored n kc) key_classes).

#[global] Instance key_field_eq_dec : EqDecision key_field.
Proof. solve_decision. Defined.

Lemma class_bit kc : kc ∈ key_classes -> exists i, 0 <= i < 8 /\ kc = 2 ^ i.
Proof.
  intros H. repeat (apply elem_of_cons in H as [->|H]);
    [exists 7|exists 0|exists 1|exists 2|exists 3|exists 4|by apply not_elem_of_nil in H]; done.
Qed.

Lemma class_field kc : kc ∈ key_classes -> exists f, field_of kc = Some f.
Proof. intros H. repeat (apply elem_of_cons in H as [->|H]); [by eexists..|by apply not_elem_of_nil in H]. Qed.

Lemma field_inj kc kc' f : field_of kc = Some f -> field_of kc' = Some f -> kc = kc'.
Proof. unfold field_of. intros H H'. repeat case_match; simplify_eq; zbool; congruence. Qed.

Lemma land_bit i a : 0 <= i -> (Z.land (2 ^ i) a =? 0) = negb (Z.testbit a i).
Proof.
  intros Hi. destruct (Z.testbit a i) eqn:E; cbn [negb]; [apply Z.eqb_neq|apply Z.eqb_eq].
  - intros H. apply (f_equal (fun z => Z.testbit z i)) in H.
    by rewrite Z.land_spec, Z.pow2_bits_true, E, Z.testbit_0_l in H by lia.
  - apply Z.bits_inj_0. intros j. rewrite Z.land_spec. destruct (Z.eq_dec i j) as [->|]; [by rewrite E, andb_false_r|].
    by rewrite Z.pow2_bits_false.
Qed.

Lemma assign_bit a i j : 0 <= i -> 0 <= j -> Z.testbit (Z.lor a (2 ^ j)) i = Z.testbit a i || (i =? j).
Proof. intros. by rewrite Z.lor_spec, Z.pow2_bits_eqb, (Z.eqb_sym j i) by lia. Qed.

Lemma clear_bit a i j : 0 <= i < 8 -> 0 <= j -> Z.testbit (Z.land a (u8 (Z.lnot (2 ^ j)))) i = Z.testbit a i && negb (i =? j).
Proof.
  intros. unfold u8. change 256 with (2 ^ 8).
  by rewrite Z.land_spec, Z.mod_pow2_bits_low, Z.lnot_spec, Z.pow2_bits_eqb, (Z.eqb_sym j i) by lia.
Qed.

Lemma stored_bit n kc i : 0 <= i -> kc = 2 ^ i ->
  stored n kc = if Z.testbit (assigned_keys n) i then (fun f => nvm_get f n) <$> field_of kc else None.
Proof. intros Hi ->. unfold stored. rewrite land_bit by done. by destruct (Z.testbit _ _). Qed.

Lemma if_cons {A} (x y : Z) (l : list Z) (a b : A) : x <> y ->
  (if bool_decide (x ∈ l) then a else b) = if bool_decide (x ∈ y :: l) then a else b.
Proof. intros Hn. by rewrite (bool_decide_ext (x ∈ l) (x ∈ y :: l)) by (rewrite elem_of_cons; tauto). Qed.

Lemma key_map_lookup n kc : key_map n !! kc = if bool_decide (kc ∈ key_classes) then stored n kc else None.
Proof.
  unfold key_map. assert (Hg : forall l, NoDup l -> (list_to_map (omap (fun kc => pair kc <$> stored n kc) l) : gmap Z (list Z)) !! kc
    = if bool_decide (kc ∈ l) then stored n kc else None).
  { induction 1 as [|x l Hx Hl IH]; [done|]. cbn [omap list_omap].
    destruct (stored n x) as [k|] eqn:E; cbn [fmap option_fmap option_map list_to_map foldr uncurry].
    - destruct (decide (kc = x)) as [->|Hne].
      + cbn. rewrite lookup_insert_eq, bool_decide_true, E by (left). done.
      + cbn. rewrite lookup_insert_ne by done. rewrite IH. apply if_cons. done.
    - rewrite IH. destruct (decide (kc = x)) as [->|Hne]; [|by apply if_cons].
      rewrite E. by repeat case_bool_decide. }
  apply Hg. apply (bool_decide_unpack _). vm_compute. exact Logic.I.
Qed.

(** A change of the configuration acts on the map as its effect on single classes says. *)
Lemma key_map_ext (m : gmap Z (list Z)) n :
  (forall kc, kc ∈ key_classes -> stored n kc = m !! kc) -> (forall kc, kc ∉ key_classes -> m !! kc = None) -> key_map n = m.
Proof.
  intros H1 H2. apply map_eq. intros kc. rewrite key_map_lookup. case_bool_decide; [by apply H1|by rewrite H2].
Qed.

Lemma nvm_get_set f f' kc key n : nvm_ok n -> field_of kc = Some f ->
  nvm_get f' (nvm_set f key n) = if bool_decide (f = f') then key else nvm_get f' n.
Proof.
  intros [_ L2 _ L3 _] Hf.
  assert (Hi : match f with NetKey => True | Key2 i => (i < 3)%nat | KeyLr i => (i < 2)%nat end)
    by (unfold field_of in Hf; repeat case_match; simplify_eq; lia).
  destruct f as [|i|i], f' as [|j|j]; try done; cbn [nvm_get nvm_set security2_key security2_lr_key].
  all: case_bool_decide; simplify_eq; [by rewrite list_lookup_insert_eq by lia|].
  all: rewrite list_lookup_insert_ne by congruence; done.
Qed.

Lemma assigned_set f key n : assigned_keys (nvm_set f key n) = assigned_keys n.
Proof. by destruct f. Qed.

Lemma nvm_get_assigned f x n : nvm_get f (set_assigned x n) = nvm_get f n.
Proof. by destruct f. Qed.

Lemma nvm_set_ok f kc key n : field_of kc = Some f -> nvm_ok n -> key16 key -> nvm_ok (nvm_set f key n).
Proof.
  intros Hf [H0 L2 H2 L3 H3] Hk. destruct f as [|i|i]; constructor; cbn; try done; by rewrite ?length_insert || apply Forall_insert.
Qed.

(** The configuration after a write. *)
Definition written (kc : Z) (f : key_field) (key : list Z) (n : Nvm) : Nvm :=
  let n1 := nvm_set f key n in set_assigned (Z.lor (assigned_keys n1) kc) n1.

Lemma key_write_run kc f key w : field_of kc = Some f ->
  keystore_network_key_write kc key w =
  Ok (true, set_nvm (written kc f (take 16 key) (nvm w))
              (if kc =? KEY_CLASS_S0 then add_out (Sec0SetKey (take 16 key)) w else w)).
Proof. intros Hf. unfold keystore_network_key_write. rewrite Hf. by destruct (kc =? KEY_CLASS_S0). Qed.

Lemma stored_written n kc f key kc' : nvm_ok n -> kc ∈ key_classes -> field_of kc = Some f -> kc' ∈ key_classes ->
  stored (written kc f key n) kc' = if bool_decide (kc' = kc) then Some key else stored n kc'.
Proof.
  intros Hn Hk Hf Hk'. destruct (class_bit kc Hk) as (j & Hj & Ej). destruct (class_bit kc' Hk') as (i & Hi & Ei).
  destruct (class_field kc' Hk') as [f' Hf']. rewrite !(stored_bit _ kc' i), Hf' by lia.
  unfold written. cbv zeta. cbn [set_assigned assigned_keys fmap option_fmap option_map]. rewrite assigned_set, Ej.
  rewrite assign_bit, nvm_get_assigned by lia. rewrite (nvm_get_set f f' kc) by done.
  destruct (Z.eqb_spec i j) as [->|Hne].
  - assert (kc = kc') as <- by congruence. assert (f = f') as <- by congruence. rewrite orb_true_r.
    by rewrite !bool_decide_true by done.
  - assert (Hkk : kc' <> kc) by (intros E; apply Hne, (Z.pow_inj_r 2); lia).
    assert (Hff : f <> f') by (intros <-; apply Hkk; by eapply field_inj).
    by rewrite orb_false_r, (bool_decide_false (f = f')), (bool_decide_false (kc' = 2 ^ j)) by congruence.
Qed.

Definition cleared (kc : Z) (n : Nvm) : Nvm := set_assigned (Z.land (assigned_keys n) (u8 (Z.lnot kc))) n.

Lemma stored_cleared n kc kc' : kc ∈ key_classes -> kc' ∈ key_classes ->
  stored (cleared kc n) kc' = if bool_decide (kc' = kc) then None else stored n kc'.
Proof.
  intros Hk Hk'. destruct (class_bit kc Hk) as (j & Hj & Ej). destruct (class_bit kc' Hk') as (i & Hi & Ei).
  destruct (class_field kc' Hk') as [f' Hf']. rewrite !(stored_bit _ kc' i), Hf' by lia.
  unfold cleared. cbn [set_assigned assigned_keys fmap option_fmap option_map].
  rewrite Ej, clear_bit, nvm_get_assigned by lia. destruct (Z.eqb_spec i j) as [->|Hne].
  - rewrite andb_false_r, bool_decide_true by congruence. done.
  - rewrite andb_true_r, bool_decide_false; [done|]. intros E. apply Hne, (Z.pow_inj_r 2); lia.
Qed.

Lemma written_map n kc f key : nvm_ok n -> kc ∈ key_classes -> field_of kc = Some f ->
  key_map (written kc f key n) = <[kc := key]> (key_map n).
Proof.
  intros Hn Hk Hf. apply key_map_ext; intros kc' Hk'.
  - rewrite (stored_written n kc f) by done. destruct (decide (kc' = kc)) as [->|Hne].
    + by rewrite bool_decide_true, lookup_insert_eq by done.
    + rewrite bool_decide_false, lookup_insert_ne, key_map_lookup by done. by rewrite bool_decide_true.
  - rewrite lookup_insert_ne, key_map_lookup by (by intros <-). by rewrite bool_decide_false.
Qed.

Lemma cleared_map n kc : kc ∈ key_classes -> key_map (cleared kc n) = delete kc (key_map n).
Proof.
  intros Hk. apply key_map_ext; intros kc' Hk'.
  - rewrite stored_cleared by done. destruct (decide (kc' = kc)) as [->|Hne].
    + by rewrite bool_decide_true, lookup_delete_eq by done.
    + rewrite bool_decide_false, lookup_delete_ne, key_map_lookup by done. by rewrite bool_decide_true.
  - rewrite lookup_delete_ne, key_map_lookup by (by intros <-). by rewrite bool_decide_false.
Qed.

(** *** Sequences of operations *)

Inductive key_op := OpRead (kc : Z) | OpWrite (kc : Z) (key : list Z) | OpClear (kc : Z).

Section Refine.
Context {C : BlockCipher} {HC : BlockCipherOk C}.

Definition run_op (o : key_op) : M (option (list Z)) :=
  match o with
  | OpRead kc => keystore_network_key_read kc
  | OpWrite kc key => _ ← keystore_network_key_write kc key; mret None
  | OpClear kc => _ ← keystore_network_key_clear kc; mret None
  end.

Fixpoint run_ops (l : list key_op) : M (list (option (list Z))) :=
  match l with
  | [] => mret []
  | o :: l' => r ← run_op o; rs ← run_ops l'; mret (r :: rs)
  end.

(** The same operations on a map. *)
Definition spec_op (o : key_op) (m : gmap Z (list Z)) : option (list Z) * gmap Z (list Z) :=
  match o with
  | OpRead kc => (m !! kc, m)
  | OpWrite kc key => (None, <[kc := key]> m)
  | OpClear kc => (None, if kc =? KEY_CLASS_ALL then ∅ else delete kc m)
  end.

Fixpoint spec_ops (l : list key_op) (m : gmap Z (list Z)) : list (option (list Z)) * gmap Z (list Z) :=
  match l with
  | [] => ([], m)
  | o :: l' => let '(r, m1) := spec_op o m in let '(rs, m2) := spec_ops l' m1 in (r :: rs, m2)
  end.

(** The contract of the callers: one of the six classes (or, to clear, all of them), 16-byte keys. *)
Definition op_ok (o : key_op) : Prop :=
  match o with
  | OpRead kc => kc ∈ key_classes
  | OpWrite kc key => kc ∈ key_classes /\ key16 key
  | OpClear kc => kc = KEY_CLASS_ALL \/ kc ∈ key_classes
  end.

Definition store_ok (w : World) : Prop := nvm_ok (nvm w) /\ drbg_ok (s2_ctr_drbg w).

(** An operation of the key store: the store stays well formed, nothing outside of it and of the
    generator changes, and the only calls to the environment hand keys to security scheme 0. *)
Definition stays (w w' : World) : Prop :=
  store_ok w' /\ ctxt w' = ctxt w /\ inc w' = inc w /\ exists ks, outs w' = (Sec0SetKey <$> ks) ++ outs w.

Lemma stays_refl w : store_ok w -> stays w w.
Proof. intros Hw. split; [done|]. split; [done|]. split; [done|]. by exists []. Qed.

Lemma stays_trans w1 w2 w3 : stays w1 w2 -> stays w2 w3 -> stays w1 w3.
Proof.
  intros (_ & Hc & Hi & k1 & E1) (Hw & Hc' & Hi' & k2 & E2). split; [done|]. split; [congruence|]. split; [congruence|].
  exists (k2 ++ k1). by rewrite E2, E1, fmap_app, app_assoc.
Qed.

Lemma written_ok n kc f key : field_of kc = Some f -> nvm_ok n -> key16 key -> nvm_ok (written kc f key n).
Proof. intros Hf Hn Hk. destruct (nvm_set_ok f kc key n Hf Hn Hk). by constructor. Qed.

Lemma generate_run w : store_ok w -> exists r w', drbg_generate w = Ok (r, w') /\ key16 r /\
  nvm w' = nvm w /\ stays w w'.
Proof.
  intros [Hn Hg]. unfold drbg_generate. pose proof (generate_ok _ Hg) as (HL & HB & Hok).
  destruct (AES_CTR_DRBG_Generate (s2_ctr_drbg w)) as [r g]. exists r, (set_drbg g w). split; [done|].
  split; [done|]. split; [done|]. split; [split; [exact Hn|apply Hok]|]. split; [done|]. split; [done|]. by exists [].
Qed.

Lemma clear_one_map kc w : store_ok w -> kc ∈ key_classes ->
  exists w', clear_one kc w = Ok (true, w') /\ key_map (nvm w') = delete kc (key_map (nvm w)) /\ stays w w'.
Proof.
  intros Hw Hk. destruct (class_field kc Hk) as [f Hf]. destruct (generate_run w Hw) as (r & w1 & E & Hr & En & Hs).
  pose proof Hs as [[Hn Hg] _]. unfold clear_one, mbind, M_bind. rewrite E, (key_write_run kc f) by done.
  set (w2 := set_nvm _ _). assert (Hw2 : nvm w2 = written kc f (take 16 r) (nvm w1)) by done.
  exists (set_nvm (cleared kc (nvm w2)) w2). split; [done|].
  assert (Hok : nvm_ok (nvm w2)).
  { rewrite Hw2. apply (written_ok _ _ f); [done..|]. destruct Hr. split; [rewrite length_take; lia|auto with zw]. }
  split; [cbn [nvm set_nvm]; by rewrite cleared_map, Hw2, (written_map _ _ f), delete_insert_eq, En by done|].
  apply (stays_trans _ w1); [done|]. split; [split; [by destruct Hok; constructor|]; subst w2; by destruct (kc =? KEY_CLASS_S0)|].
  subst w2. destruct (kc =? KEY_CLASS_S0); (split; [done|]; split; [done|]); [by exists [take 16 r]|by exists []].
Qed.

(** Clearing the classes of a list one after the other. *)
Lemma clear_all_map l : forall w, store_ok w -> Forall (.∈ key_classes) l ->
  exists w', foldr (fun kc (k : M bool) => _ ← clear_one kc; k) (mret true) l w = Ok (true, w') /\
    key_map (nvm w') = foldl (fun m kc => delete kc m) (key_map (nvm w)) l /\ stays w w'.
Proof.
  induction l as [|kc l IH]; intros w Hw Hl; [exists w; auto using stays_refl|]. inversion_clear Hl.
  destruct (clear_one_map kc w Hw) as (w1 & E & Em & Hs1); [done|]. cbn [foldr foldl].
  destruct (IH w1 (proj1 Hs1)) as (w2 & E2 & Em2 & Hs2); [done|]. exists w2.
  split; [by rewrite (bind_ok _ _ _ _ _ E)|]. split; [by rewrite Em2, Em|]. by apply (stays_trans _ w1).
Qed.

Lemma no_keys_left (m : gmap Z (list Z)) :
  (forall kc, kc ∉ key_classes -> m !! kc = None) -> foldl (fun m kc => delete kc m) m key_classes = ∅.
Proof.
  intros Hm. apply map_eq. intros kc. rewrite lookup_empty.
  destruct (decide (kc ∈ key_classes)) as [H|H].
  - unfold key_classes in H |- *. cbn [foldl].
    repeat (apply elem_of_cons in H as [->|H]; [repeat (rewrite lookup_delete_ne by done); by rewrite lookup_delete_eq|]).
    by apply not_elem_of_nil in H.
  - cbn [foldl key_classes]. rewrite !lookup_delete_None. by rewrite Hm; auto 10.
Qed.

Lemma clear_map kc w : store_ok w -> op_ok (OpClear kc) ->
  exists w', keystore_network_key_clear kc w = Ok (true, w') /\ stays w w' /\
    key_map (nvm w') = (if kc =? KEY_CLASS_ALL then ∅ else delete kc (key_map (nvm w))).
Proof.
  intros Hw Hk. unfold keystore_network_key_clear. destruct (Z.eqb_spec kc KEY_CLASS_ALL) as [->|Hne].
  - destruct (generate_run w Hw) as (r & w1 & E & _ & En & Hs1).
    destruct (clear_all_map key_classes w1 (proj1 Hs1)) as (w2 & E2 & Em & Hs2); [by apply list.Forall_forall|].
    exists w2. unfold key_classes in E2. rewrite !foldr_cons in E2. cbv beta in E2.
    split; [rewrite (bind_ok _ _ _ _ _ E); exact E2|]. split; [by apply (stays_trans _ w1)|]. rewrite Em.
    apply no_keys_left. intros kc H. by rewrite key_map_lookup, bool_decide_false.
  - destruct Hk as [->|Hk]; [done|]. destruct (clear_one_map kc w Hw Hk) as (w' & E & Em & Hw'). by exists w'.
Qed.

Lemma run_op_map o w : store_ok w -> op_ok o ->
  exists r w', run_op o w = Ok (r, w') /\ store_ok w' /\ (r, key_map (nvm w')) = spec_op o (key_map (nvm w)).
Proof.
  intros Hw Ho. destruct o as [kc|kc key|kc]; cbn [run_op spec_op op_ok] in *.
  - destruct (class_field kc Ho) as [f Hf]. exists (stored (nvm w) kc), w.
    by rewrite key_read_run, key_map_lookup, bool_decide_true by (done || by rewrite Hf).
  - destruct Ho as [Hk Hkey]. destruct (class_field kc Hk) as [f Hf]. unfold mbind, M_bind.
    rewrite (key_write_run kc f) by done. rewrite take_ge by (destruct Hkey; lia). eexists _, _. split; [reflexivity|].
    destruct Hw as [Hn Hg]. split; [|by rewrite <- (written_map _ _ f)].
    split; [by apply (written_ok _ _ f)|by destruct (kc =? KEY_CLASS_S0)].
  - destruct (clear_map kc w Hw Ho) as (w' & E & Hw' & Em). exists None, w'.
    rewrite (bind_ok _ _ _ _ _ E), Em. split; [done|]. split; [apply Hw'|done].
Qed.

(** C31: the key store implements a finite map from key classes to keys: any sequence of reads, writes
    and clears gives the results the map gives and leaves the store holding that map; in particular
    a write of one class never disturbs another, and a cleared key cannot be read back. *)
Theorem keystore_refines_map ops : forall w, store_ok w -> Forall op_ok ops ->
  exists rs w', run_ops ops w = Ok (rs, w') /\ (rs, key_map (nvm w')) = spec_ops ops (key_map (nvm w)).
Proof.
  induction ops as [|o ops IH]; intros w Hw Ho; [by exists [], w|]. inversion_clear Ho as [|? ? H1 H2].
  destruct (run_op_map o w Hw H1) as (r & w1 & E1 & Hw1 & Es1). destruct (IH w1 Hw1 H2) as (rs & w2 & E2 & Es2).
  exists (r :: rs), w2. cbn [run_ops spec_ops]. rewrite (bind_ok _ _ _ _ _ E1), (bind_ok _ _ _ _ _ E2).
  split; [done|]. by rewrite <- Es1, <- Es2.
Qed.
End Refine.
End Keystore.
