(* ===== verification/S2Core.v ===== *)
(** * The S2 transport (libs2/protocol/S2.c)

    Every function of S2.c, in the order it is composed: the SPAN and MPAN tables, the frame
    builders, the additional authenticated data, decryption, the state machine and the public
    entry points.  The state machine calls itself through a failed send; that recursion is open in
    the functions below and closed by [S2_fsm_post_event] with fuel. *)
From S2P Require Import Prelude Aes Cmac Ccm Drbg Bigint S2Types Keystore.
Import CtrDrbg S2Types Keystore.

Module S2.

Section S2.
Context {C : BlockCipher} {I : InclusionFsm} {P : Platform}.

(** ** Tables *)

Definition mpan_matches (c : S2) (owner grp : Z) (m : MPAN) : bool :=
  negb (bool_decide (mp_state m = MPAN_NOT_USED)) && (group_id m =? grp) && (owner_id m =? owner)
  && has_bits (Z.shiftl 1 (mp_class m)) (loaded_keys c).

Definition find_mpan_by_group_id (owner grp : Z) (create_new : bool) : M (option nat) :=
  c ← get;
  match find_idx (mpan_matches c owner grp) (mpan_table c) with
  | Some i => mret (Some i)
  | None =>
      if negb create_new then mret None
      else
        rnd ← drbg_generate;
        let i := match find_idx (fun m => bool_decide (mp_state m = MPAN_NOT_USED)) (mpan_table c) with
                 | Some i => i
                 | None => Z.to_nat (at_ rnd 0 `mod` Z.of_nat MPAN_TABLE_SIZE)
                 end in
        upd_mpan i (fun m => mkMpan owner grp (inner_state m) (class_id (peer c))
                               (if owner =? 0 then MPAN_SET else MPAN_MOS));;
        st ← drbg_generate;
        upd_mpan i (set_inner st);;
        mret (Some i)
  end.

Definition span_matches (con : s2_connection_t) (s : SPAN) : bool :=
  negb (bool_decide (sp_state s = SPAN_NOT_USED)) && (lnode s =? l_node con) && (rnode s =? r_node con).

Definition find_span_by_node (con : s2_connection_t) : M nat :=
  c ← get;
  match find_idx (span_matches con) (span_table c) with
  | Some i => mret i
  | None =>
      rnd ← drbg_generate;
      let i := match find_idx (fun s => bool_decide (sp_state s = SPAN_NOT_USED)) (span_table c) with
               | Some i => i
               | None => Z.to_nat (at_ rnd 0 `mod` Z.of_nat SPAN_TABLE_SIZE)
               end in
      upd_span i (fun s => mkSpan (d s) (l_node con) (r_node con) (rx_seq s) (at_ rnd 1) (sp_class s)
                             SPAN_NO_SEQ);;
      mret i
  end.

Definition S2_span_ok (con : s2_connection_t) : M bool :=
  i ← find_span_by_node con;
  s ← get_span i;
  mret ((bool_decide (sp_state s = SPAN_NEGOTIATED) || bool_decide (sp_state s = SPAN_SOS_REMOTE_NONCE))
        && (sp_class s =? class_id con)).

Definition S2_verify_seq (con : s2_connection_t) (seq : Z) : M bool :=
  i ← find_span_by_node con;
  s ← get_span i;
  if bool_decide (sp_state s = SPAN_NO_SEQ) || (S2_SEQ_DUPL_WINDOW_SIZE <=? u8 (rx_seq s - seq)) then
    upd_span i (set_rx_seq seq);;
    mret true
  else mret false.

Definition S2_is_node_mos (nodeid : Z) : M bool :=
  c ← get; mret (existsb (fun m => node_id m =? nodeid) (mos_list c)).

Definition S2_set_node_mos (node : Z) : M unit :=
  c ← get;
  if (bool_decide (fsm c = VERIFYING_DELIVERY) || bool_decide (fsm c = SENDING_MSG))
     && has_bits (tx_options (peer c))
          (Z.lor S2_TXOPTION_SINGLECAST_FOLLOWUP S2_TXOPTION_FIRST_SINGLECAST_FOLLOWUP)
  then match mpan c with
       | None => mret tt
       | Some j =>
           match find_idx (fun x => node_id x =? 0) (mos_list c) with
           | None => mret tt
           | Some i =>
               m ← get_mpan j;
               modify (set_mos_list (<[i := mkMos node (group_id m)]> (mos_list c)))
           end
       end
  else mret tt.

Definition S2_is_mos (nodeid : Z) (clear : bool) : M bool :=
  c ← get;
  match find_idx (fun m => (owner_id m =? nodeid) && bool_decide (mp_state m = MPAN_MOS)) (mpan_table c) with
  | None => mret false
  | Some i => (if clear then upd_mpan i (set_mp_state MPAN_NOT_USED) else mret tt);; mret true
  end.

Definition S2_free_mpan (owner grp : Z) : M unit :=
  c ← get;
  match find_idx (fun m => (group_id m =? grp) && (owner_id m =? owner)) (mpan_table c) with
  | None => mret tt
  | Some i => upd_mpan i (set_mp_state MPAN_NOT_USED)
  end.

(** [bigint_add(mpan->inner_state, mpan->inner_state, one, 16)]. *)
Definition mpan_one : list Z := [0; 0; 0; 0; 0; 0; 0; 0; 0; 0; 0; 0; 0; 0; 0; 1].
Definition next_inner_state (st : list Z) : list Z := fst (Bigint.bigint_add st mpan_one).
Definition next_mpan_state (j : nat) : M unit :=
  upd_mpan j (fun m => set_inner (next_inner_state (inner_state m)) m).

(** ** Sending *)

Section Fsm.
(** The state machine, as the senders call it back. *)
Variable post_event : event_t -> event_data_t -> M unit.

Definition S2_send_raw (frame : list Z) : M unit :=
  c ← get;
  emit (SendFrame (peer c) frame);;
  ok ← next_accept;
  if ok : bool then
    i ← find_span_by_node (peer c);
    upd_span i (fun s => set_tx_seq (u8 (tx_seq s + 1)) s)
  else post_event SEND_DONE (EvTx S2_TRANSMIT_COMPLETE_FAIL None).

Definition S2_send_nonce_get : M unit :=
  c ← get;
  i ← find_span_by_node (peer c);
  s ← get_span i;
  S2_send_raw [COMMAND_CLASS_SECURITY_2; SECURITY_2_NONCE_GET; tx_seq s].

Definition S2_send_nonce_report (conn : s2_connection_t) (flags : Z) : M unit :=
  i ← find_span_by_node conn;
  s ← get_span i;
  nonce ← (if has_bits flags SOS_BIT_MASK then
             upd_span i (set_sp_state SPAN_SOS_LOCAL_NONCE);;
             rnd ← drbg_generate;
             upd_span i (set_r_nonce (take 16 rnd));;
             s' ← get_span i;
             mret (d_r_nonce s')
           else mret []);
  upd_span i (fun s => set_tx_seq (u8 (tx_seq s + 1)) s);;
  emit (SendFrameNoCb conn
    ([COMMAND_CLASS_SECURITY_2; SECURITY_2_NONCE_REPORT; tx_seq s; flags] ++ nonce)).

Definition S2_make_aad (sender receiver : Z) (msg : list Z) (hdr_len : nat) (msg_len : Z) (max_size : nat)
    : M (list Z) :=
  if Nat.ltb max_size (hdr_len - 2 + 8) then mret []
  else
    c ← get;
    let nodes :=
      if (LOWEST_LONG_RANGE_NODE_ID <=? sender) || (LOWEST_LONG_RANGE_NODE_ID <=? receiver) then
        [Z.land (Z.shiftr sender 8) 0xFF; Z.land sender 0xFF;
         Z.land (Z.shiftr receiver 8) 0xFF; Z.land receiver 0xFF]
      else [Z.land sender 0xFF; Z.land receiver 0xFF] in
    let home := my_home_id c in
    let fixed := nodes ++
      [Z.land (Z.shiftr home 24) 0xFF; Z.land (Z.shiftr home 16) 0xFF; Z.land (Z.shiftr home 8) 0xFF;
       Z.land home 0xFF; Z.land (Z.shiftr msg_len 8) 0xFF; Z.land msg_len 0xFF] in
    hdr ← rds msg 2 (hdr_len - 2);
    if Nat.ltb max_size (length (fixed ++ hdr)) then fail OutOfBounds else mret (fixed ++ hdr).

(** The loop over the MOS list: [p] is the write position, [k] the extensions written. *)
Fixpoint add_mpan_loop (ixs : list nat) (p : nat) (k : nat) : M nat :=
  match ixs with
  | [] => mret k
  | i :: ixs' =>
      c ← get;
      e ← of_option OutOfBounds (mos_list c !! i);
      if node_id e =? r_node (peer c) then
        j ← find_mpan_by_group_id 0 (mos_group e) false;
        match j with
        | None => add_mpan_loop ixs' p k
        | Some j =>
            m ← get_mpan j;
            wb_write p [19; Z.lor (Z.lor S2_MSG_EXTHDR_TYPE_MPAN S2_MSG_EXTHDR_MORE_FLAG)
                              S2_MSG_EXTHDR_CRITICAL_FLAG; mos_group e];;
            wb_write (p + 3) (take 16 (inner_state m));;
            modify (fun c => set_mos_list (<[i := mkMos 0 (mos_group e)]> (mos_list c)) c);;
            add_mpan_loop ixs' (p + 3) (S k)
        end
      else add_mpan_loop ixs' p k
  end.

Definition S2_add_mpan_extensions (ext_data : nat) : M nat :=
  k ← add_mpan_loop (seq 0 MOS_LIST_LENGTH) ext_data 0;
  (if Nat.eqb k 0 then mret tt else wb_and (ext_data + (k - 1) * 19 + 1) (Z.lnot S2_MSG_EXTHDR_MORE_FLAG));;
  mret (k * 19)%nat.

(** One clear-text extension, written at the end of the header built so far. *)
Definition put_ext (hdr_len : nat) (ext : list Z) : M nat :=
  wb_write hdr_len ext;; mret (hdr_len + length ext)%nat.

(** Payload to ciphertext in place: the part of both encrypting functions from the [memcpy] of the
    payload on.  Returns the frame. *)
Definition ccm_in_workbuf (key nonce aad : list Z) (off len : nat) : M nat :=
  c ← get;
  plain ← rds (workbuf c) off len;
  match Ccm.CCM_encrypt_and_auth key nonce aad plain with
  | None => mret 0%nat
  | Some cipher => wb_write off cipher;; mret (length cipher)
  end.

(** The SN extension and the new generator, when the receiver's nonce is known. *)
Definition add_sn_extension (i : nat) (hdr_len n_ext : nat) : M (nat * nat) :=
  c ← get;
  s ← get_span i;
  if bool_decide (sp_state s = SPAN_SOS_REMOTE_NONCE) then
    ei_sender ← drbg_generate;
    let ei_receiver := d_r_nonce s in
    g ← get_sg (class_id (peer c));
    upd_span i (set_rng (NextNonce.next_nonce_instantiate ei_sender ei_receiver (nonce_key g)));;
    upd_span i (fun s => set_sp_state SPAN_NEGOTIATED (set_sp_class (class_id (peer c)) s));;
    h ← put_ext hdr_len ([2 + 16; Z.lor S2_MSG_EXTHDR_CRITICAL_FLAG S2_MSG_EXTHDR_TYPE_SN] ++
                          take 16 ei_sender);
    mret (h, S n_ext)
  else mret (hdr_len, n_ext).

(** The MGRP extension of a single-cast follow-up. *)
Definition add_mgrp_extension (hdr_len n_ext : nat) : M (nat * nat) :=
  c ← get;
  match mpan c with
  | Some j =>
      if has_bits (tx_options (peer c))
           (Z.lor S2_TXOPTION_SINGLECAST_FOLLOWUP S2_TXOPTION_FIRST_SINGLECAST_FOLLOWUP) then
        is_mos ← S2_is_node_mos (r_node (peer c));
        '(h, n) ← (if negb is_mos then
                     m ← get_mpan j;
                     h ← put_ext hdr_len [3; Z.lor S2_MSG_EXTHDR_CRITICAL_FLAG S2_MSG_EXTHDR_TYPE_MGRP;
                                          group_id m];
                     mret (h, S n_ext)
                   else mret (hdr_len, n_ext));
        (if has_bits (tx_options (peer c)) S2_TXOPTION_FIRST_SINGLECAST_FOLLOWUP && (retry c =? 2)
         then next_mpan_state j else mret tt);;
        mret (h, n)
      else mret (hdr_len, n_ext)
  | None => mret (hdr_len, n_ext)
  end.

(** The MOS extension, when the current MPAN is out of sync. *)
Definition add_mos_extension (hdr_len n_ext : nat) : M (nat * nat) :=
  c ← get;
  match mpan c with
  | Some j =>
      m ← get_mpan j;
      if bool_decide (mp_state m = MPAN_MOS) then
        upd_mpan j (set_mp_state MPAN_NOT_USED);;
        modify (set_mpan None);;
        h ← put_ext hdr_len [2; S2_MSG_EXTHDR_TYPE_MOS];
        mret (h, S n_ext)
      else mret (hdr_len, n_ext)
  | None => mret (hdr_len, n_ext)
  end.

(** [while (--n_ext) ext_data[1] |= MORE]: the pointer does not move. *)
Fixpoint more_loop (n : nat) : M unit :=
  match n with
  | O => mret tt
  | S n' => wb_or 5 S2_MSG_EXTHDR_MORE_FLAG;; more_loop n'
  end.

Definition S2_encrypt_and_send : M unit :=
  c0 ← get;
  i ← find_span_by_node (peer c0);
  s ← get_span i;
  wb_write 0 [COMMAND_CLASS_SECURITY_2; SECURITY_2_MESSAGE_ENCAPSULATION; tx_seq s; 0];;
  '(hdr_len, n_ext) ← add_sn_extension i 4 0;
  '(hdr_len, n_ext) ← add_mgrp_extension hdr_len n_ext;
  '(hdr_len, n_ext) ← add_mos_extension hdr_len n_ext;
  (if Nat.eqb n_ext 0 then mret tt else wb_or 3 EXTENSION_BIT_MASK;; more_loop (n_ext - 1));;
  shdr_len ← S2_add_mpan_extensions hdr_len;
  (if Nat.eqb shdr_len 0 then mret tt else wb_or 3 ENCRYPTED_EXTENSION_BIT_MASK);;
  c ← get;
  let len := Z.to_nat (length_ c) in
  payload ← deref (buf c) len;
  wb_write (hdr_len + shdr_len) payload;;
  wb ← gets workbuf;
  aad ← S2_make_aad (l_node (peer c)) (r_node (peer c)) wb hdr_len
          (u16 (Z.of_nat (len + shdr_len + hdr_len + AUTH_TAG_LEN))) 64;
  s ← get_span i;
  let '(nonce, g) := NextNonce.next_nonce_generate (d_rng s) in
  upd_span i (set_rng g);;
  sgrp ← get_sg (class_id (peer c));
  msg_len ← ccm_in_workbuf (enc_key sgrp) nonce aad hdr_len (len + shdr_len);
  assert_ (negb (Nat.eqb msg_len 0));;
  c ← get;
  frame ← rds (workbuf c) 0 (msg_len + hdr_len);
  S2_send_raw frame.

Definition S2_encrypt_and_send_multi : M unit :=
  c ← get;
  j ← of_option NullDeref (mpan c);
  m ← get_mpan j;
  wb_write 0 [COMMAND_CLASS_SECURITY_2; SECURITY_2_MESSAGE_ENCAPSULATION; 0xFF; EXTENSION_BIT_MASK; 3;
              Z.lor S2_MSG_EXTHDR_CRITICAL_FLAG S2_MSG_EXTHDR_TYPE_MGRP; group_id m];;
  let hdr_len := 7%nat in
  let len := Z.to_nat (length_ c) in
  payload ← deref (buf c) len;
  wb_write hdr_len payload;;
  wb ← gets workbuf;
  aad ← S2_make_aad (l_node (peer c)) (r_node (peer c)) wb hdr_len
          (u16 (Z.of_nat (len + hdr_len + AUTH_TAG_LEN))) 64;
  sgrp ← get_sg (mp_class m);
  let nonce := block_encrypt (inner_state m) (mpan_key sgrp) in
  next_mpan_state j;;
  msg_len ← ccm_in_workbuf (enc_key sgrp) nonce aad hdr_len len;
  assert_ (negb (Nat.eqb msg_len 0));;
  c ← get;
  frame ← rds (workbuf c) 0 (msg_len + hdr_len);
  emit (SendFrameMulti (peer c) frame);;
  ok ← next_accept;
  if ok : bool then mret tt
  else post_event SEND_DONE (EvTx S2_TRANSMIT_COMPLETE_FAIL None).
End Fsm.

(** ** Receiving *)

Definition S2_register_nonce (b : buf_ptr) (len : Z) : M Z :=
  c ← get;
  seq ← buf_byte b 2;
  ok ← S2_verify_seq (peer c) seq;
  if negb ok then mret 0
  else
    i ← find_span_by_node (peer c);
    flags ← buf_byte b 3;
    (if (4 + 16 <=? len) && has_bits flags SOS_BIT_MASK then
       frame ← deref b 20;
       upd_span i (fun s => set_sp_state SPAN_SOS_REMOTE_NONCE (set_r_nonce (sub 4 16 frame) s))
     else mret tt);;
    (if has_bits flags MOS_BIT_MASK && (3 <=? len) then S2_set_node_mos (r_node (peer c)) else mret tt);;
    mret flags.

Definition is_multicast (conn : s2_connection_t) : bool :=
  has_bits (rx_options conn) S2_RXOPTION_MULTICAST.

(** The nonces [s_nonce] and [r_nonce] of the decrypting function, when they have been set. *)
Definition nonces_t : Type := option (list Z * list Z).

(** The SN extension of [ext_len] bytes at [ext]: starts the generator when a nonce of ours is out. *)
Definition ext_sn (msg : list Z) (span : option nat) (ext : nat) (ext_len : Z) (non : nonces_t) : M nonces_t :=
  match span with
  | None => mret non
  | Some i =>
      s ← get_span i;
      if bool_decide (sp_state s = SPAN_SOS_LOCAL_NONCE) && (ext_len =? 2 + 16) then
        s_nonce ← rds msg (ext + 2) 16;
        let r_nonce := d_r_nonce s in
        upd_span i (set_sp_state SPAN_INSTANTIATE);;
        g ← get_sg (sp_class s);
        upd_span i (set_rng (NextNonce.next_nonce_instantiate s_nonce r_nonce (nonce_key g)));;
        mret (Some (s_nonce, r_nonce))
      else mret non
  end.

(** One clear-text extension: [None] is the jump to [parse_fail]. *)
Definition ext_body (conn : s2_connection_t) (msg : list Z) (span : option nat) (ext : nat)
    (ext_len ty : Z) (mp : option nat) (non : nonces_t) : M (option (option nat * nonces_t)) :=
  let t := Z.land ty S2_MSG_EXTHDR_TYPE_MASK in
  if t =? S2_MSG_EXTHDR_TYPE_SN then
    non' ← ext_sn msg span ext ext_len non; mret (Some (mp, non'))
  else if t =? S2_MSG_EXTHDR_TYPE_MGRP then
    if negb (ext_len =? 3) then mret None
    else
      grp ← rd msg (ext + 2);
      mp' ← find_mpan_by_group_id (r_node conn) grp (negb (is_multicast conn));
      mret (Some (mp', non))
  else if t =? S2_MSG_EXTHDR_TYPE_MOS then
    if negb (ext_len =? 2) then mret None
    else S2_set_node_mos (r_node conn);; mret (Some (mp, non))
  else if has_bits ty S2_MSG_EXTHDR_CRITICAL_FLAG then mret None
  else mret (Some (mp, non)).

(** The loop over the clear-text extensions; the result is the header length, the MPAN of an MGRP
    extension and the nonces. *)
Fixpoint parse_ext (fuel : nat) (conn : s2_connection_t) (msg : list Z) (span : option nat)
    (ext hdr_len : nat) (mp : option nat) (non : nonces_t) : M (option (nat * option nat * nonces_t)) :=
  match fuel with
  | O => fail OutOfFuel
  | S fuel' =>
      ext_len ← rd msg ext;
      let hdr_len := Z.to_nat (u16 (Z.of_nat hdr_len + ext_len)) in
      if Nat.ltb (length msg) (hdr_len + AUTH_TAG_LEN) || (ext_len =? 0) then mret None
      else
        ty ← rd msg (ext + 1);
        r ← ext_body conn msg span ext ext_len ty mp non;
        match r with
        | None => mret None
        | Some (mp, non) =>
            if has_bits ty S2_MSG_EXTHDR_MORE_FLAG then
              parse_ext fuel' conn msg span (ext + Z.to_nat ext_len) hdr_len mp non
            else mret (Some (hdr_len, mp, non))
        end
  end.

Section Receive.
Variable post_event : event_t -> event_data_t -> M unit.

(** A frame decrypted under class [sp_class s]: the SPAN is negotiated, and an MGRP extension is
    acted on. *)
Definition decrypt_ok (conn : s2_connection_t) (i : nat) (mp : option nat) : M s2_connection_t :=
  upd_span i (set_sp_state SPAN_NEGOTIATED);;
  s ← get_span i;
  let conn := with_class_id (sp_class s) conn in
  match mp with
  | None => mret conn
  | Some j =>
      let conn := with_rx_options (Z.lor (rx_options conn) S2_RXOPTION_FOLLOWUP) conn in
      m ← get_mpan j;
      (if bool_decide (mp_state m = MPAN_MOS) then
         modify (set_mpan (Some j));; post_event GOT_ENC_MSG_MOS (EvCon conn)
       else next_mpan_state j);;
      mret conn
  end.

(** The loop over the security classes, [n] tries left.  The result is [None] for the jump to
    [auth_fail], else the connection, the buffer and the length of the plaintext (0 when no class
    fits). *)
Fixpoint try_classes (n : nat) (conn : s2_connection_t) (i : nat) (mp : option nat) (non : nonces_t)
    (aad ciphertext : list Z) : M (option (s2_connection_t * list Z * nat)) :=
  match n with
  | O => mret (Some (conn, ciphertext, 0%nat))
  | S n' =>
      c ← get;
      s ← get_span i;
      '(decrypt_len, ciphertext) ←
        (if has_bits (loaded_keys c) (Z.shiftl 1 (sp_class s)) then
           let '(nonce, g) := NextNonce.next_nonce_generate (d_rng s) in
           upd_span i (set_rng g);;
           sgrp ← get_sg (sp_class s);
           mret (Ccm.CCM_decrypt_and_auth (enc_key sgrp) nonce aad ciphertext)
         else mret (0%nat, ciphertext));
      if negb (Nat.eqb decrypt_len 0) then
        conn ← decrypt_ok conn i mp;
        mret (Some (conn, ciphertext, decrypt_len))
      else
        s ← get_span i;
        c ← get;
        if negb (bool_decide (fsm c = IDLE)) || bool_decide (sp_state s = SPAN_NEGOTIATED) then mret None
        else
          let cls := if Z.of_nat N_SEC_CLASS <=? u8 (sp_class s + 1) then 0 else u8 (sp_class s + 1) in
          upd_span i (set_sp_class cls);;
          ciphertext ← rds (workbuf c) 0 (length ciphertext);
          '(s_nonce, r_nonce) ← of_option UninitRead non;
          g ← get_sg cls;
          upd_span i (set_rng (NextNonce.next_nonce_instantiate s_nonce r_nonce (nonce_key g)));;
          try_classes n' conn i mp non aad ciphertext
  end.

(** The loop over the encrypted extensions at [off] of [text]; [decrypt_len] bytes are plaintext. *)
Fixpoint parse_enc_ext (fuel : nat) (conn : s2_connection_t) (text : list Z) (span : option nat)
    (decrypt_len off hdr_len : nat) : M (option (nat * s2_connection_t)) :=
  match fuel with
  | O => fail OutOfFuel
  | S fuel' =>
      ext_len ← rd text off;
      let hdr_len := Z.to_nat (u16 (Z.of_nat hdr_len + ext_len)) in
      if Nat.ltb decrypt_len hdr_len || (ext_len =? 0) then mret None
      else
        ty ← rd text (off + 1);
        r ← (if Z.land ty S2_MSG_EXTHDR_TYPE_MASK =? S2_MSG_EXTHDR_TYPE_MPAN then
               if is_multicast conn || negb (ext_len =? 19) then mret None
               else
                 grp ← rd text (off + 2);
                 mp ← find_mpan_by_group_id (r_node conn) grp true;
                 j ← of_option NullDeref mp;
                 st ← rds text (off + 3) 16;
                 i ← of_option NullDeref span;
                 s ← get_span i;
                 upd_mpan j (fun m => set_mp_class (sp_class s) (set_mp_state MPAN_SET (set_inner st m)));;
                 mret (Some (with_rx_options (Z.lor (rx_options conn) S2_RXOPTION_FOLLOWUP) conn))
             else if has_bits ty S2_MSG_EXTHDR_CRITICAL_FLAG then mret None
             else mret (Some conn));
        match r with
        | None => mret None
        | Some conn =>
            if has_bits ty S2_MSG_EXTHDR_MORE_FLAG then
              parse_enc_ext fuel' conn text span decrypt_len (off + Z.to_nat ext_len) hdr_len
            else mret (Some (hdr_len, conn))
        end
  end.

(** What [S2_decrypt_msg] gives its caller: the code, the connection it changed, and the plaintext
    as a buffer, an offset and a length. *)
Record decrypted := mkDecrypted {
  rc : decrypt_return_code_t; dconn : s2_connection_t; text : list Z; plain_off : nat; plain_len : nat
}.

Definition parse_fail (conn : s2_connection_t) : M decrypted := mret (mkDecrypted PARSE_FAIL conn [] 0 0).

Definition auth_fail (conn : s2_connection_t) (span mp : option nat) : M decrypted :=
  (match mp with Some j => upd_mpan j (set_mp_state MPAN_MOS) | None => mret tt end);;
  (match span with Some i => upd_span i (set_sp_state SPAN_SOS) | None => mret tt end);;
  (if negb (is_multicast conn) then
     S2_send_nonce_report conn (match mp with Some _ => Z.lor SOS_BIT_MASK MOS_BIT_MASK
                                | None => SOS_BIT_MASK end)
   else mret tt);;
  mret (mkDecrypted AUTH_FAIL conn [] 0 0).

(** From the parsed header to the authenticated plaintext; no text is the jump to [auth_fail]. *)
Definition decrypt_body (conn : s2_connection_t) (msg : list Z) (hdr_len : nat) (span mp : option nat)
    (non : nonces_t) : M (s2_connection_t * option (list Z * nat)) :=
  let ciphertext := drop hdr_len msg in
  aad ← S2_make_aad (r_node conn) (l_node conn) msg hdr_len (Z.of_nat (length msg)) 64;
  r ← match span with
      | Some i =>
          c ← get;
          s ← get_span i;
          (if bool_decide (fsm c = IDLE) && bool_decide (sp_state s = SPAN_INSTANTIATE) then
             wb_write 0 ciphertext else mret tt);;
          try_classes N_SEC_CLASS conn i mp non aad ciphertext
      | None =>
          j ← of_option NullDeref mp;
          m ← get_mpan j;
          sgrp ← get_sg (mp_class m);
          let nonce := block_encrypt (inner_state m) (mpan_key sgrp) in
          next_mpan_state j;;
          let '(decrypt_len, ciphertext) := Ccm.CCM_decrypt_and_auth (enc_key sgrp) nonce aad ciphertext in
          mret (Some (with_class_id (mp_class m) conn, ciphertext, decrypt_len))
      end;
  match r with
  | None => mret (conn, None)
  | Some (conn, text, decrypt_len) =>
      if Nat.eqb decrypt_len 0 || Nat.eqb (length aad) 0 then mret (conn, None)
      else mret (conn, Some (text, decrypt_len))
  end.

Definition S2_decrypt_msg (conn : s2_connection_t) (msg : list Z) : M decrypted :=
  flags ← rd msg 3;
  if Nat.ltb (length msg) (4 + AUTH_TAG_LEN) then parse_fail conn
  else
    seq ← rd msg 2;
    ok ← (if is_multicast conn then mret true else S2_verify_seq conn seq);
    if negb ok then mret (mkDecrypted SEQUENCE_FAIL conn [] 0 0)
    else
      span ← (if is_multicast conn then mret None else i ← find_span_by_node conn; mret (Some i));
      h ← (if has_bits flags EXTENSION_BIT_MASK
           then parse_ext (S (length msg)) conn msg span 4 4 None None
           else mret (Some (4%nat, None, None)));
      match h with
      | None => parse_fail conn
      | Some (hdr_len, mp, non) =>
          pre ← match span with
                | None =>
                    match mp with
                    | None => mret None
                    | Some j =>
                        m ← get_mpan j;
                        if bool_decide (mp_state m = MPAN_SET) then
                          mret (Some (with_l_node (group_id m) conn))
                        else mret None
                    end
                | Some i =>
                    s ← get_span i;
                    if bool_decide (sp_state s = SPAN_NEGOTIATED) || bool_decide (sp_state s = SPAN_INSTANTIATE)
                    then mret (Some conn) else mret None
                end;
          match pre with
          | None => auth_fail conn span mp
          | Some conn =>
              '(conn, r) ← decrypt_body conn msg hdr_len span mp non;
              match r with
              | None => auth_fail conn span mp
              | Some (text, decrypt_len) =>
                  e ← (if has_bits flags ENCRYPTED_EXTENSION_BIT_MASK
                       then parse_enc_ext (S (length text)) conn text span decrypt_len 0 0
                       else mret (Some (0%nat, conn)));
                  match e with
                  | None => parse_fail conn
                  | Some (hdr_len, conn) =>
                      mret (mkDecrypted AUTH_OK conn text hdr_len (decrypt_len - hdr_len))
                  end
              end
          end
      end.
End Receive.

(** ** The state machine *)

Definition S2_is_peernode (c : S2) (con : s2_connection_t) : bool :=
  (l_node con =? l_node (peer c)) && (r_node con =? r_node (peer c)).

Definition S2_set_peer (con : s2_connection_t) (b : buf_ptr) (len : Z) : M unit :=
  modify (fun c => set_length len (set_buf b (set_peer con c))).

Definition set_fsm_state (st : states_t) : M unit := modify (set_fsm st).

Definition S2_post_send_done_event (status : Z) : M unit :=
  s2_inclusion_send_done ((status =? S2_TRANSMIT_COMPLETE_OK) || (status =? S2_TRANSMIT_COMPLETE_VERIFIED));;
  emit (SendDoneEvent status).

(** Fields of the event data; reading one that the poster has not set is a fault. *)
Definition ev_con (dat : event_data_t) : M s2_connection_t :=
  match dat with
  | EvBuf con _ _ | EvCon con => mret con
  | EvTx _ _ => fail UninitRead
  | EvNull => fail NullDeref
  end.
Definition ev_buf (dat : event_data_t) : M (buf_ptr * Z) :=
  match dat with
  | EvBuf _ b len => mret (b, len)
  | EvNull => fail NullDeref
  | _ => fail UninitRead
  end.
Definition ev_status (dat : event_data_t) : M Z :=
  match dat with EvTx st _ => mret st | EvNull => fail NullDeref | _ => fail UninitRead end.
Definition ev_time (dat : event_data_t) : M Z :=
  match dat with
  | EvTx _ t => of_option UninitRead t
  | EvNull => fail NullDeref
  | _ => fail UninitRead
  end.

Definition emit_S2_synchronization_event (reason : sos_event_reason_t) (dat : event_data_t) : M unit :=
  con ← ev_con dat;
  '(b, _) ← ev_buf dat;
  seqno ← buf_byte b 2;
  emit (Resynchronization (r_node con) reason seqno (l_node con)).

Section Step.
Variable post_event : event_t -> event_data_t -> M unit.

(** The label [send_msg_state_enter]. *)
Definition send_msg_state_enter : M unit :=
  set_fsm_state SENDING_MSG;;
  c ← get;
  (if has_bits (tx_options (peer c)) S2_TXOPTION_VERIFY_DELIVERY then
     set_fsm_state VERIFYING_DELIVERY;; emit (SetTimeout SEND_DATA_TIMEOUT)
   else mret tt);;
  S2_encrypt_and_send post_event;;
  modify (fun c => set_retry (u8 (retry c - 1)) c).

(** States IDLE and IS_MOS_WAIT_REPLY. *)
Definition fsm_idle (e : event_t) (dat : event_data_t) : M unit :=
  match e with
  | SEND_MSG =>
      con ← ev_con dat;
      '(b, len) ← ev_buf dat;
      ok ← S2_span_ok con;
      if ok : bool then
        S2_set_peer con b len;; modify (set_retry 2);; send_msg_state_enter
      else
        set_fsm_state WAIT_NONCE_RAPORT;; modify (set_retry 2);;
        S2_set_peer con b len;;
        S2_send_nonce_get post_event;;
        emit (SetTimeout SEND_DATA_TIMEOUT)
  | GOT_NONCE_GET =>
      con ← ev_con dat;
      '(b, len) ← ev_buf dat;
      if 3 <=? len then
        seq ← buf_byte b 2;
        ok ← S2_verify_seq con seq;
        if ok : bool then S2_send_nonce_report con SOS_BIT_MASK else mret tt
      else mret tt
  | GOT_NONCE_RAPORT =>
      con ← ev_con dat;
      '(b, len) ← ev_buf dat;
      S2_set_peer con b len;;
      _ ← S2_register_nonce b len;
      emit_S2_synchronization_event SOS_EVENT_REASON_UNANSWERED dat
  | SEND_MULTICAST =>
      con ← ev_con dat;
      '(b, len) ← ev_buf dat;
      S2_set_peer con b len;;
      j ← find_mpan_by_group_id 0 (u8 (r_node con)) true;
      modify (set_mpan j);;
      set_fsm_state SENDING_MSG;;
      S2_encrypt_and_send_multi post_event
  | SEND_DONE => st ← ev_status dat; s2_inclusion_send_done (st =? S2_TRANSMIT_COMPLETE_OK)
  | GOT_ENC_MSG_MOS =>
      emit (SetTimeout 10);;
      con ← ev_con dat;
      S2_set_peer con BufNull 0;;
      set_fsm_state IS_MOS_WAIT_REPLY
  | TIMEOUT =>
      c ← get;
      if bool_decide (fsm c = IS_MOS_WAIT_REPLY) then
        modify (set_mpan None);; set_fsm_state IDLE;; S2_send_nonce_report (peer c) MOS_BIT_MASK
      else mret tt
  | _ => mret tt
  end.

Definition fsm_wait_nonce (e : event_t) (dat : event_data_t) : M unit :=
  match e with
  | SEND_DONE =>
      st ← ev_status dat;
      if st =? S2_TRANSMIT_COMPLETE_OK then t ← ev_time dat; emit (SetTimeout t)
      else set_fsm_state IDLE;; S2_post_send_done_event st
  | TIMEOUT => set_fsm_state IDLE;; S2_post_send_done_event S2_TRANSMIT_COMPLETE_FAIL
  | GOT_NONCE_RAPORT =>
      con ← ev_con dat;
      c ← get;
      if S2_is_peernode c con then
        '(b, len) ← ev_buf dat;
        flags ← S2_register_nonce b len;
        if has_bits flags SOS_BIT_MASK then send_msg_state_enter else mret tt
      else emit_S2_synchronization_event SOS_EVENT_REASON_UNANSWERED dat
  | _ => mret tt
  end.

Definition fsm_sending (e : event_t) (dat : event_data_t) : M unit :=
  match e with
  | SEND_DONE => st ← ev_status dat; set_fsm_state IDLE;; S2_post_send_done_event st
  | GOT_NONCE_RAPORT =>
      con ← ev_con dat;
      c ← get;
      if negb (S2_is_peernode c con) then
        emit_S2_synchronization_event SOS_EVENT_REASON_UNANSWERED dat
      else mret tt
  | _ => mret tt
  end.

Definition fsm_verifying (e : event_t) (dat : event_data_t) : M unit :=
  match e with
  | SEND_DONE =>
      st ← ev_status dat;
      if st =? S2_TRANSMIT_COMPLETE_OK then t ← ev_time dat; emit (SetTimeout t)
      else set_fsm_state IDLE;; S2_post_send_done_event st
  | GOT_ENC_MSG =>
      con ← ev_con dat;
      c ← get;
      if S2_is_peernode c con then
        is_mos ← S2_is_node_mos (r_node con);
        if is_mos && (0 <? retry c) then
          modify (fun c => set_peer (with_tx_options
            (Z.land (tx_options (peer c)) (Z.lnot S2_TXOPTION_VERIFY_DELIVERY)) (peer c))
            (set_length 0 c));;
          send_msg_state_enter
        else
          set_fsm_state IDLE;; emit StopTimeout;;
          S2_post_send_done_event S2_TRANSMIT_COMPLETE_VERIFIED
      else mret tt
  | TIMEOUT => set_fsm_state IDLE;; S2_post_send_done_event S2_TRANSMIT_COMPLETE_OK
  | GOT_NONCE_RAPORT =>
      con ← ev_con dat;
      c ← get;
      if S2_is_peernode c con then
        '(b, len) ← ev_buf dat;
        nr_flag ← S2_register_nonce b len;
        if nr_flag =? 0 then mret tt
        else
          (if nr_flag =? MOS_BIT_MASK then modify (set_length 0) else mret tt);;
          c ← get;
          if retry c =? 0 then
            set_fsm_state IDLE;; S2_post_send_done_event S2_TRANSMIT_COMPLETE_FAIL
          else send_msg_state_enter
      else emit_S2_synchronization_event SOS_EVENT_REASON_UNANSWERED dat
  | _ => mret tt
  end.

Definition fsm_step (e : event_t) (dat : event_data_t) : M unit :=
  c ← get;
  match fsm c with
  | IS_MOS_WAIT_REPLY | IDLE => fsm_idle e dat
  | WAIT_NONCE_RAPORT => fsm_wait_nonce e dat
  | SENDING_MSG => fsm_sending e dat
  | VERIFYING_DELIVERY => fsm_verifying e dat
  | SENDING_MULTICAST => fail AssertFail
  end.
End Step.

(** The state machine, [fuel] nested events deep. *)
Fixpoint fsm_post (fuel : nat) (e : event_t) (dat : event_data_t) : M unit :=
  match fuel with
  | O => fail OutOfFuel
  | S fuel' => fsm_step (fsm_post fuel') e dat
  end.

(** A failed send posts one nested event, which posts none: two levels are enough. *)
Definition S2_fsm_post_event : event_t -> event_data_t -> M unit := fsm_post 2.

(** ** Public functions *)

Definition S2_is_send_data_busy (c : S2) : bool :=
  negb (bool_decide (fsm c = IDLE)) && negb (bool_decide (fsm c = IS_MOS_WAIT_REPLY)).

Definition S2_is_send_data_multicast_busy (c : S2) : bool := negb (bool_decide (fsm c = IDLE)).

Definition S2_is_busy (c : S2) : bool :=
  if negb (bool_decide (inclusion_state c = S2_INC_IDLE)) then true
  else if negb (bool_decide (fsm c = IDLE)) && negb (bool_decide (fsm c = IS_MOS_WAIT_REPLY)) then true
  else false.

Definition convert_normal_to_lr_keyclass (con : s2_connection_t) : s2_connection_t :=
  if class_id con =? ACCESS_KEY_SLOT then with_class_id LR_ACCESS_KEY_SLOT con
  else if class_id con =? AUTHENTICATED_KEY_SLOT then with_class_id LR_AUTHENTICATED_KEY_SLOT con
  else con.

Definition convert_lr_to_normal_keyclass (con : s2_connection_t) : s2_connection_t :=
  if class_id con =? LR_ACCESS_KEY_SLOT then with_class_id ACCESS_KEY_SLOT con
  else if class_id con =? LR_AUTHENTICATED_KEY_SLOT then with_class_id AUTHENTICATED_KEY_SLOT con
  else con.

Definition S2_send_data_all_cast (con : s2_connection_t) (b : buf_ptr) (len : Z) (ev : event_t) : M bool :=
  c ← get;
  if (len =? 0) || (1280 <? len) || (match b with BufNull => true | _ => false end) || S2_is_send_data_busy c
  then mret false
  else
    let e := EvBuf con b len in
    match ev with
    | SEND_MULTICAST => S2_fsm_post_event SEND_MULTICAST e;; mret true
    | SEND_MSG => S2_fsm_post_event SEND_MSG e;; mret true
    | SEND_FOLLOW_UP =>
        new_mpan ← find_mpan_by_group_id 0 (mgrp_group_id con) false;
        (match new_mpan with Some j => modify (set_mpan (Some j)) | None => mret tt end);;
        S2_fsm_post_event SEND_MSG e;; mret true
    | _ => mret true
    end.

(** The functions that may change the caller's connection return it. *)
Definition S2_send_data (dst : s2_connection_t) (b : buf_ptr) (len : Z) : M (bool * s2_connection_t) :=
  let dst := if IS_LR_NODE (r_node dst) then convert_normal_to_lr_keyclass dst else dst in
  r ← S2_send_data_all_cast dst b len SEND_MSG; mret (r, dst).

Definition S2_send_data_multicast (con : s2_connection_t) (b : buf_ptr) (len : Z) : M bool :=
  S2_send_data_all_cast con b len SEND_MULTICAST.

Definition send_with_keyset (con : s2_connection_t) (ks : zwave_s2_keyset_t) (b : buf_ptr) (len : Z)
    (ev : event_t) : M (bool * s2_connection_t) :=
  match ks with
  | ZWAVE_KEYSET => r ← S2_send_data_all_cast con b len ev; mret (r, con)
  | ZWAVE_LONG_RANGE_KEYSET =>
      let con := convert_normal_to_lr_keyclass con in
      r ← S2_send_data_all_cast con b len ev; mret (r, con)
  | UNKNOWN_KEYSET => mret (false, con)
  end.
Definition S2_send_data_singlecast_follow_up_with_keyset con ks b len :=
  send_with_keyset con ks b len SEND_FOLLOW_UP.
Definition S2_send_data_multicast_with_keyset con ks b len := send_with_keyset con ks b len SEND_MULTICAST.
Definition S2_send_data_singlecast_with_keyset con ks b len := send_with_keyset con ks b len SEND_MSG.

Definition S2_send_frame_done_notify (status tx_time : Z) : M unit :=
  S2_fsm_post_event SEND_DONE (EvTx status (Some tx_time)).

Definition S2_timeout_notify : M unit := S2_fsm_post_event TIMEOUT EvNull.

(** A decrypted command: S2 commands go to the inclusion machine or are answered here, everything
    else to the application. *)
Definition dispatch (src : s2_connection_t) (text : list Z) (off len : nat) : M unit :=
  c0 ← rd text off;
  c1 ← (if c0 =? COMMAND_CLASS_SECURITY_2 then rd text (off + 1) else mret 0);
  if (c0 =? COMMAND_CLASS_SECURITY_2) && negb (c1 =? SECURITY_2_COMMANDS_SUPPORTED_REPORT) then
    if is_multicast src then mret tt
    else if c1 =? SECURITY_2_COMMANDS_SUPPORTED_GET then
      modify (fun c => set_u (splice 0 [COMMAND_CLASS_SECURITY_2; SECURITY_2_COMMANDS_SUPPORTED_REPORT] (u c)) c);;
      let classes := S2_get_commands_supported (l_node src) (class_id src) in
      if 40 <? Z.of_nat (length classes) + 2 then mret tt
      else
        modify (fun c => set_u (splice 2 classes (u c)) c);;
        (_ ← S2_send_data src BufU (Z.of_nat (length classes) + 2); mret tt)
    else
      modify (fun c => set_length (Z.of_nat len) (set_buf (BufExt (drop off text)) c));;
      s2_inclusion_post_event src
  else
    let src := if IS_LR_NODE (r_node src) then convert_lr_to_normal_keyclass src else src in
    emit (MsgReceived src (sub off len text)).

Definition S2_application_command_handler (src : s2_connection_t) (b : list Z) : M unit :=
  let len := Z.of_nat (length b) in
  b0 ← rd b 0;
  if negb (b0 =? COMMAND_CLASS_SECURITY_2) then mret tt
  else
    b1 ← rd b 1;
    if b1 =? SECURITY_2_NONCE_GET then
      if negb (is_multicast src) && (3 <=? len) then
        seq ← rd b 2;
        ok ← S2_verify_seq src seq;
        if ok : bool then S2_send_nonce_report src SOS_BIT_MASK else mret tt
      else mret tt
    else if b1 =? SECURITY_2_NONCE_REPORT then
      S2_fsm_post_event GOT_NONCE_RAPORT (EvBuf src (BufExt b) len)
    else if b1 =? SECURITY_2_MESSAGE_ENCAPSULATION then
      r ← S2_decrypt_msg S2_fsm_post_event src b;
      match rc r with
      | AUTH_OK =>
          S2_fsm_post_event GOT_ENC_MSG (EvBuf (dconn r) (BufExt b) len);;
          if Nat.eqb (plain_len r) 0 then mret tt
          else dispatch (dconn r) (text r) (plain_off r) (plain_len r)
      | AUTH_FAIL =>
          S2_fsm_post_event GOT_BAD_ENC_MSG (EvBuf (dconn r) (BufExt b) len);;
          s2_inclusion_decryption_failure (dconn r)
      | _ => mret tt
      end
    else
      c ← get;
      if negb (bool_decide (fsm c = IDLE)) && negb (b1 =? KEX_FAIL) then mret tt
      else if negb (is_multicast src) then
        modify (fun c => set_length len (set_buf (BufExt b) c));;
        s2_inclusion_post_event (with_class_id UNENCRYPTED_CLASS src)
      else mret tt.

(** ** Keys and set-up *)

Definition S2_network_key_update (cls : Z) (net_key : list Z) (temp_key_expand : bool) : M bool :=
  if Z.of_nat N_SEC_CLASS <=? cls then mret false
  else
    let '(ek, nk, mk) := if temp_key_expand then Kderiv.tempkey_expand net_key
                         else Kderiv.networkkey_expand net_key in
    modify (fun c => set_sg (<[Z.to_nat cls := mkSg ek mk nk]> (sg c)) c);;
    modify (fun c => set_loaded_keys (Z.lor (loaded_keys c) (Z.shiftl 1 cls)) c);;
    mret true.

Definition m_key_slot_pair : list (Z * Z) :=
  [(KEY_CLASS_S2_UNAUTHENTICATED, UNAUTHENTICATED_KEY_SLOT); (KEY_CLASS_S2_AUTHENTICATED, AUTHENTICATED_KEY_SLOT);
   (KEY_CLASS_S2_ACCESS, ACCESS_KEY_SLOT); (KEY_CLASS_S2_AUTHENTICATED_LR, LR_AUTHENTICATED_KEY_SLOT);
   (KEY_CLASS_S2_ACCESS_LR, LR_ACCESS_KEY_SLOT)].

(** The keys pass through the static [shared_key_mem]. *)
Definition stage_key (key : list Z) : M unit :=
  modify_inc (fun i => set_shared_key_mem (splice 0 key (shared_key_mem i)) i).

Fixpoint restore_loop (pairs : list (Z * Z)) : M unit :=
  match pairs with
  | [] => mret tt
  | (key_class, slot) :: pairs' =>
      ret_val ← keystore_network_key_read key_class;
      (match ret_val with
       | Some key => stage_key key;; (_ ← S2_network_key_update slot key false; mret tt)
       | None => mret tt
       end);;
      restore_loop pairs'
  end.

(** [memset(shared_key_mem, 0, sizeof(NETWORK_KEY_SIZE))] clears the size of an [int]. *)
Definition s2_restore_keys : M unit :=
  modify (set_loaded_keys 0);; restore_loop m_key_slot_pair;; stage_key (replicate 4 0).

Definition S2_init_prng : M unit := fun w =>
  let entropy := S2_get_hw_random 32 in
  Ok (tt, set_drbg (fst (AES_CTR_DRBG_Instantiate entropy (replicate 32 0))) w).

(** A zeroed context. *)
Definition zero_conn : s2_connection_t := mkConn 0 0 0 0 0 0 0 0 0.
Definition zero_span : SPAN := mkSpan (replicate 33 0) 0 0 0 0 0 SPAN_NOT_USED.
Definition zero_mpan : MPAN := mkMpan 0 0 (replicate 16 0) 0 MPAN_NOT_USED.
Definition zero_sg : sec_group := mkSg (replicate 16 0) (replicate 16 0) (replicate 32 0).
Definition zero_ctxt (home : Z) : S2 :=
  mkS2 (replicate N_SEC_CLASS zero_sg) 0 0 0 0 0 0 0 0 0 home zero_conn zero_conn BufNull 0 None
    (replicate SPAN_TABLE_SIZE zero_span) (replicate MPAN_TABLE_SIZE zero_mpan)
    (replicate MOS_LIST_LENGTH (mkMos 0 0)) IDLE 0 S2_INC_IDLE INCLUSION_MODE_CSA 0
    (replicate WORKBUF_LEN 0) (replicate 40 0) 0 (replicate 32 0).

(** A new context, after a successful [malloc]. *)
Definition S2_init_ctx (home : Z) : M unit :=
  modify (fun _ => zero_ctxt home);; s2_restore_keys.
End S2.
End S2.
