(* ===== verification/S2Inclusion.v ===== *)
(** * The S2 inclusion machine (libs2/inclusion/s2_inclusion.c)

    The key exchange of a node that joins a network, on the side of the joining and of the including
    node: the transition table, the rules on received frames, every action, and the public functions,
    for the controller build (ZW_CONTROLLER).  [process_event] calls itself from its actions and,
    through the S2 transport, from a send that fails; the recursion is open in the actions below and
    closed with fuel.  The event handler of the application is the trace of the events it is given;
    what it does in answer are later calls of the public functions. *)
From S2P Require Import Prelude Aes Cmac Ccm Drbg Bigint Curve25519 S2Types Keystore S2Core.
Import CtrDrbg S2Types Keystore S2.

Module S2Inclusion.

(** ** Constants *)

Definition KEX_GET : Z := 0x04.
Definition KEX_REPORT : Z := 0x05.
Definition KEX_SET : Z := 0x06.
Definition PUBLIC_KEY_REPORT : Z := 0x08.
Definition SECURITY_2_NETWORK_KEY_GET : Z := 0x09.
Definition SECURITY_2_NETWORK_KEY_REPORT : Z := 0x0A.
Definition SECURITY_2_NETWORK_KEY_VERIFY : Z := 0x0B.
Definition SECURITY_2_TRANSFER_END : Z := 0x0C.
Definition S2_INCLUSION_COMMAND_OFFSET : Z := KEX_GET.

Definition KEX_FAIL_KEX_KEY : Z := 0x01.
Definition KEX_FAIL_KEX_SCHEME : Z := 0x02.
Definition KEX_FAIL_KEX_CURVES : Z := 0x03.
Definition KEX_FAIL_DECRYPT : Z := 0x05.
Definition KEX_FAIL_CANCEL : Z := 0x06.
Definition KEX_FAIL_AUTH : Z := 0x07.
Definition KEX_FAIL_KEY_GET : Z := 0x08.
Definition KEX_FAIL_KEY_VERIFY : Z := 0x09.
Definition KEX_FAIL_KEY_REPORT : Z := 0x0A.

Definition SECURITY_2_SCHEME_1_SUPPORT : Z := 0x02.
Definition SECURITY_2_SCHEME_SUPPORT_MASK : Z := 0x02.
Definition SECURITY_2_KEY_MASK : Z := 0x87.
Definition SECURITY_2_SECURITY_2_CLASS_1 : Z := 0x02.
Definition SECURITY_2_SECURITY_2_CLASS_2 : Z := 0x04.
Definition SECURITY_2_SECURITY_0_NETWORK_KEY : Z := 0x80.
Definition KEX_REPORT_CURVE_25519 : Z := 0x01.
Definition KEX_REPORT_CURVE_MASK : Z := 0x01.
Definition SECURITY_2_ECHO_OFF : Z := 0x00.
Definition SECURITY_2_ECHO_ON : Z := 0x01.
Definition SECURITY_2_CSA_ON : Z := 0x02.
Definition SECURITY_2_JOINING_NODE : Z := 0x00.
Definition SECURITY_2_INCLUDING_NODE : Z := 0x01.
Definition SECURITY_2_KEY_REQ_COMPLETE : Z := 0x01.
Definition SECURITY_2_KEY_VERIFIED : Z := 0x02.

(** Positions in the frames. *)
Definition SECURITY_2_COMMAND_POS : nat := 1.
Definition SECURITY_2_KEX_SET_ECHO_POS : nat := 2.
Definition SECURITY_2_KEX_SET_CSA_POS : nat := 2.
Definition SECURITY_2_KEX_SET_SCHEME_POS : nat := 3.
Definition SECURITY_2_KEX_SET_CURVE_POS : nat := 4.
Definition SECURITY_2_KEX_SET_KEYS_POS : nat := 5.
Definition SECURITY_2_KEX_REP_ECHO_POS : nat := SECURITY_2_KEX_SET_ECHO_POS.
Definition SECURITY_2_KEX_REP_SCHEME_POS : nat := SECURITY_2_KEX_SET_SCHEME_POS.
Definition SECURITY_2_KEX_REP_CURVE_POS : nat := SECURITY_2_KEX_SET_CURVE_POS.
Definition SECURITY_2_KEX_REP_KEYS_POS : nat := SECURITY_2_KEX_SET_KEYS_POS.
Definition SECURITY_2_PUB_KEY_INC_FLAG_POS : nat := 2.
Definition SECURITY_2_PUB_KEY_KEY_POS : nat := 3.
Definition SECURITY_2_NET_KEY_GET_REQ_KEY_POS : nat := 2.
Definition SECURITY_2_NET_KEY_REP_GRANT_KEY_POS : nat := 2.
Definition SECURITY_2_NET_KEY_REP_KEY_POS : nat := 3.
Definition SECURITY_2_TRANSFER_END_FLAGS_POS : nat := 2.
Definition SECURITY_2_KEX_FAIL_FAIL_TYPE_POS : nat := 2.

Definition SECURITY_2_KEX_GET_LENGTH : Z := 2.
Definition SECURITY_2_KEX_REPORT_LENGTH : Z := 6.
Definition SECURITY_2_KEX_SET_LENGTH : Z := 6.
Definition SECURITY_2_PUB_KEY_LENGTH : Z := 35.
Definition SECURITY_2_NET_KEY_GET_LENGTH : Z := 3.
Definition SECURITY_2_NET_KEY_REPORT_LENGTH : Z := 19.
Definition SECURITY_2_NET_KEY_VERIFY_LENGTH : Z := 2.
Definition SECURITY_2_TRANSFER_END_LENGTH : Z := 3.
Definition SECURITY_2_KEX_FAIL_LENGTH : Z := 3.

(** Time limits in units of 10 ms. *)
Definition SECONDS_10 : Z := 1000.
Definition SECONDS_30 : Z := 3000.
Definition SECONDS_60 : Z := 6000.
Definition SECONDS_240 : Z := 24000.
Definition TA1_TIMEOUT : Z := SECONDS_10.
Definition TA2_TIMEOUT : Z := SECONDS_10.
Definition TA4_TIMEOUT : Z := SECONDS_10.
Definition TA5_TIMEOUT : Z := SECONDS_10.
Definition TA6_TIMEOUT : Z := SECONDS_10.
Definition TAI1_TIMEOUT : Z := SECONDS_240.
Definition TAI2_TIMEOUT : Z := SECONDS_240.
Definition TB0_TIMEOUT : Z := SECONDS_60.
Definition TB1_TIMEOUT : Z := SECONDS_30.
Definition TB2_TIMEOUT : Z := SECONDS_240.
Definition TB3_TIMEOUT : Z := SECONDS_10.
Definition TB5_TIMEOUT : Z := SECONDS_10.
Definition TB7_TIMEOUT : Z := SECONDS_10.
Definition TBI1_TIMEOUT : Z := SECONDS_240.

Definition TEMP_KEY_SECURE : Z := 5.
Definition NETWORK_KEY_SECURE : Z := 6.
Definition NON_SECURE : Z := 0xFF.
Definition SINGLE_RULE_SUPPORT : Z := 0.
Definition DUAL_RULE_SUPPORT : Z := 1.
Definition ECHO_SUPPORT : Z := 2.
Definition NO_RETRIES : Z := 0x00.
Definition QUEUE_FULL : Z := 0xFF.
Definition MAX_RETRY_COUNT : Z := 0x03.
Definition DSK_SSA_CHALLENGE_LENGTH : Z := 2.
Definition DSK_CSA_CHALLENGE_LENGTH : Z := 4.

(** Events: the command of a frame, with its echo or node flag shifted to bit 8, or a number from
    0x200 on. *)
Definition S2_KEX_REPORT_RECV : Z := KEX_REPORT.
Definition S2_PUB_KEY_RECV_B : Z := Z.lor PUBLIC_KEY_REPORT (Z.shiftl SECURITY_2_JOINING_NODE 8).
Definition S2_PUB_KEY_RECV_A : Z := Z.lor PUBLIC_KEY_REPORT (Z.shiftl SECURITY_2_INCLUDING_NODE 8).
Definition S2_KEX_GET_RECV : Z := KEX_GET.
Definition S2_KEX_SET_RECV : Z := KEX_SET.
Definition S2_ECHO_KEX_REPORT_RECV : Z := Z.lor (Z.shiftl SECURITY_2_ECHO_ON 8) KEX_REPORT.
Definition S2_NET_KEY_REPORT_RECV : Z := SECURITY_2_NETWORK_KEY_REPORT.
Definition S2_ECHO_KEX_SET_RECV : Z := Z.lor (Z.shiftl SECURITY_2_ECHO_ON 8) KEX_SET.
Definition S2_NET_KEY_GET_RECV : Z := SECURITY_2_NETWORK_KEY_GET.
Definition S2_NET_KEY_VERIFY_RECV : Z := SECURITY_2_NETWORK_KEY_VERIFY.
Definition S2_TRANSFER_END_RECV : Z := SECURITY_2_TRANSFER_END.
Definition S2_INCLUSION_ERROR_RECV : Z := KEX_FAIL.
Definition S2_INCLUDING_START : Z := 0x0200.
Definition S2_JOINING_START : Z := 0x0201.
Definition S2_INCLUDING_ACCEPT : Z := 0x0202.
Definition S2_INCLUDING_REJECT : Z := 0x0203.
Definition S2_INCLUDING_DECRYPT_FAILED : Z := 0x0204.
Definition S2_SEND_FINAL_TRANSFER_END : Z := 0x0205.
Definition S2_INCLUSION_TX_QUEUED : Z := 0x0206.
Definition S2_NET_KEY_VERIFY_FINAL_RECV : Z := 0x0207.
Definition S2_INCLUSION_RETRY : Z := 0x0208.
Definition S2_INCLUSION_TIMEOUT : Z := 0x0209.
Definition S2_INCLUSION_ERROR : Z := 0x020A.
Definition S2_INCLUSION_ERROR_SENT : Z := 0x020B.
Definition S2_INCLUSION_SEND_DONE : Z := 0x020C.
Definition S2_INCLUSION_SEND_FAILED : Z := 0x020D.
Definition S2_DISCOVERY_COMPLETE : Z := 0x020E.
Definition S2_NO_KEYS_GRANTED : Z := 0x020F.
Definition S2_EVT_ANY : Z := 0x0210.

Inductive s2_action_t :=
  S2_NO_ACTION | S2_ABORT_ACTION | S2_TIMEOUT_ACTION | S2_RESEND_FRAME_ACTION | S2_RESEND_DATA_ACTION
| S2_SEND_KEX_GET_ACTION | S2_KEX_REP_RECV_ACTION | S2_SEND_KEX_SET_ACTION | S2_SEND_PUB_KEY_A_ACTION
| S2_DO_ECDH_CALC_A_ACTION | S2_SEND_ECHO_KEX_REPORT_ACTION | S2_SEND_ERROR_CANCEL_ACTION
| S2_SEND_ERROR_DECRYPT_ACTION | S2_SEND_NET_KEY_REPORT_ACTION | S2_SEND_TRANSFER_END_ACTION
| S2_INCLUSION_COMPLETE_ACTION | S2_CHECK_NO_KEYS | S2_JOINING_START_ACTION | S2_TIMEOUT_TB1_SET_ACTION
| S2_SEND_KEX_REPORT_ACTION | S2_SEND_PUB_KEY_B_ACTION | S2_PUB_KEY_A_RECV_ACTION | S2_DO_ECDH_CALC_B_ACTION
| S2_SEND_ECHO_KEX_SET_ACTION | S2_SEND_NET_KEY_GET_ACTION | S2_SEND_NET_KEY_VERIFY_ACTION
| S2_SEND_FINAL_TRANSFER_END_ACTION | S2_JOINING_COMPLETE_ACTION | S2_REMOTE_ERROR_ACTION
| S2_JOINING_NEVER_STARTED_ACTION.

Record s2_transition_t := Row {
  row_state : s2_inclusion_state_t; row_event : Z; row_action : s2_action_t; row_new : s2_inclusion_state_t
}.

Definition s2_transition_table : list s2_transition_t :=
  [Row S2_INC_IDLE S2_INCLUDING_START S2_SEND_KEX_GET_ACTION S2_AWAITING_KEX_REPORT;
   Row S2_AWAITING_KEX_REPORT S2_KEX_REPORT_RECV S2_KEX_REP_RECV_ACTION S2_AWAITING_KEY_USER_ACCEPT;
   Row S2_AWAITING_KEX_REPORT S2_INCLUSION_RETRY S2_RESEND_FRAME_ACTION S2_INC_STATE_ANY;
   Row S2_AWAITING_KEY_USER_ACCEPT S2_INCLUDING_ACCEPT S2_SEND_KEX_SET_ACTION S2_AWAITING_PUB_KEY_B;
   Row S2_AWAITING_KEY_USER_ACCEPT S2_INCLUDING_REJECT S2_SEND_ERROR_CANCEL_ACTION S2_ERROR_SENT;
   Row S2_AWAITING_KEY_USER_ACCEPT S2_KEX_REPORT_RECV S2_NO_ACTION S2_INC_STATE_ANY;
   Row S2_AWAITING_PUB_KEY_B S2_KEX_REPORT_RECV S2_NO_ACTION S2_INC_STATE_ANY;
   Row S2_AWAITING_PUB_KEY_B S2_INCLUSION_RETRY S2_RESEND_FRAME_ACTION S2_INC_STATE_ANY;
   Row S2_AWAITING_PUB_KEY_B S2_PUB_KEY_RECV_B S2_SEND_PUB_KEY_A_ACTION S2_AWAITING_USER_ACCEPT;
   Row S2_AWAITING_USER_ACCEPT S2_INCLUDING_ACCEPT S2_DO_ECDH_CALC_A_ACTION S2_AWAITING_ECHO_KEX_SET;
   Row S2_AWAITING_USER_ACCEPT S2_INCLUDING_REJECT S2_SEND_ERROR_CANCEL_ACTION S2_ERROR_SENT;
   Row S2_AWAITING_USER_ACCEPT S2_INCLUSION_RETRY S2_RESEND_FRAME_ACTION S2_INC_STATE_ANY;
   Row S2_AWAITING_USER_ACCEPT S2_KEX_REPORT_RECV S2_NO_ACTION S2_INC_STATE_ANY;
   Row S2_AWAITING_USER_ACCEPT S2_PUB_KEY_RECV_B S2_NO_ACTION S2_INC_STATE_ANY;
   Row S2_AWAITING_ECHO_KEX_SET S2_ECHO_KEX_SET_RECV S2_SEND_ECHO_KEX_REPORT_ACTION S2_AWAITING_NET_KEY_GET;
   Row S2_AWAITING_ECHO_KEX_SET S2_INCLUSION_RETRY S2_RESEND_FRAME_ACTION S2_INC_STATE_ANY;
   Row S2_AWAITING_ECHO_KEX_SET S2_INCLUDING_DECRYPT_FAILED S2_SEND_ERROR_DECRYPT_ACTION S2_ERROR_SENT;
   Row S2_AWAITING_ECHO_KEX_SET S2_KEX_REPORT_RECV S2_NO_ACTION S2_INC_STATE_ANY;
   Row S2_AWAITING_ECHO_KEX_SET S2_PUB_KEY_RECV_B S2_NO_ACTION S2_INC_STATE_ANY;
   Row S2_AWAITING_NET_KEY_GET S2_NET_KEY_GET_RECV S2_SEND_NET_KEY_REPORT_ACTION S2_AWAITING_NET_KEY_VERIFY;
   Row S2_AWAITING_NET_KEY_GET S2_SEND_FINAL_TRANSFER_END S2_CHECK_NO_KEYS S2_INC_IDLE;
   Row S2_AWAITING_NET_KEY_GET S2_INCLUSION_RETRY S2_RESEND_DATA_ACTION S2_INC_STATE_ANY;
   Row S2_AWAITING_NET_KEY_GET S2_KEX_REPORT_RECV S2_NO_ACTION S2_INC_STATE_ANY;
   Row S2_AWAITING_NET_KEY_GET S2_PUB_KEY_RECV_B S2_NO_ACTION S2_INC_STATE_ANY;
   Row S2_AWAITING_NET_KEY_GET S2_ECHO_KEX_SET_RECV S2_NO_ACTION S2_INC_STATE_ANY;
   Row S2_AWAITING_NET_KEY_GET S2_NET_KEY_VERIFY_RECV S2_NO_ACTION S2_INC_STATE_ANY;
   Row S2_AWAITING_NET_KEY_VERIFY S2_NET_KEY_VERIFY_FINAL_RECV S2_SEND_TRANSFER_END_ACTION S2_AWAITING_TRANSFER_END;
   Row S2_AWAITING_NET_KEY_VERIFY S2_NET_KEY_VERIFY_RECV S2_SEND_TRANSFER_END_ACTION S2_AWAITING_NET_KEY_GET;
   Row S2_AWAITING_NET_KEY_VERIFY S2_INCLUSION_RETRY S2_RESEND_DATA_ACTION S2_INC_STATE_ANY;
   Row S2_AWAITING_NET_KEY_VERIFY S2_KEX_REPORT_RECV S2_NO_ACTION S2_INC_STATE_ANY;
   Row S2_AWAITING_NET_KEY_VERIFY S2_PUB_KEY_RECV_B S2_NO_ACTION S2_INC_STATE_ANY;
   Row S2_AWAITING_NET_KEY_VERIFY S2_ECHO_KEX_SET_RECV S2_NO_ACTION S2_INC_STATE_ANY;
   Row S2_AWAITING_NET_KEY_VERIFY S2_NET_KEY_GET_RECV S2_NO_ACTION S2_INC_STATE_ANY;
   Row S2_AWAITING_TRANSFER_END S2_TRANSFER_END_RECV S2_INCLUSION_COMPLETE_ACTION S2_INC_IDLE;
   Row S2_AWAITING_TRANSFER_END S2_INCLUSION_RETRY S2_RESEND_DATA_ACTION S2_INC_STATE_ANY;
   Row S2_AWAITING_TRANSFER_END S2_KEX_REPORT_RECV S2_NO_ACTION S2_INC_STATE_ANY;
   Row S2_AWAITING_TRANSFER_END S2_PUB_KEY_RECV_B S2_NO_ACTION S2_INC_STATE_ANY;
   Row S2_AWAITING_TRANSFER_END S2_ECHO_KEX_SET_RECV S2_NO_ACTION S2_INC_STATE_ANY;
   Row S2_AWAITING_TRANSFER_END S2_NET_KEY_GET_RECV S2_NO_ACTION S2_INC_STATE_ANY;
   Row S2_AWAITING_TRANSFER_END S2_NET_KEY_VERIFY_RECV S2_NO_ACTION S2_INC_STATE_ANY;
   Row S2_AWAITING_TRANSFER_END S2_NET_KEY_VERIFY_FINAL_RECV S2_NO_ACTION S2_INC_STATE_ANY;
   Row S2_INC_IDLE S2_JOINING_START S2_JOINING_START_ACTION S2_AWAITING_KEX_GET;
   Row S2_AWAITING_KEX_GET S2_DISCOVERY_COMPLETE S2_TIMEOUT_TB1_SET_ACTION S2_AWAITING_KEX_GET;
   Row S2_AWAITING_KEX_GET S2_KEX_GET_RECV S2_SEND_KEX_REPORT_ACTION S2_AWAITING_KEX_SET;
   Row S2_AWAITING_KEX_GET S2_INCLUDING_REJECT S2_NO_ACTION S2_INC_IDLE;
   Row S2_AWAITING_KEX_GET S2_INCLUSION_TIMEOUT S2_JOINING_NEVER_STARTED_ACTION S2_INC_IDLE;
   Row S2_AWAITING_KEX_SET S2_KEX_SET_RECV S2_SEND_PUB_KEY_B_ACTION S2_AWAITING_PUB_KEY_A;
   Row S2_AWAITING_KEX_SET S2_INCLUSION_RETRY S2_RESEND_FRAME_ACTION S2_INC_STATE_ANY;
   Row S2_AWAITING_KEX_SET S2_KEX_GET_RECV S2_NO_ACTION S2_INC_STATE_ANY;
   Row S2_AWAITING_PUB_KEY_A S2_PUB_KEY_RECV_A S2_PUB_KEY_A_RECV_ACTION S2_AWAITING_USER_A_ACCEPT;
   Row S2_AWAITING_PUB_KEY_A S2_INCLUSION_RETRY S2_RESEND_FRAME_ACTION S2_INC_STATE_ANY;
   Row S2_AWAITING_PUB_KEY_A S2_KEX_GET_RECV S2_NO_ACTION S2_INC_STATE_ANY;
   Row S2_AWAITING_PUB_KEY_A S2_KEX_SET_RECV S2_NO_ACTION S2_INC_STATE_ANY;
   Row S2_AWAITING_USER_A_ACCEPT S2_INCLUDING_ACCEPT S2_DO_ECDH_CALC_B_ACTION S2_ECHO_KEX_SET_SENDING;
   Row S2_AWAITING_USER_A_ACCEPT S2_INCLUDING_REJECT S2_ABORT_ACTION S2_INC_IDLE;
   Row S2_AWAITING_USER_A_ACCEPT S2_KEX_GET_RECV S2_NO_ACTION S2_INC_STATE_ANY;
   Row S2_AWAITING_USER_A_ACCEPT S2_KEX_SET_RECV S2_NO_ACTION S2_INC_STATE_ANY;
   Row S2_AWAITING_USER_A_ACCEPT S2_PUB_KEY_RECV_A S2_NO_ACTION S2_INC_STATE_ANY;
   Row S2_ECHO_KEX_SET_SENDING S2_INCLUSION_SEND_FAILED S2_NO_ACTION S2_ECHO_KEX_SET_SENDING;
   Row S2_ECHO_KEX_SET_SENDING S2_INCLUSION_SEND_DONE S2_NO_ACTION S2_ECHO_KEX_SET_SENDING;
   Row S2_ECHO_KEX_SET_SENDING S2_INCLUSION_RETRY S2_SEND_ECHO_KEX_SET_ACTION S2_ECHO_KEX_SET_SENDING;
   Row S2_ECHO_KEX_SET_SENDING S2_ECHO_KEX_REPORT_RECV S2_SEND_NET_KEY_GET_ACTION S2_AWAITING_NET_KEY_REPORT;
   Row S2_ECHO_KEX_SET_SENDING S2_KEX_GET_RECV S2_NO_ACTION S2_INC_STATE_ANY;
   Row S2_ECHO_KEX_SET_SENDING S2_KEX_SET_RECV S2_NO_ACTION S2_INC_STATE_ANY;
   Row S2_ECHO_KEX_SET_SENDING S2_PUB_KEY_RECV_A S2_NO_ACTION S2_INC_STATE_ANY;
   Row S2_AWAITING_NET_KEY_REPORT S2_NET_KEY_REPORT_RECV S2_SEND_NET_KEY_VERIFY_ACTION S2_KEY_EXCHANGED;
   Row S2_AWAITING_NET_KEY_REPORT S2_INCLUSION_RETRY S2_RESEND_DATA_ACTION S2_INC_STATE_ANY;
   Row S2_AWAITING_NET_KEY_REPORT S2_KEX_GET_RECV S2_NO_ACTION S2_INC_STATE_ANY;
   Row S2_AWAITING_NET_KEY_REPORT S2_KEX_SET_RECV S2_NO_ACTION S2_INC_STATE_ANY;
   Row S2_AWAITING_NET_KEY_REPORT S2_PUB_KEY_RECV_A S2_NO_ACTION S2_INC_STATE_ANY;
   Row S2_AWAITING_NET_KEY_REPORT S2_ECHO_KEX_REPORT_RECV S2_NO_ACTION S2_INC_STATE_ANY;
   Row S2_AWAITING_NET_KEY_REPORT S2_NO_KEYS_GRANTED S2_SEND_FINAL_TRANSFER_END_ACTION S2_SENDING_FINAL_TRANSFER_END;
   Row S2_KEY_EXCHANGED S2_TRANSFER_END_RECV S2_SEND_NET_KEY_GET_ACTION S2_AWAITING_NET_KEY_REPORT;
   Row S2_KEY_EXCHANGED S2_INCLUSION_RETRY S2_RESEND_DATA_ACTION S2_INC_STATE_ANY;
   Row S2_KEY_EXCHANGED S2_KEX_GET_RECV S2_NO_ACTION S2_INC_STATE_ANY;
   Row S2_KEY_EXCHANGED S2_KEX_SET_RECV S2_NO_ACTION S2_INC_STATE_ANY;
   Row S2_KEY_EXCHANGED S2_PUB_KEY_RECV_A S2_NO_ACTION S2_INC_STATE_ANY;
   Row S2_KEY_EXCHANGED S2_ECHO_KEX_REPORT_RECV S2_NO_ACTION S2_INC_STATE_ANY;
   Row S2_KEY_EXCHANGED S2_NET_KEY_REPORT_RECV S2_NO_ACTION S2_INC_STATE_ANY;
   Row S2_KEY_EXCHANGED S2_SEND_FINAL_TRANSFER_END S2_SEND_FINAL_TRANSFER_END_ACTION S2_SENDING_FINAL_TRANSFER_END;
   Row S2_SENDING_FINAL_TRANSFER_END S2_INCLUSION_RETRY S2_RESEND_DATA_ACTION S2_INC_STATE_ANY;
   Row S2_SENDING_FINAL_TRANSFER_END S2_INCLUSION_SEND_DONE S2_JOINING_COMPLETE_ACTION S2_INC_IDLE;
   Row S2_SENDING_FINAL_TRANSFER_END S2_KEX_GET_RECV S2_NO_ACTION S2_INC_STATE_ANY;
   Row S2_SENDING_FINAL_TRANSFER_END S2_KEX_SET_RECV S2_NO_ACTION S2_INC_STATE_ANY;
   Row S2_SENDING_FINAL_TRANSFER_END S2_PUB_KEY_RECV_A S2_NO_ACTION S2_INC_STATE_ANY;
   Row S2_SENDING_FINAL_TRANSFER_END S2_ECHO_KEX_REPORT_RECV S2_NO_ACTION S2_INC_STATE_ANY;
   Row S2_SENDING_FINAL_TRANSFER_END S2_NET_KEY_REPORT_RECV S2_NO_ACTION S2_INC_STATE_ANY;
   Row S2_SENDING_FINAL_TRANSFER_END S2_SEND_FINAL_TRANSFER_END S2_NO_ACTION S2_INC_STATE_ANY;
   Row S2_SENDING_FINAL_TRANSFER_END S2_TRANSFER_END_RECV S2_NO_ACTION S2_INC_STATE_ANY;
   Row S2_ERROR_SENT S2_INCLUSION_SEND_DONE S2_ABORT_ACTION S2_INC_IDLE;
   Row S2_INC_IDLE S2_INCLUSION_TIMEOUT S2_NO_ACTION S2_INC_IDLE;
   Row S2_INC_IDLE S2_EVT_ANY S2_NO_ACTION S2_INC_IDLE;
   Row S2_INC_STATE_ANY S2_INCLUSION_TIMEOUT S2_ABORT_ACTION S2_INC_IDLE;
   Row S2_INC_STATE_ANY S2_INCLUSION_ERROR_SENT S2_NO_ACTION S2_ERROR_SENT;
   Row S2_INC_STATE_ANY S2_INCLUSION_ERROR_RECV S2_REMOTE_ERROR_ACTION S2_INC_IDLE;
   Row S2_INC_STATE_ANY S2_INCLUSION_ERROR S2_ABORT_ACTION S2_INC_IDLE;
   Row S2_INC_STATE_ANY S2_INCLUDING_DECRYPT_FAILED S2_NO_ACTION S2_INC_STATE_ANY;
   Row S2_INC_STATE_ANY S2_INCLUSION_SEND_DONE S2_NO_ACTION S2_INC_STATE_ANY;
   Row S2_INC_STATE_ANY S2_INCLUSION_SEND_FAILED S2_ABORT_ACTION S2_INC_IDLE;
   Row S2_INC_STATE_ANY S2_DISCOVERY_COMPLETE S2_NO_ACTION S2_INC_STATE_ANY;
   Row S2_INC_STATE_ANY S2_EVT_ANY S2_ABORT_ACTION S2_INC_IDLE].

(** A rule: least length, kind of encryption rule, the rule, the rule for echo frames. *)
Definition m_frame_rules : list (Z * Z * Z * Z) :=
  [(SECURITY_2_KEX_GET_LENGTH, SINGLE_RULE_SUPPORT, NON_SECURE, NON_SECURE);
   (SECURITY_2_KEX_REPORT_LENGTH, ECHO_SUPPORT, NON_SECURE, TEMP_KEY_SECURE);
   (SECURITY_2_KEX_SET_LENGTH, ECHO_SUPPORT, NON_SECURE, TEMP_KEY_SECURE);
   (SECURITY_2_KEX_FAIL_LENGTH, DUAL_RULE_SUPPORT, NON_SECURE, TEMP_KEY_SECURE);
   (SECURITY_2_PUB_KEY_LENGTH, SINGLE_RULE_SUPPORT, NON_SECURE, NON_SECURE);
   (SECURITY_2_NET_KEY_GET_LENGTH, SINGLE_RULE_SUPPORT, TEMP_KEY_SECURE, TEMP_KEY_SECURE);
   (SECURITY_2_NET_KEY_REPORT_LENGTH, SINGLE_RULE_SUPPORT, TEMP_KEY_SECURE, TEMP_KEY_SECURE);
   (SECURITY_2_NET_KEY_VERIFY_LENGTH, SINGLE_RULE_SUPPORT, NETWORK_KEY_SECURE, NETWORK_KEY_SECURE);
   (SECURITY_2_TRANSFER_END_LENGTH, SINGLE_RULE_SUPPORT, TEMP_KEY_SECURE, TEMP_KEY_SECURE)].

Definition m_key_slot_key_class_pair : list Z :=
  [KEY_CLASS_S2_UNAUTHENTICATED; KEY_CLASS_S2_AUTHENTICATED; KEY_CLASS_S2_ACCESS; KEY_CLASS_S2_AUTHENTICATED;
   KEY_CLASS_S2_ACCESS; 0x00; KEY_CLASS_S0].

Definition KEX_ECHO_BIT_POS : Z := 8.
Definition PUBLIC_KEY_INCLUDING_NODE_BIT_POS : Z := 8.

Section Inclusion.
Context {C : BlockCipher} {K : Curve} {P : Platform}.

(** ** Buffers *)

(** [mp_context->buf[i]], [n] bytes of it from [off] on, and a write to [u.inclusion_buf]. *)
Definition in_byte (i : nat) : M Z := c ← get; buf_byte (buf c) i.
Definition in_bytes (off n : nat) : M (list Z) :=
  c ← get;
  match buf c with
  | BufNull => fail NullDeref
  | BufExt l => rds l off n
  | BufU => rds (u c) off n
  end.
Definition put_u (off : nat) (bs : list Z) : M unit :=
  c ← get; x ← wrs (u c) off bs; modify (set_u x).

(** A frame in [u.inclusion_buf] and its length. *)
Definition put_frame (bs : list Z) (len : Z) : M unit :=
  put_u 0 bs;; modify (set_inclusion_buf_length len).

Definition set_retries (n : Z) : M unit := modify_inc (set_retry_counter n).
Definition modify_peer (f : s2_connection_t -> s2_connection_t) : M unit :=
  modify (fun c => set_inclusion_peer (f (inclusion_peer c)) c).
Definition set_security (cls txopt : Z) : M unit :=
  modify_peer (fun p => with_tx_options txopt (with_class_id cls p)).

Definition push_event (e : s2_event_t) : M unit := c ← get; emit (InclusionEvent (inclusion_peer c) e).

(** ** Sending *)

(** [S2_send_frame], the radio driver's answer in [tx_accept]. *)
Definition S2_send_frame (p : s2_connection_t) (frame : list Z) : M bool := emit (SendFrame p frame);; next_accept.

Definition s2_inclusion_send_frame : M unit :=
  c ← get;
  frame ← rds (u c) 0 (Z.to_nat (inclusion_buf_length c));
  ok ← S2_send_frame (inclusion_peer c) frame;
  if ok : bool then modify_inc (fun i => set_retry_counter (u8 (m_retry_counter i - 1)) i)
  else set_retries QUEUE_FULL.

Definition inclusion_failed_evt_push (fail_type : Z) : M unit :=
  emit IncStopTimeout;; s2_restore_keys;; push_event (S2_NODE_INCLUSION_FAILED_EVENT fail_type).

Definition remote_inclusion_failed_evt_push : M unit :=
  x ← in_byte SECURITY_2_KEX_FAIL_FAIL_TYPE_POS; inclusion_failed_evt_push x.

Section Machine.
(** The machine as its actions call it back, directly and from a send through the transport. *)
Variable process_event : Z -> M unit.
Context {I : InclusionFsm}.

(** [S2_send_data(mp_context, &mp_context->inclusion_peer, ...)]: the connection is changed in place
    for a long-range node. *)
Definition send_data_to_peer : M bool :=
  modify_peer (fun p => if IS_LR_NODE (r_node p) then convert_normal_to_lr_keyclass p else p);;
  c ← get;
  '(r, _) ← S2_send_data (inclusion_peer c) BufU (inclusion_buf_length c);
  mret r.

Definition s2_inclusion_send_data : M unit :=
  ok ← send_data_to_peer;
  if ok : bool then modify_inc (fun i => set_retry_counter (u8 (m_retry_counter i - 1)) i)
  else set_retries QUEUE_FULL.

Definition inclusion_failed_frame_send (error secure : Z) : M unit :=
  modify (set_kex_fail_code error);;
  put_frame [COMMAND_CLASS_SECURITY_2; KEX_FAIL; error] SECURITY_2_KEX_FAIL_LENGTH;;
  set_retries MAX_RETRY_COUNT;;
  if secure =? TEMP_KEY_SECURE then set_security TEMP_KEY_SECURE 0;; s2_inclusion_send_data
  else s2_inclusion_send_frame.

(** *** The hooks the transport calls *)

Definition inclusion_send_done (status : bool) : M unit :=
  c ← get;
  i ← get_inc;
  if m_retry_counter i =? QUEUE_FULL then
    set_retries MAX_RETRY_COUNT;; process_event S2_INCLUSION_RETRY
  else if (NO_RETRIES <? m_retry_counter i)
          && negb (bool_decide (inclusion_state c = S2_ECHO_KEX_SET_SENDING)) then
    process_event (if status then S2_INCLUSION_SEND_DONE else S2_INCLUSION_RETRY)
  else process_event (if status then S2_INCLUSION_SEND_DONE else S2_INCLUSION_SEND_FAILED).

Definition inclusion_decryption_failure (src : s2_connection_t) : M unit :=
  c ← get;
  if r_node src =? r_node (inclusion_peer c) then process_event S2_INCLUDING_DECRYPT_FAILED else mret tt.

Definition rule_of (event_rule_index : Z) : M (Z * Z * Z * Z) :=
  of_option OutOfBounds (m_frame_rules !! Z.to_nat event_rule_index).

(** The failed encryption check. *)
Definition reject_auth : M unit :=
  inclusion_failed_frame_send KEX_FAIL_AUTH NON_SECURE;; process_event S2_INCLUSION_ERROR_SENT.

(** The event of an accepted frame. *)
Definition event_of_frame (command : Z) : M Z :=
  c ← get;
  if (command =? KEX_SET) || (command =? KEX_REPORT) then
    x ← in_byte SECURITY_2_KEX_SET_ECHO_POS;
    mret (Z.lor command (Z.shiftl (Z.land x SECURITY_2_ECHO_ON) KEX_ECHO_BIT_POS))
  else if command =? PUBLIC_KEY_REPORT then
    x ← in_byte SECURITY_2_PUB_KEY_INC_FLAG_POS;
    mret (Z.lor command (Z.shiftl (Z.land x SECURITY_2_INCLUDING_NODE) PUBLIC_KEY_INCLUDING_NODE_BIT_POS))
  else if command =? SECURITY_2_NETWORK_KEY_VERIFY then
    mret (if key_exchange c =? key_granted c then S2_NET_KEY_VERIFY_FINAL_RECV else S2_NET_KEY_VERIFY_RECV)
  else if command =? SECURITY_2_TRANSFER_END then
    mret (if has_bits (- key_exchange c) (key_granted c) then S2_TRANSFER_END_RECV else S2_SEND_FINAL_TRANSFER_END)
  else mret command.

Definition s2_inclusion_post_event_internal : M unit :=
  c ← get;
  event ← in_byte SECURITY_2_COMMAND_POS;
  let event_rule_index := u8 (event - S2_INCLUSION_COMMAND_OFFSET) in
  if (Z.of_nat (length m_frame_rules) <? event_rule_index) || bool_decide (inclusion_state c = S2_INC_IDLE)
  then mret tt
  else
    '(min_len, support, rule_a, rule_b) ← rule_of event_rule_index;
    if length_ c <? min_len then process_event S2_INCLUSION_ERROR
    else
      crypt_rule ← (if support =? ECHO_SUPPORT then
                      x ← in_byte SECURITY_2_KEX_SET_ECHO_POS;
                      mret (if has_bits x SECURITY_2_ECHO_ON then rule_b else rule_a)
                    else mret rule_a);
      let cls := class_id (inclusion_peer c) in
      if crypt_rule =? NETWORK_KEY_SECURE then
        if Z.of_nat (length m_key_slot_key_class_pair) <=? cls then reject_auth
        else
          let kc := at_ m_key_slot_key_class_pair (Z.to_nat cls) in
          if negb (key_requested c =? kc) && negb (has_bits (key_exchange c) kc) then reject_auth
          else e ← event_of_frame event; process_event e
      else if negb (crypt_rule =? cls) && (negb (support =? DUAL_RULE_SUPPORT) || negb (cls =? rule_b))
      then reject_auth
      else e ← event_of_frame event; process_event e.

Definition inclusion_post_event (src : s2_connection_t) : M unit :=
  if has_bits (rx_options src) S2_RXOPTION_MULTICAST then mret tt
  else
    c ← get;
    (if bool_decide (inclusion_state c = S2_AWAITING_KEX_GET) then modify (set_inclusion_peer src) else mret tt);;
    c ← get;
    if r_node (inclusion_peer c) =? r_node src then
      modify_peer (with_class_id (class_id src));; s2_inclusion_post_event_internal
    else mret tt.

Definition fsm_of : InclusionFsm := {|
  s2_inclusion_post_event := inclusion_post_event;
  s2_inclusion_send_done := inclusion_send_done;
  s2_inclusion_decryption_failure := inclusion_decryption_failure |}.

(** *** The joining node *)

(** Validation functions return 0 or KEX_FAIL; here, whether the frame is accepted. *)
Definition validate_echo_kex_report : M bool :=
  c ← get;
  i ← get_inc;
  s ← in_byte SECURITY_2_KEX_REP_SCHEME_POS;
  v ← in_byte SECURITY_2_KEX_REP_CURVE_POS;
  k ← in_byte SECURITY_2_KEX_REP_KEYS_POS;
  e ← in_byte SECURITY_2_KEX_REP_ECHO_POS;
  if (m_schemes i =? s) && (m_curves i =? v) && (m_keys i =? k)
     && (Z.lor (csa_support c) SECURITY_2_ECHO_ON =? e)
  then mret true
  else inclusion_failed_frame_send KEX_FAIL_AUTH NON_SECURE;; mret false.

Definition s2_send_kex_report : M unit :=
  emit IncStopTimeout;;
  _ ← keystore_network_key_clear 0xFF;
  push_event S2_NODE_INCLUSION_INITIATED_EVENT;;
  modify (fun c => set_csa_support
    (if bool_decide (inclusion_mode c = INCLUSION_MODE_CSA) then SECURITY_2_CSA_ON else 0) c);;
  c ← get;
  i ← get_inc;
  put_frame [COMMAND_CLASS_SECURITY_2; KEX_REPORT; Z.lor (csa_support c) SECURITY_2_ECHO_OFF;
             m_schemes i; m_curves i; m_keys i] SECURITY_2_KEX_REPORT_LENGTH;;
  set_retries MAX_RETRY_COUNT;;
  s2_inclusion_send_frame;;
  emit (IncSetTimeout TB2_TIMEOUT).

(** Exactly one bit, or none, is set. *)
Definition at_most_one_bit (x : Z) : bool := Z.land x (x - 1) =? 0.

(** The checks of a KEX Set: the code of the error, or none. *)
Definition check_kex_set : M (option Z) :=
  i ← get_inc;
  support ← in_byte SECURITY_2_KEX_SET_SCHEME_POS;
  if negb (at_most_one_bit support && has_bits support (m_schemes i)) then mret (Some KEX_FAIL_KEX_SCHEME)
  else
    modify (set_scheme_support support);;
    support ← in_byte SECURITY_2_KEX_SET_CURVE_POS;
    if negb (at_most_one_bit support && has_bits support (m_curves i)) then mret (Some KEX_FAIL_KEX_CURVES)
    else
      modify (set_curve_support support);;
      support ← in_byte SECURITY_2_KEX_SET_KEYS_POS;
      if negb (Z.land (Z.lnot (m_keys i)) support =? 0) then mret (Some KEX_FAIL_KEX_KEY)
      else
        modify (set_key_granted support);;
        csa ← in_byte SECURITY_2_KEX_SET_CSA_POS;
        c ← get;
        if has_bits csa SECURITY_2_CSA_ON then
          mret (if bool_decide (inclusion_mode c = INCLUSION_MODE_CSA) then None else Some KEX_FAIL_KEX_KEY)
        else modify (set_inclusion_mode INCLUSION_MODE_SSA);; mret None.

(** Whether the grant has a key besides S0 and unauthenticated S2. *)
Definition needs_dsk (granted : Z) : bool :=
  has_bits granted (Z.lnot (Z.lor KEY_CLASS_S0 KEY_CLASS_S2_UNAUTHENTICATED)).

Definition s2_send_pub_key_b : M unit :=
  emit IncStopTimeout;;
  err ← check_kex_set;
  match err with
  | Some code =>
      inclusion_failed_frame_send code NON_SECURE;; process_event S2_INCLUSION_ERROR_SENT
  | None =>
      keys ← in_byte SECURITY_2_KEX_SET_KEYS_POS;
      csa ← in_byte SECURITY_2_KEX_SET_CSA_POS;
      modify (fun c => set_kex_set_byte2 csa (set_key_exchange 0x01 (set_key_granted keys c)));;
      put_u 0 [COMMAND_CLASS_SECURITY_2; PUBLIC_KEY_REPORT; SECURITY_2_JOINING_NODE];;
      put_u SECURITY_2_PUB_KEY_KEY_POS keystore_public_key_read;;
      c ← get;
      (if bool_decide (inclusion_mode c = INCLUSION_MODE_SSA) && needs_dsk (key_granted c)
       then put_u SECURITY_2_PUB_KEY_KEY_POS [0x00; 0x00] else mret tt);;
      modify (set_inclusion_buf_length SECURITY_2_PUB_KEY_LENGTH);;
      set_retries MAX_RETRY_COUNT;;
      s2_inclusion_send_frame;;
      emit (IncSetTimeout TB3_TIMEOUT)
  end.

Definition s2_joining_start : M unit :=
  modify_peer (with_tx_options 0);; emit (IncSetTimeout TB0_TIMEOUT).

Definition s2_send_echo_kex_set : M unit :=
  emit IncStopTimeout;;
  modify_inc (fun i => set_retry_counter (u8 (m_retry_counter i - 1)) i);;
  c ← get;
  put_frame [COMMAND_CLASS_SECURITY_2; KEX_SET; Z.lor (kex_set_byte2 c) SECURITY_2_ECHO_ON;
             scheme_support c; curve_support c; key_granted c] SECURITY_2_KEX_SET_LENGTH;;
  set_security TEMP_KEY_SECURE S2_TXOPTION_VERIFY_DELIVERY;;
  (_ ← send_data_to_peer; mret tt);;
  emit (IncSetTimeout TB5_TIMEOUT).

(** How many digits of the key the user has to enter. *)
Definition dsk_length (c : S2) (mode : inclusion_mode_t) (len : Z) : Z :=
  if has_bits (key_granted c) (Z.lor SECURITY_2_SECURITY_2_CLASS_1 SECURITY_2_SECURITY_2_CLASS_2)
     && bool_decide (inclusion_mode c = mode) then len else 0.

Definition s2_pub_key_a_recv : M unit :=
  emit IncStopTimeout;;
  emit (IncSetTimeout TBI1_TIMEOUT);;
  key ← in_bytes SECURITY_2_PUB_KEY_KEY_POS 32;
  modify (set_public_key key);;
  c ← get;
  push_event (S2_NODE_INCLUSION_PUBLIC_KEY_CHALLENGE_EVENT key (key_granted c)
    (dsk_length c INCLUSION_MODE_CSA DSK_CSA_CHALLENGE_LENGTH)).

(** A Transfer End is received with the key verified and the exchange not complete. *)
Definition transfer_end_verified : M bool :=
  cmd ← in_byte SECURITY_2_COMMAND_POS;
  if cmd =? SECURITY_2_TRANSFER_END then
    flags ← in_byte SECURITY_2_TRANSFER_END_FLAGS_POS;
    mret (Z.land flags (Z.lor SECURITY_2_KEY_REQ_COMPLETE SECURITY_2_KEY_VERIFIED) =? SECURITY_2_KEY_VERIFIED)
  else mret true.

(** The loop [while (0 == (key_exchange & key_granted)) key_exchange <<= 1]: a byte is 0 after
    eight shifts and the loop would not end then. *)
Fixpoint next_key_loop (fuel : nat) (exchange granted : Z) : option Z :=
  match fuel with
  | O => None
  | S fuel' => if Z.land exchange granted =? 0 then next_key_loop fuel' (u8 (Z.shiftl exchange 1)) granted
               else Some exchange
  end.
Definition next_key (exchange granted : Z) : option Z := next_key_loop 9 exchange granted.

Definition s2_send_net_key_get : M unit :=
  emit IncStopTimeout;;
  cmd ← in_byte SECURITY_2_COMMAND_POS;
  echo_ok ← (if cmd =? KEX_REPORT then validate_echo_kex_report else mret true);
  if negb echo_ok then process_event S2_INCLUSION_ERROR_SENT
  else
    end_ok ← transfer_end_verified;
    if negb end_ok then process_event S2_INCLUSION_ERROR
    else
      c ← get;
      if key_granted c =? 0 then process_event S2_NO_KEYS_GRANTED
      else
        kx ← of_option OutOfFuel (next_key (key_exchange c) (key_granted c));
        modify (set_key_exchange kx);;
        put_frame [COMMAND_CLASS_SECURITY_2; SECURITY_2_NETWORK_KEY_GET; kx] SECURITY_2_NET_KEY_GET_LENGTH;;
        set_security TEMP_KEY_SECURE S2_TXOPTION_VERIFY_DELIVERY;;
        set_retries MAX_RETRY_COUNT;;
        s2_inclusion_send_data;;
        emit (IncSetTimeout TB5_TIMEOUT).

Definition s2_send_net_key_verify : M unit :=
  emit IncStopTimeout;;
  received_key ← in_byte SECURITY_2_NET_KEY_REP_GRANT_KEY_POS;
  c ← get;
  if negb (received_key =? key_exchange c) then
    inclusion_failed_frame_send KEX_FAIL_KEY_REPORT NON_SECURE;; process_event S2_INCLUSION_ERROR_SENT
  else
    key ← in_bytes SECURITY_2_NET_KEY_REP_KEY_POS 16;
    _ ← keystore_network_key_write received_key key;
    modify (fun c => set_key_exchange (u8 (Z.shiftl (key_exchange c) 1)) c);;
    _ ← S2_network_key_update NETWORK_KEY_SECURE key false;
    put_frame [COMMAND_CLASS_SECURITY_2; SECURITY_2_NETWORK_KEY_VERIFY] SECURITY_2_NET_KEY_VERIFY_LENGTH;;
    set_security NETWORK_KEY_SECURE 0;;
    set_retries MAX_RETRY_COUNT;;
    s2_inclusion_send_data;;
    emit (IncSetTimeout TB7_TIMEOUT).

Definition s2_send_final_transfer_end : M unit :=
  emit IncStopTimeout;;
  end_ok ← transfer_end_verified;
  if negb end_ok then process_event S2_INCLUSION_ERROR
  else
    put_frame [COMMAND_CLASS_SECURITY_2; SECURITY_2_TRANSFER_END; SECURITY_2_KEY_REQ_COMPLETE]
      SECURITY_2_TRANSFER_END_LENGTH;;
    set_security TEMP_KEY_SECURE 0;;
    set_retries MAX_RETRY_COUNT;;
    s2_inclusion_send_data.

Definition s2_joining_complete (complete_type : Z -> s2_event_t) : M unit :=
  s2_restore_keys;; c ← get; push_event (complete_type (key_granted c)).

(** The Diffie-Hellman computation: [local_at] and [remote_at] are the places of the two public keys
    in the 64 bytes that are hashed with the shared secret; the temporary key replaces the first 16
    bytes of [public_key]. *)
Definition ecdh_calc (local_at remote_at : nat) : M unit :=
  c ← get;
  let remote := public_key c in
  modify_inc (fun i => set_shared_key_mem (splice 0 keystore_private_key_read (shared_key_mem i)) i);;
  modify_inc (fun i => set_shared_secret (scalarmult (take 32 (shared_key_mem i)) remote) i);;
  modify_inc (fun i => set_shared_key_mem (splice remote_at (take 32 remote) (shared_key_mem i)) i);;
  modify_inc (fun i => set_shared_key_mem (splice local_at keystore_public_key_read (shared_key_mem i)) i);;
  i ← get_inc;
  modify (fun c => set_public_key (splice 0 (Kderiv.tempkey_extract (shared_secret i) (shared_key_mem i)) (public_key c)) c);;
  c ← get;
  _ ← S2_network_key_update TEMP_KEY_SECURE (take 16 (public_key c)) true;
  mret tt.

Definition s2_do_ecdh_calc_b : M unit :=
  ecdh_calc 32 0;; set_retries (TBI1_TIMEOUT / TB5_TIMEOUT);; s2_send_echo_kex_set.

(** *** The including node *)

Definition s2_do_ecdh_calc_a : M unit := ecdh_calc 0 32.

(** The three checks of a KEX Report, each with the KEX_FAIL it sends. *)
Definition validate_reported_schemes : M bool :=
  x ← in_byte SECURITY_2_KEX_REP_SCHEME_POS;
  modify (set_scheme_support (Z.land x SECURITY_2_SCHEME_SUPPORT_MASK));;
  c ← get;
  if has_bits (scheme_support c) SECURITY_2_SCHEME_1_SUPPORT then mret true
  else inclusion_failed_frame_send KEX_FAIL_KEX_SCHEME NON_SECURE;; mret false.

Definition validate_reported_curves : M bool :=
  x ← in_byte SECURITY_2_KEX_REP_CURVE_POS;
  modify (set_curve_support (Z.land x KEX_REPORT_CURVE_MASK));;
  c ← get;
  if has_bits (curve_support c) KEX_REPORT_CURVE_25519 then mret true
  else inclusion_failed_frame_send KEX_FAIL_KEX_CURVES NON_SECURE;; mret false.

Definition validate_reported_keys : M bool :=
  x ← in_byte SECURITY_2_KEX_REP_KEYS_POS;
  modify (fun c => set_key_exchange x (set_kex_report_keys x c));;
  c ← get;
  (if IS_LR_NODE (r_node (inclusion_peer c)) then
     modify (set_key_exchange
       (Z.land (key_exchange c) (u8 (Z.lnot (Z.lor KEY_CLASS_S2_UNAUTHENTICATED KEY_CLASS_S0)))))
   else mret tt);;
  modify (fun c => set_key_granted (Z.land (key_exchange c) SECURITY_2_KEY_MASK) c);;
  c ← get;
  if negb (key_granted c =? 0) then mret true
  else inclusion_failed_frame_send KEX_FAIL_KEX_KEY NON_SECURE;; mret false.

Definition validate_requested_key : M bool :=
  req_key ← in_byte SECURITY_2_NET_KEY_GET_REQ_KEY_POS;
  c ← get;
  if at_most_one_bit req_key && has_bits req_key (key_granted c) then
    modify (set_key_requested req_key);; mret true
  else
    modify (set_key_requested 0);;
    inclusion_failed_frame_send KEX_FAIL_KEY_GET NON_SECURE;; mret false.

(** The values of [enum {INCLUSION_MODE_CSA, INCLUSION_MODE_SSA}]. *)
Definition mode_num (m : inclusion_mode_t) : Z := match m with INCLUSION_MODE_CSA => 0 | INCLUSION_MODE_SSA => 1 end.

(** The last condition is [(mode == (csa bit set)) ? INCLUSION_MODE_CSA : INCLUSION_MODE_SSA]. *)
Definition validate_echo_kex_set : M bool :=
  c ← get;
  s ← in_byte SECURITY_2_KEX_SET_SCHEME_POS;
  v ← in_byte SECURITY_2_KEX_SET_CURVE_POS;
  k ← in_byte SECURITY_2_KEX_SET_KEYS_POS;
  e ← in_byte SECURITY_2_KEX_SET_ECHO_POS;
  let cond := if mode_num (inclusion_mode c) =? Z.b2z (Z.land e SECURITY_2_CSA_ON =? SECURITY_2_CSA_ON)
              then mode_num INCLUSION_MODE_CSA else mode_num INCLUSION_MODE_SSA in
  if (scheme_support c =? s) && (curve_support c =? v) && (key_granted c =? k) && negb (cond =? 0)
  then mret true
  else inclusion_failed_frame_send KEX_FAIL_AUTH NON_SECURE;; mret false.

Definition s2_send_kex_get : M unit :=
  put_frame [COMMAND_CLASS_SECURITY_2; KEX_GET] SECURITY_2_KEX_GET_LENGTH;;
  set_retries MAX_RETRY_COUNT;;
  s2_inclusion_send_frame;;
  emit (IncSetTimeout TA1_TIMEOUT).

Definition s2_kex_rep_recv : M unit :=
  emit IncStopTimeout;;
  ok ← validate_reported_schemes;
  if negb ok then process_event S2_INCLUSION_ERROR_SENT
  else
    ok ← validate_reported_curves;
    if negb ok then process_event S2_INCLUSION_ERROR_SENT
    else
      ok ← validate_reported_keys;
      if negb ok then process_event S2_INCLUSION_ERROR_SENT
      else
        x ← in_byte SECURITY_2_KEX_REP_ECHO_POS;
        modify (set_csa_support x);;
        c ← get;
        push_event (S2_NODE_INCLUSION_KEX_REPORT_EVENT (key_granted c) (has_bits x 2));;
        emit (IncSetTimeout TAI1_TIMEOUT).

Definition s2_send_kex_set : M unit :=
  emit IncStopTimeout;;
  c ← get;
  put_frame [COMMAND_CLASS_SECURITY_2; KEX_SET; SECURITY_2_ECHO_OFF; SECURITY_2_SCHEME_1_SUPPORT;
             KEX_REPORT_CURVE_25519; key_granted c] SECURITY_2_KEX_SET_LENGTH;;
  (if bool_decide (inclusion_mode c = INCLUSION_MODE_CSA)
   then put_u SECURITY_2_KEX_SET_ECHO_POS [Z.lor SECURITY_2_ECHO_OFF SECURITY_2_CSA_ON] else mret tt);;
  set_retries MAX_RETRY_COUNT;;
  s2_inclusion_send_frame;;
  emit (IncSetTimeout TA2_TIMEOUT).

Definition s2_send_transfer_end : M unit :=
  emit IncStopTimeout;;
  c ← get;
  _ ← S2_network_key_update TEMP_KEY_SECURE (take 16 (public_key c)) true;
  put_frame [COMMAND_CLASS_SECURITY_2; SECURITY_2_TRANSFER_END; SECURITY_2_KEY_VERIFIED]
    SECURITY_2_TRANSFER_END_LENGTH;;
  set_security TEMP_KEY_SECURE 0;;
  set_retries MAX_RETRY_COUNT;;
  s2_inclusion_send_data;;
  emit (IncSetTimeout TA6_TIMEOUT).

Definition s2_send_pub_key_a : M unit :=
  emit IncStopTimeout;;
  key ← in_bytes SECURITY_2_PUB_KEY_KEY_POS 32;
  modify (set_public_key key);;
  c ← get;
  push_event (S2_NODE_INCLUSION_PUBLIC_KEY_CHALLENGE_EVENT key (key_granted c)
    (dsk_length c INCLUSION_MODE_SSA DSK_SSA_CHALLENGE_LENGTH));;
  put_frame [COMMAND_CLASS_SECURITY_2; PUBLIC_KEY_REPORT; SECURITY_2_INCLUDING_NODE] SECURITY_2_PUB_KEY_LENGTH;;
  put_u SECURITY_2_PUB_KEY_KEY_POS keystore_public_key_read;;
  (if bool_decide (inclusion_mode c = INCLUSION_MODE_CSA) && needs_dsk (key_granted c)
   then put_u SECURITY_2_PUB_KEY_KEY_POS [0x00; 0x00; 0x00; 0x00] else mret tt);;
  set_retries MAX_RETRY_COUNT;;
  s2_inclusion_send_frame;;
  emit (IncSetTimeout TAI2_TIMEOUT).

Definition s2_send_echo_kex_report : M unit :=
  emit IncStopTimeout;;
  ok ← validate_echo_kex_set;
  if negb ok then process_event S2_INCLUSION_ERROR_SENT
  else
    c ← get;
    put_frame [COMMAND_CLASS_SECURITY_2; KEX_REPORT; Z.lor (csa_support c) SECURITY_2_ECHO_ON; scheme_support c;
               curve_support c; kex_report_keys c] SECURITY_2_KEX_REPORT_LENGTH;;
    modify (set_key_exchange 0x00);;
    set_security TEMP_KEY_SECURE S2_TXOPTION_VERIFY_DELIVERY;;
    set_retries MAX_RETRY_COUNT;;
    s2_inclusion_send_data;;
    emit (IncSetTimeout TA4_TIMEOUT).

(** The key a long-range node is given in answer to a request for the access or authenticated key. *)
Definition translate_keyslot_to_read_for_LR : M Z :=
  c ← get;
  actual_keyslot ← rd (u c) SECURITY_2_NET_KEY_REP_GRANT_KEY_POS;
  if IS_LR_NODE (r_node (inclusion_peer c)) then
    mret (if actual_keyslot =? KEY_CLASS_S2_AUTHENTICATED then KEY_CLASS_S2_AUTHENTICATED_LR
          else if actual_keyslot =? KEY_CLASS_S2_ACCESS then KEY_CLASS_S2_ACCESS_LR
          else actual_keyslot)
  else mret actual_keyslot.

(** A verification with the S0 key uses the slot of the network key. *)
Definition expect_s0_verify : M unit :=
  c ← get;
  granted ← rd (u c) SECURITY_2_NET_KEY_REP_GRANT_KEY_POS;
  if granted =? SECURITY_2_SECURITY_0_NETWORK_KEY then
    k ← rds (u c) 3 16; _ ← S2_network_key_update NETWORK_KEY_SECURE k false; mret tt
  else mret tt.

Definition s2_send_net_key_report : M unit :=
  emit IncStopTimeout;;
  ok ← validate_requested_key;
  if negb ok then process_event S2_INCLUSION_ERROR_SENT
  else
    req ← in_byte SECURITY_2_NET_KEY_GET_REQ_KEY_POS;
    modify (fun c => set_key_exchange (Z.lor (key_exchange c) req) c);;
    put_frame [COMMAND_CLASS_SECURITY_2; SECURITY_2_NETWORK_KEY_REPORT; req] SECURITY_2_NET_KEY_REPORT_LENGTH;;
    keyslot_to_read ← translate_keyslot_to_read_for_LR;
    key ← keystore_network_key_read keyslot_to_read;
    (match key with Some key => put_u SECURITY_2_NET_KEY_REP_KEY_POS key | None => mret tt end);;
    set_security TEMP_KEY_SECURE 0;;
    set_retries MAX_RETRY_COUNT;;
    s2_inclusion_send_data;;
    emit (IncSetTimeout TA5_TIMEOUT);;
    expect_s0_verify.

Definition s2_inclusion_complete : M unit :=
  cmd ← in_byte SECURITY_2_COMMAND_POS;
  flags ← (if cmd =? SECURITY_2_TRANSFER_END then in_byte SECURITY_2_TRANSFER_END_FLAGS_POS else mret 0);
  if (cmd =? SECURITY_2_TRANSFER_END)
     && (Z.land flags (Z.lor SECURITY_2_KEY_REQ_COMPLETE SECURITY_2_KEY_VERIFIED) =? SECURITY_2_KEY_REQ_COMPLETE)
  then
    emit IncStopTimeout;;
    s2_restore_keys;;
    c ← get;
    push_event (S2_NODE_INCLUSION_COMPLETE_EVENT (key_exchange c))
  else
    inclusion_failed_frame_send KEX_FAIL_KEY_VERIFY NON_SECURE;;
    inclusion_failed_evt_push KEX_FAIL_KEY_VERIFY.

Definition s2_check_no_keys : M unit :=
  c ← get;
  if negb (key_granted c =? 0) then inclusion_failed_evt_push (kex_fail_code c) else s2_inclusion_complete.

(** ** The machine *)

Definition run_action (a : s2_action_t) : M unit :=
  match a with
  | S2_REMOTE_ERROR_ACTION => remote_inclusion_failed_evt_push
  | S2_ABORT_ACTION => c ← get; inclusion_failed_evt_push (kex_fail_code c)
  | S2_JOINING_START_ACTION => s2_joining_start
  | S2_TIMEOUT_TB1_SET_ACTION => emit IncStopTimeout;; emit (IncSetTimeout TB1_TIMEOUT)
  | S2_SEND_KEX_REPORT_ACTION => s2_send_kex_report
  | S2_SEND_PUB_KEY_B_ACTION => s2_send_pub_key_b
  | S2_PUB_KEY_A_RECV_ACTION => s2_pub_key_a_recv
  | S2_DO_ECDH_CALC_B_ACTION => s2_do_ecdh_calc_b
  | S2_SEND_ECHO_KEX_SET_ACTION => s2_send_echo_kex_set
  | S2_SEND_NET_KEY_GET_ACTION => s2_send_net_key_get
  | S2_SEND_NET_KEY_VERIFY_ACTION => s2_send_net_key_verify
  | S2_SEND_FINAL_TRANSFER_END_ACTION => s2_send_final_transfer_end
  | S2_JOINING_COMPLETE_ACTION => s2_joining_complete S2_NODE_JOINING_COMPLETE_EVENT
  | S2_JOINING_NEVER_STARTED_ACTION => s2_joining_complete S2_JOINING_COMPLETE_NEVER_STARTED_EVENT
  | S2_RESEND_FRAME_ACTION => s2_inclusion_send_frame
  | S2_RESEND_DATA_ACTION => s2_inclusion_send_data
  | S2_CHECK_NO_KEYS => s2_check_no_keys
  | S2_SEND_KEX_GET_ACTION => s2_send_kex_get
  | S2_KEX_REP_RECV_ACTION => s2_kex_rep_recv
  | S2_SEND_KEX_SET_ACTION => s2_send_kex_set
  | S2_SEND_PUB_KEY_A_ACTION => s2_send_pub_key_a
  | S2_DO_ECDH_CALC_A_ACTION => s2_do_ecdh_calc_a
  | S2_SEND_ECHO_KEX_REPORT_ACTION => s2_send_echo_kex_report
  | S2_SEND_ERROR_DECRYPT_ACTION => inclusion_failed_frame_send KEX_FAIL_DECRYPT NON_SECURE
  | S2_SEND_ERROR_CANCEL_ACTION => inclusion_failed_frame_send KEX_FAIL_CANCEL NON_SECURE
  | S2_SEND_NET_KEY_REPORT_ACTION => s2_send_net_key_report
  | S2_SEND_TRANSFER_END_ACTION => s2_send_transfer_end
  | S2_INCLUSION_COMPLETE_ACTION => s2_inclusion_complete
  | S2_NO_ACTION | S2_TIMEOUT_ACTION => mret tt
  end.

(** The first row for the state and the event. *)
Definition row_matches (st : s2_inclusion_state_t) (event : Z) (r : s2_transition_t) : bool :=
  (bool_decide (st = row_state r) || bool_decide (row_state r = S2_INC_STATE_ANY))
  && ((event =? row_event r) || (row_event r =? S2_EVT_ANY)).
Definition transition (st : s2_inclusion_state_t) (event : Z) : option s2_transition_t :=
  find (row_matches st event) s2_transition_table.

Definition enter (new : s2_inclusion_state_t) (c : S2) : S2 :=
  if bool_decide (new = S2_INC_STATE_ANY) then c else set_inclusion_state new c.

Definition process_step (event : Z) : M unit :=
  c ← get;
  match transition (inclusion_state c) event with
  | Some r => modify (enter (row_new r));; run_action (row_action r)
  | None => mret tt
  end.
End Machine.

(** The machine and the hooks through which the transport enters it, [fuel] nested events deep. *)
Record Machine := mkMachine { process : Z -> M unit; hooks : InclusionFsm }.

Definition no_hooks : InclusionFsm := {|
  s2_inclusion_post_event := fun _ => fail OutOfFuel;
  s2_inclusion_send_done := fun _ => fail OutOfFuel;
  s2_inclusion_decryption_failure := fun _ => fail OutOfFuel |}.

Fixpoint machine (fuel : nat) : Machine :=
  match fuel with
  | O => mkMachine (fun _ => fail OutOfFuel) no_hooks
  | S fuel' =>
      let m := machine fuel' in
      mkMachine (process_step (process m) (I := hooks m)) (fsm_of (process m) (I := hooks m))
  end.

Definition process_event (fuel : nat) : Z -> M unit := process (machine fuel).

(** The transport above this machine. *)
Definition inclusion (fuel : nat) : InclusionFsm := hooks (machine fuel).

(** ** Public functions *)

Section Public.
Variable fuel : nat.

Definition s2_inclusion_challenge_response (include : Z) (response : list Z) (responseLength : nat) : M unit :=
  if include =? 1 then
    bs ← rds response 0 responseLength;
    c ← get;
    key ← wrs (public_key c) 0 bs;
    modify (set_public_key key);;
    process_event fuel S2_INCLUDING_ACCEPT
  else process_event fuel S2_INCLUDING_REJECT.

Definition mode_of (csa : bool) : inclusion_mode_t := if csa then INCLUSION_MODE_CSA else INCLUSION_MODE_SSA.

Definition s2_inclusion_key_grant (include keys : Z) (csa : bool) : M unit :=
  if include =? 1 then
    modify (fun c => set_key_granted keys (set_inclusion_mode (mode_of csa) c));;
    process_event fuel S2_INCLUDING_ACCEPT
  else process_event fuel S2_INCLUDING_REJECT.

Definition s2_inclusion_including_start (conn : s2_connection_t) : M unit :=
  c ← get;
  if bool_decide (inclusion_state c = S2_INC_IDLE) then
    modify (fun c => set_kex_fail_code 0 (set_inclusion_mode INCLUSION_MODE_SSA
      (set_inclusion_peer (with_tx_options 0 conn) c)));;
    process_event fuel S2_INCLUDING_START
  else mret tt.

Definition s2_inclusion_joining_start (conn : s2_connection_t) (csa : bool) : M unit :=
  modify (fun c => set_kex_fail_code 0 (set_inclusion_mode (mode_of csa) (set_inclusion_peer conn c)));;
  (if IS_LR_NODE (l_node conn) then
     modify_inc (fun i => set_m_keys (Z.land (m_keys i) (u8 (Z.lnot (Z.lor KEY_CLASS_S2_UNAUTHENTICATED KEY_CLASS_S0)))) i)
   else mret tt);;
  process_event fuel S2_JOINING_START.

Definition s2_inclusion_neighbor_discovery_complete : M unit := process_event fuel S2_DISCOVERY_COMPLETE.

Definition s2_inclusion_abort : M unit := process_event fuel S2_INCLUDING_REJECT.

Definition s2_inclusion_notify_timeout : M unit :=
  c ← get;
  i ← get_inc;
  if bool_decide (inclusion_state c = S2_ECHO_KEX_SET_SENDING) then
    process_event fuel (if (m_retry_counter i =? NO_RETRIES) || (m_retry_counter i =? QUEUE_FULL)
                        then S2_INCLUSION_TIMEOUT else S2_INCLUSION_RETRY)
  else process_event fuel S2_INCLUSION_TIMEOUT.
End Public.

(** 0 is success. *)
Definition s2_inclusion_init (schemes curves keys_to_request : Z) : M Z :=
  if negb (schemes =? SECURITY_2_SCHEME_SUPPORT_MASK) then mret KEX_FAIL_KEX_SCHEME
  else if negb (curves =? KEX_REPORT_CURVE_25519) then mret KEX_FAIL_KEX_CURVES
  else if has_bits (Z.lnot SECURITY_2_KEY_MASK) keys_to_request || (Z.land SECURITY_2_KEY_MASK keys_to_request =? 0)
  then mret KEX_FAIL_KEX_KEY
  else modify_inc (set_supported schemes curves keys_to_request);; mret 0.

Definition s2_get_key_count : Z := Z.of_nat (length m_key_slot_pair) + 1.
End Inclusion.
End S2Inclusion.
