(* ===== verification/S2Safe.v ===== *)
(** * Memory safety of the S2 transport

    The invariant [ctxt_ok] of a context (sizes of its tables and buffers, ranges of the indices
    stored in it) and a small program logic for it: [safe m Q] says that [m], from a well-formed
    world, keeps it well formed and ends in a value satisfying [Q], or, where the parameter [U]
    allows it, stops in the one fault the code can reach, the read of uninitialised nonces.  The
    theorems say so of the entry points. *)
From S2P Require Import Prelude Aes Cmac Ccm Drbg Bigint S2Types Keystore S2Core.
Import CtrDrbg S2Types Keystore S2.

Module S2Safe.

(** ** The invariant *)

Definition sg_ok (g : sec_group) : Prop :=
  length (enc_key g) = 16%nat /\ length (mpan_key g) = 16%nat /\ length (nonce_key g) = 32%nat /\
  bytes (enc_key g) /\ bytes (mpan_key g) /\ bytes (nonce_key g).

Definition span_ok (s : SPAN) : Prop :=
  length (d s) = 33%nat /\ bytes (d s) /\ 0 <= sp_class s < 7 /\ is_byte (tx_seq s).

Definition mpan_ok (m : MPAN) : Prop :=
  length (inner_state m) = 16%nat /\ bytes (inner_state m) /\ 0 <= mp_class m < 7 /\ is_byte (group_id m).

(** The most payload bytes that fit the work buffer behind every header the code can build. *)
Definition MAX_PAYLOAD : Z := 1210.

Definition buf_ok (b : buf_ptr) (len : Z) : Prop :=
  0 <= len <= MAX_PAYLOAD /\
  match b with
  | BufNull => len = 0
  | BufExt l => len <= Z.of_nat (length l) /\ bytes l
  | BufU => len <= 40
  end.

Definition conn_ok (con : s2_connection_t) : Prop := 0 <= class_id con < 7.

Definition mos_ok (m : MOS_LIST) : Prop := is_byte (mos_group m).

Record ctxt_ok (c : S2) : Prop := {
  ok_sg_len : length (sg c) = N_SEC_CLASS;
  ok_sg : Forall sg_ok (sg c);
  ok_span_len : length (span_table c) = SPAN_TABLE_SIZE;
  ok_span : Forall span_ok (span_table c);
  ok_mpan_len : length (mpan_table c) = MPAN_TABLE_SIZE;
  ok_mpan : Forall mpan_ok (mpan_table c);
  ok_cur : match mpan c with Some j => (j < MPAN_TABLE_SIZE)%nat | None => True end;
  ok_mos_len : length (mos_list c) = MOS_LIST_LENGTH;
  ok_mos : Forall mos_ok (mos_list c);
  ok_wb_len : length (workbuf c) = WORKBUF_LEN;
  ok_wb : bytes (workbuf c);
  ok_u_len : length (u c) = 40%nat;
  ok_u : bytes (u c);
  ok_peer : conn_ok (peer c);
  ok_buf : buf_ok (buf c) (length_ c);
  ok_fsm : fsm c <> SENDING_MULTICAST;
  ok_idle : inclusion_state c = S2_INC_IDLE
}.

Definition world_ok (w : World) : Prop := ctxt_ok (ctxt w) /\ drbg_ok (s2_ctr_drbg w) /\ nvm_ok (nvm w).

(** ** The logic *)

(** Whether the read of uninitialised nonces is allowed for. *)
Class AllowUninit := allow_uninit : Prop.

Definition safe {U : AllowUninit} {A} (m : M A) (Q : A -> Prop) : Prop :=
  forall w, world_ok w ->
  match m w with
  | Ok (a, w') => world_ok w' /\ Q a
  | Fault f => allow_uninit /\ f = UninitRead
  end.

Definition any {A} (_ : A) : Prop := True.

Create HintDb safe discriminated.
#[export] Hint Constants Opaque : safe.
#[export] Hint Variables Opaque : safe.

Section Logic.
Context {U : AllowUninit}.

Lemma safe_ret {A} (a : A) (Q : A -> Prop) : Q a -> safe (mret a) Q.
Proof. by intros HQ w Hw. Qed.

Lemma safe_bind {A B} (m : M A) (k : A -> M B) (R : A -> Prop) (Q : B -> Prop) :
  safe m R -> (forall a, R a -> safe (k a) Q) -> safe (m ≫= k) Q.
Proof.
  intros Hm Hk w Hw. specialize (Hm w Hw). unfold mbind, M_bind.
  destruct (m w) as [[a w']|f]; [|done]. destruct Hm as [Hw' Ha]. by apply Hk.
Qed.

Lemma safe_weaken {A} (m : M A) (R Q : A -> Prop) : safe m R -> (forall a, R a -> Q a) -> safe m Q.
Proof.
  intros Hm H w Hw. specialize (Hm w Hw). destruct (m w) as [[a w']|f]; [|done].
  destruct Hm. eauto.
Qed.

Lemma safe_any {A} (m : M A) (R : A -> Prop) : safe m R -> safe m any.
Proof. intros H. by apply safe_weaken with R. Qed.

Lemma safe_get : safe get ctxt_ok.
Proof. intros w Hw. split; [done|apply Hw]. Qed.

Lemma safe_gets {A} (f : S2 -> A) (Q : A -> Prop) : (forall c, ctxt_ok c -> Q (f c)) -> safe (gets f) Q.
Proof. intros H w Hw. split; [done|apply H, Hw]. Qed.

Lemma safe_modify f : (forall c, ctxt_ok c -> ctxt_ok (f c)) -> safe (modify f) any.
Proof. intros H w [Hc Hg]. split; [|done]. split; [by apply H|done]. Qed.

Lemma safe_emit o : safe (emit o) any.
Proof. by intros w Hw. Qed.

Lemma safe_uninit {A} (Q : A -> Prop) : allow_uninit -> safe (fail UninitRead) Q.
Proof. by intros HU w Hw. Qed.

Lemma safe_if {A} (b : bool) (m n : M A) Q :
  (b = true -> safe m Q) -> (b = false -> safe n Q) -> safe (if b then m else n) Q.
Proof. destruct b; auto. Qed.

Lemma safe_assert_nonzero n : (0 < n)%nat -> safe (assert_ (negb (Nat.eqb n 0))) any.
Proof. intros. destruct (Nat.eqb_spec n 0); [lia|]. by apply safe_ret. Qed.
End Logic.

Section Ops.
Context {U : AllowUninit} {C : BlockCipher} {HC : BlockCipherOk C}.

Lemma safe_generate : safe drbg_generate (fun r => length r = 16%nat /\ bytes r).
Proof.
  intros w (Hc & Hg & Hn). unfold drbg_generate. pose proof (generate_ok _ Hg) as (HL & HB & Hok).
  by destruct (AES_CTR_DRBG_Generate (s2_ctr_drbg w)) as [r g].
Qed.

Lemma safe_accept : safe next_accept any.
Proof. intros w Hw. unfold next_accept. by destruct (tx_accept w). Qed.

Lemma safe_rds l off n (Q : list Z -> Prop) :
  (off + n <= length l)%nat -> Q (sub off n l) -> safe (rds l off n) Q.
Proof.
  intros Hn HQ. unfold rds. destruct (Nat.leb_spec (off + n) (length l)); [by apply safe_ret|lia].
Qed.

Lemma safe_rd l i (Q : Z -> Prop) :
  bytes l -> (i < length l)%nat -> (forall x, l !! i = Some x -> is_byte x -> Q x) -> safe (rd l i) Q.
Proof.
  intros Hl Hi HQ. unfold rd. destruct (lookup_lt_is_Some_2 l i Hi) as [x Hx]. rewrite Hx.
  apply safe_ret, HQ; [done|]. by eapply bytes_lookup.
Qed.

Lemma upd_ctxt_span c l : ctxt_ok c -> length l = SPAN_TABLE_SIZE -> Forall span_ok l -> ctxt_ok (set_span_table l c).
Proof. intros [] HL HF. by constructor. Qed.

Lemma upd_ctxt_mpan c l : ctxt_ok c -> length l = MPAN_TABLE_SIZE -> Forall mpan_ok l -> ctxt_ok (set_mpan_table l c).
Proof. intros [] HL HF. by constructor. Qed.

Lemma upd_ctxt_wb c l : ctxt_ok c -> length l = WORKBUF_LEN -> bytes l -> ctxt_ok (set_workbuf l c).
Proof. intros [] HL HF. by constructor. Qed.

Lemma safe_wb_write off bs :
  (off + length bs <= WORKBUF_LEN)%nat -> bytes bs -> safe (wb_write off bs) any.
Proof.
  intros Hl Hb w [Hc Hg]. unfold wb_write, wrs, get, modify, mbind, M_bind. cbn.
  pose proof (ok_wb_len _ Hc) as HL.
  destruct (Nat.leb_spec (off + length bs) (length (workbuf (ctxt w)))) as [Hle|]; [|lia].
  cbn. split; [|done]. split; [|done]. apply upd_ctxt_wb; [done| |].
  - by rewrite length_splice.
  - apply bytes_splice; [done|apply (ok_wb _ Hc)].
Qed.

Lemma safe_get_span i : (i < SPAN_TABLE_SIZE)%nat -> safe (get_span i) span_ok.
Proof.
  intros Hi w Hw. unfold get_span, get, mbind, M_bind. cbn.
  pose proof (ok_span_len _ (proj1 Hw)) as HL.
  destruct (lookup_lt_is_Some_2 (span_table (ctxt w)) i ltac:(lia)) as [s Hs]. rewrite Hs. cbn.
  split; [done|]. apply (Forall_lookup_1 _ _ _ _ (ok_span _ (proj1 Hw)) Hs).
Qed.

Lemma safe_upd_span i f :
  (i < SPAN_TABLE_SIZE)%nat -> (forall s, span_ok s -> span_ok (f s)) -> safe (upd_span i f) any.
Proof.
  intros Hi Hf w [Hc Hg]. unfold upd_span, get, mbind, M_bind. cbn.
  pose proof (ok_span_len _ Hc) as HL.
  destruct (lookup_lt_is_Some_2 (span_table (ctxt w)) i ltac:(lia)) as [s Hs]. rewrite Hs. cbn.
  split; [|done]. split; [|done]. apply upd_ctxt_span; [done|by rewrite length_insert|].
  apply Forall_insert; [apply (ok_span _ Hc)|]. apply Hf, (Forall_lookup_1 _ _ _ _ (ok_span _ Hc) Hs).
Qed.

Lemma safe_get_mpan i : (i < MPAN_TABLE_SIZE)%nat -> safe (get_mpan i) mpan_ok.
Proof.
  intros Hi w Hw. unfold get_mpan, get, mbind, M_bind. cbn.
  pose proof (ok_mpan_len _ (proj1 Hw)) as HL.
  destruct (lookup_lt_is_Some_2 (mpan_table (ctxt w)) i ltac:(lia)) as [s Hs]. rewrite Hs. cbn.
  split; [done|]. apply (Forall_lookup_1 _ _ _ _ (ok_mpan _ (proj1 Hw)) Hs).
Qed.

Lemma safe_upd_mpan i f :
  (i < MPAN_TABLE_SIZE)%nat -> (forall s, mpan_ok s -> mpan_ok (f s)) -> safe (upd_mpan i f) any.
Proof.
  intros Hi Hf w [Hc Hg]. unfold upd_mpan, get, mbind, M_bind. cbn.
  pose proof (ok_mpan_len _ Hc) as HL.
  destruct (lookup_lt_is_Some_2 (mpan_table (ctxt w)) i ltac:(lia)) as [s Hs]. rewrite Hs. cbn.
  split; [|done]. split; [|done]. apply upd_ctxt_mpan; [done|by rewrite length_insert|].
  apply Forall_insert; [apply (ok_mpan _ Hc)|]. apply Hf, (Forall_lookup_1 _ _ _ _ (ok_mpan _ Hc) Hs).
Qed.

Lemma safe_get_sg cls : 0 <= cls < 7 -> safe (get_sg cls) sg_ok.
Proof.
  intros Hi w Hw. unfold get_sg, get, mbind, M_bind. cbn.
  pose proof (ok_sg_len _ (proj1 Hw)) as HL. unfold N_SEC_CLASS in HL.
  destruct (lookup_lt_is_Some_2 (sg (ctxt w)) (Z.to_nat cls) ltac:(lia)) as [s Hs]. rewrite Hs. cbn.
  split; [done|]. apply (Forall_lookup_1 _ _ _ _ (ok_sg _ (proj1 Hw)) Hs).
Qed.

Lemma find_idx_lt {A} (f : A -> bool) l i : find_idx f l = Some i -> (i < length l)%nat.
Proof.
  revert i. induction l as [|x l IH]; intros i; simpl; [done|].
  destruct (f x); [intros [= <-]; lia|]. destruct (find_idx f l) as [j|]; simpl; [|done].
  intros [= <-]. specialize (IH j eq_refl). lia.
Qed.
End Ops.

(** The operations of the monad, and the functions the database knows. *)
Ltac safe_prim :=
  lazymatch goal with
  | |- safe get _ => apply safe_get
  | |- safe (emit _) _ => apply safe_emit
  | |- safe drbg_generate _ => apply safe_generate
  | |- safe next_accept _ => apply safe_accept
  | |- _ => solve [eauto with safe nocore]
  end.

(** One step of a safety proof: the head of the program decides. *)
Ltac safe_step :=
  lazymatch goal with
  | |- safe (mret _) _ => apply safe_ret
  | |- safe (emit _) any => apply safe_emit
  | |- safe (if _ then _ else _) _ => apply safe_if; intros
  | |- safe (mbind _ _) _ => eapply safe_bind; [first [safe_prim | idtac]|cbv beta; intros]
  | |- safe (match ?x with _ => _ end) _ => destruct x eqn:?
  end.

(** A table entry after an update of some of its fields. *)
Ltac entry_ok := unfold span_ok, mpan_ok; repeat match goal with |- _ /\ _ => split end;
  cbn [d lnode rnode rx_seq tx_seq sp_class sp_state set_rx_seq set_tx_seq set_sp_class set_sp_state
       owner_id group_id inner_state mp_class mp_state set_inner set_mp_class set_mp_state];
  auto with zw; try lia.

Section Tables.
Context {U : AllowUninit} {C : BlockCipher} {HC : BlockCipherOk C}.

Lemma next_inner_ok st :
  length st = 16%nat -> bytes st -> length (next_inner_state st) = 16%nat /\ bytes (next_inner_state st).
Proof.
  intros Hl Hb. unfold next_inner_state, Bigint.bigint_add.
  assert (Ho : bytes mpan_one) by (apply (bool_decide_unpack _); vm_compute; exact I).
  pose proof (Bigint.add_loop_spec st mpan_one 0 Hl Hb Ho ltac:(lia)) as H.
  destruct (Bigint.add_loop st mpan_one 0) as [r t]. destruct H as (HL & HB & _). simpl. by rewrite HL.
Qed.

Lemma safe_next_mpan j : (j < MPAN_TABLE_SIZE)%nat -> safe (next_mpan_state j) any.
Proof.
  intros Hj. apply safe_upd_mpan; [done|]. intros m (HL & HB & Hc & Hg).
  destruct (next_inner_ok (inner_state m)) as [HL' HB']; [done..|]. by entry_ok.
Qed.

Lemma mod_table_lt z n : (0 < n)%nat -> (Z.to_nat (z `mod` Z.of_nat n) < n)%nat.
Proof. intros. pose proof (Z.mod_pos_bound z (Z.of_nat n)). lia. Qed.

Lemma slot_lt {A} (f : A -> bool) (l : list A) n z :
  length l = n -> (0 < n)%nat ->
  (match find_idx f l with Some i => i | None => Z.to_nat (z `mod` Z.of_nat n) end < n)%nat.
Proof.
  intros HL Hn. destruct (find_idx f l) as [i|] eqn:E; [apply find_idx_lt in E; lia|by apply mod_table_lt].
Qed.

Lemma safe_find_mpan owner grp create :
  (create = true -> is_byte grp) ->
  safe (find_mpan_by_group_id owner grp create)
    (fun o => match o with Some i => (i < MPAN_TABLE_SIZE)%nat | None => create = false end).
Proof.
  intros Hg. unfold find_mpan_by_group_id. safe_step. rename H into Hc.
  destruct (find_idx (mpan_matches a owner grp) (mpan_table a)) as [i|] eqn:E.
  { apply find_idx_lt in E. rewrite (ok_mpan_len _ Hc) in E. by apply safe_ret. }
  destruct create; simpl; [specialize (Hg eq_refl)|by apply safe_ret].
  safe_step. destruct H as [HL HB].
  assert (Hi := slot_lt (fun m => bool_decide (mp_state m = MPAN_NOT_USED)) (mpan_table a)
    MPAN_TABLE_SIZE (at_ a0 0) (ok_mpan_len _ Hc) ltac:(unfold MPAN_TABLE_SIZE; lia)).
  set (i := match find_idx _ _ with Some _ => _ | None => _ end) in *.
  eapply safe_bind; [apply safe_upd_mpan; [done|]|intros _ _].
  { intros m (? & ? & ? & ?). split; [done|]. split; [done|]. split; [apply (ok_peer _ Hc)|done]. }
  safe_step. destruct H as [HL' HB'].
  eapply safe_bind; [apply safe_upd_mpan; [done|]|intros _ _; by apply safe_ret].
  intros m (? & ? & ? & ?). by entry_ok.
Qed.

Lemma safe_find_span con : safe (find_span_by_node con) (fun i => (i < SPAN_TABLE_SIZE)%nat).
Proof.
  unfold find_span_by_node. safe_step. rename H into Hc.
  destruct (find_idx (span_matches con) (span_table a)) as [i|] eqn:E.
  { apply find_idx_lt in E. rewrite (ok_span_len _ Hc) in E. by apply safe_ret. }
  safe_step. destruct H as [HL HB].
  assert (Hseq : is_byte (at_ a0 1)).
  { unfold at_. destruct (a0 !! 1%nat) as [x|] eqn:Ex; [by eapply bytes_lookup|done]. }
  assert (Hi := slot_lt (fun s => bool_decide (sp_state s = SPAN_NOT_USED)) (span_table a)
    SPAN_TABLE_SIZE (at_ a0 0) (ok_span_len _ Hc) ltac:(unfold SPAN_TABLE_SIZE; lia)).
  set (i := match find_idx _ _ with Some _ => _ | None => _ end) in *.
  eapply safe_bind; [apply safe_upd_span; [done|]|intros _ _; by apply safe_ret].
  intros s (? & ? & ? & ?). by entry_ok.
Qed.
#[local] Hint Resolve safe_find_mpan safe_find_span safe_get_span safe_get_mpan safe_get_sg : safe.

Lemma safe_span_ok con : safe (S2_span_ok con) any.
Proof. unfold S2_span_ok. repeat safe_step. done. Qed.

Lemma safe_verify_seq con seq : safe (S2_verify_seq con seq) any.
Proof.
  unfold S2_verify_seq. do 2 safe_step. safe_step; [|by apply safe_ret].
  eapply safe_bind; [apply safe_upd_span; [done|]|intros; by apply safe_ret].
  intros s (? & ? & ? & ?). by entry_ok.
Qed.

Lemma safe_is_node_mos n : safe (S2_is_node_mos n) any.
Proof. unfold S2_is_node_mos. repeat safe_step. done. Qed.

Lemma upd_ctxt_mos c i n g :
  ctxt_ok c -> is_byte g -> ctxt_ok (set_mos_list (<[i := mkMos n g]> (mos_list c)) c).
Proof.
  intros [] Hg. constructor; try done; cbn.
  - by rewrite length_insert.
  - by apply Forall_insert.
Qed.

Lemma safe_set_node_mos n : safe (S2_set_node_mos n) any.
Proof.
  unfold S2_set_node_mos. safe_step. safe_step; [|by apply safe_ret].
  pose proof (ok_cur _ H) as Hcur. destruct (mpan a) as [j|]; [|by apply safe_ret].
  destruct (find_idx _ _); [|by apply safe_ret].
  safe_step. destruct H1 as (_ & _ & _ & Hg).
  intros w [Hc Hd]. split; [|done]. split; [|done]. cbn.
  destruct Hc, H. constructor; try done; cbn; [by rewrite length_insert|by apply Forall_insert].
Qed.
End Tables.

#[export] Hint Resolve safe_find_mpan safe_find_span safe_get_span safe_get_mpan safe_get_sg
  safe_span_ok safe_verify_seq safe_is_node_mos safe_set_node_mos safe_next_mpan safe_uninit : safe.

(** ** Sending *)

Lemma lor_byte a b : is_byte a -> is_byte b -> is_byte (Z.lor a b).
Proof.
  unfold is_byte. intros Ha Hb. split; [apply Z.lor_nonneg; lia|].
  destruct (Z.eq_dec (Z.lor a b) 0) as [->|Hz]; [lia|].
  assert (0 <= Z.lor a b) by (apply Z.lor_nonneg; lia).
  apply (Z.log2_lt_pow2 _ 8); [lia|]. rewrite Z.log2_lor by lia.
  assert (Hl : forall c, 0 <= c < 256 -> Z.log2 c < 8).
  { intros c Hc. destruct (Z.eq_dec c 0) as [->|]; [done|]. apply Z.log2_lt_pow2; lia. }
  pose proof (Hl a Ha). pose proof (Hl b Hb). lia.
Qed.

Lemma land_byte a m : is_byte a -> is_byte (Z.land a m).
Proof.
  unfold is_byte. intros Ha. replace a with (Z.land a (Z.ones 8)).
  2:{ rewrite Z.land_ones by lia. by apply Z.mod_small. }
  rewrite <- Z.land_assoc, (Z.land_comm _ m), Z.land_assoc, Z.land_ones by lia.
  apply Z.mod_pos_bound. lia.
Qed.

Lemma land_ff_byte a : is_byte (Z.land a 0xff).
Proof. rewrite Bigint.land_255. apply u8_byte. Qed.

Section Send.
Context {U : AllowUninit} {C : BlockCipher} {HC : BlockCipherOk C} {I : InclusionFsm} {P : Platform}.

Lemma span_rng_ok s : span_ok s -> drbg_ok (d_rng s).
Proof.
  intros (HL & HB & _). unfold drbg_ok, d_rng. cbn [df v k].
  rewrite !length_sub by lia. split; [|by auto with zw].
  unfold at_. destruct (d s !! 0%nat) as [x|] eqn:E; [by eapply bytes_lookup|done].
Qed.

Lemma span_set_rng g s : drbg_ok g -> span_ok s -> span_ok (set_rng g s).
Proof.
  intros (Hf & Hv & Hk & Hvb & Hkb) (HL & HB & Hc). split; [|split; [|done]]; cbn [d set_rng].
  - rewrite length_cons, length_app. lia.
  - apply bytes_cons; [done|by apply bytes_app].
Qed.

Lemma span_set_nonce n s : length n = 16%nat -> bytes n -> span_ok s -> span_ok (set_r_nonce n s).
Proof.
  intros Hn Hb (HL & HB & Hc). split; [|split; [|done]]; cbn [d set_r_nonce].
  - rewrite length_splice; lia.
  - auto with zw.
Qed.

Lemma span_nonce_ok s : span_ok s -> length (d_r_nonce s) = 16%nat /\ bytes (d_r_nonce s).
Proof. intros (HL & HB & _). unfold d_r_nonce. rewrite length_take. split; [lia|auto with zw]. Qed.

Lemma safe_upd_tx_seq i : (i < SPAN_TABLE_SIZE)%nat ->
  safe (upd_span i (fun s => set_tx_seq (u8 (tx_seq s + 1)) s)) any.
Proof. intros. apply safe_upd_span; [done|]. intros s (? & ? & ? & ?). by entry_ok. Qed.

Lemma safe_upd_state i st : (i < SPAN_TABLE_SIZE)%nat -> safe (upd_span i (set_sp_state st)) any.
Proof. intros. apply safe_upd_span; [done|]. intros s (? & ? & ? & ?). by entry_ok. Qed.

Lemma safe_upd_rng i g : (i < SPAN_TABLE_SIZE)%nat -> drbg_ok g -> safe (upd_span i (set_rng g)) any.
Proof. intros. apply safe_upd_span; [done|]. intros s. by apply span_set_rng. Qed.
#[local] Hint Resolve safe_upd_tx_seq safe_upd_state : safe.

Lemma safe_send_nonce_report conn flags : safe (S2_send_nonce_report conn flags) any.
Proof.
  unfold S2_send_nonce_report. do 2 safe_step.
  eapply safe_bind with (R := any).
  - apply safe_if; [|intros; by apply safe_ret]. intros _. do 2 safe_step. destruct H2 as [HL HB].
    eapply safe_bind; [apply safe_upd_span; [done|]|intros].
    { intros s. apply span_set_nonce; [rewrite length_take; lia|auto with zw]. }
    repeat safe_step. done.
  - intros. safe_step. apply safe_emit.
Qed.

Lemma safe_make_aad sender receiver msg hdr_len msg_len :
  (4 <= hdr_len <= length msg)%nat -> bytes msg ->
  (hdr_len <= 56)%nat \/ (sender < 256 /\ receiver < 256) ->
  safe (S2_make_aad sender receiver msg hdr_len msg_len 64) (fun aad => bytes aad /\ (length aad <= 64)%nat).
Proof.
  intros Hh Hb Hor. unfold S2_make_aad. apply safe_if; [intros; apply safe_ret; split; [constructor|simpl; lia]|].
  intros Hlt. apply Nat.ltb_ge in Hlt. safe_step.
  match goal with |- context [?n ++ [Z.land (Z.shiftr _ 24) _; _; _; _; _; _]] => set (nodes := n) end.
  assert (Hn : bytes nodes /\ (length nodes <= 4)%nat /\ ((hdr_len <= 56)%nat \/ length nodes = 2%nat)).
  { unfold nodes. destruct (Z.leb_spec LOWEST_LONG_RANGE_NODE_ID sender),
      (Z.leb_spec LOWEST_LONG_RANGE_NODE_ID receiver); unfold LOWEST_LONG_RANGE_NODE_ID in *; simpl;
      (split; [repeat (apply bytes_cons; [apply land_ff_byte|]); constructor|split; [lia|]]); lia. }
  destruct Hn as (Hnb & Hn4 & Hn).
  eapply safe_bind; [apply safe_rds with (Q := fun h => length h = (hdr_len - 2)%nat /\ bytes h)|].
  { lia. } { split; [apply length_sub; lia|auto with zw]. }
  intros hdr [Hhl Hhb].
  match goal with |- safe (if Nat.ltb _ (length ?a) then _ else _) _ => set (aad := a) end.
  assert (length aad <= 64)%nat by (unfold aad; rewrite !length_app; cbn [length]; lia).
  destruct (Nat.ltb_spec 64 (length aad)); [lia|]. apply safe_ret. split; [|done].
  unfold aad. rewrite !bytes_app. split; [split; [done|]|done].
  repeat (apply bytes_cons; [apply land_ff_byte|]). constructor.
Qed.

Lemma safe_wb_rmw off (f : Z -> Z) :
  (off < WORKBUF_LEN)%nat -> (forall x, is_byte x -> is_byte (f x)) ->
  safe (c ← get; x ← rd (workbuf c) off; wb_write off [f x]) any.
Proof.
  intros Ho Hf. safe_step.
  eapply safe_bind; [apply safe_rd with (Q := is_byte); [apply (ok_wb _ H)|rewrite (ok_wb_len _ H); lia|done]|].
  intros x Hx. apply safe_wb_write; [simpl; lia|auto with zw].
Qed.

Lemma safe_wb_or off m : (off < WORKBUF_LEN)%nat -> is_byte m -> safe (wb_or off m) any.
Proof. intros. apply (safe_wb_rmw off (fun x => Z.lor x m)); [done|]. intros. by apply lor_byte. Qed.

Lemma safe_wb_and off m : (off < WORKBUF_LEN)%nat -> safe (wb_and off m) any.
Proof. intros. apply (safe_wb_rmw off (fun x => Z.land x m)); [done|]. intros. by apply land_byte. Qed.

Lemma safe_put_ext hdr_len ext :
  (hdr_len + length ext <= WORKBUF_LEN)%nat -> bytes ext ->
  safe (put_ext hdr_len ext) (fun h => h = (hdr_len + length ext)%nat).
Proof.
  intros Hl Hb. unfold put_ext. eapply safe_bind; [by apply safe_wb_write|]. intros. by apply safe_ret.
Qed.
End Send.

#[export] Hint Resolve safe_upd_tx_seq safe_upd_state safe_send_nonce_report : safe.

Section Encrypt.
Context {U : AllowUninit} {C : BlockCipher} {HC : BlockCipherOk C} {I : InclusionFsm} {P : Platform}.

Lemma safe_lookup {A} (l : list A) i (F : A -> Prop) :
  Forall F l -> (i < length l)%nat -> safe (of_option OutOfBounds (l !! i)) F.
Proof.
  intros HF Hi. destruct (lookup_lt_is_Some_2 l i Hi) as [x Hx]. rewrite Hx.
  apply safe_ret. by eapply Forall_lookup_1.
Qed.

Lemma safe_add_mpan_loop ixs : forall p k,
  Forall (fun i => (i < MOS_LIST_LENGTH)%nat) ixs -> (p + 3 * length ixs + 16 <= WORKBUF_LEN)%nat ->
  safe (add_mpan_loop ixs p k) (fun k' => (k' <= k + length ixs)%nat).
Proof.
  induction ixs as [|i ixs IH]; intros p k Hi Hp; [apply safe_ret; lia|].
  inversion_clear Hi as [|? ? Hi1 Hi2]. cbn [add_mpan_loop length] in *.
  assert (Hskip : forall p', (p' + 3 * length ixs + 16 <= WORKBUF_LEN)%nat ->
    safe (add_mpan_loop ixs p' k) (fun k' => (k' <= k + S (length ixs))%nat)).
  { intros p' Hp'. eapply safe_weaken; [by apply IH|]. cbv beta. lia. }
  safe_step. rename H into Hc.
  eapply safe_bind; [apply safe_lookup with (F := mos_ok); [apply (ok_mos _ Hc)|rewrite (ok_mos_len _ Hc); done]|].
  intros e He. apply safe_if; intros _; [|apply Hskip; lia].
  safe_step. destruct a0 as [j|]; [|apply Hskip; lia].
  safe_step. destruct H0 as (HL & HB & _ & _).
  eapply safe_bind; [apply safe_wb_write; [simpl; lia|by auto with zw]|intros].
  eapply safe_bind; [apply safe_wb_write; [rewrite length_take; lia|by auto with zw]|intros].
  eapply safe_bind; [apply safe_modify; intros; by apply upd_ctxt_mos|intros].
  eapply safe_weaken; [apply IH; [done|lia]|]. cbv beta. lia.
Qed.

Lemma safe_add_mpan_extensions off :
  (off <= 27)%nat -> safe (S2_add_mpan_extensions off) (fun n => (n <= 57)%nat).
Proof.
  intros Ho. unfold S2_add_mpan_extensions.
  eapply safe_bind; [apply safe_add_mpan_loop|].
  { repeat constructor. }
  { unfold MOS_LIST_LENGTH, WORKBUF_LEN, WORKBUF_SIZE. simpl. lia. }
  cbv beta. unfold MOS_LIST_LENGTH. cbn [seq length]. intros k Hk.
  eapply safe_bind with (R := any).
  - apply safe_if; intros; [by apply safe_ret|]. apply safe_wb_and. unfold WORKBUF_LEN, WORKBUF_SIZE. lia.
  - intros. apply safe_ret. lia.
Qed.

Lemma next_nonce_instantiate_ok a b n :
  length a = 16%nat -> bytes a -> length b = 16%nat -> bytes b -> length n = 32%nat -> bytes n ->
  drbg_ok (NextNonce.next_nonce_instantiate a b n).
Proof. intros. by apply NextNonce.instantiate_MEI. Qed.

(** Header length and number of extensions after one more extension of at most [n] bytes. *)
Definition hdr_at (h n : nat) (r : nat * nat) : Prop := (4 <= fst r <= h + n)%nat.

Lemma wb_room n : (n <= 1302)%nat -> (n <= WORKBUF_LEN)%nat.
Proof. done. Qed.

Lemma safe_add_sn i n : (i < SPAN_TABLE_SIZE)%nat -> safe (add_sn_extension i 4 n) (hdr_at 4 18).
Proof.
  intros Hi. unfold add_sn_extension. do 2 safe_step.
  apply safe_if; intros _; [|apply safe_ret; unfold hdr_at; simpl; lia].
  safe_step. destruct H1 as [HL HB]. destruct (span_nonce_ok _ H0) as [HnL HnB].
  eapply safe_bind; [apply safe_get_sg, (ok_peer _ H)|]. intros g (_ & _ & Hg1 & _ & _ & Hg2).
  eapply safe_bind; [apply safe_upd_rng; [done|by apply next_nonce_instantiate_ok]|intros].
  eapply safe_bind; [apply safe_upd_span; [done|]|intros].
  { intros s (? & ? & ? & ?). pose proof (ok_peer _ H) as Hp. unfold conn_ok in Hp. by entry_ok. }
  eapply safe_bind; [apply safe_put_ext|].
  - apply wb_room. rewrite length_app, length_take. cbn [length fst]. lia.
  - apply bytes_app. split; [by auto with zw|by auto with zw].
  - intros h ->. apply safe_ret. unfold hdr_at. rewrite length_app, length_take. cbn [length fst]. lia.
Qed.

Lemma safe_add_mgrp h n : (4 <= h <= 22)%nat -> safe (add_mgrp_extension h n) (hdr_at h 3).
Proof.
  intros Hh. unfold add_mgrp_extension. safe_step. rename H into Hc. pose proof (ok_cur _ Hc) as Hj.
  destruct (mpan a) as [j|]; [|apply safe_ret; unfold hdr_at; simpl; lia].
  apply safe_if; intros _; [|apply safe_ret; unfold hdr_at; simpl; lia].
  safe_step.
  eapply safe_bind with (R := hdr_at h 3).
  - apply safe_if; intros _; [|apply safe_ret; unfold hdr_at; simpl; lia].
    safe_step. destruct H0 as (_ & _ & _ & Hg).
    eapply safe_bind; [apply safe_put_ext; [apply wb_room; simpl; lia|by auto with zw]|].
    intros h' ->. apply safe_ret. unfold hdr_at. simpl. lia.
  - intros [h' n'] Hh'.
    eapply safe_bind with (R := any); [apply safe_if; intros _; [by apply safe_next_mpan|by apply safe_ret]|].
    intros. by apply safe_ret.
Qed.

Lemma upd_ctxt_cur c j : ctxt_ok c -> (match j with Some j => (j < MPAN_TABLE_SIZE)%nat | None => True end) ->
  ctxt_ok (set_mpan j c).
Proof. intros [] Hj. by constructor. Qed.

Lemma safe_add_mos h n : (4 <= h <= 25)%nat -> safe (add_mos_extension h n) (hdr_at h 2).
Proof.
  intros Hh. unfold add_mos_extension. safe_step. rename H into Hc. pose proof (ok_cur _ Hc) as Hj.
  destruct (mpan a) as [j|]; [|apply safe_ret; unfold hdr_at; simpl; lia].
  safe_step. apply safe_if; intros _; [|apply safe_ret; unfold hdr_at; simpl; lia].
  eapply safe_bind; [apply safe_upd_mpan; [done|]|intros].
  { intros m (? & ? & ? & ?). by entry_ok. }
  eapply safe_bind; [apply safe_modify; intros; by apply upd_ctxt_cur|intros].
  eapply safe_bind; [apply safe_put_ext; [apply wb_room; simpl; lia|by auto with zw]|].
  intros h' ->. apply safe_ret. unfold hdr_at. simpl. lia.
Qed.

Lemma safe_more_loop n : safe (more_loop n) any.
Proof.
  induction n as [|n IH]; [by apply safe_ret|]. cbn [more_loop].
  eapply safe_bind; [apply safe_wb_or; [apply wb_room; lia|done]|done].
Qed.

Lemma safe_deref b len :
  buf_ok b len -> safe (deref b (Z.to_nat len)) (fun l => length l = Z.to_nat len /\ bytes l).
Proof.
  intros [Hlen Hb]. unfold deref. destruct b as [|l|].
  - rewrite Hb. apply safe_ret. split; [done|constructor].
  - destruct Hb. apply safe_rds; [lia|]. split; [apply length_sub; lia|auto with zw].
  - safe_step. pose proof (ok_u_len _ H). pose proof (ok_u _ H).
    apply safe_rds; [lia|]. split; [apply length_sub; lia|auto with zw].
Qed.

Lemma safe_ccm_in_workbuf key nonce aad off len :
  length key = 16%nat -> bytes key -> length nonce = 16%nat -> bytes nonce -> bytes aad -> (length aad <= 64)%nat ->
  (off + len + 8 <= WORKBUF_LEN)%nat ->
  safe (ccm_in_workbuf key nonce aad off len) (fun n => n = (len + 8)%nat).
Proof.
  intros Hk Hkb Hn Hnb Ha Hal Hl. unfold ccm_in_workbuf. safe_step. rename H into Hc.
  pose proof (ok_wb _ Hc). pose proof (ok_wb_len _ Hc).
  eapply safe_bind; [apply safe_rds with (Q := fun p => length p = len /\ bytes p); [lia|]|].
  { split; [apply length_sub; lia|auto with zw]. }
  intros plain [HpL HpB].
  assert (len < 1400)%nat by (unfold WORKBUF_LEN, WORKBUF_SIZE in *; lia).
  destruct (Ccm.encrypt_total key nonce aad plain) as (c & -> & HcL & HcB); try done; try lia; [by right|].
  eapply safe_bind; [apply safe_wb_write; [lia|done]|]. intros. apply safe_ret. lia.
Qed.

Lemma generate_nonce s :
  span_ok s -> let '(nonce, g) := NextNonce.next_nonce_generate (d_rng s) in
  length nonce = 16%nat /\ bytes nonce /\ drbg_ok g.
Proof.
  intros Hs. pose proof (generate_ok _ (span_rng_ok s Hs)) as H.
  unfold NextNonce.next_nonce_generate. by destruct (AES_CTR_DRBG_Generate (d_rng s)).
Qed.
End Encrypt.

Section Transmit.
Context {U : AllowUninit} {C : BlockCipher} {HC : BlockCipherOk C} {I : InclusionFsm} {P : Platform}.
Variable post : event_t -> event_data_t -> M unit.
Hypothesis post_send_done : safe (post SEND_DONE (EvTx S2_TRANSMIT_COMPLETE_FAIL None)) any.

Lemma safe_send_raw frame : safe (S2_send_raw post frame) any.
Proof.
  unfold S2_send_raw. do 3 safe_step. apply safe_if; intros; [|done]. safe_step.
  by apply safe_upd_tx_seq.
Qed.

Lemma safe_send_nonce_get : safe (S2_send_nonce_get post) any.
Proof. unfold S2_send_nonce_get. do 3 safe_step. apply safe_send_raw. Qed.

(** The tail of both senders: the frame is complete in the work buffer. *)
Lemma safe_read_frame n (k : list Z -> M unit) :
  (n <= WORKBUF_LEN)%nat -> (forall f, safe (k f) any) ->
  safe (c ← get; frame ← rds (workbuf c) 0 n; k frame) any.
Proof.
  intros Hn Hk. safe_step.
  eapply safe_bind with (R := any); [|intros; apply Hk].
  apply safe_rds; [rewrite (ok_wb_len _ H); lia|done].
Qed.

Lemma safe_encrypt_and_send : safe (S2_encrypt_and_send post) any.
Proof.
  unfold S2_encrypt_and_send. do 3 safe_step. rename a0 into i. destruct H1 as (_ & _ & _ & Htx).
  eapply safe_bind; [apply safe_wb_write; [apply wb_room; simpl; lia|by auto with zw]|intros].
  eapply safe_bind; [by apply safe_add_sn|]. intros [h1 n1] Hh1. unfold hdr_at in Hh1; cbn [fst] in Hh1.
  eapply safe_bind; [apply safe_add_mgrp; lia|]. intros [h2 n2] Hh2. unfold hdr_at in Hh2; cbn [fst] in Hh2.
  eapply safe_bind; [apply safe_add_mos; lia|]. intros [h n] Hh. unfold hdr_at in Hh; cbn [fst] in Hh.
  eapply safe_bind with (R := any).
  { apply safe_if; intros _; [by apply safe_ret|].
    eapply safe_bind; [apply safe_wb_or; [apply wb_room; lia|done]|intros; apply safe_more_loop]. }
  intros. eapply safe_bind; [apply safe_add_mpan_extensions; lia|]. intros sh Hsh. cbv beta in Hsh.
  eapply safe_bind with (R := any).
  { apply safe_if; intros _; [by apply safe_ret|]. apply safe_wb_or; [apply wb_room; lia|done]. }
  intros. safe_step. rename a4 into c, H4 into Hc. pose proof (ok_buf _ Hc) as Hbuf.
  assert (Hlen : 0 <= length_ c <= 1210) by apply Hbuf.
  eapply safe_bind; [by apply safe_deref|]. intros payload [HpL HpB].
  eapply safe_bind; [apply safe_wb_write; [apply wb_room; lia|done]|intros].
  eapply safe_bind; [apply (safe_gets workbuf (fun wb => length wb = WORKBUF_LEN /\ bytes wb)); intros c' Hc'|].
  { split; [apply (ok_wb_len _ Hc')|apply (ok_wb _ Hc')]. }
  intros wb [HwL HwB].
  eapply safe_bind; [apply safe_make_aad; [rewrite HwL; unfold WORKBUF_LEN, WORKBUF_SIZE; lia|done|lia]|].
  intros aad [HaB HaL]. safe_step. pose proof (generate_nonce _ H5) as Hn.
  destruct (NextNonce.next_nonce_generate _) as [nonce g]. destruct Hn as (HnL & HnB & Hg).
  eapply safe_bind; [by apply safe_upd_rng|intros].
  eapply safe_bind; [apply safe_get_sg, (ok_peer _ Hc)|]. intros sgr (Hk & _ & _ & Hkb & _).
  eapply safe_bind; [apply safe_ccm_in_workbuf; try done; apply wb_room; lia|]. intros m ->.
  eapply safe_bind; [apply safe_assert_nonzero; lia|intros].
  apply safe_read_frame; [apply wb_room; lia|apply safe_send_raw].
Qed.

(** The multicast sender needs a current MPAN. *)
Lemma safe_encrypt_and_send_multi w j :
  world_ok w -> mpan (ctxt w) = Some j ->
  match S2_encrypt_and_send_multi post w with
  | Ok (_, w') => world_ok w'
  | Fault f => allow_uninit /\ f = UninitRead
  end.
Proof.
  intros Hw Hj. unfold S2_encrypt_and_send_multi. unfold mbind at 1, M_bind at 1, get at 1. rewrite Hj.
  pose proof (proj1 Hw) as Hc. set (c := ctxt w) in *.
  assert (Hj' : (j < MPAN_TABLE_SIZE)%nat) by (pose proof (ok_cur _ Hc) as H; by rewrite Hj in H).
  lazymatch goal with |- match ?m w with _ => _ end => set (prog := m) end.
  enough (Hs : safe prog any).
  { specialize (Hs w Hw). destruct (prog w) as [[[] w']|f]; [apply Hs|done]. }
  subst prog.
  eapply safe_bind; [by apply (safe_ret j (eq j))|]. intros ? <-.
  safe_step. rename a into m. destruct H as (HmL & HmB & Hcl & Hg).
  pose proof (ok_buf _ Hc) as Hbuf. assert (Hlen : 0 <= length_ c <= 1210) by apply Hbuf.
  eapply safe_bind; [apply safe_wb_write; [apply wb_room; simpl; lia|by auto 10 with zw]|intros].
  eapply safe_bind; [by apply safe_deref|]. intros payload [HpL HpB].
  eapply safe_bind; [apply safe_wb_write; [apply wb_room; lia|done]|intros].
  eapply safe_bind; [apply (safe_gets workbuf (fun wb => length wb = WORKBUF_LEN /\ bytes wb)); intros c' Hc'|].
  { split; [apply (ok_wb_len _ Hc')|apply (ok_wb _ Hc')]. }
  intros wb [HwL HwB].
  eapply safe_bind; [apply safe_make_aad; [rewrite HwL; unfold WORKBUF_LEN, WORKBUF_SIZE; lia|done|lia]|].
  intros aad [HaB HaL].
  eapply safe_bind; [by apply safe_get_sg|]. intros sgr (Hk & Hmk & _ & Hkb & Hmb & _).
  eapply safe_bind; [by apply safe_next_mpan|intros].
  eapply safe_bind; [apply safe_ccm_in_workbuf; auto; [by apply block_length|by apply block_bytes|apply wb_room; lia]|].
  intros ml ->. eapply safe_bind; [apply safe_assert_nonzero; lia|intros].
  safe_step. eapply safe_bind with (R := any).
  { apply safe_rds; [rewrite (ok_wb_len a3 ltac:(done)); apply wb_room; lia|done]. }
  intros. do 2 safe_step. apply safe_if; intros; [by apply safe_ret|done].
Qed.
End Transmit.

(** ** Receiving *)

Definition idx_ok (n : nat) (o : option nat) : Prop := match o with Some i => (i < n)%nat | None => True end.

Definition nonces_ok (non : nonces_t) : Prop :=
  match non with
  | Some (a, b) => length a = 16%nat /\ bytes a /\ length b = 16%nat /\ bytes b
  | None => True
  end.

Section Parse.
Context {U : AllowUninit} {C : BlockCipher} {HC : BlockCipherOk C} {I : InclusionFsm} {P : Platform}.

Lemma safe_frame_byte l i : bytes l -> (i < length l)%nat -> safe (buf_byte (BufExt l) i) is_byte.
Proof. intros. by apply safe_rd. Qed.

Lemma safe_register_nonce l :
  bytes l -> (4 <= length l)%nat -> safe (S2_register_nonce (BufExt l) (Z.of_nat (length l))) is_byte.
Proof.
  intros Hb Hl. unfold S2_register_nonce. safe_step.
  eapply safe_bind; [apply safe_frame_byte; [done|lia]|]. intros seq Hseq.
  safe_step. apply safe_if; intros _; [by apply safe_ret|]. safe_step.
  eapply safe_bind; [apply safe_frame_byte; [done|lia]|]. intros flags Hflags.
  eapply safe_bind with (R := any).
  { apply safe_if; intros Hc; [|by apply safe_ret]. zbool.
    eapply safe_bind; [apply safe_rds with (Q := fun f => f = sub 0 20 l); [lia|done]|]. intros f ->.
    apply safe_upd_span; [done|]. intros s Hs.
    assert (Hn : span_ok (set_r_nonce (sub 4 16 (sub 0 20 l)) s)).
    { apply span_set_nonce; [|by auto with zw|done]. rewrite length_sub; [done|]. rewrite length_sub; lia. }
    destruct Hn as (? & ? & ? & ?). by entry_ok. }
  intros. eapply safe_bind with (R := any).
  { apply safe_if; intros _; [apply safe_set_node_mos|by apply safe_ret]. }
  intros. by apply safe_ret.
Qed.

Lemma safe_ext_sn msg span ext ext_len non :
  bytes msg -> idx_ok SPAN_TABLE_SIZE span -> nonces_ok non ->
  (ext_len = 18 -> (ext + 18 <= length msg)%nat) ->
  safe (ext_sn msg span ext ext_len non) nonces_ok.
Proof.
  intros Hb Hi Hn Hl. unfold ext_sn. destruct span as [i|]; [|by apply safe_ret]. simpl in Hi.
  safe_step. rename a into s, H into Hs. apply safe_if; intros Hc; [|by apply safe_ret]. zbool.
  specialize (Hl ltac:(lia)). destruct (span_nonce_ok _ Hs) as [HnL HnB].
  eapply safe_bind; [apply safe_rds with (Q := fun n => length n = 16%nat /\ bytes n); [lia|]|].
  { split; [apply length_sub; lia|auto with zw]. }
  intros sn [HsL HsB]. safe_step.
  eapply safe_bind; [apply safe_get_sg, Hs|]. intros g (_ & _ & Hg1 & _ & _ & Hg2).
  eapply safe_bind; [apply safe_upd_rng; [done|by apply next_nonce_instantiate_ok]|intros].
  by apply safe_ret.
Qed.

Definition ext_res (r : option (option nat * nonces_t)) : Prop :=
  match r with Some (mp, non) => idx_ok MPAN_TABLE_SIZE mp /\ nonces_ok non | None => True end.

Lemma safe_ext_body conn msg span ext ext_len ty mp non :
  bytes msg -> idx_ok SPAN_TABLE_SIZE span -> idx_ok MPAN_TABLE_SIZE mp -> nonces_ok non ->
  0 < ext_len -> (ext + Z.to_nat ext_len + 8 <= length msg)%nat ->
  safe (ext_body conn msg span ext ext_len ty mp non) ext_res.
Proof.
  intros Hb Hi Hm Hn H0 Hl. unfold ext_body.
  apply safe_if; intros _.
  { eapply safe_bind; [apply safe_ext_sn; try done; intros; lia|]. intros. by apply safe_ret. }
  apply safe_if; intros _.
  { apply safe_if; intros _; [by apply safe_ret|].
    eapply safe_bind; [apply safe_rd with (Q := is_byte); [done|lia|done]|]. intros grp Hg.
    safe_step. apply safe_ret. split; [|done]. by destruct a. }
  apply safe_if; intros _.
  { apply safe_if; intros _; [by apply safe_ret|].
    eapply safe_bind; [apply safe_set_node_mos|]. intros. by apply safe_ret. }
  apply safe_if; intros _; by apply safe_ret.
Qed.

Definition parsed (n : nat) (r : option (nat * option nat * nonces_t)) : Prop :=
  match r with
  | Some (h, mp, non) =>
      (4 <= h)%nat /\ (h + 8 <= n)%nat /\ idx_ok MPAN_TABLE_SIZE mp /\ nonces_ok non
  | None => True
  end.

(** The extension loop terminates within its fuel and stays inside the frame. *)
Lemma safe_parse_ext fuel : forall conn msg span e mp non,
  bytes msg -> Z.of_nat (length msg) < 65000 -> idx_ok SPAN_TABLE_SIZE span ->
  idx_ok MPAN_TABLE_SIZE mp -> nonces_ok non ->
  (4 <= e)%nat -> (e + 8 <= length msg)%nat -> (length msg < fuel + e)%nat ->
  safe (parse_ext fuel conn msg span e e mp non) (parsed (length msg)).
Proof.
  induction fuel as [|fuel IH]; intros conn msg span e mp non Hb HL Hi Hm Hn He1 He Hf; [lia|].
  cbn [parse_ext].
  eapply safe_bind; [apply safe_rd with (Q := is_byte); [done|lia|done]|]. intros el Hel.
  unfold is_byte in Hel. rewrite u16_small by lia.
  replace (Z.to_nat (Z.of_nat e + el)) with (e + Z.to_nat el)%nat by lia.
  apply safe_if; intros Hc; [by apply safe_ret|]. zbool.
  match goal with H : Nat.ltb _ _ = false |- _ => apply Nat.ltb_ge in H; unfold AUTH_TAG_LEN in H end.
  eapply safe_bind; [apply safe_rd with (Q := is_byte); [done|lia|done]|]. intros ty Hty.
  eapply safe_bind; [apply safe_ext_body; try done; lia|]. intros [[mp' non']|] Hr; [|by apply safe_ret].
  destruct Hr as [Hm' Hn'].
  apply safe_if; intros _; [apply IH; try done; lia|].
  apply safe_ret. repeat split; auto; lia.
Qed.
End Parse.

Section Decrypt.
Context {U : AllowUninit} {C : BlockCipher} {HC : BlockCipherOk C} {I : InclusionFsm} {P : Platform}.
Variable post : event_t -> event_data_t -> M unit.
Hypothesis post_mos : forall conn, conn_ok conn -> safe (post GOT_ENC_MSG_MOS (EvCon conn)) any.

(** A connection with a valid class that is multicast exactly when [conn] is. *)
Definition same_cast (conn r : s2_connection_t) : Prop := conn_ok r /\ is_multicast r = is_multicast conn.

Lemma multicast_followup x : has_bits (Z.lor x S2_RXOPTION_FOLLOWUP) S2_RXOPTION_MULTICAST = has_bits x S2_RXOPTION_MULTICAST.
Proof.
  unfold has_bits, S2_RXOPTION_FOLLOWUP, S2_RXOPTION_MULTICAST. rewrite Z.land_lor_distr_l.
  change (Z.land 2 1) with 0. by rewrite Z.lor_0_r.
Qed.

Lemma safe_decrypt_ok conn i mp :
  (i < SPAN_TABLE_SIZE)%nat -> idx_ok MPAN_TABLE_SIZE mp ->
  safe (decrypt_ok post conn i mp) (same_cast conn).
Proof.
  intros Hi Hm. unfold decrypt_ok. safe_step. safe_step. destruct H0 as (_ & _ & Hcl & _).
  destruct mp as [j|]; [|by apply safe_ret]. simpl in Hm.
  safe_step.
  eapply safe_bind with (R := any); [|intros; apply safe_ret; split; [done|apply multicast_followup]].
  apply safe_if; intros _; [|by apply safe_next_mpan].
  eapply safe_bind; [apply safe_modify; intros; by apply upd_ctxt_cur|intros]. by apply post_mos.
Qed.

Definition tried (conn : s2_connection_t) (n : nat) (r : option (s2_connection_t * list Z * nat)) : Prop :=
  match r with
  | Some (conn', text, dl) =>
      same_cast conn conn' /\ length text = n /\ bytes text /\ (dl = 0 \/ dl + 8 = n)%nat
  | None => True
  end.

Lemma safe_try_decrypt i s c aad ct :
  (i < SPAN_TABLE_SIZE)%nat -> span_ok s -> bytes aad -> (length aad <= 64)%nat -> bytes ct ->
  (length ct <= WORKBUF_LEN)%nat ->
  safe (if has_bits (loaded_keys c) (Z.shiftl 1 (sp_class s)) then
          let '(nonce, g) := NextNonce.next_nonce_generate (d_rng s) in
          upd_span i (set_rng g);;
          sgrp ← get_sg (sp_class s);
          mret (Ccm.CCM_decrypt_and_auth (enc_key sgrp) nonce aad ct)
        else mret (0%nat, ct))
    (fun r => length (snd r) = length ct /\ bytes (snd r) /\ (fst r = 0 \/ fst r + 8 = length ct)%nat).
Proof.
  intros Hi Hs Ha HaL Hct HL. apply safe_if; intros _; [|apply safe_ret; by auto].
  pose proof (generate_nonce _ Hs) as Hn. destruct (NextNonce.next_nonce_generate _) as [nonce g].
  destruct Hn as (HnL & HnB & Hg).
  eapply safe_bind; [by apply safe_upd_rng|intros].
  eapply safe_bind; [apply safe_get_sg, Hs|]. intros sgr (Hk & _ & _ & Hkb & _).
  apply safe_ret.
  assert (length ct < 1400)%nat by (unfold WORKBUF_LEN, WORKBUF_SIZE in *; lia).
  pose proof (Ccm.decrypt_total (enc_key sgr) nonce aad ct) as HD.
  destruct (Ccm.CCM_decrypt_and_auth _ _ _ _) as [n b]. apply HD; try done; try lia. by right.
Qed.

Lemma safe_try_classes n : forall conn i mp non aad ct,
  allow_uninit ->
  conn_ok conn -> (i < SPAN_TABLE_SIZE)%nat -> idx_ok MPAN_TABLE_SIZE mp -> nonces_ok non ->
  bytes aad -> (length aad <= 64)%nat -> bytes ct -> (length ct <= WORKBUF_LEN)%nat ->
  safe (try_classes post n conn i mp non aad ct) (tried conn (length ct)).
Proof.
  induction n as [|n IH]; intros conn i mp non aad ct HU Hc Hi Hm Hn Ha HaL Hct HL.
  { apply safe_ret. by split_and!; auto. }
  cbn [try_classes]. do 2 safe_step. rename H0 into Hs, a0 into s.
  eapply safe_bind; [by apply safe_try_decrypt|]. intros [dl ct'] (HctL & Hctb & Hdl). cbn [fst snd] in *.
  apply safe_if; intros _.
  { eapply safe_bind; [by apply safe_decrypt_ok|]. intros conn' Hc'. apply safe_ret. by split_and!. }
  do 2 safe_step. rename H1 into Hc1, H0 into Hs1.
  apply safe_if; intros _; [by apply safe_ret|].
  match goal with |- safe (mbind _ (upd_span i (set_sp_class ?x))) _ => set (cls := x) end.
  assert (Hcls : 0 <= cls < 7).
  { unfold cls. destruct (Z.leb_spec (Z.of_nat N_SEC_CLASS) (u8 (sp_class a0 + 1)));
      pose proof (u8_byte (sp_class a0 + 1)) as Hb; unfold is_byte, N_SEC_CLASS in *; lia. }
  eapply safe_bind; [apply safe_upd_span; [done|]|intros].
  { intros s' (? & ? & ? & ?). by entry_ok. }
  eapply safe_bind; [apply safe_rds with (Q := fun l => length l = length ct /\ bytes l)|].
  { rewrite (ok_wb_len _ Hc1). lia. }
  { rewrite length_sub by (rewrite (ok_wb_len _ Hc1); lia). pose proof (ok_wb _ Hc1). by auto with zw. }
  intros ct2 [HL2 HB2].
  eapply safe_bind with (R := fun p => nonces_ok (Some p)).
  { destruct non as [p|]; [by apply safe_ret|by apply safe_uninit]. }
  intros [sn rn] (H1' & H2' & H3' & H4').
  eapply safe_bind; [by apply safe_get_sg|]. intros g (_ & _ & Hg1 & _ & _ & Hg2).
  eapply safe_bind; [apply safe_upd_rng; [done|by apply next_nonce_instantiate_ok]|intros].
  rewrite <- HL2. apply IH; try done. lia.
Qed.

Definition enc_parsed (dl : nat) (r : option (nat * s2_connection_t)) : Prop :=
  match r with Some (h, conn) => (h <= dl)%nat /\ conn_ok conn | None => True end.

Lemma safe_parse_enc_ext fuel : forall conn text span dl off,
  bytes text -> Z.of_nat (length text) < 65000 -> conn_ok conn ->
  (is_multicast conn = false -> exists i, span = Some i /\ (i < SPAN_TABLE_SIZE)%nat) ->
  (dl + 8 = length text)%nat -> (off <= dl)%nat -> (dl < fuel + off)%nat ->
  safe (parse_enc_ext fuel conn text span dl off off) (enc_parsed dl).
Proof.
  induction fuel as [|fuel IH]; intros conn text span dl off Hb HL Hc Hsp Hdl Ho Hf; [lia|].
  cbn [parse_enc_ext].
  eapply safe_bind; [apply safe_rd with (Q := is_byte); [done|lia|done]|]. intros el Hel.
  unfold is_byte in Hel. rewrite u16_small by lia.
  replace (Z.to_nat (Z.of_nat off + el)) with (off + Z.to_nat el)%nat by lia.
  apply safe_if; intros Hcond; [by apply safe_ret|]. zbool.
  match goal with H : Nat.ltb _ _ = false |- _ => apply Nat.ltb_ge in H end.
  eapply safe_bind; [apply safe_rd with (Q := is_byte); [done|lia|done]|]. intros ty Hty.
  eapply safe_bind with (R := fun r => match r with
    | Some conn' => conn_ok conn' /\ (is_multicast conn' = false -> is_multicast conn = false)
    | None => True end).
  - apply safe_if; intros _.
    + apply safe_if; intros Hm; [by apply safe_ret|]. zbool. destruct Hsp as (i & -> & Hi); [done|].
      eapply safe_bind; [apply safe_rd with (Q := is_byte); [done|lia|done]|]. intros grp Hg.
      eapply safe_bind; [by apply safe_find_mpan|]. intros [j|] Hj; [|done].
      eapply safe_bind; [by apply (safe_ret j (eq j))|]. intros ? <-.
      eapply safe_bind; [apply safe_rds with (Q := fun l => length l = 16%nat /\ bytes l); [lia|]|].
      { split; [apply length_sub; lia|auto with zw]. }
      intros st [HsL HsB]. eapply safe_bind; [by apply (safe_ret i (eq i))|]. intros ? <-.
      eapply safe_bind; [by apply safe_get_span|]. intros s (_ & _ & Hcl & _).
      eapply safe_bind; [apply safe_upd_mpan; [done|]|intros; apply safe_ret; split; [done|]].
      intros m (? & ? & ? & ?). by entry_ok. done.
    + apply safe_if; intros _; by apply safe_ret.
  - intros [conn'|] Hr; [|by apply safe_ret]. destruct Hr as [Hc' Hmul].
    apply safe_if; intros _; [|by apply safe_ret].
    apply IH; auto; lia.
Qed.

Definition dec_res (n : nat) (r : decrypted) : Prop :=
  conn_ok (dconn r) /\ bytes (text r) /\ (length (text r) <= n)%nat /\
  (rc r = AUTH_OK -> plain_off r + plain_len r + 8 <= length (text r))%nat.

Lemma safe_auth_fail conn span mp n :
  conn_ok conn -> idx_ok SPAN_TABLE_SIZE span -> idx_ok MPAN_TABLE_SIZE mp ->
  safe (auth_fail conn span mp) (dec_res n).
Proof.
  intros Hc Hs Hm. unfold auth_fail.
  eapply safe_bind with (R := any).
  { destruct mp as [j|]; [|by apply safe_ret]. apply safe_upd_mpan; [done|].
    intros m (? & ? & ? & ?). by entry_ok. }
  intros. eapply safe_bind with (R := any).
  { destruct span as [i|]; [by apply safe_upd_state|by apply safe_ret]. }
  intros. eapply safe_bind with (R := any).
  { apply safe_if; intros _; [apply safe_send_nonce_report|by apply safe_ret]. }
  intros. apply safe_ret. split; [done|]. split; [constructor|]. simpl. split; [lia|done].
Qed.

Lemma safe_decrypt_body conn msg h span mp non :
  allow_uninit -> conn_ok conn -> l_node conn < 256 -> r_node conn < 256 -> bytes msg ->
  (length msg <= WORKBUF_LEN)%nat -> (4 <= h)%nat -> (h + 8 <= length msg)%nat ->
  idx_ok SPAN_TABLE_SIZE span -> idx_ok MPAN_TABLE_SIZE mp -> nonces_ok non -> (span = None -> mp <> None) ->
  safe (decrypt_body post conn msg h span mp non) (fun r => same_cast conn (fst r) /\
    match snd r with
    | Some (text, dl) => bytes text /\ (length text <= length msg)%nat /\ (dl + 8 = length text)%nat
    | None => True
    end).
Proof.
  intros HU Hc Hln Hrn Hb HL Hh4 Hh Hsp Hm Hn Hnone. unfold decrypt_body.
  eapply safe_bind; [apply safe_make_aad; [lia|done|by right]|]. intros aad [HaB HaL].
  assert (Hct : bytes (drop h msg)) by auto with zw.
  assert (HctL : length (drop h msg) = (length msg - h)%nat) by apply length_drop.
  eapply safe_bind with (R := tried conn (length msg - h)).
  - destruct span as [i|].
    + simpl in Hsp. do 2 safe_step. eapply safe_bind with (R := any).
      { apply safe_if; intros _; [|by apply safe_ret]. apply safe_wb_write; [lia|done]. }
      intros. rewrite <- HctL. apply safe_try_classes; try done. lia.
    + destruct mp as [j|]; [|by destruct (Hnone eq_refl)]. simpl in Hm.
      eapply safe_bind; [by apply (safe_ret j (eq j))|]. intros ? <-.
      safe_step. destruct H as (HmL & HmB & Hcl & _).
      eapply safe_bind; [by apply safe_get_sg|]. intros sgr (Hk & Hmk & _ & Hkb & Hmb & _).
      eapply safe_bind; [by apply safe_next_mpan|intros].
      assert (length msg < 1400)%nat by (unfold WORKBUF_LEN, WORKBUF_SIZE in *; lia).
      pose proof (Ccm.decrypt_total (enc_key sgr) (block_encrypt (inner_state a) (mpan_key sgr)) aad (drop h msg)) as HD.
      destruct (Ccm.CCM_decrypt_and_auth _ _ _ _) as [dl text]. apply safe_ret.
      destruct HD as (HtL & HtB & Hdl); try done; try lia; [by right; apply block_length|by apply block_bytes|].
      rewrite HctL in *. by split_and!.
  - intros [[[conn' text] dl]|] Hr; [|by apply safe_ret]. destruct Hr as (Hc' & HtL & HtB & Hdl).
    destruct (Nat.eqb_spec dl 0), (Nat.eqb_spec (length aad) 0); cbn [orb]; apply safe_ret; try done.
    split; [done|]. cbn. split; [done|]. lia.
Qed.
End Decrypt.

(** ** The state machine *)

(** A received frame. *)
Definition frame_ok (l : list Z) : Prop := bytes l /\ (length l <= 1210)%nat.

(** The data that comes with each event. *)
Definition ev_ok (e : event_t) (dat : event_data_t) : Prop :=
  match e, dat with
  | SEND_MSG, EvBuf con b len | SEND_MULTICAST, EvBuf con b len => conn_ok con /\ buf_ok b len
  | SEND_MSG, _ | SEND_MULTICAST, _ => False
  | (GOT_NONCE_GET | GOT_NONCE_RAPORT), EvBuf con (BufExt l) len =>
      conn_ok con /\ frame_ok l /\ (4 <= length l)%nat /\ len = Z.of_nat (length l)
  | (GOT_NONCE_GET | GOT_NONCE_RAPORT), _ => False
  | SEND_DONE, EvTx st t => st = S2_TRANSMIT_COMPLETE_OK -> t <> None
  | SEND_DONE, _ => False
  | GOT_ENC_MSG, (EvBuf _ _ _ | EvCon _) => True
  | GOT_ENC_MSG, _ => False
  | GOT_ENC_MSG_MOS, EvCon con => conn_ok con
  | GOT_ENC_MSG_MOS, _ => False
  | _, _ => True
  end.

Section FsmSafe.
Context {U : AllowUninit} {C : BlockCipher} {HC : BlockCipherOk C} {I : InclusionFsm} {HI : InclusionIdle I}
        {P : Platform}.

Lemma set_inclusion_peer_ok c p : ctxt_ok c -> ctxt_ok (set_inclusion_peer p c).
Proof. intros []. by constructor. Qed.

Lemma safe_inc_send_done b : safe (s2_inclusion_send_done b) any.
Proof. intros w Hw. by destruct (idle_send_done b w (ok_idle _ (proj1 Hw))) as [i ->]. Qed.

Lemma safe_inc_failure con : safe (s2_inclusion_decryption_failure con) any.
Proof. intros w Hw. by destruct (idle_decryption_failure con w (ok_idle _ (proj1 Hw))) as [i ->]. Qed.

Lemma set_buf_ok c b len : ctxt_ok c -> buf_ok b len -> ctxt_ok (set_length len (set_buf b c)).
Proof. intros [] Hb. by constructor. Qed.

(** A received command is handed over with its bytes in [buf]. *)
Lemma safe_inc_post con l len : buf_ok (BufExt l) len -> (2 <= length l)%nat ->
  safe (modify (fun c => set_length len (set_buf (BufExt l) c));; s2_inclusion_post_event con) any.
Proof.
  intros Hb Hl w [Hc Hg]. set (w1 := set_ctxt (set_length len (set_buf (BufExt l) (ctxt w))) w).
  destruct (idle_post_event con w1) as (p & i & E); [apply (ok_idle _ Hc)|by exists l|].
  unfold modify, mbind, M_bind. fold w1. rewrite E. split; [|done]. split; [|done].
  by apply set_inclusion_peer_ok, set_buf_ok.
Qed.

Lemma safe_set_fsm st : st <> SENDING_MULTICAST -> safe (set_fsm_state st) any.
Proof. intros. apply safe_modify. intros c []. by constructor. Qed.

Lemma safe_set_peer con b len : conn_ok con -> buf_ok b len -> safe (S2_set_peer con b len) any.
Proof. intros. apply safe_modify. intros c []. by constructor. Qed.

Lemma safe_set_retry f : safe (modify (fun c => set_retry (f c) c)) any.
Proof. apply safe_modify. intros c []. by constructor. Qed.

Lemma safe_send_done_event st : safe (S2_post_send_done_event st) any.
Proof.
  unfold S2_post_send_done_event. eapply safe_bind; [apply safe_inc_send_done|intros]. apply safe_emit.
Qed.

Lemma safe_done_idle st : safe (set_fsm_state IDLE;; S2_post_send_done_event st) any.
Proof. eapply safe_bind; [by apply safe_set_fsm|intros]. apply safe_send_done_event. Qed.

Lemma safe_resync con l len : frame_ok l -> (4 <= length l)%nat ->
  safe (emit_S2_synchronization_event SOS_EVENT_REASON_UNANSWERED (EvBuf con (BufExt l) len)) any.
Proof.
  intros [Hb Hu] Hl. unfold emit_S2_synchronization_event.
  eapply safe_bind with (R := any); [by apply safe_ret|intros].
  eapply safe_bind; [by apply (safe_ret _ (eq (BufExt l, len)))|]. intros [b n] [= <- <-].
  eapply safe_bind; [apply safe_frame_byte; [done|lia]|intros]. apply safe_emit.
Qed.

Lemma set_length_0_ok c : ctxt_ok c -> ctxt_ok (set_length 0 c).
Proof.
  intros []. constructor; try done. cbn. destruct ok_buf0 as [Hl Hb]. split; [done|].
  destruct (buf c); [done|split; [lia|apply Hb]|lia].
Qed.

(** A SEND_DONE event is handled without posting another one. *)
Lemma safe_step_send_done post st t :
  (st = S2_TRANSMIT_COMPLETE_OK -> t <> None) -> safe (fsm_step post SEND_DONE (EvTx st t)) any.
Proof.
  intros Ht. unfold fsm_step. safe_step. rename H into Hc.
  assert (Hshort : safe (if st =? S2_TRANSMIT_COMPLETE_OK then t' ← ev_time (EvTx st t); emit (SetTimeout t')
                         else set_fsm_state IDLE;; S2_post_send_done_event st) any).
  { apply safe_if; intros Hst; [|apply safe_done_idle]. zbool. destruct t as [t|]; [|by destruct Ht].
    eapply safe_bind with (R := any); [by apply safe_ret|intros]. apply safe_emit. }
  assert (Hst : forall Q : M unit, safe Q any -> safe (st' ← ev_status (EvTx st t); Q) any).
  { intros Q HQ. eapply safe_bind with (R := any); [by apply safe_ret|done]. }
  destruct (fsm a) eqn:E.
  - eapply safe_bind; [by apply (safe_ret st (eq st))|]. intros ? <-. apply safe_inc_send_done.
  - eapply safe_bind; [by apply (safe_ret st (eq st))|]. by intros ? <-.
  - eapply safe_bind; [by apply (safe_ret st (eq st))|]. intros ? <-. apply safe_done_idle.
  - by destruct (ok_fsm _ Hc).
  - eapply safe_bind; [by apply (safe_ret st (eq st))|]. by intros ? <-.
  - eapply safe_bind; [by apply (safe_ret st (eq st))|]. intros ? <-. apply safe_inc_send_done.
Qed.

Section Step.
Variable post : event_t -> event_data_t -> M unit.
Hypothesis post_send_done : safe (post SEND_DONE (EvTx S2_TRANSMIT_COMPLETE_FAIL None)) any.

Lemma safe_send_msg_state_enter : safe (send_msg_state_enter post) any.
Proof.
  unfold send_msg_state_enter. eapply safe_bind; [by apply safe_set_fsm|intros]. safe_step.
  eapply safe_bind with (R := any).
  { apply safe_if; intros _; [|by apply safe_ret].
    eapply safe_bind; [by apply safe_set_fsm|intros]. apply safe_emit. }
  intros. eapply safe_bind; [by apply safe_encrypt_and_send|intros].
  apply (safe_set_retry (fun c => u8 (retry c - 1))).
Qed.

Lemma safe_multi_tail j :
  (j < MPAN_TABLE_SIZE)%nat ->
  safe (modify (set_mpan (Some j));; set_fsm_state SENDING_MSG;; S2_encrypt_and_send_multi post) any.
Proof.
  intros Hj w [Hc Hg]. pose (w' := set_ctxt (set_fsm SENDING_MSG (set_mpan (Some j) (ctxt w))) w).
  assert (Hw' : world_ok w') by (split; [destruct Hc; by constructor|done]).
  pose proof (safe_encrypt_and_send_multi post post_send_done w' j Hw' eq_refl) as H.
  change ((modify (set_mpan (Some j));; set_fsm_state SENDING_MSG;; S2_encrypt_and_send_multi post) w)
    with (S2_encrypt_and_send_multi post w').
  by destruct (S2_encrypt_and_send_multi post w') as [[[] w2]|f].
Qed.

Lemma safe_fsm_idle e dat : ev_ok e dat -> e <> SEND_DONE -> safe (fsm_idle post e dat) any.
Proof.
  intros He Hne. destruct e; try (by apply safe_ret); cbn [fsm_idle].
  - destruct dat as [con b len|? ?|?|]; try done. destruct He as [Hcon Hb].
    eapply safe_bind; [by apply (safe_ret con (eq con))|]. intros ? <-.
    eapply safe_bind; [by apply (safe_ret _ (eq (b, len)))|]. intros [? ?] [= <- <-].
    safe_step. apply safe_if; intros _.
    + eapply safe_bind; [by apply safe_set_peer|intros].
      eapply safe_bind; [apply (safe_set_retry (fun _ => 2))|intros]. apply safe_send_msg_state_enter.
    + eapply safe_bind; [by apply safe_set_fsm|intros].
      eapply safe_bind; [apply (safe_set_retry (fun _ => 2))|intros].
      eapply safe_bind; [by apply safe_set_peer|intros].
      eapply safe_bind; [by apply safe_send_nonce_get|intros]. apply safe_emit.
  - destruct dat as [con b len|? ?|?|]; try done. destruct He as [Hcon Hb].
    eapply safe_bind; [by apply (safe_ret con (eq con))|]. intros ? <-.
    eapply safe_bind; [by apply (safe_ret _ (eq (b, len)))|]. intros [? ?] [= <- <-].
    eapply safe_bind; [by apply safe_set_peer|intros].
    eapply safe_bind; [apply safe_find_mpan; intros; apply u8_byte|]. intros [j|] Hj; [|done]. by apply safe_multi_tail.
  - done.
  - destruct dat as [con [|l|] len|? ?|?|]; try done. destruct He as (Hcon & [Hb Hu] & Hl & ->).
    eapply safe_bind; [by apply (safe_ret con (eq con))|]. intros ? <-.
    eapply safe_bind; [by apply (safe_ret _ (eq (BufExt l, Z.of_nat (length l))))|]. intros [? ?] [= <- <-].
    apply safe_if; intros _; [|by apply safe_ret].
    eapply safe_bind; [apply safe_frame_byte; [done|lia]|intros]. safe_step.
    apply safe_if; intros _; [apply safe_send_nonce_report|by apply safe_ret].
  - destruct dat as [con [|l|] len|? ?|?|]; try done. destruct He as (Hcon & [Hb Hu] & Hl & ->).
    eapply safe_bind; [by apply (safe_ret con (eq con))|]. intros ? <-.
    eapply safe_bind; [by apply (safe_ret _ (eq (BufExt l, Z.of_nat (length l))))|]. intros [? ?] [= <- <-].
    eapply safe_bind; [apply safe_set_peer; [done|]|intros].
    { split; [unfold MAX_PAYLOAD; lia|]. split; [lia|done]. }
    eapply safe_bind; [by apply safe_register_nonce|intros]. by apply safe_resync.
  - destruct dat as [? ? ?|? ?|con|]; try done. simpl in He.
    eapply safe_bind; [apply safe_emit|intros].
    eapply safe_bind; [by apply (safe_ret con (eq con))|]. intros ? <-.
    eapply safe_bind; [by apply safe_set_peer|intros]. by apply safe_set_fsm.
  - safe_step. apply safe_if; intros _; [|by apply safe_ret].
    eapply safe_bind; [apply safe_modify; intros; by apply upd_ctxt_cur|intros].
    eapply safe_bind; [by apply safe_set_fsm|intros]. apply safe_send_nonce_report.
Qed.

Lemma safe_fsm_wait e dat : ev_ok e dat -> e <> SEND_DONE -> safe (fsm_wait_nonce post e dat) any.
Proof.
  intros He Hne. destruct e; try (by apply safe_ret); cbn [fsm_wait_nonce]; [done| |].
  - destruct dat as [con [|l|] len|? ?|?|]; try done. destruct He as (Hcon & [Hb Hu] & Hl & ->).
    eapply safe_bind; [by apply (safe_ret con (eq con))|]. intros ? <-. safe_step.
    apply safe_if; intros _; [|by apply safe_resync].
    eapply safe_bind; [by apply (safe_ret _ (eq (BufExt l, Z.of_nat (length l))))|]. intros [? ?] [= <- <-].
    eapply safe_bind; [by apply safe_register_nonce|intros].
    apply safe_if; intros _; [apply safe_send_msg_state_enter|by apply safe_ret].
  - apply safe_done_idle.
Qed.

Lemma safe_fsm_sending e dat : ev_ok e dat -> e <> SEND_DONE -> safe (fsm_sending e dat) any.
Proof.
  intros He Hne. destruct e; try (by apply safe_ret); cbn [fsm_sending]; [done|].
  destruct dat as [con [|l|] len|? ?|?|]; try done. destruct He as (Hcon & [Hb Hu] & Hl & ->).
  eapply safe_bind; [by apply (safe_ret con (eq con))|]. intros ? <-. safe_step.
  apply safe_if; intros _; [by apply safe_resync|by apply safe_ret].
Qed.

Lemma safe_fsm_verifying e dat : ev_ok e dat -> e <> SEND_DONE -> safe (fsm_verifying post e dat) any.
Proof.
  intros He Hne. destruct e; try (by apply safe_ret); cbn [fsm_verifying]; [done| | |].
  - destruct dat as [con [|l|] len|? ?|?|]; try done. destruct He as (Hcon & [Hb Hu] & Hl & ->).
    eapply safe_bind; [by apply (safe_ret con (eq con))|]. intros ? <-. safe_step.
    apply safe_if; intros _; [|by apply safe_resync].
    eapply safe_bind; [by apply (safe_ret _ (eq (BufExt l, Z.of_nat (length l))))|]. intros [? ?] [= <- <-].
    eapply safe_bind; [by apply safe_register_nonce|intros].
    apply safe_if; intros _; [by apply safe_ret|].
    eapply safe_bind with (R := any).
    { apply safe_if; intros _; [|by apply safe_ret]. apply safe_modify, set_length_0_ok. }
    intros. safe_step. apply safe_if; intros _; [apply safe_done_idle|apply safe_send_msg_state_enter].
  - assert (Hcon : exists con, ev_con dat = mret con) by (destruct dat; try done; by eexists).
    destruct Hcon as [con ->].
    eapply safe_bind; [by apply (safe_ret con (eq con))|]. intros ? <-. safe_step.
    apply safe_if; intros _; [|by apply safe_ret]. safe_step. apply safe_if; intros _.
    + eapply safe_bind; [apply safe_modify|intros; apply safe_send_msg_state_enter].
      intros c Hc. apply set_length_0_ok in Hc. destruct Hc. by constructor.
    + eapply safe_bind; [by apply safe_set_fsm|intros].
      eapply safe_bind; [apply safe_emit|intros]. apply safe_send_done_event.
  - apply safe_done_idle.
Qed.

Lemma safe_fsm_step e dat : ev_ok e dat -> safe (fsm_step post e dat) any.
Proof.
  intros He. destruct (decide (e = SEND_DONE)) as [->|Hne].
  { destruct dat; try done. by apply safe_step_send_done. }
  unfold fsm_step. safe_step. rename H into Hc. destruct (fsm a) eqn:E.
  - by apply safe_fsm_idle.
  - by apply safe_fsm_wait.
  - by apply safe_fsm_sending.
  - by destruct (ok_fsm _ Hc).
  - by apply safe_fsm_verifying.
  - by apply safe_fsm_idle.
Qed.
End Step.

Lemma safe_post_event e dat : ev_ok e dat -> safe (S2_fsm_post_event e dat) any.
Proof. intros He. apply safe_fsm_step; [|done]. by apply safe_step_send_done. Qed.
End FsmSafe.

(** ** Entry points *)

Section Entry.
Context {C : BlockCipher} {HC : BlockCipherOk C} {I : InclusionFsm} {HI : InclusionIdle I} {P : Platform}.

Lemma safe_decrypt_msg {U : AllowUninit} conn msg :
  allow_uninit -> conn_ok conn -> l_node conn < 256 -> r_node conn < 256 -> bytes msg ->
  (4 <= length msg <= WORKBUF_LEN)%nat ->
  safe (S2_decrypt_msg S2_fsm_post_event conn msg) (dec_res (length msg)).
Proof.
  intros HU Hc Hln Hrn Hb HL.
  assert (HW : (length msg < 1400)%nat) by (unfold WORKBUF_LEN, WORKBUF_SIZE in *; lia).
  assert (Hpf : forall cn, conn_ok cn -> safe (parse_fail cn) (dec_res (length msg))).
  { intros cn Hcn. apply safe_ret. split; [done|]. split; [constructor|]. simpl. split; [lia|done]. }
  unfold S2_decrypt_msg.
  eapply safe_bind; [apply safe_rd with (Q := is_byte); [done|lia|done]|]. intros flags Hfl.
  apply safe_if; intros Hlt; [by apply Hpf|]. apply Nat.ltb_ge in Hlt. unfold AUTH_TAG_LEN in Hlt.
  eapply safe_bind; [apply safe_rd with (Q := is_byte); [done|lia|done]|]. intros seq Hseq.
  eapply safe_bind with (R := any); [apply safe_if; intros _; [by apply safe_ret|apply safe_verify_seq]|].
  intros ok _. apply safe_if; intros _.
  { apply safe_ret. split; [done|]. split; [constructor|]. simpl. split; [lia|done]. }
  eapply safe_bind with (R := fun sp => idx_ok SPAN_TABLE_SIZE sp /\ (is_multicast conn = false -> sp <> None)).
  { apply safe_if; intros Hm; [by apply safe_ret; rewrite Hm|].
    eapply safe_bind; [apply safe_find_span|]. intros i Hi. by apply safe_ret. }
  intros span [Hsp Hmul].
  eapply safe_bind with (R := parsed (length msg)).
  { apply safe_if; intros _; [apply safe_parse_ext; try done; lia|]. apply safe_ret. split_and!; try done; lia. }
  intros [[[h mp] non]|] Hh; [|by apply Hpf]. destruct Hh as (Hh4 & Hh8 & Hmp & Hnon).
  eapply safe_bind with (R := fun pre => match pre with
    | Some cn => conn_ok cn /\ l_node cn < 256 /\ r_node cn < 256 /\ (span = None -> mp <> None) /\
                 is_multicast cn = is_multicast conn
    | None => True end).
  { destruct span as [i|].
    - eapply safe_bind; [by apply safe_get_span|]. intros s Hs. apply safe_if; intros _; by apply safe_ret.
    - destruct mp as [j|]; [|by apply safe_ret].
      eapply safe_bind; [by apply safe_get_mpan|]. intros m (_ & _ & _ & Hg). unfold is_byte in Hg.
      apply safe_if; intros _; apply safe_ret; [|done]. split_and!; try done. simpl. lia. }
  intros [cn|]; [|intros _; by apply safe_auth_fail]. intros (Hc1 & Hl1 & Hr1 & Hnone & Hm1).
  eapply safe_bind; [apply safe_decrypt_body; try done; [|lia]|].
  { intros cn' Hcn'. by apply safe_post_event. }
  intros [cn2 [[text dl]|]] [Hc2 Ht]; [|apply safe_auth_fail; try done; apply Hc2]. cbn [fst snd] in *.
  destruct Ht as (HtB & HtL & Hdl). destruct Hc2 as [Hc2 Hm2].
  eapply safe_bind with (R := enc_parsed dl).
  { apply safe_if; intros _; [|apply safe_ret; split; [lia|done]].
    apply safe_parse_enc_ext; try done; try lia.
    intros Hm. rewrite Hm2, Hm1 in Hm. specialize (Hmul Hm). destruct span as [i|]; [by exists i|done]. }
  intros [[eh cn3]|] He; [|by apply Hpf]. destruct He as [He Hc3]. apply safe_ret.
  split_and!; cbn; try done. intros _. lia.
Qed.
End Entry.

Section Api.
Context {C : BlockCipher} {HC : BlockCipherOk C} {I : InclusionFsm} {HI : InclusionIdle I} {P : Platform}.

(** The command classes the platform reports are bytes. *)
Class PlatformOk := {
  commands_bytes : forall n cl, bytes (S2_get_commands_supported n cl);
  entropy_ok : length (S2_get_hw_random 32) = 32%nat /\ bytes (S2_get_hw_random 32)
}.
Context {HP : PlatformOk}.

Lemma to_lr_ok con : conn_ok con -> conn_ok (convert_normal_to_lr_keyclass con).
Proof.
  intros Hc. unfold convert_normal_to_lr_keyclass.
  destruct (class_id con =? ACCESS_KEY_SLOT); [done|]. by destruct (class_id con =? AUTHENTICATED_KEY_SLOT).
Qed.

Lemma safe_all_cast {U : AllowUninit} con b len ev :
  conn_ok con -> buf_ok b len -> safe (S2_send_data_all_cast con b len ev) any.
Proof.
  intros Hc Hb. unfold S2_send_data_all_cast. safe_step.
  apply safe_if; intros _; [by apply safe_ret|].
  assert (Hpost : forall e, e = SEND_MSG \/ e = SEND_MULTICAST ->
    safe (S2_fsm_post_event e (EvBuf con b len);; mret true) any).
  { intros e He. eapply safe_bind; [apply safe_post_event; by destruct He as [-> | ->]|]. intros. by apply safe_ret. }
  destruct ev; try (by apply safe_ret); [apply Hpost; auto|apply Hpost; auto|].
  eapply safe_bind; [by apply safe_find_mpan|]. intros o Ho.
  eapply safe_bind with (R := any); [|intros; apply Hpost; auto].
  destruct o as [j|]; [|by apply safe_ret]. apply safe_modify. intros. by apply upd_ctxt_cur.
Qed.

Lemma set_u_ok c l : ctxt_ok c -> length l = 40%nat -> bytes l -> ctxt_ok (set_u l c).
Proof. intros [] HL HB. by constructor. Qed.

Lemma safe_dispatch {U : AllowUninit} src text off len :
  conn_ok src -> bytes text -> (length text <= 1210)%nat ->
  (off + len + 8 <= length text)%nat -> safe (dispatch src text off len) any.
Proof.
  intros Hc Hb HL Hl. unfold dispatch.
  eapply safe_bind; [apply safe_rd with (Q := is_byte); [done|lia|done]|]. intros c0 _.
  eapply safe_bind with (R := any).
  { apply safe_if; intros _; [|by apply safe_ret]. apply safe_rd; [done|lia|done]. }
  intros c1 _. apply safe_if; intros _; [|apply safe_emit].
  apply safe_if; intros _; [by apply safe_ret|]. apply safe_if; intros _.
  - eapply safe_bind; [apply safe_modify; intros c Hc'; apply set_u_ok; [done| |]|intros].
    { rewrite length_splice; rewrite (ok_u_len _ Hc'); simpl; lia. }
    { pose proof (ok_u _ Hc'). auto with zw. }
    pose proof (commands_bytes (l_node src) (class_id src)) as Hcb.
    apply safe_if; intros H40; [by apply safe_ret|]. zbool.
    eapply safe_bind; [apply safe_modify; intros c Hc'; apply set_u_ok; [done| |]|intros].
    { rewrite length_splice; rewrite (ok_u_len _ Hc'); lia. }
    { pose proof (ok_u _ Hc'). auto with zw. }
    eapply safe_bind; [|intros; by apply safe_ret]. unfold S2_send_data.
    eapply safe_bind; [apply safe_all_cast|intros; by apply (safe_ret _ any)].
    + destruct (IS_LR_NODE _); [by apply to_lr_ok|done].
    + split; [unfold MAX_PAYLOAD; lia|lia].
  - apply safe_inc_post; rewrite ?length_drop; [|lia].
    split; [unfold MAX_PAYLOAD; lia|]. rewrite length_drop. split; [lia|auto with zw].
Qed.

Lemma safe_handler {U : AllowUninit} src b :
  allow_uninit -> conn_ok src -> l_node src < 256 -> r_node src < 256 -> frame_ok b -> (4 <= length b)%nat ->
  safe (S2_application_command_handler src b) any.
Proof.
  intros HU Hc Hln Hrn [Hb HL] H4. unfold S2_application_command_handler.
  assert (HW : (4 <= length b <= WORKBUF_LEN)%nat) by (unfold WORKBUF_LEN, WORKBUF_SIZE; lia).
  assert (Hfb : buf_ok (BufExt b) (Z.of_nat (length b))) by (split; [unfold MAX_PAYLOAD; lia|split; [lia|done]]).
  eapply safe_bind; [apply safe_rd with (Q := is_byte); [done|lia|done]|]. intros b0 _.
  apply safe_if; intros _; [by apply safe_ret|].
  eapply safe_bind; [apply safe_rd with (Q := is_byte); [done|lia|done]|]. intros b1 _.
  apply safe_if; intros _.
  { apply safe_if; intros _; [|by apply safe_ret].
    eapply safe_bind; [apply safe_rd with (Q := is_byte); [done|lia|done]|]. intros seq _. safe_step.
    apply safe_if; intros _; [apply safe_send_nonce_report|by apply safe_ret]. }
  apply safe_if; intros _.
  { apply safe_post_event. split_and!; try done. }
  apply safe_if; intros _.
  - eapply safe_bind; [by apply safe_decrypt_msg|]. intros r (Hc' & HtB & HtL & Hok).
    destruct (rc r) eqn:Erc; try (by apply safe_ret).
    + specialize (Hok eq_refl). eapply safe_bind; [by apply safe_post_event|intros].
      apply safe_if; intros _; [by apply safe_ret|]. apply safe_dispatch; try done. lia.
    + eapply safe_bind; [by apply safe_post_event|intros]. apply safe_inc_failure.
  - safe_step. apply safe_if; intros _; [by apply safe_ret|].
    apply safe_if; intros _; [|by apply safe_ret].
    apply safe_inc_post; [done|lia].
Qed.

(** ** The transport as a transition system *)

(** A call of the application or of the radio driver into the transport. *)
Inductive call :=
| CallSend (dst : s2_connection_t) (b : buf_ptr) (len : Z)
| CallMulticast (con : s2_connection_t) (b : buf_ptr) (len : Z)
| CallKeyset (ev : event_t) (con : s2_connection_t) (ks : zwave_s2_keyset_t) (b : buf_ptr) (len : Z)
| CallSendDone (status tx_time : Z)
| CallTimeout
| CallReceive (src : s2_connection_t) (frame : list Z)
| CallFreeMpan (owner grp : Z)
| CallKeyUpdate (cls : Z) (key : list Z) (temp : bool).

Definition run_call (cl : call) : M unit :=
  match cl with
  | CallSend dst b len => _ ← S2_send_data dst b len; mret tt
  | CallMulticast con b len => _ ← S2_send_data_multicast con b len; mret tt
  | CallKeyset ev con ks b len => _ ← send_with_keyset con ks b len ev; mret tt
  | CallSendDone st t => S2_send_frame_done_notify st t
  | CallTimeout => S2_timeout_notify
  | CallReceive src frame => S2_application_command_handler src frame
  | CallFreeMpan owner grp => S2_free_mpan owner grp
  | CallKeyUpdate cls key temp => _ ← S2_network_key_update cls key temp; mret tt
  end.

(** The contract of the callers: security classes in range, at most 1210 bytes of payload, complete
    S2 frames between classic nodes, 16-byte keys. *)
Definition call_ok (cl : call) : Prop :=
  match cl with
  | CallSend con b len | CallMulticast con b len | CallKeyset _ con _ b len => conn_ok con /\ buf_ok b len
  | CallReceive src frame =>
      conn_ok src /\ l_node src < 256 /\ r_node src < 256 /\ frame_ok frame /\ (4 <= length frame)%nat
  | CallKeyUpdate cls key _ => 0 <= cls /\ length key = 16%nat /\ bytes key
  | _ => True
  end.

Lemma upd_ctxt_sg c cls g : ctxt_ok c -> sg_ok g -> ctxt_ok (set_sg (<[cls := g]> (sg c)) c).
Proof. intros [] Hg. constructor; try done; cbn; [by rewrite length_insert|by apply Forall_insert]. Qed.

Lemma safe_key_update {U : AllowUninit} cls key temp :
  length key = 16%nat -> bytes key -> safe (S2_network_key_update cls key temp) any.
Proof.
  intros Hk Hb. unfold S2_network_key_update. apply safe_if; intros _; [by apply safe_ret|].
  assert (H55 : bytes (replicate 15 0x55)) by (by apply bytes_replicate).
  assert (H88 : bytes (replicate 15 0x88)) by (by apply bytes_replicate).
  pose proof (Kderiv.expand_chain key (replicate 15 0x55) Hk Hb eq_refl H55) as (E1 & L1 & L2 & L3 & B1 & B2 & B3).
  pose proof (Kderiv.expand_chain key (replicate 15 0x88) Hk Hb eq_refl H88) as (E2 & M1 & M2 & M3 & D1 & D2 & D3).
  assert (Hgo : forall ek nk mk, length ek = 16%nat -> length nk = 32%nat -> length mk = 16%nat ->
    bytes ek -> bytes nk -> bytes mk ->
    safe (modify (fun c => set_sg (<[Z.to_nat cls := mkSg ek mk nk]> (sg c)) c);;
          modify (fun c => set_loaded_keys (Z.lor (loaded_keys c) (Z.shiftl 1 cls)) c);; mret true) any).
  { intros. eapply safe_bind; [apply safe_modify; intros; by apply upd_ctxt_sg|intros].
    eapply safe_bind; [apply safe_modify; intros c []; by constructor|intros; by apply safe_ret]. }
  destruct temp; unfold Kderiv.tempkey_expand, Kderiv.networkkey_expand; [rewrite E2|rewrite E1]; by apply Hgo.
Qed.

Lemma safe_call {U : AllowUninit} cl :
  call_ok cl -> (match cl with CallReceive _ _ => allow_uninit | _ => True end) -> safe (run_call cl) any.
Proof.
  intros Hok HU. destruct cl as [con b len|con b len|ev con ks b len|st t| |src f|o g|cls key tmp]; cbn [run_call].
  - destruct Hok. eapply safe_bind; [|intros; by apply safe_ret]. unfold S2_send_data.
    eapply safe_bind; [apply safe_all_cast; [|done]|intros; by apply (safe_ret _ any)].
    destruct (IS_LR_NODE _); [by apply to_lr_ok|done].
  - destruct Hok. eapply safe_bind; [by apply safe_all_cast|intros; by apply safe_ret].
  - destruct Hok. eapply safe_bind with (R := any); [|intros; by apply safe_ret].
    destruct ks; cbn [send_with_keyset].
    + eapply safe_bind; [by apply safe_all_cast|intros; by apply safe_ret].
    + eapply safe_bind; [apply safe_all_cast; [by apply to_lr_ok|done]|intros; by apply safe_ret].
    + by apply safe_ret.
  - by apply safe_post_event.
  - by apply safe_post_event.
  - destruct Hok as (? & ? & ? & ? & ?). by apply safe_handler.
  - unfold S2_free_mpan. safe_step. destruct (find_idx _ _) as [i|] eqn:E; [|by apply safe_ret].
    apply find_idx_lt in E. rewrite (ok_mpan_len _ H) in E. apply safe_upd_mpan; [done|].
    intros m (? & ? & ? & ?). by entry_ok.
  - destruct Hok as (_ & ? & ?). eapply safe_bind; [by apply safe_key_update|intros; by apply safe_ret].
Qed.

Lemma zero_ctxt_ok home : ctxt_ok (zero_ctxt home).
Proof.
  assert (Hz : forall n, bytes (replicate n 0)) by (intros; by apply bytes_replicate).
  assert (sg_ok zero_sg) by (unfold sg_ok; split_and!; try apply Hz; done).
  assert (span_ok zero_span) by (unfold span_ok; split_and!; try apply Hz; done).
  assert (mpan_ok zero_mpan) by (unfold mpan_ok; split_and!; try apply Hz; done).
  constructor; cbn [sg span_table mpan_table mpan mos_list workbuf u peer buf length_ fsm zero_ctxt];
    try done; try apply length_replicate; try apply Hz; by apply Forall_replicate.
Qed.

Lemma safe_key_read {U : AllowUninit} kc : field_of kc <> None ->
  safe (keystore_network_key_read kc) (fun o => forall key, o = Some key -> key16 key).
Proof.
  intros Hf w Hw. unfold keystore_network_key_read, get_nvm, mbind, M_bind.
  destruct (Z.land kc _ =? 0); [done|]. destruct (field_of kc) as [f|] eqn:E; [|done].
  split; [done|]. intros key [= <-]. eapply nvm_get_ok; [done|apply Hw].
Qed.

Lemma safe_stage_key {U : AllowUninit} key : safe (stage_key key) any.
Proof. by intros w Hw. Qed.

Lemma safe_restore_loop {U : AllowUninit} l :
  Forall (fun p => field_of (fst p) <> None) l -> safe (restore_loop l) any.
Proof.
  induction 1 as [|[kc slot] l Hk Hl IH]; [by apply safe_ret|]. cbn [restore_loop].
  eapply safe_bind; [by apply safe_key_read|]. intros o Ho. eapply safe_bind with (R := any); [|done].
  destruct o as [key|]; [|by apply safe_ret]. destruct (Ho key eq_refl) as [? ?].
  eapply safe_bind; [apply safe_stage_key|intros].
  eapply safe_bind; [by apply safe_key_update|intros; by apply safe_ret].
Qed.

Lemma safe_init {U : AllowUninit} home : safe (S2_init_ctx home) any.
Proof.
  unfold S2_init_ctx, s2_restore_keys.
  eapply safe_bind; [apply safe_modify; intros; apply zero_ctxt_ok|intros].
  eapply safe_bind; [apply safe_modify; intros c []; by constructor|intros].
  eapply safe_bind; [apply safe_restore_loop|intros; apply safe_stage_key].
  by repeat constructor.
Qed.

(** Contexts the calls lead to from a new one; the radio driver decides which frames it accepts. *)
Inductive reachable : World -> Prop :=
| reach_init home g acc i n w :
    drbg_ok g -> nvm_ok n -> S2_init_ctx home (mkWorld (zero_ctxt home) g acc [] i n) = Ok (tt, w) ->
    reachable w
| reach_accept w acc : reachable w -> reachable (set_accept acc w)
| reach_call w cl w' :
    reachable w -> call_ok cl -> run_call cl w = Ok (tt, w') -> reachable w'.

(** C6: every context reached from [S2_init_ctx] by calls of the transport's functions that keep to
    their contract ([call_ok]: sends of at most 1210 bytes, frames of 4 to 1210 bytes between nodes
    below 256, security classes in range, 16-byte keys; no inclusion is started) is well formed:
    tables and buffers keep their sizes, key classes and MPAN pointers stay in range, the pending
    payload fits the work buffer, and the unused state SENDING_MULTICAST is never entered. *)
Theorem reachable_ctxt_ok w : reachable w -> ctxt_ok (ctxt w).
Proof.
  intros H. enough (world_ok w) as [? _] by done.
  induction H as [home g acc i n w Hg Hn E|w acc Hr IH|w cl w' Hr IH Hcl E].
  - pose proof (safe_init (U := True) home (mkWorld (zero_ctxt home) g acc [] i n)) as Hs.
    rewrite E in Hs. apply Hs. split; [apply zero_ctxt_ok|done].
  - done.
  - pose proof (safe_call (U := True) cl Hcl) as Hs. specialize (Hs ltac:(by destruct cl) w IH).
    rewrite E in Hs. apply Hs.
Qed.

(** C5: sending a payload of at most 1210 bytes under a class in range, transmission-done
    notifications, timeouts and updates with 16-byte keys never fault on a well-formed context in
    which no inclusion runs: no access outside a buffer or table, no null pointer, no failed
    assertion, no read of unset data; and the context stays well formed.  (The code accepts up to
    1280 bytes, which overrun the work buffer: [long_payload_overflow].) *)
Theorem transmit_memory_safe w cl :
  world_ok w -> call_ok cl -> (match cl with CallReceive _ _ => False | _ => True end) ->
  exists w', run_call cl w = Ok (tt, w') /\ world_ok w'.
Proof.
  intros Hw Hcl Hr.
  pose proof (safe_call (U := False) cl Hcl ltac:(by destruct cl) w Hw) as Hs.
  destruct (run_call cl w) as [[[] w']|f]; [exists w'; split; [done|apply Hs]|by destruct Hs].
Qed.


(** With a long-range node the associated data of a header of 57 or 58 bytes passes the size
    check but does not fit its 64-byte buffer. *)
Theorem make_aad_long_range_overflow sender receiver msg hdr_len msg_len w :
  256 <= sender \/ 256 <= receiver -> (57 <= hdr_len <= 58)%nat -> (hdr_len <= length msg)%nat ->
  S2_make_aad sender receiver msg hdr_len msg_len 64 w = Fault OutOfBounds.
Proof.
  intros Hlr Hh Hm. unfold S2_make_aad.
  destruct (Nat.ltb_spec 64 (hdr_len - 2 + 8)); [lia|].
  unfold mbind, M_bind, get. cbv beta iota zeta.
  replace ((LOWEST_LONG_RANGE_NODE_ID <=? sender) || (LOWEST_LONG_RANGE_NODE_ID <=? receiver)) with true.
  2:{ symmetry. apply orb_true_iff. unfold LOWEST_LONG_RANGE_NODE_ID. rewrite !Z.leb_le. lia. }
  unfold rds. destruct (Nat.leb_spec (2 + (hdr_len - 2)) (length msg)); [|lia]. cbn [mret M_ret].
  rewrite !length_app, length_sub by lia. cbn [length].
  by destruct (Nat.ltb_spec 64 (4 + 6 + (hdr_len - 2))); [|lia].
Qed.
End Api.

(** ** Concrete contexts *)

(** No inclusion is running: the hooks of s2_inclusion.c leave everything alone. *)
Definition idle_inclusion : InclusionFsm := {|
  s2_inclusion_post_event := fun _ => mret tt;
  s2_inclusion_send_done := fun _ => mret tt;
  s2_inclusion_decryption_failure := fun _ => mret tt |}.

Lemma idle_inclusion_idle : InclusionIdle idle_inclusion.
Proof.
  split; intros; [exists (inc w)|exists (inc w)|exists (inclusion_peer (ctxt w)), (inc w)];
    by destruct w as [[] ? ? ? ? ?].
Qed.

Definition demo_platform : Platform := {|
  S2_get_commands_supported := fun _ _ => [0x9F; 0x25];
  S2_get_hw_random := fun n => replicate n 7;
  keystore_private_key := replicate 32 9 |}.

Lemma demo_platform_ok : PlatformOk (P := demo_platform).
Proof.
  split.
  - intros. apply (bool_decide_unpack _). vm_compute. exact I.
  - split; [done|]. by apply bytes_replicate.
Qed.

#[local] Existing Instances idle_inclusion idle_inclusion_idle demo_platform demo_platform_ok.

Definition demo_drbg (x : Z) : CTR_DRBG_CTX := {| df := 0; v := replicate 16 x; k := replicate 16 x |}.
Definition demo_inc : Inc := mkInc 0 2 1 0x87 (replicate 64 0) (replicate 32 0).
(** A key for every class, all of them assigned. *)
Definition demo_nvm : Nvm :=
  mkNvm (replicate 16 0x80) [replicate 16 1; replicate 16 2; replicate 16 4] [replicate 16 8; replicate 16 0x10] 0x9F.
Definition demo_start (x home : Z) : World := mkWorld (zero_ctxt home) (demo_drbg x) [] [] demo_inc demo_nvm.

Lemma demo_nvm_ok : nvm_ok demo_nvm.
Proof.
  assert (Hk : forall x, bool_decide (is_byte x) = true -> key16 (replicate 16 x)).
  { intros x Hx%bool_decide_eq_true. split; [apply length_replicate|by apply bytes_replicate]. }
  constructor; cbn [demo_nvm security_netkey security2_key security2_lr_key]; try done; [by apply Hk|..].
  all: repeat (apply list.Forall_cons; split; [by apply Hk|]); apply list.Forall_nil_2.
Qed.

Lemma demo_start_ok x home : is_byte x -> world_ok (demo_start x home).
Proof.
  intros Hx. split; [apply zero_ctxt_ok|]. split; [|apply demo_nvm_ok].
  split; [done|]. split; [done|]. split; [done|]. split; by apply bytes_replicate.
Qed.

(** A new context with home id 0xCAFE0001, its generator seeded with [x]. *)
Definition demo_world (x : Z) : World :=
  match S2_init_ctx 0xCAFE0001 (demo_start x 0xCAFE0001) with
  | Ok (_, w) => w
  | Fault _ => demo_start x 0
  end.

Lemma demo_world_nvm x : nvm (demo_world x) = demo_nvm.
Proof. vm_compute. reflexivity. Qed.

Definition run_calls (l : list call) (w : World) : res (unit * World) :=
  foldl (fun r cl => match r with Ok (_, w) => run_call cl w | Fault f => Fault f end) (Ok (tt, w)) l.

Definition con_21 : s2_connection_t := mkConn 2 1 0 0 0 0 0 0 0.
Definition con_12 : s2_connection_t := mkConn 1 2 0 0 0 0 0 0 2.

Lemma demo_init x : is_byte x ->
  exists w, S2_init_ctx 0xCAFE0001 (demo_start x 0xCAFE0001) = Ok (tt, w) /\ world_ok w.
Proof.
  intros Hx. pose proof (safe_init (U := False) 0xCAFE0001 _ (demo_start_ok x 0xCAFE0001 Hx)) as Hs.
  destruct (S2_init_ctx _ _) as [[[] w]|f]; [|by destruct Hs]. exists w. by destruct Hs.
Qed.

Lemma demo_reachable x : is_byte x -> reachable (demo_world x).
Proof.
  intros Hx. destruct (demo_start_ok x 0 Hx) as (_ & Hg & Hn). unfold demo_world.
  destruct (demo_init x Hx) as (w & E & _). rewrite E. exact (reach_init _ _ _ _ _ _ Hg Hn E).
Qed.

Lemma demo_world_ok x : is_byte x -> world_ok (demo_world x).
Proof. intros Hx. unfold demo_world. by destruct (demo_init x Hx) as (w & -> & Hw). Qed.

(** *** Witnesses and the faults that can be reached *)

Lemma reachable_ctxt_ok_witness : ctxt_ok (ctxt (demo_world 1)).
Proof. apply reachable_ctxt_ok. apply demo_reachable. done. Defined.

Lemma call_send_ok : call_ok (CallSend con_12 (BufExt [0x20; 0x01; 0xFF]) 3).
Proof. split; [done|]. split; [done|]. split; [done|]. apply (bool_decide_unpack _). vm_compute. exact I. Qed.

Lemma transmit_memory_safe_witness :
  exists w', run_call (CallSend con_12 (BufExt [0x20; 0x01; 0xFF]) 3) (demo_world 1) = Ok (tt, w') /\ world_ok w'.
Proof.
  apply transmit_memory_safe; [apply demo_world_ok; done|apply call_send_ok|exact Logic.I].
Defined.

Definition nonce_get_frame : list Z := [0x9F; 0x01; 0x10; 0x00].


Lemma make_aad_long_range_overflow_witness :
  S2_make_aad 256 1 (replicate 80 0) 57 80 64 (demo_world 1) = Fault OutOfBounds.
Proof. apply make_aad_long_range_overflow; [left; lia|lia|rewrite length_replicate; lia]. Defined.

(** A frame with an SN extension that asks for more, and then a critical extension of no known
    type; and a frame without extensions. *)
Definition bad_ext_frame : list Z :=
  [0x9F; 0x03; 0x11; 0x01; 18; 0xC1] ++ replicate 16 0xAA ++ [2; 0x7F] ++ replicate 8 0.
Definition plain_frame : list Z := [0x9F; 0x03; 0x12; 0x00] ++ replicate 12 0.

(** A sequence of calls that faults, split at its last call. *)
Lemma fault_after l cl w f :
  run_calls (l ++ [cl]) w = Fault f ->
  (match run_calls l w with Ok _ => true | Fault _ => false end) = true ->
  exists w', run_calls l w = Ok (tt, w') /\ run_call cl w' = Fault f.
Proof.
  unfold run_calls. rewrite foldl_app. destruct (foldl _ _ l) as [[[] w']|g]; [|done].
  intros H _. by exists w'.
Qed.

Lemma reachable_calls l : forall w w',
  reachable w -> Forall call_ok l -> run_calls l w = Ok (tt, w') -> reachable w'.
Proof.
  induction l as [|cl l IH] using rev_ind; intros w w' Hw Hl; unfold run_calls.
  - by intros [= <-].
  - rewrite foldl_app. cbn [foldl]. apply Forall_app in Hl as [Hl Hcl]. inversion_clear Hcl.
    specialize (IH w). unfold run_calls in IH. destruct (foldl _ _ l) as [[[] w1]|g]; [|done].
    intros E. eapply reach_call; [by apply IH|done|done].
Qed.

Lemma receive_ok con f :
  conn_ok con -> l_node con < 256 -> r_node con < 256 -> bool_decide (bytes f) = true ->
  (4 <= length f <= 1210)%nat -> call_ok (CallReceive con f).
Proof.
  intros ? ? ? Hb Hl. apply bool_decide_eq_true in Hb. split_and!; try done; [split; [done|lia]|lia].
Qed.

(** Three frames of an outsider, a nonce request, an encapsulation whose second extension is
    malformed, and an encapsulation without extensions, make the decryption use nonces that were
    never set: after the parse error the SPAN is left in the state SPAN_INSTANTIATE. *)
Theorem uninitialised_nonces_reachable :
  exists w, reachable w /\ call_ok (CallReceive con_21 plain_frame) /\
  run_call (CallReceive con_21 plain_frame) w = Fault UninitRead.
Proof.
  assert (H1 : call_ok (CallReceive con_21 nonce_get_frame)) by (apply receive_ok; try done; simpl; lia).
  assert (H2 : call_ok (CallReceive con_21 bad_ext_frame)) by (apply receive_ok; try done; simpl; lia).
  assert (H3 : call_ok (CallReceive con_21 plain_frame)) by (apply receive_ok; try done; simpl; lia).
  pose proof (demo_reachable 1 ltac:(done)) as H0.
  destruct (fault_after [CallReceive con_21 nonce_get_frame; CallReceive con_21 bad_ext_frame]
    (CallReceive con_21 plain_frame) (demo_world 1) UninitRead) as (w & E & H).
  1, 2: vm_compute; reflexivity.
  exists w. split; [|exact (conj H3 H)]. eapply reachable_calls; [exact H0| |exact E].
  constructor; [exact H1|constructor; [exact H2|constructor]].
Qed.

(** The nonce report that answers a nonce request. *)
Definition nonce_report_frame : list Z := [0x9F; 0x02; 0x20; 0x01] ++ replicate 16 0x55.

(** A payload of 1280 bytes passes the length check of the send functions, but the frame built
    for it once the receiver's nonce is known overruns the work buffer. *)
Theorem long_payload_overflow :
  run_calls [CallSend con_12 (BufExt (replicate 1280 0x5A)) 1280; CallReceive con_12 nonce_report_frame]
    (demo_world 1) = Fault OutOfBounds.
Proof. vm_compute. reflexivity. Qed.

(** A nonce report of two bytes is read past its end. *)
Theorem short_nonce_report_overread :
  run_call (CallReceive con_21 [0x9F; 0x02]) (demo_world 1) = Fault OutOfBounds.
Proof. vm_compute. reflexivity. Qed.
End S2Safe.
