(* ===== verification/S2Fsm.v ===== *)
(** * Behaviour of the S2 tables and of the state machine

    Equations that run the monad step by step; the SPAN table as a map from node pairs; the
    duplicate window; the state machine's nesting depth; and the accounting of transmissions: every
    accepted send is completed by exactly one send-done event. *)
From S2P Require Import Prelude Aes Cmac Ccm Drbg Bigint S2Types Keystore S2Core S2Safe.
Import CtrDrbg S2Types Keystore S2 S2Safe.

Module S2Fsm.

(** ** Running the monad *)

Lemma get_span_ok w i s : span_table (ctxt w) !! i = Some s -> get_span i w = Ok (s, w).
Proof. intros E. unfold get_span, mbind, M_bind, get. by rewrite E. Qed.

Definition put_span (i : nat) (s : SPAN) (w : World) : World :=
  set_ctxt (set_span_table (<[i := s]> (span_table (ctxt w))) (ctxt w)) w.

Lemma upd_span_ok w i s f : span_table (ctxt w) !! i = Some s -> upd_span i f w = Ok (tt, put_span i (f s) w).
Proof. intros E. unfold upd_span, mbind, M_bind, get. by rewrite E. Qed.

Lemma find_span_found {C : BlockCipher} w con i :
  find_idx (span_matches con) (span_table (ctxt w)) = Some i -> find_span_by_node con w = Ok (i, w).
Proof. intros E. unfold find_span_by_node, mbind, M_bind, get. by rewrite E. Qed.

Lemma find_idx_Some {A} (f : A -> bool) l i :
  find_idx f l = Some i <-> (exists x, l !! i = Some x /\ f x = true) /\ (forall j y, (j < i)%nat -> l !! j = Some y -> f y = false).
Proof.
  revert i. induction l as [|x l IH]; intros i; simpl.
  { split; [done|]. intros [(y & Hy & _) _]. by destruct i. }
  destruct (f x) eqn:E.
  - split.
    + intros [= <-]. split; [by exists x|]. intros j y Hj. lia.
    + intros [_ H]. destruct i as [|i]; [done|]. specialize (H 0%nat x ltac:(lia) eq_refl). congruence.
  - split.
    + intros Hi. destruct (find_idx f l) as [j|] eqn:Ej; simpl in Hi; [|done]. injection Hi as <-.
      destruct (proj1 (IH j) eq_refl) as [H1 H2]. split; [done|]. intros [|k] y Hk Hy; simpl in Hy; [congruence|].
      apply (H2 k); [lia|done].
    + intros [(y & Hy & Hf) H]. destruct i as [|i]; simpl in Hy; [congruence|].
      assert (Hi : find_idx f l = Some i).
      { apply IH. split; [by exists y|]. intros j z Hj Hz. apply (H (S j)); [lia|done]. }
      by rewrite Hi.
Qed.

Lemma find_idx_None {A} (f : A -> bool) l i x : find_idx f l = None -> l !! i = Some x -> f x = false.
Proof.
  revert i. induction l as [|y l IH]; intros i; [done|]. simpl. destruct (f y) eqn:E; [done|].
  destruct (find_idx f l) eqn:El; [done|]. intros _. destruct i as [|i]; simpl; [congruence|]. by apply IH.
Qed.

(** ** The SPAN table *)

(** At most one entry in use per pair of nodes. *)
Definition span_unique (l : list SPAN) : Prop :=
  forall i j s t, l !! i = Some s -> l !! j = Some t ->
  sp_state s <> SPAN_NOT_USED -> sp_state t <> SPAN_NOT_USED -> lnode s = lnode t -> rnode s = rnode t -> i = j.

Lemma span_matches_spec con s :
  span_matches con s = true <-> sp_state s <> SPAN_NOT_USED /\ lnode s = l_node con /\ rnode s = r_node con.
Proof.
  unfold span_matches. rewrite !andb_true_iff, negb_true_iff, bool_decide_eq_false, !Z.eqb_eq. tauto.
Qed.

Lemma match_unique l con i s :
  span_unique l -> l !! i = Some s -> span_matches con s = true -> find_idx (span_matches con) l = Some i.
Proof.
  intros Hu Hi Hm. apply find_idx_Some. split; [by exists s|]. intros j t Hj Ht.
  apply not_true_is_false. intros Hm2. apply span_matches_spec in Hm as (? & ? & ?), Hm2 as (? & ? & ?).
  assert (i = j) by (eapply Hu; eauto; congruence). lia.
Qed.

Section Tables.
Context {C : BlockCipher}.

(** Looking up the SPAN of a pair of nodes gives an entry in use for exactly that pair, keeps
    the table free of duplicates, changes no other entry, and is stable: the next lookup gives the
    same entry and changes nothing. *)
Theorem find_span_by_node_spec con w i w' :
  length (span_table (ctxt w)) = SPAN_TABLE_SIZE -> span_unique (span_table (ctxt w)) ->
  find_span_by_node con w = Ok (i, w') ->
  (exists s, span_table (ctxt w') !! i = Some s /\ span_matches con s = true) /\
  span_unique (span_table (ctxt w')) /\
  find_span_by_node con w' = Ok (i, w') /\
  (forall j, j <> i -> span_table (ctxt w') !! j = span_table (ctxt w) !! j).
Proof.
  intros HL Hu E. unfold find_span_by_node in E. rewrite (bind_ok _ _ _ _ _ (get_ok w)) in E.
  destruct (find_idx (span_matches con) (span_table (ctxt w))) as [k|] eqn:Ef.
  { injection E as <- <-. pose proof Ef as Ef'. apply find_idx_Some in Ef' as [Hs _].
    split; [done|]. split; [done|]. split; [by apply find_span_found|done]. }
  apply bind_inv in E as (rnd & w1 & E1 & E). unfold drbg_generate in E1.
  destruct (AES_CTR_DRBG_Generate (s2_ctr_drbg w)) as [r g]. injection E1 as <- <-.
  assert (Hk := slot_lt (fun s => bool_decide (sp_state s = SPAN_NOT_USED)) (span_table (ctxt w))
    SPAN_TABLE_SIZE (at_ r 0) HL ltac:(unfold SPAN_TABLE_SIZE; lia)).
  set (k := match find_idx _ _ with Some _ => _ | None => _ end) in *.
  destruct (lookup_lt_is_Some_2 (span_table (ctxt w)) k ltac:(lia)) as [s Hs].
  rewrite (bind_ok _ _ _ _ _ (upd_span_ok (set_drbg g w) k s _ Hs)) in E. injection E as <- <-.
  set (s' := mkSpan _ _ _ _ _ _ _). set (w2 := put_span _ _ _).
  assert (Hl : span_table (ctxt w2) = <[k := s']> (span_table (ctxt w))) by done.
  assert (Hk' : span_table (ctxt w2) !! k = Some s') by (rewrite Hl; by apply list_lookup_insert_eq; lia).
  assert (Hm : span_matches con s' = true) by (by apply span_matches_spec).
  assert (Hother : forall j, j <> k -> span_table (ctxt w2) !! j = span_table (ctxt w) !! j).
  { intros j Hj. rewrite Hl. by apply list_lookup_insert_ne. }
  assert (Hu' : span_unique (span_table (ctxt w2))).
  { assert (Hnew : forall j t, j <> k -> span_table (ctxt w2) !! j = Some t -> span_matches con t = false).
    { intros j t Hj Ht. rewrite Hother in Ht by done. by eapply find_idx_None. }
    intros i j x y Hx Hy Hx1 Hy1 Hl1 Hr1.
    destruct (decide (i = k)) as [->|Hi], (decide (j = k)) as [->|Hj]; [done| | |].
    - rewrite Hk' in Hx. injection Hx as <-. specialize (Hnew j y Hj Hy).
      apply not_true_iff_false in Hnew. destruct Hnew. by apply span_matches_spec.
    - rewrite Hk' in Hy. injection Hy as <-. specialize (Hnew i x Hi Hx).
      apply not_true_iff_false in Hnew. destruct Hnew. by apply span_matches_spec.
    - rewrite Hother in Hx, Hy by done. by eapply Hu. }
  split; [by exists s'|]. split; [done|]. split; [|done].
  apply find_span_found. by eapply match_unique.
Qed.

(** Once the first frame has been seen (the SPAN has left SPAN_NO_SEQ), a sequence number is
    refused exactly when it is the last accepted one or the one before it; an accepted number
    becomes the last one, a refused frame changes nothing. *)
Theorem S2_verify_seq_window con seq w i s :
  find_idx (span_matches con) (span_table (ctxt w)) = Some i -> span_table (ctxt w) !! i = Some s ->
  sp_state s <> SPAN_NO_SEQ -> is_byte seq -> is_byte (rx_seq s) ->
  S2_verify_seq con seq w =
  (if bool_decide (seq = rx_seq s \/ seq = u8 (rx_seq s - 1)) then Ok (false, w)
   else Ok (true, put_span i (set_rx_seq seq s) w)).
Proof.
  intros Hf Hs Hst Hb Hr. unfold S2_verify_seq.
  rewrite (bind_ok _ _ _ _ _ (find_span_found _ _ _ Hf)), (bind_ok _ _ _ _ _ (get_span_ok _ _ _ Hs)).
  rewrite bool_decide_eq_false_2 by done. cbn [orb].
  assert (E : (S2_SEQ_DUPL_WINDOW_SIZE <=? u8 (rx_seq s - seq)) =
    negb (bool_decide (seq = rx_seq s \/ seq = u8 (rx_seq s - 1)))).
  { unfold S2_SEQ_DUPL_WINDOW_SIZE, u8, is_byte in *.
    pose proof (Z.mod_pos_bound (rx_seq s - seq) 256). pose proof (Z.mod_pos_bound (rx_seq s - 1) 256).
    pose proof (Z.div_mod (rx_seq s - seq) 256). pose proof (Z.div_mod (rx_seq s - 1) 256).
    destruct (Z.leb_spec 2 ((rx_seq s - seq) `mod` 256)); case_bool_decide; simpl; try done; lia. }
  rewrite E. case_bool_decide; simpl; [done|]. by rewrite (bind_ok _ _ _ _ _ (upd_span_ok _ _ _ _ Hs)).
Qed.
End Tables.

(** ** Nesting of events *)

Definition meq {A} (m n : M A) : Prop := forall w, m w = n w.

Lemma meq_refl {A} (m : M A) : meq m m.
Proof. done. Qed.

Lemma meq_bind {A B} (m m' : M A) (k k' : A -> M B) :
  meq m m' -> (forall a, meq (k a) (k' a)) -> meq (m ≫= k) (m' ≫= k').
Proof. intros Hm Hk w. unfold mbind, M_bind. rewrite Hm. destruct (m' w) as [[a w']|f]; [apply Hk|done]. Qed.

Lemma meq_if {A} (b : bool) (m m' n n' : M A) :
  meq m m' -> meq n n' -> meq (if b then m else n) (if b then m' else n').
Proof. by destruct b. Qed.

(** Two programs that differ in the state machine they call back only. *)
Ltac meq_step :=
  lazymatch goal with
  | |- meq ?m ?m => apply meq_refl
  | |- meq (mbind _ _) (mbind _ _) => apply meq_bind; [|intros]
  | |- meq (if _ then _ else _) _ => apply meq_if
  | |- meq (match ?x with _ => _ end) _ => destruct x
  end.

Section Nesting.
Context {C : BlockCipher} {I : InclusionFsm} {P : Platform}.

Lemma step_send_done_meq p q dat : meq (fsm_step p SEND_DONE dat) (fsm_step q SEND_DONE dat).
Proof. intros w. unfold fsm_step. rewrite !(bind_ok _ _ _ _ _ (get_ok w)). by destruct (fsm (ctxt w)). Qed.

Section Ext.
Variables p q : event_t -> event_data_t -> M unit.
Hypothesis Hpq : forall dat, meq (p SEND_DONE dat) (q SEND_DONE dat).

Lemma send_raw_meq f : meq (S2_send_raw p f) (S2_send_raw q f).
Proof. unfold S2_send_raw. repeat meq_step. apply Hpq. Qed.

Lemma nonce_get_meq : meq (S2_send_nonce_get p) (S2_send_nonce_get q).
Proof. unfold S2_send_nonce_get. repeat meq_step. apply send_raw_meq. Qed.

Lemma encrypt_meq : meq (S2_encrypt_and_send p) (S2_encrypt_and_send q).
Proof.
  unfold S2_encrypt_and_send. repeat meq_step. apply send_raw_meq.
Qed.

Lemma encrypt_multi_meq : meq (S2_encrypt_and_send_multi p) (S2_encrypt_and_send_multi q).
Proof. unfold S2_encrypt_and_send_multi. repeat meq_step. apply Hpq. Qed.

Lemma enter_meq : meq (send_msg_state_enter p) (send_msg_state_enter q).
Proof. unfold send_msg_state_enter. repeat meq_step. apply encrypt_meq. Qed.

Lemma fsm_step_meq e dat : meq (fsm_step p e dat) (fsm_step q e dat).
Proof.
  unfold fsm_step. meq_step; [meq_step|]. destruct (fsm a); destruct e;
    cbn [fsm_idle fsm_wait_nonce fsm_sending fsm_verifying]; repeat meq_step;
    first [apply nonce_get_meq | apply encrypt_multi_meq | apply enter_meq].
Qed.
End Ext.

(** The second poster, the one the machine of the nested event would call, plays no part. *)
Lemma nested_step p q e dat w : fsm_step (fsm_step p) e dat w = fsm_step (fsm_step q) e dat w.
Proof. apply fsm_step_meq. intros dat'. apply step_send_done_meq. Qed.
End Nesting.

(** ** Accounting of transmissions *)

Fixpoint count_done (l : list out) : nat :=
  match l with
  | [] => 0
  | SendDoneEvent _ :: l' => S (count_done l')
  | _ :: l' => count_done l'
  end.

(** Send-done events so far, plus one for a transmission in progress. *)
Definition busy (w : World) : nat := if S2_is_send_data_busy (ctxt w) then 1 else 0.
Definition balance (w : World) : nat := count_done (outs w) + busy w.
Definition no_inclusion (w : World) : Prop := inclusion_state (ctxt w) = S2_INC_IDLE.

(** [m] leaves the state of the machine alone and completes nothing. *)
Definition quiet {A} (m : M A) : Prop := forall w a w', no_inclusion w -> m w = Ok (a, w') ->
  no_inclusion w' /\ fsm (ctxt w') = fsm (ctxt w) /\ count_done (outs w') = count_done (outs w).

(** [m] completes a transmission exactly when it ends one. *)
Definition balanced {A} (m : M A) : Prop := forall w a w', no_inclusion w -> m w = Ok (a, w') ->
  no_inclusion w' /\ balance w' = balance w.

Lemma busy_fsm w : busy w = match fsm (ctxt w) with IDLE | IS_MOS_WAIT_REPLY => 0 | _ => 1 end%nat.
Proof. unfold busy, S2_is_send_data_busy. by destruct (fsm (ctxt w)). Qed.

Create HintDb quiet discriminated.
#[export] Hint Constants Opaque : quiet.
#[export] Hint Variables Opaque : quiet.

Lemma quiet_balanced {A} (m : M A) : quiet m -> balanced m.
Proof.
  intros H w a w' Hn E. destruct (H w a w' Hn E) as (H1 & H2 & H3). split; [done|].
  unfold balance, busy, S2_is_send_data_busy. by rewrite H2, H3.
Qed.

Lemma quiet_ret {A} (a : A) : quiet (mret a).
Proof. by intros w b w' Hn [= <- <-]. Qed.

Lemma quiet_fail {A} f : quiet (fail (A := A) f).
Proof. by intros w b w' Hn E. Qed.

Lemma quiet_bind {A B} (m : M A) (k : A -> M B) : quiet m -> (forall a, quiet (k a)) -> quiet (m ≫= k).
Proof.
  intros Hm Hk w b w' Hn E. apply bind_inv in E as (a & w1 & E1 & E).
  destruct (Hm _ _ _ Hn E1) as (H1 & H2 & H3). destruct (Hk _ _ _ _ H1 E) as (H4 & H5 & H6).
  split; [done|]. split; congruence.
Qed.

Lemma balanced_bind {A B} (m : M A) (k : A -> M B) : balanced m -> (forall a, balanced (k a)) -> balanced (m ≫= k).
Proof.
  intros Hm Hk w b w' Hn E. apply bind_inv in E as (a & w1 & E1 & E).
  destruct (Hm _ _ _ Hn E1) as (H1 & H2). destruct (Hk _ _ _ _ H1 E) as (H4 & H5).
  split; [done|]. congruence.
Qed.

Lemma quiet_get : quiet get.
Proof. by intros w a w' Hn [= <- <-]. Qed.

Lemma quiet_gets {A} (f : S2 -> A) : quiet (gets f).
Proof. by intros w a w' Hn [= <- <-]. Qed.

Lemma quiet_modify f :
  (forall c, fsm (f c) = fsm c /\ inclusion_state (f c) = inclusion_state c) -> quiet (modify f).
Proof. intros H w a w' Hn [= <- <-]. destruct (H (ctxt w)). unfold no_inclusion in *. cbn. split_and!; congruence. Qed.

Lemma quiet_emit o : (forall st, o <> SendDoneEvent st) -> quiet (emit o).
Proof. intros H w a w' Hn [= <- <-]. split; [done|]. split; [done|]. cbn. by destruct o; try done; destruct (H status). Qed.

Lemma quiet_if {A} (b : bool) (m n : M A) : quiet m -> quiet n -> quiet (if b then m else n).
Proof. by destruct b. Qed.

Lemma balanced_if {A} (b : bool) (m n : M A) : balanced m -> balanced n -> balanced (if b then m else n).
Proof. by destruct b. Qed.

Lemma quiet_of_option {A} f (o : option A) : quiet (of_option f o).
Proof. destruct o; [apply quiet_ret|apply quiet_fail]. Qed.

Lemma quiet_accept : quiet next_accept.
Proof. intros w a w' Hn. unfold next_accept. by destruct (tx_accept w); intros [= <- <-]. Qed.

Lemma quiet_generate {C : BlockCipher} : quiet drbg_generate.
Proof.
  intros w a w' Hn. unfold drbg_generate. destruct (AES_CTR_DRBG_Generate _). by intros [= <- <-].
Qed.

#[export] Hint Resolve quiet_ret quiet_fail quiet_get quiet_gets quiet_of_option quiet_accept quiet_generate : quiet.

Ltac quiet_step :=
  lazymatch goal with
  | |- quiet (mbind _ _) => apply quiet_bind; [|intros]
  | |- quiet (if _ then _ else _) => apply quiet_if
  | |- quiet (modify _) => apply quiet_modify; intros; split; reflexivity
  | |- quiet (emit _) => apply quiet_emit; intros; discriminate
  | |- quiet (match ?x with _ => _ end) => destruct x
  | |- quiet _ => solve [auto with quiet nocore]
  end.
Ltac quiet_tac := repeat quiet_step.

Lemma quiet_rds l off n : quiet (rds l off n).
Proof. unfold rds. quiet_tac. Qed.
Lemma quiet_rd l i : quiet (rd l i).
Proof. unfold rd. quiet_tac. Qed.
Lemma quiet_wrs l off bs : quiet (wrs l off bs).
Proof. unfold wrs. quiet_tac. Qed.
#[export] Hint Resolve quiet_rds quiet_rd quiet_wrs : quiet.
Lemma quiet_wb_write off bs : quiet (wb_write off bs).
Proof. unfold wb_write. quiet_tac. Qed.
#[export] Hint Resolve quiet_wb_write : quiet.
Lemma quiet_wb_or off m : quiet (wb_or off m).
Proof. unfold wb_or. quiet_tac. Qed.
Lemma quiet_wb_and off m : quiet (wb_and off m).
Proof. unfold wb_and. quiet_tac. Qed.
Lemma quiet_get_span i : quiet (get_span i).
Proof. unfold get_span. quiet_tac. Qed.
Lemma quiet_upd_span i f : quiet (upd_span i f).
Proof. unfold upd_span. quiet_tac. Qed.
Lemma quiet_get_mpan i : quiet (get_mpan i).
Proof. unfold get_mpan. quiet_tac. Qed.
Lemma quiet_upd_mpan i f : quiet (upd_mpan i f).
Proof. unfold upd_mpan. quiet_tac. Qed.
Lemma quiet_get_sg i : quiet (get_sg i).
Proof. unfold get_sg. quiet_tac. Qed.
Lemma quiet_deref b n : quiet (deref b n).
Proof. unfold deref. quiet_tac. Qed.
Lemma quiet_buf_byte b n : quiet (buf_byte b n).
Proof. unfold buf_byte. quiet_tac. Qed.
#[export] Hint Resolve quiet_wb_or quiet_wb_and quiet_get_span quiet_upd_span quiet_get_mpan
  quiet_upd_mpan quiet_get_sg quiet_deref quiet_buf_byte : quiet.

Section Quiet.
Context {C : BlockCipher} {I : InclusionFsm} {P : Platform}.

Lemma quiet_find_span con : quiet (find_span_by_node con).
Proof. unfold find_span_by_node. quiet_tac. Qed.
Lemma quiet_find_mpan o g b : quiet (find_mpan_by_group_id o g b).
Proof. unfold find_mpan_by_group_id. quiet_tac. Qed.
#[local] Hint Resolve quiet_find_span quiet_find_mpan : quiet.
Lemma quiet_span_ok con : quiet (S2_span_ok con).
Proof. unfold S2_span_ok. quiet_tac. Qed.
Lemma quiet_verify_seq con seq : quiet (S2_verify_seq con seq).
Proof. unfold S2_verify_seq. quiet_tac. Qed.
Lemma quiet_is_node_mos n : quiet (S2_is_node_mos n).
Proof. unfold S2_is_node_mos. quiet_tac. Qed.
Lemma quiet_set_node_mos n : quiet (S2_set_node_mos n).
Proof. unfold S2_set_node_mos. quiet_tac. Qed.
Lemma quiet_next_mpan j : quiet (next_mpan_state j).
Proof. unfold next_mpan_state. quiet_tac. Qed.
#[local] Hint Resolve quiet_span_ok quiet_verify_seq quiet_is_node_mos quiet_set_node_mos quiet_next_mpan : quiet.
Lemma quiet_nonce_report con fl : quiet (S2_send_nonce_report con fl).
Proof. unfold S2_send_nonce_report. quiet_tac. Qed.
Lemma quiet_make_aad a b m h n x : quiet (S2_make_aad a b m h n x).
Proof. unfold S2_make_aad. quiet_tac. Qed.
Lemma quiet_add_mpan_loop ixs : forall p k, quiet (add_mpan_loop ixs p k).
Proof. induction ixs; intros p k; cbn [add_mpan_loop]; quiet_tac; auto. Qed.
#[local] Hint Resolve quiet_nonce_report quiet_make_aad quiet_add_mpan_loop : quiet.
Lemma quiet_add_mpan off : quiet (S2_add_mpan_extensions off).
Proof. unfold S2_add_mpan_extensions. quiet_tac. Qed.
Lemma quiet_put_ext h e : quiet (put_ext h e).
Proof. unfold put_ext. quiet_tac. Qed.
#[local] Hint Resolve quiet_add_mpan quiet_put_ext : quiet.
Lemma quiet_ccm key n aad off len : quiet (ccm_in_workbuf key n aad off len).
Proof. unfold ccm_in_workbuf. quiet_tac. Qed.
Lemma quiet_add_sn i h n : quiet (add_sn_extension i h n).
Proof. unfold add_sn_extension. quiet_tac. Qed.
Lemma quiet_add_mgrp h n : quiet (add_mgrp_extension h n).
Proof. unfold add_mgrp_extension. quiet_tac. Qed.
Lemma quiet_add_mos h n : quiet (add_mos_extension h n).
Proof. unfold add_mos_extension. quiet_tac. Qed.
Lemma quiet_more n : quiet (more_loop n).
Proof. induction n; cbn [more_loop]; quiet_tac. Qed.
Lemma quiet_assert b : quiet (assert_ b).
Proof. unfold assert_. quiet_tac. Qed.
#[local] Hint Resolve quiet_ccm quiet_add_sn quiet_add_mgrp quiet_add_mos quiet_more quiet_assert : quiet.
Lemma quiet_register b len : quiet (S2_register_nonce b len).
Proof. unfold S2_register_nonce. quiet_tac. Qed.
Lemma quiet_set_peer con b len : quiet (S2_set_peer con b len).
Proof. unfold S2_set_peer. quiet_tac. Qed.
Lemma quiet_ev_con dat : quiet (ev_con dat).
Proof. unfold ev_con. quiet_tac. Qed.
Lemma quiet_ev_buf dat : quiet (ev_buf dat).
Proof. unfold ev_buf. quiet_tac. Qed.
Lemma quiet_ev_status dat : quiet (ev_status dat).
Proof. unfold ev_status. quiet_tac. Qed.
Lemma quiet_ev_time dat : quiet (ev_time dat).
Proof. unfold ev_time. quiet_tac. Qed.
#[local] Hint Resolve quiet_ev_con quiet_ev_buf quiet_ev_status quiet_ev_time : quiet.
Lemma quiet_resync r dat : quiet (emit_S2_synchronization_event r dat).
Proof. unfold emit_S2_synchronization_event. quiet_tac. Qed.
End Quiet.
#[export] Hint Resolve quiet_find_span quiet_find_mpan quiet_span_ok quiet_verify_seq quiet_is_node_mos
  quiet_set_node_mos quiet_next_mpan quiet_nonce_report quiet_make_aad quiet_add_mpan quiet_put_ext quiet_ccm
  quiet_add_sn quiet_add_mgrp quiet_add_mos quiet_more quiet_assert quiet_register quiet_set_peer quiet_ev_con
  quiet_ev_buf quiet_ev_status quiet_ev_time quiet_resync : quiet.

(** A balanced program whose steps but the callbacks are quiet. *)
Ltac balanced_step :=
  lazymatch goal with
  | |- balanced (mbind _ _) => apply balanced_bind; [|intros]
  | |- balanced (if _ then _ else _) => apply balanced_if
  | |- balanced (match ?x with _ => _ end) => destruct x
  | |- balanced _ => solve [apply quiet_balanced; quiet_tac]
  end.

Section Account.
Context {C : BlockCipher} {I : InclusionFsm} {HI : InclusionIdle I} {P : Platform}.

Lemma inc_send_done_quiet b : quiet (s2_inclusion_send_done b).
Proof.
  intros w a w' Hn E. destruct (idle_send_done b w Hn) as [i Ei]. rewrite Ei in E. by injection E as <- <-.
Qed.
#[local] Hint Resolve inc_send_done_quiet : quiet.

(** A state change followed by a program: the balance counts from the new state. *)
Definition ends_with (m : M unit) (n : nat) : Prop := forall w w', no_inclusion w -> m w = Ok (tt, w') ->
  no_inclusion w' /\ balance w' = (count_done (outs w) + n)%nat.

Lemma ends_after_quiet {A} (m : M A) k n : quiet m -> (forall a, ends_with (k a) n) -> ends_with (m ≫= k) n.
Proof.
  intros Hm Hk w w' Hn E. apply bind_inv in E as (a & w1 & E1 & E).
  destruct (Hm _ _ _ Hn E1) as (H1 & _ & H3). destruct (Hk a _ _ H1 E) as [H4 H5].
  split; [done|]. congruence.
Qed.

Lemma ends_set_busy st k :
  (st = SENDING_MSG \/ st = WAIT_NONCE_RAPORT \/ st = VERIFYING_DELIVERY) ->
  balanced k -> ends_with (set_fsm_state st;; k) 1.
Proof.
  intros Hst Hk w w' Hn E. apply bind_inv in E as ([] & w1 & [= <-] & E).
  destruct (Hk _ _ _ (Hn : no_inclusion (set_ctxt (set_fsm st (ctxt w)) w)) E) as [H4 H5].
  split; [done|]. rewrite H5. unfold balance, busy. cbn. by destruct Hst as [-> | [-> | ->]].
Qed.

Lemma ends_done st : ends_with (set_fsm_state IDLE;; S2_post_send_done_event st) 1.
Proof.
  intros w w' Hn E. apply bind_inv in E as ([] & w1 & [= <-] & E).
  apply bind_inv in E as ([] & w2 & E2 & [= <-]).
  destruct (inc_send_done_quiet _ _ _ _ (Hn : no_inclusion (set_ctxt (set_fsm IDLE (ctxt w)) w)) E2) as (H1 & H2 & H3).
  split; [done|]. unfold balance, busy, S2_is_send_data_busy. cbn in *. rewrite H2, H3. rewrite bool_decide_eq_true_2 by done. cbn. lia.
Qed.

Lemma ends_done_stop st : ends_with (set_fsm_state IDLE;; emit StopTimeout;; S2_post_send_done_event st) 1.
Proof.
  intros w w' Hn E. apply (ends_done st (add_out StopTimeout w) w'); [done|]. exact E.
Qed.

(** SEND_DONE completes the transmission in progress, or passes the status on. *)
Lemma balanced_ends (m : M unit) w w' :
  ends_with m 1 -> busy w = 1%nat -> no_inclusion w -> m w = Ok (tt, w') ->
  no_inclusion w' /\ balance w' = balance w.
Proof. intros Hm Hb Hn E. destruct (Hm _ _ Hn E) as [H1 H2]. split; [done|]. unfold balance at 2. lia. Qed.

Lemma send_done_balanced post dat : balanced (fsm_step post SEND_DONE dat).
Proof.
  intros w a w' Hn E. destruct a. unfold fsm_step in E. rewrite (bind_ok _ _ _ _ _ (get_ok w)) in E.
  assert (Hdone : forall st, ends_with (set_fsm_state IDLE;; S2_post_send_done_event st) 1) by apply ends_done.
  assert (Hbusy : fsm (ctxt w) <> IDLE -> fsm (ctxt w) <> IS_MOS_WAIT_REPLY -> busy w = 1%nat).
  { intros. unfold busy, S2_is_send_data_busy. by rewrite !bool_decide_eq_false_2. }
  destruct (fsm (ctxt w)) eqn:Ef; cbn [fsm_idle fsm_wait_nonce fsm_sending fsm_verifying] in E.
  - revert E. apply (quiet_balanced (st ← ev_status dat; s2_inclusion_send_done (st =? S2_TRANSMIT_COMPLETE_OK))); [|done].
    quiet_tac.
  - apply bind_inv in E as (st & w1 & E1 & E).
    assert (Ew : w1 = w) by (destruct dat; try discriminate; by injection E1). subst w1.
    destruct (st =? S2_TRANSMIT_COMPLETE_OK).
    + revert E. apply (quiet_balanced (t ← ev_time dat; emit (SetTimeout t))); [|done]. quiet_tac.
    + eapply balanced_ends; [apply Hdone|by apply Hbusy|done|done].
  - apply bind_inv in E as (st & w1 & E1 & E).
    assert (Ew : w1 = w) by (destruct dat; try discriminate; by injection E1). subst w1.
    eapply balanced_ends; [apply Hdone|by apply Hbusy|done|done].
  - done.
  - apply bind_inv in E as (st & w1 & E1 & E).
    assert (Ew : w1 = w) by (destruct dat; try discriminate; by injection E1). subst w1.
    destruct (st =? S2_TRANSMIT_COMPLETE_OK).
    + revert E. apply (quiet_balanced (t ← ev_time dat; emit (SetTimeout t))); [|done]. quiet_tac.
    + eapply balanced_ends; [apply Hdone|by apply Hbusy|done|done].
  - revert E. apply (quiet_balanced (st ← ev_status dat; s2_inclusion_send_done (st =? S2_TRANSMIT_COMPLETE_OK))); [|done].
    quiet_tac.
Qed.

Section Step.
Variable post : event_t -> event_data_t -> M unit.
Hypothesis Hpost : forall dat, balanced (post SEND_DONE dat).

Lemma send_raw_balanced f : balanced (S2_send_raw post f).
Proof. unfold S2_send_raw. repeat balanced_step. apply Hpost. Qed.

Lemma nonce_get_balanced : balanced (S2_send_nonce_get post).
Proof. unfold S2_send_nonce_get. repeat (balanced_step || apply send_raw_balanced). Qed.

Lemma encrypt_balanced : balanced (S2_encrypt_and_send post).
Proof. unfold S2_encrypt_and_send. repeat (balanced_step || apply send_raw_balanced). Qed.

Lemma encrypt_multi_balanced : balanced (S2_encrypt_and_send_multi post).
Proof. unfold S2_encrypt_and_send_multi. repeat (balanced_step || apply Hpost). Qed.

Lemma ends_enter : ends_with (send_msg_state_enter post) 1.
Proof.
  intros w w' Hn E. unfold send_msg_state_enter in E.
  apply bind_inv in E as ([] & w1 & [= <-] & E). rewrite (bind_ok _ _ _ _ _ (get_ok _)) in E.
  assert (Hk : balanced (S2_encrypt_and_send post;; modify (fun c => set_retry (u8 (retry c - 1)) c))).
  { apply balanced_bind; [apply encrypt_balanced|intros; apply quiet_balanced; quiet_tac]. }
  apply bind_inv in E as ([] & w2 & E2 & E).
  assert (H2 : no_inclusion w2 /\ balance w2 = (count_done (outs w) + 1)%nat).
  { destruct (has_bits _ _); [apply bind_inv in E2 as ([] & w3 & [= <-] & [= <-])|injection E2 as <-]; done. }
  destruct H2 as [Hn2 Hb2]. destruct (Hk _ _ _ Hn2 E) as [? ?]. split; [done|]. congruence.
Qed.

(** The branches of the machine either end with a completed or pending transmission, or change
    nothing. *)
Lemma idle_balance e dat w w' :
  no_inclusion w -> busy w = 0%nat -> fsm_idle post e dat w = Ok (tt, w') ->
  no_inclusion w' /\
  balance w' = (balance w + match e with SEND_MSG | SEND_MULTICAST => 1 | _ => 0 end)%nat.
Proof.
  intros Hn Hb E. rewrite Nat.add_comm.
  assert (Hz : balance w = count_done (outs w)) by (unfold balance; lia).
  assert (Hq : forall m : M unit, quiet m -> m w = Ok (tt, w') -> no_inclusion w' /\ balance w' = (0 + balance w)%nat).
  { intros m Hm Em. by apply (quiet_balanced m Hm w tt w'). }
  assert (He : forall m : M unit, ends_with m 1 -> m w = Ok (tt, w') -> no_inclusion w' /\ balance w' = (1 + balance w)%nat).
  { intros m Hm Em. rewrite Hz, Nat.add_comm. by apply Hm. }
  destruct e; cbn [fsm_idle] in E.
  - revert E. apply He. apply ends_after_quiet; [quiet_tac|intros con].
    apply ends_after_quiet; [quiet_tac|intros [b len]]. apply ends_after_quiet; [quiet_tac|intros ok].
    destruct ok.
    + apply ends_after_quiet; [quiet_tac|intros _]. apply ends_after_quiet; [quiet_tac|intros _]. apply ends_enter.
    + apply ends_set_busy; [auto|]. repeat (balanced_step || apply nonce_get_balanced).
  - revert E. apply He. apply ends_after_quiet; [quiet_tac|intros con].
    apply ends_after_quiet; [quiet_tac|intros [b len]]. apply ends_after_quiet; [quiet_tac|intros _].
    apply ends_after_quiet; [quiet_tac|intros j]. apply ends_after_quiet; [quiet_tac|intros _].
    apply ends_set_busy; [auto|]. apply encrypt_multi_balanced.
  - revert E. apply Hq. quiet_tac.
  - revert E. apply Hq. quiet_tac.
  - revert E. apply Hq. quiet_tac.
  - revert E. apply Hq. quiet_tac.
  - revert E. apply Hq. quiet_tac.
  - apply bind_inv in E as ([] & w1 & [= <-] & E). apply bind_inv in E as (con & w2 & E2 & E).
    apply bind_inv in E as ([] & w3 & [= <-] & [= <-]).
    destruct (quiet_ev_con dat _ _ _ (Hn : no_inclusion (add_out (SetTimeout 10) w)) E2) as (H1 & H2 & H3).
    split; [done|]. unfold balance in *. rewrite !busy_fsm in *. cbn. rewrite H3. cbn. lia.
  - rewrite (bind_ok _ _ _ _ _ (get_ok w)) in E.
    destruct (bool_decide (fsm (ctxt w) = IS_MOS_WAIT_REPLY)); [|by injection E as <-].
    apply bind_inv in E as ([] & w1 & [= <-] & E). apply bind_inv in E as ([] & w2 & [= <-] & E).
    pose (w2 := set_ctxt (set_fsm IDLE (set_mpan None (ctxt w))) w).
    destruct (quiet_balanced _ (quiet_nonce_report (peer (ctxt w)) MOS_BIT_MASK) w2 tt w' Hn E) as [H1 H2].
    split; [done|]. rewrite H2. unfold balance in *. rewrite !busy_fsm in *. cbn. lia.
  - by injection E as <-.
  - by injection E as <-.
Qed.

(** A nonce is registered and then nothing happens, or the transmission ends. *)
Lemma register_balance b len (k : Z -> M unit) w w' : no_inclusion w -> busy w = 1%nat -> (forall fl, k fl = mret tt \/ ends_with (k fl) 1) ->
  (flags ← S2_register_nonce b len; k flags) w = Ok (tt, w') -> no_inclusion w' /\ balance w' = balance w.
Proof.
  intros Hn Hb Hk Ek. apply bind_inv in Ek as (fl & w1 & E1 & Ek).
  destruct (quiet_register b len _ _ _ Hn E1) as (H1 & H2 & H3).
  destruct (quiet_balanced _ (quiet_register b len) _ _ _ Hn E1) as [_ H4].
  destruct (Hk fl) as [Hr|Hr]; [rewrite Hr in Ek; by injection Ek as <-|].
  destruct (Hr _ _ H1 Ek) as [H5 H6]. split; [done|]. unfold balance at 2. lia.
Qed.

(** The data of an event is a connection, and a buffer. *)
Ltac event_con w dat E con :=
  let w1 := fresh in let E1 := fresh in let Ew := fresh in
  apply bind_inv in E as (con & w1 & E1 & E);
  assert (Ew : w1 = w) by (destruct dat; try discriminate; by injection E1); subst w1;
  rewrite (bind_ok _ _ _ _ _ (get_ok _)) in E.
Ltac event_buf w dat E b len :=
  let w1 := fresh in let E1 := fresh in let Ew := fresh in
  apply bind_inv in E as ([b len] & w1 & E1 & E);
  assert (Ew : w1 = w) by (destruct dat; try discriminate; by injection E1); subst w1.

Lemma busy_balance e dat w w' :
  no_inclusion w -> busy w = 1%nat -> fsm_step post e dat w = Ok (tt, w') ->
  no_inclusion w' /\ balance w' = balance w.
Proof.
  intros Hn Hb E. destruct (decide (e = SEND_DONE)) as [->|Hne]; [by eapply send_done_balanced|].
  assert (He : forall m : M unit, ends_with m 1 -> m w = Ok (tt, w') -> no_inclusion w' /\ balance w' = balance w).
  { intros m Hm Em. by eapply balanced_ends. }
  assert (Hq : forall m : M unit, quiet m -> m w = Ok (tt, w') -> no_inclusion w' /\ balance w' = balance w).
  { intros m Hm Em. by apply (quiet_balanced m Hm w tt w'). }
  pose proof Hb as Hb'. unfold fsm_step in E. rewrite (bind_ok _ _ _ _ _ (get_ok w)) in E. rewrite busy_fsm in Hb'.
  destruct (fsm (ctxt w)) eqn:Ef; try done; destruct e; try done;
    cbn [fsm_wait_nonce fsm_sending fsm_verifying] in E; try (revert E; apply Hq; quiet_tac; fail).
  - (* waiting for a nonce report, and one arrives *)
    event_con w dat E con. destruct (S2_is_peernode (ctxt w) con); [|revert E; apply Hq; quiet_tac]. event_buf w dat E b len.
    apply (register_balance b len (fun fl => if has_bits fl SOS_BIT_MASK then send_msg_state_enter post else mret tt) w); try done.
    intros fl. destruct (has_bits fl SOS_BIT_MASK); [right; apply ends_enter|by left].
  - revert E. apply He, ends_done.
  - (* verifying, and a nonce report arrives *)
    event_con w dat E con. destruct (S2_is_peernode (ctxt w) con); [|revert E; apply Hq; quiet_tac]. event_buf w dat E b len.
    revert E. apply (register_balance b len); try done. intros fl. destruct (fl =? 0); [by left|right].
    apply ends_after_quiet; [quiet_tac|intros _]. apply ends_after_quiet; [quiet_tac|intros c].
    destruct (retry c =? 0); [apply ends_done|apply ends_enter].
  - (* verifying, and a frame of the peer arrives *)
    event_con w dat E con. destruct (S2_is_peernode (ctxt w) con); [|by injection E as <-].
    revert E. apply He. apply ends_after_quiet; [quiet_tac|intros mos]. destruct (mos && _).
    + apply ends_after_quiet; [quiet_tac|intros _]. apply ends_enter.
    + apply ends_done_stop.
  - revert E. apply He, ends_done.
Qed.

Lemma step_balance e dat w w' :
  no_inclusion w -> fsm_step post e dat w = Ok (tt, w') ->
  no_inclusion w' /\
  balance w' = (balance w + (1 - busy w) * match e with SEND_MSG | SEND_MULTICAST => 1 | _ => 0 end)%nat.
Proof.
  intros Hn E. destruct (decide (busy w = 1%nat)) as [Hb|Hb].
  { rewrite Hb. cbn [Nat.sub Nat.mul]. rewrite Nat.add_0_r. by eapply busy_balance. }
  assert (Hz : busy w = 0%nat) by (rewrite busy_fsm in *; by destruct (fsm (ctxt w))).
  rewrite Hz. cbn [Nat.sub]. rewrite Nat.mul_1_l. apply (idle_balance e dat w w' Hn Hz).
  unfold fsm_step in E. rewrite (bind_ok _ _ _ _ _ (get_ok w)) in E.
  rewrite busy_fsm in Hz. by destruct (fsm (ctxt w)).
Qed.
End Step.

Lemma post_balance e dat w w' :
  no_inclusion w -> S2_fsm_post_event e dat w = Ok (tt, w') ->
  no_inclusion w' /\
  balance w' = (balance w + (1 - busy w) * match e with SEND_MSG | SEND_MULTICAST => 1 | _ => 0 end)%nat.
Proof. apply step_balance. intros dat'. apply send_done_balanced. Qed.

(** Whatever event arrives, the number of send-done events plus the transmission in progress
    changes only when a send event starts a transmission: the state machine completes every
    transmission it starts exactly once, and reports no completion without one. *)
Theorem fsm_send_done_exactly_once e dat w w' :
  no_inclusion w -> S2_fsm_post_event e dat w = Ok (tt, w') ->
  (count_done (outs w') + busy w')%nat =
  (count_done (outs w) + busy w +
   (1 - busy w) * match e with SEND_MSG | SEND_MULTICAST => 1 | _ => 0 end)%nat.
Proof. intros Hn E. by apply (post_balance e dat w w'). Qed.

(** C3: a send function returns true exactly for a non-empty payload of at most 1280 bytes offered
    to an idle machine; then exactly one send-done event is due (or has been given), and when it
    returns false the context is unchanged and none will come. *)
Theorem send_accepted_once con b len ev w r w' :
  no_inclusion w -> (ev = SEND_MSG \/ ev = SEND_MULTICAST \/ ev = SEND_FOLLOW_UP) ->
  S2_send_data_all_cast con b len ev w = Ok (r, w') ->
  (r = true <-> len <> 0 /\ len <= 1280 /\ b <> BufNull /\ S2_is_send_data_busy (ctxt w) = false) /\
  (if r then (count_done (outs w') + busy w' = count_done (outs w) + 1)%nat else w' = w).
Proof.
  intros Hn Hev E. unfold S2_send_data_all_cast in E. rewrite (bind_ok _ _ _ _ _ (get_ok w)) in E.
  destruct ((len =? 0) || (1280 <? len) || match b with BufNull => true | _ => false end ||
    S2_is_send_data_busy (ctxt w)) eqn:Ec.
  { injection E as <- <-. split; [|done]. split; [done|]. intros (H1 & H2 & H3 & H4).
    rewrite H4, orb_false_r in Ec. destruct (Z.eqb_spec len 0); [done|]. destruct (Z.ltb_spec 1280 len); [lia|].
    by destruct b. }
  apply orb_false_iff in Ec as [Ec Hbusy]. apply orb_false_iff in Ec as [Ec Hb].
  apply orb_false_iff in Ec as [Hl0 Hl]. zbool.
  assert (Hb0 : busy w = 0%nat) by (unfold busy; by rewrite Hbusy).
  assert (Hnull : b <> BufNull) by (by destruct b).
  assert (Hgo : forall e w1, (e = SEND_MSG \/ e = SEND_MULTICAST) -> no_inclusion w1 -> busy w1 = 0%nat ->
    count_done (outs w1) = count_done (outs w) ->
    (S2_fsm_post_event e (EvBuf con b len);; mret true) w1 = Ok (r, w') ->
    r = true /\ (count_done (outs w') + busy w' = count_done (outs w) + 1)%nat).
  { intros e w1 He Hn1 Hb1 Hd1 E1. apply bind_inv in E1 as ([] & w2 & E1 & E2). injection E2 as <- <-.
    split; [done|]. destruct (post_balance _ _ _ _ Hn1 E1) as [_ H]. unfold balance in H.
    rewrite H, Hb1, Hd1. destruct He as [-> | ->]; lia. }
  assert (Hr : r = true /\ (count_done (outs w') + busy w' = count_done (outs w) + 1)%nat).
  { destruct Hev as [-> | [-> | ->]]; [apply (Hgo SEND_MSG w); auto|apply (Hgo SEND_MULTICAST w); auto|].
    apply bind_inv in E as (o & w1 & E1 & E). apply bind_inv in E as ([] & w2 & E2 & E).
    assert (Hq : quiet (match o with Some j => modify (set_mpan (Some j)) | None => mret tt end)) by quiet_tac.
    destruct (quiet_find_mpan _ _ _ _ _ _ Hn E1) as (H1 & H2 & H3).
    destruct (Hq _ _ _ H1 E2) as (H4 & H5 & H6).
    apply (Hgo SEND_MSG w2); auto; [|congruence]. rewrite busy_fsm in *. by rewrite H5, H2. }
  destruct Hr as [-> Hr]. split; [|done]. split; [intros _; split_and!; done|done].
Qed.

(** In the two states that wait for an answer a timeout always returns the machine to IDLE with
    one send-done event, OK when the frame had been sent and FAIL when no nonce came. *)
Theorem timeout_completes w :
  no_inclusion w -> fsm (ctxt w) = WAIT_NONCE_RAPORT \/ fsm (ctxt w) = VERIFYING_DELIVERY ->
  exists st w', S2_timeout_notify w = Ok (tt, w') /\ fsm (ctxt w') = IDLE /\
    outs w' = SendDoneEvent st :: outs w /\
    st = (if bool_decide (fsm (ctxt w) = VERIFYING_DELIVERY) then S2_TRANSMIT_COMPLETE_OK
          else S2_TRANSMIT_COMPLETE_FAIL).
Proof.
  intros Hn Hf.
  assert (Hrun : forall st, exists i, (set_fsm_state IDLE;; S2_post_send_done_event st) w =
    Ok (tt, add_out (SendDoneEvent st) (set_inc i (set_ctxt (set_fsm IDLE (ctxt w)) w)))).
  { intros st. set (w1 := set_ctxt (set_fsm IDLE (ctxt w)) w).
    destruct (idle_send_done ((st =? S2_TRANSMIT_COMPLETE_OK) || (st =? S2_TRANSMIT_COMPLETE_VERIFIED)) w1 Hn)
      as [i E].
    exists i. unfold S2_post_send_done_event, set_fsm_state.
    erewrite bind_ok by reflexivity. by erewrite bind_ok by exact E. }
  unfold S2_timeout_notify, S2_fsm_post_event. cbn [fsm_post]. unfold fsm_step.
  rewrite (bind_ok _ _ _ _ _ (get_ok w)).
  destruct Hf as [-> | ->]; cbn [fsm_wait_nonce fsm_verifying];
    [destruct (Hrun S2_TRANSMIT_COMPLETE_FAIL) as [i E]|destruct (Hrun S2_TRANSMIT_COMPLETE_OK) as [i E]];
    eexists _, _; (split; [exact E|done]).
Qed.
End Account.

Section Termination.
Context {C : BlockCipher} {HC : BlockCipherOk C} {I : InclusionFsm} {HI : InclusionIdle I} {P : Platform}.

(** C36: while no inclusion runs, every event of the contract posted to the machine in a well-formed
    context is handled to its end without a fault, and leaves a well-formed context; on the way the
    machine posts to itself at most once, for a frame the radio refuses, and the machine of that
    nested event posts nothing: whatever poster it is given (here [p]), the run is the same. *)
Theorem post_event_terminates p e dat w : world_ok w -> ev_ok e dat ->
  exists w', S2_fsm_post_event e dat w = Ok (tt, w') /\ world_ok w' /\ fsm_step (fsm_step p) e dat w = Ok (tt, w').
Proof.
  intros Hw He. pose proof (safe_post_event (U := False) e dat He w Hw) as Hs.
  rewrite (nested_step p (fsm_post 0)). change (fsm_step (fsm_step (fsm_post 0)) e dat w) with (S2_fsm_post_event e dat w).
  destruct (S2_fsm_post_event e dat w) as [[[] w']|f]; [|by destruct Hs]. exists w'. split_and!; [done|apply Hs|done].
Qed.
End Termination.

(** ** Concrete contexts *)

#[local] Existing Instances idle_inclusion idle_inclusion_idle demo_platform.

Lemma demo_spans x : span_table (ctxt (demo_world x)) = replicate SPAN_TABLE_SIZE zero_span.
Proof. reflexivity. Qed.

Lemma unused_unique n : span_unique (replicate n zero_span).
Proof. intros i j s t Hi _ Hs. apply lookup_replicate in Hi as [-> _]. by destruct Hs. Qed.

Lemma find_span_by_node_spec_witness :
  exists i w', find_span_by_node con_12 (demo_world 1) = Ok (i, w') /\
  (exists s, span_table (ctxt w') !! i = Some s /\ span_matches con_12 s = true) /\
  span_unique (span_table (ctxt w')) /\ find_span_by_node con_12 w' = Ok (i, w') /\
  (forall j, j <> i -> span_table (ctxt w') !! j = span_table (ctxt (demo_world 1)) !! j).
Proof.
  destruct (find_span_by_node con_12 (demo_world 1)) as [[i w']|f] eqn:E.
  - exists i, w'. split; [reflexivity|]. apply (find_span_by_node_spec con_12 (demo_world 1) i w').
    + rewrite demo_spans. reflexivity.
    + rewrite demo_spans. apply unused_unique.
    + exact E.
  - exfalso. apply (f_equal (fun r => match r with Ok _ => true | Fault _ => false end)) in E.
    vm_compute in E. discriminate E.
Defined.

(** A SPAN of nodes 1 and 2 whose last sequence number was 9. *)
Definition span_12 : SPAN := mkSpan (replicate 33 17) 1 2 9 5 2 SPAN_NEGOTIATED.
Definition world_12 : World := put_span 0 span_12 (demo_world 1).

Lemma S2_verify_seq_window_witness :
  S2_verify_seq con_12 8 world_12 = Ok (false, world_12) /\
  S2_verify_seq con_12 10 world_12 = Ok (true, put_span 0 (set_rx_seq 10 span_12) world_12).
Proof.
  assert (Hf : find_idx (span_matches con_12) (span_table (ctxt world_12)) = Some 0%nat) by (vm_compute; reflexivity).
  assert (Hs : span_table (ctxt world_12) !! 0%nat = Some span_12) by (vm_compute; reflexivity).
  assert (Hst : sp_state span_12 <> SPAN_NO_SEQ) by discriminate.
  assert (Hb : is_byte 8 /\ is_byte 10 /\ is_byte (rx_seq span_12)) by (unfold is_byte; simpl; lia).
  destruct Hb as (H8 & H10 & H9).
  split; [exact (S2_verify_seq_window con_12 8 world_12 0 span_12 Hf Hs Hst H8 H9)|].
  exact (S2_verify_seq_window con_12 10 world_12 0 span_12 Hf Hs Hst H10 H9).
Defined.

(** Sending a message of three bytes from a new context: a nonce is asked for. *)
Definition demo_event : event_data_t := EvBuf con_12 (BufExt [0x20; 0x01; 0xFF]) 3.

Lemma fsm_send_done_exactly_once_witness :
  exists w', S2_fsm_post_event SEND_MSG demo_event (demo_world 1) = Ok (tt, w') /\
  (count_done (outs w') + busy w' = 1)%nat.
Proof.
  destruct (S2_fsm_post_event SEND_MSG demo_event (demo_world 1)) as [[[] w']|f] eqn:E.
  - exists w'. split; [reflexivity|].
    apply (fsm_send_done_exactly_once SEND_MSG demo_event (demo_world 1) w'); [vm_compute; reflexivity|exact E].
  - exfalso. apply (f_equal (fun r => match r with Ok _ => true | Fault _ => false end)) in E.
    vm_compute in E. discriminate E.
Defined.

(** The radio refuses the request for a nonce, so the machine posts to itself. *)
Definition refusing_world : World := set_accept [false] (demo_world 1).

Lemma set_accept_ok l w : world_ok w -> world_ok (set_accept l w).
Proof. done. Qed.

Lemma post_event_terminates_witness :
  exists w', S2_fsm_post_event SEND_MSG demo_event refusing_world = Ok (tt, w') /\
    fsm_step (fsm_step (fun _ _ => fail OutOfFuel)) SEND_MSG demo_event refusing_world = Ok (tt, w') /\
    fsm_step (fun _ _ => fail OutOfFuel) SEND_MSG demo_event refusing_world = Fault OutOfFuel.
Proof.
  destruct (post_event_terminates (fun _ _ => fail OutOfFuel) SEND_MSG demo_event refusing_world) as (w' & E1 & _ & E2).
  - apply set_accept_ok, demo_world_ok. done.
  - split; [done|]. split; [done|]. split; [done|]. apply (bool_decide_unpack _). vm_compute. exact Logic.I.
  - exists w'. split; [exact E1|]. split; [exact E2|]. vm_compute. reflexivity.
Defined.

Lemma send_accepted_once_witness :
  exists r w', S2_send_data_all_cast con_12 (BufExt [0x20; 0x01; 0xFF]) 3 SEND_MSG (demo_world 1) = Ok (r, w') /\
  r = true /\ (count_done (outs w') + busy w' = 1)%nat.
Proof.
  destruct (S2_send_data_all_cast con_12 (BufExt [0x20; 0x01; 0xFF]) 3 SEND_MSG (demo_world 1)) as [[r w']|f] eqn:E.
  - exists r, w'. split; [reflexivity|].
    destruct (send_accepted_once con_12 (BufExt [0x20; 0x01; 0xFF]) 3 SEND_MSG (demo_world 1) r w') as [Hr Hc];
      [vm_compute; reflexivity|auto|exact E|].
    assert (Er : r = true) by (apply Hr; split; [lia|]; split; [lia|]; split; [discriminate|vm_compute; reflexivity]).
    split; [exact Er|]. rewrite Er in Hc. exact Hc.
  - exfalso. apply (f_equal (fun r => match r with Ok _ => true | Fault _ => false end)) in E.
    vm_compute in E. discriminate E.
Defined.

Definition waiting_world : World := set_ctxt (set_fsm WAIT_NONCE_RAPORT (ctxt (demo_world 1))) (demo_world 1).

Lemma timeout_completes_witness :
  exists st w', S2_timeout_notify waiting_world = Ok (tt, w') /\ fsm (ctxt w') = IDLE /\
    outs w' = SendDoneEvent st :: outs waiting_world /\ st = S2_TRANSMIT_COMPLETE_FAIL.
Proof. apply (timeout_completes waiting_world); [vm_compute; reflexivity|left; reflexivity]. Defined.
End S2Fsm.
