(* ===== verification/S2Channel.v ===== *)
(** * The S2 secure channel, end to end

    The frame an in-sync sender emits, as a closed expression; what a receiver makes of it; and the
    theorems that put the two together: a message offered to [S2_send_data] on one node is the
    message [S2_application_command_handler] delivers on the other, after which the two SPANs are in
    sync again, and a re-synchronisation through a nonce report and an SN extension restores sync. *)
From S2P Require Import Prelude Aes Cmac Ccm Drbg Bigint S2Types Keystore S2Core S2Safe S2Fsm.
Import CtrDrbg S2Types Keystore S2 S2Safe S2Fsm.

Module S2Channel.

(** ** Running the senders *)

Definition put_wb (l : list Z) (w : World) : World := set_ctxt (set_workbuf l (ctxt w)) w.

Lemma wb_write_ok w off bs :
  (off + length bs <= length (workbuf (ctxt w)))%nat ->
  wb_write off bs w = Ok (tt, put_wb (splice off bs (workbuf (ctxt w))) w).
Proof.
  intros H. unfold wb_write, mbind, M_bind, get, wrs.
  by destruct (Nat.leb_spec (off + length bs) (length (workbuf (ctxt w)))); [|lia].
Qed.

Lemma rds_ok w l off n : (off + n <= length l)%nat -> rds l off n w = Ok (sub off n l, w).
Proof. intros H. unfold rds. by destruct (Nat.leb_spec (off + n) (length l)); [|lia]. Qed.

Lemma rd_ok w l i x : l !! i = Some x -> rd l i w = Ok (x, w).
Proof. intros E. unfold rd. by rewrite E. Qed.

Lemma get_sg_ok w cls g : sg (ctxt w) !! Z.to_nat cls = Some g -> get_sg cls w = Ok (g, w).
Proof. intros E. unfold get_sg, mbind, M_bind, get. by rewrite E. Qed.

(** The associated data of a frame with header [hdr]. *)
Definition aad_of (home sender receiver msg_len : Z) (hdr : list Z) : list Z :=
  ((if (LOWEST_LONG_RANGE_NODE_ID <=? sender) || (LOWEST_LONG_RANGE_NODE_ID <=? receiver) then
      [Z.land (Z.shiftr sender 8) 0xFF; Z.land sender 0xFF;
       Z.land (Z.shiftr receiver 8) 0xFF; Z.land receiver 0xFF]
    else [Z.land sender 0xFF; Z.land receiver 0xFF]) ++
   [Z.land (Z.shiftr home 24) 0xFF; Z.land (Z.shiftr home 16) 0xFF; Z.land (Z.shiftr home 8) 0xFF;
    Z.land home 0xFF; Z.land (Z.shiftr msg_len 8) 0xFF; Z.land msg_len 0xFF]) ++ drop 2 hdr.

Lemma make_aad_ok w sender receiver msg h msg_len :
  (4 <= h <= 56)%nat -> (h <= length msg)%nat ->
  S2_make_aad sender receiver msg h msg_len 64 w =
  Ok (aad_of (my_home_id (ctxt w)) sender receiver msg_len (take h msg), w).
Proof.
  intros Hh Hm. unfold S2_make_aad. destruct (Nat.ltb_spec 64 (h - 2 + 8)); [lia|].
  rewrite (bind_ok _ _ _ _ _ (get_ok w)), (bind_ok _ _ _ _ _ (rds_ok w msg 2 (h - 2) ltac:(lia))).
  assert (E : sub 2 (h - 2) msg = drop 2 (take h msg)) by (unfold sub; by rewrite skipn_firstn_comm).
  rewrite E. unfold aad_of.
  match goal with |- (if Nat.ltb _ (length ?x) then _ else _) _ = _ => set (aad := x) end.
  assert (length aad <= 64)%nat.
  { unfold aad. rewrite !length_app, length_drop, length_take. cbn [length].
    destruct (_ || _); cbn [length]; lia. }
  by destruct (Nat.ltb_spec 64 (length aad)); [lia|].
Qed.

Lemma aad_of_length home a b n hdr : (length hdr <= 56)%nat -> (0 < length (aad_of home a b n hdr) < 256)%nat.
Proof.
  intros H. unfold aad_of. rewrite !length_app, length_drop. cbn [length]. destruct (_ || _); cbn [length]; lia.
Qed.

(** The bytes of an encapsulated frame: header, ciphertext and tag. *)
Definition encap (key nonce : list Z) {C : BlockCipher} (home sender receiver : Z) (hdr payload : list Z) : list Z :=
  hdr ++ default [] (Ccm.CCM_encrypt_and_auth key nonce
    (aad_of home sender receiver (Z.of_nat (length hdr + length payload + 8)) hdr) payload).

(** No multicast business is pending for the peer. *)
Definition no_multicast (c : S2) (con : s2_connection_t) : Prop :=
  mpan c = None /\ Forall (fun m => node_id m <> r_node con) (mos_list c).

Section Sender.
Context {C : BlockCipher} {HC : BlockCipherOk C} {I : InclusionFsm} {P : Platform}.

Lemma add_mpan_none w off :
  no_multicast (ctxt w) (peer (ctxt w)) -> length (mos_list (ctxt w)) = MOS_LIST_LENGTH ->
  S2_add_mpan_extensions off w = Ok (0%nat, w).
Proof.
  intros [_ Hm] HL. unfold S2_add_mpan_extensions.
  assert (Hloop : forall ixs, Forall (fun i => (i < MOS_LIST_LENGTH)%nat) ixs ->
    add_mpan_loop ixs off 0 w = Ok (0%nat, w)).
  { induction ixs as [|i ixs IH]; intros Hi; [done|]. inversion_clear Hi as [|? ? Hi1 Hi2]. cbn [add_mpan_loop].
    rewrite (bind_ok _ _ _ _ _ (get_ok w)).
    destruct (lookup_lt_is_Some_2 (mos_list (ctxt w)) i ltac:(lia)) as [e He]. rewrite He.
    erewrite bind_ok by reflexivity. pose proof (Forall_lookup_1 _ _ _ _ Hm He) as Hne. simpl in Hne.
    destruct (Z.eqb_spec (node_id e) (r_node (peer (ctxt w)))); [done|by apply IH]. }
  rewrite (bind_ok _ _ _ _ _ (Hloop (seq 0 MOS_LIST_LENGTH) ltac:(repeat constructor))). done.
Qed.

(** The payload at offset [h] of the work buffer is replaced by its encryption and tag. *)
Lemma ccm_run w k nonce aad h p : length k = 16%nat -> length nonce = 16%nat -> Z.of_nat (length aad) < 65280 -> Z.of_nat (length p) < 65536 ->
  (h + length p + 8 <= length (workbuf (ctxt w)))%nat -> sub h (length p) (workbuf (ctxt w)) = p ->
  let ci := Ccm.ccm_encrypt k nonce (Ccm.ccm_A8 aad) p in
  length ci = (length p + 8)%nat /\ ccm_in_workbuf k nonce aad h (length p) w = Ok (length ci, put_wb (splice h ci (workbuf (ctxt w))) w).
Proof.
  intros HkL HnL Ha Hp Hw Hsub ci. assert (HciL : length ci = (length p + 8)%nat).
  { unfold ci, Ccm.ccm_encrypt. rewrite length_app, Ccm.ccm_payload_length, Ccm.ccm_tag_length; try lia; by right. }
  split; [done|]. unfold ccm_in_workbuf. rewrite (bind_ok _ _ _ _ _ (get_ok w)), (bind_ok _ _ _ _ _ (rds_ok w (workbuf (ctxt w)) h (length p) ltac:(lia))), Hsub.
  rewrite Ccm.encrypt_spec by (try (by right); lia). fold ci. by rewrite (bind_ok _ _ _ _ _ (wb_write_ok w h ci ltac:(lia))).
Qed.

(** From a complete header of [h] bytes in the work buffer to the frame. *)
Lemma finish_frame post w i s h p g :
  ctxt_ok (ctxt w) -> span_table (ctxt w) !! i = Some s ->
  no_multicast (ctxt w) (peer (ctxt w)) ->
  buf (ctxt w) = BufExt p -> length_ (ctxt w) = Z.of_nat (length p) -> (4 <= h <= 27)%nat ->
  sg (ctxt w) !! Z.to_nat (class_id (peer (ctxt w))) = Some g ->
  let c := ctxt w in
  let hdr := take h (workbuf c) in
  let '(nonce, g') := NextNonce.next_nonce_generate (d_rng s) in
  exists wb,
  (shdr_len ← S2_add_mpan_extensions h;
   (if Nat.eqb shdr_len 0 then mret tt else wb_or 3 ENCRYPTED_EXTENSION_BIT_MASK);;
   c ← get;
   let len := Z.to_nat (length_ c) in
   payload ← deref (buf c) len;
   wb_write (h + shdr_len) payload;;
   wb ← gets workbuf;
   aad ← S2_make_aad (l_node (peer c)) (r_node (peer c)) wb h
           (u16 (Z.of_nat (len + shdr_len + h + AUTH_TAG_LEN))) 64;
   s ← get_span i;
   let '(nonce, g) := NextNonce.next_nonce_generate (d_rng s) in
   upd_span i (set_rng g);;
   sgrp ← get_sg (class_id (peer c));
   msg_len ← ccm_in_workbuf (enc_key sgrp) nonce aad h (len + shdr_len);
   assert_ (negb (Nat.eqb msg_len 0));;
   c ← get;
   frame ← rds (workbuf c) 0 (msg_len + h);
   S2_send_raw post frame) w =
  S2_send_raw post (encap (enc_key g) nonce (my_home_id c) (l_node (peer c)) (r_node (peer c)) hdr p)
    (put_wb wb (put_span i (set_rng g' s) w)).
Proof.
  intros Hok Hs Hnm Hbuf Hlen Hh Hg c hdr.
  pose proof (ok_wb_len _ Hok) as HwL. pose proof (ok_wb _ Hok) as HwB.
  pose proof (ok_buf _ Hok) as Hbo. rewrite Hbuf, Hlen in Hbo. destruct Hbo as [Hmax [_ HpB]].
  unfold MAX_PAYLOAD in Hmax. unfold WORKBUF_LEN, WORKBUF_SIZE in HwL.
  pose proof (Forall_lookup_1 _ _ _ _ (ok_span _ Hok) Hs) as Hsok. pose proof (generate_nonce s Hsok) as Hn.
  pose proof (Forall_lookup_1 _ _ _ _ (ok_sg _ Hok) Hg) as (HkL & _ & _ & HkB & _).
  destruct (NextNonce.next_nonce_generate (d_rng s)) as [nonce g'] eqn:Egen. destruct Hn as (HnL & HnB & Hg').
  rewrite (bind_ok _ _ _ _ _ (add_mpan_none w h Hnm (ok_mos_len _ Hok))).
  cbn [Nat.eqb]. erewrite bind_ok by reflexivity. rewrite (bind_ok _ _ _ _ _ (get_ok w)). cbv zeta.
  rewrite Hbuf, Hlen, Nat2Z.id, !Nat.add_0_r.
  assert (Hd : deref (BufExt p) (length p) w = Ok (p, w)) by (cbn [deref]; rewrite rds_ok by lia; by rewrite sub_all).
  rewrite (bind_ok _ _ _ _ _ Hd).
  rewrite (bind_ok _ _ _ _ _ (wb_write_ok w h p ltac:(lia))).
  set (wb1 := splice h p (workbuf (ctxt w))). set (w1 := put_wb wb1 w).
  assert (HL1 : length wb1 = 1302%nat) by (unfold wb1; rewrite length_splice; lia).
  assert (Hhdr : take h wb1 = hdr) by (unfold wb1; by rewrite take_splice_lt by lia).
  assert (Hp1 : sub h (length p) wb1 = p) by (unfold wb1; rewrite sub_splice by lia; done).
  erewrite bind_ok by reflexivity. change (workbuf (ctxt w1)) with wb1.
  rewrite (bind_ok _ _ _ _ _ (make_aad_ok w1 _ _ wb1 h _ ltac:(lia) ltac:(lia))).
  rewrite Hhdr. change (my_home_id (ctxt w1)) with (my_home_id c).
  assert (HhL : length hdr = h) by (unfold hdr, c; rewrite length_take; lia).
  assert (Emsg : u16 (Z.of_nat (length p + h + AUTH_TAG_LEN)) = Z.of_nat (length hdr + length p + 8)).
  { rewrite HhL, u16_small; unfold AUTH_TAG_LEN; lia. }
  rewrite Emsg. unfold encap. set (aad := aad_of _ _ _ _ hdr).
  assert (Hs1 : span_table (ctxt w1) !! i = Some s) by exact Hs.
  rewrite (bind_ok _ _ _ _ _ (get_span_ok w1 i s Hs1)). rewrite Egen.
  rewrite (bind_ok _ _ _ _ _ (upd_span_ok w1 i s _ Hs1)).
  set (w2 := put_span i (set_rng g' s) w1).
  rewrite (bind_ok _ _ _ _ _ (get_sg_ok w2 _ g Hg)).
  pose proof (aad_of_length (my_home_id c) (l_node (peer (ctxt w))) (r_node (peer (ctxt w)))
    (Z.of_nat (length hdr + length p + 8)) hdr ltac:(lia)) as HaL. fold aad in HaL.
  rewrite Ccm.encrypt_spec by (try (by right); lia).
  set (ci := Ccm.ccm_encrypt (enc_key g) nonce (Ccm.ccm_A8 aad) p).
  destruct (ccm_run w2 (enc_key g) nonce aad h p) as [HciL Hccm]; try done; change (workbuf (ctxt w2)) with wb1; try lia.
  fold ci in HciL, Hccm. change (workbuf (ctxt w2)) with wb1 in Hccm. rewrite (bind_ok _ _ _ _ _ Hccm). rewrite HciL.
  replace (Nat.eqb (length p + 8) 0) with false by (symmetry; apply Nat.eqb_neq; lia).
  erewrite bind_ok by reflexivity. rewrite (bind_ok _ _ _ _ _ (get_ok _)).
  set (w3 := put_wb (splice h ci wb1) w2). change (workbuf (ctxt w3)) with (splice h ci wb1).
  rewrite (bind_ok _ _ _ _ _ (rds_ok w3 (splice h ci wb1) 0 (length p + 8 + h) ltac:(rewrite length_splice; lia))).
  rewrite sub_0, (take_splice h ci wb1) by lia. rewrite Hhdr.
  exists (splice h ci wb1). reflexivity.
Qed.

Lemma no_mgrp w h n : mpan (ctxt w) = None -> add_mgrp_extension h n w = Ok ((h, n), w).
Proof. intros E. unfold add_mgrp_extension. rewrite (bind_ok _ _ _ _ _ (get_ok w)). by rewrite E. Qed.

Lemma no_mos w h n : mpan (ctxt w) = None -> add_mos_extension h n w = Ok ((h, n), w).
Proof. intros E. unfold add_mos_extension. rewrite (bind_ok _ _ _ _ _ (get_ok w)). by rewrite E. Qed.

Lemma no_sn w i s h n :
  span_table (ctxt w) !! i = Some s -> sp_state s <> SPAN_SOS_REMOTE_NONCE ->
  add_sn_extension i h n w = Ok ((h, n), w).
Proof.
  intros Hs Hst. unfold add_sn_extension.
  rewrite (bind_ok _ _ _ _ _ (get_ok w)), (bind_ok _ _ _ _ _ (get_span_ok w i s Hs)).
  by rewrite bool_decide_eq_false_2.
Qed.

Lemma put_ext_ok w h ext :
  (h + length ext <= length (workbuf (ctxt w)))%nat ->
  put_ext h ext w = Ok ((h + length ext)%nat, put_wb (splice h ext (workbuf (ctxt w))) w).
Proof. intros H. unfold put_ext. by rewrite (bind_ok _ _ _ _ _ (wb_write_ok w h ext H)). Qed.

Definition hdr_plain (seq : Z) : list Z := [COMMAND_CLASS_SECURITY_2; SECURITY_2_MESSAGE_ENCAPSULATION; seq; 0].

(** What the sender relies on besides a well-formed context. *)
Record ready (w : World) (i : nat) (s : SPAN) (p : list Z) (g : sec_group) : Prop := {
  rd_ok_ctxt : ctxt_ok (ctxt w);
  rd_span : find_idx (span_matches (peer (ctxt w))) (span_table (ctxt w)) = Some i;
  rd_entry : span_table (ctxt w) !! i = Some s;
  rd_multi : no_multicast (ctxt w) (peer (ctxt w));
  rd_buf : buf (ctxt w) = BufExt p;
  rd_len : length_ (ctxt w) = Z.of_nat (length p);
  rd_keys : sg (ctxt w) !! Z.to_nat (class_id (peer (ctxt w))) = Some g
}.

Lemma put_wb_ok w wb : ctxt_ok (ctxt w) -> length wb = WORKBUF_LEN -> bytes wb -> ctxt_ok (ctxt (put_wb wb w)).
Proof. intros. by apply upd_ctxt_wb. Qed.

(** On a negotiated SPAN the frame has the plain header and the next nonce of the generator. *)
Lemma encrypt_negotiated post w i s p g :
  ready w i s p g -> sp_state s <> SPAN_SOS_REMOTE_NONCE ->
  let c := ctxt w in
  let '(nonce, g') := NextNonce.next_nonce_generate (d_rng s) in
  exists wb, S2_encrypt_and_send post w =
    S2_send_raw post (encap (enc_key g) nonce (my_home_id c) (l_node (peer c)) (r_node (peer c))
                        (hdr_plain (tx_seq s)) p)
      (put_wb wb (put_span i (set_rng g' s) w)).
Proof.
  intros [Hok Hf Hs Hnm Hbuf Hlen Hg] Hst c. unfold S2_encrypt_and_send.
  rewrite (bind_ok _ _ _ _ _ (get_ok w)), (bind_ok _ _ _ _ _ (find_span_found w _ i Hf)),
    (bind_ok _ _ _ _ _ (get_span_ok w i s Hs)).
  pose proof (ok_wb_len _ Hok) as HwL.
  pose proof (Forall_lookup_1 _ _ _ _ (ok_span _ Hok) Hs) as (_ & _ & _ & Htx).
  fold (hdr_plain (tx_seq s)).
  rewrite (bind_ok _ _ _ _ _ (wb_write_ok w 0 (hdr_plain (tx_seq s)) ltac:(rewrite HwL; apply wb_room; simpl; lia))).
  set (wb1 := splice 0 _ _). set (w1 := put_wb wb1 w).
  rewrite (bind_ok _ _ _ _ _ (no_sn w1 i s 4 0 Hs Hst)), (bind_ok _ _ _ _ _ (no_mgrp w1 4 0 (proj1 Hnm))),
    (bind_ok _ _ _ _ _ (no_mos w1 4 0 (proj1 Hnm))).
  change (Nat.eqb 0 0) with true. cbv iota. erewrite bind_ok by reflexivity.
  assert (Hok1 : ctxt_ok (ctxt w1)).
  { apply put_wb_ok; [done| |]; unfold wb1.
    - rewrite length_splice; [done|]. rewrite HwL. apply wb_room. simpl. lia.
    - apply bytes_splice; [unfold hdr_plain; by auto with zw|apply (ok_wb _ Hok)]. }
  pose proof (finish_frame post w1 i s 4 p g Hok1 Hs Hnm Hbuf Hlen ltac:(lia) Hg) as Hfin. cbv zeta in Hfin.
  assert (Hhd : take 4 (workbuf (ctxt w1)) = hdr_plain (tx_seq s)).
  { change (workbuf (ctxt w1)) with wb1. unfold wb1. rewrite take_splice by (simpl; lia). done. }
  rewrite Hhd in Hfin. destruct (NextNonce.next_nonce_generate (d_rng s)) as [nonce g'].
  destruct Hfin as [wb Hfin]. exists wb. exact Hfin.
Qed.

(** With the receiver's nonce known, the frame carries an SN extension with fresh entropy and the
    generator is the one both nonces give. *)
Definition hdr_sn (seq : Z) (ei : list Z) : list Z :=
  [COMMAND_CLASS_SECURITY_2; SECURITY_2_MESSAGE_ENCAPSULATION; seq; EXTENSION_BIT_MASK; 18; 0x41] ++ ei.

(** A nonce or the entropy for one. *)
Definition nonce16 (l : list Z) : Prop := length l = 16%nat /\ bytes l.

(** The entry of a peer whose nonce [rn] is known, with the sender's entropy [ei]. *)
Definition resynced (con : s2_connection_t) (ei : list Z) (g : sec_group) (s : SPAN) : SPAN :=
  set_sp_state SPAN_NEGOTIATED (set_sp_class (class_id con) (set_rng (NextNonce.next_nonce_instantiate ei (d_r_nonce s) (nonce_key g)) s)).

Lemma resynced_ok con ei g s : conn_ok con -> nonce16 ei -> sg_ok g -> span_ok s -> span_ok (resynced con ei g s).
Proof.
  intros Hc [HeL HeB] (_ & _ & HnkL & _ & _ & HnkB) Hs. pose proof (span_nonce_ok s Hs) as [HrnL HrnB].
  assert (Hr : span_ok (set_rng (NextNonce.next_nonce_instantiate ei (d_r_nonce s) (nonce_key g)) s)).
  { apply span_set_rng; [by apply next_nonce_instantiate_ok|done]. }
  destruct Hr as (? & ? & ? & ?). unfold conn_ok in Hc. unfold resynced. by entry_ok.
Qed.

(** The SN extension is written behind the four bytes of the header. *)
Lemma sn_run w i s g ei dg : span_table (ctxt w) !! i = Some s -> sp_state s = SPAN_SOS_REMOTE_NONCE ->
  AES_CTR_DRBG_Generate (s2_ctr_drbg w) = (ei, dg) -> length ei = 16%nat ->
  sg (ctxt w) !! Z.to_nat (class_id (peer (ctxt w))) = Some g -> length (workbuf (ctxt w)) = 1302%nat ->
  add_sn_extension i 4 0 w = Ok ((22%nat, 1%nat),
    put_wb (splice 4 ([18; 0x41] ++ ei) (workbuf (ctxt w))) (put_span i (resynced (peer (ctxt w)) ei g s) (set_drbg dg w))).
Proof.
  intros Hs Hst Egen HeL Hg HL. unfold add_sn_extension.
  rewrite (bind_ok _ _ _ _ _ (get_ok w)), (bind_ok _ _ _ _ _ (get_span_ok w i s Hs)), bool_decide_eq_true_2 by done.
  assert (Edr : drbg_generate w = Ok (ei, set_drbg dg w)) by (unfold drbg_generate; by rewrite Egen).
  rewrite (bind_ok _ _ _ _ _ Edr), (bind_ok _ _ _ _ _ (get_sg_ok (set_drbg dg w) _ g Hg)), (bind_ok _ _ _ _ _ (upd_span_ok (set_drbg dg w) i s _ Hs)).
  set (w2 := put_span _ _ _).
  assert (Hs2 : span_table (ctxt w2) !! i = Some (set_rng (NextNonce.next_nonce_instantiate ei (d_r_nonce s) (nonce_key g)) s)).
  { unfold w2, put_span. cbn [ctxt set_ctxt span_table set_span_table]. apply list_lookup_insert_eq. by eapply lookup_lt_Some. }
  rewrite (bind_ok _ _ _ _ _ (upd_span_ok w2 i _ _ Hs2)), (take_ge ei) by lia.
  match goal with |- (mbind _ ?m) ?x = _ => set (w3 := x) end.
  assert (HW : (4 + length ([(2 + 16)%Z; Z.lor S2_MSG_EXTHDR_CRITICAL_FLAG S2_MSG_EXTHDR_TYPE_SN] ++ ei) <= length (workbuf (ctxt w3)))%nat).
  { change (workbuf (ctxt w3)) with (workbuf (ctxt w)). rewrite length_app, HeL, HL. simpl. lia. }
  rewrite (bind_ok _ _ _ _ _ (put_ext_ok w3 4 _ HW)), length_app, HeL.
  unfold w3, w2, put_span. cbn [ctxt set_ctxt span_table set_span_table]. rewrite list_insert_insert_eq. reflexivity.
Qed.

(** The extension flag is set; there is one extension, so no more flag. *)
Lemma extension_flag_run w : workbuf (ctxt w) !! 3%nat = Some 0 ->
  (wb_or 3 EXTENSION_BIT_MASK;; more_loop 0) w = Ok (tt, put_wb (splice 3 [1] (workbuf (ctxt w))) w).
Proof.
  intros H3. erewrite bind_ok; [reflexivity|]. unfold wb_or. rewrite (bind_ok _ _ _ _ _ (get_ok w)), (bind_ok _ _ _ _ _ (rd_ok w (workbuf (ctxt w)) 3 0 H3)).
  rewrite wb_write_ok; [done|]. apply lookup_lt_Some in H3. simpl. lia.
Qed.

(** The work buffer with the header of a frame that carries an SN extension. *)
Lemma sn_buffer wb seq ei : length wb = 1302%nat -> bytes wb -> is_byte seq -> nonce16 ei ->
  let wb2 := splice 4 ([18; 0x41] ++ ei) (splice 0 (hdr_plain seq) wb) in let wb3 := splice 3 [1] wb2 in
  length (splice 0 (hdr_plain seq) wb) = 1302%nat /\ wb2 !! 3%nat = Some 0 /\ length wb2 = 1302%nat /\ bytes wb2 /\
  take 22 wb3 = hdr_sn seq ei /\ length wb3 = 1302%nat /\ bytes wb3.
Proof.
  intros HL HB Hseq [HeL HeB] wb2 wb3. assert (HL1 : length (splice 0 (hdr_plain seq) wb) = 1302%nat) by (rewrite length_splice; [done|simpl; lia]).
  assert (HextL : length ([18; 0x41] ++ ei) = 18%nat) by (rewrite length_app, HeL; done).
  assert (HL2 : length wb2 = 1302%nat) by (unfold wb2; rewrite length_splice; lia).
  assert (Hpre : take 22 wb2 = hdr_plain seq ++ [18; 0x41] ++ ei) by (unfold wb2; rewrite take_splice by lia; by rewrite take_splice by (simpl; lia)).
  assert (HB2 : bytes wb2).
  { apply bytes_splice; [apply bytes_app; split; by auto with zw|]. apply bytes_splice; [unfold hdr_plain; by auto with zw|done]. }
  split_and!; [done| |done|done| | |].
  - rewrite <- (lookup_take_lt _ 22), Hpre by lia. done.
  - unfold wb3. rewrite take_splice_ge by (cbn [length]; lia). by rewrite Hpre.
  - unfold wb3. rewrite length_splice; [done|simpl; lia].
  - apply bytes_splice; [by auto with zw|done].
Qed.

Lemma encrypt_resync post w i s p g :
  ready w i s p g -> drbg_ok (s2_ctr_drbg w) -> sp_state s = SPAN_SOS_REMOTE_NONCE ->
  let c := ctxt w in
  let '(ei, dg) := AES_CTR_DRBG_Generate (s2_ctr_drbg w) in
  let s1 := set_sp_state SPAN_NEGOTIATED (set_sp_class (class_id (peer c))
              (set_rng (NextNonce.next_nonce_instantiate ei (d_r_nonce s) (nonce_key g)) s)) in
  let '(nonce, g') := NextNonce.next_nonce_generate (d_rng s1) in
  exists wb, S2_encrypt_and_send post w =
    S2_send_raw post (encap (enc_key g) nonce (my_home_id c) (l_node (peer c)) (r_node (peer c))
                        (hdr_sn (tx_seq s) ei) p)
      (put_wb wb (put_span i (set_rng g' s1) (set_drbg dg w))).
Proof.
  intros [Hok Hf Hs Hnm Hbuf Hlen Hg] Hdrbg Hst c. pose proof (generate_ok _ Hdrbg) as Hgen.
  destruct (AES_CTR_DRBG_Generate (s2_ctr_drbg w)) as [ei dg] eqn:Egen. destruct Hgen as (HeL & HeB & Hdg).
  cbn [fst snd] in HeL, HeB, Hdg. set (s1 := set_sp_state _ _). unfold S2_encrypt_and_send.
  pose proof (ok_wb_len _ Hok) as HwL. pose proof (Forall_lookup_1 _ _ _ _ (ok_span _ Hok) Hs) as Hsok.
  pose proof (Forall_lookup_1 _ _ _ _ (ok_sg _ Hok) Hg) as Hsg. fold (hdr_plain (tx_seq s)).
  destruct (sn_buffer (workbuf (ctxt w)) (tx_seq s) ei HwL (ok_wb _ Hok) ltac:(apply Hsok) (conj HeL HeB)) as (HL1 & H3 & HL2 & HB2 & Hhd & HL3 & HB3).
  rewrite (bind_ok _ _ _ _ _ (get_ok w)), (bind_ok _ _ _ _ _ (find_span_found w _ i Hf)), (bind_ok _ _ _ _ _ (get_span_ok w i s Hs)).
  fold (hdr_plain (tx_seq s)).
  rewrite (bind_ok _ _ _ _ _ (wb_write_ok w 0 (hdr_plain (tx_seq s)) ltac:(rewrite HwL; apply wb_room; simpl; lia))).
  set (wb1 := splice 0 _ _) in *. set (w1 := put_wb wb1 w). rewrite (bind_ok _ _ _ _ _ (sn_run w1 i s g ei dg Hs Hst Egen HeL Hg HL1)).
  change (workbuf (ctxt w1)) with wb1. set (wb2 := splice 4 _ _) in *.
  change (put_wb wb2 _) with (put_wb wb2 (put_span i s1 (set_drbg dg w))). set (w2 := put_wb wb2 _).
  rewrite (bind_ok _ _ _ _ _ (no_mgrp w2 22 1 (proj1 Hnm))), (bind_ok _ _ _ _ _ (no_mos w2 22 1 (proj1 Hnm))).
  change (Nat.eqb 1 0) with false. change (1 - 1)%nat with 0%nat. cbv iota. rewrite (bind_ok _ _ _ _ _ (extension_flag_run w2 H3)).
  change (workbuf (ctxt w2)) with wb2. set (wb3 := splice 3 [1] wb2) in *. set (w3 := put_wb wb3 w2).
  assert (Hs3 : span_table (ctxt w3) !! i = Some s1).
  { unfold w3, w2, put_wb, put_span. cbn [ctxt set_ctxt span_table set_span_table set_workbuf set_drbg].
    apply list_lookup_insert_eq. by eapply lookup_lt_Some. }
  assert (Hok3 : ctxt_ok (ctxt w3)).
  { apply upd_ctxt_wb; [apply upd_ctxt_wb; [apply upd_ctxt_span; [done| |]| |]| |]; try done.
    - rewrite length_insert. apply (ok_span_len _ Hok).
    - apply Forall_insert; [apply (ok_span _ Hok)|]. apply resynced_ok; [apply (ok_peer _ Hok)|by split|done|done]. }
  pose proof (finish_frame post w3 i s1 22 p g Hok3 Hs3 Hnm Hbuf Hlen ltac:(lia) Hg) as Hfin. cbv zeta in Hfin.
  change (workbuf (ctxt w3)) with wb3 in Hfin. rewrite Hhd in Hfin. destruct (NextNonce.next_nonce_generate (d_rng s1)) as [nonce g'].
  destruct Hfin as [wb Hfin]. exists wb. rewrite Hfin. f_equal.
  unfold put_span, w3, w2, put_wb, put_span. cbn [ctxt set_ctxt span_table set_span_table set_workbuf set_drbg].
  by rewrite list_insert_insert_eq.
Qed.
End Sender.

(** ** Running the receiver *)

Lemma put_span_lookup w i s t :
  span_table (ctxt w) !! i = Some s -> span_table (ctxt (put_span i t w)) !! i = Some t.
Proof.
  intros H. unfold put_span. cbn [ctxt set_ctxt span_table set_span_table].
  apply list_lookup_insert_eq. by eapply lookup_lt_Some.
Qed.

Lemma put_span_twice w i s t : put_span i t (put_span i s w) = put_span i t w.
Proof.
  unfold put_span. cbn [ctxt set_ctxt span_table set_span_table]. by rewrite list_insert_insert_eq.
Qed.

Lemma put_span_find w con i s :
  find_idx (span_matches con) (span_table (ctxt w)) = Some i -> span_matches con s = true ->
  find_idx (span_matches con) (span_table (ctxt (put_span i s w))) = Some i.
Proof.
  intros Hf Hm. pose proof Hf as Hf'. apply find_idx_Some in Hf as [(x & Hx & _) Hb]. apply find_idx_Some. split.
  - exists s. split; [by eapply put_span_lookup|done].
  - intros j y Hj Hy. unfold put_span in Hy. cbn [ctxt set_ctxt span_table set_span_table] in Hy.
    rewrite list_lookup_insert_ne in Hy by lia. by eapply Hb.
Qed.

Section Receiver.
Context {C : BlockCipher} {HC : BlockCipherOk C} {I : InclusionFsm} {P : Platform}.

(** A decryption attempt under the class of the SPAN: the generator moves on, the buffer is
    overwritten. *)
Lemma attempt_ok i aad ct w t g nonce gg :
  span_table (ctxt w) !! i = Some t -> sg (ctxt w) !! Z.to_nat (sp_class t) = Some g ->
  NextNonce.next_nonce_generate (d_rng t) = (nonce, gg) ->
  (upd_span i (set_rng gg);; sgrp ← get_sg (sp_class t);
   mret (Ccm.CCM_decrypt_and_auth (enc_key sgrp) nonce aad ct)) w =
  Ok (Ccm.CCM_decrypt_and_auth (enc_key g) nonce aad ct, put_span i (set_rng gg t) w).
Proof.
  intros Ht Hg Hn. rewrite (bind_ok _ _ _ _ _ (upd_span_ok w i t _ Ht)).
  by rewrite (bind_ok _ _ _ _ _ (get_sg_ok (put_span i (set_rng gg t) w) _ g Hg)).
Qed.

(** The first class tried is the right one. *)
Lemma try_first post m cn i non aad ct w t g nonce gg n pt :
  span_table (ctxt w) !! i = Some t -> has_bits (loaded_keys (ctxt w)) (Z.shiftl 1 (sp_class t)) = true ->
  sg (ctxt w) !! Z.to_nat (sp_class t) = Some g ->
  NextNonce.next_nonce_generate (d_rng t) = (nonce, gg) ->
  Ccm.CCM_decrypt_and_auth (enc_key g) nonce aad ct = (n, pt) -> n <> 0%nat ->
  try_classes post (S m) cn i None non aad ct w =
  Ok (Some (with_class_id (sp_class t) cn, pt, n), put_span i (set_sp_state SPAN_NEGOTIATED (set_rng gg t)) w).
Proof.
  intros Ht Hl Hg Hn Hd Hz. cbn [try_classes].
  rewrite (bind_ok _ _ _ _ _ (get_ok w)), (bind_ok _ _ _ _ _ (get_span_ok w i t Ht)), Hl, Hn.
  rewrite (bind_ok _ _ _ _ _ (attempt_ok i aad ct w t g nonce gg Ht Hg Hn)), Hd.
  destruct (Nat.eqb_spec n 0); [done|]. cbn [negb]. set (w1 := put_span i (set_rng gg t) w).
  assert (H1 : span_table (ctxt w1) !! i = Some (set_rng gg t)) by (by eapply put_span_lookup).
  unfold decrypt_ok. erewrite bind_ok; [reflexivity|].
  rewrite (bind_ok _ _ _ _ _ (upd_span_ok w1 i _ _ H1)). unfold w1. rewrite put_span_twice.
  erewrite bind_ok by (apply get_span_ok; by eapply put_span_lookup). done.
Qed.

(** Both ends of a frame agree on its associated data. *)
Definition peers (con cn : s2_connection_t) : Prop := l_node cn = r_node con /\ r_node cn = l_node con.

Lemma encap_parts key nonce home a b hdr p :
  length nonce = 16%nat -> (length hdr <= 56)%nat -> Z.of_nat (length p) <= 1210 ->
  let f := encap key nonce home a b hdr p in
  let aad := aad_of home a b (Z.of_nat (length f)) hdr in
  length f = (length hdr + length p + 8)%nat /\ take (length hdr) f = hdr /\
  Ccm.CCM_decrypt_and_auth key nonce aad (drop (length hdr) f) =
    (length p, p ++ Ccm.ccm_tag key nonce (Ccm.ccm_A8 aad) p).
Proof.
  intros Hn Hh Hp f aad.
  pose proof (aad_of_length home a b (Z.of_nat (length hdr + length p + 8)) hdr Hh) as Ha.
  assert (Hno : Ccm.nonce_ok nonce) by (by right).
  assert (HL : length f = (length hdr + length p + 8)%nat).
  { unfold f, encap. rewrite Ccm.encrypt_spec by (done || lia). cbn [default from_option id]. unfold Ccm.ccm_encrypt.
    rewrite !length_app, Ccm.ccm_payload_length, Ccm.ccm_tag_length by (done || lia). lia. }
  split; [done|]. unfold aad. rewrite HL. unfold f, encap. rewrite take_app_length, drop_app_length. split; [done|].
  rewrite Ccm.encrypt_spec by (done || lia). cbn [default from_option id].
  apply Ccm.decrypt_encrypt; [done|lia|lia].
Qed.

(** The body of the decryption, when the class of the SPAN is the right one. *)
Lemma decrypt_body_first post cn w j t g p hdr nonce gg non :
  span_table (ctxt w) !! j = Some t -> length (workbuf (ctxt w)) = WORKBUF_LEN ->
  has_bits (loaded_keys (ctxt w)) (Z.shiftl 1 (sp_class t)) = true ->
  sg (ctxt w) !! Z.to_nat (sp_class t) = Some g ->
  NextNonce.next_nonce_generate (d_rng t) = (nonce, gg) -> length nonce = 16%nat ->
  (4 <= length hdr <= 56)%nat -> (0 < length p)%nat -> Z.of_nat (length p) <= 1210 ->
  exists wb tag, length tag = 8%nat /\
  decrypt_body post cn (encap (enc_key g) nonce (my_home_id (ctxt w)) (r_node cn) (l_node cn) hdr p) (length hdr)
    (Some j) None non w =
  Ok ((with_class_id (sp_class t) cn, Some (p ++ tag, length p)),
      put_wb wb (put_span j (set_sp_state SPAN_NEGOTIATED (set_rng gg t)) w)).
Proof.
  intros Ht HwL Hl Hg Hn HnL Hh Hp0 Hp.
  destruct (encap_parts (enc_key g) nonce (my_home_id (ctxt w)) (r_node cn) (l_node cn) hdr p HnL
    ltac:(lia) Hp) as (HfL & Hfh & Hdec).
  set (f := encap _ _ _ _ _ _ _) in *. set (aad := aad_of _ _ _ _ _) in *.
  assert (HA : (0 < length aad < 256)%nat) by (apply aad_of_length; lia).
  set (w1 := if bool_decide (fsm (ctxt w) = IDLE) && bool_decide (sp_state t = SPAN_INSTANTIATE)
             then put_wb (splice 0 (drop (length hdr) f) (workbuf (ctxt w))) w else w).
  assert (E1 : (if bool_decide (fsm (ctxt w) = IDLE) && bool_decide (sp_state t = SPAN_INSTANTIATE)
                then wb_write 0 (drop (length hdr) f) else mret tt) w = Ok (tt, w1)).
  { unfold w1. destruct (_ && _); [|done]. apply wb_write_ok. rewrite HwL, length_drop, HfL. apply wb_room. lia. }
  assert (Hw1 : exists wb, w1 = put_wb wb w).
  { unfold w1. destruct (_ && _); [by eexists|]. exists (workbuf (ctxt w)). by destruct w as [[] ? ? ?]. }
  destruct Hw1 as [wb Hw1]. exists wb, (Ccm.ccm_tag (enc_key g) nonce (Ccm.ccm_A8 aad) p). split.
  { apply Ccm.ccm_tag_length; [by right|lia|lia]. }
  unfold decrypt_body.
  rewrite (bind_ok _ _ _ _ _ (make_aad_ok w _ _ f (length hdr) _ ltac:(lia) ltac:(lia))), Hfh. fold aad.
  erewrite bind_ok.
  2:{ rewrite (bind_ok _ _ _ _ _ (get_ok w)), (bind_ok _ _ _ _ _ (get_span_ok w j t Ht)).
      rewrite (bind_ok _ _ _ _ _ E1), Hw1.
      apply (try_first post 6 cn j non aad (drop (length hdr) f) (put_wb wb w) t g nonce gg (length p)); try done; lia. }
  cbv iota beta. destruct (Nat.eqb_spec (length p) 0); [lia|]. by destruct (Nat.eqb_spec (length aad) 0); [lia|].
Qed.

(** A sequence number the receiver has not seen lately. *)
Definition fresh (t : SPAN) (seq : Z) : Prop := sp_state t = SPAN_NO_SEQ \/ 2 <= u8 (rx_seq t - seq).

Lemma seq_accepted cn seq w j t :
  find_idx (span_matches cn) (span_table (ctxt w)) = Some j -> span_table (ctxt w) !! j = Some t ->
  fresh t seq ->
  S2_verify_seq cn seq w = Ok (true, put_span j (set_rx_seq seq t) w) /\
  find_idx (span_matches cn) (span_table (ctxt (put_span j (set_rx_seq seq t) w))) = Some j.
Proof.
  intros Hf Ht Hseq. split.
  - unfold S2_verify_seq. rewrite (bind_ok _ _ _ _ _ (find_span_found w cn j Hf)), (bind_ok _ _ _ _ _ (get_span_ok w j t Ht)).
    assert (E : bool_decide (sp_state t = SPAN_NO_SEQ) || (S2_SEQ_DUPL_WINDOW_SIZE <=? u8 (rx_seq t - seq)) = true).
    { apply orb_true_iff. rewrite bool_decide_eq_true, Z.leb_le. exact Hseq. }
    rewrite E. by rewrite (bind_ok _ _ _ _ _ (upd_span_ok w j t _ Ht)).
  - apply put_span_find; [done|]. apply find_idx_Some in Hf as [(x & Hx & Hm) _]. by assert (x = t) as -> by congruence.
Qed.

(** A frame without extensions on a negotiated SPAN. *)
Lemma decrypt_negotiated post cn w j t g p seq nonce gg :
  is_multicast cn = false -> length (workbuf (ctxt w)) = WORKBUF_LEN ->
  find_idx (span_matches cn) (span_table (ctxt w)) = Some j -> span_table (ctxt w) !! j = Some t ->
  sp_state t = SPAN_NEGOTIATED -> fresh t seq ->
  has_bits (loaded_keys (ctxt w)) (Z.shiftl 1 (sp_class t)) = true ->
  sg (ctxt w) !! Z.to_nat (sp_class t) = Some g ->
  NextNonce.next_nonce_generate (d_rng t) = (nonce, gg) -> length nonce = 16%nat ->
  (0 < length p)%nat -> Z.of_nat (length p) <= 1210 ->
  exists wb tag, length tag = 8%nat /\
  S2_decrypt_msg post cn
    (encap (enc_key g) nonce (my_home_id (ctxt w)) (r_node cn) (l_node cn) (hdr_plain seq) p) w =
  Ok (mkDecrypted AUTH_OK (with_class_id (sp_class t) cn) (p ++ tag) 0 (length p),
      put_wb wb (put_span j (set_sp_state SPAN_NEGOTIATED (set_rng gg (set_rx_seq seq t))) w)).
Proof.
  intros Hmc HwL Hf Ht Hst Hseq Hl Hg Hn HnL Hp0 Hp.
  destruct (encap_parts (enc_key g) nonce (my_home_id (ctxt w)) (r_node cn) (l_node cn) (hdr_plain seq) p HnL
    ltac:(simpl; lia) Hp) as (HfL & Hfh & _).
  change (length (hdr_plain seq)) with 4%nat in HfL, Hfh.
  destruct (seq_accepted cn seq w j t Hf Ht Hseq) as [Hv Hf1].
  set (t1 := set_rx_seq seq t) in *. set (w1 := put_span j t1 w) in *.
  assert (Ht1 : span_table (ctxt w1) !! j = Some t1) by (by eapply put_span_lookup).
  destruct (decrypt_body_first post cn w1 j t1 g p (hdr_plain seq) nonce gg None Ht1 HwL Hl Hg Hn HnL
    ltac:(simpl; lia) Hp0 Hp) as (wb & tag & HtL & Hb).
  change (my_home_id (ctxt w1)) with (my_home_id (ctxt w)) in Hb. change (length (hdr_plain seq)) with 4%nat in Hb.
  set (f := encap _ _ _ _ _ _ _) in *. exists wb, tag. split; [done|]. unfold S2_decrypt_msg.
  assert (H3 : f !! 3%nat = Some 0) by (rewrite <- (lookup_take_lt _ 4), Hfh by lia; done).
  assert (H2 : f !! 2%nat = Some seq) by (rewrite <- (lookup_take_lt _ 4), Hfh by lia; done).
  rewrite (bind_ok _ _ _ _ _ (rd_ok w f 3 0 H3)).
  destruct (Nat.ltb_spec (length f) (4 + AUTH_TAG_LEN)) as [Hx|_]; [unfold AUTH_TAG_LEN in Hx; lia|].
  rewrite (bind_ok _ _ _ _ _ (rd_ok w f 2 seq H2)), Hmc, (bind_ok _ _ _ _ _ Hv). cbn [negb].
  erewrite bind_ok by (by rewrite (bind_ok _ _ _ _ _ (find_span_found w1 cn j Hf1))).
  change (has_bits 0 EXTENSION_BIT_MASK) with false. cbv iota. erewrite bind_ok by reflexivity. cbv iota beta.
  erewrite bind_ok by (rewrite (bind_ok _ _ _ _ _ (get_span_ok w1 j t1 Ht1));
    change (sp_state t1) with (sp_state t); rewrite Hst; reflexivity).
  cbv iota beta. rewrite (bind_ok _ _ _ _ _ Hb). cbv iota beta.
  change (has_bits 0 ENCRYPTED_EXTENSION_BIT_MASK) with false. cbv iota. erewrite bind_ok by reflexivity.
  cbv iota beta. rewrite Nat.sub_0_r. unfold w1. by rewrite put_span_twice.
Qed.

(** *** The search for the class of a frame *)

Lemma rng_set_rng g s : drbg_ok g -> d_rng (set_rng g s) = g.
Proof.
  destruct g as [f vv kk]. intros (_ & Hv & Hk & _). cbn [v k] in Hv, Hk. unfold d_rng, set_rng, sub. cbn [d df v k].
  unfold at_. simpl. rewrite drop_0, take_app_le, take_ge, drop_app_ge by lia.
  rewrite Hv. replace (16 - 16)%nat with 0%nat by lia. by rewrite drop_0, take_ge by lia.
Qed.

(** The class tried after [cls], and the [m]-th one from it. *)
Definition next_class (cls : Z) : Z := if Z.of_nat N_SEC_CLASS <=? u8 (cls + 1) then 0 else u8 (cls + 1).
Definition class_at (cls : Z) (m : nat) : Z := Nat.iter m next_class cls.

Lemma class_at_S cls m : class_at cls (S m) = class_at (next_class cls) m.
Proof. unfold class_at. by rewrite Nat.iter_succ_r. Qed.

Lemma next_class_range cls : 0 <= cls < 7 -> 0 <= next_class cls < 7.
Proof.
  intros H. unfold next_class, N_SEC_CLASS. unfold u8. rewrite Z.mod_small by lia.
  destruct (Z.leb_spec (Z.of_nat 7) (cls + 1)); lia.
Qed.

(** What the keys [g] make of a ciphertext, with a generator seeded by the two nonces. *)
Definition open_with (sn rn aad ct : list Z) (g : sec_group) : nat * list Z :=
  Ccm.CCM_decrypt_and_auth (enc_key g)
    (fst (NextNonce.next_nonce_generate (NextNonce.next_nonce_instantiate sn rn (nonce_key g)))) aad ct.

(** Class [cls] is passed over: its key is not loaded, or the tag does not fit. *)
Definition passed_over (c : S2) (sn rn aad ct : list Z) (cls : Z) : Prop :=
  has_bits (loaded_keys c) (Z.shiftl 1 cls) = false \/
  forall g, sg c !! Z.to_nat cls = Some g -> fst (open_with sn rn aad ct g) = 0%nat.

(** The SPAN while class [cls], of keys [g], is tried. *)
Definition seeded (sn rn : list Z) (g : sec_group) (cls : Z) (t : SPAN) : SPAN :=
  set_rng (NextNonce.next_nonce_instantiate sn rn (nonce_key g)) (set_sp_class cls t).


Lemma seed_ok sn rn g :
  nonce16 sn -> nonce16 rn -> sg_ok g -> drbg_ok (NextNonce.next_nonce_instantiate sn rn (nonce_key g)).
Proof. intros [? ?] [? ?] (_ & _ & ? & _ & _ & ?). by apply next_nonce_instantiate_ok. Qed.

Lemma seed_nonce sn rn g nonce gg :
  nonce16 sn -> nonce16 rn -> sg_ok g ->
  NextNonce.next_nonce_generate (NextNonce.next_nonce_instantiate sn rn (nonce_key g)) = (nonce, gg) ->
  nonce16 nonce /\ drbg_ok gg.
Proof.
  intros Hs Hr Hg E. pose proof (generate_ok _ (seed_ok sn rn g Hs Hr Hg)) as HG.
  unfold NextNonce.next_nonce_generate in E. rewrite E in HG. by destruct HG as (? & ? & ?).
Qed.

Lemma seeded_rng sn rn g cls t :
  nonce16 sn -> nonce16 rn -> sg_ok g ->
  d_rng (seeded sn rn g cls t) = NextNonce.next_nonce_instantiate sn rn (nonce_key g).
Proof. intros. apply rng_set_rng. by apply seed_ok. Qed.

Section Search.
Variables (post : event_t -> event_data_t -> M unit) (cn : s2_connection_t) (i : nat) (sn rn aad ct : list Z).
Hypothesis Hsn : nonce16 sn.
Hypothesis Hrn : nonce16 rn.
Hypothesis Haad : (length aad < 256)%nat /\ bytes aad.
Hypothesis Hct : (length ct <= 1302)%nat /\ bytes ct.

(** A context in which the class loop runs with the ciphertext saved. *)
Record searching (c : S2) : Prop := {
  se_sg_len : length (sg c) = N_SEC_CLASS;
  se_sg : Forall sg_ok (sg c);
  se_idle : fsm c = IDLE;
  se_saved : sub 0 (length ct) (workbuf c) = ct;
  se_room : (length ct <= length (workbuf c))%nat
}.

Lemma search_group c cls : searching c -> 0 <= cls < 7 -> exists g, sg c !! Z.to_nat cls = Some g /\ sg_ok g.
Proof.
  intros Hc Hr. destruct (lookup_lt_is_Some_2 (sg c) (Z.to_nat cls)) as [g Hg].
  - rewrite (se_sg_len _ Hc). unfold N_SEC_CLASS. lia.
  - exists g. split; [done|]. exact (Forall_lookup_1 _ _ _ _ (se_sg _ Hc) Hg).
Qed.

(** The end of a failed attempt: the next class is seeded and the ciphertext restored. *)
Lemma search_next m w t0 (ct' : list Z) :
  searching (ctxt w) -> span_table (ctxt w) !! i = Some t0 -> sp_state t0 = SPAN_INSTANTIATE ->
  0 <= sp_class t0 < 7 -> length ct' = length ct ->
  forall g, sg (ctxt w) !! Z.to_nat (next_class (sp_class t0)) = Some g ->
  (s ← get_span i;
   c ← get;
   if negb (bool_decide (fsm c = IDLE)) || bool_decide (sp_state s = SPAN_NEGOTIATED) then mret None
   else
     let cls := if Z.of_nat N_SEC_CLASS <=? u8 (sp_class s + 1) then 0 else u8 (sp_class s + 1) in
     upd_span i (set_sp_class cls);;
     ciphertext ← rds (workbuf c) 0 (length ct');
     '(s_nonce, r_nonce) ← of_option UninitRead (Some (sn, rn));
     g ← get_sg cls;
     upd_span i (set_rng (NextNonce.next_nonce_instantiate s_nonce r_nonce (nonce_key g)));;
     try_classes post m cn i None (Some (sn, rn)) aad ciphertext) w =
  try_classes post m cn i None (Some (sn, rn)) aad ct
    (put_span i (seeded sn rn g (next_class (sp_class t0)) t0) w).
Proof.
  intros Hc Ht Hst Hr HL g Hg.
  rewrite (bind_ok _ _ _ _ _ (get_span_ok w i t0 Ht)), (bind_ok _ _ _ _ _ (get_ok w)).
  rewrite (bool_decide_eq_true_2 _ (se_idle _ Hc)), Hst, bool_decide_eq_false_2 by done. cbn [negb orb].
  fold (next_class (sp_class t0)). cbv zeta.
  rewrite (bind_ok _ _ _ _ _ (upd_span_ok w i t0 _ Ht)). set (w1 := put_span _ _ w).
  assert (H1 : span_table (ctxt w1) !! i = Some (set_sp_class (next_class (sp_class t0)) t0)) by (by eapply put_span_lookup).
  rewrite HL, (bind_ok _ _ _ _ _ (rds_ok w1 _ 0 (length ct) (se_room _ Hc))), (se_saved _ Hc).
  erewrite bind_ok by reflexivity. cbv iota beta. rewrite (bind_ok _ _ _ _ _ (get_sg_ok w1 _ g Hg)).
  rewrite (bind_ok _ _ _ _ _ (upd_span_ok w1 i _ _ H1)). unfold w1. by rewrite put_span_twice.
Qed.

(** One class passed over. *)
Lemma search_step m w t0 g0 :
  searching (ctxt w) -> span_table (ctxt w) !! i = Some t0 -> sp_state t0 = SPAN_INSTANTIATE ->
  0 <= sp_class t0 < 7 -> sg (ctxt w) !! Z.to_nat (sp_class t0) = Some g0 ->
  d_rng t0 = NextNonce.next_nonce_instantiate sn rn (nonce_key g0) ->
  passed_over (ctxt w) sn rn aad ct (sp_class t0) ->
  forall g, sg (ctxt w) !! Z.to_nat (next_class (sp_class t0)) = Some g ->
  try_classes post (S m) cn i None (Some (sn, rn)) aad ct w =
  try_classes post m cn i None (Some (sn, rn)) aad ct
    (put_span i (seeded sn rn g (next_class (sp_class t0)) t0) w).
Proof.
  intros Hc Ht Hst Hr Hg0 Hrng Hpo g Hg. cbn [try_classes].
  rewrite (bind_ok _ _ _ _ _ (get_ok w)), (bind_ok _ _ _ _ _ (get_span_ok w i t0 Ht)).
  pose proof (Forall_lookup_1 _ _ _ _ (se_sg _ Hc) Hg0) as Hsg0. pose proof Hsg0 as (HkL & _ & HnL & HkB & _ & HnB).
  destruct (has_bits (loaded_keys (ctxt w)) (Z.shiftl 1 (sp_class t0))) eqn:El.
  2:{ erewrite bind_ok by reflexivity. cbv iota beta. cbn [Nat.eqb negb]. by apply search_next. }
  destruct Hpo as [|Hpo]; [congruence|]. specialize (Hpo g0 Hg0). unfold open_with in Hpo.
  destruct (NextNonce.next_nonce_generate (d_rng t0)) as [nonce gg] eqn:En.
  rewrite Hrng in En. rewrite En in Hpo. destruct (seed_nonce sn rn g0 nonce gg) as [Hno _]; [done..|].
  rewrite <- Hrng in En. cbn [fst] in Hpo.
  rewrite (bind_ok _ _ _ _ _ (attempt_ok i aad ct w t0 g0 nonce gg Ht Hg0 En)).
  pose proof (Ccm.decrypt_total (enc_key g0) nonce aad ct) as Hd.
  destruct (Ccm.CCM_decrypt_and_auth (enc_key g0) nonce aad ct) as [n ct']. cbn [fst] in Hpo. subst n.
  destruct Hd as [HL _]; [right; apply Hno|lia|lia|done|done|apply Hno|apply Haad|apply Hct|].
  cbn [Nat.eqb negb].
  etransitivity; [apply (search_next m (put_span i (set_rng gg t0) w) (set_rng gg t0) ct') with (g := g); try done|].
  - by destruct Hc.
  - by eapply put_span_lookup.
  - by rewrite put_span_twice.
Qed.

(** The loop gets to the first class that opens the frame. *)
Lemma search_finds g nonce gg pt n : forall m k w t0 g0,
  searching (ctxt w) -> span_table (ctxt w) !! i = Some t0 -> sp_state t0 = SPAN_INSTANTIATE ->
  0 <= sp_class t0 < 7 -> sg (ctxt w) !! Z.to_nat (sp_class t0) = Some g0 ->
  d_rng t0 = NextNonce.next_nonce_instantiate sn rn (nonce_key g0) ->
  (m < k)%nat ->
  (forall q, (q < m)%nat -> passed_over (ctxt w) sn rn aad ct (class_at (sp_class t0) q)) ->
  let cls := class_at (sp_class t0) m in
  has_bits (loaded_keys (ctxt w)) (Z.shiftl 1 cls) = true -> sg (ctxt w) !! Z.to_nat cls = Some g ->
  NextNonce.next_nonce_generate (NextNonce.next_nonce_instantiate sn rn (nonce_key g)) = (nonce, gg) ->
  Ccm.CCM_decrypt_and_auth (enc_key g) nonce aad ct = (n, pt) -> n <> 0%nat ->
  try_classes post k cn i None (Some (sn, rn)) aad ct w =
  Ok (Some (with_class_id cls cn, pt, n),
      put_span i (set_sp_state SPAN_NEGOTIATED (set_rng gg (set_sp_class cls t0))) w).
Proof.
  induction m as [|m IH]; intros k w t0 g0 Hc Ht Hst Hr Hg0 Hrng Hk Hpo cls Hl Hg Hgen Hd Hn;
    (destruct k as [|k]; [lia|]).
  - change cls with (sp_class t0) in *. assert (g0 = g) as -> by congruence. rewrite <- Hrng in Hgen.
    rewrite (try_first post k cn i _ aad ct w t0 g nonce gg n pt); by destruct t0.
  - destruct (search_group (ctxt w) (next_class (sp_class t0)) Hc (next_class_range _ Hr)) as (g1 & Hg1 & Hok1).
    rewrite (search_step k w t0 g0 Hc Ht Hst Hr Hg0 Hrng) with (g := g1); try done.
    2:{ apply (Hpo 0%nat). lia. }
    unfold cls in *. rewrite class_at_S in Hl, Hg |- *.
    rewrite (IH k (put_span i (seeded sn rn g1 (next_class (sp_class t0)) t0) w)
      (seeded sn rn g1 (next_class (sp_class t0)) t0) g1); try done.
    + by rewrite put_span_twice.
    + by destruct Hc.
    + by eapply put_span_lookup.
    + by apply next_class_range.
    + by apply seeded_rng.
    + lia.
    + intros q Hq. pose proof (Hpo (S q) ltac:(lia)) as H. by rewrite class_at_S in H.
Qed.
End Search.

(** *** A frame with an SN extension *)

Lemma aad_of_bytes home a b n hdr : bytes hdr -> bytes (aad_of home a b n hdr).
Proof.
  intros Hh. unfold aad_of. apply bytes_app. split; [|by auto with zw].
  apply bytes_app. split; [destruct (_ || _)|]; repeat (apply bytes_cons; [apply land_ff_byte|]); by constructor.
Qed.

Lemma encap_bytes g nonce home a b hdr p :
  sg_ok g -> nonce16 nonce -> (length hdr <= 56)%nat -> bytes hdr -> bytes p -> Z.of_nat (length p) <= 1210 ->
  bytes (encap (enc_key g) nonce home a b hdr p).
Proof.
  intros (HkL & _ & _ & HkB & _) [HnL HnB] HhL HhB HpB HpL. unfold encap.
  set (n := Z.of_nat _). pose proof (aad_of_length home a b n hdr HhL) as HA.
  pose proof (aad_of_bytes home a b n hdr HhB) as HAB.
  pose proof (Ccm.encrypt_total (enc_key g) nonce (aad_of home a b n hdr) p) as HT.
  destruct HT as (ci & -> & _ & HB); try done; [by right|lia|lia|]. apply bytes_app. by split.
Qed.

(** Parsing the header: the generator is seeded and the SPAN waits for the first decryption. *)
Lemma parse_sn cn f seq ei w j t g fuel :
  take 22 f = hdr_sn seq ei -> length ei = 16%nat -> (22 + AUTH_TAG_LEN <= length f)%nat ->
  span_table (ctxt w) !! j = Some t -> sp_state t = SPAN_SOS_LOCAL_NONCE ->
  sg (ctxt w) !! Z.to_nat (sp_class t) = Some g ->
  parse_ext (S fuel) cn f (Some j) 4 4 None None w =
  Ok (Some (22%nat, None, Some (ei, d_r_nonce t)),
      put_span j (set_sp_state SPAN_INSTANTIATE (seeded ei (d_r_nonce t) g (sp_class t) t)) w).
Proof.
  intros Hf He HL Ht Hst Hg. cbn [parse_ext].
  assert (H4 : f !! 4%nat = Some 18) by (rewrite <- (lookup_take_lt _ 22), Hf by lia; done).
  assert (H5 : f !! 5%nat = Some 0x41) by (rewrite <- (lookup_take_lt _ 22), Hf by lia; done).
  rewrite (bind_ok _ _ _ _ _ (rd_ok w f 4 18 H4)).
  change (Z.to_nat (u16 (Z.of_nat 4 + 18))) with 22%nat.
  destruct (Nat.ltb_spec (length f) (22 + AUTH_TAG_LEN)); [lia|]. change (18 =? 0) with false. cbn [orb].
  rewrite (bind_ok _ _ _ _ _ (rd_ok w f 5 0x41 H5)). unfold ext_body.
  change (Z.land 0x41 S2_MSG_EXTHDR_TYPE_MASK =? S2_MSG_EXTHDR_TYPE_SN) with true. cbv iota.
  assert (Hsn : ext_sn f (Some j) 4 18 None w = Ok (Some (ei, d_r_nonce t),
    put_span j (set_sp_state SPAN_INSTANTIATE (seeded ei (d_r_nonce t) g (sp_class t) t)) w)).
  { unfold ext_sn. rewrite (bind_ok _ _ _ _ _ (get_span_ok w j t Ht)), Hst.
    rewrite bool_decide_eq_true_2 by done. change (18 =? 2 + 16) with true. cbn [andb].
    rewrite (bind_ok _ _ _ _ _ (rds_ok w f 6 16 ltac:(lia))).
    assert (Hsub : sub 6 16 f = ei).
    { unfold sub. rewrite take_drop_commute. change (6 + 16)%nat with 22%nat. by rewrite Hf. }
    rewrite Hsub, (bind_ok _ _ _ _ _ (upd_span_ok w j t _ Ht)). set (w1 := put_span _ _ w).
    rewrite (bind_ok _ _ _ _ _ (get_sg_ok w1 _ g Hg)).
    assert (H1 : span_table (ctxt w1) !! j = Some (set_sp_state SPAN_INSTANTIATE t)) by (by eapply put_span_lookup).
    rewrite (bind_ok _ _ _ _ _ (upd_span_ok w1 j _ _ H1)). unfold w1. by rewrite put_span_twice; destruct t. }
  erewrite bind_ok by (erewrite bind_ok by exact Hsn; reflexivity). cbv iota beta.
  by change (has_bits 0x41 S2_MSG_EXTHDR_MORE_FLAG) with false.
Qed.

(** The body of the decryption of a first frame, the right class being [m] tries away. *)
Lemma decrypt_body_search post cn w j t0 g0 g p hdr sn rn nonce gg m :
  ctxt_ok (ctxt w) -> fsm (ctxt w) = IDLE -> nonce16 sn -> nonce16 rn ->
  span_table (ctxt w) !! j = Some t0 -> sp_state t0 = SPAN_INSTANTIATE -> 0 <= sp_class t0 < 7 ->
  sg (ctxt w) !! Z.to_nat (sp_class t0) = Some g0 ->
  d_rng t0 = NextNonce.next_nonce_instantiate sn rn (nonce_key g0) ->
  let cls := class_at (sp_class t0) m in
  (m < N_SEC_CLASS)%nat -> has_bits (loaded_keys (ctxt w)) (Z.shiftl 1 cls) = true ->
  sg (ctxt w) !! Z.to_nat cls = Some g ->
  NextNonce.next_nonce_generate (NextNonce.next_nonce_instantiate sn rn (nonce_key g)) = (nonce, gg) ->
  (4 <= length hdr <= 56)%nat -> bytes hdr -> bytes p -> (0 < length p)%nat -> Z.of_nat (length p) <= 1210 ->
  let f := encap (enc_key g) nonce (my_home_id (ctxt w)) (r_node cn) (l_node cn) hdr p in
  let aad := aad_of (my_home_id (ctxt w)) (r_node cn) (l_node cn) (Z.of_nat (length f)) hdr in
  (forall q, (q < m)%nat -> passed_over (ctxt w) sn rn aad (drop (length hdr) f) (class_at (sp_class t0) q)) ->
  exists wb tag, length tag = 8%nat /\
  decrypt_body post cn f (length hdr) (Some j) None (Some (sn, rn)) w =
  Ok ((with_class_id cls cn, Some (p ++ tag, length p)),
      put_wb wb (put_span j (set_sp_state SPAN_NEGOTIATED (set_rng gg (set_sp_class cls t0))) w)).
Proof.
  intros Hok Hid Hsn Hrn Ht Hst Hr Hg0 Hrng cls Hm Hl Hg Hn Hh HhB HpB Hp0 Hp f aad Hpo.
  pose proof (Forall_lookup_1 _ _ _ _ (ok_sg _ Hok) Hg) as Hsg.
  destruct (seed_nonce sn rn g nonce gg) as [Hnon _]; [done..|].
  destruct (encap_parts (enc_key g) nonce (my_home_id (ctxt w)) (r_node cn) (l_node cn) hdr p (proj1 Hnon)
    ltac:(lia) Hp) as (HfL & Hfh & Hdec). fold f in HfL, Hfh, Hdec. fold aad in Hdec.
  assert (HfB : bytes f) by (apply encap_bytes; try done; lia).
  assert (HA : (0 < length aad < 256)%nat) by (apply aad_of_length; lia).
  assert (HcL : length (drop (length hdr) f) = (length p + 8)%nat) by (rewrite length_drop; lia).
  set (ct := drop (length hdr) f) in *. set (wb := splice 0 ct (workbuf (ctxt w))).
  pose proof (ok_wb_len _ Hok) as HwL. unfold WORKBUF_LEN, WORKBUF_SIZE in HwL.
  exists wb, (Ccm.ccm_tag (enc_key g) nonce (Ccm.ccm_A8 aad) p). split.
  { apply Ccm.ccm_tag_length; [by right; apply Hnon|lia|lia]. }
  unfold decrypt_body.
  rewrite (bind_ok _ _ _ _ _ (make_aad_ok w _ _ f (length hdr) _ ltac:(lia) ltac:(lia))), Hfh. fold aad. fold ct.
  assert (Hse : searching ct (ctxt (put_wb wb w))).
  { split; try apply Hok; try done; cbn [put_wb ctxt set_ctxt workbuf set_workbuf].
    - unfold wb. by rewrite sub_splice by lia.
    - unfold wb. rewrite length_splice; lia. }
  erewrite bind_ok.
  2:{ rewrite (bind_ok _ _ _ _ _ (get_ok w)), (bind_ok _ _ _ _ _ (get_span_ok w j t0 Ht)).
      rewrite (bool_decide_eq_true_2 _ Hid), (bool_decide_eq_true_2 _ Hst). cbn [andb].
      rewrite (bind_ok _ _ _ _ _ (wb_write_ok w 0 ct ltac:(lia))). fold wb.
      apply (search_finds post cn j sn rn aad ct Hsn Hrn) with (g := g) (nonce := nonce) (n := length p)
        (g0 := g0); try done; try lia.
      - split; [lia|by apply aad_of_bytes].
      - split; [lia|]. by apply bytes_drop. }
  cbv iota beta. destruct (Nat.eqb_spec (length p) 0); [lia|]. by destruct (Nat.eqb_spec (length aad) 0); [lia|].
Qed.

(** The first frame after a nonce report of ours: both nonces seed the generator, the classes are
    tried in turn, and the SPAN is negotiated for the class that opens the frame. *)
Lemma span_group c t : ctxt_ok c -> span_ok t -> exists g, sg c !! Z.to_nat (sp_class t) = Some g /\ sg_ok g.
Proof.
  intros Hok Ht. assert (Hr : 0 <= sp_class t < 7) by apply Ht. destruct (lookup_lt_is_Some_2 (sg c) (Z.to_nat (sp_class t))) as [g0 H0].
  - rewrite (ok_sg_len _ Hok). unfold N_SEC_CLASS. lia.
  - exists g0. split; [done|]. exact (Forall_lookup_1 _ _ _ _ (ok_sg _ Hok) H0).
Qed.

(** An entry instantiated from both nonces keeps the context well formed. *)
Lemma seeded_ctxt_ok w j t g seq ei : ctxt_ok (ctxt w) -> span_ok t -> nonce16 ei -> nonce16 (d_r_nonce t) -> sg_ok g -> is_byte seq ->
  ctxt_ok (ctxt (put_span j (set_sp_state SPAN_INSTANTIATE (seeded ei (d_r_nonce t) g (sp_class t) (set_rx_seq seq t))) w)).
Proof.
  intros Hok Hsok Hei Hrn Hg Hs. apply upd_ctxt_span; [done| |].
  - rewrite length_insert. apply (ok_span_len _ Hok).
  - apply Forall_insert; [apply (ok_span _ Hok)|]. pose proof Hsok as (? & ? & ? & ?).
    destruct (span_set_rng (NextNonce.next_nonce_instantiate ei (d_r_nonce t) (nonce_key g)) t) as (? & ? & _); [by apply seed_ok|done|].
    by split; [|split; [|split]].
Qed.

Lemma decrypt_resync post cn w j t g p seq ei nonce gg m :
  is_multicast cn = false -> ctxt_ok (ctxt w) -> fsm (ctxt w) = IDLE -> nonce16 ei -> is_byte seq ->
  find_idx (span_matches cn) (span_table (ctxt w)) = Some j -> span_table (ctxt w) !! j = Some t ->
  sp_state t = SPAN_SOS_LOCAL_NONCE -> fresh t seq ->
  let cls := class_at (sp_class t) m in
  (m < N_SEC_CLASS)%nat -> has_bits (loaded_keys (ctxt w)) (Z.shiftl 1 cls) = true ->
  sg (ctxt w) !! Z.to_nat cls = Some g ->
  NextNonce.next_nonce_generate (NextNonce.next_nonce_instantiate ei (d_r_nonce t) (nonce_key g)) = (nonce, gg) ->
  bytes p -> (0 < length p)%nat -> Z.of_nat (length p) <= 1210 ->
  let f := encap (enc_key g) nonce (my_home_id (ctxt w)) (r_node cn) (l_node cn) (hdr_sn seq ei) p in
  let aad := aad_of (my_home_id (ctxt w)) (r_node cn) (l_node cn) (Z.of_nat (length f)) (hdr_sn seq ei) in
  (forall q, (q < m)%nat -> passed_over (ctxt w) ei (d_r_nonce t) aad (drop 22 f) (class_at (sp_class t) q)) ->
  exists wb tag, length tag = 8%nat /\
  S2_decrypt_msg post cn f w =
  Ok (mkDecrypted AUTH_OK (with_class_id cls cn) (p ++ tag) 0 (length p),
      put_wb wb (put_span j (set_sp_state SPAN_NEGOTIATED (set_rng gg (set_sp_class cls (set_rx_seq seq t)))) w)).
Proof.
  intros Hmc Hok Hid Hei Hsb Hf Ht Hst Hseq cls Hm Hl Hg Hn HpB Hp0 Hp f aad Hpo.
  pose proof (Forall_lookup_1 _ _ _ _ (ok_span _ Hok) Ht) as Hsok.
  assert (Hrn : nonce16 (d_r_nonce t)) by (by apply span_nonce_ok).
  assert (Hr : 0 <= sp_class t < 7) by apply Hsok.
  assert (HhL : length (hdr_sn seq ei) = 22%nat) by (unfold hdr_sn; rewrite length_app, (proj1 Hei); done).
  assert (HhB : bytes (hdr_sn seq ei)) by (apply bytes_app; split; [by auto 20 with zw|apply Hei]).
  destruct (seq_accepted cn seq w j t Hf Ht Hseq) as [Hv Hf1].
  set (t1 := set_rx_seq seq t) in *. set (w1 := put_span j t1 w) in *.
  assert (Ht1 : span_table (ctxt w1) !! j = Some t1) by (by eapply put_span_lookup).
  destruct (span_group _ t Hok Hsok) as (g0 & Hg0 & Hsg0).
  set (t2 := set_sp_state SPAN_INSTANTIATE (seeded ei (d_r_nonce t) g0 (sp_class t) t1)).
  set (w2 := put_span j t2 w1).
  assert (Ht2 : span_table (ctxt w2) !! j = Some t2) by (by eapply put_span_lookup).
  assert (Hrng : d_rng t2 = NextNonce.next_nonce_instantiate ei (d_r_nonce t) (nonce_key g0)).
  { exact (seeded_rng ei (d_r_nonce t) g0 (sp_class t) t1 Hei Hrn Hsg0). }
  assert (Hok2 : ctxt_ok (ctxt w2)).
  { unfold w2, w1. rewrite put_span_twice. by apply seeded_ctxt_ok. }
  destruct (decrypt_body_search post cn w2 j t2 g0 g p (hdr_sn seq ei) ei (d_r_nonce t) nonce gg m
    Hok2 Hid Hei Hrn Ht2 eq_refl Hr Hg0 Hrng Hm Hl Hg Hn ltac:(lia) HhB HpB Hp0 Hp) as (wb & tag & HtL & Hb).
  { intros q Hq. rewrite HhL. by apply (Hpo q). }
  change (my_home_id (ctxt w2)) with (my_home_id (ctxt w)) in Hb. fold f in Hb. rewrite HhL in Hb.
  pose proof (Forall_lookup_1 _ _ _ _ (ok_sg _ Hok) Hg) as Hsg.
  destruct (seed_nonce ei (d_r_nonce t) g nonce gg) as [[HnL _] _]; [done..|].
  destruct (encap_parts (enc_key g) nonce (my_home_id (ctxt w)) (r_node cn) (l_node cn) (hdr_sn seq ei) p HnL
    ltac:(lia) Hp) as (HfL & Hfh & _). fold f in HfL, Hfh. rewrite HhL in HfL, Hfh.
  exists wb, tag. split; [done|]. unfold S2_decrypt_msg.
  assert (H3 : f !! 3%nat = Some 1) by (rewrite <- (lookup_take_lt _ 22), Hfh by lia; done).
  assert (H2 : f !! 2%nat = Some seq) by (rewrite <- (lookup_take_lt _ 22), Hfh by lia; done).
  rewrite (bind_ok _ _ _ _ _ (rd_ok w f 3 1 H3)).
  destruct (Nat.ltb_spec (length f) (4 + AUTH_TAG_LEN)) as [Hx|_]; [unfold AUTH_TAG_LEN in Hx; lia|].
  rewrite (bind_ok _ _ _ _ _ (rd_ok w f 2 seq H2)), Hmc, (bind_ok _ _ _ _ _ Hv). cbn [negb].
  erewrite bind_ok by (by rewrite (bind_ok _ _ _ _ _ (find_span_found w1 cn j Hf1))).
  change (has_bits 1 EXTENSION_BIT_MASK) with true. cbv iota.
  rewrite (bind_ok _ _ _ _ _ (parse_sn cn f seq ei w1 j t1 g0 (length f) Hfh (proj1 Hei)
    ltac:(unfold AUTH_TAG_LEN; lia) Ht1 Hst Hg0)).
  cbv iota beta. change (d_r_nonce t1) with (d_r_nonce t). change (sp_class t1) with (sp_class t). fold t2. fold w2.
  erewrite bind_ok by (rewrite (bind_ok _ _ _ _ _ (get_span_ok w2 j t2 Ht2)); reflexivity).
  cbv iota beta. rewrite (bind_ok _ _ _ _ _ Hb). cbv iota beta.
  change (has_bits 1 ENCRYPTED_EXTENSION_BIT_MASK) with false. cbv iota. erewrite bind_ok by reflexivity.
  cbv iota beta. rewrite Nat.sub_0_r. unfold w2, w1. by rewrite !put_span_twice.
Qed.
End Receiver.
End S2Channel.
