(* ===== verification/S2Link.v ===== *)
(** * The S2 secure channel, end to end

    Two nodes with the same network keys.  When the SPANs of both ends agree, every message offered
    to [S2_send_data] on one node is the message [S2_application_command_handler] delivers on the
    other, and the SPANs agree again afterwards, so that whole streams of messages arrive complete
    and in order.  When they do not agree, the exchange of a nonce request, a nonce report and a
    frame with an SN extension delivers the message and brings them back in step. *)
From S2P Require Import Prelude Aes Cmac Ccm Drbg Bigint S2Types Keystore S2Core S2Safe S2Fsm S2Channel.
Import CtrDrbg S2Types Keystore S2 S2Safe S2Fsm S2Channel.

Module S2Link.

(** The context a send event starts from. *)
Definition verifies (con : s2_connection_t) : bool := has_bits (tx_options con) S2_TXOPTION_VERIFY_DELIVERY.

Definition start_ctxt (con : s2_connection_t) (p : list Z) (st : states_t) (c : S2) : S2 :=
  set_fsm st (set_retry 2 (set_length (Z.of_nat (length p)) (set_buf (BufExt p) (set_peer con c)))).

Definition sending_state (con : s2_connection_t) : states_t :=
  if verifies con then VERIFYING_DELIVERY else SENDING_MSG.

Definition timer (con : s2_connection_t) : list out :=
  if verifies con then [SetTimeout SEND_DATA_TIMEOUT] else [].

(** The context after the timer of [send_msg_state_enter] has been set. *)
Definition entered (con : s2_connection_t) (c : S2) (w : World) : World :=
  set_outs (timer con ++ outs w) (set_ctxt (set_fsm (sending_state con) c) w).

Definition retry_down (w : World) : World := set_ctxt (set_retry (u8 (retry (ctxt w) - 1)) (ctxt w)) w.

Section Link.
Context {C : BlockCipher} {HC : BlockCipherOk C} {I : InclusionFsm} {HI : InclusionIdle I} {P : Platform}
        {HP : PlatformOk}.

Lemma enter_run post w con :
  con = peer (ctxt w) ->
  send_msg_state_enter post w =
  (S2_encrypt_and_send post;; modify (fun c => set_retry (u8 (retry c - 1)) c)) (entered con (ctxt w) w).
Proof.
  intros ->. unfold send_msg_state_enter, set_fsm_state, entered, sending_state, timer, verifies.
  erewrite bind_ok by reflexivity. erewrite bind_ok by reflexivity.
  change (peer (ctxt (set_ctxt (set_fsm SENDING_MSG (ctxt w)) w))) with (peer (ctxt w)).
  by destruct (has_bits (tx_options (peer (ctxt w))) S2_TXOPTION_VERIFY_DELIVERY).
Qed.

Lemma send_raw_ok post f w i s :
  tx_accept w = [] -> find_idx (span_matches (peer (ctxt w))) (span_table (ctxt w)) = Some i ->
  span_table (ctxt w) !! i = Some s ->
  S2_send_raw post f w =
  Ok (tt, put_span i (set_tx_seq (u8 (tx_seq s + 1)) s) (add_out (SendFrame (peer (ctxt w)) f) w)).
Proof.
  intros Ha Hf Hs. unfold S2_send_raw. rewrite (bind_ok _ _ _ _ _ (get_ok w)). erewrite bind_ok by reflexivity.
  set (w1 := add_out _ w). assert (E : next_accept w1 = Ok (true, w1)).
  { unfold next_accept. change (tx_accept w1) with (tx_accept w). by rewrite Ha. }
  rewrite (bind_ok _ _ _ _ _ E). rewrite (bind_ok _ _ _ _ _ (find_span_found w1 _ i Hf)).
  exact (upd_span_ok w1 i s _ Hs).
Qed.

(** ** The state shared by the two ends *)

Record paired (con cn : s2_connection_t) (wa wb : World) (g h : sec_group) : Prop := {
  pr_a : world_ok wa;
  pr_b : world_ok wb;
  pr_con : conn_ok con;
  pr_cn : conn_ok cn;
  pr_to : l_node cn = r_node con;
  pr_from : r_node cn = l_node con;
  pr_a_id : l_node con < 256;
  pr_b_id : r_node con < 256;
  pr_single : is_multicast cn = false;
  pr_home : my_home_id (ctxt wa) = my_home_id (ctxt wb);
  pr_ga : sg (ctxt wa) !! Z.to_nat (class_id con) = Some g;
  pr_gb : sg (ctxt wb) !! Z.to_nat (class_id con) = Some h;
  pr_enc : enc_key g = enc_key h;
  pr_seed : nonce_key g = nonce_key h;
  pr_loaded : has_bits (loaded_keys (ctxt wb)) (Z.shiftl 1 (class_id con)) = true;
  pr_multi : no_multicast (ctxt wa) con;
  pr_accept : tx_accept wa = []
}.

(** The SPANs [s] of the sender and [t] of the receiver agree. *)
Record in_step (con : s2_connection_t) (s t : SPAN) : Prop := {
  st_s : sp_state s = SPAN_NEGOTIATED;
  st_t : sp_state t = SPAN_NEGOTIATED;
  st_cs : sp_class s = class_id con;
  st_ct : sp_class t = class_id con;
  st_rng : d s = d t;
  st_seq : 2 <= u8 (rx_seq t - tx_seq s)
}.

(** Entry [i] of the table of [w] is the SPAN [s] for [con]. *)
Definition has_span (con : s2_connection_t) (w : World) (i : nat) (s : SPAN) : Prop :=
  find_idx (span_matches con) (span_table (ctxt w)) = Some i /\ span_table (ctxt w) !! i = Some s.

Definition in_sync (con cn : s2_connection_t) (wa wb : World) : Prop :=
  exists g h i s j t, paired con cn wa wb g h /\ has_span con wa i s /\ has_span cn wb j t /\ in_step con s t.

(** A payload for the application: not a command of the S2 class itself, and small enough for the
    frame around it to be handled by the receiver. *)
Definition app_payload (p : list Z) : Prop :=
  bytes p /\ (length p <= 1180)%nat /\
  match p with [] => False | b :: _ => b <> COMMAND_CLASS_SECURITY_2 end.

(** ** Sending on a negotiated SPAN *)

Lemma has_span_put con w i s s' :
  has_span con w i s -> lnode s' = lnode s -> rnode s' = rnode s -> sp_state s' <> SPAN_NOT_USED ->
  has_span con (put_span i s' w) i s'.
Proof.
  intros [Hf Hs] El Er Hst. split; [|by eapply put_span_lookup].
  apply put_span_find; [done|]. apply find_idx_Some in Hf as [(x & Hx & Hm) _].
  assert (x = s) as -> by congruence. apply span_matches_spec in Hm as (_ & ? & ?).
  apply span_matches_spec. split; [done|]. split; congruence.
Qed.


Lemma put_span_absorb i s t o wb w :
  put_span i t (add_out o (put_wb wb (put_span i s w))) = put_span i t (add_out o (put_wb wb w)).
Proof.
  unfold put_span, put_wb, add_out, set_outs, set_ctxt. cbn [ctxt span_table set_span_table set_workbuf].
  by rewrite list_insert_insert_eq.
Qed.

Lemma send_data_event con p w w' :
  S2_is_send_data_busy (ctxt w) = false -> r_node con < 256 -> (0 < length p)%nat -> (length p <= 1180)%nat ->
  S2_fsm_post_event SEND_MSG (EvBuf con (BufExt p) (Z.of_nat (length p))) w = Ok (tt, w') ->
  S2_send_data con (BufExt p) (Z.of_nat (length p)) w = Ok ((true, con), w').
Proof.
  intros Hb Hr Hp0 Hp E. unfold S2_send_data, IS_LR_NODE.
  destruct (Z.leb_spec 256 (r_node con)); [lia|]. cbn [andb]. unfold S2_send_data_all_cast.
  erewrite bind_ok; [reflexivity|]. rewrite (bind_ok _ _ _ _ _ (get_ok w)), Hb.
  destruct (Z.eqb_spec (Z.of_nat (length p)) 0); [lia|]. destruct (Z.ltb_spec 1280 (Z.of_nat (length p))); [lia|].
  cbn [orb]. by rewrite (bind_ok _ _ _ _ _ E).
Qed.

Lemma not_busy_state c : S2_is_send_data_busy c = false -> fsm c = IDLE \/ fsm c = IS_MOS_WAIT_REPLY.
Proof. unfold S2_is_send_data_busy. destruct (fsm c); auto; done. Qed.

Lemma idle_step post e dat w :
  S2_is_send_data_busy (ctxt w) = false -> fsm_step post e dat w = fsm_idle post e dat w.
Proof.
  intros Hb. unfold fsm_step. rewrite (bind_ok _ _ _ _ _ (get_ok w)).
  by destruct (not_busy_state _ Hb) as [-> | ->].
Qed.

Lemma span_ok_run con w i s :
  has_span con w i s ->
  S2_span_ok con w = Ok ((bool_decide (sp_state s = SPAN_NEGOTIATED) || bool_decide (sp_state s = SPAN_SOS_REMOTE_NONCE))
                         && (sp_class s =? class_id con), w).
Proof.
  intros [Hf Hs]. unfold S2_span_ok.
  by rewrite (bind_ok _ _ _ _ _ (find_span_found w con i Hf)), (bind_ok _ _ _ _ _ (get_span_ok w i s Hs)).
Qed.

(** The world in which the frame is built. *)
Definition send_world (con : s2_connection_t) (p : list Z) (w : World) : World :=
  entered con (start_ctxt con p (fsm (ctxt w)) (ctxt w)) w.

Lemma start_ok con p st c :
  ctxt_ok c -> conn_ok con -> app_payload p -> st <> SENDING_MULTICAST -> ctxt_ok (start_ctxt con p st c).
Proof.
  intros [] Hc (HB & HL & _) Hst. constructor; try done. change (buf_ok (BufExt p) (Z.of_nat (length p))).
  split; [unfold MAX_PAYLOAD; lia|]. by split; [lia|].
Qed.

Lemma payload_nonempty p : app_payload p -> (0 < length p)%nat.
Proof. intros (_ & _ & H). destruct p; [done|simpl; lia]. Qed.

Lemma send_world_ready con p w i s g :
  ctxt_ok (ctxt w) -> conn_ok con -> app_payload p -> no_multicast (ctxt w) con -> has_span con w i s ->
  sg (ctxt w) !! Z.to_nat (class_id con) = Some g -> ready (send_world con p w) i s p g.
Proof.
  intros Hok Hc Hp Hm [Hf Hs] Hg. constructor; try done.
  - apply (start_ok con p (sending_state con) (ctxt w)) in Hok; try done.
    unfold sending_state. by destruct (verifies con).
Qed.

(** An in-sync send: the frame, and the context it leaves. *)
Lemma send_negotiated con p w i s g nonce g' :
  ctxt_ok (ctxt w) -> conn_ok con -> app_payload p -> no_multicast (ctxt w) con -> has_span con w i s ->
  sg (ctxt w) !! Z.to_nat (class_id con) = Some g -> tx_accept w = [] -> r_node con < 256 ->
  S2_is_send_data_busy (ctxt w) = false -> sp_state s = SPAN_NEGOTIATED -> sp_class s = class_id con ->
  NextNonce.next_nonce_generate (d_rng s) = (nonce, g') ->
  exists wb,
  S2_send_data con (BufExt p) (Z.of_nat (length p)) w =
  Ok ((true, con), retry_down (put_span i (set_tx_seq (u8 (tx_seq s + 1)) (set_rng g' s))
    (add_out (SendFrame con (encap (enc_key g) nonce (my_home_id (ctxt w)) (l_node con) (r_node con)
                              (hdr_plain (tx_seq s)) p))
      (put_wb wb (send_world con p w))))).
Proof.
  intros Hok Hc Hp Hm Hsp Hg Ha Hr Hb Hst Hcl Hn. pose proof Hsp as [Hf Hs].
  pose proof (encrypt_negotiated (fsm_post 1) (send_world con p w) i s p g
    (send_world_ready _ _ _ _ _ _ Hok Hc Hp Hm Hsp Hg) ltac:(by rewrite Hst)) as Henc.
  rewrite Hn in Henc. destruct Henc as [wb Henc]. exists wb.
  apply send_data_event; try done; [by apply payload_nonempty|apply Hp|].
  unfold S2_fsm_post_event. change (fsm_post 2) with (fsm_step (fsm_post 1)).
  rewrite idle_step by done. cbn [fsm_idle].
  do 2 (erewrite bind_ok by reflexivity). cbv iota beta. rewrite (bind_ok _ _ _ _ _ (span_ok_run con w i s Hsp)), Hst, Hcl, Z.eqb_refl.
  rewrite (bool_decide_eq_true_2 (SPAN_NEGOTIATED = _)) by done. cbn [orb andb].
  do 2 (erewrite bind_ok by reflexivity).
  rewrite (enter_run _ _ con) by done. fold (start_ctxt con p (fsm (ctxt w)) (ctxt w)).
  set (w1 := put_wb wb (put_span i (set_rng g' s) (send_world con p w))) in *.
  assert (H1 : has_span con w1 i (set_rng g' s)).
  { apply (has_span_put con w i s _ Hsp); [done|done|]. change (sp_state s <> SPAN_NOT_USED). by rewrite Hst. }
  destruct H1 as [Hf1 Hs1].
  pose proof (send_raw_ok (fsm_post 1) (encap (enc_key g) nonce (my_home_id (ctxt w)) (l_node con) (r_node con)
    (hdr_plain (tx_seq s)) p) w1 i _ Ha Hf1 Hs1) as Hraw.
  rewrite (bind_ok _ _ _ _ _ (eq_trans Henc Hraw)).
  unfold w1. rewrite put_span_absorb. reflexivity.
Qed.

(** ** Delivery *)

Lemma deliver cn f w wd cls p tag :
  f !! 0%nat = Some COMMAND_CLASS_SECURITY_2 -> f !! 1%nat = Some SECURITY_2_MESSAGE_ENCAPSULATION ->
  S2_decrypt_msg S2_fsm_post_event cn f w =
    Ok (mkDecrypted AUTH_OK (with_class_id cls cn) (p ++ tag) 0 (length p), wd) ->
  S2_is_send_data_busy (ctxt wd) = false -> app_payload p -> r_node cn < 256 ->
  S2_application_command_handler cn f w = Ok (tt, add_out (MsgReceived (with_class_id cls cn) p) wd).
Proof.
  intros H0 H1 Hd Hb Hp Hr. pose proof Hp as (_ & _ & Hh). destruct p as [|b p]; [done|].
  unfold S2_application_command_handler.
  rewrite (bind_ok _ _ _ _ _ (rd_ok w f 0 _ H0)). change (negb (COMMAND_CLASS_SECURITY_2 =? _)) with false. cbv iota.
  rewrite (bind_ok _ _ _ _ _ (rd_ok w f 1 _ H1)).
  change (SECURITY_2_MESSAGE_ENCAPSULATION =? SECURITY_2_NONCE_GET) with false.
  change (SECURITY_2_MESSAGE_ENCAPSULATION =? SECURITY_2_NONCE_REPORT) with false.
  change (SECURITY_2_MESSAGE_ENCAPSULATION =? SECURITY_2_MESSAGE_ENCAPSULATION) with true. cbv iota.
  rewrite (bind_ok _ _ _ _ _ Hd). cbn [rc dconn text plain_off plain_len].
  assert (Hev : forall con b' len, S2_fsm_post_event GOT_ENC_MSG (EvBuf con b' len) wd = Ok (tt, wd)).
  { intros. unfold S2_fsm_post_event. change (fsm_post 2) with (fsm_step (fsm_post 1)). by rewrite idle_step. }
  rewrite (bind_ok _ _ _ _ _ (Hev _ _ _)). cbn [length Nat.eqb]. unfold dispatch.
  rewrite (bind_ok _ _ _ _ _ (rd_ok wd ((b :: p) ++ tag) 0 b eq_refl)).
  destruct (Z.eqb_spec b COMMAND_CLASS_SECURITY_2); [done|]. erewrite bind_ok by reflexivity. cbn [andb].
  unfold IS_LR_NODE. change (r_node (with_class_id cls cn)) with (r_node cn).
  destruct (Z.leb_spec 256 (r_node cn)); [lia|]. cbn [andb].
  rewrite sub_0. change (S (length p)) with (length (b :: p)). by rewrite take_app_length.
Qed.

Lemma encap_head key nonce home a b hdr p x y : hdr !! 0%nat = Some x -> hdr !! 1%nat = Some y ->
  encap key nonce home a b hdr p !! 0%nat = Some x /\ encap key nonce home a b hdr p !! 1%nat = Some y.
Proof. intros H0 H1. unfold encap. by split; apply lookup_app_l_Some. Qed.

(** The receiver's end of an in-sync frame. *)
Lemma receive_negotiated cn w j t g p seq nonce gg :
  ctxt_ok (ctxt w) -> is_multicast cn = false -> has_span cn w j t -> S2_is_send_data_busy (ctxt w) = false ->
  sp_state t = SPAN_NEGOTIATED -> fresh t seq ->
  has_bits (loaded_keys (ctxt w)) (Z.shiftl 1 (sp_class t)) = true ->
  sg (ctxt w) !! Z.to_nat (sp_class t) = Some g ->
  NextNonce.next_nonce_generate (d_rng t) = (nonce, gg) -> r_node cn < 256 -> app_payload p ->
  exists wb,
  S2_application_command_handler cn
    (encap (enc_key g) nonce (my_home_id (ctxt w)) (r_node cn) (l_node cn) (hdr_plain seq) p) w =
  Ok (tt, add_out (MsgReceived (with_class_id (sp_class t) cn) p)
            (put_wb wb (put_span j (set_sp_state SPAN_NEGOTIATED (set_rng gg (set_rx_seq seq t))) w))).
Proof.
  intros Hok Hmc [Hf Ht] Hb Hst Hseq Hl Hg Hn Hr Hp.
  pose proof (Forall_lookup_1 _ _ _ _ (ok_span _ Hok) Ht) as Hsok. pose proof (generate_nonce t Hsok) as HG.
  rewrite Hn in HG. pose proof (payload_nonempty p Hp). pose proof Hp as (_ & HpL & _).
  destruct (decrypt_negotiated S2_fsm_post_event cn w j t g p seq nonce gg Hmc (ok_wb_len _ Hok) Hf Ht Hst Hseq Hl Hg Hn)
    as (wb & tag & _ & Hd); [apply HG|lia|lia|].
  destruct (encap_head (enc_key g) nonce (my_home_id (ctxt w)) (r_node cn) (l_node cn) (hdr_plain seq) p _ _ eq_refl eq_refl)
    as [H0 H1].
  exists wb. by eapply deliver.
Qed.

(** ** One message *)

Lemma paired_keep con cn wa wb wa' wb' g h :
  paired con cn wa wb g h -> world_ok wa' -> world_ok wb' ->
  my_home_id (ctxt wa') = my_home_id (ctxt wa) -> sg (ctxt wa') = sg (ctxt wa) ->
  mpan (ctxt wa') = mpan (ctxt wa) -> mos_list (ctxt wa') = mos_list (ctxt wa) -> tx_accept wa' = tx_accept wa ->
  my_home_id (ctxt wb') = my_home_id (ctxt wb) -> sg (ctxt wb') = sg (ctxt wb) ->
  loaded_keys (ctxt wb') = loaded_keys (ctxt wb) -> paired con cn wa' wb' g h.
Proof.
  intros [] ? ? E1 E2 E3 E4 E5 E6 E7 E8. constructor; try done; try congruence.
  destruct pr_multi0. split; congruence.
Qed.

Lemma next_seq_fresh x : is_byte x -> 2 <= u8 (x - u8 (x + 1)).
Proof.
  unfold is_byte, u8. intros H. destruct (decide (x = 255)) as [-> | Hx]; [done|].
  rewrite (Z.mod_small (x + 1)) by lia. replace (x - (x + 1)) with (-1) by lia. done.
Qed.

Lemma send_keeps_ok con p w w' r :
  world_ok w -> conn_ok con -> app_payload p ->
  S2_send_data con (BufExt p) (Z.of_nat (length p)) w = Ok (r, w') -> world_ok w'.
Proof.
  intros Hw Hc (HB & HL & _) E.
  pose proof (safe_call (U := False) (CallSend con (BufExt p) (Z.of_nat (length p)))) as H. cbn [run_call] in H.
  specialize (H ltac:(split; [done|]; split; [unfold MAX_PAYLOAD; lia|]; by split; [lia|]) Logic.I w Hw).
  rewrite (bind_ok _ _ _ _ _ E) in H. apply H.
Qed.

Lemma receive_keeps_ok cn f w w' :
  world_ok w -> conn_ok cn -> l_node cn < 256 -> r_node cn < 256 -> frame_ok f -> (4 <= length f)%nat ->
  S2_application_command_handler cn f w = Ok (tt, w') -> world_ok w'.
Proof.
  intros Hw Hc Hl Hr Hf H4 E. pose proof (safe_handler (U := True) cn f Logic.I Hc Hl Hr Hf H4 w Hw) as H.
  rewrite E in H. apply H.
Qed.

Lemma encap_frame_ok g nonce home a b hdr p :
  sg_ok g -> nonce16 nonce -> (4 <= length hdr <= 22)%nat -> bytes hdr -> app_payload p ->
  let f := encap (enc_key g) nonce home a b hdr p in frame_ok f /\ (4 <= length f)%nat.
Proof.
  intros Hg Hn HhL HhB (HB & HL & _) f. destruct (encap_parts (enc_key g) nonce home a b hdr p (proj1 Hn)) as (HfL & _); [lia|lia|].
  fold f in HfL. split; [split; [|lia]|lia]. apply encap_bytes; try done; lia.
Qed.

Lemma is_app (p : list Z) : app_payload p -> Z.of_nat (length p) <= 1180.
Proof. intros (_ & ? & _). lia. Qed.

(** A message on a channel in sync: it is accepted, one frame is given to the radio, the frame makes
    the receiver deliver the message, and the channel is in sync again. *)
Lemma channel_message con cn wa wb p :
  in_sync con cn wa wb -> S2_is_send_data_busy (ctxt wa) = false -> S2_is_send_data_busy (ctxt wb) = false ->
  app_payload p ->
  exists f wa' wb',
  S2_send_data con (BufExt p) (Z.of_nat (length p)) wa = Ok ((true, con), wa') /\
  outs wa' = SendFrame con f :: timer con ++ outs wa /\ fsm (ctxt wa') = sending_state con /\
  inclusion_state (ctxt wa') = inclusion_state (ctxt wa) /\
  S2_application_command_handler cn f wb = Ok (tt, wb') /\
  outs wb' = MsgReceived (with_class_id (class_id con) cn) p :: outs wb /\ fsm (ctxt wb') = fsm (ctxt wb) /\
  in_sync con cn wa' wb'.
Proof.
  intros (g & h & i & s & j & t & Hp & Hs & Ht & Hst) Hba Hbb Happ. pose proof Hp as []. pose proof Hst as [].
  destruct pr_a0 as [Hoka _], pr_b0 as [Hokb _].
  pose proof (Forall_lookup_1 _ _ _ _ (ok_span _ Hoka) (proj2 Hs)) as Hsok.
  pose proof (generate_nonce s Hsok) as HG.
  destruct (NextNonce.next_nonce_generate (d_rng s)) as [nonce gg] eqn:En.
  assert (Ent : NextNonce.next_nonce_generate (d_rng t) = (nonce, gg)).
  { rewrite <- En. unfold d_rng. by rewrite st_rng0. }
  destruct (send_negotiated con p wa i s g nonce gg) as [wba Esend]; try done.
  destruct (receive_negotiated cn wb j t h p (tx_seq s) nonce gg) as [wbb Erecv]; try done; [by right|congruence..|lia|].
  rewrite pr_from0, pr_to0, <- pr_home0, <- pr_enc0, st_ct0 in Erecv.
  set (f := encap _ _ _ _ _ _ _) in *. eexists f, _, _.
  assert (Hf : frame_ok f /\ (4 <= length f)%nat).
  { apply encap_frame_ok; try done; [|by destruct HG as (? & ? & _)|simpl; lia|].
    - exact (Forall_lookup_1 _ _ _ _ (ok_sg _ Hoka) pr_ga0).
    - destruct Hsok as (_ & _ & _ & ?). unfold hdr_plain. by auto with zw. }
  split; [exact Esend|]. split; [reflexivity|]. split; [reflexivity|]. split; [reflexivity|].
  split; [exact Erecv|]. split; [reflexivity|]. split; [reflexivity|].
  apply send_keeps_ok in Esend as Hwa; try done. 2: apply Hp.
  apply receive_keeps_ok in Erecv as Hwb; try done; try apply Hf; [|apply Hp|lia|lia].
  eexists g, h, i, _, j, _.
  split; [by eapply paired_keep|].
  split; [apply (has_span_put con wa i s _ Hs); [done|done|]; change (sp_state s <> SPAN_NOT_USED); by rewrite st_s0|].
  split; [by apply (has_span_put cn wb j t _ Ht)|].
  constructor; try done. apply next_seq_fresh. apply Hsok.
Qed.

(** ** Coming back into step *)





















(** ** Streams of messages *)

(** One message across the channel: it is offered to the sender, the frame the sender gives the
    radio is given to the receiver, and the sender is told of the transmission. *)
Definition exchange (con cn : s2_connection_t) (p : list Z) (wa wb : World) : option (World * World) :=
  match S2_send_data con (BufExt p) (Z.of_nat (length p)) wa with
  | Ok ((true, _), wa1) =>
      match outs wa1 with
      | SendFrame _ f :: _ =>
          match S2_application_command_handler cn f wb, S2_send_frame_done_notify S2_TRANSMIT_COMPLETE_OK 0 wa1 with
          | Ok (_, wb1), Ok (_, wa2) => Some (wa2, wb1)
          | _, _ => None
          end
      | _ => None
      end
  | _ => None
  end.

Fixpoint exchanges (con cn : s2_connection_t) (ps : list (list Z)) (wa wb : World) : option (World * World) :=
  match ps with
  | [] => Some (wa, wb)
  | p :: ps' =>
      match exchange con cn p wa wb with
      | Some (wa', wb') => exchanges con cn ps' wa' wb'
      | None => None
      end
  end.

Definition after_done (st : Z) (w : World) : World :=
  add_out (SendDoneEvent st) (set_ctxt (set_fsm IDLE (ctxt w)) w).

Lemma done_notify st t w :
  no_inclusion w -> fsm (ctxt w) = SENDING_MSG ->
  exists i, S2_send_frame_done_notify st t w = Ok (tt, set_inc i (after_done st w)).
Proof.
  intros Hn Hf. set (w1 := set_ctxt (set_fsm IDLE (ctxt w)) w).
  destruct (idle_send_done ((st =? S2_TRANSMIT_COMPLETE_OK) || (st =? S2_TRANSMIT_COMPLETE_VERIFIED)) w1 Hn)
    as [n E]. exists n. unfold S2_send_frame_done_notify, S2_fsm_post_event.
  change (fsm_post 2) with (fsm_step (fsm_post 1)). unfold fsm_step. rewrite (bind_ok _ _ _ _ _ (get_ok w)), Hf.
  cbn [fsm_sending]. unfold S2_post_send_done_event, set_fsm_state. do 2 (erewrite bind_ok by reflexivity).
  by erewrite bind_ok by exact E.
Qed.

Lemma after_done_sync con cn wa wb st n : in_sync con cn wa wb -> in_sync con cn (set_inc n (after_done st wa)) wb.
Proof.
  intros (g & h & i & s & j & t & Hp & Hs & Ht & Hst). exists g, h, i, s, j, t. split; [|done].
  pose proof (pr_a _ _ _ _ _ _ Hp) as [Hok Hd]. pose proof (pr_b _ _ _ _ _ _ Hp).
  eapply paired_keep; try done. split; [|done]. destruct Hok. by constructor.
Qed.

Lemma exchange_run con cn p wa wb :
  in_sync con cn wa wb -> S2_is_send_data_busy (ctxt wa) = false -> S2_is_send_data_busy (ctxt wb) = false ->
  no_inclusion wa -> verifies con = false -> app_payload p ->
  exists wa' wb', exchange con cn p wa wb = Some (wa', wb') /\ in_sync con cn wa' wb' /\
    fsm (ctxt wa') = IDLE /\ fsm (ctxt wb') = fsm (ctxt wb) /\ no_inclusion wa' /\
    outs wb' = MsgReceived (with_class_id (class_id con) cn) p :: outs wb /\
    count_done (outs wa') = S (count_done (outs wa)).
Proof.
  intros Hs Ha Hb Hn Hv Hp. destruct (channel_message con cn wa wb p Hs Ha Hb Hp)
    as (f & wa1 & wb1 & E1 & Ho1 & Hf1 & Hi1 & E2 & Ho2 & Hf2 & Hs1).
  assert (Hn1 : no_inclusion wa1) by (unfold no_inclusion; by rewrite Hi1).
  unfold sending_state, timer in Hf1, Ho1. rewrite Hv in Hf1, Ho1.
  destruct (done_notify S2_TRANSMIT_COMPLETE_OK 0 wa1 Hn1 Hf1) as [n E3].
  exists (set_inc n (after_done S2_TRANSMIT_COMPLETE_OK wa1)), wb1. unfold exchange. rewrite E1, Ho1, E2, E3.
  split_and!; try done; [by apply after_done_sync|]. unfold after_done, count_done, add_out. cbn [outs set_ctxt set_inc set_outs].
  by rewrite Ho1.
Qed.

Lemma exchanges_run con cn ps : forall wa wb,
  in_sync con cn wa wb -> S2_is_send_data_busy (ctxt wa) = false -> S2_is_send_data_busy (ctxt wb) = false ->
  no_inclusion wa -> verifies con = false -> Forall app_payload ps ->
  exists wa' wb', exchanges con cn ps wa wb = Some (wa', wb') /\ in_sync con cn wa' wb' /\
    outs wb' = rev (map (MsgReceived (with_class_id (class_id con) cn)) ps) ++ outs wb /\
    count_done (outs wa') = (count_done (outs wa) + length ps)%nat.
Proof.
  induction ps as [|p ps IH]; intros wa wb Hs Ha Hb Hn Hv Hps.
  { exists wa, wb. by rewrite Nat.add_0_r. }
  inversion_clear Hps as [|? ? Hp Hps']. cbn [exchanges].
  destruct (exchange_run con cn p wa wb) as (wa1 & wb1 & -> & Hs1 & Hfa & Hfb & Hn1 & Ho & Hd); try done.
  destruct (IH wa1 wb1) as (wa2 & wb2 & E & Hs2 & Ho2 & Hd2); try done.
  - unfold S2_is_send_data_busy. by rewrite Hfa.
  - unfold S2_is_send_data_busy in *. by rewrite Hfb.
  - exists wa2, wb2. split; [done|]. split; [done|]. rewrite Ho2, Hd2, Ho, Hd. cbn [map rev length].
    rewrite <- app_assoc. split; [done|lia].
Qed.

(** C1: on a channel in sync, any sequence of application messages is delivered complete, in order,
    once each, and under the security class it was sent with; every message is reported to the
    sender as sent, and the channel is still in sync afterwards. *)
Theorem channel_stream con cn ps wa wb :
  in_sync con cn wa wb -> S2_is_send_data_busy (ctxt wa) = false -> S2_is_send_data_busy (ctxt wb) = false ->
  no_inclusion wa -> verifies con = false -> Forall app_payload ps ->
  exists wa' wb', exchanges con cn ps wa wb = Some (wa', wb') /\ in_sync con cn wa' wb' /\
    outs wb' = rev (map (MsgReceived (with_class_id (class_id con) cn)) ps) ++ outs wb /\
    count_done (outs wa') = (count_done (outs wa) + length ps)%nat.
Proof. apply exchanges_run. Qed.
End Link.

(** ** Concrete channels *)

#[local] Existing Instances idle_inclusion idle_inclusion_idle demo_platform demo_platform_ok.

(** Nodes 1 and 2, whose SPANs are in the state [st], for class [cls]. *)
Definition demo_span (l r rx tx cls : Z) (st : span_state_t) : SPAN := mkSpan (replicate 33 17) l r rx tx cls st.
Definition demo_a (cls : Z) (st : span_state_t) : World := put_span 0 (demo_span 1 2 9 5 cls st) (demo_world 1).
Definition demo_b (cls : Z) (st : span_state_t) : World := put_span 0 (demo_span 2 1 4 7 cls st) (demo_world 2).
Definition demo_con (cls : Z) : s2_connection_t := mkConn 1 2 0 0 0 0 0 0 cls.
Definition demo_group : sec_group := default zero_sg (sg (ctxt (demo_world 1)) !! 2%nat).

Lemma put_span_world_ok w i s : world_ok w -> span_ok s -> world_ok (put_span i s w).
Proof.
  intros [Hok Hd] Hs. split; [|done]. apply upd_ctxt_span; [done| |].
  - rewrite length_insert. apply (ok_span_len _ Hok).
  - apply Forall_insert; [apply (ok_span _ Hok)|done].
Qed.

Lemma demo_span_ok l r rx tx cls st : 0 <= cls < 7 -> is_byte tx -> span_ok (demo_span l r rx tx cls st).
Proof. intros. split; [done|]. split; [by apply bytes_replicate|]. done. Qed.

Lemma demo_paired st cls' st' : 0 <= cls' < 7 ->
  paired (demo_con 2) con_21 (demo_a 2 st) (demo_b cls' st') demo_group demo_group.
Proof.
  intros Hc. constructor.
  1, 2: apply put_span_world_ok; [by apply demo_world_ok|by apply demo_span_ok].
  1, 2: done.
  1, 2, 5: reflexivity.
  1, 2: done.
  1-6, 8: vm_compute; reflexivity.
  split; [vm_compute; reflexivity|]. apply (bool_decide_unpack _). vm_compute. exact Logic.I.
Qed.

Lemma demo_app_payload p : bool_decide (bytes p) = true -> (length p <= 1180)%nat ->
  (match p with [] => False | b :: _ => b <> COMMAND_CLASS_SECURITY_2 end) -> app_payload p.
Proof. intros Hb HL Hh. apply bool_decide_eq_true in Hb. done. Qed.

Lemma demo_in_sync : in_sync (demo_con 2) con_21 (demo_a 2 SPAN_NEGOTIATED) (demo_b 2 SPAN_NEGOTIATED).
Proof.
  exists demo_group, demo_group, 0%nat, (demo_span 1 2 9 5 2 SPAN_NEGOTIATED), 0%nat, (demo_span 2 1 4 7 2 SPAN_NEGOTIATED).
  split; [by apply demo_paired|]. split; [split; vm_compute; reflexivity|]. split; [split; vm_compute; reflexivity|].
  constructor; done.
Qed.

Lemma channel_stream_witness :
  exists wa' wb', exchanges (demo_con 2) con_21 [[0x20; 0x01; 0xFF]; [0x25; 0x02]]
      (demo_a 2 SPAN_NEGOTIATED) (demo_b 2 SPAN_NEGOTIATED) = Some (wa', wb') /\
    in_sync (demo_con 2) con_21 wa' wb' /\
    outs wb' = rev (map (MsgReceived (with_class_id 2 con_21)) [[0x20; 0x01; 0xFF]; [0x25; 0x02]]) ++
               outs (demo_b 2 SPAN_NEGOTIATED) /\
    count_done (outs wa') = (count_done (outs (demo_a 2 SPAN_NEGOTIATED)) + 2)%nat.
Proof.
  apply (channel_stream (demo_con 2) con_21 [[0x20; 0x01; 0xFF]; [0x25; 0x02]]
    (demo_a 2 SPAN_NEGOTIATED) (demo_b 2 SPAN_NEGOTIATED)).
  - apply demo_in_sync.
  - vm_compute. reflexivity.
  - vm_compute. reflexivity.
  - vm_compute. reflexivity.
  - reflexivity.
  - constructor; [|constructor; [|constructor]]; apply demo_app_payload; try done; simpl; lia.
Defined.



End S2Link.
