(* ===== verification/S2Keys.v ===== *)
(** * Keys, associated data and multicast nonces of the S2 transport

    What the key-loading functions leave in the context, what the associated data of a frame binds,
    how the multicast nonce evolves, and what a KEX_FAIL frame does to a message being sent. *)
From S2P Require Import Prelude Aes Cmac Ccm Drbg Bigint S2Types Keystore S2Core S2Safe S2Fsm S2Channel.
Import CtrDrbg S2Types Keystore S2 S2Safe S2Fsm S2Channel.

Module S2Keys.

Section Keys.
Context {C : BlockCipher} {I : InclusionFsm} {P : Platform}.

(** ** Loading keys *)

(** The keys a network key gives a class. *)
Definition group_of (key : list Z) (temp : bool) : sec_group :=
  let '(ek, nk, mk) := if temp then Kderiv.tempkey_expand key else Kderiv.networkkey_expand key in mkSg ek mk nk.

Definition load_key (cls : Z) (key : list Z) (temp : bool) (c : S2) : S2 :=
  set_loaded_keys (Z.lor (loaded_keys c) (Z.shiftl 1 cls)) (set_sg (<[Z.to_nat cls := group_of key temp]> (sg c)) c).

Lemma key_update_run cls key temp w :
  cls < 7 -> S2_network_key_update cls key temp w = Ok (true, set_ctxt (load_key cls key temp (ctxt w)) w).
Proof.
  intros Hc. unfold S2_network_key_update, N_SEC_CLASS. destruct (Z.leb_spec (Z.of_nat 7) cls); [lia|].
  unfold load_key, group_of. by destruct (if temp then _ else _) as [[ek nk] mk].
Qed.

Lemma testbit_load x cls s : 0 <= cls -> 0 <= s ->
  Z.testbit (Z.lor x (Z.shiftl 1 cls)) s = (Z.testbit x s || (s =? cls)).
Proof.
  intros Hc Hs. rewrite Z.lor_spec, Z.shiftl_spec by lia. f_equal.
  destruct (Z.eqb_spec s cls) as [->|Hne]; [by rewrite Z.sub_diag|].
  destruct (decide (s < cls)); [by rewrite Z.testbit_neg_r by lia|].
  change 1 with (2 ^ 0). apply Z.pow2_bits_false. lia.
Qed.

(** The context after the key classes [pairs] have been restored from the key store [n]. *)
Definition restore_all (n : Nvm) (pairs : list (Z * Z)) (c : S2) : S2 :=
  foldl (fun c '(kc, slot) =>
    match stored n kc with Some key => load_key slot key false c | None => c end) c pairs.

Lemma restore_loop_run pairs : forall w,
  Forall (fun p => 0 <= snd p < 7 /\ field_of (fst p) <> None) pairs ->
  exists i, restore_loop pairs w = Ok (tt, set_inc i (set_ctxt (restore_all (nvm w) pairs (ctxt w)) w)).
Proof.
  induction pairs as [|[kc slot] pairs IH]; intros w Hp; [exists (inc w); by destruct w|].
  inversion_clear Hp as [|? ? [Hs Hk] Hp']. cbn [fst snd] in Hs, Hk. cbn [restore_loop].
  rewrite (bind_ok _ _ _ _ _ (key_read_run kc w Hk)).
  unfold restore_all. cbn [foldl]. destruct (stored (nvm w) kc) as [key|].
  - erewrite bind_ok by (do 2 (erewrite bind_ok by (reflexivity || (apply key_update_run; lia))); reflexivity).
    edestruct IH as [i E]; [done|]. exists i. by rewrite E.
  - erewrite bind_ok by reflexivity. edestruct IH as [i E]; [done|]. exists i. by rewrite E.
Qed.

(** What a slot holds. *)
Definition slot_of (c : S2) (s : Z) : bool * option sec_group :=
  (Z.testbit (loaded_keys c) s, sg c !! Z.to_nat s).

Lemma load_other cls key temp c s :
  0 <= cls -> 0 <= s -> s <> cls -> slot_of (load_key cls key temp c) s = slot_of c s.
Proof.
  intros Hc Hs Hne. unfold slot_of, load_key. cbn [loaded_keys sg set_loaded_keys set_sg].
  rewrite testbit_load, list_lookup_insert_ne by lia. destruct (Z.eqb_spec s cls); [done|]. by rewrite orb_false_r.
Qed.

Lemma load_same cls key temp c :
  0 <= cls < 7 -> length (sg c) = N_SEC_CLASS ->
  slot_of (load_key cls key temp c) cls = (true, Some (group_of key temp)).
Proof.
  intros Hc HL. unfold slot_of, load_key. cbn [loaded_keys sg set_loaded_keys set_sg].
  rewrite testbit_load, Z.eqb_refl, orb_true_r, list_lookup_insert_eq by (unfold N_SEC_CLASS in HL; lia). done.
Qed.

Lemma load_sg_length cls key temp c : length (sg (load_key cls key temp c)) = length (sg c).
Proof. apply length_insert. Qed.

Lemma restore_other n pairs s : forall c,
  Forall (fun p => 0 <= snd p < 7) pairs -> 0 <= s -> s ∉ (snd <$> pairs) ->
  slot_of (restore_all n pairs c) s = slot_of c s.
Proof.
  induction pairs as [|[kc slot] pairs IH]; intros c Hp Hs Hn; [done|].
  inversion_clear Hp as [|? ? Hk Hp']. cbn [snd] in Hk. rewrite fmap_cons in Hn. cbn [snd] in Hn.
  apply not_elem_of_cons in Hn as [Hne Hn]. unfold restore_all. cbn [foldl]. fold (restore_all n pairs).
  destruct (stored n kc) as [key|]; [|by apply IH].
  etransitivity; [by apply IH|]. apply load_other; lia.
Qed.

Lemma restore_in n pairs kc s : forall c,
  length (sg c) = N_SEC_CLASS -> Forall (fun p => 0 <= snd p < 7) pairs -> NoDup (snd <$> pairs) -> (kc, s) ∈ pairs ->
  slot_of (restore_all n pairs c) s =
  match stored n kc with Some key => (true, Some (group_of key false)) | None => slot_of c s end.
Proof.
  induction pairs as [|[kc' slot] pairs IH]; intros c HL Hp Hd Hin; [by apply not_elem_of_nil in Hin|].
  inversion_clear Hp as [|? ? Hk Hp']. cbn [snd] in Hk. rewrite fmap_cons in Hd. apply list.NoDup_cons in Hd as [Hn Hd].
  cbn [snd] in Hn. unfold restore_all. cbn [foldl]. fold (restore_all n pairs).
  apply elem_of_cons in Hin as [[= -> ->]|Hin].
  - destruct (stored n kc') as [key|]; [|apply restore_other; lia || done].
    etransitivity; [apply restore_other; lia || done|]. by apply load_same.
  - assert (Hne : s <> slot) by (intros ->; apply Hn, list_elem_of_fmap; by exists (kc, slot)).
    assert (Hs : 0 <= s < 7) by (rewrite list.Forall_forall in Hp'; by apply (Hp' (kc, s))).
    destruct (stored n kc') as [key|]; [|by apply IH].
    etransitivity; [apply (IH (load_key slot key false c)); [by rewrite load_sg_length|done..]|].
    destruct (stored n kc); [done|]. apply load_other; lia.
Qed.

(** Exactly the classes with a stored key are usable, each with the keys expanded from its own. *)
Definition keys_restored (n : Nvm) (c : S2) : Prop := forall kc slot, (kc, slot) ∈ m_key_slot_pair ->
  (Z.testbit (loaded_keys c) slot = true <-> stored n kc <> None) /\
  (forall key, stored n kc = Some key -> sg c !! Z.to_nat slot = Some (group_of key false)).

Lemma restore_all_spec n c : length (sg c) = N_SEC_CLASS ->
  keys_restored n (restore_all n m_key_slot_pair (set_loaded_keys 0 c)).
Proof.
  intros HL kc slot Hin.
  assert (Hp : Forall (fun p => 0 <= snd p < 7) m_key_slot_pair) by (by repeat constructor).
  assert (Hd : NoDup (snd <$> m_key_slot_pair)) by (apply (bool_decide_unpack _); vm_compute; exact Logic.I).
  set (c0 := set_loaded_keys 0 c). pose proof (restore_in n m_key_slot_pair kc slot c0 HL Hp Hd Hin) as E.
  set (c' := restore_all n m_key_slot_pair c0) in *. clearbody c'. unfold slot_of in E.
  destruct (stored n kc) as [key|]; injection E as E1 E2; rewrite E1, ?E2.
  - split; [done|]. by intros k [= ->].
  - change (loaded_keys c0) with 0. rewrite Z.testbit_0_l. split; [|done]. by split.
Qed.

Lemma restore_run w : exists i, s2_restore_keys w =
  Ok (tt, set_inc i (set_ctxt (restore_all (nvm w) m_key_slot_pair (set_loaded_keys 0 (ctxt w))) w)).
Proof.
  assert (Hp : Forall (fun p => 0 <= snd p < 7 /\ field_of (fst p) <> None) m_key_slot_pair) by (by repeat constructor).
  unfold s2_restore_keys. destruct (restore_loop_run m_key_slot_pair (set_ctxt (set_loaded_keys 0 (ctxt w)) w) Hp) as [i E].
  unfold modify. erewrite bind_ok by reflexivity. erewrite bind_ok by exact E. unfold stage_key, modify_inc. by eexists.
Qed.

(** Restoring the keys makes exactly the classes whose network key is in the key store usable,
    each with the keys expanded from its own network key, whatever was loaded before. *)
Theorem s2_restore_keys_spec w :
  length (sg (ctxt w)) = N_SEC_CLASS ->
  exists w', s2_restore_keys w = Ok (tt, w') /\ nvm w' = nvm w /\ keys_restored (nvm w) (ctxt w').
Proof.
  intros HL. destruct (restore_run w) as [i E]. eexists. split; [exact E|]. split; [done|].
  by apply restore_all_spec.
Qed.

(** Updating a network key with a class in range replaces the keys of that class and marks it as
    usable, and touches no other class; a class out of range is refused without effect. *)
Theorem S2_network_key_update_spec cls key temp w :
  0 <= cls -> length (sg (ctxt w)) = N_SEC_CLASS ->
  exists r w', S2_network_key_update cls key temp w = Ok (r, w') /\
    (if r then cls < 7 /\ slot_of (ctxt w') cls = (true, Some (group_of key temp)) /\
               (forall s, 0 <= s -> s <> cls -> slot_of (ctxt w') s = slot_of (ctxt w) s)
     else 7 <= cls /\ w' = w).
Proof.
  intros Hc HL. destruct (decide (cls < 7)) as [Hlt|Hge].
  - eexists true, _. split; [by apply key_update_run|]. cbn [ctxt set_ctxt].
    split; [done|]. split; [by apply load_same|]. intros s Hs Hne. by apply load_other.
  - exists false, w. unfold S2_network_key_update, N_SEC_CLASS.
    destruct (Z.leb_spec (Z.of_nat 7) cls); [|lia]. split; [done|]. split; [lia|done].
Qed.

(** ** What the associated data binds *)

Lemma land_ff x : Z.land x 0xFF = x `mod` 256.
Proof. apply Bigint.land_255. Qed.

(** A 32-bit number is determined by its bytes. *)
Lemma byte_step x y : Z.land x 0xFF = Z.land y 0xFF -> Z.shiftr x 8 = Z.shiftr y 8 -> x = y.
Proof.
  rewrite !land_ff, !Z.shiftr_div_pow2 by lia. change (2 ^ 8) with 256.
  pose proof (Z.div_mod x 256). pose proof (Z.div_mod y 256). lia.
Qed.

Lemma bytes4_inj x y : 0 <= x < 2 ^ 32 -> 0 <= y < 2 ^ 32 ->
  Z.land (Z.shiftr x 24) 0xFF = Z.land (Z.shiftr y 24) 0xFF -> Z.land (Z.shiftr x 16) 0xFF = Z.land (Z.shiftr y 16) 0xFF ->
  Z.land (Z.shiftr x 8) 0xFF = Z.land (Z.shiftr y 8) 0xFF -> Z.land x 0xFF = Z.land y 0xFF -> x = y.
Proof.
  intros Hx Hy E3 E2 E1 E0. do 4 (apply byte_step; [rewrite ?Z.shiftr_shiftr by lia; assumption|]).
  rewrite !Z.shiftr_shiftr, !Z.shiftr_div_pow2 by lia. by rewrite !Z.div_small.
Qed.

Lemma bytes2_inj x y : 0 <= x < 2 ^ 16 -> 0 <= y < 2 ^ 16 ->
  Z.land (Z.shiftr x 8) 0xFF = Z.land (Z.shiftr y 8) 0xFF -> Z.land x 0xFF = Z.land y 0xFF -> x = y.
Proof.
  intros Hx Hy E1 E2. apply bytes4_inj; try lia; try done;
    rewrite (Z.shiftr_div_pow2 x), (Z.shiftr_div_pow2 y) by lia; rewrite !Z.div_small; try done; lia.
Qed.

Lemma low_byte x : 0 <= x < 256 -> Z.land x 0xFF = x.
Proof. intros H. rewrite land_ff. by apply Z.mod_small. Qed.

(** Two frames between classic nodes have the same associated data only if they agree on the
    sender, the receiver, the home id, the total length and every header byte after the command:
    the tag of a frame binds all of them. *)
Theorem make_aad_binds w w' s r h m n msg s' r' h' m' n' msg' aad :
  0 <= s < 256 -> 0 <= r < 256 -> 0 <= s' < 256 -> 0 <= r' < 256 ->
  0 <= my_home_id (ctxt w) < 2 ^ 32 -> 0 <= my_home_id (ctxt w') < 2 ^ 32 -> 0 <= m < 2 ^ 16 -> 0 <= m' < 2 ^ 16 ->
  (2 <= h <= length msg)%nat -> (2 <= h' <= length msg')%nat -> aad <> [] ->
  S2_make_aad s r msg h m n w = Ok (aad, w) -> S2_make_aad s' r' msg' h' m' n' w' = Ok (aad, w') ->
  s = s' /\ r = r' /\ my_home_id (ctxt w) = my_home_id (ctxt w') /\ m = m' /\
  h = h' /\ sub 2 (h - 2) msg = sub 2 (h - 2) msg'.
Proof.
  intros Hs Hr Hs' Hr' Hh Hh' Hm Hm' HL HL' Hne E E'. unfold S2_make_aad in E, E'.
  destruct (Nat.ltb n _); [by injection E as <-|]. destruct (Nat.ltb n' _); [by injection E' as <-|].
  rewrite (bind_ok _ _ _ _ _ (get_ok w)) in E. rewrite (bind_ok _ _ _ _ _ (get_ok w')) in E'. cbv zeta in E, E'.
  unfold LOWEST_LONG_RANGE_NODE_ID in E, E'.
  destruct (Z.leb_spec 0x100 s), (Z.leb_spec 0x100 r), (Z.leb_spec 0x100 s'), (Z.leb_spec 0x100 r'); try lia.
  cbn [orb] in E, E'. rewrite (bind_ok _ _ _ _ _ (rds_ok w msg 2 (h - 2) ltac:(lia))) in E.
  rewrite (bind_ok _ _ _ _ _ (rds_ok w' msg' 2 (h' - 2) ltac:(lia))) in E'.
  destruct (Nat.ltb n _) in E; [done|]. destruct (Nat.ltb n' _) in E'; [done|].
  injection E as E. injection E' as E'. rewrite <- E' in E. cbn [app] in E.
  rewrite !(low_byte s), !(low_byte r), !(low_byte s'), !(low_byte r') in E by lia.
  injection E as -> -> E1 E2 E3 E4 E5 E6 Ehdr.
  assert (h = h') as ->. { apply (f_equal length) in Ehdr. rewrite !length_sub in Ehdr by lia. lia. }
  split; [done|]. split; [done|]. split; [by apply bytes4_inj|]. split; [by apply bytes2_inj|]. done.
Qed.

(** ** Multicast nonces *)

Lemma add_zero_step x a b : is_byte x ->
  Bigint.add_loop (x :: a) (0 :: b) 0 = (x :: fst (Bigint.add_loop a b 0), snd (Bigint.add_loop a b 0)).
Proof.
  intros Hx. unfold is_byte in Hx. cbn [Bigint.add_loop]. rewrite u16_small by lia.
  replace (x + 0 + 0) with x by lia. rewrite land_ff, Z.mod_small, Z.shiftr_div_pow2, Z.div_small by lia.
  by destruct (Bigint.add_loop a b 0).
Qed.

Lemma add_last p x : bytes p -> is_byte x ->
  fst (Bigint.add_loop (p ++ [x]) (replicate (length p) 0 ++ [1]) 0) = p ++ [u8 (x + 1)].
Proof.
  intros Hp Hx. induction p as [|y p IH].
  - unfold is_byte in Hx. cbn [app length replicate Bigint.add_loop fst]. rewrite u16_small by lia.
    rewrite land_ff. unfold u8. by replace (x + 1 + 0) with (x + 1) by lia.
  - apply bytes_cons_inv in Hp as [Hy Hp]. cbn [app length replicate]. rewrite add_zero_step by done. cbn [fst].
    by rewrite (IH Hp).
Qed.

Lemma next_inner_last p x : length p = 15%nat -> bytes p -> is_byte x ->
  next_inner_state (p ++ [x]) = p ++ [u8 (x + 1)].
Proof.
  intros HL Hp Hx. unfold next_inner_state, Bigint.bigint_add.
  change mpan_one with (replicate 15 0 ++ [1]). rewrite <- HL.
  pose proof (add_last p x Hp Hx) as E. by destruct (Bigint.add_loop _ _ 0).
Qed.

Lemma iter_inner n : forall p x, length p = 15%nat -> bytes p -> is_byte x ->
  Nat.iter n next_inner_state (p ++ [x]) = p ++ [u8 (x + Z.of_nat n)].
Proof.
  induction n as [|n IH]; intros p x HL Hp Hx.
  - cbn [Nat.iter]. unfold is_byte in Hx. unfold u8. rewrite Z.add_0_r, Z.mod_small by lia. done.
  - rewrite Nat.iter_succ, IH, next_inner_last by (try done; apply u8_byte). do 2 f_equal.
    unfold u8. rewrite Zplus_mod_idemp_l. f_equal. lia.
Qed.

(** The state a multicast nonce is made from changes in its last byte only, so after 256
    multicast frames to a group it is back at its old value and the nonces repeat: the addition of
    one carries away from the other 15 bytes. *)
Theorem mpan_nonce_repeats st n :
  length st = 16%nat -> bytes st ->
  take 15 (Nat.iter n next_inner_state st) = take 15 st /\ Nat.iter 256 next_inner_state st = st.
Proof.
  intros HL HB. assert (E : st = take 15 st ++ [at_ st 15]).
  { rewrite <- Bigint.take_S_at by lia. by rewrite take_ge by lia. }
  assert (HL15 : length (take 15 st) = 15%nat) by (rewrite length_take; lia).
  assert (HB15 : bytes (take 15 st)) by auto with zw. pose proof (at_byte st 15 HB) as Hx.
  rewrite E. set (p := take 15 st) in *. set (x := at_ st 15) in *. rewrite !iter_inner by done. split.
  - by rewrite !take_app_length'.
  - do 2 f_equal. unfold u8, is_byte in *. change (Z.of_nat 256) with (1 * 256). rewrite Z.mod_add by lia.
    by apply Z.mod_small.
Qed.

(** ** A KEX_FAIL frame *)

Context {HIdle : InclusionIdle I}.

(** With no inclusion running, a KEX_FAIL frame that any node sends without encryption replaces
    the message being sent by its own bytes, whatever state the transmission is in: what is sent
    from then on (after a nonce report, or as a retransmission) is the received frame. *)
Theorem kex_fail_replaces_message w src frame :
  no_inclusion w -> is_multicast src = false ->
  frame !! 0%nat = Some COMMAND_CLASS_SECURITY_2 -> frame !! 1%nat = Some KEX_FAIL ->
  exists w', S2_application_command_handler src frame w = Ok (tt, w') /\
    buf (ctxt w') = BufExt frame /\ length_ (ctxt w') = Z.of_nat (length frame) /\
    fsm (ctxt w') = fsm (ctxt w) /\ peer (ctxt w') = peer (ctxt w) /\ outs w' = outs w.
Proof.
  intros Hn Hm H0 H1. unfold S2_application_command_handler.
  rewrite (bind_ok _ _ _ _ _ (rd_ok w frame 0 _ H0)). change (negb (COMMAND_CLASS_SECURITY_2 =? _)) with false. cbv iota.
  rewrite (bind_ok _ _ _ _ _ (rd_ok w frame 1 _ H1)).
  change (KEX_FAIL =? SECURITY_2_NONCE_GET) with false. change (KEX_FAIL =? SECURITY_2_NONCE_REPORT) with false.
  change (KEX_FAIL =? SECURITY_2_MESSAGE_ENCAPSULATION) with false. cbv iota.
  rewrite (bind_ok _ _ _ _ _ (get_ok w)). change (KEX_FAIL =? KEX_FAIL) with true. cbn [negb]. rewrite andb_false_r, Hm.
  cbn [negb]. erewrite bind_ok by reflexivity.
  set (w1 := set_ctxt _ w). destruct (idle_post_event (with_class_id UNENCRYPTED_CLASS src) w1 Hn) as (p & i & E).
  { exists frame. split; [done|]. apply lookup_lt_Some in H1. lia. }
  eexists. split; [exact E|]. done.
Qed.
End Keys.

(** ** Concrete contexts *)

#[local] Existing Instances idle_inclusion idle_inclusion_idle demo_platform.

Lemma s2_restore_keys_spec_witness :
  exists w', s2_restore_keys (demo_world 1) = Ok (tt, w') /\
    Z.testbit (loaded_keys (ctxt w')) ACCESS_KEY_SLOT = true /\
    sg (ctxt w') !! 2%nat = Some (group_of (replicate 16 4) false).
Proof.
  destruct (s2_restore_keys_spec (demo_world 1)) as (w' & E & _ & H).
  - vm_compute. reflexivity.
  - rewrite demo_world_nvm in H. destruct (H 0x04 ACCESS_KEY_SLOT) as [H1 H2]; [do 2 right; left|].
    exists w'. split; [exact E|]. split; [apply H1; discriminate|]. apply H2. reflexivity.
Defined.

Lemma S2_network_key_update_spec_witness :
  exists r w', S2_network_key_update 1 (replicate 16 9) false (demo_world 1) = Ok (r, w') /\
    (if r then 1 < 7 /\ slot_of (ctxt w') 1 = (true, Some (group_of (replicate 16 9) false)) /\
               (forall s, 0 <= s -> s <> 1 -> slot_of (ctxt w') s = slot_of (ctxt (demo_world 1)) s)
     else 7 <= 1 /\ w' = demo_world 1).
Proof. apply S2_network_key_update_spec; [lia|vm_compute; reflexivity]. Defined.

Lemma make_aad_binds_witness :
  my_home_id (ctxt (demo_world 1)) = my_home_id (ctxt (demo_world 2)).
Proof.
  apply (make_aad_binds (demo_world 1) (demo_world 2) 1 2 4 20 64 (replicate 20 9) 1 2 4 20 64 (replicate 20 9)
    [1; 2; 0xCA; 0xFE; 0; 1; 0; 20; 9; 9]); try lia; try (vm_compute; reflexivity); try discriminate.
  - vm_compute. split; [discriminate|reflexivity].
  - vm_compute. split; [discriminate|reflexivity].
  - rewrite length_replicate. lia.
  - rewrite length_replicate. lia.
Defined.

Lemma mpan_nonce_repeats_witness :
  Nat.iter 256 next_inner_state (replicate 16 200) = replicate 16 200.
Proof.
  destruct (mpan_nonce_repeats (replicate 16 200) 0) as [_ E]; [reflexivity|apply bytes_replicate; done|exact E].
Defined.

(** Node 7 sends a KEX_FAIL while node 1 waits for a nonce of node 2. *)
Lemma kex_fail_replaces_message_witness :
  exists w', S2_application_command_handler (mkConn 1 7 0 0 0 0 0 0 0) [0x9F; 0x07; 0x01] waiting_world = Ok (tt, w') /\
    buf (ctxt w') = BufExt [0x9F; 0x07; 0x01] /\ length_ (ctxt w') = 3 /\
    fsm (ctxt w') = WAIT_NONCE_RAPORT /\ peer (ctxt w') = peer (ctxt waiting_world) /\ outs w' = outs waiting_world.
Proof.
  apply (kex_fail_replaces_message waiting_world (mkConn 1 7 0 0 0 0 0 0 0) [0x9F; 0x07; 0x01]);
    try reflexivity; vm_compute; reflexivity.
Defined.

(** Writing, reading, clearing and reading a class, and then clearing all of them. *)
Definition demo_ops : list key_op :=
  [OpWrite KEY_CLASS_S2_ACCESS (replicate 16 9); OpRead KEY_CLASS_S2_ACCESS; OpClear KEY_CLASS_S2_ACCESS;
   OpRead KEY_CLASS_S2_ACCESS; OpRead KEY_CLASS_S0; OpClear KEY_CLASS_ALL; OpRead KEY_CLASS_S0].

Lemma keystore_refines_map_witness :
  exists rs w', run_ops demo_ops (demo_world 1) = Ok (rs, w') /\
    rs = [None; Some (replicate 16 9); None; None; Some (replicate 16 0x80); None; None].
Proof.
  destruct (demo_world_ok 1) as (_ & Hg & Hn); [done|].
  destruct (keystore_refines_map demo_ops (demo_world 1)) as (rs & w' & E & Es).
  - split; [exact Hn|exact Hg].
  - assert (Hk : key16 (replicate 16 9)) by (split; [reflexivity|by apply bytes_replicate]).
    unfold demo_ops. repeat (apply list.Forall_cons; split); try apply list.Forall_nil_2;
      cbn [op_ok]; try (split; [|exact Hk]); try (by left); try right; apply (bool_decide_unpack _); vm_compute; exact Logic.I.
  - rewrite demo_world_nvm in Es. exists rs, w'. split; [exact E|].
    apply (f_equal fst) in Es. change (fst (rs, key_map (nvm w'))) with rs in Es. rewrite Es. vm_compute. reflexivity.
Defined.
End S2Keys.
