(* ===== verification/S2IncSpec.v ===== *)
(** * What the S2 inclusion machine guarantees

    The machine of S2Inclusion.v is inert while no inclusion runs, which is the interface the
    transport relies on ([InclusionIdle]); it checks length and encryption of every received frame
    before it acts on it; it hands out a network key only for one granted key and only encrypted
    with the temporary key; the two ends compute the same temporary key; and the timer and unexpected
    events lead back to the idle state with the keys restored and the application told. *)
From stdpp Require Import gmap.
From S2P Require Import Prelude Aes Cmac Ccm Drbg Bigint Curve25519 S2Types Keystore S2Core S2Inclusion S2Safe S2Fsm S2Channel S2Keys.
Import CtrDrbg S2Types Keystore S2 S2Inclusion S2Safe S2Fsm S2Channel S2Keys.

Module S2IncSpec.

Section Spec.
Context {C : BlockCipher} {K : Curve} {P : Platform}.

(** ** No inclusion is running *)

(** The rows of a state, in the order of the table. *)
Definition rows (st : s2_inclusion_state_t) : list s2_transition_t :=
  List.filter (fun r => bool_decide (st = row_state r) || bool_decide (row_state r = S2_INC_STATE_ANY)) s2_transition_table.

Lemma find_filter {A} (p q : A -> bool) l : find (fun r => p r && q r) l = find q (List.filter p l).
Proof. induction l as [|x l IH]; [done|]. simpl. destruct (p x); simpl; [by destruct (q x)|done]. Qed.

Lemma transition_rows st e : transition st e = find (fun r => (e =? row_event r) || (row_event r =? S2_EVT_ANY)) (rows st).
Proof. apply find_filter. Qed.

Lemma idle_row e : e <> S2_INCLUDING_START -> e <> S2_JOINING_START ->
  exists r, transition S2_INC_IDLE e = Some r /\ row_action r = S2_NO_ACTION /\ row_new r = S2_INC_IDLE.
Proof.
  intros H1 H2. rewrite transition_rows.
  assert (E : take 4 (rows S2_INC_IDLE) =
    [Row S2_INC_IDLE S2_INCLUDING_START S2_SEND_KEX_GET_ACTION S2_AWAITING_KEX_REPORT;
     Row S2_INC_IDLE S2_JOINING_START S2_JOINING_START_ACTION S2_AWAITING_KEX_GET;
     Row S2_INC_IDLE S2_INCLUSION_TIMEOUT S2_NO_ACTION S2_INC_IDLE;
     Row S2_INC_IDLE S2_EVT_ANY S2_NO_ACTION S2_INC_IDLE]) by (vm_compute; reflexivity).
  rewrite <- (take_drop 4 (rows S2_INC_IDLE)), E. cbn [app find row_event].
  apply Z.eqb_neq in H1, H2. rewrite H1, H2. cbn [orb]. rewrite orb_true_r.
  destruct (e =? S2_INCLUSION_TIMEOUT); by eexists.
Qed.

Lemma enter_idle c : inclusion_state c = S2_INC_IDLE -> enter S2_INC_IDLE c = c.
Proof. intros H. unfold enter. rewrite bool_decide_false by done. destruct c. cbn in *. by subst. Qed.

Lemma process_idle f e w :
  inclusion_state (ctxt w) = S2_INC_IDLE -> e <> S2_INCLUDING_START -> e <> S2_JOINING_START ->
  process_event (S f) e w = Ok (tt, w).
Proof.
  intros Hi H1 H2. destruct (idle_row e H1 H2) as (r & Er & Ea & En).
  unfold process_event. cbn [machine process]. unfold process_step.
  rewrite (bind_ok _ _ _ _ _ (get_ok w)), Hi, Er, En, Ea. unfold modify.
  erewrite bind_ok by reflexivity. rewrite enter_idle by done. by destruct w.
Qed.
Lemma in_byte_ok w l i x : buf (ctxt w) = BufExt l -> l !! i = Some x -> in_byte i w = Ok (x, w).
Proof. intros Hb Hx. unfold in_byte, mbind, M_bind, get, buf_byte. rewrite Hb. unfold rd. by rewrite Hx. Qed.

Lemma post_internal_idle pe (I : InclusionFsm) w :
  inclusion_state (ctxt w) = S2_INC_IDLE -> command_ready (ctxt w) ->
  s2_inclusion_post_event_internal pe w = Ok (tt, w).
Proof.
  intros Hi (l & Hb & Hl). unfold s2_inclusion_post_event_internal.
  destruct (lookup_lt_is_Some_2 l 1 ltac:(lia)) as [x Hx].
  rewrite (bind_ok _ _ _ _ _ (get_ok w)), (bind_ok _ _ _ _ _ (in_byte_ok w l SECURITY_2_COMMAND_POS x Hb Hx)).
  rewrite Hi. by rewrite orb_true_r.
Qed.

(** The machine is what the transport relies on. *)
#[global] Instance inclusion_idle f : InclusionIdle (inclusion (S (S f))).
Proof.
  split.
  - intros b w Hi.
    change (@s2_inclusion_send_done (inclusion (S (S f))) b) with (inclusion_send_done (process_event (S f)) b).
    unfold inclusion_send_done. rewrite (bind_ok _ _ _ _ _ (get_ok w)). erewrite bind_ok by reflexivity.
    destruct (m_retry_counter (inc w) =? QUEUE_FULL).
    + eexists. unfold set_retries, modify_inc. erewrite bind_ok by reflexivity. by apply process_idle.
    + exists (inc w). assert (Ew : set_inc (inc w) w = w) by (by destruct w). rewrite Ew.
      destruct (_ && _), b; by apply process_idle.
  - intros con w Hi. exists (inc w). assert (Ew : set_inc (inc w) w = w) by (by destruct w). rewrite Ew.
    change (@s2_inclusion_decryption_failure (inclusion (S (S f))) con)
      with (inclusion_decryption_failure (process_event (S f)) con).
    unfold inclusion_decryption_failure. rewrite (bind_ok _ _ _ _ _ (get_ok w)).
    destruct (_ =? _); [by apply process_idle|done].
  - intros con w Hi Hr. assert (Ew : exists p, w = set_inc (inc w) (set_ctxt (set_inclusion_peer p (ctxt w)) w)).
    { exists (inclusion_peer (ctxt w)). by destruct w as [[] ? ? ? ? ?]. }
    change (@s2_inclusion_post_event (inclusion (S (S f))) con)
      with (inclusion_post_event (process_event (S f)) (I := inclusion (S f)) con).
    unfold inclusion_post_event. destruct (has_bits _ _).
    { destruct Ew as [p E]. exists p, (inc w). by rewrite <- E. }
    rewrite (bind_ok _ _ _ _ _ (get_ok w)), Hi. rewrite bool_decide_false by done.
    erewrite bind_ok by reflexivity. rewrite (bind_ok _ _ _ _ _ (get_ok w)). destruct (_ =? _).
    + eexists _, (inc w). unfold modify_peer, modify. erewrite bind_ok by reflexivity.
      rewrite post_internal_idle by done. by destruct w.
    + destruct Ew as [p E]. exists p, (inc w). by rewrite <- E.
Qed.

(** While no inclusion runs the machine is inert: every event but the two that start an inclusion
    leaves the whole state as it is, and so the transport above it sees hooks that do nothing but
    count retries and note the peer of a received command. *)
Theorem idle_machine_inert f w e :
  inclusion_state (ctxt w) = S2_INC_IDLE -> e <> S2_INCLUDING_START -> e <> S2_JOINING_START ->
  process_event (S f) e w = Ok (tt, w) /\ InclusionIdle (inclusion (S (S f))).
Proof. intros Hi H1 H2. split; [by apply process_idle|apply inclusion_idle]. Qed.

(** ** The rules on received frames *)

(** How a frame has to be protected. *)
Inductive protection := Plain | Temp | PlainOrTemp | NetKey.

(** The least length and the protection of a command, [echo] its echo flag. *)
Definition required (cmd : Z) (echo : bool) : option (Z * protection) :=
  if cmd =? KEX_GET then Some (2, Plain)
  else if (cmd =? KEX_REPORT) || (cmd =? KEX_SET) then Some (6, if echo then Temp else Plain)
  else if cmd =? KEX_FAIL then Some (3, PlainOrTemp)
  else if cmd =? PUBLIC_KEY_REPORT then Some (35, Plain)
  else if cmd =? SECURITY_2_NETWORK_KEY_GET then Some (3, Temp)
  else if cmd =? SECURITY_2_NETWORK_KEY_REPORT then Some (19, Temp)
  else if cmd =? SECURITY_2_NETWORK_KEY_VERIFY then Some (2, NetKey)
  else if cmd =? SECURITY_2_TRANSFER_END then Some (3, Temp)
  else None.

(** The key class a slot belongs to; a long-range key is announced as the classic one. *)
Definition slot_class (cls : Z) : Z :=
  if cls =? 0 then KEY_CLASS_S2_UNAUTHENTICATED
  else if (cls =? 1) || (cls =? 3) then KEY_CLASS_S2_AUTHENTICATED
  else if (cls =? 2) || (cls =? 4) then KEY_CLASS_S2_ACCESS
  else if cls =? 6 then KEY_CLASS_S0
  else 0.

Definition protected (c : S2) (p : protection) : bool :=
  let cls := class_id (inclusion_peer c) in
  match p with
  | Plain => cls =? NON_SECURE
  | Temp => cls =? TEMP_KEY_SECURE
  | PlainOrTemp => (cls =? NON_SECURE) || (cls =? TEMP_KEY_SECURE)
  | NetKey => (cls <? 7) && ((key_requested c =? slot_class cls) || has_bits (key_exchange c) (slot_class cls))
  end.

Lemma slot_class_pair cls : 0 <= cls < 7 -> at_ m_key_slot_key_class_pair (Z.to_nat cls) = slot_class cls.
Proof.
  intros H. assert (cls = 0 \/ cls = 1 \/ cls = 2 \/ cls = 3 \/ cls = 4 \/ cls = 5 \/ cls = 6) as Hc by lia.
  by destruct Hc as [-> | [-> | [-> | [-> | [-> | [-> | ->]]]]]].
Qed.

Lemma rule_run i r w : m_frame_rules !! Z.to_nat i = Some r -> rule_of i w = Ok (r, w).
Proof. unfold rule_of. by intros ->. Qed.

(** The echo flag of a frame. *)
Definition echo_flag (l : list Z) : bool := match l !! 2%nat with Some x => has_bits x SECURITY_2_ECHO_ON | None => false end.

Section Gate.
Variable pe : Z -> M unit.
Context {I : InclusionFsm}.
Variables (w : World) (l : list Z) (cmd : Z).
Hypothesis running : inclusion_state (ctxt w) <> S2_INC_IDLE.
Hypothesis Hbuf : buf (ctxt w) = BufExt l.
Hypothesis Hlen : length_ (ctxt w) = Z.of_nat (length l).
Hypothesis Hcmd : l !! 1%nat = Some cmd.
Hypothesis Hcls : 0 <= class_id (inclusion_peer (ctxt w)).

(** What happens to a frame that falls under the rule [(n, p)]. *)
Definition gate (n : Z) (p : protection) : res (unit * World) :=
  if length_ (ctxt w) <? n then pe S2_INCLUSION_ERROR w
  else if protected (ctxt w) p then (e ← event_of_frame cmd; pe e) w
  else reject_auth pe w.

(** One rule of the table: the common part of all commands. *)
Lemma gate_rule n support a b p :
  cmd < 0x0D -> m_frame_rules !! Z.to_nat (u8 (cmd - S2_INCLUSION_COMMAND_OFFSET)) = Some (n, support, a, b) ->
  4 <= cmd -> (support = ECHO_SUPPORT -> 3 <= n) ->
  (let rule := if (support =? ECHO_SUPPORT) && echo_flag l then b else a in
   match p with
   | Plain => rule = NON_SECURE /\ (support <> DUAL_RULE_SUPPORT)
   | Temp => rule = TEMP_KEY_SECURE /\ (support <> DUAL_RULE_SUPPORT)
   | PlainOrTemp => rule = NON_SECURE /\ b = TEMP_KEY_SECURE /\ support = DUAL_RULE_SUPPORT
   | NetKey => rule = NETWORK_KEY_SECURE
   end) ->
  s2_inclusion_post_event_internal pe w = gate n p.
Proof.
  intros Hlt Hr Hge Hecho Hp. unfold s2_inclusion_post_event_internal, gate.
  rewrite (bind_ok _ _ _ _ _ (get_ok w)), (bind_ok _ _ _ _ _ (in_byte_ok w l SECURITY_2_COMMAND_POS cmd Hbuf Hcmd)).
  cbv zeta. rewrite (bool_decide_false (inclusion_state (ctxt w) = S2_INC_IDLE)) by done.
  replace (Z.of_nat (length m_frame_rules) <? u8 (cmd - S2_INCLUSION_COMMAND_OFFSET)) with false.
  2:{ symmetry. apply Z.ltb_ge. unfold u8, S2_INCLUSION_COMMAND_OFFSET, KEX_GET. simpl. rewrite Z.mod_small; lia. }
  cbn [orb]. rewrite (bind_ok _ _ _ _ _ (rule_run _ _ w Hr)). cbv iota.
  destruct (Z.ltb_spec (length_ (ctxt w)) n) as [|Hn]; [done|].
  set (rule := if (support =? ECHO_SUPPORT) && echo_flag l then b else a) in *.
  erewrite (bind_ok (if support =? ECHO_SUPPORT then _ else _) _ w rule w).
  2:{ subst rule. destruct (Z.eqb_spec support ECHO_SUPPORT) as [Hs|]; [|done]. specialize (Hecho Hs).
      destruct (lookup_lt_is_Some_2 l 2) as [x Hx]; [lia|]. unfold echo_flag. rewrite Hx.
      by rewrite (bind_ok _ _ _ _ _ (in_byte_ok w l SECURITY_2_KEX_SET_ECHO_POS x Hbuf Hx)). }
  cbv zeta. set (cls := class_id (inclusion_peer (ctxt w))) in *. unfold protected. fold cls.
  destruct p; cbv zeta iota in Hp.
  - destruct Hp as [-> Hs]. change (NON_SECURE =? NETWORK_KEY_SECURE) with false. cbv iota.
    apply Z.eqb_neq in Hs. rewrite Hs. cbn [negb orb]. rewrite andb_true_r, (Z.eqb_sym cls). by destruct (NON_SECURE =? cls).
  - destruct Hp as [-> Hs]. change (TEMP_KEY_SECURE =? NETWORK_KEY_SECURE) with false. cbv iota.
    apply Z.eqb_neq in Hs. rewrite Hs. cbn [negb orb]. rewrite andb_true_r, (Z.eqb_sym cls). by destruct (TEMP_KEY_SECURE =? cls).
  - destruct Hp as (-> & -> & ->). change (NON_SECURE =? NETWORK_KEY_SECURE) with false. cbv iota.
    change (DUAL_RULE_SUPPORT =? DUAL_RULE_SUPPORT) with true. rewrite (Z.eqb_sym cls NON_SECURE).
    by destruct (NON_SECURE =? cls), (cls =? TEMP_KEY_SECURE).
  - rewrite Hp. change (NETWORK_KEY_SECURE =? NETWORK_KEY_SECURE) with true. cbv iota.
    change (Z.of_nat (length m_key_slot_key_class_pair)) with 7.
    destruct (Z.leb_spec 7 cls), (Z.ltb_spec cls 7); try lia; cbn [andb]; [done|].
    rewrite slot_class_pair by lia.
    by destruct (key_requested _ =? _), (has_bits (key_exchange _) _).
Qed.

Lemma gate_run :
  is_byte cmd ->
  s2_inclusion_post_event_internal pe w =
  match required cmd (echo_flag l) with
  | Some (n, p) => gate n p
  | None => if cmd =? 0x0D then Fault OutOfBounds else Ok (tt, w)
  end.
Proof.
  intros Hb. unfold is_byte in Hb.
  destruct (decide (4 <= cmd < 13)) as [Hr|Hr].
  - assert (cmd = 4 \/ cmd = 5 \/ cmd = 6 \/ cmd = 7 \/ cmd = 8 \/ cmd = 9 \/ cmd = 10 \/ cmd = 11 \/ cmd = 12) as Hc by lia.
    repeat destruct Hc as [Hc|Hc]; rewrite Hc; cbv beta iota delta [required]; cbn [Z.eqb orb];
      (eapply gate_rule; [lia|rewrite Hc; reflexivity|lia|done|cbv zeta]).
    all: try destruct (echo_flag l); done.
  - assert (Hn : required cmd (echo_flag l) = None).
    { unfold required. repeat case_match; try done; zbool; unfold KEX_GET, KEX_REPORT, KEX_SET, KEX_FAIL, PUBLIC_KEY_REPORT,
        SECURITY_2_NETWORK_KEY_GET, SECURITY_2_NETWORK_KEY_REPORT, SECURITY_2_NETWORK_KEY_VERIFY, SECURITY_2_TRANSFER_END in *; lia. }
    rewrite Hn. unfold s2_inclusion_post_event_internal.
    rewrite (bind_ok _ _ _ _ _ (get_ok w)), (bind_ok _ _ _ _ _ (in_byte_ok w l SECURITY_2_COMMAND_POS cmd Hbuf Hcmd)).
    cbv zeta. rewrite (bool_decide_false (inclusion_state (ctxt w) = S2_INC_IDLE)), orb_false_r by done.
    unfold S2_INCLUSION_COMMAND_OFFSET, KEX_GET. change (Z.of_nat (length m_frame_rules)) with 9.
    destruct (Z.eqb_spec cmd 0x0D) as [->|Hne]; [done|].
    destruct (Z.ltb_spec 9 (u8 (cmd - 4))) as [|Hle]; [done|]. exfalso. unfold u8 in Hle.
    destruct (decide (cmd < 4)) as [Hlt|]; [|rewrite Z.mod_small in Hle; lia].
    rewrite <- (Z.mod_add _ 1), Z.mod_small in Hle; lia.
Qed.
End Gate.

(** ** Runs of the actions *)

Lemma put_u_ok off bs w : (off + length bs <= length (u (ctxt w)))%nat ->
  put_u off bs w = Ok (tt, set_ctxt (set_u (splice off bs (u (ctxt w))) (ctxt w)) w).
Proof.
  intros H. unfold put_u, wrs. rewrite (bind_ok _ _ _ _ _ (get_ok w)).
  destruct (Nat.leb_spec (off + length bs) (length (u (ctxt w)))); [|lia]. by erewrite bind_ok by reflexivity.
Qed.

Definition framed (bs : list Z) (len : Z) (c : S2) : S2 := set_inclusion_buf_length len (set_u (splice 0 bs (u c)) c).

Lemma put_frame_ok bs len w : (length bs <= length (u (ctxt w)))%nat ->
  put_frame bs len w = Ok (tt, set_ctxt (framed bs len (ctxt w)) w).
Proof. intros H. unfold put_frame. by rewrite (bind_ok _ _ _ _ _ (put_u_ok 0 bs w H)). Qed.

(** What a clear-text send leaves: the frame handed to the radio, and the retry counter. *)
Lemma send_frame_ok w : (Z.to_nat (inclusion_buf_length (ctxt w)) <= length (u (ctxt w)))%nat ->
  exists i acc, s2_inclusion_send_frame w =
    Ok (tt, set_inc i (set_accept acc (add_out (SendFrame (inclusion_peer (ctxt w))
      (take (Z.to_nat (inclusion_buf_length (ctxt w))) (u (ctxt w)))) w))).
Proof.
  intros H. unfold s2_inclusion_send_frame. rewrite (bind_ok _ _ _ _ _ (get_ok w)).
  rewrite (bind_ok _ _ _ _ _ (rds_ok w (u (ctxt w)) 0 _ H)). unfold sub. rewrite drop_0.
  unfold S2_send_frame, next_accept. set (w1 := add_out _ w).
  destruct (tx_accept w) as [|b l] eqn:E.
  - exists (set_retry_counter (u8 (m_retry_counter (inc w) - 1)) (inc w)), [].
    unfold mbind, M_bind, emit. fold w1. change (tx_accept w1) with (tx_accept w). rewrite E. cbv iota beta.
    unfold modify_inc. subst w1. destruct w; cbn in *. by subst.
  - exists (if b then set_retry_counter (u8 (m_retry_counter (inc w) - 1)) (inc w)
            else set_retry_counter QUEUE_FULL (inc w)), l.
    unfold mbind, M_bind, emit. fold w1. change (tx_accept w1) with (tx_accept w). rewrite E. by destruct b.
Qed.

Definition kex_fail_frame (error : Z) : list Z := [COMMAND_CLASS_SECURITY_2; KEX_FAIL; error].

(** A KEX_FAIL in clear text: one frame, the error code, and the retry counter. *)
Lemma fail_frame_ok {I : InclusionFsm} error w : length (u (ctxt w)) = 40%nat ->
  exists i acc, inclusion_failed_frame_send error NON_SECURE w =
    Ok (tt, set_inc i (set_accept acc (add_out (SendFrame (inclusion_peer (ctxt w)) (kex_fail_frame error))
      (set_ctxt (framed (kex_fail_frame error) SECURITY_2_KEX_FAIL_LENGTH (set_kex_fail_code error (ctxt w))) w)))).
Proof.
  intros H. unfold inclusion_failed_frame_send. unfold modify at 1. erewrite bind_ok by reflexivity.
  set (w1 := set_ctxt (set_kex_fail_code error (ctxt w)) w).
  rewrite (bind_ok _ _ _ _ _ (put_frame_ok (kex_fail_frame error) SECURITY_2_KEX_FAIL_LENGTH w1
    ltac:(change (u (ctxt w1)) with (u (ctxt w)); rewrite H; cbn; lia))).
  unfold set_retries, modify_inc. erewrite bind_ok by reflexivity. change (NON_SECURE =? TEMP_KEY_SECURE) with false. cbv iota.
  set (w2 := set_inc _ _).
  assert (Hu : (Z.to_nat (inclusion_buf_length (ctxt w2)) <= length (u (ctxt w2)))%nat).
  { unfold w2, framed. cbn [ctxt set_inc set_ctxt u set_u set_inclusion_buf_length inclusion_buf_length].
    change (u (ctxt w1)) with (u (ctxt w)). rewrite length_splice by (rewrite H; cbn; lia).
    rewrite H. unfold SECURITY_2_KEX_FAIL_LENGTH. lia. }
  destruct (send_frame_ok w2 Hu) as (i & acc & E). exists i, acc. rewrite E.
  change (inclusion_buf_length (ctxt w2)) with SECURITY_2_KEX_FAIL_LENGTH.
  change (u (ctxt w2)) with (splice 0 (kex_fail_frame error) (u (ctxt w))).
  rewrite take_splice by (rewrite ?H; reflexivity || lia). done.
Qed.

(** ** Handing out network keys *)

(** One of the granted keys, and only one, is asked for. *)
Definition one_granted (req granted : Z) : Prop := exists i, 0 <= i < 8 /\ req = 2 ^ i /\ Z.testbit granted i = true.

Lemma one_granted_spec req granted : is_byte req ->
  at_most_one_bit req && has_bits req granted = true <-> one_granted req granted.
Proof.
  intros Hb. unfold is_byte in Hb. rewrite andb_true_iff. unfold at_most_one_bit, has_bits. rewrite Z.eqb_eq, negb_true_iff, Z.eqb_neq. split.
  - intros [H1 H2].
    assert (Hex : req <> 0) by (intros ->; by rewrite Z.land_0_l in H2).
    pose proof (Z.log2_nonneg req) as Hl0. pose proof (Z.log2_spec req ltac:(lia)) as Hl. set (i := Z.log2 req) in *.
    assert (Hreq : req = 2 ^ i).
    { destruct (decide (req = 2 ^ i)) as [|Hne]; [done|]. exfalso.
      assert (Hbit : Z.testbit (Z.land req (req - 1)) i = true); [|by rewrite H1, Z.testbit_0_l in Hbit].
      rewrite Z.land_spec. apply andb_true_iff. split; apply (Z.testbit_true _ i Hl0).
      - replace (req / 2 ^ i) with 1; [done|]. apply Z.div_unique_pos with (req - 2 ^ i); [|lia].
        rewrite Z.pow_succ_r in Hl by lia. lia.
      - replace ((req - 1) / 2 ^ i) with 1; [done|]. apply Z.div_unique_pos with (req - 1 - 2 ^ i); [|lia].
        rewrite Z.pow_succ_r in Hl by lia. lia. }
    exists i. split; [split; [done|]; apply Z.log2_lt_pow2; lia|]. split; [done|].
    destruct (Z.testbit granted i) eqn:E; [done|]. exfalso. apply H2. rewrite Hreq.
    pose proof (land_bit i granted Hl0) as Hland. rewrite E in Hland. by apply Z.eqb_eq.
  - intros (i & Hi & -> & Ht). split.
    + rewrite Z.sub_1_r, <- Z.ones_equiv, Z.land_ones by lia. apply Z.mod_same. lia.
    + pose proof (land_bit i granted ltac:(lia)) as Hland. rewrite Ht in Hland. by apply Z.eqb_neq.
Qed.

(** The stored key that answers a request of node [node]. *)
Definition release_class (node req : Z) : Z :=
  if IS_LR_NODE node then
    if req =? KEY_CLASS_S2_AUTHENTICATED then KEY_CLASS_S2_AUTHENTICATED_LR
    else if req =? KEY_CLASS_S2_ACCESS then KEY_CLASS_S2_ACCESS_LR else req
  else req.

Lemma translate_ok w req : length (u (ctxt w)) = 40%nat -> u (ctxt w) !! 2%nat = Some req ->
  translate_keyslot_to_read_for_LR w = Ok (release_class (r_node (inclusion_peer (ctxt w))) req, w).
Proof.
  intros HL Hr. unfold translate_keyslot_to_read_for_LR, release_class. rewrite (bind_ok _ _ _ _ _ (get_ok w)).
  rewrite (bind_ok _ _ _ _ _ (rd_ok w (u (ctxt w)) 2 req Hr)). by destruct (IS_LR_NODE _).
Qed.

Section Release.
Variable pe : Z -> M unit.
Context {I : InclusionFsm}.
Variables (w : World) (l : list Z) (req : Z).
Hypothesis Hbuf : buf (ctxt w) = BufExt l.
Hypothesis Hreq : l !! 2%nat = Some req.
Hypothesis Hbyte : is_byte req.
Hypothesis Hu : length (u (ctxt w)) = 40%nat.

Lemma requested_key_ok : one_granted req (key_granted (ctxt w)) ->
  validate_requested_key w = Ok (true, set_ctxt (set_key_requested req (ctxt w)) w).
Proof.
  intros H. unfold validate_requested_key.
  rewrite (bind_ok _ _ _ _ _ (in_byte_ok w l SECURITY_2_NET_KEY_GET_REQ_KEY_POS req Hbuf Hreq)).
  rewrite (bind_ok _ _ _ _ _ (get_ok w)). apply (one_granted_spec req _ Hbyte) in H. by rewrite H.
Qed.

Lemma requested_key_bad : ~ one_granted req (key_granted (ctxt w)) ->
  exists w1, validate_requested_key w = Ok (false, w1) /\ nvm w1 = nvm w /\ key_exchange (ctxt w1) = key_exchange (ctxt w) /\
    outs w1 = SendFrame (inclusion_peer (ctxt w)) (kex_fail_frame KEX_FAIL_KEY_GET) :: outs w.
Proof.
  intros H. unfold validate_requested_key.
  rewrite (bind_ok _ _ _ _ _ (in_byte_ok w l SECURITY_2_NET_KEY_GET_REQ_KEY_POS req Hbuf Hreq)).
  rewrite (bind_ok _ _ _ _ _ (get_ok w)).
  destruct (at_most_one_bit req && has_bits req (key_granted (ctxt w))) eqn:E; [by apply one_granted_spec in E|].
  unfold modify at 1. erewrite bind_ok by reflexivity. set (w0 := set_ctxt _ w).
  destruct (fail_frame_ok KEX_FAIL_KEY_GET w0 Hu) as (i & acc & Ef). rewrite (bind_ok _ _ _ _ _ Ef). by eexists.
Qed.
End Release.

Section Report.
Variable pe : Z -> M unit.
Context {I : InclusionFsm}.
Variables (w : World) (l : list Z) (req : Z).
Hypothesis Hbuf : buf (ctxt w) = BufExt l.
Hypothesis Hreq : l !! 2%nat = Some req.
Hypothesis Hbyte : is_byte req.
Hypothesis Hu : length (u (ctxt w)) = 40%nat.
Hypothesis Hn : nvm_ok (nvm w).

(** The report is made up: under the temporary key, for the same node, with [key] as the key. *)
Definition report_ready (key : list Z) (w1 : World) : Prop :=
  class_id (inclusion_peer (ctxt w1)) = TEMP_KEY_SECURE /\
  r_node (inclusion_peer (ctxt w1)) = r_node (inclusion_peer (ctxt w)) /\
  inclusion_buf_length (ctxt w1) = SECURITY_2_NET_KEY_REPORT_LENGTH /\
  take 19 (u (ctxt w1)) = [COMMAND_CLASS_SECURITY_2; SECURITY_2_NETWORK_KEY_REPORT; req] ++ key /\
  outs w1 = IncStopTimeout :: outs w.

(** The keystore's place for the key asked for. *)
Definition asked_class : Z := release_class (r_node (inclusion_peer (ctxt w))) req.

(** A granted request up to the reading of the key. *)
Lemma report_run : one_granted req (key_granted (ctxt w)) ->
  exists w3, s2_send_net_key_report pe w =
    (key ← keystore_network_key_read asked_class;
     (match key with Some key => put_u SECURITY_2_NET_KEY_REP_KEY_POS key | None => mret tt end);;
     set_security TEMP_KEY_SECURE 0;; set_retries MAX_RETRY_COUNT;;
     s2_inclusion_send_data;; emit (IncSetTimeout TA5_TIMEOUT);; expect_s0_verify) w3 /\
    nvm w3 = nvm w /\ r_node (inclusion_peer (ctxt w3)) = r_node (inclusion_peer (ctxt w)) /\
    inclusion_buf_length (ctxt w3) = SECURITY_2_NET_KEY_REPORT_LENGTH /\ outs w3 = IncStopTimeout :: outs w /\
    u (ctxt w3) = splice 0 [COMMAND_CLASS_SECURITY_2; SECURITY_2_NETWORK_KEY_REPORT; req] (u (ctxt w)).
Proof.
  intros Hg. set (w0 := add_out IncStopTimeout w). unfold s2_send_net_key_report. unfold emit at 1.
  erewrite bind_ok by reflexivity. fold w0.
  rewrite (bind_ok _ _ _ _ _ (requested_key_ok w0 l req Hbuf Hreq Hbyte Hg)). cbn [negb].
  set (w1 := set_ctxt _ w0).
  rewrite (bind_ok _ _ _ _ _ (in_byte_ok w1 l SECURITY_2_NET_KEY_GET_REQ_KEY_POS req Hbuf Hreq)).
  unfold modify. erewrite bind_ok by reflexivity. set (w2 := set_ctxt _ w1).
  set (hd := [COMMAND_CLASS_SECURITY_2; SECURITY_2_NETWORK_KEY_REPORT; req]).
  assert (Hu2 : (length hd <= length (u (ctxt w2)))%nat) by (change (u (ctxt w2)) with (u (ctxt w)); rewrite Hu; cbn; lia).
  rewrite (bind_ok _ _ _ _ _ (put_frame_ok hd SECURITY_2_NET_KEY_REPORT_LENGTH w2 Hu2)). set (w3 := set_ctxt _ w2).
  assert (Eu3 : u (ctxt w3) = splice 0 hd (u (ctxt w))) by done.
  assert (Hu3 : length (u (ctxt w3)) = 40%nat) by (rewrite Eu3, length_splice; [done|cbn; lia]).
  rewrite (bind_ok _ _ _ _ _ (translate_ok w3 req Hu3 ltac:(by rewrite Eu3))).
  exists w3. by split_and!.
Qed.

(** C8: a Network Key Get is answered with a key only if it asks for exactly one key and that key was
    granted; the report is handed to the transport under the temporary key, nothing having been sent
    before, and holds the stored key of that class (of its long-range twin for a long-range node);
    when no key of the class is stored it goes out all the same, with the 16 bytes its buffer held
    before, and a class the keystore marks as assigned but does not know fails an assertion.  Any
    other request is answered with a KEX_FAIL in clear text, and the error is posted. *)
Theorem network_key_release :
  (forall key, one_granted req (key_granted (ctxt w)) ->
     (stored (nvm w) asked_class = Some key \/
      Z.land asked_class (assigned_keys (nvm w)) = 0 /\ key = sub 3 16 (u (ctxt w))) ->
     exists w1, report_ready key w1 /\
     s2_send_net_key_report pe w =
       (s2_inclusion_send_data;; emit (IncSetTimeout TA5_TIMEOUT);; expect_s0_verify) w1) /\
  (one_granted req (key_granted (ctxt w)) ->
     Z.land asked_class (assigned_keys (nvm w)) <> 0 -> stored (nvm w) asked_class = None ->
     s2_send_net_key_report pe w = Fault AssertFail) /\
  (~ one_granted req (key_granted (ctxt w)) ->
     exists w1, s2_send_net_key_report pe w = pe S2_INCLUSION_ERROR_SENT w1 /\
     nvm w1 = nvm w /\ key_exchange (ctxt w1) = key_exchange (ctxt w) /\
     outs w1 = SendFrame (inclusion_peer (ctxt w)) (kex_fail_frame KEX_FAIL_KEY_GET) :: IncStopTimeout :: outs w).
Proof.
  split_and!.
  - intros key Hg Hk. destruct (report_run Hg) as (w3 & -> & En & Er & Eb & Eo & Eu).
    assert (Hu3 : length (u (ctxt w3)) = 40%nat) by (rewrite Eu, length_splice; [done|cbn; lia]).
    unfold keystore_network_key_read, get_nvm. destruct Hk as [Hs|[Hz ->]].
    + unfold stored in Hs. destruct (Z.land asked_class _ =? 0) eqn:Ez; [done|].
      destruct (field_of asked_class) as [f|] eqn:Ef; [|done]. injection Hs as Hs.
      pose proof (nvm_get_ok f _ _ Ef Hn) as [HK _]. rewrite Hs in HK.
      erewrite bind_ok by (erewrite bind_ok by reflexivity; rewrite En, Ez, Hs; reflexivity).
      assert (Hu4 : (SECURITY_2_NET_KEY_REP_KEY_POS + length key <= length (u (ctxt w3)))%nat) by (rewrite Hu3, HK; cbn; lia).
      rewrite (bind_ok _ _ _ _ _ (put_u_ok _ key w3 Hu4)).
      unfold set_security, modify_peer, modify. erewrite bind_ok by reflexivity.
      unfold set_retries, modify_inc at 1. erewrite bind_ok by reflexivity.
      eexists. split; [|reflexivity]. unfold report_ready. split_and!; try done. cbn [ctxt set_inc set_ctxt u set_u set_inclusion_peer].
      rewrite take_splice by (unfold SECURITY_2_NET_KEY_REP_KEY_POS; rewrite ?Hu3, ?HK; lia). rewrite Eu.
      rewrite take_splice by (reflexivity || lia). done.
    + apply Z.eqb_eq in Hz. erewrite bind_ok by (erewrite bind_ok by reflexivity; rewrite En, Hz; reflexivity).
      erewrite bind_ok by reflexivity.
      unfold set_security, modify_peer, modify. erewrite bind_ok by reflexivity.
      unfold set_retries, modify_inc at 1. erewrite bind_ok by reflexivity.
      eexists. split; [|reflexivity]. unfold report_ready. split_and!; try done. cbn [ctxt set_inc set_ctxt u set_inclusion_peer].
      rewrite Eu. unfold splice, sub. cbn [length take Nat.add app]. done.
  - intros Hg Hz Hs. destruct (report_run Hg) as (w3 & -> & En & _). apply Z.eqb_neq in Hz.
    unfold stored in Hs. rewrite Hz in Hs. destruct (field_of asked_class) as [f|] eqn:Ef; [done|].
    unfold mbind at 1, M_bind. unfold keystore_network_key_read, get_nvm. erewrite bind_ok by reflexivity. by rewrite En, Hz, Ef.
  - intros Hg. unfold s2_send_net_key_report. unfold emit at 1. erewrite bind_ok by reflexivity.
    destruct (requested_key_bad (add_out IncStopTimeout w) l req Hbuf Hreq Hbyte Hu Hg) as (w1 & E & H1 & H2 & H3).
    rewrite (bind_ok _ _ _ _ _ E). by exists w1.
Qed.
End Report.

(** ** Receiving network keys *)

Section Receive.
Variable pe : Z -> M unit.
Context {I : InclusionFsm}.
Variables (w : World) (l : list Z) (received : Z).
Hypothesis Hbuf : buf (ctxt w) = BufExt l.
Hypothesis Hrec : l !! 2%nat = Some received.
Hypothesis Hlen : (19 <= length l)%nat.
Hypothesis Hbytes : bytes l.
Hypothesis Hu : length (u (ctxt w)) = 40%nat.
Hypothesis Hsg : length (sg (ctxt w)) = N_SEC_CLASS.

Lemma no_field kc : kc ∉ key_classes -> field_of kc = None.
Proof.
  intros H. unfold field_of. repeat case_match; zbool; try done; exfalso; apply H; subst; unfold key_classes; set_solver.
Qed.

(** C7: a joining node takes a Network Key Report only if it brings the key it asked for: then the key
    store holds the new key under its class and all other keys as before, the key is loaded into the
    slot it is verified with, the exchange moves on to the next key, and the Network Key Verify is
    handed to the transport under the new key; a class the keystore does not know fails its
    assertion.  A report of any other key is refused with KEX_FAIL and the key store is not touched. *)
Theorem network_key_received :
  (received <> key_exchange (ctxt w) ->
     exists w1, s2_send_net_key_verify pe w = pe S2_INCLUSION_ERROR_SENT w1 /\ nvm w1 = nvm w /\
     outs w1 = SendFrame (inclusion_peer (ctxt w)) (kex_fail_frame KEX_FAIL_KEY_REPORT) :: IncStopTimeout :: outs w) /\
  (received = key_exchange (ctxt w) -> received ∈ key_classes -> nvm_ok (nvm w) ->
     exists w1, s2_send_net_key_verify pe w = (s2_inclusion_send_data;; emit (IncSetTimeout TB7_TIMEOUT)) w1 /\
     key_map (nvm w1) = <[received := sub 3 16 l]> (key_map (nvm w)) /\
     slot_of (ctxt w1) NETWORK_KEY_SECURE = (true, Some (group_of (sub 3 16 l) false)) /\
     key_exchange (ctxt w1) = u8 (Z.shiftl received 1) /\
     class_id (inclusion_peer (ctxt w1)) = NETWORK_KEY_SECURE /\
     inclusion_buf_length (ctxt w1) = SECURITY_2_NET_KEY_VERIFY_LENGTH /\
     take 2 (u (ctxt w1)) = [COMMAND_CLASS_SECURITY_2; SECURITY_2_NETWORK_KEY_VERIFY]) /\
  (received = key_exchange (ctxt w) -> received ∉ key_classes -> s2_send_net_key_verify pe w = Fault AssertFail).
Proof.
  set (w0 := add_out IncStopTimeout w). unfold s2_send_net_key_verify, emit at 1 3 5.
  assert (Hin : in_byte SECURITY_2_NET_KEY_REP_GRANT_KEY_POS w0 = Ok (received, w0)) by (by apply (in_byte_ok w0 l)).
  assert (Hkey : in_bytes SECURITY_2_NET_KEY_REP_KEY_POS 16 w0 = Ok (sub 3 16 l, w0)).
  { unfold in_bytes. rewrite (bind_ok _ _ _ _ _ (get_ok w0)). change (buf (ctxt w0)) with (buf (ctxt w)). rewrite Hbuf.
    apply rds_ok. unfold SECURITY_2_NET_KEY_REP_KEY_POS. lia. }
  split_and!.
  - intros Hne. erewrite bind_ok by reflexivity. fold w0. rewrite (bind_ok _ _ _ _ _ Hin), (bind_ok _ _ _ _ _ (get_ok w0)).
    change (key_exchange (ctxt w0)) with (key_exchange (ctxt w)). apply Z.eqb_neq in Hne. rewrite Hne. cbn [negb].
    destruct (fail_frame_ok KEX_FAIL_KEY_REPORT w0 Hu) as (i & acc & Ef). rewrite (bind_ok _ _ _ _ _ Ef). by eexists.
  - intros Heq Hk Hn. erewrite bind_ok by reflexivity. fold w0. rewrite (bind_ok _ _ _ _ _ Hin), (bind_ok _ _ _ _ _ (get_ok w0)).
    change (key_exchange (ctxt w0)) with (key_exchange (ctxt w)). rewrite Heq, Z.eqb_refl. cbn [negb]. rewrite <- Heq.
    rewrite (bind_ok _ _ _ _ _ Hkey). set (key := sub 3 16 l) in *.
    assert (HK : key16 key) by (split; [apply length_sub; lia|by apply bytes_sub]).
    destruct (class_field received Hk) as [f Hf]. rewrite (bind_ok _ _ _ _ _ (key_write_run received f key w0 Hf)).
    rewrite (take_ge key) by (destruct HK; lia). set (w1 := set_nvm _ _).
    assert (Hc1 : ctxt w1 = ctxt w) by (unfold w1; by destruct (received =? KEY_CLASS_S0)).
    unfold modify at 1. erewrite bind_ok by reflexivity. set (w2 := set_ctxt _ w1).
    rewrite (bind_ok _ _ _ _ _ (key_update_run NETWORK_KEY_SECURE key false w2 ltac:(done))). set (w3 := set_ctxt _ w2).
    assert (Hu3 : u (ctxt w3) = u (ctxt w)) by (change (u (ctxt w1) = u (ctxt w)); by rewrite Hc1).
    rewrite (bind_ok _ _ _ _ _ (put_frame_ok [COMMAND_CLASS_SECURITY_2; SECURITY_2_NETWORK_KEY_VERIFY]
      SECURITY_2_NET_KEY_VERIFY_LENGTH w3 ltac:(rewrite Hu3, Hu; cbn; lia))).
    unfold set_security, modify_peer, modify. erewrite bind_ok by reflexivity.
    unfold set_retries, modify_inc. erewrite bind_ok by reflexivity. eexists. split; [reflexivity|].
    cbn [ctxt set_inc set_ctxt nvm w3 w2 framed set_inclusion_peer set_inclusion_buf_length set_u].
    split; [by rewrite <- (written_map _ _ f)|]. split.
    { unfold slot_of. cbn [loaded_keys sg set_inclusion_peer set_inclusion_buf_length set_u].
      apply (load_same NETWORK_KEY_SECURE key false); [done|]. change (length (sg (ctxt w1)) = N_SEC_CLASS). by rewrite Hc1. }
    split.
    { change (u8 (Z.shiftl (key_exchange (ctxt w1)) 1) = u8 (Z.shiftl received 1)). by rewrite Hc1, Heq. }
    split; [done|]. split; [done|].
    change (take 2 (splice 0 [COMMAND_CLASS_SECURITY_2; SECURITY_2_NETWORK_KEY_VERIFY] (u (ctxt w1))) =
      [COMMAND_CLASS_SECURITY_2; SECURITY_2_NETWORK_KEY_VERIFY]).
    rewrite Hc1, take_splice by (reflexivity || lia). done.
  - intros Heq Hk%no_field. erewrite bind_ok by reflexivity. fold w0. rewrite (bind_ok _ _ _ _ _ Hin), (bind_ok _ _ _ _ _ (get_ok w0)).
    change (key_exchange (ctxt w0)) with (key_exchange (ctxt w)). rewrite Heq, Z.eqb_refl. cbn [negb]. rewrite <- Heq.
    rewrite (bind_ok _ _ _ _ _ Hkey). unfold keystore_network_key_write. by rewrite Hk.
Qed.
End Receive.

(** ** The first frame of a joining node *)

Section KexGet.
Context {HC : BlockCipherOk C}.

(** A joining node that is asked for its capabilities clears its key store before it answers: no
    network key of a former network can be read afterwards, the application is told that an
    inclusion has begun, and the KEX Report with the node's schemes, curves and keys is sent in
    clear text; before it the timer is stopped and only security scheme 0 is given a new key. *)
Theorem kex_get_clears_keys w : store_ok w -> length (u (ctxt w)) = 40%nat ->
  exists w' csa ks, s2_send_kex_report w = Ok (tt, w') /\ key_map (nvm w') = ∅ /\
    csa = (if bool_decide (inclusion_mode (ctxt w) = INCLUSION_MODE_CSA) then SECURITY_2_CSA_ON else 0) /\
    outs w' = [IncSetTimeout TB2_TIMEOUT;
               SendFrame (inclusion_peer (ctxt w)) [COMMAND_CLASS_SECURITY_2; KEX_REPORT; csa; m_schemes (inc w);
                                                    m_curves (inc w); m_keys (inc w)];
               InclusionEvent (inclusion_peer (ctxt w)) S2_NODE_INCLUSION_INITIATED_EVENT]
              ++ (Sec0SetKey <$> ks) ++ IncStopTimeout :: outs w.
Proof.
  intros Hw Hu. unfold s2_send_kex_report, emit at 1. erewrite bind_ok by reflexivity.
  set (w0 := add_out IncStopTimeout w).
  destruct (clear_map 0xFF w0 Hw ltac:(by left)) as (w1 & E & (_ & Hc1 & Hi1 & ks & Ho1) & Em). change (0xFF =? KEY_CLASS_ALL) with true in Em.
  rewrite (bind_ok _ _ _ _ _ E). clear E. change (ctxt w0) with (ctxt w) in Hc1. change (inc w0) with (inc w) in Hi1.
  unfold push_event, emit at 1. erewrite bind_ok by reflexivity. set (w2 := add_out _ w1).
  unfold modify. erewrite bind_ok by reflexivity. set (w3 := set_ctxt _ w2). rewrite (bind_ok _ _ _ _ _ (get_ok w3)).
  erewrite bind_ok by reflexivity. change (inc w3) with (inc w1). rewrite Hi1.
  set (csa := csa_support (ctxt w3)). set (fr := [_; _; _; _; _; _]).
  assert (Hu3 : u (ctxt w3) = u (ctxt w)) by (change (u (ctxt w1) = u (ctxt w)); by rewrite Hc1).
  rewrite (bind_ok _ _ _ _ _ (put_frame_ok fr SECURITY_2_KEX_REPORT_LENGTH w3 ltac:(rewrite Hu3, Hu; cbn; lia))).
  unfold set_retries, modify_inc at 1. erewrite bind_ok by reflexivity. set (w4 := set_inc _ _).
  assert (Eu4 : u (ctxt w4) = splice 0 fr (u (ctxt w))) by (rewrite <- Hu3; done).
  destruct (send_frame_ok w4) as (i & acc & E).
  { rewrite Eu4, length_splice by (rewrite Hu; cbn; lia). rewrite Hu.
    change (inclusion_buf_length (ctxt w4)) with SECURITY_2_KEX_REPORT_LENGTH. unfold SECURITY_2_KEX_REPORT_LENGTH. lia. }
  rewrite (bind_ok _ _ _ _ _ E). unfold emit. exists (add_out (IncSetTimeout TB2_TIMEOUT)
    (set_inc i (set_accept acc (add_out (SendFrame (inclusion_peer (ctxt w)) fr) w4)))), csa, ks.
  assert (Ep : inclusion_peer (ctxt w4) = inclusion_peer (ctxt w)) by (by rewrite <- Hc1).
  rewrite Eu4, Ep. change (inclusion_buf_length (ctxt w4)) with SECURITY_2_KEX_REPORT_LENGTH.
  rewrite take_splice by (reflexivity || lia). split; [done|]. split; [done|].
  assert (Ecsa : csa = if bool_decide (inclusion_mode (ctxt w) = INCLUSION_MODE_CSA) then SECURITY_2_CSA_ON else 0)
    by (unfold csa; rewrite <- Hc1; done).
  split; [done|]. unfold fr. rewrite Z.lor_0_r.
  cbn [outs add_out set_outs set_inc set_accept app].
  change (outs w4) with (InclusionEvent (inclusion_peer (ctxt w1)) S2_NODE_INCLUSION_INITIATED_EVENT :: outs w1).
  by rewrite Hc1, Ho1.
Qed.
End KexGet.

(** ** The temporary key *)

Section Ecdh.
Context {HC : BlockCipherOk C} {HK : CurveOk K}.

Definition mem_ok (w : World) : Prop := length (shared_key_mem (inc w)) = 64%nat /\ length (public_key (ctxt w)) = 32%nat.

(** The 64 bytes hashed with the shared secret: the key at 0, then the key at 32. *)
Definition both_keys (local_at : nat) (mine theirs : list Z) : list Z :=
  if Nat.eqb local_at 0 then mine ++ theirs else theirs ++ mine.

Lemma splice_both (mem mine theirs : list Z) (a b : nat) :
  length mem = 64%nat -> length mine = 32%nat -> length theirs = 32%nat ->
  (a = 0 /\ b = 32 \/ a = 32 /\ b = 0)%nat -> splice a mine (splice b theirs mem) = both_keys a mine theirs.
Proof.
  intros Hm H1 H2 [[-> ->]|[-> ->]]; unfold both_keys; cbn [Nat.eqb].
  - unfold splice at 1. rewrite take_0. cbn [app]. rewrite H1. f_equal.
    unfold splice. rewrite H2, (drop_ge mem) by lia. rewrite app_nil_r, drop_app_length' by (rewrite length_take; lia). done.
  - unfold splice at 1. rewrite H1. rewrite take_splice by lia. rewrite take_0. cbn [app].
    rewrite (drop_ge (splice 0 theirs mem)) by (rewrite length_splice; lia). by rewrite app_nil_r.
Qed.

(** The computation, on either side. *)
Lemma ecdh_run (priv : list Z) (Hp : keystore_private_key = priv) a b w :
  length priv = 32%nat -> length (scalarmult priv Curve25519.base) = 32%nat -> mem_ok w ->
  (a = 0 /\ b = 32 \/ a = 32 /\ b = 0)%nat ->
  length (Kderiv.tempkey_extract (scalarmult priv (public_key (ctxt w)))
    (both_keys a (scalarmult priv Curve25519.base) (public_key (ctxt w)))) = 16%nat ->
  exists w', ecdh_calc a b w = Ok (tt, w') /\
    ctxt w' = load_key TEMP_KEY_SECURE (Kderiv.tempkey_extract (scalarmult priv (public_key (ctxt w)))
      (both_keys a (scalarmult priv Curve25519.base) (public_key (ctxt w)))) true
      (set_public_key (public_key (ctxt w')) (ctxt w)).
Proof.
  intros HL Hpub [Hm Hpk] Hab Ht. unfold ecdh_calc. rewrite (bind_ok _ _ _ _ _ (get_ok w)). cbv zeta.
  unfold modify_inc. do 4 (erewrite bind_ok by reflexivity). erewrite bind_ok by reflexivity.
  unfold modify. erewrite bind_ok by reflexivity. erewrite bind_ok by reflexivity.
  cbn [ctxt set_ctxt set_inc inc shared_key_mem shared_secret set_shared_key_mem set_shared_secret public_key set_public_key].
  unfold keystore_public_key_read, keystore_private_key_read. rewrite Hp.
  rewrite (take_ge (public_key (ctxt w))) by lia. rewrite (take_splice 0 priv), take_0 by lia. cbn [app].
  rewrite splice_both; [|by rewrite length_splice; lia|done|done|done].
  rewrite take_splice, take_0 by lia. cbn [app].
  erewrite bind_ok by (by apply key_update_run). eexists. split; [reflexivity|]. cbn [ctxt set_ctxt]. done.
Qed.
End Ecdh.

(** ** The echo of the KEX Set *)

Section Echo.
Context {I : InclusionFsm}.
Variables (w : World) (l : list Z) (s v k e : Z).
Hypothesis Hbuf : buf (ctxt w) = BufExt l.
Hypothesis Hl : sub 2 4 l = [e; s; v; k].
Hypothesis Hu : length (u (ctxt w)) = 40%nat.

(** The frame repeats the scheme, curve and keys of the KEX Set that was sent, and its CSA flag. *)
Definition echoes : Prop :=
  s = scheme_support (ctxt w) /\ v = curve_support (ctxt w) /\ k = key_granted (ctxt w) /\
  (Z.testbit e 1 = true <-> inclusion_mode (ctxt w) = INCLUSION_MODE_CSA).

Lemma csa_bit : (Z.land e SECURITY_2_CSA_ON =? SECURITY_2_CSA_ON) = Z.testbit e 1.
Proof.
  pose proof (land_bit 1 e ltac:(lia)) as H. change SECURITY_2_CSA_ON with (2 ^ 1). rewrite Z.land_comm.
  destruct (Z.testbit e 1) eqn:E; cbn [negb] in H; [apply Z.eqb_eq|apply Z.eqb_neq].
  - apply Z.bits_inj. intros j. rewrite Z.land_spec. destruct (decide (j = 1)) as [->|Hj]; [by rewrite E|].
    destruct (decide (0 <= j)); [|by rewrite !Z.testbit_neg_r by lia]. by rewrite Z.pow2_bits_false by lia.
  - apply Z.eqb_eq in H. rewrite H. done.
Qed.

(** The including node accepts the echoed KEX Set, which is what its user's grant is checked
    against, exactly when it repeats the scheme, the curve, the keys and the CSA flag; otherwise it
    sends KEX_FAIL_AUTH.  The last condition is written with a conditional operator that binds
    weaker than the comparison; with the values 0 and 1 of the two modes it still decides rightly. *)
Theorem echo_kex_set_checked :
  (echoes -> validate_echo_kex_set w = Ok (true, w)) /\
  (~ echoes -> exists w', validate_echo_kex_set w = Ok (false, w') /\
     outs w' = SendFrame (inclusion_peer (ctxt w)) (kex_fail_frame KEX_FAIL_AUTH) :: outs w).
Proof.
  assert (Hb : forall i x, [e; s; v; k] !! i = Some x -> in_byte (2 + i) w = Ok (x, w)).
  { intros i x Hx. apply (in_byte_ok w l); [done|]. rewrite <- Hl in Hx. unfold sub in Hx.
    apply lookup_take_Some in Hx as [Hx _]. by rewrite lookup_drop in Hx. }
  unfold validate_echo_kex_set. rewrite (bind_ok _ _ _ _ _ (get_ok w)).
  rewrite (bind_ok _ _ _ _ _ (Hb 1%nat s eq_refl)), (bind_ok _ _ _ _ _ (Hb 2%nat v eq_refl)).
  rewrite (bind_ok _ _ _ _ _ (Hb 3%nat k eq_refl)), (bind_ok _ _ _ _ _ (Hb 0%nat e eq_refl)).
  cbv zeta. rewrite csa_bit. set (cond := negb (_ =? 0)).
  assert (Hc : cond = true <-> (Z.testbit e 1 = true <-> inclusion_mode (ctxt w) = INCLUSION_MODE_CSA)).
  { subst cond. destruct (inclusion_mode (ctxt w)), (Z.testbit e 1); cbn; split; intros; try done; intuition congruence. }
  destruct ((scheme_support (ctxt w) =? s) && (curve_support (ctxt w) =? v) && (key_granted (ctxt w) =? k) && cond) eqn:E.
  - split; [done|]. intros Hn. destruct Hn. repeat (apply andb_true_iff in E as [E ?]). zbool.
    split; [done|]. split; [done|]. split; [done|]. by apply Hc.
  - split.
    + intros (-> & -> & -> & Hm%Hc). by rewrite Hm, !Z.eqb_refl in E.
    + intros _. destruct (fail_frame_ok KEX_FAIL_AUTH w Hu) as (i & acc & Ef). rewrite (bind_ok _ _ _ _ _ Ef). by eexists.
Qed.
End Echo.

(** ** Ending an inclusion *)

Lemma restore_all_keeps n pairs : forall c, inclusion_state (restore_all n pairs c) = inclusion_state c /\
  inclusion_peer (restore_all n pairs c) = inclusion_peer c /\ key_granted (restore_all n pairs c) = key_granted c.
Proof.
  induction pairs as [|[kc slot] pairs IH]; intros c; [done|].
  change (restore_all n ((kc, slot) :: pairs) c) with
    (restore_all n pairs (match stored n kc with Some key => load_key slot key false c | None => c end)).
  destruct (stored n kc) as [key|]; [by destruct (IH (load_key slot key false c)) as (-> & -> & ->)|apply IH].
Qed.

Lemma failed_push_ok ft w : length (sg (ctxt w)) = N_SEC_CLASS ->
  exists w', inclusion_failed_evt_push ft w = Ok (tt, w') /\ inclusion_state (ctxt w') = inclusion_state (ctxt w) /\
    outs w' = InclusionEvent (inclusion_peer (ctxt w)) (S2_NODE_INCLUSION_FAILED_EVENT ft) :: IncStopTimeout :: outs w /\
    nvm w' = nvm w /\ keys_restored (nvm w) (ctxt w').
Proof.
  intros HL. unfold inclusion_failed_evt_push, emit at 1. erewrite bind_ok by reflexivity.
  set (w1 := add_out IncStopTimeout w). destruct (restore_run w1) as [i E]. rewrite (bind_ok _ _ _ _ _ E).
  unfold push_event. erewrite bind_ok by reflexivity. eexists. split; [reflexivity|].
  cbn [ctxt set_inc set_ctxt add_out set_outs outs nvm w1].
  destruct (restore_all_keeps (nvm w) m_key_slot_pair (set_loaded_keys 0 (ctxt w))) as (-> & -> & _).
  split; [done|]. split; [done|]. split; [done|]. by apply restore_all_spec.
Qed.

(** Every row that aborts leads to the idle state. *)
Lemma abort_rows st e r : transition st e = Some r -> row_action r = S2_ABORT_ACTION -> row_new r = S2_INC_IDLE.
Proof.
  intros H Ha. assert (Hall : Forall (fun r => row_action r = S2_ABORT_ACTION -> row_new r = S2_INC_IDLE) s2_transition_table)
    by (by repeat constructor).
  apply find_some in H as [Hin _]. apply list_elem_of_In in Hin. rewrite list.Forall_forall in Hall. by apply Hall.
Qed.

(** What the application and the transport see of an inclusion that ended: the state is idle, the
    loaded keys are the stored ones, and one event was given. *)
Definition ended (w w' : World) (e : s2_event_t) (l : list out) : Prop :=
  inclusion_state (ctxt w') = S2_INC_IDLE /\ nvm w' = nvm w /\ keys_restored (nvm w) (ctxt w') /\
  outs w' = InclusionEvent (inclusion_peer (ctxt w)) e :: l ++ outs w.

Lemma process_row f e r w : transition (inclusion_state (ctxt w)) e = Some r ->
  process_event (S f) e w =
  run_action (process_event f) (row_action r) (I := inclusion f) (set_ctxt (enter (row_new r) (ctxt w)) w).
Proof.
  intros H. unfold process_event at 1. cbn [machine process]. unfold process_step.
  rewrite (bind_ok _ _ _ _ _ (get_ok w)), H. unfold modify. by erewrite bind_ok by reflexivity.
Qed.

Lemma abort_ends f w e r : length (sg (ctxt w)) = N_SEC_CLASS ->
  transition (inclusion_state (ctxt w)) e = Some r -> row_action r = S2_ABORT_ACTION ->
  exists w', process_event (S f) e w = Ok (tt, w') /\
    ended w w' (S2_NODE_INCLUSION_FAILED_EVENT (kex_fail_code (ctxt w))) [IncStopTimeout].
Proof.
  intros HL Hr Ha. rewrite (process_row f e r w Hr), Ha. cbn [run_action].
  rewrite (abort_rows _ _ _ Hr Ha). rewrite (bind_ok _ _ _ _ _ (get_ok _)).
  destruct (failed_push_ok (kex_fail_code (ctxt w)) (set_ctxt (enter S2_INC_IDLE (ctxt w)) w)) as (w' & E & Hs & Ho & Hn & Hk); [done|].
  exists w'. split; [exact E|]. split; [exact Hs|]. done.
Qed.

(** The state has a row of its own, or the table one for all states, for the event. *)
Definition expected (st : s2_inclusion_state_t) (e : Z) : Prop := Exists (fun r => row_event r = e) (rows st).

Definition is_abort (o : option s2_transition_t) : bool :=
  match o with Some (Row _ _ S2_ABORT_ACTION _) => true | _ => false end.

Lemma is_abort_row o : is_abort o = true -> exists r, o = Some r /\ row_action r = S2_ABORT_ACTION.
Proof. destruct o as [[? ? [] ?]|]; try done. intros _. by eexists. Qed.

Lemma find_any l e : ~ Exists (fun r => row_event r = e) l ->
  find (fun r => (e =? row_event r) || (row_event r =? S2_EVT_ANY)) l = find (fun r => row_event r =? S2_EVT_ANY) l.
Proof.
  induction l as [|r l IH]; [done|]. cbn [find]. rewrite List.Exists_cons. intros Hn.
  destruct (Z.eqb_spec e (row_event r)) as [->|]; [tauto|]. cbn [orb].
  destruct (row_event r =? S2_EVT_ANY); [done|]. apply IH. tauto.
Qed.

Lemma any_row_aborts st : st <> S2_INC_IDLE -> is_abort (find (fun r => row_event r =? S2_EVT_ANY) (rows st)) = true.
Proof. destruct st; [done|..]; intros _; vm_compute; reflexivity. Qed.

Lemma unexpected_row st e : st <> S2_INC_IDLE -> ~ expected st e ->
  exists r, transition st e = Some r /\ row_action r = S2_ABORT_ACTION.
Proof.
  intros Hst He. unfold expected in He. apply is_abort_row. rewrite transition_rows, (find_any _ _ He).
  exact (any_row_aborts st Hst).
Qed.

Lemma timeout_row st : st <> S2_INC_IDLE -> st <> S2_AWAITING_KEX_GET ->
  exists r, transition st S2_INCLUSION_TIMEOUT = Some r /\ row_action r = S2_ABORT_ACTION.
Proof.
  intros H1 H2. apply is_abort_row. revert H1 H2. destruct st; [done|done|..]; intros _ _; vm_compute; reflexivity.
Qed.

(** An inclusion that is timed out, or ended by an event its state does not expect. *)
Lemma event_ends f w e :
  length (sg (ctxt w)) = N_SEC_CLASS -> inclusion_state (ctxt w) <> S2_INC_IDLE ->
  e = S2_INCLUSION_TIMEOUT \/ ~ expected (inclusion_state (ctxt w)) e ->
  exists w', process_event (S f) e w = Ok (tt, w') /\
    if bool_decide (inclusion_state (ctxt w) = S2_AWAITING_KEX_GET /\ e = S2_INCLUSION_TIMEOUT)
    then ended w w' (S2_JOINING_COMPLETE_NEVER_STARTED_EVENT (key_granted (ctxt w))) []
    else ended w w' (S2_NODE_INCLUSION_FAILED_EVENT (kex_fail_code (ctxt w))) [IncStopTimeout].
Proof.
  intros HL Hst He. case_bool_decide as Hd.
  - destruct Hd as [Hs ->].
    set (r := Row S2_AWAITING_KEX_GET S2_INCLUSION_TIMEOUT S2_JOINING_NEVER_STARTED_ACTION S2_INC_IDLE).
    assert (Hr : transition (inclusion_state (ctxt w)) S2_INCLUSION_TIMEOUT = Some r) by (rewrite Hs; vm_compute; reflexivity).
    rewrite (process_row f _ r w Hr). cbn [row_action row_new r run_action]. unfold s2_joining_complete.
    set (w1 := set_ctxt (enter S2_INC_IDLE (ctxt w)) w). destruct (restore_run w1) as [i E]. rewrite (bind_ok _ _ _ _ _ E).
    rewrite (bind_ok _ _ _ _ _ (get_ok _)). unfold push_event. rewrite (bind_ok _ _ _ _ _ (get_ok _)). unfold emit.
    eexists. split; [reflexivity|]. unfold ended. cbn [ctxt set_inc set_ctxt add_out set_outs outs nvm w1].
    destruct (restore_all_keeps (nvm w) m_key_slot_pair (set_loaded_keys 0 (enter S2_INC_IDLE (ctxt w)))) as (-> & -> & ->).
    split; [done|]. split; [done|]. split; [by apply restore_all_spec|done].
  - assert (Hrow : exists r, transition (inclusion_state (ctxt w)) e = Some r /\ row_action r = S2_ABORT_ACTION).
    { destruct He as [->|He]; [|by apply unexpected_row]. apply timeout_row; [done|]. intros H. by apply Hd. }
    destruct Hrow as (r & Hr & Ha). by apply (abort_ends f w e r).
Qed.

(** The echo of the KEX Set is being sent, and may be sent again. *)
Definition retries_left (w : World) : Prop :=
  inclusion_state (ctxt w) = S2_ECHO_KEX_SET_SENDING /\
  m_retry_counter (inc w) <> NO_RETRIES /\ m_retry_counter (inc w) <> QUEUE_FULL.

(** The echo of the KEX Set is about to be sent again: under the temporary key, in the same state,
    with one try less. *)
Definition echo_again (w w1 : World) : Prop :=
  inclusion_state (ctxt w1) = S2_ECHO_KEX_SET_SENDING /\
  m_retry_counter (inc w1) = u8 (m_retry_counter (inc w) - 1) /\
  class_id (inclusion_peer (ctxt w1)) = TEMP_KEY_SECURE /\
  inclusion_buf_length (ctxt w1) = SECURITY_2_KEX_SET_LENGTH /\
  take 6 (u (ctxt w1)) = [COMMAND_CLASS_SECURITY_2; KEX_SET; Z.lor (kex_set_byte2 (ctxt w)) SECURITY_2_ECHO_ON;
                          scheme_support (ctxt w); curve_support (ctxt w); key_granted (ctxt w)] /\
  outs w1 = IncStopTimeout :: outs w.

Lemma retry_run f w : length (u (ctxt w)) = 40%nat -> inclusion_state (ctxt w) = S2_ECHO_KEX_SET_SENDING ->
  exists w1, echo_again w w1 /\ process_event (S f) S2_INCLUSION_RETRY w =
    ((_ ← send_data_to_peer (I := inclusion f); mret tt);; emit (IncSetTimeout TB5_TIMEOUT)) w1.
Proof.
  intros Hu Hst.
  set (r := Row S2_ECHO_KEX_SET_SENDING S2_INCLUSION_RETRY S2_SEND_ECHO_KEX_SET_ACTION S2_ECHO_KEX_SET_SENDING).
  assert (Hr : transition (inclusion_state (ctxt w)) S2_INCLUSION_RETRY = Some r) by (rewrite Hst; vm_compute; reflexivity).
  rewrite (process_row f _ r w Hr). cbn [row_action row_new r run_action]. unfold s2_send_echo_kex_set.
  set (w0 := set_ctxt (enter S2_ECHO_KEX_SET_SENDING (ctxt w)) w).
  unfold emit at 1. erewrite bind_ok by reflexivity. unfold modify_inc. erewrite bind_ok by reflexivity.
  set (w1 := set_inc _ _). rewrite (bind_ok _ _ _ _ _ (get_ok w1)). cbv zeta.
  match goal with |- context [put_frame ?x _] => set (hd := x) end.
  assert (Hu1 : (length hd <= length (u (ctxt w1)))%nat) by (change (u (ctxt w1)) with (u (ctxt w)); rewrite Hu; cbn; lia).
  rewrite (bind_ok _ _ _ _ _ (put_frame_ok hd SECURITY_2_KEX_SET_LENGTH w1 Hu1)).
  unfold set_security, modify_peer, modify. erewrite bind_ok by reflexivity.
  eexists. split; [|reflexivity]. unfold echo_again. by split_and!.
Qed.

(** C10: no inclusion hangs.  In every running state the notification of the timer ends the
    inclusion, unless the echo of the KEX Set is being sent and tries are left: then the echo is
    handed to the transport again with one try less, and the timer started again.  In every running
    state an event that the state does not expect ends the inclusion.  When it ends the machine is
    idle again, the loaded keys are the stored ones and not those of the inclusion, and the
    application is told with one event, the failure code or, for a joining node that was never
    asked, that it never started. *)
Theorem inclusion_ends f w e :
  length (sg (ctxt w)) = N_SEC_CLASS -> length (u (ctxt w)) = 40%nat -> inclusion_state (ctxt w) <> S2_INC_IDLE ->
  let failed := S2_NODE_INCLUSION_FAILED_EVENT (kex_fail_code (ctxt w)) in
  (~ retries_left w -> exists w', s2_inclusion_notify_timeout (S f) w = Ok (tt, w') /\
     if bool_decide (inclusion_state (ctxt w) = S2_AWAITING_KEX_GET)
     then ended w w' (S2_JOINING_COMPLETE_NEVER_STARTED_EVENT (key_granted (ctxt w))) []
     else ended w w' failed [IncStopTimeout]) /\
  (retries_left w -> exists w1, echo_again w w1 /\ s2_inclusion_notify_timeout (S f) w =
     ((_ ← send_data_to_peer (I := inclusion f); mret tt);; emit (IncSetTimeout TB5_TIMEOUT)) w1) /\
  (~ expected (inclusion_state (ctxt w)) e ->
     exists w', process_event (S f) e w = Ok (tt, w') /\ ended w w' failed [IncStopTimeout]).
Proof.
  intros HL Hu Hst failed. unfold s2_inclusion_notify_timeout, get_inc.
  rewrite (bind_ok _ _ _ _ _ (get_ok w)). erewrite bind_ok by reflexivity. split_and!.
  - intros Hn. destruct (event_ends f w S2_INCLUSION_TIMEOUT HL Hst (or_introl eq_refl)) as (w' & E & H).
    exists w'. split.
    + clear H. case_bool_decide as Hs; [|exact E].
      assert (Hc : (m_retry_counter (inc w) =? NO_RETRIES) || (m_retry_counter (inc w) =? QUEUE_FULL) = true).
      { apply orb_true_iff. rewrite !Z.eqb_eq. destruct (decide (m_retry_counter (inc w) = NO_RETRIES)); [by left|right].
        destruct (decide (m_retry_counter (inc w) = QUEUE_FULL)); [done|]. by destruct Hn. }
      rewrite Hc. exact E.
    + repeat case_bool_decide; try done; tauto.
  - intros (Hs & H1 & H2). rewrite bool_decide_true by done. apply Z.eqb_neq in H1, H2. rewrite H1, H2. cbn [orb].
    by apply retry_run.
  - intros He. destruct (event_ends f w e HL Hst (or_intror He)) as (w' & E & H). exists w'. split; [done|].
    case_bool_decide as Hd; [|done]. destruct Hd as [Hs ->]. destruct He. rewrite Hs. unfold expected. apply (bool_decide_unpack _).
    vm_compute. exact Logic.I.
Qed.

(** The KEX_FAIL_AUTH is sent, the machine waits for the end of its transmission, and when that is
    reported the inclusion ends with this code; keys and grants are as they were. *)
Definition refused (f : nat) (w w' : World) : Prop :=
  inclusion_state (ctxt w') = S2_ERROR_SENT /\ nvm w' = nvm w /\
  key_exchange (ctxt w') = key_exchange (ctxt w) /\ key_granted (ctxt w') = key_granted (ctxt w) /\
  outs w' = SendFrame (inclusion_peer (ctxt w)) (kex_fail_frame KEX_FAIL_AUTH) :: outs w /\
  exists w'', process_event (S f) S2_INCLUSION_SEND_DONE w' = Ok (tt, w'') /\
    ended w' w'' (S2_NODE_INCLUSION_FAILED_EVENT KEX_FAIL_AUTH) [IncStopTimeout].

Lemma is_error_sent_row st : st <> S2_INC_IDLE -> exists r, transition st S2_INCLUSION_ERROR_SENT = Some r /\
  row_action r = S2_NO_ACTION /\ row_new r = S2_ERROR_SENT.
Proof. destruct st; [done|..]; intros _; (eexists; split; [vm_compute; reflexivity|done]). Qed.

Lemma error_row st : st <> S2_INC_IDLE ->
  exists r, transition st S2_INCLUSION_ERROR = Some r /\ row_action r = S2_ABORT_ACTION.
Proof. intros H. apply is_abort_row. revert H. destruct st; [done|..]; intros _; vm_compute; reflexivity. Qed.

Lemma reject_run f w : length (sg (ctxt w)) = N_SEC_CLASS -> length (u (ctxt w)) = 40%nat ->
  inclusion_state (ctxt w) <> S2_INC_IDLE ->
  exists w', reject_auth (process_event (S f)) (I := inclusion (S f)) w = Ok (tt, w') /\ refused f w w'.
Proof.
  intros HL Hu Hst. unfold reject_auth. destruct (fail_frame_ok (I := inclusion (S f)) KEX_FAIL_AUTH w Hu) as (i & acc & E).
  rewrite (bind_ok _ _ _ _ _ E). set (w1 := set_inc _ _).
  destruct (is_error_sent_row (inclusion_state (ctxt w1)) Hst) as (r & Hr & Ha & Hnew).
  rewrite (process_row f _ r w1 Hr), Ha, Hnew. eexists. split; [reflexivity|]. unfold refused. split_and!; try done.
  set (w2 := set_ctxt _ w1). set (row := Row S2_ERROR_SENT S2_INCLUSION_SEND_DONE S2_ABORT_ACTION S2_INC_IDLE).
  assert (Hrow : transition (inclusion_state (ctxt w2)) S2_INCLUSION_SEND_DONE = Some row) by (vm_compute; reflexivity).
  by destruct (abort_ends f w2 _ row HL Hrow eq_refl) as (w'' & E2 & H2); exists w''.
Qed.

(** C9: what an inclusion in progress does with a frame of two bytes or more, of any command.  A frame
    shorter than its command's format ends the inclusion.  A frame that is not protected the way its
    command requires (in clear text, with the temporary key, or with the network key just exchanged)
    is answered with KEX_FAIL_AUTH in clear text and not acted upon: keys and grants stay as they
    were, and the inclusion ends with this code when the answer has been sent.  Any other frame is
    given to the machine as the event of its command.  Commands outside the range are ignored, except
    that command 0x0D, which passes the range check, reads past the end of the rule table. *)
Theorem frame_gate f w l cmd :
  length (sg (ctxt w)) = N_SEC_CLASS -> length (u (ctxt w)) = 40%nat -> inclusion_state (ctxt w) <> S2_INC_IDLE ->
  buf (ctxt w) = BufExt l -> length_ (ctxt w) = Z.of_nat (length l) -> l !! 1%nat = Some cmd -> is_byte cmd ->
  0 <= class_id (inclusion_peer (ctxt w)) ->
  let r := s2_inclusion_post_event_internal (process_event (S f)) (I := inclusion (S f)) w in
  match required cmd (echo_flag l) with
  | Some (n, p) =>
      if length_ (ctxt w) <? n then exists w', r = Ok (tt, w') /\
        ended w w' (S2_NODE_INCLUSION_FAILED_EVENT (kex_fail_code (ctxt w))) [IncStopTimeout]
      else if protected (ctxt w) p then r = (e ← event_of_frame cmd; process_event (S f) e) w
      else exists w', r = Ok (tt, w') /\ refused f w w'
  | None => r = if cmd =? 0x0D then Fault OutOfBounds else Ok (tt, w)
  end.
Proof.
  intros HL Hu Hst Hb Hlen Hc Hbyte Hcls r. subst r.
  rewrite (gate_run (process_event (S f)) w l cmd Hst Hb Hlen Hc Hcls Hbyte).
  destruct (required cmd (echo_flag l)) as [[n p]|]; [|done]. unfold gate.
  destruct (length_ (ctxt w) <? n).
  - destruct (error_row _ Hst) as (r & Hr & Ha). by apply (abort_ends f w _ r).
  - destruct (protected (ctxt w) p); [done|]. by apply reject_run.
Qed.
End Spec.

(** ** The next key to ask for *)

Lemma next_key_zero f g : next_key_loop f 0 g = None.
Proof. induction f as [|f IH]; [done|]. cbn [next_key_loop]. by rewrite Z.land_0_l. Qed.

Lemma shift_bit i : 0 <= i < 8 -> u8 (Z.shiftl (2 ^ i) 1) = if i =? 7 then 0 else 2 ^ (i + 1).
Proof.
  intros H. assert (i = 0 \/ i = 1 \/ i = 2 \/ i = 3 \/ i = 4 \/ i = 5 \/ i = 6 \/ i = 7) as Hc by lia.
  by repeat destruct Hc as [->|Hc]; try subst i.
Qed.

(** The lowest granted key from position [i] on. *)
Definition next_granted (i : Z) (g : Z) (r : option Z) : Prop :=
  match r with
  | Some k => exists j, i <= j < 8 /\ k = 2 ^ j /\ Z.testbit g j = true /\ (forall m, i <= m < j -> Z.testbit g m = false)
  | None => forall m, i <= m < 8 -> Z.testbit g m = false
  end.

Lemma next_key_loop_spec g : forall n i, i = 8 - Z.of_nat n -> 0 <= i < 8 ->
  forall f, (n < f)%nat -> next_granted i g (next_key_loop f (2 ^ i) g).
Proof.
  induction n as [|n IH]; intros i Hn Hi f Hf; [lia|]. destruct f as [|f]; [lia|]. cbn [next_key_loop].
  rewrite land_bit by lia. destruct (Z.testbit g i) eqn:E; cbn [negb].
  { exists i. split; [lia|]. split; [done|]. split; [done|]. intros m Hm. lia. }
  rewrite shift_bit by lia. destruct (Z.eqb_spec i 7) as [->|H7].
  { rewrite next_key_zero. intros m Hm. by replace m with 7 by lia. }
  specialize (IH (i + 1) ltac:(lia) ltac:(lia) f ltac:(lia)). unfold next_granted in *.
  destruct (next_key_loop f (2 ^ (i + 1)) g).
  - destruct IH as (j & Hj & -> & Ht & Hlow). exists j. split; [lia|]. split; [done|]. split; [done|].
    intros m Hm. destruct (decide (m = i)) as [->|]; [done|]. apply Hlow. lia.
  - intros m Hm. destruct (decide (m = i)) as [->|]; [done|]. apply IH. lia.
Qed.

Lemma keys_left i g : 0 <= i < 8 -> is_byte g ->
  has_bits (- 2 ^ i) g = true <-> exists m, i <= m < 8 /\ Z.testbit g m = true.
Proof.
  intros Hi Hg. unfold is_byte in Hg. unfold has_bits. rewrite negb_true_iff, Z.eqb_neq.
  assert (Hneg : - 2 ^ i = Z.lnot (Z.ones i)) by (rewrite Z.ones_equiv; unfold Z.lnot; lia).
  rewrite Hneg, Z.land_comm, <- Z.ldiff_land. split.
  - intros H. assert (Hpos : 0 < Z.ldiff g (Z.ones i)).
    { assert (0 <= Z.ldiff g (Z.ones i)) by (apply Z.ldiff_nonneg; lia). lia. }
    pose proof (Z.bit_log2 _ Hpos) as Hb. set (m := Z.log2 _) in *. pose proof (Z.log2_nonneg (Z.ldiff g (Z.ones i))).
    rewrite Z.ldiff_spec, andb_true_iff, negb_true_iff in Hb. destruct Hb as [Hb1 Hb2]. exists m. split; [|done]. split.
    + destruct (decide (i <= m)) as [|Hlt]; [done|]. rewrite Z.ones_spec_low in Hb2; [done|lia].
    + destruct (decide (m < 8)) as [|Hge]; [done|]. rewrite Z.bits_above_log2 in Hb1; [done|lia|].
      destruct (decide (g = 0)) as [->|]; [change (Z.log2 0) with 0; lia|]. apply Z.log2_lt_pow2; [lia|].
      apply Z.lt_le_trans with (2 ^ 8); [lia|]. apply Z.pow_le_mono_r; lia.
  - intros (m & Hm & Ht) H0. apply (f_equal (fun z => Z.testbit z m)) in H0.
    rewrite Z.ldiff_spec, Ht, Z.ones_spec_high, Z.testbit_0_l in H0 by lia. done.
Qed.

(** The search for the next key to ask for, which shifts the key being exchanged until it meets a
    granted one, ends exactly when the test made on a Transfer End says that keys are left, and then
    at the lowest granted key not asked for yet; otherwise the loop would never end. *)
Theorem next_key_terminates i granted : 0 <= i < 8 -> is_byte granted ->
  if has_bits (- 2 ^ i) granted then
    exists j, next_key (2 ^ i) granted = Some (2 ^ j) /\ i <= j < 8 /\ Z.testbit granted j = true /\
      (forall m, i <= m < j -> Z.testbit granted m = false)
  else next_key (2 ^ i) granted = None.
Proof.
  intros Hi Hg. pose proof (next_key_loop_spec granted (Z.to_nat (8 - i)) i ltac:(lia) Hi 9 ltac:(lia)) as H.
  fold (next_key (2 ^ i) granted) in H. pose proof (keys_left i granted Hi Hg) as Hk.
  destruct (has_bits _ _), (next_key (2 ^ i) granted) as [k|]; cbn [next_granted] in H; try done.
  - destruct H as (j & Hj & -> & Ht & Hl). by exists j.
  - destruct (proj1 Hk eq_refl) as (m & Hm & Ht). by rewrite H in Ht.
  - destruct H as (j & Hj & _ & Ht & _). discriminate (proj2 Hk (ex_intro _ j (conj Hj Ht))).
Qed.

(** ** Both ends of an inclusion *)

Section Agree.
Context {C : BlockCipher} {HC : BlockCipherOk C} {K : Curve} {HK : CurveOk K}.
(** The platform of the including and of the joining node, each with its own private key. *)
Variables PA PB : Platform.

Definition private_key_ok (P : Platform) : Prop := length keystore_private_key = 32%nat /\ bytes keystore_private_key.

Lemma base_ok : length Curve25519.base = 32%nat /\ bytes Curve25519.base.
Proof. split; [done|]. apply (bool_decide_unpack _). vm_compute. exact Logic.I. Qed.

Lemma public_key_ok (P : Platform) : private_key_ok P ->
  length keystore_public_key_read = 32%nat /\ bytes keystore_public_key_read.
Proof. intros [HL HB]. apply scalarmult_ok; try done; apply base_ok. Qed.

(** Once each side holds the public key of the other (the digits left out of the frame entered by
    the user), both compute the same temporary key and load the keys expanded from it into the slot
    of the temporary key: what one end encrypts with it the other can read.  The curve enters only
    through the agreement of the two shared secrets. *)
Theorem temp_key_agreement wa wb :
  private_key_ok PA -> private_key_ok PB -> mem_ok wa -> mem_ok wb ->
  length (sg (ctxt wa)) = N_SEC_CLASS -> length (sg (ctxt wb)) = N_SEC_CLASS ->
  public_key (ctxt wa) = keystore_public_key_read (P := PB) ->
  public_key (ctxt wb) = keystore_public_key_read (P := PA) ->
  scalarmult (keystore_private_key (Platform := PA)) (keystore_public_key_read (P := PB)) =
    scalarmult (keystore_private_key (Platform := PB)) (keystore_public_key_read (P := PA)) ->
  exists temp wa' wb',
    s2_do_ecdh_calc_a (P := PA) wa = Ok (tt, wa') /\ ecdh_calc (P := PB) 32 0 wb = Ok (tt, wb') /\
    slot_of (ctxt wa') TEMP_KEY_SECURE = (true, Some (group_of temp true)) /\
    slot_of (ctxt wb') TEMP_KEY_SECURE = (true, Some (group_of temp true)).
Proof.
  intros Ha Hb Hma Hmb Hsa Hsb Epa Epb Hag.
  pose proof (public_key_ok PA Ha) as [Hpal Hpab]. pose proof (public_key_ok PB Hb) as [Hpbl Hpbb].
  destruct Ha as [Hal Hab], Hb as [Hbl Hbb].
  set (secret := scalarmult (keystore_private_key (Platform := PA)) (keystore_public_key_read (P := PB))) in *.
  pose proof (scalarmult_ok _ _ Hal Hab Hpbl Hpbb) as [Hsl Hsb'].
  set (keys := keystore_public_key_read (P := PA) ++ keystore_public_key_read (P := PB)).
  destruct (Kderiv.tempkey_extract_block secret keys) as (_ & Ht & _);
    [done|unfold keys; rewrite length_app; lia|done|by apply bytes_app|].
  exists (Kderiv.tempkey_extract secret keys).
  destruct (ecdh_run (K := K) (P := PA) _ eq_refl 0 32 wa Hal Hpal Hma) as (wa' & Ea & Ca); [auto|by rewrite Epa|].
  destruct (ecdh_run (K := K) (P := PB) _ eq_refl 32 0 wb Hbl Hpbl Hmb) as (wb' & Eb & Cb);
    [auto|unfold both_keys; cbn [Nat.eqb]; by rewrite Epb, <- Hag|].
  exists wa', wb'. split; [exact Ea|]. split; [exact Eb|].
  rewrite Ca, Cb, Epa, Epb, <- Hag. split; by apply load_same.
Qed.
End Agree.

(** ** Concrete runs *)

(** A commutative stand-in for the curve, and two platforms with their own private keys. *)
Definition toy_curve : Curve := fun n p => zip_with (fun a b => u8 (a * b)) n p.
Definition platform_of (x : Z) : Platform := {|
  S2_get_commands_supported := fun _ _ => [0x9F; 0x25];
  S2_get_hw_random := fun n => replicate n 7;
  keystore_private_key := replicate 32 (2 * x + 1) |}.

Lemma toy_curve_ok : CurveOk toy_curve.
Proof.
  split. intros n p Hn _ Hp _. unfold scalarmult, toy_curve. rewrite length_zip_with, Hn, Hp. split; [done|].
  apply list.Forall_forall. intros x Hx. apply list_elem_of_lookup in Hx as [i Hi].
  apply lookup_zip_with_Some in Hi as (a & b & -> & _). apply u8_byte.
Qed.

#[local] Existing Instances toy_curve toy_curve_ok demo_platform.

Definition in_state (st : s2_inclusion_state_t) (w : World) : World := set_ctxt (set_inclusion_state st (ctxt w)) w.
Definition with_frame (l : list Z) (w : World) : World :=
  set_ctxt (set_length (Z.of_nat (length l)) (set_buf (BufExt l) (ctxt w))) w.
Definition with_class (cls : Z) (w : World) : World :=
  set_ctxt (set_inclusion_peer (with_class_id cls (mkConn 1 2 0 0 0 0 0 0 0)) (ctxt w)) w.
Definition granting (g x : Z) (w : World) : World := set_ctxt (set_key_exchange x (set_key_granted g (ctxt w))) w.

Lemma granting_nvm g x l w : nvm (granting g x (with_frame l w)) = nvm w.
Proof. reflexivity. Qed.

Lemma asking_nvm g x cls l st w : nvm (granting g x (with_class cls (with_frame l (in_state st w)))) = nvm w.
Proof. reflexivity. Qed.

Lemma idle_machine_inert_witness :
  process_event 5 S2_INCLUSION_RETRY (demo_world 1) = Ok (tt, demo_world 1).
Proof. apply (idle_machine_inert 4 (demo_world 1) S2_INCLUSION_RETRY); [vm_compute; reflexivity|discriminate|discriminate]. Defined.

(** A Network Key Get in clear text is refused. *)
Definition clear_key_get : World :=
  with_class NON_SECURE (with_frame [0x9F; 0x09; 0x04] (in_state S2_AWAITING_NET_KEY_GET (demo_world 1))).

Lemma frame_gate_witness :
  exists w', s2_inclusion_post_event_internal (process_event 3) (I := inclusion 3) clear_key_get = Ok (tt, w') /\
    refused 2 clear_key_get w'.
Proof.
  apply (frame_gate 2 clear_key_get [0x9F; 0x09; 0x04] 0x09).
  - vm_compute. reflexivity.
  - vm_compute. reflexivity.
  - intros H. apply (f_equal (fun s => bool_decide (s = S2_INC_IDLE))) in H. vm_compute in H. discriminate H.
  - reflexivity.
  - reflexivity.
  - reflexivity.
  - split; [vm_compute; discriminate|vm_compute; reflexivity].
  - vm_compute. discriminate.
Defined.

(** Node 2 asks for the access key, which it was granted. *)
Definition key_get : World :=
  granting 0x87 0 (with_class TEMP_KEY_SECURE (with_frame [0x9F; 0x09; 0x04] (in_state S2_AWAITING_NET_KEY_GET (demo_world 1)))).

(** The same where the access key, of the bits 0x9F, is not stored. *)
Definition key_get_unset : World := set_nvm (set_assigned 0x9B (nvm key_get)) key_get.

Lemma network_key_release_witness :
  (exists w1, s2_send_net_key_report (process_event 3) (I := inclusion 3) key_get =
    (s2_inclusion_send_data (I := inclusion 3);; emit (IncSetTimeout TA5_TIMEOUT);; expect_s0_verify) w1 /\
    take 19 (u (ctxt w1)) = [0x9F; 0x0A; 0x04] ++ replicate 16 4) /\
  (exists w1, s2_send_net_key_report (process_event 3) (I := inclusion 3) key_get_unset =
    (s2_inclusion_send_data (I := inclusion 3);; emit (IncSetTimeout TA5_TIMEOUT);; expect_s0_verify) w1 /\
    take 19 (u (ctxt w1)) = [0x9F; 0x0A; 0x04] ++ sub 3 16 (u (ctxt key_get_unset))).
Proof.
  split.
  - destruct (network_key_release (process_event 3) (I := inclusion 3) key_get [0x9F; 0x09; 0x04] 0x04) as [H _].
    + reflexivity.
    + reflexivity.
    + split; [vm_compute; discriminate|vm_compute; reflexivity].
    + vm_compute. reflexivity.
    + unfold key_get. rewrite asking_nvm. apply demo_world_ok. done.
    + destruct (H (replicate 16 4)) as (w1 & (_ & _ & _ & Hu & _) & E).
      * exists 2. split; [lia|]. split; [reflexivity|]. vm_compute. reflexivity.
      * left. vm_compute. reflexivity.
      * exists w1. split; [exact E|exact Hu].
  - destruct (network_key_release (process_event 3) (I := inclusion 3) key_get_unset [0x9F; 0x09; 0x04] 0x04) as [H _].
    + reflexivity.
    + reflexivity.
    + split; [vm_compute; discriminate|vm_compute; reflexivity].
    + vm_compute. reflexivity.
    + unfold key_get_unset, key_get. rewrite asking_nvm. destruct (demo_world_ok 1) as (_ & _ & []); [done|]. constructor; assumption.
    + destruct (H (sub 3 16 (u (ctxt key_get_unset)))) as (w1 & (_ & _ & _ & Hu & _) & E).
      * exists 2. split; [lia|]. split; [reflexivity|]. vm_compute. reflexivity.
      * right. split; [vm_compute; reflexivity|reflexivity].
      * exists w1. split; [exact E|exact Hu].
Defined.

Lemma next_key_terminates_witness : exists j, next_key (2 ^ 1) 0x84 = Some (2 ^ j) /\ 1 <= j < 8 /\ Z.testbit 0x84 j = true /\
  (forall m, 1 <= m < j -> Z.testbit 0x84 m = false).
Proof. apply (next_key_terminates 1 0x84); [lia|split; [lia|reflexivity]]. Defined.

Definition echo_set : World := granting 0x87 0 (with_frame [0x9F; 0x06; 0x01; 0x00; 0x00; 0x87]
  (set_ctxt (set_inclusion_mode INCLUSION_MODE_SSA (ctxt (demo_world 1))) (demo_world 1))).

Lemma echo_kex_set_checked_witness : validate_echo_kex_set (I := inclusion 3) echo_set = Ok (true, echo_set).
Proof.
  apply (echo_kex_set_checked (I := inclusion 3) echo_set [0x9F; 0x06; 0x01; 0x00; 0x00; 0x87] 0 0 0x87 1).
  - reflexivity.
  - reflexivity.
  - vm_compute. reflexivity.
  - split; [vm_compute; reflexivity|]. split; [vm_compute; reflexivity|]. split; [vm_compute; reflexivity|].
    split; intros H; vm_compute in H; discriminate H.
Defined.

(** A public key nobody waits for. *)
Definition waiting_for_report : World := in_state S2_AWAITING_KEX_REPORT (demo_world 1).

Lemma waiting_state : inclusion_state (ctxt waiting_for_report) = S2_AWAITING_KEX_REPORT.
Proof. reflexivity. Qed.

(** The timer of a joining node that sends the echo, with three tries left and with none. *)
Definition sending_echo (n : Z) : World :=
  set_inc (set_retry_counter n (inc (demo_world 1))) (in_state S2_ECHO_KEX_SET_SENDING (demo_world 1)).

Lemma sending_state n : inclusion_state (ctxt (sending_echo n)) = S2_ECHO_KEX_SET_SENDING.
Proof. reflexivity. Qed.

Lemma sending_counter n : m_retry_counter (inc (sending_echo n)) = n.
Proof. reflexivity. Qed.

Lemma inclusion_ends_witness :
  (exists w', process_event 4 S2_PUB_KEY_RECV_A waiting_for_report = Ok (tt, w') /\
    ended waiting_for_report w' (S2_NODE_INCLUSION_FAILED_EVENT (kex_fail_code (ctxt waiting_for_report))) [IncStopTimeout]) /\
  (exists w', s2_inclusion_notify_timeout 4 (sending_echo 0) = Ok (tt, w') /\
    ended (sending_echo 0) w' (S2_NODE_INCLUSION_FAILED_EVENT (kex_fail_code (ctxt (sending_echo 0)))) [IncStopTimeout]) /\
  (exists w1, echo_again (sending_echo 3) w1 /\ s2_inclusion_notify_timeout 4 (sending_echo 3) =
     ((_ ← send_data_to_peer (I := inclusion 3); mret tt);; emit (IncSetTimeout TB5_TIMEOUT)) w1).
Proof.
  split; [|split].
  - destruct (inclusion_ends 3 waiting_for_report S2_PUB_KEY_RECV_A) as (_ & _ & H).
    + vm_compute. reflexivity.
    + vm_compute. reflexivity.
    + rewrite waiting_state. discriminate.
    + apply H. rewrite waiting_state. unfold expected. apply (bool_decide_unpack _). vm_compute. exact Logic.I.
  - destruct (inclusion_ends 3 (sending_echo 0) S2_PUB_KEY_RECV_A) as (H & _ & _).
    + vm_compute. reflexivity.
    + vm_compute. reflexivity.
    + rewrite sending_state. discriminate.
    + rewrite sending_state in H. apply H. intros (_ & H1 & _). rewrite sending_counter in H1. apply H1. reflexivity.
  - destruct (inclusion_ends 3 (sending_echo 3) S2_PUB_KEY_RECV_A) as (_ & H & _).
    + vm_compute. reflexivity.
    + vm_compute. reflexivity.
    + rewrite sending_state. discriminate.
    + apply H. split; [apply sending_state|]. rewrite sending_counter. split; discriminate.
Defined.

Definition key_report_frame : list Z := [0x9F; 0x0A; 0x04] ++ replicate 16 0x33.

Lemma network_key_received_witness :
  exists w1, s2_send_net_key_verify (process_event 3) (I := inclusion 3) (granting 0x87 4 (with_frame key_report_frame (demo_world 1))) =
    (s2_inclusion_send_data (I := inclusion 3);; emit (IncSetTimeout TB7_TIMEOUT)) w1 /\
    class_id (inclusion_peer (ctxt w1)) = NETWORK_KEY_SECURE.
Proof.
  destruct (network_key_received (process_event 3) (I := inclusion 3) (granting 0x87 4 (with_frame key_report_frame (demo_world 1)))
    key_report_frame 4) as (_ & H & _).
  - reflexivity.
  - reflexivity.
  - vm_compute. lia.
  - apply (bool_decide_unpack _). vm_compute. exact Logic.I.
  - vm_compute. reflexivity.
  - vm_compute. reflexivity.
  - destruct H as (w1 & E & _ & _ & _ & Hc & _).
    + reflexivity.
    + apply (bool_decide_unpack _). vm_compute. exact Logic.I.
    + rewrite granting_nvm, demo_world_nvm. apply demo_nvm_ok.
    + exists w1. split; [exact E|exact Hc].
Defined.

Lemma kex_get_clears_keys_witness :
  exists w' csa ks, s2_send_kex_report (demo_world 1) = Ok (tt, w') /\ key_map (nvm w') = ∅ /\
    csa = (if bool_decide (inclusion_mode (ctxt (demo_world 1)) = INCLUSION_MODE_CSA) then SECURITY_2_CSA_ON else 0) /\
    outs w' = [IncSetTimeout TB2_TIMEOUT;
               SendFrame (inclusion_peer (ctxt (demo_world 1))) [COMMAND_CLASS_SECURITY_2; KEX_REPORT; csa;
                 m_schemes (inc (demo_world 1)); m_curves (inc (demo_world 1)); m_keys (inc (demo_world 1))];
               InclusionEvent (inclusion_peer (ctxt (demo_world 1))) S2_NODE_INCLUSION_INITIATED_EVENT]
              ++ (Sec0SetKey <$> ks) ++ IncStopTimeout :: outs (demo_world 1).
Proof.
  destruct (demo_world_ok 1) as (_ & Hg & Hn); [done|].
  apply (kex_get_clears_keys (demo_world 1)); [split; [exact Hn|exact Hg]|vm_compute; reflexivity].
Defined.

Definition holding (key : list Z) (w : World) : World := set_ctxt (set_public_key key (ctxt w)) w.

Lemma temp_key_agreement_witness :
  exists temp wa' wb',
    s2_do_ecdh_calc_a (P := platform_of 3) (holding (keystore_public_key_read (P := platform_of 5)) (demo_world 1)) = Ok (tt, wa') /\
    ecdh_calc (P := platform_of 5) 32 0 (holding (keystore_public_key_read (P := platform_of 3)) (demo_world 2)) = Ok (tt, wb') /\
    slot_of (ctxt wa') TEMP_KEY_SECURE = (true, Some (group_of temp true)) /\
    slot_of (ctxt wb') TEMP_KEY_SECURE = (true, Some (group_of temp true)).
Proof.
  assert (Hk : forall x, is_byte (2 * x + 1) -> private_key_ok (platform_of x)).
  { intros x Hx. split; [reflexivity|]. by apply bytes_replicate. }
  apply (temp_key_agreement (platform_of 3) (platform_of 5)).
  - apply Hk. split; [lia|reflexivity].
  - apply Hk. split; [lia|reflexivity].
  - split; vm_compute; reflexivity.
  - split; vm_compute; reflexivity.
  - vm_compute. reflexivity.
  - vm_compute. reflexivity.
  - reflexivity.
  - reflexivity.
  - vm_compute. reflexivity.
Defined.
End S2IncSpec.
