(* ===== verification/S2Run.v ===== *)
(** * Two nodes on one radio

    Two nodes and the radio between them: the calls each node makes to its environment are carried
    out in the order they were made (frames are delivered to the other node and acknowledged, the
    application of either node answers the events of the inclusion machine), until both are quiet.
    A whole inclusion is run this way, from the start of both machines to the keys in the joining
    node's key store, with a small block cipher and a commutative stand-in for the curve. *)
From stdpp Require Import base list numbers.
From S2P Require Import Prelude Aes Drbg S2Types Keystore S2Core S2Inclusion S2Safe S2IncSpec.
Import CtrDrbg S2Types Keystore S2 S2Inclusion S2Safe S2IncSpec.
Open Scope Z_scope.

Module S2Run.

(** ** Primitives the run computes with *)

Fixpoint sums (acc : Z) (l : list Z) : list Z :=
  match l with
  | [] => []
  | x :: l => let a := u8 (acc * 5 + x) in a :: sums a l
  end.

(** A block cipher small enough to evaluate: every byte of the block depends on the key. *)
Definition toy_cipher : BlockCipher := fun b k =>
  sums 1 (rev (sums 3 (zip_with (fun x y => u8 (7 * x + 11 * y + 3)) b k))).

#[local] Existing Instances toy_cipher toy_curve toy_curve_ok.

(** ** Nodes and the radio *)

Section Radio.
(** Nesting of the inclusion machine's calls ([S2Inclusion.machine]). *)
Variable fuel : nat.

(** A node: its platform, its node id and its state. *)
Record Node := mkNode { plat : Platform; me : Z; st : World }.

Definition exec {A} (n : Node) (m : Platform -> M A) : option Node :=
  match m (plat n) (st n) with
  | Ok (_, w) => Some (mkNode (plat n) (me n) w)
  | Fault _ => None
  end.

(** The application grants the keys asked for and enters the digits [pk] of the other node's key. *)
Definition answer (pk : list Z) (e : s2_event_t) (P : Platform) : M unit :=
  match e with
  | S2_NODE_INCLUSION_KEX_REPORT_EVENT keys _ => s2_inclusion_key_grant fuel 1 keys false
  | S2_NODE_INCLUSION_PUBLIC_KEY_CHALLENGE_EVENT _ _ n => s2_inclusion_challenge_response fuel 1 pk (Z.to_nat n)
  | _ => mret tt
  end.

Definition deliver_to (x y : Node) (f : list Z) (P : Platform) : M unit :=
  S2_application_command_handler (I := inclusion fuel) (mkConn (me y) (me x) 0 0 0 0 0 0 0) f.

(** One call of [x] to its environment. *)
Definition carry_out (x y : Node) (o : out) : option (Node * Node) :=
  match o with
  | SendFrame _ f =>
      y ← exec y (deliver_to x y f);
      x ← exec x (fun P => S2_send_frame_done_notify (I := inclusion fuel) 0 10);
      Some (x, y)
  | SendFrameNoCb _ f => y ← exec y (deliver_to x y f); Some (x, y)
  | InclusionEvent _ e => x ← exec x (answer (keystore_public_key_read (P := plat y)) e); Some (x, y)
  | _ => Some (x, y)
  end.

(** The oldest call not yet carried out. *)
Definition pop (x : Node) : option (out * Node) :=
  match rev (outs (st x)) with
  | [] => None
  | o :: l => Some (o, mkNode (plat x) (me x) (set_outs (rev l) (st x)))
  end.

(** [None] when a node faults or the nodes are not quiet after [n] calls. *)
Fixpoint run (n : nat) (x y : Node) : option (Node * Node) :=
  match n with
  | O => None
  | S n =>
      match pop x with
      | Some (o, x) => '(x, y) ← carry_out x y o; run n x y
      | None =>
          match pop y with
          | Some (o, y) => '(y, x) ← carry_out y x o; run n x y
          | None => Some (x, y)
          end
      end
  end.
End Radio.

(** ** An inclusion *)

(** Node 1 is the controller of the network, with its keys stored ([demo_nvm]); node 2 has none. *)
Definition no_keys : Nvm :=
  mkNvm (replicate 16 0) (replicate 3 (replicate 16 0)) (replicate 2 (replicate 16 0)) 0.

Definition controller : Node :=
  mkNode (platform_of 3) 1
    (match S2_init_ctx 0xCAFE0001 (demo_start 1 0xCAFE0001) with Ok (_, w) => w | Fault _ => demo_start 1 0 end).

Definition joiner : Node := mkNode (platform_of 5) 2 (set_nvm no_keys (demo_start 2 0xCAFE0001)).

Definition inclusion_run : option (Node * Node) :=
  j ← exec joiner (fun P => s2_inclusion_joining_start 6 (mkConn 2 1 0 0 0 0 0 0 0) false);
  c ← exec controller (fun P => s2_inclusion_including_start 6 (mkConn 1 2 0 0 0 0 0 0 0));
  run 6 300 c j.

(** What the two nodes end with. *)
Definition included (r : option (Node * Node)) : bool :=
  match r with
  | Some (c, j) =>
      let n := nvm (st j) in
      bool_decide (inclusion_state (ctxt (st c)) = S2_INC_IDLE /\ inclusion_state (ctxt (st j)) = S2_INC_IDLE) &&
      bool_decide (assigned_keys n = 0x87 /\ loaded_keys (ctxt (st j)) = 7) &&
      bool_decide (security2_key n = security2_key (nvm (st c)) /\ security_netkey n = security_netkey (nvm (st c)))
  | None => false
  end.

(** The run of these two nodes: started on both sides, granted every key the joining node asks for and confirmed by the user,
    an inclusion runs to its end: all the frames of the key exchange (in the clear, under the
    temporary key and under each new network key) are accepted by the other side, both machines
    are idle again, and the joining node's key store holds exactly the controller's S0 and S2 keys,
    marked as assigned and loaded. *)
Example inclusion_transfers_keys : included inclusion_run = true.
Proof. vm_compute. reflexivity. Qed.

(** What is left when the joining node asks for a key while the radio refuses [refusals] frames: the
    number of frames offered to the radio, the retry counter and the state. *)
Definition is_frame (o : out) : bool := match o with SendFrame _ _ => true | _ => false end.

Definition refused_attempts (refusals : nat) : option (nat * Z * s2_inclusion_state_t) :=
  match process_event (P := platform_of 3) 40 S2_NET_KEY_GET_RECV (set_accept (replicate refusals false) key_get) with
  | Ok (_, w) => Some (length (List.filter is_frame (outs w)), m_retry_counter (inc w), inclusion_state (ctxt w))
  | Fault _ => None
  end.

(** The key report is offered again from inside the attempt to send it, and the counter wraps
    past zero instead of stopping there: ten refusals in a row lead to eleven nested attempts,
    although MAX_RETRY_COUNT is 3, and leave the counter at 248. *)
Theorem retries_exceed_limit :
  MAX_RETRY_COUNT = 3 /\ refused_attempts 10 = Some (11%nat, 248, S2_AWAITING_NET_KEY_VERIFY).
Proof. split; vm_compute; reflexivity. Qed.

End S2Run.
