(* ===== verification/ConHandle.v ===== *)
(** * Serial framing (src/serialapi/conhandle.c)

    The link between the gateway and the Z-Wave module: frames with a start byte, a length, a type,
    a command, data and a checksum, acknowledged by single bytes.  [ConTxFrame], [ConUpdate] and
    [ConInit] work on the driver's static variables and on the serial port, which is the bytes still
    to be read and the bytes written.  The two timers are the answers of [PORT_TIMER_EXPIRED]. *)
From S2P Require Import Prelude.

Module ConHandle.

Definition SOF : Z := 0x01.
Definition ACK : Z := 0x06.
Definition NAK : Z := 0x15.
Definition CAN : Z := 0x18.
Definition SERBUF_MAX : nat := 255.
Definition FRAME_LENGTH_MIN : Z := 3.
Definition FRAME_LENGTH_MAX : Z := 255.

Inductive T_CON_TYPE :=
| conIdle | conFrameReceived | conFrameSent | conFrameErr | conRxTimeout | conTxTimeout | conTxErr | conTxWait.

#[global] Instance con_type_eq_dec : EqDecision T_CON_TYPE.
Proof. solve_decision. Defined.

(** The states of the receiver; the code never reaches the ones after [stateLen]. *)
Inductive con_state_t := stateSOFHunt | stateLen | stateType | stateCmd | stateData | stateChecksum.

Record Con := mkCon {
  serBuf : list Z;
  serBufLen : Z;
  con_state : con_state_t;
  bChecksum_RX : Z;
  rxActive : bool;
  AckNakNeeded : bool;
  input : list Z;
  output : list Z
}.

(** [Blocked]: the read of a frame body waits for bytes; [Overrun]: a write past the end of a buffer. *)
Inductive outcome (A : Type) := Done (a : A) | Blocked | Overrun.
#[global] Arguments Done {A} a.
#[global] Arguments Blocked {A}.
#[global] Arguments Overrun {A}.

Definition put (bs : list Z) (s : Con) : Con :=
  mkCon (serBuf s) (serBufLen s) (con_state s) (bChecksum_RX s) (rxActive s) (AckNakNeeded s) (input s)
    (output s ++ bs).

(** ** Sending *)

Definition checksum (bs : list Z) : Z := foldl Z.lxor 0xFF bs.

(** The buffer has 255 bytes; with [len + 5] of them written, the checksum covers [len + 3]. *)
Definition ConTxFrame (cmd type : Z) (Buf : list Z) (len : Z) (s : Con) : outcome Con :=
  if 255 <? len + 5 then Overrun
  else
    let body := [u8 (len + 3); type; cmd] ++ take (Z.to_nat len) Buf in
    let s := put (SOF :: body ++ [checksum body]) s in
    Done (mkCon (serBuf s) (serBufLen s) (con_state s) (bChecksum_RX s) (rxActive s) true (input s) (output s)).

(** ** Receiving *)

(** A byte while hunting for the start of a frame. *)
Definition sof_hunt (c : Z) (s : Con) : Con * T_CON_TYPE :=
  if c =? SOF then
    (mkCon (serBuf s) 0 stateLen 0xFF true (AckNakNeeded s) (input s) (output s), conIdle)
  else if AckNakNeeded s then
    let done := mkCon (serBuf s) (serBufLen s) (con_state s) (bChecksum_RX s) (rxActive s) false (input s) (output s) in
    if c =? ACK then (done, conFrameSent)
    else if c =? NAK then (done, conTxErr)
    else if c =? CAN then (done, conTxWait)
    else (s, conIdle)
  else (s, conIdle).

Definition hunt_again (s : Con) : Con :=
  mkCon (serBuf s) (serBufLen s) stateSOFHunt (bChecksum_RX s) false (AckNakNeeded s) (input s) (output s).

(** The length byte and, with it, the rest of the frame. *)
Definition frame_body (acknowledge : bool) (c : Z) (s : Con) : outcome (Con * T_CON_TYPE) :=
  if (c <? FRAME_LENGTH_MIN) || (FRAME_LENGTH_MAX <? c) then Done (hunt_again s, conIdle)
  else if Nat.ltb (length (input s)) (Z.to_nat c) then Blocked
  else if Nat.ltb SERBUF_MAX (1 + Z.to_nat c) then Overrun
  else
    let n := Z.to_nat c in
    let buf := splice 0 (c :: take n (input s)) (serBuf s) in
    let cs := checksum (take (n + 1) buf) in
    let s := mkCon buf c (con_state s) cs (rxActive s) (AckNakNeeded s) (drop n (input s)) (output s) in
    let '(s, r) :=
      if acknowledge then
        if cs =? 0 then (put [ACK] s, conFrameReceived) else (put [NAK] s, conFrameErr)
      else (put [CAN] s, conIdle) in
    Done (hunt_again s, r).

Definition rx_byte (acknowledge : bool) (c : Z) (s : Con) : outcome (Con * T_CON_TYPE) :=
  match con_state s with
  | stateSOFHunt => Done (sof_hunt c s)
  | stateLen => frame_body acknowledge c s
  | _ => Done (hunt_again s, conIdle)
  end.

(** The loop [do ... while (retVal == conIdle && SerialCheck())]: every turn reads a byte, so the
    number of bytes is fuel enough. *)
Fixpoint rx_loop (fuel : nat) (acknowledge : bool) (s : Con) : outcome (Con * T_CON_TYPE) :=
  match fuel, input s with
  | S fuel', c :: rest =>
      let s := mkCon (serBuf s) (serBufLen s) (con_state s) (bChecksum_RX s) (rxActive s) (AckNakNeeded s) rest
                 (output s) in
      match rx_byte acknowledge c s with
      | Done (s, conIdle) => rx_loop fuel' acknowledge s
      | r => r
      end
  | _, _ => Done (s, conIdle)
  end.

Definition check_timers (rx_expired ack_expired : bool) (s : Con) : Con * T_CON_TYPE :=
  let '(s, r) := if rxActive s && rx_expired then (hunt_again s, conRxTimeout) else (s, conIdle) in
  if AckNakNeeded s && ack_expired then
    (mkCon (serBuf s) (serBufLen s) (con_state s) (bChecksum_RX s) (rxActive s) false (input s) (output s), conTxTimeout)
  else (s, r).

Definition ConUpdate (acknowledge rx_expired ack_expired : bool) (s : Con) : outcome (Con * T_CON_TYPE) :=
  match rx_loop (length (input s)) acknowledge s with
  | Done (s, conIdle) => Done (check_timers rx_expired ack_expired s)
  | r => r
  end.

(** [rc] is the answer of [SerialInit]; the other statics keep their values. *)
Definition ConInit (rc : bool) (s : Con) : Con :=
  let s := mkCon (serBuf s) 0 stateSOFHunt (bChecksum_RX s) (rxActive s) (AckNakNeeded s) (input s) (output s) in
  if rc then put [ACK] s else s.

(** ** The receiver's loop *)

Definition with_input (l : list Z) (s : Con) : Con :=
  mkCon (serBuf s) (serBufLen s) (con_state s) (bChecksum_RX s) (rxActive s) (AckNakNeeded s) l (output s).

Lemma rx_loop_step fuel acknowledge s c rest :
  input s = c :: rest ->
  rx_loop (S fuel) acknowledge s =
  match rx_byte acknowledge c (with_input rest s) with
  | Done (s, conIdle) => rx_loop fuel acknowledge s
  | r => r
  end.
Proof. intros E. cbn [rx_loop]. by rewrite E. Qed.

(** A byte handler never adds input. *)
Lemma rx_byte_input acknowledge c s s' r :
  rx_byte acknowledge c s = Done (s', r) -> (length (input s') <= length (input s))%nat.
Proof.
  unfold rx_byte. destruct (con_state s); try (by intros [= <- _]).
  - unfold sof_hunt. intros [= H]. destruct (c =? SOF); [by injection H as <- _|].
    destruct (AckNakNeeded s); [|by injection H as <- _].
    destruct (c =? ACK); [by injection H as <- _|]. destruct (c =? NAK); [by injection H as <- _|].
    by destruct (c =? CAN); injection H as <- _.
  - unfold frame_body. destruct (_ || _); [by intros [= <- _]|]. destruct (Nat.ltb _ _); [done|].
    destruct (Nat.ltb _ _); [done|]. destruct acknowledge; [destruct (_ =? 0)|];
      intros [= <- _]; cbn [hunt_again put input]; rewrite length_drop; lia.
Qed.

(** More fuel than bytes changes nothing. *)
Lemma rx_loop_fuel acknowledge n : forall m s,
  (length (input s) <= n)%nat -> (n <= m)%nat -> rx_loop m acknowledge s = rx_loop n acknowledge s.
Proof.
  induction n as [|n IH]; intros m s Hn Hm.
  { destruct (input s) as [|c rest] eqn:E; [|simpl in Hn; lia]. destruct m; [done|]. cbn [rx_loop]. by rewrite E. }
  destruct m as [|m]; [lia|]. destruct (input s) as [|c rest] eqn:E; [cbn [rx_loop]; by rewrite E|].
  rewrite !(rx_loop_step _ _ _ _ _ E). destruct (rx_byte acknowledge c (with_input rest s)) as [[s' []]| |] eqn:Eb; try done.
  apply rx_byte_input in Eb. cbn [with_input input] in Eb. simpl in Hn. apply IH; lia.
Qed.

(** ** Frames *)

(** The receiver after a frame of length byte [n] and body [body], answered with [b]. *)
Definition answered (n : Z) (body rest : list Z) (b : Z) (s : Con) : Con :=
  mkCon (splice 0 (n :: body) (serBuf s)) n stateSOFHunt (checksum (n :: body)) false (AckNakNeeded s) rest
    (output s ++ [b]).

Lemma body_run acknowledge n body rest s :
  con_state s = stateLen -> length (serBuf s) = SERBUF_MAX -> 3 <= n <= 254 -> length body = Z.to_nat n ->
  input s = body ++ rest ->
  rx_byte acknowledge n s =
  Done (answered n body rest (if acknowledge then if checksum (n :: body) =? 0 then ACK else NAK else CAN) s,
        if acknowledge then if checksum (n :: body) =? 0 then conFrameReceived else conFrameErr else conIdle).
Proof.
  intros Hst HL Hn Hb Hin. unfold rx_byte. rewrite Hst. unfold frame_body, FRAME_LENGTH_MIN, FRAME_LENGTH_MAX.
  destruct (Z.ltb_spec n 3); [lia|]. destruct (Z.ltb_spec 255 n); [lia|]. cbn [orb].
  rewrite Hin, length_app. destruct (Nat.ltb_spec (length body + length rest) (Z.to_nat n)); [lia|].
  unfold SERBUF_MAX in *. destruct (Nat.ltb_spec 255 (1 + Z.to_nat n)); [lia|].
  rewrite <- Hb, take_app_length, drop_app_length.
  assert (E : take (length body + 1) (splice 0 (n :: body) (serBuf s)) = n :: body).
  { rewrite take_splice; [by rewrite take_0|lia|simpl; lia]. }
  rewrite E. cbv zeta. destruct acknowledge; [destruct (checksum (n :: body) =? 0)|]; done.
Qed.

Lemma sof_run acknowledge fuel rest s :
  con_state s = stateSOFHunt -> input s = SOF :: rest ->
  rx_loop (S fuel) acknowledge s =
  rx_loop fuel acknowledge (mkCon (serBuf s) 0 stateLen 0xFF true (AckNakNeeded s) rest (output s)).
Proof. intros Hst Hin. rewrite (rx_loop_step _ _ _ _ _ Hin). unfold rx_byte. cbn [with_input con_state]. by rewrite Hst. Qed.

(** A complete frame: delivered and acknowledged if the checksum fits, refused otherwise. *)
Lemma frame_run rxe acke n body rest s :
  con_state s = stateSOFHunt -> length (serBuf s) = SERBUF_MAX -> 3 <= n <= 254 -> length body = Z.to_nat n ->
  input s = SOF :: n :: body ++ rest ->
  ConUpdate true rxe acke s =
  Done (if checksum (n :: body) =? 0 then (answered n body rest ACK s, conFrameReceived)
        else (answered n body rest NAK s, conFrameErr)).
Proof.
  intros Hst HL Hn Hb Hin. unfold ConUpdate. rewrite Hin. cbn [length].
  rewrite (sof_run _ _ _ _ Hst Hin). set (s1 := mkCon _ _ _ _ _ _ _ _).
  rewrite (rx_loop_step _ _ s1 n (body ++ rest) eq_refl).
  rewrite (body_run true n body rest) by done. by destruct (checksum (n :: body) =? 0).
Qed.

Lemma checksum_app a b : checksum (a ++ b) = foldl Z.lxor (checksum a) b.
Proof. apply foldl_app. Qed.

Lemma lxor_fold l : forall x, foldl Z.lxor x l = Z.lxor x (foldl Z.lxor 0 l).
Proof.
  induction l as [|y l IH]; intros x; cbn [foldl]; [by rewrite Z.lxor_0_r|].
  rewrite IH, (IH (Z.lxor 0 y)), Z.lxor_0_l. by rewrite Z.lxor_assoc.
Qed.

Lemma checksum_closed l : checksum (l ++ [checksum l]) = 0.
Proof. rewrite checksum_app. cbn [foldl]. apply Z.lxor_nilpotent. Qed.

(** The bytes [ConTxFrame] writes. *)
Definition frame_bytes (cmd type : Z) (data : list Z) : list Z :=
  let body := [Z.of_nat (length data) + 3; type; cmd] ++ data in SOF :: body ++ [checksum body].

Lemma tx_run cmd type data s :
  (length data <= 250)%nat ->
  exists s', ConTxFrame cmd type data (Z.of_nat (length data)) s = Done s' /\
    output s' = output s ++ frame_bytes cmd type data /\ AckNakNeeded s' = true /\
    con_state s' = con_state s /\ serBuf s' = serBuf s /\ input s' = input s.
Proof.
  intros HL. unfold ConTxFrame. destruct (Z.ltb_spec 255 (Z.of_nat (length data) + 5)); [lia|].
  eexists. split; [reflexivity|]. cbn [output AckNakNeeded con_state serBuf input put].
  split_and!; try done. unfold frame_bytes, u8. rewrite Z.mod_small, Nat2Z.id, take_ge by lia. done.
Qed.

Lemma take_splice_prefix m bs (l : list Z) : (m <= length bs)%nat -> take m (splice 0 bs l) = take m bs.
Proof. intros H. unfold splice. rewrite take_0. cbn [app]. by rewrite take_app_le by lia. Qed.

(** The checksum tells two bytes at the same place apart. *)
Lemma checksum_middle a b x y : checksum (a ++ x :: b) = checksum (a ++ y :: b) -> x = y.
Proof.
  rewrite !checksum_app. cbn [foldl].
  rewrite (lxor_fold b (Z.lxor (checksum a) x)), (lxor_fold b (Z.lxor (checksum a) y)). set (F := foldl _ 0 b).
  intros E. apply (f_equal (fun z => Z.lxor z F)) in E. cbv beta in E.
  rewrite (Z.lxor_assoc (Z.lxor _ x)), (Z.lxor_assoc (Z.lxor _ y)), Z.lxor_nilpotent, !Z.lxor_0_r in E.
  apply (f_equal (Z.lxor (checksum a))) in E. by rewrite !lxor_cancel_l in E.
Qed.

(** C39: a frame of up to 250 data bytes that one end writes is received by the other end byte for
    byte, acknowledged, and the acknowledgement is what the sender reports as a transmitted frame;
    whatever follows the frame on the line is left to be read. *)
Theorem serial_frame_roundtrip cmd type data s r rest rxe acke :
  (length data <= 250)%nat -> con_state s = stateSOFHunt -> con_state r = stateSOFHunt ->
  length (serBuf r) = SERBUF_MAX -> output s = [] -> output r = [] ->
  exists s' r',
    ConTxFrame cmd type data (Z.of_nat (length data)) s = Done s' /\
    ConUpdate true rxe acke (with_input (output s' ++ rest) r) = Done (r', conFrameReceived) /\
    take (length data + 3) (serBuf r') = [Z.of_nat (length data) + 3; type; cmd] ++ data /\
    serBufLen r' = Z.of_nat (length data) + 3 /\ input r' = rest /\ con_state r' = stateSOFHunt /\
    exists s'', ConUpdate true rxe acke (with_input (output r') s') = Done (s'', conFrameSent) /\
      AckNakNeeded s'' = false.
Proof.
  intros HL Hs Hr HB Hos Hor. destruct (tx_run cmd type data s HL) as (s' & E & Ho & Ha & Hc & _ & _).
  rewrite Hos in Ho. cbn [app] in Ho. set (n := Z.of_nat (length data) + 3).
  set (body := type :: cmd :: data ++ [checksum (n :: type :: cmd :: data)]).
  assert (Hcs : checksum (n :: body) = 0) by exact (checksum_closed (n :: type :: cmd :: data)).
  assert (HbL : length body = Z.to_nat n) by (unfold body, n; cbn [length]; rewrite length_app; simpl; lia).
  exists s', (answered n body rest ACK (with_input (output s' ++ rest) r)). split; [done|]. split.
  { rewrite (frame_run rxe acke n body rest); [by rewrite Hcs|done|done|lia|done|].
    cbn [with_input input]. rewrite Ho. unfold frame_bytes. fold n. unfold body. cbn [app]. done. }
  cbn [answered serBuf serBufLen input con_state]. split; [|split; [done|split; [done|split; [done|]]]].
  - rewrite (take_splice_prefix (length data + 3)) by (cbn [length]; unfold SERBUF_MAX in HB; lia).
    unfold body. cbn [app]. change (length data + 3)%nat with (length data + 3)%nat.
    replace (length data + 3)%nat with (length (n :: type :: cmd :: data)) by (simpl; lia).
    change (n :: type :: cmd :: data ++ [checksum (n :: type :: cmd :: data)])
      with ((n :: type :: cmd :: data) ++ [checksum (n :: type :: cmd :: data)]). by rewrite take_app_length.
  - cbn [answered output with_input]. rewrite Hor. eexists. split.
    + unfold ConUpdate. cbn [input with_input length app].
      rewrite (rx_loop_step 0 true (with_input [ACK] s') ACK [] eq_refl).
      unfold rx_byte. cbn [with_input con_state]. rewrite Hc, Hs. unfold sof_hunt. change (ACK =? SOF) with false.
      cbn [with_input AckNakNeeded]. rewrite Ha. reflexivity.
    + done.
Qed.

(** C40: a frame in which one byte after the length byte has been altered on the line is never
    delivered: the receiver answers it with a NAK and reports a frame error. *)
Theorem serial_corruption_detected n body i x y rest s rxe acke :
  con_state s = stateSOFHunt -> length (serBuf s) = SERBUF_MAX -> 3 <= n <= 254 -> length body = Z.to_nat n ->
  checksum (n :: body) = 0 -> body !! i = Some x -> y <> x ->
  input s = SOF :: n :: <[i := y]> body ++ rest ->
  exists s', ConUpdate true rxe acke s = Done (s', conFrameErr) /\ output s' = output s ++ [NAK] /\
    input s' = rest /\ con_state s' = stateSOFHunt.
Proof.
  intros Hst HL Hn Hb Hcs Hi Hy Hin.
  assert (Hne : checksum (n :: <[i := y]> body) <> 0).
  { rewrite <- Hcs, insert_take_drop by (by eapply lookup_lt_Some).
    rewrite <- (take_drop_middle body i x Hi) at 3. intros E. by apply (checksum_middle (n :: take i body)) in E. }
  eexists. split; [rewrite (frame_run rxe acke n (<[i := y]> body) rest) by (rewrite ?length_insert; done)|].
  - destruct (Z.eqb_spec (checksum (n :: <[i := y]> body)) 0); [done|]. reflexivity.
  - done.
Qed.

(** Bytes that do not start a frame are skipped while no acknowledgement is awaited. *)
Lemma junk_run acknowledge junk l : forall s,
  con_state s = stateSOFHunt -> AckNakNeeded s = false -> Forall (fun c => c <> SOF) junk -> input s = junk ++ l ->
  rx_loop (length (input s)) acknowledge s = rx_loop (length l) acknowledge (with_input l s).
Proof.
  induction junk as [|c junk IH]; intros s Hst Ha Hj Hin.
  { cbn [app] in Hin. rewrite <- Hin. by destruct s. }
  inversion_clear Hj as [|? ? Hc Hj']. rewrite Hin. cbn [app length]. rewrite (rx_loop_step _ _ _ _ _ Hin).
  unfold rx_byte. cbn [with_input con_state]. rewrite Hst. unfold sof_hunt. destruct (Z.eqb_spec c SOF); [done|].
  cbn [AckNakNeeded with_input]. rewrite Ha.
  exact (IH (with_input (junk ++ l) s) Hst Ha Hj' eq_refl).
Qed.

(** Noise on the line before a frame, as long as no byte of it is a start byte, does not keep the
    frame from being received. *)
Theorem serial_noise_skipped junk n body rest s rxe acke :
  con_state s = stateSOFHunt -> length (serBuf s) = SERBUF_MAX -> AckNakNeeded s = false ->
  Forall (fun c => c <> SOF) junk -> 3 <= n <= 254 -> length body = Z.to_nat n -> checksum (n :: body) = 0 ->
  input s = junk ++ SOF :: n :: body ++ rest ->
  exists s', ConUpdate true rxe acke s = Done (s', conFrameReceived) /\ output s' = output s ++ [ACK] /\
    take (Z.to_nat n + 1) (serBuf s') = n :: body /\ input s' = rest.
Proof.
  intros Hst HL Ha Hj Hn Hb Hcs Hin. set (l := SOF :: n :: body ++ rest) in *.
  exists (answered n body rest ACK (with_input l s)). split.
  - pose proof (frame_run rxe acke n body rest (with_input l s) Hst HL Hn Hb eq_refl) as E. rewrite Hcs in E.
    unfold ConUpdate in *. rewrite (junk_run true junk l s Hst Ha Hj Hin). exact E.
  - split; [done|]. split; [|done]. cbn [answered serBuf with_input].
    rewrite take_splice_prefix by (simpl; lia). apply take_ge. simpl. lia.
Qed.

(** The driver's invariant. *)
Record con_ok (s : Con) : Prop := {
  ok_buf : length (serBuf s) = SERBUF_MAX;
  ok_state : con_state s = stateSOFHunt \/ con_state s = stateLen;
  ok_active : rxActive s = true -> con_state s = stateLen
}.

Lemma rx_byte_ok acknowledge c s s' r : con_ok s -> rx_byte acknowledge c s = Done (s', r) -> con_ok s'.
Proof.
  intros Hok. pose proof Hok as [Hb Hs Ha].
  unfold rx_byte. destruct (con_state s) eqn:Est; try (by intros [= <- _]; constructor; auto).
  - unfold sof_hunt. intros [= H]. destruct (c =? SOF); [by injection H as <- _; constructor; auto|].
    destruct (AckNakNeeded s); [|by injection H as <- _].
    assert (Hok' : con_ok (mkCon (serBuf s) (serBufLen s) (con_state s) (bChecksum_RX s) (rxActive s) false (input s) (output s))).
    { constructor; auto; cbn [con_state rxActive]; by rewrite Est. }
    destruct (c =? ACK); [by injection H as <- _|]. destruct (c =? NAK); [by injection H as <- _|].
    by destruct (c =? CAN); injection H as <- _.
  - unfold frame_body. destruct (_ || _); [intros [= <- _]; by constructor; auto|].
    destruct (Nat.ltb_spec (length (input s)) (Z.to_nat c)) as [|Hin]; [done|].
    destruct (Nat.ltb_spec SERBUF_MAX (1 + Z.to_nat c)) as [|Hm]; [done|].
    assert (HL : length (splice 0 (c :: take (Z.to_nat c) (input s)) (serBuf s)) = SERBUF_MAX).
    { rewrite length_splice; [done|]. cbn [length]. rewrite length_take. lia. }
    destruct acknowledge; [destruct (_ =? 0)|]; intros [= <- _]; by constructor; auto.
Qed.

Lemma rx_loop_ok acknowledge fuel : forall s s' r,
  con_ok s -> rx_loop fuel acknowledge s = Done (s', r) -> con_ok s'.
Proof.
  induction fuel as [|fuel IH]; intros s s' r Hok E; [by injection E as <- _|].
  destruct (input s) as [|c rest] eqn:Ein; [cbn [rx_loop] in E; rewrite Ein in E; by injection E as <- _|].
  rewrite (rx_loop_step _ _ _ _ _ Ein) in E.
  assert (Hok1 : con_ok (with_input rest s)) by (destruct Hok; constructor; assumption).
  destruct (rx_byte acknowledge c (with_input rest s)) as [[s1 r1]| |] eqn:Eb; try done.
  apply rx_byte_ok in Eb; [|done]. destruct r1; try (by injection E as <- _). exact (IH _ _ _ Eb E).
Qed.

(** The driver's invariant (the receive buffer keeps its 255 bytes, the receiver is either hunting
    for a start byte or at the length byte, and the receive timer runs only in the latter state) is
    kept by every operation, whatever arrives on the line and whenever the timers expire; only
    [ConInit], which does not reset the timer flag, needs it to be off. *)
Theorem con_invariant s :
  con_ok s ->
  (forall rc, rxActive s = false -> con_ok (ConInit rc s)) /\
  (forall cmd type Buf len s', ConTxFrame cmd type Buf len s = Done s' -> con_ok s') /\
  (forall acknowledge rxe acke s' r, ConUpdate acknowledge rxe acke s = Done (s', r) -> con_ok s').
Proof.
  intros Hok. split; [|split].
  - intros rc Er. destruct Hok.
    unfold ConInit. destruct rc; constructor; cbn [put serBuf con_state rxActive]; auto; by rewrite Er.
  - intros cmd type Buf len s' E. unfold ConTxFrame in E. destruct (255 <? len + 5); [done|].
    injection E as <-. destruct Hok. constructor; assumption.
  - intros acknowledge rxe acke s' r E. unfold ConUpdate in E.
    destruct (rx_loop (length (input s)) acknowledge s) as [[s1 r1]| |] eqn:El; try done.
    apply rx_loop_ok in El; [|done]. destruct r1; try (by injection E as <- _).
    injection E as E. unfold check_timers in E. destruct El as [Hb Hs Ha].
    destruct (rxActive s1 && rxe) eqn:E1; cbn [hunt_again AckNakNeeded] in E;
      (destruct (AckNakNeeded s1 && acke); injection E as <- _); by constructor; auto.
Qed.

(** A frame whose length byte is 255, which the length check lets through, is written one byte
    past the end of the receive buffer. *)
Theorem serial_length_255_overrun acknowledge rxe acke body rest s :
  con_state s = stateSOFHunt -> length body = 255%nat -> input s = SOF :: 255 :: body ++ rest ->
  ConUpdate acknowledge rxe acke s = Overrun.
Proof.
  intros Hst HL Hin. unfold ConUpdate. rewrite Hin. cbn [length]. rewrite (sof_run _ _ _ _ Hst Hin).
  set (s1 := mkCon _ _ _ _ _ _ _ _). rewrite (rx_loop_step _ _ s1 255 (body ++ rest) eq_refl).
  unfold rx_byte. cbn [s1 with_input con_state]. unfold frame_body. cbn [input with_input].
  change ((255 <? FRAME_LENGTH_MIN) || (FRAME_LENGTH_MAX <? 255)) with false. cbv iota.
  rewrite length_app, HL. change (Z.to_nat 255) with 255%nat.
  destruct (Nat.ltb_spec (255 + length rest) 255); [lia|]. done.
Qed.

(** ** Concrete lines *)

Definition con_new : Con := mkCon (replicate 255 0) 0 stateSOFHunt 0 false false [] [].

Lemma con_new_ok : con_ok con_new.
Proof. constructor; [reflexivity|by left|done]. Qed.

Lemma serial_frame_roundtrip_witness :
  exists s' r',
    ConTxFrame 0x13 0 [0x02; 0x25] 2 con_new = Done s' /\
    ConUpdate true false false (with_input (output s' ++ [SOF]) con_new) = Done (r', conFrameReceived) /\
    take 5 (serBuf r') = [5; 0; 0x13; 0x02; 0x25] /\ serBufLen r' = 5 /\ input r' = [SOF] /\ con_state r' = stateSOFHunt /\
    exists s'', ConUpdate true false false (with_input (output r') s') = Done (s'', conFrameSent) /\ AckNakNeeded s'' = false.
Proof.
  apply (serial_frame_roundtrip 0x13 0 [0x02; 0x25] con_new con_new [SOF] false false); try reflexivity. simpl. lia.
Defined.

(** The body of the frame above with its checksum. *)
Definition demo_body : list Z := [0; 0x13; 0x02; 0x25; checksum [5; 0; 0x13; 0x02; 0x25]].

Lemma serial_corruption_detected_witness :
  exists s', ConUpdate true false false (with_input (SOF :: 5 :: <[2%nat := 0x03]> demo_body ++ []) con_new) =
    Done (s', conFrameErr) /\ output s' = [NAK] /\ input s' = [] /\ con_state s' = stateSOFHunt.
Proof.
  apply (serial_corruption_detected 5 demo_body 2 0x02 0x03 []); try reflexivity; [lia|discriminate].
Defined.

Lemma serial_noise_skipped_witness :
  exists s', ConUpdate true false false (with_input ([0x00; 0x7F] ++ SOF :: 5 :: demo_body ++ [ACK]) con_new) =
    Done (s', conFrameReceived) /\ output s' = [ACK] /\ take 6 (serBuf s') = 5 :: demo_body /\ input s' = [ACK].
Proof.
  apply (serial_noise_skipped [0x00; 0x7F] 5 demo_body [ACK]); try reflexivity; [|lia].
  constructor; [discriminate|]. constructor; [discriminate|constructor].
Defined.

Lemma con_invariant_witness :
  (forall rc, rxActive con_new = false -> con_ok (ConInit rc con_new)) /\
  (forall cmd type Buf len s', ConTxFrame cmd type Buf len con_new = Done s' -> con_ok s') /\
  (forall acknowledge rxe acke s' r, ConUpdate acknowledge rxe acke con_new = Done (s', r) -> con_ok s').
Proof. apply con_invariant. apply con_new_ok. Defined.

Lemma serial_length_255_overrun_witness :
  ConUpdate true false false (with_input (SOF :: 255 :: replicate 255 0 ++ []) con_new) = Overrun.
Proof. apply (serial_length_255_overrun true false false (replicate 255 0) []); reflexivity. Defined.
End ConHandle.
