(* ===== verification/Effects.v ===== *)
(** * Stateful C code with faults

    A computation runs on a state and ends with a value or a fault: an access outside a buffer, a
    division by zero, a loop that used up its fuel, a failed assertion.  The components that keep
    static state are written in this monad; [wp] is the logic in which they are verified. *)
From stdpp Require Import relations.
From S2P Require Import Prelude.

Module Effects.

Inductive fault := OutOfBounds | DivByZero | AssertFailed | OutOfFuel.

Inductive res (A : Type) := Ok (a : A) | Fault (f : fault).
#[global] Arguments Ok {A} a.
#[global] Arguments Fault {A} f.

#[global] Instance res_ret : MRet res := fun A a => Ok a.
#[global] Instance res_bind : MBind res := fun A B k m => match m with Ok a => k a | Fault e => Fault e end.

Definition Eff (S A : Type) : Type := S -> res (A * S).

#[global] Instance Eff_ret S : MRet (Eff S) := fun A a w => Ok (a, w).
#[global] Instance Eff_bind S : MBind (Eff S) := fun A B f m w =>
  match m w with Ok (a, w') => f a w' | Fault e => Fault e end.

Section Primitives.
Context {S : Type}.

Definition fail {A} (f : fault) : Eff S A := fun _ => Fault f.
Definition get : Eff S S := fun w => Ok (w, w).
Definition modify (f : S -> S) : Eff S unit := fun w => Ok (tt, f w).
Definition of_option {A} (f : fault) (o : option A) : Eff S A :=
  match o with Some a => mret a | None => fail f end.
Definition assert (b : bool) : Eff S unit := if b then mret tt else fail AssertFailed.

(** Reads and writes of buffers, checked against their size; division. *)
Definition rd {A} (l : list A) (i : Z) : Eff S A := of_option OutOfBounds (l !! Z.to_nat i).
Definition wr {A} (l : list A) (i : Z) (x : A) : Eff S (list A) :=
  if Nat.ltb (Z.to_nat i) (length l) then mret (<[Z.to_nat i := x]> l) else fail OutOfBounds.
Definition rds (l : list Z) (off n : nat) : Eff S (list Z) :=
  if Nat.leb (off + n) (length l) then mret (sub off n l) else fail OutOfBounds.
Definition wrs (l : list Z) (off : nat) (bs : list Z) : Eff S (list Z) :=
  if Nat.leb (off + length bs) (length l) then mret (splice off bs l) else fail OutOfBounds.
Definition div (a b : Z) : Eff S Z := if b =? 0 then fail DivByZero else mret (a / b).
End Primitives.

(** ** Running it *)

Section Running.
Context {S : Type}.
Implicit Type w : S.

Lemma tm_bind_ok {A B} (m : Eff S A) (k : A -> Eff S B) w a w' : m w = Ok (a, w') -> (m ≫= k) w = k a w'.
Proof. intros E. unfold mbind, Eff_bind. by rewrite E. Qed.

Lemma tm_rd_ok {A} (l : list A) i x w : l !! Z.to_nat i = Some x -> rd l i w = Ok (x, w).
Proof. intros H. unfold rd. by rewrite H. Qed.

Lemma tm_wr_ok {A} (l : list A) i x w : (Z.to_nat i < length l)%nat -> wr l i x w = Ok (<[Z.to_nat i := x]> l, w).
Proof. intros H. unfold wr. by rewrite (proj2 (Nat.ltb_lt _ _) H). Qed.

Lemma tm_rds_ok l off n w : (off + n <= length l)%nat -> rds l off n w = Ok (sub off n l, w).
Proof. intros H. unfold rds. by rewrite (proj2 (Nat.leb_le _ _) H). Qed.

Lemma tm_wrs_ok l off bs w : (off + length bs <= length l)%nat -> wrs l off bs w = Ok (splice off bs l, w).
Proof. intros H. unfold wrs. by rewrite (proj2 (Nat.leb_le _ _) H). Qed.

(** ** The logic *)

(** [m] does not fault in [w], and [Q] holds of its result. *)
Definition wp {A} (m : Eff S A) (Q : A -> S -> Prop) (w : S) : Prop :=
  match m w with Ok (a, w') => Q a w' | Fault _ => False end.

Lemma wp_run {A} (m : Eff S A) (Q : A -> S -> Prop) w : wp m Q w -> exists a w', m w = Ok (a, w') /\ Q a w'.
Proof. unfold wp. destruct (m w) as [[a w']|]; [|done]. intros H. by exists a, w'. Qed.

Lemma wp_bind {A B} (m : Eff S A) (k : A -> Eff S B) Q w : wp m (fun a w' => wp (k a) Q w') w -> wp (m ≫= k) Q w.
Proof. unfold wp, mbind, Eff_bind. by destruct (m w) as [[a w']|]. Qed.

Lemma wp_mono {A} (m : Eff S A) (Q R : A -> S -> Prop) w : wp m Q w -> (forall a w', Q a w' -> R a w') -> wp m R w.
Proof. unfold wp. destruct (m w) as [[a w']|]; auto. Qed.

Lemma wp_and {A} (m : Eff S A) (Q R : A -> S -> Prop) w : wp m Q w -> wp m R w -> wp m (fun a w' => Q a w' /\ R a w') w.
Proof. unfold wp. by destruct (m w) as [[a w']|]. Qed.

Lemma wp_rd {A} (l : list A) i x Q w : l !! Z.to_nat i = Some x -> Q x w -> wp (rd l i) Q w.
Proof. intros H HQ. unfold wp. by rewrite (tm_rd_ok l i x). Qed.

Lemma wp_wr {A} (l : list A) i x Q w : (Z.to_nat i < length l)%nat -> Q (<[Z.to_nat i := x]> l) w -> wp (wr l i x) Q w.
Proof. intros H HQ. unfold wp. by rewrite tm_wr_ok. Qed.

Lemma wp_rds l off n Q w : (off + n <= length l)%nat -> Q (sub off n l) w -> wp (rds l off n) Q w.
Proof. intros H HQ. unfold wp. by rewrite tm_rds_ok. Qed.

Lemma wp_wrs l off bs Q w : (off + length bs <= length l)%nat -> Q (splice off bs l) w -> wp (wrs l off bs) Q w.
Proof. intros H HQ. unfold wp. by rewrite tm_wrs_ok. Qed.

Lemma rd_at (l : list Z) i (Q : Z -> S -> Prop) w : (Z.to_nat i < length l)%nat -> Q (at_ l (Z.to_nat i)) w -> wp (rd l i) Q w.
Proof. intros Hi HQ. destruct (lookup_lt_is_Some_2 l _ Hi) as [x Hx]. eapply wp_rd; [exact Hx|]. unfold at_ in HQ. by rewrite Hx in HQ. Qed.

(** [Q] holds of the result of [m] in [w] unless it faults. *)
Definition wlp {A} (m : Eff S A) (Q : A -> S -> Prop) (w : S) : Prop :=
  match m w with Ok (a, w') => Q a w' | Fault _ => True end.

Lemma wlp_run {A} (m : Eff S A) (Q : A -> S -> Prop) w a w' : wlp m Q w -> m w = Ok (a, w') -> Q a w'.
Proof. unfold wlp. intros H E. by rewrite E in H. Qed.

Lemma wlp_wp {A} (m : Eff S A) (Q : A -> S -> Prop) w : wp m Q w -> wlp m Q w.
Proof. unfold wp, wlp. by destruct (m w) as [[a w']|]. Qed.

Lemma wlp_bind {A B} (m : Eff S A) (k : A -> Eff S B) Q w : wlp m (fun a w' => wlp (k a) Q w') w -> wlp (m ≫= k) Q w.
Proof. unfold wlp, mbind, Eff_bind. by destruct (m w) as [[a w']|]. Qed.

Lemma wlp_mono {A} (m : Eff S A) (Q R : A -> S -> Prop) w : wlp m Q w -> (forall a w', Q a w' -> R a w') -> wlp m R w.
Proof. unfold wlp. destruct (m w) as [[a w']|]; auto. Qed.

Lemma wlp_rd {A} (l : list A) i Q w : (forall x, l !! Z.to_nat i = Some x -> Q x w) -> wlp (rd l i) Q w.
Proof. intros HQ. unfold wlp, rd. destruct (l !! Z.to_nat i) as [x|] eqn:E; [by apply HQ|done]. Qed.

Lemma wlp_wr {A} (l : list A) i x Q w : ((Z.to_nat i < length l)%nat -> Q (<[Z.to_nat i := x]> l) w) -> wlp (wr l i x) Q w.
Proof. intros HQ. unfold wlp, wr. destruct (Nat.ltb_spec (Z.to_nat i) (length l)); [by apply HQ|done]. Qed.

Lemma wlp_rds l off n Q w : ((off + n <= length l)%nat -> Q (sub off n l) w) -> wlp (rds l off n) Q w.
Proof. intros HQ. unfold wlp, rds. destruct (Nat.leb_spec (off + n) (length l)); [by apply HQ|done]. Qed.

Lemma wlp_wrs l off bs Q w : ((off + length bs <= length l)%nat -> Q (splice off bs l) w) -> wlp (wrs l off bs) Q w.
Proof. intros HQ. unfold wlp, wrs. destruct (Nat.leb_spec (off + length bs) (length l)); [by apply HQ|done]. Qed.

(** The primitive steps at the head of a computation. *)
Context {B : Type} (k : unit -> Eff S B) (Q : B -> S -> Prop) (R : unit -> S -> Prop) (w : S).
Lemma step_get (k' : S -> Eff S B) : wp (k' w) Q w -> wp (get ≫= k') Q w.
Proof. done. Qed.
Lemma step_modify f : wp (k tt) Q (f w) -> wp (modify f ≫= k) Q w.
Proof. done. Qed.
Lemma step_ret {A} (a : A) (k' : A -> Eff S B) : wp (k' a) Q w -> wp (mret a ≫= k') Q w.
Proof. done. Qed.
Lemma end_ret (b : B) : Q b w -> wp (mret b) Q w.
Proof. done. Qed.
Lemma end_modify f : R tt (f w) -> wp (modify f) R w.
Proof. done. Qed.
End Running.

(** ** Several components *)

(** One component of a system runs. *)
Definition on {S A} (m : Eff S unit) (w : S) (k : S -> res A) : res A :=
  match m w with Ok (_, w') => k w' | Fault e => Fault e end.

Lemma on_wp {S A} (m : Eff S unit) w (k : S -> res A) (Q : S -> Prop) : wp m (fun _ => Q) w -> exists w', Q w' /\ on m w k = k w'.
Proof. unfold wp, on. destruct (m w) as [[[] w']|]; [|done]. intros H. by exists w'. Qed.

(** A system makes steps until none is left. *)
Fixpoint iterate {N} (step : N -> res (option N)) (fuel : nat) (s : N) : res N :=
  match fuel with
  | O => Fault OutOfFuel
  | S fuel => match step s with Ok (Some s') => iterate step fuel s' | Ok None => Ok s | Fault e => Fault e end
  end.

Definition reaches {N} (step : N -> res (option N)) : relation N := rtc (fun s s' => step s = Ok (Some s')).

Lemma reaches_iterate {N} (step : N -> res (option N)) s s' : reaches step s s' -> step s' = Ok None ->
  exists n, forall fuel, (n <= fuel)%nat -> iterate step fuel s = Ok s'.
Proof.
  intros H E. induction H as [s|s s1 s2 Hs H IH].
  - exists 1%nat. intros [|n] Hn; [lia|]. cbn [iterate]. by rewrite E.
  - destruct (IH E) as [n Hn]. exists (S n). intros [|m] Hm; [lia|]. cbn [iterate]. rewrite Hs. apply Hn. lia.
Qed.

End Effects.
