(* ===== verification/Transport.v ===== *)
(** * The transport service (libs2/transport_service/transport_service2.c, transport2_fsm.c)

    Datagrams too long for one radio frame are cut into fragments, each with a CRC; the receiver
    marks the bytes it has, asks for the first missing one when a timer expires or the last fragment
    has arrived, and confirms the whole datagram.  Every function of the two files in the gateway's
    build (ZIPGW), with the static control blocks, the timers and the transition table.  The timers
    are fields that say whether they run, [expire] runs their callbacks; frames given to the radio
    and calls of the application are a trace. *)
From S2P Require Import Prelude Effects.
Export Effects.

Module Transport.

(** ** The checksum (src/utls/zgw_crc.c) *)

Definition CRC_POLY : Z := 0x1021.

Definition crc_bit (crc_data : Z) (crc16 bitmask : Z) : Z :=
  let new_bit := xorb (has_bits crc_data bitmask) (has_bits crc16 0x8000) in
  let crc16 := u16 (Z.shiftl crc16 1) in
  if new_bit then Z.lxor crc16 CRC_POLY else crc16.

Definition crc_byte (crc16 crc_data : Z) : Z :=
  foldl (crc_bit crc_data) crc16 [0x80; 0x40; 0x20; 0x10; 0x08; 0x04; 0x02; 0x01].

Definition zgw_crc16 (crc16 : Z) (data : list Z) : Z := foldl crc_byte crc16 data.

(** ** Constants *)

Definition COMMAND_CLASS_TRANSPORT_SERVICE : Z := 0x55.
Definition COMMAND_FIRST_FRAGMENT : Z := 0xC0.
Definition COMMAND_SUBSEQUENT_FRAGMENT : Z := 0xE0.
Definition COMMAND_SEGMENT_COMPLETE_V2 : Z := 0xE8.
Definition COMMAND_SEGMENT_REQUEST_V2 : Z := 0xC8.
Definition COMMAND_SEGMENT_WAIT_V2 : Z := 0xF0.
Definition FRAGMENT_FC_TIMEOUT : Z := 1000.
Definition FRAGMENT_RX_TIMEOUT : Z := 800.
Definition DATAGRAM_SIZE_MAX : Z := 200.
Definition FRAGMENTMAXPAYLOAD : Z := 47.
Definition RESET_TIME : Z := 5000.
Definition TRANSMIT_OPTION_ACK : Z := 0x01.
Definition TRANSMIT_OPTION_AUTO_ROUTE : Z := 0x04.
Definition TRANSMIT_OPTION_NO_ROUTE : Z := 0x10.
Definition TRANSMIT_OPTION_EXPLORE : Z := 0x20.
Definition RECEIVE_STATUS_TYPE_SINGLE : Z := 0x00.
Definition RECEIVE_STATUS_TYPE_BROAD : Z := 0x04.
Definition NO_SCHEME : Z := 0xFF.
Definition S2_TRANSMIT_COMPLETE_OK : Z := 0x00.
Definition S2_TRANSMIT_COMPLETE_FAIL : Z := 0x02.

(** Sizes of the frame structures with their one byte of payload. *)
Definition sizeof_first_frag : Z := 7.
Definition sizeof_subseq_frag : Z := 8.
Definition FIRST_FRAG_NONPAYLOAD_LENGTH : Z := sizeof_first_frag - 1.
Definition SUBSEQ_FRAG_NONPAYLOAD_LENGTH : Z := sizeof_subseq_frag - 1.
Definition FIRST_HDR_LEN : nat := 4.
Definition SUBSEQ_HDR_LEN : nat := 5.
Definition TXBUF_SIZE : nat := 54.
Definition BITMASK_SIZE : nat := 26.

(** ** The state machine (transport2_fsm.c) *)

Inductive TRANSPORT2_ST_T :=
| ST_IDLE | ST_RECEIVING | ST_SEND_FRAG_COMPLETE | ST_SEND_FRAG_REQ | ST_SEND_FRAG_WAIT | ST_FIND_MISS_FRAG
| ST_SEND_FRAG | ST_SEND_LAST_FRAG | ST_WAIT_ACK.

Inductive TRANSPORT2_EV_T :=
| EV_START_RECV | EV_RECV_NEW_FRAG | EV_NO_SESSION_ID | EV_SEND_FRAG_COMPLETE
| EV_NO_SEND_FRAG_COMPLETE | EV_SUCCESS | EV_SUCCESS2 | EV_SUCCESS3 | EV_FRAG_RX_TIMER
| EV_MISSING_FRAG | EV_MISSING_FRAG_BCAST | EV_SCAST_DIFF_NODE | EV_BCAST_DIFF_NODE
| EV_DIFF_SESSION | EV_SUBSEQ_DIFF_SESSION | EV_FRAG_REQ_COMPL_WAIT_DIFF_SESSION
| EV_FRAG_REQ_COMPL_WAIT_DIFF_NODE | EV_RECV_FRAG_REQ | EV_RECV_LAST_FRAG | EV_RECV_FRAG_COMPLETE
| EV_TIE_BREAK | EV_DUPL_FRAME | EV_FRAG_REQ_OR_COMPL | EV_START_SEND | EV_SEND_NEW_FRAG
| EV_SEND_NXT_MISS_FRAG | EV_SENT_MISS_FRAG | EV_RECV_FRAG_WAIT | EV_SEND_LAST_FRAG
| EV_SEND_LAST_MISS_FRAG | EV_FRAG_COMPL_TIMER | EV_FRAG_COMPL_TIMER2 | EV_FRAG_COMPL_TIMER_REQ
| EV_FAILURE_LAST_FRAG2 | EV_RECV_FRAG_COMPL | EV_REPLY_FRAG_REQ_DONE | EV_FAIL.

#[global] Instance ST_eq_dec : EqDecision TRANSPORT2_ST_T.
Proof. solve_decision. Defined.
#[global] Instance EV_eq_dec : EqDecision TRANSPORT2_EV_T.
Proof. solve_decision. Defined.

(** The transition table: state, event, next state. *)
Definition trans : list (TRANSPORT2_ST_T * TRANSPORT2_EV_T * TRANSPORT2_ST_T) :=
  [(ST_IDLE, EV_START_RECV, ST_RECEIVING);
   (ST_IDLE, EV_START_SEND, ST_SEND_FRAG);
   (ST_IDLE, EV_SEND_NEW_FRAG, ST_SEND_FRAG);
   (ST_SEND_FRAG, EV_SEND_NEW_FRAG, ST_SEND_FRAG);
   (ST_RECEIVING, EV_SEND_NEW_FRAG, ST_SEND_FRAG);
   (ST_WAIT_ACK, EV_SEND_NEW_FRAG, ST_SEND_FRAG);
   (ST_RECEIVING, EV_RECV_NEW_FRAG, ST_RECEIVING);
   (ST_RECEIVING, EV_DUPL_FRAME, ST_IDLE);
   (ST_RECEIVING, EV_NO_SESSION_ID, ST_SEND_FRAG_WAIT);
   (ST_RECEIVING, EV_SCAST_DIFF_NODE, ST_SEND_FRAG_WAIT);
   (ST_SEND_FRAG, EV_SCAST_DIFF_NODE, ST_SEND_FRAG_WAIT);
   (ST_WAIT_ACK, EV_SCAST_DIFF_NODE, ST_SEND_FRAG_WAIT);
   (ST_RECEIVING, EV_DIFF_SESSION, ST_IDLE);
   (ST_RECEIVING, EV_SUBSEQ_DIFF_SESSION, ST_SEND_FRAG_WAIT);
   (ST_RECEIVING, EV_FRAG_REQ_COMPL_WAIT_DIFF_NODE, ST_IDLE);
   (ST_RECEIVING, EV_FRAG_REQ_COMPL_WAIT_DIFF_SESSION, ST_IDLE);
   (ST_SEND_FRAG_WAIT, EV_SUCCESS, ST_RECEIVING);
   (ST_SEND_FRAG_WAIT, EV_SUCCESS2, ST_SEND_FRAG);
   (ST_SEND_FRAG_WAIT, EV_SUCCESS3, ST_WAIT_ACK);
   (ST_SEND_FRAG_COMPLETE, EV_SUCCESS, ST_IDLE);
   (ST_SEND_FRAG_REQ, EV_SUCCESS, ST_RECEIVING);
   (ST_RECEIVING, EV_FRAG_RX_TIMER, ST_FIND_MISS_FRAG);
   (ST_IDLE, EV_FRAG_RX_TIMER, ST_IDLE);
   (ST_RECEIVING, EV_BCAST_DIFF_NODE, ST_RECEIVING);
   (ST_RECEIVING, EV_RECV_LAST_FRAG, ST_FIND_MISS_FRAG);
   (ST_WAIT_ACK, EV_SEND_FRAG_COMPLETE, ST_SEND_FRAG_COMPLETE);
   (ST_RECEIVING, EV_RECV_FRAG_COMPL, ST_IDLE);
   (ST_WAIT_ACK, EV_FRAG_REQ_OR_COMPL, ST_WAIT_ACK);
   (ST_WAIT_ACK, EV_FRAG_RX_TIMER, ST_IDLE);
   (ST_RECEIVING, EV_FRAG_REQ_OR_COMPL, ST_RECEIVING);
   (ST_SEND_FRAG, EV_FRAG_REQ_OR_COMPL, ST_RECEIVING);
   (ST_FIND_MISS_FRAG, EV_MISSING_FRAG, ST_SEND_FRAG_REQ);
   (ST_FIND_MISS_FRAG, EV_MISSING_FRAG_BCAST, ST_IDLE);
   (ST_FIND_MISS_FRAG, EV_SEND_FRAG_COMPLETE, ST_SEND_FRAG_COMPLETE);
   (ST_FIND_MISS_FRAG, EV_NO_SEND_FRAG_COMPLETE, ST_IDLE);
   (ST_SEND_FRAG, EV_RECV_FRAG_WAIT, ST_SEND_FRAG);
   (ST_RECEIVING, EV_RECV_FRAG_WAIT, ST_SEND_FRAG);
   (ST_SEND_FRAG, EV_SEND_LAST_FRAG, ST_SEND_LAST_FRAG);
   (ST_SEND_FRAG, EV_SEND_LAST_MISS_FRAG, ST_SEND_LAST_FRAG);
   (ST_SEND_LAST_FRAG, EV_SUCCESS, ST_WAIT_ACK);
   (ST_WAIT_ACK, EV_FRAG_COMPL_TIMER, ST_SEND_LAST_FRAG);
   (ST_WAIT_ACK, EV_FRAG_COMPL_TIMER_REQ, ST_IDLE);
   (ST_WAIT_ACK, EV_FRAG_COMPL_TIMER2, ST_IDLE);
   (ST_WAIT_ACK, EV_FAILURE_LAST_FRAG2, ST_IDLE);
   (ST_WAIT_ACK, EV_RECV_FRAG_REQ, ST_SEND_FRAG);
   (ST_RECEIVING, EV_RECV_FRAG_REQ, ST_SEND_FRAG);
   (ST_WAIT_ACK, EV_RECV_FRAG_COMPL, ST_IDLE);
   (ST_SEND_FRAG, EV_SEND_NXT_MISS_FRAG, ST_SEND_FRAG);
   (ST_SEND_FRAG, EV_FRAG_COMPL_TIMER, ST_IDLE);
   (ST_SEND_FRAG, EV_FRAG_COMPL_TIMER_REQ, ST_IDLE);
   (ST_SEND_FRAG, EV_SENT_MISS_FRAG, ST_WAIT_ACK);
   (ST_SEND_FRAG, EV_TIE_BREAK, ST_RECEIVING);
   (ST_SEND_LAST_FRAG, EV_TIE_BREAK, ST_RECEIVING);
   (ST_WAIT_ACK, EV_RECV_FRAG_WAIT, ST_SEND_FRAG);
   (ST_SEND_LAST_FRAG, EV_FAIL, ST_IDLE);
   (ST_WAIT_ACK, EV_TIE_BREAK, ST_RECEIVING)].

(** ** State *)

(** The parameters of a transmission (the fields the transport service reads). *)
Record ts_param_t := mkParam {
  snode : Z; dnode : Z; sendpoint : Z; dendpoint : Z; tx_flags : Z; rx_flags : Z; scheme : Z
}.

(** [TX_STATUS_TYPE], which is only copied: its bytes, or cleared. *)
Definition TX_STATUS_TYPE : Type := option (list Z).

(** The sending control block; [cmn] of the source is spread over the fields [s_p] to
    [s_pending_segments].  A callback is a number, [datagram] the memory of the caller. *)
Record sending_cntrl_blk := mkScb {
  s_p : ts_param_t; completedFunc : option Z; tx_status : TX_STATUS_TYPE; s_session_id : Z;
  s_pending_segments : Z; datalen_to_send : Z; missing_offset : Z; offset : Z; remaining_data_len : Z;
  datagram : list Z; datagram_len : Z; sending : bool; flag_replied_frag_req : bool;
  transmission_aborted : Z; frag_compl_list : list bool; flag_send_frag_wait : bool;
  flag_reply_frag_req : bool; frag_wait_p : ts_param_t; round_trip_first_frag : Z;
  flag_fc_timer_expired_once : Z; current_dnode : Z; does_not_fit_in_first_frag : bool
}.

Definition set_s_p (x : ts_param_t) (s : sending_cntrl_blk) : sending_cntrl_blk :=
  mkScb x (completedFunc s) (tx_status s) (s_session_id s) (s_pending_segments s) (datalen_to_send s)
    (missing_offset s) (offset s) (remaining_data_len s) (datagram s) (datagram_len s) (sending s)
    (flag_replied_frag_req s) (transmission_aborted s) (frag_compl_list s) (flag_send_frag_wait s)
    (flag_reply_frag_req s) (frag_wait_p s) (round_trip_first_frag s) (flag_fc_timer_expired_once s)
    (current_dnode s) (does_not_fit_in_first_frag s).
Definition set_completedFunc (x : option Z) (s : sending_cntrl_blk) : sending_cntrl_blk :=
  mkScb (s_p s) x (tx_status s) (s_session_id s) (s_pending_segments s) (datalen_to_send s)
    (missing_offset s) (offset s) (remaining_data_len s) (datagram s) (datagram_len s) (sending s)
    (flag_replied_frag_req s) (transmission_aborted s) (frag_compl_list s) (flag_send_frag_wait s)
    (flag_reply_frag_req s) (frag_wait_p s) (round_trip_first_frag s) (flag_fc_timer_expired_once s)
    (current_dnode s) (does_not_fit_in_first_frag s).
Definition set_tx_status (x : TX_STATUS_TYPE) (s : sending_cntrl_blk) : sending_cntrl_blk :=
  mkScb (s_p s) (completedFunc s) x (s_session_id s) (s_pending_segments s) (datalen_to_send s)
    (missing_offset s) (offset s) (remaining_data_len s) (datagram s) (datagram_len s) (sending s)
    (flag_replied_frag_req s) (transmission_aborted s) (frag_compl_list s) (flag_send_frag_wait s)
    (flag_reply_frag_req s) (frag_wait_p s) (round_trip_first_frag s) (flag_fc_timer_expired_once s)
    (current_dnode s) (does_not_fit_in_first_frag s).
Definition set_s_session_id (x : Z) (s : sending_cntrl_blk) : sending_cntrl_blk :=
  mkScb (s_p s) (completedFunc s) (tx_status s) x (s_pending_segments s) (datalen_to_send s)
    (missing_offset s) (offset s) (remaining_data_len s) (datagram s) (datagram_len s) (sending s)
    (flag_replied_frag_req s) (transmission_aborted s) (frag_compl_list s) (flag_send_frag_wait s)
    (flag_reply_frag_req s) (frag_wait_p s) (round_trip_first_frag s) (flag_fc_timer_expired_once s)
    (current_dnode s) (does_not_fit_in_first_frag s).
Definition set_s_pending_segments (x : Z) (s : sending_cntrl_blk) : sending_cntrl_blk :=
  mkScb (s_p s) (completedFunc s) (tx_status s) (s_session_id s) x (datalen_to_send s)
    (missing_offset s) (offset s) (remaining_data_len s) (datagram s) (datagram_len s) (sending s)
    (flag_replied_frag_req s) (transmission_aborted s) (frag_compl_list s) (flag_send_frag_wait s)
    (flag_reply_frag_req s) (frag_wait_p s) (round_trip_first_frag s) (flag_fc_timer_expired_once s)
    (current_dnode s) (does_not_fit_in_first_frag s).
Definition set_datalen_to_send (x : Z) (s : sending_cntrl_blk) : sending_cntrl_blk :=
  mkScb (s_p s) (completedFunc s) (tx_status s) (s_session_id s) (s_pending_segments s) x
    (missing_offset s) (offset s) (remaining_data_len s) (datagram s) (datagram_len s) (sending s)
    (flag_replied_frag_req s) (transmission_aborted s) (frag_compl_list s) (flag_send_frag_wait s)
    (flag_reply_frag_req s) (frag_wait_p s) (round_trip_first_frag s) (flag_fc_timer_expired_once s)
    (current_dnode s) (does_not_fit_in_first_frag s).
Definition set_missing_offset (x : Z) (s : sending_cntrl_blk) : sending_cntrl_blk :=
  mkScb (s_p s) (completedFunc s) (tx_status s) (s_session_id s) (s_pending_segments s)
    (datalen_to_send s) x (offset s) (remaining_data_len s) (datagram s) (datagram_len s) (sending s)
    (flag_replied_frag_req s) (transmission_aborted s) (frag_compl_list s) (flag_send_frag_wait s)
    (flag_reply_frag_req s) (frag_wait_p s) (round_trip_first_frag s) (flag_fc_timer_expired_once s)
    (current_dnode s) (does_not_fit_in_first_frag s).
Definition set_offset (x : Z) (s : sending_cntrl_blk) : sending_cntrl_blk :=
  mkScb (s_p s) (completedFunc s) (tx_status s) (s_session_id s) (s_pending_segments s)
    (datalen_to_send s) (missing_offset s) x (remaining_data_len s) (datagram s) (datagram_len s)
    (sending s) (flag_replied_frag_req s) (transmission_aborted s) (frag_compl_list s)
    (flag_send_frag_wait s) (flag_reply_frag_req s) (frag_wait_p s) (round_trip_first_frag s)
    (flag_fc_timer_expired_once s) (current_dnode s) (does_not_fit_in_first_frag s).
Definition set_remaining_data_len (x : Z) (s : sending_cntrl_blk) : sending_cntrl_blk :=
  mkScb (s_p s) (completedFunc s) (tx_status s) (s_session_id s) (s_pending_segments s)
    (datalen_to_send s) (missing_offset s) (offset s) x (datagram s) (datagram_len s) (sending s)
    (flag_replied_frag_req s) (transmission_aborted s) (frag_compl_list s) (flag_send_frag_wait s)
    (flag_reply_frag_req s) (frag_wait_p s) (round_trip_first_frag s) (flag_fc_timer_expired_once s)
    (current_dnode s) (does_not_fit_in_first_frag s).
Definition set_datagram (x : list Z) (s : sending_cntrl_blk) : sending_cntrl_blk :=
  mkScb (s_p s) (completedFunc s) (tx_status s) (s_session_id s) (s_pending_segments s)
    (datalen_to_send s) (missing_offset s) (offset s) (remaining_data_len s) x (datagram_len s)
    (sending s) (flag_replied_frag_req s) (transmission_aborted s) (frag_compl_list s)
    (flag_send_frag_wait s) (flag_reply_frag_req s) (frag_wait_p s) (round_trip_first_frag s)
    (flag_fc_timer_expired_once s) (current_dnode s) (does_not_fit_in_first_frag s).
Definition set_datagram_len (x : Z) (s : sending_cntrl_blk) : sending_cntrl_blk :=
  mkScb (s_p s) (completedFunc s) (tx_status s) (s_session_id s) (s_pending_segments s)
    (datalen_to_send s) (missing_offset s) (offset s) (remaining_data_len s) (datagram s) x (sending s)
    (flag_replied_frag_req s) (transmission_aborted s) (frag_compl_list s) (flag_send_frag_wait s)
    (flag_reply_frag_req s) (frag_wait_p s) (round_trip_first_frag s) (flag_fc_timer_expired_once s)
    (current_dnode s) (does_not_fit_in_first_frag s).
Definition set_sending (x : bool) (s : sending_cntrl_blk) : sending_cntrl_blk :=
  mkScb (s_p s) (completedFunc s) (tx_status s) (s_session_id s) (s_pending_segments s)
    (datalen_to_send s) (missing_offset s) (offset s) (remaining_data_len s) (datagram s)
    (datagram_len s) x (flag_replied_frag_req s) (transmission_aborted s) (frag_compl_list s)
    (flag_send_frag_wait s) (flag_reply_frag_req s) (frag_wait_p s) (round_trip_first_frag s)
    (flag_fc_timer_expired_once s) (current_dnode s) (does_not_fit_in_first_frag s).
Definition set_flag_replied_frag_req (x : bool) (s : sending_cntrl_blk) : sending_cntrl_blk :=
  mkScb (s_p s) (completedFunc s) (tx_status s) (s_session_id s) (s_pending_segments s)
    (datalen_to_send s) (missing_offset s) (offset s) (remaining_data_len s) (datagram s)
    (datagram_len s) (sending s) x (transmission_aborted s) (frag_compl_list s) (flag_send_frag_wait s)
    (flag_reply_frag_req s) (frag_wait_p s) (round_trip_first_frag s) (flag_fc_timer_expired_once s)
    (current_dnode s) (does_not_fit_in_first_frag s).
Definition set_transmission_aborted (x : Z) (s : sending_cntrl_blk) : sending_cntrl_blk :=
  mkScb (s_p s) (completedFunc s) (tx_status s) (s_session_id s) (s_pending_segments s)
    (datalen_to_send s) (missing_offset s) (offset s) (remaining_data_len s) (datagram s)
    (datagram_len s) (sending s) (flag_replied_frag_req s) x (frag_compl_list s) (flag_send_frag_wait s)
    (flag_reply_frag_req s) (frag_wait_p s) (round_trip_first_frag s) (flag_fc_timer_expired_once s)
    (current_dnode s) (does_not_fit_in_first_frag s).
Definition set_frag_compl_list (x : list bool) (s : sending_cntrl_blk) : sending_cntrl_blk :=
  mkScb (s_p s) (completedFunc s) (tx_status s) (s_session_id s) (s_pending_segments s)
    (datalen_to_send s) (missing_offset s) (offset s) (remaining_data_len s) (datagram s)
    (datagram_len s) (sending s) (flag_replied_frag_req s) (transmission_aborted s) x
    (flag_send_frag_wait s) (flag_reply_frag_req s) (frag_wait_p s) (round_trip_first_frag s)
    (flag_fc_timer_expired_once s) (current_dnode s) (does_not_fit_in_first_frag s).
Definition set_flag_send_frag_wait (x : bool) (s : sending_cntrl_blk) : sending_cntrl_blk :=
  mkScb (s_p s) (completedFunc s) (tx_status s) (s_session_id s) (s_pending_segments s)
    (datalen_to_send s) (missing_offset s) (offset s) (remaining_data_len s) (datagram s)
    (datagram_len s) (sending s) (flag_replied_frag_req s) (transmission_aborted s) (frag_compl_list s)
    x (flag_reply_frag_req s) (frag_wait_p s) (round_trip_first_frag s) (flag_fc_timer_expired_once s)
    (current_dnode s) (does_not_fit_in_first_frag s).
Definition set_flag_reply_frag_req (x : bool) (s : sending_cntrl_blk) : sending_cntrl_blk :=
  mkScb (s_p s) (completedFunc s) (tx_status s) (s_session_id s) (s_pending_segments s)
    (datalen_to_send s) (missing_offset s) (offset s) (remaining_data_len s) (datagram s)
    (datagram_len s) (sending s) (flag_replied_frag_req s) (transmission_aborted s) (frag_compl_list s)
    (flag_send_frag_wait s) x (frag_wait_p s) (round_trip_first_frag s) (flag_fc_timer_expired_once s)
    (current_dnode s) (does_not_fit_in_first_frag s).
Definition set_frag_wait_p (x : ts_param_t) (s : sending_cntrl_blk) : sending_cntrl_blk :=
  mkScb (s_p s) (completedFunc s) (tx_status s) (s_session_id s) (s_pending_segments s)
    (datalen_to_send s) (missing_offset s) (offset s) (remaining_data_len s) (datagram s)
    (datagram_len s) (sending s) (flag_replied_frag_req s) (transmission_aborted s) (frag_compl_list s)
    (flag_send_frag_wait s) (flag_reply_frag_req s) x (round_trip_first_frag s)
    (flag_fc_timer_expired_once s) (current_dnode s) (does_not_fit_in_first_frag s).
Definition set_round_trip_first_frag (x : Z) (s : sending_cntrl_blk) : sending_cntrl_blk :=
  mkScb (s_p s) (completedFunc s) (tx_status s) (s_session_id s) (s_pending_segments s)
    (datalen_to_send s) (missing_offset s) (offset s) (remaining_data_len s) (datagram s)
    (datagram_len s) (sending s) (flag_replied_frag_req s) (transmission_aborted s) (frag_compl_list s)
    (flag_send_frag_wait s) (flag_reply_frag_req s) (frag_wait_p s) x (flag_fc_timer_expired_once s)
    (current_dnode s) (does_not_fit_in_first_frag s).
Definition set_flag_fc_timer_expired_once (x : Z) (s : sending_cntrl_blk) : sending_cntrl_blk :=
  mkScb (s_p s) (completedFunc s) (tx_status s) (s_session_id s) (s_pending_segments s)
    (datalen_to_send s) (missing_offset s) (offset s) (remaining_data_len s) (datagram s)
    (datagram_len s) (sending s) (flag_replied_frag_req s) (transmission_aborted s) (frag_compl_list s)
    (flag_send_frag_wait s) (flag_reply_frag_req s) (frag_wait_p s) (round_trip_first_frag s) x
    (current_dnode s) (does_not_fit_in_first_frag s).
Definition set_current_dnode (x : Z) (s : sending_cntrl_blk) : sending_cntrl_blk :=
  mkScb (s_p s) (completedFunc s) (tx_status s) (s_session_id s) (s_pending_segments s)
    (datalen_to_send s) (missing_offset s) (offset s) (remaining_data_len s) (datagram s)
    (datagram_len s) (sending s) (flag_replied_frag_req s) (transmission_aborted s) (frag_compl_list s)
    (flag_send_frag_wait s) (flag_reply_frag_req s) (frag_wait_p s) (round_trip_first_frag s)
    (flag_fc_timer_expired_once s) x (does_not_fit_in_first_frag s).
Definition set_does_not_fit_in_first_frag (x : bool) (s : sending_cntrl_blk) : sending_cntrl_blk :=
  mkScb (s_p s) (completedFunc s) (tx_status s) (s_session_id s) (s_pending_segments s)
    (datalen_to_send s) (missing_offset s) (offset s) (remaining_data_len s) (datagram s)
    (datagram_len s) (sending s) (flag_replied_frag_req s) (transmission_aborted s) (frag_compl_list s)
    (flag_send_frag_wait s) (flag_reply_frag_req s) (frag_wait_p s) (round_trip_first_frag s)
    (flag_fc_timer_expired_once s) (current_dnode s) x.

(** The receiving control block. *)
Record receiving_cntrl_blk := mkRcb {
  r_p : ts_param_t; r_session_id : Z; r_pending_segments : Z; fragment : list Z; fragment_len : Z;
  flag_retry_frag_req_once : Z; rx_data_state : bool; recv_frag_compl_list : list bool;
  datagramData : list Z; cur_recvd_data_size : Z; current_snode : Z; bytes_recvd_bitmask : list Z;
  datagram_size : Z
}.

Definition set_r_p (x : ts_param_t) (r : receiving_cntrl_blk) : receiving_cntrl_blk :=
  mkRcb x (r_session_id r) (r_pending_segments r) (fragment r) (fragment_len r)
    (flag_retry_frag_req_once r) (rx_data_state r) (recv_frag_compl_list r) (datagramData r)
    (cur_recvd_data_size r) (current_snode r) (bytes_recvd_bitmask r) (datagram_size r).
Definition set_r_session_id (x : Z) (r : receiving_cntrl_blk) : receiving_cntrl_blk :=
  mkRcb (r_p r) x (r_pending_segments r) (fragment r) (fragment_len r) (flag_retry_frag_req_once r)
    (rx_data_state r) (recv_frag_compl_list r) (datagramData r) (cur_recvd_data_size r)
    (current_snode r) (bytes_recvd_bitmask r) (datagram_size r).
Definition set_r_pending_segments (x : Z) (r : receiving_cntrl_blk) : receiving_cntrl_blk :=
  mkRcb (r_p r) (r_session_id r) x (fragment r) (fragment_len r) (flag_retry_frag_req_once r)
    (rx_data_state r) (recv_frag_compl_list r) (datagramData r) (cur_recvd_data_size r)
    (current_snode r) (bytes_recvd_bitmask r) (datagram_size r).
Definition set_fragment (x : list Z) (r : receiving_cntrl_blk) : receiving_cntrl_blk :=
  mkRcb (r_p r) (r_session_id r) (r_pending_segments r) x (fragment_len r) (flag_retry_frag_req_once r)
    (rx_data_state r) (recv_frag_compl_list r) (datagramData r) (cur_recvd_data_size r)
    (current_snode r) (bytes_recvd_bitmask r) (datagram_size r).
Definition set_fragment_len (x : Z) (r : receiving_cntrl_blk) : receiving_cntrl_blk :=
  mkRcb (r_p r) (r_session_id r) (r_pending_segments r) (fragment r) x (flag_retry_frag_req_once r)
    (rx_data_state r) (recv_frag_compl_list r) (datagramData r) (cur_recvd_data_size r)
    (current_snode r) (bytes_recvd_bitmask r) (datagram_size r).
Definition set_flag_retry_frag_req_once (x : Z) (r : receiving_cntrl_blk) : receiving_cntrl_blk :=
  mkRcb (r_p r) (r_session_id r) (r_pending_segments r) (fragment r) (fragment_len r) x
    (rx_data_state r) (recv_frag_compl_list r) (datagramData r) (cur_recvd_data_size r)
    (current_snode r) (bytes_recvd_bitmask r) (datagram_size r).
Definition set_rx_data_state (x : bool) (r : receiving_cntrl_blk) : receiving_cntrl_blk :=
  mkRcb (r_p r) (r_session_id r) (r_pending_segments r) (fragment r) (fragment_len r)
    (flag_retry_frag_req_once r) x (recv_frag_compl_list r) (datagramData r) (cur_recvd_data_size r)
    (current_snode r) (bytes_recvd_bitmask r) (datagram_size r).
Definition set_recv_frag_compl_list (x : list bool) (r : receiving_cntrl_blk) : receiving_cntrl_blk :=
  mkRcb (r_p r) (r_session_id r) (r_pending_segments r) (fragment r) (fragment_len r)
    (flag_retry_frag_req_once r) (rx_data_state r) x (datagramData r) (cur_recvd_data_size r)
    (current_snode r) (bytes_recvd_bitmask r) (datagram_size r).
Definition set_datagramData (x : list Z) (r : receiving_cntrl_blk) : receiving_cntrl_blk :=
  mkRcb (r_p r) (r_session_id r) (r_pending_segments r) (fragment r) (fragment_len r)
    (flag_retry_frag_req_once r) (rx_data_state r) (recv_frag_compl_list r) x (cur_recvd_data_size r)
    (current_snode r) (bytes_recvd_bitmask r) (datagram_size r).
Definition set_cur_recvd_data_size (x : Z) (r : receiving_cntrl_blk) : receiving_cntrl_blk :=
  mkRcb (r_p r) (r_session_id r) (r_pending_segments r) (fragment r) (fragment_len r)
    (flag_retry_frag_req_once r) (rx_data_state r) (recv_frag_compl_list r) (datagramData r) x
    (current_snode r) (bytes_recvd_bitmask r) (datagram_size r).
Definition set_current_snode (x : Z) (r : receiving_cntrl_blk) : receiving_cntrl_blk :=
  mkRcb (r_p r) (r_session_id r) (r_pending_segments r) (fragment r) (fragment_len r)
    (flag_retry_frag_req_once r) (rx_data_state r) (recv_frag_compl_list r) (datagramData r)
    (cur_recvd_data_size r) x (bytes_recvd_bitmask r) (datagram_size r).
Definition set_bytes_recvd_bitmask (x : list Z) (r : receiving_cntrl_blk) : receiving_cntrl_blk :=
  mkRcb (r_p r) (r_session_id r) (r_pending_segments r) (fragment r) (fragment_len r)
    (flag_retry_frag_req_once r) (rx_data_state r) (recv_frag_compl_list r) (datagramData r)
    (cur_recvd_data_size r) (current_snode r) x (datagram_size r).
Definition set_datagram_size (x : Z) (r : receiving_cntrl_blk) : receiving_cntrl_blk :=
  mkRcb (r_p r) (r_session_id r) (r_pending_segments r) (fragment r) (fragment_len r)
    (flag_retry_frag_req_once r) (rx_data_state r) (recv_frag_compl_list r) (datagramData r)
    (cur_recvd_data_size r) (current_snode r) (bytes_recvd_bitmask r) x.

(** The timers, each with the interval it was last set to while it runs. *)
Record Timers := mkTimers {
  reset_timer : option Z; wait_restart_timer : option Z; timer_btwn_2_frags : option Z;
  fc_timer : option Z; rx_timer : option Z
}.

Definition set_reset_timer (x : option Z) (t : Timers) : Timers :=
  mkTimers x (wait_restart_timer t) (timer_btwn_2_frags t) (fc_timer t) (rx_timer t).
Definition set_wait_restart_timer (x : option Z) (t : Timers) : Timers :=
  mkTimers (reset_timer t) x (timer_btwn_2_frags t) (fc_timer t) (rx_timer t).
Definition set_timer_btwn_2_frags (x : option Z) (t : Timers) : Timers :=
  mkTimers (reset_timer t) (wait_restart_timer t) x (fc_timer t) (rx_timer t).
Definition set_fc_timer (x : option Z) (t : Timers) : Timers :=
  mkTimers (reset_timer t) (wait_restart_timer t) (timer_btwn_2_frags t) x (rx_timer t).
Definition set_rx_timer (x : option Z) (t : Timers) : Timers :=
  mkTimers (reset_timer t) (wait_restart_timer t) (timer_btwn_2_frags t) (fc_timer t) x.

(** The callback given to the radio with a frame. *)
Inductive tx_callback := ZCB_last_frag | ZCB_senddata | ZCB_reply_frag_req.

(** Calls to the radio and to the application. *)
Inductive out :=
| SendRaw (src dst : Z) (frame : list Z) (txopt : Z) (cb : option tx_callback)
| Completed (f : Z) (status : Z) (ts : TX_STATUS_TYPE)
| Deliver (p : ts_param_t) (data : list Z).

(** The static variables of the module and what it is given from outside: the answers of the radio
    (it takes the frame once the list is used up), the clock and the values of [rand]. *)
Record T2 := mkT2 {
  current_state : TRANSPORT2_ST_T; scb : sending_cntrl_blk; rcb : receiving_cntrl_blk;
  flag_tie_broken : bool; flag_initialize_once : bool; FragmentMaxPayload : Z; t2_txBuf : list Z;
  offset_to_request : Z; timers : Timers; handler : bool; MyNodeID : Z; clock : Z; rands : list Z;
  accepts : list bool; outs : list out
}.

Definition set_current_state (x : TRANSPORT2_ST_T) (w : T2) : T2 :=
  mkT2 x (scb w) (rcb w) (flag_tie_broken w) (flag_initialize_once w) (FragmentMaxPayload w)
    (t2_txBuf w) (offset_to_request w) (timers w) (handler w) (MyNodeID w) (clock w) (rands w)
    (accepts w) (outs w).
Definition set_scb (x : sending_cntrl_blk) (w : T2) : T2 :=
  mkT2 (current_state w) x (rcb w) (flag_tie_broken w) (flag_initialize_once w) (FragmentMaxPayload w)
    (t2_txBuf w) (offset_to_request w) (timers w) (handler w) (MyNodeID w) (clock w) (rands w)
    (accepts w) (outs w).
Definition set_rcb (x : receiving_cntrl_blk) (w : T2) : T2 :=
  mkT2 (current_state w) (scb w) x (flag_tie_broken w) (flag_initialize_once w) (FragmentMaxPayload w)
    (t2_txBuf w) (offset_to_request w) (timers w) (handler w) (MyNodeID w) (clock w) (rands w)
    (accepts w) (outs w).
Definition set_flag_tie_broken (x : bool) (w : T2) : T2 :=
  mkT2 (current_state w) (scb w) (rcb w) x (flag_initialize_once w) (FragmentMaxPayload w) (t2_txBuf w)
    (offset_to_request w) (timers w) (handler w) (MyNodeID w) (clock w) (rands w) (accepts w) (outs w).
Definition set_flag_initialize_once (x : bool) (w : T2) : T2 :=
  mkT2 (current_state w) (scb w) (rcb w) (flag_tie_broken w) x (FragmentMaxPayload w) (t2_txBuf w)
    (offset_to_request w) (timers w) (handler w) (MyNodeID w) (clock w) (rands w) (accepts w) (outs w).
Definition set_FragmentMaxPayload (x : Z) (w : T2) : T2 :=
  mkT2 (current_state w) (scb w) (rcb w) (flag_tie_broken w) (flag_initialize_once w) x (t2_txBuf w)
    (offset_to_request w) (timers w) (handler w) (MyNodeID w) (clock w) (rands w) (accepts w) (outs w).
Definition set_t2_txBuf (x : list Z) (w : T2) : T2 :=
  mkT2 (current_state w) (scb w) (rcb w) (flag_tie_broken w) (flag_initialize_once w)
    (FragmentMaxPayload w) x (offset_to_request w) (timers w) (handler w) (MyNodeID w) (clock w)
    (rands w) (accepts w) (outs w).
Definition set_offset_to_request (x : Z) (w : T2) : T2 :=
  mkT2 (current_state w) (scb w) (rcb w) (flag_tie_broken w) (flag_initialize_once w)
    (FragmentMaxPayload w) (t2_txBuf w) x (timers w) (handler w) (MyNodeID w) (clock w) (rands w)
    (accepts w) (outs w).
Definition set_timers (x : Timers) (w : T2) : T2 :=
  mkT2 (current_state w) (scb w) (rcb w) (flag_tie_broken w) (flag_initialize_once w)
    (FragmentMaxPayload w) (t2_txBuf w) (offset_to_request w) x (handler w) (MyNodeID w) (clock w)
    (rands w) (accepts w) (outs w).
Definition set_handler (x : bool) (w : T2) : T2 :=
  mkT2 (current_state w) (scb w) (rcb w) (flag_tie_broken w) (flag_initialize_once w)
    (FragmentMaxPayload w) (t2_txBuf w) (offset_to_request w) (timers w) x (MyNodeID w) (clock w)
    (rands w) (accepts w) (outs w).
Definition set_MyNodeID (x : Z) (w : T2) : T2 :=
  mkT2 (current_state w) (scb w) (rcb w) (flag_tie_broken w) (flag_initialize_once w)
    (FragmentMaxPayload w) (t2_txBuf w) (offset_to_request w) (timers w) (handler w) x (clock w)
    (rands w) (accepts w) (outs w).
Definition set_clock (x : Z) (w : T2) : T2 :=
  mkT2 (current_state w) (scb w) (rcb w) (flag_tie_broken w) (flag_initialize_once w)
    (FragmentMaxPayload w) (t2_txBuf w) (offset_to_request w) (timers w) (handler w) (MyNodeID w) x
    (rands w) (accepts w) (outs w).
Definition set_rands (x : list Z) (w : T2) : T2 :=
  mkT2 (current_state w) (scb w) (rcb w) (flag_tie_broken w) (flag_initialize_once w)
    (FragmentMaxPayload w) (t2_txBuf w) (offset_to_request w) (timers w) (handler w) (MyNodeID w)
    (clock w) x (accepts w) (outs w).
Definition set_accepts (x : list bool) (w : T2) : T2 :=
  mkT2 (current_state w) (scb w) (rcb w) (flag_tie_broken w) (flag_initialize_once w)
    (FragmentMaxPayload w) (t2_txBuf w) (offset_to_request w) (timers w) (handler w) (MyNodeID w)
    (clock w) (rands w) x (outs w).
Definition set_outs (x : list out) (w : T2) : T2 :=
  mkT2 (current_state w) (scb w) (rcb w) (flag_tie_broken w) (flag_initialize_once w)
    (FragmentMaxPayload w) (t2_txBuf w) (offset_to_request w) (timers w) (handler w) (MyNodeID w)
    (clock w) (rands w) (accepts w) x.

(** ** Effects *)

Abbreviation TM := (Eff T2).

Definition emit (o : out) : TM unit := modify (fun w => set_outs (o :: outs w) w).
Definition mod_scb (f : sending_cntrl_blk -> sending_cntrl_blk) : TM unit := modify (fun w => set_scb (f (scb w)) w).
Definition mod_rcb (f : receiving_cntrl_blk -> receiving_cntrl_blk) : TM unit := modify (fun w => set_rcb (f (rcb w)) w).
Definition mod_timers (f : Timers -> Timers) : TM unit := modify (fun w => set_timers (f (timers w)) w).

Definition put_tx (off : nat) (bs : list Z) : TM unit :=
  w ← get; b ← wrs (t2_txBuf w) off bs; modify (set_t2_txBuf b).

(** [t2_sm_post_event]: the last matching row of the table counts; without one the state stays. *)
Fixpoint find_transition (num_trans : nat) (cstate : TRANSPORT2_ST_T) (event : TRANSPORT2_EV_T) : nat :=
  match num_trans with
  | O => 0%nat
  | S n =>
      match trans !! n with
      | Some (st, ev, _) => if bool_decide (cstate = st) && bool_decide (event = ev) then S n else find_transition n cstate event
      | None => find_transition n cstate event
      end
  end.

Definition next_state (st : TRANSPORT2_ST_T) (ev : TRANSPORT2_EV_T) : TRANSPORT2_ST_T :=
  match find_transition (length trans) st ev with
  | O => st
  | S i => match trans !! i with Some (_, _, st') => st' | None => st end
  end.

Definition t2_sm_post_event (ev : TRANSPORT2_EV_T) : TM unit :=
  modify (fun w => set_current_state (next_state (current_state w) ev) w).

(** The radio: a frame it takes is recorded. *)
Definition next_accept : TM bool := fun w =>
  match accepts w with
  | [] => Ok (true, w)
  | b :: l => Ok (b, set_accepts l w)
  end.

Definition TS_SEND_RAW (src dst : Z) (buf : list Z) (buflen txopt : Z) (cb : option tx_callback) : TM bool :=
  frame ← rds buf 0 (Z.to_nat (u8 buflen));
  ret ← next_accept;
  (if ret : bool then emit (SendRaw src dst frame txopt cb) else mret tt);;
  mret ret.

(** [rand]. *)
Definition rand : TM Z := fun w =>
  match rands w with
  | [] => Ok (0, w)
  | x :: l => Ok (x, set_rands l w)
  end.

(** [scb.cmn.completedFunc(status, ts)] where it is set. *)
Definition completed (status : Z) (ts : TX_STATUS_TYPE) : TM unit :=
  w ← get;
  match completedFunc (scb w) with
  | Some f => emit (Completed f status ts)
  | None => mret tt
  end.

Definition start_reset_timer : TM unit := mod_timers (set_reset_timer (Some RESET_TIME)).

(** ** Control blocks *)

Definition zero_param : ts_param_t := mkParam 0 0 0 0 0 0 0.

Definition discard_all_received_fragments : TM unit :=
  mod_rcb (fun r => set_datagramData (replicate (Z.to_nat DATAGRAM_SIZE_MAX) 0) r);;
  mod_rcb (fun r => set_r_p zero_param (set_r_pending_segments 0 r));;
  mod_rcb (set_r_session_id 0x10);;
  mod_rcb (set_current_snode 0);;
  mod_rcb (set_bytes_recvd_bitmask (replicate BITMASK_SIZE 0)).

Definition reset_transport_service : TM unit :=
  mod_timers (set_reset_timer None);;
  modify (set_current_state ST_IDLE);;
  discard_all_received_fragments.

Definition recv_or_send (st : TRANSPORT2_ST_T) : Z :=
  match st with
  | ST_IDLE => 2
  | ST_RECEIVING | ST_SEND_FRAG_COMPLETE | ST_SEND_FRAG_REQ | ST_SEND_FRAG_WAIT | ST_FIND_MISS_FRAG => 1
  | ST_SEND_FRAG | ST_SEND_LAST_FRAG | ST_WAIT_ACK => 0
  end.

Definition ZW_TransportService_Is_Receving (w : T2) : bool := recv_or_send (current_state w) =? 1.
Definition ZW_TransportService_Is_Sending (w : T2) : bool := recv_or_send (current_state w) =? 0.

(** ** Sending *)

Definition add_crc (len : Z) : TM unit :=
  w ← get;
  bs ← rds (t2_txBuf w) 0 (Z.to_nat (u8 len));
  let crc := zgw_crc16 0x1D0F bs in
  put_tx (Z.to_nat (u8 len)) [Z.land (Z.shiftr crc 8) 0xff; Z.land crc 0xff].

(** One attempt after the other until the radio takes the frame. *)
Fixpoint send_last_frag_loop (fuel : nat) : TM unit :=
  match fuel with
  | O => fail OutOfFuel
  | S fuel =>
      mod_timers (set_fc_timer None);;
      start_reset_timer;;
      mod_scb (set_sending false);;
      mod_scb (set_s_pending_segments 0);;
      w ← get;
      let s := scb w in
      ret ← TS_SEND_RAW (snode (s_p s)) (dnode (s_p s)) (t2_txBuf w)
              ((if does_not_fit_in_first_frag s then sizeof_subseq_frag else sizeof_first_frag) + datalen_to_send s - 1)
              (Z.lor (tx_flags (s_p s)) TRANSMIT_OPTION_ACK) (Some ZCB_last_frag);
      if ret : bool then
        if (tx_flags (s_p s) =? RECEIVE_STATUS_TYPE_BROAD) || (dnode (s_p s) =? 0xff) then
          t2_sm_post_event EV_MISSING_FRAG_BCAST
        else
          mod_timers (set_fc_timer (Some FRAGMENT_FC_TIMEOUT));;
          t2_sm_post_event EV_SUCCESS
      else send_last_frag_loop fuel
  end.

Definition send_last_frag : TM unit := w ← get; send_last_frag_loop (S (length (accepts w))).

(** Number of segments left, rounded up. *)
Definition pending (remaining datalen : Z) : TM Z :=
  q ← div remaining datalen;
  mret (u8 (if remaining mod datalen =? 0 then q else q + 1)).

Definition next_session_id : TM unit :=
  w ← get;
  (if s_session_id (scb w) =? 0 then
     x ← rand; mod_scb (set_s_session_id (u8 (x mod 0xf)))
   else mod_scb (set_s_session_id (u8 (s_session_id (scb w) + 1))));;
  w ← get;
  if 0xf <? s_session_id (scb w) then mod_scb (set_s_session_id 0) else mret tt.

(** The payload of one frame leaves room for routing. *)
Definition fragment_max_payload (flags : Z) : Z :=
  if has_bits flags TRANSMIT_OPTION_EXPLORE then FRAGMENTMAXPAYLOAD - 8
  else if negb (has_bits flags TRANSMIT_OPTION_NO_ROUTE) then FRAGMENTMAXPAYLOAD - 8
  else FRAGMENTMAXPAYLOAD.

Definition send_first_frag : TM unit :=
  next_session_id;;
  w ← get;
  l ← wr (frag_compl_list (scb w)) (s_session_id (scb w)) false;
  mod_scb (set_frag_compl_list l);;
  modify (set_FragmentMaxPayload (fragment_max_payload (tx_flags (s_p (scb w)))));;
  w ← get;
  let s := scb w in
  let len := datagram_len s in
  let fmp := FragmentMaxPayload w in
  (if fmp <? len then
     mod_scb (fun s => set_datalen_to_send fmp (set_remaining_data_len (u16 (len - fmp)) s))
   else mod_scb (fun s => set_datalen_to_send len (set_remaining_data_len len s)));;
  w ← get;
  let s := scb w in
  put_tx 0 [COMMAND_CLASS_TRANSPORT_SERVICE; u8 (Z.lor COMMAND_FIRST_FRAGMENT (Z.land (Z.shiftr len 8) 0x07));
            Z.land len 0xff; u8 (Z.shiftl (s_session_id s) 4)];;
  bs ← rds (datagram s) 0 (Z.to_nat (datalen_to_send s));
  put_tx 4 bs;;
  add_crc (datalen_to_send s + 4);;
  n ← pending (remaining_data_len s) (datalen_to_send s);
  mod_scb (set_s_pending_segments n);;
  if len <=? fmp then
    mod_scb (set_does_not_fit_in_first_frag false);;
    t2_sm_post_event EV_SEND_LAST_FRAG;;
    send_last_frag
  else
    start_reset_timer;;
    w ← get;
    ret ← TS_SEND_RAW (snode (s_p s)) (dnode (s_p s)) (t2_txBuf w) (sizeof_first_frag + datalen_to_send s - 1)
            (Z.lor (tx_flags (s_p s)) TRANSMIT_OPTION_ACK) (Some ZCB_senddata);
    if ret : bool then
      mod_scb (set_round_trip_first_frag (u16 (clock w)));;
      mod_scb (set_sending true);;
      t2_sm_post_event EV_SEND_NEW_FRAG
    else mret tt.

(** The frame of a subsequent fragment in the transmit buffer. *)
Definition build_subseq (off len : Z) : TM unit :=
  w ← get;
  let s := scb w in
  put_tx 0 [COMMAND_CLASS_TRANSPORT_SERVICE;
            u8 (Z.lor COMMAND_SUBSEQUENT_FRAGMENT (Z.land (Z.shiftr (datagram_len s) 8) 0x07));
            Z.land (datagram_len s) 0xff;
            u8 (Z.lor (Z.shiftl (s_session_id s) 4) (Z.land (Z.shiftr off 8) 0x07));
            Z.land off 0xff];;
  bs ← rds (datagram s) (Z.to_nat off) (Z.to_nat len);
  put_tx 5 bs;;
  add_crc (len + 5).

Definition send_subseq_frag : TM unit :=
  mod_timers (set_fc_timer None);;
  mod_scb (fun s => if remaining_data_len s =? 0 then set_remaining_data_len (datagram_len s) s else s);;
  w ← get;
  let fmp := FragmentMaxPayload w in
  mod_scb (fun s => set_datalen_to_send (if fmp <=? remaining_data_len s then fmp else remaining_data_len s) s);;
  done ← rd (frag_compl_list (scb w)) (s_session_id (scb w));
  if done : bool then mret tt
  else
    mod_scb (fun s => set_offset (u16 (datagram_len s - remaining_data_len s)) s);;
    w ← get;
    let s := scb w in
    build_subseq (offset s) (datalen_to_send s);;
    if remaining_data_len s <=? fmp then
      mod_scb (set_does_not_fit_in_first_frag true);;
      t2_sm_post_event EV_SEND_LAST_FRAG;;
      send_last_frag
    else
      start_reset_timer;;
      w ← get;
      ret ← TS_SEND_RAW (snode (s_p s)) (dnode (s_p s)) (t2_txBuf w) (sizeof_subseq_frag + datalen_to_send s - 1)
              (Z.lor (tx_flags (s_p s)) TRANSMIT_OPTION_ACK) (Some ZCB_senddata);
      (if ret : bool then
         mod_scb (fun s => if fmp <=? remaining_data_len s
                           then set_remaining_data_len (u16 (remaining_data_len s - fmp)) s else s);;
         w ← get;
         n ← pending (remaining_data_len (scb w)) (datalen_to_send (scb w));
         mod_scb (set_s_pending_segments n)
       else mret tt);;
      t2_sm_post_event EV_SEND_NEW_FRAG.

Definition wait_restart_from_first : TM unit := send_first_frag.

Definition reply_frag_req : TM unit :=
  w ← get;
  done ← rd (frag_compl_list (scb w)) (s_session_id (scb w));
  if done : bool then mret tt
  else
    mod_scb (set_datalen_to_send (FragmentMaxPayload w));;
    mod_scb (fun s => if datagram_len s <? missing_offset s + datalen_to_send s
                      then set_datalen_to_send (u16 (datagram_len s - missing_offset s)) s else s);;
    w ← get;
    let s := scb w in
    build_subseq (missing_offset s) (datalen_to_send s);;
    if missing_offset s + datalen_to_send s =? datagram_len s then
      mod_scb (set_does_not_fit_in_first_frag true);;
      t2_sm_post_event EV_SEND_LAST_MISS_FRAG;;
      mod_scb (set_flag_replied_frag_req true);;
      send_last_frag
    else
      start_reset_timer;;
      w ← get;
      _ ← TS_SEND_RAW (snode (s_p s)) (dnode (s_p s)) (t2_txBuf w) (sizeof_subseq_frag + datalen_to_send s - 1)
            (Z.lor (tx_flags (s_p s)) TRANSMIT_OPTION_ACK)
            (Some (if sending s then ZCB_senddata else ZCB_reply_frag_req));
      mod_scb (set_flag_replied_frag_req true);;
      mod_timers (set_fc_timer (Some (FRAGMENT_FC_TIMEOUT + 500))).

Definition ZW_TransportService_SendData (p : ts_param_t) (pData : list Z) (dataLength : Z) (f : Z) : TM bool :=
  start_reset_timer;;
  w ← get;
  if ZW_TransportService_Is_Sending w then emit (Completed f S2_TRANSMIT_COMPLETE_FAIL None);; mret false
  else if ZW_TransportService_Is_Receving w then emit (Completed f S2_TRANSMIT_COMPLETE_FAIL None);; mret false
  else
    mod_scb (fun s => set_datagram pData (set_s_p p (set_datagram_len dataLength (set_completedFunc (Some f)
                        (set_tx_status None s)))));;
    mod_scb (fun s => set_sending false (set_flag_replied_frag_req false (set_transmission_aborted 0x11
                        (set_flag_send_frag_wait false (set_flag_reply_frag_req false s)))));;
    mod_scb (fun s => set_round_trip_first_frag 0 (set_flag_fc_timer_expired_once 0 (set_remaining_data_len 0 s)));;
    mod_scb (set_current_dnode (dnode p));;
    w ← get;
    match current_state w with
    | ST_IDLE => t2_sm_post_event EV_START_SEND
    | ST_SEND_FRAG => t2_sm_post_event EV_SEND_NEW_FRAG
    | _ => mret tt
    end;;
    send_first_frag;;
    mret true.

Definition fc_timer_expired : TM unit :=
  w ← get;
  let s := scb w in
  if flag_replied_frag_req s then
    mod_scb (set_transmission_aborted (s_session_id s));;
    mod_scb (set_flag_replied_frag_req false);;
    mod_scb (set_current_dnode 0);;
    t2_sm_post_event EV_FRAG_COMPL_TIMER_REQ;;
    completed S2_TRANSMIT_COMPLETE_FAIL (tx_status s)
  else if transmission_aborted s =? s_session_id s then
    completed S2_TRANSMIT_COMPLETE_FAIL (tx_status s)
  else if negb (flag_fc_timer_expired_once s =? 0) then
    mod_scb (set_flag_fc_timer_expired_once 0);;
    mod_scb (set_current_dnode 0);;
    completed S2_TRANSMIT_COMPLETE_FAIL (tx_status s);;
    t2_sm_post_event EV_FRAG_COMPL_TIMER2
  else
    t2_sm_post_event EV_FRAG_COMPL_TIMER;;
    mod_scb (set_flag_fc_timer_expired_once (u8 (flag_fc_timer_expired_once s + 1)));;
    send_last_frag.

(** ** Receiving *)

Definition send_frag_wait_cmd : TM unit :=
  start_reset_timer;;
  w ← get;
  let s := scb w in
  let fp := frag_wait_p s in
  let frag_wait n := [COMMAND_CLASS_TRANSPORT_SERVICE; Z.land COMMAND_SEGMENT_WAIT_V2 0xf8; n] in
  if sending s then
    _ ← TS_SEND_RAW (dnode fp) (snode fp) (frag_wait (s_pending_segments s)) 3
          (Z.lor (tx_flags fp) TRANSMIT_OPTION_ACK) (Some ZCB_senddata);
    t2_sm_post_event EV_SUCCESS2
  else
    (if r_session_id (rcb w) =? 0x10 then mod_rcb (set_r_pending_segments 0)
     else n ← pending (datagram_size (rcb w)) (cur_recvd_data_size (rcb w)); mod_rcb (set_r_pending_segments n));;
    w ← get;
    _ ← TS_SEND_RAW (dnode fp) (snode fp) (frag_wait (r_pending_segments (rcb w))) 3
          (Z.lor (tx_flags fp) TRANSMIT_OPTION_ACK) None;
    t2_sm_post_event EV_SUCCESS.

(** A fragment wait is sent at once, or with the next callback of a sending session. *)
Definition send_or_queue_frag_wait : TM unit :=
  w ← get;
  if sending (scb w) then mod_scb (set_flag_send_frag_wait true) else send_frag_wait_cmd.

Definition mark_byte (mask : list Z) (i : Z) : TM (list Z) :=
  x ← rd mask (i / 8); wr mask (i / 8) (u8 (Z.lor x (Z.shiftl 1 (i mod 8)))).

Fixpoint mark_loop (n : nat) (i : Z) (mask : list Z) : TM (list Z) :=
  match n with
  | O => mret mask
  | S n =>
      mask ← mark_byte mask i;
      if DATAGRAM_SIZE_MAX <? i then mret mask else mark_loop n (i + 1) mask
  end.

Definition mark_frag_received (offset size : Z) : TM bool :=
  w ← get;
  first ← rd (bytes_recvd_bitmask (rcb w)) 0;
  if negb (offset =? 0) && negb (has_bits first 1) then
    t2_sm_post_event EV_SUBSEQ_DIFF_SESSION;;
    send_or_queue_frag_wait;;
    mret true
  else
    mask ← mark_loop (Z.to_nat size) offset (bytes_recvd_bitmask (rcb w));
    mod_rcb (set_bytes_recvd_bitmask mask);;
    mret false.

(** The first clear bit but bit 0, as long as it belongs to the datagram. *)
Fixpoint missing_bit (n : nat) (j x base size : Z) : option Z :=
  match n with
  | O => None
  | S n =>
      if Z.land x (Z.shiftl 1 j) =? 0 then
        let missing_offset := base + j in
        if missing_offset =? 0 then missing_bit n (j + 1) x base size
        else Some (if size <=? missing_offset then 0 else missing_offset)
      else missing_bit n (j + 1) x base size
  end.

Fixpoint missing_byte (mask : list Z) (i size : Z) : Z :=
  match mask with
  | [] => 0
  | x :: mask =>
      match missing_bit 8 0 x (i * 8) size with
      | Some r => r
      | None => missing_byte mask (i + 1) size
      end
  end.

Definition get_next_missing_offset (r : receiving_cntrl_blk) : Z :=
  u16 (missing_byte (bytes_recvd_bitmask r) 0 (datagram_size r)).

Definition ZIPCommandHandler (srcNode count : Z) : TM unit :=
  w ← get;
  if handler w then
    data ← rds (datagramData (rcb w)) 0 (Z.to_nat count);
    emit (Deliver (mkParam srcNode (dnode (r_p (rcb w))) 0 0
                     (Z.lor (Z.lor TRANSMIT_OPTION_ACK TRANSMIT_OPTION_AUTO_ROUTE) TRANSMIT_OPTION_EXPLORE) 0 NO_SCHEME) data)
  else mret tt.

Definition send_frag_complete_cmd : TM unit :=
  w ← get;
  let r := rcb w in
  if 0x0f <? r_session_id r then mret tt
  else
    start_reset_timer;;
    _ ← TS_SEND_RAW (dnode (r_p r)) (snode (r_p r))
          [COMMAND_CLASS_TRANSPORT_SERVICE; Z.land COMMAND_SEGMENT_COMPLETE_V2 0xf8; u8 (Z.shiftl (r_session_id r) 4)] 3
          (Z.lor (tx_flags (r_p r)) TRANSMIT_OPTION_ACK) None;
    ZIPCommandHandler (snode (r_p r)) (datagram_size r);;
    l ← wr (recv_frag_compl_list r) (r_session_id r) true;
    mod_rcb (set_recv_frag_compl_list l);;
    mod_rcb (set_r_session_id 0x10);;
    mod_rcb (set_current_snode 0);;
    mod_timers (set_rx_timer None);;
    t2_sm_post_event EV_SUCCESS.

(** The request is offered once more if the radio refuses it and that has not happened before. *)
Fixpoint send_frag_req_loop (fuel : nat) : TM unit :=
  match fuel with
  | O => fail OutOfFuel
  | S fuel =>
      start_reset_timer;;
      w ← get;
      let r := rcb w in
      ret1 ← TS_SEND_RAW (dnode (r_p r)) (snode (r_p r)) (t2_txBuf w) 4 (Z.lor (tx_flags (r_p r)) TRANSMIT_OPTION_ACK) None;
      if negb ret1 && negb (flag_retry_frag_req_once r =? 0) then
        mod_rcb (set_flag_retry_frag_req_once (u8 (flag_retry_frag_req_once r - 1)));;
        send_frag_req_loop fuel
      else mret tt
  end.

Definition send_frag_req_cmd : TM unit :=
  modify (fun w => set_offset_to_request (get_next_missing_offset (rcb w)) w);;
  w ← get;
  let r := rcb w in
  let off := offset_to_request w in
  if off =? 0 then t2_sm_post_event EV_SUCCESS
  else if 0x0f <? r_session_id r then mret tt
  else
    put_tx 0 [COMMAND_CLASS_TRANSPORT_SERVICE; Z.land COMMAND_SEGMENT_REQUEST_V2 0xf8;
              u8 (Z.lor (Z.shiftl (r_session_id r) 4) (Z.shiftr (Z.land off 0x700) 8)); Z.land off 0xff];;
    send_frag_req_loop (S (length (accepts w)));;
    mod_rcb (set_rx_data_state true);;
    t2_sm_post_event EV_SUCCESS;;
    mod_timers (set_rx_timer (Some FRAGMENT_RX_TIMEOUT)).

Definition find_missing : TM unit :=
  w ← get;
  let missing_frag := u8 (get_next_missing_offset (rcb w)) in
  if negb (missing_frag =? 0) then
    if rx_flags (r_p (rcb w)) =? RECEIVE_STATUS_TYPE_BROAD then discard_all_received_fragments
    else t2_sm_post_event EV_MISSING_FRAG;; send_frag_req_cmd
  else if rx_flags (r_p (rcb w)) =? RECEIVE_STATUS_TYPE_BROAD then mret tt
  else t2_sm_post_event EV_SEND_FRAG_COMPLETE;; send_frag_complete_cmd.

Definition rx_timer_expired : TM unit :=
  w ← get;
  let state := rx_data_state (rcb w) in
  mod_timers (set_rx_timer None);;
  t2_sm_post_event EV_FRAG_RX_TIMER;;
  if state && negb (get_next_missing_offset (rcb w) =? 0) then discard_all_received_fragments
  else find_missing.

(** Callbacks of the radio. *)
Definition ZCB_temp_callback_last_frag (status : Z) (ts : TX_STATUS_TYPE) : TM unit := mod_scb (set_tx_status ts).

Definition ZCB_ts_senddata_cb (status_send : Z) (txStatus : TX_STATUS_TYPE) : TM unit :=
  mod_scb (set_tx_status txStatus);;
  modify (fun w =>
    if round_trip_first_frag (scb w) =? 0 then w
    else set_scb (set_round_trip_first_frag (u16 (u16 (clock w - round_trip_first_frag (scb w)) + 300)) (scb w)) w);;
  w ← get;
  let s := scb w in
  if flag_reply_frag_req s then mod_scb (set_flag_reply_frag_req false);; reply_frag_req
  else if flag_send_frag_wait s then mod_scb (set_flag_send_frag_wait false);; send_frag_wait_cmd
  else
    (if transmission_aborted s =? s_session_id s then mod_timers (set_timer_btwn_2_frags None)
     else mod_timers (set_timer_btwn_2_frags (Some (15 + round_trip_first_frag s))));;
    mod_scb (set_round_trip_first_frag 0).

Definition ZCB_temp_callback_reply_frag_req (status : Z) (ts : TX_STATUS_TYPE) : TM unit :=
  mod_scb (set_tx_status ts);;
  (if negb (status =? S2_TRANSMIT_COMPLETE_OK) then completed status ts else mret tt);;
  t2_sm_post_event EV_SENT_MISS_FRAG.

(** A tie broken earlier aborts the sending session. *)
Definition abort_if_tie_broken : TM unit :=
  w ← get;
  if flag_tie_broken w then mod_scb (set_transmission_aborted (s_session_id (scb w))) else mret tt.

Definition crc_ok (r : receiving_cntrl_blk) : TM bool :=
  bs ← rds (fragment r) 0 (Z.to_nat (fragment_len r));
  mret (zgw_crc16 0x1D0F bs =? 0).

Definition receive_first (byte1 byte2 byte3 : Z) : TM unit :=
  abort_if_tie_broken;;
  w ← get;
  let r := rcb w in
  if fragment_len r <=? FIRST_FRAG_NONPAYLOAD_LENGTH then t2_sm_post_event EV_RECV_NEW_FRAG
  else
    ok ← crc_ok r;
    if negb ok then t2_sm_post_event EV_RECV_NEW_FRAG
    else
      let recvd_session_id := Z.shiftr (Z.land byte3 0xf0) 4 in
      if negb (recvd_session_id =? r_session_id r) && negb (r_session_id r =? 0x10) then t2_sm_post_event EV_DIFF_SESSION
      else
        let datagram_size_tmp := u16 (Z.shiftl (Z.land byte1 0x07) 8 + byte2) in
        if DATAGRAM_SIZE_MAX <? datagram_size_tmp then t2_sm_post_event EV_DIFF_SESSION
        else
          mod_timers (set_rx_timer (Some FRAGMENT_RX_TIMEOUT));;
          l ← wr (recv_frag_compl_list r) recvd_session_id false;
          let size := u8 (fragment_len r - FIRST_FRAG_NONPAYLOAD_LENGTH) in
          mod_rcb (fun r => set_r_session_id recvd_session_id (set_recv_frag_compl_list l (set_cur_recvd_data_size size r)));;
          mod_rcb (fun r => set_datagram_size datagram_size_tmp (set_bytes_recvd_bitmask (replicate BITMASK_SIZE 0)
                              (set_current_snode (snode (r_p r)) r)));;
          bs ← rds (fragment r) FIRST_HDR_LEN (Z.to_nat size);
          d ← wrs (datagramData r) 0 bs;
          mod_rcb (set_datagramData d);;
          stop ← mark_frag_received 0 size;
          if stop : bool then mret tt
          else if size =? datagram_size_tmp then t2_sm_post_event EV_SEND_FRAG_COMPLETE;; send_frag_complete_cmd
          else mod_rcb (set_rx_data_state false).

Definition receive_subseq (byte1 byte2 byte3 byte4 : Z) : TM unit :=
  abort_if_tie_broken;;
  w ← get;
  let r := rcb w in
  if fragment_len r <=? SUBSEQ_FRAG_NONPAYLOAD_LENGTH then t2_sm_post_event EV_RECV_NEW_FRAG
  else
    ok ← crc_ok r;
    if negb ok then t2_sm_post_event EV_RECV_NEW_FRAG
    else
      let recvd_session_id := Z.shiftr (Z.land byte3 0xf0) 4 in
      done ← rd (recv_frag_compl_list r) recvd_session_id;
      if done : bool then
        if bool_decide (current_state w = ST_RECEIVING) then t2_sm_post_event EV_DUPL_FRAME else mret tt
      else if negb (recvd_session_id =? r_session_id r) && negb (r_session_id r =? 0x10) then t2_sm_post_event EV_DIFF_SESSION
      else
        let datagram_offset := u16 (Z.shiftl (Z.land byte3 0x07) 8 + byte4) in
        let size := u8 (fragment_len r - SUBSEQ_FRAG_NONPAYLOAD_LENGTH) in
        mod_rcb (set_cur_recvd_data_size size);;
        if DATAGRAM_SIZE_MAX <? datagram_offset + size then
          if bool_decide (current_state w = ST_RECEIVING) then t2_sm_post_event EV_DUPL_FRAME else mret tt
        else
          let datagram_size_tmp := u16 (Z.shiftl (Z.land byte1 0x07) 8 + byte2) in
          if DATAGRAM_SIZE_MAX <? datagram_size_tmp then t2_sm_post_event EV_DIFF_SESSION
          else
            mod_timers (set_rx_timer (Some FRAGMENT_RX_TIMEOUT));;
            stop ← mark_frag_received datagram_offset size;
            if stop : bool then mret tt
            else
              mod_rcb (set_datagram_size datagram_size_tmp);;
              bs ← rds (fragment r) SUBSEQ_HDR_LEN (Z.to_nat size);
              d ← wrs (datagramData r) (Z.to_nat datagram_offset) bs;
              mod_rcb (set_datagramData d);;
              if datagram_size_tmp <=? datagram_offset + size then t2_sm_post_event EV_RECV_LAST_FRAG;; find_missing
              else mod_rcb (set_rx_data_state false).

(** Is a request or completion meant for the session being sent?  Otherwise the event of the
    refusal. *)
Definition other_session (recvd_session_id : Z) (w : T2) : option TRANSPORT2_EV_T :=
  if recvd_session_id =? transmission_aborted (scb w) then Some EV_FRAG_REQ_COMPL_WAIT_DIFF_SESSION
  else if negb (recvd_session_id =? s_session_id (scb w)) then Some EV_FRAG_REQ_COMPL_WAIT_DIFF_SESSION
  else if negb (snode (r_p (rcb w)) =? current_dnode (scb w)) && negb (current_snode (rcb w) =? 0)
  then Some EV_FRAG_REQ_COMPL_WAIT_DIFF_NODE
  else None.

Definition receive_request (byte2 byte3 : Z) : TM unit :=
  t2_sm_post_event EV_FRAG_REQ_OR_COMPL;;
  w ← get;
  match other_session (Z.shiftr (Z.land byte2 0xf0) 4) w with
  | Some ev => t2_sm_post_event ev
  | None =>
      mod_timers (set_fc_timer None);;
      mod_scb (set_missing_offset (Z.lor (u16 (Z.shiftl (Z.land byte2 0x7) 8)) byte3));;
      t2_sm_post_event EV_RECV_FRAG_REQ;;
      if sending (scb w) then mod_scb (set_flag_reply_frag_req true) else reply_frag_req
  end.

Definition receive_complete (byte2 : Z) : TM unit :=
  t2_sm_post_event EV_FRAG_REQ_OR_COMPL;;
  w ← get;
  let recvd_session_id := Z.shiftr (Z.land byte2 0xf0) 4 in
  match other_session recvd_session_id w with
  | Some ev => t2_sm_post_event ev
  | None =>
      mod_timers (set_fc_timer None);;
      l ← wr (frag_compl_list (scb w)) recvd_session_id true;
      mod_scb (set_frag_compl_list l);;
      mod_scb (set_current_dnode 0);;
      completed S2_TRANSMIT_COMPLETE_OK (tx_status (scb w));;
      t2_sm_post_event EV_RECV_FRAG_COMPL
  end.

Definition receive_wait (byte2 : Z) : TM unit :=
  w ← get;
  done ← rd (frag_compl_list (scb w)) (s_session_id (scb w));
  if done : bool then t2_sm_post_event EV_DUPL_FRAME
  else
    t2_sm_post_event EV_RECV_FRAG_WAIT;;
    mod_scb (set_transmission_aborted (s_session_id (scb w)));;
    ZCB_ts_senddata_cb S2_TRANSMIT_COMPLETE_FAIL None;;
    mod_rcb (set_r_pending_segments byte2);;
    mod_timers (set_wait_restart_timer (Some (100 + 100 * byte2))).

Definition receive : TM unit :=
  w ← get;
  let frag := fragment (rcb w) in
  byte1 ← rd frag 1;
  byte2 ← rd frag 2;
  byte3 ← rd frag 3;
  byte4 ← rd frag 4;
  byte0 ← rd frag 0;
  if negb (byte0 =? COMMAND_CLASS_TRANSPORT_SERVICE) then mret tt
  else
    let cmd := Z.land byte1 0xf8 in
    if cmd =? COMMAND_FIRST_FRAGMENT then receive_first byte1 byte2 byte3
    else if cmd =? COMMAND_SUBSEQUENT_FRAGMENT then receive_subseq byte1 byte2 byte3 byte4
    else if cmd =? COMMAND_SEGMENT_REQUEST_V2 then receive_request byte2 byte3
    else if cmd =? COMMAND_SEGMENT_COMPLETE_V2 then receive_complete byte2
    else if cmd =? COMMAND_SEGMENT_WAIT_V2 then receive_wait byte2
    else mret tt.

Definition ZW_TransportService_Init : TM unit := modify (set_handler true).

(** A frame of a node that is not the peer of the running session. *)
Definition third_node (p : ts_param_t) (w : T2) : bool :=
  (negb (snode p =? current_snode (rcb w)) && negb (current_snode (rcb w) =? 0)) ||
  (negb (snode p =? current_dnode (scb w)) && negb (current_dnode (scb w) =? 0)).

Definition initialize_once : TM unit :=
  w ← get;
  if flag_initialize_once w then
    modify (set_flag_initialize_once false);;
    mod_rcb (fun r => set_r_p zero_param (set_r_pending_segments 0 (set_r_session_id 0x10 r)));;
    mod_rcb (fun r => set_flag_retry_frag_req_once 1 (set_cur_recvd_data_size 0 (set_current_snode 0 r)));;
    mod_rcb (fun r => set_datagramData (replicate (Z.to_nat DATAGRAM_SIZE_MAX) 0)
                        (set_bytes_recvd_bitmask (replicate BITMASK_SIZE 0) r))
  else mret tt.

(** The last part of the command handler: the frame is taken into the control block and looked at. *)
Definition take_frame (p : ts_param_t) (pCmd : list Z) (cmdLength : Z) : TM unit :=
  w ← get;
  match current_state w with
  | ST_IDLE => t2_sm_post_event EV_START_RECV
  | ST_RECEIVING => t2_sm_post_event EV_RECV_NEW_FRAG
  | _ => mret tt
  end;;
  initialize_once;;
  mod_rcb (fun r => set_fragment pCmd (set_r_p p (set_fragment_len cmdLength r)));;
  receive.

(** Both ends send to each other: the one with the lower node id receives. *)
Definition tie_break (p : ts_param_t) : TM unit :=
  w ← get;
  if ZW_TransportService_Is_Sending w && (dnode (s_p (scb w)) =? snode p) && (MyNodeID w <? snode p) then
    t2_sm_post_event EV_TIE_BREAK;; modify (set_flag_tie_broken true)
  else mret tt.

(** The checks on a frame before it is taken. *)
Definition check_frame (p : ts_param_t) (pCmd : list Z) (cmdLength : Z) : TM unit :=
  if snode p =? dnode p then mret tt
  else if DATAGRAM_SIZE_MAX <? cmdLength then mret tt
  else
    mod_scb (set_frag_wait_p p);;
    w ← get;
    if third_node p w && (rx_flags p =? RECEIVE_STATUS_TYPE_SINGLE) then
      if bool_decide (current_state w = ST_SEND_FRAG_WAIT) then mret tt
      else t2_sm_post_event EV_SCAST_DIFF_NODE;; send_or_queue_frag_wait
    else if third_node p w && (rx_flags p =? RECEIVE_STATUS_TYPE_BROAD) then t2_sm_post_event EV_BCAST_DIFF_NODE
    else
      byte1 ← rd pCmd 1;
      if (r_session_id (rcb w) =? 0x10) && (Z.land byte1 0xf8 =? COMMAND_SUBSEQUENT_FRAGMENT) then
        byte2 ← rd pCmd 2;
        if DATAGRAM_SIZE_MAX <? u16 (Z.shiftl (Z.land byte1 0x07) 8 + byte2) then t2_sm_post_event EV_DIFF_SESSION
        else t2_sm_post_event EV_SUBSEQ_DIFF_SESSION;; send_or_queue_frag_wait
      else take_frame p pCmd cmdLength.

(** [pCmd] is the memory from the frame on, [cmdLength] the length of the frame. *)
Definition TransportService_ApplicationCommandHandler (p : ts_param_t) (pCmd : list Z) (cmdLength : Z) : TM unit :=
  start_reset_timer;;
  tie_break p;;
  check_frame p pCmd cmdLength.

(** ** The environment *)

Definition tx_done (cb : tx_callback) (status : Z) (ts : TX_STATUS_TYPE) : TM unit :=
  match cb with
  | ZCB_last_frag => ZCB_temp_callback_last_frag status ts
  | ZCB_senddata => ZCB_ts_senddata_cb status ts
  | ZCB_reply_frag_req => ZCB_temp_callback_reply_frag_req status ts
  end.

(** A timer that expires is removed before its callback runs. *)
Inductive timer := TReset | TWaitRestart | TBetween | TFc | TRx.

Definition expire (t : timer) : TM unit :=
  match t with
  | TReset => mod_timers (set_reset_timer None);; reset_transport_service
  | TWaitRestart => mod_timers (set_wait_restart_timer None);; wait_restart_from_first
  | TBetween => mod_timers (set_timer_btwn_2_frags None);; send_subseq_frag
  | TFc => mod_timers (set_fc_timer None);; fc_timer_expired
  | TRx => mod_timers (set_rx_timer None);; rx_timer_expired
  end.

(** The statics as the program starts: all zero but the flag of the first initialisation. *)
Definition zero_scb : sending_cntrl_blk :=
  mkScb zero_param None None 0 0 0 0 0 0 [] 0 false false 0 (replicate 15 false) false false zero_param 0 0 0 false.
Definition zero_rcb : receiving_cntrl_blk :=
  mkRcb zero_param 0 0 [] 0 0 false (replicate 16 false) (replicate (Z.to_nat DATAGRAM_SIZE_MAX) 0) 0 0 (replicate BITMASK_SIZE 0) 0.
Definition start (node : Z) : T2 :=
  mkT2 ST_IDLE zero_scb zero_rcb false true 0 (replicate TXBUF_SIZE 0) 0 (mkTimers None None None None None) false node 0 [] [] [].

End Transport.
