(* ===== verification/TransportSpec.v ===== *)
(** * What the transport service guarantees

    The checksum accepts what [add_crc] produced; the received bytes are a set and the byte asked for
    is its first gap; the frames of a sending session and what a receiver makes of each of them. *)
From S2P Require Import Prelude Effects Transport.
Import Transport.

Module TransportSpec.

(** ** The checksum *)

Lemma has_bits_pow x k : 0 <= k -> has_bits x (2 ^ k) = Z.testbit x k.
Proof.
  intros Hk. unfold has_bits. rewrite <- (Z.mul_1_l (2 ^ k)), <- Z.shiftl_mul_pow2 by lia.
  destruct (Z.testbit x k) eqn:E.
  - apply negb_true_iff, Z.eqb_neq. intros H. apply (f_equal (fun y => Z.testbit y k)) in H.
    rewrite Z.land_spec, E, Z.shiftl_spec, Z.sub_diag, Z.bits_0 in H by lia. done.
  - apply negb_false_iff, Z.eqb_eq. apply Z.bits_inj'. intros n Hn. rewrite Z.land_spec, Z.bits_0, Z.shiftl_spec by lia.
    destruct (Z.eq_dec n k) as [->|Hne]; [by rewrite E|].
    replace (Z.testbit 1 (n - k)) with false; [apply andb_false_r|].
    destruct (Z.ltb_spec n k); [by rewrite Z.testbit_neg_r by lia|]. symmetry. apply (Z.bits_above_log2 1); simpl; lia.
Qed.

Lemma u16_bit x i : 0 <= i -> Z.testbit (u16 x) i = (i <? 16) && Z.testbit x i.
Proof.
  intros Hi. unfold u16. change 65536 with (2 ^ 16). destruct (Z.ltb_spec i 16).
  - by rewrite Z.mod_pow2_bits_low by lia.
  - by rewrite Z.mod_pow2_bits_high by lia.
Qed.

(** As long as the bits shifted in are those shifted out, nothing is xored. *)
Lemma crc_bit_shift b c k : 0 <= k < 8 -> Z.testbit b k = Z.testbit c (8 + k) ->
  crc_bit b (u16 (Z.shiftl c (7 - k))) (2 ^ k) = u16 (Z.shiftl c (8 - k)).
Proof.
  intros Hk Hb. unfold crc_bit. change 0x8000 with (2 ^ 15). rewrite !has_bits_pow by lia.
  rewrite u16_bit, Z.shiftl_spec by lia. change (15 <? 16) with true.
  replace (15 - (7 - k)) with (8 + k) by lia. rewrite <- Hb. destruct (Z.testbit b k); cbn [andb xorb].
  all: apply Z.bits_inj'; intros i Hi; rewrite !u16_bit, !Z.shiftl_spec by lia.
  all: destruct (Z.eq_dec i 0) as [->|]; [rewrite !(Z.testbit_neg_r _ (0 - _)) by lia; done|].
  all: rewrite u16_bit, Z.shiftl_spec by lia; replace (i - 1 - (7 - k)) with (i - (8 - k)) by lia.
  all: destruct (Z.ltb_spec i 16); [|done]; destruct (Z.ltb_spec (i - 1) 16); [done|lia].
Qed.

Lemma crc_byte_shift c : 0 <= c < 65536 -> crc_byte c (Z.shiftr c 8) = u16 (Z.shiftl c 8).
Proof.
  intros Hc. assert (Hb : forall k, 0 <= k -> Z.testbit (Z.shiftr c 8) k = Z.testbit c (8 + k)).
  { intros k Hk. rewrite Z.shiftr_spec by lia. f_equal. lia. }
  assert (Hstep : forall k, 0 <= k < 8 ->
    crc_bit (Z.shiftr c 8) (u16 (Z.shiftl c (7 - k))) (2 ^ k) = u16 (Z.shiftl c (8 - k))) by (intros k Hk; apply crc_bit_shift; auto with lia).
  assert (H0 : c = u16 (Z.shiftl c 0)) by (rewrite Z.shiftl_0_r, u16_small; done).
  set (b := Z.shiftr c 8) in *. unfold crc_byte. transitivity (foldl (crc_bit b) (u16 (Z.shiftl c 0)) [0x80; 0x40; 0x20; 0x10; 8; 4; 2; 1]);
    [by rewrite <- H0|]. cbn [foldl].
  do 8 (match goal with |- context [crc_bit b (u16 (Z.shiftl c ?n)) _] =>
    let E := fresh in pose proof (Hstep (7 - n) ltac:(lia)) as E; vm_compute (7 - n) in E;
    match type of E with context [7 - ?k] => change (7 - k) with n in E; let m := eval vm_compute in (8 - k) in change (8 - k) with m in E;
      let p := eval vm_compute in (2 ^ k) in change (2 ^ k) with p in E end; rewrite E; clear E end).
  done.
Qed.

Lemma lxor_bound16 a b : 0 <= a < 65536 -> 0 <= b < 65536 -> 0 <= Z.lxor a b < 65536.
Proof. apply (lxor_bound 16). lia. Qed.

Lemma crc_bit_range b c m : 0 <= crc_bit b c m < 65536.
Proof.
  unfold crc_bit. assert (0 <= u16 (Z.shiftl c 1) < 65536) by (apply Z.mod_pos_bound; lia).
  destruct (xorb _ _); [|done]. apply lxor_bound16; [done|]. unfold CRC_POLY. lia.
Qed.

Lemma crc_range c l : 0 <= c < 65536 -> 0 <= zgw_crc16 c l < 65536.
Proof.
  revert c. induction l as [|b l IH]; intros c Hc; [done|]. cbn. apply IH. unfold crc_byte. cbn [foldl]. apply crc_bit_range.
Qed.

(** The two bytes [add_crc] writes. *)
Definition crc_bytes (l : list Z) : list Z :=
  let crc := zgw_crc16 0x1D0F l in [Z.land (Z.shiftr crc 8) 0xff; Z.land crc 0xff].

Lemma land_u8 x : Z.land x 0xff = u8 x.
Proof. change 0xff with (Z.ones 8). by rewrite Z.land_ones by lia. Qed.

(** A frame with its checksum appended checks to zero. *)
Lemma crc_appended l : zgw_crc16 0x1D0F (l ++ crc_bytes l) = 0.
Proof.
  unfold zgw_crc16 at 1. rewrite foldl_app. change (foldl crc_byte 0x1D0F l) with (zgw_crc16 0x1D0F l).
  pose proof (crc_range 0x1D0F l ltac:(lia)) as Hc. unfold crc_bytes. set (c := zgw_crc16 0x1D0F l) in *. cbn [foldl].
  rewrite !land_u8. assert (Hh : 0 <= Z.shiftr c 8 < 256).
  { rewrite Z.shiftr_div_pow2 by lia. change (2 ^ 8) with 256. split; [apply Z.div_pos; lia|apply Z.div_lt_upper_bound; lia]. }
  rewrite (u8_small (Z.shiftr c 8)), crc_byte_shift by done.
  assert (E : Z.shiftr (u16 (Z.shiftl c 8)) 8 = u8 c).
  { apply Z.bits_inj'. intros i Hi. rewrite Z.shiftr_spec, u16_bit, Z.shiftl_spec by lia. unfold u8. change 256 with (2 ^ 8).
    replace (i + 8 - 8) with i by lia. destruct (Z.ltb_spec (i + 8) 16).
    - by rewrite Z.mod_pow2_bits_low by lia.
    - by rewrite Z.mod_pow2_bits_high by lia. }
  rewrite <- E. rewrite crc_byte_shift by (apply Z.mod_pos_bound; lia).
  apply Z.bits_inj'. intros i Hi. rewrite u16_bit, Z.shiftl_spec, Z.bits_0 by lia.
  destruct (Z.ltb_spec i 16); [|done]. destruct (Z.ltb_spec i 8); [by rewrite Z.testbit_neg_r by lia|].
  rewrite u16_bit, Z.shiftl_spec by lia. rewrite (Z.testbit_neg_r c) by lia. by rewrite andb_false_r.
Qed.

(** *** Errors it detects *)

Lemma u16_lxor a b : u16 (Z.lxor a b) = Z.lxor (u16 a) (u16 b).
Proof. unfold u16. change 65536 with (2 ^ 16). rewrite <- !Z.land_ones by lia. apply Z.bits_inj'. intros n Hn. rewrite !Z.land_spec, !Z.lxor_spec, !Z.land_spec. by destruct (Z.testbit (Z.ones 16) n), (Z.testbit a n), (Z.testbit b n). Qed.

Lemma crc_bit_lxor k b b' c c' : 0 <= k ->
  crc_bit (Z.lxor b b') (Z.lxor c c') (2 ^ k) = Z.lxor (crc_bit b c (2 ^ k)) (crc_bit b' c' (2 ^ k)).
Proof.
  intros Hk. unfold crc_bit. change 0x8000 with (2 ^ 15). rewrite !has_bits_pow, !Z.lxor_spec by lia.
  rewrite Z.shiftl_lxor, u16_lxor. set (x := u16 (Z.shiftl c 1)). set (y := u16 (Z.shiftl c' 1)).
  destruct (Z.testbit b k), (Z.testbit b' k), (Z.testbit c 15), (Z.testbit c' 15); cbn [xorb].
  all: apply Z.bits_inj'; intros n Hn; rewrite ?Z.lxor_spec; by destruct (Z.testbit x n), (Z.testbit y n), (Z.testbit CRC_POLY n).
Qed.

Lemma crc_byte_lxor b b' c c' : crc_byte (Z.lxor c c') (Z.lxor b b') = Z.lxor (crc_byte c b) (crc_byte c' b').
Proof.
  unfold crc_byte. cbn [foldl]. change 0x80 with (2 ^ 7). change 0x40 with (2 ^ 6). change 0x20 with (2 ^ 5). change 0x10 with (2 ^ 4).
  change 8 with (2 ^ 3). change 4 with (2 ^ 2). change 2 with (2 ^ 1). change 1 with (2 ^ 0). by rewrite !crc_bit_lxor by lia.
Qed.

(** A step without input forgets nothing: the constant term of the polynomial is 1. *)
Lemma crc_bit_zero k c : 0 <= k -> 0 <= c < 65536 -> crc_bit 0 c (2 ^ k) = 0 -> c = 0.
Proof.
  intros Hk Hc. unfold crc_bit. change 0x8000 with (2 ^ 15). rewrite !has_bits_pow, Z.bits_0 by lia. cbn [xorb]. intros E.
  assert (Hb : forall n, 0 <= n -> Z.testbit (if Z.testbit c 15 then Z.lxor (u16 (Z.shiftl c 1)) CRC_POLY else u16 (Z.shiftl c 1)) n = false)
    by (intros n Hn; rewrite E; apply Z.bits_0).
  destruct (Z.testbit c 15) eqn:E15.
  { specialize (Hb 0 ltac:(lia)). rewrite Z.lxor_spec, u16_bit, Z.shiftl_spec, Z.testbit_neg_r in Hb by lia. done. }
  apply Z.bits_inj'. intros n Hn. rewrite Z.bits_0. destruct (Z.lt_total n 15) as [Hlt|[->|Hgt]]; [|done|].
  - specialize (Hb (n + 1) ltac:(lia)). rewrite u16_bit, Z.shiftl_spec in Hb by lia. replace (n + 1 - 1) with n in Hb by lia.
    destruct (Z.ltb_spec (n + 1) 16); [done|lia].
  - destruct (Z.eq_dec c 0) as [->|]; [apply Z.bits_0|]. apply Z.bits_above_log2; [lia|].
    assert (Z.log2 c < 16) by (apply Z.log2_lt_pow2; lia). lia.
Qed.

Lemma crc_byte_zero c : 0 <= c < 65536 -> crc_byte c 0 = 0 -> c = 0.
Proof.
  intros Hc. unfold crc_byte. cbn [foldl]. intros E. apply (crc_bit_zero 0) in E; [|lia|apply crc_bit_range].
  do 6 (first [apply (crc_bit_zero 1) in E|apply (crc_bit_zero 2) in E|apply (crc_bit_zero 3) in E|apply (crc_bit_zero 4) in E|
    apply (crc_bit_zero 5) in E|apply (crc_bit_zero 6) in E]; [|lia|apply crc_bit_range]).
  by apply (crc_bit_zero 7) in E; [|lia|].
Qed.

Lemma crc_byte_inj c c' b : 0 <= c < 65536 -> 0 <= c' < 65536 -> crc_byte c b = crc_byte c' b -> c = c'.
Proof.
  intros Hc Hc' E. apply Z.lxor_eq, crc_byte_zero; [by apply lxor_bound16|].
  transitivity (crc_byte (Z.lxor c c') (Z.lxor b b)); [by rewrite Z.lxor_nilpotent|]. rewrite crc_byte_lxor, E. apply Z.lxor_nilpotent.
Qed.

Lemma crc_byte_range c b : 0 <= crc_byte c b < 65536.
Proof. unfold crc_byte. cbn [foldl]. apply crc_bit_range. Qed.

Lemma crc_suffix_inj l : forall c c', 0 <= c < 65536 -> 0 <= c' < 65536 -> zgw_crc16 c l = zgw_crc16 c' l -> c = c'.
Proof.
  induction l as [|b l IH]; intros c c' Hc Hc' E; [done|]. apply (crc_byte_inj _ _ b); [done|done|].
  apply IH; [apply crc_byte_range|apply crc_byte_range|exact E].
Qed.

(** Two bytes into an empty register. *)
Lemma crc_two_bytes e1 e2 : is_byte e1 -> is_byte e2 -> crc_byte (crc_byte 0 e1) e2 = 0 -> e1 = 0 /\ e2 = 0.
Proof.
  intros H1 H2 E.
  assert (Esh : Z.shiftr (Z.shiftl e2 8) 8 = e2) by (by rewrite Z.shiftr_shiftl_l, Z.shiftl_0_r by lia).
  assert (H2r : 0 <= Z.shiftl e2 8 < 65536) by (destruct H2; rewrite Z.shiftl_mul_pow2 by lia; change (2 ^ 8) with 256; lia).
  assert (Ez : crc_byte (Z.shiftl e2 8) e2 = 0).
  { rewrite <- Esh at 2. rewrite crc_byte_shift by done. rewrite Z.shiftl_shiftl by lia. unfold u16. rewrite Z.shiftl_mul_pow2 by lia.
    change (2 ^ (8 + 8)) with 65536. apply Z.mod_mul. lia. }
  assert (Es : crc_byte 0 e1 = Z.shiftl e2 8).
  { apply (crc_byte_inj _ _ e2); [apply crc_byte_range|done|]. by rewrite E, Ez. }
  assert (Hall : Forall (fun e => Z.land (crc_byte 0 e) 0xff = 0 -> e = 0) (seqZ 0 256)).
  { apply (bool_decide_unpack _). by vm_compute. }
  assert (E1 : e1 = 0).
  { rewrite list.Forall_forall in Hall. apply Hall; [apply elem_of_seqZ; destruct H1; lia|]. rewrite Es, land_u8. unfold u8.
    rewrite Z.shiftl_mul_pow2 by lia. apply Z.mod_mul. lia. }
  split; [done|]. rewrite E1 in Es. change (crc_byte 0 0) with 0 in Es. by rewrite <- Esh, <- Es.
Qed.

(** ** The received bytes *)

(** Bit [i] of the mask. *)
Definition marked (mask : list Z) (i : Z) : bool := Z.testbit (at_ mask (Z.to_nat (i / 8))) (i mod 8).

Definition mask_ok (mask : list Z) : Prop := length mask = BITMASK_SIZE /\ bytes mask.

Definition within (off n i : Z) : bool := (off <=? i) && (i <? off + n).

Lemma byte_high x n : is_byte x -> 8 <= n -> Z.testbit x n = false.
Proof.
  intros Hx Hn. destruct (Z.eq_dec x 0) as [->|]; [apply Z.bits_0|]. destruct Hx. apply Z.bits_above_log2; [lia|].
  apply Z.lt_le_trans with 8; [|done]. apply Z.log2_lt_pow2; lia.
Qed.

Lemma shiftl_1_bit j n : 0 <= j -> 0 <= n -> Z.testbit (Z.shiftl 1 j) n = (n =? j).
Proof.
  intros Hj Hn. rewrite Z.shiftl_1_l. destruct (Z.eqb_spec n j) as [->|Hne]; [by apply Z.pow2_bits_true|].
  by apply Z.pow2_bits_false.
Qed.

Lemma mask_slot_lt i : 0 <= i < 208 -> (Z.to_nat (i / 8) < BITMASK_SIZE)%nat.
Proof. intros Hi. assert (0 <= i / 8 < 26) by (split; [apply Z.div_pos; lia|apply Z.div_lt_upper_bound; lia]). unfold BITMASK_SIZE. lia. Qed.

Lemma mark_byte_ok mask i w : mask_ok mask -> 0 <= i < 208 ->
  exists mask', mark_byte mask i w = Ok (mask', w) /\ mask_ok mask' /\
    forall k, 0 <= k -> marked mask' k = marked mask k || (k =? i).
Proof.
  intros [HL HB] Hi. pose proof (mask_slot_lt i Hi) as Hs. rewrite <- HL in Hs.
  destruct (lookup_lt_is_Some_2 mask _ Hs) as [x Hx]. unfold mark_byte.
  rewrite (tm_bind_ok _ _ _ _ _ (tm_rd_ok _ _ _ w Hx)), tm_wr_ok by done. eexists. split; [reflexivity|].
  assert (Hxb : is_byte x) by (eapply bytes_lookup; eauto).
  pose proof (Z.mod_pos_bound i 8 ltac:(lia)) as Hm.
  assert (Eu : forall n, 0 <= n < 8 -> Z.testbit (u8 (Z.lor x (Z.shiftl 1 (i mod 8)))) n = Z.testbit x n || (n =? i mod 8)).
  { intros n Hn. unfold u8. change 256 with (2 ^ 8). rewrite Z.mod_pow2_bits_low, Z.lor_spec, shiftl_1_bit by lia. done. }
  split; [split; [by rewrite length_insert|]; apply Forall_insert; [done|apply u8_byte]|].
  intros k Hk. unfold marked, at_. pose proof (Z.mod_pos_bound k 8 ltac:(lia)).
  destruct (decide (Z.to_nat (k / 8) = Z.to_nat (i / 8))) as [E|E].
  - rewrite E, list_lookup_insert_eq, Hx by done. cbn [default]. rewrite Eu by lia. f_equal.
    assert (k / 8 = i / 8) by (apply Z2Nat.inj; try apply Z.div_pos; lia).
    pose proof (Z.div_mod k 8). pose proof (Z.div_mod i 8). apply eq_true_iff_eq. rewrite !Z.eqb_eq. lia.
  - rewrite list_lookup_insert_ne by done. destruct (Z.eqb_spec k i) as [->|]; [done|]. by rewrite orb_false_r.
Qed.

Lemma mark_loop_ok n : forall i mask w, mask_ok mask -> 0 <= i -> i + Z.of_nat n <= DATAGRAM_SIZE_MAX ->
  exists mask', mark_loop n i mask w = Ok (mask', w) /\ mask_ok mask' /\
    forall k, 0 <= k -> marked mask' k = marked mask k || within i (Z.of_nat n) k.
Proof.
  unfold DATAGRAM_SIZE_MAX. induction n as [|n IH]; intros i mask w Hm Hi Hn.
  - exists mask. split; [done|]. split; [done|]. intros k Hk. unfold within. rewrite Z.add_0_r.
    destruct (Z.leb_spec i k), (Z.ltb_spec k i); try lia; by rewrite ?andb_false_r, orb_false_r.
  - destruct (mark_byte_ok mask i w Hm) as (m1 & E1 & Hm1 & Hk1); [lia|]. cbn [mark_loop].
    rewrite (tm_bind_ok _ _ _ _ _ E1). unfold DATAGRAM_SIZE_MAX. destruct (Z.ltb_spec 200 i); [lia|].
    destruct (IH (i + 1) m1 w Hm1) as (m2 & E2 & Hm2 & Hk2); [lia..|]. exists m2. split; [done|]. split; [done|].
    intros k Hk. rewrite Hk2, Hk1, <- orb_assoc by done. f_equal. unfold within.
    destruct (Z.eqb_spec k i), (Z.leb_spec (i + 1) k), (Z.ltb_spec k (i + 1 + Z.of_nat n)), (Z.leb_spec i k),
      (Z.ltb_spec k (i + Z.of_nat (S n))); try done; lia.
Qed.

(** The byte asked for. *)
Definition first_gap (mask : list Z) (size r : Z) : Prop :=
  (r = 0 /\ forall k, 0 < k < size -> k < 208 -> marked mask k = true) \/
  (0 < r < size /\ marked mask r = false /\ forall k, 0 < k < r -> marked mask k = true).

Lemma missing_bit_ok n : forall j x base size, 0 <= j -> j + Z.of_nat n = 8 -> 0 <= base -> is_byte x ->
  match missing_bit n j x base size with
  | None => forall k, j <= k < 8 -> 0 < base + k -> Z.testbit x k = true
  | Some r => exists m, j <= m < 8 /\ 0 < base + m /\ Z.testbit x m = false /\
      (forall k, j <= k < m -> 0 < base + k -> Z.testbit x k = true) /\ r = (if size <=? base + m then 0 else base + m)
  end.
Proof.
  induction n as [|n IH]; intros j x base size Hj Hn Hb Hx; [cbn; intros; lia|]. cbn [missing_bit].
  specialize (IH (j + 1) x base size ltac:(lia) ltac:(lia) Hb Hx).
  assert (Hskip : (0 < base + j -> Z.testbit x j = true) ->
    match missing_bit n (j + 1) x base size with
    | None => forall k, j <= k < 8 -> 0 < base + k -> Z.testbit x k = true
    | Some r => exists m, j <= m < 8 /\ 0 < base + m /\ Z.testbit x m = false /\
        (forall k, j <= k < m -> 0 < base + k -> Z.testbit x k = true) /\ r = (if size <=? base + m then 0 else base + m)
    end).
  { intros H0. destruct (missing_bit n (j + 1) x base size) as [r|].
    - destruct IH as (m & Hm & Hp & Hf & Hall & Er). exists m. split; [lia|]. split; [done|]. split; [done|]. split; [|done].
      intros k Hk Hkp. destruct (Z.eq_dec k j) as [->|]; [auto|]. apply Hall; lia.
    - intros k Hk Hkp. destruct (Z.eq_dec k j) as [->|]; [auto|]. apply IH; lia. }
  rewrite Z.shiftl_1_l. pose proof (has_bits_pow x j Hj) as Hbit. unfold has_bits in Hbit.
  destruct (Z.land x (2 ^ j) =? 0); cbn [negb] in Hbit.
  - destruct (Z.eqb_spec (base + j) 0); [apply Hskip; lia|].
    exists j. split; [lia|]. split; [lia|]. split; [done|]. split; [intros; lia|done].
  - by apply Hskip.
Qed.

Lemma missing_byte_ok mask : forall i size, 0 <= i -> bytes mask ->
  let bit k := Z.testbit (at_ mask (Z.to_nat (k / 8 - i))) (k mod 8) in
  let r := missing_byte mask i size in
  (r = 0 /\ forall k, 8 * i <= k < 8 * (i + Z.of_nat (length mask)) -> 0 < k < size -> bit k = true) \/
  (0 < r < size /\ 8 * i <= r /\ bit r = false /\ forall k, 8 * i <= k < r -> 0 < k -> bit k = true).
Proof.
  induction mask as [|x mask IH]; intros i size Hi HB bit r.
  { left. split; [done|]. cbn [length]. intros; lia. }
  apply bytes_cons_inv in HB as [Hx HB].
  assert (Hhere : forall k, 0 <= k < 8 -> bit (8 * i + k) = Z.testbit x k).
  { intros k Hk. unfold bit. rewrite (Z.mul_comm 8 i), Z.div_add_l, (Z.div_small k), Z.add_0_r, Z.sub_diag by lia.
    rewrite Z.add_comm, Z_mod_plus_full, Z.mod_small by lia. done. }
  assert (Hlater : forall k, 8 * (i + 1) <= k -> bit k = Z.testbit (at_ mask (Z.to_nat (k / 8 - (i + 1)))) (k mod 8)).
  { intros k Hk. unfold bit, at_. assert (i + 1 <= k / 8) by (apply Z.div_le_lower_bound; lia).
    replace (Z.to_nat (k / 8 - i)) with (S (Z.to_nat (k / 8 - (i + 1)))) by lia. done. }
  pose proof (missing_bit_ok 8 0 x (i * 8) size ltac:(lia) ltac:(lia) ltac:(lia) Hx) as Hbit.
  unfold r. cbn [missing_byte]. destruct (missing_bit 8 0 x (i * 8) size) as [r0|].
  - destruct Hbit as (m & Hm & Hp & Hf & Hall & ->). rewrite (Z.mul_comm i 8) in *. destruct (Z.leb_spec size (8 * i + m)).
    + left. split; [done|]. intros k Hk Hks. replace k with (8 * i + (k - 8 * i)) by lia. rewrite Hhere by lia. apply Hall; lia.
    + right. split; [lia|]. split; [lia|]. split; [by rewrite Hhere by lia|].
      intros k Hk Hkp. replace k with (8 * i + (k - 8 * i)) by lia. rewrite Hhere by lia. apply Hall; lia.
  - assert (Hbyte : forall k, 8 * i <= k < 8 * (i + 1) -> 0 < k -> bit k = true).
    { intros k Hk Hkp. replace k with (8 * i + (k - 8 * i)) by lia. rewrite Hhere by lia. apply Hbit; lia. }
    destruct (IH (i + 1) size ltac:(lia) HB) as [[E Hall]|(Hr & Hge & Hf & Hall)].
    + left. split; [done|]. cbn [length]. intros k Hk Hks. destruct (Z.lt_ge_cases k (8 * (i + 1))); [apply Hbyte; lia|].
      rewrite Hlater by done. apply Hall; lia.
    + right. split; [done|]. split; [lia|]. split; [by rewrite Hlater|].
      intros k Hk Hkp. destruct (Z.lt_ge_cases k (8 * (i + 1))); [apply Hbyte; lia|]. rewrite Hlater by done. apply Hall; lia.
Qed.

Lemma next_missing_ok r : mask_ok (bytes_recvd_bitmask r) -> datagram_size r <= DATAGRAM_SIZE_MAX ->
  first_gap (bytes_recvd_bitmask r) (datagram_size r) (get_next_missing_offset r).
Proof.
  intros [HL HB] Hs. unfold DATAGRAM_SIZE_MAX in Hs. unfold get_next_missing_offset.
  assert (Hb : forall k, 0 < k -> Z.testbit (at_ (bytes_recvd_bitmask r) (Z.to_nat (k / 8 - 0))) (k mod 8) =
    marked (bytes_recvd_bitmask r) k) by (intros k _; by rewrite Z.sub_0_r).
  destruct (missing_byte_ok (bytes_recvd_bitmask r) 0 (datagram_size r) ltac:(lia) HB) as [[-> Hall]|(Hr & _ & Hf & Hall)].
  - left. split; [done|]. intros k Hk Hlt. rewrite <- Hb by lia. apply Hall; [rewrite HL; unfold BITMASK_SIZE|]; lia.
  - right. rewrite u16_small by lia. split; [done|]. split; [rewrite <- Hb by lia; exact Hf|].
    intros k Hk. rewrite <- Hb by lia. apply Hall; lia.
Qed.

(** ** The logic of the component *)

(** Projections of updated records. *)
Ltac ts_simpl := cbn [
    snode dnode sendpoint dendpoint tx_flags rx_flags scheme s_p completedFunc tx_status s_session_id
    s_pending_segments datalen_to_send missing_offset offset remaining_data_len datagram datagram_len
    sending flag_replied_frag_req transmission_aborted frag_compl_list flag_send_frag_wait
    flag_reply_frag_req frag_wait_p round_trip_first_frag flag_fc_timer_expired_once current_dnode
    does_not_fit_in_first_frag r_p r_session_id r_pending_segments fragment fragment_len
    flag_retry_frag_req_once rx_data_state recv_frag_compl_list datagramData cur_recvd_data_size
    current_snode bytes_recvd_bitmask datagram_size reset_timer wait_restart_timer timer_btwn_2_frags
    fc_timer rx_timer current_state scb rcb flag_tie_broken flag_initialize_once FragmentMaxPayload
    t2_txBuf offset_to_request timers handler MyNodeID clock rands accepts outs set_s_p set_completedFunc
    set_tx_status set_s_session_id set_s_pending_segments set_datalen_to_send set_missing_offset set_offset
    set_remaining_data_len set_datagram set_datagram_len set_sending set_flag_replied_frag_req
    set_transmission_aborted set_frag_compl_list set_flag_send_frag_wait set_flag_reply_frag_req
    set_frag_wait_p set_round_trip_first_frag set_flag_fc_timer_expired_once set_current_dnode
    set_does_not_fit_in_first_frag set_r_p set_r_session_id set_r_pending_segments set_fragment
    set_fragment_len set_flag_retry_frag_req_once set_rx_data_state set_recv_frag_compl_list
    set_datagramData set_cur_recvd_data_size set_current_snode set_bytes_recvd_bitmask set_datagram_size
    set_reset_timer set_wait_restart_timer set_timer_btwn_2_frags set_fc_timer set_rx_timer
    set_current_state set_scb set_rcb set_flag_tie_broken set_flag_initialize_once set_FragmentMaxPayload
    set_t2_txBuf set_offset_to_request set_timers set_handler set_MyNodeID set_clock set_rands set_accepts
    set_outs]; cbv beta.

(** The primitive steps at the head of a computation. *)
Section Steps.
Context {B : Type} (k : unit -> TM B) (Q : B -> T2 -> Prop) (R : unit -> T2 -> Prop) (w : T2).
Lemma step_scb f : wp (k tt) Q (set_scb (f (scb w)) w) -> wp (mod_scb f ≫= k) Q w.
Proof. done. Qed.
Lemma step_rcb f : wp (k tt) Q (set_rcb (f (rcb w)) w) -> wp (mod_rcb f ≫= k) Q w.
Proof. done. Qed.
Lemma step_timers f : wp (k tt) Q (set_timers (f (timers w)) w) -> wp (mod_timers f ≫= k) Q w.
Proof. done. Qed.
Lemma step_reset : wp (k tt) Q (set_timers (set_reset_timer (Some RESET_TIME) (timers w)) w) -> wp (start_reset_timer ≫= k) Q w.
Proof. done. Qed.
Lemma step_event e : wp (k tt) Q (set_current_state (next_state (current_state w) e) w) -> wp (t2_sm_post_event e ≫= k) Q w.
Proof. done. Qed.
Lemma step_emit o : wp (k tt) Q (set_outs (o :: outs w) w) -> wp (emit o ≫= k) Q w.
Proof. done. Qed.
Lemma end_scb f : R tt (set_scb (f (scb w)) w) -> wp (mod_scb f) R w.
Proof. done. Qed.
Lemma end_rcb f : R tt (set_rcb (f (rcb w)) w) -> wp (mod_rcb f) R w.
Proof. done. Qed.
Lemma end_timers f : R tt (set_timers (f (timers w)) w) -> wp (mod_timers f) R w.
Proof. done. Qed.
Lemma end_event e : R tt (set_current_state (next_state (current_state w) e) w) -> wp (t2_sm_post_event e) R w.
Proof. done. Qed.
Lemma end_emit o : R tt (set_outs (o :: outs w) w) -> wp (emit o) R w.
Proof. done. Qed.
End Steps.

Ltac ts_step :=
  lazymatch goal with
  | |- wp (mbind _ get) _ _ => apply step_get
  | |- wp (mbind _ (modify _)) _ _ => apply step_modify
  | |- wp (mbind _ (mret _)) _ _ => apply step_ret
  | |- wp (mbind _ (mod_scb _)) _ _ => apply step_scb
  | |- wp (mbind _ (mod_rcb _)) _ _ => apply step_rcb
  | |- wp (mbind _ (mod_timers _)) _ _ => apply step_timers
  | |- wp (mbind _ start_reset_timer) _ _ => apply step_reset
  | |- wp (mbind _ (t2_sm_post_event _)) _ _ => apply step_event
  | |- wp (mbind _ (emit _)) _ _ => apply step_emit
  | |- wp (mret _) _ _ => apply end_ret
  | |- wp (modify _) _ _ => apply end_modify
  | |- wp (mod_scb _) _ _ => apply end_scb
  | |- wp (mod_rcb _) _ _ => apply end_rcb
  | |- wp (mod_timers _) _ _ => apply end_timers
  | |- wp (t2_sm_post_event _) _ _ => apply end_event
  | |- wp (emit _) _ _ => apply end_emit
  end; cbv beta zeta.
Ltac ts := cbv beta iota; ts_simpl; repeat (ts_step; ts_simpl; cbv iota).

(** The radio takes a frame it has not announced to refuse. *)
Lemma wp_send src dst buf len opt cb Q w : accepts w = [] -> (Z.to_nat (u8 len) <= length buf)%nat ->
  Q true (set_outs (SendRaw src dst (take (Z.to_nat (u8 len)) buf) opt cb :: outs w) w) -> wp (TS_SEND_RAW src dst buf len opt cb) Q w.
Proof.
  intros Ha Hl HQ. unfold TS_SEND_RAW. apply wp_bind, wp_rds; [lia|]. apply wp_bind. unfold wp at 1, next_accept. rewrite Ha.
  ts. exact HQ.
Qed.

Lemma wp_put off bs Q w : (off + length bs <= length (t2_txBuf w))%nat ->
  Q tt (set_t2_txBuf (splice off bs (t2_txBuf w)) w) -> wp (put_tx off bs) Q w.
Proof. intros Hl HQ. unfold put_tx. ts. apply wp_bind, wp_wrs; [done|]. ts. exact HQ. Qed.

(** ** Frames *)

(** The frames of a datagram of at most 200 bytes, as they are on the air. *)
Definition with_crc (l : list Z) : list Z := l ++ crc_bytes l.
Definition first_frame (sid len : Z) (pay : list Z) : list Z :=
  with_crc ([COMMAND_CLASS_TRANSPORT_SERVICE; COMMAND_FIRST_FRAGMENT; len; 16 * sid] ++ pay).
Definition subseq_frame (sid len off : Z) (pay : list Z) : list Z :=
  with_crc ([COMMAND_CLASS_TRANSPORT_SERVICE; COMMAND_SUBSEQUENT_FRAGMENT; len; 16 * sid; off] ++ pay).
Definition request_frame (sid off : Z) : list Z :=
  [COMMAND_CLASS_TRANSPORT_SERVICE; COMMAND_SEGMENT_REQUEST_V2; 16 * sid; off].
Definition complete_frame (sid : Z) : list Z := [COMMAND_CLASS_TRANSPORT_SERVICE; COMMAND_SEGMENT_COMPLETE_V2; 16 * sid].

Lemma length_with_crc l : length (with_crc l) = (length l + 2)%nat.
Proof. unfold with_crc. by rewrite length_app. Qed.

Lemma sid_cases (P : Z -> Prop) : Forall P (seqZ 0 16) -> forall sid, 0 <= sid < 16 -> P sid.
Proof. intros H sid Hs. rewrite list.Forall_forall in H. apply H, elem_of_seqZ. lia. Qed.

Lemma sid_high sid : 0 <= sid < 16 -> u8 (Z.shiftl sid 4) = 16 * sid.
Proof. intros Hs. rewrite Z.shiftl_mul_pow2 by lia. change (2 ^ 4) with 16. rewrite u8_small; lia. Qed.

Lemma sid_decode sid : 0 <= sid < 16 -> Z.shiftr (Z.land (16 * sid) 0xf0) 4 = sid /\ Z.land (16 * sid) 0x07 = 0.
Proof.
  apply (sid_cases (fun sid => Z.shiftr (Z.land (16 * sid) 0xf0) 4 = sid /\ Z.land (16 * sid) 0x07 = 0)).
  repeat constructor.
Qed.

Lemma small_high x : 0 <= x < 256 -> Z.shiftr x 8 = 0.
Proof. intros Hx. rewrite Z.shiftr_div_pow2 by lia. apply Z.div_small. change (2 ^ 8) with 256. lia. Qed.

Lemma sub_app_exact (l1 l2 : list Z) n : length l1 = n -> sub 0 n (l1 ++ l2) = l1.
Proof. intros <-. unfold sub. by rewrite drop_0, take_app_length. Qed.

(** A frame on the air, in a buffer that may go on behind it, passes the check. *)
Lemma wp_crc_ok l slack r Q w : fragment r = with_crc l ++ slack -> fragment_len r = Z.of_nat (length (with_crc l)) ->
  Q true w -> wp (crc_ok r) Q w.
Proof.
  intros Hf Hl HQ. unfold crc_ok. apply wp_bind, wp_rds; [rewrite Hf, length_app; lia|]. ts.
  rewrite Hf, Hl, Nat2Z.id, sub_app_exact by done. unfold with_crc. rewrite crc_appended. exact HQ.
Qed.

Lemma splice_lookup off (bs l : list Z) i : (off + length bs <= length l)%nat ->
  splice off bs l !! i = if bool_decide (off <= i < off + length bs)%nat then bs !! (i - off)%nat else l !! i.
Proof.
  intros Hl. unfold splice. case_bool_decide as H.
  - rewrite lookup_app_r by (rewrite length_take; lia). rewrite length_take, Nat.min_l by lia. by rewrite lookup_app_l by lia.
  - destruct (decide (i < off)%nat).
    + rewrite lookup_app_l by (rewrite length_take; lia). by rewrite lookup_take_lt.
    + rewrite lookup_app_r by (rewrite length_take; lia). rewrite length_take, Nat.min_l, lookup_app_r, lookup_drop by lia.
      f_equal. lia.
Qed.

(** C13: The checksum detects every corruption of a frame that is confined to two neighbouring bytes,
    a burst of up to 16 bits among them: the corrupted frame does not check to zero. *)
Theorem crc_detects_burst l pre suf a b a' b' : with_crc l = pre ++ [a; b] ++ suf -> is_byte a -> is_byte b -> is_byte a' -> is_byte b' ->
  (a', b') <> (a, b) -> zgw_crc16 0x1D0F (pre ++ [a'; b'] ++ suf) <> 0.
Proof.
  intros El Ha Hb Ha' Hb' Hne E. pose proof (crc_appended l) as E0. fold (with_crc l) in E0. rewrite El in E0.
  unfold zgw_crc16 in E, E0. rewrite !foldl_app in E, E0. cbn [foldl] in E, E0. set (c := foldl crc_byte 0x1D0F pre) in *.
  assert (Es : crc_byte (crc_byte c a') b' = crc_byte (crc_byte c a) b).
  { apply (crc_suffix_inj suf); [apply crc_byte_range..|]. unfold zgw_crc16. by rewrite E, E0. }
  destruct (crc_two_bytes (Z.lxor a' a) (Z.lxor b' b)) as [E1 E2]; [by apply lxor_byte|by apply lxor_byte| |].
  - transitivity (crc_byte (crc_byte (Z.lxor c c) (Z.lxor a' a)) (Z.lxor b' b)); [by rewrite Z.lxor_nilpotent|].
    rewrite !crc_byte_lxor, Es. apply Z.lxor_nilpotent.
  - apply Z.lxor_eq in E1, E2. by subst.
Qed.

Lemma crc_detects_burst_witness : with_crc [1; 2; 3] = [1; 2] ++ [3; 112] ++ [61] /\ zgw_crc16 0x1D0F ([1; 2] ++ [4; 112] ++ [61]) <> 0.
Proof.
  split; [by vm_compute|]. apply (crc_detects_burst [1; 2; 3] _ _ 3 112); try done; by vm_compute.
Defined.

(** A condition on constants. *)
Ltac ts_const := match goal with |- wp (if ?b then _ else _) _ _ => let v := eval vm_compute in b in change b with v; cbv iota end.

(** ** The receiver *)

Record base (w : T2) : Prop := {
  b_handler : handler w = true;
  b_data : length (datagramData (rcb w)) = 200%nat;
  b_mask : mask_ok (bytes_recvd_bitmask (rcb w));
  b_done : length (recv_frag_compl_list (rcb w)) = 16%nat;
  b_tx : length (t2_txBuf w) = TXBUF_SIZE;
  b_acc : accepts w = [];
  b_dnode : current_dnode (scb w) = 0;
  b_sending : sending (scb w) = false
}.

(** Ready for a new datagram. *)
Record idle (w : T2) : Prop := {
  i_base : base w;
  i_state : current_state w = ST_IDLE;
  i_snode : current_snode (rcb w) = 0;
  i_session : flag_initialize_once w = true \/ r_session_id (rcb w) = 0x10
}.

Lemma tx_splice off bs (l : list Z) : length l = TXBUF_SIZE -> (off + length bs <= TXBUF_SIZE)%nat -> length (splice off bs l) = TXBUF_SIZE.
Proof. intros Hl Hb. by rewrite length_splice by lia. Qed.

Lemma wp_abort (Q : unit -> T2 -> Prop) w : (forall x, Q tt (set_scb (set_transmission_aborted x (scb w)) w)) -> wp abort_if_tie_broken Q w.
Proof.
  intros HQ. unfold abort_if_tie_broken. ts. destruct (flag_tie_broken w); ts; [apply HQ|].
  specialize (HQ (transmission_aborted (scb w))). destruct w as [? [] ]. exact HQ.
Qed.

Lemma mark_ok off n (Q : bool -> T2 -> Prop) w : mask_ok (bytes_recvd_bitmask (rcb w)) ->
  off = 0 \/ marked (bytes_recvd_bitmask (rcb w)) 0 = true -> 0 <= off -> off + Z.of_nat n <= DATAGRAM_SIZE_MAX ->
  (forall mask, mask_ok mask -> (forall k, 0 <= k -> marked mask k = marked (bytes_recvd_bitmask (rcb w)) k || within off (Z.of_nat n) k) ->
     Q false (set_rcb (set_bytes_recvd_bitmask mask (rcb w)) w)) ->
  wp (mark_frag_received off (Z.of_nat n)) Q w.
Proof.
  intros Hm H0 Ho Hn HQ. unfold mark_frag_received. ts. pose proof Hm as [HL HB].
  destruct (lookup_lt_is_Some_2 (bytes_recvd_bitmask (rcb w)) 0) as [x Hx]; [rewrite HL; unfold BITMASK_SIZE; lia|].
  apply wp_bind. eapply wp_rd; [exact Hx|].
  assert (Hc : negb (off =? 0) && negb (has_bits x 1) = false).
  { destruct H0 as [->|H0]; [done|]. change 1 with (2 ^ 0) at 1. rewrite has_bits_pow by lia.
    assert (H0' : Z.testbit x 0 = true)
      by (unfold marked, at_ in H0; change (Z.to_nat (0 / 8)) with 0%nat in H0; rewrite Hx in H0; exact H0).
    rewrite H0'. apply andb_false_r. }
  rewrite Hc. destruct (mark_loop_ok n off _ w Hm Ho Hn) as (mask & E & Hm' & Hk).
  apply wp_bind. unfold wp at 1. rewrite Nat2Z.id, E. ts. by apply HQ.
Qed.

Lemma marked_zero k : marked (replicate BITMASK_SIZE 0) k = false.
Proof.
  unfold marked, at_. destruct (replicate BITMASK_SIZE 0 !! Z.to_nat (k / 8)) as [x|] eqn:E; [|apply Z.bits_0].
  apply lookup_replicate in E as [-> _]. apply Z.bits_0.
Qed.

Lemma zero_mask_ok : mask_ok (replicate BITMASK_SIZE 0).
Proof. split; [done|]. by apply bytes_replicate. Qed.

Section Receiver.
(** The parameters of the received frames, the session and the datagram. *)
Variables (p : ts_param_t) (sid : Z) (data : list Z).
Context (Hsid : 0 <= sid < 16) (Hlen : (length data <= 200)%nat) (Hnodes : snode p <> dnode p)
  (Hrx : rx_flags p = RECEIVE_STATUS_TYPE_SINGLE).
Let len : Z := Z.of_nat (length data).

(** The bytes of [got] have arrived. *)
Record assembling (got : Z -> bool) (w : T2) : Prop := {
  a_base : base w;
  a_init : flag_initialize_once w = false;
  a_session : r_session_id (rcb w) = sid;
  a_snode : current_snode (rcb w) = snode p;
  a_open : recv_frag_compl_list (rcb w) !! Z.to_nat sid = Some false;
  a_size : datagram_size (rcb w) = len;
  a_p : r_p (rcb w) = p;
  a_marks : forall i, 0 <= i -> marked (bytes_recvd_bitmask (rcb w)) i = got i;
  a_data : forall i, 0 <= i < len -> got i = true -> datagramData (rcb w) !! Z.to_nat i = data !! Z.to_nat i
}.

Definition answer : Z := Z.lor (tx_flags p) TRANSMIT_OPTION_ACK.
Definition delivery : out :=
  Deliver (mkParam (snode p) (dnode p) 0 0
    (Z.lor (Z.lor TRANSMIT_OPTION_ACK TRANSMIT_OPTION_AUTO_ROUTE) TRANSMIT_OPTION_EXPLORE) 0 NO_SCHEME) data.

Lemma all_received got (w : T2) : assembling got w -> (forall i, 0 <= i < len -> got i = true) ->
  sub 0 (length data) (datagramData (rcb w)) = data.
Proof.
  intros Hw Hall. apply list_eq. intros i. unfold sub. rewrite drop_0. destruct (decide (i < length data)%nat) as [Hi|Hi].
  - rewrite lookup_take_lt by done. replace i with (Z.to_nat (Z.of_nat i)) by lia. apply (a_data _ _ Hw); [unfold len; lia|].
    apply Hall. unfold len. lia.
  - rewrite lookup_take_ge, lookup_ge_None_2 by lia. done.
Qed.

(** The whole datagram is confirmed and handed over. *)
Lemma complete_ok got w : assembling got w -> (forall i, 0 <= i < len -> got i = true) -> current_state w = ST_SEND_FRAG_COMPLETE ->
  wp send_frag_complete_cmd (fun _ w' => idle w' /\ flag_initialize_once w' = false /\ rx_timer (timers w') = None /\
    outs w' = delivery :: SendRaw (dnode p) (snode p) (complete_frame sid) answer None :: outs w) w.
Proof.
  intros Hw Hall Hst. pose proof (all_received _ _ Hw Hall) as Hd. destruct Hw as [[] ? Es ? ? Ez Ep ? ?].
  unfold send_frag_complete_cmd. ts. rewrite Es, Ep. destruct (Z.ltb_spec 0x0f sid); [lia|]. ts.
  apply wp_bind, wp_send; [done|reflexivity || (cbn; lia)|]. ts.
  apply wp_bind. unfold ZIPCommandHandler. ts. rewrite b_handler0.
  assert (El : Z.to_nat (datagram_size (rcb w)) = length data) by (rewrite Ez; unfold len; lia).
  apply wp_bind. rewrite El. apply wp_rds; [ts_simpl; lia|]. ts. rewrite Hd.
  apply wp_bind, wp_wr; [lia|]. ts. rewrite Hst. split; [|split; [done|split; [done|]]].
  - constructor; ts_simpl; [constructor; ts_simpl; rewrite ?length_insert; done|reflexivity|done|by right].
  - rewrite sid_high, Ep by done. reflexivity.
Qed.
(** The first missing byte is asked for. *)
Definition gap (got : Z -> bool) (m : Z) : Prop := 0 < m < len /\ got m = false /\ forall k, 0 < k < m -> got k = true.

Lemma assembling_gap got w : assembling got w -> got 0 = true ->
  let r := get_next_missing_offset (rcb w) in
  (r = 0 /\ (forall i, 0 <= i < len -> got i = true)) \/ gap got r.
Proof.
  intros Hw H0. destruct Hw as [[] ? ? ? ? Ez ? Hm ?].
  destruct (next_missing_ok (rcb w)) as [[E Hall]|(Hr & Hf & Hall)]; [done|rewrite Ez; unfold len, DATAGRAM_SIZE_MAX; lia|left|right].
  - split; [done|]. intros i Hi. destruct (Z.eq_dec i 0) as [->|]; [done|]. rewrite <- Hm by lia. apply Hall; [rewrite Ez; lia|unfold len in *; lia].
  - rewrite Ez in Hr. split; [done|]. rewrite <- Hm by lia. split; [done|]. intros k Hk. rewrite <- Hm by lia. by apply Hall.
Qed.

(** Changes outside of the receiving control block do not disturb it. *)
Lemma assembling_frame got w w' : assembling got w -> rcb w' = rcb w -> flag_initialize_once w' = flag_initialize_once w ->
  handler w' = handler w -> length (t2_txBuf w') = length (t2_txBuf w) -> accepts w' = accepts w ->
  current_dnode (scb w') = current_dnode (scb w) -> sending (scb w') = sending (scb w) -> assembling got w'.
Proof.
  intros [[] ] Hr Hi Hh Ht Ha Hd Hs. constructor; [constructor|..]; rewrite ?Hr, ?Hi, ?Hh, ?Ht, ?Ha, ?Hd, ?Hs; done.
Qed.

(** What the receiver answers once it looks for gaps. *)
Inductive answered (got : Z -> bool) (l : list out) (w' : T2) : Prop :=
| Confirmed : (forall i, 0 <= i < len -> got i = true) -> idle w' -> flag_initialize_once w' = false -> rx_timer (timers w') = None ->
    outs w' = delivery :: SendRaw (dnode p) (snode p) (complete_frame sid) answer None :: l -> answered got l w'
| Requested m : gap got m -> assembling got w' -> current_state w' = ST_RECEIVING -> rx_data_state (rcb w') = true ->
    rx_timer (timers w') = Some FRAGMENT_RX_TIMEOUT ->
    outs w' = SendRaw (dnode p) (snode p) (request_frame sid m) answer None :: l -> answered got l w'.

Lemma request_ok got w m : assembling got w -> gap got m -> get_next_missing_offset (rcb w) = m -> current_state w = ST_SEND_FRAG_REQ ->
  wp send_frag_req_cmd (fun _ w' => answered got (outs w) w') w.
Proof.
  intros Hw Hg Em Hst. pose proof Hw as [[] ? Es ? ? Ez Ep ? ?]. pose proof Hg as (Hm & _ & _).
  assert (Hm' : 0 < m < 200) by (unfold len in Hm; lia).
  unfold send_frag_req_cmd. ts. rewrite Em, Es. destruct (Z.eqb_spec m 0); [lia|]. destruct (Z.ltb_spec 0x0f sid); [lia|].
  assert (E700 : Z.shiftr (Z.land m 0x700) 8 = 0).
  { apply Z.bits_inj'. intros i Hi. rewrite Z.shiftr_spec, Z.land_spec, Z.bits_0 by lia. rewrite (byte_high m (i + 8)); [done|split; lia|lia]. }
  rewrite E700, Z.lor_0_r, sid_high, land_u8, u8_small by lia.
  assert (Hr4 : (0 + 4 <= TXBUF_SIZE)%nat) by (unfold TXBUF_SIZE; lia).
  apply wp_bind, wp_put; [ts_simpl; by rewrite b_tx0|]. ts. rewrite b_acc0. apply wp_bind. cbn [length send_frag_req_loop]. ts.
  assert (Htx : length (splice 0 (request_frame sid m) (t2_txBuf w)) = TXBUF_SIZE) by by apply tx_splice.
  apply wp_bind, wp_send; [done|exact (eq_ind_r (fun n => (4 <= n)%nat) Hr4 Htx)|]. cbn [negb andb]. ts.
  apply (Requested _ _ _ m); ts_simpl; [done| |by rewrite Hst|done|done|].
  - destruct Hw. by constructor.
  - rewrite Ep. reflexivity.
Qed.
Lemma find_missing_ok got w : assembling got w -> got 0 = true -> current_state w = ST_FIND_MISS_FRAG ->
  wp find_missing (fun _ w' => answered got (outs w) w') w.
Proof.
  intros Hw H0 Hst. destruct (assembling_gap got w Hw H0) as [[E Hall]|Hg].
  - unfold find_missing. ts. rewrite E, (a_p _ _ Hw), Hrx. change (negb (u8 0 =? 0)) with false.
    change (RECEIVE_STATUS_TYPE_SINGLE =? RECEIVE_STATUS_TYPE_BROAD) with false. cbv iota. ts. rewrite Hst.
    eapply wp_mono; [apply (complete_ok got)|]; [by apply (assembling_frame got w)|done|done|].
    intros _ w' (Hi & Hf & Ht & Ho). by apply Confirmed.
  - unfold find_missing. ts. rewrite (a_p _ _ Hw), Hrx. set (m := get_next_missing_offset (rcb w)) in *.
    pose proof Hg as (Hm & _). rewrite u8_small by (unfold len in Hm; lia). destruct (Z.eqb_spec m 0); [lia|].
    change (RECEIVE_STATUS_TYPE_SINGLE =? RECEIVE_STATUS_TYPE_BROAD) with false. cbv iota. cbn [negb]. ts. rewrite Hst.
    eapply wp_mono; [apply (request_ok got _ m); [by apply (assembling_frame got w)|done..]|done].
Qed.

(** The timer of the receiver: it asks, unless it has asked already and nothing came. *)
Lemma rx_timer_ok got w : assembling got w -> got 0 = true -> current_state w = ST_RECEIVING -> rx_data_state (rcb w) = false ->
  wp (expire TRx) (fun _ w' => answered got (outs w) w') w.
Proof.
  intros Hw H0 Hst Hrs. unfold expire, rx_timer_expired. ts. rewrite Hrs. cbn [andb]. rewrite Hst.
  eapply wp_mono; [apply (find_missing_ok got); [by apply (assembling_frame got w)|done..]|done].
Qed.
(** The state in which a frame of the peer is looked at. *)
Definition entered (w : T2) : T2 :=
  set_scb (set_frag_wait_p p (scb w)) (set_timers (set_reset_timer (Some RESET_TIME) (timers w)) w).

Lemma handler_enter pCmd n b1 w Q : recv_or_send (current_state w) <> 0 -> current_snode (rcb w) = 0 \/ current_snode (rcb w) = snode p ->
  current_dnode (scb w) = 0 -> n <= DATAGRAM_SIZE_MAX -> pCmd !! 1%nat = Some b1 ->
  r_session_id (rcb w) <> 0x10 \/ Z.land b1 0xf8 <> COMMAND_SUBSEQUENT_FRAGMENT ->
  wp (take_frame p pCmd n) Q (entered w) -> wp (TransportService_ApplicationCommandHandler p pCmd n) Q w.
Proof.
  intros Hr Hs Hd Hn H1 Hc HQ. unfold TransportService_ApplicationCommandHandler. ts.
  apply wp_bind. unfold tie_break, ZW_TransportService_Is_Sending. ts. destruct (Z.eqb_spec (recv_or_send (current_state w)) 0); [done|]. cbn [andb]. ts.
  unfold check_frame. destruct (Z.eqb_spec (snode p) (dnode p)); [done|]. destruct (Z.ltb_spec DATAGRAM_SIZE_MAX n); [lia|]. ts.
  assert (Ht : forall s t, third_node p (set_scb (set_frag_wait_p s (scb w)) (set_timers t w)) = false).
  { intros s t. unfold third_node. ts_simpl. rewrite Hd, andb_false_r, orb_false_r.
    destruct Hs as [->| ->]; rewrite ?Z.eqb_refl; cbn [negb andb]; by rewrite ?andb_false_r. }
  rewrite Ht. cbn [andb]. apply wp_bind. eapply wp_rd; [exact H1|].
  replace ((r_session_id (rcb w) =? 0x10) && (Z.land b1 0xf8 =? COMMAND_SUBSEQUENT_FRAGMENT)) with false; [exact HQ|].
  symmetry. apply andb_false_iff. rewrite !Z.eqb_neq. tauto.
Qed.

(** The bytes of a fragment join those received before. *)
Definition union (got : Z -> bool) (off n i : Z) : bool := got i || within off n i.

Lemma assembling_union got w off pay : assembling got w -> 0 <= off -> off + Z.of_nat (length pay) <= len ->
  sub (Z.to_nat off) (length pay) data = pay ->
  forall i, 0 <= i < len -> union got off (Z.of_nat (length pay)) i = true ->
  splice (Z.to_nat off) pay (datagramData (rcb w)) !! Z.to_nat i = data !! Z.to_nat i.
Proof.
  intros Hw Ho Hn Hp i Hi Hu. pose proof (b_data _ (a_base _ _ Hw)) as Hd. unfold len in *.
  rewrite splice_lookup by lia. case_bool_decide as Hin.
  - rewrite <- Hp at 1. unfold sub. rewrite lookup_take_lt, lookup_drop by lia. f_equal. lia.
  - apply (a_data _ _ Hw); [done|]. unfold union in Hu. apply orb_true_iff in Hu as [Hu|Hu]; [done|]. unfold within in Hu. zbool. lia.
Qed.

(** A subsequent fragment. *)
Definition progress (got : Z -> bool) (l : list out) (last : bool) (w' : T2) : Prop :=
  if last then answered got l w'
  else assembling got w' /\ current_state w' = ST_RECEIVING /\ rx_data_state (rcb w') = false /\
    rx_timer (timers w') = Some FRAGMENT_RX_TIMEOUT /\ outs w' = l.

Lemma receive_subseq_ok got w off pay slack : assembling got w -> current_state w = ST_RECEIVING -> got 0 = true ->
  0 < off -> (0 < length pay <= 47)%nat -> off + Z.of_nat (length pay) <= len -> sub (Z.to_nat off) (length pay) data = pay ->
  fragment (rcb w) = subseq_frame sid len off pay ++ slack -> fragment_len (rcb w) = Z.of_nat (length pay + 7) ->
  wp (receive_subseq COMMAND_SUBSEQUENT_FRAGMENT len (16 * sid) off)
    (fun _ => progress (union got off (Z.of_nat (length pay))) (outs w) (len <=? off + Z.of_nat (length pay))) w.
Proof.
  intros Hw Hst H0 Ho Hp Hn Hsub Hf Hfl. pose proof Hw as [[] ? Es ? Hopen Ez Ep Hm ?].
  assert (Hr : 0 <= off < 256 /\ 0 <= len < 256) by (unfold len in *; lia). destruct Hr as [Hoff Hlenb].
  destruct (sid_decode sid Hsid) as [Ed E7].
  unfold receive_subseq. apply wp_bind, wp_abort. intros x. ts. rewrite Hfl.
  change SUBSEQ_FRAG_NONPAYLOAD_LENGTH with 7. destruct (Z.leb_spec (Z.of_nat (length pay + 7)) 7); [lia|].
  apply wp_bind. eapply wp_crc_ok; [exact Hf|rewrite Hfl, length_with_crc; cbn [length app]; rewrite ?length_app; cbn [length]; lia|].
  cbn [negb]. rewrite Ed, E7. apply wp_bind. eapply wp_rd; [exact Hopen|]. rewrite Es, Z.eqb_refl. cbn [negb andb]. ts.
  change (Z.shiftl 0 8) with 0. rewrite !Z.add_0_l, (u16_small off), (u16_small len), (u8_small (_ - _)) by lia.
  replace (Z.of_nat (length pay + 7) - 7) with (Z.of_nat (length pay)) by lia.
  unfold DATAGRAM_SIZE_MAX. destruct (Z.ltb_spec 200 (off + Z.of_nat (length pay))); [unfold len in *; lia|].
  destruct (Z.ltb_spec 200 len); [unfold len in *; lia|]. ts.
  apply wp_bind, mark_ok; [done|right; ts_simpl; by rewrite Hm|lia|unfold DATAGRAM_SIZE_MAX; lia|]. intros mask Hmask Hmarks. ts.
  rewrite Nat2Z.id. apply wp_bind, wp_rds; [rewrite Hf, length_app; unfold subseq_frame; rewrite length_with_crc; unfold SUBSEQ_HDR_LEN; cbn [length app]; lia|].
  assert (Epay : sub SUBSEQ_HDR_LEN (length pay) (fragment (rcb w)) = pay).
  { rewrite Hf. unfold subseq_frame, with_crc, sub, SUBSEQ_HDR_LEN. cbn [app drop]. rewrite <- !app_assoc. by rewrite drop_0, take_app_length. }
  rewrite Epay. apply wp_bind, wp_wrs; [unfold len in *; lia|]. ts.
  assert (Hw' : forall b w1, rcb w1 = set_rx_data_state b (set_datagramData (splice (Z.to_nat off) pay (datagramData (rcb w)))
      (set_datagram_size len (set_bytes_recvd_bitmask mask (set_cur_recvd_data_size (Z.of_nat (length pay)) (rcb w))))) ->
    flag_initialize_once w1 = flag_initialize_once w -> handler w1 = handler w -> t2_txBuf w1 = t2_txBuf w -> accepts w1 = accepts w ->
    current_dnode (scb w1) = current_dnode (scb w) -> sending (scb w1) = sending (scb w) ->
    assembling (union got off (Z.of_nat (length pay))) w1).
  { intros b w1 Er E1 E2 E3 E4 E5 E6. constructor; [constructor|..]; rewrite ?Er, ?E1, ?E2, ?E3, ?E4, ?E5, ?E6; ts_simpl; try done.
    - rewrite length_splice; [done|unfold len in *; lia].
    - intros i Hi. rewrite Hmarks by done. ts_simpl. by rewrite Hm.
    - apply (assembling_union got w); try done. lia. }
  unfold progress. destruct (Z.leb_spec len (off + Z.of_nat (length pay))); ts.
  - rewrite Hst. eapply wp_mono; [eapply (find_missing_ok (union got off (Z.of_nat (length pay))))|]; [|by unfold union; rewrite H0|done|done].
    by apply (Hw' (rx_data_state (rcb w))).
  - split; [by apply (Hw' false)|]. done.
Qed.

Lemma subseq_ok got w off pay slack : assembling got w -> current_state w = ST_RECEIVING -> got 0 = true ->
  0 < off -> (0 < length pay <= 47)%nat -> off + Z.of_nat (length pay) <= len -> sub (Z.to_nat off) (length pay) data = pay ->
  wp (TransportService_ApplicationCommandHandler p (subseq_frame sid len off pay ++ slack) (Z.of_nat (length pay + 7)))
    (fun _ => progress (union got off (Z.of_nat (length pay))) (outs w) (len <=? off + Z.of_nat (length pay))) w.
Proof.
  intros Hw Hst H0 Ho Hp Hn Hsub. pose proof Hw as [[] ? Es ? ? Ez Ep Hm ?].
  eapply handler_enter; [by rewrite Hst|by right|done|unfold DATAGRAM_SIZE_MAX, len in *; lia|reflexivity|left; lia|].
  unfold take_frame, entered, initialize_once. ts. rewrite Hst. cbv iota. ts. apply wp_bind. ts. rewrite a_init0. ts.
  unfold receive. ts. do 5 (apply wp_bind; eapply wp_rd; [reflexivity|]). do 3 ts_const.
  eapply wp_mono; [apply (receive_subseq_ok got _ off pay slack)|]; try done; ts_simpl; first [by rewrite Hst|destruct Hw; by constructor].
Qed.
(** The first fragment opens a session. *)
Lemma receive_first_ok w pay slack : base w -> current_state w = ST_RECEIVING -> flag_initialize_once w = false ->
  r_session_id (rcb w) = 0x10 -> r_p (rcb w) = p -> (0 < length pay <= 47)%nat -> Z.of_nat (length pay) < len ->
  sub 0 (length pay) data = pay ->
  fragment (rcb w) = first_frame sid len pay ++ slack -> fragment_len (rcb w) = Z.of_nat (length pay + 6) ->
  wp (receive_first COMMAND_FIRST_FRAGMENT len (16 * sid)) (fun _ => progress (within 0 (Z.of_nat (length pay))) (outs w) false) w.
Proof.
  intros [] Hst Hi Es Ep Hp Hn Hsub Hf Hfl. assert (Hlenb : 0 <= len <= 200) by (unfold len in *; lia).
  destruct (sid_decode sid Hsid) as [Ed _].
  unfold receive_first. apply wp_bind, wp_abort. intros x. ts. rewrite Hfl.
  change FIRST_FRAG_NONPAYLOAD_LENGTH with 6. destruct (Z.leb_spec (Z.of_nat (length pay + 6)) 6); [lia|].
  apply wp_bind. eapply wp_crc_ok; [exact Hf|rewrite Hfl, length_with_crc; cbn [length app]; rewrite ?length_app; cbn [length]; lia|].
  cbn [negb]. rewrite Ed, Es. change (negb (0x10 =? 0x10)) with false. rewrite andb_false_r.
  change (Z.shiftl (Z.land COMMAND_FIRST_FRAGMENT 7) 8) with 0. rewrite Z.add_0_l, (u16_small len), (u8_small (_ - _)) by lia.
  replace (Z.of_nat (length pay + 6) - 6) with (Z.of_nat (length pay)) by lia.
  unfold DATAGRAM_SIZE_MAX. destruct (Z.ltb_spec 200 len); [lia|]. ts.
  apply wp_bind, wp_wr; [lia|]. ts. rewrite Nat2Z.id.
  apply wp_bind, wp_rds; [rewrite Hf, length_app; unfold first_frame; rewrite length_with_crc; unfold FIRST_HDR_LEN; cbn [length app]; lia|].
  assert (Epay : sub FIRST_HDR_LEN (length pay) (fragment (rcb w)) = pay).
  { rewrite Hf. unfold first_frame, with_crc, sub, FIRST_HDR_LEN. cbn [app drop]. rewrite <- !app_assoc. by rewrite drop_0, take_app_length. }
  rewrite Epay. apply wp_bind, wp_wrs; [lia|]. ts.
  apply wp_bind, mark_ok; [apply zero_mask_ok|by left|lia|unfold DATAGRAM_SIZE_MAX; lia|]. intros mask Hmask Hmarks. ts.
  destruct (Z.eqb_spec (Z.of_nat (length pay)) len); [lia|]. ts. unfold progress.
  split; [|ts_simpl; by rewrite ?Hst]. constructor; [constructor|..]; ts_simpl; try done; rewrite ?length_insert; try done.
  - rewrite length_splice; [done|lia].
  - by rewrite Ep.
  - rewrite list_lookup_insert_eq by lia. done.
  - intros i Hi0. rewrite Hmarks by done. ts_simpl. by rewrite marked_zero.
  - intros i Hi0 Hin. unfold within in Hin. zbool. rewrite splice_lookup by lia. rewrite bool_decide_true by lia.
    rewrite Nat.sub_0_r. rewrite <- Hsub at 1. unfold sub. rewrite drop_0. by rewrite lookup_take_lt by lia.
Qed.

Lemma first_ok w pay slack : idle w -> (0 < length pay <= 47)%nat -> Z.of_nat (length pay) < len -> sub 0 (length pay) data = pay ->
  wp (TransportService_ApplicationCommandHandler p (first_frame sid len pay ++ slack) (Z.of_nat (length pay + 6)))
    (fun _ => progress (within 0 (Z.of_nat (length pay))) (outs w) false) w.
Proof.
  intros [[] Hst Hsn Hses] Hp Hn Hsub.
  eapply handler_enter; [by rewrite Hst|by left|done|unfold DATAGRAM_SIZE_MAX, len in *; lia|reflexivity|by right|].
  assert (H4 : exists b, (first_frame sid len pay ++ slack) !! Z.to_nat 4 = Some b) by (destruct pay as [|b pay']; [cbn in Hp; lia|by exists b]).
  destruct H4 as [b4 H4].
  unfold take_frame, entered, initialize_once. ts. rewrite Hst. cbv iota. ts. apply wp_bind. ts.
  destruct (flag_initialize_once w) eqn:Hi; ts; rewrite ?Hst.
  - unfold receive. ts. do 5 (apply wp_bind; eapply wp_rd; [first [exact H4|reflexivity]|]). do 2 ts_const.
    eapply wp_mono; [apply (receive_first_ok _ pay slack)|]; try done. constructor; ts_simpl; try done. apply zero_mask_ok.
  - destruct Hses as [|Hses]; [congruence|].
    unfold receive. ts. do 5 (apply wp_bind; eapply wp_rd; [first [exact H4|reflexivity]|]). do 2 ts_const.
    eapply wp_mono; [apply (receive_first_ok _ pay slack)|]; done.
Qed.
End Receiver.
End TransportSpec.
