(* ===== verification/TransportLink.v ===== *)
(** * Two nodes and a datagram

    The sending session as a sequence of frames, and the two ends together: a datagram sent by one
    node is delivered to the application of the other, whichever fragments are lost on the way. *)
From stdpp Require Import relations.
From S2P Require Import Prelude Effects Transport TransportSpec.
Import Transport TransportSpec.

Module TransportLink.

(** ** Building a frame *)

Lemma wp_add_crc n l (Q : unit -> T2 -> Prop) w : length (t2_txBuf w) = TXBUF_SIZE -> (n + 2 <= TXBUF_SIZE)%nat ->
  take n (t2_txBuf w) = l ->
  (forall tx, length tx = TXBUF_SIZE -> take (n + 2) tx = with_crc l -> Q tt (set_t2_txBuf tx w)) -> wp (add_crc (Z.of_nat n)) Q w.
Proof.
  intros Ht Hn Hl HQ. assert (Hn8 : Z.to_nat (u8 (Z.of_nat n)) = n) by (unfold TXBUF_SIZE in Hn; rewrite u8_small; lia).
  unfold add_crc. ts. rewrite Hn8. apply wp_bind, wp_rds; [lia|].
  assert (Es : sub 0 n (t2_txBuf w) = l) by (unfold sub; by rewrite drop_0). rewrite Es.
  change [Z.land (Z.shiftr (zgw_crc16 7439 l) 8) 255; Z.land (zgw_crc16 7439 l) 255] with (crc_bytes l).
  apply wp_put; [cbn [length crc_bytes]; lia|]. apply HQ; [by apply tx_splice|].
  rewrite take_splice by (reflexivity || lia). unfold with_crc. by rewrite Hl.
Qed.

(** A header and a payload written one after the other. *)
Lemma header_payload hdr pay (tx : list Z) : length tx = TXBUF_SIZE -> (length hdr + length pay <= TXBUF_SIZE)%nat ->
  let tx' := splice (length hdr) pay (splice 0 hdr tx) in
  length tx' = TXBUF_SIZE /\ take (length hdr + length pay) tx' = hdr ++ pay.
Proof.
  intros Ht Hl tx'. assert (H1 : length (splice 0 hdr tx) = TXBUF_SIZE) by (apply tx_splice; [done|lia]).
  split; [by apply tx_splice|]. unfold tx'. rewrite take_splice by (reflexivity || lia).
  by rewrite (take_splice 0 hdr) by (reflexivity || lia).
Qed.

Lemma wp_pending remaining datalen (Q : Z -> T2 -> Prop) w : datalen <> 0 -> (forall n, Q n w) -> wp (pending remaining datalen) Q w.
Proof. intros Hd HQ. unfold pending, div. apply wp_bind. destruct (Z.eqb_spec datalen 0); [done|]. ts. apply HQ. Qed.

(** ** The network *)

(** The oldest frame of a trace, and the trace without it. *)
Fixpoint pop (l : list out) : option (list Z * option tx_callback * list out) :=
  match l with
  | [] => None
  | o :: l =>
      match pop l with
      | Some (frame, cb, l') => Some (frame, cb, o :: l')
      | None => match o with SendRaw _ _ frame _ cb => Some (frame, cb, l) | _ => None end
      end
  end.

Lemma pop_frame src dst frame opt cb l : pop l = None -> pop (SendRaw src dst frame opt cb :: l) = Some (frame, cb, l).
Proof. intros H. cbn [pop]. by rewrite H. Qed.

(** A sender [nx], a receiver [ny], and which of the next frames of the sender are lost. *)
Record Net := mkNet { nx : T2; ny : T2; losses : list bool }.

(** A frame is heard by the other end, unless it is lost, with the bytes [slack] behind it in memory;
    then the radio calls back. *)
Definition hear (lost : bool) (p : ts_param_t) (frame slack : list Z) : TM unit :=
  if lost then mret tt else TransportService_ApplicationCommandHandler p (frame ++ slack) (Z.of_nat (length frame)).
Definition call_back (lost : bool) (cb : option tx_callback) : TM unit :=
  match cb with
  | Some cb => tx_done cb (if lost then S2_TRANSMIT_COMPLETE_FAIL else S2_TRANSMIT_COMPLETE_OK) None
  | None => mret tt
  end.

(** Frames travel before timers expire, and the sender's pause between two fragments is shorter than
    the receiver's timer (15 ms and a round trip against 800 ms), which is shorter than the sender's
    for the confirmation (1000 ms).  Frames of the receiver are not lost. *)
Definition step (p r : ts_param_t) (slack : list Z) (s : Net) : res (option Net) :=
  match pop (outs (nx s)) with
  | Some (frame, cb, l) =>
      let lost := default false (head (losses s)) in
      on (hear lost p frame slack) (ny s) (fun y =>
      on (call_back lost cb) (set_outs l (nx s)) (fun x => Ok (Some (mkNet x y (tail (losses s))))))
  | None =>
      match pop (outs (ny s)) with
      | Some (frame, cb, l) =>
          on (hear false r frame slack) (nx s) (fun x =>
          on (call_back false cb) (set_outs l (ny s)) (fun y => Ok (Some (mkNet x y (losses s)))))
      | None =>
          match timer_btwn_2_frags (timers (nx s)), rx_timer (timers (ny s)) with
          | Some _, _ => on (expire TBetween) (nx s) (fun x => Ok (Some (mkNet x (ny s) (losses s))))
          | None, Some _ => on (expire TRx) (ny s) (fun y => Ok (Some (mkNet (nx s) y (losses s))))
          | None, None => Ok None
          end
      end
  end.

(** Until nothing is left to do. *)
Definition net (fuel : nat) (p r : ts_param_t) (slack : list Z) (s : Net) : res Net := iterate (step p r slack) fuel s.

Abbreviation reach p r slack := (reaches (step p r slack)).

(** One step at a time: a frame of the sender, one of the receiver, the timers. *)
Section Steps.
Context (p r : ts_param_t) (slack : list Z) (s : Net) (P : Net -> Prop).

Lemma sender_frame frame cb l (X Y : T2 -> Prop) : pop (outs (nx s)) = Some (frame, cb, l) ->
  let lost := default false (head (losses s)) in
  wp (hear lost p frame slack) (fun _ => Y) (ny s) -> wp (call_back lost cb) (fun _ => X) (set_outs l (nx s)) ->
  (forall x y, X x -> Y y -> exists s', reach p r slack (mkNet x y (tail (losses s))) s' /\ P s') ->
  exists s', reach p r slack s s' /\ P s'.
Proof.
  intros E lost Hh Hc H. destruct (on_wp _ _ (fun y => on (call_back lost cb) (set_outs l (nx s)) (fun x => Ok (Some (mkNet x y (tail (losses s)))))) _ Hh) as (y & Hy & Ey).
  destruct (on_wp _ _ (fun x => Ok (Some (mkNet x y (tail (losses s))))) _ Hc) as (x & Hx & Ex).
  destruct (H x y Hx Hy) as (s' & Hs' & HP). exists s'. split; [|done]. eapply rtc_l; [|exact Hs'].
  unfold step. rewrite E. fold lost. by rewrite Ey, Ex.
Qed.

Lemma receiver_frame frame l (X : T2 -> Prop) : pop (outs (nx s)) = None -> pop (outs (ny s)) = Some (frame, None, l) ->
  wp (TransportService_ApplicationCommandHandler r (frame ++ slack) (Z.of_nat (length frame))) (fun _ => X) (nx s) ->
  (forall x, X x -> exists s', reach p r slack (mkNet x (set_outs l (ny s)) (losses s)) s' /\ P s') ->
  exists s', reach p r slack s s' /\ P s'.
Proof.
  intros E1 E2 Hh H. destruct (on_wp _ _ (fun x => Ok (Some (mkNet x (set_outs l (ny s)) (losses s)))) _ Hh) as (x & Hx & Ex).
  destruct (H x Hx) as (s' & Hs' & HP). exists s'. split; [|done]. eapply rtc_l; [|exact Hs'].
  unfold step, hear. by rewrite E1, E2.
Qed.

Lemma sender_timer t (X : T2 -> Prop) : pop (outs (nx s)) = None -> pop (outs (ny s)) = None -> timer_btwn_2_frags (timers (nx s)) = Some t ->
  wp (expire TBetween) (fun _ => X) (nx s) ->
  (forall x, X x -> exists s', reach p r slack (mkNet x (ny s) (losses s)) s' /\ P s') ->
  exists s', reach p r slack s s' /\ P s'.
Proof.
  intros E1 E2 Et Hh H. destruct (on_wp _ _ (fun x => Ok (Some (mkNet x (ny s) (losses s)))) _ Hh) as (x & Hx & Ex).
  destruct (H x Hx) as (s' & Hs' & HP). exists s'. split; [|done]. eapply rtc_l; [|exact Hs'].
  unfold step. by rewrite E1, E2, Et.
Qed.

Lemma receiver_timer t (Y : T2 -> Prop) : pop (outs (nx s)) = None -> pop (outs (ny s)) = None -> timer_btwn_2_frags (timers (nx s)) = None ->
  rx_timer (timers (ny s)) = Some t -> wp (expire TRx) (fun _ => Y) (ny s) ->
  (forall y, Y y -> exists s', reach p r slack (mkNet (nx s) y (losses s)) s' /\ P s') ->
  exists s', reach p r slack s s' /\ P s'.
Proof.
  intros E1 E2 Eb Et Hh H. destruct (on_wp _ _ (fun y => Ok (Some (mkNet (nx s) y (losses s)))) _ Hh) as (y & Hy & Ey).
  destruct (H y Hy) as (s' & Hs' & HP). exists s'. split; [|done]. eapply rtc_l; [|exact Hs'].
  unfold step. by rewrite E1, E2, Eb, Et.
Qed.
End Steps.

(** ** The sender *)

Lemma max_payload_cases flags : fragment_max_payload flags = 39 \/ fragment_max_payload flags = 47.
Proof. unfold fragment_max_payload, FRAGMENTMAXPAYLOAD. repeat case_match; lia. Qed.

Section Sender.
(** The parameters of the transmission, the callback, the datagram and the session. *)
Variables (q : ts_param_t) (f : Z) (data : list Z) (sid : Z).
Let len : Z := Z.of_nat (length data).
Let fmp : Z := fragment_max_payload (tx_flags q).
Context (Hsid : 0 <= sid < 15) (Hlen : (length data <= 200)%nat) (Hfmp : fmp < len).
Context (Hdst : dnode q <> 0xff) (Hdst0 : dnode q <> 0) (Hflags : tx_flags q <> RECEIVE_STATUS_TYPE_BROAD) (Hnodes : snode q <> dnode q).

Definition opts : Z := Z.lor (tx_flags q) TRANSMIT_OPTION_ACK.

Record session (w : T2) : Prop := {
  s_param : s_p (scb w) = q;
  s_datagram : datagram (scb w) = data;
  s_len : datagram_len (scb w) = len;
  s_sid : s_session_id (scb w) = sid;
  s_done : length (frag_compl_list (scb w)) = 15%nat;
  s_open : frag_compl_list (scb w) !! Z.to_nat sid = Some false;
  s_fmp : FragmentMaxPayload w = fmp;
  s_noreply : flag_reply_frag_req (scb w) = false;
  s_nowait : flag_send_frag_wait (scb w) = false;
  s_aborted : transmission_aborted (scb w) = 0x11;
  s_callback : completedFunc (scb w) = Some f;
  s_tx : length (t2_txBuf w) = TXBUF_SIZE;
  s_acc : accepts w = [];
  s_peer : current_dnode (scb w) = dnode q;
  s_norecv : current_snode (rcb w) = 0
}.

(** Fragments up to [off] are out. *)
Record streaming (off : Z) (w : T2) : Prop := {
  st_session : session w;
  st_state : current_state w = ST_SEND_FRAG;
  st_sending : sending (scb w) = true;
  st_remaining : remaining_data_len (scb w) = len - off
}.

(** The last fragment is out. *)
Record waiting (w : T2) : Prop := {
  wt_session : session w;
  wt_state : current_state w = ST_WAIT_ACK;
  wt_sending : sending (scb w) = false;
  wt_between : timer_btwn_2_frags (timers w) = None
}.

Lemma fmp_cases : fmp = 39 \/ fmp = 47.
Proof. apply max_payload_cases. Qed.

(** The [n] bytes at offset [off]. *)
Definition piece (off n : Z) : list Z := sub (Z.to_nat off) (Z.to_nat n) data.

Lemma length_piece off n : 0 <= off -> 0 <= n -> off + n <= len -> length (piece off n) = Z.to_nat n.
Proof. intros ? ? H. unfold piece, len in *. rewrite length_sub; lia. Qed.

Lemma wp_build off n (Q : unit -> T2 -> Prop) w : session w -> 0 <= off -> 0 <= n <= 47 -> off + n <= len ->
  (forall tx, length tx = TXBUF_SIZE -> take (Z.to_nat n + 7) tx = subseq_frame sid len off (piece off n) -> Q tt (set_t2_txBuf tx w)) ->
  wp (build_subseq off n) Q w.
Proof.
  intros [] Ho Hn Hon HQ. assert (Hr : 0 <= off < 256 /\ 0 <= len < 256) by (unfold len in *; lia). destruct Hr as [Hob Hlb].
  unfold build_subseq. ts. rewrite s_len0, s_sid0, !small_high by lia. change (Z.land 0 7) with 0. rewrite !Z.lor_0_r, sid_high by lia.
  change (u8 COMMAND_SUBSEQUENT_FRAGMENT) with COMMAND_SUBSEQUENT_FRAGMENT. rewrite !land_u8, !u8_small by lia.
  set (hdr := [_; _; _; _; _]). pose proof (length_piece off n ltac:(lia) ltac:(lia) ltac:(lia)) as Hpl.
  destruct (header_payload hdr (piece off n) (t2_txBuf w)) as [Hl Htake]; [done|rewrite Hpl; unfold TXBUF_SIZE; cbn [length hdr]; lia|].
  apply wp_bind, wp_put; [rewrite s_tx0; unfold TXBUF_SIZE; cbn [length hdr]; lia|].
  apply wp_bind, wp_rds; [rewrite s_datagram0; unfold len in *; lia|]. rewrite s_datagram0. fold (piece off n).
  apply wp_bind, wp_put; [ts_simpl; rewrite tx_splice, Hpl by (try done; unfold TXBUF_SIZE; cbn [length hdr]; lia); unfold TXBUF_SIZE; lia|].
  replace (n + 5) with (Z.of_nat (length hdr + length (piece off n))) by (rewrite Hpl; cbn [length hdr]; lia). ts_simpl.
  eapply wp_add_crc; ts_simpl; [exact Hl|rewrite Hpl; unfold TXBUF_SIZE; cbn [length hdr]; lia|exact Htake|].
  intros tx Htl Htx. rewrite Hpl in Htx. replace (length hdr + Z.to_nat n + 2)%nat with (Z.to_nat n + 7)%nat in Htx by (cbn [length hdr]; lia).
  specialize (HQ tx Htl Htx). destruct w. exact HQ.
Qed.
(** The last fragment, from the transmit buffer. *)
Lemma last_ok n frame w : session w -> current_state w = ST_SEND_LAST_FRAG -> does_not_fit_in_first_frag (scb w) = true ->
  datalen_to_send (scb w) = n -> 0 <= n <= 47 -> take (Z.to_nat n + 7) (t2_txBuf w) = frame -> timer_btwn_2_frags (timers w) = None ->
  wp send_last_frag (fun _ w' => waiting w' /\ fc_timer (timers w') = Some FRAGMENT_FC_TIMEOUT /\
    outs w' = SendRaw (snode q) (dnode q) frame opts (Some ZCB_last_frag) :: outs w) w.
Proof.
  intros Hw Hst Hd Hn Hn47 Hf Hb. pose proof Hw as []. unfold send_last_frag. ts. rewrite s_acc0. cbn [length send_last_frag_loop]. ts.
  rewrite Hd, Hn, s_param0. change (sizeof_subseq_frag + n - 1) with (8 + n - 1).
  assert (En : Z.to_nat (u8 (8 + n - 1)) = (Z.to_nat n + 7)%nat) by (rewrite u8_small; lia).
  apply wp_bind, wp_send; [done|rewrite En, s_tx0; unfold TXBUF_SIZE; lia|]. rewrite En.
  destruct (Z.eqb_spec (tx_flags q) RECEIVE_STATUS_TYPE_BROAD); [done|]. destruct (Z.eqb_spec (dnode q) 0xff); [done|].
  cbn [orb]. ts. rewrite Hst, Hf. split; [|done]. constructor; [|done|done|done]. by constructor.
Qed.

(** The frame at offset [off] and what follows it. *)
Definition sent_at (off : Z) (w w' : T2) : Prop :=
  if len - off <=? fmp then
    waiting w' /\ fc_timer (timers w') = Some FRAGMENT_FC_TIMEOUT /\
    outs w' = SendRaw (snode q) (dnode q) (subseq_frame sid len off (piece off (len - off))) opts (Some ZCB_last_frag) :: outs w
  else
    streaming (off + fmp) w' /\
    outs w' = SendRaw (snode q) (dnode q) (subseq_frame sid len off (piece off fmp)) opts (Some ZCB_senddata) :: outs w.

Lemma session_keep w w' : session w -> scb w' = scb w -> FragmentMaxPayload w' = FragmentMaxPayload w -> length (t2_txBuf w') = TXBUF_SIZE ->
  accepts w' = accepts w -> rcb w' = rcb w -> session w'.
Proof. intros [] Es Ef Et Ea Er. constructor; rewrite ?Es, ?Ef, ?Et, ?Ea, ?Er; done. Qed.

Lemma subseq_sent off w : streaming off w -> 0 <= off < len -> wp (expire TBetween) (fun _ w' => sent_at off w w') w.
Proof.
  intros [Hw Hst Hsend Hrem] Ho. pose proof Hw as []. pose proof fmp_cases as Hf. assert (Hl : 0 <= len <= 200) by (unfold len; lia).
  unfold expire, send_subseq_frag. ts. rewrite Hrem. destruct (Z.eqb_spec (len - off) 0) as [E|_]; [lia|].
  ts. rewrite s_fmp0, Hrem, s_sid0. apply wp_bind. eapply wp_rd; [exact s_open0|]. ts.
  rewrite s_len0, Hrem. replace (len - (len - off)) with off by lia. rewrite (u16_small off) by lia.
  set (n := if fmp <=? len - off then fmp else len - off).
  assert (Hn : 0 < n <= 47 /\ off + n <= len) by (unfold n; destruct (Z.leb_spec fmp (len - off)); lia).
  apply wp_bind, (wp_build off n); [by destruct Hw; constructor|lia|lia|lia|]. intros tx Htl Htx. ts. unfold sent_at.
  destruct (Z.leb_spec (len - off) fmp) as [Hlast|Hmore]; ts.
  - assert (En : n = len - off) by (unfold n; destruct (Z.leb_spec fmp (len - off)); lia). rewrite En in *.
    eapply wp_mono; [apply (last_ok (len - off) (subseq_frame sid len off (piece off (len - off))))|]; ts_simpl;
      [by destruct Hw; constructor|by rewrite Hst|done|done|lia|done|done|]. intros _ w' (? & ? & ?). by split.
  - assert (En : n = fmp) by (unfold n; destruct (Z.leb_spec fmp (len - off)); lia). rewrite En in *. rewrite s_param0.
    change (sizeof_subseq_frag + fmp - 1) with (8 + fmp - 1).
    assert (Em : Z.to_nat (u8 (8 + fmp - 1)) = (Z.to_nat fmp + 7)%nat) by (rewrite u8_small; lia).
    apply wp_bind, wp_send; [done|rewrite Em, Htl; unfold TXBUF_SIZE; lia|]. rewrite Em, Htx. ts.
    apply wp_bind. ts. rewrite Hrem. destruct (Z.leb_spec fmp (len - off)); [|lia]. ts. rewrite (u16_small (_ - _)) by lia.
    apply wp_bind, wp_pending; [ts_simpl; lia|]. intros m. ts.
    split; [|done]. rewrite Hst. constructor; ts_simpl; [by destruct Hw; constructor|done|done|lia].
Qed.

(** The callback of the radio between two fragments. *)
Lemma between_ok off st ts w : streaming off w -> wp (tx_done ZCB_senddata st ts)
    (fun _ w' => streaming off w' /\ is_Some (timer_btwn_2_frags (timers w')) /\ outs w' = outs w) w.
Proof.
  intros [Hw Hst Hsend Hrem]. pose proof Hw as []. unfold tx_done, ZCB_ts_senddata_cb. ts.
  destruct (round_trip_first_frag (scb w) =? 0); ts_simpl; rewrite s_noreply0, s_nowait0, s_aborted0, s_sid0; cbv iota.
  all: destruct (Z.eqb_spec 0x11 sid); [lia|]; ts.
  all: split; [|by split; [eexists|]]; constructor; ts_simpl; [by destruct Hw; constructor|done..].
Qed.

Lemma last_callback_ok st ts w : waiting w -> wp (tx_done ZCB_last_frag st ts) (fun _ w' => waiting w' /\ outs w' = outs w) w.
Proof. intros [Hw Hst Hs Hb]. unfold tx_done, ZCB_temp_callback_last_frag. ts. split; [|done]. constructor; [by destruct Hw; constructor|done..]. Qed.

(** The first fragment. *)
Definition next_sid (w : T2) : Z :=
  let x := if s_session_id (scb w) =? 0 then default 0 (head (rands w)) mod 15 else s_session_id (scb w) + 1 in
  if 0xf <? x then 0 else x.

Record ready (w : T2) : Prop := {
  rd_state : current_state w = ST_IDLE;
  rd_sid : next_sid w = sid;
  rd_range : 0 <= s_session_id (scb w) < 16;
  rd_list : length (frag_compl_list (scb w)) = 15%nat;
  rd_tx : length (t2_txBuf w) = TXBUF_SIZE;
  rd_acc : accepts w = [];
  rd_norecv : current_snode (rcb w) = 0
}.

Lemma rand_run w : rand w = Ok (default 0 (head (rands w)), set_rands (tail (rands w)) w).
Proof. unfold rand. destruct w as [? ? ? ? ? ? ? ? ? ? ? ? rands0 ? ?]. by destruct rands0. Qed.

Lemma session_id_ok (Q : unit -> T2 -> Prop) w : 0 <= s_session_id (scb w) < 16 -> next_sid w = sid ->
  (forall l, Q tt (set_scb (set_s_session_id sid (scb w)) (set_rands l w))) -> wp next_session_id Q w.
Proof.
  intros Hr Hs HQ. unfold next_sid in Hs. unfold next_session_id. ts. apply wp_bind.
  destruct (Z.eqb_spec (s_session_id (scb w)) 0) as [E|E].
  - apply wp_bind. unfold wp at 1. rewrite rand_run. set (x := default 0 (head (rands w)) mod 15) in *.
    assert (Hx : 0 <= x < 15) by (apply Z.mod_pos_bound; lia). ts. change 0xf with 15. fold x. rewrite (u8_small x) by lia.
    destruct (Z.ltb_spec 15 x); [lia|]. ts. rewrite Hs. apply (HQ (tail (rands w))).
  - ts. rewrite (u8_small (_ + 1)) by lia. specialize (HQ (rands w)).
    destruct (Z.ltb_spec 15 (s_session_id (scb w) + 1)); ts; rewrite Hs; destruct w as [? [] ]; exact HQ.
Qed.
Lemma session_start_ok w : ready w ->
  wp (ZW_TransportService_SendData q data len f) (fun ok w' => ok = true /\ streaming fmp w' /\
    outs w' = SendRaw (snode q) (dnode q) (first_frame sid len (piece 0 fmp)) opts (Some ZCB_senddata) :: outs w) w.
Proof.
  intros []. pose proof fmp_cases as Hf. assert (Hl : 0 <= len <= 200) by (unfold len; lia).
  unfold ZW_TransportService_SendData, ZW_TransportService_Is_Sending, ZW_TransportService_Is_Receving. ts. rewrite rd_state0. do 2 ts_const. ts. rewrite rd_state0. ts.
  apply wp_bind. unfold send_first_frag. apply wp_bind, session_id_ok; [done|done|]. intros l. ts.
  apply wp_bind, wp_wr; [ts_simpl; lia|]. ts. fold fmp.
  destruct (Z.ltb_spec fmp len); [|lia]. ts. rewrite (u16_small (len - fmp)), (small_high len), (land_u8 len), (u8_small len) by lia.
  change (u8 (Z.lor COMMAND_FIRST_FRAGMENT (Z.land 0 7))) with COMMAND_FIRST_FRAGMENT. rewrite sid_high by lia.
  set (hdr := [_; _; _; _]). pose proof (length_piece 0 fmp ltac:(lia) ltac:(lia) ltac:(lia)) as Hpl.
  destruct (header_payload hdr (piece 0 fmp) (t2_txBuf w)) as [Htl Htake]; [done|rewrite Hpl; unfold TXBUF_SIZE; cbn [length hdr]; lia|].
  apply wp_bind, wp_put; [ts_simpl; rewrite rd_tx0; unfold TXBUF_SIZE; cbn [length hdr]; lia|].
  apply wp_bind, wp_rds; [unfold len in *; lia|]. change (sub 0 (Z.to_nat fmp) data) with (piece 0 fmp).
  apply wp_bind, wp_put; [ts_simpl; rewrite tx_splice, Hpl by (try done; unfold TXBUF_SIZE; cbn [length hdr]; lia); unfold TXBUF_SIZE; lia|].
  replace (fmp + 4) with (Z.of_nat (length hdr + length (piece 0 fmp))) by (rewrite Hpl; cbn [length hdr]; lia). ts_simpl.
  apply wp_bind. eapply wp_add_crc; ts_simpl; [exact Htl|rewrite Hpl; unfold TXBUF_SIZE; cbn [length hdr]; lia|exact Htake|].
  intros tx Hx Htx. rewrite Hpl in Htx. replace (length hdr + Z.to_nat fmp + 2)%nat with (Z.to_nat fmp + 6)%nat in Htx by (cbn [length hdr]; lia).
  apply wp_bind, wp_pending; [lia|]. intros m. ts. destruct (Z.leb_spec len fmp); [lia|]. ts.
  change (sizeof_first_frag + fmp - 1) with (7 + fmp - 1).
  assert (Em : Z.to_nat (u8 (7 + fmp - 1)) = (Z.to_nat fmp + 6)%nat) by (rewrite u8_small; lia).
  apply wp_bind, wp_send; [done|rewrite Em, Hx; unfold TXBUF_SIZE; lia|]. rewrite Em, Htx. ts.
  split; [done|]. split; [|done]. constructor; ts_simpl; [|by rewrite rd_state0|done..]. constructor; ts_simpl; try done.
  - by rewrite length_insert.
  - rewrite list_lookup_insert_eq by lia. done.
Qed.

(** *** Answers of the receiver *)

(** The parameters with which its frames arrive. *)
Variable r : ts_param_t.
Context (Hback : snode r = dnode q) (Hback' : dnode r = snode q).

(** A control frame of the peer, taken while the sender waits for it. *)
Lemma check_ok frame n b1 (Q : unit -> T2 -> Prop) w : session w -> current_state w = ST_WAIT_ACK \/ current_state w = ST_RECEIVING ->
  sending (scb w) = false -> timer_btwn_2_frags (timers w) = None -> n <= DATAGRAM_SIZE_MAX -> frame !! 1%nat = Some b1 -> Z.land b1 0xf8 <> COMMAND_SUBSEQUENT_FRAGMENT ->
  (forall w', session w' -> current_state w' = ST_WAIT_ACK \/ current_state w' = ST_RECEIVING -> sending (scb w') = false ->
     timer_btwn_2_frags (timers w') = None -> fragment (rcb w') = frame -> r_p (rcb w') = r -> outs w' = outs w -> wp receive Q w') ->
  wp (check_frame r frame n) Q w.
Proof.
  intros Hw Hst Hs Hb Hn H1 Hc HQ. pose proof Hw as []. unfold check_frame. rewrite Hback, Hback'.
  destruct (Z.eqb_spec (dnode q) (snode q)); [congruence|]. destruct (Z.ltb_spec DATAGRAM_SIZE_MAX n); [lia|]. ts.
  unfold third_node. ts_simpl. rewrite Hback, s_norecv0, s_peer0, !Z.eqb_refl, andb_false_r. cbn [negb andb orb].
  apply wp_bind. eapply wp_rd; [exact H1|]. destruct (Z.eqb_spec (Z.land b1 0xf8) COMMAND_SUBSEQUENT_FRAGMENT); [done|]. rewrite andb_false_r.
  unfold take_frame, initialize_once. ts.
  assert (Hpost : forall (Q' : unit -> T2 -> Prop) w1, current_state w1 = current_state w ->
    Q' tt w1 -> wp (match current_state w with ST_IDLE => t2_sm_post_event EV_START_RECV | ST_RECEIVING => t2_sm_post_event EV_RECV_NEW_FRAG | _ => mret tt end) Q' w1).
  { intros Q' w1 E HQ'. destruct Hst as [-> | Er]; [ts; exact HQ'|]. rewrite Er. ts.
    rewrite E, Er. change (next_state ST_RECEIVING EV_RECV_NEW_FRAG) with ST_RECEIVING. rewrite <- Er, <- E. by destruct w1. }
  apply wp_bind, Hpost; [done|]. ts. apply wp_bind. ts.
  destruct (flag_initialize_once w); ts; apply HQ; ts_simpl; auto; destruct Hw; by constructor.
Qed.

(** Whether the tie break strikes or not, the frame is taken. *)
Lemma control_ok frame n b1 (Q : unit -> T2 -> Prop) w : waiting w -> n <= DATAGRAM_SIZE_MAX -> frame !! 1%nat = Some b1 ->
  Z.land b1 0xf8 <> COMMAND_SUBSEQUENT_FRAGMENT ->
  (forall w', session w' -> current_state w' = ST_WAIT_ACK \/ current_state w' = ST_RECEIVING -> sending (scb w') = false ->
     timer_btwn_2_frags (timers w') = None -> fragment (rcb w') = frame -> r_p (rcb w') = r -> outs w' = outs w -> wp receive Q w') ->
  wp (TransportService_ApplicationCommandHandler r frame n) Q w.
Proof.
  intros [Hw Hst Hs Hb] Hn H1 Hc HQ. unfold TransportService_ApplicationCommandHandler, tie_break. ts. apply wp_bind. ts.
  destruct (_ && _); ts.
  - rewrite Hst. eapply check_ok; [by destruct Hw; constructor|by right|done..].
  - eapply check_ok; [by destruct Hw; constructor|by left|done..].
Qed.
Record replying (w : T2) : Prop := {
  rp_session : session w;
  rp_state : current_state w = ST_SEND_FRAG;
  rp_sending : sending (scb w) = false;
  rp_between : timer_btwn_2_frags (timers w) = None
}.

(** A requested fragment. *)
Definition replied (m : Z) (l : list out) (w' : T2) : Prop :=
  if len - m <=? fmp then
    waiting w' /\ outs w' = SendRaw (snode q) (dnode q) (subseq_frame sid len m (piece m (len - m))) opts (Some ZCB_last_frag) :: l
  else
    replying w' /\ outs w' = SendRaw (snode q) (dnode q) (subseq_frame sid len m (piece m fmp)) opts (Some ZCB_reply_frag_req) :: l.

Lemma reply_ok m w : replying w -> missing_offset (scb w) = m -> 0 < m < len ->
  wp reply_frag_req (fun _ w' => replied m (outs w) w') w.
Proof.
  intros [Hw Hst Hs Hb] Em Hm. pose proof Hw as []. pose proof fmp_cases as Hf. assert (Hl : 0 <= len <= 200) by (unfold len; lia).
  unfold reply_frag_req. ts. rewrite s_sid0. apply wp_bind. eapply wp_rd; [exact s_open0|]. ts.
  rewrite s_len0, Em, s_fmp0. unfold replied. destruct (Z.ltb_spec len (m + fmp)) as [Hsh|Hsh]; ts.
  - rewrite ?Em, ?s_len0, (u16_small (len - m)) by lia. destruct (Z.leb_spec (len - m) fmp); [|lia].
    apply wp_bind, (wp_build m (len - m)); [by destruct Hw; constructor|lia|lia|lia|]. intros tx Htl Htx. ts.
    destruct (Z.eqb_spec (m + (len - m)) len); [|lia]. ts.
    eapply wp_mono; [apply (last_ok (len - m) (subseq_frame sid len m (piece m (len - m))))|]; ts_simpl;
      [by destruct Hw; constructor|by rewrite Hst|done|done|lia|done|done|]. by intros _ w' (? & ? & ?).
  - rewrite ?Em, ?s_len0. apply wp_bind, (wp_build m fmp); [by destruct Hw; constructor|lia|lia|lia|]. intros tx Htl Htx. ts.
    destruct (Z.eqb_spec (m + fmp) len) as [Eq|Ne]; ts.
    + destruct (Z.leb_spec (len - m) fmp); [|lia]. replace fmp with (len - m) in Htx |- * by lia.
      eapply wp_mono; [apply (last_ok (len - m) (subseq_frame sid len m (piece m (len - m))))|]; ts_simpl;
        [by destruct Hw; constructor|by rewrite Hst|done|lia|lia|done|done|]. by intros _ w' (? & ? & ?).
    + destruct (Z.leb_spec (len - m) fmp); [lia|]. rewrite s_param0, Hs. cbv iota. change (sizeof_subseq_frag + fmp - 1) with (8 + fmp - 1).
      assert (En : Z.to_nat (u8 (8 + fmp - 1)) = (Z.to_nat fmp + 7)%nat) by (rewrite u8_small; lia).
      apply wp_bind, wp_send; [done|rewrite En, Htl; unfold TXBUF_SIZE; lia|]. rewrite En, Htx. ts.
      split; [|done]. constructor; ts_simpl; [by destruct Hw; constructor|done..].
Qed.

Lemma open_session w : session w -> r_p (rcb w) = r -> other_session sid w = None.
Proof.
  intros [] Hr. unfold other_session. rewrite s_aborted0, s_sid0, Hr, Hback, s_peer0, !Z.eqb_refl.
  destruct (Z.eqb_spec sid 0x11); [lia|done].
Qed.

Lemma request_answered m slack w : waiting w -> 0 < m < len -> (0 < length slack)%nat ->
  wp (TransportService_ApplicationCommandHandler r (request_frame sid m ++ slack) 4) (fun _ w' => replied m (outs w) w') w.
Proof.
  intros Hw Hm Hsl. destruct slack as [|b4 slack]; [cbn in Hsl; lia|]. destruct (sid_decode sid ltac:(lia)) as [Ed E7].
  eapply control_ok; [done|done|reflexivity|done|]. intros w1 H1 Hst Hs Hb Hfr Hp Ho.
  unfold receive. ts. rewrite Hfr. do 5 (apply wp_bind; eapply wp_rd; [reflexivity|]). do 4 ts_const.
  unfold receive_request. ts. rewrite Ed, E7.
  rewrite open_session by (first [done|by destruct H1; constructor]). ts.
  change (u16 (Z.shiftl 0 8)) with 0. rewrite Z.lor_0_l, Hs. cbv iota. rewrite <- Ho.
  eapply wp_mono; [apply (reply_ok m)|done]; [|done|done].
  constructor; ts_simpl; [by destruct H1; constructor|by destruct Hst as [-> | ->]|done|done].
Qed.

Lemma reply_callback_ok ts w : replying w ->
  wp (tx_done ZCB_reply_frag_req S2_TRANSMIT_COMPLETE_OK ts) (fun _ w' => waiting w' /\ outs w' = outs w) w.
Proof.
  intros [Hw Hst Hs Hb]. unfold tx_done, ZCB_temp_callback_reply_frag_req. ts. apply wp_bind. ts_const. ts. rewrite Hst.
  split; [|done]. constructor; [by destruct Hw; constructor|done..].
Qed.

(** The confirmation ends the session, and the application is told. *)
Lemma confirmed_ok slack w : waiting w -> (2 <= length slack)%nat ->
  wp (TransportService_ApplicationCommandHandler r (complete_frame sid ++ slack) 3)
    (fun _ w' => current_state w' = ST_IDLE /\ current_dnode (scb w') = 0 /\ timer_btwn_2_frags (timers w') = None /\
       exists ts, outs w' = Completed f S2_TRANSMIT_COMPLETE_OK ts :: outs w) w.
Proof.
  intros Hw Hsl. destruct slack as [|b3 [|b4 slack]]; [cbn in Hsl; lia..|]. destruct (sid_decode sid ltac:(lia)) as [Ed _].
  eapply control_ok; [done|done|reflexivity|done|]. intros w1 H1 Hst Hs Hb Hfr Hp Ho. pose proof H1 as [].
  unfold receive. ts. rewrite Hfr. do 5 (apply wp_bind; eapply wp_rd; [reflexivity|]). do 5 ts_const.
  unfold receive_complete. ts. rewrite Ed.
  rewrite open_session by (first [done|by destruct H1; constructor]). ts.
  apply wp_bind, wp_wr; [lia|]. ts. apply wp_bind. unfold completed. ts. rewrite s_callback0. ts.
  split; [by destruct Hst as [-> | ->]|]. split; [done|]. split; [done|]. rewrite Ho. by eexists.
Qed.
(** *** The other end *)

(** The parameters with which the frames of the sender arrive. *)
Variable p : ts_param_t.
Context (Hp : snode p = snode q) (Hp' : dnode p = dnode q) (Hprx : rx_flags p = RECEIVE_STATUS_TYPE_SINGLE).
Variable slack : list Z.
Context (Hslack : (2 <= length slack)%nat).

Lemma pnodes : snode p <> dnode p.
Proof. by rewrite Hp, Hp'. Qed.

Lemma sid16 : 0 <= sid < 16.
Proof. lia. Qed.

(** The bytes received are whole fragments. *)
Definition aligned (got : Z -> bool) : Prop := got 0 = true /\ forall i, 0 <= i < len -> got i = got (fmp * (i / fmp)).

(** The fragment at [off]. *)
Definition size_at (off : Z) : Z := if len - off <=? fmp then len - off else fmp.

Lemma size_at_ok off : 0 <= off < len -> 0 < size_at off <= 47 /\ off + size_at off <= len.
Proof. intros Ho. pose proof fmp_cases. unfold size_at. destruct (Z.leb_spec (len - off) fmp); lia. Qed.

Lemma same_fragment j i : 0 <= i < len -> 0 <= j -> j * fmp < len ->
  within (j * fmp) (size_at (j * fmp)) i = (i / fmp =? j).
Proof.
  intros Hi Hj Hl. pose proof fmp_cases. pose proof (Z.div_mod i fmp ltac:(lia)) as E. pose proof (Z.mod_pos_bound i fmp ltac:(lia)) as Hm.
  unfold within, size_at. destruct (Z.eqb_spec (i / fmp) j) as [Ej|Ne].
  - subst j. apply andb_true_iff. rewrite Z.leb_le, Z.ltb_lt. destruct (Z.leb_spec (len - i / fmp * fmp) fmp); nia.
  - apply andb_false_iff. rewrite Z.leb_gt, Z.ltb_ge. destruct (Z.lt_total (i / fmp) j) as [Hlt|[?|Hgt]]; [left; nia|done|right].
    destruct (Z.leb_spec (len - j * fmp) fmp); nia.
Qed.

Lemma aligned_union got j : aligned got -> 0 <= j -> j * fmp < len -> aligned (union got (j * fmp) (size_at (j * fmp))).
Proof.
  intros [H0 Ha] Hj Hl. pose proof fmp_cases. split; [unfold union; by rewrite H0|]. intros i Hi. unfold union. f_equal; [by apply Ha|].
  assert (Hd : 0 <= i / fmp) by (apply Z.div_pos; lia). assert (fmp * (i / fmp) <= i) by (apply Z.mul_div_le; lia).
  rewrite !same_fragment by lia. rewrite (Z.mul_comm fmp), Z.div_mul by lia. done.
Qed.

Lemma aligned_first : aligned (within 0 fmp).
Proof.
  pose proof fmp_cases. assert (E : size_at 0 = fmp) by (unfold size_at; destruct (Z.leb_spec (len - 0) fmp); lia).
  split; [unfold within; apply andb_true_iff; rewrite Z.leb_le, Z.ltb_lt; lia|]. intros i Hi.
  assert (Hd : 0 <= i / fmp) by (apply Z.div_pos; lia). assert (fmp * (i / fmp) <= i) by (apply Z.mul_div_le; lia).
  pose proof (same_fragment 0) as Hs. rewrite Z.mul_0_l, E in Hs. rewrite !Hs by lia. by rewrite (Z.mul_comm fmp), Z.div_mul by lia.
Qed.

(** The first gap is the start of a fragment. *)
Lemma gap_aligned got m : aligned got -> gap data got m -> exists j, 0 < j /\ m = j * fmp.
Proof.
  intros [H0 Ha] (Hm & Hf & Hall). pose proof fmp_cases. fold len in Hm. pose proof (Ha m ltac:(lia)) as E. rewrite Hf in E.
  assert (fmp * (m / fmp) <= m) by (apply Z.mul_div_le; lia). assert (Hd : 0 <= m / fmp) by (apply Z.div_pos; lia).
  destruct (Z.eq_dec (m / fmp) 0) as [E0|]; [rewrite E0, Z.mul_0_r, H0 in E; done|].
  exists (m / fmp). split; [lia|]. destruct (Z.eq_dec m (m / fmp * fmp)) as [|Ne]; [done|]. rewrite Hall in E by nia. done.
Qed.
(** *** Both ends *)

Abbreviation assembling := (assembling p sid data).
Abbreviation answered := (answered p sid data).
Abbreviation progress := (progress p sid data).

Lemma assembling_outs got l w : assembling got w -> assembling got (set_outs l w).
Proof. intros H. by apply (assembling_frame p sid data got w). Qed.

Lemma waiting_outs l w : waiting w -> waiting (set_outs l w).
Proof. intros [[] ? ? ?]. by repeat constructor. Qed.

Lemma replying_outs l w : replying w -> replying (set_outs l w).
Proof. intros [[] ? ? ?]. by repeat constructor. Qed.

Lemma streaming_outs off l w : streaming off w -> streaming off (set_outs l w).
Proof. intros [[] ? ? ?]. by repeat constructor. Qed.

(** What both applications have been told in the end. *)
Record finished (la lb : list out) (s : Net) : Prop := {
  fin_sender : current_state (nx s) = ST_IDLE;
  fin_told : exists ts, outs (nx s) = Completed f S2_TRANSMIT_COMPLETE_OK ts :: la;
  fin_receiver : idle (ny s);
  fin_delivered : outs (ny s) = delivery p data :: lb;
  fin_quiet : step p r slack s = Ok None
}.

Definition ends (la lb : list out) (s : Net) : Prop := exists s', reach p r slack s s' /\ finished la lb s'.

Section Run.
Context (la lb : list out) (Hla : pop la = None) (Hlb : pop lb = None).

(** The fragment at [off] reaches the receiver. *)
Lemma heard got off y : assembling got y -> current_state y = ST_RECEIVING -> got 0 = true -> outs y = lb -> 0 < off < len ->
  wp (hear false p (subseq_frame sid len off (piece off (size_at off))) slack)
    (fun _ => progress (union got off (size_at off)) lb (len <=? off + size_at off)) y.
Proof.
  intros Hy Hst H0 Ho Hoff. destruct (size_at_ok off ltac:(lia)) as [Hn Hl].
  pose proof (length_piece off (size_at off) ltac:(lia) ltac:(lia) Hl) as Hpl.
  pose proof (subseq_ok p sid data sid16 Hlen pnodes Hprx got y off (piece off (size_at off)) slack Hy Hst H0) as H.
  fold len in H. rewrite Hpl, Z2Nat.id in H by lia. unfold hear.
  assert (El : length (subseq_frame sid len off (piece off (size_at off))) = (Z.to_nat (size_at off) + 7)%nat).
  { unfold subseq_frame. rewrite length_with_crc, length_app, Hpl. cbn [length]. lia. }
  rewrite El, <- Ho. apply H; [lia|lia|lia|done].
Qed.

Lemma confirmed_ends got x y : waiting x -> outs x = la -> (forall i, 0 <= i < len -> got i = true) -> idle y -> rx_timer (timers y) = None ->
  outs y = delivery p data :: SendRaw (dnode p) (snode p) (complete_frame sid) (answer p) None :: lb -> ends la lb (mkNet x y []).
Proof.
  intros Hx Hxo Hall Hy Ht Hyo. eapply receiver_frame; cbn [nx ny losses];
    [by rewrite Hxo|rewrite Hyo; cbn [pop delivery]; by rewrite Hlb|apply confirmed_ok; done|].
  intros x' (Hs & Hd & Hb & ts & Ho). eexists. split; [apply rtc_refl|]. constructor; cbn [nx ny losses].
  - done.
  - exists ts. by rewrite Ho, Hxo.
  - destruct Hy as [[] ? ? ?]. constructor; [by constructor|done..].
  - done.
  - unfold step. cbn [nx ny losses]. rewrite Ho, Hxo. cbn [pop]. rewrite Hla. ts_simpl. cbn [pop delivery]. rewrite Hlb, Hb, Ht. done.
Qed.

(** Once the sender waits, the receiver looks for gaps, at once or when its timer expires. *)
Lemma settle got last x y : waiting x -> outs x = la -> got 0 = true -> progress got lb last y ->
  (forall y', answered got lb y' -> ends la lb (mkNet x y' [])) -> ends la lb (mkNet x y []).
Proof.
  intros Hx Hxo H0 Hy H. destruct last; [by apply H|]. destruct Hy as (Ha & Hst & Hrs & Ht & Ho).
  eapply (receiver_timer _ _ _ _ _ _ (answered got lb)); cbn [nx ny losses]; [by rewrite Hxo|by rewrite Ho|by destruct Hx|done| |exact H].
  rewrite <- Ho. by apply rx_timer_ok; first [done|apply sid16].
Qed.

(** A requested fragment goes out and the sender waits again. *)
Lemma resend m x : replied m la x -> exists cb,
  pop (outs x) = Some (subseq_frame sid len m (piece m (size_at m)), cb, la) /\
  wp (call_back false cb) (fun _ w => waiting w /\ outs w = la) (set_outs la x).
Proof.
  unfold replied, size_at. destruct (Z.leb_spec (len - m) fmp); intros [Hx ->]; eexists; (split; [by apply pop_frame|]).
  - by apply last_callback_ok, waiting_outs.
  - by apply reply_callback_ok, replying_outs.
Qed.

Lemma gap_advances got m m' : gap data got m -> gap data (union got m (size_at m)) m' -> m < m'.
Proof.
  intros (Hm & _ & Hall) (Hm' & Hf & _). unfold union in Hf. apply orb_false_iff in Hf as [Hg Hw]. fold len in Hm, Hm'.
  destruct (size_at_ok m ltac:(lia)) as [Hs _]. destruct (Z.lt_total m m') as [|[->|Hlt]]; [done| |rewrite Hall in Hg by lia; done].
  unfold within in Hw. apply andb_false_iff in Hw. rewrite Z.leb_gt, Z.ltb_ge in Hw. lia.
Qed.

(** The gaps are filled one after the other. *)
Lemma recover k : forall got x y, aligned got -> waiting x -> outs x = la -> answered got lb y ->
  (forall m, gap data got m -> len - m <= Z.of_nat k) -> ends la lb (mkNet x y []).
Proof.
  induction k as [|k IH]; intros got x y Hal Hx Hxo Hy Hk.
  all: destruct Hy as [Hall Hidle Hinit Ht Ho|m Hg Ha Hst Hrs Ht Ho]; [by eapply confirmed_ends|].
  all: pose proof (Hk m Hg) as Hkm; pose proof Hg as (Hm & _ & _); fold len in Hm.
  { lia. }
  eapply (receiver_frame _ _ _ _ _ _ _ (replied m la)); cbn [nx ny losses]; [by rewrite Hxo|rewrite Ho; by apply pop_frame| |].
  { rewrite <- Hxo. apply request_answered; [done|lia|lia]. }
  intros x1 Hx1. destruct (resend m x1 Hx1) as (cb & Hpop & Hcb). destruct (gap_aligned got m Hal Hg) as (j & Hj & Ej).
  eapply (sender_frame _ _ _ _ _ _ _ _ _ (progress (union got m (size_at m)) lb (len <=? m + size_at m))); cbn [nx ny losses head default tail]; [exact Hpop| |exact Hcb|].
  { apply heard; [by apply assembling_outs|done|by destruct Hal|done|lia]. }
  intros x2 y2 [Hx2 Hxo2] Hy2. assert (Hal2 : aligned (union got m (size_at m))) by (rewrite Ej; apply aligned_union; [done|lia|lia]).
  eapply settle; [done|done|by destruct Hal2|exact Hy2|]. intros y3 Hy3. eapply IH; [exact Hal2|done|done|exact Hy3|].
  intros m' Hg'. pose proof (gap_advances got m m' Hg Hg'). lia.
Qed.

Lemma recovered got last x y : aligned got -> waiting x -> outs x = la -> progress got lb last y -> ends la lb (mkNet x y []).
Proof.
  intros Hal Hx Hxo Hy. eapply settle; [done|done|by destruct Hal|exact Hy|]. intros y' Hy'.
  eapply (recover (length data)); [exact Hal|done|done|exact Hy'|]. intros m (Hm & _). unfold len. lia.
Qed.

(** The fragment at [off] is out; afterwards the sender waits or goes on. *)
Definition after (off : Z) (w : T2) : Prop :=
  (if len - off <=? fmp then waiting w else streaming (off + fmp) w /\ is_Some (timer_btwn_2_frags (timers w))) /\ outs w = la.

Lemma sent_pop lost off x x' : outs x = la -> sent_at off x x' -> exists cb,
  pop (outs x') = Some (subseq_frame sid len off (piece off (size_at off)), cb, la) /\
  wp (call_back lost cb) (fun _ => after off) (set_outs la x').
Proof.
  intros Hxo. unfold sent_at, after, size_at. rewrite Hxo. destruct (Z.leb_spec (len - off) fmp).
  - intros (Hx & _ & ->). eexists. split; [by apply pop_frame|]. by apply last_callback_ok, waiting_outs.
  - intros (Hx & ->). eexists. split; [by apply pop_frame|].
    eapply wp_mono; [apply (between_ok (off + fmp)), streaming_outs, Hx|]. by intros _ w (? & ? & ?).
Qed.

(** Whether it is lost or not, the receiver holds whole fragments. *)
Definition held (off : Z) (y : T2) : Prop :=
  exists got last, aligned got /\ progress got lb last y /\ (fmp < len - off -> last = false).

Lemma heard_or_lost lost j got y : aligned got -> progress got lb false y -> 0 < j -> j * fmp < len ->
  wp (hear lost p (subseq_frame sid len (j * fmp) (piece (j * fmp) (size_at (j * fmp)))) slack) (fun _ => held (j * fmp)) y.
Proof.
  intros Hal Hy Hj Hl. pose proof fmp_cases as Hf. destruct lost; [by exists got, false|]. destruct Hy as (Ha & Hst & Hrs & Ht & Ho).
  eapply wp_mono; [apply heard; [exact Ha|done|by destruct Hal|done|lia]|]. intros [] y' Hy'.
  exists (union got (j * fmp) (size_at (j * fmp))), (len <=? j * fmp + size_at (j * fmp)).
  split; [apply aligned_union; [exact Hal|lia|exact Hl]|]. split; [exact Hy'|]. intros Hm. apply Z.leb_gt. unfold size_at.
  destruct (Z.leb_spec (len - j * fmp) fmp); lia.
Qed.

Lemma stream k : forall j got x y ls, len - j * fmp <= Z.of_nat k -> 0 < j -> j * fmp < len ->
  streaming (j * fmp) x -> is_Some (timer_btwn_2_frags (timers x)) -> outs x = la -> aligned got -> progress got lb false y ->
  Z.of_nat (length ls) * fmp < len - j * fmp + fmp -> ends la lb (mkNet x y ls).
Proof.
  induction k as [|k IH]; intros j got x y ls Hk Hj Hl Hx [t Ht] Hxo Hal Hy Hls; [lia|]. pose proof fmp_cases as Hf.
  assert (Hpos : 0 <= j * fmp < len) by nia. eapply sender_timer; cbn [nx ny losses]; [by rewrite Hxo|destruct Hy as (_ & _ & _ & _ & Ho); by rewrite Ho|exact Ht|by apply subseq_sent|].
  intros x1 Hx1. destruct (sent_pop (default false (head ls)) (j * fmp) x x1 Hxo Hx1) as (cb & Hpop & Hcb).
  eapply sender_frame; cbn [nx ny losses]; [exact Hpop|by eapply heard_or_lost|exact Hcb|].
  intros x2 y2 [Hx2 Hxo2] (got2 & last & Hal2 & Hy2 & Hlast). destruct (Z.leb_spec (len - j * fmp) fmp) as [Hend|Hmore].
  - assert (E : tail ls = []) by (destruct ls as [|? [|? ?]]; cbn [length] in Hls; [done|done|lia]). rewrite E. by eapply recovered.
  - destruct Hx2 as [Hx2 Ht2]. rewrite (Hlast ltac:(lia)) in Hy2. eapply (IH (j + 1)); try done; [lia|lia|lia| |].
    + by replace ((j + 1) * fmp) with (j * fmp + fmp) by lia.
    + assert (Z.of_nat (length (tail ls)) * fmp <= Z.of_nat (length ls) * fmp - fmp \/ length (tail ls) = 0%nat) by (destruct ls; cbn [length tail]; lia).
      nia.
Qed.

Lemma sent_and_ends x y ls : ready x -> idle y -> outs x = la -> outs y = lb -> Z.of_nat (length ls) * fmp < len ->
  exists x1, ZW_TransportService_SendData q data len f x = Ok (true, x1) /\ ends la lb (mkNet x1 y (false :: ls)).
Proof.
  intros Hx Hy Hxo Hyo Hls. pose proof fmp_cases as Hf.
  destruct (wp_run _ _ _ (session_start_ok x Hx)) as (ok & x1 & E & -> & Hx1 & Ho). exists x1. split; [done|].
  pose proof (length_piece 0 fmp ltac:(lia) ltac:(lia) ltac:(lia)) as Hpl.
  assert (Efl : length (first_frame sid len (piece 0 fmp)) = (Z.to_nat fmp + 6)%nat)
    by (unfold first_frame; rewrite length_with_crc, length_app, Hpl; cbn [length]; lia).
  eapply (sender_frame _ _ _ _ _ _ _ _ (fun w => streaming (1 * fmp) w /\ is_Some (timer_btwn_2_frags (timers w)) /\ outs w = la)
    (progress (within 0 fmp) lb false)); cbn [nx ny losses head default tail].
  - rewrite Ho, Hxo. by apply pop_frame.
  - unfold hear. pose proof (first_ok p sid data sid16 Hlen pnodes y (piece 0 fmp) slack Hy) as H.
    fold len in H. rewrite Hpl, Z2Nat.id in H by lia. rewrite Efl, <- Hyo. apply H; [lia|lia|done].
  - rewrite Z.mul_1_l. by apply between_ok, streaming_outs.
  - intros x2 y2 (Hx2 & Ht & Hxo2) Hy2. eapply (stream (length data) 1); try done; [unfold len; lia|lia|apply aligned_first|lia].
Qed.
End Run.
End Sender.

Lemma next_sid_range sid w : ready sid w -> 0 <= next_sid w < 16.
Proof.
  intros []. unfold next_sid. destruct (Z.eqb_spec (s_session_id (scb w)) 0).
  - pose proof (Z.mod_pos_bound (default 0 (head (rands w))) 15 ltac:(lia)). destruct (Z.ltb_spec 0xf (default 0 (head (rands w)) mod 15)); lia.
  - destruct (Z.ltb_spec 0xf (s_session_id (scb w) + 1)); lia.
Qed.

(** ** The whole way of a datagram *)

(** [q] are the parameters of the transmission, [p] those with which the sender's frames arrive at the
    receiver, [r] those with which the receiver's frames arrive at the sender. *)
Record peers (q p r : ts_param_t) : Prop := {
  pe_unicast : dnode q <> 0xff /\ dnode q <> 0 /\ snode q <> dnode q;
  pe_flags : tx_flags q <> RECEIVE_STATUS_TYPE_BROAD;
  pe_there : snode p = snode q /\ dnode p = dnode q /\ rx_flags p = RECEIVE_STATUS_TYPE_SINGLE;
  pe_back : snode r = dnode q /\ dnode r = snode q
}.

(** The number of fragments after the first one. *)
Definition subsequent (q : ts_param_t) (data : list Z) : Z :=
  (Z.of_nat (length data) - 1) / fragment_max_payload (tx_flags q).

Lemma subsequent_le q data (n : nat) : (0 < length data)%nat -> Z.of_nat n <= subsequent q data ->
  Z.of_nat n * fragment_max_payload (tx_flags q) < Z.of_nat (length data).
Proof.
  intros Hl Hn. unfold subsequent in Hn. set (m := fragment_max_payload (tx_flags q)) in *. assert (Hm : m = 39 \/ m = 47) by apply max_payload_cases.
  pose proof (Z.mul_div_le (Z.of_nat (length data) - 1) m ltac:(lia)). nia.
Qed.

(** C11: A datagram of two to six fragments is delivered.  Whichever of the fragments after the first
    are lost at their first transmission, while the fragments sent again and the receiver's frames
    arrive, the receiver asks for them, in order, and the sender sends them again; after finitely
    many steps nothing is left to do, the receiver's application has got the datagram exactly once
    and byte for byte, the sender's has been told once that it arrived, and both ends are idle.  The
    session number is not 15, which the sender cannot store ([session_15_out_of_bounds]). *)
Theorem datagram_delivered q p r f data slack x y ls : peers q p r ->
  fragment_max_payload (tx_flags q) < Z.of_nat (length data) <= DATAGRAM_SIZE_MAX ->
  ready (next_sid x) x -> next_sid x <> 15 -> idle y -> pop (outs x) = None -> pop (outs y) = None ->
  (2 <= length slack)%nat -> Z.of_nat (length ls) <= subsequent q data ->
  exists x1 s' N, ZW_TransportService_SendData q data (Z.of_nat (length data)) f x = Ok (true, x1) /\
    (forall n, (N <= n)%nat -> net n p r slack (mkNet x1 y (false :: ls)) = Ok s') /\
    outs (ny s') = delivery p data :: outs y /\ idle (ny s') /\
    (exists ts, outs (nx s') = Completed f S2_TRANSMIT_COMPLETE_OK ts :: outs x) /\ current_state (nx s') = ST_IDLE.
Proof.
  intros [(Hq1 & Hq2 & Hq3) Hfl (Hp1 & Hp2 & Hp3) (Hr1 & Hr2)] [Hlo Hhi] Hx Hsid Hy Hxo Hyo Hs Hls.
  unfold DATAGRAM_SIZE_MAX in Hhi. assert (Hf : fragment_max_payload (tx_flags q) = 39 \/ fragment_max_payload (tx_flags q) = 47) by apply max_payload_cases. apply subsequent_le in Hls; [|lia].
  assert (Hr : 0 <= next_sid x < 15) by (pose proof (next_sid_range _ _ Hx); lia).
  destruct (sent_and_ends q f data (next_sid x) Hr ltac:(lia) Hlo Hq1 Hq2 Hfl Hq3 r Hr1 Hr2 p Hp1 Hp2 Hp3 slack Hs _ _ Hxo Hyo x y ls Hx Hy eq_refl eq_refl Hls)
    as (x1 & E & s' & Hreach & [H1 H2 H3 H4 H5]).
  destruct (reaches_iterate _ _ _ Hreach H5) as [N HN]. by exists x1, s', N.
Qed.

(** Node 1 sends to node 2, both as the gateway starts them. *)
Definition flags : Z := 0x25.
Definition there : ts_param_t := mkParam 1 2 0 0 flags 0 0.
Definition back : ts_param_t := mkParam 2 1 0 0 flags 0 0.
Definition gateway (node : Z) : T2 := set_handler true (start node).

Lemma gateway_ready node : ready (next_sid (gateway node)) (gateway node).
Proof. by constructor. Qed.

Lemma gateway_idle node : idle (gateway node).
Proof. constructor; [constructor; try done; apply zero_mask_ok|done|done|by left]. Qed.

Lemma datagram_delivered_witness : let data := seqZ 1 100 in
  exists x1 s' N, ZW_TransportService_SendData there data 100 7 (gateway 1) = Ok (true, x1) /\
    (forall n, (N <= n)%nat -> net n there back [0; 0] (mkNet x1 (gateway 2) [false; true; true]) = Ok s') /\
    outs (ny s') = [delivery there data] /\ idle (ny s') /\
    (exists ts, outs (nx s') = [Completed 7 S2_TRANSMIT_COMPLETE_OK ts]) /\ current_state (nx s') = ST_IDLE.
Proof.
  apply (datagram_delivered there there back 7 (seqZ 1 100) [0; 0] (gateway 1) (gateway 2) [true; true]);
    [|by vm_compute|apply gateway_ready|done|apply gateway_idle|done|done|done|by vm_compute].
  by constructor.
Defined.
End TransportLink.
