(* ===== verification/TransportSafe.v ===== *)
(** * Memory safety of the receiving side, and where the transport service fails

    Whatever fragments arrive, from whichever nodes and however the receive timer strikes, the
    receiver stays within its buffers and never hands over more than a datagram can hold.  The sending
    side has no such guarantee: four runs end in a fault or in a node that refuses to send. *)
From S2P Require Import Prelude Effects Transport TransportSpec TransportLink.
Import Transport TransportSpec TransportLink.

Module TransportSafe.

(** ** The invariant *)

Definition small (o : out) : Prop :=
  match o with
  | SendRaw _ _ frame _ _ => (length frame <= TXBUF_SIZE)%nat
  | Deliver _ d => (length d <= 200)%nat
  | Completed _ _ _ => True
  end.

(** The number of the last fragment's bytes is a divisor: it is zero only while no session has been
    opened, or before the first initialisation, when there is no peer either. *)
Definition divisor_ok (w : T2) : Prop :=
  r_session_id (rcb w) = 0x10 \/ cur_recvd_data_size (rcb w) <> 0 \/
  (flag_initialize_once w = true /\ current_snode (rcb w) = 0 /\ current_dnode (scb w) = 0).

Record sane (w : T2) : Prop := {
  sa_data : length (datagramData (rcb w)) = 200%nat;
  sa_mask : mask_ok (bytes_recvd_bitmask (rcb w));
  sa_done : length (recv_frag_compl_list (rcb w)) = 16%nat;
  sa_tx : length (t2_txBuf w) = TXBUF_SIZE;
  sa_size : 0 <= datagram_size (rcb w) <= 200;
  sa_sid : 0 <= r_session_id (rcb w) <= 0x10;
  sa_cur : divisor_ok w;
  sa_outs : Forall small (outs w)
}.

(** Nothing of the invariant is touched. *)
Lemma sane_keep w w' : sane w -> rcb w' = rcb w -> t2_txBuf w' = t2_txBuf w -> outs w' = outs w ->
  flag_initialize_once w' = flag_initialize_once w -> current_dnode (scb w') = current_dnode (scb w) -> sane w'.
Proof. intros [] Er Et Eo Ef Ed. constructor; rewrite ?Er, ?Et, ?Eo; try done. unfold divisor_ok in *. by rewrite Er, Ef, Ed. Qed.

Lemma sane_event ev w : sane w -> wp (t2_sm_post_event ev) (fun _ => sane) w.
Proof. intros H. ts. by apply (sane_keep w). Qed.

Lemma sane_send src dst buf len opt cb (Q : bool -> T2 -> Prop) w : sane w -> (Z.to_nat (u8 len) <= length buf)%nat -> (Z.to_nat (u8 len) <= TXBUF_SIZE)%nat ->
  (forall ok l w', sane w' -> (ok = false -> accepts w = ok :: l) -> accepts w' = tail (accepts w) -> rcb w' = rcb w -> scb w' = scb w ->
     Q ok w') -> wp (TS_SEND_RAW src dst buf len opt cb) Q w.
Proof.
  intros Hw Hl Ht HQ. unfold TS_SEND_RAW. apply wp_bind, wp_rds; [lia|]. apply wp_bind. unfold wp at 1, next_accept.
  assert (Hs : small (SendRaw src dst (sub 0 (Z.to_nat (u8 len)) buf) opt cb)) by (cbn; rewrite length_sub; lia).
  assert (Hsane : forall w', sane w' -> sane (set_outs (SendRaw src dst (sub 0 (Z.to_nat (u8 len)) buf) opt cb :: outs w') w'))
    by (intros w' []; constructor; try done; by constructor).
  destruct (accepts w) as [|[] l] eqn:Ea; ts.
  - apply (HQ true []); [by apply Hsane|done|done|done|done].
  - apply (HQ true l); [by apply (Hsane (set_accepts l w)), (sane_keep w)|done|done|done|done].
  - apply (HQ false l); [by apply (sane_keep w)|done|done|done|done].
Qed.

(** ** Every routine of the receiver keeps it *)

(** The number of pending fragments can be computed. *)
Definition divides (w : T2) : Prop := r_session_id (rcb w) = 0x10 \/ cur_recvd_data_size (rcb w) <> 0.

(** Room for a control frame. *)
Ltac lia_3 := change (Z.to_nat (u8 3)) with 3%nat; change (Z.to_nat (u8 4)) with 4%nat; unfold TXBUF_SIZE; cbn [length]; lia.

Lemma wait_cmd_ok w : sane w -> divides w -> wp send_frag_wait_cmd (fun _ => sane) w.
Proof.
  intros Hw Hd. unfold send_frag_wait_cmd. ts. destruct (sending (scb w)).
  - apply wp_bind, sane_send; [by apply (sane_keep w)|lia_3|lia_3|]. intros. by apply sane_event.
  - assert (Hset : forall n, sane (set_rcb (set_r_pending_segments n (rcb w)) (set_timers (set_reset_timer (Some RESET_TIME) (timers w)) w)))
      by (intros n; destruct Hw; by constructor).
    apply wp_bind. destruct (Z.eqb_spec (r_session_id (rcb w)) 0x10); [|apply wp_bind, wp_pending; [by destruct Hd|]; intros k].
    all: ts; apply wp_bind, sane_send; [apply Hset|lia_3|lia_3|]; intros; by apply sane_event.
Qed.

Lemma queue_wait_ok w : sane w -> divides w -> wp send_or_queue_frag_wait (fun _ => sane) w.
Proof. intros Hw Hd. unfold send_or_queue_frag_wait. ts. destruct (sending (scb w)); ts; [by apply (sane_keep w)|by apply wait_cmd_ok]. Qed.

(** After an event. *)
Lemma event_wait_ok ev w : sane w -> divides w -> wp (t2_sm_post_event ev;; send_or_queue_frag_wait) (fun _ => sane) w.
Proof. intros Hw Hd. ts. apply queue_wait_ok; [by apply (sane_keep w)|done]. Qed.

Lemma discard_ok w : sane w -> wp discard_all_received_fragments (fun _ => sane) w.
Proof. intros []. unfold discard_all_received_fragments. ts. constructor; ts_simpl; try done; [apply zero_mask_ok|by left]. Qed.

Lemma complete_safe w : sane w -> wp send_frag_complete_cmd (fun _ => sane) w.
Proof.
  intros Hw. unfold send_frag_complete_cmd. ts. destruct (Z.ltb_spec 0x0f (r_session_id (rcb w))); [by ts|]. ts.
  apply wp_bind, sane_send; [by apply (sane_keep w)|lia_3|lia_3|]. intros _ l w' Hw' _ _ Er Es.
  apply wp_bind. unfold ZIPCommandHandler. ts. pose proof Hw' as [].
  assert (Hfin : forall w2, sane w2 -> rcb w2 = rcb w' -> wp (l ← wr (recv_frag_compl_list (rcb w)) (r_session_id (rcb w)) true;
    mod_rcb (set_recv_frag_compl_list l);; mod_rcb (set_r_session_id 0x10);; mod_rcb (set_current_snode 0);; mod_timers (set_rx_timer None);;
    t2_sm_post_event EV_SUCCESS) (fun _ => sane) w2).
  { intros w2 [] Er2. destruct Hw. apply wp_bind, wp_wr; [lia|]. ts. constructor; ts_simpl; try done; [by rewrite length_insert|by left]. }
  destruct (handler w'); ts; [|by apply Hfin]. destruct Hw.
  apply wp_bind, wp_rds; [lia|]. ts. apply Hfin; [|done]. constructor; ts_simpl; try done.
  constructor; [|done]. cbn. rewrite length_sub; lia.
Qed.

(** The radio cannot refuse more often than it announces. *)
Lemma req_loop_safe fuel : forall w, sane w -> (length (accepts w) < fuel)%nat -> wp (send_frag_req_loop fuel) (fun _ => sane) w.
Proof.
  induction fuel as [|fuel IH]; intros w Hw Hf; [lia|]. cbn [send_frag_req_loop]. ts. pose proof (sa_tx w Hw) as Ht.
  apply wp_bind, sane_send; [by apply (sane_keep w)|rewrite Ht; lia_3|lia_3|]. intros ok l w' Hw' Hok Ha Er Es.
  change (ok = false -> accepts w = ok :: l) in Hok. change (accepts w' = tail (accepts w)) in Ha. ts_simpl.
  destruct (negb ok && _) eqn:E; ts; [|done]. apply IH; [destruct Hw'; by constructor|]. ts_simpl. rewrite Ha.
  destruct ok; [done|]. rewrite (Hok eq_refl) in *. cbn [tail length] in *. lia.
Qed.

Lemma request_safe w : sane w -> wp send_frag_req_cmd (fun _ => sane) w.
Proof.
  intros Hw. pose proof (sa_tx w Hw) as Ht. unfold send_frag_req_cmd. ts. destruct (_ =? 0); [ts; by apply (sane_keep w)|].
  destruct (0x0f <? _); [ts; by apply (sane_keep w)|]. ts.
  apply wp_bind, wp_put; [ts_simpl; rewrite Ht; unfold TXBUF_SIZE; cbn [length]; lia|]. ts.
  assert (Hput : forall bs, length bs = 4%nat -> sane (set_t2_txBuf (splice 0 bs (t2_txBuf w)) (set_offset_to_request (get_next_missing_offset (rcb w)) w))).
  { intros bs Hb. destruct Hw. constructor; ts_simpl; try done. apply tx_splice; [done|rewrite Hb; unfold TXBUF_SIZE; lia]. }
  apply wp_bind. eapply wp_mono; [apply req_loop_safe; [by apply Hput|ts_simpl; lia]|]. intros _ w' []. ts. by constructor.
Qed.

Lemma find_missing_safe w : sane w -> wp find_missing (fun _ => sane) w.
Proof.
  intros Hw. unfold find_missing. ts. destruct (negb _), (rx_flags _ =? _); ts; [by apply discard_ok| |done|].
  - by apply request_safe, (sane_keep w).
  - by apply complete_safe, (sane_keep w).
Qed.

Lemma rx_timer_safe w : sane w -> wp (expire TRx) (fun _ => sane) w.
Proof.
  intros Hw. unfold expire, rx_timer_expired. ts. destruct (_ && _); [apply discard_ok|apply find_missing_safe]; by apply (sane_keep w).
Qed.

(** Bytes are marked, or the sender is told to wait. *)
Lemma mark_safe off n w : sane w -> divides w -> 0 <= off -> 0 <= n -> off + n <= 200 ->
  wp (mark_frag_received off n) (fun _ => sane) w.
Proof.
  intros Hw Hd Ho Hn Hon. pose proof Hw as []. unfold mark_frag_received. ts. pose proof sa_mask0 as [HL _].
  destruct (lookup_lt_is_Some_2 (bytes_recvd_bitmask (rcb w)) 0) as [x Hx]; [rewrite HL; unfold BITMASK_SIZE; lia|].
  apply wp_bind. eapply wp_rd; [exact Hx|]. destruct (_ && _); ts.
  - apply wp_bind. eapply wp_mono; [apply queue_wait_ok; [by apply (sane_keep w)|done]|]. intros [] w' Hw'. ts. done.
  - destruct (mark_loop_ok (Z.to_nat n) off _ w sa_mask0 Ho) as (mask & E & Hm & _); [unfold DATAGRAM_SIZE_MAX; lia|].
    apply wp_bind. unfold wp at 1. rewrite E. ts. by constructor.
Qed.

Lemma sid_range b : is_byte b -> 0 <= Z.shiftr (Z.land b 0xf0) 4 <= 15.
Proof.
  intros [Hb0 Hb1]. assert (E : Z.shiftr (Z.land b 0xf0) 4 = b / 16 mod 16).
  { change 0xf0 with (Z.shiftl (Z.ones 4) 4). rewrite Z.shiftr_land, Z.shiftr_shiftl_l, Z.shiftl_0_r, Z.land_ones, Z.shiftr_div_pow2 by lia. done. }
  rewrite E. pose proof (Z.mod_pos_bound (b / 16) 16 ltac:(lia)). lia.
Qed.

Lemma crc_safe r (Q : bool -> T2 -> Prop) w : (Z.to_nat (fragment_len r) <= length (fragment r))%nat -> (forall b, Q b w) -> wp (crc_ok r) Q w.
Proof. intros Hl HQ. unfold crc_ok. apply wp_bind, wp_rds; [lia|]. ts. apply HQ. Qed.

(** The fragment in the control block lies within its buffer. *)
Definition frame_ok (w : T2) : Prop :=
  fragment_len (rcb w) <= DATAGRAM_SIZE_MAX /\ (Z.to_nat (fragment_len (rcb w)) <= length (fragment (rcb w)))%nat.

Lemma u16_nonneg x : 0 <= u16 x.
Proof. unfold u16. by apply Z.mod_pos_bound. Qed.

Lemma first_safe byte1 byte2 byte3 w : sane w -> frame_ok w -> is_byte byte3 -> wp (receive_first byte1 byte2 byte3) (fun _ => sane) w.
Proof.
  intros Hw [Hfl Hfr] Hb3. unfold DATAGRAM_SIZE_MAX in *. pose proof (sid_range _ Hb3) as Hsid. unfold receive_first.
  apply wp_bind, wp_abort. intros x. ts. change FIRST_FRAG_NONPAYLOAD_LENGTH with 6.
  destruct (Z.leb_spec (fragment_len (rcb w)) 6); [ts; by apply (sane_keep w)|]. apply wp_bind, crc_safe; [done|]. intros [|]; cbn [negb]; [|ts; by apply (sane_keep w)].
  destruct (negb _ && _); [ts; by apply (sane_keep w)|]. set (tmp := u16 _). pose proof (u16_nonneg (Z.shiftl (Z.land byte1 7) 8 + byte2)) as Htmp. fold tmp in Htmp.
  unfold DATAGRAM_SIZE_MAX. destruct (Z.ltb_spec 200 tmp); [ts; by apply (sane_keep w)|]. ts. pose proof Hw as [].
  apply wp_bind, wp_wr; [lia|]. ts. rewrite (u8_small (_ - _)) by lia.
  apply wp_bind, wp_rds; [unfold FIRST_HDR_LEN; lia|]. apply wp_bind, wp_wrs; [rewrite length_sub; unfold FIRST_HDR_LEN; lia|]. ts.
  apply wp_bind. eapply wp_mono; [apply mark_safe; [|right; ts_simpl; lia|lia|lia|lia]|].
  - constructor; ts_simpl; try done; [|apply zero_mask_ok|by rewrite length_insert|lia|right; left; ts_simpl; lia].
    rewrite length_splice; [done|rewrite length_sub; unfold FIRST_HDR_LEN; lia].
  - intros [|] w' Hw'; [by ts|]. destruct (_ =? tmp); ts; [by apply complete_safe, (sane_keep w')|]. destruct Hw'. by constructor.
Qed.

Lemma subseq_safe byte1 byte2 byte3 byte4 w : sane w -> frame_ok w -> is_byte byte3 -> wp (receive_subseq byte1 byte2 byte3 byte4) (fun _ => sane) w.
Proof.
  intros Hw [Hfl Hfr] Hb3. unfold DATAGRAM_SIZE_MAX in *. pose proof (sid_range _ Hb3) as Hsid. unfold receive_subseq.
  apply wp_bind, wp_abort. intros x. ts. change SUBSEQ_FRAG_NONPAYLOAD_LENGTH with 7.
  destruct (Z.leb_spec (fragment_len (rcb w)) 7); [ts; by apply (sane_keep w)|]. apply wp_bind, crc_safe; [done|]. intros [|]; cbn [negb]; [|ts; by apply (sane_keep w)].
  pose proof Hw as []. destruct (lookup_lt_is_Some_2 (recv_frag_compl_list (rcb w)) (Z.to_nat (Z.shiftr (Z.land byte3 0xf0) 4))) as [d Hd]; [lia|].
  apply wp_bind. eapply wp_rd; [exact Hd|]. destruct d; [case_bool_decide; ts; by apply (sane_keep w)|].
  destruct (negb _ && _); [ts; by apply (sane_keep w)|]. ts. rewrite (u8_small (_ - _)) by lia. set (off := u16 _).
  pose proof (u16_nonneg (Z.shiftl (Z.land byte3 7) 8 + byte4)) as Hoff. fold off in Hoff. set (tmp := u16 _).
  pose proof (u16_nonneg (Z.shiftl (Z.land byte1 7) 8 + byte2)) as Htmp. fold tmp in Htmp.
  assert (Hcur : forall s t, sane (set_timers t (set_rcb (set_cur_recvd_data_size (fragment_len (rcb w) - 7) (rcb w)) (set_scb (set_transmission_aborted s (scb w)) w))))
    by (intros s t; constructor; ts_simpl; try done; right; left; ts_simpl; lia).
  unfold DATAGRAM_SIZE_MAX. destruct (Z.ltb_spec 200 (off + (fragment_len (rcb w) - 7))); [case_bool_decide; ts; by apply (sane_keep _ _ (Hcur x (timers w)))|].
  destruct (Z.ltb_spec 200 tmp); [ts; by apply (sane_keep _ _ (Hcur x (timers w)))|]. ts.
  apply wp_bind. eapply wp_mono; [apply mark_safe; [apply Hcur|right; ts_simpl; lia|lia|lia|lia]|].
  intros [|] w' Hw'; [by ts|]. ts. apply wp_bind, wp_rds; [unfold SUBSEQ_HDR_LEN; lia|].
  apply wp_bind, wp_wrs; [rewrite length_sub; unfold SUBSEQ_HDR_LEN; lia|]. ts.
  assert (Hdone : forall w2, rcb w2 = set_datagramData (splice (Z.to_nat off) (sub SUBSEQ_HDR_LEN (Z.to_nat (fragment_len (rcb w) - 7)) (fragment (rcb w)))
      (datagramData (rcb w))) (set_datagram_size tmp (rcb w')) -> t2_txBuf w2 = t2_txBuf w' -> outs w2 = outs w' ->
    flag_initialize_once w2 = flag_initialize_once w' -> current_dnode (scb w2) = current_dnode (scb w') -> sane w2).
  { intros w2 Er Et Eo Ei Ec. destruct Hw' as [? ? ? ? ? ? Hdiv ?]. constructor; rewrite ?Er, ?Et, ?Eo; ts_simpl; try done.
    - rewrite length_splice; [done|rewrite length_sub; unfold SUBSEQ_HDR_LEN; lia].
    - unfold divisor_ok in *. rewrite Er, Ei, Ec. exact Hdiv. }
  destruct (tmp <=? _); ts; [by apply find_missing_safe, Hdone|].
  destruct (Hdone (set_rcb (set_datagramData (splice (Z.to_nat off) (sub SUBSEQ_HDR_LEN (Z.to_nat (fragment_len (rcb w) - 7)) (fragment (rcb w)))
      (datagramData (rcb w))) (set_datagram_size tmp (rcb w'))) w')); done.
Qed.

(** ** Any sequence of fragments *)

(** A frame with a fragment command, in a buffer of at least five bytes that holds it. *)
Definition is_fragment (pCmd : list Z) (cmdLength : Z) : Prop :=
  bytes pCmd /\ (5 <= length pCmd)%nat /\ (Z.to_nat cmdLength <= length pCmd)%nat /\
  (Z.land (at_ pCmd 1) 0xf8 = COMMAND_FIRST_FRAGMENT \/ Z.land (at_ pCmd 1) 0xf8 = COMMAND_SUBSEQUENT_FRAGMENT).

Lemma receive_safe w : sane w -> frame_ok w -> is_fragment (fragment (rcb w)) (fragment_len (rcb w)) -> wp receive (fun _ => sane) w.
Proof.
  intros Hw Hf (HB & H5 & _ & Hc). unfold receive. ts. do 5 (apply wp_bind, rd_at; [lia|]). destruct (negb _); [by ts|].
  change (Z.to_nat 1) with 1%nat. assert (Hb3 : is_byte (at_ (fragment (rcb w)) (Z.to_nat 3))) by by apply at_byte.
  destruct Hc as [-> | ->]; repeat ts_const; [by apply first_safe|by apply subseq_safe].
Qed.

Lemma take_safe p pCmd n w : sane w -> n <= DATAGRAM_SIZE_MAX -> is_fragment pCmd n -> wp (take_frame p pCmd n) (fun _ => sane) w.
Proof.
  intros Hw Hn Hf. unfold take_frame. ts. apply wp_bind.
  assert (Hgo : forall st, wp (initialize_once;; mod_rcb (fun r => set_fragment pCmd (set_r_p p (set_fragment_len n r)));; receive) (fun _ => sane) (set_current_state st w)).
  { intros st. pose proof Hw as []. unfold initialize_once. apply wp_bind. ts.
    destruct (flag_initialize_once w) eqn:Ei; ts; (apply receive_safe; [|split; [done|by destruct Hf as (_ & _ & ? & _)]|done]).
    - constructor; ts_simpl; try done; [apply zero_mask_ok|by left].
    - by constructor. }
  destruct w. destruct current_state; ts; apply Hgo.
Qed.

Lemma handler_safe p pCmd n w : sane w -> is_fragment pCmd n -> wp (TransportService_ApplicationCommandHandler p pCmd n) (fun _ => sane) w.
Proof.
  intros Hw Hf. unfold TransportService_ApplicationCommandHandler. ts. apply wp_bind.
  assert (Hcheck : forall st tie, wp (check_frame p pCmd n) (fun _ => sane)
    (set_flag_tie_broken tie (set_current_state st (set_timers (set_reset_timer (Some RESET_TIME) (timers w)) w)))).
  { intros st tie. unfold check_frame. destruct (snode p =? dnode p); [ts; by apply (sane_keep w)|].
    destruct (Z.ltb_spec DATAGRAM_SIZE_MAX n); [ts; by apply (sane_keep w)|]. ts.
    assert (Hw2 : forall t, sane (set_scb (set_frag_wait_p p (scb w)) (set_flag_tie_broken tie (set_current_state st (set_timers t w))))) by (intros t; by apply (sane_keep w)).
    destruct (third_node _ _ && (rx_flags p =? RECEIVE_STATUS_TYPE_SINGLE)) eqn:E3.
    { case_bool_decide; [ts; apply Hw2|]. apply event_wait_ok; [apply Hw2|]. destruct (sa_cur _ Hw) as [?|[?|(_ & Es & Ed)]]; [by left|by right|].
      unfold third_node in E3. revert E3. ts_simpl. rewrite Es, Ed. by rewrite !andb_false_r. }
    destruct (third_node _ _ && (rx_flags p =? RECEIVE_STATUS_TYPE_BROAD)); [ts; by apply (sane_keep w)|]. pose proof Hf as (_ & H5 & _). apply wp_bind, rd_at; [lia|].
    destruct (Z.eqb_spec (r_session_id (rcb w)) 0x10) as [E|E]; cbn [andb]; [|by apply take_safe].
    destruct (_ =? COMMAND_SUBSEQUENT_FRAGMENT); [|by apply take_safe]. apply wp_bind, rd_at; [lia|].
    destruct (_ <? _); [ts; by apply (sane_keep w)|]. apply event_wait_ok; [apply Hw2|by left]. }
  unfold tie_break. ts. destruct (_ && _); ts; [apply Hcheck|].
  specialize (Hcheck (current_state w) (flag_tie_broken w)). destruct w. exact Hcheck.
Qed.

(** What happens to a node that only receives. *)
Inductive rx_event := Frame (p : ts_param_t) (pCmd : list Z) (cmdLength : Z) | RxTimeout.

Definition handle (e : rx_event) : TM unit :=
  match e with Frame p pCmd n => TransportService_ApplicationCommandHandler p pCmd n | RxTimeout => expire TRx end.

Fixpoint handle_all (es : list rx_event) : TM unit :=
  match es with [] => mret tt | e :: es => handle e;; handle_all es end.

Definition event_ok (e : rx_event) : Prop := match e with Frame _ pCmd n => is_fragment pCmd n | RxTimeout => True end.

#[global] Instance event_ok_dec e : Decision (event_ok e).
Proof. destruct e; cbn; [unfold is_fragment|]; apply _. Defined.

Lemma handle_all_safe es : forall w, sane w -> Forall event_ok es -> wp (handle_all es) (fun _ => sane) w.
Proof.
  induction es as [|e es IH]; intros w Hw Hes; [by ts|]. apply list.Forall_cons in Hes as [He Hes]. cbn [handle_all]. apply wp_bind.
  apply (wp_mono _ (fun _ => sane)); [destruct e; [by apply handler_safe|by apply rx_timer_safe]|]. intros [] w' Hw'. by apply IH.
Qed.

Lemma gateway_sane node : sane (gateway node).
Proof. constructor; try done; [apply zero_mask_ok|by right; right]. Qed.

(** C12: Whatever fragments a node receives, with whatever bytes, lengths, checksums, session numbers,
    offsets and sizes, from whichever nodes, and however often its receive timer expires in between:
    no access leaves a buffer, no division fails, no datagram of more than 200 bytes is handed to the
    application and no frame of more than 54 bytes to the radio. *)
Theorem receiver_memory_safe node es : Forall event_ok es ->
  exists w', handle_all es (gateway node) = Ok (tt, w') /\ Forall small (outs w').
Proof.
  intros Hes. destruct (wp_run _ _ _ (handle_all_safe es (gateway node) (gateway_sane node) Hes)) as ([] & w' & E & Hw').
  exists w'. split; [done|]. by destruct Hw'.
Qed.

Lemma receiver_memory_safe_witness : exists w',
  handle_all [Frame there (first_frame 3 200 (seqZ 0 47)) 53; RxTimeout; Frame there (subseq_frame 3 10 199 [1]) 8; RxTimeout] (gateway 2) = Ok (tt, w') /\
  Forall small (outs w').
Proof.
  apply (receiver_memory_safe 2). apply (bool_decide_unpack _). by vm_compute.
Defined.

(** ** Where the service fails *)

(** Node 1 sends [data] to node 2, as far as it goes; [lost] says what of it is lost. *)
Definition exchange (x y : T2) (data : list Z) (lost : list bool) : res Net :=
  match ZW_TransportService_SendData there data (Z.of_nat (length data)) 7 x with
  | Ok (_, x) => net 40 there back [0; 0] (mkNet x y lost)
  | Fault e => Fault e
  end.

(** The sender after its fragments were all lost: it waits for the confirmation. *)
Definition unheard : res Net := exchange (gateway 1) (gateway 2) (seqZ 1 100) [true; true; true].

(** A segment request for an offset behind the datagram is not refused: the length of what is to
    be sent again wraps around to some 65,000 bytes, and the copy leaves the datagram and the
    transmit buffer. *)
Theorem request_behind_datagram_overflows :
  (s ← unheard; mret (current_state (nx s), datagram_len (scb (nx s)))) = Ok (ST_WAIT_ACK, 100) /\
  (s ← unheard; TransportService_ApplicationCommandHandler back (request_frame 0 200 ++ [0; 0]) 4 (nx s)) = Fault OutOfBounds.
Proof. split; by vm_compute. Qed.

(** A gateway that waits for a confirmation and has not received any fragment since it started
    divides by zero when a fragment of a third node arrives. *)
Theorem third_node_divides_by_zero :
  (s ← unheard; TransportService_ApplicationCommandHandler (mkParam 3 1 0 0 flags 0 0) (first_frame 1 100 (seqZ 1 39) ++ [0; 0]) 45 (nx s)) =
  Fault DivByZero.
Proof. by vm_compute. Qed.

(** Session numbers go up to 15, but the sender keeps only 15 flags: after a datagram with session
    14 the next one is marked behind the end of the array. *)
Theorem session_15_out_of_bounds :
  (s ← exchange (set_rands [14] (gateway 1)) (gateway 2) (seqZ 1 100) []; mret (outs (nx s), current_state (nx s))) =
    Ok ([Completed 7 S2_TRANSMIT_COMPLETE_OK None], ST_IDLE) /\
  (s ← exchange (set_rands [14] (gateway 1)) (gateway 2) (seqZ 1 100) []; exchange (nx s) (ny s) (seqZ 1 100) []) = Fault OutOfBounds.
Proof. split; by vm_compute. Qed.

(** A datagram of one fragment is delivered and confirmed, but the receiver stays in the receiving
    state, from which the completion has no transition: it refuses to send anything until the reset
    timer expires. *)
Theorem single_fragment_blocks_receiver :
  (s ← exchange (gateway 1) (gateway 2) (seqZ 1 30) [];
   mret (outs (nx s), outs (ny s), current_state (ny s))) =
    Ok ([Completed 7 S2_TRANSMIT_COMPLETE_OK None], [delivery there (seqZ 1 30)], ST_RECEIVING) /\
  (s ← exchange (gateway 1) (gateway 2) (seqZ 1 30) [];
   '(ok, y) ← ZW_TransportService_SendData back (seqZ 1 30) 30 8 (ny s);
   mret (ok, head (outs y))) = Ok (false, Some (Completed 8 S2_TRANSMIT_COMPLETE_FAIL None)).
Proof. split; by vm_compute. Qed.
End TransportSafe.
