(* ===== verification/Scheme0.v ===== *)
(** * Security scheme 0 (src/transport/Security_Scheme0.c, ZW_PRNG.c, and the command handler of
    security_layer.c)

    The older security class: a message is encrypted with AES in output feedback mode and
    authenticated with a CBC-MAC, both under an initialisation vector that is half the sender's, half
    a nonce the receiver has reported; a message too long for one frame travels in two.  Every
    function of the three parts, over the static tables; the radio, the clock, the hardware random
    generator and the state chart of the inclusion are given from outside, and what is passed to them
    is a trace.  The block cipher is the interface of [Prelude] ([SerialAPI_AES128_Encrypt]). *)
From S2P Require Import Prelude Effects Transport.
Import Effects.

Module Scheme0.

Abbreviation ts_param_t := Transport.ts_param_t.
Abbreviation snode := Transport.snode.
Abbreviation dnode := Transport.dnode.
Abbreviation TX_STATUS_TYPE := Transport.TX_STATUS_TYPE.

(** ** Constants *)

Definition NONCE_TABLE_SIZE : nat := 15.
Definition NUM_TX_SESSIONS : nat := 2.
Definition MAX_ENCRYPTED_MSG_SIZE : nat := 128.
Definition MAX_RXSESSIONS : nat := 2.
Definition NONCE_TIMEOUT : Z := 10.
Definition NONCE_REQUEST_TIMEOUT_MSEC : Z := 500.
Definition NONCE_BLACKLIST_SIZE : nat := 10.
Definition RECEIVERS_NONCE_SIZE : nat := 8.
Definition CRYPTED_MSG_SIZE : nat := 46.
Definition CLOCK_SECOND : Z := 1000.
Definition COMMAND_CLASS_SECURITY : Z := 0x98.
Definition NETWORK_KEY_SET : Z := 0x06.
Definition SECURITY_MESSAGE_ENCAPSULATION : Z := 0x81.
Definition SECURITY_MESSAGE_ENCAPSULATION_NONCE_GET : Z := 0xC1.
Definition SECURITY_NONCE_GET : Z := 0x40.
Definition SECURITY_NONCE_REPORT : Z := 0x80.
Definition SECURITY_MESSAGE_ENCAPSULATION_PROPERTIES1_SEQUENCED_BIT_MASK : Z := 0x10.
Definition SECURITY_MESSAGE_ENCAPSULATION_PROPERTIES1_SECOND_FRAME_BIT_MASK : Z := 0x20.
Definition TRANSMIT_COMPLETE_OK : Z := 0x00.
Definition TRANSMIT_COMPLETE_FAIL : Z := 0x02.
Definition TRANSMIT_OPTION_LOW_POWER : Z := 0x02.
Definition RECEIVE_STATUS_LOW_POWER : Z := 0x02.
Definition SECURITY_SCHEME_GET : Z := 0x04.
Definition SECURITY_SCHEME_REPORT : Z := 0x05.
Definition NETWORK_KEY_VERIFY : Z := 0x07.
Definition SECURITY_SCHEME_INHERIT : Z := 0x08.
Definition SECURITY_COMMANDS_SUPPORTED_GET : Z := 0x02.
Definition KEY_CLASS_S0 : Z := 0x80.
Definition NO_SCHEME : Z := 0xFF.
Definition SECURITY_SCHEME_0 : Z := 7.
Definition SECURITY_SCHEME_0_BIT : Z := 0x1.
Definition NODE_FLAG_SECURITY0 : Z := 0x01.
Definition RXBUFFER_SIZE : nat := 64.

(** Sizes of the frame structures. *)
Definition sizeof_network_key_set_1byte : Z := 3.
Definition sizeof_scheme_frame : Z := 3.
Definition sizeof_nonce_report : Z := 10.

(** ** State *)

Inductive tx_state_t := NONCE_GET | NONCE_GET_SENT | ENC_MSG | ENC_MSG_SENT | ENC_MSG2 | ENC_MSG2_SENT | TX_DONE | TX_FAIL.
Inductive rx_session_state_t := RX_INIT | RX_ENC1 | RX_ENC2 | RX_SESSION_DONE.

#[global] Instance tx_state_eq_dec : EqDecision tx_state_t.
Proof. solve_decision. Defined.
#[global] Instance rx_state_eq_dec : EqDecision rx_session_state_t.
Proof. solve_decision. Defined.

(** A transmission; [data] is the caller's memory from the next byte to send on, [user] and
    [callback] are numbers, [timer] the time it was set to when it runs. *)
Record sec_tx_session := mkTx {
  param : ts_param_t; data : list Z; data_len : Z; state : tx_state_t; tx_code : Z; transition_time : Z;
  timer : option Z; crypted_msg : list Z; seq : Z; user : Z; callback : option Z;
  tx_ext_status : TX_STATUS_TYPE
}.

Definition set_param (x : ts_param_t) (s : sec_tx_session) : sec_tx_session := mkTx x (data s) (data_len s) (state s)
    (tx_code s) (transition_time s) (timer s) (crypted_msg s) (seq s) (user s) (callback s) (tx_ext_status s).
Definition set_data (x : list Z) (s : sec_tx_session) : sec_tx_session := mkTx (param s) x (data_len s) (state s)
    (tx_code s) (transition_time s) (timer s) (crypted_msg s) (seq s) (user s) (callback s) (tx_ext_status s).
Definition set_data_len (x : Z) (s : sec_tx_session) : sec_tx_session := mkTx (param s) (data s) x (state s)
    (tx_code s) (transition_time s) (timer s) (crypted_msg s) (seq s) (user s) (callback s) (tx_ext_status s).
Definition set_state (x : tx_state_t) (s : sec_tx_session) : sec_tx_session := mkTx (param s) (data s) (data_len s) x
    (tx_code s) (transition_time s) (timer s) (crypted_msg s) (seq s) (user s) (callback s) (tx_ext_status s).
Definition set_tx_code (x : Z) (s : sec_tx_session) : sec_tx_session := mkTx (param s) (data s) (data_len s) (state s)
    x (transition_time s) (timer s) (crypted_msg s) (seq s) (user s) (callback s) (tx_ext_status s).
Definition set_transition_time (x : Z) (s : sec_tx_session) : sec_tx_session := mkTx (param s) (data s) (data_len s)
    (state s) (tx_code s) x (timer s) (crypted_msg s) (seq s) (user s) (callback s) (tx_ext_status s).
Definition set_timer (x : option Z) (s : sec_tx_session) : sec_tx_session := mkTx (param s) (data s) (data_len s)
    (state s) (tx_code s) (transition_time s) x (crypted_msg s) (seq s) (user s) (callback s) (tx_ext_status s).
Definition set_crypted_msg (x : list Z) (s : sec_tx_session) : sec_tx_session := mkTx (param s) (data s) (data_len s)
    (state s) (tx_code s) (transition_time s) (timer s) x (seq s) (user s) (callback s) (tx_ext_status s).
Definition set_seq (x : Z) (s : sec_tx_session) : sec_tx_session := mkTx (param s) (data s) (data_len s) (state s)
    (tx_code s) (transition_time s) (timer s) (crypted_msg s) x (user s) (callback s) (tx_ext_status s).
Definition set_user (x : Z) (s : sec_tx_session) : sec_tx_session := mkTx (param s) (data s) (data_len s) (state s)
    (tx_code s) (transition_time s) (timer s) (crypted_msg s) (seq s) x (callback s) (tx_ext_status s).
Definition set_callback (x : option Z) (s : sec_tx_session) : sec_tx_session := mkTx (param s) (data s) (data_len s)
    (state s) (tx_code s) (transition_time s) (timer s) (crypted_msg s) (seq s) (user s) x (tx_ext_status s).
Definition set_tx_ext_status (x : TX_STATUS_TYPE) (s : sec_tx_session) : sec_tx_session := mkTx (param s) (data s)
    (data_len s) (state s) (tx_code s) (transition_time s) (timer s) (crypted_msg s) (seq s) (user s) (callback s) x.

Record nonce_blacklist_t := mkBlack { b_nonce : list Z; b_src : Z; b_dst : Z; in_use : bool }.

Record nonce_t := mkNonce {
  n_src : Z; n_dst : Z; timeout : Z; reply_nonce : bool; nonce : list Z
}.

Definition set_n_src (x : Z) (e : nonce_t) : nonce_t := mkNonce x (n_dst e) (timeout e) (reply_nonce e) (nonce e).
Definition set_n_dst (x : Z) (e : nonce_t) : nonce_t := mkNonce (n_src e) x (timeout e) (reply_nonce e) (nonce e).
Definition set_timeout (x : Z) (e : nonce_t) : nonce_t := mkNonce (n_src e) (n_dst e) x (reply_nonce e) (nonce e).
Definition set_reply_nonce (x : bool) (e : nonce_t) : nonce_t := mkNonce (n_src e) (n_dst e) (timeout e) x (nonce e).
Definition set_nonce (x : list Z) (e : nonce_t) : nonce_t := mkNonce (n_src e) (n_dst e) (timeout e) (reply_nonce e)
    x.

Record rx_session_t := mkRx {
  r_snode : Z; r_dnode : Z; r_state : rx_session_state_t; seq_nr : Z; msg : list Z; msg_len : Z;
  r_timeout : Z
}.

Definition set_r_snode (x : Z) (e : rx_session_t) : rx_session_t := mkRx x (r_dnode e) (r_state e) (seq_nr e) (msg e)
    (msg_len e) (r_timeout e).
Definition set_r_dnode (x : Z) (e : rx_session_t) : rx_session_t := mkRx (r_snode e) x (r_state e) (seq_nr e) (msg e)
    (msg_len e) (r_timeout e).
Definition set_r_state (x : rx_session_state_t) (e : rx_session_t) : rx_session_t := mkRx (r_snode e) (r_dnode e) x
    (seq_nr e) (msg e) (msg_len e) (r_timeout e).
Definition set_seq_nr (x : Z) (e : rx_session_t) : rx_session_t := mkRx (r_snode e) (r_dnode e) (r_state e) x (msg e)
    (msg_len e) (r_timeout e).
Definition set_msg (x : list Z) (e : rx_session_t) : rx_session_t := mkRx (r_snode e) (r_dnode e) (r_state e)
    (seq_nr e) x (msg_len e) (r_timeout e).
Definition set_msg_len (x : Z) (e : rx_session_t) : rx_session_t := mkRx (r_snode e) (r_dnode e) (r_state e)
    (seq_nr e) (msg e) x (r_timeout e).
Definition set_r_timeout (x : Z) (e : rx_session_t) : rx_session_t := mkRx (r_snode e) (r_dnode e) (r_state e)
    (seq_nr e) (msg e) (msg_len e) x.

(** The callback given to the radio with a frame: the function and the session. *)
Inductive tx_callback := noce_get_cb (i : nat) | msg1_cb (i : nat) | msg2_cb (i : nat).

(** Calls of the interface of the state chart. *)
Inductive learn_call :=
| set_txOptions (o : Z) | set_scheme (s : Z) | raise_key_set (node : Z) | raise_scheme_get (node : Z)
| raise_scheme_inherit (node : Z) | raise_scheme_report (node : Z) | raise_key_verify (node : Z) | raise_commandsSupportedRequest.

(** Calls to the radio, the caller of [sec0_send_data], the configuration memory, the state chart, the
    node database and the application. *)
Inductive out :=
| SendData (p : ts_param_t) (frame : list Z) (cb : option tx_callback)
| Callback (f user status : Z) (ts : TX_STATUS_TYPE)
| NvmSetNetkey (key : list Z)
| Learn (c : learn_call)
| NetworkManagement_s0_started
| SetCacheEntryFlagMasked (node value mask : Z)
| ApplicationCommandHandlerZIP (p : ts_param_t) (data : list Z).

(** The statics of the files, and what comes from outside: the clock, whether the inclusion is
    running, the answers of the radio (it takes the frame once the list is used up) and the results
    of the hardware random generator (zeros once used up). *)
Record S0 := mkS0 {
  tx_sessions : list sec_tx_session; networkKey : list Z; nonce_blacklist : list nonce_blacklist_t;
  blacklist_next_elem : Z; aes_key : list Z; aes_iv : list Z; nonce_table : list nonce_t;
  nonce_timer : option Z; enckey : list Z; authkey : list Z; enckeyz : list Z; authkeyz : list Z;
  last_seq : Z; rxsessions : list rx_session_t; prngState : list Z; MyNodeID : Z; assigned_keys : Z;
  cur_tsparm : ts_param_t; clock : Z; learn_active : bool; accepts : list bool; hw_random : list (list Z);
  outs : list out
}.

Definition set_tx_sessions (x : list sec_tx_session) (w : S0) : S0 := mkS0 x (networkKey w) (nonce_blacklist w)
    (blacklist_next_elem w) (aes_key w) (aes_iv w) (nonce_table w) (nonce_timer w) (enckey w) (authkey w) (enckeyz w)
    (authkeyz w) (last_seq w) (rxsessions w) (prngState w) (MyNodeID w) (assigned_keys w) (cur_tsparm w) (clock w)
    (learn_active w) (accepts w) (hw_random w) (outs w).
Definition set_networkKey (x : list Z) (w : S0) : S0 := mkS0 (tx_sessions w) x (nonce_blacklist w)
    (blacklist_next_elem w) (aes_key w) (aes_iv w) (nonce_table w) (nonce_timer w) (enckey w) (authkey w) (enckeyz w)
    (authkeyz w) (last_seq w) (rxsessions w) (prngState w) (MyNodeID w) (assigned_keys w) (cur_tsparm w) (clock w)
    (learn_active w) (accepts w) (hw_random w) (outs w).
Definition set_nonce_blacklist (x : list nonce_blacklist_t) (w : S0) : S0 := mkS0 (tx_sessions w) (networkKey w) x
    (blacklist_next_elem w) (aes_key w) (aes_iv w) (nonce_table w) (nonce_timer w) (enckey w) (authkey w) (enckeyz w)
    (authkeyz w) (last_seq w) (rxsessions w) (prngState w) (MyNodeID w) (assigned_keys w) (cur_tsparm w) (clock w)
    (learn_active w) (accepts w) (hw_random w) (outs w).
Definition set_blacklist_next_elem (x : Z) (w : S0) : S0 := mkS0 (tx_sessions w) (networkKey w) (nonce_blacklist w) x
    (aes_key w) (aes_iv w) (nonce_table w) (nonce_timer w) (enckey w) (authkey w) (enckeyz w) (authkeyz w)
    (last_seq w) (rxsessions w) (prngState w) (MyNodeID w) (assigned_keys w) (cur_tsparm w) (clock w) (learn_active w)
    (accepts w) (hw_random w) (outs w).
Definition set_aes_key (x : list Z) (w : S0) : S0 := mkS0 (tx_sessions w) (networkKey w) (nonce_blacklist w)
    (blacklist_next_elem w) x (aes_iv w) (nonce_table w) (nonce_timer w) (enckey w) (authkey w) (enckeyz w)
    (authkeyz w) (last_seq w) (rxsessions w) (prngState w) (MyNodeID w) (assigned_keys w) (cur_tsparm w) (clock w)
    (learn_active w) (accepts w) (hw_random w) (outs w).
Definition set_aes_iv (x : list Z) (w : S0) : S0 := mkS0 (tx_sessions w) (networkKey w) (nonce_blacklist w)
    (blacklist_next_elem w) (aes_key w) x (nonce_table w) (nonce_timer w) (enckey w) (authkey w) (enckeyz w)
    (authkeyz w) (last_seq w) (rxsessions w) (prngState w) (MyNodeID w) (assigned_keys w) (cur_tsparm w) (clock w)
    (learn_active w) (accepts w) (hw_random w) (outs w).
Definition set_nonce_table (x : list nonce_t) (w : S0) : S0 := mkS0 (tx_sessions w) (networkKey w) (nonce_blacklist w)
    (blacklist_next_elem w) (aes_key w) (aes_iv w) x (nonce_timer w) (enckey w) (authkey w) (enckeyz w) (authkeyz w)
    (last_seq w) (rxsessions w) (prngState w) (MyNodeID w) (assigned_keys w) (cur_tsparm w) (clock w) (learn_active w)
    (accepts w) (hw_random w) (outs w).
Definition set_nonce_timer (x : option Z) (w : S0) : S0 := mkS0 (tx_sessions w) (networkKey w) (nonce_blacklist w)
    (blacklist_next_elem w) (aes_key w) (aes_iv w) (nonce_table w) x (enckey w) (authkey w) (enckeyz w) (authkeyz w)
    (last_seq w) (rxsessions w) (prngState w) (MyNodeID w) (assigned_keys w) (cur_tsparm w) (clock w) (learn_active w)
    (accepts w) (hw_random w) (outs w).
Definition set_enckey (x : list Z) (w : S0) : S0 := mkS0 (tx_sessions w) (networkKey w) (nonce_blacklist w)
    (blacklist_next_elem w) (aes_key w) (aes_iv w) (nonce_table w) (nonce_timer w) x (authkey w) (enckeyz w)
    (authkeyz w) (last_seq w) (rxsessions w) (prngState w) (MyNodeID w) (assigned_keys w) (cur_tsparm w) (clock w)
    (learn_active w) (accepts w) (hw_random w) (outs w).
Definition set_authkey (x : list Z) (w : S0) : S0 := mkS0 (tx_sessions w) (networkKey w) (nonce_blacklist w)
    (blacklist_next_elem w) (aes_key w) (aes_iv w) (nonce_table w) (nonce_timer w) (enckey w) x (enckeyz w)
    (authkeyz w) (last_seq w) (rxsessions w) (prngState w) (MyNodeID w) (assigned_keys w) (cur_tsparm w) (clock w)
    (learn_active w) (accepts w) (hw_random w) (outs w).
Definition set_enckeyz (x : list Z) (w : S0) : S0 := mkS0 (tx_sessions w) (networkKey w) (nonce_blacklist w)
    (blacklist_next_elem w) (aes_key w) (aes_iv w) (nonce_table w) (nonce_timer w) (enckey w) (authkey w) x
    (authkeyz w) (last_seq w) (rxsessions w) (prngState w) (MyNodeID w) (assigned_keys w) (cur_tsparm w) (clock w)
    (learn_active w) (accepts w) (hw_random w) (outs w).
Definition set_authkeyz (x : list Z) (w : S0) : S0 := mkS0 (tx_sessions w) (networkKey w) (nonce_blacklist w)
    (blacklist_next_elem w) (aes_key w) (aes_iv w) (nonce_table w) (nonce_timer w) (enckey w) (authkey w) (enckeyz w)
    x (last_seq w) (rxsessions w) (prngState w) (MyNodeID w) (assigned_keys w) (cur_tsparm w) (clock w)
    (learn_active w) (accepts w) (hw_random w) (outs w).
Definition set_last_seq (x : Z) (w : S0) : S0 := mkS0 (tx_sessions w) (networkKey w) (nonce_blacklist w)
    (blacklist_next_elem w) (aes_key w) (aes_iv w) (nonce_table w) (nonce_timer w) (enckey w) (authkey w) (enckeyz w)
    (authkeyz w) x (rxsessions w) (prngState w) (MyNodeID w) (assigned_keys w) (cur_tsparm w) (clock w)
    (learn_active w) (accepts w) (hw_random w) (outs w).
Definition set_rxsessions (x : list rx_session_t) (w : S0) : S0 := mkS0 (tx_sessions w) (networkKey w)
    (nonce_blacklist w) (blacklist_next_elem w) (aes_key w) (aes_iv w) (nonce_table w) (nonce_timer w) (enckey w)
    (authkey w) (enckeyz w) (authkeyz w) (last_seq w) x (prngState w) (MyNodeID w) (assigned_keys w) (cur_tsparm w)
    (clock w) (learn_active w) (accepts w) (hw_random w) (outs w).
Definition set_prngState (x : list Z) (w : S0) : S0 := mkS0 (tx_sessions w) (networkKey w) (nonce_blacklist w)
    (blacklist_next_elem w) (aes_key w) (aes_iv w) (nonce_table w) (nonce_timer w) (enckey w) (authkey w) (enckeyz w)
    (authkeyz w) (last_seq w) (rxsessions w) x (MyNodeID w) (assigned_keys w) (cur_tsparm w) (clock w)
    (learn_active w) (accepts w) (hw_random w) (outs w).
Definition set_MyNodeID (x : Z) (w : S0) : S0 := mkS0 (tx_sessions w) (networkKey w) (nonce_blacklist w)
    (blacklist_next_elem w) (aes_key w) (aes_iv w) (nonce_table w) (nonce_timer w) (enckey w) (authkey w) (enckeyz w)
    (authkeyz w) (last_seq w) (rxsessions w) (prngState w) x (assigned_keys w) (cur_tsparm w) (clock w)
    (learn_active w) (accepts w) (hw_random w) (outs w).
Definition set_assigned_keys (x : Z) (w : S0) : S0 := mkS0 (tx_sessions w) (networkKey w) (nonce_blacklist w)
    (blacklist_next_elem w) (aes_key w) (aes_iv w) (nonce_table w) (nonce_timer w) (enckey w) (authkey w) (enckeyz w)
    (authkeyz w) (last_seq w) (rxsessions w) (prngState w) (MyNodeID w) x (cur_tsparm w) (clock w) (learn_active w)
    (accepts w) (hw_random w) (outs w).
Definition set_cur_tsparm (x : ts_param_t) (w : S0) : S0 := mkS0 (tx_sessions w) (networkKey w) (nonce_blacklist w)
    (blacklist_next_elem w) (aes_key w) (aes_iv w) (nonce_table w) (nonce_timer w) (enckey w) (authkey w) (enckeyz w)
    (authkeyz w) (last_seq w) (rxsessions w) (prngState w) (MyNodeID w) (assigned_keys w) x (clock w) (learn_active w)
    (accepts w) (hw_random w) (outs w).
Definition set_clock (x : Z) (w : S0) : S0 := mkS0 (tx_sessions w) (networkKey w) (nonce_blacklist w)
    (blacklist_next_elem w) (aes_key w) (aes_iv w) (nonce_table w) (nonce_timer w) (enckey w) (authkey w) (enckeyz w)
    (authkeyz w) (last_seq w) (rxsessions w) (prngState w) (MyNodeID w) (assigned_keys w) (cur_tsparm w) x
    (learn_active w) (accepts w) (hw_random w) (outs w).
Definition set_learn_active (x : bool) (w : S0) : S0 := mkS0 (tx_sessions w) (networkKey w) (nonce_blacklist w)
    (blacklist_next_elem w) (aes_key w) (aes_iv w) (nonce_table w) (nonce_timer w) (enckey w) (authkey w) (enckeyz w)
    (authkeyz w) (last_seq w) (rxsessions w) (prngState w) (MyNodeID w) (assigned_keys w) (cur_tsparm w) (clock w) x
    (accepts w) (hw_random w) (outs w).
Definition set_accepts (x : list bool) (w : S0) : S0 := mkS0 (tx_sessions w) (networkKey w) (nonce_blacklist w)
    (blacklist_next_elem w) (aes_key w) (aes_iv w) (nonce_table w) (nonce_timer w) (enckey w) (authkey w) (enckeyz w)
    (authkeyz w) (last_seq w) (rxsessions w) (prngState w) (MyNodeID w) (assigned_keys w) (cur_tsparm w) (clock w)
    (learn_active w) x (hw_random w) (outs w).
Definition set_hw_random (x : list (list Z)) (w : S0) : S0 := mkS0 (tx_sessions w) (networkKey w) (nonce_blacklist w)
    (blacklist_next_elem w) (aes_key w) (aes_iv w) (nonce_table w) (nonce_timer w) (enckey w) (authkey w) (enckeyz w)
    (authkeyz w) (last_seq w) (rxsessions w) (prngState w) (MyNodeID w) (assigned_keys w) (cur_tsparm w) (clock w)
    (learn_active w) (accepts w) x (outs w).
Definition set_outs (x : list out) (w : S0) : S0 := mkS0 (tx_sessions w) (networkKey w) (nonce_blacklist w)
    (blacklist_next_elem w) (aes_key w) (aes_iv w) (nonce_table w) (nonce_timer w) (enckey w) (authkey w) (enckeyz w)
    (authkeyz w) (last_seq w) (rxsessions w) (prngState w) (MyNodeID w) (assigned_keys w) (cur_tsparm w) (clock w)
    (learn_active w) (accepts w) (hw_random w) x.

Abbreviation SM := (Eff S0).

Definition emit (o : out) : SM unit := modify (fun w => set_outs (o :: outs w) w).
Definition mod_tx (i : nat) (f : sec_tx_session -> sec_tx_session) : SM unit :=
  modify (fun w => set_tx_sessions (alter f i (tx_sessions w)) w).
Definition mod_rx (i : nat) (f : rx_session_t -> rx_session_t) : SM unit :=
  modify (fun w => set_rxsessions (alter f i (rxsessions w)) w).
Definition get_tx (i : nat) : SM sec_tx_session := w ← get; rd (tx_sessions w) (Z.of_nat i).
Definition get_rx (i : nat) : SM rx_session_t := w ← get; rd (rxsessions w) (Z.of_nat i).

(** [memcpy] with a length computed in [int]: a negative one is huge as a [size_t]. *)
Definition rdz (l : list Z) (off : nat) (n : Z) : SM (list Z) := if n <? 0 then fail OutOfBounds else rds l off (Z.to_nat n).

(** The index of the first entry with a property. *)
Fixpoint first_index {A} (f : A -> bool) (l : list A) : option nat :=
  match l with
  | [] => None
  | x :: l => if f x then Some 0%nat else S <$> first_index f l
  end.

(** The radio: a frame it takes is recorded. *)
Definition next_accept : SM bool := fun w =>
  match accepts w with
  | [] => Ok (true, w)
  | b :: l => Ok (b, set_accepts l w)
  end.

Definition send_data (p : ts_param_t) (frame : list Z) (cb : option tx_callback) : SM bool :=
  ret ← next_accept;
  (if ret : bool then emit (SendData p frame cb) else mret tt);;
  mret ret.

Section Cipher.
Context {C : BlockCipher}.

(** ** The random generator (ZW_PRNG.c) *)

Definition SerialAPI_GetRandom : SM (list Z) := fun w =>
  match hw_random w with
  | [] => Ok (replicate 8 0, w)
  | r :: l => Ok (r, set_hw_random l w)
  end.

(** Eight bytes at a time. *)
Fixpoint GetRNGData (blocks : nat) : SM (list Z) :=
  match blocks with
  | O => mret []
  | S n => r ← SerialAPI_GetRandom; l ← GetRNGData n; mret (r ++ l)
  end.

Definition AESRaw (pKey pSrc : list Z) : list Z := block_encrypt pSrc pKey.

Definition PRNGUpdate : SM unit :=
  let h := replicate 16 0xA5 in
  k ← GetRNGData 2;
  let h := AESRaw k h ⊕ h in
  k ← GetRNGData 2;
  let h := AESRaw k h ⊕ h in
  modify (fun w => set_prngState (prngState w ⊕ h) w);;
  modify (fun w => set_prngState (AESRaw (prngState w) (replicate 16 0x36)) w).

Definition InitPRNG : SM unit := modify (set_prngState (replicate 16 0));; PRNGUpdate.

Definition PRNGOutput : SM (list Z) :=
  w ← get;
  modify (fun w => set_prngState (AESRaw (prngState w) (replicate 16 0x36)) w);;
  mret (take 8 (AESRaw (prngState w) (replicate 16 0x5C))).

(** ** Cipher modes *)

Definition aes_encrypt (input : list Z) : SM (list Z) := w ← get; mret (block_encrypt input (aes_key w)).

Definition aes_set_key_tpt (key iv : list Z) : SM unit := modify (fun w => set_aes_iv iv (set_aes_key key w)).

(** The loop of [aes_ofb] from index [i] on. *)
Fixpoint ofb_loop (data : list Z) (i : Z) : SM (list Z) :=
  match data with
  | [] => mret []
  | b :: data =>
      (if Z.land i 0xF =? 0 then w ← get; iv ← aes_encrypt (aes_iv w); modify (set_aes_iv iv) else mret tt);;
      w ← get;
      k ← rd (aes_iv w) (Z.land i 0xF);
      rest ← ofb_loop data (u8 (i + 1));
      mret (Z.lxor b k :: rest)
  end.

Definition aes_ofb (data : list Z) : SM (list Z) := ofb_loop data 0.

Fixpoint mac_loop (data : list Z) (i : Z) (mac : list Z) : SM (list Z) :=
  match data with
  | [] => mret mac
  | b :: data =>
      m ← rd mac (Z.land i 0xF);
      mac ← wr mac (Z.land i 0xF) (Z.lxor m b);
      mac ← (if Z.land i 0xF =? 0xF then aes_encrypt mac else mret mac);
      mac_loop data (u8 (i + 1)) mac
  end.

Definition aes_cbc_mac (data : list Z) : SM (list Z) :=
  w ← get;
  mac ← aes_encrypt (aes_iv w);
  mac ← mac_loop data 0 mac;
  if has_bits (Z.of_nat (length data)) 0xF then aes_encrypt mac else mret mac.

Definition aes_random8 : SM (list Z) := PRNGOutput.

(** ** Nonces *)

Definition sec0_is_nonce_blacklisted (src dst : Z) (nonce : list Z) (w : S0) : bool :=
  existsb (fun e => in_use e && bool_decide (b_nonce e = nonce) && (b_src e =? src) && (b_dst e =? dst)) (nonce_blacklist w).

Definition sec0_blacklist_add_nonce (src dst : Z) (nonce : list Z) : SM unit :=
  w ← get;
  l ← wr (nonce_blacklist w) (blacklist_next_elem w) (mkBlack nonce src dst true);
  modify (set_nonce_blacklist l);;
  modify (fun w => set_blacklist_next_elem ((blacklist_next_elem w + 1) mod Z.of_nat NONCE_BLACKLIST_SIZE) w).

(** A live nonce from [src] to [dst]. *)
Definition live (src dst : Z) (e : nonce_t) : bool := (0 <? timeout e) && (n_src e =? src) && (n_dst e =? dst).

(** Entry [i] of the table takes a new nonce. *)
Definition refresh (new : list Z) (e : nonce_t) : nonce_t := set_timeout NONCE_TIMEOUT (set_nonce new e).

Definition register_nonce (src dst : Z) (reply : bool) (new : list Z) : SM bool :=
  w ← get;
  let t := nonce_table w in
  match (if reply then first_index (fun e => reply_nonce e && live src dst e) t else None) with
  | Some i => modify (set_nonce_table (alter (refresh new) i t));; mret true
  | None =>
      match first_index (fun e => timeout e =? 0) t with
      | Some i => modify (set_nonce_table (<[i := mkNonce src dst NONCE_TIMEOUT reply new]> t));; mret true
      | None => mret false
      end
  end.

Definition get_nonce (src dst ri : Z) (any_nonce : bool) (w : S0) : option (list Z) :=
  nonce <$> List.find (fun e => live src dst e && (any_nonce || (at_ (nonce e) 0 =? ri))) (nonce_table w).

Definition nonce_clear (src dst : Z) : SM unit :=
  modify (fun w => set_nonce_table ((fun e => if live src dst e then set_timeout 0 e else e) <$> nonce_table w) w).

Definition nonce_timer_timeout : SM unit :=
  modify (fun w => set_nonce_table ((fun e => if 0 <? timeout e then set_timeout (timeout e - 1) e else e) <$> nonce_table w) w);;
  modify (set_nonce_timer (Some 1000)).

(** A random nonce whose first byte identifies it among those from [src] to [dst]. *)
Fixpoint fresh_loop (fuel : nat) (src dst : Z) : SM (list Z) :=
  match fuel with
  | O => fail OutOfFuel
  | S fuel =>
      iv ← aes_random8;
      w ← get;
      match get_nonce src dst (at_ iv 0) false w with
      | Some _ => fresh_loop fuel src dst
      | None => mret iv
      end
  end.
Definition DRAWS : nat := 256.
Definition fresh (src dst : Z) : SM (list Z) := fresh_loop DRAWS src dst.

(** ** Sending *)

Definition sec0_set_key (netkey : list Z) : SM unit :=
  modify (set_aes_key netkey);;
  k ← aes_encrypt (replicate 16 0x55); modify (set_authkey k);;
  k ← aes_encrypt (replicate 16 0xAA); modify (set_enckey k);;
  modify (set_aes_key (replicate 16 0));;
  k ← aes_encrypt (replicate 16 0x55); modify (set_authkeyz k);;
  k ← aes_encrypt (replicate 16 0xAA); modify (set_enckeyz k).

Definition get_tx_session_by_node (sn dn : Z) (w : S0) : option nat :=
  first_index (fun s => (dnode (param s) =? dn) && (snode (param s) =? sn)) (tx_sessions w).

Definition get_node_max_frame_size (dn : Z) : Z := 46.

(** [s->data[0] == COMMAND_CLASS_SECURITY && s->data[1] == NETWORK_KEY_SET] *)
Definition is_key_set (data : list Z) : SM bool :=
  b0 ← rd data 0;
  if b0 =? COMMAND_CLASS_SECURITY then b1 ← rd data 1; mret (b1 =? NETWORK_KEY_SET) else mret false.

(** The flags byte in front of the payload. *)
Definition seq_flags (pass2 more_to_send : bool) (sq : Z) : Z :=
  if pass2 then
    Z.lor (Z.lor SECURITY_MESSAGE_ENCAPSULATION_PROPERTIES1_SEQUENCED_BIT_MASK
             SECURITY_MESSAGE_ENCAPSULATION_PROPERTIES1_SECOND_FRAME_BIT_MASK) (Z.land sq 0xF)
  else if more_to_send then Z.lor SECURITY_MESSAGE_ENCAPSULATION_PROPERTIES1_SEQUENCED_BIT_MASK (Z.land sq 0xF)
  else 0.

Definition encrypt_msg (i : nat) (pass2 : bool) : SM Z :=
  s ← get_tx i;
  let d := u8 (dnode (param s)) in
  let n := u8 (snode (param s)) in
  let maxlen := get_node_max_frame_size d in
  let more_to_send := maxlen <? data_len s + 20 in
  let len := if more_to_send then maxlen - 20 else data_len s in
  assert (len + 20 <=? Z.of_nat CRYPTED_MSG_SIZE);;
  iv ← fresh d n;
  w ← get;
  match get_nonce d n 0 true w with
  | None => mret 0
  | Some rn =>
      nonce_clear d n;;
      register_nonce n d true iv;;
      let iv := iv ++ rn in
      payload ← rds (data s) 0 (Z.to_nat len);
      c ← wrs (crypted_msg s) 10 (seq_flags pass2 more_to_send (seq s) :: payload);
      zkey ← is_key_set (data s);
      w ← get;
      aes_set_key_tpt (if zkey : bool then enckeyz w else enckey w) iv;;
      pl ← rds c 10 (Z.to_nat (len + 1));
      enc ← aes_ofb pl;
      c ← wrs c 10 enc;
      let sh := if more_to_send then SECURITY_MESSAGE_ENCAPSULATION_NONCE_GET else SECURITY_MESSAGE_ENCAPSULATION in
      c ← wrs c 6 [sh; n; d; len + 1];
      aes_set_key_tpt (if zkey : bool then authkeyz w else authkey w) iv;;
      auth ← rds c 6 (Z.to_nat (4 + len + 1));
      mac ← aes_cbc_mac auth;
      c ← wrs c 0 ([COMMAND_CLASS_SECURITY; sh] ++ take 8 iv);
      c ← wrs c (Z.to_nat (2 + 8 + len + 1)) (at_ iv 8 :: take 8 mac);
      mod_tx i (fun s => set_data_len (data_len s - len) (set_data (drop (Z.to_nat len) (data s)) (set_crypted_msg c s)));;
      mret (len + 20)
  end.

(** The end of a session: TX_DONE or TX_FAIL. *)
Definition session_over (i : nat) (st : tx_state_t) : SM unit :=
  w ← get;
  mod_tx i (fun s => set_transition_time (clock w) (set_state st s));;
  mod_tx i (fun s => set_timer None (set_param (Transport.mkParam (snode (param s)) 0 (Transport.sendpoint (param s))
      (Transport.dendpoint (param s)) (Transport.tx_flags (param s)) (Transport.rx_flags (param s)) (Transport.scheme (param s))) s));;
  s ← get_tx i;
  match callback s with
  | Some f => emit (if bool_decide (st = TX_DONE) then Callback f (user s) TRANSMIT_COMPLETE_OK (tx_ext_status s)
                    else Callback f (user s) (tx_code s) None)
  | None => mret tt
  end;;
  mod_tx i (set_tx_ext_status None).

Definition session_failed (i : nat) : SM unit :=
  mod_tx i (set_tx_code TRANSMIT_COMPLETE_FAIL);; session_over i TX_FAIL.

(** The encrypted frame of a session. *)
Definition send_encrypted (i : nat) (pass2 : bool) (cb : tx_callback) : SM unit :=
  mod_tx i (set_timer None);;
  len ← encrypt_msg i pass2;
  if len =? 0 then session_failed i
  else
    s ← get_tx i;
    frame ← rds (crypted_msg s) 0 (Z.to_nat len);
    ok ← send_data (param s) frame (Some cb);
    if ok : bool then mret tt else session_failed i.

Definition tx_session_state_set (i : nat) (st : tx_state_t) : SM unit :=
  w ← get;
  let now := clock w in
  let enter := mod_tx i (fun s => set_transition_time now (set_state st s)) in
  match st with
  | NONCE_GET =>
      enter;;
      s ← get_tx i;
      ok ← send_data (param s) [COMMAND_CLASS_SECURITY; SECURITY_NONCE_GET] (Some (noce_get_cb i));
      if negb ok then session_failed i
      else if learn_active w then mod_tx i (set_timer (Some 10000)) else mret tt
  | NONCE_GET_SENT =>
      enter;;
      if learn_active w then mret tt else mod_tx i (set_timer (Some (NONCE_REQUEST_TIMEOUT_MSEC + now - now)))
  | ENC_MSG => enter;; send_encrypted i false (msg1_cb i)
  | ENC_MSG_SENT =>
      enter;;
      s ← get_tx i;
      if data_len s =? 0 then session_over i TX_DONE
      else mod_tx i (set_timer (Some (NONCE_REQUEST_TIMEOUT_MSEC + now - now)))
  | ENC_MSG2 => enter;; send_encrypted i true (msg2_cb i)
  | ENC_MSG2_SENT => enter;; session_over i TX_DONE
  | TX_DONE | TX_FAIL => session_over i st
  end.

Definition tx_timeout (i : nat) : SM unit := mod_tx i (set_tx_code TRANSMIT_COMPLETE_FAIL);; tx_session_state_set i TX_FAIL.

(** Callbacks of the radio. *)
Definition noce_get_callback (i : nat) (status : Z) (t : TX_STATUS_TYPE) : SM unit :=
  mod_tx i (set_tx_code status);;
  s ← get_tx i;
  if bool_decide (state s = NONCE_GET)
  then tx_session_state_set i (if status =? TRANSMIT_COMPLETE_OK then NONCE_GET_SENT else TX_FAIL)
  else mret tt.

(** [msg1_callback] and [msg2_callback], which differ in the states. *)
Definition msg_callback (sent next : tx_state_t) (i : nat) (status : Z) (t : TX_STATUS_TYPE) : SM unit :=
  s ← get_tx i;
  if bool_decide (state s = sent) then
    mod_tx i (set_tx_code status);;
    (if (status =? TRANSMIT_COMPLETE_OK) && bool_decide (is_Some t) then mod_tx i (set_tx_ext_status t) else mret tt);;
    tx_session_state_set i (if status =? TRANSMIT_COMPLETE_OK then next else TX_FAIL)
  else mret tt.

Definition msg1_callback := msg_callback ENC_MSG ENC_MSG_SENT.
Definition msg2_callback := msg_callback ENC_MSG2 ENC_MSG2_SENT.

Definition get_seq : SM Z := w ← get; modify (set_last_seq (u8 (last_seq w + 1)));; mret (u8 (last_seq w + 1)).

Definition sec0_send_data (p : ts_param_t) (dat : list Z) (len cb usr : Z) : SM bool :=
  w ← get;
  match get_tx_session_by_node (u8 (snode p)) (u8 (dnode p)) w with
  | Some _ => mret false
  | None =>
      match first_index (fun s => dnode (param s) =? 0) (tx_sessions w) with
      | None => mret false
      | Some i =>
          mod_tx i (fun s => set_user usr (set_callback (Some cb) (set_data_len len (set_data dat (set_param p s)))));;
          sq ← get_seq;
          mod_tx i (set_seq sq);;
          tx_session_state_set i NONCE_GET;;
          mret true
      end
  end.

Definition sec0_register_nonce (src dst : Z) (new : list Z) : SM unit :=
  w ← get;
  if sec0_is_nonce_blacklisted src dst new w then mret tt
  else
    match get_tx_session_by_node dst src w with
    | None => mret tt
    | Some i =>
        _ ← register_nonce src dst false new;
        sec0_blacklist_add_nonce src dst new;;
        s ← get_tx i;
        match state s with
        | NONCE_GET_SENT | NONCE_GET => tx_session_state_set i ENC_MSG
        | ENC_MSG_SENT => tx_session_state_set i ENC_MSG2
        | ENC_MSG => if 0 <? data_len s then tx_session_state_set i ENC_MSG2 else mret tt
        | _ => mret tt
        end
    end.

(** ** Receiving *)

Definition is_free (now : Z) (e : rx_session_t) : bool := bool_decide (r_state e = RX_SESSION_DONE) || (r_timeout e <? now).

Definition new_rx_session (sn dn : Z) : SM (option nat) :=
  w ← get;
  match first_index (is_free (clock w)) (rxsessions w) with
  | Some i =>
      mod_rx i (fun e => set_r_timeout (clock w + CLOCK_SECOND * 10) (set_r_dnode dn (set_r_snode sn e)));;
      mret (Some i)
  | None => mret None
  end.

Definition free_rx_session (i : nat) : SM unit := mod_rx i (set_r_state RX_SESSION_DONE).

Definition get_rx_session_by_nodes (sn dn : Z) (w : S0) : option nat :=
  first_index (fun e => negb (is_free (clock w) e) && (r_dnode e =? dn) && (r_snode e =? sn)) (rxsessions w).

Definition zero_tx : sec_tx_session :=
  mkTx Transport.zero_param [] 0 NONCE_GET 0 0 None (replicate CRYPTED_MSG_SIZE 0) 0 0 None None.
Definition zero_black : nonce_blacklist_t := mkBlack (replicate RECEIVERS_NONCE_SIZE 0) 0 0 false.

Definition sec0_init : SM unit :=
  modify (fun w => set_rxsessions (set_r_state RX_SESSION_DONE <$> rxsessions w) w);;
  modify (fun w => set_tx_sessions ((fun _ => zero_tx) <$> tx_sessions w) w);;
  modify (fun w => set_nonce_blacklist ((fun _ => zero_black) <$> nonce_blacklist w) w);;
  modify (set_blacklist_next_elem 0);;
  modify (set_nonce_timer (Some 1000)).

(** Session [i] of the loop, and the loop. *)
Definition abort_one (i : nat) : SM unit :=
  s ← get_tx i;
  if dnode (param s) =? 0 then mret tt
  else mod_tx i (set_tx_code TRANSMIT_COMPLETE_FAIL);; tx_session_state_set i TX_FAIL.
Definition sec0_abort_all_tx_sessions : SM unit := abort_one 0;; abort_one 1.

(** [ts_param_make_reply]; the scheme it selects is not looked at on the way to the radio. *)
Definition ts_param_make_reply (select : ts_param_t -> Z) (src : ts_param_t) : ts_param_t :=
  Transport.mkParam (dnode src) (snode src) (Transport.dendpoint src) (Transport.sendpoint src)
    (Z.lor (Z.lor (Z.lor (if has_bits (Transport.rx_flags src) RECEIVE_STATUS_LOW_POWER then TRANSMIT_OPTION_LOW_POWER else 0)
       Transport.TRANSMIT_OPTION_ACK) Transport.TRANSMIT_OPTION_EXPLORE) Transport.TRANSMIT_OPTION_AUTO_ROUTE) 0 (select src).

Definition sec0_send_nonce (select : ts_param_t -> Z) (src : ts_param_t) : SM unit :=
  n ← fresh (u8 (dnode src)) (u8 (snode src));
  ok ← send_data (ts_param_make_reply select src) ([COMMAND_CLASS_SECURITY; SECURITY_NONCE_REPORT] ++ n) None;
  if ok : bool then _ ← register_nonce (u8 (dnode src)) (u8 (snode src)) false n; mret tt else mret tt.

(** The receive session of a pair of nodes. *)
Definition rx_session_for (sn dn : Z) : SM (option nat) :=
  w ← get;
  match get_rx_session_by_nodes sn dn w with
  | Some i => mret (Some i)
  | None =>
      new ← new_rx_session sn dn;
      match new with
      | Some i => mod_rx i (set_r_state RX_INIT);; mret (Some i)
      | None => mret None
      end
  end.

(** What is done with the decrypted payload, the flags byte first. *)
Definition assemble (i : nat) (enc_data : list Z) (enc_data_length : Z) (dec_message : list Z) : SM (Z * list Z) :=
  flags ← rd enc_data 10;
  if has_bits flags SECURITY_MESSAGE_ENCAPSULATION_PROPERTIES1_SEQUENCED_BIT_MASK then
    if negb (has_bits flags SECURITY_MESSAGE_ENCAPSULATION_PROPERTIES1_SECOND_FRAME_BIT_MASK) then
      mod_rx i (fun e => set_r_state RX_ENC1 (set_msg_len (u8 (enc_data_length - 20)) (set_seq_nr (Z.land flags 0xF) e)));;
      e ← get_rx i;
      bs ← rds enc_data 11 (Z.to_nat (msg_len e));
      m ← wrs (msg e) 0 bs;
      mod_rx i (set_msg m);;
      mret (0, dec_message)
    else
      e ← get_rx i;
      if negb (bool_decide (r_state e = RX_ENC1)) || negb (Z.land flags 0xF =? seq_nr e) then mret (0, dec_message)
      else
        mod_rx i (set_r_state RX_ENC2);;
        bs ← rds (msg e) 0 (Z.to_nat (msg_len e));
        d ← wrs dec_message 0 bs;
        bs ← rdz enc_data 11 (enc_data_length - 20);
        d ← wrs d (Z.to_nat (msg_len e)) bs;
        free_rx_session i;;
        mret (u8 (msg_len e + enc_data_length - 20), d)
  else
    bs ← rdz enc_data 11 (enc_data_length - 20);
    d ← wrs dec_message 0 bs;
    free_rx_session i;;
    mret (u8 (enc_data_length - 20), d).

(** The length of the message, its buffer, and the frame, which is decrypted in place. *)
Definition sec0_decrypt_message (sn dn : Z) (enc_data : list Z) (enc_data_length : Z) (dec_message : list Z) : SM (Z * list Z * list Z) :=
  if enc_data_length <? 19 then mret (0, dec_message, enc_data)
  else
    ri ← rd enc_data (enc_data_length - 9);
    iv ← rds enc_data 2 8;
    w ← get;
    match get_nonce dn sn ri false w with
    | None => mret (0, dec_message, enc_data)
    | Some rn =>
        nonce_clear dn sn;;
        let iv := iv ++ rn in
        session ← rx_session_for sn dn;
        match session with
        | None => mret (0, dec_message, enc_data)
        | Some i =>
            let payloadLength := u8 (enc_data_length - 19) in
            sh ← rd enc_data 1;
            pl ← rds enc_data 10 (Z.to_nat payloadLength);
            auth ← wrs dec_message 0 ([sh; sn; dn; payloadLength] ++ pl);
            w ← get;
            aes_set_key_tpt (authkey w) iv;;
            bs ← rds auth 0 (Z.to_nat (4 + payloadLength));
            mac ← aes_cbc_mac bs;
            tag ← rds enc_data (Z.to_nat (enc_data_length - 8)) 8;
            if negb (bool_decide (take 8 mac = tag)) then mret (0, auth, enc_data)
            else
              aes_set_key_tpt (enckey w) iv;;
              dec ← aes_ofb pl;
              enc_data ← wrs enc_data 10 dec;
              '(len, d) ← assemble i enc_data enc_data_length auth;
              mret (len, d, enc_data)
        end
    end.

Definition sec0_reset_netkey : SM unit :=
  a ← aes_random8;
  b ← aes_random8;
  modify (set_networkKey (a ++ b));;
  emit (NvmSetNetkey (a ++ b)).

(** ** The command handler (security_layer.c) *)

(** What the rest of the gateway knows: the scheme it would select for a reply, the states of the
    inclusion other than idle, and the flags of the nodes. *)
Record Host := mkHost {
  ZW_SendData_scheme_select : ts_param_t -> Z;
  in_scheme_report : bool;
  in_scheme_request : bool;
  isNodeBad : Z -> bool;
  isNodeSecure : Z -> bool
}.

Definition secure_learnIfaceI_register_scheme (node scheme : Z) : SM unit :=
  if has_bits scheme SECURITY_SCHEME_0_BIT then emit (SetCacheEntryFlagMasked node NODE_FLAG_SECURITY0 NODE_FLAG_SECURITY0)
  else emit (SetCacheEntryFlagMasked node 0 NODE_FLAG_SECURITY0).

Definition with_scheme (p : ts_param_t) (s : Z) : ts_param_t :=
  Transport.mkParam (snode p) (dnode p) (Transport.sendpoint p) (Transport.dendpoint p) (Transport.tx_flags p) (Transport.rx_flags p) s.

(** An encapsulated message. *)
Definition message_encapsulation (h : Host) (p : ts_param_t) (pCmd : list Z) (cmdLength cmd : Z) : SM unit :=
  w ← get;
  if negb (learn_active w) && (isNodeBad h (dnode p) || isNodeBad h (snode p)) then mret tt
  else
    '(len, rxBuffer, _) ← sec0_decrypt_message (u8 (snode p)) (u8 (dnode p)) pCmd cmdLength (replicate RXBUFFER_SIZE 0);
    p ← (if len =? 0 then mret p
         else
           (if isNodeSecure h (snode p) then mret tt
            else secure_learnIfaceI_register_scheme (snode p) (Z.shiftl 1 SECURITY_SCHEME_0));;
           bs ← rds rxBuffer 0 (Z.to_nat len);
           emit (ApplicationCommandHandlerZIP (with_scheme p SECURITY_SCHEME_0) bs);;
           mret (with_scheme p SECURITY_SCHEME_0));
    if cmd =? SECURITY_MESSAGE_ENCAPSULATION_NONCE_GET then sec0_send_nonce (ZW_SendData_scheme_select h) p else mret tt.

(** [pCmd] is the memory from the frame on, [cmdLength] its length. *)
Definition security_CommandHandler (h : Host) (p : ts_param_t) (pCmd : list Z) (cmdLength : Z) : SM unit :=
  let txOption := Z.lor (Z.lor (if has_bits (Transport.rx_flags p) RECEIVE_STATUS_LOW_POWER then TRANSMIT_OPTION_LOW_POWER else 0)
                    Transport.TRANSMIT_OPTION_ACK) Transport.TRANSMIT_OPTION_EXPLORE in
  let s0 := Transport.scheme p =? SECURITY_SCHEME_0 in
  w ← get;
  cls ← rd pCmd 0;
  if negb (cls =? COMMAND_CLASS_SECURITY) && negb (dnode p =? MyNodeID w) then mret tt
  else if negb (learn_active w) && (Z.land (assigned_keys w) KEY_CLASS_S0 <=? 0) then mret tt
  else
    cmd ← rd pCmd 1;
    if cmd =? NETWORK_KEY_SET then
      if s0 && in_scheme_report h && (sizeof_network_key_set_1byte + 15 <=? cmdLength) then
        key ← rds pCmd 2 16;
        modify (set_networkKey key);;
        sec0_set_key key;;
        emit (Learn (set_txOptions txOption));;
        emit (Learn (raise_key_set (snode p)))
      else mret tt
    else if cmd =? SECURITY_SCHEME_GET then
      emit NetworkManagement_s0_started;;
      modify (set_MyNodeID (dnode p));;
      if (Transport.scheme p =? NO_SCHEME) && (sizeof_scheme_frame <=? cmdLength) then
        b ← rd pCmd 2;
        emit (Learn (set_scheme (Z.lor (Z.land b 0xFE) 0x1)));;
        emit (Learn (set_txOptions txOption));;
        emit (Learn (raise_scheme_get (snode p)))
      else mret tt
    else if cmd =? SECURITY_SCHEME_INHERIT then
      if s0 && (sizeof_scheme_frame <=? cmdLength) then
        b ← rd pCmd 2;
        if has_bits b SECURITY_SCHEME_0_BIT then mret tt
        else emit (Learn (set_txOptions txOption));; emit (Learn (raise_scheme_inherit (snode p)))
      else mret tt
    else if cmd =? SECURITY_SCHEME_REPORT then
      if (s0 || in_scheme_request h) && (sizeof_scheme_frame <=? cmdLength) then
        b ← rd pCmd 2;
        emit (Learn (set_scheme (Z.lor (Z.land b 0xFE) 0x1)));;
        emit (Learn (raise_scheme_report (snode p)))
      else mret tt
    else if cmd =? NETWORK_KEY_VERIFY then
      if s0 then emit (Learn (raise_key_verify (snode p))) else mret tt
    else if cmd =? SECURITY_COMMANDS_SUPPORTED_GET then
      if s0 then
        modify (set_cur_tsparm (ts_param_make_reply (ZW_SendData_scheme_select h) p));;
        emit (Learn raise_commandsSupportedRequest)
      else mret tt
    else if cmd =? SECURITY_NONCE_GET then
      if Transport.scheme p =? NO_SCHEME then sec0_send_nonce (ZW_SendData_scheme_select h) p else mret tt
    else if cmd =? SECURITY_NONCE_REPORT then
      if (Transport.scheme p =? NO_SCHEME) && (sizeof_nonce_report <=? cmdLength) then
        n ← rds pCmd 2 8;
        sec0_register_nonce (u8 (snode p)) (u8 (dnode p)) n
      else mret tt
    else if (cmd =? SECURITY_MESSAGE_ENCAPSULATION_NONCE_GET) || (cmd =? SECURITY_MESSAGE_ENCAPSULATION) then
      message_encapsulation h p pCmd cmdLength cmd
    else mret tt.

End Cipher.

(** ** As the program starts *)

Definition zero_nonce : nonce_t := mkNonce 0 0 0 false (replicate 8 0).
Definition zero_rx : rx_session_t := mkRx 0 0 RX_INIT 0 (replicate MAX_ENCRYPTED_MSG_SIZE 0) 0 0.
Definition statics (node : Z) : S0 :=
  mkS0 (replicate NUM_TX_SESSIONS zero_tx) (replicate 16 0) (replicate NONCE_BLACKLIST_SIZE zero_black) 0 (replicate 16 0)
    (replicate 16 0) (replicate NONCE_TABLE_SIZE zero_nonce) None (replicate 16 0) (replicate 16 0) (replicate 16 0)
    (replicate 16 0) 0 (replicate MAX_RXSESSIONS zero_rx) (replicate 16 0) node KEY_CLASS_S0 Transport.zero_param 0 false [] [] [].

End Scheme0.
