(* ===== verification/Scheme0Spec.v ===== *)
(** * What security scheme 0 guarantees

    The two cipher modes computed byte by byte are output feedback mode and the CBC-MAC of the padded
    data; what the receiver accepts is authentic and accepted once; a message of up to 52 bytes sent
    by one node is delivered by the other. *)
From S2P Require Import Prelude Effects Transport Scheme0.
Import Effects Scheme0.

Module Scheme0Spec.

(** Projections of updated records. *)
Ltac s0_simpl := cbn [
    param data data_len state tx_code transition_time timer crypted_msg seq user callback tx_ext_status 
    n_src n_dst timeout reply_nonce nonce r_snode r_dnode r_state seq_nr msg msg_len r_timeout 
    tx_sessions networkKey nonce_blacklist blacklist_next_elem aes_key aes_iv nonce_table nonce_timer 
    enckey authkey enckeyz authkeyz last_seq rxsessions prngState MyNodeID assigned_keys cur_tsparm 
    clock learn_active accepts hw_random outs set_param set_data set_data_len set_state set_tx_code 
    set_transition_time set_timer set_crypted_msg set_seq set_user set_callback set_tx_ext_status 
    set_n_src set_n_dst set_timeout set_reply_nonce set_nonce set_r_snode set_r_dnode set_r_state 
    set_seq_nr set_msg set_msg_len set_r_timeout set_tx_sessions set_networkKey set_nonce_blacklist 
    set_blacklist_next_elem set_aes_key set_aes_iv set_nonce_table set_nonce_timer set_enckey 
    set_authkey set_enckeyz set_authkeyz set_last_seq set_rxsessions set_prngState set_MyNodeID 
    set_assigned_keys set_cur_tsparm set_clock set_learn_active set_accepts set_hw_random set_outs]; cbv beta.

(** The primitive steps at the head of a computation. *)
Section Steps.
Context {B : Type} (k : unit -> SM B) (Q : B -> S0 -> Prop) (R : unit -> S0 -> Prop) (w : S0).
Lemma step_mod_tx i f : wp (k tt) Q (set_tx_sessions (alter f i (tx_sessions w)) w) -> wp (mod_tx i f ≫= k) Q w.
Proof. done. Qed.
Lemma step_mod_rx i f : wp (k tt) Q (set_rxsessions (alter f i (rxsessions w)) w) -> wp (mod_rx i f ≫= k) Q w.
Proof. done. Qed.
Lemma step_emit_s0 o : wp (k tt) Q (set_outs (o :: outs w) w) -> wp (emit o ≫= k) Q w.
Proof. done. Qed.
Lemma end_mod_tx i f : R tt (set_tx_sessions (alter f i (tx_sessions w)) w) -> wp (mod_tx i f) R w.
Proof. done. Qed.
Lemma end_mod_rx i f : R tt (set_rxsessions (alter f i (rxsessions w)) w) -> wp (mod_rx i f) R w.
Proof. done. Qed.
Lemma end_emit_s0 o : R tt (set_outs (o :: outs w) w) -> wp (emit o) R w.
Proof. done. Qed.
End Steps.

Ltac s0_step :=
  lazymatch goal with
  | |- wp (mbind _ get) _ _ => apply step_get
  | |- wp (mbind _ (modify _)) _ _ => apply step_modify
  | |- wp (mbind _ (mret _)) _ _ => apply step_ret
  | |- wp (mbind _ (mod_tx _ _)) _ _ => apply step_mod_tx
  | |- wp (mbind _ (mod_rx _ _)) _ _ => apply step_mod_rx
  | |- wp (mbind _ (emit _)) _ _ => apply step_emit_s0
  | |- wp (mret _) _ _ => apply end_ret
  | |- wp (modify _) _ _ => apply end_modify
  | |- wp (mod_tx _ _) _ _ => apply end_mod_tx
  | |- wp (mod_rx _ _) _ _ => apply end_mod_rx
  | |- wp (emit _) _ _ => apply end_emit_s0
  end; cbv beta zeta.
Ltac s0 := cbv beta iota; s0_simpl; repeat (s0_step; s0_simpl; cbv iota).

Section Modes.
Context {C : BlockCipher} {HC : BlockCipherOk C}.

(** ** The modes, block by block *)

(** The key stream of output feedback mode. *)
Fixpoint keystream (blocks : nat) (k iv : list Z) : list Z :=
  match blocks with
  | O => []
  | S n => let o := block_encrypt iv k in o ++ keystream n k o
  end.

Definition ofb (k iv data : list Z) : list Z := data ⊕ keystream (S (length data / 16)) k iv.

(** The chaining of blocks, the last one padded with zeros. *)
Definition pad16 (l : list Z) : list Z := l ++ replicate (16 - length l) 0.

Fixpoint chain (blocks : nat) (k m data : list Z) : list Z :=
  match blocks with
  | O => m
  | S n => chain n k (block_encrypt (m ⊕ pad16 (take 16 data)) k) (drop 16 data)
  end.

Definition cbc_mac (k iv data : list Z) : list Z := chain ((length data + 15) / 16) k (block_encrypt iv k) data.

(** The low four bits of the loop index. *)
Lemma index_bits i : Z.land i 0xF = i mod 16.
Proof. change 0xF with (Z.ones 4). by rewrite Z.land_ones by lia. Qed.

Lemma index_step i : 0 <= i -> u8 (i + 1) mod 16 = (i mod 16 + 1) mod 16.
Proof.
  intros Hi. unfold u8. rewrite Z.mod_mod_divide by (by exists 16). by rewrite Zplus_mod_idemp_l.
Qed.

(** The key stream byte by byte: [n] bytes from position [j] of the block [iv] on. *)
Fixpoint stream (n : nat) (j : Z) (k iv : list Z) : list Z :=
  match n with
  | O => []
  | S n => let iv := if j =? 0 then block_encrypt iv k else iv in at_ iv (Z.to_nat j) :: stream n ((j + 1) mod 16) k iv
  end.

Lemma ofb_loop_stream l : forall i w, 0 <= i -> length (aes_iv w) = 16%nat ->
  exists iv, length iv = 16%nat /\ ofb_loop l i w = Ok (l ⊕ stream (length l) (i mod 16) (aes_key w) (aes_iv w), set_aes_iv iv w).
Proof.
  induction l as [|b l IH]; intros i w Hi Hl; [exists (aes_iv w); by destruct w|]. cbn [ofb_loop length stream].
  rewrite index_bits. pose proof (Z.mod_pos_bound i 16 ltac:(lia)) as Hm. set (iv := if i mod 16 =? 0 then block_encrypt (aes_iv w) (aes_key w) else aes_iv w).
  assert (Hiv : length iv = 16%nat) by (unfold iv; destruct (i mod 16 =? 0); [by apply block_length|done]).
  destruct (IH (u8 (i + 1)) (set_aes_iv iv w)) as (iv' & Hiv' & E); [apply Z.mod_pos_bound; lia|done|]. exists iv'. split; [done|].
  rewrite index_step in E by done.
  assert (E1 : (if i mod 16 =? 0 then w0 ← get; iv0 ← aes_encrypt (aes_iv w0); modify (set_aes_iv iv0) else mret tt) w = Ok (tt, set_aes_iv iv w))
    by (unfold iv; destruct (i mod 16 =? 0); [done|by destruct w]).
  rewrite (tm_bind_ok _ _ _ _ _ E1). rewrite (tm_bind_ok _ _ _ _ _ (eq_refl : get (set_aes_iv iv w) = Ok (_, _))).
  destruct (lookup_lt_is_Some_2 iv (Z.to_nat (i mod 16))) as [x Hx]; [lia|].
  rewrite (tm_bind_ok _ _ _ _ _ (tm_rd_ok iv _ x (set_aes_iv iv w) Hx)), (tm_bind_ok _ _ _ _ _ E).
  unfold at_. rewrite Hx. reflexivity.
Qed.

Lemma stream_to_end a : forall j k iv m, 0 < j -> j + Z.of_nat (S a) = 16 -> length iv = 16%nat ->
  stream (S a + m) j k iv = drop (Z.to_nat j) iv ++ stream m 0 k iv.
Proof.
  induction a as [|a IH]; intros j k iv m Hj Ha Hl.
  all: cbn [Nat.add stream]; destruct (Z.eqb_spec j 0); [lia|]; destruct (lookup_lt_is_Some_2 iv (Z.to_nat j)) as [x Hx]; [lia|].
  all: rewrite (drop_S iv x (Z.to_nat j) Hx); cbn [app]; f_equal; [unfold at_; by rewrite Hx|].
  - replace ((j + 1) mod 16) with 0 by (by replace (j + 1) with 16 by lia). rewrite drop_ge by lia. done.
  - specialize (IH (j + 1) k iv m ltac:(lia) ltac:(lia) Hl). cbn [Nat.add stream] in IH |- *. rewrite Z.mod_small by lia.
    rewrite IH. do 2 f_equal. lia.
Qed.

Lemma stream_within n : forall j k iv, 0 < j -> j + Z.of_nat n <= 16 -> length iv = 16%nat -> stream n j k iv = take n (drop (Z.to_nat j) iv).
Proof.
  induction n as [|n IH]; intros j k iv Hj Hn Hl; [done|]. cbn [stream]. destruct (Z.eqb_spec j 0); [lia|].
  destruct (lookup_lt_is_Some_2 iv (Z.to_nat j)) as [x Hx]; [lia|]. rewrite (drop_S iv x (Z.to_nat j) Hx). cbn [take].
  f_equal; [unfold at_; by rewrite Hx|]. destruct n as [|n]; [done|]. rewrite Z.mod_small, IH by lia. do 2 f_equal. lia.
Qed.

Lemma stream_keystream blocks : forall n k iv, (n < 16 * S blocks)%nat -> length iv = 16%nat ->
  stream n 0 k iv = take n (keystream (S blocks) k iv).
Proof.
  induction blocks as [|blocks IH]; intros [|n] k iv Hn Hl; [done| |done|].
  all: cbn [stream]; change (0 =? 0) with true; cbv iota; change ((0 + 1) mod 16) with 1.
  all: pose proof (block_length iv k Hl) as Ho.
  - rewrite stream_within by (rewrite ?Ho; lia). cbn [keystream]. rewrite app_nil_r.
    destruct (block_encrypt iv k) as [|x o]; [done|]. done.
  - destruct (decide (n < 15)%nat) as [Hs|Hs].
    + rewrite stream_within by (rewrite ?Ho; lia). cbn [keystream]. rewrite take_app_le by lia.
      destruct (block_encrypt iv k) as [|x o]; [done|]. done.
    + replace n with (S 14 + (n - 15))%nat at 1 by lia. rewrite stream_to_end by (rewrite ?Ho; lia). rewrite IH by (try done; lia).
      cbn [keystream]. rewrite (take_app_ge (block_encrypt iv k)) by (rewrite Ho; lia). rewrite Ho. replace (S n - 16)%nat with (n - 15)%nat by lia.
      destruct (block_encrypt iv k) as [|x o]; [done|]. done.
Qed.

(** The loop is output feedback mode. *)
Lemma aes_ofb_run l w : length (aes_iv w) = 16%nat -> exists iv, length iv = 16%nat /\
  aes_ofb l w = Ok (ofb (aes_key w) (aes_iv w) l, set_aes_iv iv w).
Proof.
  intros Hl. destruct (ofb_loop_stream l 0 w ltac:(lia) Hl) as (iv & Hiv & E). exists iv. split; [done|].
  unfold aes_ofb. rewrite E. unfold ofb. rewrite Z.mod_0_l by lia. rewrite (stream_keystream (length l / 16)); [|pose proof (Nat.mod_upper_bound (length l) 16); pose proof (Nat.div_mod_eq (length l) 16); lia|done].
  by rewrite xor_comm, xor_take_l, xor_comm.
Qed.

(** Bytes at position [j] of a block of zeros. *)
Definition placed (j : Z) (l : list Z) : list Z := replicate (Z.to_nat j) 0 ++ l ++ replicate (16 - Z.to_nat j - length l) 0.

Lemma placed_cons j b l : 0 <= j -> j + Z.of_nat (S (length l)) <= 16 ->
  forall mac m, length mac = 16%nat -> mac !! Z.to_nat j = Some m ->
  <[Z.to_nat j := Z.lxor m b]> mac ⊕ placed (j + 1) l = mac ⊕ placed j (b :: l).
Proof.
  intros Hj Hl mac m Hmac Hm. rewrite <- (take_drop_middle mac _ _ Hm). set (a := take (Z.to_nat j) mac). set (c := drop (S (Z.to_nat j)) mac).
  assert (Ha : length a = Z.to_nat j) by (unfold a; rewrite length_take; lia). rewrite <- Ha at 1.
  rewrite insert_app_r_alt, Nat.sub_diag by lia. cbn [list_insert insert]. unfold placed.
  replace (Z.to_nat (j + 1)) with (Z.to_nat j + 1)%nat by lia. rewrite replicate_add, <- !app_assoc. cbn [replicate app length].
  rewrite !xor_app by (rewrite length_replicate; done). f_equal. unfold xor_bytes. cbn [zip_with]. rewrite Z.lxor_0_r. do 3 f_equal. f_equal. lia.
Qed.

Lemma mac_within l : forall i mac, 0 <= i -> i mod 16 + Z.of_nat (length l) < 16 -> length mac = 16%nat ->
  exists i', 0 <= i' /\ i' mod 16 = i mod 16 + Z.of_nat (length l) /\
    forall l' w, mac_loop (l ++ l') i mac w = mac_loop l' i' (mac ⊕ placed (i mod 16) l) w.
Proof.
  induction l as [|b l IH]; intros i mac Hi Hl Hmac; pose proof (Z.mod_pos_bound i 16 ltac:(lia)) as Hm.
  - exists i. split; [done|]. split; [cbn [length]; lia|]. intros l' w. unfold placed. cbn [app length].
    rewrite <- replicate_add, xor_zeros_r by lia. done.
  - cbn [length] in Hl. destruct (lookup_lt_is_Some_2 mac (Z.to_nat (i mod 16))) as [m Hx]; [lia|].
    assert (Es : u8 (i + 1) mod 16 = i mod 16 + 1) by (rewrite index_step by done; apply Z.mod_small; lia).
    destruct (IH (u8 (i + 1)) (<[Z.to_nat (i mod 16) := Z.lxor m b]> mac)) as (i' & Hi' & Em & E);
      [apply Z.mod_pos_bound; lia|rewrite Es; lia|by rewrite length_insert|]. exists i'. split; [done|]. split; [cbn [length]; lia|].
    intros l' w. cbn [app mac_loop]. rewrite index_bits, (tm_bind_ok _ _ _ _ _ (tm_rd_ok _ _ _ w Hx)), (tm_bind_ok _ _ _ _ _ (tm_wr_ok mac (i mod 16) (Z.lxor m b) w ltac:(lia))).
    destruct (Z.eqb_spec (i mod 16) 0xF); [lia|]. rewrite (tm_bind_ok _ _ _ _ _ (eq_refl : (mret _ : SM _) w = Ok (_, _))), E, Es.
    by rewrite (placed_cons (i mod 16) b l ltac:(lia) ltac:(lia) mac m Hmac Hx).
Qed.

Lemma placed_full mac l b m : length mac = 16%nat -> length l = 16%nat -> l !! 15%nat = Some b ->
  (mac ⊕ placed 0 (take 15 l)) !! 15%nat = Some m -> <[15%nat := Z.lxor m b]> (mac ⊕ placed 0 (take 15 l)) = mac ⊕ l.
Proof.
  intros Hmac Hl Hb Hm. do 16 (destruct mac as [|? mac]; [done|]). destruct mac; [|done].
  do 16 (destruct l as [|? l]; [done|]). destruct l; [|done]. unfold placed, xor_bytes in *. change (Z.to_nat 0) with 0%nat in *. cbn in Hb, Hm |- *. rewrite Z.lxor_0_r in *. by simplify_eq.
Qed.

(** A whole block. *)
Lemma mac_block l i mac : 0 <= i -> i mod 16 = 0 -> length l = 16%nat -> length mac = 16%nat ->
  exists i', 0 <= i' /\ i' mod 16 = 0 /\ forall l' w, mac_loop (l ++ l') i mac w = mac_loop l' i' (block_encrypt (mac ⊕ l) (aes_key w)) w.
Proof.
  intros Hi Hm Hl Hmac. destruct (lookup_lt_is_Some_2 l 15) as [b Hb]; [lia|].
  assert (E : l = take 15 l ++ [b]) by (rewrite <- (take_S_r l 15 b Hb); by rewrite take_ge by lia).
  assert (Hl15 : length (take 15 l) = 15%nat) by (rewrite length_take; lia).
  destruct (mac_within (take 15 l) i mac Hi ltac:(rewrite Hm, Hl15; lia) Hmac) as (i' & Hi' & Em & Hrun).
  rewrite Hm, Hl15 in Em. set (mac' := mac ⊕ placed (i mod 16) (take 15 l)) in *.
  assert (Hmac' : length mac' = 16%nat) by (unfold mac', placed; rewrite length_xor, !length_app, !length_replicate, Hl15, Hm; cbn; lia).
  destruct (lookup_lt_is_Some_2 mac' 15) as [m Hx]; [lia|].
  exists (u8 (i' + 1)). split; [apply Z.mod_pos_bound; lia|]. split; [rewrite index_step by done; by rewrite Em|].
  intros l' w. rewrite E at 1. rewrite <- app_assoc, Hrun. cbn [app mac_loop]. rewrite index_bits, Em.
  change (0 + Z.of_nat 15) with 15. change (Z.to_nat 15) with 15%nat.
  rewrite (tm_bind_ok _ _ _ _ _ (tm_rd_ok mac' 15 m w Hx)), (tm_bind_ok _ _ _ _ _ (tm_wr_ok mac' 15 _ w ltac:(change (Z.to_nat 15) with 15%nat; lia))).
  change (15 =? 0xF) with true. cbv iota.
  rewrite (tm_bind_ok _ _ _ _ _ (eq_refl : aes_encrypt _ w = Ok (_, _))). f_equal. f_equal.
  unfold mac' in *. rewrite Hm in *. by apply placed_full.
Qed.

Lemma length_pad16 l : (length l <= 16)%nat -> length (pad16 l) = 16%nat.
Proof. intros H. unfold pad16. rewrite length_app, length_replicate. lia. Qed.

(** The loop and the final block. *)
Lemma mac_loop_chain n : forall l i mac w, (length l < 16 * S n)%nat -> 0 <= i -> i mod 16 = 0 -> length mac = 16%nat ->
  exists mac', mac_loop l i mac w = Ok (mac', w) /\
    (if decide (length l mod 16 = 0)%nat then mac' else block_encrypt mac' (aes_key w)) = chain ((length l + 15) / 16) (aes_key w) mac l.
Proof.
  induction n as [|n IH]; intros l i mac w Hl Hi Hm Hmac.
  all: destruct (decide (length l < 16)%nat) as [Hs|Hs]; [|try lia].
  1,2: destruct (mac_within l i mac Hi ltac:(lia) Hmac) as (i' & _ & _ & E); specialize (E [] w); rewrite app_nil_r in E;
    rewrite E; eexists; (split; [reflexivity|]); rewrite Hm; destruct l as [|b l];
    [rewrite decide_True by done; change (placed 0 []) with (replicate 16 0); transitivity mac; [apply xor_zeros_r; lia|done]|rewrite Nat.mod_small by lia; destruct (decide _); [cbn [length] in *; lia|]];
    replace ((length (b :: l) + 15) / 16)%nat with 1%nat by (apply (Nat.div_unique _ _ _ (length (b :: l) - 1)); cbn [length] in *; lia);
    cbn [chain]; rewrite take_ge by lia; unfold placed, pad16; change (Z.to_nat 0) with 0%nat; cbn [replicate app]; by rewrite Nat.sub_0_r.
  assert (El : l = take 16 l ++ drop 16 l) by by rewrite take_drop. assert (H16 : length (take 16 l) = 16%nat) by (rewrite length_take; lia).
  destruct (mac_block (take 16 l) i mac Hi Hm H16 Hmac) as (i' & Hi' & Hm' & E).
  destruct (IH (drop 16 l) i' (block_encrypt (mac ⊕ take 16 l) (aes_key w)) w) as (mac' & E' & Hc);
    [rewrite length_drop; lia|done|done|apply block_length; rewrite length_xor; lia|].
  exists mac'. split; [rewrite El, E; exact E'|]. rewrite length_drop in Hc.
  assert (Ed : ((length l - 16) mod 16 = length l mod 16)%nat) by (replace (length l) with (length l - 16 + 1 * 16)%nat at 2 by lia; by rewrite Nat.Div0.mod_add).
  rewrite Ed in Hc. rewrite Hc. replace ((length l + 15) / 16)%nat with (S ((length l - 16 + 15) / 16)); [|
    replace (length l + 15)%nat with (length l - 16 + 15 + 1 * 16)%nat by lia; rewrite Nat.div_add by lia; lia].
  cbn [chain]. do 2 f_equal. unfold pad16. rewrite H16. cbn [Nat.sub replicate]. by rewrite app_nil_r.
Qed.

Lemma aes_cbc_mac_run l w : length (aes_iv w) = 16%nat -> (length l < 256)%nat ->
  aes_cbc_mac l w = Ok (cbc_mac (aes_key w) (aes_iv w) l, w).
Proof.
  intros Hiv Hl. unfold aes_cbc_mac, cbc_mac.
  destruct (mac_loop_chain 16 l 0 (block_encrypt (aes_iv w) (aes_key w)) w) as (mac & E & Hc); [lia|lia|done|by apply block_length|].
  rewrite (tm_bind_ok _ _ _ _ _ (eq_refl : get w = Ok (_, _))), (tm_bind_ok _ _ _ _ _ (eq_refl : aes_encrypt _ w = Ok (_, _))), (tm_bind_ok _ _ _ _ _ E).
  unfold has_bits. rewrite index_bits. rewrite <- Hc.
  assert (Em : Z.of_nat (length l) mod 16 = Z.of_nat (length l mod 16)) by (by rewrite Nat2Z.inj_mod). rewrite Em.
  destruct (decide (length l mod 16 = 0)%nat) as [->|Hn]; [done|]. destruct (Z.eqb_spec (Z.of_nat (length l mod 16)) 0); [lia|done].
Qed.

(** ** Frames *)

(** The frame that carries [plain] (the flags byte and the payload) from [sn] to [dn]: [iv] is the
    sender's half of the initialisation vector, [rn] the receiver's nonce. *)
Definition s0_auth (ek : list Z) (iv rn : list Z) (sh sn dn : Z) (plain : list Z) : list Z :=
  [sh; sn; dn; Z.of_nat (length plain)] ++ ofb ek (iv ++ rn) plain.
Definition s0_frame (ek ak iv rn : list Z) (sh sn dn : Z) (plain : list Z) : list Z :=
  [COMMAND_CLASS_SECURITY; sh] ++ iv ++ ofb ek (iv ++ rn) plain ++ [at_ rn 0] ++ take 8 (cbc_mac ak (iv ++ rn) (s0_auth ek iv rn sh sn dn plain)).

Lemma length_keystream n k : forall iv, length iv = 16%nat -> length (keystream n k iv) = (16 * n)%nat.
Proof. induction n as [|n IH]; intros iv H; [done|]. cbn [keystream]. rewrite length_app, IH, block_length by (try done; by apply block_length). lia. Qed.

Lemma keystream_covers (l k iv : list Z) : length iv = 16%nat -> (length l <= length (keystream (S (length l / 16)) k iv))%nat.
Proof. intros H. rewrite length_keystream by done. pose proof (Nat.mod_upper_bound (length l) 16). pose proof (Nat.div_mod_eq (length l) 16). lia. Qed.

Lemma length_ofb (k iv l : list Z) : length iv = 16%nat -> length (ofb k iv l) = length l.
Proof. intros H. unfold ofb. pose proof (keystream_covers l k iv H). rewrite length_xor. lia. Qed.

(** Encrypting twice gives the text back. *)
Lemma ofb_involutive k iv l : length iv = 16%nat -> ofb k iv (ofb k iv l) = l.
Proof.
  intros H. unfold ofb at 1. rewrite length_ofb by done. unfold ofb. pose proof (keystream_covers l k iv H) as Hc.
  rewrite xor_comm, (xor_comm l). by apply xor_cancel.
Qed.

Lemma chain_length n k : forall m l, length m = 16%nat -> length (chain n k m l) = 16%nat.
Proof.
  induction n as [|n IH]; intros m l Hm; [done|]. cbn [chain]. apply IH, block_length.
  rewrite length_xor, length_pad16 by (rewrite length_take; lia). lia.
Qed.

Lemma length_mac k iv l : length iv = 16%nat -> length (cbc_mac k iv l) = 16%nat.
Proof. intros H. by apply chain_length, block_length. Qed.

(** ** The table of nonces *)

Definition table_ok (w : S0) : Prop := Forall (fun e => length (nonce e) = 8%nat) (nonce_table w).

Lemma get_nonce_some src dst ri any w rn : get_nonce src dst ri any w = Some rn ->
  exists e, e ∈ nonce_table w /\ live src dst e = true /\ nonce e = rn /\ (any = false -> at_ rn 0 = ri).
Proof.
  unfold get_nonce. intros H. apply fmap_Some in H as (e & He & ->). apply List.find_some in He as [Hin Hl]. apply andb_true_iff in Hl as [Hl Hr].
  exists e. split; [by apply list_elem_of_In|]. split; [done|]. split; [done|]. intros ->. by apply Z.eqb_eq in Hr.
Qed.

Lemma get_nonce_length src dst ri any w rn : table_ok w -> get_nonce src dst ri any w = Some rn -> length rn = 8%nat.
Proof. intros Ht H. apply get_nonce_some in H as (e & He & _ & <- & _). unfold table_ok in Ht. rewrite list.Forall_forall in Ht. by apply Ht. Qed.

(** No nonce from [src] to [dst] is left. *)
Definition cleared (src dst : Z) (w : S0) : Prop := Forall (fun e => live src dst e = false) (nonce_table w).

Lemma cleared_none src dst ri any w : cleared src dst w -> get_nonce src dst ri any w = None.
Proof.
  intros H. unfold get_nonce. destruct (List.find _ _) as [e|] eqn:E; [|done]. apply List.find_some in E as [Hin Hl].
  unfold cleared in H. rewrite list.Forall_forall in H. rewrite (H e) in Hl by (by apply list_elem_of_In). done.
Qed.

(** Room in the table. *)
Definition free (t : list nonce_t) : nat := length (filter (fun e => timeout e = 0) t).

Lemma free_slot t : (1 <= free t)%nat -> exists j, first_index (fun e => timeout e =? 0) t = Some j /\ (j < length t)%nat.
Proof.
  unfold free. induction t as [|e t IH]; [cbn; lia|]. rewrite filter_cons. cbn [first_index]. destruct (Z.eqb_spec (timeout e) 0) as [E|E].
  - intros _. exists 0%nat. split; [done|cbn; lia].
  - rewrite decide_False by done. intros H. destruct (IH H) as (j & -> & Hj). exists (S j). split; [done|cbn; lia].
Qed.

Lemma free_insert j e t : (free t <= free (<[j := e]> t) + 1)%nat.
Proof.
  unfold free. revert j. induction t as [|x t IH]; intros j; [cbn; lia|]. destruct j as [|j].
  - change (<[0%nat := e]> (x :: t)) with (e :: t). rewrite !filter_cons. repeat case_decide; cbn [length]; lia.
  - change (<[S j := e]> (x :: t)) with (x :: <[j := e]> t). rewrite !filter_cons. specialize (IH j). repeat case_decide; cbn [length]; lia.
Qed.

Lemma free_clear src dst t : (free t <= free ((fun e => if live src dst e then set_timeout 0 e else e) <$> t))%nat.
Proof.
  unfold free. induction t as [|x t IH]; [done|]. rewrite fmap_cons, !filter_cons.
  assert (H : timeout x = 0 -> timeout (if live src dst x then set_timeout 0 x else x) = 0) by (intros E; by destruct (live src dst x)).
  repeat case_decide; cbn [length]; lia || tauto.
Qed.

Lemma free_alter f j t : (free t <= free (alter f j t) + 1)%nat.
Proof.
  unfold free. revert j. induction t as [|x t IH]; intros j; [cbn; lia|]. destruct j as [|j].
  - change (alter f 0%nat (x :: t)) with (f x :: t). rewrite !filter_cons. repeat case_decide; cbn [length]; lia.
  - change (alter f (S j) (x :: t)) with (x :: alter f j t). rewrite !filter_cons. specialize (IH j). repeat case_decide; cbn [length]; lia.
Qed.

Lemma clear_ok src dst (Q : unit -> S0 -> Prop) w : (forall t, Forall (fun e => live src dst e = false) t ->
    (table_ok w -> Forall (fun e => length (nonce e) = 8%nat) t) -> (free (nonce_table w) <= free t)%nat -> Q tt (set_nonce_table t w)) ->
  wp (nonce_clear src dst) Q w.
Proof.
  intros HQ. unfold nonce_clear. s0. apply HQ.
  - apply Forall_fmap, list.Forall_forall. intros e _. cbn. destruct (live src dst e) eqn:E; [done|done].
  - intros Ht. apply Forall_fmap. unfold table_ok in Ht. eapply list.Forall_impl; [exact Ht|]. intros e He. cbn. by destruct (live src dst e).
  - apply free_clear.
Qed.

(** ** What the receiver accepts *)

Lemma take_sub (a b : nat) (l : list Z) : take (a + b) l = take a l ++ sub a b l.
Proof. unfold sub. symmetry. apply take_take_drop. Qed.

Lemma sub_byte (l : list Z) i x : l !! i = Some x -> sub i 1 l = [x].
Proof. intros H. unfold sub. by rewrite (drop_S l x i H). Qed.

(** A frame cut into its fields. *)
Lemma frame_fields f n sh ri : 19 <= n -> (Z.to_nat n <= length f)%nat -> f !! 1%nat = Some sh -> f !! Z.to_nat (n - 9) = Some ri ->
  drop 1 (take (Z.to_nat n) f) = [sh] ++ sub 2 8 f ++ sub 10 (Z.to_nat (n - 19)) f ++ [ri] ++ sub (Z.to_nat (n - 8)) 8 f.
Proof.
  intros Hn Hl H1 Hr. rewrite <- (sub_byte f _ _ H1), <- (sub_byte f _ _ Hr).
  replace (Z.to_nat n) with (Z.to_nat (n - 8) + 8)%nat by lia. rewrite take_sub.
  replace (take (Z.to_nat (n - 8)) f) with (take (Z.to_nat (n - 9) + 1) f) by (f_equal; lia). rewrite take_sub.
  replace (take (Z.to_nat (n - 9)) f) with (take (10 + Z.to_nat (n - 19)) f) by (f_equal; lia). rewrite take_sub.
  change (take 10 f) with (take (2 + 8) f). rewrite take_sub. change (take 2 f) with (take (1 + 1) f). rewrite take_sub.
  rewrite <- !app_assoc. destruct f as [|b f]; [done|]. done.
Qed.

Definition same_keys (w w' : S0) : Prop := enckey w' = enckey w /\ authkey w' = authkey w.

(** Nothing but the receive sessions changes. *)
Definition rx_only (w w' : S0) : Prop := exists l, w' = set_rxsessions l w.

Lemma rx_refl w : rx_only w w.
Proof. exists (rxsessions w). by destruct w. Qed.

Lemma rx_trans l w w' : rx_only (set_rxsessions l w) w' -> rx_only w w'.
Proof. intros [l' ->]. by exists l'. Qed.

Lemma get_tx_ok i s (Q : sec_tx_session -> S0 -> Prop) w : tx_sessions w !! i = Some s -> Q s w -> wp (get_tx i) Q w.
Proof. intros H HQ. unfold get_tx. s0. eapply wp_rd; [|exact HQ]. by rewrite Nat2Z.id. Qed.

Lemma get_rx_ok i s (Q : rx_session_t -> S0 -> Prop) w : rxsessions w !! i = Some s -> Q s w -> wp (get_rx i) Q w.
Proof. intros H HQ. unfold get_rx. s0. eapply wp_rd; [|exact HQ]. by rewrite Nat2Z.id. Qed.

(** The receive sessions after frames of at most 52 bytes. *)
Definition rx_ok (e : rx_session_t) : Prop := length (msg e) = MAX_ENCRYPTED_MSG_SIZE /\ 0 <= msg_len e <= 32.

Lemma first_index_lt {A} (f : A -> bool) l i : first_index f l = Some i -> (i < length l)%nat.
Proof.
  revert i. induction l as [|x l IH]; intros i; [done|]. cbn [first_index length]. destruct (f x); [intros [= <-]; lia|].
  destruct (first_index f l) as [j|]; [|done]. intros [= <-]. specialize (IH j eq_refl). lia.
Qed.

(** Parts of messages in [w'] that are not there in [w]. *)
Definition stored (w w' : S0) : Prop := exists i e, rxsessions w' !! i = Some e /\ r_state e = RX_ENC1 /\ rxsessions w !! i <> Some e.

(** The buffers of the receive sessions have their size. *)
Definition rx_sized (w : S0) : Prop := Forall (fun e => length (msg e) = MAX_ENCRYPTED_MSG_SIZE) (rxsessions w).

Lemma first_index_true {A} (f : A -> bool) l i : first_index f l = Some i -> exists x, l !! i = Some x /\ f x = true.
Proof.
  revert i. induction l as [|x l IH]; intros i; [done|]. cbn [first_index]. destruct (f x) eqn:E; [intros [= <-]; by exists x|].
  destruct (first_index f l) as [j|]; [|done]. intros [= <-]. by apply IH.
Qed.

(** The session is one of the table, for the two nodes, and nothing is stored yet; one that holds the
    first part of a message is as it was. *)
Lemma session_rx sn dn w : wp (rx_session_for sn dn) (fun o w' => exists l, w' = set_rxsessions l w /\ (Forall rx_ok (rxsessions w) -> Forall rx_ok l) /\
    (forall i, o = Some i -> (i < length l)%nat) /\ ~ stored w w' /\
    (forall i e, o = Some i -> l !! i = Some e -> (rx_sized w -> length (msg e) = MAX_ENCRYPTED_MSG_SIZE) /\
      r_snode e = sn /\ r_dnode e = dn /\ (r_state e = RX_ENC1 -> rxsessions w !! i = Some e))) w.
Proof.
  unfold rx_session_for. s0. assert (Ew : w = set_rxsessions (rxsessions w) w) by (by destruct w).
  assert (Hsame : ~ stored w w) by (by intros (i & e & H1 & _ & H2)).
  destruct (get_rx_session_by_nodes sn dn w) as [i|] eqn:E; s0.
  - exists (rxsessions w). split; [done|]. split; [done|]. split; [intros j [= <-]; by eapply first_index_lt|]. split; [done|].
    intros j e [= <-] He. apply first_index_true in E as (e' & He' & Hb). simplify_eq. apply andb_prop in Hb as [Hb Hs]. apply andb_prop in Hb as [_ Hb].
    zbool. split; [|done]. intros Hz. by apply (Forall_lookup_1 _ _ _ _ Hz He').
  - apply wp_bind. unfold new_rx_session. s0. destruct (first_index _ _) as [i|] eqn:E2; s0.
    + eexists. split; [done|]. split; [intros H; apply Forall_alter; [apply Forall_alter; [done|]|]; intros e He [? ?]; by split|].
      split; [intros j [= <-]; rewrite !length_alter; by eapply first_index_lt|]. split.
      * intros (j & e & Hj & He & Hne). s0_simpl. cbn [rxsessions set_rxsessions] in Hj. revert Hj He Hne. destruct (decide (i = j)) as [<-|Hij]; [|by rewrite !list_lookup_alter_ne by done].
        rewrite list_lookup_alter_eq. destruct (alter _ i (rxsessions w) !! i) as [e0|]; [|done]. intros [= <-]. done.
      * intros j e [= <-]. rewrite !list_lookup_alter_eq. destruct (rxsessions w !! i) as [e0|] eqn:E0; [|done]. intros [= <-].
        split; [|done]. intros Hz. by apply (Forall_lookup_1 _ _ _ _ Hz E0).
    + exists (rxsessions w). split; [done|]. split; [done|]. split; [done|]. split; [done|done].
Qed.

(** What becomes of the payload of an authentic frame, a byte of flags and a part of a message.  A
    frame of its own gives the message; the first of two is kept in the session of the two nodes; the
    second gives the part that session holds and behind it its own. *)
Definition payload_used (sn dn : Z) (plain : list Z) (w w' : S0) (len : Z) (d' : list Z) : Prop :=
  exists flags body, plain = flags :: body /\
  if negb (has_bits flags SECURITY_MESSAGE_ENCAPSULATION_PROPERTIES1_SEQUENCED_BIT_MASK) then
    len = Z.of_nat (length body) /\ take (length body) d' = body
  else exists i e, r_snode e = sn /\ r_dnode e = dn /\ r_state e = RX_ENC1 /\ seq_nr e = Z.land flags 0xF /\
    if has_bits flags SECURITY_MESSAGE_ENCAPSULATION_PROPERTIES1_SECOND_FRAME_BIT_MASK then
      rxsessions w !! i = Some e /\ len = u8 (msg_len e + Z.of_nat (length body)) /\
      take (Z.to_nat (msg_len e) + length body) d' = take (Z.to_nat (msg_len e)) (msg e) ++ body
    else
      rxsessions w' !! i = Some e /\ len = 0 /\ msg_len e = Z.of_nat (length body) /\ take (length body) (msg e) = body.

Lemma assemble_rx i f n d w : wlp (assemble i f n d) (fun _ w' => rx_only w w') w.
Proof.
  unfold assemble, get_rx, rdz. apply wlp_bind, wlp_rd. intros flags _.
  destruct (has_bits flags _); [destruct (negb _)|].
  - apply wlp_bind, wlp_wp. s0. apply wlp_bind, wlp_bind, wlp_wp. unfold wp, get. apply wlp_rd. intros e _.
    apply wlp_bind, wlp_rds. intros _. apply wlp_bind, wlp_wrs. intros _. apply wlp_wp. s0. by eexists.
  - apply wlp_bind, wlp_bind, wlp_wp. unfold wp, get. apply wlp_rd. intros e _. destruct (_ || _); [apply wlp_wp; s0; apply rx_refl|].
    apply wlp_bind, wlp_wp. s0. apply wlp_bind, wlp_rds. intros _. apply wlp_bind, wlp_wrs. intros _.
    destruct (n - 20 <? 0); [done|]. apply wlp_bind, wlp_rds. intros _. apply wlp_bind, wlp_wrs. intros _. apply wlp_wp. unfold free_rx_session. s0. by eexists.
  - destruct (n - 20 <? 0); [done|]. apply wlp_bind, wlp_rds. intros _. apply wlp_bind, wlp_wrs. intros _. apply wlp_wp. unfold free_rx_session. s0. by eexists.
Qed.

Lemma payload_split f n flags : 20 <= n -> (Z.to_nat n <= length f)%nat -> f !! 10%nat = Some flags ->
  sub 10 (Z.to_nat (n - 19)) f = flags :: sub 11 (Z.to_nat (n - 20)) f.
Proof.
  intros Hn Hf H. unfold sub. rewrite (drop_S f flags 10 H). by replace (Z.to_nat (n - 19)) with (S (Z.to_nat (n - 20))) by lia.
Qed.

(** The payload is used, or it is the second part of a message whose first part is not there. *)
Lemma assemble_payload sn dn i f n d w0 w : 19 <= n < 256 -> (Z.to_nat n <= length f)%nat ->
  (forall e, rxsessions w !! i = Some e -> length (msg e) = MAX_ENCRYPTED_MSG_SIZE /\ r_snode e = sn /\ r_dnode e = dn /\ (r_state e = RX_ENC1 -> rxsessions w0 !! i = Some e)) ->
  wlp (assemble i f n d) (fun r w' => rx_only w w' /\
    (r.1 = 0 /\ w' = w \/ payload_used sn dn (sub 10 (Z.to_nat (n - 19)) f) w0 w' r.1 r.2)) w.
Proof.
  intros Hn Hf Hi. unfold assemble, get_rx, rdz. apply wlp_bind, wlp_rd. intros flags Hfl.
  destruct (has_bits flags SECURITY_MESSAGE_ENCAPSULATION_PROPERTIES1_SEQUENCED_BIT_MASK) eqn:Eseq;
    [destruct (has_bits flags SECURITY_MESSAGE_ENCAPSULATION_PROPERTIES1_SECOND_FRAME_BIT_MASK) eqn:Esec|]; cbn [negb].
  - apply wlp_bind, wlp_bind, wlp_wp. unfold wp, get. apply wlp_rd. rewrite Nat2Z.id. intros e He. destruct (Hi e He) as (_ & Hs & Hd & Hold).
    case_bool_decide as Hst; cbn [negb orb]; [|apply wlp_wp; s0; split; [apply rx_refl|by left]].
    destruct (Z.eqb_spec (Z.land flags 0xF) (seq_nr e)) as [Hsq|]; cbn [negb]; [|apply wlp_wp; s0; split; [apply rx_refl|by left]].
    apply wlp_bind, wlp_wp. s0. apply wlp_bind, wlp_rds. intros H1. apply wlp_bind, wlp_wrs. intros H2.
    destruct (Z.ltb_spec (n - 20) 0); [done|]. apply wlp_bind, wlp_rds. intros H3. apply wlp_bind, wlp_wrs. intros H4. apply wlp_wp. unfold free_rx_session. s0.
    cbn [fst snd]. split; [by eexists|]. right. eexists _, _. split; [by apply payload_split; [lia| |]|]. rewrite Eseq, Esec. cbn [negb].
    exists i, e. split_and!; try done; [by apply Hold|rewrite length_sub by lia; f_equal; lia|].
    rewrite length_sub in H2 by lia. rewrite length_sub by lia.
    replace (Z.to_nat (msg_len e) + Z.to_nat (n - 20))%nat with (Z.to_nat (msg_len e) + length (sub 11 (Z.to_nat (n - 20)) f))%nat by (rewrite length_sub; lia).
    rewrite take_splice by (rewrite ?length_splice; rewrite ?length_sub in *; lia). f_equal.
    replace (Z.to_nat (msg_len e)) with (0 + length (sub 0 (Z.to_nat (msg_len e)) (msg e)))%nat at 1 by (rewrite length_sub; lia).
    rewrite take_splice by (rewrite ?length_sub in *; lia). unfold sub. by rewrite drop_0.
  - apply wlp_bind, wlp_wp. s0. apply wlp_bind, wlp_bind, wlp_wp. unfold wp, get. apply wlp_rd. rewrite Nat2Z.id. s0_simpl. rewrite list_lookup_alter_eq.
    destruct (rxsessions w !! i) as [e0|] eqn:He0; [|done]. cbn [fmap option_fmap option_map]. intros e [= <-]. destruct (Hi e0 eq_refl) as (Hm & Hs & Hd & _). s0_simpl.
    destruct (Z.ltb_spec n 20) as [|Hn20].
    { assert (n = 19) as -> by lia. change (u8 (19 - 20)) with 255. apply wlp_bind, wlp_rds. intros H1. apply wlp_bind, wlp_wrs. intros H2.
      rewrite length_sub in H2 by lia. unfold MAX_ENCRYPTED_MSG_SIZE in Hm. lia. }
    rewrite u8_small by lia. apply wlp_bind, wlp_rds. intros H1. apply wlp_bind, wlp_wrs. intros H2. apply wlp_wp. s0.
    cbn [fst snd]. split; [by eexists|]. right. eexists _, _. split; [by apply payload_split|]. rewrite Eseq, Esec. cbn [negb].
    s0_simpl. eexists i, _. rewrite !list_lookup_alter_eq, He0. cbn [fmap option_fmap option_map].
    rewrite length_sub by lia. split_and!; cycle 4; [reflexivity|done|cbn; lia| |done..]. s0_simpl.
    replace (Z.to_nat (n - 20)) with (0 + length (sub 11 (Z.to_nat (n - 20)) f))%nat at 1 by (rewrite length_sub; lia).
    rewrite take_splice by (rewrite ?length_sub in *; lia). done.
  - destruct (Z.ltb_spec (n - 20) 0); [done|]. apply wlp_bind, wlp_rds. intros H1. apply wlp_bind, wlp_wrs. intros H2. apply wlp_wp. unfold free_rx_session. s0.
    cbn [fst snd]. split; [by eexists|]. right. eexists _, _. split; [by apply payload_split; [lia| |]|]. rewrite Eseq. cbn [negb].
    rewrite length_sub by lia. rewrite u8_small by lia. split; [lia|].
    replace (Z.to_nat (n - 20)) with (0 + length (sub 11 (Z.to_nat (n - 20)) f))%nat at 1 by (rewrite length_sub; lia).
    rewrite take_splice by (rewrite ?length_sub in *; lia). done.
Qed.

(** Frames of at most 52 bytes stay within the buffers. *)
Lemma assemble_safe i f n d w : Forall rx_ok (rxsessions w) -> (i < length (rxsessions w))%nat -> 20 <= n <= 52 -> (Z.to_nat n <= length f)%nat -> length d = RXBUFFER_SIZE ->
  wp (assemble i f n d) (fun r w' => 0 <= r.1 <= Z.of_nat RXBUFFER_SIZE /\ length r.2 = RXBUFFER_SIZE /\ exists l, w' = set_rxsessions l w /\ Forall rx_ok l) w.
Proof.
  intros H Hi Hn Hf Hd. unfold RXBUFFER_SIZE, MAX_ENCRYPTED_MSG_SIZE in *. destruct (lookup_lt_is_Some_2 _ _ Hi) as [e He].
  assert (Hok : rx_ok e) by (rewrite list.Forall_forall in H; eapply H, list_elem_of_lookup_2, He). destruct Hok as [Hm Hml]. unfold MAX_ENCRYPTED_MSG_SIZE in Hm.
  assert (Ew : w = set_rxsessions (rxsessions w) w) by (by destruct w).
  assert (Lf : (Z.to_nat 10 < length f)%nat) by lia. destruct (lookup_lt_is_Some_2 _ _ Lf) as [flags Hflags].
  unfold assemble, rdz, free_rx_session. apply wp_bind. eapply wp_rd; [exact Hflags|]. destruct (Z.ltb_spec (n - 20) 0); [lia|].
  destruct (has_bits flags _); [destruct (negb _)|].
  - rewrite u8_small by lia. s0. apply wp_bind. eapply get_rx_ok; [s0_simpl; by rewrite list_lookup_alter_eq, He|]. s0_simpl.
    apply wp_bind, wp_rds; [lia|]. apply wp_bind, wp_wrs; [rewrite length_sub by lia; lia|]. s0. cbn [fst snd]. split; [lia|]. split; [done|]. eexists. split; [done|].
    apply Forall_alter; [apply Forall_alter; [done|]|].
    + intros e' _ [? ?]. split; [done|]. cbn. lia.
    + intros e' _ [? ?]. split; [|done]. cbn. rewrite length_splice; [done|]. rewrite length_sub by lia. lia.
  - apply wp_bind. eapply get_rx_ok; [exact He|]. destruct (_ || _); s0; cbn [fst snd]; [split; [lia|]; split; [done|]; by exists (rxsessions w)|].
    apply wp_bind, wp_rds; [lia|]. apply wp_bind, wp_wrs; [rewrite length_sub by lia; lia|]. apply wp_bind, wp_rds; [lia|].
    apply wp_bind, wp_wrs; [rewrite length_splice, length_sub by (rewrite ?length_sub; lia); lia|]. s0. cbn [fst snd]. rewrite u8_small by lia. split; [lia|].
    split; [rewrite !length_splice; rewrite ?length_splice; rewrite ?length_sub; lia|]. eexists. split; [done|].
    apply Forall_alter; [apply Forall_alter; [done|]|]; intros e' _ [? ?]; by split.
  - apply wp_bind, wp_rds; [lia|]. apply wp_bind, wp_wrs; [rewrite length_sub by lia; lia|]. s0. cbn [fst snd]. rewrite u8_small by lia. split; [lia|].
    split; [rewrite length_splice, ?length_sub; rewrite ?length_sub; lia|]. eexists. split; [done|]. apply Forall_alter; [done|]. intros e' _ [? ?]. by split.
Qed.

(** What an accepted frame is: from its second byte on, the encryption of [plain] under the node's
    keys and a nonce the node has issued. *)
Definition authentic (w : S0) (sn dn : Z) (f : list Z) (n : Z) (plain : list Z) : Prop := exists e sh,
  e ∈ nonce_table w /\ live dn sn e = true /\
  drop 1 (take (Z.to_nat n) f) = drop 1 (s0_frame (enckey w) (authkey w) (sub 2 8 f) (nonce e) sh sn dn plain).

Lemma decrypt_authentic sn dn f n d w : table_ok w -> 0 <= n < 256 -> (Z.to_nat n <= length f)%nat ->
  wlp (sec0_decrypt_message sn dn f n d) (fun r w' => r.1.1 <> 0 \/ stored w w' -> cleared dn sn w' /\
    exists plain, authentic w sn dn f n plain /\ (rx_sized w -> payload_used sn dn plain w w' r.1.1 r.1.2)) w.
Proof.
  intros Ht Hn Hf. assert (Hsame : ~ stored w w) by (by intros (i & e & H1 & _ & H2)).
  assert (Hno : forall P : Prop, 0 <> 0 \/ stored w w -> P) by (intros P [H|H]; [congruence|tauto]).
  unfold sec0_decrypt_message. destruct (Z.ltb_spec n 19); [exact (Hno _)|].
  apply wlp_bind, wlp_rd. intros ri Hri. apply wlp_bind, wlp_rds. intros Hf8. apply wlp_bind, wlp_wp. unfold wp at 1, get at 1.
  destruct (get_nonce dn sn ri false w) as [rn|] eqn:En; [|exact (Hno _)]. pose proof (get_nonce_length _ _ _ _ _ _ Ht En) as Hrn.
  apply get_nonce_some in En as (e & He & Hlive & <- & Hfirst). specialize (Hfirst eq_refl).
  apply wlp_bind, wlp_wp, clear_ok. intros t Hclear _ _. apply wlp_bind, wlp_wp. eapply wp_mono; [apply session_rx|].
  intros session w1 (rx & -> & Hsz & _ & Hns & Hses). destruct session as [i|]; [|intros [?|Hst]; [done|by destruct (Hns Hst)]]. rewrite (u8_small (n - 19)) by lia.
  apply wlp_bind, wlp_rd. intros sh Hsh. apply wlp_bind, wlp_rds. intros Hpl. apply wlp_bind, wlp_wrs. intros Hd.
  set (pl := sub 10 (Z.to_nat (n - 19)) f) in *. assert (Lpl : length pl = Z.to_nat (n - 19)) by (unfold pl; rewrite length_sub; lia).
  apply wlp_bind, wlp_wp. unfold wp at 1, get at 1. s0_simpl. apply wlp_bind, wlp_wp. unfold aes_set_key_tpt. s0.
  apply wlp_bind, wlp_rds. intros Hbs.
  assert (Ebs : sub 0 (Z.to_nat (4 + (n - 19))) (splice 0 ([sh; sn; dn; n - 19] ++ pl) d) = [sh; sn; dn; n - 19] ++ pl).
  { rewrite sub_splice; [done|lia|cbn [app length]; lia]. }
  rewrite Ebs. set (iv := sub 2 8 f ++ nonce e). assert (Hiv : length iv = 16%nat) by (unfold iv; rewrite length_app, length_sub by lia; lia).
  apply wlp_bind, wlp_wp. unfold wp at 1. rewrite aes_cbc_mac_run; [|done|cbn [app length]; lia]. s0_simpl.
  apply wlp_bind, wlp_rds. intros Htag. case_bool_decide as Hmac; cbn [negb]; [|intros [?|Hst]; [done|by destruct (Hns Hst)]].
  apply wlp_bind, wlp_wp. s0. match goal with |- wlp (aes_ofb pl ≫= _) _ ?ws => destruct (aes_ofb_run pl ws Hiv) as (iv' & _ & Eo) end.
  apply wlp_bind. unfold wlp at 1. rewrite Eo. s0_simpl. apply wlp_bind, wlp_wrs. intros _.
  set (f1 := splice 10 _ f). assert (Lo : length (ofb (enckey w) iv pl) = Z.to_nat (n - 19)) by (by rewrite length_ofb).
  assert (Lf1 : length f1 = length f) by (unfold f1; rewrite length_splice; lia).
  assert (Ef1 : sub 10 (Z.to_nat (n - 19)) f1 = ofb (enckey w) iv pl) by (unfold f1; apply sub_splice; lia).
  assert (Hauth : authentic w sn dn f n (ofb (enckey w) iv pl)).
  { exists e, sh. split; [done|]. split; [done|].
    rewrite (frame_fields f n sh ri) by (first [done|lia]). unfold s0_frame, s0_auth. fold iv. rewrite length_ofb, ofb_involutive, Lpl, Hfirst by done.
    rewrite Z2Nat.id by lia. cbn [app drop]. fold pl. cbn [app] in Hmac. rewrite Hmac. done. }
  apply wlp_bind. destruct (decide (rx_sized w)) as [Hrx|Hrx].
  - eapply wlp_mono; [apply (assemble_payload sn dn) with (w0 := w); [lia|lia|]|].
    + intros e0 He0. s0_simpl. destruct (Hses i e0 eq_refl He0) as (Hm & ? & ? & ?). split_and!; try done. by apply Hm.
    + intros [len d'] w2 [[rx2 ->] Hr]. intros Hacc. split; [exact Hclear|]. exists (ofb (enckey w) iv pl). split; [done|]. intros _. rewrite Ef1 in Hr.
      destruct Hr as [[Hz Hw]|Hr]; [|exact Hr]. cbn [fst snd] in Hz. exfalso. destruct Hacc as [Hl|Hst]; [by apply Hl|]. apply (f_equal rxsessions) in Hw. assert (rx2 = rx) as -> by exact Hw. exact (Hns Hst).
  - eapply wlp_mono; [apply assemble_rx|]. intros [len d'] w2 [rx2 ->]. intros _. split; [exact Hclear|].
    exists (ofb (enckey w) iv pl). by split.
Qed.

(** ** The sender *)

(** The random generator. *)
Definition output (st : list Z) : list Z := take 8 (AESRaw st (replicate 16 0x5C)).
Definition next_state (st : list Z) : list Z := AESRaw st (replicate 16 0x36).

Lemma length_output st : length (output st) = 8%nat.
Proof. unfold output, AESRaw. rewrite length_take, block_length; done. Qed.

(** A first draw that no live nonce begins like. *)
Lemma fresh_ok src dst (Q : list Z -> S0 -> Prop) w : get_nonce src dst (at_ (output (prngState w)) 0) false w = None ->
  Q (output (prngState w)) (set_prngState (next_state (prngState w)) w) -> wp (fresh src dst) Q w.
Proof.
  intros Hf HQ. unfold fresh, DRAWS. change 256%nat with (S 255). cbn [fresh_loop]. unfold aes_random8, PRNGOutput.
  apply wp_bind. s0. change (get_nonce src dst (at_ (output (prngState w)) 0) false w = None) in Hf.
  assert (E : get_nonce src dst (at_ (take 8 (AESRaw (prngState w) (replicate 16 92))) 0) false
    (set_prngState (AESRaw (prngState w) (replicate 16 54)) w) = None) by exact Hf.
  rewrite E. s0. exact HQ.
Qed.

(** Registering a nonce changes the table only, and only for its own pair of nodes. *)
Lemma register_ok src dst reply new (Q : bool -> S0 -> Prop) w : length new = 8%nat ->
  (forall b t, (table_ok w -> Forall (fun e => length (nonce e) = 8%nat) t) ->
     (forall s d, (s, d) <> (src, dst) -> cleared s d w -> Forall (fun e => live s d e = false) t) ->
     (free (nonce_table w) <= free t + 1)%nat -> Q b (set_nonce_table t w)) ->
  wp (register_nonce src dst reply new) Q w.
Proof.
  intros Hn HQ. unfold register_nonce. s0.
  assert (Hsame : Q false w).
  { replace w with (set_nonce_table (nonce_table w) w) by (by destruct w). apply HQ; [done| |s0_simpl; lia]. intros s d _ H. exact H. }
  destruct (if reply then _ else None) as [i|] eqn:E1; [|clear E1; destruct (first_index _ (nonce_table w)) as [i|]]; s0; [| |exact Hsame].
  - destruct reply; [|done]. apply HQ.
    + intros Ht. apply Forall_alter; [done|]. intros e He _. exact Hn.
    + intros s d Hne H. apply Forall_alter; [done|]. intros e He _.
      assert (Hl : live src dst e = true).
      { clear -E1 He. revert i E1 He. induction (nonce_table w) as [|x l IH]; intros i E1 He; [done|]. cbn [first_index] in E1.
        destruct (reply_nonce x && live src dst x) eqn:Ex.
        - injection E1 as <-. injection He as <-. by apply andb_true_iff in Ex as [_ ?].
        - destruct (first_index _ l) as [j|] eqn:Ej; [|done]. injection E1 as <-. by apply (IH j). }
      unfold live in *. cbn. unfold refresh. s0_simpl. apply andb_true_iff in Hl as [Hl1 Hl2]. apply andb_true_iff in Hl1 as [_ Hl1].
      apply Z.eqb_eq in Hl1, Hl2. subst. destruct (Z.eqb_spec (n_src e) s), (Z.eqb_spec (n_dst e) d); subst; done.
    + apply free_alter.
  - apply HQ.
    + intros Ht. by apply Forall_insert.
    + intros s d Hne H. apply Forall_insert; [done|]. unfold live. s0_simpl.
      destruct (Z.eqb_spec src s), (Z.eqb_spec dst d); subst; try done; by rewrite ?andb_false_r.
    + apply free_insert.
Qed.

(** Four writes into the frame buffer. *)
Lemma splice_mid (a b b' c : list Z) n : n = length a -> length b' = length b -> splice n b (a ++ b' ++ c) = a ++ b ++ c.
Proof.
  intros -> Hb. unfold splice. rewrite take_app_length. f_equal. f_equal. rewrite <- drop_drop, drop_app_length, <- Hb, drop_app_length. done.
Qed.

(** Data that is not a key-set command. *)
Definition ordinary (l : list Z) : Prop :=
  match l with
  | b0 :: b1 :: _ => b0 <> COMMAND_CLASS_SECURITY \/ b1 <> NETWORK_KEY_SET
  | [b0] => b0 <> COMMAND_CLASS_SECURITY
  | [] => False
  end.

Lemma ordinary_ok l (Q : bool -> S0 -> Prop) w : ordinary l -> Q false w -> wp (is_key_set l) Q w.
Proof.
  intros Ho HQ. unfold is_key_set. destruct l as [|b0 [|b1 l]]; [done| |].
  - apply wp_bind. eapply wp_rd; [reflexivity|]. cbn in Ho. destruct (Z.eqb_spec b0 COMMAND_CLASS_SECURITY); [done|]. s0. exact HQ.
  - apply wp_bind. eapply wp_rd; [reflexivity|]. cbn in Ho. destruct (Z.eqb_spec b0 COMMAND_CLASS_SECURITY); [|s0; exact HQ].
    apply wp_bind. eapply wp_rd; [reflexivity|]. s0. destruct (Z.eqb_spec b1 NETWORK_KEY_SET); [tauto|exact HQ].
Qed.

(** The part of the data that goes into one frame. *)
Definition part (l : list Z) : list Z := take 26 l.
Definition more (l : list Z) : bool := Nat.ltb 26 (length l).
Definition frame_cmd (l : list Z) : Z := if more l then SECURITY_MESSAGE_ENCAPSULATION_NONCE_GET else SECURITY_MESSAGE_ENCAPSULATION.

(** The buffer after the writes of [encrypt_msg]. *)
Lemma frame_buffer (c pl enc hdr h10 tl : list Z) : length c = 46%nat -> (length pl <= 27)%nat -> (1 <= length pl)%nat -> length enc = length pl ->
  length hdr = 4%nat -> length h10 = 10%nat -> length tl = 9%nat ->
  let c1 := splice 10 pl c in
  let c2 := splice 10 enc c1 in
  let c3 := splice 6 hdr c2 in
  let c4 := splice 0 h10 c3 in
  let c5 := splice (10 + length pl) tl c4 in
  sub 10 (length pl) c1 = pl /\ sub 6 (4 + length pl) c3 = hdr ++ enc /\
  length c1 = 46%nat /\ length c2 = 46%nat /\ length c3 = 46%nat /\ length c4 = 46%nat /\ length c5 = 46%nat /\
  take (length pl + 19) c5 = h10 ++ enc ++ tl.
Proof.
  intros Hc Hp1 Hp2 He Hh H10 Ht.
  assert (Ec : c = take 6 c ++ sub 6 4 c ++ sub 10 (length pl) c ++ sub (10 + length pl) 9 c ++ drop (19 + length pl) c).
  { rewrite <- (take_drop (19 + length pl) c) at 1. replace (take (19 + length pl) c) with (take (10 + length pl + 9) c) by (f_equal; lia).
    rewrite take_sub. rewrite (take_sub 10). change (take 10 c) with (take (6 + 4) c). rewrite take_sub. by rewrite <- !app_assoc. }
  set (a := take 6 c) in *. set (b := sub 6 4 c) in *. set (q := sub 10 (length pl) c) in *. set (r := sub (10 + length pl) 9 c) in *. set (z := drop (19 + length pl) c) in *.
  assert (La : length a = 6%nat) by (unfold a; rewrite length_take; lia). assert (Lb : length b = 4%nat) by (unfold b; rewrite length_sub; lia).
  assert (Lq : length q = length pl) by (unfold q; rewrite length_sub; lia). assert (Lr : length r = 9%nat) by (unfold r; rewrite length_sub; lia).
  assert (Lz : length z = (27 - length pl)%nat) by (unfold z; rewrite length_drop; lia).
  intros c1 c2 c3 c4 c5.
  assert (E1 : c1 = (a ++ b) ++ pl ++ (r ++ z)) by (unfold c1; rewrite Ec, (app_assoc a b); apply splice_mid; [rewrite length_app; lia|done]).
  assert (E2 : c2 = (a ++ b) ++ enc ++ (r ++ z)) by (unfold c2; rewrite E1; apply splice_mid; [rewrite length_app; lia|done]).
  assert (E3 : c3 = a ++ hdr ++ (enc ++ r ++ z)) by (unfold c3; rewrite E2, <- app_assoc; apply splice_mid; lia).
  assert (E4 : c4 = h10 ++ (enc ++ r ++ z)).
  { unfold c4. rewrite E3, app_assoc. change ((a ++ hdr) ++ enc ++ r ++ z) with ([] ++ (a ++ hdr) ++ enc ++ r ++ z).
    rewrite splice_mid; [done|done|rewrite length_app; lia]. }
  assert (E5 : c5 = (h10 ++ enc) ++ tl ++ z) by (unfold c5; rewrite E4, (app_assoc h10 enc); apply splice_mid; [rewrite length_app; lia|lia]).
  repeat split.
  - rewrite E1. unfold sub. rewrite drop_app_length' by (rewrite length_app; lia). by rewrite take_app_length.
  - rewrite E3. unfold sub. rewrite drop_app_length' by lia. rewrite app_assoc, take_app_length' by (rewrite length_app; lia). done.
  - rewrite E1, !length_app. lia.
  - rewrite E2, !length_app. lia.
  - rewrite E3, !length_app. lia.
  - rewrite E4, !length_app. lia.
  - rewrite E5, !length_app. lia.
  - rewrite E5, app_assoc, take_app_length' by (rewrite !length_app; lia). by rewrite <- app_assoc.
Qed.

Lemma encrypt_ok i s rn pass2 (Q : Z -> S0 -> Prop) w : tx_sessions w !! i = Some s -> length (crypted_msg s) = 46%nat ->
  data_len s = Z.of_nat (length (data s)) -> (length (data s) <= 255)%nat -> ordinary (data s) ->
  let d := u8 (dnode (param s)) in let n := u8 (snode (param s)) in
  n <> d -> table_ok w -> get_nonce d n 0 true w = Some rn ->
  let iv := output (prngState w) in
  get_nonce d n (at_ iv 0) false w = None ->
  let l := part (data s) in
  let frame := s0_frame (enckey w) (authkey w) iv rn (frame_cmd (data s)) n d (seq_flags pass2 (more (data s)) (seq s) :: l) in
  (forall c t key v, length c = 46%nat -> take (length l + 20) c = frame -> Forall (fun e => live d n e = false) t ->
     Forall (fun e => length (nonce e) = 8%nat) t -> (free (nonce_table w) <= free t + 1)%nat ->
     Q (Z.of_nat (length l) + 20) (set_tx_sessions (alter (fun s => set_data_len (Z.of_nat (length (drop 26 (data s)))) (set_data (drop 26 (data s)) (set_crypted_msg c s))) i (tx_sessions w))
       (set_aes_iv v (set_aes_key key (set_nonce_table t (set_prngState (next_state (prngState w)) w)))))) ->
  wp (encrypt_msg i pass2) Q w.
Proof.
  intros Hs Hc Hdl Hlen Hord d n Hnd Ht Hrn iv Hfresh l frame HQ. unfold encrypt_msg. apply wp_bind. eapply get_tx_ok; [exact Hs|]. fold d n.
  cbn [get_node_max_frame_size]. unfold get_node_max_frame_size. rewrite Hdl.
  assert (Em : (46 <? Z.of_nat (length (data s)) + 20) = more (data s)).
  { unfold more. destruct (Z.ltb_spec 46 (Z.of_nat (length (data s)) + 20)), (Nat.ltb_spec 26 (length (data s))); (done || lia). }
  rewrite Em. assert (El : (if more (data s) then 46 - 20 else Z.of_nat (length (data s))) = Z.of_nat (length l)).
  { unfold l, part, more. rewrite length_take. destruct (Nat.ltb_spec 26 (length (data s))); lia. }
  rewrite El. assert (Ll : (1 <= length l <= 26)%nat) by (unfold l, part; rewrite length_take; destruct (data s); [done|cbn [length] in *; lia]).
  unfold Effects.assert, CRYPTED_MSG_SIZE. destruct (Z.leb_spec (Z.of_nat (length l) + 20) (Z.of_nat 46)); [|lia]. s0.
  apply wp_bind, fresh_ok; [exact Hfresh|]. s0. change (get_nonce d n 0 true (set_prngState (next_state (prngState w)) w)) with (get_nonce d n 0 true w). rewrite Hrn.
  pose proof (get_nonce_length _ _ _ _ _ _ Ht Hrn) as Lrn. fold iv. assert (Liv8 : length iv = 8%nat) by apply length_output.
  apply wp_bind, clear_ok. intros t1 Hclear1 Ht1 Hfree1. specialize (Ht1 Ht). apply wp_bind, register_ok; [apply length_output|].
  intros _ t2 Ht2 Hclear2 Hfree2. specialize (Ht2 Ht1). cbn [nonce_table set_nonce_table] in Hfree2. specialize (Hclear2 d n ltac:(congruence) Hclear1). s0.
  rewrite Nat2Z.id. assert (El' : sub 0 (length l) (data s) = l) by (unfold sub, l, part; rewrite drop_0, length_take; destruct (Nat.min_spec 26 (length (data s))) as [[_ ->]|[? ->]]; [done|by rewrite !take_ge by lia]).
  assert (Lld : (length l <= length (data s))%nat) by (unfold l, part; rewrite length_take; lia).
  apply wp_bind, wp_rds; [lia|]. rewrite El'. set (pl := seq_flags pass2 (more (data s)) (seq s) :: l) in *.
  assert (Lpl : length pl = S (length l)) by done. assert (Liv : length (iv ++ rn) = 16%nat) by (rewrite length_app; unfold iv; rewrite length_output; lia).
  set (enc := ofb (enckey w) (iv ++ rn) pl). assert (Lenc : length enc = length pl) by (by apply length_ofb).
  set (hdr := [frame_cmd (data s); n; d; Z.of_nat (length l) + 1]). set (h10 := [COMMAND_CLASS_SECURITY; frame_cmd (data s)] ++ take 8 (iv ++ rn)).
  set (mac := cbc_mac (authkey w) (iv ++ rn) (hdr ++ enc)). set (tl := at_ (iv ++ rn) 8 :: take 8 mac).
  assert (L10 : length h10 = 10%nat) by (unfold h10; rewrite length_app, length_take, Liv; done).
  assert (Ltl : length tl = 9%nat) by (unfold tl; cbn [length]; rewrite length_take; unfold mac; rewrite length_mac by done; done).
  destruct (frame_buffer (crypted_msg s) pl enc hdr h10 tl Hc ltac:(lia) ltac:(lia) Lenc eq_refl L10 Ltl) as (Epl & Eauth & L1 & L2 & L3 & L4 & L5 & Eall).
  apply wp_bind, wp_wrs; [lia|]. fold pl. apply wp_bind, ordinary_ok; [exact Hord|]. s0. cbv iota. apply wp_bind. unfold aes_set_key_tpt. s0.
  replace (Z.to_nat (Z.of_nat (length l) + 1)) with (length pl) by lia. apply wp_bind, wp_rds; [lia|]. rewrite Epl.
  match goal with |- wp (aes_ofb pl ≫= _) _ ?ws => destruct (aes_ofb_run pl ws Liv) as (v & _ & Eo) end.
  apply wp_bind. unfold wp at 1. rewrite Eo. s0_simpl. fold enc. apply wp_bind, wp_wrs; [lia|]. apply wp_bind, wp_wrs; [cbn [length]; lia|]. fold (frame_cmd (data s)). fold hdr.
  apply wp_bind. s0. replace (Z.to_nat (4 + Z.of_nat (length l) + 1)) with (4 + length pl)%nat by lia. apply wp_bind, wp_rds; [lia|]. rewrite Eauth.
  apply wp_bind. unfold wp at 1. rewrite aes_cbc_mac_run; [|done|rewrite length_app; cbn [length hdr]; lia]. s0_simpl. fold mac.
  fold h10. apply wp_bind, wp_wrs; [rewrite L10; lia|]. replace (Z.to_nat (2 + 8 + Z.of_nat (length l) + 1)) with (10 + length pl)%nat by lia.
  apply wp_bind, wp_wrs; [fold tl; lia|]. fold tl. s0.
  match goal with |- Q _ (set_tx_sessions (alter ?g i (tx_sessions w)) ?ws) => set (c5 := splice (10 + length pl) tl _) in * end.
  specialize (HQ c5 t2 (authkey w) (iv ++ rn) L5).
  assert (Hframe : take (length l + 20) c5 = frame).
  { replace (length l + 20)%nat with (length pl + 19)%nat by lia. rewrite Eall. unfold frame, s0_frame, s0_auth, h10, tl.
    assert (E8 : take 8 (iv ++ rn) = iv) by (rewrite take_app_length'; [done|by rewrite Liv8]).
    assert (E8' : at_ (iv ++ rn) 8 = at_ rn 0) by (unfold at_; rewrite lookup_app_r, Liv8 by lia; done).
    rewrite E8, E8'. fold enc. unfold mac, hdr. rewrite Lpl. replace (Z.of_nat (S (length l))) with (Z.of_nat (length l) + 1) by lia.
    by rewrite <- !app_assoc. }
  specialize (HQ Hframe Hclear2 Ht2 ltac:(cbn [nonce_table set_prngState] in *; lia)).
  match goal with |- Q _ (set_tx_sessions ?l1 _) => match type of HQ with Q _ (set_tx_sessions ?l2 _) => replace l1 with l2; [exact HQ|] end end.
  apply list_alter_ext; [|done]. intros s' Hs'. rewrite Hs in Hs'. injection Hs' as <-. rewrite Hdl.
  assert (Ed : drop (length l) (data s) = drop 26 (data s)) by (unfold l, part; rewrite length_take; destruct (Nat.min_spec 26 (length (data s))) as [[_ ->]|[? ->]]; [done|by rewrite !drop_ge by lia]).
  rewrite Ed. f_equal. rewrite <- Ed, length_drop. lia.
Qed.

(** ** What is promised *)

(** The two loops of scheme 0 compute block modes of the cipher: [aes_ofb], which XORs the data byte
    by byte with a register it re-encrypts every sixteen bytes, is output feedback mode; and
    [aes_cbc_mac], which folds the bytes into the register, is the CBC-MAC of the data padded with
    zeros, started from the encrypted initialisation vector. *)
Theorem s0_modes_are_block_modes k iv l w : length iv = 16%nat -> (length l < 256)%nat ->
  (exists w', (aes_set_key_tpt k iv;; aes_ofb l) w = Ok (l ⊕ keystream (S (length l / 16)) k iv, w')) /\
  (exists w', (aes_set_key_tpt k iv;; aes_cbc_mac l) w = Ok (chain ((length l + 15) / 16) k (block_encrypt iv k) l, w')).
Proof.
  intros Hiv Hl. split.
  - destruct (aes_ofb_run l (set_aes_iv iv (set_aes_key k w)) Hiv) as (v & _ & E). by exists (set_aes_iv v (set_aes_iv iv (set_aes_key k w))).
  - exists (set_aes_iv iv (set_aes_key k w)). apply (aes_cbc_mac_run l (set_aes_iv iv (set_aes_key k w)) Hiv Hl).
Qed.

(** C15: The receiver of scheme 0 takes nothing that is not authentic.  If [sec0_decrypt_message]
    returns a message, or keeps the first part of one, then the frame is, from its second byte on, the
    encryption of a payload under the node's keys and a nonce this node has issued to the sender and
    that has not expired: its last eight bytes are the authentication tag of the header, of both node
    numbers and of the ciphertext.  And that payload is what is used: behind its byte of flags it is
    the message returned, or the part kept in the session of the two nodes, or, for a second part,
    the end of the message returned, whose beginning is the part that session held. *)
Theorem s0_accepts_authentic sn dn f n d len d' f' w w' : table_ok w -> rx_sized w -> 0 <= n < 256 -> (Z.to_nat n <= length f)%nat ->
  sec0_decrypt_message sn dn f n d w = Ok ((len, d', f'), w') -> len <> 0 \/ stored w w' ->
  exists plain, authentic w sn dn f n plain /\ payload_used sn dn plain w w' len d'.
Proof.
  intros Ht Hrx Hn Hf E Hacc. destruct (wlp_run _ _ _ _ _ (decrypt_authentic sn dn f n d w Ht Hn Hf) E Hacc) as [_ (plain & Ha & Hu)].
  exists plain. split; [done|exact (Hu Hrx)].
Qed.

(** C16: A frame of scheme 0 is not accepted twice.  Once a frame from [sn] has been accepted, every
    further frame of any content from [sn] is turned down, leaving the node as it is, until the node
    issues a new nonce. *)
Theorem s0_no_replay sn dn f n d len d' f' w w' : table_ok w -> 0 <= n < 256 -> (Z.to_nat n <= length f)%nat ->
  sec0_decrypt_message sn dn f n d w = Ok ((len, d', f'), w') -> len <> 0 \/ stored w w' ->
  forall f2 n2 d2, 0 <= n2 < 256 -> (Z.to_nat n2 <= length f2)%nat -> sec0_decrypt_message sn dn f2 n2 d2 w' = Ok ((0, d2, f2), w').
Proof.
  intros Ht Hn Hf E Hacc f2 n2 d2 Hn2 Hf2. pose proof (proj1 (wlp_run _ _ _ _ _ (decrypt_authentic sn dn f n d w Ht Hn Hf) E Hacc)) as Hc.
  cut (wp (sec0_decrypt_message sn dn f2 n2 d2) (fun r w2 => r = (0, d2, f2) /\ w2 = w') w').
  { intros H. apply wp_run in H as (r & w2 & -> & -> & ->). done. }
  unfold sec0_decrypt_message. destruct (Z.ltb_spec n2 19); [by s0|]. assert (Hi : (Z.to_nat (n2 - 9) < length f2)%nat) by lia.
  apply wp_bind, rd_at; [done|]. apply wp_bind, wp_rds; [lia|]. s0. rewrite cleared_none by done. by s0.
Qed.

Lemma table_after t w : Forall (fun e => length (nonce e) = 8%nat) t -> table_ok (set_nonce_table t w).
Proof. done. Qed.

(** C17: The receiver of scheme 0 stays within its buffers on every frame of at most 52 bytes but 19,
    whoever sent it and whatever is in it: [sec0_decrypt_message] with the 64-byte buffer of the
    command handler returns, the message it reports fits into the buffer, and the receive sessions
    keep their shape. *)
Theorem s0_receiver_memory_safe sn dn f n d w : table_ok w -> Forall rx_ok (rxsessions w) -> 0 <= n <= 52 -> n <> 19 -> (Z.to_nat n <= length f)%nat ->
  length d = RXBUFFER_SIZE ->
  exists len d' f' w', sec0_decrypt_message sn dn f n d w = Ok ((len, d', f'), w') /\ 0 <= len <= Z.of_nat RXBUFFER_SIZE /\ length d' = RXBUFFER_SIZE /\
    table_ok w' /\ Forall rx_ok (rxsessions w').
Proof.
  intros Ht Hrx Hn Hn19 Hf Hd.
  cut (wp (sec0_decrypt_message sn dn f n d) (fun r w' => 0 <= r.1.1 <= Z.of_nat RXBUFFER_SIZE /\ length r.1.2 = RXBUFFER_SIZE /\ table_ok w' /\ Forall rx_ok (rxsessions w')) w).
  { intros H. apply wp_run in H as ([[len d'] f'] & w' & E & H). by exists len, d', f', w'. }
  unfold sec0_decrypt_message. destruct (Z.ltb_spec n 19); [s0; cbn [fst snd]; split_and!; (done || lia)|]. assert (Hi : (Z.to_nat (n - 9) < length f)%nat) by lia.
  apply wp_bind, rd_at; [done|]. apply wp_bind, wp_rds; [lia|]. s0.
  destruct (get_nonce _ _ _ _ w) as [rn|] eqn:En; [|s0; cbn [fst snd]; split_and!; (done || lia)]. pose proof (get_nonce_length _ _ _ _ _ _ Ht En) as Hrn.
  apply wp_bind, clear_ok. intros t _ Ht' _. specialize (Ht' Ht). apply wp_bind. eapply wp_mono; [apply session_rx|]. intros o w1 (rx & -> & Hrx' & Hidx & _ & _). specialize (Hrx' Hrx).
  destruct o as [i|]; [|s0; cbn [fst snd]; split_and!; (done || lia)]. specialize (Hidx i eq_refl). rewrite (u8_small (n - 19)) by lia.
  assert (Hd64 : length d = 64%nat) by done. apply wp_bind, rd_at; [lia|]. apply wp_bind, wp_rds; [lia|]. set (pl := sub 10 (Z.to_nat (n - 19)) f).
  assert (Lpl : length pl = Z.to_nat (n - 19)) by (unfold pl; rewrite length_sub; lia). apply wp_bind, wp_wrs; [cbn [app length]; lia|]. s0. unfold aes_set_key_tpt. apply wp_bind. s0.
  apply wp_bind, wp_rds; [rewrite length_splice; cbn [app length]; lia|]. rewrite sub_splice; [|lia|cbn [app length]; lia].
  set (iv := sub 2 8 f ++ rn). assert (Hiv : length iv = 16%nat) by (unfold iv; rewrite length_app, length_sub by lia; lia).
  apply wp_bind. unfold wp at 1. rewrite aes_cbc_mac_run; [|done|cbn [app length]; lia]. s0_simpl. apply wp_bind, wp_rds; [lia|].
  assert (Ld : length (splice 0 ([at_ f 1; sn; dn; n - 19] ++ pl) d) = RXBUFFER_SIZE) by (rewrite length_splice; [done|cbn [app length]; lia]).
  case_bool_decide; cbn [negb]; [|s0; cbn [fst snd]; split_and!; (done || lia)].
  apply wp_bind. s0. match goal with |- wp (aes_ofb pl ≫= _) _ ?ws => destruct (aes_ofb_run pl ws Hiv) as (v & _ & Eo) end.
  apply wp_bind. unfold wp at 1. rewrite Eo. s0_simpl. apply wp_bind, wp_wrs; [rewrite length_ofb by done; lia|].
  apply wp_bind. eapply wp_mono; [apply assemble_safe; [done|done|lia|rewrite length_splice, ?length_ofb by (rewrite ?length_ofb by done; lia); lia|exact Ld]|].
  intros [len d'] w2 (H1 & H2 & l & -> & Hl). s0. cbn [fst snd] in *. split_and!; (done || lia).
Qed.
End Modes.
End Scheme0Spec.
