(* ===== verification/Scheme0Link.v ===== *)
(** * A message between two nodes of security scheme 0

    The whole exchange: the sender asks for a nonce, the receiver reports one, the message travels in
    one frame or, with a second nonce, in two, and the receiver's application gets it.  Then runs in
    which the scheme fails. *)
From stdpp Require Import relations.
From S2P Require Import Prelude Aes Effects Transport Scheme0 Scheme0Spec.
Import Effects Scheme0 Scheme0Spec.

Module Scheme0Link.

Lemma find_insert {A} (f : A -> bool) j e : forall l, Forall (fun x => f x = false) l -> (j < length l)%nat ->
  List.find f (<[j := e]> l) = if f e then Some e else None.
Proof.
  induction j as [|j IH]; intros [|x l] Hl Hj; cbn [length] in Hj; try lia; apply list.Forall_cons in Hl as [Hx Hl].
  - change (<[0%nat := e]> (x :: l)) with (e :: l). cbn [List.find]. destruct (f e); [done|]. clear Hj Hx. induction Hl as [|y l Hy Hl IHl]; [done|]. cbn [List.find]. by rewrite Hy.
  - change (<[S j := e]> (x :: l)) with (x :: <[j := e]> l). cbn [List.find]. rewrite Hx. apply IH; [done|lia].
Qed.

(** A new nonce in a table without one of its pair. *)
Lemma register_new src dst new (Q : bool -> S0 -> Prop) w : length new = 8%nat -> cleared src dst w -> table_ok w -> (1 <= free (nonce_table w))%nat ->
  (forall t, Forall (fun e => length (nonce e) = 8%nat) t -> (free (nonce_table w) <= free t + 1)%nat ->
     (forall s d, (s, d) <> (src, dst) -> cleared s d w -> Forall (fun e => live s d e = false) t) ->
     (forall ri any, get_nonce src dst ri any (set_nonce_table t w) = if any || (at_ new 0 =? ri) then Some new else None) -> Q true (set_nonce_table t w)) ->
  wp (register_nonce src dst false new) Q w.
Proof.
  intros Hn Hc Ht Hf HQ. unfold register_nonce. s0. destruct (free_slot _ Hf) as (j & Ej & Hj). rewrite Ej. s0. apply HQ.
  - by apply Forall_insert.
  - apply free_insert.
  - intros s d Hne H. apply Forall_insert; [done|]. unfold live. s0_simpl. destruct (Z.eqb_spec src s), (Z.eqb_spec dst d); subst; try done; by rewrite ?andb_false_r.
  - intros ri any. unfold get_nonce. s0_simpl. rewrite find_insert.
    + unfold live. s0_simpl. rewrite !Z.eqb_refl. change (0 <? NONCE_TIMEOUT) with true. cbn [andb]. by destruct (any || (at_ new 0 =? ri)).
    + unfold cleared in Hc. eapply list.Forall_impl; [exact Hc|]. intros e He. cbn. by rewrite He.
    + done.
Qed.

Section Link.
Context {C : BlockCipher} {HC : BlockCipherOk C}.

(** ** The receiver *)

(** A frame as it was encrypted, its payload [plain] decrypted in place. *)
Definition opened (sh : Z) (iv plain tail : list Z) : list Z := [COMMAND_CLASS_SECURITY; sh] ++ iv ++ plain ++ tail.

Lemma length_s0_frame ek ak iv rn sh sn dn plain : length iv = 8%nat -> length rn = 8%nat ->
  length (s0_frame ek ak iv rn sh sn dn plain) = (19 + length plain)%nat.
Proof.
  intros Hi Hr. assert (L : length (iv ++ rn) = 16%nat) by (rewrite length_app; lia).
  unfold s0_frame. rewrite !length_app, length_ofb, length_take, length_mac by done. cbn [length]. lia.
Qed.

(** The fields of a frame with bytes behind it. *)
Lemma frame_parts (h iv enc : list Z) r tag slack : length h = 2%nat -> length iv = 8%nat -> length tag = 8%nat ->
  let f := h ++ iv ++ enc ++ [r] ++ tag ++ slack in
  sub 2 8 f = iv /\ sub 10 (length enc) f = enc /\ f !! (10 + length enc)%nat = Some r /\ sub (11 + length enc) 8 f = tag.
Proof.
  intros Hh Hi Ht f. unfold f, sub. repeat split.
  - rewrite drop_app_length' by done. by rewrite take_app_length'.
  - rewrite (app_assoc h), drop_app_length' by (rewrite length_app; lia). by rewrite take_app_length.
  - rewrite !lookup_app_r by lia. replace (_ - _)%nat with 0%nat by lia. done.
  - rewrite (app_assoc h), (app_assoc _ enc), (app_assoc _ [r]), drop_app_length' by (rewrite !length_app; cbn [length]; lia). by rewrite take_app_length'.
Qed.

(** A frame for which the receiver has issued the nonce is decrypted, whatever is behind it in
    memory. *)
Lemma decrypt_ok sn dn iv rn sh plain slack d i rx (Q : Z * list Z * list Z -> S0 -> Prop) w :
  length iv = 8%nat -> length rn = 8%nat -> (1 <= length plain <= 27)%nat -> length d = RXBUFFER_SIZE ->
  get_nonce dn sn (at_ rn 0) false w = Some rn ->
  (forall t Q', Q' (Some i) (set_rxsessions rx (set_nonce_table t w)) -> wp (rx_session_for sn dn) Q' (set_nonce_table t w)) ->
  let frame := s0_frame (enckey w) (authkey w) iv rn sh sn dn plain in
  let n := Z.of_nat (length frame) in
  (forall t v key d' tail, Forall (fun e => live dn sn e = false) t -> (table_ok w -> Forall (fun e => length (nonce e) = 8%nat) t) ->
     (free (nonce_table w) <= free t)%nat -> length d' = RXBUFFER_SIZE -> let f := opened sh iv plain tail in
     wp (assemble i f n d') (fun r => Q (r.1, r.2, f)) (set_aes_iv v (set_aes_key key (set_rxsessions rx (set_nonce_table t w))))) ->
  wp (sec0_decrypt_message sn dn (frame ++ slack) n d) Q w.
Proof.
  intros Hi Hr Hp Hd Hn Hrx frame n HQ. assert (L : length (iv ++ rn) = 16%nat) by (rewrite length_app; lia).
  assert (En : n = 19 + Z.of_nat (length plain)) by (unfold n, frame; rewrite length_s0_frame by done; lia).
  set (enc := ofb (enckey w) (iv ++ rn) plain). assert (Le : length enc = length plain) by (by apply length_ofb).
  set (tag := take 8 (cbc_mac (authkey w) (iv ++ rn) (s0_auth (enckey w) iv rn sh sn dn plain))).
  assert (Lt : length tag = 8%nat) by (unfold tag; rewrite length_take, length_mac; done).
  assert (Ef : frame ++ slack = [COMMAND_CLASS_SECURITY; sh] ++ iv ++ enc ++ [at_ rn 0] ++ tag ++ slack) by (unfold frame, s0_frame; fold enc tag; by rewrite <- !app_assoc).
  destruct (frame_parts [COMMAND_CLASS_SECURITY; sh] iv enc (at_ rn 0) tag slack eq_refl Hi Lt) as (F1 & F2 & F3 & F4). rewrite <- Ef in *.
  assert (Lf : (19 + length plain <= length (frame ++ slack))%nat) by (rewrite length_app; unfold frame; rewrite length_s0_frame by done; lia).
  unfold sec0_decrypt_message. destruct (Z.ltb_spec n 19); [lia|]. replace (n - 9) with (10 + Z.of_nat (length enc)) by lia.
  apply wp_bind. eapply wp_rd; [replace (Z.to_nat _) with (10 + length enc)%nat by lia; exact F3|]. apply wp_bind, wp_rds; [lia|]. rewrite F1. s0. rewrite Hn.
  apply wp_bind, clear_ok. intros t Hc Ht Hfree. apply wp_bind, Hrx. rewrite (u8_small (n - 19)) by (rewrite En; lia).
  replace (n - 19) with (Z.of_nat (length enc)) by lia. rewrite !Nat2Z.id.
  apply wp_bind. eapply wp_rd; [rewrite Ef; reflexivity|]. apply wp_bind, wp_rds; [lia|]. rewrite F2.
  apply wp_bind, wp_wrs; [cbn [app length]; unfold RXBUFFER_SIZE in Hd; lia|]. s0. unfold aes_set_key_tpt. apply wp_bind. s0.
  apply wp_bind, wp_rds; [rewrite length_splice; cbn [app length]; unfold RXBUFFER_SIZE in *; lia|].
  rewrite sub_splice; [|lia|cbn [app length]; lia]. rewrite Le.
  change ([sh; sn; dn; Z.of_nat (length plain)] ++ enc) with (s0_auth (enckey w) iv rn sh sn dn plain).
  apply wp_bind. unfold wp at 1. rewrite aes_cbc_mac_run; [|done|unfold s0_auth; rewrite length_app; fold enc; cbn [length]; lia]. s0_simpl.
  apply wp_bind, wp_rds; [lia|]. replace (Z.to_nat (n - 8)) with (11 + length enc)%nat by lia. rewrite F4, bool_decide_eq_true_2 by done. cbn [negb].
  apply wp_bind. s0. match goal with |- wp (aes_ofb enc ≫= _) _ ?ws => destruct (aes_ofb_run enc ws L) as (v & _ & Eo) end.
  apply wp_bind. unfold wp at 1. rewrite Eo. s0_simpl. unfold enc at 1. rewrite ofb_involutive by done.
  apply wp_bind, wp_wrs; [lia|]. rewrite Ef, (app_assoc [COMMAND_CLASS_SECURITY; sh]), splice_mid by (rewrite ?length_app; cbn [length]; lia). rewrite <- app_assoc.
  apply wp_bind. eapply wp_mono; [apply (HQ t v (enckey w) _ ([at_ rn 0] ++ tag ++ slack) Hc Ht Hfree)|].
  - rewrite length_splice; [done|]. unfold s0_auth. fold enc. cbn [app length]. unfold RXBUFFER_SIZE in *. lia.
  - intros [len d'] w'. s0. done.
Qed.

(** The flags byte. *)
Lemma below16 (P : Z -> bool) x : forallb P (seqZ 0 16) = true -> P (Z.land x 0xF) = true.
Proof.
  intros H. rewrite forallb_forall in H. apply H, list_elem_of_In, elem_of_seqZ. rewrite index_bits.
  pose proof (Z.mod_pos_bound x 16 ltac:(lia)). lia.
Qed.

Lemma flags_bits pass2 sq : let f := seq_flags pass2 true sq in
  has_bits f SECURITY_MESSAGE_ENCAPSULATION_PROPERTIES1_SEQUENCED_BIT_MASK = true /\
  has_bits f SECURITY_MESSAGE_ENCAPSULATION_PROPERTIES1_SECOND_FRAME_BIT_MASK = pass2 /\ Z.land f 0xF = Z.land sq 0xF.
Proof.
  set (P x := let f := if pass2 then Z.lor 0x30 x else Z.lor 0x10 x in has_bits f 0x10 && (eqb (has_bits f 0x20) pass2) && (Z.land f 0xF =? x)).
  assert (H : P (Z.land sq 0xF) = true) by (apply below16; by destruct pass2).
  unfold P in H. apply andb_true_iff in H as [H H3]. apply andb_true_iff in H as [H1 H2]. apply eqb_prop in H2. apply Z.eqb_eq in H3.
  unfold seq_flags. by destruct pass2.
Qed.

(** The three uses of the payload: a whole message, the first part of one, the second. *)
Lemma length_opened sh iv plain tail : length iv = 8%nat -> length (opened sh iv plain tail) = (10 + length plain + length tail)%nat.
Proof. intros H. unfold opened. rewrite !length_app. cbn [length]. lia. Qed.

Lemma opened_payload sh iv flags l tail : length iv = 8%nat ->
  opened sh iv (flags :: l) tail !! 10%nat = Some flags /\ sub 11 (length l) (opened sh iv (flags :: l) tail) = l.
Proof.
  intros Hi. unfold opened, sub. split.
  - by rewrite !lookup_app_r by (cbn [length]; lia); cbn [length]; replace (10 - 2 - length iv)%nat with 0%nat by lia.
  - change ((flags :: l) ++ tail) with ([flags] ++ (l ++ tail)). rewrite (app_assoc _ iv), (app_assoc _ [flags]), drop_app_length' by (rewrite !length_app; cbn [length]; lia). by rewrite take_app_length.
Qed.

Section Payload.
Context (sh : Z) (iv l tail d : list Z) (i : nat) (Q : Z * list Z -> S0 -> Prop) (w : S0).
Context (Hi : length iv = 8%nat) (Hl : (length l <= 26)%nat) (Hd : length d = RXBUFFER_SIZE).
Let n := 20 + Z.of_nat (length l).

Lemma whole_ok : (forall d', take (length l) d' = l -> length d' = RXBUFFER_SIZE -> Q (Z.of_nat (length l), d') (set_rxsessions (alter (set_r_state RX_SESSION_DONE) i (rxsessions w)) w)) ->
  wp (assemble i (opened sh iv (0 :: l) tail) n d) Q w.
Proof.
  intros HQ. unfold RXBUFFER_SIZE in *. destruct (opened_payload sh iv 0 l tail Hi) as [F1 F2]. unfold assemble. apply wp_bind. eapply wp_rd; [exact F1|]. change (has_bits 0 _) with false. cbv iota.
  unfold rdz. replace (n - 20) with (Z.of_nat (length l)) by (unfold n; lia). destruct (Z.ltb_spec (Z.of_nat (length l)) 0); [lia|]. rewrite Nat2Z.id.
  apply wp_bind, wp_rds; [rewrite length_opened by done; cbn [length]; lia|]. rewrite F2. apply wp_bind, wp_wrs; [lia|]. unfold free_rx_session. s0. rewrite u8_small by lia.
  apply HQ; [|rewrite length_splice; lia]. rewrite take_splice by lia. done.
Qed.

Lemma first_part_ok sq e : rxsessions w !! i = Some e -> length (msg e) = MAX_ENCRYPTED_MSG_SIZE ->
  (forall m, take (length l) m = l -> length m = MAX_ENCRYPTED_MSG_SIZE ->
     Q (0, d) (set_rxsessions (<[i := mkRx (r_snode e) (r_dnode e) RX_ENC1 (Z.land sq 0xF) m (Z.of_nat (length l)) (r_timeout e)]> (rxsessions w)) w)) ->
  wp (assemble i (opened sh iv (seq_flags false true sq :: l) tail) n d) Q w.
Proof.
  intros He Hm HQ. unfold MAX_ENCRYPTED_MSG_SIZE in *. destruct (opened_payload sh iv (seq_flags false true sq) l tail Hi) as [F1 F2]. destruct (flags_bits false sq) as (B1 & B2 & B3).
  unfold assemble. apply wp_bind. eapply wp_rd; [exact F1|]. rewrite B1, B2, B3. cbn [negb].
  replace (n - 20) with (Z.of_nat (length l)) by (unfold n; lia). rewrite (u8_small (Z.of_nat (length l))) by lia. s0.
  apply wp_bind. eapply get_rx_ok; [s0_simpl; by rewrite list_lookup_alter_eq, He|]. s0_simpl. rewrite Nat2Z.id.
  apply wp_bind, wp_rds; [rewrite length_opened by done; cbn [length]; lia|]. rewrite F2. apply wp_bind, wp_wrs; [lia|]. s0.
  specialize (HQ (splice 0 l (msg e))). rewrite take_splice, length_splice in HQ by lia. specialize (HQ eq_refl Hm).
  match goal with |- Q _ (set_rxsessions ?a _) => match type of HQ with Q _ (set_rxsessions ?b _) => replace a with b; [exact HQ|] end end.
  apply list_eq. intros j. destruct (decide (i = j)) as [<-|]; [|by rewrite list_lookup_insert_ne, !list_lookup_alter_ne].
  rewrite list_lookup_insert_eq, !list_lookup_alter_eq, He by (by apply lookup_lt_Some in He). done.
Qed.

Lemma second_ok sq e : rxsessions w !! i = Some e -> r_state e = RX_ENC1 -> seq_nr e = Z.land sq 0xF -> length (msg e) = MAX_ENCRYPTED_MSG_SIZE ->
  0 <= msg_len e <= 26 ->
  (forall d', take (Z.to_nat (msg_len e) + length l) d' = take (Z.to_nat (msg_len e)) (msg e) ++ l -> length d' = RXBUFFER_SIZE ->
     Q (msg_len e + Z.of_nat (length l), d') (set_rxsessions (<[i := set_r_state RX_SESSION_DONE e]> (rxsessions w)) w)) ->
  wp (assemble i (opened sh iv (seq_flags true true sq :: l) tail) n d) Q w.
Proof.
  intros He Hst Hsq Hm Hml HQ. unfold MAX_ENCRYPTED_MSG_SIZE, RXBUFFER_SIZE in *. destruct (opened_payload sh iv (seq_flags true true sq) l tail Hi) as [F1 F2]. destruct (flags_bits true sq) as (B1 & B2 & B3).
  unfold assemble. apply wp_bind. eapply wp_rd; [exact F1|]. rewrite B1, B2, B3. cbn [negb].
  apply wp_bind. eapply get_rx_ok; [exact He|]. rewrite Hst, Hsq, Z.eqb_refl. change (_ || _) with false. cbv iota. s0.
  set (k := Z.to_nat (msg_len e)) in *. replace (n - 20) with (Z.of_nat (length l)) by (unfold n; lia).
  apply wp_bind, wp_rds; [lia|]. assert (Es : sub 0 k (msg e) = take k (msg e)) by (unfold sub; by rewrite drop_0). rewrite Es.
  assert (Lt : length (take k (msg e)) = k) by (rewrite length_take; lia). apply wp_bind, wp_wrs; [lia|].
  unfold rdz. destruct (Z.ltb_spec (Z.of_nat (length l)) 0); [lia|]. rewrite Nat2Z.id.
  apply wp_bind, wp_rds; [rewrite length_opened by done; cbn [length]; lia|]. rewrite F2. apply wp_bind, wp_wrs; [rewrite length_splice; lia|].
  unfold free_rx_session. s0. replace (msg_len e + n - 20) with (msg_len e + Z.of_nat (length l)) by (unfold n; lia). rewrite u8_small by lia.
  specialize (HQ (splice k l (splice 0 (take k (msg e)) d))). rewrite !take_splice, !length_splice in HQ by (rewrite ?length_splice; lia).
  specialize (HQ eq_refl Hd).
  match goal with |- Q _ (set_rxsessions ?a _) => match type of HQ with Q _ (set_rxsessions ?b _) => replace a with b; [exact HQ|] end end.
  apply list_eq. intros j. destruct (decide (i = j)) as [<-|]; [|by rewrite list_lookup_insert_ne, !list_lookup_alter_ne].
  rewrite list_lookup_insert_eq, !list_lookup_alter_eq, He by (by apply lookup_lt_Some in He). done.
Qed.
End Payload.

(** ** The network *)

(** The oldest frame of a trace, and the trace without it. *)
Fixpoint pop (l : list out) : option (ts_param_t * list Z * option tx_callback * list out) :=
  match l with
  | [] => None
  | o :: l =>
      match pop l with
      | Some (p, frame, cb, l') => Some (p, frame, cb, o :: l')
      | None => match o with SendData p frame cb => Some (p, frame, cb, l) | _ => None end
      end
  end.

(** The parameters with which a frame sent to one node arrives there, in the clear as far as the
    radio knows. *)
Definition received (p : ts_param_t) : ts_param_t :=
  Transport.mkParam (snode p) (dnode p) (Transport.sendpoint p) (Transport.dendpoint p) 0 0 NO_SCHEME.

Definition hear (h : Host) (p : ts_param_t) (frame : list Z) : SM unit := security_CommandHandler h (received p) frame (Z.of_nat (length frame)).
Definition call_back (cb : option tx_callback) : SM unit :=
  match cb with
  | Some (noce_get_cb i) => noce_get_callback i TRANSMIT_COMPLETE_OK None
  | Some (msg1_cb i) => msg1_callback i TRANSMIT_COMPLETE_OK None
  | Some (msg2_cb i) => msg2_callback i TRANSMIT_COMPLETE_OK None
  | None => mret tt
  end.

(** Two nodes; a frame of either is heard by the other, then the radio calls back.  Frames travel
    before a timer of half a second expires. *)
Record Net := mkNet { na : S0; nb : S0 }.
Definition running (w : S0) : option nat := first_index (fun s => bool_decide (is_Some (timer s))) (tx_sessions w).

Definition step (ha hb : Host) (s : Net) : res (option Net) :=
  match pop (outs (na s)), pop (outs (nb s)) with
  | Some (p, frame, cb, l), _ =>
      on (hear hb p frame) (nb s) (fun y => on (call_back cb) (set_outs l (na s)) (fun x => Ok (Some (mkNet x y))))
  | None, Some (p, frame, cb, l) =>
      on (hear ha p frame) (na s) (fun x => on (call_back cb) (set_outs l (nb s)) (fun y => Ok (Some (mkNet x y))))
  | None, None =>
      match running (na s), running (nb s) with
      | Some i, _ => on (tx_timeout i) (na s) (fun x => Ok (Some (mkNet x (nb s))))
      | None, Some i => on (tx_timeout i) (nb s) (fun y => Ok (Some (mkNet (na s) y)))
      | None, None => Ok None
      end
  end.

Definition net (fuel : nat) (ha hb : Host) (s : Net) : res Net := iterate (step ha hb) fuel s.

(** ** The nodes *)

(** A node without a transmission. *)
Definition idle_tx (s : sec_tx_session) : Prop := dnode (param s) = 0 /\ timer s = None /\ length (crypted_msg s) = CRYPTED_MSG_SIZE.

Record env (ek ak : list Z) (w : S0) : Prop := mkEnv {
  e_learn : learn_active w = false;
  e_accepts : accepts w = [];
  e_assigned : (Z.land (assigned_keys w) KEY_CLASS_S0 <=? 0) = false;
  e_keys : enckey w = ek /\ authkey w = ak;
  e_table : table_ok w
}.

Lemma env_of ek ak w w' : env ek ak w -> table_ok w' -> learn_active w' = learn_active w -> accepts w' = accepts w ->
  assigned_keys w' = assigned_keys w -> enckey w' = enckey w -> authkey w' = authkey w -> env ek ak w'.
Proof. intros [] ? H1 H2 H3 H4 H5. constructor; rewrite ?H1, ?H2, ?H3, ?H4, ?H5; done. Qed.

Section Exchange.
Context (ek ak : list Z) (a b : Z) (p : ts_param_t) (f usr : Z) (h : Host).
Context (Ha : 0 < a < 256) (Hb : 0 < b < 256) (Hab : a <> b) (Hps : snode p = a) (Hpd : dnode p = b).
Context (Hbad : isNodeBad h a = false /\ isNodeBad h b = false) (Hsec : isNodeSecure h a = true).

(** The sender in state [st] with [dat] left to send, room for [k] nonces, and [ns] not seen before. *)
Record sending (rest : list sec_tx_session) (sq : Z) (st : tx_state_t) (dat : list Z) (k : nat) (prng : list Z) (ns : list (list Z)) (w : S0) : Prop := mkSending {
  sd_env : env ek ak w;
  sd_tx : exists s, tx_sessions w = s :: rest /\ param s = p /\ data s = dat /\ data_len s = Z.of_nat (length dat) /\ state s = st /\
            length (crypted_msg s) = CRYPTED_MSG_SIZE /\ seq s = sq /\ user s = usr /\ callback s = Some f;
  sd_black : length (nonce_blacklist w) = NONCE_BLACKLIST_SIZE /\ 0 <= blacklist_next_elem w < Z.of_nat NONCE_BLACKLIST_SIZE;
  sd_new : Forall (fun n => sec0_is_nonce_blacklisted b a n w = false) ns;
  sd_cleared : cleared b a w;
  sd_free : (k <= free (nonce_table w))%nat;
  sd_prng : prngState w = prng
}.

Lemma u8a : u8 a = a. Proof. apply u8_small. lia. Qed.
Lemma u8b : u8 b = b. Proof. apply u8_small. lia. Qed.

Lemma session_found rest sq st dat k prng ns w : sending rest sq st dat k prng ns w -> get_tx_session_by_node a b w = Some 0%nat.
Proof. intros [_ (s & Es & Ep & _) _ _ _ _ _]. unfold get_tx_session_by_node. rewrite Es. cbn [first_index]. by rewrite Ep, Hpd, Hps, !Z.eqb_refl. Qed.

Lemma send_data_ok q frame cb (Q : bool -> S0 -> Prop) w : accepts w = [] -> Q true (set_outs (SendData q frame cb :: outs w) w) -> wp (send_data q frame cb) Q w.
Proof. intros Hacc HQ. unfold send_data. apply wp_bind. unfold wp at 1, next_accept. rewrite Hacc. s0. exact HQ. Qed.

(** The sender, step by step. *)
Lemma send_ok dat ns w : env ek ak w -> Forall idle_tx (tx_sessions w) -> (1 <= length (tx_sessions w))%nat ->
  length (nonce_blacklist w) = NONCE_BLACKLIST_SIZE -> 0 <= blacklist_next_elem w < Z.of_nat NONCE_BLACKLIST_SIZE ->
  Forall (fun n => sec0_is_nonce_blacklisted b a n w = false) ns -> cleared b a w ->
  wp (sec0_send_data p dat (Z.of_nat (length dat)) f usr) (fun r w' => r = true /\ outs w' = SendData p [COMMAND_CLASS_SECURITY; SECURITY_NONCE_GET] (Some (noce_get_cb 0)) :: outs w /\
     sending (tail (tx_sessions w)) (u8 (last_seq w + 1)) NONCE_GET dat (free (nonce_table w)) (prngState w) ns w') w.
Proof.
  intros He Hi Hlen Hbl Hbn Hns Hc. unfold sec0_send_data. s0. rewrite Hps, Hpd, u8a, u8b.
  destruct (tx_sessions w) as [|s rest] eqn:Es; [cbn in Hlen; lia|]. assert (Hnone : get_tx_session_by_node a b w = None).
  { unfold get_tx_session_by_node. rewrite Es. clear -Hi Hb. induction Hi as [|x l [Hx _] _ IH]; [done|]. cbn [first_index]. rewrite Hx. destruct (Z.eqb_spec 0 b); [lia|]. by rewrite IH. }
  rewrite Hnone. apply list.Forall_cons in Hi as [(Hd & Ht & Hcm) Hrest]. cbn [first_index]. rewrite Hd. cbn [Z.eqb]. unfold get_seq. s0.
  apply wp_bind. s0. rewrite Es. unfold tx_session_state_set. apply wp_bind. s0. apply wp_bind. eapply get_tx_ok; [reflexivity|]. s0.
  apply wp_bind, send_data_ok; [apply He|]. cbn [negb]. s0. rewrite (e_learn _ _ _ He). s0. split; [done|]. split; [done|]. constructor; try done.
  - eapply env_of; [exact He|..]; try done. apply He.
  - by eexists.
Qed.

Section Phases.
Context (rest : list sec_tx_session) (sq : Z).
Abbreviation in_state := (sending rest sq).

Lemma nonce_get_sent dat k prng ns w : in_state NONCE_GET dat k prng ns w ->
  wp (call_back (Some (noce_get_cb 0))) (fun _ w' => in_state NONCE_GET_SENT dat k prng ns w' /\ outs w' = outs w) w.
Proof.
  intros [He (s & Es & Hp & Hdat & Hdl & Hst & Hcm & Hsq & Hu & Hcb) Hbl Hns Hc Hf Hpr]. unfold call_back, noce_get_callback. s0.
  apply wp_bind. eapply get_tx_ok; [rewrite Es; reflexivity|]. s0. rewrite Hst, bool_decide_eq_true_2 by done. cbn [Z.eqb TRANSMIT_COMPLETE_OK].
  unfold tx_session_state_set. s0. rewrite (e_learn _ _ _ He). s0. split; [|done]. rewrite Es. constructor; try done.
  - eapply env_of; [exact He|..]; try done. apply He.
  - by eexists.
Qed.

Lemma msg1_more dat k prng ns w : in_state ENC_MSG dat k prng ns w -> dat <> [] ->
  wp (call_back (Some (msg1_cb 0))) (fun _ w' => in_state ENC_MSG_SENT dat k prng ns w' /\ outs w' = outs w) w.
Proof.
  intros [He (s & Es & Hp & Hdat & Hdl & Hst & Hcm & Hsq & Hu & Hcb) Hbl Hns Hc Hf Hpr] Hne. unfold call_back, msg1_callback, msg_callback.
  apply wp_bind. eapply get_tx_ok; [rewrite Es; reflexivity|]. s0. rewrite Hst, bool_decide_eq_true_2 by done. s0. cbn [Z.eqb TRANSMIT_COMPLETE_OK andb].
  rewrite bool_decide_eq_false_2 by (by intros [? ?]). s0.
  unfold tx_session_state_set. s0. apply wp_bind. eapply get_tx_ok; [rewrite Es; reflexivity|]. s0. rewrite Hdl.
  destruct (Z.eqb_spec (Z.of_nat (length dat)) 0); [destruct dat; [done|cbn in *; lia]|]. s0. split; [|done]. rewrite Es. constructor; try done.
  - eapply env_of; [exact He|..]; try done. apply He.
  - by eexists.
Qed.

(** The session is over. *)
Record sent (w w' : S0) : Prop := mkSent {
  st_env : env ek ak w';
  st_tx : Forall idle_tx (tx_sessions w') /\ (1 <= length (tx_sessions w'))%nat;
  st_black : length (nonce_blacklist w') = NONCE_BLACKLIST_SIZE /\ 0 <= blacklist_next_elem w' < Z.of_nat NONCE_BLACKLIST_SIZE;
  st_cleared : cleared b a w';
  st_outs : exists ts, outs w' = Callback f usr TRANSMIT_COMPLETE_OK ts :: outs w
}.

Lemma over_ok st dat k prng ns w : Forall idle_tx rest -> in_state st dat k prng ns w -> wp (session_over 0 TX_DONE) (fun _ w' => sent w w') w.
Proof.
  intros Hr [He (s & Es & Hp & Hdat & Hdl & Hst & Hcm & Hsq & Hu & Hcb) Hbl Hns Hc Hf Hpr]. unfold session_over. s0.
  apply wp_bind. eapply get_tx_ok; [rewrite Es; reflexivity|]. s0. rewrite Hcb, bool_decide_eq_true_2 by done. s0. rewrite Es, Hu. constructor; try done.
  - eapply env_of; [exact He|..]; try done. apply He.
  - split; [by apply list.Forall_cons|cbn; lia].
  - by eexists.
Qed.

Lemma msg_last st cb dat k prng ns w : Forall idle_tx rest -> in_state st dat k prng ns w ->
  (st = ENC_MSG /\ cb = msg1_cb 0 /\ dat = []) \/ (st = ENC_MSG2 /\ cb = msg2_cb 0) ->
  wp (call_back (Some cb)) (fun _ w' => sent w w') w.
Proof.
  intros Hr Hin Hcase. pose proof Hin as [He (s & Es & Hp & Hdat & Hdl & Hst & Hcm & Hsq & Hu & Hcb) Hbl Hns Hc Hf Hpr].
  assert (Hsent : forall st', state s = st -> forall w1, w1 = set_tx_sessions (set_transition_time (clock w) (set_state st' (set_tx_code TRANSMIT_COMPLETE_OK s)) :: rest) w ->
    wp (session_over 0 TX_DONE) (fun _ w' => sent w w') w1).
  { intros st' _ w1 ->. eapply wp_mono; [apply (over_ok st' dat k prng ns); [done|]|].
    - constructor; try done; [eapply env_of; [exact He|..]; try done; apply He|by eexists].
    - intros _ w' []. by constructor. }
  destruct Hcase as [(-> & -> & ->)|(-> & ->)]; unfold call_back, msg1_callback, msg2_callback, msg_callback;
    (apply wp_bind; eapply get_tx_ok; [rewrite Es; reflexivity|]); s0; (rewrite Hst, bool_decide_eq_true_2 by done); s0; cbn [Z.eqb TRANSMIT_COMPLETE_OK andb];
    (rewrite bool_decide_eq_false_2 by (by intros [? ?])); s0; unfold tx_session_state_set; s0.
  - apply wp_bind. eapply get_tx_ok; [rewrite Es; reflexivity|]. s0. rewrite Hdl. cbn [length Z.of_nat Z.eqb]. eapply Hsent; [done|]. by rewrite Es.
  - eapply Hsent; [done|]. by rewrite Es.
Qed.

(** A new nonce is kept out of the next ones. *)
Lemma blacklist_ok n (Q : unit -> S0 -> Prop) w : length (nonce_blacklist w) = NONCE_BLACKLIST_SIZE -> 0 <= blacklist_next_elem w < Z.of_nat NONCE_BLACKLIST_SIZE ->
  (forall l x, length l = NONCE_BLACKLIST_SIZE -> 0 <= x < Z.of_nat NONCE_BLACKLIST_SIZE ->
     (forall m, m <> n -> sec0_is_nonce_blacklisted b a m w = false -> sec0_is_nonce_blacklisted b a m (set_nonce_blacklist l w) = false) ->
     Q tt (set_blacklist_next_elem x (set_nonce_blacklist l w))) -> wp (sec0_blacklist_add_nonce b a n) Q w.
Proof.
  intros Hl Hx HQ. unfold sec0_blacklist_add_nonce. s0. apply wp_bind, wp_wr; [unfold NONCE_BLACKLIST_SIZE in *; lia|]. s0. apply HQ.
  - by rewrite length_insert.
  - apply Z.mod_pos_bound. done.
  - intros m Hm H. unfold sec0_is_nonce_blacklisted in *. s0_simpl. apply not_true_iff_false. rewrite existsb_exists. intros (e & He & Hb').
    apply not_true_iff_false in H. apply H. rewrite existsb_exists. exists e. split; [|done]. apply list_elem_of_In in He. apply list_elem_of_In.
    apply list_elem_of_lookup in He as [j Hj]. destruct (decide (Z.to_nat (blacklist_next_elem w) = j)) as [<-|Hne].
    + rewrite list_lookup_insert_eq in Hj by (unfold NONCE_BLACKLIST_SIZE in *; lia). injection Hj as <-. cbn in Hb'. rewrite bool_decide_eq_false_2 in Hb' by congruence. done.
    + rewrite list_lookup_insert_ne in Hj by done. by eapply list_elem_of_lookup_2.
Qed.

(** The frame that carries the next part of [dat]. *)
Definition next_frame (prng n : list Z) (pass2 : bool) (dat : list Z) : list Z :=
  s0_frame ek ak (output prng) n (frame_cmd dat) a b (seq_flags pass2 (more dat) sq :: part dat).

Lemma enc_ok st pass2 cb dat k prng ns n w : env ek ak w ->
  (exists s, tx_sessions w = s :: rest /\ param s = p /\ data s = dat /\ data_len s = Z.of_nat (length dat) /\ state s = st /\
     length (crypted_msg s) = CRYPTED_MSG_SIZE /\ seq s = sq /\ user s = usr /\ callback s = Some f) ->
  length (nonce_blacklist w) = NONCE_BLACKLIST_SIZE -> 0 <= blacklist_next_elem w < Z.of_nat NONCE_BLACKLIST_SIZE ->
  Forall (fun n => sec0_is_nonce_blacklisted b a n w = false) ns -> (S k <= free (nonce_table w))%nat -> prngState w = prng ->
  get_nonce b a 0 true w = Some n -> get_nonce b a (at_ (output prng) 0) false w = None -> (length dat <= 255)%nat -> ordinary dat ->
  wp (send_encrypted 0 pass2 cb) (fun _ w' => in_state st (drop 26 dat) k (next_state prng) ns w' /\ outs w' = SendData p (next_frame prng n pass2 dat) (Some cb) :: outs w) w.
Proof.
  intros He (s & Es & Hp & Hdat & Hdl & Hst & Hcm & Hsq & Hu & Hcb) Hbl Hbn Hns Hf Hpr Hn Hfresh Hlen Hord. unfold send_encrypted. s0. rewrite Es.
  apply wp_bind. eapply (encrypt_ok 0 (set_timer None s) n); s0_simpl; rewrite ?Hdat, ?Hp, ?Hps, ?Hpd, ?u8a, ?u8b, ?Hpr; try done.
  - apply He.
  - intros c t key v Lc Ec Hc Ht Hfr. set (l := part dat) in *. destruct (Z.eqb_spec (Z.of_nat (length l) + 20) 0); [lia|].
    apply wp_bind. eapply get_tx_ok; [reflexivity|]. s0. replace (Z.to_nat (Z.of_nat (length l) + 20)) with (length l + 20)%nat by lia.
    assert (Ll : (length l <= 26)%nat) by (unfold l, part; rewrite length_take; lia). apply wp_bind, wp_rds; [lia|]. unfold sub. rewrite drop_0, Ec.
    apply wp_bind, send_data_ok; [apply He|]. s0. split; [|rewrite Hp; destruct (e_keys _ _ _ He) as [-> ->]; rewrite Hsq; done].
    constructor; s0_simpl; try done.
    + by eapply env_of.
    + eexists. split; [reflexivity|]. cbn. rewrite Hdat. repeat split; try done.
    + lia.
Qed.

(** The receiver reports a nonce. *)
Definition reply (st : tx_state_t) : bool := bool_decide (st = ENC_MSG_SENT).
Definition reply_state (st : tx_state_t) : tx_state_t := if reply st then ENC_MSG2 else ENC_MSG.
Definition reply_cb (st : tx_state_t) : tx_callback := if reply st then msg2_cb 0 else msg1_cb 0.

Lemma handler_report q n (Q : unit -> S0 -> Prop) w : env ek ak w -> Transport.scheme q = NO_SCHEME -> snode q = b -> dnode q = a -> length n = 8%nat ->
  wp (sec0_register_nonce b a n) Q w ->
  wp (security_CommandHandler h q ([COMMAND_CLASS_SECURITY; SECURITY_NONCE_REPORT] ++ n) (Z.of_nat (length ([COMMAND_CLASS_SECURITY; SECURITY_NONCE_REPORT] ++ n)))) Q w.
Proof.
  intros He Hq Hs Hd Hn HQ. unfold security_CommandHandler. s0. apply wp_bind. eapply wp_rd; [reflexivity|]. rewrite (e_learn _ _ _ He), (e_assigned _ _ _ He). s0. cbn [negb andb Z.eqb COMMAND_CLASS_SECURITY Pos.eqb].
  apply wp_bind. eapply wp_rd; [reflexivity|]. cbn [negb andb Z.eqb Pos.eqb SECURITY_NONCE_REPORT NETWORK_KEY_SET SECURITY_SCHEME_GET SECURITY_SCHEME_INHERIT SECURITY_SCHEME_REPORT NETWORK_KEY_VERIFY SECURITY_COMMANDS_SUPPORTED_GET SECURITY_NONCE_GET].
  rewrite length_app, Hn, Hq, Hs, Hd, u8a, u8b. cbn [length Nat.add Z.of_nat]. change (_ && _) with true. cbv iota. apply wp_bind, wp_rds; [rewrite length_app, Hn; cbn [length]; lia|].
  unfold sub. rewrite drop_app_length' by done. rewrite take_ge by lia. exact HQ.
Qed.

Lemma report_ok st dat k prng n ns q w : in_state st dat (S (S k)) prng (n :: ns) w -> st = NONCE_GET_SENT \/ st = ENC_MSG_SENT ->
  Transport.scheme q = NO_SCHEME -> snode q = b -> dnode q = a -> length n = 8%nat -> at_ (output prng) 0 <> at_ n 0 -> Forall (fun m => m <> n) ns ->
  (length dat <= 255)%nat -> ordinary dat ->
  let report := [COMMAND_CLASS_SECURITY; SECURITY_NONCE_REPORT] ++ n in
  wp (security_CommandHandler h q report (Z.of_nat (length report))) (fun _ w' => in_state (reply_state st) (drop 26 dat) k (next_state prng) ns w' /\
    outs w' = SendData p (next_frame prng n (reply st) dat) (Some (reply_cb st)) :: outs w) w.
Proof.
  intros Hin Hst Hq Hqs Hqd Ln Hne Hns Hlen Hord report. pose proof (session_found _ _ _ _ _ _ _ _ Hin) as Hfound.
  pose proof Hin as [He (s & Es & Hp & Hdat & Hdl & Hss & Hcm & Hsq & Hu & Hcb) [Hbl Hbn] Hnew Hc Hf Hpr]. apply list.Forall_cons in Hnew as [Hnb Hnew].
  apply handler_report; try done. unfold sec0_register_nonce. s0. rewrite Hnb, Hfound.
  apply wp_bind, register_new; [done|done|apply He|lia|]. intros t Ht Hfree Hother Hget. apply wp_bind, blacklist_ok; [done|done|]. intros l x Hl Hx Hbk. s0.
  apply wp_bind. eapply get_tx_ok; [s0_simpl; rewrite Es; reflexivity|]. rewrite Hss.
  assert (Hgoal : forall st' pass2 cb, wp (tx_session_state_set 0 st') = wp (w ← get; mod_tx 0 (fun s => set_transition_time (clock w) (set_state st' s));; send_encrypted 0 pass2 cb) ->
     wp (tx_session_state_set 0 st') (fun _ w' => in_state st' (drop 26 dat) k (next_state prng) ns w' /\ outs w' = SendData p (next_frame prng n pass2 dat) (Some cb) :: outs w)
       (set_blacklist_next_elem x (set_nonce_blacklist l (set_nonce_table t w)))).
  { intros st' pass2 cb ->. s0. rewrite Es. eapply wp_mono; [apply (enc_ok st' pass2 cb dat k prng ns n)|].
    - by eapply env_of.
    - by eexists.
    - done.
    - done.
    - apply list.Forall_forall. intros m Hm. rewrite list.Forall_forall in Hnew, Hns. by apply (Hbk m (Hns m Hm)), Hnew.
    - s0_simpl. lia.
    - done.
    - apply (Hget 0 true).
    - etransitivity; [apply (Hget (at_ (output prng) 0) false)|]. cbn [orb]. by destruct (Z.eqb_spec (at_ n 0) (at_ (output prng) 0)).
    - done.
    - done.
    - intros [] w' H. exact H. }
  destruct Hst as [-> | ->]; [apply (Hgoal ENC_MSG false (msg1_cb 0))|apply (Hgoal ENC_MSG2 true (msg2_cb 0))]; done.
Qed.
End Phases.

(** The receiver: its receive sessions, room for [k] nonces; and the nonce it has issued. *)
Definition idle_rx (e : rx_session_t) : Prop := r_state e = RX_SESSION_DONE /\ length (msg e) = MAX_ENCRYPTED_MSG_SIZE.

Context (now : Z).

Record receiving (rx : list rx_session_t) (k : nat) (prng : list Z) (w : S0) : Prop := mkReceiving {
  rc_env : env ek ak w;
  rc_rx : rxsessions w = rx;
  rc_free : (k <= free (nonce_table w))%nat;
  rc_prng : prngState w = prng;
  rc_clock : clock w = now;
  rc_running : running w = None
}.

Definition issued (n : list Z) (w : S0) : Prop :=
  forall ri any, get_nonce b a ri any w = if any || (at_ n 0 =? ri) then Some n else None.

Lemma nonce_sent sel q rx k prng w : snode q = a -> dnode q = b -> receiving rx (S k) prng w -> cleared b a w ->
  wp (sec0_send_nonce sel q) (fun _ w' => receiving rx k (next_state prng) w' /\ issued (output prng) w' /\
    outs w' = SendData (ts_param_make_reply sel q) ([COMMAND_CLASS_SECURITY; SECURITY_NONCE_REPORT] ++ output prng) None :: outs w) w.
Proof.
  intros Hs Hd [He Hrx Hf Hpr Hnow Hrun] Hc. unfold sec0_send_nonce. rewrite Hs, Hd, u8a, u8b. apply wp_bind, fresh_ok; [by apply cleared_none|].
  apply wp_bind, send_data_ok; [apply He|]. apply wp_bind, register_new; [apply length_output|exact Hc|apply He|s0_simpl; lia|]. intros t Ht Hfree _ Hget. s0. rewrite Hpr in *.
  repeat split; try done; s0_simpl; try apply He.
  cbn [nonce_table set_outs set_prngState] in Hfree. lia.
Qed.

Lemma asked_ok q rx k prng w : snode q = a -> dnode q = b -> Transport.scheme q = NO_SCHEME -> receiving rx (S k) prng w -> cleared b a w ->
  wp (security_CommandHandler h q [COMMAND_CLASS_SECURITY; SECURITY_NONCE_GET] 2) (fun _ w' => receiving rx k (next_state prng) w' /\ issued (output prng) w' /\
    outs w' = SendData (ts_param_make_reply (ZW_SendData_scheme_select h) q) ([COMMAND_CLASS_SECURITY; SECURITY_NONCE_REPORT] ++ output prng) None :: outs w) w.
Proof.
  intros Hs Hd Hq Hr Hc. destruct (rc_env _ _ _ _ Hr) as [E1 E2 E3 E4 E5]. unfold security_CommandHandler. s0. apply wp_bind. eapply wp_rd; [reflexivity|]. rewrite E1, E3. s0. cbn [negb andb Z.eqb COMMAND_CLASS_SECURITY Pos.eqb].
  apply wp_bind. eapply wp_rd; [reflexivity|]. cbn [negb andb Z.eqb Pos.eqb NETWORK_KEY_SET SECURITY_SCHEME_GET SECURITY_SCHEME_INHERIT SECURITY_SCHEME_REPORT NETWORK_KEY_VERIFY SECURITY_COMMANDS_SUPPORTED_GET SECURITY_NONCE_GET].
  rewrite Hq, Z.eqb_refl. by apply nonce_sent.
Qed.

(** An encapsulated message. *)
Lemma handler_encap q sh body n (Q : unit -> S0 -> Prop) w : env ek ak w -> sh = SECURITY_MESSAGE_ENCAPSULATION \/ sh = SECURITY_MESSAGE_ENCAPSULATION_NONCE_GET ->
  wp (message_encapsulation h q (COMMAND_CLASS_SECURITY :: sh :: body) n sh) Q w -> wp (security_CommandHandler h q (COMMAND_CLASS_SECURITY :: sh :: body) n) Q w.
Proof.
  intros [E1 E2 E3 E4 E5] Hsh HQ. unfold security_CommandHandler. s0. apply wp_bind. eapply wp_rd; [reflexivity|]. rewrite E1, E3. s0. cbn [negb andb Z.eqb COMMAND_CLASS_SECURITY Pos.eqb].
  apply wp_bind. eapply wp_rd; [reflexivity|]. destruct Hsh as [-> | ->]; exact HQ.
Qed.

(** The receive sessions that are found. *)
Definition started (now : Z) (e : rx_session_t) : rx_session_t := mkRx a b RX_INIT (seq_nr e) (msg e) (msg_len e) (now + CLOCK_SECOND * 10).

Lemma rx_new e rest (Q : option nat -> S0 -> Prop) w : rxsessions w = e :: rest -> Forall idle_rx (e :: rest) ->
  Q (Some 0%nat) (set_rxsessions (started (clock w) e :: rest) w) -> wp (rx_session_for a b) Q w.
Proof.
  intros E Hi HQ. unfold rx_session_for. s0. assert (Hn : get_rx_session_by_nodes a b w = None).
  { unfold get_rx_session_by_nodes. rewrite E. clear -Hi. induction Hi as [|x l [Hx _] _ IH]; [done|]. cbn [first_index]. assert (Hf : is_free (clock w) x = true) by (unfold is_free; by rewrite Hx). rewrite Hf. cbn [negb andb]. by rewrite IH. }
  rewrite Hn. apply list.Forall_cons in Hi as [[He _] _]. apply wp_bind. unfold new_rx_session. s0. rewrite E. cbn [first_index]. assert (Hf : is_free (clock w) e = true) by (unfold is_free; by rewrite He). rewrite Hf. s0. rewrite E. exact HQ.
Qed.

Lemma rx_found e rest (Q : option nat -> S0 -> Prop) w : rxsessions w = e :: rest -> r_state e <> RX_SESSION_DONE -> r_snode e = a -> r_dnode e = b -> clock w <= r_timeout e ->
  Q (Some 0%nat) w -> wp (rx_session_for a b) Q w.
Proof.
  intros E Hst Hs Hd Ht HQ. unfold rx_session_for. s0. unfold get_rx_session_by_nodes. rewrite E. cbn [first_index]. unfold is_free. rewrite bool_decide_eq_false_2 by done.
  destruct (Z.ltb_spec (r_timeout e) (clock w)); [lia|]. rewrite Hs, Hd, !Z.eqb_refl. cbn [orb negb andb]. s0. exact HQ.
Qed.

(** What follows the decryption. *)
Definition after (q : ts_param_t) (sh len : Z) (rxBuffer : list Z) : SM unit :=
  q ← (if len =? 0 then mret q
       else
         (if isNodeSecure h (snode q) then mret tt
          else secure_learnIfaceI_register_scheme (snode q) (Z.shiftl 1 SECURITY_SCHEME_0));;
         bs ← rds rxBuffer 0 (Z.to_nat len);
         emit (ApplicationCommandHandlerZIP (with_scheme q SECURITY_SCHEME_0) bs);;
         mret (with_scheme q SECURITY_SCHEME_0));
  if sh =? SECURITY_MESSAGE_ENCAPSULATION_NONCE_GET then sec0_send_nonce (ZW_SendData_scheme_select h) q else mret tt.

Lemma heard_ok q sh iv n plain i rx (Q : unit -> S0 -> Prop) w : env ek ak w -> snode q = a -> dnode q = b ->
  sh = SECURITY_MESSAGE_ENCAPSULATION \/ sh = SECURITY_MESSAGE_ENCAPSULATION_NONCE_GET ->
  length iv = 8%nat -> length n = 8%nat -> (1 <= length plain <= 27)%nat -> issued n w ->
  (forall t Q', Q' (Some i) (set_rxsessions rx (set_nonce_table t w)) -> wp (rx_session_for a b) Q' (set_nonce_table t w)) ->
  (forall t v key d tail, Forall (fun e => live b a e = false) t -> Forall (fun e => length (nonce e) = 8%nat) t ->
     (free (nonce_table w) <= free t)%nat -> length d = RXBUFFER_SIZE ->
     wp (assemble i (opened sh iv plain tail) (19 + Z.of_nat (length plain)) d) (fun r => wp (after q sh r.1 r.2) Q) (set_aes_iv v (set_aes_key key (set_rxsessions rx (set_nonce_table t w))))) ->
  let frame := s0_frame ek ak iv n sh a b plain in
  wp (security_CommandHandler h q frame (Z.of_nat (length frame))) Q w.
Proof.
  intros He Hs Hd Hsh Hi Hn Hp Hiss Hrx HQ frame. unfold frame at 1, s0_frame at 1. cbn [app]. apply handler_encap; [done|done|].
  change (COMMAND_CLASS_SECURITY :: sh :: _) with frame. unfold message_encapsulation. s0. rewrite Hs, Hd. destruct Hbad as [-> ->]. cbn [orb]. rewrite andb_false_r, u8a, u8b.
  unfold frame. destruct (e_keys _ _ _ He) as [<- <-].
  rewrite <- (app_nil_r (s0_frame _ _ _ _ _ _ _ _)) at 1. apply wp_bind. eapply decrypt_ok; [done|done|done|done| |exact Hrx|].
  - rewrite Hiss, Z.eqb_refl. done.
  - intros t v key d' tail Hc Ht Hfree Hd'. rewrite length_s0_frame by done. replace (Z.of_nat (19 + length plain)) with (19 + Z.of_nat (length plain)) by lia.
    eapply wp_mono; [apply HQ; try done; apply Ht, He|]. intros [len d''] w' H. unfold after in H. rewrite Hs in H. exact H.
Qed.

(** The whole message in one frame. *)
Lemma whole_heard q e rest k prng n iv sq dat w : receiving (e :: rest) k prng w -> Forall idle_rx (e :: rest) -> issued n w ->
  snode q = a -> dnode q = b -> length n = 8%nat -> length iv = 8%nat -> (1 <= length dat <= 26)%nat ->
  let frame := s0_frame ek ak iv n (frame_cmd dat) a b (seq_flags false (more dat) sq :: part dat) in
  wp (security_CommandHandler h q frame (Z.of_nat (length frame))) (fun _ w' => (exists e', Forall idle_rx (e' :: rest) /\ receiving (e' :: rest) k prng w') /\ cleared b a w' /\
     outs w' = ApplicationCommandHandlerZIP (with_scheme q SECURITY_SCHEME_0) dat :: outs w) w.
Proof.
  intros [He Hrx Hf Hpr Hnow Hrun] Hidle Hiss Hs Hd Hn Hi Hl frame. assert (Em : more dat = false) by (unfold more; apply Nat.ltb_ge; lia).
  assert (Ep : part dat = dat) by (unfold part; rewrite take_ge; [done|lia]). unfold frame, frame_cmd. rewrite Em, Ep. cbn [seq_flags].
  apply heard_ok with 0%nat (started (clock w) e :: rest); try done; [by left|cbn [length]; lia| |].
  - intros t Q' H. by eapply rx_new.
  - intros t v key d tail Hc Ht Hfree Hd'. cbn [length]. replace (19 + Z.of_nat (S (length dat))) with (20 + Z.of_nat (length dat)) by lia.
    apply whole_ok; [done|lia|done|]. intros d' Htake Hd''. cbn [fst snd]. unfold after. destruct (Z.eqb_spec (Z.of_nat (length dat)) 0); [lia|]. rewrite Hs, Hsec, Nat2Z.id. apply wp_bind. s0.
    apply wp_bind, wp_rds; [unfold RXBUFFER_SIZE in *; lia|]. unfold sub. rewrite drop_0, Htake. s0. change (_ =? _) with false. cbv iota. s0.
    repeat split; try done; try apply He.
    apply list.Forall_cons in Hidle as [[Hm1 Hm2] Hr]. exists (set_r_state RX_SESSION_DONE (started (clock w) e)). split; [apply list.Forall_cons; by split|]. split; [by eapply env_of|done| |done|done|done]. s0_simpl. lia.
Qed.

(** The first of two frames, and the second. *)
Definition half (sq : Z) (l : list Z) (e : rx_session_t) : Prop :=
  r_snode e = a /\ r_dnode e = b /\ r_state e = RX_ENC1 /\ seq_nr e = Z.land sq 0xF /\ length (msg e) = MAX_ENCRYPTED_MSG_SIZE /\
  msg_len e = Z.of_nat (length l) /\ take (length l) (msg e) = l /\ now <= r_timeout e.

Lemma first_heard q e rest k prng n iv sq dat w : receiving (e :: rest) (S k) prng w -> Forall idle_rx (e :: rest) -> issued n w ->
  snode q = a -> dnode q = b -> length n = 8%nat -> length iv = 8%nat -> (26 < length dat)%nat ->
  let frame := s0_frame ek ak iv n (frame_cmd dat) a b (seq_flags false (more dat) sq :: part dat) in
  wp (security_CommandHandler h q frame (Z.of_nat (length frame))) (fun _ w' => (exists e', half sq (part dat) e' /\ receiving (e' :: rest) k (next_state prng) w') /\
     issued (output prng) w' /\
     outs w' = SendData (ts_param_make_reply (ZW_SendData_scheme_select h) q) ([COMMAND_CLASS_SECURITY; SECURITY_NONCE_REPORT] ++ output prng) None :: outs w) w.
Proof.
  intros [He Hrx Hf Hpr Hnow Hrun] Hidle Hiss Hs Hd Hn Hi Hl frame. assert (Em : more dat = true) by (unfold more; by apply Nat.ltb_lt).
  unfold frame, frame_cmd. rewrite Em. set (l := part dat). assert (Ll : length l = 26%nat) by (unfold l, part; rewrite length_take; lia). pose proof Hidle as [[_ Hm] _]%list.Forall_cons.
  apply heard_ok with 0%nat (started (clock w) e :: rest); try done; [by right|cbn [length]; lia| |].
  - intros t Q' H. by eapply rx_new.
  - intros t v key d tail Hc Ht Hfree Hd'. cbn [length]. replace (19 + Z.of_nat (S (length l))) with (20 + Z.of_nat (length l)) by lia.
    eapply first_part_ok; [done|lia|done|reflexivity|done|]. intros m Htake Lm. cbn [fst snd]. unfold after. cbn [Z.eqb]. s0. cbn [Z.eqb Pos.eqb SECURITY_MESSAGE_ENCAPSULATION_NONCE_GET].
    eapply wp_mono; [apply (nonce_sent _ _ (mkRx a b RX_ENC1 (Z.land sq 15) m (Z.of_nat (length l)) (clock w + CLOCK_SECOND * 10) :: rest) k prng); [done|done| |done]|].
    + split; [by eapply env_of|done|s0_simpl; lia|done|done|done].
    + intros [] w' (Hr & Hi' & Ho). split; [|done]. eexists. split; [|exact Hr]. repeat split; try done. s0_simpl. unfold CLOCK_SECOND. lia.
Qed.

Lemma second_heard q e rest k prng n iv sq l dat w : receiving (e :: rest) k prng w -> half sq l e -> Forall idle_rx rest -> issued n w ->
  snode q = a -> dnode q = b -> length n = 8%nat -> length iv = 8%nat -> (1 <= length l <= 26)%nat -> (1 <= length dat <= 26)%nat ->
  let frame := s0_frame ek ak iv n (frame_cmd dat) a b (seq_flags true (more dat) sq :: part dat) in
  wp (security_CommandHandler h q frame (Z.of_nat (length frame))) (fun _ w' => (exists e', Forall idle_rx (e' :: rest) /\ receiving (e' :: rest) k prng w') /\ cleared b a w' /\
     outs w' = ApplicationCommandHandlerZIP (with_scheme q SECURITY_SCHEME_0) (l ++ dat) :: outs w) w.
Proof.
  intros [He Hrx Hf Hpr Hnow Hrun] (H1 & H2 & H3 & H4 & H5 & H6 & H7 & H8) Hidle Hiss Hs Hd Hn Hi Hl1 Hl frame. assert (Em : more dat = false) by (unfold more; apply Nat.ltb_ge; lia).
  assert (Ep : part dat = dat) by (unfold part; rewrite take_ge; [done|lia]). unfold frame, frame_cmd. rewrite Em, Ep.
  apply heard_ok with 0%nat (e :: rest); try done; [by left|cbn [length]; lia| |].
  - intros t Q' H. eapply rx_found; [exact Hrx|by rewrite H3|done|done|s0_simpl; lia|]. rewrite <- Hrx in H. exact H.
  - intros t v key d tail Hc Ht Hfree Hd'. cbn [length]. replace (19 + Z.of_nat (S (length dat))) with (20 + Z.of_nat (length dat)) by lia.
    change (seq_flags true false sq) with (seq_flags true true sq). eapply second_ok; [done|lia|done|reflexivity|done|done|done|lia|]. rewrite H6, Nat2Z.id, H7. intros d' Htake Hd''.
    cbn [fst snd]. unfold after. destruct (Z.eqb_spec (Z.of_nat (length l) + Z.of_nat (length dat)) 0); [lia|]. rewrite Hs, Hsec. apply wp_bind. s0.
    replace (Z.to_nat (Z.of_nat (length l) + Z.of_nat (length dat))) with (length l + length dat)%nat by lia.
    apply wp_bind, wp_rds; [unfold RXBUFFER_SIZE in *; lia|]. unfold sub. rewrite drop_0, Htake. s0. change (_ =? _) with false. cbv iota. s0.
    repeat split; try done; try apply He.
    exists (set_r_state RX_SESSION_DONE e). split; [apply list.Forall_cons; by split|]. split; [by eapply env_of|done| |done|done|done]. s0_simpl. lia.
Qed.
End Exchange.

(** ** One step at a time *)

Section Steps.
Context (ha hb : Host) (s : Net) (P : Net -> Prop).

Lemma a_sends p frame cb l (X Y : S0 -> Prop) : pop (outs (na s)) = Some (p, frame, cb, l) ->
  wp (hear hb p frame) (fun _ => Y) (nb s) -> wp (call_back cb) (fun _ => X) (set_outs l (na s)) ->
  (forall x y, X x -> Y y -> exists s', reaches (step ha hb) (mkNet x y) s' /\ P s') -> exists s', reaches (step ha hb) s s' /\ P s'.
Proof.
  intros E Hh Hc H. destruct (on_wp _ _ (fun y => on (call_back cb) (set_outs l (na s)) (fun x => Ok (Some (mkNet x y)))) _ Hh) as (y & Hy & Ey).
  destruct (on_wp _ _ (fun x => Ok (Some (mkNet x y))) _ Hc) as (x & Hx & Ex). destruct (H x y Hx Hy) as (s' & Hs' & HP). exists s'. split; [|done].
  eapply rtc_l; [|exact Hs']. unfold step. rewrite E. by rewrite Ey, Ex.
Qed.

Lemma b_sends p frame l (X : S0 -> Prop) : pop (outs (na s)) = None -> pop (outs (nb s)) = Some (p, frame, None, l) ->
  wp (hear ha p frame) (fun _ => X) (na s) ->
  (forall x, X x -> exists s', reaches (step ha hb) (mkNet x (set_outs l (nb s))) s' /\ P s') -> exists s', reaches (step ha hb) s s' /\ P s'.
Proof.
  intros E1 E2 Hh H. destruct (on_wp _ _ (fun x => on (call_back None) (set_outs l (nb s)) (fun y => Ok (Some (mkNet x y)))) _ Hh) as (x & Hx & Ex).
  destruct (H x Hx) as (s' & Hs' & HP). exists s'. split; [|done]. eapply rtc_l; [|exact Hs']. unfold step. by rewrite E1, E2, Ex.
Qed.
End Steps.

Lemma pop_sent p frame cb l : pop l = None -> pop (SendData p frame cb :: l) = Some (p, frame, cb, l).
Proof. intros H. cbn [pop]. by rewrite H. Qed.

(** A node that can send, and one that can receive. *)
Record sender (ek ak : list Z) (w : S0) : Prop := mkSender {
  s_env : env ek ak w;
  s_tx : Forall idle_tx (tx_sessions w) /\ (1 <= length (tx_sessions w))%nat;
  s_black : length (nonce_blacklist w) = NONCE_BLACKLIST_SIZE /\ 0 <= blacklist_next_elem w < Z.of_nat NONCE_BLACKLIST_SIZE;
  s_outs : pop (outs w) = None
}.

Record receiver (ek ak : list Z) (w : S0) : Prop := mkReceiver {
  v_env : env ek ak w;
  v_rx : Forall idle_rx (rxsessions w) /\ (1 <= length (rxsessions w))%nat;
  v_running : running w = None;
  v_outs : pop (outs w) = None
}.

Lemma idle_running w : Forall idle_tx (tx_sessions w) -> running w = None.
Proof. unfold running. intros H. induction H as [|s l (_ & Ht & _) _ IH]; [done|]. cbn [first_index]. rewrite Ht. cbn. by rewrite IH. Qed.

(** ** A message is delivered *)

Section Delivery.
Context (ek ak : list Z) (a b : Z) (p : ts_param_t) (f usr : Z) (ha hb : Host).
Context (Ha : 0 < a < 256) (Hb : 0 < b < 256) (Hab : a <> b) (Hps : snode p = a) (Hpd : dnode p = b).
Context (Hbad : isNodeBad hb a = false /\ isNodeBad hb b = false) (Hsec : isNodeSecure hb a = true).

(** How a run ends. *)
Record delivered (dat : list Z) (ox oy : list out) (s : Net) : Prop := mkDelivered {
  d_app : outs (nb s) = ApplicationCommandHandlerZIP (with_scheme (received p) SECURITY_SCHEME_0) dat :: oy;
  d_told : exists ts, outs (na s) = Callback f usr TRANSMIT_COMPLETE_OK ts :: ox;
  d_sender : sender ek ak (na s) /\ cleared b a (na s);
  d_receiver : receiver ek ak (nb s) /\ cleared b a (nb s)
}.

Lemma delivered_over dat ox oy s : delivered dat ox oy s -> step ha hb s = Ok None.
Proof.
  intros [H1 [ts H2] [H3 _] [H4 _]]. unfold step. rewrite (s_outs _ _ _ H3), (v_outs _ _ _ H4), (v_running _ _ _ H4), idle_running; [done|]. apply H3.
Qed.

Abbreviation A := (sending ek ak a b p f usr).
Abbreviation B := (receiving ek ak).

(** The last frame arrives. *)
Lemma last_frame rest sq st cb dat' dat frame k prng ns now x y ox : Forall idle_tx rest -> pop ox = None -> pop (outs y) = None ->
  A rest sq st dat' k prng ns x -> (st = ENC_MSG /\ cb = msg1_cb 0 /\ dat' = []) \/ (st = ENC_MSG2 /\ cb = msg2_cb 0) ->
  outs x = SendData p frame (Some cb) :: ox ->
  wp (hear hb p frame) (fun _ w' => (exists e' rest' k prng, Forall idle_rx (e' :: rest') /\ B now (e' :: rest') k prng w') /\ cleared b a w' /\
     outs w' = ApplicationCommandHandlerZIP (with_scheme (received p) SECURITY_SCHEME_0) dat :: outs y) y ->
  exists s', reaches (step ha hb) (mkNet x y) s' /\ delivered dat ox (outs y) s'.
Proof.
  intros Hr Hox Hoy Hin Hst Ho Hh. eapply a_sends; [cbn [na]; rewrite Ho; by apply pop_sent|exact Hh| |].
  - eapply msg_last; [exact Hr| |exact Hst]. cbn [na]. destruct Hin. constructor; [eapply env_of; [done|..]; try done; apply sd_env0|..]; done.
  - cbn beta. intros x' y' [S1 [S2 S2'] S3 S4 [ts S5]] ((e' & rest' & k' & prng' & Hi & [R1 R2 R3 R4 R5 R6]) & Hc & Hoy').
    exists (mkNet x' y'). split; [apply rtc_refl|]. constructor; cbn [na nb]; [done|by exists ts| |].
    + split; [|done]. constructor; try done. rewrite S5. cbn. by rewrite Hox.
    + split; [|done]. constructor; [done|by rewrite R2; split; [done|cbn; lia]|done|]. rewrite Hoy'. cbn. by rewrite Hoy.
Qed.

(** The receiver's nonce reaches the sender, which sends the next frame. *)
Lemma nonce_arrives rest sq st dat k prng n ns now rx kb prngb sel x y ox oy P : A rest sq st dat (S (S k)) prng (n :: ns) x -> st = NONCE_GET_SENT \/ st = ENC_MSG_SENT ->
  outs x = ox -> pop ox = None -> pop oy = None -> B now rx kb prngb y -> issued a b n y ->
  outs y = SendData (ts_param_make_reply sel (received p)) ([COMMAND_CLASS_SECURITY; SECURITY_NONCE_REPORT] ++ n) None :: oy ->
  length n = 8%nat -> at_ (output prng) 0 <> at_ n 0 -> Forall (fun m => m <> n) ns -> (length dat <= 255)%nat -> ordinary dat ->
  (forall x' y', A rest sq (reply_state st) (drop 26 dat) k (next_state prng) ns x' ->
     outs x' = SendData p (next_frame ek ak a b sq prng n (reply st) dat) (Some (reply_cb st)) :: ox ->
     B now rx kb prngb y' -> issued a b n y' -> outs y' = oy -> exists s', reaches (step ha hb) (mkNet x' y') s' /\ P s') ->
  exists s', reaches (step ha hb) (mkNet x y) s' /\ P s'.
Proof.
  intros Hin Hst Hox Hpx Hpy [R1 R2 R3 R4 R5 R6] Hiss Hoy Hn Hne Hns Hlen Hord H. eapply b_sends; [cbn [na]; by rewrite Hox|cbn [nb]; rewrite Hoy; by apply pop_sent| |].
  - unfold hear. eapply (report_ok ek ak a b p f usr ha Ha Hb Hab Hps Hpd rest sq st dat k prng n ns); try done.
  - cbn beta. intros x' [Hx' Ho']. cbn [na] in Ho'. rewrite Hox in Ho'. apply H; [done|done| |done|done]. constructor; try done. eapply env_of; [exact R1|..]; try done. apply R1.
Qed.

(** The first exchange. *)
Lemma first_exchange rest sq dat k prng n ns now rx kb prngb x y ox P : A rest sq NONCE_GET dat (S (S k)) prng (n :: ns) x ->
  outs x = SendData p [COMMAND_CLASS_SECURITY; SECURITY_NONCE_GET] (Some (noce_get_cb 0)) :: ox -> pop ox = None -> pop (outs y) = None ->
  B now rx (S kb) prngb y -> cleared b a y -> n = output prngb -> at_ (output prng) 0 <> at_ n 0 -> Forall (fun m => m <> n) ns -> (length dat <= 255)%nat -> ordinary dat ->
  (forall x' y', A rest sq ENC_MSG (drop 26 dat) k (next_state prng) ns x' -> outs x' = SendData p (next_frame ek ak a b sq prng n false dat) (Some (msg1_cb 0)) :: ox ->
     B now rx kb (next_state prngb) y' -> issued a b n y' -> outs y' = outs y -> exists s', reaches (step ha hb) (mkNet x' y') s' /\ P s') ->
  exists s', reaches (step ha hb) (mkNet x y) s' /\ P s'.
Proof.
  intros Hin Ho Hox Hoy Hr Hc -> Hne Hns Hlen Hord H. eapply a_sends; [cbn [na]; rewrite Ho; by apply pop_sent| | |].
  - eapply (asked_ok ek ak a b hb Ha Hb now (received p)); done.
  - eapply (nonce_get_sent ek ak a b p f usr rest sq dat). destruct Hin. constructor; [eapply env_of; [done|..]; try done; apply sd_env0|..]; done.
  - cbn beta. intros x' y' [Hx' Ho'] (Hy' & Hi & Hoy'). cbn in Ho'. cbn [nb] in Hoy'.
    eapply (nonce_arrives rest sq NONCE_GET_SENT dat k prng _ ns now rx kb _ _ x' y' ox (outs y) P Hx' (or_introl eq_refl) Ho' Hox Hoy Hy' Hi Hoy' (length_output _) Hne Hns Hlen Hord H).
Qed.

Lemma sent_delivered dat x y : let n1 := output (prngState y) in let n2 := output (next_state (prngState y)) in
  sender ek ak x -> receiver ek ak y -> cleared b a x -> cleared b a y -> (4 <= free (nonce_table x))%nat -> (2 <= free (nonce_table y))%nat ->
  (1 <= length dat <= 52)%nat -> ordinary dat -> ((26 < length dat)%nat -> ordinary (drop 26 dat)) ->
  sec0_is_nonce_blacklisted b a n1 x = false -> sec0_is_nonce_blacklisted b a n2 x = false -> n2 <> n1 ->
  at_ (output (prngState x)) 0 <> at_ n1 0 -> at_ (output (next_state (prngState x))) 0 <> at_ n2 0 ->
  exists x1, sec0_send_data p dat (Z.of_nat (length dat)) f usr x = Ok (true, x1) /\
    exists s', reaches (step ha hb) (mkNet x1 y) s' /\ delivered dat (outs x) (outs y) s'.
Proof.
  intros n1 n2 [He [Hti Htl] [Hb1 Hb2] Ho] [Ve [Vi Vl] Vr Vo] Hcx Hcy Hfx Hfy Hlen Hord1 Hord2 Hbl1 Hbl2 Hn12 Hne1 Hne2.
  destruct (wp_run _ _ _ (send_ok ek ak a b p f usr Ha Hb Hps Hpd dat [n1; n2] x He Hti Htl Hb1 Hb2 ltac:(by repeat constructor) Hcx)) as (r & x1 & E & -> & Ho1 & Hin).
  exists x1. split; [done|]. set (rest := tail (tx_sessions x)) in *. set (sq := u8 (last_seq x + 1)) in *.
  assert (Hrest : Forall idle_tx rest) by (unfold rest; destruct (tx_sessions x); [done|by apply list.Forall_cons in Hti as [_ ?]]).
  destruct (rxsessions y) as [|e rx] eqn:Erx; [cbn in Vl; lia|].
  assert (Hy : B (clock y) (e :: rx) 2 (prngState y) y) by (by constructor).
  assert (Hin' : A rest sq NONCE_GET dat 4 (prngState x) [n1; n2] x1) by (destruct Hin; constructor; (done || lia)).
  eapply (first_exchange rest sq dat 2 _ n1 [n2] _ _ 1); try done; [by repeat constructor|lia|]. intros x2 y2 Hx2 Ho2 Hy2 Hi2 Hoy2. rewrite <- Hoy2.
  assert (L1 : length n1 = 8%nat) by apply length_output. assert (L2 : length n2 = 8%nat) by apply length_output.
  destruct (decide (26 < length dat)%nat) as [Hlong|Hshort].
  - assert (Hdrop : (1 <= length (drop 26 dat) <= 26)%nat) by (rewrite length_drop; lia).
    eapply a_sends; [cbn [na]; rewrite Ho2; by apply pop_sent| | |].
    + eapply (first_heard ek ak a b hb Ha Hb Hbad _ (received p) e rx 0); try done. apply length_output.
    + eapply (msg1_more ek ak a b p f usr rest sq (drop 26 dat)); [destruct Hx2; constructor; [eapply env_of; [done|..]; try done; apply sd_env0|..]; done|]. intros E0. rewrite E0 in Hdrop. cbn in Hdrop. lia.
    + cbn beta. intros x3 y3 [Hx3 Ho3] ((e' & Hhalf & Hy3) & Hi3 & Hoy3). cbn in Ho3. cbn [nb] in Hoy3.
      eapply (nonce_arrives rest sq ENC_MSG_SENT (drop 26 dat) 0 _ n2 [] _ _ _ _ _ x3 y3 (outs x) (outs y2) _ Hx3 (or_intror eq_refl) Ho3 Ho ltac:(by rewrite Hoy2) Hy3 Hi3 Hoy3 L2 Hne2 ltac:(constructor) ltac:(lia) (Hord2 Hlong)).
      intros x4 y4 Hx4 Ho4 Hy4 Hi4 Hoy4. rewrite <- Hoy4.
      eapply (last_frame rest sq ENC_MSG2 (msg2_cb 0)); try done; [by rewrite Hoy4, Hoy2|by right|].
      eapply wp_mono; [eapply (second_heard ek ak a b hb Ha Hb Hbad Hsec _ (received p) e' rx _ _ n2 _ sq (part dat)); try done|].
      * by apply list.Forall_cons in Vi as [_ ?].
      * apply length_output.
      * unfold part. rewrite length_take. lia.
      * intros [] w' ((e4 & Hi4' & Hr4) & Hc4 & Ho4'). split; [by eexists _, _, _, _|]. split; [done|]. by rewrite Ho4'; unfold part; rewrite take_drop.
  - eapply (last_frame rest sq ENC_MSG (msg1_cb 0)); try done; [by rewrite Hoy2|left; split; [done|split; [done|apply drop_ge; lia]]|].
    eapply wp_mono; [eapply (whole_heard ek ak a b hb Ha Hb Hbad Hsec _ (received p) e rx); try done|].
    + apply length_output.
    + lia.
    + intros [] w' ((e4 & Hi4' & Hr4) & Hc4 & Ho4'). split; [by eexists _, _, _, _|]. done.
Qed.
End Delivery.

(** The sender [a] and the receiver [b], which takes [a] for a node of the network. *)
Record s0_link (a b : Z) (p : ts_param_t) (hb : Host) : Prop := mkLink {
  l_ids : 0 < a < 256 /\ 0 < b < 256 /\ a <> b;
  l_param : snode p = a /\ dnode p = b;
  l_good : isNodeBad hb a = false /\ isNodeBad hb b = false;
  l_secure : isNodeSecure hb a = true
}.

(** The nonces the receiver [y] is going to issue are new to the sender [x], and the first bytes of
    the sender's own are different. *)
Record new_nonces (a b : Z) (x y : S0) : Prop := mkNew {
  nn_first : sec0_is_nonce_blacklisted b a (output (prngState y)) x = false;
  nn_second : sec0_is_nonce_blacklisted b a (output (next_state (prngState y))) x = false;
  nn_distinct : output (next_state (prngState y)) <> output (prngState y);
  nn_draws : at_ (output (prngState x)) 0 <> at_ (output (prngState y)) 0 /\
             at_ (output (next_state (prngState x))) 0 <> at_ (output (next_state (prngState y))) 0
}.

(** C14: A message of 1 to 52 bytes is delivered under scheme 0.  Between two idle nodes with the same
    keys and room for nonces, whose next nonces are new ([new_nonces]), [sec0_send_data] takes the
    message; then the nonce is asked for and reported, the message travels in one frame or, with a
    second nonce, in two; after finitely many steps nothing is left to do and no timer runs, the
    receiver's application has got the message exactly once and byte for byte, the sender has been
    told once that it arrived, and both nodes are idle again with no nonce of this exchange left.
    Neither the message nor its second part, after 26 bytes, begins like the command that sets the
    network key, which goes under other keys, or is the first byte of it alone ([ordinary]). *)
Theorem s0_message_delivered ek ak a b p f usr ha hb dat x y : s0_link a b p hb -> sender ek ak x -> receiver ek ak y ->
  cleared b a x -> cleared b a y -> (4 <= free (nonce_table x))%nat -> (2 <= free (nonce_table y))%nat -> new_nonces a b x y ->
  (1 <= length dat <= 52)%nat -> ordinary dat -> ((26 < length dat)%nat -> ordinary (drop 26 dat)) ->
  exists x1 s' N, sec0_send_data p dat (Z.of_nat (length dat)) f usr x = Ok (true, x1) /\
    (forall n, (N <= n)%nat -> net n ha hb (mkNet x1 y) = Ok s') /\
    outs (nb s') = ApplicationCommandHandlerZIP (with_scheme (received p) SECURITY_SCHEME_0) dat :: outs y /\
    (exists ts, outs (na s') = Callback f usr TRANSMIT_COMPLETE_OK ts :: outs x) /\
    sender ek ak (na s') /\ receiver ek ak (nb s') /\ cleared b a (na s') /\ cleared b a (nb s').
Proof.
  intros [(Ha & Hb & Hab) [Hp1 Hp2] Hbad Hsec] Hx Hy Hcx Hcy Hfx Hfy [N1 N2 N3 [N4 N5]] Hlen Ho1 Ho2.
  destruct (sent_delivered ek ak a b p f usr ha hb Ha Hb Hab Hp1 Hp2 Hbad Hsec dat x y Hx Hy Hcx Hcy Hfx Hfy Hlen Ho1 Ho2 N1 N2 N3 N4 N5) as (x1 & E & s' & Hr & Hd).
  destruct (reaches_iterate _ _ _ Hr ltac:(by eapply delivered_over)) as [N HN]. destruct Hd as [H1 H2 [H3 H4] [H5 H6]]. by exists x1, s', N.
Qed.
End Link.

(** ** Concrete nodes *)

Definition network_key : list Z := seqZ 1 16.
Definition host : Host := mkHost (fun _ => 0) false false (fun _ => false) (fun _ => true).
(** Node [id] after initialisation, its random generator seeded from [r]. *)
Definition booted (id r : Z) : S0 :=
  match (InitPRNG;; sec0_init;; sec0_set_key network_key) (set_hw_random [seqZ r 8; seqZ (r + 2) 8] (statics id)) with Ok (_, w) => w | Fault _ => statics id end.
Definition node1 : S0 := Eval vm_compute in booted 1 7.
Definition node2 : S0 := Eval vm_compute in booted 2 17.
Definition there : ts_param_t := Transport.mkParam 1 2 0 0 0x25 0 NO_SCHEME.

Lemma s0_message_delivered_witness : let dat := seqZ 32 40 in
  exists x1 s' N, sec0_send_data there dat 40 7 0 node1 = Ok (true, x1) /\
    (forall n, (N <= n)%nat -> net n host host (mkNet x1 node2) = Ok s') /\
    outs (nb s') = [ApplicationCommandHandlerZIP (with_scheme (received there) SECURITY_SCHEME_0) dat] /\
    (exists ts, outs (na s') = [Callback 7 0 TRANSMIT_COMPLETE_OK ts]) /\
    sender (enckey node1) (authkey node1) (na s') /\ receiver (enckey node1) (authkey node1) (nb s') /\ cleared 2 1 (na s') /\ cleared 2 1 (nb s').
Proof.
  apply (s0_message_delivered (enckey node1) (authkey node1) 1 2 there 7 0 host host (seqZ 32 40) node1 node2).
  - by constructor.
  - constructor; [constructor; try done; by repeat constructor| |done|done]. split; [by repeat constructor|cbn; lia].
  - constructor; [constructor; try done; by repeat constructor| |done|done]. split; [by repeat constructor|cbn; lia].
  - by repeat constructor.
  - by repeat constructor.
  - vm_compute. lia.
  - vm_compute. lia.
  - constructor; [by vm_compute|by vm_compute|by vm_compute|split; by vm_compute].
  - vm_compute. lia.
  - left. by vm_compute.
  - intros _. left. by vm_compute.
Defined.
End Scheme0Link.
