(* ===== verification/Scheme0Runs.v ===== *)
(** * Runs of security scheme 0 with AES

    Two booted nodes with a network key: instances of the theorems on what the receiver accepts, and
    runs in which the scheme fails (buffers overrun, messages cut or lost while the sender is told
    that they arrived). *)
From S2P Require Import Prelude Aes Effects Transport Scheme0 Scheme0Spec Scheme0Link.
Import Effects Scheme0 Scheme0Spec Scheme0Link.

Module Scheme0Runs.
(** ** Setup *)

Definition run (dat : list Z) : res Net :=
  match sec0_send_data there dat (Z.of_nat (length dat)) 7 0 node1 with
  | Ok (_, x1) => net 20 host host (mkNet x1 node2)
  | Fault e => Fault e
  end.

(** What both sides hear of a message. *)
Definition traces (r : res Net) : res (list out * list out) := s ← r; Ok (outs (na s), outs (nb s)).

(** Node 2 after it has issued a nonce to node 1, and a frame of node 1 with that nonce. *)
Definition asked : S0 := Eval vm_compute in
  match security_CommandHandler host (received there) [COMMAND_CLASS_SECURITY; SECURITY_NONCE_GET] 2 node2 with Ok (_, w) => set_outs [] w | Fault _ => node2 end.
Definition the_nonce : list Z := Eval vm_compute in output (prngState node2).
Definition frame_of (flags : Z) (l : list Z) : list Z :=
  s0_frame (enckey node1) (authkey node1) (seqZ 40 8) the_nonce SECURITY_MESSAGE_ENCAPSULATION 1 2 (flags :: l).
Definition good_frame : list Z := Eval vm_compute in frame_of 0 [0x20; 0x01; 0xff].
Definition after_frame (w : S0) (f : list Z) : res (Z * list Z * list Z * S0) := sec0_decrypt_message 1 2 f (Z.of_nat (length f)) (replicate RXBUFFER_SIZE 0) w.
Definition accepted : Z * list Z * list Z * S0 := Eval vm_compute in
  match after_frame asked good_frame with Ok r => r | Fault _ => (0, [], [], asked) end.

Lemma asked_table : table_ok asked.
Proof. by repeat constructor. Qed.

Lemma s0_modes_are_block_modes_witness : let l := seqZ 1 40 in
  (exists w', (aes_set_key_tpt (seqZ 1 16) (seqZ 30 16);; aes_ofb l) node1 = Ok (l ⊕ keystream 3 (seqZ 1 16) (seqZ 30 16), w')) /\
  (exists w', (aes_set_key_tpt (seqZ 1 16) (seqZ 30 16);; aes_cbc_mac l) node1 = Ok (chain 3 (seqZ 1 16) (block_encrypt (seqZ 30 16) (seqZ 1 16)) l, w')).
Proof. apply (s0_modes_are_block_modes (seqZ 1 16) (seqZ 30 16) (seqZ 1 40) node1); [done|vm_compute; lia]. Defined.

(** A message of three bytes, and the first part of a longer one. *)
Definition part_frame : list Z := Eval vm_compute in frame_of 0x15 [0x20; 0x01; 0xff].
Definition kept : Z * list Z * list Z * S0 := Eval vm_compute in
  match after_frame asked part_frame with Ok r => r | Fault _ => (0, [], [], asked) end.

Lemma s0_accepts_authentic_witness :
  (accepted.1.1.1 = 3 /\ exists plain, authentic asked 1 2 good_frame 23 plain /\
     payload_used 1 2 plain asked accepted.2 accepted.1.1.1 accepted.1.1.2) /\
  (kept.1.1.1 = 0 /\ exists plain, authentic asked 1 2 part_frame 23 plain /\
     payload_used 1 2 plain asked kept.2 kept.1.1.1 kept.1.1.2).
Proof.
  assert (Hrx : rx_sized asked) by (by repeat constructor).
  split; (split; [by vm_compute|]).
  - apply (s0_accepts_authentic 1 2 good_frame 23 (replicate 64 0) accepted.1.1.1 accepted.1.1.2 accepted.1.2 asked accepted.2);
      [apply asked_table|exact Hrx|lia|vm_compute; lia|by vm_compute|by left].
  - apply (s0_accepts_authentic 1 2 part_frame 23 (replicate 64 0) kept.1.1.1 kept.1.1.2 kept.1.2 asked kept.2);
      [apply asked_table|exact Hrx|lia|vm_compute; lia|by vm_compute|].
    right. exists 0%nat. eexists. split; [by vm_compute|]. split; [done|]. by vm_compute.
Defined.

Lemma s0_no_replay_witness : sec0_decrypt_message 1 2 good_frame 23 (replicate 64 0) accepted.2 = Ok ((0, replicate 64 0, good_frame), accepted.2).
Proof.
  apply (s0_no_replay 1 2 good_frame 23 (replicate 64 0) accepted.1.1.1 accepted.1.1.2 accepted.1.2 asked accepted.2);
    [apply asked_table|lia|vm_compute; lia|by vm_compute|by left|lia|vm_compute; lia].
Defined.

Lemma s0_receiver_memory_safe_witness : exists len d' f' w', sec0_decrypt_message 1 2 (replicate 52 0x98) 52 (replicate 64 0) asked = Ok ((len, d', f'), w') /\
  0 <= len <= 64 /\ length d' = 64%nat /\ table_ok w' /\ Forall rx_ok (rxsessions w').
Proof.
  apply (s0_receiver_memory_safe 1 2 (replicate 52 0x98) 52 (replicate 64 0) asked); [apply asked_table|by repeat constructor|lia|lia|by rewrite length_replicate|done].
Defined.

(** A frame nobody has authenticated overruns the receive buffer: with the first byte of a nonce the
    node has issued in the place of the receiver's identifier, a frame of 80 bytes makes the command
    handler write past its 64-byte buffer before the tag is looked at; and so do two authentic frames
    of 53 bytes that carry the parts of one message. *)
Theorem s0_frame_overruns_buffer :
  security_CommandHandler host (received there) ([COMMAND_CLASS_SECURITY; SECURITY_MESSAGE_ENCAPSULATION] ++ replicate 69 0 ++ [at_ the_nonce 0] ++ replicate 8 0) 80 asked = Fault OutOfBounds /\
  (exists w1 w2, security_CommandHandler host (received there) (frame_of 0x11 (replicate 33 7)) 53 asked = Ok (tt, w1) /\
     nonce_table w2 = nonce_table asked /\ rxsessions w2 = rxsessions w1 /\ enckey w2 = enckey w1 /\ authkey w2 = authkey w1 /\
     security_CommandHandler host (received there) (frame_of 0x31 (replicate 33 7)) 53 w2 = Fault OutOfBounds).
Proof.
  split; [by vm_compute|].
  set (r := security_CommandHandler host (received there) (frame_of 0x11 (replicate 33 7)) 53 asked). vm_compute in r.
  match eval unfold r in r with Ok (_, ?w) => exists w, (set_nonce_table (nonce_table asked) w) end. repeat split; by vm_compute.
Qed.

(** A message of more than 52 bytes is cut without a word: of 60 bytes the receiver's application
    gets the first 52, and the sender is told that the transmission succeeded. *)
Theorem s0_long_message_truncated : traces (run (seqZ 32 60)) =
  Ok ([Callback 7 0 TRANSMIT_COMPLETE_OK None], [ApplicationCommandHandlerZIP (with_scheme (received there) SECURITY_SCHEME_0) (seqZ 32 52)]).
Proof. by vm_compute. Qed.

(** A message whose second part begins with the bytes 98 06 is lost: that part is encrypted under the
    keys of the all-zero network key, as if it were the command that sets the key, and the sender is
    told that the transmission succeeded. *)
Lemma s0_second_part_misread : traces (run (seqZ 32 26 ++ [COMMAND_CLASS_SECURITY; NETWORK_KEY_SET] ++ seqZ 1 5)) = Ok ([Callback 7 0 TRANSMIT_COMPLETE_OK None], []).
Proof. by vm_compute. Qed.

(** The message of one byte 98 makes the sender read behind it. *)
Lemma s0_one_byte_over_read : traces (run [COMMAND_CLASS_SECURITY]) = Fault OutOfBounds.
Proof. by vm_compute. Qed.

(** An authentic frame without a payload makes the receiver copy minus one bytes. *)
Lemma s0_empty_payload_overruns : let f := s0_frame (enckey node1) (authkey node1) (seqZ 40 8) the_nonce SECURITY_MESSAGE_ENCAPSULATION 1 2 [] in
  security_CommandHandler host (received there) f 19 asked = Fault OutOfBounds.
Proof. by vm_compute. Qed.

(** An authentic message from a node not known as secure clears the node's security flag, which it is
    meant to set: the scheme's number is shifted where its bit is tested. *)
Lemma s0_registers_no_scheme w : secure_learnIfaceI_register_scheme 1 (Z.shiftl 1 SECURITY_SCHEME_0) w =
  Ok (tt, set_outs (SetCacheEntryFlagMasked 1 0 NODE_FLAG_SECURITY0 :: outs w) w).
Proof. done. Qed.

End Scheme0Runs.
