(* ===== verification/Pool.v ===== *)
(** * Pools and lists (contiki/core/lib/memb.c, list.c)

    A pool is an array of blocks with a count of references each; a block is named by its index.  A list
    links blocks through a pointer in each; it is modelled by the indices of its blocks, in order. *)
From S2P Require Import Prelude.

Module Pool.

(** The first block without references, which [memb_alloc] takes, and what [memb_free] does to a count. *)
Fixpoint first_free (l : list Z) : option nat :=
  match l with
  | [] => None
  | c :: l => if c =? 0 then Some 0%nat else S <$> first_free l
  end.

Definition count_free (c : Z) : Z := if 0 <? c then c - 1 else c.

(** The contents of a block. *)
Definition block {A} (d : A) (m : list A) (i : nat) : A := default d (m !! i).

(** Lists; a block is never twice in one. *)
Fixpoint list_remove (i : nat) (l : list nat) : list nat :=
  match l with
  | [] => []
  | j :: l => if Nat.eqb i j then l else j :: list_remove i l
  end.
Definition list_add (i : nat) (l : list nat) : list nat := list_remove i l ++ [i].

(** ** Which blocks are in use *)

(** Exactly the blocks [o] are in use. *)
Record pool_ok (n : nat) (c : list Z) (o : list nat) : Prop := {
  pool_length : length c = n;
  pool_nodup : NoDup o;
  pool_lt i : i ∈ o -> (i < n)%nat;
  pool_count i x : c !! i = Some x -> x = if decide (i ∈ o) then 1 else 0
}.

#[global] Instance pool_ok_proper n c : Proper ((≡ₚ) ==> iff) (pool_ok n c).
Proof.
  assert (H : forall o o', o ≡ₚ o' -> pool_ok n c o -> pool_ok n c o').
  { intros o o' H [Hl Hn Ho Hc]. split; [done|by rewrite <- H|intros i; rewrite <- H; apply Ho|].
    intros i x Hx. rewrite (Hc i x Hx). by apply decide_ext; rewrite H. }
  intros o o' Ho. split; by apply H.
Qed.

Lemma first_free_Some c i : first_free c = Some i -> c !! i = Some 0.
Proof.
  revert i. induction c as [|x c IH]; intros i; [done|]. cbn. destruct (Z.eqb_spec x 0) as [->|]; [by intros [= <-]|].
  intros (j & E & ->)%fmap_Some. exact (IH j E).
Qed.

Lemma first_free_None c i x : first_free c = None -> c !! i = Some x -> x <> 0.
Proof.
  revert i. induction c as [|y c IH]; intros [|i]; cbn; [done..| |].
  all: destruct (Z.eqb_spec y 0) as [->|]; [done|]; rewrite fmap_None; intros H; first [by intros [= <-]|by apply IH].
Qed.

(** A free block is taken. *)
Lemma pool_alloc n c o i : pool_ok n c o -> first_free c = Some i -> ~ i ∈ o /\ (i < n)%nat /\ pool_ok n (alter (Z.add 1) i c) (i :: o).
Proof.
  intros [Hl Hn Hb Hc] E%first_free_Some. pose proof (Hc i 0 E) as Hi. destruct (decide (i ∈ o)) as [|Ho]; [done|].
  assert (Hlt : (i < n)%nat) by (rewrite <- Hl; by apply lookup_lt_Some in E).
  split; [done|]. split; [done|]. split; [by rewrite length_alter|by constructor|intros j [->|]%elem_of_cons; auto|].
  intros j x Hx. destruct (decide (i = j)) as [<-|Hj].
  - rewrite list_lookup_alter_eq, E in Hx. cbn in Hx. injection Hx as <-. rewrite decide_True; [done|left].
  - rewrite list_lookup_alter_ne in Hx by done. rewrite (Hc j x Hx). apply decide_ext. rewrite elem_of_cons. split; [by right|by intros [->|]].
Qed.

(** A block is given back. *)
Lemma pool_free n c o i : pool_ok n c (i :: o) -> pool_ok n (alter count_free i c) o.
Proof.
  intros [Hl Hn Hb Hc]. apply list.NoDup_cons in Hn as [Hi Hn]. split; [by rewrite length_alter|done|intros j Hj; apply Hb; by right|].
  intros j x. destruct (decide (i = j)) as [<-|Hj].
  - rewrite list_lookup_alter_eq. intros (y & Ey & ->)%fmap_Some. rewrite (Hc i y Ey). rewrite decide_True by left. by rewrite decide_False.
  - rewrite list_lookup_alter_ne by done. intros Hx. rewrite (Hc j x Hx). apply decide_ext. rewrite elem_of_cons. split; [by intros [->|]|by right].
Qed.

(** Never more than all are in use. *)
Lemma pool_bound n c o : pool_ok n c o -> (length o <= n)%nat.
Proof.
  intros [_ Hn Ho _]. rewrite <- (length_seq n 0). apply submseteq_length, NoDup_submseteq; [done|].
  intros i Hi%Ho. apply elem_of_seq. lia.
Qed.

(** There is a free block while fewer than all are in use. *)
Lemma pool_full n c o : pool_ok n c o -> is_Some (first_free c) <-> (length o < n)%nat.
Proof.
  intros H.
  split; [intros [i E]|intros Hlt; destruct (first_free c) eqn:E; [done|]].
  - destruct (pool_alloc n c o i H E) as (_ & _ & H'). exact (pool_bound n _ (i :: o) H').
  - exfalso. enough (length (seq 0 n) <= length o)%nat by (rewrite length_seq in *; lia).
    apply submseteq_length, NoDup_submseteq; [apply NoDup_seq|]. intros i Hi%elem_of_seq.
    destruct (lookup_lt_is_Some_2 c i) as [x Hx]; [rewrite (pool_length _ _ _ H); lia|].
    pose proof (pool_count _ _ _ H i x Hx) as Hc. pose proof (first_free_None c i x E Hx). by destruct (decide (i ∈ o)).
Qed.

(** ** Contents *)

Section Blocks.
Context {A : Type} (d : A).
Implicit Type m : list A.

Lemma block_alter_eq m f i : (i < length m)%nat -> block d (alter f i m) i = f (block d m i).
Proof. intros [s Hs]%lookup_lt_is_Some_2. unfold block. by rewrite list_lookup_alter_eq, Hs. Qed.
Lemma block_alter_ne m f i j : i <> j -> block d (alter f i m) j = block d m j.
Proof. intros H. unfold block. by rewrite list_lookup_alter_ne. Qed.

Lemma block_insert_eq m s i : (i < length m)%nat -> block d (<[i := s]> m) i = s.
Proof. intros H. unfold block. by rewrite list_lookup_insert_eq. Qed.
Lemma block_insert_ne m s i j : i <> j -> block d (<[i := s]> m) j = block d m j.
Proof. intros H. unfold block. by rewrite list_lookup_insert_ne. Qed.

Lemma alter_block m f i : (i < length m)%nat -> alter f i m = <[i := f (block d m i)]> m.
Proof.
  intros H. apply list_eq. intros j. destruct (decide (i = j)) as [<-|Hj].
  - destruct (lookup_lt_is_Some_2 m i H) as [s Hs]. rewrite list_lookup_alter_eq, list_lookup_insert_eq by done. unfold block. by rewrite Hs.
  - by rewrite list_lookup_alter_ne, list_lookup_insert_ne.
Qed.

Lemma insert_block m i : (i < length m)%nat -> <[i := block d m i]> m = m.
Proof. intros H. apply list_insert_id. destruct (lookup_lt_is_Some_2 m i H) as [s Hs]. unfold block. by rewrite Hs. Qed.

Lemma block_replicate n i : block d (replicate n d) i = d.
Proof. unfold block. destruct (replicate n d !! i) eqn:E; [|done]. by apply lookup_replicate_1 in E as [-> _]. Qed.

End Blocks.

Lemma fmap_zero {A B} (l : list A) (b : B) : (fun _ => b) <$> l = replicate (length l) b.
Proof. by apply const_fmap. Qed.

(** ** Lists *)

Lemma list_remove_perm i l : i ∈ l -> l ≡ₚ i :: list_remove i l.
Proof.
  induction l as [|j l IH]; [by intros ?%elem_of_nil|]. cbn. destruct (Nat.eqb_spec i j) as [<-|Hj]; [done|].
  intros [?|Hi]%elem_of_cons; [done|]. rewrite (IH Hi) at 1. constructor.
Qed.

Lemma list_remove_none i l : ~ i ∈ l -> list_remove i l = l.
Proof.
  induction l as [|j l IH]; [done|]. cbn. intros Hi. destruct (Nat.eqb_spec i j) as [<-|Hj]; [exfalso; apply Hi; left|].
  f_equal. apply IH. intros H. apply Hi. by right.
Qed.

Lemma filter_remove f i l : List.filter f (list_remove i l) = if f i then list_remove i (List.filter f l) else List.filter f l.
Proof.
  induction l as [|j l IH]; cbn; [by destruct (f i)|]. destruct (Nat.eqb_spec i j) as [<-|Hj]; cbn.
  - destruct (f i); cbn; [by rewrite Nat.eqb_refl|done].
  - rewrite IH. destruct (f i), (f j); cbn; try done. by destruct (Nat.eqb_spec i j).
Qed.

End Pool.
