(* ===== verification/SendQueue.v ===== *)
(** * The send queues (src/transport/ZW_SendDataAppl.c, zw_frame_buffer.c)

    Frames of the gateway wait in two queues over one pool of eight sessions: that of the application,
    whose head is encapsulated and given to a security scheme or to the lower queue, and that of the
    frames for the radio.  Every function, in the build without multicast (TEST_MULTICAST_TX); the
    security schemes, the radio, the transport service and the node database are given from outside,
    and calls to them and to the callbacks of the application are a trace. *)
From S2P Require Import Prelude Effects Transport Pool.
Import Effects Pool.

Module SendQueue.

(** ** Constants *)

Definition NUM_SESSIONS : nat := 8.
Definition FRAME_BUFFER_ELEMENT_SIE : nat := 256.
Definition UIP_BUFSIZE : nat := 1544.
Definition META_DATA_MAX_DATA_SIZE : Z := 48.
Definition TRANSMIT_OPTION_ACK : Z := 0x01.
Definition TRANSMIT_OPTION_LOW_POWER : Z := 0x02.
Definition TRANSMIT_OPTION_AUTO_ROUTE : Z := 0x04.
Definition TRANSMIT_OPTION_EXPLORE : Z := 0x20.
Definition TRANSMIT_OPTION_MULTICAST : Z := 0x40.
Definition RECEIVE_STATUS_LOW_POWER : Z := 0x02.
Definition TRANSMIT_COMPLETE_OK : Z := 0x00.
Definition TRANSMIT_COMPLETE_FAIL : Z := 0x02.
Definition TRANSMIT_COMPLETE_ERROR : Z := 0xFF.
Definition NO_SCHEME : Z := 0xFF.
Definition AUTO_SCHEME : Z := 0xFE.
Definition USE_CRC16 : Z := 0xFD.
Definition SECURITY_SCHEME_0 : Z := 7.
Definition SECURITY_SCHEME_2_UNAUTHENTICATED : Z := 1.
Definition SECURITY_SCHEME_2_AUTHENTICATED : Z := 2.
Definition SECURITY_SCHEME_2_ACCESS : Z := 3.
Definition SECURITY_SCHEME_UDP : Z := 4.
Definition NODE_FLAG_SECURITY0 : Z := 0x01.
Definition NODE_FLAG_KNOWN_BAD : Z := 0x02.
Definition NODE_FLAG_SECURITY2_UNAUTHENTICATED : Z := 0x10.
Definition NODE_FLAG_SECURITY2_AUTHENTICATED : Z := 0x20.
Definition NODE_FLAG_SECURITY2_ACCESS : Z := 0x40.
Definition COMMAND_CLASS_NO_OPERATION : Z := 0x00.
Definition COMMAND_CLASS_NO_OPERATION_LR : Z := 0x04.
Definition COMMAND_CLASS_TRANSPORT_SERVICE : Z := 0x55.
Definition COMMAND_CLASS_CRC_16_ENCAP : Z := 0x56.
Definition CRC_16_ENCAP : Z := 0x01.
Definition COMMAND_CLASS_MULTI_CHANNEL_V2 : Z := 0x60.
Definition MULTI_CHANNEL_CMD_ENCAP_V2 : Z := 0x0D.
Definition COMMAND_CLASS_SECURITY : Z := 0x98.
Definition COMMAND_CLASS_SECURITY_2 : Z := 0x9F.
Definition ZW_LR_MIN_NODE_ID : Z := 256.
Definition ZW_LR_MAX_NODE_ID : Z := 4000.
Definition is_lr_node (n : Z) : bool := (ZW_LR_MIN_NODE_ID <=? n) && (n <=? ZW_LR_MAX_NODE_ID).

(** ** State *)

Record ts_param_t := mkParam {
  snode : Z; dnode : Z; sendpoint : Z; dendpoint : Z; tx_flags : Z; rx_flags : Z; scheme : Z;
  node_list : list Z; is_mcast_with_folloup : bool; force_verify_delivery : bool; is_multicommand : bool;
  discard_timeout : Z
}.

Definition set_snode (x : Z) (p : ts_param_t) : ts_param_t := mkParam x (dnode p) (sendpoint p) (dendpoint p)
    (tx_flags p) (rx_flags p) (scheme p) (node_list p) (is_mcast_with_folloup p) (force_verify_delivery p)
    (is_multicommand p) (discard_timeout p).
Definition set_dnode (x : Z) (p : ts_param_t) : ts_param_t := mkParam (snode p) x (sendpoint p) (dendpoint p)
    (tx_flags p) (rx_flags p) (scheme p) (node_list p) (is_mcast_with_folloup p) (force_verify_delivery p)
    (is_multicommand p) (discard_timeout p).
Definition set_sendpoint (x : Z) (p : ts_param_t) : ts_param_t := mkParam (snode p) (dnode p) x (dendpoint p)
    (tx_flags p) (rx_flags p) (scheme p) (node_list p) (is_mcast_with_folloup p) (force_verify_delivery p)
    (is_multicommand p) (discard_timeout p).
Definition set_dendpoint (x : Z) (p : ts_param_t) : ts_param_t := mkParam (snode p) (dnode p) (sendpoint p) x
    (tx_flags p) (rx_flags p) (scheme p) (node_list p) (is_mcast_with_folloup p) (force_verify_delivery p)
    (is_multicommand p) (discard_timeout p).
Definition set_tx_flags (x : Z) (p : ts_param_t) : ts_param_t := mkParam (snode p) (dnode p) (sendpoint p)
    (dendpoint p) x (rx_flags p) (scheme p) (node_list p) (is_mcast_with_folloup p) (force_verify_delivery p)
    (is_multicommand p) (discard_timeout p).
Definition set_rx_flags (x : Z) (p : ts_param_t) : ts_param_t := mkParam (snode p) (dnode p) (sendpoint p)
    (dendpoint p) (tx_flags p) x (scheme p) (node_list p) (is_mcast_with_folloup p) (force_verify_delivery p)
    (is_multicommand p) (discard_timeout p).
Definition set_scheme (x : Z) (p : ts_param_t) : ts_param_t := mkParam (snode p) (dnode p) (sendpoint p) (dendpoint p)
    (tx_flags p) (rx_flags p) x (node_list p) (is_mcast_with_folloup p) (force_verify_delivery p) (is_multicommand p)
    (discard_timeout p).
Definition set_node_list (x : list Z) (p : ts_param_t) : ts_param_t := mkParam (snode p) (dnode p) (sendpoint p)
    (dendpoint p) (tx_flags p) (rx_flags p) (scheme p) x (is_mcast_with_folloup p) (force_verify_delivery p)
    (is_multicommand p) (discard_timeout p).
Definition set_is_mcast_with_folloup (x : bool) (p : ts_param_t) : ts_param_t := mkParam (snode p) (dnode p)
    (sendpoint p) (dendpoint p) (tx_flags p) (rx_flags p) (scheme p) (node_list p) x (force_verify_delivery p)
    (is_multicommand p) (discard_timeout p).
Definition set_force_verify_delivery (x : bool) (p : ts_param_t) : ts_param_t := mkParam (snode p) (dnode p)
    (sendpoint p) (dendpoint p) (tx_flags p) (rx_flags p) (scheme p) (node_list p) (is_mcast_with_folloup p) x
    (is_multicommand p) (discard_timeout p).
Definition set_is_multicommand (x : bool) (p : ts_param_t) : ts_param_t := mkParam (snode p) (dnode p) (sendpoint p)
    (dendpoint p) (tx_flags p) (rx_flags p) (scheme p) (node_list p) (is_mcast_with_folloup p)
    (force_verify_delivery p) x (discard_timeout p).
Definition set_discard_timeout (x : Z) (p : ts_param_t) : ts_param_t := mkParam (snode p) (dnode p) (sendpoint p)
    (dendpoint p) (tx_flags p) (rx_flags p) (scheme p) (node_list p) (is_mcast_with_folloup p)
    (force_verify_delivery p) (is_multicommand p) x.

(** A frame buffer of the heap: a null pointer, a buffer with its parameters and data, or one that has
    been freed. *)
Inductive frame_ptr := FbNull | FbLive (p : ts_param_t) (frame_data : list Z) | FbFreed.

(** The callback of a session: [ZW_SendDataAppl_CallbackEx], whose user pointer is a session, or a
    function of another part of the gateway. *)
Inductive callback_t := CbAppl | CbUser (f : Z).
#[global] Instance callback_eq_dec : EqDecision callback_t.
Proof. solve_decision. Defined.

(** The transmission report, of which only [wTransmitTicks] is looked at. *)
Definition TX_STATUS_TYPE : Type := option Z.

Record session := mkSession {
  fb : frame_ptr; user : Z; callback : option callback_t; discard_timer : option Z
}.

Definition set_fb (x : frame_ptr) (s : session) : session := mkSession x (user s) (callback s) (discard_timer s).
Definition set_user (x : Z) (s : session) : session := mkSession (fb s) x (callback s) (discard_timer s).
Definition set_callback (x : option callback_t) (s : session) : session := mkSession (fb s) (user s) x
    (discard_timer s).
Definition set_discard_timer (x : option Z) (s : session) : session := mkSession (fb s) (user s) (callback s) x.

(** A timer of the process (etimer.c): not set, expired or stopped; on the list of timers; or still
    marked as set, but no longer on the list, where the end of its process leaves it. *)
Inductive etimer := Expired | Running (interval : Z) | Orphaned (interval : Z).
Definition etimer_expired (t : etimer) : bool := match t with Expired => true | _ => false end.
Definition process_exited (t : etimer) : etimer := match t with Running i => Orphaned i | t => t end.

#[global] Instance etimer_eq_dec : EqDecision etimer.
Proof. solve_decision. Defined.

(** The events of the process; that of a timer carries the timer. *)
Inductive event :=
| SEND_EVENT_SEND_NEXT
| SEND_EVENT_SEND_NEXT_LL
| TIMER_emergency
| TIMER_backoff.
#[global] Instance event_eq_dec : EqDecision event.
Proof. solve_decision. Defined.

(** Calls to the radio, the other layers and the application. *)
Inductive out :=
| ZW_SendData (dst : Z) (frame : list Z) (opt : Z)
| ZW_SendData_Bridge (src dst : Z) (frame : list Z) (opt : Z)
| TransportService (p : ts_param_t) (frame : list Z)
| sec0_send_data (p : ts_param_t) (frame : list Z)
| sec2_send_data (p : ts_param_t) (frame : list Z)
| Called (f user status : Z) (ts : TX_STATUS_TYPE)
| ima_send_data_start (node : Z)
| ima_send_data_done (node status : Z) (ts : TX_STATUS_TYPE)
| ZW_SendDataAbort
| sec0_abort_all_tx_sessions.

(** The statics of the file; the number of references to each session of the pool is in [counts]. The
    events posted to the process are in [posted], the oldest first.  [accepts] are the answers of the layers below. *)
Record SQ := mkSQ {
  lock : bool; emergency_timer : etimer; backoff_timer : etimer; backoff_node : Z; session_list : list nat;
  counts : list Z; mem : list session; lock_ll : bool; send_data_list : list nat;
  current_session : option nat; current_session_ll : option nat; posted : list event; MyNodeID : Z;
  accepts : list bool; outs : list out
}.

Definition set_lock (x : bool) (w : SQ) : SQ := mkSQ x (emergency_timer w) (backoff_timer w) (backoff_node w)
    (session_list w) (counts w) (mem w) (lock_ll w) (send_data_list w) (current_session w) (current_session_ll w)
    (posted w) (MyNodeID w) (accepts w) (outs w).
Definition set_emergency_timer (x : etimer) (w : SQ) : SQ := mkSQ (lock w) x (backoff_timer w) (backoff_node w)
    (session_list w) (counts w) (mem w) (lock_ll w) (send_data_list w) (current_session w) (current_session_ll w)
    (posted w) (MyNodeID w) (accepts w) (outs w).
Definition set_backoff_timer (x : etimer) (w : SQ) : SQ := mkSQ (lock w) (emergency_timer w) x (backoff_node w)
    (session_list w) (counts w) (mem w) (lock_ll w) (send_data_list w) (current_session w) (current_session_ll w)
    (posted w) (MyNodeID w) (accepts w) (outs w).
Definition set_backoff_node (x : Z) (w : SQ) : SQ := mkSQ (lock w) (emergency_timer w) (backoff_timer w) x
    (session_list w) (counts w) (mem w) (lock_ll w) (send_data_list w) (current_session w) (current_session_ll w)
    (posted w) (MyNodeID w) (accepts w) (outs w).
Definition set_session_list (x : list nat) (w : SQ) : SQ := mkSQ (lock w) (emergency_timer w) (backoff_timer w)
    (backoff_node w) x (counts w) (mem w) (lock_ll w) (send_data_list w) (current_session w) (current_session_ll w)
    (posted w) (MyNodeID w) (accepts w) (outs w).
Definition set_counts (x : list Z) (w : SQ) : SQ := mkSQ (lock w) (emergency_timer w) (backoff_timer w)
    (backoff_node w) (session_list w) x (mem w) (lock_ll w) (send_data_list w) (current_session w)
    (current_session_ll w) (posted w) (MyNodeID w) (accepts w) (outs w).
Definition set_mem (x : list session) (w : SQ) : SQ := mkSQ (lock w) (emergency_timer w) (backoff_timer w)
    (backoff_node w) (session_list w) (counts w) x (lock_ll w) (send_data_list w) (current_session w)
    (current_session_ll w) (posted w) (MyNodeID w) (accepts w) (outs w).
Definition set_lock_ll (x : bool) (w : SQ) : SQ := mkSQ (lock w) (emergency_timer w) (backoff_timer w)
    (backoff_node w) (session_list w) (counts w) (mem w) x (send_data_list w) (current_session w)
    (current_session_ll w) (posted w) (MyNodeID w) (accepts w) (outs w).
Definition set_send_data_list (x : list nat) (w : SQ) : SQ := mkSQ (lock w) (emergency_timer w) (backoff_timer w)
    (backoff_node w) (session_list w) (counts w) (mem w) (lock_ll w) x (current_session w) (current_session_ll w)
    (posted w) (MyNodeID w) (accepts w) (outs w).
Definition set_current_session (x : option nat) (w : SQ) : SQ := mkSQ (lock w) (emergency_timer w) (backoff_timer w)
    (backoff_node w) (session_list w) (counts w) (mem w) (lock_ll w) (send_data_list w) x (current_session_ll w)
    (posted w) (MyNodeID w) (accepts w) (outs w).
Definition set_current_session_ll (x : option nat) (w : SQ) : SQ := mkSQ (lock w) (emergency_timer w)
    (backoff_timer w) (backoff_node w) (session_list w) (counts w) (mem w) (lock_ll w) (send_data_list w)
    (current_session w) x (posted w) (MyNodeID w) (accepts w) (outs w).
Definition set_posted (x : list event) (w : SQ) : SQ := mkSQ (lock w) (emergency_timer w) (backoff_timer w)
    (backoff_node w) (session_list w) (counts w) (mem w) (lock_ll w) (send_data_list w) (current_session w)
    (current_session_ll w) x (MyNodeID w) (accepts w) (outs w).
Definition set_MyNodeID (x : Z) (w : SQ) : SQ := mkSQ (lock w) (emergency_timer w) (backoff_timer w) (backoff_node w)
    (session_list w) (counts w) (mem w) (lock_ll w) (send_data_list w) (current_session w) (current_session_ll w)
    (posted w) x (accepts w) (outs w).
Definition set_accepts (x : list bool) (w : SQ) : SQ := mkSQ (lock w) (emergency_timer w) (backoff_timer w)
    (backoff_node w) (session_list w) (counts w) (mem w) (lock_ll w) (send_data_list w) (current_session w)
    (current_session_ll w) (posted w) (MyNodeID w) x (outs w).
Definition set_outs (x : list out) (w : SQ) : SQ := mkSQ (lock w) (emergency_timer w) (backoff_timer w)
    (backoff_node w) (session_list w) (counts w) (mem w) (lock_ll w) (send_data_list w) (current_session w)
    (current_session_ll w) (posted w) (MyNodeID w) (accepts w) x.

(** What the rest of the gateway knows of the nodes and of commands, and the state of the node queue. *)
Record Host := mkHost {
  GetCacheEntryFlag : Z -> Z;
  SupportsCmdClass : Z -> Z -> bool;
  CommandAnalyzerIsGet : Z -> Z -> bool;
  sending_first : bool;
  sending_long : bool
}.

Abbreviation QM := (Eff SQ).

Definition emit (o : out) : QM unit := modify (fun w => set_outs (o :: outs w) w).
Definition process_post (e : event) : QM unit := modify (fun w => set_posted (posted w ++ [e]) w).
Definition mod_session (i : nat) (f : session -> session) : QM unit := modify (fun w => set_mem (alter f i (mem w)) w).
Definition get_session (i : nat) : QM session := w ← get; rd (mem w) (Z.of_nat i).

(** The pool of sessions. *)
Definition memb_alloc : QM (option nat) :=
  w ← get;
  match first_free (counts w) with
  | Some i => modify (set_counts (alter (Z.add 1) i (counts w)));; mret (Some i)
  | None => mret None
  end.

Definition memb_free (i : nat) : QM unit := modify (fun w => set_counts (alter count_free i (counts w)) w).

(** The radio or the layer below takes what it is offered, or not. *)
Definition next_accept : QM bool := fun w =>
  match accepts w with
  | [] => Ok (true, w)
  | b :: l => Ok (b, set_accepts l w)
  end.
Definition offer (o : out) : QM bool :=
  ret ← next_accept;
  (if ret : bool then emit o else mret tt);;
  mret ret.

(** ** Frame buffers *)

Definition zw_frame_buffer_create (p : ts_param_t) (cmd : list Z) : QM frame_ptr :=
  if Nat.ltb (length cmd) FRAME_BUFFER_ELEMENT_SIE then mret (FbLive p cmd) else fail AssertFailed.

(** Reading through the pointer, and freeing. *)
Definition frame_of (i : nat) : QM (ts_param_t * list Z) :=
  s ← get_session i;
  match fb s with FbLive p d => mret (p, d) | _ => fail OutOfBounds end.
Definition zw_frame_buffer_free (i : nat) : QM unit :=
  s ← get_session i;
  match fb s with FbFreed => fail OutOfBounds | _ => mod_session i (set_fb FbFreed) end.
Definition mod_param (i : nat) (f : ts_param_t -> ts_param_t) : QM unit :=
  mod_session i (fun s => match fb s with FbLive p d => set_fb (FbLive (f p) d) s | _ => s end).

(** ** Parameters and schemes *)

Definition ts_set_std (p : ts_param_t) (me dn : Z) : ts_param_t :=
  mkParam me dn 0 0 (Z.lor (Z.lor TRANSMIT_OPTION_ACK TRANSMIT_OPTION_AUTO_ROUTE) TRANSMIT_OPTION_EXPLORE) 0 AUTO_SCHEME
    ((fun _ => 0) <$> node_list p) false false false 0.

Definition ts_param_cmp (a1 a2 : ts_param_t) : bool :=
  (snode a1 =? snode a2) && (dnode a1 =? dnode a2) && (sendpoint a1 =? sendpoint a2) && (dendpoint a1 =? dendpoint a2).

Definition highest_scheme (scheme_mask : Z) : Z :=
  if has_bits scheme_mask NODE_FLAG_SECURITY2_ACCESS then SECURITY_SCHEME_2_ACCESS
  else if has_bits scheme_mask NODE_FLAG_SECURITY2_AUTHENTICATED then SECURITY_SCHEME_2_AUTHENTICATED
  else if has_bits scheme_mask NODE_FLAG_SECURITY2_UNAUTHENTICATED then SECURITY_SCHEME_2_UNAUTHENTICATED
  else if has_bits scheme_mask NODE_FLAG_SECURITY0 then SECURITY_SCHEME_0
  else NO_SCHEME.

Definition ZW_SendData_scheme_select (h : Host) (me : Z) (param : ts_param_t) (len : Z) : Z :=
  let dst_scheme_mask := GetCacheEntryFlag h (dnode param) in
  let src_scheme_mask := GetCacheEntryFlag h me in
  if (len <? 2) || has_bits dst_scheme_mask NODE_FLAG_KNOWN_BAD || has_bits src_scheme_mask NODE_FLAG_KNOWN_BAD then
    if (scheme param =? USE_CRC16) && SupportsCmdClass h (dnode param) COMMAND_CLASS_CRC_16_ENCAP
       && (highest_scheme dst_scheme_mask =? NO_SCHEME)
    then USE_CRC16 else NO_SCHEME
  else if scheme param =? AUTO_SCHEME then
    let s := highest_scheme (Z.land dst_scheme_mask src_scheme_mask) in
    if (s =? NO_SCHEME) && SupportsCmdClass h (dnode param) COMMAND_CLASS_CRC_16_ENCAP then USE_CRC16 else s
  else scheme param.

Definition ts_param_make_reply (h : Host) (me : Z) (dst src : ts_param_t) : ts_param_t :=
  mkParam (dnode src) (snode src) (dendpoint src) (sendpoint src)
    (Z.lor (Z.lor (Z.lor (if has_bits (rx_flags src) RECEIVE_STATUS_LOW_POWER then TRANSMIT_OPTION_LOW_POWER else 0)
       TRANSMIT_OPTION_ACK) TRANSMIT_OPTION_EXPLORE) TRANSMIT_OPTION_AUTO_ROUTE)
    (rx_flags dst) (ZW_SendData_scheme_select h me src 2) (node_list dst) (is_mcast_with_folloup dst)
    (force_verify_delivery dst) (is_multicommand dst) 0.

Definition scheme_prio (a : Z) : Z :=
  if a =? SECURITY_SCHEME_UDP then 0xFFFF
  else if a =? SECURITY_SCHEME_2_ACCESS then 4
  else if a =? SECURITY_SCHEME_2_AUTHENTICATED then 3
  else if a =? SECURITY_SCHEME_2_UNAUTHENTICATED then 2
  else if a =? SECURITY_SCHEME_0 then 1
  else 0.
Definition scheme_compare (a b : Z) : bool := scheme_prio b <=? scheme_prio a.

Section Host.
Context (h : Host).

(** ** Callbacks *)

(** [s->callback(status, s->user, ts)] of an application session. *)
Definition call_user (s : session) (status : Z) (ts : TX_STATUS_TYPE) : QM unit :=
  match callback s with
  | Some (CbUser f) => emit (Called f (user s) status ts)
  | Some CbAppl => fail AssertFailed
  | None => mret tt
  end.

(** The next message is sent at once, or after a Get command when its answer had time to arrive. *)
Definition schedule_next (status : Z) (i : nat) (ts : TX_STATUS_TYPE) : QM unit :=
  match ts with
  | Some ticks =>
      if status =? TRANSMIT_COMPLETE_OK then
        '(p, d) ← frame_of i;
        (* the bytes of the buffer behind the frame are taken as 0 *)
        c0 ← rd (d ++ replicate (FRAME_BUFFER_ELEMENT_SIE - length d) 0) 0;
        c1 ← rd (d ++ replicate (FRAME_BUFFER_ELEMENT_SIE - length d) 0) 1;
        if CommandAnalyzerIsGet h c0 c1 then
          modify (set_backoff_node (dnode p));;
          modify (set_backoff_timer (Running (u32 (ticks * 10 + 250))))
        else process_post SEND_EVENT_SEND_NEXT
      else process_post SEND_EVENT_SEND_NEXT
  | None => process_post SEND_EVENT_SEND_NEXT
  end.

Definition ZW_SendDataAppl_CallbackEx (status : Z) (i : nat) (ts : TX_STATUS_TYPE) : QM unit :=
  w ← get;
  if negb (lock w) then mret tt
  else
    modify (set_lock false);;
    schedule_next status i ts;;
    zw_frame_buffer_free i;;
    memb_free i;;
    s ← get_session i;
    call_user s status ts.

(** The callback of a session of the lower queue. *)
Definition call (s : session) (status : Z) (ts : TX_STATUS_TYPE) : QM unit :=
  match callback s with
  | Some CbAppl => ZW_SendDataAppl_CallbackEx status (Z.to_nat (user s)) ts
  | _ => call_user s status ts
  end.

Definition do_discard_timeout_memb (i : nat) : QM unit :=
  mod_session i (set_discard_timer None);;
  modify (fun w => set_send_data_list (list_remove i (send_data_list w)) w);;
  memb_free i;;
  s ← get_session i;
  call s TRANSMIT_COMPLETE_FAIL None.

Definition send_data_callback_func (status : Z) (ts : TX_STATUS_TYPE) : QM unit :=
  w ← get;
  if negb (lock_ll w) then mret tt
  else
    match send_data_list w with
    | [] => fail OutOfBounds
    | i :: l =>
        modify (set_send_data_list l);;
        (if (sending_first h && (status =? TRANSMIT_COMPLETE_OK)) || sending_long h then
           '(p, _) ← frame_of i; emit (ima_send_data_done (dnode p) status ts)
         else mret tt);;
        modify (set_emergency_timer Expired);;
        zw_frame_buffer_free i;;
        memb_free i;;
        modify (set_lock_ll false);;
        s ← get_session i;
        call s status ts;;
        process_post SEND_EVENT_SEND_NEXT_LL
    end.

(** ** Sending *)

Definition send_data (p : ts_param_t) (data : list Z) (cb : option callback_t) (usr : Z) : QM bool :=
  s ← memb_alloc;
  match s with
  | None => mret false
  | Some i =>
      f ← zw_frame_buffer_create p data;
      mod_session i (fun s => set_callback cb (set_user usr (set_fb f s)));;
      modify (fun w => set_send_data_list (list_add i (send_data_list w)) w);;
      (if discard_timeout p =? 0 then mret tt else mod_session i (set_discard_timer (Some (discard_timeout p))));;
      process_post SEND_EVENT_SEND_NEXT_LL;;
      mret true
  end.

(** The frame behind the header of an endpoint. *)
Definition endpoint_encap (p : ts_param_t) (data : list Z) : list Z :=
  if (dendpoint p =? 0) && (sendpoint p =? 0) then data
  else [COMMAND_CLASS_MULTI_CHANNEL_V2; MULTI_CHANNEL_CMD_ENCAP_V2; sendpoint p; dendpoint p] ++ data.

Definition crc16_applies (new_buf : list Z) (new_len : Z) : bool :=
  let c := at_ new_buf 0 in
  (new_len <? META_DATA_MAX_DATA_SIZE) && negb (c =? COMMAND_CLASS_TRANSPORT_SERVICE) && negb (c =? COMMAND_CLASS_SECURITY)
  && negb (c =? COMMAND_CLASS_SECURITY_2) && negb (c =? COMMAND_CLASS_CRC_16_ENCAP).

Definition crc16_encap (new_buf : list Z) : list Z :=
  let l := [COMMAND_CLASS_CRC_16_ENCAP; CRC_16_ENCAP] ++ new_buf in
  let crc := Transport.zgw_crc16 0x1D0F l in
  l ++ [Z.land (Z.shiftr crc 8) 0xFF; Z.land crc 0xFF].

(** [i] is the session whose frame is sent; [p] and [data] are in its frame buffer. *)
Definition send_endpoint (i : nat) : QM bool :=
  '(p, data) ← frame_of i;
  w ← get;
  if Nat.ltb UIP_BUFSIZE (length data) then mret false
  else
    let new_buf := endpoint_encap p data in
    if Nat.ltb UIP_BUFSIZE (length new_buf) then mret false
    else
      let cb := Some CbAppl in
      let s := ZW_SendData_scheme_select h (MyNodeID w) p (u8 (Z.of_nat (length data))) in
      if s =? USE_CRC16 then
        send_data p (if crc16_applies new_buf (Z.of_nat (length new_buf)) then crc16_encap new_buf else new_buf) cb (Z.of_nat i)
      else if s =? NO_SCHEME then
        if has_bits (tx_flags p) TRANSMIT_OPTION_MULTICAST then mret false else send_data p new_buf cb (Z.of_nat i)
      else if s =? SECURITY_SCHEME_0 then
        if has_bits (tx_flags p) TRANSMIT_OPTION_MULTICAST then mret false else offer (sec0_send_data p new_buf)
      else if (s =? SECURITY_SCHEME_2_ACCESS) || (s =? SECURITY_SCHEME_2_AUTHENTICATED) || (s =? SECURITY_SCHEME_2_UNAUTHENTICATED) then
        mod_param i (set_scheme s);; offer (sec2_send_data (set_scheme s p) new_buf)
      else mret false.

Definition send_first : QM unit :=
  w ← get;
  match session_list w with
  | [] => modify (set_current_session None)
  | i :: l =>
      modify (set_session_list l);;
      modify (set_current_session (Some i));;
      modify (set_lock true);;
      ok ← send_endpoint i;
      if ok : bool then mret tt else ZW_SendDataAppl_CallbackEx TRANSMIT_COMPLETE_ERROR i None
  end.

(** The handle, or 0. *)
Definition ZW_SendDataAppl (p : ts_param_t) (pData : list Z) (cb : option callback_t) (usr : Z) : QM Z :=
  s ← memb_alloc;
  match s with
  | None => mret 0
  | Some i =>
      c ← rd pData 0;
      f ← zw_frame_buffer_create p (if (c =? COMMAND_CLASS_NO_OPERATION) && is_lr_node (dnode p) then [COMMAND_CLASS_NO_OPERATION_LR; 0] else pData);
      mod_session i (fun s => set_callback cb (set_user usr (set_fb f s)));;
      modify (fun w => set_session_list (list_add i (session_list w)) w);;
      process_post SEND_EVENT_SEND_NEXT;;
      mret (Z.of_nat i + 1)
  end.

Definition ZW_SendDataApplAbort (handle : Z) : QM unit :=
  w ← get;
  if (handle =? 0) || (Z.of_nat NUM_SESSIONS <? handle) then mret tt
  else
    let i := Z.to_nat (handle - 1) in
    if bool_decide (current_session w = Some i) then emit ZW_SendDataAbort;; emit sec0_abort_all_tx_sessions
    else if negb (existsb (Nat.eqb i) (session_list w)) then mret tt
    else
      modify (fun w => set_session_list (list_remove i (session_list w)) w);;
      memb_free i;;
      s ← get_session i;
      call_user s TRANSMIT_COMPLETE_FAIL None.

Definition ZW_SendDataAppl_idle (w : SQ) : bool :=
  bool_decide (current_session w = None) && bool_decide (current_session_ll w = None)
  && bool_decide (session_list w = []) && bool_decide (send_data_list w = []).

Definition zero_session : session := mkSession FbNull 0 None None.

Definition ZW_SendDataAppl_init : QM unit :=
  modify (set_lock false);;
  modify (set_lock_ll false);;
  emit sec0_abort_all_tx_sessions;;
  modify (set_session_list []);;
  modify (set_send_data_list []);;
  modify (fun w => set_mem ((fun _ => zero_session) <$> mem w) (set_counts ((fun _ => 0) <$> counts w) w));;
  modify (fun w => set_backoff_timer (process_exited (backoff_timer w)) (set_emergency_timer (process_exited (emergency_timer w)) w)).

Definition ZW_SendDataAppl_FrameRX_Notify (c : ts_param_t) : QM unit :=
  w ← get;
  if negb (etimer_expired (backoff_timer w)) && (snode c =? backoff_node w) then
    modify (set_backoff_timer Expired);; process_post SEND_EVENT_SEND_NEXT
  else mret tt.

(** ** The process *)

(** The head of the lower queue is given to the radio. *)
Definition send_ll (i : nat) : QM unit :=
  '(p, d) ← frame_of i;
  (if discard_timeout p =? 0 then mret tt else mod_session i (set_discard_timer None));;
  modify (set_lock_ll true);;
  w ← get;
  rc ← (if META_DATA_MAX_DATA_SIZE <=? Z.of_nat (length d) then
          if SupportsCmdClass h (dnode p) COMMAND_CLASS_TRANSPORT_SERVICE then offer (TransportService p d) else mret false
        else if negb (snode p =? MyNodeID w) then offer (ZW_SendData_Bridge (snode p) (dnode p) d (tx_flags p))
        else mod_param i (set_snode 0x00ff);; offer (ZW_SendData (dnode p) d (tx_flags p)));
  if negb rc then send_data_callback_func TRANSMIT_COMPLETE_FAIL None
  else emit (ima_send_data_start (dnode p));; modify (set_emergency_timer (Running 65000)).

Definition handle (e : event) : QM unit :=
  w ← get;
  match e with
  | TIMER_emergency => send_data_callback_func TRANSMIT_COMPLETE_FAIL None
  | TIMER_backoff => process_post SEND_EVENT_SEND_NEXT
  | SEND_EVENT_SEND_NEXT => if negb (lock w) && etimer_expired (backoff_timer w) then send_first else mret tt
  | SEND_EVENT_SEND_NEXT_LL =>
      modify (set_current_session_ll (head (send_data_list w)));;
      match head (send_data_list w) with
      | Some i => if lock_ll w then mret tt else send_ll i
      | None => mret tt
      end
  end.

(** The oldest posted event. *)
Definition process_next : QM unit :=
  w ← get;
  match posted w with
  | [] => mret tt
  | e :: l => modify (set_posted l);; handle e
  end.

(** The timers of the process, which expire while they are on the list (etimer.c). *)
Definition emergency_timeout : QM unit :=
  w ← get;
  match emergency_timer w with
  | Running _ => modify (set_emergency_timer Expired);; process_post TIMER_emergency
  | _ => mret tt
  end.
Definition backoff_timeout : QM unit :=
  w ← get;
  match backoff_timer w with
  | Running _ => modify (set_backoff_timer Expired);; process_post TIMER_backoff
  | _ => mret tt
  end.

End Host.

(** As the program starts. *)
Definition statics (me : Z) : SQ :=
  mkSQ false Expired Expired 0 [] (replicate NUM_SESSIONS 0) (replicate NUM_SESSIONS zero_session) false [] None None [] me [] [].

End SendQueue.
