(* ===== verification/SendQueueSpec.v ===== *)
(** * What the send queues guarantee

    Whatever the application, the radio and the security schemes do, the two queues share the pool of
    sessions without losing or reusing one that is in use, no freed frame buffer is touched, and the
    callback of every accepted message is called once. *)
From S2P Require Import Prelude Effects Transport TransportSpec Pool SendQueue.
Import Effects Pool SendQueue.

Module SendQueueSpec.

(** Projections of updated records. *)
Ltac sq_simpl := cbn [
    snode dnode sendpoint dendpoint tx_flags rx_flags scheme node_list is_mcast_with_folloup force_verify_delivery
    is_multicommand discard_timeout fb user callback discard_timer lock emergency_timer backoff_timer backoff_node
    session_list counts mem lock_ll send_data_list current_session current_session_ll posted MyNodeID accepts outs
    set_snode set_dnode set_sendpoint set_dendpoint set_tx_flags set_rx_flags set_scheme set_node_list
    set_is_mcast_with_folloup set_force_verify_delivery set_is_multicommand set_discard_timeout set_fb set_user
    set_callback set_discard_timer set_lock set_emergency_timer set_backoff_timer set_backoff_node
    set_session_list set_counts set_mem set_lock_ll set_send_data_list set_current_session set_current_session_ll
    set_posted set_MyNodeID set_accepts set_outs]; cbv beta.

Section Steps.
Context {B : Type} (k : unit -> QM B) (Q : B -> SQ -> Prop) (R : unit -> SQ -> Prop) (w : SQ).
Lemma step_post e : wp (k tt) Q (set_posted (posted w ++ [e]) w) -> wp (process_post e ≫= k) Q w.
Proof. done. Qed.
Lemma end_post e : R tt (set_posted (posted w ++ [e]) w) -> wp (process_post e) R w.
Proof. done. Qed.
Lemma step_sq_emit o : wp (k tt) Q (set_outs (o :: outs w) w) -> wp (emit o ≫= k) Q w.
Proof. done. Qed.
Lemma end_sq_emit o : R tt (set_outs (o :: outs w) w) -> wp (emit o) R w.
Proof. done. Qed.
Lemma step_mod_session i f : wp (k tt) Q (set_mem (alter f i (mem w)) w) -> wp (mod_session i f ≫= k) Q w.
Proof. done. Qed.
Lemma end_mod_session i f : R tt (set_mem (alter f i (mem w)) w) -> wp (mod_session i f) R w.
Proof. done. Qed.
Lemma step_memb_free i : wp (k tt) Q (set_counts (alter count_free i (counts w)) w) -> wp (memb_free i ≫= k) Q w.
Proof. done. Qed.
End Steps.

Ltac sq_step :=
  lazymatch goal with
  | |- wp (mbind _ get) _ _ => apply step_get
  | |- wp (mbind _ (modify _)) _ _ => apply step_modify
  | |- wp (mbind _ (mret _)) _ _ => apply step_ret
  | |- wp (mbind _ (process_post _)) _ _ => apply step_post
  | |- wp (mbind _ (emit _)) _ _ => apply step_sq_emit
  | |- wp (mbind _ (mod_session _ _)) _ _ => apply step_mod_session
  | |- wp (mbind _ (memb_free _)) _ _ => apply step_memb_free
  | |- wp (mret _) _ _ => apply end_ret
  | |- wp (modify _) _ _ => apply end_modify
  | |- wp (process_post _) _ _ => apply end_post
  | |- wp (emit _) _ _ => apply end_sq_emit
  | |- wp (mod_session _ _) _ _ => apply end_mod_session
  end; cbv beta zeta.
Ltac sq := cbv beta iota; sq_simpl; repeat (sq_step; sq_simpl; cbv iota).

(** ** The invariant *)

Abbreviation sess := (block zero_session).

(** The session of the application whose message is being sent. *)
Definition sending (w : SQ) : list nat := if lock w then option_list (current_session w) else [].

Definition owned (w : SQ) : list nat := session_list w ++ sending w ++ send_data_list w.

Definition is_appl (m : list session) (i : nat) : bool := match callback (sess m i) with Some CbAppl => true | _ => false end.

(** The frames of the lower queue that carry the message being sent: there is at most one, and it
    points to the session of the message. *)
Definition appl_frames (w : SQ) : list nat := List.filter (is_appl (mem w)) (send_data_list w).
Definition appl_ok (lk : bool) (cur : option nat) (m : list session) (l : list nat) : Prop :=
  match List.filter (is_appl m) l with
  | [] => True
  | [j] => lk = true /\ cur = Some (Z.to_nat (user (sess m j)))
  | _ => False
  end.

(** A message waiting for its turn, and a frame waiting for the radio. *)
Definition app_ok (s : session) : Prop :=
  exists p d, fb s = FbLive p d /\ (length (endpoint_encap p d) < FRAME_BUFFER_ELEMENT_SIE)%nat /\ callback s <> Some CbAppl.
Definition frame_ok (s : session) : Prop :=
  exists p d, fb s = FbLive p d /\ (discard_timer s <> None -> discard_timeout p <> 0).

Record Inv (w : SQ) : Prop := {
  inv_mem : length (mem w) = NUM_SESSIONS;
  inv_pool : pool_ok NUM_SESSIONS (counts w) (owned w);
  inv_sending : lock w = true -> is_Some (current_session w);
  inv_app i : i ∈ session_list w ++ sending w -> app_ok (sess (mem w) i);
  inv_ll i : i ∈ send_data_list w -> frame_ok (sess (mem w) i);
  inv_appl : appl_ok (lock w) (current_session w) (mem w) (send_data_list w);
  inv_busy : lock_ll w = true -> exists i l, send_data_list w = i :: l /\ discard_timer (sess (mem w) i) = None;
  inv_timer i : discard_timer (sess (mem w) i) <> None -> i ∈ send_data_list w
}.

(** The callbacks that were called, and those of the sessions in use. *)
Definition user_cb (s : session) : option (Z * Z) := match callback s with Some (CbUser f) => Some (f, user s) | _ => None end.
Definition called_of (o : out) : option (Z * Z) := match o with Called f u _ _ => Some (f, u) | _ => None end.
Definition called (w : SQ) : list (Z * Z) := omap called_of (outs w).
Definition waiting (w : SQ) : list (Z * Z) := omap (fun i => user_cb (sess (mem w) i)) (owned w).
Definition calls (w : SQ) : list (Z * Z) := called w ++ waiting w.

(** What the invariant depends on. *)
Definition core (w : SQ) := (lock w, current_session w, lock_ll w, session_list w, send_data_list w, counts w, mem w).

Lemma Inv_core w w' : core w' = core w -> Inv w -> Inv w'.
Proof.
  intros [= E1 E2 E3 E4 E5 E6 E7] [H1 H2 H3 H4 H5 H6 H7 H8].
  split; unfold owned, sending, appl_frames in *; by rewrite ?E1, ?E2, ?E3, ?E4, ?E5, ?E6, ?E7 in *.
Qed.

Lemma waiting_core w w' : core w' = core w -> waiting w' = waiting w.
Proof. intros [= E1 E2 E3 E4 E5 E6 E7]. unfold waiting, owned, sending. by rewrite E1, E2, E4, E5, E7. Qed.

(** Memories that agree on some sessions. *)
Definition same_on (l : list nat) (m m' : list session) : Prop := forall j, j ∈ l -> sess m' j = sess m j.

Lemma waiting_same l m m' : same_on l m m' ->
  omap (fun i => user_cb (sess m' i)) l = omap (fun i => user_cb (sess m i)) l.
Proof.
  induction l as [|i l IH]; intros H; [done|]. cbn. rewrite (H i) by left. rewrite IH; [done|]. intros j Hj. apply H. by right.
Qed.

Lemma appl_filter_same l m m' : same_on l m m' -> List.filter (is_appl m') l = List.filter (is_appl m) l.
Proof.
  induction l as [|i l IH]; intros H; [done|]. cbn.
  replace (is_appl m' i) with (is_appl m i) by (unfold is_appl; by rewrite (H i) by left).
  rewrite IH; [done|]. intros j Hj. apply H. by right.
Qed.

Lemma appl_same lk cur l m m' : same_on l m m' -> appl_ok lk cur m l -> appl_ok lk cur m' l.
Proof.
  intros H. unfold appl_ok. rewrite (appl_filter_same l m m' H). destruct (List.filter (is_appl m) l) as [|j [|k l']] eqn:E; [done| |done].
  rewrite H; [done|]. apply list_elem_of_In, (List.filter_In (is_appl m)). rewrite E. by left.
Qed.

Lemma same_sub l l' m m' : same_on l m m' -> (forall j, j ∈ l' -> j ∈ l) -> same_on l' m m'.
Proof. intros H Hs j Hj. by apply H, Hs. Qed.

(** The sessions that are not in use can be written. *)
Lemma unused_same l m i s : ~ i ∈ l -> same_on l m (<[i := s]> m).
Proof. intros Hi j Hj. apply block_insert_ne. by intros ->. Qed.

Lemma owned_app w i : i ∈ session_list w ++ sending w -> i ∈ owned w.
Proof. unfold owned. rewrite !elem_of_app. tauto. Qed.
Lemma owned_ll w i : i ∈ send_data_list w -> i ∈ owned w.
Proof. unfold owned. rewrite !elem_of_app. tauto. Qed.

(** A message is queued. *)
Lemma take_app w w' i s : Inv w -> first_free (counts w) = Some i -> app_ok s -> discard_timer s = None ->
  core w' = (lock w, current_session w, lock_ll w, session_list w ++ [i], send_data_list w, alter (Z.add 1) i (counts w), <[i := s]> (mem w)) ->
  Inv w' /\ waiting w' ≡ₚ option_list (user_cb s) ++ waiting w.
Proof.
  intros [H1 H2 H3 H4 H5 H6 H7 H8] Hf Hs Ht [= E1 E2 E3 E4 E5 E6 E7].
  destruct (pool_alloc _ _ _ _ H2 Hf) as (Hi & Hlt & Hp). rewrite <- H1 in Hlt. pose proof (unused_same (owned w) (mem w) i s Hi) as Hu.
  assert (Ho : owned w' ≡ₚ i :: owned w) by (unfold owned, sending; rewrite E1, E2, E4, E5, <- app_assoc; symmetry; apply Permutation_middle).
  assert (Hsd : sending w' = sending w) by (unfold sending; by rewrite E1, E2).
  pose proof (same_sub _ _ _ _ Hu (owned_ll w)) as Hl.
  split; [split|].
  - by rewrite E7, length_insert.
  - by rewrite E6, Ho.
  - by rewrite E1, E2.
  - intros j. rewrite Hsd, E4, E7, !elem_of_app, list_elem_of_singleton. intros Hj. destruct (decide (j = i)) as [->|Hn].
    + by rewrite block_insert_eq.
    + rewrite block_insert_ne by done. apply H4, elem_of_app. tauto.
  - intros j. rewrite E5, E7. intros Hj. rewrite Hl by done. by apply H5.
  - rewrite E1, E2, E5, E7. by apply (appl_same _ _ _ (mem w)).
  - rewrite E3, E5, E7. intros (j & l & E & Hd)%H7. exists j, l. split; [done|]. rewrite Hl; [done|]. rewrite E. left.
  - intros j. rewrite E5, E7. destruct (decide (i = j)) as [<-|Hn]; [by rewrite block_insert_eq, Ht|]. rewrite block_insert_ne by done. apply H8.
  - unfold waiting. rewrite Ho. cbn [omap list_omap]. rewrite E7, block_insert_eq, (waiting_same _ (mem w)) by done. by destruct (user_cb s).
Qed.

(** A frame is queued for the radio. *)
Lemma take_ll w w' i s : Inv w -> first_free (counts w) = Some i -> frame_ok s ->
  (callback s = Some CbAppl -> appl_frames w = [] /\ lock w = true /\ current_session w = Some (Z.to_nat (user s))) ->
  core w' = (lock w, current_session w, lock_ll w, session_list w, send_data_list w ++ [i], alter (Z.add 1) i (counts w), <[i := s]> (mem w)) ->
  Inv w' /\ waiting w' ≡ₚ option_list (user_cb s) ++ waiting w.
Proof.
  intros [H1 H2 H3 H4 H5 H6 H7 H8] Hf Hs Hap [= E1 E2 E3 E4 E5 E6 E7].
  destruct (pool_alloc _ _ _ _ H2 Hf) as (Hi & Hlt & Hp). rewrite <- H1 in Hlt. pose proof (unused_same (owned w) (mem w) i s Hi) as Hu.
  assert (Ho : owned w' ≡ₚ i :: owned w) by (unfold owned, sending; rewrite E1, E2, E4, E5, !app_assoc; symmetry; apply Permutation_cons_append).
  assert (Hsd : sending w' = sending w) by (unfold sending; by rewrite E1, E2).
  pose proof (same_sub _ _ _ _ Hu (owned_ll w)) as Hl.
  split; [split|].
  - by rewrite E7, length_insert.
  - by rewrite E6, Ho.
  - by rewrite E1, E2.
  - intros j. rewrite Hsd, E4, E7. intros Hj. rewrite (same_sub _ _ _ _ Hu (owned_app w)) by done. by apply H4.
  - intros j. rewrite E5, E7, elem_of_app, list_elem_of_singleton. intros [Hj| ->]; [rewrite Hl by done; by apply H5|by rewrite block_insert_eq].
  - rewrite E1, E2, E5, E7. unfold appl_ok. rewrite List.filter_app, (appl_filter_same _ (mem w)) by done. cbn [List.filter].
    unfold is_appl at 2. rewrite block_insert_eq by done. destruct (callback s) as [[|g]|]; rewrite ?app_nil_r.
    + destruct (Hap eq_refl) as (Hn & Hk & Hc). fold (appl_frames w). rewrite Hn. cbn. by rewrite block_insert_eq.
    + pose proof (appl_same _ _ _ _ _ Hl H6) as H. unfold appl_ok in H. by rewrite (appl_filter_same _ (mem w)) in H.
    + pose proof (appl_same _ _ _ _ _ Hl H6) as H. unfold appl_ok in H. by rewrite (appl_filter_same _ (mem w)) in H.
  - rewrite E3, E5, E7. intros (j & l & E & Hd)%H7. exists j, (l ++ [i]). split; [by rewrite E|]. rewrite Hl; [done|]. rewrite E. left.
  - intros j. rewrite E5, E7, elem_of_app, list_elem_of_singleton. destruct (decide (i = j)) as [<-|Hn]; [tauto|].
    rewrite block_insert_ne by done. intros Hj%H8. tauto.
  - unfold waiting. rewrite Ho. cbn [omap list_omap]. rewrite E7, block_insert_eq, (waiting_same _ (mem w)) by done. by destruct (user_cb s).
Qed.

(** The message a frame carries. *)
Lemma appl_frame w i : Inv w -> i ∈ send_data_list w -> callback (sess (mem w) i) = Some CbAppl ->
  appl_frames w = [i] /\ lock w = true /\ current_session w = Some (Z.to_nat (user (sess (mem w) i))).
Proof.
  intros H Hi E. assert (Hf : i ∈ appl_frames w).
  { apply list_elem_of_In, List.filter_In. split; [by apply list_elem_of_In|]. unfold is_appl. by rewrite E. }
  pose proof (inv_appl w H) as Ha. unfold appl_ok in Ha. fold (appl_frames w) in Ha.
  destruct (appl_frames w) as [|j [|k l]]; [by apply elem_of_nil in Hf| |done]. by apply list_elem_of_singleton in Hf as ->.
Qed.

(** A frame leaves the queue, sent or given up. *)
Lemma release_ll w w' i s' lk' : Inv w -> i ∈ send_data_list w -> discard_timer s' = None ->
  (lk' = true -> lock_ll w = true /\ head (send_data_list w) <> Some i) ->
  core w' = (lock w, current_session w, lk', session_list w, list_remove i (send_data_list w),
             alter count_free i (counts w), <[i := s']> (mem w)) ->
  Inv w' /\ waiting w ≡ₚ option_list (user_cb (sess (mem w) i)) ++ waiting w' /\
  (callback (sess (mem w) i) = Some CbAppl -> appl_frames w' = []).
Proof.
  intros HI Hi Ht Hlk [= E1 E2 E3 E4 E5 E6 E7]. pose proof HI as [H1 H2 H3 H4 H5 H6 H7 H8].
  pose proof (list_remove_perm i (send_data_list w) Hi) as Hr.
  assert (Ho : owned w ≡ₚ i :: owned w') by (unfold owned, sending; rewrite E1, E2, E4, E5, Hr at 1; by rewrite !app_assoc, <- Permutation_middle).
  rewrite Ho in H2. pose proof (pool_nodup _ _ _ H2) as Hn. apply list.NoDup_cons in Hn as [Hni _].
  assert (Hlt : (i < length (mem w))%nat) by (rewrite H1; apply (pool_lt _ _ _ H2); left).
  pose proof (unused_same (owned w') (mem w) i s' Hni) as Hu. pose proof (same_sub _ _ _ _ Hu (owned_ll w')) as Hl.
  assert (Hsd : sending w' = sending w) by (unfold sending; by rewrite E1, E2).
  assert (Hin : forall j, j ∈ send_data_list w' -> j ∈ send_data_list w) by (intros j Hj; rewrite E5 in Hj; rewrite Hr; by right).
  assert (Hap : callback (sess (mem w) i) = Some CbAppl -> appl_frames w' = []).
  { intros E. destruct (appl_frame w i HI Hi E) as [Ha _]. unfold appl_frames. rewrite E7, (appl_filter_same _ (mem w)) by done.
    rewrite E5, filter_remove. unfold is_appl at 1. rewrite E. fold (appl_frames w). rewrite Ha. cbn. by rewrite Nat.eqb_refl. }
  split; [split|split; [|exact Hap]].
  - by rewrite E7, length_insert.
  - rewrite E6. by apply pool_free.
  - by rewrite E1, E2.
  - intros j Hj. rewrite E7, (same_sub _ _ _ _ Hu (owned_app w')) by done. apply H4. by rewrite E4, Hsd in Hj.
  - intros j Hj. rewrite E7, Hl by done. by apply H5, Hin.
  - destruct (decide (callback (sess (mem w) i) = Some CbAppl)) as [E|E].
    + unfold appl_ok. fold (appl_frames w'). by rewrite Hap.
    + rewrite E1, E2, E7. apply (appl_same _ _ _ (mem w)); [done|]. unfold appl_ok. rewrite E5, filter_remove.
      replace (is_appl (mem w) i) with false; [done|]. unfold is_appl. by destruct (callback _) as [[|]|].
  - rewrite E3. intros [Hb Hh]%Hlk. destruct (H7 Hb) as (j & l & E & Hd). rewrite E in Hh. rewrite E5, E7, E. cbn.
    destruct (Nat.eqb_spec i j) as [<-|Hj]; [done|]. exists j, (list_remove i l). split; [done|]. by rewrite block_insert_ne.
  - intros j. rewrite E7. destruct (decide (i = j)) as [<-|Hj]; [by rewrite block_insert_eq|]. rewrite block_insert_ne by done.
    intros Hj'%H8. rewrite Hr in Hj'. apply elem_of_cons in Hj' as [?|?]; [done|]. by rewrite E5.
  - unfold waiting. rewrite Ho. cbn [omap list_omap]. rewrite E7, (waiting_same _ _ _ Hu). by destruct (user_cb _).
Qed.

(** A message of the application leaves its queue, or ends. *)
Lemma release_app w w' i s' lk' cur' sl' : Inv w -> i :: sl' ++ sending w' ≡ₚ session_list w ++ sending w -> discard_timer s' = None ->
  (lk' = true -> is_Some cur') -> appl_ok lk' cur' (mem w) (send_data_list w) ->
  core w' = (lk', cur', lock_ll w, sl', send_data_list w, alter count_free i (counts w), <[i := s']> (mem w)) ->
  Inv w' /\ waiting w ≡ₚ option_list (user_cb (sess (mem w) i)) ++ waiting w'.
Proof.
  intros [H1 H2 H3 H4 H5 H6 H7 H8] Hi Ht Hcur Hap [= E1 E2 E3 E4 E5 E6 E7].
  assert (Ho : owned w ≡ₚ i :: owned w') by (unfold owned; rewrite E4, E5, !app_assoc, <- Hi; done).
  rewrite Ho in H2. pose proof (pool_nodup _ _ _ H2) as Hn. apply list.NoDup_cons in Hn as [Hni _].
  assert (Hlt : (i < length (mem w))%nat) by (rewrite H1; apply (pool_lt _ _ _ H2); left).
  pose proof (unused_same (owned w') (mem w) i s' Hni) as Hu. pose proof (same_sub _ _ _ _ Hu (owned_ll w')) as Hl.
  split; [split|].
  - by rewrite E7, length_insert.
  - rewrite E6. by apply pool_free.
  - by rewrite E1, E2.
  - intros j Hj. rewrite E7, (same_sub _ _ _ _ Hu (owned_app w')) by done. apply H4. rewrite <- Hi. right. by rewrite <- E4.
  - intros j Hj. rewrite E7, Hl by done. rewrite E5 in Hj. by apply H5.
  - rewrite E1, E2, E7, E5. apply (appl_same _ _ _ (mem w)); [by rewrite <- E5|done].
  - rewrite E3, E5, E7. intros (j & l & E & Hd)%H7. exists j, l. split; [done|]. rewrite Hl; [done|]. rewrite E5, E. left.
  - intros j. rewrite E5, E7. destruct (decide (i = j)) as [<-|Hj]; [by rewrite block_insert_eq|]. rewrite block_insert_ne by done. apply H8.
  - unfold waiting. rewrite Ho. cbn [omap list_omap]. rewrite E7, (waiting_same _ _ _ Hu). by destruct (user_cb _).
Qed.

(** The next message becomes the current one. *)
Lemma start_first w w' i l : Inv w -> lock w = false -> session_list w = i :: l ->
  core w' = (true, Some i, lock_ll w, l, send_data_list w, counts w, mem w) ->
  Inv w' /\ waiting w' ≡ₚ waiting w /\ appl_frames w' = [].
Proof.
  intros [H1 H2 H3 H4 H5 H6 H7 H8] Hk Hl [= E1 E2 E3 E4 E5 E6 E7].
  assert (Ho : owned w' ≡ₚ owned w).
  { unfold owned, sending. rewrite E1, E2, E4, E5, Hk, Hl. cbn. by rewrite <- Permutation_middle. }
  assert (Ha : appl_frames w' = []).
  { unfold appl_frames. rewrite E5, E7. unfold appl_ok in H6. destruct (List.filter _ _) as [|j [|k r]]; [done| |done].
    rewrite Hk in H6. by destruct H6. }
  split; [split|split; [|done]].
  - by rewrite E7.
  - by rewrite E6, Ho.
  - by rewrite E2.
  - intros j Hj. rewrite E7. apply H4. unfold sending in *. rewrite E1, E2, E4 in Hj. rewrite Hk, Hl, app_nil_r. cbn in Hj.
    rewrite elem_of_app, list_elem_of_singleton in Hj. rewrite elem_of_cons. tauto.
  - by rewrite E5, E7.
  - unfold appl_ok. fold (appl_frames w'). by rewrite Ha.
  - by rewrite E3, E5, E7.
  - by rewrite E5, E7.
  - unfold waiting. by rewrite E7, Ho.
Qed.

(** The frame buffer or the timer of a session in use changes. *)
Lemma update_session w w' i s' : Inv w -> i ∈ owned w -> callback s' = callback (sess (mem w) i) -> user s' = user (sess (mem w) i) ->
  (app_ok (sess (mem w) i) -> app_ok s') -> (frame_ok (sess (mem w) i) -> frame_ok s') ->
  (discard_timer s' = None \/ discard_timer s' = discard_timer (sess (mem w) i)) ->
  core w' = (lock w, current_session w, lock_ll w, session_list w, send_data_list w, counts w, <[i := s']> (mem w)) ->
  Inv w' /\ waiting w' = waiting w /\ appl_frames w' = appl_frames w.
Proof.
  intros [H1 H2 H3 H4 H5 H6 H7 H8] Hi Hcb Hus Ha Hf Ht [= E1 E2 E3 E4 E5 E6 E7].
  assert (Ho : owned w' = owned w) by (unfold owned, sending; by rewrite E1, E2, E4, E5).
  assert (Hsd : sending w' = sending w) by (unfold sending; by rewrite E1, E2).
  assert (Hlt : (i < length (mem w))%nat) by (rewrite H1; by apply (pool_lt _ _ _ H2)).
  assert (Hs : forall j, sess (mem w') j = sess (mem w) j \/ j = i /\ sess (mem w') j = s').
  { intros j. rewrite E7. destruct (decide (i = j)) as [<-|]; [right; by rewrite block_insert_eq|left; by apply block_insert_ne]. }
  assert (Hu : forall j, callback (sess (mem w') j) = callback (sess (mem w) j) /\ user (sess (mem w') j) = user (sess (mem w) j)).
  { intros j. destruct (Hs j) as [->|[-> ->]]; done. }
  assert (Hfl : appl_frames w' = appl_frames w).
  { unfold appl_frames. rewrite E5. apply List.filter_ext. intros j. unfold is_appl. by rewrite (proj1 (Hu j)). }
  split; [split|split; [|done]].
  - by rewrite E7, length_insert.
  - by rewrite E6, Ho.
  - by rewrite E1, E2.
  - intros j. rewrite Hsd, E4. intros Hj. destruct (Hs j) as [->|[-> ->]]; auto.
  - intros j. rewrite E5. intros Hj. destruct (Hs j) as [->|[-> ->]]; auto.
  - unfold appl_ok in *. fold (appl_frames w') in *. fold (appl_frames w) in H6. rewrite Hfl, E1, E2.
    destruct (appl_frames w) as [|j [|]]; [done| |done]. by rewrite (proj2 (Hu j)).
  - rewrite E3, E5. intros (j & l & E & Hd)%H7. exists j, l. split; [done|]. destruct (Hs j) as [->|[-> ->]]; [done|].
    destruct Ht as [Ht|Ht]; [done|by rewrite Ht].
  - intros j. rewrite E5. destruct (Hs j) as [->|[-> ->]]; [apply H8|]. destruct Ht as [Ht|Ht]; rewrite Ht; [done|apply H8].
  - unfold waiting. rewrite Ho. generalize (owned w). intros l. induction l as [|j l IH]; [done|]. cbn.
    replace (user_cb (sess (mem w') j)) with (user_cb (sess (mem w) j)) by (unfold user_cb; by destruct (Hu j) as [-> ->]). by rewrite IH.
Qed.

(** ** The operations *)

Lemma wp_get_session i Q w : (i < length (mem w))%nat -> Q (sess (mem w) i) w -> wp (get_session i) Q w.
Proof.
  intros Hi HQ. unfold get_session. apply step_get. destruct (lookup_lt_is_Some_2 _ _ Hi) as [s Hs].
  eapply wp_rd; [rewrite Nat2Z.id; exact Hs|]. unfold block in HQ. by rewrite Hs in HQ.
Qed.

Lemma wp_frame_of i p d Q w : (i < length (mem w))%nat -> fb (sess (mem w) i) = FbLive p d -> Q (p, d) w -> wp (frame_of i) Q w.
Proof. intros Hi E HQ. unfold frame_of. apply wp_bind, wp_get_session; [done|]. by rewrite E. Qed.

Lemma wp_frame_free i p d Q w : (i < length (mem w))%nat -> fb (sess (mem w) i) = FbLive p d ->
  Q tt (set_mem (<[i := set_fb FbFreed (sess (mem w) i)]> (mem w)) w) -> wp (zw_frame_buffer_free i) Q w.
Proof.
  intros Hi E HQ. unfold zw_frame_buffer_free. apply wp_bind, wp_get_session; [done|]. rewrite E. apply end_mod_session. by rewrite (alter_block zero_session).
Qed.

(** An operation keeps the invariant, and calls every callback it takes from a session. *)
Definition keeps (w w' : SQ) : Prop := Inv w' /\ calls w' ≡ₚ calls w.

Lemma keeps_refl w : Inv w -> keeps w w.
Proof. done. Qed.
Lemma keeps_trans w w1 w2 : keeps w w1 -> keeps w1 w2 -> keeps w w2.
Proof. intros [_ H] [H1 H2]. split; [done|]. by rewrite H2. Qed.
Lemma keeps_core w w' : Inv w -> core w' = core w -> called w' = called w -> keeps w w'.
Proof. intros HI Hc Ho. split; [by apply (Inv_core w)|]. unfold calls. by rewrite Ho, (waiting_core w w'). Qed.

(** Only the frames for the radio have timers. *)
Lemma app_no_timer w i : Inv w -> i ∈ session_list w ++ sending w -> discard_timer (sess (mem w) i) = None.
Proof.
  intros HI Hi. destruct (discard_timer (sess (mem w) i)) eqn:Et; [|done]. exfalso.
  assert (Hd : i ∈ send_data_list w) by (apply (inv_timer w HI); by rewrite Et).
  pose proof (pool_nodup _ _ _ (inv_pool w HI)) as Hn. unfold owned in Hn. rewrite app_assoc in Hn.
  apply list.NoDup_app in Hn as (_ & Hn & _). by apply (Hn i).
Qed.

Lemma owned_lt w i : Inv w -> i ∈ owned w -> (i < length (mem w))%nat.
Proof. intros HI Hi. rewrite (inv_mem w HI). by apply (pool_lt _ _ _ (inv_pool w HI)). Qed.

Section Host.
Context (h : Host).

Lemma call_user_ok s st ts w w1 : callback s <> Some CbAppl -> Inv w1 -> waiting w ≡ₚ option_list (user_cb s) ++ waiting w1 ->
  called w1 = called w -> wp (call_user s st ts) (fun _ => keeps w) w1.
Proof.
  intros Hc HI Hw Ho. unfold call_user, user_cb in *. destruct (callback s) as [[|f]|]; [done| |].
  - apply end_sq_emit. split; [by apply (Inv_core w1)|]. unfold calls. rewrite Hw. rewrite (waiting_core w1) by done. cbn.
    rewrite <- Ho. apply Permutation_middle.
  - apply end_ret. split; [done|]. unfold calls. by rewrite Hw, Ho.
Qed.

Lemma app_length s : app_ok s -> exists p d, fb s = FbLive p d /\ (length d < FRAME_BUFFER_ELEMENT_SIE)%nat.
Proof.
  intros (p & d & E & Hl & _). exists p, d. split; [done|]. unfold endpoint_encap in Hl. destruct (_ && _); [done|].
  rewrite length_app in Hl. cbn in Hl. lia.
Qed.

(** The next message is started by an event, or by the timer. *)
Definition wake_next (w w' : SQ) : Prop :=
  (posted w' = posted w ++ [SEND_EVENT_SEND_NEXT] /\ backoff_timer w' = backoff_timer w) \/ (posted w' = posted w /\ exists t, backoff_timer w' = Running t).

Lemma schedule_next_ok st i ts w p d : (i < length (mem w))%nat -> fb (sess (mem w) i) = FbLive p d -> (length d < FRAME_BUFFER_ELEMENT_SIE)%nat ->
  wp (schedule_next h st i ts) (fun _ w' => core w' = core w /\ (outs w', MyNodeID w', accepts w') = (outs w, MyNodeID w, accepts w) /\ wake_next w w') w.
Proof.
  intros Hi E Hd. unfold schedule_next.
  assert (Hpost : wp (process_post SEND_EVENT_SEND_NEXT) (fun _ w' => core w' = core w /\ (outs w', MyNodeID w', accepts w') = (outs w, MyNodeID w, accepts w) /\ wake_next w w') w)
    by (apply end_post; split; [done|]; split; [done|by left]).
  destruct ts as [ticks|]; [|done]. destruct (st =? _); [|done].
  apply wp_bind, (wp_frame_of i p d); [done..|]. assert (Hb : length (d ++ replicate (FRAME_BUFFER_ELEMENT_SIE - length d) 0) = 256%nat)
    by (rewrite length_app, length_replicate; unfold FRAME_BUFFER_ELEMENT_SIE in *; lia).
  apply wp_bind, rd_at; [rewrite Hb; cbn; lia|]. apply wp_bind, rd_at; [rewrite Hb; cbn; lia|].
  destruct (CommandAnalyzerIsGet h _ _); [|done]. sq. split; [done|]. split; [done|]. right. split; [done|]. by eexists.
Qed.

Lemma CallbackEx_ok st i ts w : Inv w -> (lock w = true -> current_session w = Some i /\ appl_frames w = []) ->
  wp (ZW_SendDataAppl_CallbackEx h st i ts) (fun _ => keeps w) w.
Proof.
  intros HI Hc. unfold ZW_SendDataAppl_CallbackEx. sq. destruct (lock w) eqn:Hk; [|by apply end_ret].
  destruct (Hc eq_refl) as [Hcur Ha]. cbn [negb]. sq.
  assert (Hin : i ∈ sending w) by (unfold sending; rewrite Hk, Hcur; left).
  assert (Ho : i ∈ session_list w ++ sending w) by (apply elem_of_app; by right).
  assert (Hi : (i < length (mem w))%nat) by by apply owned_lt, owned_app.
  pose proof (inv_app w HI i Ho) as Hs. destruct (app_length _ Hs) as (p & d & E & Hd).
  apply wp_bind. eapply wp_mono; [by apply (schedule_next_ok st i ts _ p d)|]. intros [] w2 ([= E1 E2 E3 E4 E5 E6 E7] & [= Eo _ _] & _). sq_simpl.
  apply wp_bind. rewrite <- E7 in Hi, E. apply (wp_frame_free i p d); [done..|]. sq. apply wp_bind, wp_get_session; sq_simpl; [by rewrite length_insert|].
  rewrite block_insert_eq, E7 by done. rewrite E7 in Hi.
  edestruct (release_app w (set_counts (alter count_free i (counts w2)) (set_mem (<[i:=set_fb FbFreed (sess (mem w) i)]> (mem w)) w2))
    i (set_fb FbFreed (sess (mem w) i)) false (current_session w) (session_list w)) as [HI' Hw]; [done|..].
  - unfold sending. sq_simpl. rewrite E1, Hk, Hcur, app_nil_r. cbn. symmetry. by rewrite Permutation_app_comm.
  - by apply (app_no_timer w i).
  - done.
  - unfold appl_ok. fold (appl_frames w). by rewrite Ha.
  - unfold core. sq_simpl. by rewrite E1, E2, E3, E4, E5, E6.
  - destruct Hs as (? & ? & _ & _ & Hcb). apply call_user_ok; [done..|]. unfold called. sq_simpl. by rewrite Eo.
Qed.

(** The callback of a frame that has left the queue. *)
Lemma call_ok s st ts w w1 : Inv w1 -> waiting w ≡ₚ option_list (user_cb s) ++ waiting w1 -> called w1 = called w ->
  (callback s = Some CbAppl -> appl_frames w1 = [] /\ (lock w1 = true -> current_session w1 = Some (Z.to_nat (user s)))) ->
  wp (call h s st ts) (fun _ => keeps w) w1.
Proof.
  intros HI Hw Ho Ha. unfold call. destruct (callback s) as [[|f]|] eqn:E.
  - destruct (Ha eq_refl) as [Hf Hc]. eapply wp_mono; [apply CallbackEx_ok; auto|]. intros [] w2. apply keeps_trans.
    split; [done|]. unfold calls. rewrite Hw, Ho. unfold user_cb. by rewrite E.
  - apply call_user_ok; by rewrite ?E.
  - apply call_user_ok; by rewrite ?E.
Qed.

Lemma do_discard_timeout_memb_ok i w : Inv w -> discard_timer (sess (mem w) i) <> None ->
  wp (do_discard_timeout_memb h i) (fun _ => keeps w) w.
Proof.
  intros HI Ht. pose proof (inv_timer w HI i Ht) as Hi. pose proof (owned_lt w i HI (owned_ll w i Hi)) as Hlt.
  unfold do_discard_timeout_memb. sq. rewrite (alter_block zero_session) by done. apply wp_bind, wp_get_session; sq_simpl; [by rewrite length_insert|].
  rewrite block_insert_eq by done. match goal with |- wp _ _ ?w1 => destruct (release_ll w w1 i (set_discard_timer None (sess (mem w) i)) (lock_ll w)) as (HI' & Hw & Ha) end; try done.
  - intros Hb. split; [done|]. destruct (inv_busy w HI Hb) as (j & l & E & Hd). rewrite E. cbn. by intros [= ->].
  - apply call_ok; [done..|]. sq_simpl. intros E. destruct (appl_frame w i HI Hi E) as (_ & _ & Hc). auto.
Qed.

Lemma send_data_callback_func_ok st ts w : Inv w -> wp (send_data_callback_func h st ts) (fun _ => keeps w) w.
Proof.
  intros HI. unfold send_data_callback_func. sq. destruct (lock_ll w) eqn:Hb; [|by apply end_ret]. cbn [negb].
  destruct (inv_busy w HI Hb) as (i & l & E & Hd). rewrite E. assert (Hi : i ∈ send_data_list w) by (rewrite E; left).
  pose proof (owned_lt w i HI (owned_ll w i Hi)) as Hlt. destruct (inv_ll w HI i Hi) as (p & d & Ef & _). sq.
  apply wp_bind. eapply (wp_mono _ (fun _ w1 => core w1 = core (set_send_data_list l w) /\ called w1 = called w)).
  { destruct (_ || _); [|by apply end_ret]. apply wp_bind, (wp_frame_of i p d); [done..|]. by apply end_sq_emit. }
  intros [] w1 [[= E1 E2 E3 E4 E5 E6 E7] Eo]. sq_simpl. sq. apply wp_bind. rewrite <- E7 in Hlt, Ef.
  apply (wp_frame_free i p d); [done..|]. sq. rewrite E7 in *. apply wp_bind, wp_get_session; sq_simpl; [by rewrite length_insert|].
  rewrite block_insert_eq by done.
  match goal with |- wp _ _ ?w2 => destruct (release_ll w w2 i (set_fb FbFreed (sess (mem w) i)) false) as (HI' & Hw & Ha) end; try done.
  { unfold core. sq_simpl. rewrite E1, E2, E4, E5, E6, E. cbn. by rewrite Nat.eqb_refl. }
  apply wp_bind. eapply wp_mono; [apply call_ok; [done..|]|].
  - sq_simpl. intros Ecb. destruct (appl_frame w i HI Hi Ecb) as (_ & _ & Hc). split; [auto|]. by rewrite E2.
  - intros [] w3 H3. apply end_post. eapply keeps_trans; [exact H3|]. by apply keeps_core; [apply H3|..].
Qed.

(** ** Sending *)

Lemma fresh_session w i : Inv w -> first_free (counts w) = Some i ->
  ~ i ∈ owned w /\ (i < length (mem w))%nat /\ discard_timer (sess (mem w) i) = None /\
  list_add i (session_list w) = session_list w ++ [i] /\ list_add i (send_data_list w) = send_data_list w ++ [i].
Proof.
  intros HI Ef. destruct (pool_alloc _ _ _ _ (inv_pool w HI) Ef) as (Hn & Hi & _). split; [done|]. split; [by rewrite (inv_mem w HI)|].
  split; [|unfold list_add; rewrite !list_remove_none; [done|..]; intros H; [by apply Hn, owned_ll|by apply Hn, owned_app, elem_of_app; left]].
  destruct (discard_timer _) eqn:Et; [|done]. exfalso. apply Hn, owned_ll, (inv_timer w HI). by rewrite Et.
Qed.

Definition cb_of (cb : option callback_t) (usr : Z) : list (Z * Z) := option_list (user_cb (mkSession FbNull usr cb None)).

(** What [send_data] leaves alone. *)
Definition rest (w : SQ) := (emergency_timer w, backoff_timer w, MyNodeID w, accepts w, outs w).

Lemma send_data_exact p data cb usr w i : Inv w -> (length data < FRAME_BUFFER_ELEMENT_SIE)%nat -> first_free (counts w) = Some i ->
  wp (send_data p data cb usr) (fun r w' => r = true /\ rest w' = rest w /\ posted w' = posted w ++ [SEND_EVENT_SEND_NEXT_LL] /\
    exists t, (t <> None -> discard_timeout p <> 0) /\ core w' = (lock w, current_session w, lock_ll w, session_list w, send_data_list w ++ [i],
      alter (Z.add 1) i (counts w), <[i := mkSession (FbLive p data) usr cb t]> (mem w))) w.
Proof.
  intros HI Hd Ef. unfold send_data, memb_alloc. apply wp_bind. sq. rewrite Ef. sq.
  unfold zw_frame_buffer_create. rewrite (proj2 (Nat.ltb_lt _ _) Hd). sq.
  destruct (fresh_session w i HI Ef) as (Hn & Hi & Ht & _ & Hadd). rewrite (alter_block zero_session) by done. apply wp_bind.
  eapply (wp_mono _ (fun _ w1 => rest w1 = rest w /\ posted w1 = posted w /\ exists t, (t <> None -> discard_timeout p <> 0) /\
    core w1 = (lock w, current_session w, lock_ll w, session_list w, send_data_list w ++ [i],
      alter (Z.add 1) i (counts w), <[i := mkSession (FbLive p data) usr cb t]> (mem w)))).
  { destruct (Z.eqb_spec (discard_timeout p) 0); sq; do 2 (split; [done|]).
    - exists None. split; [done|]. unfold core, set_callback, set_user, set_fb. sq_simpl. by rewrite Hadd, Ht.
    - exists (Some (discard_timeout p)). split; [done|]. unfold core. sq_simpl. rewrite Hadd, (alter_block zero_session) by by rewrite length_insert.
      by rewrite block_insert_eq, list_insert_insert_eq by done. }
  intros [] w1 (Hr & Hp & t & Ht' & Hc). sq. split; [done|]. split; [done|]. split; [by rewrite Hp|]. by exists t.
Qed.

Lemma send_data_keeps p data cb usr w : Inv w -> (length data < FRAME_BUFFER_ELEMENT_SIE)%nat ->
  (cb = Some CbAppl -> appl_frames w = [] /\ lock w = true /\ current_session w = Some (Z.to_nat usr)) ->
  wp (send_data p data cb usr) (fun r w' => Inv w' /\ called w' = called w /\ lock w' = lock w /\ current_session w' = current_session w /\
    if r then waiting w' ≡ₚ cb_of cb usr ++ waiting w else w' = w) w.
Proof.
  intros HI Hd Hcb. destruct (first_free (counts w)) as [i|] eqn:Ef.
  - eapply wp_mono; [by apply (send_data_exact p data cb usr w i)|]. intros r w' (-> & Hr & _ & t & Ht & Hc).
    destruct (take_ll w w' i (mkSession (FbLive p data) usr cb t)) as [HI' Hw]; try done; [by exists p, data|].
    injection Hr as _ _ _ _ Ho. injection Hc as E1 E2 _ _ _ _ _. unfold called. by rewrite Ho, E1, E2.
  - unfold send_data, memb_alloc. apply wp_bind. sq. rewrite Ef. by apply end_ret.
Qed.

Lemma crc16_encap_length l : length (crc16_encap l) = (length l + 4)%nat.
Proof. unfold crc16_encap. rewrite length_app. cbn. lia. Qed.

Lemma offer_ok o w : Inv w -> called_of o = None ->
  wp (offer o) (fun r w' => keeps w w' /\ core w' = core w) w.
Proof.
  intros HI Ho. unfold offer, next_accept, wp, mbind, Eff_bind.
  assert (Hk : forall w', core w' = core w -> called w' = called w -> keeps w w' /\ core w' = core w) by (intros; split; [by apply keeps_core|done]).
  destruct (accepts w) as [|[|] l]; cbn; apply Hk; try done; cbn; unfold called; cbn; by rewrite Ho.
Qed.

(** The message is still the current one; it is in the lower queue only if it was taken. *)
Definition endpoint_post (i : nat) (w : SQ) (r : bool) (w' : SQ) : Prop :=
  keeps w w' /\ lock w' = true /\ current_session w' = Some i /\ (r = false -> appl_frames w' = []).

Lemma endpoint_core i w r w' : lock w = true -> current_session w = Some i -> appl_frames w = [] ->
  keeps w w' -> core w' = core w -> endpoint_post i w r w'.
Proof. intros Hk Hc Ha HK [= E1 E2 E3 E4 E5 E6 E7]. unfold endpoint_post, appl_frames. by rewrite E1, E2, E5, E7. Qed.

Lemma endpoint_false i w : Inv w -> lock w = true -> current_session w = Some i -> appl_frames w = [] -> wp (mret false) (endpoint_post i w) w.
Proof. intros HI Hk Hc Ha. by apply end_ret, endpoint_core. Qed.

Lemma endpoint_offer i o w : Inv w -> lock w = true -> current_session w = Some i -> appl_frames w = [] -> called_of o = None ->
  wp (offer o) (endpoint_post i w) w.
Proof. intros HI Hk Hc Ha Ho. eapply wp_mono; [by apply offer_ok|]. intros r w' [HK E]. by apply endpoint_core. Qed.

Lemma endpoint_queue i p data w : Inv w -> lock w = true -> current_session w = Some i -> appl_frames w = [] ->
  (length data < FRAME_BUFFER_ELEMENT_SIE)%nat -> wp (send_data p data (Some CbAppl) (Z.of_nat i)) (endpoint_post i w) w.
Proof.
  intros HI Hk Hc Ha Hd. eapply wp_mono; [apply send_data_keeps; [done..|]; by rewrite Nat2Z.id|].
  intros [|] w' (HI' & Ho & E1 & E2 & Hw); [|subst w'; by apply endpoint_core].
  split; [|by rewrite E1, E2]. split; [done|]. unfold calls. by rewrite Ho, Hw.
Qed.

Lemma mod_param_ok i f p d w : Inv w -> i ∈ owned w -> fb (sess (mem w) i) = FbLive p d ->
  (forall d, endpoint_encap (f p) d = endpoint_encap p d) -> discard_timeout (f p) = discard_timeout p ->
  wp (mod_param i f) (fun _ w' => keeps w w' /\ lock w' = lock w /\ current_session w' = current_session w /\ appl_frames w' = appl_frames w) w.
Proof.
  intros HI Hi E He Hd. unfold mod_param. sq. rewrite (alter_block zero_session) by by apply owned_lt. rewrite E.
  match goal with |- keeps _ ?w1 /\ _ => destruct (update_session w w1 i (set_fb (FbLive (f p) d) (sess (mem w) i))) as (HI' & Hw & Ha) end; try done.
  - intros (p' & d' & E' & Hl & Hcb). rewrite E in E'. injection E' as <- <-. exists (f p), d. by rewrite He.
  - intros (p' & d' & E' & Ht). rewrite E in E'. injection E' as <- <-. exists (f p), d. by rewrite Hd.
  - by right.
  - split; [|done]. split; [done|]. unfold calls. by rewrite Hw.
Qed.

Lemma send_endpoint_ok i w : Inv w -> lock w = true -> current_session w = Some i -> appl_frames w = [] ->
  wp (send_endpoint h i) (endpoint_post i w) w.
Proof.
  intros HI Hk Hc Ha. assert (Hs : i ∈ session_list w ++ sending w) by (apply elem_of_app; right; unfold sending; rewrite Hk, Hc; left).
  pose proof (owned_lt w i HI (owned_app w i Hs)) as Hi. destruct (inv_app w HI i Hs) as (p & d & E & Hl & Hcb).
  unfold send_endpoint. apply wp_bind, (wp_frame_of i p d); [done..|]. sq.
  destruct (Nat.ltb UIP_BUFSIZE (length d)); [by apply endpoint_false|]. destruct (Nat.ltb UIP_BUFSIZE _); [by apply endpoint_false|].
  destruct (_ =? USE_CRC16); [|destruct (_ =? NO_SCHEME); [|destruct (_ =? SECURITY_SCHEME_0); [|destruct (_ || _)]]].
  - apply endpoint_queue; [done..|]. unfold crc16_applies. destruct (_ && _) eqn:Ecrc; [|done]. rewrite crc16_encap_length.
    unfold META_DATA_MAX_DATA_SIZE in Ecrc. repeat apply andb_prop in Ecrc as [Ecrc _]. apply Z.ltb_lt in Ecrc. unfold FRAME_BUFFER_ELEMENT_SIE. lia.
  - destruct (has_bits _ _); [by apply endpoint_false|by apply endpoint_queue].
  - destruct (has_bits _ _); [by apply endpoint_false|by apply endpoint_offer].
  - apply wp_bind. eapply wp_mono; [by apply (mod_param_ok i _ p d); [|apply owned_app|..]|]. intros [] w1 (HK & E1 & E2 & E3).
    eapply wp_mono; [apply (endpoint_offer i); [apply HK|by rewrite ?E1, ?E2, ?E3..|done]|].
    intros r w2 (HK2 & H2). split; [by eapply keeps_trans|done].
  - by apply endpoint_false.
Qed.

Lemma no_current_ok w c : Inv w -> lock w = false -> keeps w (set_current_session c w).
Proof.
  intros [H1 H2 H3 H4 H5 H6 H7 H8] Hk. unfold keeps, calls, waiting. split; [split|]; unfold owned, sending in *; sq_simpl; rewrite Hk in *; try done.
  unfold appl_ok in *. destruct (List.filter _ _) as [|j [|]]; [done| |done]. by destruct H6.
Qed.

Lemma send_first_ok w : Inv w -> lock w = false -> wp (send_first h) (fun _ => keeps w) w.
Proof.
  intros HI Hk. unfold send_first. sq. destruct (session_list w) as [|i l] eqn:El; sq; [by apply no_current_ok|].
  match goal with |- wp _ _ ?w1 => destruct (start_first w w1 i l) as (HI' & Hw & Ha); [done..|] end.
  apply wp_bind. eapply wp_mono; [by apply (send_endpoint_ok i)|]. intros r w2 (HK & H1 & H2 & H3).
  assert (HK' : keeps w w2) by (eapply keeps_trans; [split; [exact HI'|unfold calls; by rewrite Hw]|exact HK]).
  destruct r; [by apply end_ret|]. eapply wp_mono; [apply CallbackEx_ok; [apply HK|auto]|]. intros [] w3. by apply keeps_trans.
Qed.

(** A message that fits, with the header of its endpoint, into a frame buffer. *)
Definition sendable (p : ts_param_t) (d : list Z) : bool :=
  negb (bool_decide (d = [])) && Nat.ltb (length (endpoint_encap p d)) FRAME_BUFFER_ELEMENT_SIE.

(** What is stored of it: the empty command of another radio protocol is translated. *)
Definition stored_data (p : ts_param_t) (d : list Z) : list Z :=
  if (at_ d 0 =? COMMAND_CLASS_NO_OPERATION) && is_lr_node (dnode p) then [COMMAND_CLASS_NO_OPERATION_LR; 0] else d.

Lemma stored_length p d : sendable p d = true -> (length (endpoint_encap p (stored_data p d)) < FRAME_BUFFER_ELEMENT_SIE)%nat /\
  (length (stored_data p d) < FRAME_BUFFER_ELEMENT_SIE)%nat.
Proof.
  intros [_ Hl%Nat.ltb_lt]%andb_prop. unfold stored_data, endpoint_encap, FRAME_BUFFER_ELEMENT_SIE in *.
  destruct (_ && is_lr_node _), ((dendpoint p =? 0) && (sendpoint p =? 0)); cbn in *; lia.
Qed.

Lemma ZW_SendDataAppl_exact p d cb usr w i : Inv w -> sendable p d = true -> first_free (counts w) = Some i ->
  wp (ZW_SendDataAppl p d cb usr) (fun r w' => r = Z.of_nat i + 1 /\ rest w' = rest w /\ posted w' = posted w ++ [SEND_EVENT_SEND_NEXT] /\
    core w' = (lock w, current_session w, lock_ll w, session_list w ++ [i], send_data_list w, alter (Z.add 1) i (counts w),
               <[i := mkSession (FbLive p (stored_data p d)) usr cb None]> (mem w))) w.
Proof.
  intros HI Hs Ef. destruct (stored_length p d Hs) as [_ Hl]. apply andb_prop in Hs as [Hd _]. apply negb_true_iff, bool_decide_eq_false in Hd.
  unfold ZW_SendDataAppl, memb_alloc. apply wp_bind. sq. rewrite Ef. sq. destruct d as [|c d]; [done|]. apply wp_bind, (wp_rd _ _ c); [done|].
  change (if (c =? COMMAND_CLASS_NO_OPERATION) && is_lr_node (dnode p) then _ else _) with (stored_data p (c :: d)).
  unfold zw_frame_buffer_create. rewrite (proj2 (Nat.ltb_lt _ _) Hl). sq.
  destruct (fresh_session w i HI Ef) as (_ & Hi & Ht & Hadd & _). rewrite (alter_block zero_session) by done. do 3 (split; [done|]).
  unfold core, set_callback, set_user, set_fb. sq_simpl. by rewrite Ht, Hadd.
Qed.

Lemma ZW_SendDataAppl_ok p d cb usr w : Inv w -> sendable p d = true -> cb <> Some CbAppl ->
  wp (ZW_SendDataAppl p d cb usr) (fun r w' => Inv w' /\ called w' = called w /\
    if decide (length (owned w) < NUM_SESSIONS)%nat
    then 0 < r <= 8 /\ waiting w' ≡ₚ cb_of cb usr ++ waiting w
    else r = 0 /\ w' = w) w.
Proof.
  intros HI Hs Hcb. pose proof (pool_full _ _ _ (inv_pool w HI)) as Hf. destruct (decide (length (owned w) < NUM_SESSIONS)%nat) as [Hlt|Hge].
  - apply Hf in Hlt as [i Ef]. eapply wp_mono; [by apply (ZW_SendDataAppl_exact p d cb usr w i)|]. intros r w' (-> & Hr & _ & Hc).
    destruct (take_app w w' i (mkSession (FbLive p (stored_data p d)) usr cb None)) as [HI' Hw]; try done.
    { exists p, (stored_data p d). split; [done|]. split; [by apply stored_length|done]. }
    injection Hr as _ _ _ _ Ho. split; [done|]. split; [unfold called; by rewrite Ho|]. split; [|done].
    destruct (fresh_session w i HI Ef) as (_ & Hi & _). rewrite (inv_mem w HI) in Hi. unfold NUM_SESSIONS in Hi. lia.
  - unfold ZW_SendDataAppl, memb_alloc. apply wp_bind. sq. destruct (first_free (counts w)) as [i|]; [exfalso; apply Hge, Hf; by eexists|by apply end_ret].
Qed.

Lemma ZW_SendDataApplAbort_ok hd w : Inv w -> wp (ZW_SendDataApplAbort hd) (fun _ => keeps w) w.
Proof.
  intros HI. unfold ZW_SendDataApplAbort. sq. destruct (_ || _); [by apply end_ret|]. set (i := Z.to_nat (hd - 1)).
  destruct (bool_decide _); [sq; by apply keeps_core|]. destruct (existsb _ _) eqn:Ee; cbn [negb]; [|by apply end_ret].
  apply existsb_exists in Ee as (j & Hj & <-%Nat.eqb_eq). apply list_elem_of_In in Hj. sq.
  assert (Hs : i ∈ session_list w ++ sending w) by (apply elem_of_app; by left). pose proof (owned_lt w i HI (owned_app w i Hs)) as Hi.
  apply wp_bind, wp_get_session; sq_simpl; [done|].
  match goal with |- wp _ _ ?w1 => destruct (release_app w w1 i (sess (mem w) i) (lock w) (current_session w) (list_remove i (session_list w))) as [HI' Hw] end; try done.
  - unfold sending. sq_simpl. fold (sending w). rewrite (list_remove_perm i (session_list w) Hj) at 2. done.
  - by apply app_no_timer.
  - apply (inv_sending w HI).
  - apply (inv_appl w HI).
  - unfold core. sq_simpl. by rewrite (insert_block zero_session).
  - destruct (inv_app w HI i Hs) as (? & ? & _ & _ & Hcb). by apply call_user_ok.
Qed.

Lemma empty_ok w : lock w = false -> lock_ll w = false -> session_list w = [] -> send_data_list w = [] ->
  counts w = replicate NUM_SESSIONS 0 -> mem w = replicate NUM_SESSIONS zero_session -> Inv w.
Proof.
  intros E1 E2 E3 E4 E5 E6. split; rewrite ?E1, ?E2, ?E4, ?E5, ?E6; try done.
  - unfold owned, sending. rewrite E1, E3, E4. split; [done|constructor|by intros i ?%elem_of_nil|].
    intros i x [-> _]%lookup_replicate_1. done.
  - unfold sending. rewrite E1, E3. by intros i ?%elem_of_nil.
  - by intros i ?%elem_of_nil.
  - intros i. by rewrite block_replicate.
Qed.

Lemma ZW_SendDataAppl_init_ok w : Inv w -> wp ZW_SendDataAppl_init (fun _ w' => Inv w' /\ called w' = called w /\ waiting w' = []) w.
Proof.
  intros HI. unfold ZW_SendDataAppl_init. sq. split; [|done]. apply empty_ok; sq_simpl; try done; rewrite fmap_zero; f_equal.
  - apply (pool_length _ _ _ (inv_pool w HI)).
  - apply (inv_mem w HI).
Qed.

Lemma FrameRX_Notify_ok c w : Inv w -> wp (ZW_SendDataAppl_FrameRX_Notify c) (fun _ => keeps w) w.
Proof. intros HI. unfold ZW_SendDataAppl_FrameRX_Notify. sq. destruct (_ && _); sq; by apply keeps_core. Qed.

(** ** The process *)

Lemma busy_radio w i l : Inv w -> send_data_list w = i :: l -> discard_timer (sess (mem w) i) = None -> keeps w (set_lock_ll true w).
Proof.
  intros [H1 H2 H3 H4 H5 H6 H7 H8] El Hd. split; [|done]. split; try done. intros _. by exists i, l.
Qed.

(** The frame is offered to the transport service or to the radio. *)
Lemma offer_frame_ok i p d w : Inv w -> i ∈ owned w -> fb (sess (mem w) i) = FbLive p d ->
  wp (if META_DATA_MAX_DATA_SIZE <=? Z.of_nat (length d) then
        if SupportsCmdClass h (dnode p) COMMAND_CLASS_TRANSPORT_SERVICE then offer (TransportService p d) else mret false
      else if negb (snode p =? MyNodeID w) then offer (ZW_SendData_Bridge (snode p) (dnode p) d (tx_flags p))
      else mod_param i (set_snode 0x00ff);; offer (ZW_SendData (dnode p) d (tx_flags p))) (fun _ => keeps w) w.
Proof.
  intros HI Hi E. assert (Ho : forall o, called_of o = None -> wp (offer o) (fun _ => keeps w) w).
  { intros o Ho. eapply wp_mono; [by apply offer_ok|]. by intros r w' [HK _]. }
  destruct (_ <=? _); [destruct (SupportsCmdClass h _ _); [by apply Ho|by apply end_ret]|]. destruct (negb _); [by apply Ho|].
  apply wp_bind. eapply wp_mono; [by apply (mod_param_ok i _ p d)|]. intros [] w1 [HK _]. eapply wp_mono; [apply offer_ok; [apply HK|done]|].
  intros r w2 [HK2 _]. by eapply keeps_trans.
Qed.

Lemma send_ll_ok i l w : Inv w -> send_data_list w = i :: l -> lock_ll w = false -> wp (send_ll h i) (fun _ => keeps w) w.
Proof.
  intros HI El Hb. assert (Hi : i ∈ send_data_list w) by (rewrite El; left). pose proof (owned_lt w i HI (owned_ll w i Hi)) as Hlt.
  destruct (inv_ll w HI i Hi) as (p & d & E & Ht). unfold send_ll. apply wp_bind, (wp_frame_of i p d); [done..|].
  apply wp_bind. eapply (wp_mono _ (fun _ w1 => keeps w w1 /\ send_data_list w1 = i :: l /\ discard_timer (sess (mem w1) i) = None /\ fb (sess (mem w1) i) = FbLive p d)).
  { destruct (Z.eqb_spec (discard_timeout p) 0) as [E0|E0].
    - apply end_ret. split; [done|]. split; [done|]. split; [|done]. destruct (discard_timer _); [|done]. exfalso. by apply Ht.
    - apply end_mod_session. rewrite (alter_block zero_session) by done.
      match goal with |- keeps _ ?w1 /\ _ => destruct (update_session w w1 i (set_discard_timer None (sess (mem w) i))) as (HI' & Hw & Ha) end; try done.
      + by apply owned_ll.
      + intros (p' & d' & E' & _). by exists p', d'.
      + by left.
      + split; [split; [done|unfold calls; by rewrite Hw]|]. sq_simpl. by rewrite block_insert_eq. }
  intros [] w1 (HK1 & El1 & Hd1 & E1). sq. pose proof (busy_radio w1 i l (proj1 HK1) El1 Hd1) as HK2.
  assert (HK : keeps w (set_lock_ll true w1)) by by eapply keeps_trans. apply wp_bind. eapply wp_mono.
  - apply (offer_frame_ok i p d (set_lock_ll true w1)); [apply HK| |done]. apply owned_ll. sq_simpl. rewrite El1. left.
  - intros [|] w3 HK3; cbn [negb]; sq.
    + apply (keeps_trans _ _ _ HK), (keeps_trans _ _ _ HK3). by apply keeps_core; [apply HK3|..].
    + eapply wp_mono; [apply send_data_callback_func_ok, HK3|]. intros [] w4. by apply keeps_trans, (keeps_trans _ _ _ HK HK3).
Qed.

Lemma handle_ok e w : Inv w -> wp (handle h e) (fun _ => keeps w) w.
Proof.
  intros HI. unfold handle. sq. destruct e.
  - destruct (lock w) eqn:Hk; cbn [negb andb]; [by apply end_ret|]. destruct (etimer_expired _); [by apply send_first_ok|by apply end_ret].
  - sq. assert (HK : forall c, keeps w (set_current_session_ll c w)) by (intros c; by apply keeps_core).
    destruct (send_data_list w) as [|i l] eqn:El; cbn [head]; [by apply end_ret|]. destruct (lock_ll w) eqn:Hb; [by apply end_ret|].
    eapply wp_mono; [by apply (send_ll_ok i l); [apply HK|..]|]. intros [] w'. by apply keeps_trans.
  - by apply send_data_callback_func_ok.
  - sq. by apply keeps_core.
Qed.

Lemma process_next_ok w : Inv w -> wp (process_next h) (fun _ => keeps w) w.
Proof.
  intros HI. unfold process_next. sq. destruct (posted w) as [|e l]; [by apply end_ret|]. sq.
  assert (HK : keeps w (set_posted l w)) by by apply keeps_core.
  eapply wp_mono; [apply handle_ok, HK|]. intros [] w'. by apply keeps_trans.
Qed.

Lemma emergency_timeout_ok w : Inv w -> wp emergency_timeout (fun _ => keeps w) w.
Proof. intros HI. unfold emergency_timeout. sq. destruct (emergency_timer w); sq; by apply keeps_core. Qed.
Lemma backoff_timeout_ok w : Inv w -> wp backoff_timeout (fun _ => keeps w) w.
Proof. intros HI. unfold backoff_timeout. sq. destruct (backoff_timer w); sq; by apply keeps_core. Qed.

(** ** Runs *)

(** What the rest of the gateway does with the queues: the application sends and aborts; a security
    scheme sends a frame of its own, or ends the message that was given to it; the radio or the
    transport service ends a frame; a frame is received; a timer expires; the process runs. *)
Inductive op :=
| OpSend (p : ts_param_t) (d : list Z) (f u : Z)
| OpFrame (p : ts_param_t) (d : list Z) (f u : Z)
| OpAbort (handle : Z)
| OpSchemeDone (status : Z) (ts : TX_STATUS_TYPE)
| OpRadioDone (status : Z) (ts : TX_STATUS_TYPE)
| OpReceived (c : ts_param_t)
| OpDiscard (i : nat)
| OpEmergency
| OpBackoff
| OpProcess
| OpInit.

#[global] Instance ts_param_eq_dec : EqDecision ts_param_t.
Proof. solve_decision. Defined.
#[global] Instance op_eq_dec : EqDecision op.
Proof. solve_decision. Defined.

(** The operation, with the callback it has accepted. *)
Definition exec (o : op) : QM (list (Z * Z)) :=
  match o with
  | OpSend p d f u => r ← ZW_SendDataAppl p d (Some (CbUser f)) u; mret (if r =? 0 then [] else [(f, u)])
  | OpFrame p d f u => r ← send_data p d (Some (CbUser f)) u; mret (if r : bool then [(f, u)] else [])
  | OpAbort hd => ZW_SendDataApplAbort hd;; mret []
  | OpSchemeDone st ts => w ← get; (match current_session w with Some i => ZW_SendDataAppl_CallbackEx h st i ts | None => mret tt end);; mret []
  | OpRadioDone st ts => send_data_callback_func h st ts;; mret []
  | OpReceived c => ZW_SendDataAppl_FrameRX_Notify c;; mret []
  | OpDiscard i => do_discard_timeout_memb h i;; mret []
  | OpEmergency => emergency_timeout;; mret []
  | OpBackoff => backoff_timeout;; mret []
  | OpProcess => process_next h;; mret []
  | OpInit => ZW_SendDataAppl_init;; mret []
  end.

(** Messages and frames fit into a frame buffer; a scheme ends only a message it was given; only a
    timer that is set expires. *)
Definition allowed (w : SQ) (o : op) : bool :=
  match o with
  | OpSend p d _ _ => sendable p d
  | OpFrame _ d _ _ => Nat.ltb (length d) FRAME_BUFFER_ELEMENT_SIE
  | OpSchemeDone _ _ => lock w && bool_decide (appl_frames w = [])
  | OpDiscard i => bool_decide (discard_timer (sess (mem w) i) <> None)
  | _ => true
  end.

(** A run: what is not allowed in a state does not happen there. *)
Fixpoint run (ops : list op) (w : SQ) : res (list (Z * Z) * SQ) :=
  match ops with
  | [] => Ok ([], w)
  | o :: ops =>
      if allowed w o then
        match exec o w with
        | Ok (acc, w') => match run ops w' with Ok (accs, w'') => Ok (acc ++ accs, w'') | Fault e => Fault e end
        | Fault e => Fault e
        end
      else run ops w
  end.

Lemma keeps_none (m : QM unit) w : wp m (fun _ => keeps w) w -> wp (m;; mret []) (fun acc w' => Inv w' /\ calls w' ≡ₚ acc ++ calls w) w.
Proof. intros H. apply wp_bind. eapply wp_mono; [exact H|]. by intros [] w' [HI Hc]. Qed.

Lemma exec_ok o w : Inv w -> allowed w o = true -> o <> OpInit -> wp (exec o) (fun acc w' => Inv w' /\ calls w' ≡ₚ acc ++ calls w) w.
Proof.
  intros HI Ha Hi. destruct o; cbn [exec allowed] in *; try apply keeps_none.
  - apply wp_bind. eapply wp_mono; [by apply ZW_SendDataAppl_ok|]. intros r w' (HI' & Ho & H). apply end_ret. split; [done|]. unfold calls. rewrite Ho.
    destruct (decide _); [destruct H as [Hr Hw]|destruct H as [-> ->]; done]. destruct (Z.eqb_spec r 0); [lia|]. rewrite Hw. cbn. symmetry. apply Permutation_middle.
  - apply wp_bind. apply Nat.ltb_lt in Ha. eapply wp_mono; [by apply send_data_keeps|]. intros r w' (HI' & Ho & _ & _ & H). apply end_ret. split; [done|].
    unfold calls. rewrite Ho. destruct r; [|by subst]. rewrite H. cbn. symmetry. apply Permutation_middle.
  - by apply ZW_SendDataApplAbort_ok.
  - apply andb_prop in Ha as [Hk Ha%bool_decide_eq_true]. apply step_get. destruct (inv_sending w HI Hk) as [i Hc]. rewrite Hc.
    apply CallbackEx_ok; auto.
  - by apply send_data_callback_func_ok.
  - by apply FrameRX_Notify_ok.
  - apply do_discard_timeout_memb_ok; [done|]. by apply bool_decide_eq_true in Ha.
  - by apply emergency_timeout_ok.
  - by apply backoff_timeout_ok.
  - by apply process_next_ok.
  - done.
Qed.

Lemma exec_safe o w : Inv w -> allowed w o = true -> wp (exec o) (fun _ => Inv) w.
Proof.
  intros HI Ha. destruct (decide (o = OpInit)) as [->|Hi].
  - apply wp_bind. eapply wp_mono; [by apply ZW_SendDataAppl_init_ok|]. by intros [] w' [H _].
  - eapply wp_mono; [by apply exec_ok|]. by intros acc w' [H _].
Qed.

(** C20: No run of calls, aborts, resets, timeouts, received frames and reports of the radio and the
    security schemes faults, as long as each keeps to its contract ([allowed]: messages are not empty
    and fit with the header of their endpoint into a frame buffer, frames fit into one, a scheme ends
    only a message it was given, only a timer that is set expires; other operations of the sequence
    are left out): no frame buffer is used after it was freed, no list is empty where its head is
    taken, no assertion fails.  The sessions of the pool in use are always those of the two queues and
    the message being sent, each in one place. *)
Theorem send_queues_safe me ops : exists acc w, run ops (statics me) = Ok (acc, w) /\ Inv w.
Proof.
  assert (H : forall ops w, Inv w -> exists acc w', run ops w = Ok (acc, w') /\ Inv w'); [|by apply H, empty_ok].
  clear ops. induction ops as [|o ops IH]; intros w HI; cbn [run]; [by exists [], w|]. destruct (allowed w o) eqn:Ha; [|by apply IH].
  destruct (wp_run _ _ _ (exec_safe o w HI Ha)) as (acc & w1 & -> & HI1). destruct (IH w1 HI1) as (accs & w2 & -> & HI2). by exists (acc ++ accs), w2.
Qed.

(** C19: While the queues are not reset, the callback of every accepted message or frame is called once, or
    its session is still in one of the queues: the callbacks called so far and those of the sessions
    in use are, as multisets, the ones that were accepted. *)
Theorem callbacks_called_once me ops : ~ OpInit ∈ ops ->
  exists acc w, run ops (statics me) = Ok (acc, w) /\ called w ++ waiting w ≡ₚ acc.
Proof.
  assert (H : forall ops w, Inv w -> ~ OpInit ∈ ops -> exists acc w', run ops w = Ok (acc, w') /\ calls w' ≡ₚ acc ++ calls w).
  { clear ops. induction ops as [|o ops IH]; intros w HI Hn; cbn [run]; [by exists [], w|]. apply not_elem_of_cons in Hn as [Ho Hn].
    destruct (allowed w o) eqn:Ha; [|by apply IH]. destruct (wp_run _ _ _ (exec_ok o w HI Ha (not_eq_sym Ho))) as (acc & w1 & -> & HI1 & Hc).
    destruct (IH w1 HI1 Hn) as (accs & w2 & -> & Hc2). exists (acc ++ accs), w2. split; [done|]. rewrite Hc2, Hc.
    by rewrite !app_assoc, (Permutation_app_comm accs acc). }
  intros Hn. destruct (H ops (statics me)) as (acc & w & E & Hc); [by apply empty_ok|done|]. exists acc, w. split; [done|].
  rewrite app_nil_r in Hc. exact Hc.
Qed.

End Host.

(** [ZW_SendDataAppl] takes a message exactly while fewer than eight sessions are used by both queues
    together, whatever is in them; it gives back a handle between 1 and 8, or 0. *)
Theorem queue_capacity p d f u w : Inv w -> sendable p d = true ->
  exists r w', ZW_SendDataAppl p d (Some (CbUser f)) u w = Ok (r, w') /\
    (0 < r <= 8 <-> (length (owned w) < 8)%nat) /\ (r = 0 <-> length (owned w) = 8%nat).
Proof.
  intros HI Hs. destruct (wp_run _ _ _ (ZW_SendDataAppl_ok p d (Some (CbUser f)) u w HI Hs ltac:(done))) as (r & w' & E & _ & _ & H).
  exists r, w'. split; [done|]. assert (Hle : (length (owned w) <= 8)%nat).
  { apply (submseteq_length _ (seq 0 8)), NoDup_submseteq; [apply (pool_nodup _ _ _ (inv_pool w HI))|].
    intros i Hi%(pool_lt _ _ _ (inv_pool w HI)). apply elem_of_seq. unfold NUM_SESSIONS in Hi. lia. }
  unfold NUM_SESSIONS in H. destruct (decide (length (owned w) < 8)%nat); [destruct H as [Hr _]|destruct H as [-> _]]; lia.
Qed.

(** ** Which scheme a message is sent with *)

Definition scheme_flags : list (Z * Z) :=
  [(SECURITY_SCHEME_2_ACCESS, NODE_FLAG_SECURITY2_ACCESS); (SECURITY_SCHEME_2_AUTHENTICATED, NODE_FLAG_SECURITY2_AUTHENTICATED);
   (SECURITY_SCHEME_2_UNAUTHENTICATED, NODE_FLAG_SECURITY2_UNAUTHENTICATED); (SECURITY_SCHEME_0, NODE_FLAG_SECURITY0)].

Lemma has_bits_land a b flag : flag ∈ scheme_flags.*2 -> has_bits (Z.land a b) flag = has_bits a flag && has_bits b flag.
Proof.
  intros H. assert (Hk : exists k, 0 <= k /\ flag = 2 ^ k).
  { cbn in H. rewrite !elem_of_cons, elem_of_nil in H. destruct H as [->|[->|[->|[->|[]]]]]; [by exists 6|by exists 5|by exists 4|by exists 0]. }
  destruct Hk as (k & Hk & ->). by rewrite !TransportSpec.has_bits_pow, Z.land_spec.
Qed.

Lemma highest_scheme_strongest mask t flag : (t, flag) ∈ scheme_flags -> has_bits mask flag = true -> scheme_compare (highest_scheme mask) t = true.
Proof.
  unfold scheme_flags. rewrite !elem_of_cons, elem_of_nil. unfold highest_scheme.
  intros [[= -> ->]|[[= -> ->]|[[= -> ->]|[[= -> ->]|[]]]]] Hb; rewrite Hb; repeat case_match; done.
Qed.

Lemma highest_scheme_known mask flag : (highest_scheme mask, flag) ∈ scheme_flags -> has_bits mask flag = true.
Proof.
  unfold scheme_flags. rewrite !elem_of_cons, elem_of_nil. unfold highest_scheme.
  repeat case_match; intros H'; repeat destruct H' as [H'|H']; try done; by inversion H'; subst.
Qed.

(** C21: A message of two bytes or more between nodes that are not marked bad is never sent with less
    security than asked for: an explicit scheme is used as it is, and the automatic choice is a scheme
    both nodes have, at least as strong as every scheme both have. *)
Theorem scheme_not_downgraded h me p len : 2 <= len ->
  has_bits (GetCacheEntryFlag h (dnode p)) NODE_FLAG_KNOWN_BAD = false -> has_bits (GetCacheEntryFlag h me) NODE_FLAG_KNOWN_BAD = false ->
  let s := ZW_SendData_scheme_select h me p len in
  (scheme p <> AUTO_SCHEME -> s = scheme p) /\
  (scheme p = AUTO_SCHEME ->
    (forall t flag, (t, flag) ∈ scheme_flags -> has_bits (GetCacheEntryFlag h (dnode p)) flag = true -> has_bits (GetCacheEntryFlag h me) flag = true ->
       scheme_compare s t = true) /\
    (forall flag, (s, flag) ∈ scheme_flags -> has_bits (GetCacheEntryFlag h (dnode p)) flag = true /\ has_bits (GetCacheEntryFlag h me) flag = true)).
Proof.
  intros Hl Hd Hs. unfold ZW_SendData_scheme_select. rewrite Hd, Hs, (proj2 (Z.ltb_ge _ _) Hl). cbn [orb].
  split; [intros Ha; by destruct (Z.eqb_spec (scheme p) AUTO_SCHEME)|intros ->; rewrite Z.eqb_refl].
  set (m := Z.land _ _). assert (Hm : forall flag, flag ∈ scheme_flags.*2 -> has_bits m flag = has_bits (GetCacheEntryFlag h (dnode p)) flag && has_bits (GetCacheEntryFlag h me) flag)
    by (intros flag; apply has_bits_land).
  assert (Hin : forall t flag, (t, flag) ∈ scheme_flags -> flag ∈ scheme_flags.*2) by (intros t flag H; by apply (list_elem_of_fmap_2 snd _ (t, flag))).
  split.
  - intros t flag Ht H1 H2. pose proof (highest_scheme_strongest m t flag Ht) as Hc. rewrite (Hm _ (Hin _ _ Ht)), H1, H2 in Hc. specialize (Hc eq_refl).
    destruct (_ && _) eqn:E; [|done]. apply andb_prop in E as [E%Z.eqb_eq _]. by rewrite E in Hc.
  - intros flag Hf. destruct (_ && _) eqn:E.
    + exfalso. unfold scheme_flags in Hf. rewrite !elem_of_cons, elem_of_nil in Hf. by destruct Hf as [[=]|[[=]|[[=]|[[=]|[]]]]].
    + pose proof (highest_scheme_known m flag Hf) as Hb. rewrite (Hm _ (Hin _ _ Hf)) in Hb. by apply andb_prop in Hb.
Qed.

End SendQueueSpec.
