(* ===== verification/SendQueueFifo.v ===== *)
(** * The messages of the application are sent in order

    Up to seven messages that need no security scheme are accepted, sent one after the other in the
    order in which they were given, and each is called back before the next one is sent. *)
From stdpp Require Import relations.
From S2P Require Import Prelude Effects Transport Pool SendQueue SendQueueSpec.
Import Effects Pool SendQueue SendQueueSpec.

Module SendQueueFifo.

Record message := mkMessage { m_param : ts_param_t; m_data : list Z; m_f : Z; m_user : Z }.

(** The frame of a message: what is stored, with the headers of the endpoint and of the checksum. *)
Definition stored (m : message) : list Z := stored_data (m_param m) (m_data m).

Section Host.
Context (h : Host).

Definition frame_for (me : Z) (p : ts_param_t) (d : list Z) : option (list Z) :=
  let new_buf := endpoint_encap p d in
  let s := ZW_SendData_scheme_select h me p (u8 (Z.of_nat (length d))) in
  if s =? USE_CRC16 then Some (if crc16_applies new_buf (Z.of_nat (length new_buf)) then crc16_encap new_buf else new_buf)
  else if (s =? NO_SCHEME) && negb (has_bits (tx_flags p) TRANSMIT_OPTION_MULTICAST) then Some new_buf else None.

(** Who sends it: the transport service for long frames, the radio otherwise. *)
Definition carrier (me : Z) (p : ts_param_t) (d : list Z) : option out :=
  if META_DATA_MAX_DATA_SIZE <=? Z.of_nat (length d) then
    if SupportsCmdClass h (dnode p) COMMAND_CLASS_TRANSPORT_SERVICE then Some (TransportService p d) else None
  else if negb (snode p =? me) then Some (ZW_SendData_Bridge (snode p) (dnode p) d (tx_flags p))
  else Some (ZW_SendData (dnode p) d (tx_flags p)).

Definition transmission (me : Z) (m : message) : option out :=
  d ← frame_for me (m_param m) (stored m); carrier me (m_param m) d.

(** The environment: the process handles its events, then the radio reports the frame it has, with the
    report [ts], then the backoff timer expires. *)
Definition step (ts : TX_STATUS_TYPE) (w : SQ) : res (option SQ) :=
  match posted w with
  | _ :: _ => on (process_next h) w (fun w => Ok (Some w))
  | [] =>
      if lock_ll w then on (send_data_callback_func h TRANSMIT_COMPLETE_OK ts) w (fun w => Ok (Some w))
      else match backoff_timer w with Running _ => on backoff_timeout w (fun w => Ok (Some w)) | _ => Ok None end
  end.

(** The application sends its messages. *)
Fixpoint send_all (ms : list message) : QM unit :=
  match ms with
  | [] => mret tt
  | m :: ms => ZW_SendDataAppl (m_param m) (m_data m) (Some (CbUser (m_f m))) (m_user m);; send_all ms
  end.

(** What is seen of the run: frames sent and callbacks called, the oldest first. *)
Definition visible (o : out) : bool :=
  match o with ZW_SendData _ _ _ | ZW_SendData_Bridge _ _ _ _ | TransportService _ _ | Called _ _ _ _ => true | _ => false end.
Definition seen (w : SQ) : list out := rev (List.filter visible (outs w)).

Definition expected (ts : TX_STATUS_TYPE) (mo : message * out) : list out :=
  [mo.2; Called (m_f mo.1) (m_user mo.1) TRANSMIT_COMPLETE_OK ts].

(** ** The phases of a message *)

(** The session holds the message. *)
Definition holds (w : SQ) (i : nat) (m : message) : Prop :=
  fb (sess (mem w) i) = FbLive (m_param m) (stored m) /\ callback (sess (mem w) i) = Some (CbUser (m_f m)) /\ user (sess (mem w) i) = m_user m.

Record Calm (me : Z) (w : SQ) (q : list nat) (ms : list message) : Prop := {
  calm_inv : Inv w;
  calm_me : MyNodeID w = me;
  calm_queue : session_list w = q;
  calm_holds : Forall2 (holds w) q ms;
  calm_accepts : accepts w = [];
  calm_emergency : ~ TIMER_emergency ∈ posted w
}.

(** Nothing is being sent, and something will start the next message. *)
Definition wakes (w : SQ) : Prop := SEND_EVENT_SEND_NEXT ∈ posted w \/ TIMER_backoff ∈ posted w.
Definition Idle (me : Z) (w : SQ) (q : list nat) (ms : list message) : Prop :=
  Calm me w q ms /\ lock w = false /\ lock_ll w = false /\ send_data_list w = [] /\
  match backoff_timer w with Expired => q <> [] -> wakes w | Running _ => True | Orphaned _ => False end.

(** The message [m] of session [i] is in the lower queue, waiting or given to the radio. *)
Definition Loaded (busy : bool) (me : Z) (w : SQ) (i : nat) (m : message) (d : list Z) (q : list nat) (ms : list message) : Prop :=
  Calm me w q ms /\ holds w i m /\ lock w = true /\ current_session w = Some i /\ lock_ll w = busy /\ backoff_timer w = Expired /\
  (busy = false -> SEND_EVENT_SEND_NEXT_LL ∈ posted w) /\
  exists j, send_data_list w = [j] /\ (exists p, fb (sess (mem w) j) = FbLive p d /\ (busy = false -> p = m_param m)) /\
    callback (sess (mem w) j) = Some CbAppl /\ user (sess (mem w) j) = Z.of_nat i.

(** The events left decrease. *)
Definition weight (e : event) : nat := match e with TIMER_backoff => 2 | _ => 1 end.
Definition left_over (w : SQ) : nat := sum_list (weight <$> posted w) + match backoff_timer w with Running _ => 3 | _ => 0 end.

Lemma Calm_core me w w' q ms : Calm me w q ms -> core w' = core w -> MyNodeID w' = MyNodeID w -> accepts w' = accepts w ->
  ~ TIMER_emergency ∈ posted w' -> Calm me w' q ms.
Proof.
  intros [H1 H2 H3 H4 H5 H6] Hc Hm Ha Hp. pose proof Hc as [= E1 E2 E3 E4 E5 E6 E7]. split; [by apply (Inv_core w)|by rewrite Hm|by rewrite E4| |by rewrite Ha|done].
  eapply list.Forall2_impl; [exact H4|]. intros i m. unfold holds. by rewrite E7.
Qed.

Lemma not_emergency e l : ~ TIMER_emergency ∈ e :: l -> ~ TIMER_emergency ∈ l.
Proof. intros H Hl. apply H. by right. Qed.
Lemma not_emergency_app e l : ~ TIMER_emergency ∈ l -> e <> TIMER_emergency -> ~ TIMER_emergency ∈ l ++ [e].
Proof. intros H He [Hl|He'%list_elem_of_singleton]%elem_of_app; [done|by subst]. Qed.

(** An event that changes nothing but the events and the note of the frame on the air. *)
Lemma queue_step_event ts e l w : posted w = e :: l ->
  step ts w = on (handle h e) (set_posted l w) (fun w => Ok (Some w)).
Proof. intros E. unfold step, process_next, on, mbind, Eff_bind, get. rewrite E. reflexivity. Qed.

Lemma sum_app l l' : sum_list (weight <$> l ++ l') = (sum_list (weight <$> l) + sum_list (weight <$> l'))%nat.
Proof. induction l as [|e l IH]; [done|]. cbn in *. rewrite IH. lia. Qed.

Lemma Loaded_core busy me w w' i m d q ms : Loaded busy me w i m d q ms -> core w' = core w -> backoff_timer w' = Expired ->
  MyNodeID w' = MyNodeID w -> accepts w' = accepts w -> ~ TIMER_emergency ∈ posted w' -> (busy = false -> SEND_EVENT_SEND_NEXT_LL ∈ posted w') ->
  Loaded busy me w' i m d q ms.
Proof.
  intros (H1 & H2 & H3 & H4 & H5 & H6 & H7 & j & Hj) Hc Hb Hm Ha Hp Hl. pose proof Hc as [= E1 E2 E3 E4 E5 E6 E7].
  unfold Loaded, holds. rewrite E1, E2, E3, E7. split; [by apply (Calm_core me w)|]. do 6 (split; [done|]). exists j. by rewrite E5.
Qed.

(** Events that do nothing while a message is being sent. *)
Lemma loaded_quiet busy ts me w i m d q ms e l : Loaded busy me w i m d q ms -> posted w = e :: l -> (e = SEND_EVENT_SEND_NEXT_LL -> busy = true) ->
  exists w', step ts w = Ok (Some w') /\ Loaded busy me w' i m d q ms /\ seen w' = seen w /\ (left_over w' < left_over w)%nat.
Proof.
  intros HL Hp He. pose proof HL as (H1 & H2 & H3 & H4 & H5 & H6 & H7 & j & Hj & _). pose proof (calm_emergency _ _ _ _ H1) as Hem. rewrite Hp in Hem.
  assert (Hll : e <> SEND_EVENT_SEND_NEXT_LL -> busy = false -> SEND_EVENT_SEND_NEXT_LL ∈ l).
  { intros Hne Hb. specialize (H7 Hb). rewrite Hp in H7. by apply elem_of_cons in H7 as [?|?]. }
  rewrite (queue_step_event ts e l w Hp). unfold on, handle, process_post, left_over, mbind, Eff_bind, get, modify, mret, Eff_ret. destruct e; sq_simpl.
  - rewrite H3. cbn. eexists. split; [done|]. split; [|by rewrite Hp; cbn; split; [|lia]].
    apply (Loaded_core _ _ _ _ _ _ _ _ _ HL); try done; cbn; [by apply (not_emergency _ _ Hem)|by apply Hll].
  - rewrite Hj, H5, He by done. cbn. eexists. split; [done|]. split; [|by rewrite Hp; cbn; split; [|lia]].
    rewrite <- He by done. apply (Loaded_core _ _ _ _ _ _ _ _ _ HL); try done; cbn; [by apply (not_emergency _ _ Hem)|by rewrite He].
  - exfalso. apply Hem. left.
  - eexists. split; [done|]. split; [|rewrite Hp; cbn; rewrite sum_app; cbn; split; [done|lia]].
    apply (Loaded_core _ _ _ _ _ _ _ _ _ HL); try done; cbn; [by apply not_emergency_app; [apply (not_emergency _ _ Hem)|]|].
    intros Hb. apply elem_of_app. left. by apply Hll.
Qed.

Lemma Idle_core me w w' q ms : Idle me w q ms -> core w' = core w \/ core w' = core (set_current_session None w) -> 
  MyNodeID w' = MyNodeID w -> accepts w' = accepts w -> ~ TIMER_emergency ∈ posted w' ->
  match backoff_timer w' with Expired => q <> [] -> wakes w' | Running _ => True | Orphaned _ => False end -> Idle me w' q ms.
Proof.
  intros (H1 & H2 & H3 & H4 & H5) Hc Hm Ha Hp Hb. assert (Hc' : exists c, core w' = core (set_current_session c w)).
  { destruct Hc as [Hc|Hc]; [exists (current_session w)|by exists None]. rewrite Hc. by destruct w. }
  destruct Hc' as [c Hc']. assert (HC : Calm me (set_current_session c w) q ms).
  { destruct H1. split; try done. by apply no_current_ok. }
  pose proof (Calm_core _ _ w' _ _ HC Hc' Hm Ha Hp) as HC'. injection Hc' as E1 E2 E3 E4 E5 E6 E7. split; [done|]. by rewrite E1, E3, E5.
Qed.

(** ** A message is taken from the queue *)

Lemma frame_for_length me p d d' : frame_for me p d = Some d' -> (length (endpoint_encap p d) < FRAME_BUFFER_ELEMENT_SIE)%nat ->
  (length d' < FRAME_BUFFER_ELEMENT_SIE)%nat.
Proof.
  unfold frame_for. destruct (_ =? USE_CRC16).
  - intros [= <-] Hl. unfold crc16_applies. destruct (_ && _) eqn:E; [|done]. rewrite crc16_encap_length.
    unfold META_DATA_MAX_DATA_SIZE in E. repeat apply andb_prop in E as [E _]. apply Z.ltb_lt in E. unfold FRAME_BUFFER_ELEMENT_SIE. lia.
  - by destruct (_ && _); [intros [= <-]|].
Qed.

Lemma send_endpoint_plain i p d d' w Q : Inv w -> i ∈ session_list w ++ sending w -> fb (sess (mem w) i) = FbLive p d ->
  frame_for (MyNodeID w) p d = Some d' -> wp (send_data p d' (Some CbAppl) (Z.of_nat i)) Q w -> wp (send_endpoint h i) Q w.
Proof.
  intros HI Hi E Ef H. destruct (inv_app w HI i Hi) as (p' & d1 & E' & Hl & _). rewrite E in E'. injection E' as <- <-.
  unfold send_endpoint. apply wp_bind, (wp_frame_of i p d); [by apply owned_lt, owned_app|done|]. sq.
  assert (Hd : (length d <= length (endpoint_encap p d))%nat) by (unfold endpoint_encap; destruct (_ && _); [|rewrite length_app]; lia).
  unfold FRAME_BUFFER_ELEMENT_SIE in Hl. rewrite (proj2 (Nat.ltb_ge _ _)) by (unfold UIP_BUFSIZE; lia). rewrite (proj2 (Nat.ltb_ge _ _)) by (unfold UIP_BUFSIZE; lia).
  unfold frame_for in Ef. destruct (_ =? USE_CRC16); [by injection Ef as <-|]. destruct (_ =? NO_SCHEME); [|done].
  destruct (has_bits _ _); [done|]. by injection Ef as <-.
Qed.

Lemma send_first_plain me w i q m ms d : Calm me w (i :: q) (m :: ms) -> lock w = false -> lock_ll w = false -> send_data_list w = [] ->
  frame_for me (m_param m) (stored m) = Some d -> (length q < 7)%nat ->
  wp (send_first h) (fun _ w' => rest w' = rest w /\ posted w' = posted w ++ [SEND_EVENT_SEND_NEXT_LL] /\
    exists j t, ~ j ∈ owned w /\ (j < length (mem w))%nat /\ lock w' = true /\ current_session w' = Some i /\ lock_ll w' = false /\ session_list w' = q /\ send_data_list w' = [j] /\
      mem w' = <[j := mkSession (FbLive (m_param m) d) (Z.of_nat i) (Some CbAppl) t]> (mem w)) w.
Proof.
  intros [HI Hm Hs Hh Ha Hp] Hk Hb Hl Hf Hq. unfold send_first. sq. rewrite Hs. sq.
  set (w1 := set_lock true (set_current_session (Some i) (set_session_list q w))).
  destruct (start_first w w1 i q HI Hk Hs) as (HI1 & _ & _); [done|]. apply Forall2_cons_iff in Hh as [(E & _ & _) _].
  assert (Hfree : is_Some (first_free (counts w1))).
  { apply (pool_full _ _ _ (inv_pool w1 HI1)). unfold owned, sending. cbn. rewrite length_app, Hl. cbn. unfold NUM_SESSIONS. lia. }
  destruct Hfree as [j Hj]. apply wp_bind, (send_endpoint_plain i (m_param m) (stored m) d w1); [done| |done|by rewrite <- Hm in Hf|].
  { apply elem_of_app. right. left. }
  assert (Hi : i ∈ session_list w1 ++ sending w1) by (apply elem_of_app; right; left).
  destruct (inv_app w1 HI1 i Hi) as (p' & d1 & E' & Hle & _). cbn in E'. rewrite E in E'. injection E' as <- <-.
  eapply wp_mono; [apply (send_data_exact _ _ _ _ w1 j); [done|by apply (frame_for_length _ _ _ _ Hf)|done]|].
  intros r w2 (-> & Hr & Hpo & t & _ & Hc). apply end_ret. split; [done|]. split; [done|]. exists j, t.
  destruct (fresh_session w1 j HI1 Hj) as (Hn & Hlt & _). injection Hc as -> -> -> -> -> _ ->. rewrite Hl, Hb. split; [|done].
  intros Hi'. apply Hn. unfold owned, sending in *. cbn. rewrite Hk, Hs, Hl in Hi'. rewrite Hl. rewrite !app_nil_r in *.
  rewrite elem_of_app, list_elem_of_singleton. apply elem_of_cons in Hi'. tauto.
Qed.

Lemma load ts me w i q m ms l d : Idle me w (i :: q) (m :: ms) -> posted w = SEND_EVENT_SEND_NEXT :: l -> backoff_timer w = Expired ->
  frame_for me (m_param m) (stored m) = Some d -> (length q < 7)%nat ->
  exists w', step ts w = Ok (Some w') /\ Loaded false me w' i m d q ms /\ seen w' = seen w.
Proof.
  intros (HC & Hk & Hkl & Hl & _) Hp Hb Hf Hq. rewrite (queue_step_event ts _ l w Hp). pose proof (calm_emergency _ _ _ _ HC) as Hem. rewrite Hp in Hem.
  apply not_emergency in Hem. pose proof (Calm_core me w (set_posted l w) _ _ HC eq_refl eq_refl eq_refl Hem) as HC1.
  assert (HC1' : wp (handle h SEND_EVENT_SEND_NEXT) (fun _ w' => Loaded false me w' i m d q ms /\ seen w' = seen w) (set_posted l w));
    [|destruct (on_wp _ _ (fun w => Ok (Some w)) _ HC1') as (w' & [HL Hse] & E); rewrite E; eauto].
  unfold handle. sq. rewrite Hk, Hb. cbn [negb andb etimer_expired].
  eapply wp_mono; [apply wp_and; [by apply (send_first_ok h); [apply HC1|]|by apply (send_first_plain me _ i q m ms d)]|].
  destruct HC1 as [HI1 Hm1 Hs1 Hh1 Ha1 Hp1]. apply Forall2_cons_iff in Hh1 as [Hi1 Hh1].
  intros [] w' [[HI' _] (Hr & Hpo & j & t & Hj & Hlt & E1 & E2 & E3 & E4 & E5 & E6)]. pose proof Hr as [= _ Hbt Hme Hac Ho].
  assert (Hsame : forall k, k ∈ i :: q -> sess (mem w') k = sess (mem w) k).
  { intros k Hk'. rewrite E6. apply block_insert_ne. intros ->. apply Hj. unfold owned. sq_simpl. apply elem_of_app. left. by cbn in Hs1; rewrite Hs1. }
  split; [|unfold seen; by rewrite Ho]. unfold Loaded, holds. rewrite (Hsame i) by left. rewrite E1, E2, E3, E5, E6, Hpo, Hbt.
  split; [split; try done; [by rewrite Hme| |by rewrite Hac|rewrite Hpo; by apply not_emergency_app]|do 4 (split; [done|])].
  - apply Forall2_same_length_lookup in Hh1 as [Hlen Hh1]. apply Forall2_same_length_lookup. split; [done|]. intros k a b Ha' Hb'. unfold holds.
    rewrite Hsame by (right; by apply list_elem_of_lookup_2 in Ha'). by apply (Hh1 k).
  - split; [done|]. split; [intros _; apply elem_of_app; right; left|]. exists j. rewrite block_insert_eq by done. cbn. split; [done|]. split; [by exists (m_param m)|done].
Qed.

(** Events that start no message. *)
Lemma idle_event ts me w q ms e l : Idle me w q ms -> posted w = e :: l -> (e = SEND_EVENT_SEND_NEXT -> backoff_timer w = Expired -> q = []) ->
  exists w', step ts w = Ok (Some w') /\ seen w' = seen w /\ Idle me w' q ms /\ (left_over w' < left_over w)%nat.
Proof.
  intros HI Hp Hn. pose proof HI as (HC & Hk & Hkl & Hl & Hb). pose proof (calm_emergency _ _ _ _ HC) as Hem. rewrite Hp in Hem.
  pose proof (not_emergency _ _ Hem) as Hem'. pose proof (calm_queue _ _ _ _ HC) as Hs. unfold wakes in Hb. rewrite Hp in Hb.
  rewrite (queue_step_event ts e l w Hp). unfold on, handle, send_first, process_post, mbind, Eff_bind, get, modify, mret, Eff_ret. destruct e; sq_simpl.
  - rewrite Hk. destruct (backoff_timer w) as [|t|] eqn:Et; cbn [negb andb etimer_expired]; [|eexists|done].
    + rewrite Hn in * by done. sq_simpl. rewrite Hs. eexists. split; [done|]. split; [done|]. split; [|unfold left_over; cbn; rewrite Hp, Et; cbn; lia].
      apply (Idle_core me w _ _ _ HI); cbn; try done; [by right|by rewrite Et].
    + split; [done|]. split; [done|]. split; [|unfold left_over; cbn; rewrite Hp, Et; cbn; lia].
      apply (Idle_core me w _ _ _ HI); cbn; try done; [by left|by rewrite Et].
  - rewrite Hl. cbn [head]. eexists. split; [done|]. split; [done|]. split; [|unfold left_over; cbn; rewrite Hp; cbn; lia].
    apply (Idle_core me w _ _ _ HI); cbn; try done; [by left|]. destruct (backoff_timer w); [|done..]. intros Hq. unfold wakes. cbn.
    destruct (Hb Hq) as [[?|?]%elem_of_cons|[?|?]%elem_of_cons]; [done|by left|done|by right].
  - exfalso. apply Hem. left.
  - eexists. split; [done|]. split; [done|]. split; [|unfold left_over; cbn; rewrite Hp, sum_app; cbn; lia].
    apply (Idle_core me w _ _ _ HI); cbn; try done; [by left|by apply not_emergency_app|]. destruct (backoff_timer w); [|done..]. intros _. left. cbn.
    apply elem_of_app. right. left.
Qed.

(** Idle, until the next message is taken or none is left. *)
Lemma queue_idle_step ts me w q ms : Idle me w q ms -> (length q < 8)%nat -> Forall (fun m => is_Some (frame_for me (m_param m) (stored m))) ms ->
  (step ts w = Ok None /\ q = [] /\ posted w = []) \/
  exists w', step ts w = Ok (Some w') /\ seen w' = seen w /\
    ((Idle me w' q ms /\ (left_over w' < left_over w)%nat) \/
     exists i q' m ms' d, q = i :: q' /\ ms = m :: ms' /\ frame_for me (m_param m) (stored m) = Some d /\ Loaded false me w' i m d q' ms').
Proof.
  intros HI Hq Hf. pose proof HI as (HC & Hk & Hkl & Hl & Hb). destruct (posted w) as [|e l] eqn:Hp.
  - unfold step. rewrite Hp, Hkl. unfold wakes in Hb. rewrite Hp in Hb. destruct (backoff_timer w) as [|t|] eqn:Et; [| |done].
    + left. split; [done|]. split; [|done]. destruct q as [|i q]; [done|]. exfalso. destruct Hb as [[]%elem_of_nil|[]%elem_of_nil]; done.
    + right. unfold on, backoff_timeout, process_post, mbind, Eff_bind, get, modify. rewrite Et. eexists. split; [done|]. split; [done|]. left. split.
      * apply (Idle_core me w _ _ _ HI); cbn; try done; [by left|rewrite Hp; by intros [=]%list_elem_of_singleton|].
        intros _. right. cbn. rewrite Hp. left.
      * unfold left_over. cbn. rewrite Hp, Et. cbn. lia.
  - right. destruct (decide (e = SEND_EVENT_SEND_NEXT /\ backoff_timer w = Expired /\ q <> [])) as [(-> & Et & Hne)|Hn].
    + pose proof (calm_holds _ _ _ _ HC) as Hh. destruct Hh as [|i m q ms Hi Hh]; [done|]. apply list.Forall_cons in Hf as [[d Hd] _]. cbn in Hq.
      destruct (load ts me w i q m ms l d) as (w' & E & HL & Hse); [done..|lia|]. exists w'. split; [done|]. split; [done|]. right. by exists i, q, m, ms, d.
    + destruct (idle_event ts me w q ms e l HI Hp) as (w' & E & Hse & HI'); [|by exists w'; eauto].
      intros -> Et. destruct q; [done|]. exfalso. by apply Hn.
Qed.

(** ** The frame is sent *)

Lemma carrier_visible me p d o : carrier me p d = Some o -> visible o = true.
Proof. unfold carrier. destruct (_ <=? _); [destruct (SupportsCmdClass h _ _); [by intros [= <-]|done]|]. by destruct (negb _); intros [= <-]. Qed.

Lemma offer_accepted o Q w : accepts w = [] -> Q true (set_outs (o :: outs w) w) -> wp (offer o) Q w.
Proof. intros Ha HQ. unfold offer, next_accept, wp, mbind, Eff_bind. by rewrite Ha. Qed.

(** Only the session [j] and the outputs change. *)
Definition sent (j : nat) (w w' : SQ) : Prop :=
  (lock w', current_session w', session_list w', send_data_list w', posted w', backoff_timer w', MyNodeID w', accepts w') =
  (lock w, current_session w, session_list w, send_data_list w, posted w, backoff_timer w, MyNodeID w, accepts w) /\
  (forall k, k <> j -> sess (mem w') k = sess (mem w) k) /\ length (mem w') = length (mem w) /\
  callback (sess (mem w') j) = callback (sess (mem w) j) /\ user (sess (mem w') j) = user (sess (mem w) j).

Lemma sent_trans j w w1 w2 : sent j w w1 -> sent j w1 w2 -> sent j w w2.
Proof.
  intros (E1 & H1 & L1 & C1 & U1) (E2 & H2 & L2 & C2 & U2). split; [by rewrite E2|]. split; [intros k Hk; by rewrite H2, H1|]. by rewrite L2, C2, U2.
Qed.

Lemma sent_mod j f w : (j < length (mem w))%nat -> callback (f (sess (mem w) j)) = callback (sess (mem w) j) -> user (f (sess (mem w) j)) = user (sess (mem w) j) ->
  sent j w (set_mem (alter f j (mem w)) w).
Proof.
  intros Hj Hc Hu. split; [done|]. cbn. split; [intros k Hk; by apply block_alter_ne|]. by rewrite length_alter, block_alter_eq.
Qed.

Lemma send_ll_plain me w j p d o : (j < length (mem w))%nat -> fb (sess (mem w) j) = FbLive p d -> accepts w = [] -> MyNodeID w = me -> carrier me p d = Some o ->
  wp (send_ll h j) (fun _ w' => sent j w w' /\ lock_ll w' = true /\ outs w' = ima_send_data_start (dnode p) :: o :: outs w /\ exists p', fb (sess (mem w') j) = FbLive p' d) w.
Proof.
  intros Hj E Ha Hm Hc. unfold send_ll. apply wp_bind, (wp_frame_of j p d); [done..|]. apply wp_bind.
  eapply (wp_mono _ (fun _ w1 => sent j w w1 /\ outs w1 = outs w /\ fb (sess (mem w1) j) = FbLive p d)).
  { destruct (_ =? 0); [by apply end_ret|]. apply end_mod_session. split; [by apply sent_mod|]. split; [done|]. cbn. by rewrite block_alter_eq. }
  intros [] w1 (Hs1 & Ho1 & E1). pose proof Hs1 as ([= _ _ _ _ _ _ Hm1 Ha1] & _ & Hl1 & _). sq.
  set (w2 := set_lock_ll true w1). assert (Hs2 : sent j w w2) by (eapply sent_trans; [exact Hs1|done]).
  apply wp_bind. eapply (wp_mono _ (fun r w3 => r = true /\ sent j w w3 /\ lock_ll w3 = true /\ outs w3 = o :: outs w /\ exists p', fb (sess (mem w3) j) = FbLive p' d)).
  - unfold carrier in Hc. rewrite Hm1, Hm. assert (Hoff : forall w3, sent j w w3 -> lock_ll w3 = true -> outs w3 = outs w -> (exists p', fb (sess (mem w3) j) = FbLive p' d) ->
      wp (offer o) (fun r w3 => r = true /\ sent j w w3 /\ lock_ll w3 = true /\ outs w3 = o :: outs w /\ exists p', fb (sess (mem w3) j) = FbLive p' d) w3).
    { intros w3 Hs3 Hb Ho He. pose proof Hs3 as ([= _ _ _ _ _ _ _ Ha3] & _). apply offer_accepted; [by rewrite Ha3|]. split; [done|].
      split; [by apply (sent_trans _ _ _ _ Hs3)|]. split; [done|]. split; [cbn; by rewrite Ho|done]. }
    destruct (_ <=? _); [destruct (SupportsCmdClass h _ _); [injection Hc as <-; apply Hoff; eauto|done]|].
    destruct (negb _); injection Hc as <-; [apply Hoff; eauto|]. unfold mod_param. apply step_mod_session. apply Hoff; [|done..|].
    + eapply sent_trans; [exact Hs2|]. apply sent_mod; cbn; [by rewrite Hl1|by rewrite E1..].
    + exists (set_snode 0x00ff p). cbn. rewrite block_alter_eq by (by rewrite Hl1). by rewrite E1.
  - intros r w3 (-> & Hs3 & Hb3 & Ho3 & He3). cbn [negb]. sq. split; [by apply (sent_trans _ _ _ _ Hs3)|]. split; [done|]. by rewrite Ho3.
Qed.

Lemma holds_same w w' q ms : (forall k, k ∈ q -> sess (mem w') k = sess (mem w) k) -> Forall2 (holds w) q ms -> Forall2 (holds w') q ms.
Proof.
  intros Hs H. induction H as [|i m q ms Hi H IH]; constructor.
  - unfold holds. by rewrite Hs by left.
  - apply IH. intros k Hk. apply Hs. by right.
Qed.

(** The queued frame is none of the application's sessions. *)
Lemma frame_apart w i j : Inv w -> send_data_list w = [j] -> i ∈ session_list w ++ sending w -> i <> j.
Proof.
  intros HI Hj Hi ->. pose proof (pool_nodup _ _ _ (inv_pool w HI)) as Hn. unfold owned in Hn. rewrite app_assoc, Hj in Hn.
  apply list.NoDup_app in Hn as (_ & Hn & _). apply (Hn j Hi). left.
Qed.

Lemma transmit ts me w i m d q ms l o : Loaded false me w i m d q ms -> posted w = SEND_EVENT_SEND_NEXT_LL :: l -> carrier me (m_param m) d = Some o ->
  exists w', step ts w = Ok (Some w') /\ Loaded true me w' i m d q ms /\ seen w' = seen w ++ [o].
Proof.
  intros (HC & Hi & Hk & Hcur & Hb & Hbt & _ & j & Hj & (p & E & Hpm) & Hcb & Hu) Hp Hc. rewrite (Hpm eq_refl) in E.
  pose proof (calm_emergency _ _ _ _ HC) as Hem. rewrite Hp in Hem. apply not_emergency in Hem. rewrite (queue_step_event ts _ l w Hp).
  set (w1 := set_current_session_ll (Some j) (set_posted l w)).
  pose proof (Calm_core me w w1 _ _ HC eq_refl eq_refl eq_refl Hem) as HC1. destruct HC1 as [HI1 Hm1 Hs1 Hh1 Ha1 _].
  assert (Hjl : (j < length (mem w1))%nat) by (apply owned_lt; [done|]; apply owned_ll; cbn; rewrite Hj; left).
  assert (H : wp (handle h SEND_EVENT_SEND_NEXT_LL) (fun _ w' => Loaded true me w' i m d q ms /\ seen w' = seen w ++ [o]) (set_posted l w));
    [|destruct (on_wp _ _ (fun w => Ok (Some w)) _ H) as (w' & [HL Hse] & E'); rewrite E'; eauto].
  unfold handle. sq. rewrite Hj, Hb. cbn [head]. fold w1.
  eapply wp_mono; [apply wp_and; [by apply (send_ll_ok h j [])|by apply (send_ll_plain me w1 j (m_param m) d o)]|].
  intros [] w' [[HI' _] (([= E1 E2 E3 E4 E5 E6 E7 E8] & Hsame & _ & Ecb & Eu) & Hb' & Ho & p' & E')].
  assert (Hap : forall k, k ∈ session_list w1 ++ sending w1 -> sess (mem w') k = sess (mem w) k).
  { intros k Hk'. apply Hsame. by apply (frame_apart w1). }
  split; [|unfold seen; rewrite Ho; cbn; by rewrite (carrier_visible _ _ _ _ Hc)].
  assert (Hsi : sess (mem w') i = sess (mem w) i) by (apply Hap, elem_of_app; right; unfold sending; cbn; rewrite Hk, Hcur; left).
  split; [split; [done|by rewrite E7|by rewrite E3| |by rewrite E8|by rewrite E5]|].
  - apply (holds_same w); [|done]. intros k Hk'. apply Hap, elem_of_app. left. by rewrite Hs1.
  - unfold holds. rewrite Hsi, E1, E2, E4, E6. do 5 (split; [done|]). split; [done|]. exists j. rewrite Ecb, Eu. split; [done|]. split; [by exists p'|done].
Qed.

(** ** The message ends *)

(** Apart from the application's lock, the session [i], the outputs and what starts the next message. *)
Definition ended (i : nat) (w w' : SQ) : Prop :=
  (lock_ll w', session_list w', send_data_list w', MyNodeID w', accepts w') = (lock_ll w, session_list w, send_data_list w, MyNodeID w, accepts w) /\
  (forall k, k <> i -> sess (mem w') k = sess (mem w) k) /\ length (mem w') = length (mem w).

Lemma callback_plain w i p d f ts : lock w = true -> (i < length (mem w))%nat -> fb (sess (mem w) i) = FbLive p d -> (length d < FRAME_BUFFER_ELEMENT_SIE)%nat ->
  callback (sess (mem w) i) = Some (CbUser f) ->
  wp (ZW_SendDataAppl_CallbackEx h TRANSMIT_COMPLETE_OK i ts) (fun _ w' => lock w' = false /\ ended i w w' /\
    outs w' = Called f (user (sess (mem w) i)) TRANSMIT_COMPLETE_OK ts :: outs w /\ wake_next w w') w.
Proof.
  intros Hk Hi E Hd Hc. unfold ZW_SendDataAppl_CallbackEx. sq. rewrite Hk. cbn [negb]. sq. apply wp_bind. eapply wp_mono; [by apply (schedule_next_ok h _ _ _ _ p d)|].
  intros [] w1 ([= E1 E2 E3 E4 E5 E6 E7] & [= Eo Em Ea] & Hw). apply wp_bind, (wp_frame_free i p d); [by rewrite E7..|]. rewrite E7. sq.
  apply wp_bind, wp_get_session; sq_simpl; [by rewrite length_insert|]. rewrite block_insert_eq by done. unfold call_user. sq_simpl. cbn [set_fb callback user]. rewrite Hc. sq.
  split; [by rewrite E1|]. split; [|by rewrite Eo]. split; [sq_simpl; by rewrite E3, E4, E5, Em, Ea|]. sq_simpl. split; [|by rewrite length_insert].
  intros k Hk'. by apply block_insert_ne.
Qed.

Lemma radio_done_plain w i j p d p' d' f ts : lock_ll w = true -> lock w = true -> send_data_list w = [j] -> i <> j ->
  (i < length (mem w))%nat -> (j < length (mem w))%nat ->
  fb (sess (mem w) j) = FbLive p' d' -> callback (sess (mem w) j) = Some CbAppl -> user (sess (mem w) j) = Z.of_nat i ->
  fb (sess (mem w) i) = FbLive p d -> (length d < FRAME_BUFFER_ELEMENT_SIE)%nat -> callback (sess (mem w) i) = Some (CbUser f) ->
  wp (send_data_callback_func h TRANSMIT_COMPLETE_OK ts) (fun _ w' =>
    (lock w', lock_ll w', session_list w', send_data_list w', MyNodeID w', accepts w') = (false, false, session_list w, [], MyNodeID w, accepts w) /\
    (forall k, k <> i -> k <> j -> sess (mem w') k = sess (mem w) k) /\
    seen w' = seen w ++ [Called f (user (sess (mem w) i)) TRANSMIT_COMPLETE_OK ts] /\
    ((posted w' = posted w ++ [SEND_EVENT_SEND_NEXT; SEND_EVENT_SEND_NEXT_LL] /\ backoff_timer w' = backoff_timer w) \/
     (posted w' = posted w ++ [SEND_EVENT_SEND_NEXT_LL] /\ exists t, backoff_timer w' = Running t))) w.
Proof.
  intros Hb Hk Hl Hij Hi Hj Ej Hcj Huj Ei Hd Hci. unfold send_data_callback_func. sq. rewrite Hb, Hl. cbn [negb]. sq. apply wp_bind.
  eapply (wp_mono _ (fun _ w1 => core w1 = core (set_send_data_list [] w) /\ seen w1 = seen w /\
    (posted w1, backoff_timer w1, MyNodeID w1, accepts w1) = (posted w, backoff_timer w, MyNodeID w, accepts w))).
  { destruct (_ || _); [|by apply end_ret]. apply wp_bind, (wp_frame_of j p' d'); [done..|]. by apply end_sq_emit. }
  intros [] w1 ([= E1 E2 E3 E4 E5 E6 E7] & Es & [= F1 F2 F3 F4]). sq. apply wp_bind, (wp_frame_free j p' d'); [sq_simpl; by rewrite E7..|]. sq. rewrite E7.
  apply wp_bind, wp_get_session; sq_simpl; [by rewrite length_insert|]. rewrite block_insert_eq by done. unfold call. cbn [set_fb callback user]. rewrite Hcj, Huj, Nat2Z.id.
  apply wp_bind. eapply wp_mono; [apply (callback_plain _ i p d f)|].
  - sq_simpl. by rewrite E1.
  - sq_simpl. by rewrite length_insert.
  - sq_simpl. by rewrite block_insert_ne.
  - done.
  - sq_simpl. by rewrite block_insert_ne.
  - intros [] w2 (G1 & ([= G2 G3 G4 G5 G6] & Hsame & _) & Ho & Hw). sq_simpl. sq. rewrite G1, G2, G3, G4, G5, G6, E4, E5, F3, F4. split; [done|].
    cbn [mem outs set_lock_ll set_counts set_mem set_emergency_timer] in Hsame, Ho. rewrite block_insert_ne in Ho by done. split; [intros k Hki Hkj; by rewrite Hsame, block_insert_ne|].
    split; [unfold seen in *; cbn; rewrite Ho; cbn; by rewrite Es|]. unfold wake_next in Hw. cbn in Hw. rewrite F1, F2 in Hw.
    destruct Hw as [[-> ->]|[-> Hw]]; [left; by rewrite <- app_assoc|by right].
Qed.

Lemma complete ts me w i m d q ms : Loaded true me w i m d q ms -> posted w = [] ->
  exists w', step ts w = Ok (Some w') /\ Idle me w' q ms /\ seen w' = seen w ++ [Called (m_f m) (m_user m) TRANSMIT_COMPLETE_OK ts].
Proof.
  intros (HC & (Ei & Hci & Hui) & Hk & Hcur & Hb & Hbt & _ & j & Hj & (p & E & _) & Hcb & Hu) Hp. pose proof HC as [HI Hm Hs Hh Ha _].
  unfold step. rewrite Hp, Hb. assert (His : i ∈ session_list w ++ sending w) by (apply elem_of_app; right; unfold sending; rewrite Hk, Hcur; left).
  assert (Hil : (i < length (mem w))%nat) by by apply owned_lt, owned_app.
  assert (Hjl : (j < length (mem w))%nat) by (apply owned_lt; [done|]; apply owned_ll; rewrite Hj; left).
  pose proof (frame_apart w i j HI Hj His) as Hij. destruct (app_length _ (inv_app w HI i His)) as (p1 & d1 & E1 & Hd). rewrite Ei in E1. injection E1 as <- <-.
  assert (H : wp (send_data_callback_func h TRANSMIT_COMPLETE_OK ts) (fun _ w' => Idle me w' q ms /\ seen w' = seen w ++ [Called (m_f m) (m_user m) TRANSMIT_COMPLETE_OK ts]) w);
    [|destruct (on_wp _ _ (fun w => Ok (Some w)) _ H) as (w' & [HL Hse] & E'); rewrite E'; eauto].
  eapply wp_mono; [apply wp_and; [by apply (send_data_callback_func_ok h)|by apply (radio_done_plain w i j (m_param m) (stored m) p d (m_f m) ts)]|].
  intros [] w' [[HI' _] ([= G1 G2 G3 G4 G5 G6] & Hsame & Hse & Hw)]. rewrite Hui in Hse. split; [|done]. rewrite Hp, Hbt in Hw.
  assert (Hem : ~ TIMER_emergency ∈ posted w').
  { destruct Hw as [[-> _]|[-> _]]; cbn; rewrite ?elem_of_cons, elem_of_nil; intuition congruence. }
  split; [split; [done|by rewrite G5|by rewrite G3| |by rewrite G6|done]|].
  - apply (holds_same w); [|done]. intros k Hk'. assert (Hks : k ∈ session_list w) by by rewrite Hs. apply Hsame.
    + intros ->. pose proof (pool_nodup _ _ _ (inv_pool w HI)) as Hn. unfold owned, sending in Hn. rewrite Hk, Hcur in Hn.
      apply list.NoDup_app in Hn as (_ & Hn & _). apply (Hn i Hks). left.
    + apply (frame_apart w); [done..|]. apply elem_of_app. by left.
  - do 3 (split; [done|]). destruct Hw as [[Hpo ->]|[_ [t ->]]]; [|done]. intros _. left. rewrite Hpo. left.
Qed.

(** ** Whole runs *)

Abbreviation reach ts := (reaches (step ts)).

Lemma loaded_sent ts me w i m d q ms o : Loaded false me w i m d q ms -> carrier me (m_param m) d = Some o ->
  exists w', reach ts w w' /\ Loaded true me w' i m d q ms /\ seen w' = seen w ++ [o].
Proof.
  intros HL Hc. remember (left_over w) as n eqn:Hn. revert w HL Hn. induction (lt_wf n) as [n _ IH]. intros w HL ->.
  pose proof HL as (_ & _ & _ & _ & _ & _ & Hp & _). specialize (Hp eq_refl). destruct (posted w) as [|e l] eqn:E; [by apply elem_of_nil in Hp|].
  destruct (decide (e = SEND_EVENT_SEND_NEXT_LL)) as [->|He].
  - destruct (transmit ts me w i m d q ms l o HL E Hc) as (w' & Hs & HL' & Hse). exists w'. split; [by apply rtc_once|done].
  - destruct (loaded_quiet false ts me w i m d q ms e l HL E) as (w1 & Hs & HL1 & Hse & Hlt); [done|].
    destruct (IH _ Hlt w1 HL1 eq_refl) as (w2 & Hr & H2 & Hse2). exists w2. split; [by eapply rtc_l|]. by rewrite <- Hse.
Qed.

Lemma loaded_ended ts me w i m d q ms : Loaded true me w i m d q ms ->
  exists w', reach ts w w' /\ Idle me w' q ms /\ seen w' = seen w ++ [Called (m_f m) (m_user m) TRANSMIT_COMPLETE_OK ts].
Proof.
  intros HL. remember (left_over w) as n eqn:Hn. revert w HL Hn. induction (lt_wf n) as [n _ IH]. intros w HL ->. destruct (posted w) as [|e l] eqn:E.
  - destruct (complete ts me w i m d q ms HL E) as (w' & Hs & HI & Hse). exists w'. split; [by apply rtc_once|done].
  - destruct (loaded_quiet true ts me w i m d q ms e l HL E) as (w1 & Hs & HL1 & Hse & Hlt); [done|].
    destruct (IH _ Hlt w1 HL1 eq_refl) as (w2 & Hr & H2 & Hse2). exists w2. split; [by eapply rtc_l|]. by rewrite <- Hse.
Qed.

(** The queue moves on to its next message, or is done. *)
Lemma idle_moves ts me w q ms : Idle me w q ms -> (length q < 8)%nat -> Forall (fun m => is_Some (frame_for me (m_param m) (stored m))) ms ->
  exists w', reach ts w w' /\ seen w' = seen w /\
    ((step ts w' = Ok None /\ q = [] /\ posted w' = [] /\ Idle me w' q ms) \/
     exists i q' m ms' d, q = i :: q' /\ ms = m :: ms' /\ frame_for me (m_param m) (stored m) = Some d /\ Loaded false me w' i m d q' ms').
Proof.
  intros HI Hq Hf. remember (left_over w) as n eqn:Hn. revert w HI Hn. induction (lt_wf n) as [n _ IH]. intros w HI ->.
  destruct (queue_idle_step ts me w q ms HI Hq Hf) as [(Hs & -> & Hp)|(w1 & Hs & Hse & [[HI1 Hlt]|HL])].
  - exists w. split; [apply rtc_refl|]. split; [done|]. by left.
  - destruct (IH _ Hlt w1 HI1 eq_refl) as (w2 & Hr & Hse2 & H2). exists w2. split; [by eapply rtc_l|]. by rewrite <- Hse.
  - exists w1. split; [by apply rtc_once|]. split; [done|by right].
Qed.

Lemma idle_delivers ts me ms os : Forall2 (fun m o => transmission me m = Some o) ms os -> forall w q, Idle me w q ms -> (length q < 8)%nat ->
  exists w', reach ts w w' /\ step ts w' = Ok None /\ owned w' = [] /\ posted w' = [] /\ seen w' = seen w ++ concat (expected ts <$> zip ms os).
Proof.
  intros H. induction H as [|m o ms os Hm H IH]; intros w q HI Hq.
  - destruct (idle_moves ts me w q [] HI Hq) as (w' & Hr & Hse & [(Hs & -> & Hpo & HI')|(i & q' & m & ms' & d & _ & E & _)]); [constructor| |done].
    exists w'. split; [done|]. split; [done|]. split; [|split; [done|by rewrite app_nil_r]]. destruct HI' as ([_ _ Hl _ _ _] & Hk & _ & Hd & _).
    unfold owned, sending. by rewrite Hl, Hk, Hd.
  - assert (Hf : Forall (fun m => is_Some (frame_for me (m_param m) (stored m))) (m :: ms)).
    { constructor; [unfold transmission in Hm; by destruct (frame_for _ _ _)|]. clear -H. induction H as [|m o ms os Hm H IH]; constructor; [|done].
      unfold transmission in Hm; by destruct (frame_for _ _ _). }
    destruct (idle_moves ts me w q (m :: ms) HI Hq Hf) as (w1 & Hr1 & Hs1 & [(_ & -> & _ & HI')|(i & q' & m' & ms' & d & -> & [= <- <-] & Hd & HL)]).
    { destruct HI' as ([_ _ _ Hh _ _] & _). by inversion Hh. }
    unfold transmission in Hm. rewrite Hd in Hm. cbn in Hm. destruct (loaded_sent ts me w1 i m d q' ms o HL Hm) as (w2 & Hr2 & HL2 & Hs2).
    destruct (loaded_ended ts me w2 i m d q' ms HL2) as (w3 & Hr3 & HI3 & Hs3). cbn in Hq. destruct (IH w3 q' HI3) as (w4 & Hr4 & Hst & Ho & Hpo & Hs4); [lia|].
    exists w4. split; [unfold reaches in *; by do 3 (etrans; [eassumption|])|]. do 3 (split; [done|]).
    rewrite Hs4, Hs3, Hs2, Hs1. cbn. by rewrite <- !app_assoc.
Qed.

(** ** The messages are given to the queue *)

Lemma send_one me w q ms m : Idle me w q ms -> (length q < 8)%nat -> sendable (m_param m) (m_data m) = true ->
  wp (ZW_SendDataAppl (m_param m) (m_data m) (Some (CbUser (m_f m))) (m_user m))
     (fun _ w' => exists i, Idle me w' (q ++ [i]) (ms ++ [m]) /\ seen w' = seen w) w.
Proof.
  intros ([HI Hm Hs Hh Ha Hem] & Hk & Hkl & Hl & Hb) Hq Hsd.
  assert (Hfree : is_Some (first_free (counts w))).
  { apply (pool_full _ _ _ (inv_pool w HI)). unfold owned, sending. by rewrite Hk, Hl, !app_nil_r, Hs. }
  destruct Hfree as [i Ef]. destruct (fresh_session w i HI Ef) as (Hn & Hi & _).
  eapply wp_mono; [apply wp_and; [by apply ZW_SendDataAppl_ok|by apply (ZW_SendDataAppl_exact _ _ _ _ w i)]|].
  intros r w' ((HI' & _) & _ & [= _ Hbt Hme Hac Ho] & Hp & [= E1 E2 E3 E4 E5 _ E7]). exists i. split; [|unfold seen; by rewrite Ho].
  split; [split; [done|by rewrite Hme|by rewrite E4, Hs| |by rewrite Hac|rewrite Hp; by apply not_emergency_app]|].
  - apply Forall2_app; [|constructor; [|done]].
    + apply (holds_same w); [|done]. intros k Hk'. rewrite E7. apply block_insert_ne. intros ->. apply Hn, owned_app, elem_of_app. left. by rewrite Hs.
    + unfold holds. rewrite E7. by rewrite block_insert_eq.
  - rewrite E1, E3, E5, Hbt. do 3 (split; [done|]). destruct (backoff_timer w); [|done..]. intros _. left. rewrite Hp. apply elem_of_app. right. left.
Qed.

Lemma send_all_ok me new : forall w q ms, Idle me w q ms -> (length q + length new <= 8)%nat -> Forall (fun m => sendable (m_param m) (m_data m) = true) new ->
  wp (send_all new) (fun _ w' => exists q', length q' = (length q + length new)%nat /\ Idle me w' q' (ms ++ new) /\ seen w' = seen w) w.
Proof.
  induction new as [|m new IH]; intros w q ms HI Hl Hs; cbn [send_all length] in *.
  - apply end_ret. exists q. rewrite app_nil_r. split; [lia|done].
  - apply list.Forall_cons in Hs as [Hm Hs]. apply wp_bind. eapply wp_mono; [apply (send_one me w q ms m HI); [lia|done]|].
    intros _ w1 (i & HI1 & Hs1). eapply wp_mono; [apply (IH w1 (q ++ [i]) (ms ++ [m]) HI1); [rewrite length_app; cbn; lia|done]|].
    intros [] w2 (q' & Hq & HI2 & Hs2). exists q'. rewrite Hq, length_app, <- app_assoc in *. cbn. split; [lia|]. by rewrite Hs2.
Qed.

(** C18: Up to seven messages that need no security scheme are delivered in order.  Each is not empty,
    fits with the header of its endpoint into a frame buffer ([sendable]) and has a way to the radio
    ([transmission]); the radio reports each frame as sent.  Then, whatever details the radio reports
    and however long the pause after a Get command, each message is sent, with the headers its
    endpoint and the checksum need, by the radio, by its bridge or by the transport service, and its
    callback is called with OK before the next one is sent; then the queues are empty and nothing is
    left to do.  The run ends. *)
Theorem messages_sent_in_order me ts ms os : (length ms <= 7)%nat ->
  Forall2 (fun m o => sendable (m_param m) (m_data m) = true /\ transmission me m = Some o) ms os ->
  exists w, send_all ms (statics me) = Ok (tt, w) /\
  exists n w', (forall fuel, (n <= fuel)%nat -> iterate (step ts) fuel w = Ok w') /\
    owned w' = [] /\ posted w' = [] /\ seen w' = concat (expected ts <$> zip ms os).
Proof.
  intros Hl H. assert (Hs : Forall (fun m => sendable (m_param m) (m_data m) = true) ms) by (clear Hl; induction H as [|m o ms os [? _]]; by constructor).
  assert (H0 : Idle me (statics me) [] []).
  { split; [split; try done; [by apply empty_ok|by intros ?%elem_of_nil]|]. do 3 (split; [done|]). cbn. intros Hn. by destruct Hn. }
  destruct (wp_run _ _ _ (send_all_ok me ms (statics me) [] [] H0 ltac:(cbn; lia) Hs)) as ([] & w & E & q & Hq & HI & Hse). exists w. split; [done|].
  destruct (idle_delivers ts me ms os) with (w := w) (q := q) as (w' & Hr & Hst & Ho & Hp & Hs'); [|done|cbn in Hq; lia|].
  { eapply list.Forall2_impl; [exact H|]. by intros m o []. }
  destruct (reaches_iterate _ _ _ Hr Hst) as [n Hn]. exists n, w'. rewrite Hs', Hse. done.
Qed.

End Host.
End SendQueueFifo.
