(* ===== verification/SendQueueRuns.v ===== *)
(** * Runs of the send queues

    Concrete messages for the theorems, and runs in which the queues do something else than they
    mean to. *)
From S2P Require Import Prelude Effects Transport TransportSpec SendQueue SendQueueSpec SendQueueFifo.
Import Effects SendQueue SendQueueSpec SendQueueFifo.

Module SendQueueRuns.

(** Nodes without security; nodes from 6 on know the transport service, and the second byte 2 marks a
    Get command. *)
Definition plain_host : Host :=
  mkHost (fun _ => 0) (fun n cls => (6 <=? n) && (cls =? COMMAND_CLASS_TRANSPORT_SERVICE)) (fun _ cmd => cmd =? 2) false true.
(** Node 5 and the gateway share two schemes. *)
Definition secure_host : Host := mkHost (fun n => if n =? 5 then 0x71 else 0x31) (fun _ _ => false) (fun _ _ => false) false false.

Definition to_node (n : Z) : ts_param_t := ts_set_std (mkParam 0 0 0 0 0 0 0 [] false false false 0) 1 n.
Definition get_message (n u : Z) : message := mkMessage (to_node n) [0x20; 2] 100 u.
Definition long_message (u : Z) : message := mkMessage (set_dendpoint 3 (to_node 6)) (0x20 :: 1 :: replicate 60 7) 100 u.

Definition three_messages : list message := [get_message 5 1; long_message 2; get_message 7 3].
Definition three_frames : list out :=
  [ZW_SendData 5 [0x20; 2] 0x25;
   TransportService (set_dendpoint 3 (to_node 6)) ([0x60; 0x0D; 0; 3; 0x20; 1] ++ replicate 60 7);
   ZW_SendData 7 [0x20; 2] 0x25].

(** Witness. *)
Lemma messages_sent_in_order_witness :
  exists w, send_all three_messages (statics 1) = Ok (tt, w) /\
  exists n w', (forall fuel, (n <= fuel)%nat -> iterate (step plain_host (Some 9)) fuel w = Ok w') /\
    owned w' = [] /\ posted w' = [] /\ seen w' = concat (expected (Some 9) <$> zip three_messages three_frames).
Proof.
  apply (messages_sent_in_order plain_host 1 (Some 9) three_messages three_frames); [vm_compute; lia|].
  repeat (constructor; [split; vm_compute; reflexivity|]). constructor.
Defined.

Definition busy_run : list op :=
  [OpSend (to_node 5) [0x20; 2] 100 1; OpSend (to_node 5) [0x20; 1; 255] 100 2; OpProcess; OpFrame (to_node 5) [1; 2] 101 3; OpProcess; OpProcess;
   OpRadioDone 0 (Some 4); OpBackoff; OpAbort 2; OpProcess; OpProcess; OpEmergency; OpProcess].

Lemma callbacks_called_once_witness :
  exists acc w, run plain_host busy_run (statics 1) = Ok (acc, w) /\ called w ++ waiting w ≡ₚ acc.
Proof. apply (callbacks_called_once plain_host 1 busy_run). vm_compute. intros H. repeat (apply elem_of_cons in H as [H|H]; [discriminate|]). by apply elem_of_nil in H. Defined.

Lemma queue_capacity_witness : exists r w', ZW_SendDataAppl (to_node 5) [0x20; 2] (Some (CbUser 100)) 1 (statics 1) = Ok (r, w') /\
  (0 < r <= 8 <-> (length (owned (statics 1)) < 8)%nat) /\ (r = 0 <-> length (owned (statics 1)) = 8%nat).
Proof. apply (queue_capacity (to_node 5) [0x20; 2] 100 1 (statics 1)); [by apply empty_ok|vm_compute; reflexivity]. Defined.

Lemma scheme_not_downgraded_witness : let s := ZW_SendData_scheme_select secure_host 1 (to_node 5) 2 in s = SECURITY_SCHEME_2_AUTHENTICATED /\
  ((scheme (to_node 5) <> AUTO_SCHEME -> s = scheme (to_node 5)) /\
  (scheme (to_node 5) = AUTO_SCHEME ->
    (forall t flag, (t, flag) ∈ scheme_flags -> has_bits (GetCacheEntryFlag secure_host (dnode (to_node 5))) flag = true -> has_bits (GetCacheEntryFlag secure_host 1) flag = true ->
       scheme_compare s t = true) /\
    (forall flag, (s, flag) ∈ scheme_flags -> has_bits (GetCacheEntryFlag secure_host (dnode (to_node 5))) flag = true /\ has_bits (GetCacheEntryFlag secure_host 1) flag = true))).
Proof. split; [vm_compute; reflexivity|]. apply (scheme_not_downgraded secure_host 1 (to_node 5) 2); [lia|vm_compute; reflexivity..]. Defined.

(** ** Eight messages *)

Definition eight_messages : list message := get_message 5 <$> [1; 2; 3; 4; 5; 6; 7; 8].

Definition run_all (h : Host) (ts : TX_STATUS_TYPE) (ms : list message) : res SQ :=
  match send_all ms (statics 1) with Ok (_, w) => iterate (step h ts) 200 w | Fault e => Fault e end.

(** Eight messages are accepted, but the first one fails without being sent: the frame it needs in
    the lower queue has no session left, since the waiting messages use them all. *)
Theorem eighth_message_fails_first :
  match run_all plain_host None eight_messages with
  | Ok w => take 3 (seen w) = [Called 100 1 TRANSMIT_COMPLETE_ERROR None; ZW_SendData 5 [0x20; 2] 0x25; Called 100 2 TRANSMIT_COMPLETE_OK None]
            /\ length (seen w) = 15%nat
  | Fault _ => False
  end.
Proof. vm_compute. split; reflexivity. Qed.

(** ** Messages to an endpoint *)

(** A message of 252 bytes to an endpoint is accepted, and the gateway stops at an assertion when the
    header of the endpoint no longer fits into a frame buffer. *)
Theorem endpoint_message_aborts :
  run_all plain_host None [mkMessage (set_dendpoint 3 (to_node 6)) (replicate 252 7) 100 1] = Fault AssertFailed.
Proof. vm_compute. reflexivity. Qed.

(** ** A reset during the pause after a Get command *)

(** What the environment does after [ops]. *)
Definition settle (h : Host) (ops : list op) : res SQ :=
  match run h ops (statics 1) with Ok (_, w) => iterate (step h (Some 9)) 200 w | Fault e => Fault e end.

(** When the queues are reset while the pause after a Get command runs, the timer stays marked as
    running but will not expire: a message sent after the reset is accepted and never leaves its queue. *)
Theorem reset_in_backoff_stalls :
  let get := [OpSend (to_node 5) [0x20; 2] 100 1; OpProcess; OpProcess; OpRadioDone 0 (Some 9)] in
  let put := [OpSend (to_node 5) [0x20; 1; 255] 100 2] in
  match settle plain_host (get ++ put), settle plain_host (get ++ [OpInit] ++ put) with
  | Ok w, Ok w' => session_list w = [] /\ called w = [(100, 2); (100, 1)] /\
                   session_list w' = [0%nat] /\ posted w' = [] /\ lock w' = false /\ backoff_timer w' = Orphaned 340 /\ called w' = [(100, 1)]
  | _, _ => False
  end.
Proof. vm_compute. repeat split. Qed.

(** A message that waits during the pause in the session of the last one is not aborted: the radio is
    stopped instead, no callback is called, and the message is sent later. *)
Theorem abort_in_backoff_ignored :
  let ops := [OpSend (to_node 5) [0x20; 2] 100 1; OpProcess; OpProcess; OpRadioDone 0 (Some 9); OpSend (to_node 5) [0x20; 1; 255] 100 2; OpAbort 1] in
  match run plain_host ops (statics 1), settle plain_host ops with
  | Ok (_, w), Ok w' => called w = [(100, 1)] /\ session_list w = [0%nat] /\ called w' = [(100, 2); (100, 1)]
  | _, _ => False
  end.
Proof. vm_compute. repeat split. Qed.

(** The frame buffer of an aborted message is not freed, though its session is. *)
Theorem abort_leaks_frame :
  match run plain_host [OpSend (to_node 5) [0x20; 2] 100 1; OpAbort 1] (statics 1) with
  | Ok (_, w) => owned w = [] /\ counts w = replicate 8 0 /\ exists p d, fb (sess (mem w) 0) = FbLive p d
  | Fault _ => False
  end.
Proof. vm_compute. split; [reflexivity|]. split; [reflexivity|]. do 2 eexists. reflexivity. Qed.

End SendQueueRuns.
