(* ===== verification/SendRequest.v ===== *)
(** * Requests and their answers (src/transport/ZW_SendRequest.c)

    A command is sent through the send queue, and the callback of its sender is called with the answer
    of the node, or told that there is none.  Every function; the send queue takes a command or not,
    and what the callbacks return is given from outside. *)
From S2P Require Import Prelude Effects Pool SendQueue.
Import Effects Pool.
Import SendQueue (ts_param_t, snode, dnode, scheme, rx_flags, set_dnode, Host, ts_param_make_reply, ts_param_cmp, TRANSMIT_COMPLETE_OK, TRANSMIT_COMPLETE_FAIL, mkParam).

Module SendRequest.

Definition NUM_REQS : nat := 4.
Definition ROUTING_RETRANSMISSION_DELAY : Z := 250.

Inductive req_state_t := REQ_SENDING | REQ_WAITING | REQ_DONE.
#[global] Instance req_state_eq_dec : EqDecision req_state_t.
Proof. solve_decision. Defined.

(** A request; its timer holds the time it was set to. *)
Record send_request_state_t := mkReq {
  param : ts_param_t; state : req_state_t; class : Z; cmd : Z; timeout : Z; user : Z; callback : option Z;
  timer : option Z; round_trip_start : Z
}.

Definition set_param (x : ts_param_t) (s : send_request_state_t) : send_request_state_t :=
  mkReq x (state s) (class s) (cmd s) (timeout s) (user s) (callback s) (timer s) (round_trip_start s).
Definition set_state (x : req_state_t) (s : send_request_state_t) : send_request_state_t :=
  mkReq (param s) x (class s) (cmd s) (timeout s) (user s) (callback s) (timer s) (round_trip_start s).
Definition set_timer (x : option Z) (s : send_request_state_t) : send_request_state_t :=
  mkReq (param s) (state s) (class s) (cmd s) (timeout s) (user s) (callback s) x (round_trip_start s).

(** Commands given to the send queue, with the request they belong to, and callbacks called: with the
    command received, or without one, and whether more answers are expected. *)
Inductive out :=
| Sent (p : ts_param_t) (data : list Z) (i : nat)
| Answer (f user txStatus rxStatus : Z) (pCmd : option (list Z)) (more : bool).

Record SR := mkSR {
  counts : list Z; mem : list send_request_state_t; reqs_list : list nat;
  MyNodeID : Z; clock : Z; accepts : list bool; answers : list bool; outs : list out
}.

Definition set_counts (x : list Z) (w : SR) : SR := mkSR x (mem w) (reqs_list w) (MyNodeID w) (clock w) (accepts w) (answers w) (outs w).
Definition set_mem (x : list send_request_state_t) (w : SR) : SR := mkSR (counts w) x (reqs_list w) (MyNodeID w) (clock w) (accepts w) (answers w) (outs w).
Definition set_reqs_list (x : list nat) (w : SR) : SR := mkSR (counts w) (mem w) x (MyNodeID w) (clock w) (accepts w) (answers w) (outs w).
Definition set_clock (x : Z) (w : SR) : SR := mkSR (counts w) (mem w) (reqs_list w) (MyNodeID w) x (accepts w) (answers w) (outs w).
Definition set_accepts (x : list bool) (w : SR) : SR := mkSR (counts w) (mem w) (reqs_list w) (MyNodeID w) (clock w) x (answers w) (outs w).
Definition set_answers (x : list bool) (w : SR) : SR := mkSR (counts w) (mem w) (reqs_list w) (MyNodeID w) (clock w) (accepts w) x (outs w).
Definition set_outs (x : list out) (w : SR) : SR := mkSR (counts w) (mem w) (reqs_list w) (MyNodeID w) (clock w) (accepts w) (answers w) x.

Abbreviation RM := (Eff SR).

Definition emit (o : out) : RM unit := modify (fun w => set_outs (o :: outs w) w).
Definition mod_req (i : nat) (f : send_request_state_t -> send_request_state_t) : RM unit := modify (fun w => set_mem (alter f i (mem w)) w).
Definition get_req (i : nat) : RM send_request_state_t := w ← get; rd (mem w) (Z.of_nat i).
Definition remove (i : nat) : RM unit := modify (fun w => set_reqs_list (list_remove i (reqs_list w)) w).
Definition free (i : nat) : RM unit := modify (fun w => set_counts (alter count_free i (counts w)) w).

(** The next answer of the environment; without one, that the command is taken and no more is expected. *)
Definition next_accept : RM bool := fun w =>
  match accepts w with
  | [] => Ok (true, w)
  | b :: l => Ok (b, set_accepts l w)
  end.
Definition next_answer : RM bool := fun w =>
  match answers w with
  | [] => Ok (false, w)
  | b :: l => Ok (b, set_answers l w)
  end.

Definition request_timeout (i : nat) : RM unit :=
  mod_req i (fun s => set_timer None (set_state REQ_DONE (set_param (set_dnode 0 (param s)) s)));;
  remove i;;
  free i;;
  s ← get_req i;
  match callback s with
  | Some f => emit (Answer f (user s) TRANSMIT_COMPLETE_FAIL 0 None false)
  | None => mret tt
  end.

Definition ZW_SendRequest_Callback (status : Z) (i : nat) : RM unit :=
  s ← get_req i;
  w ← get;
  let duration := (if round_trip_start s <? clock w then clock w - round_trip_start s else 10) + ROUTING_RETRANSMISSION_DELAY in
  if (status =? TRANSMIT_COMPLETE_OK) && bool_decide (state s = REQ_SENDING) then
    mod_req i (fun s => set_timer (Some (timeout s * 10 + duration)) (set_state REQ_WAITING s))
  else request_timeout i.

Section Host.
Context (h : Host).

Definition ZW_SendRequest (p : ts_param_t) (pData : list Z) (responseCmd tmo usr : Z) (cb : option Z) : RM bool :=
  match cb with
  | None => mret false
  | Some f =>
      w ← get;
      match first_free (counts w) with
      | None => mret false
      | Some i =>
          modify (set_counts (alter (Z.add 1) i (counts w)));;
          modify (fun w => set_reqs_list (list_add i (reqs_list w)) w);;
          c ← rd pData 0;
          mod_req i (fun s => mkReq (ts_param_make_reply h (MyNodeID w) (param s) p) REQ_SENDING c responseCmd tmo usr (Some f) (timer s) (clock w));;
          ok ← next_accept;
          if ok : bool then emit (Sent p pData i);; mret true
          else remove i;; free i;; mret false
      end
  end.

End Host.

(** The loop stops after the first request it aborts, since the pointer to the next one is cleared when
    a request is taken from the list. *)
Fixpoint abort_loop (n : Z) (l : list nat) : RM unit :=
  match l with
  | [] => mret tt
  | i :: l =>
      s ← get_req i;
      if bool_decide (state s = REQ_WAITING) && (snode (param s) =? n) then
        mod_req i (fun s => set_timer None (set_state REQ_DONE s));;
        remove i;;
        free i;;
        match callback s with
        | Some f => emit (Answer f (user s) TRANSMIT_COMPLETE_FAIL 0 None false)
        | None => fail OutOfBounds
        end
      else abort_loop n l
  end.

Definition ZW_Abort_SendRequest (n : Z) : RM unit :=
  w ← get;
  abort_loop (u8 n) (reqs_list w).

(** The request is answered; true if the command was taken. *)
Definition answered (i : nat) (p : ts_param_t) (pCmd : list Z) : RM unit :=
  mod_req i (fun s => set_timer None (set_state REQ_DONE s));;
  remove i;;
  s ← get_req i;
  match callback s with
  | None => fail OutOfBounds
  | Some f =>
      more ← next_answer;
      emit (Answer f (user s) TRANSMIT_COMPLETE_OK (rx_flags p) (Some pCmd) more);;
      if more : bool then
        mod_req i (fun s => set_timer (Some (timeout s * 10)) (set_state REQ_WAITING s));;
        modify (fun w => set_reqs_list (list_add i (reqs_list w)) w)
      else free i
  end.

Fixpoint handler_loop (p : ts_param_t) (pCmd : list Z) (l : list nat) : RM bool :=
  match l with
  | [] => mret false
  | i :: l =>
      s ← get_req i;
      ok ← (if bool_decide (state s = REQ_WAITING) && ts_param_cmp (param s) p then
              c0 ← rd pCmd 0;
              if class s =? c0 then c1 ← rd pCmd 1; mret (cmd s =? c1) else mret false
            else mret false);
      if ok : bool then
        if negb (scheme (param s) =? scheme p) then handler_loop p pCmd l
        else answered i p pCmd;; mret true
      else handler_loop p pCmd l
  end.

Definition SendRequest_ApplicationCommandHandler (p : ts_param_t) (pCmd : list Z) : RM bool :=
  w ← get;
  handler_loop p pCmd (reqs_list w).

Definition zero_req : send_request_state_t :=
  mkReq (mkParam 0 0 0 0 0 0 0 [] false false false 0) REQ_SENDING 0 0 0 0 None None 0.

Definition ZW_SendRequest_init : RM unit :=
  modify (fun w => set_reqs_list [] (set_mem ((fun _ => zero_req) <$> mem w) (set_counts ((fun _ => 0) <$> counts w) w))).

Definition statics (me : Z) : SR := mkSR (replicate NUM_REQS 0) (replicate NUM_REQS zero_req) [] me 0 [] [] [].

End SendRequest.
