(* ===== verification/SendRequestSpec.v ===== *)
(** * What requests guarantee

    Every request that was accepted is ended once: answered by the node it was sent to, with the
    scheme it was sent with, or told that there is no answer. *)
From S2P Require Import Prelude Effects Pool SendQueue SendRequest.
Import Effects Pool SendRequest.

Module SendRequestSpec.

Ltac sr_simpl := cbn [param state class cmd timeout user callback timer round_trip_start set_param set_state set_timer
  counts mem reqs_list MyNodeID clock accepts answers outs set_counts set_mem set_reqs_list set_clock set_accepts set_answers set_outs]; cbv beta.

Section Steps.
Context {B : Type} (k : unit -> RM B) (Q : B -> SR -> Prop) (R : unit -> SR -> Prop) (w : SR).
Lemma step_sr_emit o : wp (k tt) Q (set_outs (o :: outs w) w) -> wp (emit o ≫= k) Q w.
Proof. done. Qed.
Lemma end_sr_emit o : R tt (set_outs (o :: outs w) w) -> wp (emit o) R w.
Proof. done. Qed.
Lemma step_mod_req i f : wp (k tt) Q (set_mem (alter f i (mem w)) w) -> wp (mod_req i f ≫= k) Q w.
Proof. done. Qed.
Lemma end_mod_req i f : R tt (set_mem (alter f i (mem w)) w) -> wp (mod_req i f) R w.
Proof. done. Qed.
Lemma step_remove i : wp (k tt) Q (set_reqs_list (list_remove i (reqs_list w)) w) -> wp (remove i ≫= k) Q w.
Proof. done. Qed.
Lemma step_free i : wp (k tt) Q (set_counts (alter count_free i (counts w)) w) -> wp (free i ≫= k) Q w.
Proof. done. Qed.
Lemma end_free i : R tt (set_counts (alter count_free i (counts w)) w) -> wp (free i) R w.
Proof. done. Qed.
End Steps.

Ltac sr_step :=
  lazymatch goal with
  | |- wp (mbind _ get) _ _ => apply step_get
  | |- wp (mbind _ (modify _)) _ _ => apply step_modify
  | |- wp (mbind _ (mret _)) _ _ => apply step_ret
  | |- wp (mbind _ (emit _)) _ _ => apply step_sr_emit
  | |- wp (mbind _ (mod_req _ _)) _ _ => apply step_mod_req
  | |- wp (mbind _ (remove _)) _ _ => apply step_remove
  | |- wp (mbind _ (free _)) _ _ => apply step_free
  | |- wp (mret _) _ _ => apply end_ret
  | |- wp (modify _) _ _ => apply end_modify
  | |- wp (emit _) _ _ => apply end_sr_emit
  | |- wp (mod_req _ _) _ _ => apply end_mod_req
  | |- wp (free _) _ _ => apply end_free
  end; cbv beta zeta.
Ltac sr := cbv beta iota; sr_simpl; repeat (sr_step; sr_simpl; cbv iota).

Abbreviation req := (block zero_req).

(** The requests on the list are those of the pool in use; they have a callback and are not done; only
    a request that waits has a timer. *)
Record Inv (w : SR) : Prop := {
  inv_mem : length (mem w) = NUM_REQS;
  inv_pool : pool_ok NUM_REQS (counts w) (reqs_list w);
  inv_req i : i ∈ reqs_list w -> is_Some (callback (req (mem w) i)) /\ state (req (mem w) i) <> REQ_DONE;
  inv_timer i : timer (req (mem w) i) <> None -> i ∈ reqs_list w /\ state (req (mem w) i) = REQ_WAITING
}.

(** The requests that have ended, and those that have not. *)
Definition ended_of (o : out) : option (Z * Z) := match o with Answer f u _ _ _ false => Some (f, u) | _ => None end.
Definition ended (w : SR) : list (Z * Z) := omap ended_of (outs w).
Definition who (s : send_request_state_t) : option (Z * Z) := (fun f => (f, user s)) <$> callback s.
Definition pending (w : SR) : list (Z * Z) := omap (fun i => who (req (mem w) i)) (reqs_list w).
Definition requests (w : SR) : list (Z * Z) := ended w ++ pending w.

Definition keeps (w w' : SR) : Prop := Inv w' /\ requests w' ≡ₚ requests w.

Lemma sr_keeps_trans w w1 w2 : keeps w w1 -> keeps w1 w2 -> keeps w w2.
Proof. intros [_ H] [H1 H2]. split; [done|]. by rewrite H2. Qed.

Lemma wp_get_req i Q w : (i < length (mem w))%nat -> Q (req (mem w) i) w -> wp (get_req i) Q w.
Proof.
  intros Hi HQ. unfold get_req. apply step_get. destruct (lookup_lt_is_Some_2 _ _ Hi) as [s Hs].
  eapply wp_rd; [rewrite Nat2Z.id; exact Hs|]. unfold block in HQ. by rewrite Hs in HQ.
Qed.

Lemma listed_lt w i : Inv w -> i ∈ reqs_list w -> (i < length (mem w))%nat.
Proof. intros HI Hi. rewrite (inv_mem w HI). by apply (pool_lt _ _ _ (inv_pool w HI)). Qed.

Lemma pending_same (l : list nat) (m m' : list send_request_state_t) : (forall i, i ∈ l -> who (req m' i) = who (req m i)) ->
  omap (fun i => who (req m' i)) l = omap (fun i => who (req m i)) l.
Proof. induction l as [|i l IH]; intros H; [done|]. cbn. rewrite (H i) by left. rewrite IH; [done|]. intros j Hj. apply H. by right. Qed.

(** A request leaves the list and the pool. *)
Lemma release_req w w' i s' : Inv w -> i ∈ reqs_list w -> reqs_list w' = list_remove i (reqs_list w) ->
  counts w' = alter count_free i (counts w) -> mem w' = <[i := s']> (mem w) -> timer s' = None ->
  Inv w' /\ pending w ≡ₚ option_list (who (req (mem w) i)) ++ pending w'.
Proof.
  intros [H1 H2 H3 H4] Hi E1 E2 E3 Ht. pose proof (list_remove_perm i _ Hi) as Hr. rewrite <- E1 in Hr. rewrite Hr in H2.
  pose proof (pool_nodup _ _ _ H2) as Hn. apply list.NoDup_cons in Hn as [Hn _].
  assert (Hlt : (i < length (mem w))%nat) by (rewrite H1; apply (pool_lt _ _ _ H2); left).
  assert (Hs : forall j, j ∈ reqs_list w' -> req (mem w') j = req (mem w) j) by (intros j Hj; rewrite E3; apply block_insert_ne; by intros ->).
  split; [split|].
  - by rewrite E3, length_insert.
  - rewrite E2. by apply pool_free.
  - intros j Hj. rewrite Hs by done. apply H3. rewrite Hr. by right.
  - intros j. rewrite E3. destruct (decide (i = j)) as [<-|Hij]; [by rewrite block_insert_eq|]. rewrite block_insert_ne by done.
    intros [Hj Hst]%H4. split; [|done]. rewrite Hr in Hj. by apply elem_of_cons in Hj as [?|?].
  - unfold pending. rewrite Hr. cbn [omap list_omap]. rewrite (pending_same _ (mem w) (mem w')) by (intros j Hj; by rewrite Hs). by destruct (who _).
Qed.

(** A request is taken. *)
Lemma take_req w w' i s' f : Inv w -> first_free (counts w) = Some i -> reqs_list w' = reqs_list w ++ [i] -> counts w' = alter (Z.add 1) i (counts w) ->
  mem w' = <[i := s']> (mem w) -> callback s' = Some f -> state s' = REQ_SENDING -> timer s' = None ->
  Inv w' /\ pending w' ≡ₚ (f, user s') :: pending w.
Proof.
  intros [H1 H2 H3 H4] Hf E1 E2 E3 Hc Hst Ht. destruct (pool_alloc _ _ _ _ H2 Hf) as (Hn & Hi & Hp). rewrite <- H1 in Hi.
  assert (Hr : reqs_list w' ≡ₚ i :: reqs_list w) by (rewrite E1; symmetry; apply Permutation_cons_append).
  assert (Hs : forall j, j <> i -> req (mem w') j = req (mem w) j) by (intros j Hj; rewrite E3; by apply block_insert_ne).
  assert (Hsi : req (mem w') i = s') by (rewrite E3; by apply block_insert_eq).
  split; [split|].
  - by rewrite E3, length_insert.
  - by rewrite E2, Hr.
  - intros j. rewrite Hr, elem_of_cons. destruct (decide (j = i)) as [->|Hj]; [rewrite Hsi, Hc, Hst; done|]. intros [?|Hj']; [done|]. rewrite Hs by done. by apply H3.
  - intros j. rewrite Hr, elem_of_cons. destruct (decide (j = i)) as [->|Hj]; [by rewrite Hsi, Ht|]. rewrite Hs by done. intros [? ?]%H4. auto.
  - unfold pending. rewrite Hr. cbn [omap list_omap]. rewrite Hsi. unfold who at 1. rewrite Hc. cbn.
    rewrite (pending_same _ (mem w)); [done|]. intros j Hj. rewrite Hs; [done|]. by intros ->.
Qed.

(** A request changes but its callback. *)
Lemma update_req w w' i s' : Inv w -> i ∈ reqs_list w -> mem w' = <[i := s']> (mem w) -> who s' = who (req (mem w) i) -> state s' <> REQ_DONE -> (timer s' <> None -> state s' = REQ_WAITING) ->
  reqs_list w' ≡ₚ reqs_list w -> counts w' = counts w -> ended w' = ended w -> keeps w w'.
Proof.
  intros HI Hi E3 Hw Hst Ht E1 E2 E4. pose proof HI as [H1 H2 H3 H4]. pose proof (listed_lt w i HI Hi) as Hlt.
  assert (Hs : forall j, j <> i -> req (mem w') j = req (mem w) j) by (intros j Hj; rewrite E3; by apply block_insert_ne).
  assert (Hsi : req (mem w') i = s') by (rewrite E3; by apply block_insert_eq).
  split; [split|].
  - by rewrite E3, length_insert.
  - by rewrite E2, E1.
  - intros j. rewrite E1. intros Hj. destruct (decide (j = i)) as [->|Hji]; [rewrite Hsi|rewrite Hs by done; by apply H3]. split; [|done].
    destruct (H3 i Hi) as [[f Hf] _]. unfold who in Hw. rewrite Hf in Hw. by destruct (callback s').
  - intros j. rewrite E1. destruct (decide (j = i)) as [->|Hji]; [rewrite Hsi; auto|]. rewrite Hs by done. apply H4.
  - unfold requests. rewrite E4. f_equiv. unfold pending. rewrite E1. rewrite (pending_same _ (mem w)); [done|].
    intros j Hj. destruct (decide (j = i)) as [->|Hji]; [by rewrite Hsi|by rewrite Hs].
Qed.

(** ** The operations *)

Lemma sr_keeps_same w w' : Inv w -> mem w' = mem w -> counts w' = counts w -> reqs_list w' = reqs_list w -> ended w' = ended w -> keeps w w'.
Proof.
  intros [H1 H2 H3 H4] E1 E2 E3 E4. split; [split; by rewrite ?E1, ?E2, ?E3|]. unfold requests, pending. by rewrite E1, E3, E4.
Qed.

(** The last call of a callback. *)
Lemma last_answer f u tx rx c w w1 : Inv w1 -> pending w ≡ₚ (f, u) :: pending w1 -> outs w1 = outs w ->
  keeps w (set_outs (Answer f u tx rx c false :: outs w1) w1).
Proof.
  intros HI Hp Ho. destruct (sr_keeps_same w1 (set_outs (outs w1) w1) HI) as [HI' _]; [done..|]. split; [by destruct HI'; split|].
  unfold requests, ended. cbn. rewrite Ho. unfold pending at 1. cbn. fold (pending w1). rewrite Hp. apply Permutation_middle.
Qed.

Lemma request_timeout_ok i w : Inv w -> i ∈ reqs_list w -> wp (request_timeout i) (fun _ => keeps w) w.
Proof.
  intros HI Hi. pose proof (listed_lt w i HI Hi) as Hlt. destruct (inv_req w HI i Hi) as [[f Hf] _]. unfold request_timeout. sr.
  rewrite (alter_block zero_req) by done. apply wp_bind, wp_get_req; sr_simpl; [by rewrite length_insert|]. rewrite block_insert_eq by done. sr_simpl.
  cbn [set_timer set_state set_param callback user]. rewrite Hf. sr.
  match goal with |- keeps w ?w2 => edestruct (release_req w (set_outs (outs w) w2) i) as [HI' Hp]; [done|done|done|done|done|done|] end.
  unfold who in Hp. rewrite Hf in Hp. by apply (last_answer _ _ _ _ _ w (set_outs (outs w) _) HI').
Qed.

Lemma Callback_ok st i w : Inv w -> i ∈ reqs_list w -> wp (ZW_SendRequest_Callback st i) (fun _ => keeps w) w.
Proof.
  intros HI Hi. pose proof (listed_lt w i HI Hi) as Hlt. unfold ZW_SendRequest_Callback. apply wp_bind, wp_get_req; [done|]. sr.
  destruct (_ && _); [|by apply request_timeout_ok]. sr. rewrite (alter_block zero_req) by done. by eapply (update_req w _ i).
Qed.

Lemma abort_loop_ok n l : forall w, Inv w -> (forall i, i ∈ l -> i ∈ reqs_list w) -> wp (abort_loop n l) (fun _ => keeps w) w.
Proof.
  induction l as [|i l IH]; intros w HI Hl; cbn [abort_loop]; [by apply end_ret|]. assert (Hi : i ∈ reqs_list w) by (apply Hl; left).
  pose proof (listed_lt w i HI Hi) as Hlt. destruct (inv_req w HI i Hi) as [[f Hf] _]. apply wp_bind, wp_get_req; [done|].
  destruct (_ && _); [|apply IH; [done|]; intros j Hj; apply Hl; by right]. sr. rewrite (alter_block zero_req), Hf by done. sr.
  match goal with |- keeps w ?w2 => edestruct (release_req w (set_outs (outs w) w2) i) as [HI' Hp]; [done|done|done|done|done|done|] end.
  unfold who in Hp. rewrite Hf in Hp. by apply (last_answer _ _ _ _ _ w (set_outs (outs w) _) HI').
Qed.

Lemma Abort_SendRequest_ok n w : Inv w -> wp (ZW_Abort_SendRequest n) (fun _ => keeps w) w.
Proof. intros HI. unfold ZW_Abort_SendRequest. sr. by apply abort_loop_ok. Qed.

(** What was the answer to a request. *)
Lemma answered_keeps i p c w : Inv w -> i ∈ reqs_list w -> wp (answered i p c) (fun _ => keeps w) w.
Proof.
  intros HI Hi. pose proof (listed_lt w i HI Hi) as Hlt. destruct (inv_req w HI i Hi) as [[f Hf] _]. unfold answered. sr.
  rewrite (alter_block zero_req) by done. apply wp_bind, wp_get_req; sr_simpl; [by rewrite length_insert|]. rewrite block_insert_eq by done.
  cbn [set_timer set_state callback user]. rewrite Hf. apply wp_bind. set (w1 := set_reqs_list _ _).
  eapply (wp_mono _ (fun _ w2 => (counts w2, mem w2, reqs_list w2, outs w2) = (counts w1, mem w1, reqs_list w1, outs w1))).
  { unfold next_answer, wp. by destruct (answers w1). }
  intros [|] w2 [= E1 E2 E3 E4]; sr.
  - rewrite E2, (alter_block zero_req) by (unfold w1; sr_simpl; by rewrite length_insert). unfold w1. sr_simpl.
    rewrite block_insert_eq, list_insert_insert_eq, E3 by done. sr_simpl. eapply (update_req w _ i); try done; sr_simpl.
    + unfold list_add. rewrite list_remove_none; [rewrite (list_remove_perm i (reqs_list w) Hi) at 2; symmetry; apply Permutation_cons_append|].
      pose proof (pool_nodup _ _ _ (inv_pool w HI)) as Hn. rewrite (list_remove_perm i _ Hi) in Hn. by apply list.NoDup_cons in Hn as [Hn _].
    + unfold ended. cbn. by rewrite E4.
  - edestruct (release_req w (set_counts (alter count_free i (counts w2)) w2) i (set_timer None (set_state REQ_DONE (req (mem w) i)))) as [HI' Hp];
      [done|done|by cbn; rewrite E3|by cbn; rewrite E1|by cbn; rewrite E2|done|].
    unfold who in Hp. rewrite Hf in Hp. by apply (last_answer _ _ _ _ _ w (set_counts _ w2) HI').
Qed.

(** The request a command answers: waiting, from the node, endpoints and with the command expected,
    and with the scheme of the request. *)
Definition answers_to (s : send_request_state_t) (p : SendQueue.ts_param_t) (c : list Z) : Prop :=
  state s = REQ_WAITING /\ SendQueue.ts_param_cmp (param s) p = true /\ class s = at_ c 0 /\ cmd s = at_ c 1 /\
  SendQueue.scheme (param s) = SendQueue.scheme p.

Lemma handler_loop_spec p c l : forall w, Inv w -> (forall i, i ∈ l -> i ∈ reqs_list w) -> (2 <= length c)%nat ->
  forall Q : bool -> SR -> Prop, (forall i, i ∈ l -> answers_to (req (mem w) i) p c -> wp (answered i p c;; mret true) Q w) ->
  ((forall i, i ∈ l -> ~ answers_to (req (mem w) i) p c) -> Q false w) -> wp (handler_loop p c l) Q w.
Proof.
  induction l as [|i l IH]; intros w HI Hl Hc Q Ha Hq; cbn [handler_loop]; [apply end_ret, Hq; by intros j ?%elem_of_nil|].
  assert (IH' : ~ answers_to (req (mem w) i) p c -> wp (handler_loop p c l) Q w).
  { intros Hi. apply IH; [done| |done| |]; [intros j Hj; apply Hl; by right|intros j Hj; apply Ha; by right|].
    intros Hn. apply Hq. intros j [->|Hj]%elem_of_cons; auto. }
  apply wp_bind, wp_get_req; [apply listed_lt, Hl; [done|left]|]. specialize (Ha i ltac:(left)). unfold answers_to in *. set (s := req (mem w) i) in *.
  assert (Hrd : forall k, (k < 2)%nat -> c !! k = Some (at_ c k)).
  { intros k Hk. destruct (lookup_lt_is_Some_2 c k) as [x Hx]; [lia|]. unfold at_. by rewrite Hx. }
  destruct (bool_decide_reflect (state s = REQ_WAITING)) as [Hst|Hst]; cbn [andb]; [|by sr; apply IH'; intros [? _]].
  destruct (SendQueue.ts_param_cmp (param s) p); [|by sr; apply IH'; intros (_ & ? & _)]. apply wp_bind, wp_bind, (wp_rd _ _ (at_ c 0)); [apply Hrd; lia|].
  destruct (Z.eqb_spec (class s) (at_ c 0)) as [E0|]; [|by sr; apply IH'; intros (_ & _ & ? & _)]. apply wp_bind, (wp_rd _ _ (at_ c 1)); [apply Hrd; lia|]. sr.
  destruct (Z.eqb_spec (cmd s) (at_ c 1)) as [E1|]; [|apply IH'; by intros (_ & _ & _ & ? & _)].
  destruct (Z.eqb_spec (SendQueue.scheme (param s)) (SendQueue.scheme p)); cbn [negb]; [|apply IH'; by intros (_ & _ & _ & _ & ?)]. by apply Ha.
Qed.

Lemma handler_ok p c w : Inv w -> (2 <= length c)%nat -> wp (SendRequest_ApplicationCommandHandler p c) (fun _ => keeps w) w.
Proof.
  intros HI Hc. unfold SendRequest_ApplicationCommandHandler. sr. apply handler_loop_spec; try done. intros i Hi _.
  apply wp_bind. eapply wp_mono; [by apply answered_keeps|]. intros [] w' HK. by apply end_ret.
Qed.

Lemma answered_exact i p c w f : (i < length (mem w))%nat -> callback (req (mem w) i) = Some f ->
  wp (answered i p c) (fun _ w' => exists more, outs w' = Answer f (user (req (mem w) i)) SendQueue.TRANSMIT_COMPLETE_OK (SendQueue.rx_flags p) (Some c) more :: outs w) w.
Proof.
  intros Hlt Hf. unfold answered. sr. rewrite (alter_block zero_req) by done. apply wp_bind, wp_get_req; sr_simpl; [by rewrite length_insert|].
  rewrite block_insert_eq by done. cbn [set_timer set_state callback user]. rewrite Hf. apply wp_bind. unfold next_answer, wp at 1. sr_simpl.
  destruct (answers w) as [|[|] l]; sr; by eexists.
Qed.

Section Host.
Context (h : SendQueue.Host).

Lemma SendRequest_ok p d rc tmo u f w : Inv w -> d <> [] ->
  wp (ZW_SendRequest h p d rc tmo u (Some f)) (fun r w' => Inv w' /\ requests w' ≡ₚ (if r then [(f, u)] else []) ++ requests w) w.
Proof.
  intros HI Hd. unfold ZW_SendRequest. sr. destruct (first_free (counts w)) as [i|] eqn:Ef; [|by apply end_ret]. sr.
  destruct (pool_alloc _ _ _ _ (inv_pool w HI) Ef) as (Hn & Hi & _). rewrite <- (inv_mem w HI) in Hi. destruct d as [|c d]; [done|].
  apply wp_bind, (wp_rd _ _ c); [done|]. sr. rewrite (alter_block zero_req) by done. unfold list_add. rewrite list_remove_none by done.
  assert (Ht : timer (req (mem w) i) = None).
  { destruct (timer _) eqn:Et; [|done]. exfalso. apply Hn, (inv_timer w HI). by rewrite Et. }
  apply wp_bind. set (w1 := set_mem _ _). edestruct (take_req w w1 i) as [HI1 Hp1]; [done|done|done|done|done|done|done|done|].
  eapply (wp_mono _ (fun _ w2 => (counts w2, mem w2, reqs_list w2, outs w2) = (counts w1, mem w1, reqs_list w1, outs w1))).
  { unfold next_accept, wp. by destruct (accepts w1). }
  intros [|] w2 [= E1 E2 E3 E4]; destruct (sr_keeps_same w1 w2 HI1) as [HI2 Hr2]; try done; try (unfold ended; by rewrite E4); sr.
  - destruct (sr_keeps_same w2 (set_outs (Sent p (c :: d) i :: outs w2) w2) HI2) as [HI3 Hr3]; [done..|]. split; [done|]. rewrite Hr3, Hr2.
    unfold requests. rewrite Hp1. symmetry. exact (Permutation_middle (ended w) (pending w) (f, u)).
  - edestruct (release_req w2 (set_counts (alter count_free i (counts w2)) (set_reqs_list (list_remove i (reqs_list w2)) w2)) i (req (mem w2) i)) as [HI3 Hp3];
      [done|rewrite E3; apply elem_of_app; right; left|done|done|sr_simpl; symmetry; apply insert_block; sr_simpl; by rewrite E2, length_insert|rewrite E2; by rewrite block_insert_eq|].
    split; [done|]. cbn [app]. unfold requests, ended. cbn. rewrite E4. f_equiv. assert (Hw : who (req (mem w2) i) = Some (f, u)) by (rewrite E2; by rewrite block_insert_eq).
    rewrite Hw in Hp3. apply (Permutation_cons_inv (a := (f, u))). etrans; [symmetry; exact Hp3|]. etrans; [|exact Hp1]. unfold pending. by rewrite E2, E3.
Qed.

(** ** Runs *)

(** Requests are made and aborted, commands are sent (the send queue calls back once for each it took),
    timers expire, commands are received, time passes. *)
Inductive rop :=
| RqSend (p : SendQueue.ts_param_t) (d : list Z) (responseCmd tmo f u : Z)
| RqSent (status : Z) (i : nat)
| RqTimeout (i : nat)
| RqCommand (p : SendQueue.ts_param_t) (c : list Z)
| RqAbort (n : Z)
| RqTime (t : Z).

Definition rexec (o : rop) : RM (list (Z * Z)) :=
  match o with
  | RqSend p d rc tmo f u => r ← ZW_SendRequest h p d rc tmo u (Some f); mret (if r : bool then [(f, u)] else [])
  | RqSent st i => ZW_SendRequest_Callback st i;; mret []
  | RqTimeout i => request_timeout i;; mret []
  | RqCommand p c => SendRequest_ApplicationCommandHandler p c;; mret []
  | RqAbort n => ZW_Abort_SendRequest n;; mret []
  | RqTime t => modify (set_clock t);; mret []
  end.

Definition rallowed (w : SR) (o : rop) : bool :=
  match o with
  | RqSend _ d _ _ _ _ => negb (bool_decide (d = []))
  | RqSent _ i => bool_decide (i ∈ reqs_list w) && bool_decide (state (req (mem w) i) = REQ_SENDING)
  | RqTimeout i => bool_decide (timer (req (mem w) i) <> None)
  | RqCommand _ c => Nat.leb 2 (length c)
  | _ => true
  end.

Fixpoint rrun (ops : list rop) (w : SR) : res (list (Z * Z) * SR) :=
  match ops with
  | [] => Ok ([], w)
  | o :: ops =>
      if rallowed w o then
        match rexec o w with
        | Ok (acc, w') => match rrun ops w' with Ok (accs, w'') => Ok (acc ++ accs, w'') | Fault e => Fault e end
        | Fault e => Fault e
        end
      else rrun ops w
  end.

Lemma sr_keeps_none {A} (m : RM A) w : wp m (fun _ => keeps w) w -> wp (m;; mret []) (fun acc w' => Inv w' /\ requests w' ≡ₚ acc ++ requests w) w.
Proof. intros H. apply wp_bind. eapply wp_mono; [exact H|]. by intros _ w' [HI Hc]. Qed.

Lemma rexec_ok o w : Inv w -> rallowed w o = true -> wp (rexec o) (fun acc w' => Inv w' /\ requests w' ≡ₚ acc ++ requests w) w.
Proof.
  intros HI Ha. destruct o; cbn [rexec rallowed] in *.
  - apply wp_bind. apply negb_true_iff, bool_decide_eq_false in Ha. eapply wp_mono; [by apply SendRequest_ok|]. intros r w' H. by apply end_ret.
  - apply andb_prop in Ha as [Hi%bool_decide_eq_true _]. by apply sr_keeps_none, Callback_ok.
  - apply bool_decide_eq_true in Ha. apply sr_keeps_none, request_timeout_ok; [done|]. by apply (inv_timer w HI).
  - apply Nat.leb_le in Ha. by apply sr_keeps_none, handler_ok.
  - by apply sr_keeps_none, Abort_SendRequest_ok.
  - apply sr_keeps_none. sr. by apply sr_keeps_same.
Qed.

Lemma sr_statics_ok me a b : Inv (set_accepts a (set_answers b (statics me))).
Proof.
  split; cbn; try done.
  - split; [done|constructor|by intros i ?%elem_of_nil|]. intros i x [-> _]%(lookup_replicate_1 4 0 x i). done.
  - by intros i ?%elem_of_nil.
  - intros i. change [zero_req; zero_req; zero_req; zero_req] with (replicate 4 zero_req). by rewrite block_replicate.
Qed.

Lemma rrun_ok ops : forall w, Inv w -> exists acc w', rrun ops w = Ok (acc, w') /\ Inv w' /\ requests w' ≡ₚ acc ++ requests w.
Proof.
  induction ops as [|o ops IH]; intros w HI; cbn [rrun]; [by exists [], w|]. destruct (rallowed w o) eqn:Ha; [|by apply IH].
  destruct (wp_run _ _ _ (rexec_ok o w HI Ha)) as (acc & w1 & -> & HI1 & Hc). destruct (IH w1 HI1) as (accs & w2 & -> & HI2 & Hc2).
  exists (acc ++ accs), w2. do 2 (split; [done|]). rewrite Hc2, Hc. by rewrite !app_assoc, (Permutation_app_comm accs acc).
Qed.

(** C22: Whatever is requested, received, aborted, and whenever commands are sent and timers expire, no
    run faults, and every accepted request is ended once: the requests whose callback was called
    for the last time and those that still wait are, as multisets, the accepted ones. *)
Theorem requests_ended_once me a b ops : exists acc w, rrun ops (set_accepts a (set_answers b (statics me))) = Ok (acc, w) /\
  Inv w /\ ended w ++ pending w ≡ₚ acc.
Proof.
  destruct (rrun_ok ops _ (sr_statics_ok me a b)) as (acc & w & E & HI & Hc). exists acc, w. split; [done|]. split; [done|]. by rewrite app_nil_r in Hc.
Qed.

End Host.

(** A received command ends or continues a request exactly when one is waiting for it: sent to the node and
    endpoint the command comes from, for this command of this class, and with the scheme it was
    received with; the callback of that request is then called with it.  Any other command is left
    to the rest of the gateway, and changes nothing. *)
Theorem answer_matches_request p c w : Inv w -> (2 <= length c)%nat ->
  exists r w', SendRequest_ApplicationCommandHandler p c w = Ok (r, w') /\
    if r : bool then exists i f more, i ∈ reqs_list w /\ answers_to (req (mem w) i) p c /\ callback (req (mem w) i) = Some f /\
      outs w' = Answer f (user (req (mem w) i)) SendQueue.TRANSMIT_COMPLETE_OK (SendQueue.rx_flags p) (Some c) more :: outs w
    else w' = w /\ forall i, i ∈ reqs_list w -> ~ answers_to (req (mem w) i) p c.
Proof.
  intros HI Hc. apply wp_run. unfold SendRequest_ApplicationCommandHandler. sr. apply handler_loop_spec; [done..| |done].
  intros i Hi Ha. destruct (inv_req w HI i Hi) as [[f Hf] _]. apply wp_bind. eapply wp_mono; [by apply (answered_exact i p c w f), Hf; apply listed_lt|].
  intros [] w' [more Ho]. apply end_ret. by exists i, f, more.
Qed.

(** ** A request and its answer *)

(** The send queue and the radio take the command, and the node answers. *)
Definition exchange (h : SendQueue.Host) (p : SendQueue.ts_param_t) (d : list Z) (rc tmo u f : Z) (p' : SendQueue.ts_param_t) (c : list Z) : RM (bool * bool) :=
  ok ← ZW_SendRequest h p d rc tmo u (Some f);
  ZW_SendRequest_Callback SendQueue.TRANSMIT_COMPLETE_OK 0;;
  r ← SendRequest_ApplicationCommandHandler p' c;
  mret (ok, r).

(** A request whose command is sent and answered by the node, from the endpoint and with the scheme it was
    sent with, calls its callback with the answer; the request is then over. *)
Theorem request_gets_answer h me p d rc tmo u f p' c : d <> [] -> (2 <= length c)%nat -> at_ c 0 = at_ d 0 -> at_ c 1 = rc ->
  SendQueue.snode p' = SendQueue.dnode p -> SendQueue.dnode p' = SendQueue.snode p ->
  SendQueue.sendpoint p' = SendQueue.dendpoint p -> SendQueue.dendpoint p' = SendQueue.sendpoint p ->
  SendQueue.scheme p' = SendQueue.ZW_SendData_scheme_select h me p 2 ->
  exists w, exchange h p d rc tmo u f p' c (statics me) = Ok ((true, true), w) /\ reqs_list w = [] /\ counts w = replicate NUM_REQS 0 /\
    outs w = [Answer f u SendQueue.TRANSMIT_COMPLETE_OK (SendQueue.rx_flags p') (Some c) false; Sent p d 0].
Proof.
  intros Hd Hc H0 H1 E1 E2 E3 E4 E5. destruct d as [|d0 d]; [done|]. destruct c as [|c0 [|c1 c]]; [cbn in Hc; lia..|]. cbn in H0, H1. subst c0 c1.
  set (pr := SendQueue.ts_param_make_reply h me (param zero_req) p).
  set (in_state st t := mkSR [1; 0; 0; 0] [mkReq pr st d0 rc tmo u (Some f) t 0; zero_req; zero_req; zero_req] [0%nat] me 0 [] [] [Sent p (d0 :: d) 0]).
  assert (Hp : SendQueue.ts_param_cmp pr p' = true /\ SendQueue.scheme pr = SendQueue.scheme p').
  { unfold SendQueue.ts_param_cmp, pr. cbn. by rewrite E1, E2, E3, E4, E5, !Z.eqb_refl. }
  set (waiting := in_state REQ_WAITING (Some (tmo * 10 + 260))).
  assert (Hh : SendRequest_ApplicationCommandHandler p' (d0 :: rc :: c) waiting =
    Ok (true, mkSR [0; 0; 0; 0] [mkReq pr REQ_DONE d0 rc tmo u (Some f) None 0; zero_req; zero_req; zero_req] [] me 0 [] []
      [Answer f u SendQueue.TRANSMIT_COMPLETE_OK (SendQueue.rx_flags p') (Some (d0 :: rc :: c)) false; Sent p (d0 :: d) 0])).
  { unfold SendRequest_ApplicationCommandHandler. rewrite (tm_bind_ok get _ waiting waiting waiting eq_refl). change (reqs_list waiting) with [0%nat]. cbn [handler_loop].
    rewrite (tm_bind_ok (get_req 0) _ waiting (mkReq pr REQ_WAITING d0 rc tmo u (Some f) (Some (tmo * 10 + 260)) 0) waiting eq_refl).
    cbn [state param class cmd]. rewrite bool_decide_true, (proj1 Hp) by done. cbn [andb].
    rewrite (tm_bind_ok _ _ _ true waiting).
    - by rewrite (proj2 Hp), Z.eqb_refl.
    - rewrite (tm_bind_ok (rd (d0 :: rc :: c) 0) _ waiting d0 waiting eq_refl), Z.eqb_refl.
      rewrite (tm_bind_ok (rd (d0 :: rc :: c) 1) _ waiting rc waiting eq_refl), Z.eqb_refl. done. }
  eexists. split; [unfold exchange|].
  - rewrite (tm_bind_ok (ZW_SendRequest h p (d0 :: d) rc tmo u (Some f)) _ (statics me) true (in_state REQ_SENDING None) eq_refl).
    rewrite (tm_bind_ok (ZW_SendRequest_Callback SendQueue.TRANSMIT_COMPLETE_OK 0) _ (in_state REQ_SENDING None) tt waiting eq_refl). rewrite (tm_bind_ok _ _ _ _ _ Hh). reflexivity.
  - done.
Qed.

Definition no_security : SendQueue.Host := SendQueue.mkHost (fun _ => 0) (fun _ _ => false) (fun _ _ => false) false false.
Definition between (a b : Z) : SendQueue.ts_param_t := SendQueue.mkParam a b 0 0 0x25 0 SendQueue.NO_SCHEME [] false false false 0.

(** Witnesses. *)
Lemma request_gets_answer_witness : exists w, exchange no_security (between 1 5) [0x20; 2] 3 50 7 100 (between 5 1) [0x20; 3; 255] (statics 1) = Ok ((true, true), w) /\
  reqs_list w = [] /\ counts w = replicate NUM_REQS 0 /\
  outs w = [Answer 100 7 SendQueue.TRANSMIT_COMPLETE_OK 0 (Some [0x20; 3; 255]) false; Sent (between 1 5) [0x20; 2] 0].
Proof. apply (request_gets_answer no_security 1 (between 1 5) [0x20; 2] 3 50 7 100 (between 5 1) [0x20; 3; 255]); first [done|cbn; lia]. Defined.

Definition one_waiting : SR :=
  match rrun no_security [RqSend (between 1 5) [0x20; 2] 3 50 100 7; RqSent 0 0] (set_accepts [] (set_answers [] (statics 1))) with Ok (_, w) => w | Fault _ => statics 1 end.
Lemma one_waiting_ok : Inv one_waiting.
Proof.
  unfold one_waiting. edestruct (rrun_ok no_security) as (acc & w & E & HI & _); [apply (sr_statics_ok 1 [] [])|]. rewrite E. exact HI.
Qed.

Lemma answer_matches_request_witness : answers_to (req (mem one_waiting) 0) (between 5 1) [0x20; 3] /\
  exists r w', SendRequest_ApplicationCommandHandler (between 5 1) [0x20; 3] one_waiting = Ok (r, w') /\
  if r : bool then exists i f more, i ∈ reqs_list one_waiting /\ answers_to (req (mem one_waiting) i) (between 5 1) [0x20; 3] /\ callback (req (mem one_waiting) i) = Some f /\
      outs w' = Answer f (user (req (mem one_waiting) i)) SendQueue.TRANSMIT_COMPLETE_OK (SendQueue.rx_flags (between 5 1)) (Some [0x20; 3]) more :: outs one_waiting
    else w' = one_waiting /\ forall i, i ∈ reqs_list one_waiting -> ~ answers_to (req (mem one_waiting) i) (between 5 1) [0x20; 3].
Proof. split; [vm_compute; repeat split|]. apply (answer_matches_request (between 5 1) [0x20; 3] one_waiting); [apply one_waiting_ok|cbn; lia]. Defined.

(** ** Aborting requests *)

(** Of two requests that wait for the same node, aborting the requests of that node ends only the
    first; and aborting those of node 300 ends a request of node 44. *)
Theorem abort_ends_one_request :
  let two n := [RqSend (between 1 n) [0x20; 2] 3 50 100 1; RqSend (between 1 n) [0x25; 2] 3 50 100 2; RqSent 0 0; RqSent 0 1] in
  match rrun no_security (two 5 ++ [RqAbort 5]) (statics 1), rrun no_security (two 300 ++ [RqAbort 300]) (statics 1), rrun no_security (two 44 ++ [RqAbort 300]) (statics 1) with
  | Ok (_, w), Ok (_, w'), Ok (_, w'') => ended w = [(100, 1)] /\ pending w = [(100, 2)] /\ ended w' = [] /\ ended w'' = [(100, 1)]
  | _, _, _ => False
  end.
Proof. vm_compute. repeat split. Qed.

End SendRequestSpec.
