(* ===== verification/Analyzer.v ===== *)
(** * The kind of a command (src/analyzer/CommandAnalyzer.c)

    Commands are looked up in sorted lists of 16-bit keys by binary search.  The build generates the
    lists from the definitions of the command classes; they are parameters of the lookups, and the ones
    the repository holds are given too. *)
From stdpp Require Import sorting.
From S2P Require Import Prelude Effects.
Import Effects.

Module Analyzer.

(** The loop, on the statements of the C code: [middle] is recomputed at the end of each round. *)
Fixpoint bsearch_loop (fuel : nat) (key : Z) (sorted_list : list Z) (first last middle : Z) : res bool :=
  match fuel with
  | O => Fault OutOfFuel
  | S fuel =>
      if first <=? last then
        if middle <? 0 then Fault OutOfBounds
        else
          match sorted_list !! Z.to_nat middle with
          | None => Fault OutOfBounds
          | Some x =>
              if x <? key then let first := middle + 1 in bsearch_loop fuel key sorted_list first last (Z.quot (first + last) 2)
              else if x =? key then Ok true
              else let last := middle - 1 in bsearch_loop fuel key sorted_list first last (Z.quot (first + last) 2)
          end
      else Ok false
  end.

Definition bsearch (key : Z) (sorted_list : list Z) : res bool :=
  let first := 0 in
  let last := Z.of_nat (length sorted_list) - 1 in
  bsearch_loop (S (length sorted_list)) key sorted_list first last (Z.quot (first + last) 2).

Definition command_key (cls cmd : Z) : Z := Z.land (Z.lor (Z.shiftl cls 8) cmd) 0xFFFF.

(** The lists of the repository (src-gen/get_list.c). *)
Definition get_list : list Z :=
  [0x2002; 0x2401; 0x2403; 0x2502; 0x2602; 0x2606; 0x2702; 0x2802; 0x2902; 0x2a02; 0x2a05; 0x2a08; 0x2a0b; 0x2a0e;
   0x2a11; 0x2a14; 0x2a17; 0x2a1a; 0x2a1d; 0x2a20; 0x2a23; 0x2a26; 0x2c02; 0x2d02; 0x2e01; 0x2e03; 0x2e05; 0x2f01;
   0x2f03; 0x2f05; 0x3001; 0x3002; 0x3101; 0x3103; 0x3104; 0x3201; 0x3203; 0x3301; 0x3303; 0x3417; 0x3504; 0x3601;
   0x3701; 0x3703; 0x3802; 0x3805; 0x3809; 0x380c; 0x3902; 0x3905; 0x3908; 0x390a; 0x3a01; 0x3b01; 0x3b03; 0x3d01;
   0x3d03; 0x3d05; 0x3d07; 0x3d09; 0x3d0a; 0x3d0c; 0x3d0e; 0x3e02; 0x3f01; 0x3f03; 0x4002; 0x4004; 0x4201; 0x4202;
   0x4205; 0x4302; 0x4304; 0x4309; 0x4402; 0x4404; 0x4502; 0x4602; 0x4604; 0x4607; 0x4702; 0x4901; 0x4903; 0x4905;
   0x4907; 0x4909; 0x4b01; 0x4b03; 0x4b05; 0x4c01; 0x4c03; 0x4d08; 0x4e04; 0x4e07; 0x4e09; 0x4e0b; 0x4e0e; 0x5102;
   0x5201; 0x5203; 0x5205; 0x5207; 0x5209; 0x5301; 0x5304; 0x5308; 0x530a; 0x5901; 0x5903; 0x5905; 0x5b01; 0x5b05;
   0x5c02; 0x5d02; 0x5e01; 0x5f02; 0x5f05; 0x5f09; 0x5f0c; 0x6004; 0x6007; 0x6009; 0x600e; 0x6103; 0x6202; 0x6205;
   0x6302; 0x6304; 0x6402; 0x6404; 0x6406; 0x6408; 0x6502; 0x6504; 0x6602; 0x6604; 0x6607; 0x6702; 0x6704; 0x6707;
   0x6802; 0x6805; 0x6901; 0x6a01; 0x6a03; 0x6b01; 0x6b03; 0x6b06; 0x6b08; 0x6b0b; 0x6b0f; 0x6c01; 0x6d02; 0x6d04;
   0x6e01; 0x6f02; 0x6f04; 0x6f07; 0x7005; 0x7008; 0x700a; 0x700c; 0x700e; 0x7101; 0x7104; 0x7107; 0x7204; 0x7206;
   0x7302; 0x7305; 0x7502; 0x7504; 0x7507; 0x750a; 0x7602; 0x7702; 0x7705; 0x7803; 0x7805; 0x7901; 0x7903; 0x7906;
   0x7909; 0x7a01; 0x7a03; 0x7a05; 0x7a0a; 0x7b02; 0x7d02; 0x8002; 0x8105; 0x8405; 0x8409; 0x8502; 0x8505; 0x850b;
   0x8611; 0x8613; 0x8615; 0x8617; 0x8702; 0x8704; 0x8802; 0x8902; 0x8a01; 0x8a03; 0x8a06; 0x8b02; 0x8c02; 0x8e02;
   0x8e05; 0x9002; 0x9201; 0x9301; 0x9402; 0x9404; 0x9501; 0x9503; 0x9505; 0x9507; 0x9601; 0x9701; 0x9802; 0x9804;
   0x9840; 0x98c1; 0x9901; 0x9a02; 0x9b01; 0x9b04; 0x9c01; 0x9c03; 0x9e02; 0x9f01; 0x9f04; 0x9f09; 0x9f0d].
Definition set_list : list Z :=
  [0x0112; 0x0113; 0x0122; 0x2001; 0x2405; 0x2501; 0x2601; 0x2701; 0x2801; 0x2901; 0x2a01; 0x2a04; 0x2a07; 0x2a0a;
   0x2a0d; 0x2a10; 0x2a13; 0x2a16; 0x2a19; 0x2a1a; 0x2a1b; 0x2a1f; 0x2a22; 0x2a25; 0x2a28; 0x2b01; 0x2c01; 0x2d01;
   0x3305; 0x3412; 0x3414; 0x3416; 0x3801; 0x3804; 0x3805; 0x3806; 0x380b; 0x3811; 0x3901; 0x3904; 0x3907; 0x3a03;
   0x3c01; 0x3e01; 0x4001; 0x4301; 0x4302; 0x4303; 0x4304; 0x4305; 0x4309; 0x430a; 0x4401; 0x4601; 0x4606; 0x4701;
   0x4702; 0x4703; 0x4801; 0x4a01; 0x4a02; 0x4d01; 0x4d02; 0x4d06; 0x4d07; 0x4e01; 0x4e02; 0x4e03; 0x4e06; 0x4e0d;
   0x4e10; 0x5101; 0x5303; 0x5307; 0x5b04; 0x5c01; 0x5d01; 0x5f01; 0x5f04; 0x5f07; 0x5f08; 0x5f0b; 0x6101; 0x6201;
   0x6204; 0x6301; 0x6401; 0x6402; 0x6403; 0x6404; 0x6405; 0x6406; 0x6407; 0x6408; 0x6409; 0x6501; 0x6601; 0x6606;
   0x6701; 0x6801; 0x6804; 0x6902; 0x6a05; 0x6b05; 0x6b0a; 0x6b0e; 0x6d01; 0x6f06; 0x7004; 0x7007; 0x7106; 0x7301;
   0x7304; 0x7501; 0x7506; 0x7509; 0x7601; 0x7701; 0x7704; 0x7801; 0x7905; 0x7908; 0x7a08; 0x7b01; 0x7d01; 0x8104;
   0x8404; 0x8501; 0x8701; 0x8801; 0x8901; 0x8a05; 0x8b01; 0x8c01; 0x8e01; 0x9401; 0x9806; 0x9a01; 0x9b03; 0x9d01;
   0x9e01; 0x9f06].
Definition rep_list : list Z :=
  [0x2003; 0x2402; 0x2404; 0x2503; 0x2603; 0x2607; 0x2703; 0x2803; 0x2903; 0x2a03; 0x2a06; 0x2a09; 0x2a0c; 0x2a0f;
   0x2a12; 0x2a15; 0x2a18; 0x2a1b; 0x2a1e; 0x2a21; 0x2a24; 0x2a27; 0x2c03; 0x2d03; 0x2e02; 0x2e04; 0x2e06; 0x2f02;
   0x2f04; 0x2f06; 0x3003; 0x3004; 0x3102; 0x3105; 0x3106; 0x3202; 0x3204; 0x3302; 0x3304; 0x3411; 0x3413; 0x3415;
   0x3418; 0x3419; 0x3505; 0x3602; 0x3702; 0x3704; 0x3803; 0x3806; 0x380a; 0x380d; 0x3903; 0x3906; 0x3909; 0x390b;
   0x3a02; 0x3b02; 0x3b04; 0x3d02; 0x3d04; 0x3d06; 0x3d08; 0x3d0b; 0x3d0d; 0x3d0f; 0x3e03; 0x3f02; 0x3f04; 0x4003;
   0x4005; 0x4203; 0x4204; 0x4206; 0x4303; 0x4305; 0x430a; 0x4403; 0x4405; 0x4503; 0x4603; 0x4605; 0x4608; 0x4703;
   0x4902; 0x4904; 0x4906; 0x4908; 0x490a; 0x4b02; 0x4b04; 0x4b06; 0x4c02; 0x4c04; 0x4d09; 0x4e05; 0x4e08; 0x4e0a;
   0x4e0c; 0x4e0f; 0x5103; 0x5202; 0x5204; 0x5206; 0x5208; 0x520a; 0x5302; 0x5305; 0x5309; 0x530b; 0x5902; 0x5904;
   0x5906; 0x5b02; 0x5b06; 0x5c03; 0x5d03; 0x5e02; 0x5f03; 0x5f06; 0x5f0a; 0x5f0d; 0x6005; 0x6008; 0x600a; 0x600c;
   0x600f; 0x6104; 0x6203; 0x6206; 0x6303; 0x6305; 0x6403; 0x6405; 0x6407; 0x6409; 0x6503; 0x6505; 0x6603; 0x6605;
   0x6608; 0x6703; 0x6705; 0x6708; 0x6803; 0x6806; 0x6903; 0x6a02; 0x6a04; 0x6b02; 0x6b04; 0x6b07; 0x6b09; 0x6b0c;
   0x6b10; 0x6c02; 0x6d03; 0x6d05; 0x6e02; 0x6f03; 0x6f05; 0x6f08; 0x7006; 0x7009; 0x700b; 0x700d; 0x700f; 0x7102;
   0x7105; 0x7108; 0x7205; 0x7207; 0x7303; 0x7306; 0x7503; 0x7505; 0x7508; 0x750b; 0x7603; 0x7703; 0x7706; 0x7804;
   0x7806; 0x7902; 0x7904; 0x7907; 0x790a; 0x7a02; 0x7a04; 0x7a06; 0x7a07; 0x7a09; 0x7a0b; 0x7b03; 0x7d03; 0x8003;
   0x8106; 0x8406; 0x840a; 0x8503; 0x8506; 0x850c; 0x8612; 0x8614; 0x8616; 0x8618; 0x8703; 0x8705; 0x8803; 0x8903;
   0x8a02; 0x8a04; 0x8a07; 0x8b03; 0x8c03; 0x8e03; 0x8e06; 0x9003; 0x9202; 0x9203; 0x9302; 0x9303; 0x9403; 0x9405;
   0x9502; 0x9504; 0x9506; 0x9508; 0x9602; 0x9702; 0x9803; 0x9805; 0x9880; 0x9902; 0x9a03; 0x9b02; 0x9b05; 0x9c02;
   0x9c04; 0x9e03; 0x9f02; 0x9f05; 0x9f08; 0x9f0a; 0x9f0e].
Definition supported_list : list Z :=
  [0x2003; 0x2201; 0x2202; 0x2503; 0x2603; 0x2607; 0x2703; 0x2803; 0x2903; 0x2c03; 0x2d03; 0x3003; 0x3004; 0x3102;
   0x3105; 0x3106; 0x3202; 0x3204; 0x3302; 0x3304; 0x3505; 0x3602; 0x3702; 0x3704; 0x3903; 0x3906; 0x3909; 0x390b;
   0x3a02; 0x3b02; 0x3b04; 0x3d02; 0x3d04; 0x3d06; 0x3d08; 0x3d0b; 0x3d0d; 0x3d0f; 0x3e03; 0x3f02; 0x3f04; 0x4003;
   0x4005; 0x4203; 0x4204; 0x4206; 0x4303; 0x4305; 0x430a; 0x4403; 0x4405; 0x4503; 0x4603; 0x4605; 0x4608; 0x4703;
   0x4902; 0x4904; 0x4906; 0x4908; 0x490a; 0x4b02; 0x4b04; 0x4b06; 0x4c02; 0x4c04; 0x4e05; 0x4e08; 0x4e0a; 0x4e0c;
   0x4e0f; 0x5103; 0x5206; 0x5208; 0x520a; 0x5302; 0x5309; 0x530b; 0x5701; 0x5801; 0x5902; 0x5904; 0x5906; 0x5a01;
   0x5b02; 0x5b03; 0x5b06; 0x5d03; 0x5e02; 0x5f03; 0x5f06; 0x5f0a; 0x5f0d; 0x6008; 0x600a; 0x600c; 0x600d; 0x600f;
   0x6102; 0x6104; 0x6203; 0x6206; 0x6303; 0x6305; 0x6403; 0x6405; 0x6407; 0x6409; 0x6603; 0x6605; 0x6608; 0x6705;
   0x6803; 0x6806; 0x6903; 0x6904; 0x6905; 0x6906; 0x6a02; 0x6a04; 0x6b02; 0x6b04; 0x6b07; 0x6b09; 0x6b0c; 0x6b10;
   0x6c02; 0x6d03; 0x6d05; 0x6e02; 0x6f01; 0x6f03; 0x6f05; 0x6f08; 0x7006; 0x7009; 0x700b; 0x700d; 0x700f; 0x7102;
   0x7105; 0x7108; 0x7205; 0x7303; 0x7306; 0x7401; 0x7402; 0x7503; 0x7505; 0x7508; 0x750b; 0x7603; 0x7703; 0x7706;
   0x7902; 0x7904; 0x7907; 0x790a; 0x7a02; 0x7a04; 0x7a05; 0x7a07; 0x7a09; 0x7a0b; 0x7b03; 0x7d03; 0x8003; 0x8106;
   0x8201; 0x8406; 0x8407; 0x840a; 0x8503; 0x8506; 0x850c; 0x8612; 0x8614; 0x8616; 0x8618; 0x8703; 0x8803; 0x8903;
   0x8a02; 0x8a04; 0x8a07; 0x8b03; 0x8c03; 0x8e03; 0x8e06; 0x9003; 0x9202; 0x9203; 0x9302; 0x9303; 0x9403; 0x9405;
   0x9803; 0x9805; 0x9807; 0x9840; 0x9880; 0x9881; 0x98c1; 0x9a03; 0x9b02; 0x9b05; 0x9c02; 0x9c04; 0x9e03; 0x9f02;
   0x9f03; 0x9f05; 0x9f07; 0x9f08; 0x9f09; 0x9f0b; 0x9f0c; 0x9f0e].

(** The lookups, on the lists the build has. *)
Section Lists.
Context (gets sets reps supported : list Z).
Definition CommandAnalyzerIsGet (cls cmd : Z) : res bool := bsearch (command_key cls cmd) gets.
Definition CommandAnalyzerIsSet (cls cmd : Z) : res bool := bsearch (command_key cls cmd) sets.
Definition CommandAnalyzerIsReport (cls cmd : Z) : res bool := bsearch (command_key cls cmd) reps.
Definition CommandAnalyzerIsSupporting (cls cmd : Z) : res bool := bsearch (command_key cls cmd) supported.
End Lists.

(** ** The search *)

Definition increasing (l : list Z) : Prop := forall i j x y, (i < j)%nat -> l !! i = Some x -> l !! j = Some y -> x < y.

Fixpoint ascends (l : list Z) : bool :=
  match l with
  | x :: (y :: _) as l => (x <? y) && ascends l
  | _ => true
  end.

Lemma ascends_head x l : ascends (x :: l) = true -> forall i y, l !! i = Some y -> x < y.
Proof.
  revert x. induction l as [|z l IH]; intros x H i y Hy; [done|]. cbn [ascends] in H. apply andb_prop in H as [Hz%Z.ltb_lt H].
  destruct i as [|i]; [by injection Hy as <-|]. cbn in Hy. pose proof (IH z H i y Hy). lia.
Qed.

Lemma ascends_increasing l : ascends l = true -> increasing l.
Proof.
  induction l as [|x l IH]; intros H i j a b Hij Ha Hb; [done|]. destruct j as [|j]; [lia|]. cbn in Hb. destruct i as [|i].
  - injection Ha as <-. by apply (ascends_head x l H j).
  - cbn in Ha. apply (IH ltac:(destruct l; [done|]; by apply andb_prop in H as [_ H]) i j); [lia|done..].
Qed.

(** The key is between [first] and [last], if anywhere. *)
Definition between (key : Z) (l : list Z) (first last : Z) : Prop :=
  forall i x, l !! i = Some x -> x = key -> first <= Z.of_nat i <= last.

Lemma bsearch_loop_spec key l : increasing l -> forall fuel first last, 0 <= first -> last < Z.of_nat (length l) -> between key l first last ->
  (Z.to_nat (last - first + 1) < fuel)%nat -> bsearch_loop fuel key l first last (Z.quot (first + last) 2) = Ok (bool_decide (key ∈ l)).
Proof.
  intros Hs fuel. induction fuel as [|fuel IH]; intros first last Hf Hl Hb Hn; [lia|]. cbn [bsearch_loop].
  destruct (Z.leb_spec first last) as [Hfl|Hfl].
  - rewrite Z.quot_div_nonneg by lia. set (mid := (first + last) / 2). assert (Hm : first <= mid <= last) by (unfold mid; split; [apply Z.div_le_lower_bound|apply Z.div_le_upper_bound]; lia).
    destruct (Z.ltb_spec mid 0); [lia|]. destruct (lookup_lt_is_Some_2 l (Z.to_nat mid)) as [x Hx]; [lia|]. rewrite Hx.
    destruct (Z.ltb_spec x key) as [Hlt|Hge]; [|destruct (Z.eqb_spec x key) as [->|Hne]].
    + apply IH; [lia..| |lia]. intros i y Hy ->. destruct (Hb i key Hy eq_refl). split; [|lia]. destruct (decide (Z.of_nat i <= mid)); [|lia]. exfalso.
      destruct (decide (i = Z.to_nat mid)) as [->|]; [assert (x = key) by congruence; lia|]. pose proof (Hs i (Z.to_nat mid) key x ltac:(lia) Hy Hx). lia.
    + rewrite bool_decide_true; [done|]. by apply list_elem_of_lookup_2 in Hx.
    + apply IH; [lia..| |lia]. intros i y Hy ->. destruct (Hb i key Hy eq_refl). split; [lia|]. destruct (decide (mid <= Z.of_nat i)); [|lia]. exfalso.
      destruct (decide (i = Z.to_nat mid)) as [->|]; [assert (x = key) by congruence; lia|]. pose proof (Hs (Z.to_nat mid) i x key ltac:(lia) Hx Hy). lia.
  - rewrite bool_decide_false; [done|]. intros (i & Hi)%list_elem_of_lookup_1. destruct (Hb i key Hi eq_refl). lia.
Qed.

Lemma bsearch_member key l : increasing l -> bsearch key l = Ok (bool_decide (key ∈ l)).
Proof.
  intros Hs. unfold bsearch. apply bsearch_loop_spec; [done|lia..| |lia]. intros i x Hx _. apply lookup_lt_Some in Hx. lia.
Qed.

(** The lists of the repository are sorted. *)
Lemma lists_ascend : Forall (fun l => ascends l = true) [get_list; set_list; rep_list; supported_list].
Proof. repeat constructor. Qed.

(** On every strictly increasing list the binary search ends, reads only elements of the list and finds exactly
    the keys in it; so on the lists of the repository the lookups decide whether a command is a
    Get, a Set, a Report or supported. *)
Theorem bsearch_is_membership key l : increasing l -> bsearch key l = Ok (bool_decide (key ∈ l)) /\
  forall cls cmd, CommandAnalyzerIsGet get_list cls cmd = Ok (bool_decide (command_key cls cmd ∈ get_list)) /\
    CommandAnalyzerIsSet set_list cls cmd = Ok (bool_decide (command_key cls cmd ∈ set_list)) /\
    CommandAnalyzerIsReport rep_list cls cmd = Ok (bool_decide (command_key cls cmd ∈ rep_list)) /\
    CommandAnalyzerIsSupporting supported_list cls cmd = Ok (bool_decide (command_key cls cmd ∈ supported_list)).
Proof.
  intros Hs. split; [by apply bsearch_member|]. intros cls cmd. pose proof lists_ascend as H.
  repeat (apply list.Forall_cons in H as [?%ascends_increasing H]). split; [|split; [|split]]; by apply bsearch_member.
Qed.

Lemma bsearch_is_membership_witness : bsearch 0x2502 get_list = Ok true.
Proof.
  destruct (bsearch_is_membership 0x2502 get_list) as [E _]; [apply ascends_increasing; vm_compute; reflexivity|]. rewrite E. vm_compute. reflexivity.
Defined.

End Analyzer.
