(* ===== verification/PacketQueue.v ===== *)
(** * Packet queues (contiki/core/net/uip-packetqueue.c)

    Queues of packets over one pool of 64, each packet with a timer that removes it when it has waited too
    long.  A queue is named by a number for the address of its handle; that of the packets is the block of
    the pool.  The lemmas say what each operation does to the frames of a queue, seen as a list. *)
From stdpp Require Import gmap.
From S2P Require Import Prelude Effects Pool.
Import Effects Pool.

Module PacketQueue.

Definition MAX_NUM_QUEUED_PACKETS : nat := 64.
Definition UIP_BUFSIZE : nat := 1544.
Definition UIP_LLH_LEN : nat := 14.
Definition QUEUE_BUF_SIZE : nat := UIP_BUFSIZE - UIP_LLH_LEN.

(** ** State *)

Record uip_packetqueue_packet := mkPacket {
  queue_buf : list Z; queue_buf_len : Z; lifetimer : option Z; handle : Z
}.
Definition packet0 : uip_packetqueue_packet := mkPacket (replicate QUEUE_BUF_SIZE 0) 0 None 0.
Definition set_lifetimer (x : option Z) (p : uip_packetqueue_packet) : uip_packetqueue_packet :=
  mkPacket (queue_buf p) (queue_buf_len p) x (handle p).
Definition set_queue_buf_len (x : Z) (p : uip_packetqueue_packet) : uip_packetqueue_packet :=
  mkPacket (queue_buf p) x (lifetimer p) (handle p).

(** The pool [packets_memb], with the count of each block, and the list of each handle. *)
Record queues := mkQueues { counts : list Z; packets : list uip_packetqueue_packet; lists : gmap Z (list nat) }.

Definition packet (q : queues) (i : nat) : uip_packetqueue_packet := block packet0 (packets q) i.
Definition list_of (q : queues) (h : Z) : list nat := default [] (lists q !! h).

(** ** Operations *)

Definition packet_timedout (i : nat) (q : queues) : queues :=
  let h := handle (packet q i) in
  mkQueues (alter count_free i (counts q)) (packets q) (<[h := list_remove i (list_of q h)]> (lists q)).

(** The timer of a packet that has run out is no longer set when its function is called. *)
Definition lifetime_over (i : nat) (q : queues) : queues :=
  packet_timedout i (mkQueues (counts q) (alter (set_lifetimer None) i (packets q)) (lists q)).

Definition uip_packetqueue_new (h : Z) (q : queues) : queues := mkQueues (counts q) (packets q) (<[h := []]> (lists q)).

Definition uip_packetqueue_alloc (h : Z) (data : list Z) (len : nat) (lifetime : Z) (q : queues) : res (option nat * queues) :=
  match first_free (counts q) with
  | None => Ok (None, q)
  | Some i =>
    if Nat.ltb (length data) len || Nat.ltb QUEUE_BUF_SIZE len then Fault OutOfBounds else
    let p := mkPacket (splice 0 (take len data) (queue_buf (packet q i))) (u16 (Z.of_nat len)) (Some lifetime) h in
    Ok (Some i, mkQueues (alter (Z.add 1) i (counts q)) (<[i := p]> (packets q)) (<[h := list_add i (list_of q h)]> (lists q)))
  end.

Definition uip_packetqueue_pop (h : Z) (q : queues) : queues :=
  match list_of q h with
  | [] => q
  | i :: l => mkQueues (alter count_free i (counts q)) (alter (set_lifetimer None) i (packets q)) (<[h := l]> (lists q))
  end.

Definition uip_packetqueue_buf (h : Z) (q : queues) : option (list Z) :=
  match list_of q h with [] => None | i :: _ => Some (queue_buf (packet q i)) end.

Definition uip_packetqueue_buflen (h : Z) (q : queues) : Z :=
  match list_of q h with [] => 0 | i :: _ => queue_buf_len (packet q i) end.

Definition uip_packetqueue_set_buflen (h len : Z) (q : queues) : queues :=
  match list_of q h with
  | [] => q
  | i :: _ => mkQueues (counts q) (alter (set_queue_buf_len (u16 len)) i (packets q)) (lists q)
  end.

Definition uip_packetqueue_len (h : Z) (q : queues) : Z := Z.of_nat (length (list_of q h)).

Definition uip_packetqueue_free_len (q : queues) : Z := Z.of_nat (length (List.filter (Z.eqb 0) (counts q))).

(** Nothing queued. *)
Definition queues0 : queues := mkQueues (replicate MAX_NUM_QUEUED_PACKETS 0) (replicate MAX_NUM_QUEUED_PACKETS packet0) ∅.

(** ** The frames of a queue *)

Definition frame (p : uip_packetqueue_packet) : list Z := take (Z.to_nat (queue_buf_len p)) (queue_buf p).
Definition view (q : queues) (h : Z) : list (list Z) := (fun i => frame (packet q i)) <$> list_of q h.

(** The blocks [o] are in use: those of the queues and those a queue was made new over, each with its
    timer set. *)
Record queues_ok (o : list nat) (q : queues) : Prop := {
  qs_pool : pool_ok MAX_NUM_QUEUED_PACKETS (counts q) o;
  qs_packets : length (packets q) = MAX_NUM_QUEUED_PACKETS;
  qs_bufs i : length (queue_buf (packet q i)) = QUEUE_BUF_SIZE;
  qs_lens i : 0 <= queue_buf_len (packet q i) <= Z.of_nat QUEUE_BUF_SIZE;
  qs_lists h i : i ∈ list_of q h -> i ∈ o /\ handle (packet q i) = h;
  qs_nodup h : NoDup (list_of q h);
  qs_timers i : is_Some (lifetimer (packet q i)) <-> i ∈ o
}.

Lemma qs_lt o q i : queues_ok o q -> i ∈ o -> (i < length (packets q))%nat.
Proof. intros H Hi. rewrite (qs_packets _ _ H). exact (pool_lt _ _ _ (qs_pool _ _ H) i Hi). Qed.

#[global] Instance queues_ok_proper : Proper ((≡ₚ) ==> eq ==> iff) queues_ok.
Proof.
  assert (H : forall o o' q, o ≡ₚ o' -> queues_ok o q -> queues_ok o' q).
  { intros o o' q E [Hp Hk Hb Hz Hl Hn Ht]. split; try done; [by rewrite <- E| |].
    - intros h i Hi. rewrite <- E. by apply Hl.
    - intros i. rewrite <- E. apply Ht. }
  intros o o' E q q' <-. split; by apply H.
Qed.

Lemma list_of_insert c p m h l h' : list_of (mkQueues c p (<[h := l]> m)) h' = if decide (h' = h) then l else list_of (mkQueues c p m) h'.
Proof. unfold list_of. cbn. destruct (decide (h' = h)) as [->|]; [by rewrite lookup_insert_eq|by rewrite lookup_insert_ne]. Qed.

Lemma list_of_same c p c' p' m h : list_of (mkQueues c p m) h = list_of (mkQueues c' p' m) h.
Proof. done. Qed.

(** Changing blocks outside a queue keeps its frames. *)
Lemma view_ext q q' h : list_of q' h = list_of q h -> (forall i, i ∈ list_of q h -> packet q' i = packet q i) -> view q' h = view q h.
Proof. intros E H. unfold view. rewrite E. apply list_fmap_ext. intros k i Hi. by rewrite H by (by apply list_elem_of_lookup_2 in Hi). Qed.

Lemma queues0_ok : queues_ok [] queues0.
Proof.
  assert (Hp : forall i, packet queues0 i = packet0) by (intros i; apply block_replicate).
  split; try (intros i; rewrite ?Hp; cbn).
  - split; [done|constructor|by intros i ?%elem_of_nil|]. intros i x [-> _]%lookup_replicate_1. by rewrite decide_False by apply not_elem_of_nil.
  - done.
  - vm_compute; reflexivity.
  - vm_compute. split; discriminate.
  - by intros ? ?%elem_of_nil.
  - constructor.
  - split; [by intros [? ?]|by intros ?%elem_of_nil].
Qed.

(** ** A packet is added *)

(** The packet [i] with the frame [x] is now the last of [h]; the rest is as before. *)
Record added (h : Z) (i : nat) (x : list Z) (q q' : queues) : Prop := {
  added_here : list_of q' h = list_of q h ++ [i];
  added_other h' : h' <> h -> list_of q' h' = list_of q h';
  added_packets j : j <> i -> packet q' j = packet q j;
  added_frame : frame (packet q' i) = x
}.

Lemma alloc_full o q h data len t : queues_ok o q -> length o = MAX_NUM_QUEUED_PACKETS -> uip_packetqueue_alloc h data len t q = Ok (None, q).
Proof.
  intros H Ho. unfold uip_packetqueue_alloc. destruct (first_free (counts q)) eqn:E; [|done].
  pose proof (proj1 (pool_full _ _ _ (qs_pool _ _ H)) (mk_is_Some _ _ E)). lia.
Qed.

Lemma splice_prefix l len b : (len <= length l)%nat -> (len <= length b)%nat ->
  take len (splice 0 (take len l) b) = take len l /\ length (splice 0 (take len l) b) = length b.
Proof.
  intros Hl Hb. unfold splice. rewrite take_0, app_nil_l, Nat.add_0_l. split.
  - rewrite take_app_le by (rewrite length_take; lia). by rewrite take_take, Nat.min_id.
  - rewrite length_app, length_drop, length_take. lia.
Qed.

Lemma alloc_ok o q h data len t : queues_ok o q -> (length o < MAX_NUM_QUEUED_PACKETS)%nat -> (len <= length data)%nat -> (len <= QUEUE_BUF_SIZE)%nat ->
  exists i q', uip_packetqueue_alloc h data len t q = Ok (Some i, q') /\ ~ i ∈ o /\ queues_ok (i :: o) q' /\ added h i (take len data) q q'.
Proof.
  intros H Ho Hd Hs. unfold uip_packetqueue_alloc. destruct (proj2 (pool_full _ _ _ (qs_pool _ _ H)) Ho) as [i E]. rewrite E.
  rewrite (proj2 (Nat.ltb_ge _ _) Hd), (proj2 (Nat.ltb_ge _ _) Hs). cbn [orb].
  destruct (pool_alloc _ _ _ _ (qs_pool _ _ H) E) as (Hi & Hlt & Hpool).
  set (p := mkPacket _ _ _ _). eexists i, _. split; [reflexivity|]. split; [done|]. set (q' := mkQueues _ _ _).
  assert (Hu : u16 (Z.of_nat len) = Z.of_nat len) by (apply u16_small; unfold QUEUE_BUF_SIZE, UIP_BUFSIZE, UIP_LLH_LEN in Hs; lia).
  destruct (splice_prefix data len (queue_buf (packet q i))) as [Hpre Hlen]; [done|by rewrite (qs_bufs _ _ H)|].
  assert (Hnew : packet q' i = p) by (unfold packet, q'; cbn; apply block_insert_eq; by rewrite (qs_packets _ _ H)).
  assert (Hold : forall j, j <> i -> packet q' j = packet q j) by (intros j Hj; unfold packet, q'; cbn; by apply block_insert_ne).
  assert (Hlist : forall h', list_of q' h' = if decide (h' = h) then list_of q h ++ [i] else list_of q h').
  { intros h'. unfold q'. rewrite list_of_insert. unfold list_add. rewrite list_remove_none; [done|]. intros Hi'. by apply (qs_lists _ _ H) in Hi' as [? _]. }
  split; [split|split].
  - done.
  - unfold q'. cbn. rewrite length_insert. exact (qs_packets _ _ H).
  - intros j. destruct (decide (j = i)) as [->|Hj]; [rewrite Hnew; cbn; by rewrite Hlen, (qs_bufs _ _ H)|by rewrite Hold, (qs_bufs _ _ H)].
  - intros j. destruct (decide (j = i)) as [->|Hj]; [rewrite Hnew; unfold p; cbn [queue_buf_len]; rewrite Hu; lia|rewrite Hold by done; apply (qs_lens _ _ H)].
  - intros h' j. rewrite Hlist. destruct (decide (h' = h)) as [->|Hh]; [rewrite elem_of_app, list_elem_of_singleton|].
    1: intros [Hj| ->]; [|split; [left|by rewrite Hnew]].
    2: intros Hj.
    all: apply (qs_lists _ _ H) in Hj as [Hj Hh']; split; [by right|]; rewrite Hold; [done|by intros ->].
  - intros h'. rewrite Hlist. destruct (decide (h' = h)) as [->|Hh]; [|apply (qs_nodup _ _ H)].
    apply list.NoDup_app. split; [apply (qs_nodup _ _ H)|]. split; [|apply NoDup_singleton].
    intros j Hj ->%list_elem_of_singleton. by apply (qs_lists _ _ H) in Hj as [? _].
  - intros j. rewrite elem_of_cons. destruct (decide (j = i)) as [->|Hj].
    + rewrite Hnew. cbn. split; [by left|by intros _].
    + rewrite Hold by done. rewrite (qs_timers _ _ H). split; [by right|by intros [?|]].
  - rewrite Hlist. by rewrite decide_True.
  - intros h' Hh. rewrite Hlist. by rewrite decide_False.
  - done.
  - rewrite Hnew. unfold frame. cbn. rewrite Hu, Nat2Z.id. exact Hpre.
Qed.

Lemma added_view h i x q q' o h' : queues_ok o q -> ~ i ∈ o -> added h i x q q' ->
  view q' h' = view q h' ++ (if decide (h' = h) then [x] else []).
Proof.
  intros H Hi A. assert (Hp : forall j, j ∈ list_of q h' -> packet q' j = packet q j).
  { intros j Hj. apply (added_packets _ _ _ _ _ A). intros ->. by apply (qs_lists _ _ H) in Hj as [? _]. }
  destruct (decide (h' = h)) as [->|Hh]; [|rewrite app_nil_r; by apply view_ext; [apply (added_other _ _ _ _ _ A)|]].
  unfold view. rewrite (added_here _ _ _ _ _ A), fmap_app. cbn. rewrite (added_frame _ _ _ _ _ A). f_equal.
  apply list_fmap_ext. intros k j Hj. by rewrite Hp by (by apply list_elem_of_lookup_2 in Hj).
Qed.

(** ** A packet is taken out *)

(** The packet [i] is no longer in the queue [h]. *)
Record removed (h : Z) (i : nat) (q q' : queues) : Prop := {
  removed_here : list_of q' h = list_remove i (list_of q h);
  removed_other h' : h' <> h -> list_of q' h' = list_of q h';
  removed_packets j : j <> i -> packet q' j = packet q j
}.

(** A block in use is given back, with its timer stopped. *)
Lemma remove_ok o q h i : queues_ok (i :: o) q -> handle (packet q i) = h ->
  let q' := mkQueues (alter count_free i (counts q)) (alter (set_lifetimer None) i (packets q)) (<[h := list_remove i (list_of q h)]> (lists q)) in
  queues_ok o q' /\ removed h i q q'.
Proof.
  intros H Hh q'. assert (Hlt : (i < length (packets q))%nat) by (apply (qs_lt _ _ _ H); left).
  pose proof (pool_nodup _ _ _ (qs_pool _ _ H)) as [Hi _]%list.NoDup_cons.
  assert (Hnew : packet q' i = set_lifetimer None (packet q i)) by (unfold packet, q'; cbn; by apply block_alter_eq).
  assert (Hold : forall j, j <> i -> packet q' j = packet q j) by (intros j Hj; unfold packet, q'; cbn; by apply block_alter_ne).
  assert (Hlist : forall h', list_of q' h' = if decide (h' = h) then list_remove i (list_of q h) else list_of q h') by (intros h'; apply list_of_insert).
  assert (Hnot : forall h', ~ i ∈ list_of q' h').
  { intros h'. rewrite Hlist. destruct (decide (h' = h)) as [->|Hn]; [|intros [_ ?]%(qs_lists _ _ H); congruence].
    intros Hin. pose proof (qs_nodup _ _ H h) as Hnd. destruct (decide (i ∈ list_of q h)) as [Hm|Hm]; [|by rewrite list_remove_none in Hin].
    rewrite (list_remove_perm i _ Hm) in Hnd. by apply list.NoDup_cons in Hnd as [? _]. }
  assert (Hsub : forall h' j, j ∈ list_of q' h' -> j ∈ list_of q h').
  { intros h' j. rewrite Hlist. destruct (decide (h' = h)) as [->|]; [|done]. intros Hj.
    destruct (decide (i ∈ list_of q h)) as [Hm|Hm]; [rewrite (list_remove_perm i _ Hm); by right|by rewrite list_remove_none in Hj]. }
  split; [split|split].
  - by apply pool_free, (qs_pool _ _ H).
  - unfold q'. cbn. rewrite length_alter. exact (qs_packets _ _ H).
  - intros j. destruct (decide (j = i)) as [->|Hj]; [rewrite Hnew|rewrite Hold by done]; apply (qs_bufs _ _ H).
  - intros j. destruct (decide (j = i)) as [->|Hj]; [rewrite Hnew|rewrite Hold by done]; apply (qs_lens _ _ H).
  - intros h' j Hj. assert (Hji : j <> i) by (intros ->; by apply (Hnot h')). rewrite Hold by done.
    apply Hsub, (qs_lists _ _ H) in Hj as [[->|Hj]%elem_of_cons Hh']; done.
  - intros h'. rewrite Hlist. destruct (decide (h' = h)) as [->|]; [|apply (qs_nodup _ _ H)]. pose proof (qs_nodup _ _ H h) as Hnd.
    destruct (decide (i ∈ list_of q h)) as [Hm|Hm]; [|by rewrite list_remove_none]. rewrite (list_remove_perm i _ Hm) in Hnd. by apply list.NoDup_cons in Hnd as [_ ?].
  - intros j. destruct (decide (j = i)) as [->|Hj]; [rewrite Hnew; cbn; split; [by intros [? ?]|done]|].
    rewrite Hold by done. rewrite (qs_timers _ _ H), elem_of_cons. split; [by intros [?|]|by right].
  - rewrite Hlist. by rewrite decide_True.
  - intros h' Hn. rewrite Hlist. by rewrite decide_False.
  - done.
Qed.

(** The head of a queue is popped. *)
Lemma pop_ok o q h i l : queues_ok o q -> list_of q h = i :: l ->
  exists o', o ≡ₚ i :: o' /\ queues_ok o' (uip_packetqueue_pop h q) /\ removed h i q (uip_packetqueue_pop h q).
Proof.
  intros H E. destruct (qs_lists _ _ H h i) as [Hi Hh]; [rewrite E; left|]. apply elem_of_Permutation in Hi as [o' Ho].
  rewrite Ho in H. exists o'. split; [done|]. unfold uip_packetqueue_pop. rewrite E.
  pose proof (remove_ok o' q h i H Hh) as R. cbv zeta in R. rewrite E in R. cbn [list_remove] in R. by rewrite Nat.eqb_refl in R.
Qed.

(** The time of a packet is over. *)
Lemma lifetime_ok o q i : queues_ok o q -> i ∈ o ->
  exists o', o ≡ₚ i :: o' /\ queues_ok o' (lifetime_over i q) /\ removed (handle (packet q i)) i q (lifetime_over i q).
Proof.
  intros H Hi. pose proof (qs_lt _ _ _ H Hi) as Hlt. apply elem_of_Permutation in Hi as [o' Ho]. rewrite Ho in H. exists o'. split; [done|].
  pose proof (remove_ok o' q _ i H eq_refl) as R. cbv zeta in R. unfold lifetime_over, packet_timedout. cbn [counts packets lists].
  assert (Hh : handle (packet (mkQueues (counts q) (alter (set_lifetimer None) i (packets q)) (lists q)) i) = handle (packet q i)).
  { unfold packet. cbn. by rewrite block_alter_eq. }
  by rewrite Hh.
Qed.

(** The rest of the frames, in order. *)
Lemma pop_view o q h i l : queues_ok o q -> list_of q h = i :: l ->
  view q h = frame (packet q i) :: view (uip_packetqueue_pop h q) h /\ (forall h', h' <> h -> view (uip_packetqueue_pop h q) h' = view q h').
Proof.
  intros H E. destruct (pop_ok o q h i l H E) as (o' & Ho & Hok & R). split.
  - unfold view. rewrite E, fmap_cons. f_equal. rewrite (removed_here _ _ _ _ R), E. cbn [list_remove]. rewrite Nat.eqb_refl. symmetry.
    apply list_fmap_ext. intros k j Hj. rewrite (removed_packets _ _ _ _ R); [done|]. intros ->. pose proof (qs_nodup _ _ H h) as Hnd. rewrite E in Hnd.
    apply list.NoDup_cons in Hnd as [Hn _]. apply Hn. by apply list_elem_of_lookup_2 in Hj.
  - intros h' Hh. apply view_ext; [by apply (removed_other _ _ _ _ R)|]. intros j Hj. apply (removed_packets _ _ _ _ R). intros ->.
    apply (qs_lists _ _ H) in Hj as [_ Hj]. destruct (qs_lists _ _ H h i) as [_ Hi]; [rewrite E; left|]. congruence.
Qed.

(** A queue made new is empty, though its packets stay in use until their time is over. *)
Lemma new_ok o q h : queues_ok o q -> queues_ok o (uip_packetqueue_new h q).
Proof.
  intros H. assert (Hlist : forall h', list_of (uip_packetqueue_new h q) h' = if decide (h' = h) then [] else list_of q h') by (intros h'; apply list_of_insert).
  split; try apply H.
  - intros h' i. rewrite Hlist. destruct (decide (h' = h)); [by intros ?%elem_of_nil|apply (qs_lists _ _ H)].
  - intros h'. rewrite Hlist. destruct (decide (h' = h)); [constructor|apply (qs_nodup _ _ H)].
Qed.

(** ** In terms of frames *)

Lemma free_len_ok o q : queues_ok o q -> uip_packetqueue_free_len q = Z.of_nat (MAX_NUM_QUEUED_PACKETS - length o).
Proof.
  intros H. destruct (qs_pool _ _ H) as [Hl Hn Hlt Hc]. unfold uip_packetqueue_free_len. f_equal.
  assert (E : counts q = (fun i => if decide (i ∈ o) then 1 else 0) <$> seq 0 MAX_NUM_QUEUED_PACKETS).
  { apply list_eq. intros i. rewrite list_lookup_fmap. destruct (counts q !! i) as [x|] eqn:Ex.
    - rewrite (Hc i x Ex). apply lookup_lt_Some in Ex. by rewrite lookup_seq_lt by lia.
    - apply lookup_ge_None in Ex. by rewrite lookup_seq_ge by lia. }
  rewrite E. assert (Hsub : o ⊆+ seq 0 MAX_NUM_QUEUED_PACKETS).
  { apply NoDup_submseteq; [done|]. intros i Hi%Hlt. apply elem_of_seq. lia. }
  apply submseteq_Permutation in Hsub as [k Hk]. rewrite <- (length_seq MAX_NUM_QUEUED_PACKETS 0) at 2.
  pose proof (NoDup_seq 0 MAX_NUM_QUEUED_PACKETS) as Hnd. rewrite Hk in Hnd. apply list.NoDup_app in Hnd as (_ & Hok & _).
  assert (Hf : forall l, length (List.filter (Z.eqb 0) ((fun i => if decide (i ∈ o) then 1 else 0) <$> l)) = length (filter (fun i => ~ i ∈ o) l)).
  { induction l as [|i l IH]; [done|]. rewrite list.filter_cons, fmap_cons. cbn [List.filter]. destruct (decide (i ∈ o)); destruct (decide (~ i ∈ o)); cbn; by rewrite ?IH. }
  assert (Ho : forall l : list nat, (forall i, i ∈ l -> i ∈ o) -> filter (fun i => ~ i ∈ o) l = []).
  { induction l as [|i l IH]; [done|]. intros Hl'. rewrite list.filter_cons, decide_False by (intros Hi; apply Hi, Hl'; left).
    apply IH. intros j Hj. apply Hl'. by right. }
  assert (Hk' : forall l : list nat, (forall i, i ∈ l -> ~ i ∈ o) -> filter (fun i => ~ i ∈ o) l = l).
  { induction l as [|i l IH]; [done|]. intros Hl'. rewrite list.filter_cons, decide_True by (apply Hl'; left).
    f_equal. apply IH. intros j Hj. apply Hl'. by right. }
  rewrite Hf, Hk, list.filter_app, Ho, Hk', !length_app; [cbn; lia|intros i Hi Hi'; by apply (Hok i)|done].
Qed.

Definition room (q : queues) : bool := 0 <? uip_packetqueue_free_len q.

(** A packet is queued if there is room. *)
Lemma alloc_view o q h data len t : queues_ok o q -> (len <= length data)%nat -> (len <= QUEUE_BUF_SIZE)%nat ->
  exists p q' o', uip_packetqueue_alloc h data len t q = Ok (p, q') /\ bool_decide (is_Some p) = room q /\ queues_ok o' q' /\
    (forall h', view q' h' = view q h' ++ (if decide (h' = h) then if room q then [take len data] else [] else [])) /\
    uip_packetqueue_free_len q' = (if room q then uip_packetqueue_free_len q - 1 else uip_packetqueue_free_len q).
Proof.
  intros H Hd Hs. pose proof (free_len_ok o q H) as Hf. destruct (decide (length o < MAX_NUM_QUEUED_PACKETS)%nat) as [Ho|Ho].
  - destruct (alloc_ok o q h data len t H Ho Hd Hs) as (i & q' & E & Hi & Hok & A). exists (Some i), q', (i :: o).
    assert (Hr : room q = true) by (apply Z.ltb_lt; lia). rewrite Hr. split; [done|]. split; [by apply bool_decide_eq_true|]. split; [done|].
    split; [intros h'; apply (added_view h i _ q q' o h' H Hi A)|]. rewrite (free_len_ok _ _ Hok), Hf. cbn [length]. lia.
  - assert (Hr : room q = false) by (apply Z.ltb_ge; lia). rewrite Hr. exists None, q, o.
    rewrite (alloc_full o q h data len t H) by (pose proof (pool_bound _ _ _ (qs_pool _ _ H)); lia).
    split; [done|]. split; [by apply bool_decide_eq_false; intros []|]. split; [done|]. split; [|done].
    intros h'. by destruct (decide (h' = h)); rewrite app_nil_r.
Qed.

Lemma view_cons q h x X : view q h = x :: X -> exists i l, list_of q h = i :: l /\ frame (packet q i) = x.
Proof. unfold view. destruct (list_of q h) as [|i l]; [done|]. rewrite fmap_cons. intros [= Hx Hl]. by exists i, l. Qed.

Lemma removed_view h i q q' h' o : queues_ok o q -> i ∈ o -> handle (packet q i) = h -> removed h i q q' -> h' <> h -> view q' h' = view q h'.
Proof.
  intros H Hi Hh R Hn. apply view_ext; [by apply (removed_other _ _ _ _ R)|]. intros j Hj. apply (removed_packets _ _ _ _ R). intros ->.
  apply (qs_lists _ _ H) in Hj as [_ Hj]. congruence.
Qed.

(** The head is popped. *)
Lemma pop_front_view o q h x X : queues_ok o q -> view q h = x :: X -> exists o', queues_ok o' (uip_packetqueue_pop h q) /\
  (forall h', view (uip_packetqueue_pop h q) h' = if decide (h' = h) then X else view q h') /\
  uip_packetqueue_free_len (uip_packetqueue_pop h q) = uip_packetqueue_free_len q + 1.
Proof.
  intros H E. destruct (view_cons q h x X E) as (i & l & El & Ex). destruct (pop_ok o q h i l H El) as (o' & Ho & Hok & R).
  destruct (pop_view o q h i l H El) as [Ev Hv]. exists o'. split; [done|]. split.
  - intros h'. destruct (decide (h' = h)) as [->|Hn]; [rewrite E in Ev; by injection Ev|by apply Hv].
  - rewrite (free_len_ok _ _ Hok), (free_len_ok _ _ H). pose proof (pool_bound _ _ _ (qs_pool _ _ H)) as Hb. rewrite Ho in Hb |- *. cbn [length] in *. lia.
Qed.

(** Popping an empty queue does nothing, and no pop changes the frames of another queue. *)
Lemma pop_other o q h : queues_ok o q -> exists o', queues_ok o' (uip_packetqueue_pop h q) /\
  forall h', h' <> h -> view (uip_packetqueue_pop h q) h' = view q h'.
Proof.
  intros H. destruct (list_of q h) as [|i l] eqn:E; [exists o; unfold uip_packetqueue_pop; by rewrite E|].
  destruct (pop_ok o q h i l H E) as (o' & _ & Hok & _). exists o'. split; [done|]. by destruct (pop_view o q h i l H E) as [_ Hv].
Qed.

End PacketQueue.
