(* ===== verification/NodeQueue.v ===== *)
(** * The node queue (src/node_queue.c)

    Packets from the LAN for Z-Wave nodes wait in two queues, for a first short attempt and for a long one,
    and are given one at a time to [ClassicZIPNode_input], of which the part that holds one packet and
    reports its end is modelled too (src/ClassicZIPNode.c).  How it goes on with the packet, the mailbox, the
    resource directory and the network management are given from outside; calls to them are a trace. *)
From S2P Require Import Prelude Effects Pool PacketQueue Crc32.
Import Effects PacketQueue Crc32.

Module NodeQueue.

(** ** Constants *)

Definition UIP_IPH_LEN : nat := 40.
Definition UIP_IPUDPH_LEN : nat := 48.
Definition UIP_PROTO_UDP : Z := 17.
Definition ZWAVE_PORT : Z := 4123.
Definition DTLS_PORT : Z := 41230.
Definition COMMAND_CLASS_ZIP : Z := 0x23.
Definition COMMAND_ZIP_PACKET : Z := 0x02.
Definition COMMAND_ZIP_KEEP_ALIVE : Z := 0x03.
Definition ZIP_KEEP_ALIVE_ACK_REQUEST : Z := 0x80.
Definition ZIP_PACKET_FLAGS1_HDR_EXT_INCL : Z := 0x80.
Definition COMMAND_CLASS_WAKE_UP : Z := 0x84.
Definition WAKE_UP_NO_MORE_INFORMATION : Z := 0x08.
Definition TRANSMIT_OPTION_ACK : Z := 0x01.
Definition TRANSMIT_OPTION_AUTO_ROUTE : Z := 0x04.
Definition TRANSMIT_OPTION_EXPLORE : Z := 0x20.
Definition TRANSMIT_COMPLETE_OK : Z := 0x00.
Definition TRANSMIT_COMPLETE_NO_ACK : Z := 0x01.
Definition TRANSMIT_COMPLETE_FAIL : Z := 0x02.
Definition TRANSMIT_COMPLETE_REQUEUE_QUEUED : Z := 0xFD.
Definition TRANSMIT_COMPLETE_REQUEUE : Z := 0xFE.
Definition TRANSMIT_COMPLETE_ERROR : Z := 0xFF.
Definition MODE_FREQUENTLYLISTENING : Z := 3.
Definition MODE_MAILBOX : Z := 4.
Definition BLACKLIST_LENGTH : Z := 2.

(** ** State *)

Inductive en_queue_state := QS_IDLE | QS_SENDING_FIRST | QS_SENDING_LONG.
#[global] Instance en_queue_state_eq_dec : EqDecision en_queue_state.
Proof. solve_decision. Defined.

(** The two queues, by their handles; the pool of packets also serves others. *)
Definition first_attempt_queue : Z := 0.
Definition long_queue : Z := 1.

(** Who is told of the end of a transmission: [queue_send_done], or the function of the mailbox. *)
Inductive completed := QueueSendDone | MailboxDone.

(** Calls to other parts, events posted to [zip_process], and the packets taken for transmission. *)
Inductive output :=
| DtlsInput (pkt : list Z)
| KeepAliveAck
| QueueUpdated
| ComponentDone
| AbortSending
| MbPost (pkt : list Z)
| MbTransmissionOk (node : Z)
| MbCompleted (status : Z)
| ExtendProbe
| Transmit (txOpts : Z) (bSendNAck requeued : bool) (pkt : list Z).

(** [uip_buf] is the buffer from [UIP_LLH_LEN] on. *)
Record state := mkState {
  pq : queues; queue_state : en_queue_state; queue_timer : option Z; black_list_crc32 : list Z; black_list_n : Z;
  uip_buf : list Z; uip_len : Z; backup_buf : list Z; backup_len : Z; cbCompletedFunc : option completed;
  txOpts : Z; bSendNAck : bool; out : list output
}.

Definition set_pq (x : queues) (s : state) : state := mkState x (queue_state s) (queue_timer s) (black_list_crc32 s)
    (black_list_n s) (uip_buf s) (uip_len s) (backup_buf s) (backup_len s) (cbCompletedFunc s) (txOpts s) (bSendNAck s) (out s).
Definition set_queue_state (x : en_queue_state) (s : state) : state := mkState (pq s) x (queue_timer s) (black_list_crc32 s)
    (black_list_n s) (uip_buf s) (uip_len s) (backup_buf s) (backup_len s) (cbCompletedFunc s) (txOpts s) (bSendNAck s) (out s).
Definition set_queue_timer (x : option Z) (s : state) : state := mkState (pq s) (queue_state s) x (black_list_crc32 s)
    (black_list_n s) (uip_buf s) (uip_len s) (backup_buf s) (backup_len s) (cbCompletedFunc s) (txOpts s) (bSendNAck s) (out s).
Definition set_black_list (x : list Z) (n : Z) (s : state) : state := mkState (pq s) (queue_state s) (queue_timer s) x
    n (uip_buf s) (uip_len s) (backup_buf s) (backup_len s) (cbCompletedFunc s) (txOpts s) (bSendNAck s) (out s).
Definition set_uip (x : list Z) (n : Z) (s : state) : state := mkState (pq s) (queue_state s) (queue_timer s) (black_list_crc32 s)
    (black_list_n s) x n (backup_buf s) (backup_len s) (cbCompletedFunc s) (txOpts s) (bSendNAck s) (out s).
Definition set_backup (x : list Z) (n : Z) (s : state) : state := mkState (pq s) (queue_state s) (queue_timer s) (black_list_crc32 s)
    (black_list_n s) (uip_buf s) (uip_len s) x n (cbCompletedFunc s) (txOpts s) (bSendNAck s) (out s).
Definition set_completed (x : option completed) (s : state) : state := mkState (pq s) (queue_state s) (queue_timer s) (black_list_crc32 s)
    (black_list_n s) (uip_buf s) (uip_len s) (backup_buf s) (backup_len s) x (txOpts s) (bSendNAck s) (out s).
Definition set_tx (x : Z) (b : bool) (s : state) : state := mkState (pq s) (queue_state s) (queue_timer s) (black_list_crc32 s)
    (black_list_n s) (uip_buf s) (uip_len s) (backup_buf s) (backup_len s) (cbCompletedFunc s) x b (out s).
Definition emit (x : output) (s : state) : state := mkState (pq s) (queue_state s) (queue_timer s) (black_list_crc32 s)
    (black_list_n s) (uip_buf s) (uip_len s) (backup_buf s) (backup_len s) (cbCompletedFunc s) (txOpts s) (bSendNAck s) (out s ++ [x]).

(** What the other parts say when they are asked. *)
Record env := mkEnv {
  rd_get_node_mode : Z -> Z; mb_disabled : bool; NM_get_newly_included_nodeid : Z; uip_ext_len : nat
}.

(** How [ClassicZIPNode_input] goes on with a packet it has taken: it is transmitted and its end is reported
    later; it reports an end at once; or it refuses the packet since the bridge is not ready. *)
Inductive outcome := Pending | Finished (status : Z) | NotReady.

(** A pointer to the packet whose end is reported. *)
Inductive buffer := NullBuf | UipBuf | BackupBuf.

Abbreviation M := (Eff state).

Definition upd (f : queues -> queues) : M unit := modify (fun s => set_pq (f (pq s)) s).

Definition contents (b : buffer) (s : state) : list Z :=
  match b with NullBuf => [] | UipBuf => uip_buf s | BackupBuf => backup_buf s end.

Section Node.
(** Of the address of a packet, the node it is for; and which numbers are no nodes. *)
Context (nodeOfIP : list Z -> Z) (nodemask_nodeid_is_invalid : Z -> bool).

Definition destipaddr (pkt : list Z) : list Z := sub 24 16 pkt.
Definition node_of (pkt : list Z) : Z := nodeOfIP (destipaddr pkt).

Definition get_queue_state (s : state) : en_queue_state := queue_state s.
Definition node_queue_idle (s : state) : bool :=
  bool_decide (get_queue_state s = QS_IDLE) && (uip_packetqueue_len first_attempt_queue (pq s) =? 0) && (uip_packetqueue_len long_queue (pq s) =? 0).

(** ** Duplicates *)

Definition fingerprint (s : state) : Z := crc32 (take (Z.to_nat (uip_len s)) (uip_buf s)) 0xFFFF.

Definition add_fingerprint_uip_buf : M unit :=
  s ← get;
  l ← wr (black_list_crc32 s) (black_list_n s) (fingerprint s);
  let n := black_list_n s + 1 in
  modify (set_black_list l (if BLACKLIST_LENGTH <=? n then 0 else n)).

(** The fingerprint is kept in 16 bits here, those of the list in 32. *)
Definition check_fingerprint_uip_buf (s : state) : bool :=
  let crc := u16 (fingerprint s) in existsb (Z.eqb crc) (black_list_crc32 s).

(** ** Packets from the LAN *)

Definition queued_elements_existes (node : Z) (s : state) : bool :=
  existsb (fun i => node_of (queue_buf (packet (pq s) i)) =? node) (list_of (pq s) long_queue).

Definition handle_keep_alive (ack_req_byte : Z) : M unit :=
  if has_bits ack_req_byte ZIP_KEEP_ALIVE_ACK_REQUEST then modify (emit KeepAliveAck) else mret tt.

(** [buf[i]], and the port at an offset. *)
Definition peek (buf : list Z) (i : Z) : res Z := match buf !! Z.to_nat i with Some x => Ok x | None => Fault OutOfBounds end.
Definition port (buf : list Z) (off : nat) : res Z :=
  a ← peek buf (Z.of_nat off); b ← peek buf (Z.of_nat off + 1); Ok (a * 256 + b).

(** Code that only reads. *)
Definition lift {A} (r : res A) : M A := fun s => match r with Ok a => Ok (a, s) | Fault f => Fault f end.

(** A packet is put into a queue, if there is room. *)
Definition enqueue (h : Z) (data : list Z) (len : Z) : M bool := fun s =>
  match uip_packetqueue_alloc h data (Z.to_nat len) 60000 (pq s) with
  | Ok (p, q) => Ok (bool_decide (is_Some p), set_pq q s)
  | Fault f => Fault f
  end.

Definition node_input_queued (e : env) (node : Z) (decrypted : bool) : M bool :=
  s ← get;
  destport ← lift (port (uip_buf s) (UIP_IPH_LEN + uip_ext_len e + 2));
  if (destport =? DTLS_PORT) && negb decrypted then
    modify (set_uip (uip_buf s) (u16 (uip_len s - Z.of_nat UIP_IPUDPH_LEN))) ;;
    modify (emit (DtlsInput (take (Z.to_nat (uip_len s)) (uip_buf s)))) ;; mret true
  else
  keep_alive ← (if (destport =? DTLS_PORT) || (destport =? ZWAVE_PORT) then
      cc0 ← rd (uip_buf s) (Z.of_nat UIP_IPUDPH_LEN);
      cc1 ← rd (uip_buf s) (Z.of_nat UIP_IPUDPH_LEN + 1);
      mret ((cc0 =? COMMAND_CLASS_ZIP) && (cc1 =? COMMAND_ZIP_KEEP_ALIVE))
    else mret false);
  if keep_alive : bool then
    cc2 ← rd (uip_buf s) (Z.of_nat UIP_IPUDPH_LEN + 2); handle_keep_alive cc2 ;; mret true
  else
  if check_fingerprint_uip_buf s then mret true
  else
  add_fingerprint_uip_buf ;;
  assert (Z.of_nat UIP_IPH_LEN <? uip_len s) ;;
  let mode := rd_get_node_mode e node in
  let use_long_q := (mb_disabled e || negb (mode =? MODE_MAILBOX)) &&
    (queued_elements_existes node s || (Z.land mode 0xFF =? MODE_FREQUENTLYLISTENING)
     || ((uip_packetqueue_len first_attempt_queue (pq s) =? 0) && (uip_packetqueue_len long_queue (pq s) =? 0))) in
  rc ← enqueue (if use_long_q then long_queue else first_attempt_queue) (uip_buf s) (uip_len s);
  modify (emit QueueUpdated) ;;
  mret rc.

(** ** Wake up no more information *)

Definition is_zip_pkt (ext : nat) (pkt : list Z) : res bool :=
  proto ← peek pkt 6;
  if negb (proto =? UIP_PROTO_UDP) then Ok false else
  destport ← port pkt (UIP_IPH_LEN + ext + 2);
  if negb (destport =? DTLS_PORT) && negb (destport =? ZWAVE_PORT) then Ok false else
  cc ← peek pkt (Z.of_nat UIP_IPUDPH_LEN);
  if negb (cc =? COMMAND_CLASS_ZIP) then Ok false else
  cmd ← peek pkt (Z.of_nat UIP_IPUDPH_LEN + 1);
  Ok (cmd =? COMMAND_ZIP_PACKET).

Definition is_wu_no_more_info_frame (e : env) (pkt : list Z) : res bool :=
  zip ← is_zip_pkt (uip_ext_len e) pkt;
  if zip : bool then
    flags1 ← peek pkt (Z.of_nat UIP_IPUDPH_LEN + 3);
    ext_hdr_len ← (if has_bits flags1 ZIP_PACKET_FLAGS1_HDR_EXT_INCL then x ← peek pkt (Z.of_nat UIP_IPUDPH_LEN + 7); Ok (u8 x) else Ok 0);
    cmdClass ← peek pkt (Z.of_nat UIP_IPUDPH_LEN + 7 + ext_hdr_len);
    if negb (cmdClass =? COMMAND_CLASS_WAKE_UP) then Ok false else
    cmd ← peek pkt (Z.of_nat UIP_IPUDPH_LEN + 8 + ext_hdr_len);
    Ok (cmd =? WAKE_UP_NO_MORE_INFORMATION)
  else Ok false.

(** ** The end of a transmission *)

Definition isPacketRequeued (buf : list Z) : bool := has_bits (at_ buf 0) 1.

Definition setPacketRequeued (b : buffer) : M unit :=
  s ← get;
  x ← rd (contents b s) 0;
  l ← wr (contents b s) 0 (Z.lor x 1);
  match b with
  | NullBuf => fail OutOfBounds
  | UipBuf => modify (set_uip l (uip_len s))
  | BackupBuf => modify (set_backup l (backup_len s))
  end.

Definition queue_move_to_mailbox (e : env) (node_rd_mode : Z) (sent_buffer : buffer) (send_len : Z) : M bool :=
  if negb (mb_disabled e) && (node_rd_mode =? MODE_MAILBOX) then
    s ← get;
    wunmi ← lift (is_wu_no_more_info_frame e (contents sent_buffer s));
    if wunmi : bool then mret false else
    data ← rds (contents sent_buffer s) 0 (Z.to_nat send_len);
    l ← wrs (uip_buf s) 0 data;
    modify (set_uip l send_len) ;;
    modify (emit (MbPost data)) ;;
    modify (set_uip l 0) ;;
    mret true
  else mret false.

(** The queue a state is about. *)
Definition queue_of (st : en_queue_state) : Z := match st with QS_SENDING_FIRST => first_attempt_queue | _ => long_queue end.

(** The packet is put at the end of the long queue. *)
Definition requeue (sent_buffer : buffer) (send_len : Z) : M unit :=
  s ← get; enqueue long_queue (contents sent_buffer s) send_len ;; mret tt.

Definition queue_send_done (e : env) (status : Z) (sent_buffer : buffer) (send_len : Z) : M unit :=
  modify (set_queue_timer None) ;;
  s ← get;
  let st := queue_state s in
  if bool_decide (st = QS_IDLE) then mret tt else
  match uip_packetqueue_buf (queue_of st) (pq s) with
  | None => fail AssertFailed
  | Some data =>
    let node := node_of data in
    let node_rd_mode := rd_get_node_mode e node in
    (if status =? TRANSMIT_COMPLETE_OK then modify (emit (MbTransmissionOk node)) else mret tt) ;;
    if status =? TRANSMIT_COMPLETE_REQUEUE then modify (set_queue_state QS_IDLE)
    else if status =? TRANSMIT_COMPLETE_REQUEUE_QUEUED then
      moved ← queue_move_to_mailbox e node_rd_mode sent_buffer send_len;
      (if moved : bool then mret tt else
        (if negb (Z.land node_rd_mode 0xFF =? MODE_FREQUENTLYLISTENING) then setPacketRequeued sent_buffer else mret tt) ;;
        requeue sent_buffer send_len) ;;
      upd (uip_packetqueue_pop (queue_of st)) ;;
      modify (set_queue_state QS_IDLE)
    else
      match st with
      | QS_SENDING_FIRST =>
        (if (status =? TRANSMIT_COMPLETE_NO_ACK) && negb (send_len =? 0) && match sent_buffer with NullBuf => false | _ => true end then
           moved ← queue_move_to_mailbox e node_rd_mode sent_buffer send_len;
           if moved : bool then mret tt else setPacketRequeued sent_buffer ;; requeue sent_buffer send_len
         else mret tt) ;;
        upd (uip_packetqueue_pop first_attempt_queue)
      | _ => upd (uip_packetqueue_pop long_queue)
      end ;;
      modify (set_queue_state QS_IDLE) ;;
      modify (emit QueueUpdated)
  end.

(** ** The transmitter *)

Definition call_completed (e : env) (f : completed) (status : Z) (data : buffer) (len : Z) : M unit :=
  match f with
  | QueueSendDone => queue_send_done e status data len
  | MailboxDone => modify (emit (MbCompleted status))
  end.

Definition ClassicZIPNode_CallSendCompleted_cb (e : env) (bStatus : Z) : M unit :=
  s ← get;
  modify (set_backup (backup_buf s) 0) ;;
  modify (set_completed None) ;;
  match cbCompletedFunc s with
  | Some f => call_completed e f bStatus BackupBuf (backup_len s)
  | None => mret tt
  end.

Definition ClassicZIPNode_input (e : env) (o : outcome) (completedFunc : completed) (bRequeued : bool) : M bool :=
  s ← get;
  if nodemask_nodeid_is_invalid (node_of (uip_buf s)) then
    call_completed e completedFunc TRANSMIT_COMPLETE_ERROR UipBuf (uip_len s) ;; mret true
  else if 0 <? backup_len s then
    call_completed e completedFunc TRANSMIT_COMPLETE_REQUEUE UipBuf (uip_len s) ;; mret true
  else
    modify (set_completed (Some completedFunc)) ;;
    data ← rds (uip_buf s) 0 (Z.to_nat (uip_len s));
    l ← wrs (backup_buf s) 0 data;
    modify (set_backup l (uip_len s)) ;;
    assert (negb (node_of l =? 0)) ;;
    modify (emit (Transmit (txOpts s) (bSendNAck s) bRequeued data)) ;;
    match o with
    | Pending => mret true
    | Finished status => ClassicZIPNode_CallSendCompleted_cb e status ;; mret true
    | NotReady => modify (set_backup l 0) ;; mret false
    end.

(** ** The queues are worked on *)

Definition queue_send_timeout : M unit := modify (set_queue_timer None) ;; modify (emit AbortSending).

Definition process_node_queues (e : env) (o : outcome) : M unit :=
  s ← get;
  q ← (if bool_decide (queue_state s = QS_IDLE) then
         if negb (uip_packetqueue_len first_attempt_queue (pq s) =? 0) then
           modify (set_queue_state QS_SENDING_FIRST) ;;
           modify (set_tx TRANSMIT_OPTION_ACK false) ;;
           modify (set_queue_timer (Some 800)) ;;
           mret (Some first_attempt_queue)
         else if negb (uip_packetqueue_len long_queue (pq s) =? 0) then
           modify (set_queue_state QS_SENDING_LONG) ;;
           modify (set_tx (Z.lor TRANSMIT_OPTION_ACK (Z.lor TRANSMIT_OPTION_AUTO_ROUTE TRANSMIT_OPTION_EXPLORE)) true) ;;
           mret (Some long_queue)
         else mret None
       else mret None);
  match q with
  | None => modify (emit ComponentDone)
  | Some q =>
    let n := uip_packetqueue_buflen q (pq s) in
    modify (set_uip (uip_buf s) n) ;;
    if negb (n =? 0) then
      buf ← of_option OutOfBounds (uip_packetqueue_buf q (pq s));
      data ← rds buf 0 (Z.to_nat n);
      l ← wrs (uip_buf s) 0 data;
      modify (set_uip l n) ;;
      let node := node_of l in
      assert (negb (node =? 0)) ;;
      (if node =? NM_get_newly_included_nodeid e then modify (emit ExtendProbe) else mret tt) ;;
      taken ← ClassicZIPNode_input e o QueueSendDone (isPacketRequeued buf);
      (if taken : bool then mret tt else queue_send_done e TRANSMIT_COMPLETE_FAIL NullBuf 0) ;;
      modify (fun s => set_uip (uip_buf s) 0 s)
    else fail AssertFailed
  end.

(** All packets of a queue are popped; the number of them is enough fuel. *)
Fixpoint pop_all (fuel : nat) (h : Z) (q : queues) : queues :=
  match fuel with
  | O => q
  | S fuel => if uip_packetqueue_len h q =? 0 then q else pop_all fuel h (uip_packetqueue_pop h q)
  end.

Definition node_queue_init : M unit :=
  s ← get;
  (if negb (bool_decide (queue_state s = QS_IDLE)) then
     upd (fun q => pop_all (length (list_of q first_attempt_queue)) first_attempt_queue q) ;;
     upd (fun q => pop_all (length (list_of q long_queue)) long_queue q)
   else mret tt) ;;
  upd (uip_packetqueue_new first_attempt_queue) ;;
  upd (uip_packetqueue_new long_queue) ;;
  modify (set_queue_state QS_IDLE).

(** ** Events *)

(** A packet from the LAN in [uip_buf]; [ZIP_EVENT_QUEUE_UPDATED]; the end of the transmission; the mailbox
    transmits a packet; the timers; and others take packets of the pool and give them back. *)
Inductive event :=
| Input (e : env) (buf : list Z) (len : Z) (decrypted : bool)
| Process (e : env) (o : outcome)
| Completed (e : env) (status : Z)
| MailboxSend (e : env) (o : outcome) (buf : list Z) (len : Z)
| QueueTimer
| Lifetime (i : nat)
| OtherAlloc (h : Z) (data : list Z) (lifetime : Z)
| OtherPop (h : Z)
| OtherNew (h : Z)
| Init.

Definition step (ev : event) : M unit :=
  match ev with
  | Input e buf len decrypted => modify (set_uip buf len) ;; node_input_queued e (node_of buf) decrypted ;; mret tt
  | Process e o => process_node_queues e o
  | Completed e status => ClassicZIPNode_CallSendCompleted_cb e status
  | MailboxSend e o buf len => modify (set_uip buf len) ;; ClassicZIPNode_input e o MailboxDone false ;; modify (fun s => set_uip (uip_buf s) 0 s)
  | QueueTimer => s ← get; match queue_timer s with Some _ => queue_send_timeout | None => mret tt end
  | Lifetime i => s ← get; match lifetimer (packet (pq s) i) with Some _ => upd (lifetime_over i) | None => mret tt end
  | OtherAlloc h data t => fun s =>
    match uip_packetqueue_alloc h data (length data) t (pq s) with Ok (_, q) => Ok (tt, set_pq q s) | Fault f => Fault f end
  | OtherPop h => upd (uip_packetqueue_pop h)
  | OtherNew h => upd (uip_packetqueue_new h)
  | Init => node_queue_init
  end.

Fixpoint run (evs : list event) : M unit :=
  match evs with [] => mret tt | ev :: evs => step ev ;; run evs end.

(** Static memory at the start. *)
Definition state0 : state := mkState queues0 QS_IDLE None (replicate 2 0) 0 (replicate QUEUE_BUF_SIZE 0) 0
    (replicate UIP_BUFSIZE 0) 0 None 0 false [].

End Node.
End NodeQueue.
