(* ===== verification/NodeQueueSpec.v ===== *)
(** * What the node queue does with packets (src/node_queue.c)

    The fate of a packet whose transmission has ended, as a function of the status reported; and that the
    code implements it: the two queues, seen as lists of packets, change accordingly. *)
From S2P Require Import Prelude Effects Pool PacketQueue Crc32 NodeQueue.
Import Effects PacketQueue NodeQueue.

Module NodeQueueSpec.

Ltac nq_simpl := cbn [
    pq queue_state queue_timer black_list_crc32 black_list_n uip_buf uip_len backup_buf backup_len cbCompletedFunc
    NodeQueue.txOpts NodeQueue.bSendNAck out set_pq set_queue_state set_queue_timer set_black_list set_uip set_backup set_completed set_tx emit
    contents]; cbv beta.

Section Spec.
Context (nodeOfIP : list Z -> Z) (nodemask_nodeid_is_invalid : Z -> bool).
Abbreviation node_of := (node_of nodeOfIP).
Abbreviation queue_send_done := (queue_send_done nodeOfIP).

(** ** The fate of a packet *)

Inductive fate := Kept | Gone | ToMailbox | ToLong (pkt : list Z).

Definition flagged (x : list Z) : list Z := match x with [] => [] | b :: x => Z.lor b 1 :: x end.

(** A packet for a sleeping node that is not the last of its session. *)
Definition for_mailbox (e : env) (x : list Z) : bool :=
  negb (mb_disabled e) && (rd_get_node_mode e (node_of x) =? MODE_MAILBOX) &&
  match is_wu_no_more_info_frame e x with Ok b => negb b | Fault _ => false end.

Definition flirs (e : env) (x : list Z) : bool := Z.land (rd_get_node_mode e (node_of x)) 0xFF =? MODE_FREQUENTLYLISTENING.

Definition fate_of (e : env) (first : bool) (status : Z) (x : list Z) : fate :=
  if status =? TRANSMIT_COMPLETE_REQUEUE then Kept
  else if status =? TRANSMIT_COMPLETE_REQUEUE_QUEUED then
    if for_mailbox e x then ToMailbox else ToLong (if flirs e x then x else flagged x)
  else if first && (status =? TRANSMIT_COMPLETE_NO_ACK) then
    if for_mailbox e x then ToMailbox else ToLong (flagged x)
  else Gone.

(** The queues afterwards; [room] when a packet of the pool was free. *)
Definition settle (first room : bool) (f : fate) (F L : list (list Z)) : list (list Z) * list (list Z) :=
  match f with
  | Kept => (F, L)
  | ToLong x => let L := if room then L ++ [x] else L in if first then (tail F, L) else (F, tail L)
  | _ => if first then (tail F, L) else (F, tail L)
  end.

Definition reports (status : Z) (f : fate) (x : list Z) : list output :=
  (if status =? TRANSMIT_COMPLETE_OK then [MbTransmissionOk (node_of x)] else []) ++
  match f with ToMailbox => [MbPost x] | _ => [] end ++
  if (status =? TRANSMIT_COMPLETE_REQUEUE) || (status =? TRANSMIT_COMPLETE_REQUEUE_QUEUED) then [] else [QueueUpdated].

(** ** The invariant *)

(** A packet with its address, of a node. *)
Definition good (x : list Z) : Prop := (UIP_IPH_LEN < length x <= QUEUE_BUF_SIZE)%nat /\ node_of x <> 0.

Definition ours (h : Z) : Prop := h = first_attempt_queue \/ h = long_queue.

Record core (s : state) : Prop := {
  core_pool : exists o, queues_ok o (pq s);
  core_black : length (black_list_crc32 s) = Z.to_nat BLACKLIST_LENGTH /\ 0 <= black_list_n s < BLACKLIST_LENGTH;
  core_uip : length (uip_buf s) = QUEUE_BUF_SIZE;
  core_backup : length (backup_buf s) = UIP_BUFSIZE;
  core_backup_len : 0 <= backup_len s <= Z.of_nat QUEUE_BUF_SIZE;
  core_good h x : ours h -> x ∈ view (pq s) h -> good x
}.

(** The fields that reports of the end of a transmission leave alone. *)
Definition same_rest (s s' : state) : Prop :=
  cbCompletedFunc s' = cbCompletedFunc s /\ backup_len s' = backup_len s /\ black_list_crc32 s' = black_list_crc32 s /\ black_list_n s' = black_list_n s.

(** ** Reading packets *)

Lemma destipaddr_take n x : (UIP_IPH_LEN <= n)%nat -> destipaddr (take n x) = destipaddr x.
Proof. unfold destipaddr, sub, UIP_IPH_LEN. intros H. rewrite skipn_firstn_comm, take_take. f_equal. lia. Qed.

Lemma node_of_take n x : (UIP_IPH_LEN <= n)%nat -> node_of (take n x) = node_of x.
Proof. intros H. unfold NodeQueue.node_of. by rewrite destipaddr_take. Qed.

Lemma node_of_prefix x t : (UIP_IPH_LEN <= length x)%nat -> node_of (x ++ t) = node_of x.
Proof. intros H. rewrite <- (node_of_take (length x) (x ++ t)) by done. by rewrite take_app_length. Qed.

Lemma node_of_flagged x : node_of (flagged x) = node_of x.
Proof. by destruct x. Qed.

Lemma good_flagged x : good x -> good (flagged x).
Proof. intros [Hl Hn]. split; [by destruct x|by rewrite node_of_flagged]. Qed.

(** Where the packet is read within its length, it does not matter what follows it in the buffer. *)
Lemma peek_prefix x t i b : peek x i = Ok b -> peek (x ++ t) i = Ok b.
Proof. unfold peek. destruct (x !! Z.to_nat i) eqn:E; [|done]. intros [= <-]. by rewrite (lookup_app_l_Some _ _ _ _ E). Qed.

Lemma res_bind_ok {A B} (m : res A) (k : A -> res B) b : (m ≫= k) = Ok b -> exists a, m = Ok a /\ k a = Ok b.
Proof. destruct m as [a|]; [|done]. intros H. by exists a. Qed.

Ltac prefix_step t :=
  match goal with
  | |- peek _ _ ≫= _ = Ok _ -> _ => let a := fresh "a" in let E := fresh "E" in let K := fresh "K" in
      intros (a & E & K)%res_bind_ok; rewrite (peek_prefix _ t _ _ E); cbn [mbind res_bind]; revert K
  | |- (if ?b then _ else _) = Ok _ -> _ => destruct b; [done|]
  end.

Lemma port_prefix x t off p : port x off = Ok p -> port (x ++ t) off = Ok p.
Proof. unfold port. do 2 prefix_step t. done. Qed.

Lemma is_zip_pkt_prefix ext x t b : is_zip_pkt ext x = Ok b -> is_zip_pkt ext (x ++ t) = Ok b.
Proof.
  unfold is_zip_pkt. do 2 prefix_step t. intros (p & E' & H)%res_bind_ok. rewrite (port_prefix _ _ _ _ E'). cbn [mbind res_bind]. revert H.
  repeat prefix_step t. done.
Qed.

Lemma wunmi_prefix e x t b : is_wu_no_more_info_frame e x = Ok b -> is_wu_no_more_info_frame e (x ++ t) = Ok b.
Proof.
  unfold is_wu_no_more_info_frame. intros (z & E & H)%res_bind_ok. rewrite (is_zip_pkt_prefix _ _ _ _ E). cbn [mbind res_bind]. revert H.
  destruct z; [|done]. prefix_step t. intros (n & En & H)%res_bind_ok.
  assert (En' : (if has_bits a ZIP_PACKET_FLAGS1_HDR_EXT_INCL then y ← peek (x ++ t) (Z.of_nat UIP_IPUDPH_LEN + 7); Ok (u8 y) else Ok 0) = Ok n).
  { revert En. destruct (has_bits a _); [|done]. by prefix_step t. }
  rewrite En'. cbn [mbind res_bind]. revert H. repeat prefix_step t. done.
Qed.

(** A full buffer can always be read. *)
Definition env_ok (e : env) : Prop := (UIP_IPH_LEN + uip_ext_len e + 4 <= QUEUE_BUF_SIZE)%nat.

Lemma peek_ok b i : (Z.to_nat i < length b)%nat -> exists x, peek b i = Ok x.
Proof. intros [x E]%lookup_lt_is_Some_2. exists x. unfold peek. by rewrite E. Qed.

Lemma port_ok b off : (off + 1 < length b)%nat -> exists x, port b off = Ok x.
Proof.
  intros H. unfold port. destruct (peek_ok b (Z.of_nat off)) as [x ->]; [lia|]. cbn [mbind res_bind].
  destruct (peek_ok b (Z.of_nat off + 1)) as [y ->]; [lia|]. by eexists.
Qed.

Ltac peeks := repeat match goal with
  | |- exists _, Ok _ = Ok _ => by eexists
  | |- context [peek ?b ?i] => let x := fresh "x" in let E := fresh "E" in
      destruct (peek_ok b i) as [x E]; [unfold QUEUE_BUF_SIZE, UIP_BUFSIZE, UIP_LLH_LEN, UIP_IPUDPH_LEN in *; lia|]; rewrite E; cbn [mbind res_bind]
  | |- exists _, (if ?c then _ else _) = _ => destruct c
  end.

Lemma is_zip_pkt_ok ext b : (UIP_IPH_LEN + ext + 4 <= QUEUE_BUF_SIZE)%nat -> (QUEUE_BUF_SIZE <= length b)%nat -> exists z, is_zip_pkt ext b = Ok z.
Proof.
  intros He Hb. unfold is_zip_pkt. peeks. destruct (port_ok b (UIP_IPH_LEN + ext + 2)) as [p E']; [lia|].
  rewrite E'. cbn [mbind res_bind]. peeks.
Qed.

Lemma wunmi_ok e b : env_ok e -> (QUEUE_BUF_SIZE <= length b)%nat -> exists x, is_wu_no_more_info_frame e b = Ok x.
Proof.
  intros He Hb. unfold is_wu_no_more_info_frame. pose proof (is_zip_pkt_ok (uip_ext_len e) b He Hb) as Hz.
  destruct Hz as [z ->]. cbn [mbind res_bind]. destruct z; [|by eexists].
  assert (Hn : forall f, exists n, (if f : bool then x ← peek b (Z.of_nat UIP_IPUDPH_LEN + 7); Ok (u8 x) else Ok 0) = Ok n /\ 0 <= n < 256).
  { intros []; [|by exists 0]. destruct (peek_ok b (Z.of_nat UIP_IPUDPH_LEN + 7)) as [x E].
    { unfold QUEUE_BUF_SIZE, UIP_BUFSIZE, UIP_LLH_LEN, UIP_IPUDPH_LEN in *. lia. }
    exists (u8 x). rewrite E. split; [done|apply u8_byte]. }
  destruct (peek_ok b (Z.of_nat UIP_IPUDPH_LEN + 3)) as [f ->].
  { unfold QUEUE_BUF_SIZE, UIP_BUFSIZE, UIP_LLH_LEN, UIP_IPUDPH_LEN in *. lia. }
  cbn [mbind res_bind]. destruct (Hn (has_bits f ZIP_PACKET_FLAGS1_HDR_EXT_INCL)) as (n & E & Hr). rewrite E. cbn [mbind res_bind]. peeks.
Qed.

(** ** The pieces of [queue_send_done] *)

Lemma wp_lift {A} (r : res A) a Q s : r = Ok a -> Q a s -> wp (lift r) Q s.
Proof. intros -> HQ. exact HQ. Qed.

(** Whether the packet [x] goes to the mailbox. *)
Definition decides (e : env) (x : list Z) (m : bool) : Prop :=
  if negb (mb_disabled e) && (rd_get_node_mode e (node_of x) =? MODE_MAILBOX)
  then forall b, is_wu_no_more_info_frame e x = Ok b -> m = negb b else m = false.

Lemma decides_some e x : exists m, decides e x m.
Proof.
  unfold decides. destruct (negb _ && _); [|by exists false].
  destruct (is_wu_no_more_info_frame e x) as [w|]; [exists (negb w); by intros ? [= <-]|by exists false].
Qed.

Lemma decides_for_mailbox e x m b : is_wu_no_more_info_frame e x = Ok b -> decides e x m -> m = for_mailbox e x.
Proof. unfold decides, for_mailbox. intros E. rewrite E. destruct (negb (mb_disabled e) && _); [intros H; by rewrite (H b)|done]. Qed.

(** The packet [x] is in the buffer. *)
Definition holds (b : buffer) (x : list Z) (s : state) : Prop :=
  b <> NullBuf /\ (QUEUE_BUF_SIZE <= length (contents b s))%nat /\ exists t, contents b s = x ++ t.

Lemma move_ok e b x s : env_ok e -> holds b x s -> length (uip_buf s) = QUEUE_BUF_SIZE -> (length x <= QUEUE_BUF_SIZE)%nat ->
  wp (queue_move_to_mailbox e (rd_get_node_mode e (node_of x)) b (Z.of_nat (length x)))
    (fun m s' => decides e x m /\ exists u, length u = QUEUE_BUF_SIZE /\ s' = if m then emit (MbPost x) (set_uip u 0 s) else s) s.
Proof.
  intros He (Hb & Hl & t & Ht) Hu Hx. unfold queue_move_to_mailbox, decides.
  destruct (negb (mb_disabled e) && _) eqn:E; [|apply end_ret; split; [done|]; by exists (uip_buf s)].
  apply step_get, wp_bind. destruct (wunmi_ok e (contents b s) He Hl) as [w Hw]. eapply wp_lift; [exact Hw|].
  assert (Hd : forall b0, is_wu_no_more_info_frame e x = Ok b0 -> negb w = negb b0).
  { intros b0 H0. apply (wunmi_prefix _ _ t) in H0. rewrite <- Ht, Hw in H0. by injection H0 as ->. }
  destruct w; [apply end_ret; split; [done|]; by exists (uip_buf s)|].
  apply wp_bind. apply wp_rds; [rewrite Ht, length_app; lia|]. rewrite Nat2Z.id, Ht. unfold sub. rewrite drop_0, take_app_length.
  apply wp_bind. apply wp_wrs; [by rewrite Hu|]. apply step_modify, step_modify, step_modify, end_ret. split; [done|].
  exists (splice 0 x (uip_buf s)). split; [|done]. unfold splice. rewrite take_0, app_nil_l, length_app, length_drop, Hu. lia.
Qed.

(** The flag is set in the buffer. *)
Definition flag_in (b : buffer) (s : state) : state :=
  match b with NullBuf => s | UipBuf => set_uip (flagged (uip_buf s)) (uip_len s) s | BackupBuf => set_backup (flagged (backup_buf s)) (backup_len s) s end.

Lemma requeued_ok b x s (Q : unit -> state -> Prop) : holds b x s -> Q tt (flag_in b s) -> wp (setPacketRequeued b) Q s.
Proof.
  intros (Hb & Hl & _) HQ. unfold setPacketRequeued. apply step_get. destruct (contents b s) as [|c l] eqn:E.
  { cbn [length] in Hl. unfold QUEUE_BUF_SIZE, UIP_BUFSIZE, UIP_LLH_LEN in Hl. lia. }
  apply wp_bind, wp_rd with c; [done|]. apply wp_bind, wp_wr; [cbn; lia|]. cbn [Z.to_nat].
  destruct b; [done| |]; cbn in E; apply end_modify; unfold flag_in in HQ; by rewrite E in HQ.
Qed.

Lemma holds_flag b x s : x <> [] -> holds b x s -> holds b (flagged x) (flag_in b s).
Proof.
  intros Hx (Hb & Hl & t & Ht). assert (E : contents b (flag_in b s) = flagged (contents b s)) by (by destruct b).
  split; [done|]. rewrite E, Ht. split; [rewrite Ht in Hl; by destruct x|]. exists t. by destruct x.
Qed.

(** ** What is left of the invariant *)

Lemma core_ext s s' : core s -> pq s' = pq s -> black_list_crc32 s' = black_list_crc32 s -> black_list_n s' = black_list_n s ->
  length (uip_buf s') = length (uip_buf s) -> length (backup_buf s') = length (backup_buf s) -> backup_len s' = backup_len s -> core s'.
Proof. intros [Hp Hb Hu Hk Hl Hg] E1 E2 E3 E4 E5 E6. split; by rewrite ?E1, ?E2, ?E3, ?E4, ?E5, ?E6. Qed.

Lemma length_flagged x : length (flagged x) = length x.
Proof. by destruct x. Qed.

Lemma core_flag b s : core s -> core (flag_in b s).
Proof. intros H. destruct b; apply (core_ext s _ H); cbn; rewrite ?length_flagged; done. Qed.

Lemma core_uip_set u n s : core s -> length u = QUEUE_BUF_SIZE -> core (set_uip u n s).
Proof. intros H Hu. apply (core_ext s _ H); cbn; try done. by rewrite (core_uip _ H). Qed.

(** The queues change, with packets as they should be. *)
Lemma core_queues o q s : core s -> queues_ok o q -> (forall h x, ours h -> x ∈ view q h -> x ∈ view (pq s) h \/ good x) -> core (set_pq q s).
Proof.
  intros H Hq Hv. split; try apply H; [by exists o|]. intros h x Hh [Hx|Hx]%Hv; [by apply (core_good _ H h)|done|done].
Qed.

(** A packet is put into one of the queues. *)
Lemma enqueue_ok h data x t s : core s -> good x -> data = x ++ t ->
  wp (enqueue h data (Z.of_nat (length x))) (fun b s' => b = room (pq s) /\ exists q, s' = set_pq q s /\ core s' /\
    (forall h', view q h' = view (pq s) h' ++ if decide (h' = h) then if room (pq s) then [x] else [] else []) /\
    uip_packetqueue_free_len q = if room (pq s) then uip_packetqueue_free_len (pq s) - 1 else uip_packetqueue_free_len (pq s)) s.
Proof.
  intros H Hx ->. destruct (core_pool _ H) as [o Ho]. unfold wp, enqueue. rewrite Nat2Z.id.
  destruct (alloc_view o (pq s) h (x ++ t) (length x) 60000 Ho) as (p & q & o' & E & Hp & Hq & Hv & Hf); [rewrite length_app; lia|apply Hx|].
  rewrite E. split; [done|]. exists q. rewrite take_app_length in Hv. split; [done|]. split; [|done].
  apply (core_queues o' q s H Hq). intros h' y Hh. rewrite Hv. intros [Hy|Hy]%elem_of_app; [by left|].
  right. destruct (decide (h' = h)), (room (pq s)); try by apply elem_of_nil in Hy. by apply list_elem_of_singleton in Hy as ->.
Qed.

(** The head of one of the queues is popped. *)
Lemma pop_core h x X s : core s -> view (pq s) h = x :: X ->
  let q := uip_packetqueue_pop h (pq s) in core (set_pq q s) /\
  (forall h', view q h' = if decide (h' = h) then X else view (pq s) h') /\ uip_packetqueue_free_len q = uip_packetqueue_free_len (pq s) + 1.
Proof.
  intros H E. destruct (core_pool _ H) as [o Ho]. destruct (pop_front_view o (pq s) h x X Ho E) as (o' & Hq & Hv & Hf). split; [|done].
  apply (core_queues o' _ s H Hq). intros h' y _. rewrite Hv. destruct (decide (h' = h)) as [->|]; [|by left].
  rewrite E. intros Hy. left. by right.
Qed.

(** ** The end of a transmission *)

Record settled (first : bool) (f : fate) (posts : list output) (s s' : state) : Prop := {
  settled_core : core s';
  settled_idle : queue_state s' = QS_IDLE;
  settled_timer : queue_timer s' = None;
  settled_rest : same_rest s s';
  settled_out : out s' = out s ++ posts;
  settled_views : (view (pq s') first_attempt_queue, view (pq s') long_queue) =
    settle first (room (pq s)) f (view (pq s) first_attempt_queue) (view (pq s) long_queue);
  settled_free : uip_packetqueue_free_len (pq s) <= uip_packetqueue_free_len (pq s')
}.

Definition is_first (st : en_queue_state) : bool := bool_decide (st = QS_SENDING_FIRST).

(** The head has left its queue. *)
Lemma settled_pop st x X f posts s s1 : (f = Gone \/ f = ToMailbox) -> core s1 -> same_rest s s1 -> queue_timer s1 = None -> pq s1 = pq s ->
  st <> QS_IDLE -> view (pq s) (queue_of st) = x :: X -> out s1 = out s ++ posts ->
  settled (is_first st) f posts s (set_queue_state QS_IDLE (set_pq (uip_packetqueue_pop (queue_of st) (pq s1)) s1)).
Proof.
  intros Hf H1 Hr Ht Hq Hst E Ho. rewrite <- Hq in E. destruct (pop_core (queue_of st) x X s1 H1 E) as (Hc & Hv & Hn).
  split; cbn; try done.
  - apply (core_ext _ _ Hc); done.
  - rewrite !Hv, <- Hq. unfold settle, is_first.
    destruct Hf as [-> | ->], st; try done; cbn in E |- *; by rewrite E.
  - rewrite <- Hq. lia.
Qed.

(** The packet is put into the long queue, and then leaves its own. *)
Lemma settled_long st x X y posts s s1 b t : core s1 -> good y -> contents b s1 = y ++ t -> same_rest s s1 -> queue_timer s1 = None -> pq s1 = pq s ->
  st <> QS_IDLE -> view (pq s) (queue_of st) = x :: X -> out s1 = out s ++ posts ->
  wp (requeue b (Z.of_nat (length y)))
    (fun _ s2 => settled (is_first st) (ToLong y) posts s (set_queue_state QS_IDLE (set_pq (uip_packetqueue_pop (queue_of st) (pq s2)) s2))) s1.
Proof.
  intros H1 Hy Hb Hr Ht Hq Hst E Ho. unfold requeue. apply step_get, wp_bind.
  eapply wp_mono; [exact (enqueue_ok long_queue _ y t s1 H1 Hy Hb)|]. intros r s2 (-> & q & -> & H2 & Hv & Hn). apply end_ret. nq_simpl.
  rewrite <- Hq in E.
  assert (E2 : view q (queue_of st) = x :: (X ++ if decide (queue_of st = long_queue) then if room (pq s1) then [y] else [] else [])) by (by rewrite Hv, E).
  destruct (pop_core (queue_of st) x _ (set_pq q s1) H2 E2) as (Hc & Hv2 & Hn2). cbn [pq set_pq] in Hv2, Hn2.
  split; nq_simpl; try done.
  - apply (core_ext _ _ Hc); done.
  - rewrite !Hv2, !Hv, <- Hq. unfold settle, is_first. destruct st; [done| |]; cbn in E |- *; rewrite E; cbn; destruct (room (pq s1)); by rewrite ?app_nil_r.
  - rewrite Hn2, Hn, <- Hq. destruct (room (pq s1)); lia.
Qed.

(** The fate of the head, with the answer [m] whether it is for the mailbox. *)
Definition fate_with (e : env) (m first : bool) (status : Z) (x : list Z) : fate :=
  if status =? TRANSMIT_COMPLETE_REQUEUE then Kept
  else if status =? TRANSMIT_COMPLETE_REQUEUE_QUEUED then
    if m then ToMailbox else ToLong (if flirs e x then x else flagged x)
  else if first && (status =? TRANSMIT_COMPLETE_NO_ACK) then if m then ToMailbox else ToLong (flagged x)
  else Gone.

Lemma fate_with_of e m first status x : m = for_mailbox e x -> fate_with e m first status x = fate_of e first status x.
Proof. by intros ->. Qed.

Lemma wp_assoc {A B C} (m : Eff state A) (f : A -> Eff state B) (k : B -> Eff state C) Q s :
  wp (m ≫= f) (fun b s' => wp (k b) Q s') s -> wp (m ≫= fun a => f a ≫= k) Q s.
Proof. unfold wp, mbind, Eff_bind. destruct (m s) as [[a s']|]; [|done]. by destruct (f a s') as [[b s'']|]. Qed.

(** What is common to the statuses that move a packet. *)
Lemma moved_ok e st x X s s1 b (flag : bool) : env_ok e -> core s1 -> good x -> holds b x s1 -> same_rest s s1 -> queue_timer s1 = None -> pq s1 = pq s ->
  st <> QS_IDLE -> view (pq s) (queue_of st) = x :: X -> out s1 = out s ->
  wp (moved ← queue_move_to_mailbox e (rd_get_node_mode e (node_of x)) b (Z.of_nat (length x));
      if moved : bool then mret tt else (if flag then setPacketRequeued b else mret tt) ;; requeue b (Z.of_nat (length x)))
    (fun _ s2 => exists m, decides e x m /\
       settled (is_first st) (if m then ToMailbox else ToLong (if flag then flagged x else x)) (if m then [MbPost x] else []) s
         (set_queue_state QS_IDLE (set_pq (uip_packetqueue_pop (queue_of st) (pq s2)) s2))) s1.
Proof.
  intros He H1 Hx Hb Hr Ht Hq Hst E Ho. apply wp_bind.
  eapply wp_mono; [apply move_ok; [done|done|apply (core_uip _ H1)|apply Hx]|]. intros m s2 (Hm & u & Hu & ->).
  destruct m.
  - apply end_ret. exists true. split; [done|]. eapply settled_pop; try done; [by right| |by rewrite <- Ho].
    apply (core_ext (set_uip u 0 s1)); [by apply core_uip_set|done..].
  - assert (Hne : x <> []) by (intros ->; destruct Hx as [Hx _]; cbn in Hx; lia).
    apply wp_bind. destruct flag.
    + eapply requeued_ok; [exact Hb|]. destruct (holds_flag b x s1 Hne Hb) as (_ & _ & t & Ht').
      eapply wp_mono; [rewrite <- (length_flagged x); eapply (settled_long st x X (flagged x) [] s (flag_in b s1) b t); try done|].
      * by apply core_flag.
      * by apply good_flagged.
      * by destruct b.
      * by destruct b.
      * by destruct b.
      * rewrite app_nil_r. by destruct b.
      * intros [] s3 H3. exists false. by split.
    + apply end_ret. destruct Hb as (_ & _ & t & Ht').
      eapply wp_mono; [eapply (settled_long st x X x [] s s1 b t); try done|]; [by rewrite app_nil_r|]. intros [] s3 H3. exists false. by split.
Qed.

Lemma settled_emit first f posts o s s' : settled first f posts s s' -> settled first f (posts ++ [o]) s (emit o s').
Proof. intros [Hc Hi Ht Hr Ho Hv Hf]. split; try done; [by apply (core_ext s')|]. cbn. by rewrite Ho, app_assoc. Qed.

(** The buffer of the head of a queue. *)
Lemma head_buf s h x X : core s -> ours h -> view (pq s) h = x :: X ->
  exists buf, uip_packetqueue_buf h (pq s) = Some buf /\ (exists t, buf = x ++ t) /\ length buf = QUEUE_BUF_SIZE /\ uip_packetqueue_buflen h (pq s) = Z.of_nat (length x) /\ node_of buf = node_of x /\ good x.
Proof.
  intros H Hh E. destruct (view_cons (pq s) h x X E) as (i & l & El & Ex). destruct (core_pool _ H) as [o Ho].
  assert (Hg : good x) by (apply (core_good _ H h); [done|rewrite E; left]).
  pose proof (qs_lens _ _ Ho i) as Hn. pose proof (qs_bufs _ _ Ho i) as Hb. unfold frame in Ex.
  set (buf := queue_buf (packet (pq s) i)) in *. set (n := queue_buf_len (packet (pq s) i)) in *.
  assert (Hlx : length x = Z.to_nat n) by (rewrite <- Ex, length_take, Hb; lia).
  exists buf. unfold uip_packetqueue_buf, uip_packetqueue_buflen. rewrite El. fold buf n. split; [done|].
  split; [exists (drop (Z.to_nat n) buf); by rewrite <- Ex, take_drop|]. split; [done|]. split; [lia|]. split; [|done].
  rewrite <- Ex. symmetry. apply node_of_take. rewrite <- Hlx. destruct Hg as [Hg _]. lia.
Qed.

Lemma ours_queue st : ours (queue_of st).
Proof. unfold ours, queue_of. destruct st; auto. Qed.

(** [queue_send_done] in a state in which a packet is transmitted. *)
Lemma send_done_ok e st x X status b s : env_ok e -> core s -> queue_state s = st -> st <> QS_IDLE -> view (pq s) (queue_of st) = x :: X -> holds b x s ->
  wp (queue_send_done e status b (Z.of_nat (length x))) (fun _ s' => exists m, decides e x m /\
    let f := fate_with e m (is_first st) status x in settled (is_first st) f (reports status f x) s s') s.
Proof.
  intros He H Hst Hi E Hb. destruct (head_buf s (queue_of st) x X H (ours_queue st) E) as (buf & Ebuf & _ & _ & _ & Hn & Hg).
  set (s1 := set_queue_timer None s). assert (H1 : core s1) by (by apply (core_ext s)).
  pose proof (decides_some e x) as Hd0.
  unfold NodeQueue.queue_send_done. apply step_modify, step_get. fold s1. change (queue_state s1) with (queue_state s). rewrite Hst.
  rewrite bool_decide_eq_false_2 by done. change (pq s1) with (pq s). rewrite Ebuf, Hn. unfold fate_with.
  destruct (Z.eqb_spec status TRANSMIT_COMPLETE_OK) as [->|Hok].
  { apply step_modify. cbn [Z.eqb TRANSMIT_COMPLETE_OK TRANSMIT_COMPLETE_REQUEUE TRANSMIT_COMPLETE_REQUEUE_QUEUED TRANSMIT_COMPLETE_NO_ACK andb].
    destruct Hd0 as [m Hm]. rewrite andb_false_r.
    assert (HS : settled (is_first st) Gone [MbTransmissionOk (node_of x)] s
        (set_queue_state QS_IDLE (set_pq (uip_packetqueue_pop (queue_of st) (pq s1)) (emit (MbTransmissionOk (node_of x)) s1)))).
    { apply (settled_pop st x X Gone _ s (emit (MbTransmissionOk (node_of x)) s1)); try done; [by left|by apply (core_ext s)]. }
    apply (settled_emit _ _ _ QueueUpdated) in HS.
    destruct st; [done| |]; repeat first [apply step_ret|apply step_modify]; apply end_modify; exists m; (split; [done|]); exact HS. }
  apply step_ret. destruct (Z.eqb_spec status TRANSMIT_COMPLETE_REQUEUE) as [->|Hrq].
  { apply end_modify. destruct Hd0 as [m Hm]. exists m. split; [done|]. split; cbn; try done; [by apply (core_ext s)|by rewrite app_nil_r]. }
  destruct (Z.eqb_spec status TRANSMIT_COMPLETE_REQUEUE_QUEUED) as [->|Hrqq].
  { apply wp_assoc. eapply wp_mono; [apply (moved_ok e st x X s s1 b (negb (flirs e x))); done|]. intros [] s2 (m & Hm & HS).
    apply step_modify, end_modify. exists m. split; [done|]. by destruct m, (flirs e x). }
  destruct Hd0 as [m0 Hm0].
  assert (HG : settled (is_first st) Gone [] s (set_queue_state QS_IDLE (set_pq (uip_packetqueue_pop (queue_of st) (pq s1)) s1))).
  { apply (settled_pop st x X Gone _ s s1); try done; [by left|by rewrite app_nil_r]. }
  apply (settled_emit _ _ _ QueueUpdated) in HG. unfold reports.
  rewrite (proj2 (Z.eqb_neq _ _) Hok), (proj2 (Z.eqb_neq _ _) Hrq), (proj2 (Z.eqb_neq _ _) Hrqq).
  destruct (is_first st && (status =? TRANSMIT_COMPLETE_NO_ACK)) eqn:Em.
  - apply andb_prop in Em as [Hf ->%Z.eqb_eq]. unfold is_first in Hf. apply bool_decide_eq_true in Hf as ->.
    cbn [Z.eqb Pos.eqb TRANSMIT_COMPLETE_NO_ACK andb]. rewrite (proj2 (Z.eqb_neq _ _)) by (destruct Hg as [Hg _]; lia). cbn [negb andb].
    apply wp_bind, wp_bind. replace (match b with NullBuf => false | _ => true end) with true by (destruct Hb as [Hb _]; by destruct b).
    eapply wp_mono; [apply (moved_ok e QS_SENDING_FIRST x X s s1 b true); done|]. intros [] s2 (m & Hm & HS).
    apply end_modify, step_modify, end_modify. exists m. split; [done|]. apply (settled_emit _ _ _ QueueUpdated) in HS. by destruct m.
  - destruct st; [done| |].
    + unfold is_first in Em. rewrite bool_decide_eq_true_2 in Em by done. cbn [andb] in Em. rewrite Em. cbn [andb].
      repeat first [apply step_ret|apply step_modify]. apply end_modify. exists m0. by split.
    + repeat first [apply step_ret|apply step_modify]. apply end_modify. exists m0. by split.
Qed.

(** [queue_send_done] when the packet was refused. *)
Lemma refused_ok e st x X s : core s -> queue_state s = st -> st <> QS_IDLE -> view (pq s) (queue_of st) = x :: X ->
  wp (queue_send_done e TRANSMIT_COMPLETE_FAIL NullBuf 0) (fun _ s' => settled (is_first st) Gone [QueueUpdated] s s') s.
Proof.
  intros H Hst Hi E. destruct (head_buf s (queue_of st) x X H (ours_queue st) E) as (buf & Ebuf & _ & _ & _ & Hn & Hg).
  set (s1 := set_queue_timer None s). assert (H1 : core s1) by (by apply (core_ext s)).
  unfold NodeQueue.queue_send_done. apply step_modify, step_get. fold s1. change (queue_state s1) with (queue_state s). rewrite Hst.
  rewrite bool_decide_eq_false_2 by done. change (pq s1) with (pq s). rewrite Ebuf.
  assert (HG : settled (is_first st) Gone [] s (set_queue_state QS_IDLE (set_pq (uip_packetqueue_pop (queue_of st) (pq s1)) s1))).
  { apply (settled_pop st x X Gone _ s s1); try done; [by left|by rewrite app_nil_r]. }
  apply (settled_emit _ _ _ QueueUpdated) in HG.
  destruct st; [done| |]; repeat first [apply step_ret|apply step_modify]; apply end_modify; exact HG.
Qed.

(** [queue_send_done] when nothing is transmitted. *)
Lemma stray_ok e status b n s (Q : unit -> state -> Prop) : queue_state s = QS_IDLE -> Q tt (set_queue_timer None s) -> wp (queue_send_done e status b n) Q s.
Proof.
  intros H HQ. unfold NodeQueue.queue_send_done. apply step_modify, step_get. change (queue_state (set_queue_timer None s)) with (queue_state s).
  rewrite H, bool_decide_eq_true_2 by done. by apply end_ret.
Qed.

(** ** The transmitter *)

Definition black (s : state) : list Z * Z := (black_list_crc32 s, black_list_n s).

(** The packet [x] is being transmitted; its end is reported by [ClassicZIPNode_CallSendCompleted_cb]. *)
Record transmits (x : list Z) (s : state) : Prop := {
  tr_core : core s;
  tr_sending : queue_state s <> QS_IDLE;
  tr_completed : cbCompletedFunc s = Some QueueSendDone;
  tr_len : backup_len s = Z.of_nat (length x);
  tr_backup : take (length x) (backup_buf s) = x;
  tr_head : exists X, view (pq s) (queue_of (queue_state s)) = x :: X
}.

Definition cleared (s : state) : state := set_completed None (set_backup (backup_buf s) 0 s).

Lemma core_cleared s : core s -> core (cleared s).
Proof. intros [Hp Hb Hu Hk Hl Hg]. by split. Qed.

Lemma holds_backup x s : core s -> take (length x) (backup_buf s) = x -> holds BackupBuf x s.
Proof.
  intros H E. split; [done|]. change (contents BackupBuf s) with (backup_buf s). rewrite (core_backup _ H). split; [unfold QUEUE_BUF_SIZE; lia|].
  exists (drop (length x) (backup_buf s)). rewrite <- E at 1. by rewrite take_drop.
Qed.

Lemma completed_ok e status x s : env_ok e -> transmits x s ->
  wp (ClassicZIPNode_CallSendCompleted_cb nodeOfIP e status) (fun _ s' => exists m, decides e x m /\
    let st := queue_state s in let f := fate_with e m (is_first st) status x in settled (is_first st) f (reports status f x) (cleared s) s') s.
Proof.
  intros He [H Hs Hc Hl Hb (X & E)]. unfold ClassicZIPNode_CallSendCompleted_cb. apply step_get, step_modify, step_modify. rewrite Hc, Hl.
  apply (send_done_ok e (queue_state s) x X status BackupBuf (cleared s)); try done; [by apply core_cleared|].
  by apply holds_backup; [apply core_cleared|].
Qed.

(** What [ClassicZIPNode_input] does with a packet: the status it reports at once, if any. *)
Definition taken (x : list Z) (s : state) : bool := negb (nodemask_nodeid_is_invalid (node_of x)) && negb (0 <? backup_len s).
Definition answer (o : outcome) (x : list Z) (s : state) : option Z :=
  if nodemask_nodeid_is_invalid (node_of x) then Some TRANSMIT_COMPLETE_ERROR
  else if 0 <? backup_len s then Some TRANSMIT_COMPLETE_REQUEUE
  else match o with Pending => None | Finished status => Some status | NotReady => Some TRANSMIT_COMPLETE_FAIL end.

(** The head of a queue after it was given to the transmitter, which transmits it, or has reported a status. *)
Definition handled (e : env) (st : en_queue_state) (o : option Z) (x : list Z) (posts : list output) (s s' : state) : Prop :=
  match o with
  | None => transmits x s' /\ queue_state s' = st /\ pq s' = pq s /\ out s' = out s ++ posts /\ black s' = black s
  | Some status => exists m s1, decides e x m /\ pq s1 = pq s /\ out s1 = out s ++ posts /\ backup_len s' = backup_len s /\ black s' = black s /\
      let f := fate_with e m (is_first st) status x in settled (is_first st) f (reports status f x) s1 s'
  end.

Lemma splice_read x l : (length x <= length l)%nat -> take (length x) (splice 0 x l) = x /\ length (splice 0 x l) = length l.
Proof.
  intros H. pose proof (splice_prefix x (length x) l (Nat.le_refl _) H) as P. by rewrite firstn_all in P.
Qed.

(** The packet is given to the transmitter, and the status of a refusal reported. *)
Lemma give_ok e o st x X r s : env_ok e -> core s -> queue_state s = st -> st <> QS_IDLE -> view (pq s) (queue_of st) = x :: X ->
  holds UipBuf x s -> uip_len s = Z.of_nat (length x) ->
  wp (t ← ClassicZIPNode_input nodeOfIP nodemask_nodeid_is_invalid e o QueueSendDone r;
      if t : bool then mret tt else queue_send_done e TRANSMIT_COMPLETE_FAIL NullBuf 0)
    (fun _ s' => handled e st (answer o x s) x (if taken x s then [Transmit (txOpts s) (bSendNAck s) r x] else []) s s') s.
Proof.
  intros He H Hst Hi E Hb Hlen. destruct (head_buf s (queue_of st) x X H (ours_queue st) E) as (_ & _ & _ & _ & _ & _ & Hg).
  pose proof Hb as (_ & _ & t & Ht). cbn in Ht. pose proof Hg as [[Hlo Hhi] Hnz].
  assert (Hnode : node_of (uip_buf s) = node_of x) by (rewrite Ht; apply node_of_prefix; lia).
  unfold ClassicZIPNode_input. apply wp_bind, step_get. rewrite Hnode, Hlen. unfold answer, taken.
  destruct (nodemask_nodeid_is_invalid (node_of x)); cbn [negb andb].
  { apply wp_bind. eapply wp_mono; [apply (send_done_ok e st x X); done|]. intros [] s' (m & Hm & HS). apply end_ret, end_ret.
    exists m, s. rewrite app_nil_r. destruct (settled_rest _ _ _ _ _ HS) as (_ & H2 & H3 & H4). unfold black. by rewrite H2, H3, H4. }
  destruct (0 <? backup_len s) eqn:Hbl.
  { apply wp_bind. eapply wp_mono; [apply (send_done_ok e st x X); done|]. intros [] s' (m & Hm & HS). apply end_ret, end_ret.
    exists m, s. rewrite app_nil_r. destruct (settled_rest _ _ _ _ _ HS) as (_ & H2 & H3 & H4). unfold black. by rewrite H2, H3, H4. }
  apply Z.ltb_ge in Hbl. pose proof (core_backup_len _ H) as Hb0. assert (Hbz : backup_len s = 0) by lia.
  apply step_modify, wp_bind, wp_rds; [rewrite Ht, length_app; lia|]. rewrite Nat2Z.id, Ht. unfold sub. rewrite drop_0, take_app_length.
  pose proof (core_backup _ H) as Hbuf. assert (Hroom : (length x <= length (backup_buf s))%nat) by (rewrite Hbuf; unfold QUEUE_BUF_SIZE in Hhi; lia).
  destruct (splice_read x (backup_buf s) Hroom) as [Hpre Hsl]. set (l := splice 0 x (backup_buf s)) in *.
  apply wp_bind, wp_wrs; [done|]. fold l. apply step_modify. replace (node_of l) with (node_of x) by (rewrite <- Hpre at 1; apply node_of_take; lia).
  rewrite (proj2 (Z.eqb_neq _ _) Hnz). apply step_ret, step_modify. cbn [Z.ltb Z.compare negb].
  set (s1 := emit _ _). assert (T : transmits x s1).
  { split; try done; [|by unfold s1; cbn; rewrite Hst|by unfold s1; cbn; rewrite Hst; exists X].
    split; try apply H; [by unfold s1; cbn; rewrite Hsl|change (backup_len s1) with (Z.of_nat (length x)); lia]. }
  destruct o as [|status|].
  - apply end_ret, end_ret. split; [done|]. unfold s1. cbn. by rewrite Hst.
  - apply wp_bind. eapply wp_mono; [apply (completed_ok e status x s1 He T)|]. intros [] s' (m & Hm & HS). apply end_ret, end_ret.
    change (queue_state s1) with (queue_state s) in HS. rewrite Hst in HS.
    exists m, (cleared s1). destruct (settled_rest _ _ _ _ _ HS) as (_ & H2 & H3 & H4). unfold black. rewrite H2, H3, H4, Hbz. do 5 (split; [done|]). exact HS.
  - apply step_modify, end_ret. set (s2 := set_backup l 0 s1). assert (H2 : core s2).
    { pose proof (tr_core _ _ T) as T1. split; try apply T1. change (backup_len s2) with 0. lia. }
    eapply wp_mono; [apply (refused_ok e st x X s2 H2); done|]. intros [] s' HS.
    destruct (decides_some e x) as [m Hm]. exists m, s2. destruct (settled_rest _ _ _ _ _ HS) as (_ & H3 & H4 & H5). unfold black. rewrite H3, H4, H5, Hbz.
    do 5 (split; [done|]). unfold fate_with. cbn [Z.eqb Pos.eqb TRANSMIT_COMPLETE_FAIL TRANSMIT_COMPLETE_REQUEUE TRANSMIT_COMPLETE_REQUEUE_QUEUED TRANSMIT_COMPLETE_NO_ACK]. rewrite andb_false_r. exact HS.
Qed.

End Spec.
End NodeQueueSpec.
