(* ===== verification/NodeQueueRuns.v ===== *)
(** * Runs of the node queue (src/node_queue.c)

    The two queues are worked on one packet at a time, those of the first attempt before those of the long
    queue; every sequence of events keeps the invariant; and as long as the transmitter reports the end of
    each packet, both queues are emptied, with the packets that were not acknowledged tried again in order. *)
From S2P Require Import Prelude Effects Pool PacketQueue Crc32 NodeQueue NodeQueueSpec.
Import Effects PacketQueue NodeQueue NodeQueueSpec.

Module NodeQueueRuns.

Section Runs.
Context (nodeOfIP : list Z -> Z) (nodemask_nodeid_is_invalid : Z -> bool).
Abbreviation node_of := (node_of nodeOfIP).
Abbreviation core := (core nodeOfIP).
Abbreviation good := (good nodeOfIP).
Abbreviation transmits := (transmits nodeOfIP).
Abbreviation settled := (settled nodeOfIP).
Abbreviation handled := (handled nodeOfIP).
Abbreviation decides := (decides nodeOfIP).
Abbreviation fate_with := (fate_with nodeOfIP).
Abbreviation reports := (reports nodeOfIP).
Abbreviation taken := (taken nodeOfIP nodemask_nodeid_is_invalid).
Abbreviation answer := (answer nodeOfIP nodemask_nodeid_is_invalid).
Abbreviation step := (step nodeOfIP nodemask_nodeid_is_invalid).
Abbreviation run := (run nodeOfIP nodemask_nodeid_is_invalid).
Abbreviation process_node_queues := (process_node_queues nodeOfIP nodemask_nodeid_is_invalid).

Definition first_view (s : state) : list (list Z) := view (pq s) first_attempt_queue.
Definition long_view (s : state) : list (list Z) := view (pq s) long_queue.

(** ** One packet *)

(** The packet that is next, and how it is transmitted. *)
Definition next (s : state) : option (en_queue_state * list Z) :=
  match first_view s, long_view s with
  | x :: _, _ => Some (QS_SENDING_FIRST, x)
  | [], x :: _ => Some (QS_SENDING_LONG, x)
  | [], [] => None
  end.

Definition transmission (st : en_queue_state) (x : list Z) : output :=
  match st with
  | QS_SENDING_FIRST => Transmit TRANSMIT_OPTION_ACK false (isPacketRequeued x) x
  | _ => Transmit (Z.lor TRANSMIT_OPTION_ACK (Z.lor TRANSMIT_OPTION_AUTO_ROUTE TRANSMIT_OPTION_EXPLORE)) true (isPacketRequeued x) x
  end.

Definition probe (e : env) (x : list Z) : list output := if node_of x =? NM_get_newly_included_nodeid e then [ExtendProbe] else [].

Lemma len_view h q : uip_packetqueue_len h q = Z.of_nat (length (view q h)).
Proof. unfold uip_packetqueue_len, view. by rewrite length_fmap. Qed.

Lemma handled_uip e st o x posts s s' : handled e st o x posts s s' -> handled e st o x posts s (set_uip (uip_buf s') 0 s').
Proof.
  destruct o as [status|].
  - intros (m & s1 & Hm & Hq & Ho & Hb & Hbl & [Hc Hi Ht Hr Hp Hv Hf]). exists m, s1. do 5 (split; [done|]). split; try done. by apply (core_ext _ s').
  - intros ([Hc Hs Hcb Hl Hb Hh] & Hst & Hq & Ho & Hbl). split; [|done]. split; try done. by apply (core_ext _ s').
Qed.

(** The transmission of the next packet. *)
Lemma process_next e o st x s : env_ok e -> core s -> queue_state s = QS_IDLE -> next s = Some (st, x) ->
  wp (process_node_queues e o) (fun _ s' => exists s0, pq s0 = pq s /\ out s0 = out s ++ probe e x /\ backup_len s0 = backup_len s /\ black s0 = black s /\
    handled e st (answer o x s) x (if taken x s then [transmission st x] else []) s0 s') s.
Proof.
  intros He H Hidle Hn.
  assert (Hq : exists X, view (pq s) (queue_of st) = x :: X /\ st <> QS_IDLE).
  { revert Hn. unfold next, first_view, long_view. destruct (view (pq s) first_attempt_queue) as [|y Y] eqn:EF; [destruct (view (pq s) long_queue) as [|y Y] eqn:EL; [done|]|].
    all: intros [= <- <-]; exists Y; by split. }
  destruct Hq as (X & E & Hst). destruct (head_buf _ s (queue_of st) x X H (ours_queue st) E) as (buf & Ebuf & (t & Et) & Hlb & Hbl & Hnb & Hg).
  unfold NodeQueue.process_node_queues. apply step_get. rewrite bool_decide_eq_true_2 by done.
  set (s1 := set_queue_state st (set_tx (match st with QS_SENDING_FIRST => TRANSMIT_OPTION_ACK | _ => Z.lor TRANSMIT_OPTION_ACK (Z.lor TRANSMIT_OPTION_AUTO_ROUTE TRANSMIT_OPTION_EXPLORE) end)
      (match st with QS_SENDING_FIRST => false | _ => true end) (match st with QS_SENDING_FIRST => set_queue_timer (Some 800) s | _ => s end))).
  apply wp_bind. eapply (wp_mono _ (fun q s' => s' = s1 /\ q = Some (queue_of st))).
  { rewrite !len_view. revert Hn. unfold next, first_view, long_view.
    destruct (view (pq s) first_attempt_queue) as [|y Y]; [destruct (view (pq s) long_queue) as [|y Y]; [done|]|];
      intros [= <- <-]; cbn [length]; rewrite ?(proj2 (Z.eqb_neq _ _)) by lia; cbn [negb Z.eqb Z.of_nat]; done. }
  intros q s' (-> & ->). destruct Hg as [[Hlo Hhi] Hnz]. rewrite Hbl, Ebuf. apply step_modify.
  rewrite (proj2 (Z.eqb_neq _ _)) by lia. cbn [negb of_option]. apply step_ret.
  apply wp_bind, wp_rds; [rewrite Hlb; lia|]. rewrite Nat2Z.id, Et. unfold sub. rewrite drop_0, take_app_length.
  pose proof (core_uip _ _ H) as Hu. destruct (splice_read x (uip_buf s)) as [Hpre Hsl]; [by rewrite Hu|].
  apply wp_bind, wp_wrs; [by rewrite Hu|]. set (l := splice 0 x (uip_buf s)) in *. apply step_modify.
  replace (node_of l) with (node_of x) by (rewrite <- Hpre at 1; apply node_of_take; lia). rewrite (proj2 (Z.eqb_neq _ _) Hnz). apply step_ret.
  assert (Hreq : isPacketRequeued (x ++ t) = isPacketRequeued x) by (destruct x; [cbn in Hlo; lia|done]). rewrite Hreq.
  set (s2 := set_uip l (Z.of_nat (length x)) _).
  set (s3 := if node_of x =? NM_get_newly_included_nodeid e then emit ExtendProbe s2 else s2).
  apply wp_bind. eapply (wp_mono _ (fun _ s' => s' = s3)).
  { unfold s3. by destruct (node_of x =? _). }
  intros [] ? ->. apply wp_assoc.
  assert (F : pq s3 = pq s /\ out s3 = out s ++ probe e x /\ backup_len s3 = backup_len s /\ black s3 = black s /\ queue_state s3 = st /\
      uip_buf s3 = l /\ uip_len s3 = Z.of_nat (length x) /\ backup_buf s3 = backup_buf s /\
      Transmit (txOpts s3) (bSendNAck s3) (isPacketRequeued x) x = transmission st x).
  { unfold s3, probe, s2, s1. destruct (node_of x =? _), st; cbn; rewrite ?app_nil_r; done. }
  destruct F as (Fq & Fo & Fb & Fbl & Fst & Fu & Fn & Fbb & Ft). injection Fbl as Fbl1 Fbl2.
  assert (H3 : core s3) by (apply (core_ext _ s _ H); rewrite ?Fu, ?Fbb; done).
  eapply wp_mono; [apply (give_ok _ _ e o st x X (isPacketRequeued x) s3 He H3 Fst Hst)|].
  - by rewrite Fq.
  - split; [done|]. cbn [contents]. rewrite Fu, Hsl, Hu. split; [done|]. exists (drop (length x) l). rewrite <- Hpre at 1. by rewrite take_drop.
  - done.
  - intros [] s' Hh. apply end_modify. exists s3. unfold black. rewrite Fbl1, Fbl2. do 4 (split; [done|]). apply handled_uip.
    unfold NodeQueueSpec.answer, NodeQueueSpec.taken in *. by rewrite Fb, Ft in Hh.
Qed.

(** Nothing to do. *)
Lemma process_none e o s (Q : unit -> state -> Prop) : queue_state s <> QS_IDLE \/ next s = None -> Q tt (emit ComponentDone s) -> wp (process_node_queues e o) Q s.
Proof.
  intros H HQ. unfold NodeQueue.process_node_queues. apply step_get. case_bool_decide as E.
  - destruct H as [?|H]; [done|]. rewrite !len_view. unfold next, first_view, long_view in H.
    destruct (view (pq s) first_attempt_queue), (view (pq s) long_queue); done.
  - by apply step_ret, end_modify.
Qed.

(** ** The invariant *)

Definition inv (s : state) : Prop := core s /\ (queue_state s = QS_IDLE \/ exists x, transmits x s).

(** The packet being transmitted is the block [i]. *)
Definition in_flight (s : state) (i : nat) : Prop := queue_state s <> QS_IDLE /\ head (list_of (pq s) (queue_of (queue_state s))) = Some i.

(** A packet as it comes from the IP stack or the mailbox: in a full buffer, with its header, for a node. *)
Definition packet_ok (buf : list Z) (len : Z) : Prop :=
  length buf = QUEUE_BUF_SIZE /\ Z.of_nat UIP_IPH_LEN < len <= Z.of_nat QUEUE_BUF_SIZE /\ node_of buf <> 0.

(** What happens, and when: in particular, not the end of the lifetime of the packet being transmitted, and
    the queues of others are not these two. *)
Definition legal (s : state) (ev : event) : Prop :=
  match ev with
  | Input e buf len _ => env_ok e /\ packet_ok buf len
  | MailboxSend e _ buf len => env_ok e /\ packet_ok buf len
  | Process e _ | Completed e _ => env_ok e
  | Lifetime i => ~ in_flight s i
  | OtherAlloc h data _ => ~ ours h /\ (length data <= QUEUE_BUF_SIZE)%nat
  | OtherPop h | OtherNew h => ~ ours h
  | QueueTimer | Init => True
  end.

Lemma inv_ext s s' : inv s -> core s' -> queue_state s' = queue_state s -> cbCompletedFunc s' = cbCompletedFunc s -> backup_buf s' = backup_buf s ->
  backup_len s' = backup_len s -> (queue_state s <> QS_IDLE -> forall x X, view (pq s) (queue_of (queue_state s)) = x :: X ->
    exists X', view (pq s') (queue_of (queue_state s)) = x :: X') -> inv s'.
Proof.
  intros [H [Hi|(x & [Hc Hs Hcb Hl Hb (X & E)])]] H' Eq Ec Eb El Hv; (split; [done|]).
  - left. by rewrite Eq.
  - right. exists x. split; rewrite ?Eq, ?Ec, ?Eb, ?El; try done. by apply (Hv Hs x X).
Qed.

Lemma inv_emit o s : inv s -> inv (emit o s).
Proof. intros H. apply (inv_ext s _ H); try done; [by apply (core_ext _ s); [apply H|..]|intros _ y X E; by exists X]. Qed.

Lemma inv_uip u n s : inv s -> length u = QUEUE_BUF_SIZE -> inv (set_uip u n s).
Proof. intros H Hu. apply (inv_ext s _ H); try done; [by apply core_uip_set; [apply H|]|intros _ y X E; by exists X]. Qed.

Lemma inv_uip_len s : inv s -> inv (set_uip (uip_buf s) 0 s).
Proof. intros H. apply inv_uip; [done|]. apply (core_uip _ _ (proj1 H)). Qed.

Lemma inv_idle s : core s -> queue_state s = QS_IDLE -> inv s.
Proof. intros H E. split; [done|by left]. Qed.

(** The queues of this component are as before. *)
Lemma inv_same_views o q s : inv s -> queues_ok o q -> (forall h, ours h -> view q h = view (pq s) h) -> inv (set_pq q s).
Proof.
  intros H Hq Hv. apply (inv_ext s _ H); try done.
  - apply (core_queues _ o q s (proj1 H) Hq). intros h x Hh. rewrite Hv by done. by left.
  - intros _ x X E. exists X. cbn. rewrite Hv; [done|apply ours_queue].
Qed.

(** ** Every event *)

Lemma prefix_of buf len : packet_ok buf len -> exists x t, buf = x ++ t /\ len = Z.of_nat (length x) /\ good x.
Proof.
  intros (Hb & Hl & Hn). assert (Hx : length (take (Z.to_nat len) buf) = Z.to_nat len) by (rewrite length_take, Hb; lia).
  exists (take (Z.to_nat len) buf), (drop (Z.to_nat len) buf). rewrite take_drop, Hx. split; [done|]. split; [lia|].
  split; [rewrite Hx; lia|]. rewrite node_of_take by lia. exact Hn.
Qed.

Lemma add_fingerprint_ok s (Q : unit -> state -> Prop) : core s -> (forall l n, core (set_black_list l n s) -> Q tt (set_black_list l n s)) ->
  wp add_fingerprint_uip_buf Q s.
Proof.
  intros H HQ. unfold add_fingerprint_uip_buf. apply step_get. destruct (core_black _ _ H) as [Hl Hn]. unfold BLACKLIST_LENGTH in *.
  apply wp_bind, wp_wr; [rewrite Hl; lia|]. apply end_modify, HQ. split; try apply H. cbn [black_list_crc32 black_list_n set_black_list].
  rewrite length_insert. split; [done|]. unfold BLACKLIST_LENGTH. destruct (Z.leb_spec 2 (black_list_n s + 1)); lia.
Qed.

Lemma input_ok e buf len d s : inv s -> env_ok e -> packet_ok buf len -> wp (step (Input e buf len d)) (fun _ s' => inv s') s.
Proof.
  intros H He Hp. pose proof Hp as (Hb & Hlen & Hn). destruct (prefix_of buf len Hp) as (x & t & Ex & El & Hg).
  set (s1 := set_uip buf len s). assert (H1 : core s1) by (by apply core_uip_set; [apply H|]).
  assert (I1 : inv s1) by (by apply inv_uip).
  unfold NodeQueue.step. apply step_modify. fold s1. apply wp_bind. unfold node_input_queued. apply step_get.
  change (uip_buf s1) with buf. change (uip_len s1) with len.
  destruct (port_ok buf (UIP_IPH_LEN + uip_ext_len e + 2)) as [p Ep]; [unfold env_ok in He; lia|]. apply wp_bind, (wp_lift _ p); [done|].
  destruct ((p =? DTLS_PORT) && negb d).
  { apply step_modify, step_modify, end_ret, end_ret. by apply inv_emit, inv_uip. }
  assert (Hat : forall i, (Z.to_nat i < QUEUE_BUF_SIZE)%nat -> exists c, buf !! Z.to_nat i = Some c).
  { intros i Hi. by apply lookup_lt_is_Some_2; rewrite Hb. }
  apply wp_bind, (wp_mono _ (fun _ s' => s' = s1)).
  { destruct ((p =? DTLS_PORT) || (p =? ZWAVE_PORT)); [|by apply end_ret].
    destruct (Hat 48) as [c0 E0]; [cbn; lia|]. destruct (Hat 49) as [c1 E1]; [cbn; lia|].
    apply wp_bind, (wp_rd _ _ c0); [done|]. apply wp_bind, (wp_rd _ _ c1); [done|]. by apply end_ret. }
  intros [] s' ->.
  { destruct (Hat 50) as [c2 E2]; [cbn; lia|]. apply wp_bind, (wp_rd _ _ c2); [done|]. unfold handle_keep_alive.
    destruct (has_bits c2 _); [apply step_modify|apply step_ret]; apply end_ret, end_ret; [by apply inv_emit|done]. }
  destruct (check_fingerprint_uip_buf s1); [by apply end_ret, end_ret|].
  apply wp_bind, add_fingerprint_ok; [done|]. intros l n H2. set (s2 := set_black_list l n s1) in *.
  rewrite (proj2 (Z.ltb_lt _ _)) by lia. apply step_ret.
  match goal with |- context [enqueue (if ?c then _ else _)] => set (h := if c then long_queue else first_attempt_queue) end. rewrite El, Ex.
  apply wp_bind. eapply wp_mono; [exact (enqueue_ok _ h _ x t s2 H2 Hg eq_refl)|]. intros b s3 (-> & q & -> & H3 & Hv & _).
  apply step_modify, end_ret, end_ret. apply inv_emit, (inv_ext s1 _ I1); try done. intros _ y X E.
  eexists. cbn [pq set_pq]. rewrite Hv. change (pq s2) with (pq s1). rewrite E. reflexivity.
Qed.

Lemma mailbox_send_ok e o buf len s : inv s -> env_ok e -> packet_ok buf len -> wp (step (MailboxSend e o buf len)) (fun _ s' => inv s') s.
Proof.
  intros H He Hp. pose proof Hp as (Hb & Hlen & Hn). destruct (prefix_of buf len Hp) as (x & t & Ex & El & Hg).
  set (s1 := set_uip buf len s). assert (H1 : core s1) by (by apply core_uip_set; [apply H|]).
  assert (I1 : inv s1) by (by apply inv_uip).
  unfold NodeQueue.step. apply step_modify. fold s1. apply wp_bind. unfold ClassicZIPNode_input. apply step_get.
  change (uip_buf s1) with buf. change (uip_len s1) with len.
  destruct (nodemask_nodeid_is_invalid (node_of buf)); [by apply step_modify, end_ret, end_modify, inv_uip_len, inv_emit|].
  destruct (0 <? backup_len s1) eqn:Hbl; [by apply step_modify, end_ret, end_modify, inv_uip_len, inv_emit|]. apply Z.ltb_ge in Hbl.
  assert (Hidle : queue_state s = QS_IDLE).
  { destruct H as [_ [?|(y & T)]]; [done|]. pose proof (tr_len _ _ _ T) as Ty. destruct (tr_head _ _ _ T) as (X & EX).
    pose proof (core_good _ _ (tr_core _ _ _ T) _ y (ours_queue (queue_state s))) as Gy. rewrite EX in Gy. destruct Gy as [Gy _]; [left|].
    change (backup_len s1) with (backup_len s) in Hbl. unfold UIP_IPH_LEN in Gy. lia. }
  apply step_modify, wp_bind, wp_rds; [rewrite Hb; lia|]. rewrite El, Nat2Z.id, Ex. unfold sub. rewrite drop_0, take_app_length.
  pose proof (core_backup _ _ H1) as Hbuf. destruct Hg as [[Hlo Hhi] Hnz].
  destruct (splice_read x (backup_buf s1)) as [Hpre Hsl]; [rewrite Hbuf; unfold QUEUE_BUF_SIZE in Hhi; lia|].
  apply wp_bind, wp_wrs; [rewrite Hbuf; unfold QUEUE_BUF_SIZE in Hhi; lia|]. set (l := splice 0 x (backup_buf s1)) in *. apply step_modify.
  replace (node_of l) with (node_of x) by (rewrite <- Hpre at 1; apply node_of_take; lia). rewrite (proj2 (Z.eqb_neq _ _) Hnz). apply step_ret, step_modify.
  set (s2 := emit _ _). assert (H2 : core s2).
  { split; try apply H1; [change (backup_buf s2) with l; by rewrite Hsl|]. change (backup_len s2) with (Z.of_nat (length x)). lia. }
  destruct o as [|status|].
  - apply end_ret, end_modify, inv_uip_len. by apply inv_idle.
  - apply wp_bind. unfold ClassicZIPNode_CallSendCompleted_cb. apply step_get, step_modify, step_modify, end_modify, end_ret, end_modify, inv_uip_len.
    apply inv_idle; [|done]. apply (core_ext _ (cleared s2)); try done. by apply core_cleared.
  - apply step_modify, end_ret, end_modify, inv_uip_len. apply inv_idle; [|done]. split; try apply H2. change (backup_len _) with 0. lia.
Qed.

Lemma completed_inv e status s : inv s -> env_ok e -> wp (step (Completed e status)) (fun _ s' => inv s') s.
Proof.
  intros [H [Hi|(x & T)]] He.
  - cbn. unfold ClassicZIPNode_CallSendCompleted_cb. apply step_get, step_modify, step_modify. pose proof (core_cleared _ _ H) as Hc.
    destruct (cbCompletedFunc s) as [[]|]; [|apply end_modify|apply end_ret].
    + apply stray_ok; [done|]. apply inv_idle; [|done]. by apply (core_ext _ (cleared s)).
    + apply inv_idle; [|done]. by apply (core_ext _ (cleared s)).
    + by apply inv_idle.
  - eapply wp_mono; [apply (completed_ok _ e status x s He T)|]. intros [] s' (m & _ & HS). apply inv_idle; [apply (settled_core _ _ _ _ _ _ HS)|apply (settled_idle _ _ _ _ _ _ HS)].
Qed.

Lemma process_inv e o s : inv s -> env_ok e -> wp (step (Process e o)) (fun _ s' => inv s') s.
Proof.
  intros H He. pose proof (inv_emit ComponentDone s H) as Hnone.
  destruct (decide (queue_state s = QS_IDLE)) as [Hi|Hi]; [|apply process_none; [by left|done]].
  destruct (next s) as [[st x]|] eqn:En; [|apply process_none; [by right|done]].
  eapply wp_mono; [apply (process_next e o st x s He (proj1 H) Hi En)|]. intros [] s' (s0 & _ & _ & _ & _ & Hh).
  destruct (answer o x s) as [status|].
  - destruct Hh as (m & s1 & _ & _ & _ & _ & _ & HS). apply inv_idle; [apply (settled_core _ _ _ _ _ _ HS)|apply (settled_idle _ _ _ _ _ _ HS)].
  - destruct Hh as (T & _). split; [apply T|right; by exists x].
Qed.

Lemma list_remove_sub i j l : j ∈ Pool.list_remove i l -> j ∈ l.
Proof.
  destruct (decide (i ∈ l)) as [Hi|Hi]; [|by rewrite Pool.list_remove_none]. rewrite (Pool.list_remove_perm i l Hi) at 2. by right.
Qed.

(** The end of the lifetime of a packet that waits. *)
Lemma lifetime_inv i s : inv s -> ~ in_flight s i -> wp (step (Lifetime i)) (fun _ s' => inv s') s.
Proof.
  intros H Hf. cbn. apply step_get. destruct (lifetimer (packet (pq s) i)) as [z|] eqn:Ez; [|by apply end_ret].
  apply end_modify. destruct (core_pool _ _ (proj1 H)) as [o Ho]. assert (Hi : i ∈ o) by (apply (qs_timers _ _ Ho); by rewrite Ez).
  destruct (lifetime_ok o (pq s) i Ho Hi) as (o' & Hp & Hq & R). set (q := lifetime_over i (pq s)) in *.
  assert (Hni : ~ i ∈ o').
  { pose proof (Pool.pool_nodup _ _ _ (qs_pool _ _ Ho)) as Hnd. rewrite Hp in Hnd. by apply list.NoDup_cons in Hnd as [? _]. }
  assert (Hsub : forall h j, j ∈ list_of q h -> j ∈ list_of (pq s) h /\ packet q j = packet (pq s) j).
  { intros h j Hj. split; [|apply (removed_packets _ _ _ _ R); intros ->; by apply (qs_lists _ _ Hq) in Hj as [? _]].
    destruct (decide (h = handle (packet (pq s) i))) as [->|Hh]; [|by rewrite (removed_other _ _ _ _ R) in Hj].
    rewrite (removed_here _ _ _ _ R) in Hj. by apply list_remove_sub in Hj. }
  apply (inv_ext s _ H); try done.
  - apply (core_queues _ o' q s (proj1 H) Hq). intros h x _ (j & -> & [Hj Ep]%Hsub)%list_elem_of_fmap. left. rewrite Ep.
    apply (list_elem_of_fmap_2 (fun k => frame (packet (pq s) k))). exact Hj.
  - intros Hst x X E. cbn. destruct (view_cons _ _ _ _ E) as (j & l & El & Ex). assert (Hji : j <> i).
    { intros ->. apply Hf. split; [done|]. by rewrite El. }
    assert (Hl : exists l', list_of q (queue_of (queue_state s)) = j :: l').
    { destruct (decide (queue_of (queue_state s) = handle (packet (pq s) i))) as [Eh|Hh]; [|rewrite (removed_other _ _ _ _ R), El by done; by exists l].
      rewrite Eh, (removed_here _ _ _ _ R), <- Eh, El. cbn [Pool.list_remove]. rewrite (proj2 (Nat.eqb_neq _ _)) by congruence. by eexists. }
    destruct Hl as [l' El']. exists ((fun k => frame (packet q k)) <$> l'). unfold view. rewrite El', fmap_cons. f_equal.
    rewrite (removed_packets _ _ _ _ R); [done|congruence].
Qed.

Lemma pop_all_ok n h o q : queues_ok o q -> exists o', queues_ok o' (pop_all n h q).
Proof.
  revert o q. induction n as [|n IH]; intros o q H; [by exists o|]. cbn. destruct (_ =? 0); [by exists o|].
  destruct (pop_other o q h H) as (o' & H' & _). by apply (IH o').
Qed.

Lemma view_new h q h' : view (uip_packetqueue_new h q) h' = if decide (h' = h) then [] else view q h'.
Proof. unfold view, uip_packetqueue_new. rewrite list_of_insert. by destruct (decide (h' = h)). Qed.

(** After [node_queue_init] both queues are empty. *)
Lemma init_ok s : core s -> wp node_queue_init (fun _ s' => core s' /\ queue_state s' = QS_IDLE /\ first_view s' = [] /\ long_view s' = []) s.
Proof.
  intros H. unfold node_queue_init. apply step_get. destruct (core_pool _ _ H) as [o Ho]. apply wp_bind.
  apply (wp_mono _ (fun _ s' => exists o' q, queues_ok o' q /\ s' = set_pq q s)).
  - destruct (bool_decide _); [apply end_ret; exists o, (pq s); by destruct s|]. apply step_modify, end_modify.
    destruct (pop_all_ok (length (list_of (pq s) first_attempt_queue)) first_attempt_queue o (pq s) Ho) as [o1 H1].
    destruct (pop_all_ok (length (list_of (pop_all (length (list_of (pq s) first_attempt_queue)) first_attempt_queue (pq s)) long_queue)) long_queue o1 _ H1) as [o2 H2].
    by eexists o2, _.
  - intros [] s' (o' & q & Hq & ->). apply step_modify, step_modify, end_modify. unfold first_view, long_view. cbn. rewrite !view_new. cbn.
    split; [|done]. pose proof (new_ok _ _ long_queue (new_ok _ _ first_attempt_queue Hq)) as Hn.
    split; try apply H; [by exists o'|]. intros h x Hh. cbn. rewrite !view_new. by destruct Hh as [-> | ->]; cbn; intros ?%elem_of_nil.
Qed.

(** Every event that is legal is carried out without a fault, and keeps the invariant. *)
Lemma step_ok ev s : inv s -> legal s ev -> wp (step ev) (fun _ s' => inv s') s.
Proof.
  intros H L. destruct (core_pool _ _ (proj1 H)) as [o Ho].
  destruct ev as [e buf len d|e oc|e status|e oc buf len| |i|h data t|h|h|].
  - by apply input_ok; [|apply L..].
  - by apply process_inv.
  - by apply completed_inv.
  - by apply mailbox_send_ok; [|apply L..].
  - cbn. apply step_get. destruct (queue_timer s); [|by apply end_ret]. apply step_modify, end_modify, inv_emit.
    apply (inv_ext s _ H); try done; [by apply (core_ext _ s); [apply H|..]|intros _ y X E; by exists X].
  - by apply lifetime_inv.
  - destruct L as [Hh Hd]. cbn. unfold wp. destruct (alloc_view o (pq s) h data (length data) t Ho (Nat.le_refl _) Hd) as (p & q & o' & E & _ & Hq & Hv & _).
    rewrite E. apply (inv_same_views o' q s H Hq). intros h' Hh'. rewrite Hv, decide_False, app_nil_r; [done|by intros ->].
  - apply end_modify. destruct (pop_other o (pq s) h Ho) as (o' & Hq & Hv). apply (inv_same_views o' _ s H Hq).
    intros h' Hh'. apply Hv. by intros ->.
  - apply end_modify. apply (inv_same_views o _ s H (new_ok o (pq s) h Ho)). intros h' Hh'. rewrite view_new, decide_False; [done|by intros ->].
  - eapply wp_mono; [apply (init_ok s (proj1 H))|]. intros [] s' (Hc & Hi & _). by apply inv_idle.
Qed.

Lemma inv_state0 : inv state0.
Proof.
  apply inv_idle; [|done]. split.
  - exists []. exact queues0_ok.
  - by vm_compute.
  - by vm_compute.
  - by vm_compute.
  - vm_compute. by split.
  - intros h x _ Hx. by apply elem_of_nil in Hx.
Qed.

(** The states in which events find the node queue. *)
Inductive reachable : state -> Prop :=
| reach_init : reachable state0
| reach_step s ev s' : reachable s -> legal s ev -> step ev s = Ok (tt, s') -> reachable s'.

Lemma reachable_inv s : reachable s -> inv s.
Proof.
  induction 1 as [|s ev s' _ IH L E]; [exact inv_state0|]. pose proof (step_ok ev s IH L) as W. unfold wp in W. by rewrite E in W.
Qed.

(** C24: Whatever sequence of events the node queue has seen - packets from the LAN, updates, ends of
    transmissions with any status, transmissions of the mailbox, timers, other users of the pool of packets, and
    restarts -, the next one is carried out: no access outside a buffer and no failed assertion.  And while a packet
    is being transmitted, it is the first of its queue, and [ClassicZIPNode] holds a copy of it for which it will
    call [queue_send_done].  Left out is the end of the lifetime of the packet being transmitted. *)
Theorem node_queue_safe s ev : reachable s -> legal s ev ->
  (exists s', step ev s = Ok (tt, s') /\ reachable s') /\
  (queue_state s <> QS_IDLE -> exists X, cbCompletedFunc s = Some QueueSendDone /\
     view (pq s) (queue_of (queue_state s)) = take (Z.to_nat (backup_len s)) (backup_buf s) :: X).
Proof.
  intros R L. pose proof (reachable_inv s R) as H. split.
  - destruct (wp_run _ _ _ (step_ok ev s H L)) as ([] & s' & E & _). exists s'. split; [done|]. by apply (reach_step s ev).
  - intros Hst. destruct H as [_ [?|(x & [_ _ Hc Hl Hb (X & E)])]]; [done|]. exists X. split; [done|]. by rewrite E, Hl, Nat2Z.id, Hb.
Qed.

(** ** Delivery *)

(** How one attempt ends: the end is reported later, or at once, or the packet is refused. *)
Inductive try := Later (status : Z) | Now (status : Z) | Refused.
Definition status_of (t : try) : Z := match t with Later status | Now status => status | Refused => TRANSMIT_COMPLETE_FAIL end.
Definition attempt (et : env * try) : list event :=
  let (e, t) := et in
  match t with Later status => [Process e Pending; Completed e status] | Now status => [Process e (Finished status)] | Refused => [Process e NotReady] end.

(** An attempt that does not ask for the packet to be queued again as it is. *)
Definition final (et : env * try) : Prop :=
  env_ok et.1 /\ status_of et.2 <> TRANSMIT_COMPLETE_REQUEUE /\ status_of et.2 <> TRANSMIT_COMPLETE_REQUEUE_QUEUED.

(** The calls of one attempt: the packet is transmitted, what became of it is reported, and the next attempt
    asked for. *)
Definition attempt_out (st : en_queue_state) (et : env * try) (x : list Z) : list output :=
  let (e, t) := et in
  probe e x ++ [transmission st x] ++ reports (status_of t) (fate_of nodeOfIP e (is_first st) (status_of t) x) x.

(** The packet of a first attempt that is to be tried again. *)
Definition again (et : env * try) (x : list Z) : list (list Z) :=
  match fate_of nodeOfIP et.1 true (status_of et.2) x with ToLong y => [y] | _ => [] end.

(** The packet is for a node, and long enough to see whether it is for the mailbox. *)
Definition clear (et : env * try) (x : list Z) : Prop :=
  nodemask_nodeid_is_invalid (node_of x) = false /\ exists b, is_wu_no_more_info_frame et.1 x = Ok b.

(** Idle, with the packets [F] and [L], and room for one more. *)
Record ready (F L : list (list Z)) (s : state) : Prop := {
  rdy_core : core s;
  rdy_idle : queue_state s = QS_IDLE;
  rdy_free : backup_len s = 0;
  rdy_room : 0 < uip_packetqueue_free_len (pq s);
  rdy_first : first_view s = F;
  rdy_long : long_view s = L
}.

Lemma settled_ready first f posts s s' F L : settled first f posts s s' -> backup_len s' = 0 -> 0 < uip_packetqueue_free_len (pq s) ->
  settle first true f (first_view s) (long_view s) = (F, L) -> ready F L s' /\ out s' = out s ++ posts.
Proof.
  intros [Hc Hi Ht Hr Ho Hv Hf] Hb Hroom E. unfold room in Hv. rewrite (proj2 (Z.ltb_lt _ _) Hroom) in Hv.
  fold (first_view s) (long_view s) in Hv. rewrite E in Hv. injection Hv as EF EL. split; [|done]. split; try done. lia.
Qed.

Lemma node_attempt_ok et st x F L F' L' s : ready F L s -> final et -> next s = Some (st, x) -> nodemask_nodeid_is_invalid (node_of x) = false ->
  (forall m, decides et.1 x m -> fate_with et.1 m (is_first st) (status_of et.2) x = fate_of nodeOfIP et.1 (is_first st) (status_of et.2) x) ->
  settle (is_first st) true (fate_of nodeOfIP et.1 (is_first st) (status_of et.2) x) F L = (F', L') ->
  wp (run (attempt et)) (fun _ s' => ready F' L' s' /\ out s' = out s ++ attempt_out st et x) s.
Proof.
  destruct et as [e t]. cbn [fst snd]. intros [H Hi Hb Hroom EF EL] (He & Hs1 & Hs2) Hn Hv Hm HE. cbn [fst snd] in He, Hs1, Hs2.
  assert (Ht : taken x s = true) by (unfold NodeQueueSpec.taken; by rewrite Hv, Hb).
  assert (Ha : forall o, answer o x s = match o with Pending => None | Finished status => Some status | NotReady => Some TRANSMIT_COMPLETE_FAIL end).
  { intros o. unfold NodeQueueSpec.answer. by rewrite Hv, Hb. }
  assert (Hend : forall s1 s', settled (is_first st) (fate_of nodeOfIP e (is_first st) (status_of t) x) (reports (status_of t) (fate_of nodeOfIP e (is_first st) (status_of t) x) x) s1 s' ->
      backup_len s' = 0 -> pq s1 = pq s -> out s1 = out s ++ probe e x ++ [transmission st x] -> ready F' L' s' /\ out s' = out s ++ attempt_out st (e, t) x).
  { intros s1 s' HS Hb' Hq Ho. destruct (settled_ready _ _ _ _ _ F' L' HS Hb') as [HR HO].
    - by rewrite Hq.
    - unfold first_view, long_view. rewrite Hq. fold (first_view s) (long_view s). by rewrite EF, EL.
    - split; [done|]. rewrite HO, Ho. unfold attempt_out. by rewrite <- !app_assoc. }
  assert (Hnow : forall o status, answer o x s = Some status -> status = status_of t ->
      wp (run [Process e o]) (fun _ s' => ready F' L' s' /\ out s' = out s ++ attempt_out st (e, t) x) s).
  { intros o status Ea ->. cbn [NodeQueue.run]. apply wp_bind. eapply wp_mono; [apply (process_next e o st x s He H Hi Hn)|].
    intros [] s' (s0 & Eq & Eo & Eb & _ & Hh). rewrite Ea, Ht in Hh. destruct Hh as (m & s1 & Hd & Eq1 & Eo1 & Eb1 & _ & HS). apply end_ret.
    cbv zeta in HS. rewrite (Hm m Hd) in HS. apply (Hend s1 s' HS); [by rewrite Eb1, Eb|by rewrite Eq1|by rewrite Eo1, Eo, app_assoc]. }
  destruct t as [status|status|]; cbn [attempt].
  - cbn [NodeQueue.run]. apply wp_bind. eapply wp_mono; [apply (process_next e Pending st x s He H Hi Hn)|].
    intros [] s1 (s0 & Eq & Eo & Eb & _ & Hh). rewrite (Ha Pending), Ht in Hh. destruct Hh as (T & Est & Eq1 & Eo1 & _).
    apply wp_bind. eapply wp_mono; [apply (completed_ok _ e status x s1 He T)|]. intros [] s' (m & Hd & HS). apply end_ret.
    rewrite Est in HS. cbv zeta in HS. cbn [status_of] in *. rewrite (Hm m Hd) in HS. apply (Hend (cleared s1) s' HS).
    + destruct (settled_rest _ _ _ _ _ _ HS) as (_ & E & _). by rewrite E.
    + cbn. by rewrite Eq1.
    + cbn. by rewrite Eo1, Eo, app_assoc.
  - apply (Hnow (Finished status) status); [by rewrite Ha|done].
  - apply (Hnow NotReady TRANSMIT_COMPLETE_FAIL); [by rewrite Ha|done].
Qed.

Lemma run_app l1 l2 s : run (l1 ++ l2) s = (run l1 ≫= fun _ => run l2) s.
Proof.
  revert s. induction l1 as [|ev l1 IH]; intros s; [done|]. cbn. unfold mbind, Eff_bind. destruct (step ev s) as [[[] s']|]; [|done]. by rewrite IH.
Qed.

Lemma wp_run_app l1 l2 Q s : wp (run l1) (fun _ s' => wp (run l2) Q s') s -> wp (run (l1 ++ l2)) Q s.
Proof. intros H. unfold wp. rewrite run_app. exact (wp_bind _ _ _ _ H). Qed.

(** The packets of the long queue, one after the other. *)
Lemma drain_long ts L s : ready [] L s -> length ts = length L -> Forall final ts -> Forall (fun x => nodemask_nodeid_is_invalid (node_of x) = false) L ->
  wp (run (concat (attempt <$> ts))) (fun _ s' => ready [] [] s' /\ out s' = out s ++ concat (zip_with (attempt_out QS_SENDING_LONG) ts L)) s.
Proof.
  revert L s. induction ts as [|et ts IH]; intros [|x L] s R El Hf Hv; try done.
  { apply end_ret. split; [done|]. by rewrite app_nil_r. }
  apply list.Forall_cons in Hf as [Hf1 Hf]. apply list.Forall_cons in Hv as [Hv1 Hv]. cbn [fmap list_fmap concat zip_with]. apply wp_run_app.
  assert (Hfate : forall m, fate_with et.1 m false (status_of et.2) x = Gone).
  { intros m. destruct Hf1 as (_ & H1 & H2). unfold NodeQueueSpec.fate_with. by rewrite (proj2 (Z.eqb_neq _ _) H1), (proj2 (Z.eqb_neq _ _) H2). }
  eapply wp_mono.
  - apply (node_attempt_ok et QS_SENDING_LONG x [] (x :: L) [] L s R Hf1); [|done| |].
    + unfold next. by rewrite (rdy_first _ _ _ R), (rdy_long _ _ _ R).
    + intros m _. by rewrite <- (fate_with_of _ et.1 _ _ _ x eq_refl), !Hfate.
    + rewrite <- (fate_with_of _ et.1 _ _ _ x eq_refl). change (is_first QS_SENDING_LONG) with false. by rewrite Hfate.
  - intros [] s1 [R1 O1]. injection El as El. eapply wp_mono; [apply (IH L s1 R1 El Hf Hv)|]. intros [] s' [R' O']. split; [done|].
    by rewrite O', O1, app_assoc.
Qed.

(** The packets of the first attempt, while those to be tried again join the long queue. *)
Lemma drain_first ts F L s : ready F L s -> Forall2 clear ts F -> Forall final ts ->
  wp (run (concat (attempt <$> ts))) (fun _ s' => ready [] (L ++ concat (zip_with again ts F)) s' /\
    out s' = out s ++ concat (zip_with (attempt_out QS_SENDING_FIRST) ts F)) s.
Proof.
  revert F L s. induction ts as [|et ts IH]; intros F L s R Hc Hf.
  { apply Forall2_nil_inv_l in Hc as ->. apply end_ret. cbn. rewrite !app_nil_r. by split. }
  apply Forall2_cons_inv_l in Hc as (x & F' & (Hv & b & Hb) & Hc & ->). apply list.Forall_cons in Hf as [Hf1 Hf].
  cbn [fmap list_fmap concat zip_with]. apply wp_run_app. eapply wp_mono.
  - apply (node_attempt_ok et QS_SENDING_FIRST x (x :: F') L F' (L ++ again et x) s R Hf1); [|done| |].
    + unfold next. by rewrite (rdy_first _ _ _ R).
    + intros m Hm. apply fate_with_of. by apply (decides_for_mailbox _ _ _ _ b).
    + unfold again. change (is_first QS_SENDING_FIRST) with true. destruct Hf1 as (_ & H1 & H2). unfold fate_of.
      rewrite (proj2 (Z.eqb_neq _ _) H1), (proj2 (Z.eqb_neq _ _) H2). cbn [andb]. destruct (status_of et.2 =? _), (for_mailbox nodeOfIP et.1 x); cbn; by rewrite ?app_nil_r.
  - intros [] s1 [R1 O1]. eapply wp_mono; [apply (IH F' _ s1 R1 Hc Hf)|]. intros [] s' [R' O']. rewrite <- app_assoc in R'. split; [done|].
    by rewrite O', O1, app_assoc.
Qed.

(** A packet that is tried again is for the same node. *)
Lemma again_valid ts F : Forall2 clear ts F -> Forall final ts -> Forall (fun x => nodemask_nodeid_is_invalid (node_of x) = false) (concat (zip_with again ts F)).
Proof.
  intros H. induction H as [|et x ts F [Hv _] H IH]; intros Hf; [constructor|]. apply list.Forall_cons in Hf as [(_ & H1 & H2) Hf].
  cbn [zip_with concat]. apply list.Forall_app. split; [|by apply IH]. unfold again, fate_of. rewrite (proj2 (Z.eqb_neq _ _) H1), (proj2 (Z.eqb_neq _ _) H2).
  destruct (true && _); [|constructor]. destruct (for_mailbox nodeOfIP et.1 x); constructor; [by rewrite node_of_flagged|constructor].
Qed.

(** Packets for a node, and those of them transmitted. *)
Definition for_node (n : Z) (l : list (list Z)) : list (list Z) := List.filter (fun x => node_of x =? n) l.
Definition transmitted (o : list output) : list (list Z) := flat_map (fun o => match o with Transmit _ _ _ x => [x] | _ => [] end) o.
Definition sent_to (n : Z) (o : list output) : list (list Z) := for_node n (transmitted o).

(** The first attempt was not acknowledged: the packet is tried again, or is one for the mailbox. *)
Definition put_off (et : env * try) (x : list Z) : bool :=
  match fate_of nodeOfIP et.1 true (status_of et.2) x with ToLong _ | ToMailbox => true | _ => false end.

(** Behind a packet that is put off there is none for its node in the queue. *)
Fixpoint put_off_last (ts : list (env * try)) (F : list (list Z)) : Prop :=
  match ts, F with
  | et :: ts, x :: F => (put_off et x = true -> Forall (fun y => node_of y <> node_of x) F) /\ put_off_last ts F
  | _, _ => True
  end.

Lemma for_node_app n l1 l2 : for_node n (l1 ++ l2) = for_node n l1 ++ for_node n l2.
Proof. apply List.filter_app. Qed.

Lemma transmitted_app l1 l2 : transmitted (l1 ++ l2) = transmitted l1 ++ transmitted l2.
Proof. apply flat_map_app. Qed.

Lemma for_node_none n l : Forall (fun y => node_of y <> n) l -> for_node n l = [].
Proof. induction 1 as [|y l Hy Hl IH]; [done|]. cbn. apply Z.eqb_neq in Hy. by rewrite Hy. Qed.

Lemma attempt_transmits st et x : transmitted (attempt_out st et x) = [x].
Proof.
  destruct et as [e t]. unfold attempt_out. rewrite !transmitted_app. unfold probe, NodeQueueSpec.reports. rewrite !transmitted_app.
  destruct (_ =? NM_get_newly_included_nodeid e), (status_of t =? TRANSMIT_COMPLETE_OK), (fate_of _ _ _ _ _), (_ || _), st; done.
Qed.

Lemma attempts_transmit st ts F : length ts = length F -> transmitted (concat (zip_with (attempt_out st) ts F)) = F.
Proof.
  revert F. induction ts as [|et ts IH]; intros [|x F] El; try done. injection El as El.
  cbn [zip_with concat]. by rewrite transmitted_app, attempt_transmits, IH.
Qed.

(** A packet that is tried again is the one put off, marked. *)
Lemma again_cases et x : again et x = [] \/ again et x = [flagged x] /\ put_off et x = true \/
  status_of et.2 = TRANSMIT_COMPLETE_REQUEUE_QUEUED.
Proof.
  unfold again, put_off, fate_of. destruct (_ =? TRANSMIT_COMPLETE_REQUEUE); [by left|].
  destruct (Z.eqb_spec (status_of et.2) TRANSMIT_COMPLETE_REQUEUE_QUEUED); [by auto|].
  destruct (true && _); [|by left]. destruct (for_mailbox nodeOfIP et.1 x); auto.
Qed.

Lemma again_nodes n ts F : Forall final ts -> Forall (fun y => node_of y <> n) F -> for_node n (concat (zip_with again ts F)) = [].
Proof.
  revert F. induction ts as [|et ts IH]; intros [|x F] Hf HF; try done. apply list.Forall_cons in Hf as [(_ & _ & H2) Hf].
  apply list.Forall_cons in HF as [Hx HF]. cbn [zip_with concat]. rewrite for_node_app, IH by done. rewrite app_nil_r.
  destruct (again_cases et x) as [->|[[-> _]|?]]; [done| |done]. apply for_node_none. constructor; [by rewrite node_of_flagged|done].
Qed.

(** Of a node at most its last packet is tried again. *)
Lemma again_of_node n ts F : Forall final ts -> put_off_last ts F -> let l := for_node n (concat (zip_with again ts F)) in
  l = [] \/ exists pre x, for_node n F = pre ++ [x] /\ l = [flagged x].
Proof.
  revert F. induction ts as [|et ts IH]; intros [|x F] Hf Hp l; try (by left). apply list.Forall_cons in Hf as [(_ & _ & H2) Hf].
  destruct Hp as [Hx Hp]. subst l. cbn [zip_with concat]. rewrite for_node_app. specialize (IH F Hf Hp). cbv zeta in IH.
  destruct (Z.eqb_spec (node_of x) n) as [Hn|Hn].
  - destruct (again_cases et x) as [->|[[-> Ho]|?]]; [| |done].
    + destruct IH as [->|(pre & y & E & ->)]; [by left|]. right. exists (x :: pre), y. split; [|done].
      unfold for_node in *. cbn [List.filter]. rewrite (proj2 (Z.eqb_eq _ _) Hn), E. done.
    + specialize (Hx Ho). rewrite Hn in Hx. rewrite (again_nodes n ts F Hf Hx), app_nil_r. right. exists [], x.
      unfold for_node. cbn [List.filter]. rewrite node_of_flagged, (proj2 (Z.eqb_eq _ _) Hn). split; [|done].
      fold (for_node n F). by rewrite for_node_none.
  - assert (E : for_node n (again et x) = []).
    { destruct (again_cases et x) as [->|[[-> _]|?]]; [done| |done]. apply for_node_none. constructor; [by rewrite node_of_flagged|done]. }
    rewrite E. cbn [app]. destruct IH as [->|(pre & y & E' & ->)]; [by left|]. right. exists pre, y. split; [|done].
    unfold for_node in *. cbn [List.filter]. by rewrite (proj2 (Z.eqb_neq _ _) Hn).
Qed.

(** The packets for a node go out in the order of its queue; the last, not acknowledged at the first
    attempt, may go out once more, marked. *)
Definition in_order (n : Z) (F L l : list (list Z)) : Prop :=
  for_node n F = [] /\ l = for_node n L \/
  for_node n L = [] /\ (l = for_node n F \/ exists pre x, for_node n F = pre ++ [x] /\ l = pre ++ [x; flagged x]).

Lemma drained_order n ts1 ts2 F L : length ts1 = length F -> length ts2 = length (L ++ concat (zip_with again ts1 F)) ->
  Forall final ts1 -> put_off_last ts1 F -> (forall x y, x ∈ F -> y ∈ L -> node_of x <> node_of y) ->
  in_order n F L (sent_to n (concat (zip_with (attempt_out QS_SENDING_FIRST) ts1 F) ++
    concat (zip_with (attempt_out QS_SENDING_LONG) ts2 (L ++ concat (zip_with again ts1 F))))).
Proof.
  intros E1 E2 Hf Hp HFL. unfold sent_to. rewrite transmitted_app, !attempts_transmit by done. rewrite !for_node_app.
  destruct (for_node n F) as [|x0 F0] eqn:EF.
  - left. split; [done|]. cbn [app]. destruct (again_of_node n ts1 F Hf Hp) as [->|(pre & y & E & _)]; [by rewrite app_nil_r|].
    rewrite EF in E. by destruct pre.
  - right. assert (Hx0 : x0 ∈ for_node n F) by (rewrite EF; left). apply list_elem_of_In, filter_In in Hx0 as [Hin Hn%Z.eqb_eq].
    assert (EL : for_node n L = []).
    { apply for_node_none, list.Forall_forall. intros y Hy. rewrite <- Hn. intros H. apply (HFL x0 y); [by apply list_elem_of_In|done|done]. }
    rewrite EL. split; [done|]. cbn [app]. rewrite EF.
    destruct (again_of_node n ts1 F Hf Hp) as [->|(pre & y & E & ->)]; [left; by rewrite app_nil_r|]. right. exists pre, y.
    rewrite EF in E. split; [done|]. rewrite app_comm_cons, E. by rewrite <- app_assoc.
Qed.

(** C23: An idle node queue whose pool has a free packet is emptied when every attempt ends with a final status:
    first each packet of the first-attempt queue is transmitted, in order, with a short attempt; then those of the
    long queue, in order, followed by the packets that were not acknowledged and are not for the mailbox, in order,
    marked as tried and with all routes.  After each attempt the next is asked for; packets for sleeping nodes that
    were not acknowledged are given to the mailbox, and a node that does not answer holds up no other.  No node has
    packets in both queues, and a packet that is not acknowledged is the last of its node in the first-attempt
    queue; then no node's packets are reordered, and the packet tried again is the one that was not acknowledged. *)
Theorem node_queue_drained F L ts1 ts2 s : reachable s -> queue_state s = QS_IDLE -> backup_len s = 0 -> 0 < uip_packetqueue_free_len (pq s) ->
  first_view s = F -> long_view s = L -> Forall2 clear ts1 F -> Forall final (ts1 ++ ts2) -> Forall (fun x => nodemask_nodeid_is_invalid (node_of x) = false) L ->
  length ts2 = length (L ++ concat (zip_with again ts1 F)) ->
  (forall x y, x ∈ F -> y ∈ L -> node_of x <> node_of y) -> put_off_last ts1 F ->
  exists s' o, run (concat (attempt <$> (ts1 ++ ts2))) s = Ok (tt, s') /\ node_queue_idle s' = true /\ out s' = out s ++ o /\
    o = concat (zip_with (attempt_out QS_SENDING_FIRST) ts1 F) ++
      concat (zip_with (attempt_out QS_SENDING_LONG) ts2 (L ++ concat (zip_with again ts1 F))) /\
    forall n, in_order n F L (sent_to n o).
Proof.
  intros Hr Hi Hb Hroom EF EL Hc [Hf1 Hf2]%list.Forall_app HL El HFL Hp.
  assert (R : ready F L s) by (split; try done; apply (reachable_inv s Hr)).
  enough (W : wp (run (concat (attempt <$> (ts1 ++ ts2)))) (fun _ s' => ready [] [] s' /\
      out s' = out s ++ concat (zip_with (attempt_out QS_SENDING_FIRST) ts1 F) ++ concat (zip_with (attempt_out QS_SENDING_LONG) ts2 (L ++ concat (zip_with again ts1 F)))) s).
  { destruct (wp_run _ _ _ W) as ([] & s' & E & [_ Hi' _ _ HF HLv] & Ho). exists s'. eexists. split; [done|]. split; [|split; [exact Ho|split; [done|]]].
    - unfold node_queue_idle, get_queue_state. rewrite bool_decide_eq_true_2, !len_view by done. unfold first_view, long_view in *. by rewrite HF, HLv.
    - intros n. apply drained_order; try done. by eapply Forall2_length. }
  rewrite fmap_app, concat_app. apply wp_run_app. eapply wp_mono; [apply (drain_first ts1 F L s R Hc Hf1)|]. intros [] s1 [R1 O1].
  eapply wp_mono; [apply (drain_long ts2 _ s1 R1 El Hf2); apply list.Forall_app; split; [done|by apply again_valid]|].
  intros [] s' [R' O']. split; [done|]. by rewrite O', O1, app_assoc.
Qed.

(** ** Duplicates *)

(** The check for duplicates compares 16 bits of the fingerprint of a packet with the 32 bits of those it has
    kept: a packet is not recognised when no fingerprint kept is below 65536. *)
Lemma duplicate_not_recognised s : Forall (fun c => 65536 <= c) (black_list_crc32 s) -> check_fingerprint_uip_buf s = false.
Proof.
  intros H. unfold check_fingerprint_uip_buf. destruct (existsb _ _) eqn:E; [|done]. apply existsb_exists in E as (c & Hc & <-%Z.eqb_eq).
  rewrite List.Forall_forall in H. apply H in Hc. pose proof (Z.mod_pos_bound (fingerprint s) 65536 ltac:(lia)). unfold u16 in Hc. lia.
Qed.

(** ** Runs of events that are always legal *)

Lemma run_reachable evs s s' : reachable s -> Forall (fun ev => forall s, legal s ev) evs -> run evs s = Ok (tt, s') -> reachable s'.
Proof.
  intros R L. revert s R. induction L as [|ev evs L1 L IH]; intros s R; [by intros [= <-]|]. cbn. unfold mbind, Eff_bind.
  destruct (step ev s) as [[[] s1]|] eqn:E; [|done]. apply IH. by apply (reach_step s ev).
Qed.

End Runs.

(** ** Concrete runs *)

(** The last byte of an address is the node; there are 232 of them. *)
Definition node_of_address (a : list Z) : Z := at_ a 15.
Definition no_node (n : Z) : bool := (n <? 1) || (232 <? n).
Definition run1 := run node_of_address no_node.

(** Node 7 sleeps, all others listen. *)
Definition env1 : env := mkEnv (fun n => if n =? 7 then MODE_MAILBOX else 2) false 0 0.

(** A Z/IP packet with the first byte [b0] and the number [tag], for a node; and as it is in [uip_buf]. *)
Definition pkt (b0 node tag : Z) : list Z :=
  [b0; 0; 0; 0; 0; 0; 17; 64] ++ replicate 16 0 ++ replicate 15 0xFD ++ [node] ++
  [0x10; 0x1B; 0x10; 0x1B; 0; 0; 0; 0] ++ [0x23; 0x02; 0x80; 0x40; tag; 0; 0; 0x20; 0x01; 0xFF].
Definition in_buf (x : list Z) : list Z := x ++ replicate (QUEUE_BUF_SIZE - length x) 0.
Definition arrives (x : list Z) : event := Input env1 (in_buf x) (Z.of_nat (length x)) false.

Definition after (evs : list event) : state := match run1 evs state0 with Ok (_, s) => s | Fault _ => state0 end.
Definition frames (s : state) : list (list Z) * list (list Z) := (first_view s, long_view s).
Definition sent (s : state) : list (list Z) := flat_map (fun o => match o with Transmit _ _ _ x => [x] | _ => [] end) (out s).

(** A packet for node 6, two for node 5 and one for the sleeping node 7. *)
Definition arrivals : list event := [arrives (pkt 0x60 6 1); arrives (pkt 0x60 5 2); arrives (pkt 0x60 7 3); arrives (pkt 0x60 5 4)].

Lemma arrives_legal node tag s : node = 5 \/ node = 6 \/ node = 7 -> legal node_of_address s (arrives (pkt 0x60 node tag)).
Proof.
  intros Hn. split; [vm_compute; lia|]. split; [by vm_compute|]. split; [vm_compute; split; [reflexivity|discriminate]|].
  destruct Hn as [->|[->| ->]]; vm_compute; discriminate.
Qed.

Lemma arrivals_reachable : reachable node_of_address no_node (after arrivals).
Proof.
  apply (run_reachable _ _ arrivals state0); [constructor| |vm_compute; reflexivity].
  do 4 (apply list.Forall_cons; split; [intros s; apply arrives_legal; auto|]). constructor.
Qed.

Lemma node_queue_safe_witness : legal node_of_address (after arrivals) (Process env1 Pending) /\
  exists s', step node_of_address no_node (Process env1 Pending) (after arrivals) = Ok (tt, s').
Proof.
  split; [vm_compute; lia|].
  destruct (node_queue_safe node_of_address no_node (after arrivals) (Process env1 Pending)) as [(s' & E & _) _];
    [apply arrivals_reachable|vm_compute; lia|by exists s'].
Defined.

(** The first packet for node 5 is acknowledged, the others are not: the mailbox gets that for node 7. *)
Definition tries : list (env * try) :=
  [(env1, Later TRANSMIT_COMPLETE_OK); (env1, Now TRANSMIT_COMPLETE_NO_ACK); (env1, Later TRANSMIT_COMPLETE_NO_ACK)].
Definition tries_long : list (env * try) := [(env1, Later TRANSMIT_COMPLETE_OK); (env1, Refused)].

Lemma node_queue_drained_witness : exists s' o, run1 (concat (attempt <$> (tries ++ tries_long))) (after arrivals) = Ok (tt, s') /\ node_queue_idle s' = true /\
  out s' = out (after arrivals) ++ o /\ sent_to node_of_address 5 o = [pkt 0x60 5 2; pkt 0x60 5 4; pkt 0x61 5 4].
Proof.
  destruct (node_queue_drained node_of_address no_node [pkt 0x60 5 2; pkt 0x60 7 3; pkt 0x60 5 4] [pkt 0x60 6 1] tries tries_long (after arrivals))
    as (s' & o & E & Hi & Ho & Eo & _).
  - apply arrivals_reachable.
  - vm_compute; reflexivity.
  - vm_compute; reflexivity.
  - vm_compute; reflexivity.
  - vm_compute; reflexivity.
  - vm_compute; reflexivity.
  - repeat constructor; try (exists false); vm_compute; reflexivity.
  - repeat constructor; vm_compute; try lia; try discriminate.
  - repeat constructor.
  - vm_compute; reflexivity.
  - intros x y Hx Hy. apply list_elem_of_In in Hx, Hy. cbn [In] in Hx, Hy. destruct Hy as [<-|[]].
    destruct Hx as [<-|[<-|[<-|[]]]]; vm_compute; discriminate.
  - split; [intros H; vm_compute in H; discriminate H|]. split; [|split; [|exact Logic.I]].
    + intros _. constructor; [vm_compute; discriminate|constructor].
    + intros _. constructor.
  - exists s', o. split; [exact E|]. split; [exact Hi|]. split; [exact Ho|]. rewrite Eo. vm_compute. reflexivity.
Defined.
(** ** What goes wrong *)

(** A packet that arrives twice is queued twice: its fingerprint is 0xBEEDB23F, of which 16 bits are
    compared. *)
Example duplicate_queued_twice : frames (after [arrives (pkt 0x60 6 1); arrives (pkt 0x60 6 1)]) = ([], [pkt 0x60 6 1; pkt 0x60 6 1]).
Proof. vm_compute. reflexivity. Qed.

(** A packet whose first attempt is not acknowledged is overtaken by a later one for the same node. *)
Example later_packet_overtakes : sent (after ([arrives (pkt 0x60 6 1); arrives (pkt 0x60 5 2); arrives (pkt 0x60 5 3)] ++
    concat (attempt <$> [(env1, Later TRANSMIT_COMPLETE_NO_ACK); (env1, Later TRANSMIT_COMPLETE_OK); (env1, Later TRANSMIT_COMPLETE_OK); (env1, Later TRANSMIT_COMPLETE_OK)]))) =
  [pkt 0x60 5 2; pkt 0x60 5 3; pkt 0x60 6 1; pkt 0x61 5 2].
Proof. vm_compute. reflexivity. Qed.

(** A packet of the long queue that is to be queued again goes behind the others for its node. *)
Example requeued_goes_last : frames (after ([arrives (pkt 0x60 6 1); arrives (pkt 0x60 6 2)] ++ attempt (env1, Later TRANSMIT_COMPLETE_REQUEUE_QUEUED))) =
  ([], [pkt 0x60 6 2; pkt 0x61 6 1]).
Proof. vm_compute. reflexivity. Qed.

(** A first attempt that is aborted and ends with a failure is not tried again. *)
Example aborted_attempt_dropped : let s := after [arrives (pkt 0x60 6 1); arrives (pkt 0x60 5 2); Process env1 Pending; QueueTimer; Completed env1 TRANSMIT_COMPLETE_FAIL] in
  In AbortSending (out s) /\ frames s = ([], [pkt 0x60 6 1]).
Proof. vm_compute. split; [do 3 right; by left|reflexivity]. Qed.

(** Without a free packet, one that was not acknowledged is lost. *)
Example full_pool_loses_packet : frames (after ([arrives (pkt 0x60 6 1); arrives (pkt 0x60 5 2)] ++ replicate 62 (OtherAlloc 5 [0] 60000) ++
    attempt (env1, Later TRANSMIT_COMPLETE_NO_ACK))) = ([], [pkt 0x60 6 1]).
Proof. vm_compute. reflexivity. Qed.

(** The lifetime of the packet being transmitted ends: the report of its transmission fails an assertion, or pops
    the next packet, which was never transmitted. *)
Example expiry_in_flight_asserts : run1 [arrives (pkt 0x60 6 1); Process env1 Pending; Lifetime 0; Completed env1 TRANSMIT_COMPLETE_OK] state0 = Fault AssertFailed.
Proof. vm_compute. reflexivity. Qed.

Example expiry_in_flight_drops_next : let s := after [arrives (pkt 0x60 6 1); arrives (pkt 0x60 6 2); Process env1 Pending; Lifetime 0; Completed env1 TRANSMIT_COMPLETE_OK] in
  frames s = ([], []) /\ sent s = [pkt 0x60 6 1].
Proof. vm_compute. by split. Qed.

(** The mark of a packet tried before is a bit of its traffic class, which a client may set. *)
Example client_sets_requeued : let s := after [arrives (pkt 0x61 6 1); Process env1 Pending] in
  out s = [QueueUpdated; Transmit 0x25 true true (pkt 0x61 6 1)].
Proof. vm_compute. reflexivity. Qed.

(** [node_queue_init] in the idle state forgets the packets without giving them back to the pool. *)
Example init_leaks_packets : uip_packetqueue_free_len (pq (after [arrives (pkt 0x60 6 1); arrives (pkt 0x60 5 2); Init])) = 62.
Proof. vm_compute. reflexivity. Qed.

End NodeQueueRuns.
