(* ===== verification/Mailbox.v ===== *)
(** * The mailbox (src/Mailbox.c)

    Packets for sleeping nodes are kept in a pool of 2000 entries until the node wakes up; then they are given,
    one at a time, to [ClassicZIPNode_input], and the node is sent back to sleep.  A mailbox may also serve,
    or be served by, another gateway (proxy).  Every function of Mailbox.c; the transmitter, the resource
    directory and the network management are given from outside, calls to them are a trace. *)
From S2P Require Import Prelude Effects Pool PacketQueue NodeQueue.
Import Effects Pool.
Import PacketQueue(UIP_BUFSIZE, QUEUE_BUF_SIZE).
Import NodeQueue(UIP_IPH_LEN, UIP_IPUDPH_LEN, DTLS_PORT, WAKE_UP_NO_MORE_INFORMATION, COMMAND_CLASS_WAKE_UP,
  TRANSMIT_COMPLETE_OK, TRANSMIT_COMPLETE_FAIL, TRANSMIT_COMPLETE_REQUEUE, peek, port, destipaddr, is_zip_pkt).
Import NodeQueue(outcome(..)).

Module Mailbox.

(** ** Constants *)

Definition MAX_MAILBOX_ENTRIES : nat := 2000.
Definition MAX_MAIL_BOX_PAYLOAD : nat := UIP_BUFSIZE.
Definition ZIP_HEADER_SIZE : nat := 7.
Definition PING_TIMEOUT_SEC : Z := 600.
Definition WAITING_TIMEOUT : Z := 60.
Definition NO_MORE_TIMEOUT : Z := 3.
Definition COMMAND_CLASS_MAILBOX : Z := 0x69.
Definition MAILBOX_CONFIGURATION_GET : Z := 0x01.
Definition MAILBOX_CONFIGURATION_SET : Z := 0x02.
Definition MAILBOX_CONFIGURATION_REPORT : Z := 0x03.
Definition MAILBOX_QUEUE : Z := 0x04.
Definition MAILBOX_WAKEUP_NOTIFICATION : Z := 0x05.
Definition MAILBOX_NODE_FAILING : Z := 0x06.
Definition DISABLE_MAILBOX : Z := 0.
Definition ENABLE_MAILBOX_SERVICE : Z := 1.
Definition ENABLE_MAILBOX_PROXY_FORWARDING : Z := 2.
Definition MAILBOX_SERVICE_SUPPORTED : Z := 0x8.
Definition MAILBOX_PROXY_SUPPORTED : Z := 0x10.
Definition MAILBOX_PUSH : Z := 0.
Definition MAILBOX_POP : Z := 1.
Definition MAILBOX_WAITING : Z := 2.
Definition MAILBOX_PING : Z := 3.
Definition MAILBOX_ACK : Z := 4.
Definition MAILBOX_NAK : Z := 5.
Definition MAILBOX_QUEUE_FULL : Z := 6.
Definition MAILBOX_POP_LAST_BIT : Z := 0x8.
Definition ZIP_PACKET_FLAGS0_NACK_RES : Z := 0x20.
Definition ZIP_PACKET_FLAGS0_NACK_WAIT : Z := 0x10.
Definition ZIP_PACKET_FLAGS0_NACK_QF : Z := 0x08.
Definition ZIP_PACKET_FLAGS1_MORE_INFORMATION : Z := 0x20.
Definition ZIP_PACKET_FLAGS1_SECURE_ORIGIN : Z := 0x10.
Definition UIP_PROTO_ICMP6 : Z := 58.
Definition ICMP6_ECHO_REQUEST : Z := 128.
Definition STATUS_FAILING : Z := 15.

(** ** State *)

Inductive mb_state_enum :=
| MB_STATE_IDLE
| MB_STATE_PROBE_WAKEUP_INTERVAL
| MB_STATE_SENDING
| MB_STATE_SENDING_THROUGH_PROXY
| MB_STATE_SENDING_FROM_PROXY
| MB_STATE_SENDING_LAST_FORM_PROXY
| MB_STATE_SEND_NO_MORE_INFO
| MB_STATE_SEND_NO_MORE_INFO_DELAYED
| MB_STATE_SENDING_PING
| MB_STATE_PING_ZIPCLIENTS.
#[global] Instance mb_state_enum_eq_dec : EqDecision mb_state_enum.
Proof. solve_decision. Defined.

Inductive mb_event_t :=
| MB_EVENT_SEND_DONE
| MB_EVENT_WAKEUP
| MB_EVENT_POP
| MB_EVENT_POPLAST
| MB_EVENT_TIMEOUT
| MB_EVNET_PING_REQ
| MB_EVNET_TIME_TO_PING
| MB_EVENT_TRANSITION
| MB_EVENT_FRAME_SENT_TO_NODE.
#[global] Instance mb_event_eq_dec : EqDecision mb_event_t.
Proof. solve_decision. Defined.

Record mailbox_t := mkEntry {
  data : list Z; data_len : Z; handle : Z; proxy : list Z; waiting_enabled : bool; waiting_timer : option Z;
  queued_time : Z
}.

Definition set_data (x : list Z) (m : mailbox_t) : mailbox_t := mkEntry x (data_len m) (handle m) (proxy m)
    (waiting_enabled m) (waiting_timer m) (queued_time m).
Definition set_data_len (x : Z) (m : mailbox_t) : mailbox_t := mkEntry (data m) x (handle m) (proxy m)
    (waiting_enabled m) (waiting_timer m) (queued_time m).
Definition set_handle (x : Z) (m : mailbox_t) : mailbox_t := mkEntry (data m) (data_len m) x (proxy m)
    (waiting_enabled m) (waiting_timer m) (queued_time m).
Definition set_proxy (x : list Z) (m : mailbox_t) : mailbox_t := mkEntry (data m) (data_len m) (handle m) x
    (waiting_enabled m) (waiting_timer m) (queued_time m).
Definition set_waiting_enabled (x : bool) (m : mailbox_t) : mailbox_t := mkEntry (data m) (data_len m) (handle m)
    (proxy m) x (waiting_timer m) (queued_time m).
Definition set_waiting_timer (x : option Z) (m : mailbox_t) : mailbox_t := mkEntry (data m) (data_len m)
    (handle m) (proxy m) (waiting_enabled m) x (queued_time m).
Definition set_queued_time (x : Z) (m : mailbox_t) : mailbox_t := mkEntry (data m) (data_len m) (handle m)
    (proxy m) (waiting_enabled m) (waiting_timer m) x.

Definition entry0 : mailbox_t := mkEntry (replicate MAX_MAIL_BOX_PAYLOAD 0) 0 0 (replicate 16 0) false None 0.

(** Calls to other parts: a Z/IP status for the packet with a header, a command to an address, to the session
    of a command or to the client of an entry; packets for the transmitter; commands for a node. *)
Inductive output :=
| Status (flags0 flags1 : Z) (header : list Z)
| SendZIP (dest : list Z) (port : Z) (cmd : list Z)
| Reply (cmd : list Z)
| PingClient (header : list Z)
| Transmit (node : Z) (pkt : list Z)
| AbortSending
| NoMoreInfo (node : Z)
| IntervalGet (node : Z)
| SetInterval (node seconds : Z)
| QueueUpdated
| ConfigUpdate (mode : Z) (port : Z) (dest : list Z).

(** The entries, the state [mb_state] with the remote end of its session, the timers, [uip_buf] from [UIP_LLH_LEN]
    on, the configuration, what the transmitter will answer, and the trace. *)
Record MB := mkMB {
  mb_list : list nat; counts : list Z; mem : list mailbox_t; state : mb_state_enum; node : Z; rport : Z;
  ripaddr : list Z; cur_handle : Z; send_no_more : bool; txStatus : Z; last_entry : option nat;
  broadcast_wun : bool; ping_timer : option Z; no_more_timer : option Z; uip_buf : list Z; uip_len : Z;
  mb_conf_mode : Z; mb_destination : list Z; mb_port : Z; answers : list outcome; outs : list output
}.

Definition set_mb_list (x : list nat) (s : MB) : MB := mkMB x (counts s) (mem s) (state s) (node s) (rport s)
    (ripaddr s) (cur_handle s) (send_no_more s) (txStatus s) (last_entry s) (broadcast_wun s) (ping_timer s)
    (no_more_timer s) (uip_buf s) (uip_len s) (mb_conf_mode s) (mb_destination s) (mb_port s) (answers s)
    (outs s).
Definition set_counts (x : list Z) (s : MB) : MB := mkMB (mb_list s) x (mem s) (state s) (node s) (rport s)
    (ripaddr s) (cur_handle s) (send_no_more s) (txStatus s) (last_entry s) (broadcast_wun s) (ping_timer s)
    (no_more_timer s) (uip_buf s) (uip_len s) (mb_conf_mode s) (mb_destination s) (mb_port s) (answers s)
    (outs s).
Definition set_mem (x : list mailbox_t) (s : MB) : MB := mkMB (mb_list s) (counts s) x (state s) (node s)
    (rport s) (ripaddr s) (cur_handle s) (send_no_more s) (txStatus s) (last_entry s) (broadcast_wun s)
    (ping_timer s) (no_more_timer s) (uip_buf s) (uip_len s) (mb_conf_mode s) (mb_destination s) (mb_port s)
    (answers s) (outs s).
Definition set_state (x : mb_state_enum) (s : MB) : MB := mkMB (mb_list s) (counts s) (mem s) x (node s)
    (rport s) (ripaddr s) (cur_handle s) (send_no_more s) (txStatus s) (last_entry s) (broadcast_wun s)
    (ping_timer s) (no_more_timer s) (uip_buf s) (uip_len s) (mb_conf_mode s) (mb_destination s) (mb_port s)
    (answers s) (outs s).
Definition set_node (x : Z) (s : MB) : MB := mkMB (mb_list s) (counts s) (mem s) (state s) x (rport s)
    (ripaddr s) (cur_handle s) (send_no_more s) (txStatus s) (last_entry s) (broadcast_wun s) (ping_timer s)
    (no_more_timer s) (uip_buf s) (uip_len s) (mb_conf_mode s) (mb_destination s) (mb_port s) (answers s)
    (outs s).
Definition set_rport (x : Z) (s : MB) : MB := mkMB (mb_list s) (counts s) (mem s) (state s) (node s) x
    (ripaddr s) (cur_handle s) (send_no_more s) (txStatus s) (last_entry s) (broadcast_wun s) (ping_timer s)
    (no_more_timer s) (uip_buf s) (uip_len s) (mb_conf_mode s) (mb_destination s) (mb_port s) (answers s)
    (outs s).
Definition set_ripaddr (x : list Z) (s : MB) : MB := mkMB (mb_list s) (counts s) (mem s) (state s) (node s)
    (rport s) x (cur_handle s) (send_no_more s) (txStatus s) (last_entry s) (broadcast_wun s) (ping_timer s)
    (no_more_timer s) (uip_buf s) (uip_len s) (mb_conf_mode s) (mb_destination s) (mb_port s) (answers s)
    (outs s).
Definition set_cur_handle (x : Z) (s : MB) : MB := mkMB (mb_list s) (counts s) (mem s) (state s) (node s)
    (rport s) (ripaddr s) x (send_no_more s) (txStatus s) (last_entry s) (broadcast_wun s) (ping_timer s)
    (no_more_timer s) (uip_buf s) (uip_len s) (mb_conf_mode s) (mb_destination s) (mb_port s) (answers s)
    (outs s).
Definition set_send_no_more (x : bool) (s : MB) : MB := mkMB (mb_list s) (counts s) (mem s) (state s) (node s)
    (rport s) (ripaddr s) (cur_handle s) x (txStatus s) (last_entry s) (broadcast_wun s) (ping_timer s)
    (no_more_timer s) (uip_buf s) (uip_len s) (mb_conf_mode s) (mb_destination s) (mb_port s) (answers s)
    (outs s).
Definition set_txStatus (x : Z) (s : MB) : MB := mkMB (mb_list s) (counts s) (mem s) (state s) (node s) (rport s)
    (ripaddr s) (cur_handle s) (send_no_more s) x (last_entry s) (broadcast_wun s) (ping_timer s)
    (no_more_timer s) (uip_buf s) (uip_len s) (mb_conf_mode s) (mb_destination s) (mb_port s) (answers s)
    (outs s).
Definition set_last_entry (x : option nat) (s : MB) : MB := mkMB (mb_list s) (counts s) (mem s) (state s)
    (node s) (rport s) (ripaddr s) (cur_handle s) (send_no_more s) (txStatus s) x (broadcast_wun s)
    (ping_timer s) (no_more_timer s) (uip_buf s) (uip_len s) (mb_conf_mode s) (mb_destination s) (mb_port s)
    (answers s) (outs s).
Definition set_broadcast_wun (x : bool) (s : MB) : MB := mkMB (mb_list s) (counts s) (mem s) (state s) (node s)
    (rport s) (ripaddr s) (cur_handle s) (send_no_more s) (txStatus s) (last_entry s) x (ping_timer s)
    (no_more_timer s) (uip_buf s) (uip_len s) (mb_conf_mode s) (mb_destination s) (mb_port s) (answers s)
    (outs s).
Definition set_ping_timer (x : option Z) (s : MB) : MB := mkMB (mb_list s) (counts s) (mem s) (state s) (node s)
    (rport s) (ripaddr s) (cur_handle s) (send_no_more s) (txStatus s) (last_entry s) (broadcast_wun s) x
    (no_more_timer s) (uip_buf s) (uip_len s) (mb_conf_mode s) (mb_destination s) (mb_port s) (answers s)
    (outs s).
Definition set_no_more_timer (x : option Z) (s : MB) : MB := mkMB (mb_list s) (counts s) (mem s) (state s)
    (node s) (rport s) (ripaddr s) (cur_handle s) (send_no_more s) (txStatus s) (last_entry s) (broadcast_wun s)
    (ping_timer s) x (uip_buf s) (uip_len s) (mb_conf_mode s) (mb_destination s) (mb_port s) (answers s) (outs s).
Definition set_uip_buf (x : list Z) (s : MB) : MB := mkMB (mb_list s) (counts s) (mem s) (state s) (node s)
    (rport s) (ripaddr s) (cur_handle s) (send_no_more s) (txStatus s) (last_entry s) (broadcast_wun s)
    (ping_timer s) (no_more_timer s) x (uip_len s) (mb_conf_mode s) (mb_destination s) (mb_port s) (answers s)
    (outs s).
Definition set_uip_len (x : Z) (s : MB) : MB := mkMB (mb_list s) (counts s) (mem s) (state s) (node s) (rport s)
    (ripaddr s) (cur_handle s) (send_no_more s) (txStatus s) (last_entry s) (broadcast_wun s) (ping_timer s)
    (no_more_timer s) (uip_buf s) x (mb_conf_mode s) (mb_destination s) (mb_port s) (answers s) (outs s).
Definition set_mb_conf_mode (x : Z) (s : MB) : MB := mkMB (mb_list s) (counts s) (mem s) (state s) (node s)
    (rport s) (ripaddr s) (cur_handle s) (send_no_more s) (txStatus s) (last_entry s) (broadcast_wun s)
    (ping_timer s) (no_more_timer s) (uip_buf s) (uip_len s) x (mb_destination s) (mb_port s) (answers s)
    (outs s).
Definition set_mb_destination (x : list Z) (s : MB) : MB := mkMB (mb_list s) (counts s) (mem s) (state s)
    (node s) (rport s) (ripaddr s) (cur_handle s) (send_no_more s) (txStatus s) (last_entry s) (broadcast_wun s)
    (ping_timer s) (no_more_timer s) (uip_buf s) (uip_len s) (mb_conf_mode s) x (mb_port s) (answers s) (outs s).
Definition set_mb_port (x : Z) (s : MB) : MB := mkMB (mb_list s) (counts s) (mem s) (state s) (node s) (rport s)
    (ripaddr s) (cur_handle s) (send_no_more s) (txStatus s) (last_entry s) (broadcast_wun s) (ping_timer s)
    (no_more_timer s) (uip_buf s) (uip_len s) (mb_conf_mode s) (mb_destination s) x (answers s) (outs s).
Definition set_answers (x : list outcome) (s : MB) : MB := mkMB (mb_list s) (counts s) (mem s) (state s) (node s)
    (rport s) (ripaddr s) (cur_handle s) (send_no_more s) (txStatus s) (last_entry s) (broadcast_wun s)
    (ping_timer s) (no_more_timer s) (uip_buf s) (uip_len s) (mb_conf_mode s) (mb_destination s) (mb_port s) x
    (outs s).
Definition set_outs (x : list output) (s : MB) : MB := mkMB (mb_list s) (counts s) (mem s) (state s) (node s)
    (rport s) (ripaddr s) (cur_handle s) (send_no_more s) (txStatus s) (last_entry s) (broadcast_wun s)
    (ping_timer s) (no_more_timer s) (uip_buf s) (uip_len s) (mb_conf_mode s) (mb_destination s) (mb_port s)
    (answers s) x.


(** What the other parts say when they are asked. *)
Record env := mkEnv {
  clock_seconds : Z; rd_get_node_dbe : Z -> option (Z * Z); rd_get_node_state : Z -> Z; rd_node_in_probe : Z -> bool;
  rd_probe_in_progress : bool; nm_idle : bool; uip_ext_len : nat
}.

Abbreviation M := (Eff MB).

Definition emit (o : output) : M unit := modify (fun s => set_outs (outs s ++ [o]) s).
Definition entry (s : MB) (i : nat) : mailbox_t := block entry0 (mem s) i.
Definition mod_entry (i : nat) (f : mailbox_t -> mailbox_t) : M unit := modify (fun s => set_mem (alter f i (mem s)) s).
Definition memb_free (i : nat) : M unit := modify (fun s => set_counts (alter count_free i (counts s)) s).
Definition memb_free_count (s : MB) : nat := length (List.filter (Z.eqb 0) (counts s)).
Definition lift {A} (r : res A) : M A := fun s => match r with Ok a => Ok (a, s) | Fault f => Fault f end.

(** What the transmitter, or another part that sends, answers next. *)
Definition ask : M outcome := fun s =>
  match answers s with [] => Ok (Pending, s) | a :: l => Ok (a, set_answers l s) end.

(** [list_item_next]: the block after [i]; the pointer of a block that is not in the list is null, [list_remove]
    having cleared it. *)
Fixpoint list_item_next (i : nat) (l : list nat) : option nat :=
  match l with
  | [] => None
  | j :: l => if Nat.eqb i j then head l else list_item_next i l
  end.

Definition header (l : list Z) : list Z := take (UIP_IPUDPH_LEN + ZIP_HEADER_SIZE) l.
Definition unspecified (a : list Z) : bool := bool_decide (a = replicate 16 0).

(** Conversion to a signed 32-bit integer. *)
Definition s32 (x : Z) : Z := let y := u32 x in if y <? 2147483648 then y else y - 4294967296.

Section Mail.
Context (nodeOfIP : list Z -> Z) (ipOfNode : Z -> list Z).

Definition mb_get_dnode (pkt : list Z) : Z := nodeOfIP (destipaddr pkt).

(** ** Entries *)

Definition flags1 (buf : list Z) : res Z := peek buf (Z.of_nat UIP_IPUDPH_LEN + 3).

Definition is_more_info_set (s : MB) : res bool := f ← flags1 (uip_buf s); Ok (has_bits f ZIP_PACKET_FLAGS1_MORE_INFORMATION).

Definition mb_free_entry (i : nat) : M unit :=
  mod_entry i (set_waiting_timer None) ;;
  modify (fun s => set_mb_list (list_remove i (mb_list s)) s) ;;
  memb_free i.

Definition send_mb_proxy_queue_command (command : Z) (i : nat) : M unit :=
  s ← get;
  match first_free (counts s) with
  | None => fail AssertFailed
  | Some j =>
    modify (fun s => set_counts (alter (Z.add 1) j (counts s)) s) ;;
    mod_entry j (fun m => set_data (splice 0 [COMMAND_CLASS_MAILBOX; MAILBOX_QUEUE; u8 command; handle m] (data m)) m) ;;
    s ← get;
    let e := entry s i in
    pkt ← rds (data e) 0 (Z.to_nat (data_len e));
    d ← wrs (data (entry s j)) 4 pkt;
    mod_entry j (set_data d) ;;
    cmd ← rds d 0 (Z.to_nat (data_len e) + 4);
    emit (SendZIP (proxy e) DTLS_PORT cmd) ;;
    memb_free j
  end.

(** The messages for an address that are older than eleven minutes are dropped. *)
Fixpoint purge_loop (e : env) (ip : list Z) (l : list nat) : M unit :=
  match l with
  | [] => mret tt
  | i :: l =>
    s ← get;
    let m := entry s i in
    (if bool_decide (destipaddr (data m) = ip) && (queued_time m + 11 * 60 <? clock_seconds e) then
       zip ← lift (is_zip_pkt (uip_ext_len e) (data m));
       (if zip && unspecified (proxy m) then
          h ← rds (data m) 0 (UIP_IPUDPH_LEN + ZIP_HEADER_SIZE);
          b ← wrs (uip_buf s) 0 h;
          modify (set_uip_buf b) ;;
          emit (Status ZIP_PACKET_FLAGS0_NACK_RES 0 h)
        else mret tt) ;;
       mb_free_entry i
     else mret tt) ;;
    purge_loop e ip l
  end.

Definition mb_failing_notify_byip (e : env) (ip : list Z) : M unit := s ← get; purge_loop e ip (mb_list s).

Definition mb_purge_messages (e : env) (n : Z) : M unit :=
  s ← get;
  if mb_conf_mode s =? ENABLE_MAILBOX_PROXY_FORWARDING then
    emit (SendZIP (mb_destination s) (mb_port s) ([COMMAND_CLASS_MAILBOX; MAILBOX_NODE_FAILING] ++ ipOfNode n))
  else mb_failing_notify_byip e (ipOfNode n).

Definition mb_failing_notify (e : env) (n : Z) : M unit := mb_purge_messages e n.

(** ** Reports to the sender of a packet *)

Definition send_waiting (ipbuf : list Z) : M unit :=
  h ← rds ipbuf 0 (UIP_IPUDPH_LEN + ZIP_HEADER_SIZE);
  s ← get;
  b ← wrs (uip_buf s) 0 h;
  modify (set_uip_buf b) ;;
  f ← lift (flags1 b);
  emit (Status (Z.lor ZIP_PACKET_FLAGS0_NACK_RES ZIP_PACKET_FLAGS0_NACK_WAIT) (Z.land f ZIP_PACKET_FLAGS1_SECURE_ORIGIN) h).

Definition send_waiting_timeout (i : nat) : M unit :=
  s ← get;
  (if waiting_enabled (entry s i) then
     if unspecified (proxy (entry s i)) then send_waiting (data (entry s i)) else send_mb_proxy_queue_command MAILBOX_WAITING i
   else mret tt) ;;
  mod_entry i (set_waiting_timer (Some (WAITING_TIMEOUT * 1000))).

Definition mb_send_queue_full : M unit :=
  s ← get;
  f ← lift (flags1 (uip_buf s));
  emit (Status (Z.lor ZIP_PACKET_FLAGS0_NACK_RES ZIP_PACKET_FLAGS0_NACK_QF) (Z.land f ZIP_PACKET_FLAGS1_SECURE_ORIGIN) (header (uip_buf s))).

Definition mb_send_proxy_status (status : Z) : M unit :=
  s ← get;
  if negb (rport s =? 0) then
    assert (bool_decide (is_Some (last_entry s))) ;;
    emit (Reply [COMMAND_CLASS_MAILBOX; MAILBOX_QUEUE; status])
  else mret tt.

(** ** A packet is posted *)

Definition mb_post_uipbuf (e : env) (from : option (list Z)) (hdl : Z) : M bool :=
  s ← get;
  let dnode := mb_get_dnode (uip_buf s) in
  proto ← rd (uip_buf s) 6;
  icmp ← (if proto =? UIP_PROTO_ICMP6 then
            t ← rd (uip_buf s) (Z.of_nat (UIP_IPH_LEN + uip_ext_len e)); mret (negb (t =? ICMP6_ECHO_REQUEST))
          else mret false);
  if icmp : bool then mret false
  else if uip_len s <? Z.of_nat UIP_IPUDPH_LEN then mret false
  else if mb_conf_mode s =? DISABLE_MAILBOX then mret true
  else
  waiting ← lift (is_zip_pkt (uip_ext_len e) (uip_buf s));
  if mb_conf_mode s =? ENABLE_MAILBOX_PROXY_FORWARDING then
    match first_free (counts s) with
    | None => fail AssertFailed
    | Some j =>
      modify (fun s => set_counts (alter (Z.add 1) j (counts s)) s) ;;
      pkt ← rds (uip_buf s) 0 (Z.to_nat (uip_len s));
      let m := entry s j in
      d ← wrs (splice 0 [COMMAND_CLASS_MAILBOX; MAILBOX_QUEUE; MAILBOX_PUSH; u8 dnode] (data m)) 4 pkt;
      mod_entry j (fun m => set_data d (set_data_len (uip_len s) (set_waiting_enabled waiting m))) ;;
      cmd ← rds d 0 (Z.to_nat (uip_len s) + 4);
      emit (SendZIP (mb_destination s) (mb_port s) cmd) ;;
      memb_free j ;;
      mret true
    end
  else
  match first_free (counts s) with
  | None => (match from with None => mb_send_queue_full | Some _ => mret tt end) ;; mret false
  | Some i =>
    modify (fun s => set_counts (alter (Z.add 1) i (counts s)) s) ;;
    pkt ← rds (uip_buf s) 0 (Z.to_nat (uip_len s));
    d ← wrs (data (entry s i)) 0 pkt;
    mod_entry i (fun m => set_data d (set_data_len (uip_len s) (set_waiting_enabled waiting
      (set_queued_time (clock_seconds e) (set_waiting_timer (Some 200) m))))) ;;
    match from with
    | Some ip => mod_entry i (fun m => set_proxy ip (set_handle hdl m))
    | None => mod_entry i (set_proxy (replicate 16 0))
    end ;;
    s ← get;
    if bool_decide (is_Some from) && Nat.eqb (memb_free_count s) 1 then
      send_mb_proxy_queue_command MAILBOX_QUEUE_FULL i ;; mb_free_entry i ;; mret true
    else
    modify (fun s => set_mb_list (list_add i (mb_list s)) s) ;;
    (if rd_get_node_state e dnode =? STATUS_FAILING then mb_failing_notify e dnode else mret tt) ;;
    mret true
  end.

(** ** The state machine *)

(** [mb_state_transition] calls itself, also through the functions that send: [tr] is that call. *)
Section Calls.
Context (tr : mb_event_t -> M unit).

Definition mb_send_done (status : Z) : M unit := modify (set_txStatus status) ;; tr MB_EVENT_SEND_DONE.

(** The packet in [uip_buf] is given to [ClassicZIPNode_input], with [mb_send_done_event] to be called at its end. *)
Definition give : M bool :=
  s ← get;
  pkt ← rds (uip_buf s) 0 (Z.to_nat (uip_len s));
  emit (Transmit (node s) pkt) ;;
  a ← ask;
  match a with
  | Pending => mret true
  | Finished status => mb_send_done status ;; mret true
  | NotReady => mret false
  end.

Definition mb_send_no_more_information (n : Z) : M unit :=
  s ← get;
  if broadcast_wun s then modify (set_broadcast_wun false) ;; mb_send_done TRANSMIT_COMPLETE_OK
  else
    emit (NoMoreInfo n) ;;
    a ← ask;
    match a with NotReady => mb_send_done TRANSMIT_COMPLETE_FAIL | _ => mret tt end.

(** A UDP ping is sent, with [mb_udp_ping_reply] to be called with the reply. *)
Definition ping (h : list Z) : M unit :=
  emit (PingClient h) ;;
  a ← ask;
  match a with Finished status => mb_send_done status | _ => mret tt end.

(** The next entry, from [o] on, that is for the node [n]; as many rounds as there are entries are enough. *)
Fixpoint seek (fuel : nat) (n : Z) (s : MB) (o : option nat) : option nat :=
  match fuel, o with
  | S fuel, Some i => if mb_get_dnode (data (entry s i)) =? n then Some i else seek fuel n s (list_item_next i (mb_list s))
  | _, _ => None
  end.

Definition load_uipbuf_with (i : nat) : M unit :=
  s ← get;
  let m := entry s i in
  assert (negb (data_len m =? 0)) ;;
  pkt ← rds (data m) 0 (Z.to_nat (data_len m));
  b ← wrs (uip_buf s) 0 pkt;
  modify (set_uip_buf b) ;; modify (set_uip_len (data_len m)).

Definition go (st : mb_state_enum) : M unit := modify (set_state st) ;; tr MB_EVENT_TRANSITION.
Definition proxy_status : M unit := s ← get; mb_send_proxy_status (if txStatus s =? TRANSMIT_COMPLETE_OK then MAILBOX_ACK else MAILBOX_NAK).
Definition last_entry_of (o : option nat) : M nat := of_option OutOfBounds o.

Definition in_idle (e : env) (ev : mb_event_t) : M unit :=
  s ← get;
  match ev with
  | MB_EVNET_TIME_TO_PING => modify (set_last_entry (head (mb_list s))) ;; go MB_STATE_PING_ZIPCLIENTS
  | MB_EVNET_PING_REQ => ping (header (uip_buf s)) ;; modify (set_state MB_STATE_SENDING_PING)
  | MB_EVENT_WAKEUP =>
    if node s =? 0 then modify (set_last_entry (head (mb_list s))) ;; go MB_STATE_SENDING_THROUGH_PROXY
    else
    match rd_get_node_dbe e (node s) with
    | Some (wakeUp_interval, lastAwake) =>
      if (rd_get_node_state e (node s) =? STATUS_FAILING)
         || (Z.shiftr wakeUp_interval 3 <? u32 (Z.abs (s32 (s32 wakeUp_interval - s32 (clock_seconds e - lastAwake)))))
      then go MB_STATE_PROBE_WAKEUP_INTERVAL else go MB_STATE_SENDING
    | None => modify (set_state MB_STATE_SEND_NO_MORE_INFO) ;; mb_send_no_more_information (node s)
    end
  | MB_EVENT_POP =>
    modify (set_state MB_STATE_SENDING_FROM_PROXY) ;;
    t ← give; if t : bool then mret tt else mb_send_done TRANSMIT_COMPLETE_FAIL
  | MB_EVENT_POPLAST =>
    modify (set_state MB_STATE_SENDING_LAST_FORM_PROXY) ;;
    t ← give; if t : bool then mret tt else mb_send_done TRANSMIT_COMPLETE_FAIL
  | MB_EVENT_TRANSITION => emit QueueUpdated
  | _ => mret tt
  end.

Definition in_probe (ev : mb_event_t) : M unit :=
  match ev with
  | MB_EVENT_TRANSITION =>
    s ← get; emit (IntervalGet (node s)) ;;
    a ← ask;
    match a with NotReady => tr MB_EVENT_SEND_DONE | _ => mret tt end
  | MB_EVENT_SEND_DONE => go MB_STATE_SENDING
  | _ => mret tt
  end.

Definition in_ping_zipclients (ev : mb_event_t) : M unit :=
  s ← get;
  match ev with
  | MB_EVENT_TRANSITION =>
    match last_entry s with
    | None => modify (set_ping_timer (Some (PING_TIMEOUT_SEC * 1000))) ;; go MB_STATE_IDLE
    | Some i =>
      if negb (waiting_enabled (entry s i)) then
        modify (set_last_entry (list_item_next i (mb_list s))) ;; tr MB_EVENT_TRANSITION
      else if unspecified (proxy (entry s i)) then
        h ← rds (data (entry s i)) 0 (UIP_IPUDPH_LEN + ZIP_HEADER_SIZE); ping h
      else send_mb_proxy_queue_command MAILBOX_PING i
    end
  | MB_EVENT_SEND_DONE =>
    i ← last_entry_of (last_entry s);
    mod_entry i (set_waiting_enabled (txStatus s =? TRANSMIT_COMPLETE_OK)) ;;
    modify (set_last_entry (list_item_next i (mb_list s))) ;;
    tr MB_EVENT_TRANSITION
  | _ => mret tt
  end.

Definition in_sending_through_proxy (ev : mb_event_t) : M unit :=
  let work :=
    s ← get;
    more ← lift (is_more_info_set s);
    (if bool_decide (ev = MB_EVENT_SEND_DONE) && (txStatus s =? TRANSMIT_COMPLETE_OK) then i ← last_entry_of (last_entry s); mb_free_entry i else mret tt) ;;
    s ← get;
    let matches := List.filter (fun i => bool_decide (proxy (entry s i) = ripaddr s) && (cur_handle s =? handle (entry s i))) (mb_list s) in
    match matches with
    | i :: l =>
      modify (set_last_entry (Some i)) ;;
      let last := negb more && match l with [] => true | _ => false end in
      send_mb_proxy_queue_command (Z.lor (if last then MAILBOX_POP_LAST_BIT else 0) MAILBOX_POP) i
    | [] => modify (set_last_entry None) ;; go MB_STATE_IDLE
    end in
  match ev with
  | MB_EVENT_TIMEOUT => go MB_STATE_IDLE
  | MB_EVENT_TRANSITION | MB_EVENT_SEND_DONE => work
  | _ => mret tt
  end.

(** The next entry for the node is sent, or, when there is none, the node may go to sleep. *)
Definition send_next : M unit :=
  modify (fun s => set_last_entry (seek (S (length (mb_list s))) (node s) s (last_entry s)) s) ;;
  s ← get;
  match last_entry s with
  | Some i =>
    load_uipbuf_with i ;;
    s ← get;
    more ← lift (is_more_info_set s);
    (if more : bool then modify (set_send_no_more false) else mret tt) ;;
    t ← give;
    (if t : bool then mret tt else go MB_STATE_SEND_NO_MORE_INFO) ;;
    modify (set_uip_len 0)
  | None =>
    if send_no_more s then go MB_STATE_SEND_NO_MORE_INFO
    else
      modify (set_state MB_STATE_SEND_NO_MORE_INFO_DELAYED) ;;
      modify (set_no_more_timer (Some (NO_MORE_TIMEOUT * 1000))) ;;
      emit QueueUpdated
  end.

Definition in_sending (ev : mb_event_t) : M unit :=
  s ← get;
  match ev with
  | MB_EVENT_SEND_DONE =>
    modify (set_last_entry (last_entry s ≫= fun i => list_item_next i (mb_list s))) ;;
    (if txStatus s =? TRANSMIT_COMPLETE_OK then i ← last_entry_of (last_entry s); mb_free_entry i else mret tt)
  | MB_EVENT_TRANSITION => modify (set_last_entry (head (mb_list s)))
  | _ => mret tt
  end ;;
  send_next.

Definition in_no_more_delayed (e : env) (ev : mb_event_t) : M unit :=
  match ev with
  | MB_EVENT_TIMEOUT =>
    s ← get;
    if rd_node_in_probe e (node s) then modify (set_no_more_timer (Some (NO_MORE_TIMEOUT * 1000)))
    else modify (set_state MB_STATE_SEND_NO_MORE_INFO) ;; mb_send_no_more_information (node s)
  | MB_EVENT_FRAME_SENT_TO_NODE => modify (set_no_more_timer (Some (NO_MORE_TIMEOUT * 1000)))
  | _ => mret tt
  end.

Definition in_no_more (ev : mb_event_t) : M unit :=
  match ev with
  | MB_EVENT_TRANSITION => proxy_status ;; s ← get; mb_send_no_more_information (node s)
  | MB_EVENT_SEND_DONE => go MB_STATE_IDLE
  | _ => mret tt
  end.

Definition in_from_proxy (ev : mb_event_t) : M unit :=
  match ev with MB_EVENT_SEND_DONE => proxy_status ;; go MB_STATE_IDLE | _ => mret tt end.

Definition in_last_from_proxy (ev : mb_event_t) : M unit :=
  match ev with MB_EVENT_SEND_DONE => go MB_STATE_SEND_NO_MORE_INFO | _ => mret tt end.

Definition in_sending_ping : M unit := proxy_status ;; go MB_STATE_IDLE.
End Calls.

Fixpoint transition (fuel : nat) (e : env) (ev : mb_event_t) : M unit :=
  match fuel with
  | O => fail OutOfFuel
  | S fuel =>
    let tr := transition fuel e in
    s ← get;
    match state s with
    | MB_STATE_IDLE => in_idle tr e ev
    | MB_STATE_PROBE_WAKEUP_INTERVAL => in_probe tr ev
    | MB_STATE_PING_ZIPCLIENTS => in_ping_zipclients tr ev
    | MB_STATE_SENDING_THROUGH_PROXY => in_sending_through_proxy tr ev
    | MB_STATE_SENDING => in_sending tr ev
    | MB_STATE_SEND_NO_MORE_INFO_DELAYED => in_no_more_delayed tr e ev
    | MB_STATE_SEND_NO_MORE_INFO => in_no_more tr ev
    | MB_STATE_SENDING_FROM_PROXY => in_from_proxy tr ev
    | MB_STATE_SENDING_LAST_FORM_PROXY => in_last_from_proxy tr ev
    | MB_STATE_SENDING_PING => in_sending_ping tr
    end
  end.

(** The calls nest at most twice per entry, and a few times more. *)
Definition mb_state_transition (e : env) (ev : mb_event_t) : M unit :=
  s ← get; transition (2 * length (mb_list s) + 9) e ev.

(** ** The interface *)

Definition mb_send_done_event (e : env) (status : Z) : M unit := mb_send_done (mb_state_transition e) status.
Definition mb_udp_ping_reply (e : env) (status : Z) : M unit := mb_send_done (mb_state_transition e) status.

Definition mb_probe_wakeup_callback (e : env) (status : Z) (cmd : list Z) : M unit :=
  s ← get;
  (if (status =? TRANSMIT_COMPLETE_OK) && bool_decide (state s = MB_STATE_PROBE_WAKEUP_INTERVAL) then
     of_option OutOfBounds (rd_get_node_dbe e (node s)) ;;
     a ← rd cmd 2; b ← rd cmd 3; c ← rd cmd 4;
     emit (SetInterval (node s) (Z.lor (Z.lor (Z.shiftl a 16) (Z.shiftl b 8)) c))
   else mret tt) ;;
  mb_state_transition e MB_EVENT_SEND_DONE.

Definition send_ping_timeout (e : env) : M unit :=
  mb_state_transition e MB_EVNET_TIME_TO_PING ;; modify (set_ping_timer (Some (PING_TIMEOUT_SEC * 1000))).

Definition no_more_timeout (e : env) : M unit := mb_state_transition e MB_EVENT_TIMEOUT.

Definition mb_init : M unit :=
  modify (fun s => set_counts (replicate MAX_MAILBOX_ENTRIES 0) (set_mem (replicate MAX_MAILBOX_ENTRIES entry0) s)) ;;
  modify (set_mb_list []) ;;
  modify (set_ping_timer (Some (60 * 1000))).

Definition mb_wakeup_event (e : env) (n : Z) (is_broadcast : bool) : M unit :=
  if negb (nm_idle e) then mret tt else
  s ← get;
  if mb_conf_mode s =? ENABLE_MAILBOX_SERVICE then
    if negb (rd_probe_in_progress e) && bool_decide (state s = MB_STATE_IDLE) then
      modify (set_node n) ;; modify (set_send_no_more true) ;; modify (set_broadcast_wun is_broadcast) ;;
      mb_state_transition e MB_EVENT_WAKEUP
    else mret tt
  else if mb_conf_mode s =? ENABLE_MAILBOX_PROXY_FORWARDING then
    emit (SendZIP (mb_destination s) (mb_port s) [COMMAND_CLASS_MAILBOX; MAILBOX_WAKEUP_NOTIFICATION; u8 n])
  else mret tt.

Definition mb_put_node_to_sleep_later (n : Z) : M unit :=
  s ← get;
  if bool_decide (state s = MB_STATE_IDLE) then
    modify (set_no_more_timer (Some (NO_MORE_TIMEOUT * 1000))) ;;
    modify (set_state MB_STATE_SEND_NO_MORE_INFO_DELAYED) ;; modify (set_node n)
  else mret tt.

Definition mb_enabled (s : MB) : bool := negb (mb_conf_mode s =? DISABLE_MAILBOX).
Definition mb_idle (s : MB) : bool := bool_decide (state s = MB_STATE_IDLE).
Definition mb_is_busy (s : MB) : bool :=
  match state s with
  | MB_STATE_IDLE | MB_STATE_SENDING_PING | MB_STATE_PING_ZIPCLIENTS | MB_STATE_SEND_NO_MORE_INFO_DELAYED => false
  | _ => true
  end.
Definition mb_get_active_node (s : MB) : Z := if mb_idle s then 0 else node s.

Definition mb_abort_sending : M unit :=
  s ← get; if mb_is_busy s then modify (set_state MB_STATE_IDLE) ;; emit AbortSending else mret tt.

Definition mb_node_transmission_ok_event (e : env) (n : Z) : M unit :=
  s ← get; if node s =? n then mb_state_transition e MB_EVENT_FRAME_SENT_TO_NODE else mret tt.

(** ** Commands of the class, from the address [ip] and port [prt] *)

Definition mb_queue_command (e : env) (ip : list Z) (prt : Z) (pData : list Z) (bDatalen : Z) : M unit :=
  param1 ← rd pData 2;
  hdl ← rd pData 3;
  s ← get;
  let mode := Z.land param1 0x7 in
  let len := u16 (bDatalen - 3) in
  pkt ← rds pData 4 (Z.to_nat len);
  b ← wrs (uip_buf s) 0 pkt;
  modify (set_uip_len len) ;; modify (set_uip_buf b) ;;
  if mode =? MAILBOX_ACK then modify (set_txStatus TRANSMIT_COMPLETE_OK) ;; mb_state_transition e MB_EVENT_SEND_DONE
  else if mode =? MAILBOX_NAK then modify (set_txStatus TRANSMIT_COMPLETE_FAIL) ;; mb_state_transition e MB_EVENT_SEND_DONE
  else if mode =? MAILBOX_QUEUE_FULL then mb_send_queue_full
  else if mode =? MAILBOX_WAITING then send_waiting b
  else if mode =? MAILBOX_PING then
    modify (set_ripaddr ip) ;; modify (set_rport prt) ;; modify (set_cur_handle hdl) ;; mb_state_transition e MB_EVNET_PING_REQ
  else if mode =? MAILBOX_PUSH then mb_post_uipbuf e (Some ip) hdl ;; mret tt
  else if mode =? MAILBOX_POP then
    if negb (bool_decide (state s = MB_STATE_IDLE)) then mret tt else
    modify (set_node (mb_get_dnode (drop 4 pData))) ;; modify (set_cur_handle hdl) ;;
    modify (set_ripaddr ip) ;; modify (set_rport prt) ;; modify (set_send_no_more true) ;;
    mb_state_transition e (if has_bits param1 MAILBOX_POP_LAST_BIT then MB_EVENT_POPLAST else MB_EVENT_POP)
  else mret tt.

Definition mb_command_handler (e : env) (ip : list Z) (prt : Z) (pData : list Z) (bDatalen : Z) : M bool :=
  cmd ← rd pData 1;
  if cmd =? MAILBOX_WAKEUP_NOTIFICATION then
    hdl ← rd pData 2;
    modify (set_node 0) ;; modify (set_cur_handle hdl) ;; modify (set_ripaddr ip) ;; modify (set_rport prt) ;;
    modify (set_broadcast_wun false) ;; mb_state_transition e MB_EVENT_WAKEUP ;; mret true
  else if cmd =? MAILBOX_CONFIGURATION_GET then
    s ← get;
    emit (Reply ([COMMAND_CLASS_MAILBOX; MAILBOX_CONFIGURATION_REPORT;
      Z.lor (Z.lor MAILBOX_SERVICE_SUPPORTED MAILBOX_PROXY_SUPPORTED) (Z.land (mb_conf_mode s) 0x7);
      Z.of_nat MAX_MAILBOX_ENTRIES / 256; Z.of_nat MAX_MAILBOX_ENTRIES `mod` 256] ++ mb_destination s ++ [mb_port s / 256; mb_port s `mod` 256])) ;;
    mret true
  else if cmd =? MAILBOX_CONFIGURATION_SET then
    properties1 ← rd pData 2;
    dest ← rds pData 3 16;
    prt' ← lift (port pData 19);
    modify (set_mb_destination dest) ;; modify (set_mb_conf_mode (Z.land properties1 7)) ;; modify (set_mb_port prt') ;;
    emit (ConfigUpdate (Z.land properties1 7) prt' dest) ;; mret true
  else if cmd =? MAILBOX_NODE_FAILING then
    ip' ← rds pData 2 16; mb_failing_notify_byip e ip' ;; mret true
  else if cmd =? MAILBOX_QUEUE then mb_queue_command e ip prt pData bDatalen ;; mret true
  else mret false.

(** ** Events *)

Inductive event :=
| Post (e : env) (buf : list Z) (len : Z)
| Wakeup (e : env) (n : Z) (broadcast : bool)
| SendDone (e : env) (status : Z)
| IntervalReport (e : env) (status : Z) (cmd : list Z)
| FrameSent (e : env) (n : Z)
| Failing (e : env) (n : Z)
| SleepLater (n : Z)
| Abort
| PingTimer (e : env)
| NoMoreTimer (e : env)
| WaitingTimer (i : nat)
| Command (e : env) (ip : list Z) (prt : Z) (pData : list Z) (bDatalen : Z).

(** A packet from the node queue; a wake-up; the ends of transmissions, pings and probes; a transmission of the
    node queue; timers, which are no longer set when their functions are called; commands of clients. *)
Definition step (ev : event) : M unit :=
  match ev with
  | Post e buf len => modify (set_uip_buf buf) ;; modify (set_uip_len len) ;; mb_post_uipbuf e None 0 ;; modify (set_uip_len 0)
  | Wakeup e n broadcast => mb_wakeup_event e n broadcast
  | SendDone e status => mb_send_done_event e status
  | IntervalReport e status cmd => mb_probe_wakeup_callback e status cmd
  | FrameSent e n => mb_node_transmission_ok_event e n
  | Failing e n => mb_failing_notify e n
  | SleepLater n => mb_put_node_to_sleep_later n
  | Abort => mb_abort_sending
  | PingTimer e => s ← get; match ping_timer s with Some _ => modify (set_ping_timer None) ;; send_ping_timeout e | None => mret tt end
  | NoMoreTimer e => s ← get; match no_more_timer s with Some _ => modify (set_no_more_timer None) ;; no_more_timeout e | None => mret tt end
  | WaitingTimer i => s ← get; match waiting_timer (entry s i) with Some _ => mod_entry i (set_waiting_timer None) ;; send_waiting_timeout i | None => mret tt end
  | Command e ip prt pData bDatalen => mb_command_handler e ip prt pData bDatalen ;; mret tt
  end.

Fixpoint run (evs : list event) : M unit :=
  match evs with [] => mret tt | ev :: evs => step ev ;; run evs end.

(** After [mb_init], in a mode and with the answers of the transmitter. *)
Definition state0 (mode : Z) (a : list outcome) : MB :=
  mkMB [] (replicate MAX_MAILBOX_ENTRIES 0) (replicate MAX_MAILBOX_ENTRIES entry0) MB_STATE_IDLE 0 0 (replicate 16 0) 0 false 0 None false
    (Some 60000) None (replicate QUEUE_BUF_SIZE 0) 0 mode (replicate 16 0) 0 a [].

End Mail.
End Mailbox.
