(* ===== verification/MailboxSpec.v ===== *)
(** * What the mailbox does (src/Mailbox.c)

    In the mode in which it serves its own network: the invariant of its entries, which every sequence of events
    keeps without a fault, and the delivery of the messages of a node that wakes up. *)
From S2P Require Import Prelude Effects Pool PacketQueue NodeQueue NodeQueueSpec Mailbox.
Import Effects Pool.
Import PacketQueue(UIP_BUFSIZE, QUEUE_BUF_SIZE).
Import NodeQueue(UIP_IPH_LEN, UIP_IPUDPH_LEN, TRANSMIT_COMPLETE_OK, TRANSMIT_COMPLETE_FAIL, peek, port, destipaddr, is_zip_pkt).
Import NodeQueue(outcome(..)).
Import NodeQueueSpec(splice_read, peek_ok, is_zip_pkt_ok).
Import Mailbox.

Module MailboxSpec.

(** ** Positions in the list *)

(** The list from [i] on. *)
Fixpoint from (i : nat) (l : list nat) : list nat :=
  match l with [] => [] | j :: l' => if Nat.eqb i j then l else from i l' end.

Lemma from_next i l : list_item_next i l = head (tail (from i l)).
Proof. induction l as [|j l IH]; [done|]. cbn. by destruct (Nat.eqb_spec i j). Qed.

Lemma from_not i l : ~ i ∈ l -> from i l = [].
Proof.
  induction l as [|j l IH]; [done|]. intros H. cbn. destruct (Nat.eqb_spec i j) as [->|]; [exfalso; apply H; left|]. apply IH. intros ?. apply H. by right.
Qed.

Lemma from_split i l : i ∈ l -> exists l1, l = l1 ++ from i l /\ ~ i ∈ l1 /\ exists l2, from i l = i :: l2.
Proof.
  induction l as [|j l IH]; [by intros ?%elem_of_nil|]. intros H. cbn. destruct (Nat.eqb_spec i j) as [->|Hj].
  - exists []. split; [done|]. split; [by apply not_elem_of_nil|by exists l].
  - apply elem_of_cons in H as [?|H]; [done|]. destruct (IH H) as (l1 & E & Hn & l2 & E2). exists (j :: l1). cbn. rewrite <- E.
    split; [done|]. split; [|by exists l2]. intros [?|?]%elem_of_cons; done.
Qed.

Lemma length_from i l : (length (from i l) <= length l)%nat.
Proof. induction l as [|j l IH]; [done|]. cbn. destruct (Nat.eqb i j); cbn; lia. Qed.

Lemma length_list_remove i l : (length (list_remove i l) <= length l)%nat.
Proof. induction l as [|j l IH]; [done|]. cbn. destruct (Nat.eqb i j); cbn; lia. Qed.

Lemma from_remove i j l : NoDup l -> (length (from j (list_remove i l)) <= length (from j l))%nat.
Proof.
  induction l as [|k l IH]; [done|]. intros [Hk Hn]%list.NoDup_cons. cbn. destruct (Nat.eqb_spec i k) as [->|Hi].
  - destruct (Nat.eqb_spec j k) as [->|Hj]; [rewrite from_not by done; cbn; lia|done].
  - cbn. destruct (Nat.eqb_spec j k) as [->|Hj]; [cbn; pose proof (length_list_remove i l); lia|by apply IH].
Qed.

(** The entries still to come from [o] on; an entry no longer in the list counts as one. *)
Definition ahead (l : list nat) (o : option nat) : nat := match o with None => 0 | Some i => Nat.max 1 (length (from i l)) end.

Lemma head_from i l : head (from i l) = None \/ head (from i l) = Some i.
Proof. induction l as [|j l IH]; [by left|]. cbn. destruct (Nat.eqb_spec i j) as [->|]; [by right|done]. Qed.

Lemma from_tail i j l : NoDup l -> head (tail (from i l)) = Some j -> from j l = tail (from i l).
Proof.
  induction l as [|k l IH]; [done|]. intros [Hk Hn]%list.NoDup_cons. cbn. destruct (Nat.eqb_spec i k) as [->|Hi].
  - cbn. intros Hj. destruct l as [|m l]; [done|]. injection Hj as ->. destruct (Nat.eqb_spec j k) as [->|]; [exfalso; apply Hk; left|]. cbn. by rewrite Nat.eqb_refl.
  - intros Hj. destruct (Nat.eqb_spec j k) as [->|]; [|by apply IH]. exfalso. apply Hk.
    destruct (decide (i ∈ l)) as [Hm|Hm]; [|by rewrite from_not in Hj]. destruct (from_split i l Hm) as (l1 & E & _ & l2 & E2).
    rewrite E2 in Hj. cbn in Hj. destruct l2 as [|m l2]; [done|]. injection Hj as ->. rewrite E, E2. apply elem_of_app. right. right. left.
Qed.

Lemma ahead_next l i : NoDup l -> (ahead l (list_item_next i l) < ahead l (Some i))%nat.
Proof.
  intros Hn. rewrite from_next. destruct (head (tail (from i l))) as [j|] eqn:E; cbn; [|lia]. rewrite (from_tail i j l Hn E).
  destruct (from i l) as [|k [|m r]]; cbn in *; [done|done|lia].
Qed.

Lemma ahead_remove l i o : NoDup l -> (ahead (list_remove i l) o <= ahead l o)%nat.
Proof. intros Hn. destruct o as [j|]; [|done]. cbn. pose proof (from_remove i j l Hn). lia. Qed.

Lemma ahead_head l : (ahead l (head l) <= length l)%nat.
Proof. destruct l as [|i l]; [done|]. cbn. rewrite Nat.eqb_refl. cbn. lia. Qed.

Lemma ahead_bound l o : (ahead l o <= S (length l))%nat.
Proof. destruct o as [i|]; cbn; [pose proof (length_from i l); lia|lia]. Qed.

Section Spec.
Context (nodeOfIP : list Z -> Z) (ipOfNode : Z -> list Z).
Abbreviation seek := (seek nodeOfIP).
Abbreviation transition := (transition nodeOfIP).

Lemma ahead_seek fuel n s o : NoDup (mb_list s) -> (ahead (mb_list s) (seek fuel n s o) <= ahead (mb_list s) o)%nat.
Proof.
  intros Hn. revert o. induction fuel as [|fuel IH]; intros [i|]; cbn [Mailbox.seek]; [cbn; lia|done| |done].
  destruct (_ =? n); [done|]. pose proof (IH (list_item_next i (mb_list s))). pose proof (ahead_next (mb_list s) i Hn). lia.
Qed.

(** ** The invariant *)

(** The block holds, or held, a packet. *)
Definition used (s : MB) (i : nat) : Prop := (i < MAX_MAILBOX_ENTRIES)%nat /\ Z.of_nat UIP_IPUDPH_LEN <= data_len (entry s i).

(** The states of the service; the others are those of a session with a proxy. *)
Definition serving (st : mb_state_enum) : Prop :=
  match st with
  | MB_STATE_SENDING_THROUGH_PROXY | MB_STATE_SENDING_FROM_PROXY | MB_STATE_SENDING_LAST_FORM_PROXY | MB_STATE_SENDING_PING => False
  | _ => True
  end.

(** An entry as it is in memory. *)
Record entry_ok (m : mailbox_t) : Prop := {
  eo_data : length (data m) = MAX_MAIL_BOX_PAYLOAD;
  eo_len : 0 <= data_len m <= Z.of_nat QUEUE_BUF_SIZE;
  eo_proxy : unspecified (proxy m) = true
}.

Record core (s : MB) : Prop := {
  co_pool : pool_ok MAX_MAILBOX_ENTRIES (counts s) (mb_list s);
  co_mem : length (mem s) = MAX_MAILBOX_ENTRIES;
  co_entries i : entry_ok (entry s i);
  co_used i : i ∈ mb_list s \/ last_entry s = Some i -> used s i;
  co_uip : length (uip_buf s) = QUEUE_BUF_SIZE;
  co_port : rport s = 0;
  co_mode : mb_conf_mode s <> ENABLE_MAILBOX_PROXY_FORWARDING;
  co_state : serving (state s)
}.

(** At rest, a transmission or ping is that of an entry. *)
Definition rest (s : MB) : Prop := (state s = MB_STATE_SENDING \/ state s = MB_STATE_PING_ZIPCLIENTS) -> is_Some (last_entry s).

Lemma co_nodup s : core s -> NoDup (mb_list s).
Proof. intros H. apply (pool_nodup _ _ _ (co_pool _ H)). Qed.

(** Nothing of it changed. *)
Lemma mb_core_ext s s' : core s -> counts s' = counts s -> mb_list s' = mb_list s -> mem s' = mem s -> last_entry s' = last_entry s ->
  length (uip_buf s') = length (uip_buf s) -> rport s' = rport s -> mb_conf_mode s' = mb_conf_mode s -> serving (state s') -> core s'.
Proof.
  intros [Hp Hm He Hu Hb Hr Hc Hs] E1 E2 E3 E4 E5 E6 E7 E8. unfold used, entry in *. split; unfold used, entry; rewrite ?E1, ?E2, ?E3, ?E4, ?E5, ?E6, ?E7; done.
Qed.

Lemma core_state st s : core s -> serving st -> core (set_state st s).
Proof. intros H Hs. by apply (mb_core_ext s). Qed.

Lemma core_last o s : core s -> (forall i, o = Some i -> used s i) -> core (set_last_entry o s).
Proof. intros [Hp Hm He Hu Hb Hr Hc Hs] Ho. split; try done. intros i [Hi|Hi]; [apply Hu; by left|by apply Ho]. Qed.

Lemma alter_beyond {A} (f : A -> A) i (l : list A) : (length l <= i)%nat -> alter f i l = l.
Proof.
  intros H. apply list_eq. intros j. destruct (decide (i = j)) as [<-|Hj]; [|by rewrite list_lookup_alter_ne].
  rewrite list_lookup_alter_eq. by rewrite (proj2 (lookup_ge_None l i) H).
Qed.

(** A field of an entry changes that is not looked at. *)
Lemma core_mod i f s : core s -> (forall m, data (f m) = data m /\ data_len (f m) = data_len m /\ proxy (f m) = proxy m) ->
  core (set_mem (alter f i (mem s)) s).
Proof.
  intros H Hf. destruct (decide (i < length (mem s))%nat) as [Hi|Hi]; [|rewrite alter_beyond by lia; by destruct s].
  assert (E : forall j, exists m, entry (set_mem (alter f i (mem s)) s) j = m /\ data m = data (entry s j) /\ data_len m = data_len (entry s j) /\ proxy m = proxy (entry s j)).
  { intros j. eexists. split; [done|]. unfold entry. cbn. destruct (decide (i = j)) as [<-|Hj].
    - rewrite block_alter_eq by done. apply Hf.
    - by rewrite block_alter_ne. }
  destruct H as [Hp Hm He Hu Hb Hr Hc Hs]. split; try done.
  - cbn. by rewrite length_alter.
  - intros j. destruct (E j) as (m & -> & E1 & E2 & E3). destruct (He j) as [H1 H2 H3]. split; by rewrite ?E1, ?E2, ?E3.
  - intros j Hj. destruct (Hu j Hj) as [H1 H2]. split; [done|]. destruct (E j) as (m & -> & _ & -> & _). exact H2.
Qed.

(** An entry is freed, whether it is still in use or not. *)
Lemma pool_free_any n c l i : pool_ok n c l -> pool_ok n (alter count_free i c) (list_remove i l).
Proof.
  intros H. destruct (decide (i ∈ l)) as [Hi|Hi].
  - apply pool_free. by rewrite <- (list_remove_perm i l Hi).
  - rewrite list_remove_none by done. destruct H as [Hl Hn Hlt Hc]. split; [by rewrite length_alter|done|done|].
    intros j x. destruct (decide (i = j)) as [<-|Hj]; [|rewrite list_lookup_alter_ne by done; apply Hc].
    rewrite list_lookup_alter_eq. intros (y & Hy & ->)%fmap_Some. rewrite (Hc i y Hy). by rewrite decide_False.
Qed.

Lemma list_remove_in i j l : j ∈ list_remove i l -> j ∈ l.
Proof. destruct (decide (i ∈ l)) as [Hi|Hi]; [|by rewrite list_remove_none]. rewrite (list_remove_perm i l Hi) at 2. by right. Qed.

Definition freed (i : nat) (s : MB) : MB :=
  set_counts (alter count_free i (counts s)) (set_mb_list (list_remove i (mb_list s)) (set_mem (alter (set_waiting_timer None) i (mem s)) s)).

Lemma core_freed i s : core s -> core (freed i s).
Proof.
  intros H. assert (H1 : core (set_mem (alter (set_waiting_timer None) i (mem s)) s)) by (by apply core_mod).
  destruct H1 as [Hp Hm He Hu Hb Hr Hc Hs]. split; try done; [by apply pool_free_any|].
  intros j [Hj|Hj]; apply Hu; [left; by apply list_remove_in in Hj|by right].
Qed.

Lemma free_ok i (Q : unit -> MB -> Prop) s : Q tt (freed i s) -> wp (mb_free_entry i) Q s.
Proof. intros H. exact H. Qed.

(** ** The calls of a transition *)

Definition lst (s : MB) : nat := length (mb_list s).

(** How deep the calls of a transition may nest. *)
Definition rank (s : MB) (ev : mb_event_t) : nat :=
  let p := ahead (mb_list s) (last_entry s) in
  match state s, ev with
  | MB_STATE_IDLE, MB_EVNET_TIME_TO_PING => 3 + 2 * lst s
  | MB_STATE_IDLE, MB_EVENT_WAKEUP => 8 + lst s
  | MB_STATE_PROBE_WAKEUP_INTERVAL, MB_EVENT_TRANSITION => 7 + lst s
  | MB_STATE_PROBE_WAKEUP_INTERVAL, MB_EVENT_SEND_DONE => 6 + lst s
  | MB_STATE_SENDING, MB_EVENT_TRANSITION => 5 + lst s
  | MB_STATE_SENDING, MB_EVENT_SEND_DONE => 4 + p
  | MB_STATE_SENDING, _ => 5 + p
  | MB_STATE_PING_ZIPCLIENTS, MB_EVENT_TRANSITION => 2 + 2 * p
  | MB_STATE_PING_ZIPCLIENTS, MB_EVENT_SEND_DONE => 1 + 2 * p
  | MB_STATE_SEND_NO_MORE_INFO_DELAYED, MB_EVENT_TIMEOUT => 3
  | MB_STATE_SEND_NO_MORE_INFO, MB_EVENT_TRANSITION => 3
  | MB_STATE_SEND_NO_MORE_INFO, MB_EVENT_SEND_DONE => 2
  | _, _ => 1
  end.

(** The events of the service, and when they come. *)
Definition fits (s : MB) (ev : mb_event_t) : Prop :=
  match ev with
  | MB_EVENT_POP | MB_EVENT_POPLAST | MB_EVNET_PING_REQ => False
  | MB_EVENT_WAKEUP => node s <> 0 /\ rest s
  | MB_EVENT_TRANSITION => True
  | _ => rest s
  end.

(** What a call of the transition does. *)
Definition calls_ok (bound : nat) (tr : mb_event_t -> M unit) : Prop :=
  forall ev s, core s -> fits s ev -> (rank s ev <= bound)%nat -> wp (tr ev) (fun _ s' => core s' /\ rest s') s.

Section Calls.
Context (bound : nat) (tr : mb_event_t -> M unit) (Htr : calls_ok bound tr).

Definition post (_ : unit) (s : MB) : Prop := core s /\ rest s.

Lemma done_ok status s : core s -> rest s -> (rank s MB_EVENT_SEND_DONE <= bound)%nat -> wp (mb_send_done tr status) post s.
Proof. intros H Hr Hb. apply step_modify. apply (Htr MB_EVENT_SEND_DONE (set_txStatus status s)); [by apply (mb_core_ext s); [..|apply H]|done|done]. Qed.

(** Asking changes nothing else. *)
Lemma ask_ok (Q : outcome -> MB -> Prop) s : (forall a l, Q a (set_answers l s)) -> wp ask Q s.
Proof.
  intros H. unfold wp, ask. destruct (answers s) as [|a l] eqn:E; [|apply H]. specialize (H Pending []). rewrite <- E in H. by destruct s.
Qed.

Definition told (s s' : MB) : Prop := core s' /\ state s' = state s /\ mb_list s' = mb_list s /\ last_entry s' = last_entry s.

Lemma mb_give_ok s : core s -> rest s -> (Z.to_nat (uip_len s) <= QUEUE_BUF_SIZE)%nat -> (rank s MB_EVENT_SEND_DONE <= bound)%nat ->
  wp (give tr) (fun t s' => if t then core s' /\ rest s' else told s s') s.
Proof.
  intros H Hr Hl Hb. unfold give. apply step_get, wp_bind, wp_rds; [by rewrite (co_uip _ H)|]. apply step_modify, wp_bind, ask_ok. intros a l.
  assert (Hc : core (set_answers l (set_outs (outs s ++ [Transmit (node s) (sub 0 (Z.to_nat (uip_len s)) (uip_buf s))]) s))) by (apply (mb_core_ext s); try done; apply H).
  destruct a as [|status|]; [by apply end_ret| |by apply end_ret].
  apply wp_bind. eapply wp_mono; [by apply done_ok|]. intros [] s' Hp. by apply end_ret.
Qed.

Lemma no_more_ok n s : core s -> state s = MB_STATE_SEND_NO_MORE_INFO -> (2 <= bound)%nat -> wp (mb_send_no_more_information tr n) post s.
Proof.
  intros H Hs Hb. unfold mb_send_no_more_information. apply step_get.
  assert (Hr : forall s', state s' = state s -> rest s' /\ (rank s' MB_EVENT_SEND_DONE <= bound)%nat).
  { intros s' E. unfold rest, rank. rewrite E, Hs. split; [by intros []|done]. }
  destruct (broadcast_wun s).
  - apply step_modify, done_ok; [by apply (mb_core_ext s); [..|apply H]|by apply Hr..].
  - apply step_modify, wp_bind, ask_ok. intros a l.
    assert (Hc : core (set_answers l (set_outs (outs s ++ [NoMoreInfo n]) s))) by (apply (mb_core_ext s); try done; apply H).
    destruct a; [apply end_ret; split; [done|by apply Hr]..|]. apply done_ok; [done|by apply Hr..].
Qed.

(** Entering a state. *)
Lemma go_ok st s : core s -> serving st -> (rank (set_state st s) MB_EVENT_TRANSITION <= bound)%nat -> wp (go tr st) post s.
Proof. intros H Hs Hb. apply step_modify. apply (Htr MB_EVENT_TRANSITION); [by apply core_state|done|done]. Qed.

Lemma proxy_status_ok (Q : unit -> MB -> Prop) s : core s -> Q tt s -> wp proxy_status Q s.
Proof. intros H HQ. unfold proxy_status, mb_send_proxy_status. apply step_get, step_get. by rewrite (co_port _ H). Qed.

Lemma load_ok i s : core s -> used s i ->
  wp (load_uipbuf_with i) (fun _ s' => exists b, length b = QUEUE_BUF_SIZE /\ take (Z.to_nat (data_len (entry s i))) b = take (Z.to_nat (data_len (entry s i))) (data (entry s i)) /\
    s' = set_uip_len (data_len (entry s i)) (set_uip_buf b s)) s.
Proof.
  intros H [Hi Hu]. unfold load_uipbuf_with. apply step_get. destruct (co_entries _ H i) as [Hd Hl Hp]. unfold UIP_IPUDPH_LEN in Hu.
  rewrite (proj2 (Z.eqb_neq _ _)) by lia. apply step_ret, wp_bind, wp_rds.
  { rewrite Hd. unfold QUEUE_BUF_SIZE, MAX_MAIL_BOX_PAYLOAD in *. lia. }
  pose proof (co_uip _ H) as Hub. unfold sub. rewrite drop_0. set (x := take (Z.to_nat (data_len (entry s i))) (data (entry s i))).
  assert (Hx : length x = Z.to_nat (data_len (entry s i))) by (unfold x; rewrite length_take, Hd; unfold QUEUE_BUF_SIZE, MAX_MAIL_BOX_PAYLOAD in *; lia).
  destruct (splice_read x (uip_buf s)) as [Hpre Hsl]; [rewrite Hx, Hub; lia|].
  apply wp_bind, wp_wrs; [rewrite Hx, Hub; lia|]. apply step_modify, end_modify. exists (splice 0 x (uip_buf s)). rewrite Hsl, Hub, <- Hx. by rewrite Hpre.
Qed.

Lemma flags1_ok b : length b = QUEUE_BUF_SIZE -> exists f, flags1 b = Ok f.
Proof. intros H. apply peek_ok. rewrite H. apply Nat.ltb_lt. vm_compute. reflexivity. Qed.

Lemma seek_used fuel n s o : core s -> (forall i, o = Some i -> used s i) -> forall i, seek fuel n s o = Some i -> used s i.
Proof.
  intros H. revert o. induction fuel as [|fuel IH]; intros [j|] Ho i; cbn [Mailbox.seek]; try done.
  destruct (_ =? n); [by intros [= <-]; apply Ho|]. apply IH. intros k. rewrite from_next. intros Hk. apply (co_used _ H). left.
  destruct (decide (j ∈ mb_list s)) as [Hj|Hj]; [|by rewrite from_not in Hk]. destruct (from_split j _ Hj) as (l1 & E & _ & l2 & E2).
  rewrite E, E2. rewrite E2 in Hk. destruct l2 as [|m l2]; [done|]. injection Hk as ->. apply elem_of_app. right. right. left.
Qed.

(** ** The states *)

Lemma send_next_ok s : core s -> state s = MB_STATE_SENDING -> (3 <= bound)%nat ->
  (is_Some (last_entry s) -> 4 + ahead (mb_list s) (last_entry s) <= bound)%nat -> wp (send_next nodeOfIP tr) post s.
Proof.
  intros H Hs H3 Hb. unfold send_next. apply step_modify. set (o := seek _ _ _ _).
  assert (Ho : forall i, o = Some i -> used s i) by (apply seek_used; [done|]; intros i Hi; apply (co_used _ H); by right).
  assert (Hpos : (ahead (mb_list s) o <= ahead (mb_list s) (last_entry s))%nat) by (apply ahead_seek, (co_nodup _ H)).
  set (s1 := set_last_entry o s). assert (H1 : core s1) by (by apply core_last). apply step_get. change (last_entry s1) with o.
  destruct o as [i|] eqn:Eo.
  - assert (Hlast : is_Some (last_entry s)) by (destruct (last_entry s); [done|]; cbn in Hpos; lia).
    apply wp_bind. eapply wp_mono; [apply (load_ok i s1 H1), (Ho i eq_refl)|]. intros [] s2 (b & Hbl & _ & ->). apply step_get. cbn [uip_buf set_uip_len set_uip_buf].
    apply wp_bind. unfold is_more_info_set. cbn [uip_buf set_uip_len set_uip_buf]. destruct (flags1_ok b Hbl) as [f Ef]. rewrite Ef. cbn [mbind res_bind].
    unfold wp at 1, lift.
    set (s2 := set_uip_len _ _). assert (H2 : core s2) by (apply (mb_core_ext s1); try done; [change (uip_buf s2) with b; by rewrite Hbl, (co_uip _ H1)|apply H1]).
    apply wp_bind. apply (wp_mono _ (fun _ s' => told s2 s' /\ uip_len s' = uip_len s2)).
    { destruct (has_bits f _); [apply end_modify|apply end_ret]; (split; [|done]); (split; [|done]); [|done]. apply (mb_core_ext s2); try done; apply H2. }
    intros [] s3 [(H3' & E1 & E2 & E3) E4].
    apply wp_bind. eapply wp_mono; [apply (mb_give_ok s3 H3')|].
    + intros _. rewrite E3. by exists i.
    + rewrite E4. destruct (co_entries _ H1 i) as [_ Hl _]. change (uip_len s2) with (data_len (entry s1 i)). lia.
    + unfold rank. rewrite E1, E2, E3. change (state s2) with (state s). rewrite Hs. change (last_entry s2) with (Some i). change (mb_list s2) with (mb_list s).
      specialize (Hb Hlast). lia.
    + intros [] s4 Hp.
      * apply step_ret, end_modify. destruct Hp as [Hc Hr]. split; [|done]. apply (mb_core_ext s4); try done; apply Hc.
      * destruct Hp as (Hc & F1 & F2 & F3). apply wp_bind. eapply wp_mono; [apply go_ok; [done|done|]|].
        { unfold rank. cbn. exact H3. }
        intros [] s5 [Hc5 Hr5]. apply end_modify. split; [|done]. apply (mb_core_ext s5); try done; apply Hc5.
  - destruct (send_no_more s1).
    + apply go_ok; [done|done|]. unfold rank. cbn. exact H3.
    + apply step_modify, step_modify, end_modify. split; [|by intros []]. by apply (mb_core_ext s1).
Qed.

Lemma next_used s i : core s -> forall j, list_item_next i (mb_list s) = Some j -> used s j.
Proof.
  intros H j. rewrite from_next. intros Hj. apply (co_used _ H). left.
  destruct (decide (i ∈ mb_list s)) as [Hi|Hi]; [|by rewrite from_not in Hj]. destruct (from_split i _ Hi) as (l1 & E & _ & l2 & E2).
  rewrite E, E2. rewrite E2 in Hj. destruct l2 as [|m l2]; [done|]. injection Hj as ->. apply elem_of_app. right. right. left.
Qed.

Lemma head_used s : core s -> forall j, head (mb_list s) = Some j -> used s j.
Proof. intros H j Hj. apply (co_used _ H). left. destruct (mb_list s); [done|]. injection Hj as ->. left. Qed.

Lemma in_sending_ok ev s : core s -> state s = MB_STATE_SENDING -> (ev = MB_EVENT_TRANSITION \/ rest s) -> (rank s ev <= S bound)%nat -> wp (in_sending nodeOfIP tr ev) post s.
Proof.
  intros H Hs Hr Hb. unfold in_sending. apply step_get. unfold rank in Hb. rewrite Hs in Hb. apply wp_bind.
  assert (Hother : (5 + ahead (mb_list s) (last_entry s) <= S bound)%nat -> wp (mret tt) (fun _ s' => wp (send_next nodeOfIP tr) post s') s).
  { intros Hb'. apply end_ret, send_next_ok; [done|done|lia|lia]. }
  destruct ev; try (by apply Hother).
  - destruct Hr as [?|Hr]; [done|]. destruct (Hr (or_introl Hs)) as [i Ei]. rewrite Ei in Hb |- *. cbn [mbind option_bind].
    pose proof (ahead_next (mb_list s) i (co_nodup _ H)) as Hp. apply step_modify. set (o := list_item_next i (mb_list s)) in *.
    assert (H1 : core (set_last_entry o s)) by (apply core_last; [done|by apply next_used]).
    destruct (txStatus s =? TRANSMIT_COMPLETE_OK).
    + apply step_ret. apply free_ok. apply send_next_ok; [by apply core_freed|done|lia|]. cbn [mb_list last_entry freed set_counts set_mb_list set_mem set_last_entry].
      intros _. pose proof (ahead_remove (mb_list s) i o (co_nodup _ H)). lia.
    + apply end_ret. apply send_next_ok; [done|done|lia|]. cbn. intros _. lia.
  - apply end_modify. apply send_next_ok; [apply core_last; [done|by apply head_used]|done|lia|]. cbn. intros _. pose proof (ahead_head (mb_list s)). unfold lst in Hb. lia.
Qed.

Lemma in_ping_ok ev s : core s -> state s = MB_STATE_PING_ZIPCLIENTS -> (ev = MB_EVENT_TRANSITION \/ rest s) -> (rank s ev <= S bound)%nat -> wp (in_ping_zipclients tr ev) post s.
Proof.
  intros H Hs Hr Hb. unfold in_ping_zipclients. apply step_get. unfold rank in Hb. rewrite Hs in Hb.
  destruct ev; try (apply end_ret; split; [done|]; by destruct Hr).
  - destruct Hr as [?|Hr]; [done|]. destruct (Hr (or_intror Hs)) as [i Ei]. rewrite Ei in Hb |- *. apply step_ret.
    pose proof (ahead_next (mb_list s) i (co_nodup _ H)) as Hp. apply step_modify, step_modify.
    apply (Htr MB_EVENT_TRANSITION); [|done|].
    + apply (core_last _ (set_mem _ s)); [by apply core_mod|]. intros j Hj.
      assert (Hc : core (set_mem (alter (set_waiting_enabled (txStatus s =? TRANSMIT_COMPLETE_OK)) i (mem s)) s)) by (by apply core_mod).
      by apply (next_used _ i Hc).
    + unfold rank. cbn [state set_last_entry set_mem mb_list last_entry]. rewrite Hs. lia.
  - destruct (last_entry s) as [i|] eqn:Ei.
    + destruct (waiting_enabled (entry s i)); cbn [negb].
      * rewrite (eo_proxy _ (co_entries _ H i)). apply wp_bind, wp_rds.
        { rewrite (eo_data _ (co_entries _ H i)). apply Nat.leb_le. vm_compute. reflexivity. }
        unfold ping. apply step_modify, wp_bind, ask_ok. intros a l. set (s1 := set_answers l _).
        assert (H1 : core s1) by (apply (mb_core_ext s); try done; apply H). assert (Hr1 : rest s1) by (intros _; by exists i).
        destruct a as [|status|]; [by apply end_ret| |by apply end_ret]. apply done_ok; [done|done|]. unfold rank. change (state s1) with (state s). rewrite Hs.
        change (last_entry s1) with (last_entry s). rewrite Ei. change (mb_list s1) with (mb_list s). lia.
      * pose proof (ahead_next (mb_list s) i (co_nodup _ H)) as Hp. apply step_modify. apply (Htr MB_EVENT_TRANSITION); [apply core_last; [done|by apply next_used]|done|].
        unfold rank. cbn [state set_last_entry mb_list last_entry]. rewrite Hs. lia.
    + apply step_modify. apply go_ok; [by apply (mb_core_ext s); [..|apply H]|done|]. unfold rank. cbn. lia.
Qed.

Lemma in_idle_ok e ev s : core s -> state s = MB_STATE_IDLE -> fits s ev -> (rank s ev <= S bound)%nat -> wp (in_idle tr e ev) post s.
Proof.
  intros H Hs Hf Hb. unfold in_idle. apply step_get. unfold rank in Hb. rewrite Hs in Hb.
  assert (Hr : rest s) by (unfold rest; rewrite Hs; by intros []).
  destruct ev; try done; try (by apply end_ret).
  - destruct Hf as [Hn _]. rewrite (proj2 (Z.eqb_neq _ _) Hn). destruct (rd_get_node_dbe e (node s)) as [[wi la]|].
    + destruct (_ || _); apply go_ok; try done; unfold rank; cbn; unfold lst in *; cbn; lia.
    + apply step_modify, no_more_ok; [by apply core_state|done|lia].
  - apply step_modify. apply go_ok; [apply core_last; [done|by apply head_used]|done|]. unfold rank. cbn [state set_state set_last_entry mb_list last_entry].
    pose proof (ahead_head (mb_list s)). unfold lst in Hb. lia.
  - apply end_modify. split; [by apply (mb_core_ext s); [..|apply H]|done].
Qed.

Lemma in_probe_ok ev s : core s -> state s = MB_STATE_PROBE_WAKEUP_INTERVAL -> (rank s ev <= S bound)%nat -> wp (in_probe tr ev) post s.
Proof.
  intros H Hs Hb. unfold in_probe. unfold rank in Hb. rewrite Hs in Hb. assert (Hr : rest s) by (unfold rest; rewrite Hs; by intros []).
  destruct ev; try (by apply end_ret).
  - apply go_ok; [done|done|]. unfold rank, lst in *. cbn. lia.
  - apply step_get, step_modify, wp_bind, ask_ok. intros a l. set (s1 := set_answers l _). assert (H1 : core s1) by (by apply (mb_core_ext s); [..|apply H]).
    destruct a; [by apply end_ret..|]. apply (Htr MB_EVENT_SEND_DONE); [done|done|]. unfold rank, lst in *. change (state s1) with (state s). rewrite Hs. cbn. lia.
Qed.

Lemma in_delayed_ok e ev s : core s -> state s = MB_STATE_SEND_NO_MORE_INFO_DELAYED -> (rank s ev <= S bound)%nat -> wp (in_no_more_delayed tr e ev) post s.
Proof.
  intros H Hs Hb. unfold in_no_more_delayed. unfold rank in Hb. rewrite Hs in Hb. assert (Hr : rest s) by (unfold rest; rewrite Hs; by intros []).
  destruct ev; try (by apply end_ret).
  - apply step_get. destruct (rd_node_in_probe e (node s)).
    + apply end_modify. split; [by apply (mb_core_ext s); [..|apply H]|done].
    + apply step_modify, no_more_ok; [by apply core_state|done|lia].
  - apply end_modify. split; [by apply (mb_core_ext s); [..|apply H]|done].
Qed.

Lemma in_no_more_ok ev s : core s -> state s = MB_STATE_SEND_NO_MORE_INFO -> (rank s ev <= S bound)%nat -> wp (in_no_more tr ev) post s.
Proof.
  intros H Hs Hb. unfold in_no_more. unfold rank in Hb. rewrite Hs in Hb. assert (Hr : rest s) by (unfold rest; rewrite Hs; by intros []).
  destruct ev; try (by apply end_ret).
  - apply go_ok; [done|done|]. unfold rank. cbn. lia.
  - apply wp_bind, proxy_status_ok; [done|]. apply step_get, no_more_ok; [done|done|lia].
Qed.

End Calls.

(** Enough calls may nest: every transition ends. *)
Lemma transition_ok fuel e : calls_ok fuel (transition fuel e).
Proof.
  induction fuel as [|fuel IH]; intros ev s H Hf Hb.
  - exfalso. unfold rank in Hb. destruct (state s), ev; lia.
  - cbn [Mailbox.transition]. apply step_get.
    assert (Hr : ev = MB_EVENT_TRANSITION \/ rest s) by (destruct ev; first [by right|by left|right; apply Hf]).
    destruct (state s) eqn:Hs; pose proof (co_state _ H) as Hst; rewrite Hs in Hst; try done.
    + by apply (in_idle_ok fuel).
    + by apply (in_probe_ok fuel).
    + by apply (in_sending_ok fuel).
    + by apply (in_no_more_ok fuel).
    + by apply (in_delayed_ok fuel).
    + by apply (in_ping_ok fuel).
Qed.

Lemma state_transition_ok e ev s : core s -> fits s ev -> wp (mb_state_transition nodeOfIP e ev) post s.
Proof.
  intros H Hf. apply step_get. apply (transition_ok _ e ev s H Hf). unfold rank, lst. pose proof (ahead_bound (mb_list s) (last_entry s)).
  destruct (state s), ev; lia.
Qed.

(** ** Posting and dropping messages *)

Definition ext_ok (e : env) : Prop := (UIP_IPH_LEN + uip_ext_len e + 4 <= QUEUE_BUF_SIZE)%nat.

Lemma header_fits l s : core s -> (length (header l) <= length (uip_buf s))%nat.
Proof.
  intros H. unfold header. rewrite length_take, (co_uip _ H). apply Nat.le_trans with (UIP_IPUDPH_LEN + ZIP_HEADER_SIZE)%nat; [apply Nat.le_min_l|].
  apply Nat.leb_le. vm_compute. reflexivity.
Qed.

(** The entries change; the machine does not. *)
Definition kept (s s' : MB) : Prop := core s' /\ state s' = state s /\ last_entry s' = last_entry s.

Lemma wp_lift_ok {A} (r : res A) a (Q : A -> MB -> Prop) s : r = Ok a -> Q a s -> wp (lift r) Q s.
Proof. intros -> HQ. exact HQ. Qed.

Lemma kept_rest s s' : kept s s' -> rest s -> core s' /\ rest s'.
Proof. intros (H & E1 & E2) Hr. split; [done|]. unfold rest. by rewrite E1, E2. Qed.

Lemma purge_ok e ip l s : ext_ok e -> core s -> wp (purge_loop e ip l) (fun _ s' => kept s s') s.
Proof.
  intros He. revert s. induction l as [|i l IH]; intros s H; [by apply end_ret|]. cbn [purge_loop]. apply step_get.
  assert (Hnext : forall s1, kept s s1 -> wp (purge_loop e ip l) (fun _ s' => kept s s') s1).
  { intros s1 (H1 & E1 & E2). eapply wp_mono; [apply (IH s1 H1)|]. intros [] s' (H' & E1' & E2'). split; [done|]. by rewrite E1', E2'. }
  destruct (_ && _); [|by apply step_ret, Hnext]. destruct (co_entries _ H i) as [Hd Hl Hp].
  assert (H55 : (0 + (UIP_IPUDPH_LEN + ZIP_HEADER_SIZE) <= length (data (entry s i)))%nat) by (rewrite Hd; apply Nat.leb_le; vm_compute; reflexivity).
  apply wp_bind, wp_bind. destruct (is_zip_pkt_ok (uip_ext_len e) (data (entry s i)) He) as [z Ez].
  { rewrite Hd. apply Nat.leb_le. vm_compute. reflexivity. }
  apply (wp_lift_ok _ z); [done|]. apply wp_bind. apply (wp_mono _ (fun _ s' => kept s s')).
  - destruct (z && _); [|by apply end_ret]. apply wp_bind, wp_rds; [done|]. unfold sub. rewrite drop_0. set (h := take _ _).
    pose proof (header_fits (data (entry s i)) s H : length h <= length (uip_buf s))%nat as Hh.
    destruct (splice_read h (uip_buf s) Hh) as [_ Hsl]. apply wp_bind, wp_wrs; [done|]. apply step_modify, end_modify. split; [|done].
    apply (mb_core_ext s); try done; first [apply H|cbn; by rewrite Hsl].
  - intros [] s1 (H1 & E1 & E2). apply free_ok. apply Hnext. split; [by apply core_freed|]. by cbn.
Qed.

Lemma failing_ok e n s : ext_ok e -> core s -> wp (mb_failing_notify ipOfNode e n) (fun _ s' => kept s s') s.
Proof.
  intros He H. unfold mb_failing_notify, mb_purge_messages. apply step_get. rewrite (proj2 (Z.eqb_neq _ _) (co_mode _ H)). apply step_get. by apply purge_ok.
Qed.

Lemma waiting_ok i s : core s -> wp (send_waiting_timeout i) (fun _ s' => kept s s') s.
Proof.
  intros H. unfold send_waiting_timeout. apply step_get. destruct (co_entries _ H i) as [Hd Hl Hp]. rewrite Hp. apply wp_bind. apply (wp_mono _ (fun _ s' => kept s s')).
  - destruct (waiting_enabled _); [|by apply end_ret]. unfold send_waiting. apply wp_bind, wp_rds; [rewrite Hd; apply Nat.leb_le; vm_compute; reflexivity|].
    unfold sub. rewrite drop_0. set (h := take _ _).
    pose proof (header_fits (data (entry s i)) s H : length h <= length (uip_buf s))%nat as Hh.
    destruct (splice_read h (uip_buf s) Hh) as [_ Hsl]. apply step_get, wp_bind, wp_wrs; [done|]. apply step_modify, wp_bind.
    destruct (flags1_ok (splice 0 h (uip_buf s))) as [f Ef]; [by rewrite Hsl, (co_uip _ H)|]. apply (wp_lift_ok _ f); [done|]. apply end_modify. split; [|done].
    apply (mb_core_ext s); try done; first [apply H|cbn; by rewrite Hsl].
  - intros [] s1 (H1 & E1 & E2). apply end_modify. split; [by apply core_mod|]. by cbn.
Qed.

(** A packet takes a free block. *)
Lemma core_added i m s : core s -> first_free (counts s) = Some i -> entry_ok m -> Z.of_nat UIP_IPUDPH_LEN <= data_len m ->
  core (set_mb_list (list_add i (mb_list s)) (set_mem (<[i := m]> (mem s)) (set_counts (alter (Z.add 1) i (counts s)) s))).
Proof.
  intros H E Hm Hl. destruct (pool_alloc _ _ _ _ (co_pool _ H) E) as (Hi & Hlt & Hp).
  assert (Hlen : (i < length (mem s))%nat) by (by rewrite (co_mem _ H)).
  assert (Hla : list_add i (mb_list s) = mb_list s ++ [i]) by (unfold list_add; by rewrite list_remove_none).
  assert (Ee : forall j, block entry0 (<[i := m]> (mem s)) j = if decide (j = i) then m else block entry0 (mem s) j).
  { intros j. destruct (decide (j = i)) as [->|Hj]; [by apply block_insert_eq|by apply block_insert_ne]. }
  destruct H as [Hpool Hm' He Hu Hb Hr Hc Hs]. split; try done; cbn [counts mb_list mem set_mb_list set_mem set_counts].
  - rewrite Hla. by rewrite <- Permutation_cons_append.
  - by rewrite length_insert.
  - intros j. unfold entry. cbn. rewrite Ee. destruct (decide (j = i)); [done|apply He].
  - intros j Hj. unfold used, entry. cbn [mem set_mb_list set_mem set_counts]. rewrite Ee. destruct (decide (j = i)) as [->|Hj']; [done|].
    apply Hu. destruct Hj as [Hj|Hj]; [left|by right]. rewrite Hla in Hj. apply elem_of_app in Hj as [Hj|Hj%list_elem_of_singleton]; done.
Qed.

Lemma post_ok e s : ext_ok e -> core s -> 0 <= uip_len s <= Z.of_nat QUEUE_BUF_SIZE -> wp (mb_post_uipbuf nodeOfIP ipOfNode e None 0) (fun _ s' => kept s s') s.
Proof.
  intros He H Hlen. pose proof (co_uip _ H) as Hu. unfold mb_post_uipbuf. apply step_get.
  destruct (lookup_lt_is_Some_2 (uip_buf s) 6) as [p Ep]; [rewrite Hu; apply Nat.ltb_lt; vm_compute; reflexivity|]. apply wp_bind, (wp_rd _ _ p); [done|].
  apply wp_bind. apply (wp_mono _ (fun _ s' => s' = s)).
  { destruct (p =? UIP_PROTO_ICMP6); [|by apply end_ret]. destruct (lookup_lt_is_Some_2 (uip_buf s) (UIP_IPH_LEN + uip_ext_len e)) as [t Et]; [rewrite Hu; unfold ext_ok in He; lia|].
    apply wp_bind, (wp_rd _ _ t); [by rewrite Nat2Z.id|]. by apply end_ret. }
  intros icmp s' ->. destruct icmp; [by apply end_ret|]. destruct (Z.ltb_spec (uip_len s) (Z.of_nat UIP_IPUDPH_LEN)) as [|Hmin]; [by apply end_ret|].
  destruct (mb_conf_mode s =? DISABLE_MAILBOX); [by apply end_ret|]. destruct (is_zip_pkt_ok (uip_ext_len e) (uip_buf s) He) as [z Ez]; [by rewrite Hu|].
  apply wp_bind, (wp_lift_ok _ z); [done|]. rewrite (proj2 (Z.eqb_neq _ _) (co_mode _ H)).
  destruct (first_free (counts s)) as [i|] eqn:Ef.
  - apply step_modify, wp_bind, wp_rds; [rewrite Hu; lia|]. unfold sub. rewrite drop_0. set (x := take _ _).
    destruct (co_entries _ H i) as [Hd Hl Hp]. assert (Hx : (length x <= length (data (entry s i)))%nat).
    { unfold x. rewrite length_take, Hu, Hd. apply Nat.le_trans with QUEUE_BUF_SIZE; [apply Nat.le_min_r|apply Nat.leb_le; vm_compute; reflexivity]. }
    destruct (splice_read x _ Hx) as [_ Hsl]. apply wp_bind, wp_wrs; [done|]. set (d := splice 0 x (data (entry s i))) in *.
    apply step_modify, step_modify, step_get. cbn [bool_decide andb]. rewrite bool_decide_eq_false_2 by (by intros []). cbn [andb]. apply step_modify.
    set (s1 := set_mb_list _ _). assert (K1 : kept s s1).
    { split; [|done]. destruct (pool_alloc _ _ _ _ (co_pool _ H) Ef) as (_ & Hlt & _). assert (Hlen' : (i < length (mem s))%nat) by (by rewrite (co_mem _ H)).
      set (m := set_proxy (replicate 16 0) (set_data d (set_data_len (uip_len s) (set_waiting_enabled z (set_queued_time (clock_seconds e) (set_waiting_timer (Some 200) (entry s i))))))).
      assert (Hm : entry_ok m) by (split; cbn; [by rewrite Hsl|done|by apply bool_decide_eq_true]).
      pose proof (core_added i m s H Ef Hm Hmin) as Hc. unfold s1. cbn [mem set_mem set_counts].
      rewrite (alter_block entry0 (mem s)) by done. rewrite (alter_block entry0) by (by rewrite length_insert).
      rewrite block_insert_eq by done. rewrite list_insert_insert_eq. exact Hc. }
    apply wp_bind. apply (wp_mono _ (fun _ s' => kept s s')); [|intros [] s2 K2; by apply end_ret].
    destruct (_ =? STATUS_FAILING); [|by apply end_ret]. eapply wp_mono; [apply failing_ok; [done|apply K1]|].
    intros [] s2 (H2 & E1 & E2). destruct K1 as (_ & F1 & F2). split; [done|]. by rewrite E1, E2.
  - apply wp_bind. unfold mb_send_queue_full. apply step_get, wp_bind. destruct (flags1_ok (uip_buf s) Hu) as [f Eff]. apply (wp_lift_ok _ f); [done|].
    apply end_modify, end_ret. split; [|done]. apply (mb_core_ext s); try done; apply H.
Qed.

(** ** Every event *)

Definition inv (s : MB) : Prop := core s /\ rest s.

(** What happens to a mailbox that serves its own network: no commands of the class come, a report of the
    wake-up interval is complete and of a known node. *)
Definition legal (s : MB) (ev : event) : Prop :=
  match ev with
  | Post e buf len => ext_ok e /\ length buf = QUEUE_BUF_SIZE /\ 0 <= len <= Z.of_nat QUEUE_BUF_SIZE
  | Wakeup _ n _ => n <> 0
  | IntervalReport e _ cmd => is_Some (rd_get_node_dbe e (node s)) /\ (5 <= length cmd)%nat
  | Failing e _ => ext_ok e
  | Command _ _ _ _ _ => False
  | _ => True
  end.

Abbreviation step := (step nodeOfIP ipOfNode).
Abbreviation run := (run nodeOfIP ipOfNode).

(** A field outside the invariant changes. *)
Lemma mb_inv_ext s s' : inv s -> counts s' = counts s -> mb_list s' = mb_list s -> mem s' = mem s -> last_entry s' = last_entry s ->
  length (uip_buf s') = length (uip_buf s) -> rport s' = rport s -> mb_conf_mode s' = mb_conf_mode s -> state s' = state s -> inv s'.
Proof.
  intros [H Hr] E1 E2 E3 E4 E5 E6 E7 E8. split; [|unfold rest; by rewrite E4, E8]. apply (mb_core_ext s); try done. rewrite E8. apply H.
Qed.

Lemma mb_step_ok ev s : inv s -> legal s ev -> wp (step ev) (fun _ s' => inv s') s.
Proof.
  intros [H Hr] L. destruct ev as [e buf len|e n b|e status|e status cmd|e n|e n|n| |e|e|i|e ip p d n]; cbn [Mailbox.step]; [..|done].
  - destruct L as (He & Hb & Hl). apply step_modify, step_modify, wp_bind. set (s1 := set_uip_len len (set_uip_buf buf s)).
    assert (H1 : core s1) by (apply (mb_core_ext s); try done; [cbn; by rewrite Hb, (co_uip _ H)|apply H]).
    eapply wp_mono; [apply (post_ok e s1 He H1 Hl)|]. intros r s2 K. apply end_modify. destruct (kept_rest _ _ K Hr) as [H2 R2].
    by apply (mb_inv_ext s2).
  - unfold mb_wakeup_event. destruct (negb (nm_idle e)); [by apply end_ret|]. apply step_get. rewrite (proj2 (Z.eqb_neq _ _) (co_mode _ H)).
    destruct (mb_conf_mode s =? _); [|by apply end_ret]. destruct (_ && _) eqn:E; [|by apply end_ret].
    apply andb_prop in E as [_ Ei%bool_decide_eq_true]. apply step_modify, step_modify, step_modify. apply state_transition_ok.
    + apply (mb_core_ext s); try done; apply H.
    + split; [done|]. done.
  - apply step_modify. apply state_transition_ok; [apply (mb_core_ext s); try done; apply H|done].
  - destruct L as [[x Hx] Hc]. unfold mb_probe_wakeup_callback. apply step_get, wp_bind. apply (wp_mono _ (fun _ s' => inv s')).
    + destruct (_ && _); [|by apply end_ret]. rewrite Hx. apply step_ret.
      destruct (lookup_lt_is_Some_2 cmd 2) as [a Ea]; [lia|]. destruct (lookup_lt_is_Some_2 cmd 3) as [b Eb]; [lia|]. destruct (lookup_lt_is_Some_2 cmd 4) as [c Ec]; [lia|].
      apply wp_bind, (wp_rd _ _ a); [done|]. apply wp_bind, (wp_rd _ _ b); [done|]. apply wp_bind, (wp_rd _ _ c); [done|]. apply end_modify. by apply (mb_inv_ext s).
    + intros [] s1 [H1 R1]. by apply state_transition_ok.
  - unfold mb_node_transmission_ok_event. apply step_get. destruct (node s =? n); [by apply state_transition_ok|by apply end_ret].
  - eapply wp_mono; [by apply failing_ok|]. intros [] s' K. by apply (kept_rest s).
  - unfold mb_put_node_to_sleep_later. apply step_get. destruct (bool_decide _); [|by apply end_ret]. apply step_modify, step_modify, end_modify.
    split; [by apply (mb_core_ext s)|by intros []].
  - unfold mb_abort_sending. apply step_get. destruct (mb_is_busy s); [|by apply end_ret]. apply step_modify, end_modify. split; [by apply (mb_core_ext s)|by intros []].
  - apply step_get. destruct (ping_timer s); [|by apply end_ret]. apply step_modify. unfold send_ping_timeout. apply wp_bind. eapply wp_mono.
    + apply state_transition_ok; [apply (mb_core_ext s); try done; apply H|done].
    + intros [] s1 I1. apply end_modify. by apply (mb_inv_ext s1).
  - apply step_get. destruct (no_more_timer s); [|by apply end_ret]. apply step_modify. apply state_transition_ok; [apply (mb_core_ext s); try done; apply H|done].
  - apply step_get. destruct (waiting_timer _); [|by apply end_ret]. apply step_modify. eapply wp_mono; [apply waiting_ok; by apply core_mod|].
    intros [] s' K. apply (kept_rest _ s' K). done.
Qed.

(** The states in which events find the mailbox. *)
Inductive reachable : MB -> Prop :=
| reach_start mode a : mode <> ENABLE_MAILBOX_PROXY_FORWARDING -> reachable (state0 mode a)
| reach_step s ev s' : reachable s -> legal s ev -> step ev s = Ok (tt, s') -> reachable s'.

Lemma mb_inv_state0 mode a : mode <> ENABLE_MAILBOX_PROXY_FORWARDING -> inv (state0 mode a).
Proof.
  intros Hm. split; [|by intros []]. assert (Ee : forall i, entry (state0 mode a) i = entry0) by (intros i; apply block_replicate). split; try done.
  - split; [apply length_replicate|constructor|by intros i ?%elem_of_nil|]. intros i x [-> _]%lookup_replicate_1. by rewrite decide_False by apply not_elem_of_nil.
  - intros i. rewrite Ee. split; [apply length_replicate|vm_compute; by split|by apply bool_decide_eq_true].
  - intros i [Hi|Hi]; [by apply elem_of_nil in Hi|done].
Qed.

Lemma mb_reachable_inv s : reachable s -> inv s.
Proof.
  induction 1 as [mode a Hm|s ev s' _ IH L E]; [by apply mb_inv_state0|]. pose proof (mb_step_ok ev s IH L) as W. unfold wp in W. by rewrite E in W.
Qed.

(** C26: A mailbox that serves its own network carries out every sequence of posts, wake-ups, ends of transmissions
    and pings, timers, aborts and purges, whatever the transmitter answers and however often it does so at once:
    nothing is accessed outside its buffers, no assertion fails, the calls of the state machine come to an end,
    and the blocks of the pool in use are exactly those of the list of messages, each once. *)
Theorem mailbox_safe s ev : reachable s -> legal s ev ->
  (exists s', step ev s = Ok (tt, s') /\ reachable s') /\ pool_ok MAX_MAILBOX_ENTRIES (counts s) (mb_list s).
Proof.
  intros R L. pose proof (mb_reachable_inv s R) as H. split; [|apply (co_pool _ (proj1 H))].
  destruct (wp_run _ _ _ (mb_step_ok ev s H L)) as ([] & s' & E & _). exists s'. split; [done|]. by apply (reach_step s ev).
Qed.

(** ** Delivery *)

Definition message (s : MB) (i : nat) : list Z := take (Z.to_nat (data_len (entry s i))) (data (entry s i)).
Definition is_for (n : Z) (s : MB) (i : nat) : bool := mb_get_dnode nodeOfIP (data (entry s i)) =? n.
Definition more_info (s : MB) (i : nat) : bool := has_bits (at_ (data (entry s i)) 51) ZIP_PACKET_FLAGS1_MORE_INFORMATION.

(** Those of [l] that stay, when the messages that [f] selects end with the statuses. *)
Fixpoint survivors (f : nat -> bool) (l : list nat) (stats : list Z) : list nat :=
  match l with
  | [] => []
  | i :: l =>
    if f i then
      match stats with
      | st :: stats => (if st =? TRANSMIT_COMPLETE_OK then [] else [i]) ++ survivors f l stats
      | [] => i :: survivors f l []
      end
    else i :: survivors f l stats
  end.

Lemma next_app i a b : NoDup (a ++ i :: b) -> list_item_next i (a ++ i :: b) = head b.
Proof.
  induction a as [|j a IH]; cbn; [by rewrite Nat.eqb_refl|]. intros [Hj Hn]%list.NoDup_cons. destruct (Nat.eqb_spec i j) as [->|]; [|by apply IH].
  exfalso. apply Hj, elem_of_app. right. left.
Qed.

Lemma remove_app i a b : NoDup (a ++ i :: b) -> list_remove i (a ++ i :: b) = a ++ b.
Proof.
  induction a as [|j a IH]; cbn; [by rewrite Nat.eqb_refl|]. intros [Hj Hn]%list.NoDup_cons. destruct (Nat.eqb_spec i j) as [->|]; [|by rewrite IH].
  exfalso. apply Hj, elem_of_app. right. left.
Qed.

(** The next message from a place in the list on. *)
Lemma seek_none fuel n s a l : NoDup (a ++ l) -> mb_list s = a ++ l -> List.filter (is_for n s) l = [] -> seek fuel n s (head l) = None.
Proof.
  revert fuel a. induction l as [|i l IH]; intros fuel a Hn E Hf; [by destruct fuel|]. destruct fuel as [|fuel]; [done|]. cbn in Hf |- *.
  unfold is_for in Hf. destruct (_ =? n); [done|]. rewrite E, next_app by done. apply (IH fuel (a ++ [i])); rewrite <- ?app_assoc; done.
Qed.

Lemma seek_some fuel n s a l1 i l2 : NoDup (a ++ l1 ++ i :: l2) -> mb_list s = a ++ l1 ++ i :: l2 -> (length l1 < fuel)%nat ->
  List.filter (is_for n s) l1 = [] -> is_for n s i = true -> seek fuel n s (head (l1 ++ i :: l2)) = Some i.
Proof.
  revert fuel a. induction l1 as [|j l1 IH]; intros [|fuel] a Hn E Hl Hf Hi; try (cbn in Hl; lia); cbn in Hf |- *.
  - unfold is_for in Hi. by rewrite Hi.
  - unfold is_for in Hf. destruct (_ =? n); [done|]. rewrite E. change (a ++ (j :: l1) ++ i :: l2) with (a ++ j :: (l1 ++ i :: l2)) in *.
    rewrite next_app by done. apply (IH fuel (a ++ [j])); rewrite <- ?app_assoc; try done. cbn in Hl. lia.
Qed.

Lemma filter_split f (l : list nat) i r : List.filter f l = i :: r ->
  exists l1 l2, l = l1 ++ i :: l2 /\ List.filter f l1 = [] /\ f i = true /\ List.filter f l2 = r.
Proof.
  induction l as [|j l IH]; [done|]. cbn. destruct (f j) eqn:E.
  - intros [= -> Hr]. by exists [], l.
  - intros H. destruct (IH H) as (l1 & l2 & -> & H1 & H2 & H3). exists (j :: l1), l2. cbn. by rewrite E.
Qed.

Lemma survivors_skip f l1 l2 stats : List.filter f l1 = [] -> survivors f (l1 ++ l2) stats = l1 ++ survivors f l2 stats.
Proof. induction l1 as [|j l1 IH]; [done|]. cbn. destruct (f j); [done|]. intros H. by rewrite IH. Qed.

Lemma survivors_nil f l : survivors f l [] = l.
Proof. induction l as [|j l IH]; [done|]. cbn. rewrite IH. by destruct (f j). Qed.

Lemma survivors_ext f g l stats : (forall i, i ∈ l -> f i = g i) -> survivors f l stats = survivors g l stats.
Proof.
  revert stats. induction l as [|j l IH]; intros stats H; [done|]. cbn. rewrite (H j) by left.
  assert (H' : forall i, i ∈ l -> f i = g i) by (intros i Hi; apply H; by right). destruct (g j); [destruct stats as [|st stats]|]; by rewrite ?(IH _ H').
Qed.

(** Freeing an entry does not change the messages. *)
Lemma same_entry i j s : data (entry (freed i s) j) = data (entry s j) /\ data_len (entry (freed i s) j) = data_len (entry s j).
Proof.
  unfold entry, freed. cbn. destruct (decide (i < length (mem s))%nat) as [Hi|Hi]; [|by rewrite alter_beyond by lia].
  destruct (decide (i = j)) as [<-|Hj]; [by rewrite block_alter_eq|by rewrite block_alter_ne].
Qed.

(** The messages are in [s'] as in [s]. *)
Definition same_messages (s s' : MB) : Prop := forall j, data (entry s' j) = data (entry s j) /\ data_len (entry s' j) = data_len (entry s j).

Lemma same_facts s s' n i : same_messages s s' -> message s' i = message s i /\ is_for n s' i = is_for n s i /\ more_info s' i = more_info s i.
Proof. intros H. destruct (H i) as [H1 H2]. unfold message, is_for, more_info. by rewrite H1, H2. Qed.

(** A message is on its way. *)
Record sends (i : nat) (s s' : MB) : Prop := {
  sn_core : core s';
  sn_state : state s' = state s;
  sn_list : mb_list s' = mb_list s;
  sn_mem : mem s' = mem s;
  sn_last : last_entry s' = Some i;
  sn_outs : outs s' = outs s ++ [Transmit (node s) (message s i)];
  sn_more : send_no_more s' = send_no_more s && negb (more_info s i);
  sn_rest : answers s' = [] /\ node s' = node s /\ broadcast_wun s' = broadcast_wun s
}.

Lemma ask_pending (Q : outcome -> MB -> Prop) s : answers s = [] -> Q Pending s -> wp ask Q s.
Proof. intros E HQ. unfold wp, ask. by rewrite E. Qed.

Lemma send_some tr i s : core s -> answers s = [] -> seek (S (length (mb_list s))) (node s) s (last_entry s) = Some i -> 52 <= data_len (entry s i) ->
  wp (send_next nodeOfIP tr) (fun _ s' => sends i s s') s.
Proof.
  intros H Ha E Hl. unfold send_next. apply step_modify. rewrite E. set (s1 := set_last_entry (Some i) s). apply step_get. cbn [last_entry s1 set_last_entry].
  assert (Hu : used s i) by (apply (seek_used _ _ s _ H) in E; [done|]; intros j Hj; apply (co_used _ H); by right).
  assert (H1 : core s1) by (apply core_last; [done|by intros j [= <-]]). destruct (co_entries _ H i) as [Hd Hlen _].
  apply wp_bind. eapply wp_mono; [apply (load_ok i s1 H1 Hu)|]. intros [] s2 (b & Hbl & Hpre & ->). change (entry s1 i) with (entry s i) in *.
  set (s2 := set_uip_len (data_len (entry s i)) (set_uip_buf b s1)). apply step_get.
  assert (H51 : b !! 51%nat = data (entry s i) !! 51%nat).
  { pose proof (f_equal (fun l => l !! 51%nat) Hpre) as E51. cbn beta in E51. by rewrite !lookup_take_lt in E51 by lia. }
  destruct (lookup_lt_is_Some_2 b 51) as [c Ec]; [rewrite Hbl; apply Nat.ltb_lt; vm_compute; reflexivity|].
  assert (Hm : is_more_info_set s2 = Ok (more_info s i)).
  { unfold is_more_info_set, flags1, peek. change (uip_buf s2) with b. change (Z.to_nat (Z.of_nat UIP_IPUDPH_LEN + 3)) with 51%nat. rewrite Ec.
    unfold more_info, at_. by rewrite <- H51, Ec. }
  apply wp_bind, (wp_lift_ok _ (more_info s i)); [done|].
  set (s3 := if more_info s i then set_send_no_more false s2 else s2). apply wp_bind, (wp_mono _ (fun _ s' => s' = s3)).
  { unfold s3. destruct (more_info s i); [by apply end_modify|by apply end_ret]. }
  intros [] ? ->.
  assert (F : uip_buf s3 = b /\ uip_len s3 = data_len (entry s i) /\ answers s3 = [] /\ node s3 = node s /\ outs s3 = outs s /\ state s3 = state s /\ mb_list s3 = mb_list s /\
      mem s3 = mem s /\ last_entry s3 = Some i /\ broadcast_wun s3 = broadcast_wun s /\ send_no_more s3 = send_no_more s && negb (more_info s i) /\ counts s3 = counts s /\ rport s3 = rport s /\ mb_conf_mode s3 = mb_conf_mode s).
  { unfold s3. destruct (more_info s i); cbn; by rewrite ?andb_false_r, ?andb_true_r. }
  destruct F as (F1 & F2 & F3 & F4 & F5 & F6 & F7 & F8 & F9 & F10 & F11 & F12 & F13 & F14).
  apply wp_bind. unfold give. apply step_get, wp_bind, wp_rds; [rewrite F1, F2, Hbl; lia|]. rewrite F1, F2. unfold sub. rewrite drop_0, Hpre.
  fold (message s i). apply step_modify, wp_bind, ask_pending; [done|]. apply end_ret, step_ret, end_modify.
  assert (H3 : core s3) by (apply (mb_core_ext s1); try done; [by rewrite F1, Hbl, (co_uip _ H1)|rewrite F6; apply H]).
  split; cbn; try done; [|by rewrite F5, F4]. apply (mb_core_ext s3); try done. apply H3.
Qed.

Lemma send_none f e s : core s -> state s = MB_STATE_SENDING -> answers s = [] -> broadcast_wun s = false ->
  seek (S (length (mb_list s))) (node s) s (last_entry s) = None ->
  wp (send_next nodeOfIP (transition (S f) e)) (fun _ s' => core s' /\
    state s' = (if send_no_more s then MB_STATE_SEND_NO_MORE_INFO else MB_STATE_SEND_NO_MORE_INFO_DELAYED) /\
    outs s' = outs s ++ [if send_no_more s then NoMoreInfo (node s) else QueueUpdated] /\
    no_more_timer s' = (if send_no_more s then no_more_timer s else Some (NO_MORE_TIMEOUT * 1000)) /\
    mb_list s' = mb_list s /\ mem s' = mem s /\ answers s' = [] /\ node s' = node s /\ broadcast_wun s' = false) s.
Proof.
  intros H Hs Ha Hb E. unfold send_next. apply step_modify. rewrite E. set (s1 := set_last_entry None s). apply step_get. cbn [last_entry s1 set_last_entry send_no_more].
  assert (H1 : core s1) by (by apply core_last). destruct (send_no_more s) eqn:Em.
  - unfold go. apply step_modify. cbn [Mailbox.transition]. apply step_get. cbn [state set_state]. set (s2 := set_state _ s1). assert (H2 : core s2) by (by apply core_state).
    cbn [in_no_more]. apply wp_bind, proxy_status_ok; [done|]. apply step_get. unfold mb_send_no_more_information. apply step_get. change (broadcast_wun s2) with (broadcast_wun s). rewrite Hb.
    apply step_modify, wp_bind, ask_pending; [done|]. apply end_ret. split; [by apply (mb_core_ext s2); [..|apply H2]|done].
  - apply step_modify, step_modify, end_modify. split; [by apply (mb_core_ext s1)|done].
Qed.

Lemma same_filter s s' n l : same_messages s s' -> List.filter (is_for n s') l = List.filter (is_for n s) l.
Proof. intros H. apply List.filter_ext. intros i. apply (same_facts s s' n i H). Qed.

Lemma same_trans s1 s2 s3 : same_messages s1 s2 -> same_messages s2 s3 -> same_messages s1 s3.
Proof. intros H1 H2 j. destruct (H1 j) as [<- <-]. apply H2. Qed.

Lemma same_mem s s' : mem s' = mem s -> same_messages s s'.
Proof. intros E j. unfold entry. by rewrite E. Qed.

(** No message is followed by others of its sender, and there is no other reason to wait. *)
Definition quiet (s : MB) (sel : list nat) : bool := send_no_more s && forallb (fun i => negb (more_info s i)) sel.

(** A list of messages has been sent, and the node was told that there are no more or a timer will do so. *)
Record delivered (n : Z) (sel : list nat) (s s' : MB) : Prop := {
  dl_core : core s';
  dl_state : state s' = if quiet s sel then MB_STATE_SEND_NO_MORE_INFO else MB_STATE_SEND_NO_MORE_INFO_DELAYED;
  dl_timer : quiet s sel = false -> no_more_timer s' = Some (NO_MORE_TIMEOUT * 1000);
  dl_outs : outs s' = outs s ++ map (fun i => Transmit n (message s i)) sel ++ [if quiet s sel then NoMoreInfo n else QueueUpdated];
  dl_node : node s' = n;
  dl_answers : answers s' = [];
  dl_broadcast : broadcast_wun s' = false;
  dl_same : same_messages s s'
}.

(** One message and then the others. *)
Lemma delivered_cons n i sel s s1 s2 s' : sends i s s1 -> node s = n -> same_messages s1 s2 -> outs s2 = outs s1 -> send_no_more s2 = send_no_more s1 ->
  delivered n sel s2 s' -> delivered n (i :: sel) s s'.
Proof.
  intros S En M Eo Em D. assert (Hm : same_messages s s2) by (apply (same_trans s s1); [apply same_mem, S|done]).
  assert (Hq : quiet s2 sel = quiet s (i :: sel)).
  { unfold quiet. rewrite Em, (sn_more _ _ _ S). cbn. rewrite <- andb_assoc. do 2 f_equal. clear D. induction sel as [|j sel IH]; [done|]. cbn. rewrite IH. by destruct (same_facts s s2 n j Hm) as (_ & _ & ->). }
  destruct D as [D1 D2 D3 D4 D5 D6 D7 D8]. rewrite Hq in *. split; try done.
  - rewrite D4, Eo, (sn_outs _ _ _ S), En, <- app_assoc. cbn. do 3 f_equal. apply map_ext. intros j. by destruct (same_facts s s2 n j Hm) as (-> & _).
  - by apply (same_trans s s2).
Qed.

(** The end of a transmission: the message goes if it went through, the next one is looked for. *)
Definition ended (st : Z) (i : nat) (s : MB) : MB :=
  let s1 := set_last_entry (list_item_next i (mb_list s)) (set_txStatus st s) in if st =? TRANSMIT_COMPLETE_OK then freed i s1 else s1.

Lemma done_step e st i s (Q : unit -> MB -> Prop) : state s = MB_STATE_SENDING -> last_entry s = Some i ->
  wp (send_next nodeOfIP (transition (2 * length (mb_list s) + 8) e)) Q (ended st i s) -> wp (step (SendDone e st)) Q s.
Proof.
  intros Hs Hl H. unfold step, mb_send_done_event, mb_send_done. apply step_modify. unfold mb_state_transition. apply step_get. cbn [mb_list set_txStatus].
  replace (2 * length (mb_list s) + 9)%nat with (S (2 * length (mb_list s) + 8)) by lia. cbn [Mailbox.transition]. apply step_get. cbn [state set_txStatus]. rewrite Hs.
  unfold in_sending. apply step_get, wp_bind. cbn [last_entry txStatus mb_list set_txStatus]. rewrite Hl. cbn [mbind option_bind]. apply step_modify.
  unfold ended in H. destruct (st =? TRANSMIT_COMPLETE_OK); [|by apply end_ret]. cbn [last_entry_of of_option]. apply step_ret, free_ok. exact H.
Qed.

Lemma ended_same st i s : same_messages s (ended st i s).
Proof. unfold ended. destruct (st =? _); [|done]. intros j. apply (same_entry i j (set_last_entry _ (set_txStatus st s))). Qed.

Lemma ended_core st i s : core s -> core (ended st i s).
Proof.
  intros H. assert (H1 : core (set_last_entry (list_item_next i (mb_list s)) (set_txStatus st s))).
  { apply core_last; [by apply (mb_core_ext s); [..|apply H]|]. by apply (next_used (set_txStatus st s) i), (mb_core_ext s); [..|apply H]. }
  unfold ended. destruct (st =? _); [by apply core_freed|done].
Qed.

Lemma ended_place st i a l s : core s -> mb_list s = a ++ i :: l ->
  mb_list (ended st i s) = (a ++ if st =? TRANSMIT_COMPLETE_OK then [] else [i]) ++ l /\ last_entry (ended st i s) = head l.
Proof.
  intros H E. pose proof (co_nodup _ H) as Hn. rewrite E in Hn. unfold ended.
  destruct (st =? _); cbn; rewrite E, next_app by done; (split; [|done]); rewrite ?remove_app, ?app_nil_r, <- ?app_assoc by done; done.
Qed.

Lemma ended_facts st i s : state (ended st i s) = state s /\ answers (ended st i s) = answers s /\ node (ended st i s) = node s /\
  broadcast_wun (ended st i s) = broadcast_wun s /\ outs (ended st i s) = outs s /\ send_no_more (ended st i s) = send_no_more s.
Proof. unfold ended. by destruct (st =? _). Qed.

(** From a place in the list on, every message for the node is sent once, in the order of the list. *)
Lemma mb_deliver e n : forall stats a l s f, core s -> state s = MB_STATE_SENDING -> answers s = [] -> node s = n -> broadcast_wun s = false ->
  mb_list s = a ++ l -> last_entry s = head l -> length stats = length (List.filter (is_for n s) l) ->
  (forall i, i ∈ l -> is_for n s i = true -> 52 <= data_len (entry s i)) ->
  wp (send_next nodeOfIP (transition (S f) e)) (fun _ s1 => wp (run (map (SendDone e) stats))
    (fun _ s' => delivered n (List.filter (is_for n s) l) s s' /\ mb_list s' = a ++ survivors (is_for n s) l stats) s1) s.
Proof.
  induction stats as [|st stats IH]; intros a l s f H Hs Ha Hn Hb El Ep Hc Hd; pose proof (co_nodup _ H) as Hnd; rewrite El in Hnd.
  - apply symmetry, length_zero_iff_nil in Hc. eapply wp_mono; [apply (send_none f e s H Hs Ha Hb); rewrite Hn, Ep; by apply (seek_none _ n s a)|].
    intros [] s' (H' & E1 & E2 & E3 & E4 & E5 & E6 & E7 & E8). apply end_ret. rewrite Hc, survivors_nil. split; [|by rewrite E4].
    assert (Q : quiet s [] = send_no_more s) by apply andb_true_r. split; rewrite ?Q; try done; [intros Q0; by rewrite E3, Q0|by rewrite E2, Hn|by rewrite E7|by apply same_mem].
  - destruct (List.filter (is_for n s) l) as [|i r] eqn:Ef; [done|]. injection Hc as Hc. destruct (filter_split _ _ _ _ Ef) as (l1 & l2 & -> & F1 & F2 & F3).
    eapply wp_mono; [apply (send_some _ i s H Ha)|].
    + rewrite Hn, Ep. apply (seek_some _ n s a); try done. rewrite El, !length_app. cbn. lia.
    + apply Hd; [apply elem_of_app; right; left|done].
    + intros [] s1 S. cbn [map Mailbox.run]. apply wp_bind. apply (done_step e st i s1); [by rewrite (sn_state _ _ _ S)|apply S|].
      set (s2 := ended st i s1). assert (M2 : same_messages s s2) by (apply (same_trans s s1); [apply same_mem, S|apply ended_same]).
      pose proof (ended_core st i s1 (sn_core _ _ _ S) : core s2) as H2.
      destruct (ended_place st i (a ++ l1) l2 s1 (sn_core _ _ _ S)) as [P1 P2]; [by rewrite (sn_list _ _ _ S), El, <- app_assoc|]. fold s2 in P1, P2.
      destruct (sn_rest _ _ _ S) as (R1 & R2 & R3). destruct (ended_facts st i s1) as (X1 & X2 & X3 & X4 & X5 & X6). fold s2 in X1, X2, X3, X4, X5, X6.
      replace (2 * length (mb_list s1) + 8)%nat with (Datatypes.S (2 * length (mb_list s1) + 7)) by lia.
      pose proof (same_filter s s2 n l2 M2) as Mf. rewrite F3 in Mf.
      set (a2 := (a ++ l1) ++ _) in P1. eapply wp_mono; [apply (IH a2 l2 s2 _ H2)|]; rewrite ?X1, ?X2, ?X3, ?X4, ?R1, ?R2, ?R3, ?(sn_state _ _ _ S); try done.
      * by rewrite Mf.
      * intros j Hj. destruct (same_facts s s2 n j M2) as (_ & -> & _), (M2 j) as [_ ->]. apply Hd. apply elem_of_app. right. by right.
      * intros [] s3 W. eapply wp_mono; [exact W|]. intros [] s' [D L]. rewrite Mf in D. split; [by apply (delivered_cons n i r s s1 s2 s' S Hn (ended_same st i s1))|].
        rewrite L, survivors_skip by done. unfold a2. cbn. rewrite F2, <- !app_assoc. do 3 f_equal. apply survivors_ext. intros j _. by destruct (same_facts s s2 n j M2) as (_ & -> & _).
Qed.

(** ** A session *)

(** A node that is known, on time and not failing wakes up; the mailbox and the network management are idle, and the
    transmitter takes what it is given and reports later. *)
Record awake (e : env) (n : Z) (s : MB) : Prop := {
  aw_idle : state s = MB_STATE_IDLE;
  aw_mode : mb_conf_mode s = ENABLE_MAILBOX_SERVICE;
  aw_nm : nm_idle e = true;
  aw_probe : rd_probe_in_progress e = false;
  aw_node : n <> 0;
  aw_known : exists wi la, rd_get_node_dbe e n = Some (wi, la) /\ u32 (Z.abs (s32 (s32 wi - s32 (clock_seconds e - la)))) <= Z.shiftr wi 3;
  aw_status : rd_get_node_state e n <> STATUS_FAILING;
  aw_in_probe : rd_node_in_probe e n = false;
  aw_answers : answers s = []
}.

Lemma wakeup_step e n s (Q : unit -> MB -> Prop) : awake e n s ->
  (forall s1, s1 = set_last_entry (head (mb_list s)) (set_state MB_STATE_SENDING (set_broadcast_wun false (set_send_no_more true (set_node n s)))) ->
    wp (send_next nodeOfIP (transition (2 * length (mb_list s) + 7) e)) Q s1) -> wp (step (Wakeup e n false)) Q s.
Proof.
  intros [A1 A2 A3 A4 A5 (wi & la & A6 & A6') A7 A8 A9] H. unfold step, mb_wakeup_event. rewrite A3. cbn [negb]. apply step_get. rewrite A2, A4, A1. cbn [Z.eqb Pos.eqb negb andb].
  rewrite bool_decide_eq_true_2 by done. apply step_modify, step_modify, step_modify. unfold mb_state_transition. apply step_get. cbn [mb_list set_broadcast_wun set_send_no_more set_node].
  replace (2 * length (mb_list s) + 9)%nat with (S (S (2 * length (mb_list s) + 7))) by lia. cbn [Mailbox.transition]. apply step_get. cbn [state set_broadcast_wun set_send_no_more set_node]. rewrite A1.
  unfold in_idle. apply step_get. cbn [node set_broadcast_wun set_send_no_more set_node]. rewrite (proj2 (Z.eqb_neq _ _) A5), A6, (proj2 (Z.eqb_neq _ _) A7), (proj2 (Z.ltb_ge _ _) A6'). cbn [orb].
  apply step_modify, step_get. cbn [state set_state]. unfold in_sending. apply step_get, wp_bind, end_modify. by apply H.
Qed.

(** The end of the transmission to say that there is no more. *)
Lemma finish_step e st s (Q : unit -> MB -> Prop) : state s = MB_STATE_SEND_NO_MORE_INFO ->
  Q tt (set_outs (outs s ++ [QueueUpdated]) (set_state MB_STATE_IDLE (set_txStatus st s))) -> wp (step (SendDone e st)) Q s.
Proof.
  intros Hs HQ. unfold step, mb_send_done_event, mb_send_done. apply step_modify. unfold mb_state_transition. apply step_get. cbn [mb_list set_txStatus].
  replace (2 * length (mb_list s) + 9)%nat with (S (S (2 * length (mb_list s) + 7))) by lia. cbn [Mailbox.transition]. apply step_get. cbn [state set_txStatus]. rewrite Hs.
  apply step_modify, step_get. cbn [state set_state]. unfold in_idle. apply step_get, end_modify. exact HQ.
Qed.

(** The timer says it. *)
Lemma timer_step e s t (Q : unit -> MB -> Prop) : state s = MB_STATE_SEND_NO_MORE_INFO_DELAYED -> no_more_timer s = Some t -> rd_node_in_probe e (node s) = false ->
  answers s = [] -> broadcast_wun s = false ->
  Q tt (set_outs (outs s ++ [NoMoreInfo (node s)]) (set_state MB_STATE_SEND_NO_MORE_INFO (set_no_more_timer None s))) -> wp (step (NoMoreTimer e)) Q s.
Proof.
  intros Hs Ht Hp Ha Hb HQ. unfold step. apply step_get. rewrite Ht. apply step_modify. unfold no_more_timeout, mb_state_transition. apply step_get. cbn [mb_list set_no_more_timer].
  replace (2 * length (mb_list s) + 9)%nat with (S (2 * length (mb_list s) + 8)) by lia. cbn [Mailbox.transition]. apply step_get. cbn [state set_no_more_timer]. rewrite Hs.
  unfold in_no_more_delayed. apply step_get. cbn [node set_no_more_timer]. rewrite Hp. apply step_modify. unfold mb_send_no_more_information. apply step_get.
  cbn [broadcast_wun set_state set_no_more_timer]. rewrite Hb. apply step_modify, wp_bind, ask_pending; [done|]. by apply end_ret.
Qed.

Lemma mb_run_app l1 l2 (Q : unit -> MB -> Prop) s : wp (run l1) (fun _ s1 => wp (run l2) Q s1) s -> wp (run (l1 ++ l2)) Q s.
Proof.
  revert s. induction l1 as [|ev l1 IH]; intros s H; [exact H|]. cbn [app Mailbox.run] in *. apply wp_bind. unfold wp, mbind, Eff_bind in H |- *.
  destruct (step ev s) as [[[] s1]|f]; [|done]. by apply IH.
Qed.

(** The mailbox says that there is no more, at once or when the timer ends, and is idle again. *)
Definition closing (e : env) (q : bool) (st : Z) : list event := if q then [SendDone e st] else [NoMoreTimer e; SendDone e st].

Lemma closing_ok e n st sel s s' : delivered n sel s s' -> rd_node_in_probe e n = false ->
  wp (run (closing e (quiet s sel) st)) (fun _ s2 => state s2 = MB_STATE_IDLE /\ mb_list s2 = mb_list s' /\ mem s2 = mem s' /\
    outs s2 = outs s ++ map (fun i => Transmit n (message s i)) sel ++ (if quiet s sel then [] else [QueueUpdated]) ++ [NoMoreInfo n; QueueUpdated]) s'.
Proof.
  intros [D1 D2 D3 D4 D5 D6 D7 D8] Hp. unfold closing. destruct (quiet s sel).
  - cbn [Mailbox.run]. apply wp_bind, finish_step; [done|]. apply end_ret. cbn. by rewrite D4, <- !app_assoc.
  - cbn [Mailbox.run]. apply wp_bind, (timer_step e s' (NO_MORE_TIMEOUT * 1000)); [done|by apply D3|by rewrite D5|done|done|].
    apply wp_bind, finish_step; [done|]. apply end_ret. cbn. by rewrite D4, D5, <- !app_assoc.
Qed.

(** C25: A node that wakes up on time gets all its messages: each one that the list holds for it is given to the
    transmitter, once and in the order in which they were posted, each after the end of the one before; one whose
    transmission went through leaves the mailbox, one whose transmission failed stays in its place, as do the messages of
    other nodes.  Then the node is told, once, that there is no more: at once, or after a delay if a sender has
    announced more; and the mailbox is idle again. *)
Theorem mailbox_delivers e n s stats st (sel := List.filter (is_for n s) (mb_list s)) (q := forallb (fun i => negb (more_info s i)) sel) :
  reachable s -> awake e n s -> length stats = length sel -> Forall (fun i => 52 <= data_len (entry s i)) sel ->
  exists s', run (Wakeup e n false :: map (SendDone e) stats ++ closing e q st) s = Ok (tt, s') /\
    outs s' = outs s ++ map (fun i => Transmit n (message s i)) sel ++ (if q then [] else [QueueUpdated]) ++ [NoMoreInfo n; QueueUpdated] /\
    mb_list s' = survivors (is_for n s) (mb_list s) stats /\ (forall i, message s' i = message s i) /\ state s' = MB_STATE_IDLE.
Proof.
  intros R A Hc Hd. destruct (mb_reachable_inv s R) as [H _].
  assert (W : wp (run (Wakeup e n false :: map (SendDone e) stats ++ closing e q st)) (fun _ s' =>
    outs s' = outs s ++ map (fun i => Transmit n (message s i)) sel ++ (if q then [] else [QueueUpdated]) ++ [NoMoreInfo n; QueueUpdated] /\
    mb_list s' = survivors (is_for n s) (mb_list s) stats /\ (forall i, message s' i = message s i) /\ state s' = MB_STATE_IDLE) s);
    [|destruct (wp_run _ _ _ W) as ([] & s' & E & HQ); by exists s'].
  cbn [Mailbox.run]. apply wp_bind, (wakeup_step e n s _ A). intros s1 ->. set (s1 := set_last_entry _ _). replace (2 * length (mb_list s) + 7)%nat with (S (2 * length (mb_list s) + 6)) by lia.
  assert (Hc1 : core s1) by (apply core_last; [by apply (mb_core_ext s)|by apply head_used]).
  eapply wp_mono; [apply (mb_deliver e n stats [] (mb_list s) s1); try done; [apply A|]|].
  - intros i Hi Hf. rewrite Forall_forall in Hd. apply Hd, filter_In. split; [by apply list_elem_of_In|done].
  - intros [] s2 W. apply mb_run_app. eapply wp_mono; [exact W|]. cbn [app]. intros [] s3 [D L].
    eapply wp_mono; [apply (closing_ok e n st sel _ s3 D), A|]. intros [] s4 (F1 & F2 & F3 & F4). split; [exact F4|]. split; [by rewrite F2, L|]. split; [|done].
    intros i. pose proof (dl_same _ _ _ _ D i) as [G1 G2]. unfold message, entry. rewrite F3. fold (entry s3 i). by rewrite G1, G2.
Qed.

End Spec.
End MailboxSpec.
