(* ===== verification/MailboxRuns.v ===== *)
(** * Runs of the mailbox (src/Mailbox.c)

    The theorems at work on concrete messages, and what events of kinds they leave out do. *)
From S2P Require Import Prelude Effects Pool PacketQueue NodeQueue NodeQueueSpec NodeQueueRuns Mailbox MailboxSpec.
Import Effects Pool.
Import PacketQueue(QUEUE_BUF_SIZE).
Import NodeQueue(outcome(..), TRANSMIT_COMPLETE_OK, TRANSMIT_COMPLETE_NO_ACK, TRANSMIT_COMPLETE_REQUEUE).
Import NodeQueueRuns(node_of_address, pkt, in_buf).
Import Mailbox MailboxSpec.

Module MailboxRuns.

Definition address_of_node (n : Z) : list Z := replicate 15 0xFD ++ [n].
Definition runs (evs : list event) (s : MB) : res (unit * MB) := run node_of_address address_of_node evs s.

(** The state after events that do not fail. *)
Definition after (evs : list event) (s : MB) : MB := match runs evs s with Ok (_, s') => s' | Fault _ => s end.

Lemma after_reachable evs s : reachable node_of_address address_of_node s -> Forall (fun ev => forall s, legal s ev) evs ->
  reachable node_of_address address_of_node (after evs s).
Proof.
  unfold after, runs. intros R L. revert s R. induction L as [|ev evs Hev L IH]; intros s R; [exact R|]. cbn [run].
  destruct (wp_run _ _ _ (mb_step_ok node_of_address address_of_node ev s (mb_reachable_inv _ _ s R) (Hev s))) as ([] & s1 & E & _).
  unfold mbind, Eff_bind. rewrite E. specialize (IH s1 (reach_step _ _ s ev s1 R (Hev s) E)).
  destruct (run _ _ evs s1) as [[[] s2]|f] eqn:E2; [exact IH|]. exact R.
Qed.

(** The nodes 7 and 9 are known, wake up every hundred seconds and are on time. *)
Definition env1 : env := mkEnv 1000 (fun n => if (n =? 7) || (n =? 9) then Some (100, 900) else None) (fun _ => 13) (fun _ => false) false true 0.
Definition env_later : env := mkEnv 2000 (rd_get_node_dbe env1) (fun _ => 13) (fun _ => false) false true 0.
Definition started (a : list outcome) : MB := state0 ENABLE_MAILBOX_SERVICE a.
Definition post_of (x : list Z) : event := Post env1 (in_buf x) (Z.of_nat (length x)).

(** The message [tag] for a node; and one whose sender has more to say. *)
Definition message_for (n tag : Z) : list Z := pkt 0x60 n tag.
Definition message_more (n tag : Z) : list Z := <[51%nat := 0x60]> (pkt 0x60 n tag).

Definition posts : list event := map post_of [message_for 7 1; message_for 8 2; message_for 7 3; message_for 7 4].

Lemma post_legal n tag s : legal s (post_of (message_for n tag)).
Proof. split; [vm_compute; lia|]. split; [by vm_compute|]. vm_compute. split; discriminate. Qed.

Lemma posts_reachable : reachable node_of_address address_of_node (after posts (started [])).
Proof. apply after_reachable; [by constructor|]. repeat (apply list.Forall_cons; split; [intros s; apply post_legal|]). constructor. Qed.

Lemma mailbox_safe_witness : legal (after posts (started [])) (Wakeup env1 7 false) /\
  exists s', step node_of_address address_of_node (Wakeup env1 7 false) (after posts (started [])) = Ok (tt, s').
Proof.
  split; [vm_compute; discriminate|].
  destruct (mailbox_safe node_of_address address_of_node (after posts (started [])) (Wakeup env1 7 false)) as [(s' & E & _) _];
    [apply posts_reachable|vm_compute; discriminate|by exists s'].
Defined.

(** Of three messages for node 7 the second is not acknowledged. *)
Lemma mailbox_delivers_witness : exists s', mb_list s' = [1; 2]%nat /\ state s' = MB_STATE_IDLE.
Proof.
  destruct (mailbox_delivers node_of_address address_of_node env1 7 (after posts (started []))
    [TRANSMIT_COMPLETE_OK; TRANSMIT_COMPLETE_NO_ACK; TRANSMIT_COMPLETE_OK] TRANSMIT_COMPLETE_OK) as (s' & _ & _ & E & _ & Hs).
  - apply posts_reachable.
  - split; [vm_compute; reflexivity|vm_compute; reflexivity|vm_compute; reflexivity|vm_compute; reflexivity|discriminate|exists 100, 900; split; [reflexivity|vm_compute; discriminate]|vm_compute; discriminate|vm_compute; reflexivity|vm_compute; reflexivity].
  - vm_compute. reflexivity.
  - replace (List.filter _ _) with [0; 2; 3]%nat by (vm_compute; reflexivity). repeat (constructor; [vm_compute; discriminate|]). constructor.
  - exists s'. split; [|exact Hs]. rewrite E. vm_compute. reflexivity.
Defined.

(** ** What the theorems leave out *)

(** What has been given to the transmitter: the node and the sequence number of the message; and the end, if there
    was one. *)
Definition sent (s : MB) : list (Z * Z) := flat_map (fun o => match o with Transmit n x => [(n, at_ x 52)] | _ => [] end) (outs s).
Definition result (evs : list event) (s : MB) : list (Z * Z) * list nat * mb_state_enum + fault :=
  match runs evs s with Ok (_, s') => inl (sent s', mb_list s', state s') | Fault f => inr f end.

(** A MAILBOX_QUEUE command from a client, with a message. *)
Definition client : list Z := replicate 15 0xFC ++ [1].
Definition queue_command (mode hdl : Z) (x : list Z) : event :=
  Command env1 client 0x101B ([COMMAND_CLASS_MAILBOX; MAILBOX_QUEUE; mode; hdl] ++ x ++ replicate 8 0) (Z.of_nat (4 + length x)).

(** The first POP or PING of another gateway fails an assertion when its packet or ping ends: the entry of which it
    is the end is asked for, although the session has none. *)
Example pop_asserts : result [queue_command MAILBOX_POP 5 (message_for 7 1); SendDone env1 TRANSMIT_COMPLETE_OK] (started []) = inr AssertFailed.
Proof. vm_compute. reflexivity. Qed.

Example ping_asserts : result [queue_command MAILBOX_PING 5 (message_for 7 1); SendDone env1 TRANSMIT_COMPLETE_OK] (started []) = inr AssertFailed.
Proof. vm_compute. reflexivity. Qed.

(** A MAILBOX_QUEUE command of two bytes has a message of 65535 bytes. *)
Example short_command_overruns :
  result [Command env1 client 0x101B ([COMMAND_CLASS_MAILBOX; MAILBOX_QUEUE] ++ replicate 60 0) 2] (started []) = inr OutOfBounds.
Proof. vm_compute. reflexivity. Qed.

(** A message of a MAILBOX_QUEUE command is transmitted with one byte of what follows it in memory. *)
Example popped_with_another_byte :
  match runs [queue_command MAILBOX_POP 5 (message_for 7 1)] (started []) with Ok (_, s) => outs s | Fault _ => [] end = [Transmit 7 (message_for 7 1 ++ [0])].
Proof. vm_compute. reflexivity. Qed.

(** An ACK of any client ends the transmission of a message, which leaves the mailbox before the node has got it. *)
Example stray_ack_drops_message :
  result [post_of (message_for 7 1); Wakeup env1 7 false; queue_command MAILBOX_ACK 0 []] (started []) = inl ([(7, 1)], [], MB_STATE_SEND_NO_MORE_INFO).
Proof. vm_compute. reflexivity. Qed.

(** A message is dropped while it is on its way, and its block is taken by a message for node 8: the end of the
    transmission drops that one, which is never sent. *)
Example purged_block_reused :
  result [post_of (message_for 7 1); Wakeup env1 7 false; Failing env_later 7; post_of (message_for 8 2); SendDone env1 TRANSMIT_COMPLETE_OK] (started [])
    = inl ([(7, 1)], [], MB_STATE_SEND_NO_MORE_INFO).
Proof. vm_compute. reflexivity. Qed.

(** A packet of the node queue that the node acknowledges meanwhile has the message sent a second time. *)
Example frame_sent_repeats_message :
  result [post_of (message_for 7 1); Wakeup env1 7 false; FrameSent env1 7] (started []) = inl ([(7, 1); (7, 1)], [0]%nat, MB_STATE_SENDING).
Proof. vm_compute. reflexivity. Qed.

(** While the transmitter is busy every message is passed over, and the node is sent to sleep without them. *)
Example busy_transmitter_skips :
  match runs [post_of (message_for 7 1); post_of (message_for 7 2); Wakeup env1 7 false] (started [Finished TRANSMIT_COMPLETE_REQUEUE; Finished TRANSMIT_COMPLETE_REQUEUE]) with
  | Ok (_, s) => Some (mb_list s, list.last (outs s)) | Fault _ => None end = Some ([0; 1]%nat, Some (NoMoreInfo 7)).
Proof. vm_compute. reflexivity. Qed.

(** A message pushed with the handle 5 is reported to the proxy with the handle of another block. *)
Example waiting_with_wrong_handle :
  match runs [queue_command MAILBOX_PUSH 5 (message_for 7 1); WaitingTimer 0] (started []) with
  | Ok (_, s) => map (fun o => match o with SendZIP dest _ cmd => (dest, take 4 cmd) | _ => ([], []) end) (outs s) | Fault _ => [] end
    = [(client, [COMMAND_CLASS_MAILBOX; MAILBOX_QUEUE; MAILBOX_WAITING; 0])].
Proof. vm_compute. reflexivity. Qed.

(** A sender that has announced more: the node is told after three seconds that there is no more. *)
Example more_information_waits :
  match runs [post_of (message_more 7 1); Wakeup env1 7 false; SendDone env1 TRANSMIT_COMPLETE_OK] (started []) with
  | Ok (_, s) => Some (state s, no_more_timer s, length (outs s)) | Fault _ => None end = Some (MB_STATE_SEND_NO_MORE_INFO_DELAYED, Some 3000, 2%nat).
Proof. vm_compute. reflexivity. Qed.

End MailboxRuns.
