(* ===== verification/SerialApi.v ===== *)
(** * The serial API (src/serialapi/Serialapi.c)

    Commands go to the Z-Wave module as frames of [ConHandle], each is sent again until it is acknowledged, and the
    response is waited for; requests of the module that arrive meanwhile are queued, and given to the application
    by [SerialAPI_Poll].  The bytes that arrive at each look at the serial line and the timers that have
    expired there are given from outside. *)
From S2P Require Import Prelude Effects ConHandle.
Import Effects.
Import ConHandle(Con, T_CON_TYPE(..), serBuf, serBufLen, con_state, bChecksum_RX, rxActive, AckNakNeeded, input, SERBUF_MAX, ConTxFrame, ConUpdate, with_input).

Module SerialApi.

(** ** Constants *)

Definition BUF_SIZE : nat := 180.
Definition MAX_RXQUEUE_LEN : nat := 10.
Definition REQUEST : Z := 0x00.
Definition RESPONSE : Z := 0x01.
Definition IDX_CMD : Z := 2.
Definition IDX_DATA : Z := 3.
Definition UPDATE_STATE_NODE_INFO_FOREIGN_HOMEID_RECEIVED : Z := 0x85.
Definition UPDATE_STATE_INCLUDED_NODE_INFO_RECEIVED : Z := 0x86.
Definition UPDATE_STATE_NODE_INFO_SMARTSTART_HOMEID_RECEIVED_LR : Z := 0x87.
Definition ADD_NODE_STATUS_ADDING_SLAVE : Z := 3.
Definition ADD_NODE_STATUS_ADDING_CONTROLLER : Z := 4.
Definition ZW_GECKO_CHIP_TYPE : Z := 7.
Definition FUNC_ID_SERIAL_API_GET_CAPABILITIES : Z := 0x07.
Definition FUNC_ID_ZW_APPLICATION_CONTROLLER_UPDATE : Z := 0x49.
Definition FUNC_ID_APPLICATION_COMMAND_HANDLER : Z := 0x04.
Definition FUNC_ID_PROMISCUOUS_APPLICATION_COMMAND_HANDLER : Z := 0xD1.
Definition FUNC_ID_APPLICATION_COMMAND_HANDLER_BRIDGE : Z := 0xA8.
Definition FUNC_ID_ZW_SEND_NODE_INFORMATION : Z := 0x12.
Definition FUNC_ID_ZW_SEND_DATA : Z := 0x13.
Definition FUNC_ID_ZW_SEND_DATA_BRIDGE : Z := 0xA9.
Definition FUNC_ID_ZW_SEND_TEST_FRAME : Z := 0xBE.
Definition FUNC_ID_ZW_SEND_DATA_MULTI_BRIDGE : Z := 0xAB.
Definition FUNC_ID_MEMORY_PUT_BUFFER : Z := 0x24.
Definition FUNC_ID_ZW_SET_DEFAULT : Z := 0x42.
Definition FUNC_ID_ZW_CONTROLLER_CHANGE : Z := 0x4D.
Definition FUNC_ID_ZW_CREATE_NEW_PRIMARY : Z := 0x4C.
Definition FUNC_ID_ZW_REMOVE_NODE_FROM_NETWORK : Z := 0x4B.
Definition FUNC_ID_ZW_ADD_NODE_TO_NETWORK : Z := 0x4A.
Definition FUNC_ID_ZW_REPLICATION_SEND_DATA : Z := 0x45.
Definition FUNC_ID_ZW_ASSIGN_RETURN_ROUTE : Z := 0x46.
Definition FUNC_ID_ZW_DELETE_RETURN_ROUTE : Z := 0x47.
Definition FUNC_ID_ZW_ASSIGN_SUC_RETURN_ROUTE : Z := 0x51.
Definition FUNC_ID_ZW_SEND_SUC_ID : Z := 0x57.
Definition FUNC_ID_ZW_DELETE_SUC_RETURN_ROUTE : Z := 0x55.
Definition FUNC_ID_ZW_SET_LEARN_MODE : Z := 0x50.
Definition FUNC_ID_ZW_SET_SLAVE_LEARN_MODE : Z := 0xA4.
Definition FUNC_ID_ZW_SET_SUC_NODE_ID : Z := 0x54.
Definition FUNC_ID_ZW_REQUEST_NODE_NEIGHBOR_UPDATE : Z := 0x48.
Definition FUNC_ID_ZW_REQUEST_NETWORK_UPDATE : Z := 0x53.
Definition FUNC_ID_ZW_REMOVE_FAILED_NODE_ID : Z := 0x61.
Definition FUNC_ID_ZW_REPLACE_FAILED_NODE : Z := 0x63.
Definition FUNC_ID_SERIALAPI_STARTED : Z := 0x0A.
Definition FUNC_ID_ZW_WATCHDOG_START : Z := 0xD2.

(** ** State *)

(** A look at the line: the bytes that have arrived since the last one, and whether the timers of [ConUpdate] and
    that of [WaitResponse] have expired. *)
Record poll := mkPoll { arrived : list Z; rx_expired : bool; ack_expired : bool; wait_expired : bool }.

(** After the last one nothing arrives any more. *)
Definition silence : poll := mkPoll [] true true true.

(** The functions of the application that may be set. *)
Inductive handler :=
| ApplicationControllerUpdate | ApplicationCommandHandler | ApplicationCommandHandler_Bridge | SerialAPIStarted | ApplicationPoll.

(** Calls of these functions and of the callbacks of commands; a new start of the serial port. *)
Inductive output :=
| ControllerUpdate (bStatus nodeid : Z) (cmd : list Z) (homeid : option (list Z))
| CommandReceived (rxStatus dest src : Z) (cmd : list Z)
| BridgeCommandReceived (rxStatus dest src : Z) (cmd : list Z)
| Completed (func : Z) (status : list Z) (report : option (list Z))
| Learned (func bStatus bSource : Z) (cmd : list Z)
| Started (cmd : list Z)
| Polled
| Reopened.

(** The driver below, the queue of requests, the two buffers, the static variables, what the module has said of
    itself, the commands with a callback, what is to come ([rounds]: how often each pause between two attempts
    is not over yet) and the trace. *)
Record SA := mkSA {
  con : Con; rxQueue : list (list Z); buffer : list Z; pCmd : list Z; idx : Z; byLen : Z;
  byCompletedFunc : Z; lr_enabled : bool; supported_bitmask : list Z; supported_setup : Z; chip_type : Z;
  chip_version : Z; txnr : Z; txnr_bridge : Z; registered : list Z; polls : list poll; rounds : list nat;
  outs : list output
}.

Definition set_con (x : Con) (s : SA) : SA := mkSA x (rxQueue s) (buffer s) (pCmd s) (idx s) (byLen s)
    (byCompletedFunc s) (lr_enabled s) (supported_bitmask s) (supported_setup s) (chip_type s) (chip_version s)
    (txnr s) (txnr_bridge s) (registered s) (polls s) (rounds s) (outs s).
Definition set_rxQueue (x : list (list Z)) (s : SA) : SA := mkSA (con s) x (buffer s) (pCmd s) (idx s) (byLen s)
    (byCompletedFunc s) (lr_enabled s) (supported_bitmask s) (supported_setup s) (chip_type s) (chip_version s)
    (txnr s) (txnr_bridge s) (registered s) (polls s) (rounds s) (outs s).
Definition set_buffer (x : list Z) (s : SA) : SA := mkSA (con s) (rxQueue s) x (pCmd s) (idx s) (byLen s)
    (byCompletedFunc s) (lr_enabled s) (supported_bitmask s) (supported_setup s) (chip_type s) (chip_version s)
    (txnr s) (txnr_bridge s) (registered s) (polls s) (rounds s) (outs s).
Definition set_pCmd (x : list Z) (s : SA) : SA := mkSA (con s) (rxQueue s) (buffer s) x (idx s) (byLen s)
    (byCompletedFunc s) (lr_enabled s) (supported_bitmask s) (supported_setup s) (chip_type s) (chip_version s)
    (txnr s) (txnr_bridge s) (registered s) (polls s) (rounds s) (outs s).
Definition set_idx (x : Z) (s : SA) : SA := mkSA (con s) (rxQueue s) (buffer s) (pCmd s) x (byLen s)
    (byCompletedFunc s) (lr_enabled s) (supported_bitmask s) (supported_setup s) (chip_type s) (chip_version s)
    (txnr s) (txnr_bridge s) (registered s) (polls s) (rounds s) (outs s).
Definition set_byLen (x : Z) (s : SA) : SA := mkSA (con s) (rxQueue s) (buffer s) (pCmd s) (idx s) x
    (byCompletedFunc s) (lr_enabled s) (supported_bitmask s) (supported_setup s) (chip_type s) (chip_version s)
    (txnr s) (txnr_bridge s) (registered s) (polls s) (rounds s) (outs s).
Definition set_byCompletedFunc (x : Z) (s : SA) : SA := mkSA (con s) (rxQueue s) (buffer s) (pCmd s) (idx s)
    (byLen s) x (lr_enabled s) (supported_bitmask s) (supported_setup s) (chip_type s) (chip_version s) (txnr s)
    (txnr_bridge s) (registered s) (polls s) (rounds s) (outs s).
Definition set_lr_enabled (x : bool) (s : SA) : SA := mkSA (con s) (rxQueue s) (buffer s) (pCmd s) (idx s)
    (byLen s) (byCompletedFunc s) x (supported_bitmask s) (supported_setup s) (chip_type s) (chip_version s)
    (txnr s) (txnr_bridge s) (registered s) (polls s) (rounds s) (outs s).
Definition set_supported_bitmask (x : list Z) (s : SA) : SA := mkSA (con s) (rxQueue s) (buffer s) (pCmd s)
    (idx s) (byLen s) (byCompletedFunc s) (lr_enabled s) x (supported_setup s) (chip_type s) (chip_version s)
    (txnr s) (txnr_bridge s) (registered s) (polls s) (rounds s) (outs s).
Definition set_supported_setup (x : Z) (s : SA) : SA := mkSA (con s) (rxQueue s) (buffer s) (pCmd s) (idx s)
    (byLen s) (byCompletedFunc s) (lr_enabled s) (supported_bitmask s) x (chip_type s) (chip_version s) (txnr s)
    (txnr_bridge s) (registered s) (polls s) (rounds s) (outs s).
Definition set_chip_type (x : Z) (s : SA) : SA := mkSA (con s) (rxQueue s) (buffer s) (pCmd s) (idx s) (byLen s)
    (byCompletedFunc s) (lr_enabled s) (supported_bitmask s) (supported_setup s) x (chip_version s) (txnr s)
    (txnr_bridge s) (registered s) (polls s) (rounds s) (outs s).
Definition set_chip_version (x : Z) (s : SA) : SA := mkSA (con s) (rxQueue s) (buffer s) (pCmd s) (idx s)
    (byLen s) (byCompletedFunc s) (lr_enabled s) (supported_bitmask s) (supported_setup s) (chip_type s) x
    (txnr s) (txnr_bridge s) (registered s) (polls s) (rounds s) (outs s).
Definition set_txnr (x : Z) (s : SA) : SA := mkSA (con s) (rxQueue s) (buffer s) (pCmd s) (idx s) (byLen s)
    (byCompletedFunc s) (lr_enabled s) (supported_bitmask s) (supported_setup s) (chip_type s) (chip_version s) x
    (txnr_bridge s) (registered s) (polls s) (rounds s) (outs s).
Definition set_txnr_bridge (x : Z) (s : SA) : SA := mkSA (con s) (rxQueue s) (buffer s) (pCmd s) (idx s)
    (byLen s) (byCompletedFunc s) (lr_enabled s) (supported_bitmask s) (supported_setup s) (chip_type s)
    (chip_version s) (txnr s) x (registered s) (polls s) (rounds s) (outs s).
Definition set_registered (x : list Z) (s : SA) : SA := mkSA (con s) (rxQueue s) (buffer s) (pCmd s) (idx s)
    (byLen s) (byCompletedFunc s) (lr_enabled s) (supported_bitmask s) (supported_setup s) (chip_type s)
    (chip_version s) (txnr s) (txnr_bridge s) x (polls s) (rounds s) (outs s).
Definition set_polls (x : list poll) (s : SA) : SA := mkSA (con s) (rxQueue s) (buffer s) (pCmd s) (idx s)
    (byLen s) (byCompletedFunc s) (lr_enabled s) (supported_bitmask s) (supported_setup s) (chip_type s)
    (chip_version s) (txnr s) (txnr_bridge s) (registered s) x (rounds s) (outs s).
Definition set_rounds (x : list nat) (s : SA) : SA := mkSA (con s) (rxQueue s) (buffer s) (pCmd s) (idx s)
    (byLen s) (byCompletedFunc s) (lr_enabled s) (supported_bitmask s) (supported_setup s) (chip_type s)
    (chip_version s) (txnr s) (txnr_bridge s) (registered s) (polls s) x (outs s).
Definition set_outs (x : list output) (s : SA) : SA := mkSA (con s) (rxQueue s) (buffer s) (pCmd s) (idx s)
    (byLen s) (byCompletedFunc s) (lr_enabled s) (supported_bitmask s) (supported_setup s) (chip_type s)
    (chip_version s) (txnr s) (txnr_bridge s) (registered s) (polls s) (rounds s) x.

Abbreviation M := (Eff SA).

Definition emit (o : output) : M unit := modify (fun s => set_outs (outs s ++ [o]) s).
Definition is_registered (f : Z) (s : SA) : bool := bool_decide (f ∈ registered s).
Definition register (f : Z) (b : bool) : M unit :=
  modify (fun s => set_registered ((if b then [f] else []) ++ List.filter (fun g => negb (g =? f)) (registered s)) s).

Definition SupportsCommand (cmd : Z) (s : SA) : bool :=
  (cmd =? FUNC_ID_SERIAL_API_GET_CAPABILITIES)
  || Z.testbit (at_ (supported_bitmask s) (Z.to_nat (Z.shiftr (cmd - 1) 3))) (Z.land (cmd - 1) 0x7).

(** ** Frames *)

(** The frame in [serBuf] that has come, and its type. *)
Definition frame (s : SA) : list Z := take (Z.to_nat (serBufLen (con s))) (serBuf (con s)).
Definition frame_type (s : SA) : Z := at_ (serBuf (con s)) 1.

Definition rxQueue_Len (s : SA) : nat := length (rxQueue s).
Definition SerialFlushQueue : M unit := modify (set_rxQueue []).

(** The rest of the memory of a queued frame is not set. *)
Definition QueueFrame : M unit :=
  s ← get; if Nat.leb MAX_RXQUEUE_LEN (rxQueue_Len s) then mret tt else modify (set_rxQueue (rxQueue s ++ [frame s])).

(** [ConUpdate]: a frame that has begun is read to its end, however long its bytes take. *)
Fixpoint update_with (p : poll) (ps : list poll) (c : Con) : res (T_CON_TYPE * bool * Con * list poll) :=
  let c := with_input (input c ++ arrived p) c in
  match ConUpdate true (rx_expired p) (ack_expired p) c with
  | ConHandle.Done (c', r) => Ok (r, wait_expired p, c', ps)
  | ConHandle.Overrun => Fault OutOfBounds
  | ConHandle.Blocked => match ps with [] => Fault OutOfFuel | q :: ps => update_with q ps c end
  end.

Definition update : M (T_CON_TYPE * bool) := fun s =>
  let '(p, ps) := match polls s with [] => (silence, []) | p :: ps => (p, ps) end in
  match update_with p ps (con s) with
  | Ok (r, w, c, ps) => Ok ((r, w), set_con c (set_polls ps s))
  | Fault f => Fault f
  end.

Fixpoint wait_loop (fuel : nat) : M T_CON_TYPE :=
  match fuel with
  | O => fail OutOfFuel
  | S fuel =>
    '(r, expired) ← update;
    if bool_decide (r = conIdle) then if expired : bool then mret conRxTimeout else wait_loop fuel else mret r
  end.

Definition WaitResponse : M T_CON_TYPE := s ← get; wait_loop (S (length (polls s))).

(** The bytes that have not been read yet; each frame takes some. *)
Definition avail (s : SA) : nat := length (input (con s)) + length (concat (map arrived (polls s))).

Definition queue_request : M unit := s ← get; if frame_type s =? REQUEST then QueueFrame else mret tt.

Fixpoint drain_loop (fuel : nat) : M unit :=
  match fuel with
  | O => fail OutOfFuel
  | S fuel => '(r, _) ← update; if bool_decide (r = conFrameReceived) then queue_request ;; drain_loop fuel else mret tt
  end.

Definition DrainRX : M unit := s ← get; drain_loop (S (avail s)).

Definition tx_frame (cmd : Z) (param_buf : list Z) : M unit := fun s =>
  match ConTxFrame cmd REQUEST param_buf (Z.of_nat (length param_buf)) (con s) with
  | ConHandle.Done c => Ok (tt, set_con c s)
  | _ => Fault OutOfBounds
  end.

(** The pause before the next attempt. *)
Fixpoint repeat_drain (n : nat) : M unit := match n with O => mret tt | S n => DrainRX ;; repeat_drain n end.
Definition pause : M unit :=
  s ← get; match rounds s with [] => mret tt | n :: l => modify (set_rounds l) ;; repeat_drain n end.

Fixpoint send_loop (fuel : nat) (i : Z) (ret : T_CON_TYPE) (cmd : Z) (param_buf : list Z) : M T_CON_TYPE :=
  match fuel with
  | O => fail OutOfFuel
  | S fuel =>
    if 20 <=? i then mret ret else
    ret ← WaitResponse;
    match ret with
    | conFrameSent => mret ret
    | conFrameReceived => queue_request ;; send_loop fuel ((if i =? 0 then i else i - 1) + 1) ret cmd param_buf
    | _ =>
      (if Z.land i 7 =? 7 then emit Reopened else mret tt) ;;
      pause ;; tx_frame cmd param_buf ;; send_loop fuel (i + 1) ret cmd param_buf
    end
  end.

(** Twenty attempts, and a round for each frame that comes meanwhile, are enough. *)
Definition SendFrame (cmd : Z) (param_buf : list Z) : M T_CON_TYPE :=
  s ← get;
  if negb (SupportsCommand cmd s) then mret conTxErr else
  DrainRX ;; tx_frame cmd param_buf ;;
  s ← get;
  send_loop (21 + avail s) 0 conIdle cmd param_buf.

(** The response, when one comes: three frames are looked at. *)
Fixpoint response_loop (n : nat) (cmd : Z) : M (option (list Z)) :=
  match n with
  | O => mret None
  | S n =>
    ret ← WaitResponse;
    s ← get;
    if bool_decide (ret = conFrameReceived) then
      if frame_type s =? REQUEST then QueueFrame ;; response_loop n cmd
      else if at_ (serBuf (con s)) 2 =? cmd then mret (Some (take (Z.to_nat (at_ (serBuf (con s)) 0)) (serBuf (con s))))
      else response_loop n cmd
    else response_loop n cmd
  end.

Definition exchange (cmd : Z) (param_buf : list Z) : M (option (list Z)) :=
  ret ← SendFrame cmd param_buf; if bool_decide (ret = conFrameSent) then response_loop 3 cmd else mret None.

(** The response goes to [buffer]; its length to [byLen] unless the pointer for it is null. *)
Definition SendFrameWithResponse (cmd : Z) (param_buf : list Z) (want_len : bool) : M T_CON_TYPE :=
  r ← exchange cmd param_buf;
  match r with
  | Some x =>
    s ← get; b ← wrs (buffer s) 0 x;
    modify (set_buffer b) ;; (if want_len then modify (set_byLen (Z.of_nat (length x))) else mret tt) ;; mret conFrameReceived
  | None => mret conIdle
  end.

(** ** Requests of the module *)

Section Dispatch.
Context (handlers : handler -> bool).

Definition DetectBufferOverflow (len : Z) : bool := Z.of_nat BUF_SIZE <? len.

(** A node id, of two bytes when long range is enabled, and the place after it. *)
Definition read_node (pData : list Z) (at_idx : Z) : M (Z * Z) :=
  s ← get;
  if lr_enabled s then h ← rd pData at_idx; l ← rd pData (at_idx + 1); mret (Z.lor (Z.shiftl h 8) l, at_idx + 2)
  else l ← rd pData at_idx; mret (l, at_idx + 1).

(** Bytes of the frame are copied to [pCmd]. *)
Definition copy_cmd (pData : list Z) (off len : Z) : M (list Z) :=
  x ← rds pData (Z.to_nat off) (Z.to_nat len);
  s ← get; b ← wrs (pCmd s) 0 x;
  modify (set_pCmd b) ;; mret x.

Definition controller_update (pData : list Z) : M unit :=
  if DetectBufferOverflow (IDX_DATA + 2) || negb (handlers ApplicationControllerUpdate) then mret tt else
  bStatus ← rd pData IDX_DATA;
  if (bStatus =? UPDATE_STATE_NODE_INFO_FOREIGN_HOMEID_RECEIVED) || (bStatus =? UPDATE_STATE_NODE_INFO_SMARTSTART_HOMEID_RECEIVED_LR) then
    '(prospectID, j) ← read_node pData (IDX_DATA + 1);
    l ← rd pData j;
    let length := Z.min l (Z.of_nat BUF_SIZE) in
    home ← rds pData (Z.to_nat (j + 1)) 4;
    x ← copy_cmd pData (j + 5) length;
    emit (ControllerUpdate bStatus prospectID x (Some home))
  else if bStatus =? UPDATE_STATE_INCLUDED_NODE_INFO_RECEIVED then
    s ← get;
    (** without long range the local variable [srcId] is not set before it is used *)
    if negb (lr_enabled s) then fail OutOfBounds else
    '(srcId, j) ← read_node pData (IDX_DATA + 2);
    x ← copy_cmd pData j 5;
    emit (ControllerUpdate bStatus srcId x None)
  else
    '(bSource, j) ← read_node pData (IDX_DATA + 1);
    bLen ← rd pData j;
    x ← copy_cmd pData (j + 1) bLen;
    emit (ControllerUpdate bStatus bSource x None).

Definition command_handler (pData : list Z) : M unit :=
  if negb (handlers ApplicationCommandHandler) || DetectBufferOverflow (IDX_DATA + 2) then mret tt else
  '(source_node, j) ← read_node pData (IDX_DATA + 1);
  len ← rd pData j;
  x ← copy_cmd pData (j + 1) len;
  st ← rd pData IDX_DATA;
  emit (CommandReceived st 0 source_node x).

Definition promiscuous_handler (pData : list Z) : M unit :=
  s ← get;
  assert (negb (lr_enabled s)) ;;
  if negb (handlers ApplicationCommandHandler) || DetectBufferOverflow (IDX_DATA + 2) then mret tt else
  len ← rd pData (IDX_DATA + 2);
  x ← copy_cmd pData (IDX_DATA + 3) len;
  st ← rd pData IDX_DATA; dest ← rd pData (byLen s - 1); src ← rd pData (IDX_DATA + 1);
  emit (CommandReceived st dest src x).

Definition bridge_handler (pData : list Z) : M unit :=
  if negb (handlers ApplicationCommandHandler_Bridge) || DetectBufferOverflow (IDX_DATA + 3) then mret tt else
  '(dest_node, j) ← read_node pData (IDX_DATA + 1);
  '(source_node, j) ← read_node pData j;
  len ← rd pData j;
  x ← copy_cmd pData (j + 1) len;
  st ← rd pData IDX_DATA;
  emit (BridgeCommandReceived st dest_node source_node x).

(** The end of a transmission; with 24 bytes or more the frame has a report, of 19 bytes, or 24 from 29 bytes on. *)
Definition send_data_done (pData : list Z) (len : Z) : M unit :=
  cmd ← rd pData IDX_CMD;
  txStatus ← rd pData (IDX_DATA + 1);
  s ← get;
  let f := is_registered cmd s in
  register cmd false ;;
  if 24 <=? len then
    report ← rds pData 5 (if 29 <=? len then 24 else 19);
    if f then emit (Completed cmd [txStatus] (Some report)) else mret tt
  else if f then emit (Completed cmd [txStatus] None) else mret tt.

Definition test_frame_done (pData : list Z) : M unit :=
  s ← get;
  if is_registered FUNC_ID_ZW_SEND_TEST_FRAME s then
    register FUNC_ID_ZW_SEND_TEST_FRAME false ;;
    st ← rd pData (IDX_DATA + 1); emit (Completed FUNC_ID_ZW_SEND_TEST_FRAME [st] None)
  else mret tt.

(** The callback of a command gets its status, or nothing. *)
Definition callback_status (pData : list Z) (cmd : Z) : M unit :=
  s ← get; if is_registered cmd s then st ← rd pData (IDX_DATA + 1); emit (Completed cmd [st] None) else mret tt.
Definition callback_void (cmd : Z) : M unit :=
  s ← get; if is_registered cmd s then emit (Completed cmd [] None) else mret tt.

Definition learn_info (pData : list Z) (cmd : Z) : M unit :=
  s ← get;
  if negb (is_registered cmd s) then mret tt else
  bStatus ← rd pData (IDX_DATA + 1);
  if (bStatus =? ADD_NODE_STATUS_ADDING_SLAVE) || (bStatus =? ADD_NODE_STATUS_ADDING_CONTROLLER) then
    '(bSource, j) ← read_node pData (IDX_DATA + 2);
    bLen ← rd pData j;
    if DetectBufferOverflow bLen then mret tt else
    x ← copy_cmd pData (j + 1) bLen;
    emit (Learned cmd bStatus bSource x)
  else emit (Learned cmd bStatus 0 []).

Definition learn_mode (pData : list Z) : M unit :=
  s ← get;
  if negb (is_registered FUNC_ID_ZW_SET_LEARN_MODE s) then mret tt else
  bStatus ← rd pData (IDX_DATA + 1);
  '(bSource, j) ← read_node pData (IDX_DATA + 2);
  if DetectBufferOverflow j then mret tt else
  bLen ← rd pData j;
  x ← copy_cmd pData (j + 1) bLen;
  emit (Learned FUNC_ID_ZW_SET_LEARN_MODE bStatus bSource x).

Definition slave_learn_mode (pData : list Z) : M unit :=
  s ← get;
  if negb (is_registered FUNC_ID_ZW_SET_SLAVE_LEARN_MODE s) then mret tt else
  onode ← rd pData (IDX_DATA + 2); nnode ← rd pData (IDX_DATA + 3); st ← rd pData (IDX_DATA + 1);
  emit (Completed FUNC_ID_ZW_SET_SLAVE_LEARN_MODE [st; onode; nnode] None).

Definition SerialAPI_WatchdogStart : M unit := SendFrame FUNC_ID_ZW_WATCHDOG_START [] ;; mret tt.

Definition started (pData : list Z) : M unit :=
  (if handlers SerialAPIStarted then
     len ← rd pData (IDX_DATA + 2); x ← copy_cmd pData (IDX_DATA + 3) len; emit (Started x)
   else mret tt) ;;
  s ← get; if chip_type s =? ZW_GECKO_CHIP_TYPE then SerialAPI_WatchdogStart else mret tt.

(** Commands whose callback gets a status. *)
Definition status_commands : list Z :=
  [FUNC_ID_ZW_SEND_NODE_INFORMATION; FUNC_ID_ZW_SEND_DATA_MULTI_BRIDGE; FUNC_ID_ZW_REPLICATION_SEND_DATA; FUNC_ID_ZW_ASSIGN_RETURN_ROUTE;
   FUNC_ID_ZW_DELETE_RETURN_ROUTE; FUNC_ID_ZW_ASSIGN_SUC_RETURN_ROUTE; FUNC_ID_ZW_SEND_SUC_ID; FUNC_ID_ZW_DELETE_SUC_RETURN_ROUTE; FUNC_ID_ZW_SET_SUC_NODE_ID;
   FUNC_ID_ZW_REQUEST_NODE_NEIGHBOR_UPDATE; FUNC_ID_ZW_REQUEST_NETWORK_UPDATE; FUNC_ID_ZW_REMOVE_FAILED_NODE_ID; FUNC_ID_ZW_REPLACE_FAILED_NODE].
Definition learn_commands : list Z :=
  [FUNC_ID_ZW_CONTROLLER_CHANGE; FUNC_ID_ZW_CREATE_NEW_PRIMARY; FUNC_ID_ZW_REMOVE_NODE_FROM_NETWORK; FUNC_ID_ZW_ADD_NODE_TO_NETWORK].

Definition Dispatch (pData : list Z) (len : Z) : M unit :=
  type ← rd pData 1;
  if type =? 1 then mret tt else
  cmd ← rd pData IDX_CMD;
  if cmd =? FUNC_ID_ZW_APPLICATION_CONTROLLER_UPDATE then controller_update pData
  else if cmd =? FUNC_ID_APPLICATION_COMMAND_HANDLER then command_handler pData
  else if cmd =? FUNC_ID_PROMISCUOUS_APPLICATION_COMMAND_HANDLER then promiscuous_handler pData
  else if cmd =? FUNC_ID_APPLICATION_COMMAND_HANDLER_BRIDGE then bridge_handler pData
  else if (cmd =? FUNC_ID_ZW_SEND_DATA) || (cmd =? FUNC_ID_ZW_SEND_DATA_BRIDGE) then send_data_done pData len
  else if cmd =? FUNC_ID_ZW_SEND_TEST_FRAME then test_frame_done pData
  else if (cmd =? FUNC_ID_MEMORY_PUT_BUFFER) || (cmd =? FUNC_ID_ZW_SET_DEFAULT) then callback_void cmd
  else if bool_decide (cmd ∈ learn_commands) then learn_info pData cmd
  else if cmd =? FUNC_ID_ZW_SET_LEARN_MODE then learn_mode pData
  else if cmd =? FUNC_ID_ZW_SET_SLAVE_LEARN_MODE then slave_learn_mode pData
  else if bool_decide (cmd ∈ status_commands) then callback_status pData cmd
  else if cmd =? FUNC_ID_SERIALAPI_STARTED then started pData
  else mret tt.

(** The frame is back in [serBuf] while it is dispatched. *)
Definition SerialAPI_Poll : M bool :=
  s ← get;
  match rxQueue s with
  | f :: q =>
    modify (set_rxQueue q) ;;
    let c := con s in
    modify (set_con (ConHandle.mkCon (splice 0 f (serBuf c)) (Z.of_nat (length f)) (con_state c) (bChecksum_RX c) (rxActive c) (AckNakNeeded c)
      (input c) (ConHandle.output c))) ;;
    Dispatch f (Z.of_nat (length f))
  | [] => mret tt
  end ;;
  DrainRX ;;
  (if handlers ApplicationPoll then emit Polled else mret tt) ;;
  s ← get; mret (match rxQueue s with [] => false | _ => true end).

End Dispatch.

End SerialApi.
