(* ===== verification/SerialCommands.v ===== *)
(** * The commands of the serial API (src/serialapi/Serialapi.c)

    Each command writes its parameters to the transmit buffer, sends them, and reads the response from the
    same buffer.  Pointers for results are results here; [cb] says whether a callback is given. *)
From S2P Require Import Prelude Effects ConHandle SerialApi.
Import Effects SerialApi.
Import ConHandle(T_CON_TYPE(..)).

Module SerialCommands.

Definition SERIAL_API_SETUP_CMD_SUPPORTED : Z := 0x1.
Definition SERIAL_API_SETUP_CMD_TX_POWERLEVEL_SET : Z := 0x4.
Definition SERIAL_API_SETUP_CMD_TX_POWERLEVEL_GET : Z := 0x8.
Definition SERIAL_API_SETUP_CMD_RF_REGION_GET : Z := 0x20.
Definition SERIAL_API_SETUP_CMD_RF_REGION_SET : Z := 0x40.
Definition SERIAL_API_SETUP_CMD_NODEID_BASETYPE_SET : Z := 0x80.
Definition FUNC_ID_SERIAL_API_GET_INIT_DATA : Z := 0x02.
Definition FUNC_ID_SERIAL_API_APPL_NODE_INFORMATION : Z := 0x03.
Definition FUNC_ID_ZW_GET_CONTROLLER_CAPABILITIES : Z := 0x05.
Definition FUNC_ID_SERIAL_API_SOFT_RESET : Z := 0x08.
Definition FUNC_ID_ZW_GET_PROTOCOL_VERSION : Z := 0x09.
Definition FUNC_ID_SERIALAPI_SETUP : Z := 0x0B.
Definition FUNC_ID_ZW_SET_RF_RECEIVE_MODE : Z := 0x10.
Definition FUNC_ID_ZW_GET_VERSION : Z := 0x15.
Definition FUNC_ID_ZW_SEND_DATA_ABORT : Z := 0x16.
Definition FUNC_ID_ZW_RF_POWER_LEVEL_SET : Z := 0x17.
Definition FUNC_ID_ZW_GET_RANDOM : Z := 0x1C.
Definition FUNC_ID_MEMORY_GET_ID : Z := 0x20.
Definition FUNC_ID_MEMORY_GET_BYTE : Z := 0x21.
Definition FUNC_ID_MEMORY_PUT_BYTE : Z := 0x22.
Definition FUNC_ID_MEMORY_GET_BUFFER : Z := 0x23.
Definition FUNC_ID_NVR_GET_VALUE : Z := 0x28.
Definition FUNC_ID_NVM_BACKUP_RESTORE : Z := 0x2E.
Definition FUNC_ID_ZW_GET_BACKGROUND_RSSI : Z := 0x3B.
Definition FUNC_ID_ZW_GET_NODE_PROTOCOL_INFO : Z := 0x41.
Definition FUNC_ID_ZW_NEW_CONTROLLER : Z := 0x43.
Definition FUNC_ID_ZW_REPLICATION_COMMAND_COMPLETE : Z := 0x44.
Definition FUNC_ID_ZW_ENABLE_SUC : Z := 0x52.
Definition FUNC_ID_ZW_GET_SUC_NODE_ID : Z := 0x56.
Definition FUNC_ID_ZW_EXPLORE_REQUEST_INCLUSION : Z := 0x5E.
Definition FUNC_ID_ZW_EXPLORE_REQUEST_EXCLUSION : Z := 0x5F.
Definition FUNC_ID_ZW_REQUEST_NODE_INFO : Z := 0x60.
Definition FUNC_ID_ZW_IS_FAILED_NODE_ID : Z := 0x62.
Definition FUNC_ID_GET_ROUTING_TABLE_LINE : Z := 0x80.
Definition FUNC_ID_GET_TX_COUNTER : Z := 0x81.
Definition FUNC_ID_RESET_TX_COUNTER : Z := 0x82.
Definition FUNC_ID_LOCK_ROUTE_RESPONSE : Z := 0x90.
Definition FUNC_ID_ZW_GET_LAST_WORKING_ROUTE : Z := 0x92.
Definition FUNC_ID_ZW_SET_LAST_WORKING_ROUTE : Z := 0x93.
Definition FUNC_ID_SERIAL_API_APPL_SLAVE_NODE_INFORMATION : Z := 0xA0.
Definition FUNC_ID_ZW_GET_VIRTUAL_NODES : Z := 0xA5.
Definition FUNC_ID_ZW_SET_LISTEN_BEFORE_TALK_THRESHOLD : Z := 0x3C.
Definition FUNC_ID_ZW_WATCHDOG_ENABLE : Z := 0xB6.
Definition FUNC_ID_ZW_WATCHDOG_DISABLE : Z := 0xB7.
Definition FUNC_ID_ZW_RF_POWER_LEVEL_GET : Z := 0xBA.
Definition FUNC_ID_ZW_TYPE_LIBRARY : Z := 0xBD.
Definition FUNC_ID_ZW_GET_PROTOCOL_STATUS : Z := 0xBF.
Definition FUNC_ID_ZW_SET_ROUTING_MAX : Z := 0xD4.
Definition FUNC_ID_SERIAL_API_GET_LR_NODES : Z := 0xDA.
Definition FUNC_ID_GET_LR_CHANNEL : Z := 0xDB.
Definition FUNC_ID_SET_LR_CHANNEL : Z := 0xDC.
Definition FUNC_ID_ZW_SET_LR_VIRTUAL_IDS : Z := 0xDD.
Definition RF_US_LR : Z := 0x09.
Definition NODEID_8BITS : Z := 1.
Definition NODEID_16BITS : Z := 2.
Definition LR_NOT_SUPPORTED : Z := 128.
Definition ZW_CLASSIC_MAX_NODES : Z := 232.
Definition ZW_LR_MIN_NODE_ID : Z := 256.
Definition ZW_LR_MAX_NODE_ID : Z := 4000.
Definition MAX_CLASSIC_NODEMASK_LENGTH : nat := 29.
Definition GET_INIT_DATA_FLAG_SECONDARY_CTRL : Z := 0x04.
Definition CONTROLLER_IS_SECONDARY : Z := 0x01.
Definition BASIC_GET : Z := 0x02.

(** ** Parameters and results *)

Definition start : M unit := modify (set_idx 0).
(** [buffer[idx++] = x]. *)
Definition push (x : Z) : M unit := s ← get; b ← wr (buffer s) (idx s) x; modify (set_buffer b) ;; modify (set_idx (u8 (idx s + 1))).
Fixpoint pushes (l : list Z) : M unit := match l with [] => mret tt | x :: l => push x ;; pushes l end.

Definition set_node_id_in_buffer (node_id : Z) : M unit :=
  s ← get; (if lr_enabled s then push (u8 (Z.shiftr node_id 8)) else mret tt) ;; push (Z.land node_id 0xff).

Definition completed (v : Z) (cb : bool) : M unit := modify (set_byCompletedFunc (if cb then v else 0)).
Definition push_completed : M unit := s ← get; push (byCompletedFunc s).

(** The parameters in the buffer are sent, without or with a response. *)
Definition send (cmd : Z) : M unit := s ← get; SendFrame cmd (take (Z.to_nat (idx s)) (buffer s)) ;; mret tt.
Definition call (cmd : Z) : M T_CON_TYPE := modify (set_byLen 0) ;; s ← get; SendFrameWithResponse cmd (take (Z.to_nat (idx s)) (buffer s)) true.
Definition call_nolen (cmd : Z) : M T_CON_TYPE := s ← get; SendFrameWithResponse cmd (take (Z.to_nat (idx s)) (buffer s)) false.
Definition call_empty (cmd : Z) : M T_CON_TYPE := modify (set_byLen 0) ;; SendFrameWithResponse cmd [] true.
(** [byLen] is not cleared first. *)
Definition call_again (cmd : Z) : M T_CON_TYPE := s ← get; SendFrameWithResponse cmd (take (Z.to_nat (idx s)) (buffer s)) true.
(** [buffer[IDX_DATA + i]]. *)
Definition answer (i : Z) : M Z := s ← get; rd (buffer s) (IDX_DATA + i).
Definition answers (i : Z) (n : nat) : M (list Z) := s ← get; rds (buffer s) (Z.to_nat (IDX_DATA + i)) n.

(** ** The module *)

Definition SupportsSerialAPISetup_func (subcmd : Z) (s : SA) : bool := 0 <? Z.land subcmd (supported_setup s).
Definition SerialAPI_SupportsLR (s : SA) : bool := SupportsSerialAPISetup_func SERIAL_API_SETUP_CMD_NODEID_BASETYPE_SET s.

Definition ZW_SetRFReceiveMode (mode : Z) : M Z := start ;; push mode ;; call FUNC_ID_ZW_SET_RF_RECEIVE_MODE ;; answer 0.
Definition ZW_RFPowerLevelSet (powerLevel : Z) : M Z := start ;; push powerLevel ;; call FUNC_ID_ZW_RF_POWER_LEVEL_SET ;; answer 0.
Definition ZW_RFPowerLevelGet : M Z := start ;; call FUNC_ID_ZW_RF_POWER_LEVEL_GET ;; answer 0.
Definition ZW_TXPowerLevelSet (normal measured0dBm : Z) : M Z :=
  start ;; pushes [SERIAL_API_SETUP_CMD_TX_POWERLEVEL_SET; normal; measured0dBm] ;; call FUNC_ID_SERIALAPI_SETUP ;; answer 1.
Definition ZW_TXPowerLevelGet : M (Z * Z) :=
  start ;; push SERIAL_API_SETUP_CMD_TX_POWERLEVEL_GET ;; call FUNC_ID_SERIALAPI_SETUP ;; a ← answer 1; b ← answer 2; mret (a, b).
Definition ZW_RFRegionSet (rfregion : Z) : M Z :=
  s ← get;
  if (rfregion =? RF_US_LR) && negb (SerialAPI_SupportsLR s) then mret 0 else
  start ;; pushes [SERIAL_API_SETUP_CMD_RF_REGION_SET; rfregion] ;; call FUNC_ID_SERIALAPI_SETUP ;; answer 1.
Definition ZW_RFRegionGet : M Z := start ;; push SERIAL_API_SETUP_CMD_RF_REGION_GET ;; call FUNC_ID_SERIALAPI_SETUP ;; answer 1.

Definition SerialAPI_Setup_NodeID_BaseType_Set (nodeid_basetype : Z) : M Z :=
  start ;; pushes [SERIAL_API_SETUP_CMD_NODEID_BASETYPE_SET; nodeid_basetype] ;; call FUNC_ID_SERIALAPI_SETUP ;;
  success ← answer 1;
  if negb (success =? 0) then (if nodeid_basetype =? NODEID_16BITS then modify (set_lr_enabled true) else mret tt) ;; mret nodeid_basetype
  else mret NODEID_8BITS.
Definition SerialAPI_LR_Virtual_Nodes_Set (bits : Z) : M unit :=
  s ← get; b ← wr (buffer s) 0 bits; modify (set_buffer b) ;; SendFrame FUNC_ID_ZW_SET_LR_VIRTUAL_IDS [bits] ;; mret tt.
Definition SerialAPI_EnableLR : M bool :=
  s ← get;
  if SerialAPI_SupportsLR s then
    t ← SerialAPI_Setup_NodeID_BaseType_Set NODEID_16BITS;
    if negb (NODEID_16BITS =? t) then mret false else SerialAPI_LR_Virtual_Nodes_Set 0x0f ;; mret true
  else mret true.
Definition SerialAPI_DisableLR : M bool :=
  s ← get;
  if SerialAPI_SupportsLR s then
    t ← SerialAPI_Setup_NodeID_BaseType_Set NODEID_8BITS;
    if negb (NODEID_8BITS =? t) then mret false else SerialAPI_LR_Virtual_Nodes_Set 0x00 ;; mret true
  else mret true.
Definition GetLongRangeChannel : M Z :=
  start ;; modify (set_byLen 0) ;; s ← get;
  if SupportsCommand FUNC_ID_GET_LR_CHANNEL s then call FUNC_ID_GET_LR_CHANNEL ;; answer 0 else mret LR_NOT_SUPPORTED.
Definition SetLongRangeChannel (channel : Z) : M unit :=
  start ;; modify (set_byLen 0) ;; push channel ;; s ← get;
  if SupportsCommand FUNC_ID_SET_LR_CHANNEL s then send FUNC_ID_SET_LR_CHANNEL else mret tt.

Definition ZW_SoftReset : M unit := send FUNC_ID_SERIAL_API_SOFT_RESET.
Definition ZW_WatchDogEnable : M unit := SendFrame FUNC_ID_ZW_WATCHDOG_ENABLE [] ;; mret tt.
Definition ZW_WatchDogDisable : M unit := SendFrame FUNC_ID_ZW_WATCHDOG_DISABLE [] ;; mret tt.
Definition ZW_GetProtocolStatus : M Z := start ;; call FUNC_ID_ZW_GET_PROTOCOL_STATUS ;; answer 0.
Definition ZW_Type_Library : M Z := start ;; modify (set_idx 1) ;; call_empty FUNC_ID_ZW_TYPE_LIBRARY ;; answer 0.
Definition ZW_Version : M (Z * list Z) :=
  start ;; r ← call_empty FUNC_ID_ZW_GET_VERSION;
  if bool_decide (r = conFrameReceived) then v ← answers 0 12; t ← answer 12; mret (t, v) else mret (0, []).

(** The fields of [PROTOCOL_VERSION]: type, major, minor, revision, build number, hash. *)
Definition ZW_GetProtocolVersion : M (option (list Z * option Z * option (list Z))) :=
  start ;; r ← call_empty FUNC_ID_ZW_GET_PROTOCOL_VERSION;
  s ← get;
  let n := byLen s - IDX_DATA in
  if negb (bool_decide (r = conFrameReceived)) then mret None
  else if (n =? 22) || (n =? 6) || (n =? 4) then
    hash ← (if n =? 22 then h ← answers 6 16; mret (Some h) else mret None);
    build ← (if n =? 4 then mret None else a ← answer 4; b ← answer 5; mret (Some (Z.lor a b)));
    v ← answers 0 4;
    mret (Some (v, build, hash))
  else mret None.

(** Version, capabilities, length, node list, chip type and version; and whether the controller is secondary. *)
Definition SerialAPI_GetInitData : M (bool * list Z) :=
  start ;; call_empty FUNC_ID_SERIAL_API_GET_INIT_DATA ;;
  x ← answers 0 34;
  modify (set_chip_type (at_ x 32)) ;; modify (set_chip_version (at_ x 33)) ;;
  mret (has_bits (at_ x 1) GET_INIT_DATA_FLAG_SECONDARY_CTRL, x).

Definition ZW_GetControllerCapabilities : M Z := start ;; call FUNC_ID_ZW_GET_CONTROLLER_CAPABILITIES ;; answer 0.
Definition ZW_IsPrimaryCtrl : M bool := c ← ZW_GetControllerCapabilities; mret (Z.land c CONTROLLER_IS_SECONDARY =? 0).

Definition SerialAPI_ApplicationNodeInformation (listening generic specific : Z) (nodeParm : list Z) (parmLength : Z) : M unit :=
  start ;; pushes [listening; generic; specific; parmLength] ;; pushes (take (Z.to_nat parmLength) nodeParm) ;;
  send FUNC_ID_SERIAL_API_APPL_NODE_INFORMATION.
Definition SerialAPI_ApplicationSlaveNodeInformation (dstNode listening generic specific : Z) (nodeParm : list Z) (parmLength : Z) : M unit :=
  start ;; pushes [dstNode; listening; generic; specific; parmLength] ;; pushes (take (Z.to_nat parmLength) nodeParm) ;;
  send FUNC_ID_SERIAL_API_APPL_SLAVE_NODE_INFORMATION.

(** Random bytes, when the module has made as many as asked for. *)
Definition SerialAPI_GetRandom (count : Z) : M (option (list Z)) :=
  start ;; push count ;; call FUNC_ID_ZW_GET_RANDOM ;;
  ok ← answer 0; n ← answer 1;
  if (ok =? 0) || (n <? count) then mret None else x ← answers 2 (Z.to_nat n); mret (Some x).

(** ** Transmissions *)

Definition ZW_SendData (nodeID : Z) (pData : list Z) (dataLength txOptions : Z) (cb : bool) : M Z :=
  if Z.of_nat BUF_SIZE <? dataLength + 2 then mret 0 else
  start ;; modify (set_byLen 0) ;; s ← get;
  completed (u8 (1 + Z.land (txnr s) 0xf7)) cb ;;
  set_node_id_in_buffer nodeID ;; push dataLength ;; pushes (take (Z.to_nat dataLength) pData) ;; push txOptions ;; push_completed ;;
  register FUNC_ID_ZW_SEND_DATA cb ;;
  r ← call FUNC_ID_ZW_SEND_DATA;
  (if bool_decide (r = conFrameReceived) then modify (fun s => set_txnr (txnr s + 1) s)
   else s ← get; b ← wr (buffer s) IDX_DATA 0; modify (set_buffer b)) ;;
  a ← answer 0;
  (if a =? 1 then mret tt else register FUNC_ID_ZW_SEND_DATA false) ;; mret a.

Definition ZW_SendData_Bridge (srcNodeID destNodeID : Z) (pData : list Z) (dataLength txOptions : Z) (cb : bool) : M Z :=
  if Z.of_nat BUF_SIZE <? dataLength + 2 then mret 0 else
  start ;; modify (set_byLen 0) ;; s ← get;
  completed (u8 (1 + Z.land (txnr_bridge s) 0xf7)) cb ;;
  set_node_id_in_buffer srcNodeID ;; set_node_id_in_buffer destNodeID ;; push dataLength ;; pushes (take (Z.to_nat dataLength) pData) ;;
  pushes [txOptions; 0; 0; 0; 0] ;; push_completed ;;
  register FUNC_ID_ZW_SEND_DATA_BRIDGE cb ;;
  r ← call FUNC_ID_ZW_SEND_DATA_BRIDGE;
  (if bool_decide (r = conFrameReceived) then modify (fun s => set_txnr_bridge (txnr_bridge s + 1) s)
   else s ← get; b ← wr (buffer s) IDX_DATA 0; modify (set_buffer b)) ;;
  a ← answer 0;
  (if a =? 1 then mret tt else register FUNC_ID_ZW_SEND_DATA_BRIDGE false) ;; mret a.

Definition ZW_SendDataAbort : M unit := modify (set_byLen 0) ;; SendFrame FUNC_ID_ZW_SEND_DATA_ABORT [] ;; mret tt.
Definition ZW_SendNodeInformation (destNode txOptions : Z) (cb : bool) : M Z :=
  start ;; completed 3 cb ;; set_node_id_in_buffer destNode ;; push txOptions ;; push_completed ;;
  register FUNC_ID_ZW_SEND_NODE_INFORMATION cb ;; send FUNC_ID_ZW_SEND_NODE_INFORMATION ;; mret 0.
Definition ZW_SendTestFrame (nodeID powerLevel : Z) (cb : bool) : M Z :=
  completed 4 cb ;; register FUNC_ID_ZW_SEND_TEST_FRAME cb ;; start ;; set_node_id_in_buffer nodeID ;; push powerLevel ;; push_completed ;;
  call FUNC_ID_ZW_SEND_TEST_FRAME ;; answer 0.
Definition ZW_SendSUCID (node txOption : Z) (cb : bool) : M Z :=
  start ;; completed 3 cb ;; set_node_id_in_buffer node ;; push txOption ;; push_completed ;; register FUNC_ID_ZW_SEND_SUC_ID cb ;;
  call_nolen FUNC_ID_ZW_SEND_SUC_ID ;; answer 0.
Definition ZW_SetListenBeforeTalkThreshold (bChannel bThreshold : Z) : M Z :=
  start ;; pushes [bChannel; bThreshold] ;; call_nolen FUNC_ID_ZW_SET_LISTEN_BEFORE_TALK_THRESHOLD ;; answer 0.
Definition ZW_ReplicationSend (nodeID : Z) (pData : list Z) (dataLength txOptions : Z) (cb : bool) : M Z :=
  completed 3 cb ;; start ;; set_node_id_in_buffer nodeID ;; push dataLength ;; pushes (take (Z.to_nat dataLength) pData) ;;
  push txOptions ;; push_completed ;; register FUNC_ID_ZW_REPLICATION_SEND_DATA cb ;; call FUNC_ID_ZW_REPLICATION_SEND_DATA ;; answer 0.
Definition ZW_ReplicationReceiveComplete : M unit := SendFrame FUNC_ID_ZW_REPLICATION_COMMAND_COMPLETE [] ;; mret tt.

(** The index is a local variable here, and not the one [set_node_id_in_buffer] uses; [nodes] is the mask unpacked. *)
Fixpoint puts (i : Z) (l : list Z) : M unit :=
  match l with [] => mret tt | x :: l => s ← get; b ← wr (buffer s) i x; modify (set_buffer b) ;; puts (i + 1) l end.
Definition SerialAPI_ZW_SendDataMulti_Bridge (srcNodeID : Z) (nodes : list Z) (dat : list Z) (dataLength txOptions : Z) (cb : bool) : M Z :=
  set_node_id_in_buffer srcNodeID ;;
  puts 1 (map u8 nodes) ;;
  s ← get; b ← wr (buffer s) 0 (u8 (Z.of_nat (length nodes))); modify (set_buffer b) ;;
  puts (1 + Z.of_nat (length nodes)) (dataLength :: take (Z.to_nat dataLength) dat ++ [txOptions]) ;;
  register FUNC_ID_ZW_SEND_DATA_MULTI_BRIDGE cb ;;
  let i := 3 + Z.of_nat (length nodes) + dataLength in
  puts i [if cb then 3 else 0] ;;
  s ← get;
  r ← exchange FUNC_ID_ZW_SEND_DATA_MULTI_BRIDGE (take (Z.to_nat (u8 (i + 1))) (buffer s));
  match r with
  | Some x => s ← get; b ← wrs (buffer s) 0 x; modify (set_buffer b) ;; if IDX_DATA <? Z.of_nat (length x) then answer 0 else mret 0
  | None => mret 0
  end.

(** ** Memory of the module *)

Definition ZW_SetDefault (cb : bool) : M unit :=
  start ;; completed 3 cb ;; push_completed ;; register FUNC_ID_ZW_SET_DEFAULT cb ;; send FUNC_ID_ZW_SET_DEFAULT.

(** A node id that is not valid resets the module. *)
Definition MemoryGetID : M (list Z * Z) :=
  start ;; call_empty FUNC_ID_MEMORY_GET_ID ;;
  home ← answers 0 4;
  s ← get;
  node ← (if lr_enabled s then h ← answer 4; l ← answer 5; mret (Z.lor (Z.shiftl h 8) l) else answer 4);
  if (node <? 1) || ((ZW_CLASSIC_MAX_NODES <? node) && (node <? ZW_LR_MIN_NODE_ID)) || (ZW_LR_MAX_NODE_ID <? node)
  then ZW_SetDefault false ;; mret (home, 1)
  else mret (home, node).

Definition MemoryGetByte (offset : Z) : M (option Z) :=
  start ;; pushes [u8 (Z.shiftr offset 8); Z.land offset 0xFF] ;;
  r ← call FUNC_ID_MEMORY_GET_BYTE; if bool_decide (r = conIdle) then mret None else b ← answer 0; mret (Some b).
Definition MemoryPutByte (offset bData : Z) : M Z :=
  start ;; pushes [u8 (Z.shiftr offset 8); Z.land offset 0xFF; bData] ;; call FUNC_ID_MEMORY_PUT_BYTE ;; answer 0.

Fixpoint get_bytes (offset : Z) (n : nat) : M (option (list Z)) :=
  match n with
  | O => mret (Some [])
  | S n => b ← MemoryGetByte (u16 offset); match b with None => mret None | Some b => l ← get_bytes (offset + 1) n; mret (cons b <$> l) end
  end.
Definition MemoryGetBuffer (offset len : Z) : M (option (list Z)) :=
  s ← get;
  if SupportsCommand FUNC_ID_MEMORY_GET_BUFFER s then
    start ;; pushes [u8 (Z.shiftr offset 8); Z.land offset 0xFF; len] ;;
    r ← call FUNC_ID_MEMORY_GET_BUFFER;
    if bool_decide (r = conIdle) then mret None else x ← answers 0 (Z.to_nat len); mret (Some x)
  else get_bytes offset (Z.to_nat len).

Fixpoint put_bytes (offset : Z) (l : list Z) (done : M unit) : M unit :=
  match l with [] => mret tt | b :: l => MemoryPutByte (u16 offset) b ;; done ;; put_bytes (offset + 1) l done end.
(** The parameters of FUNC_ID_MEMORY_PUT_BUFFER, cut to what fits. *)
Definition push_memory (offset : Z) (buf : list Z) (len : Z) : M unit :=
  let len := Z.min len (Z.of_nat BUF_SIZE - 8) in
  pushes [u8 (Z.shiftr offset 8); Z.land offset 0xFF] ;;
  pushes [Z.shiftr len 8; Z.land len 0xFF] ;; pushes (take (Z.to_nat len) buf) ;; push_completed.
Definition MemoryPutBuffer (offset : Z) (buf : list Z) (len : Z) (cb : bool) : M Z :=
  s ← get;
  if SupportsCommand FUNC_ID_MEMORY_PUT_BUFFER s then
    start ;; completed 3 cb ;; push_memory offset buf len ;; register FUNC_ID_MEMORY_PUT_BUFFER cb ;; call FUNC_ID_MEMORY_PUT_BUFFER ;; answer 0
  else put_bytes offset (take (Z.to_nat len) buf) (if cb then emit (Completed FUNC_ID_MEMORY_PUT_BUFFER [] None) else mret tt) ;; mret 1.
Definition ZW_MemoryPutBuffer (offset : Z) (buf : list Z) (len : Z) : M Z :=
  s ← get;
  if SupportsCommand FUNC_ID_MEMORY_PUT_BUFFER s then start ;; push_memory offset buf len ;; call FUNC_ID_MEMORY_PUT_BUFFER ;; answer 0
  else put_bytes offset (take (Z.to_nat len) buf) (mret tt) ;; mret 1.

Definition SerialAPI_nvm_close : M Z := start ;; push 3 ;; call_nolen FUNC_ID_NVM_BACKUP_RESTORE ;; answer 0.
Definition SerialAPI_nvm_open : M Z :=
  start ;; push 0 ;; r ← call_nolen FUNC_ID_NVM_BACKUP_RESTORE;
  if bool_decide (r = conIdle) then mret 0 else
  a ← answer 2; b ← answer 3;
  let len := Z.lor (Z.shiftl a 8) b in mret (if len =? 0 then len else len + 1).
Definition nvm_status (a : Z) : Z := if a =? 0 then 0 else if a =? 0xFF then 2 else 1.
Definition SerialAPI_nvm_backup (offset len : Z) : M (Z * list Z * Z) :=
  start ;; pushes [1; len; u8 (Z.shiftr offset 8); Z.land offset 0xFF] ;; call_nolen FUNC_ID_NVM_BACKUP_RESTORE ;;
  n ← answer 1;
  x ← answers 4 (Z.to_nat n);
  a ← answer 0; mret (nvm_status a, x, n).
Definition SerialAPI_nvm_restore (offset : Z) (buf : list Z) (len : Z) : M (Z * Z) :=
  start ;; pushes [2; len; u8 (Z.shiftr offset 8); Z.land offset 0xFF] ;; pushes (take (Z.to_nat len) buf) ;;
  call_nolen FUNC_ID_NVM_BACKUP_RESTORE ;;
  n ← answer 1; a ← answer 0; mret (nvm_status a, n).

(** ** The network *)

Definition ZW_LockRoute (bNodeID : Z) : M unit := start ;; push bNodeID ;; send FUNC_ID_LOCK_ROUTE_RESPONSE.
Definition ZW_GetRoutingInfo_old (bNodeID bRemoveBad bRemoveNonReps : Z) : M (list Z) :=
  start ;; set_node_id_in_buffer bNodeID ;; pushes [bRemoveBad; bRemoveNonReps] ;; call FUNC_ID_GET_ROUTING_TABLE_LINE ;; answers 0 29.
Definition ZW_ResetTXCounter : M unit := start ;; send FUNC_ID_RESET_TX_COUNTER.
Definition ZW_GetTXCounter : M Z := start ;; call FUNC_ID_GET_TX_COUNTER ;; answer 0.
Definition ZW_RequestNodeNeighborUpdate (bNodeID : Z) (cb : bool) : M Z :=
  start ;; completed 3 cb ;; set_node_id_in_buffer bNodeID ;; push_completed ;; register FUNC_ID_ZW_REQUEST_NODE_NEIGHBOR_UPDATE cb ;;
  send FUNC_ID_ZW_REQUEST_NODE_NEIGHBOR_UPDATE ;; mret 1.
(** Capability, security, reserved, and the basic, generic and specific type. *)
Definition ZW_GetNodeProtocolInfo (bNodeID : Z) : M (list Z) :=
  start ;; set_node_id_in_buffer bNodeID ;; call FUNC_ID_ZW_GET_NODE_PROTOCOL_INFO ;; answers 0 6.
Definition ZW_GetVirtualNodes : M (list Z) := start ;; call FUNC_ID_ZW_GET_VIRTUAL_NODES ;; answers 0 MAX_CLASSIC_NODEMASK_LENGTH.

(** A mode and a callback that is told what is learned; the callback [f] is looked up with another number than [cmd]
    for the new primary controller. *)
Definition learn (cmd f bMode : Z) (cb : bool) : M unit := start ;; completed 3 cb ;; push bMode ;; push_completed ;; register f cb ;; send cmd.
Definition ZW_ControllerChange (bMode : Z) (cb : bool) : M unit := learn FUNC_ID_ZW_CONTROLLER_CHANGE FUNC_ID_ZW_CONTROLLER_CHANGE bMode cb.
Definition ZW_CreateNewPrimaryCtrl (bMode : Z) (cb : bool) : M unit := learn FUNC_ID_ZW_NEW_CONTROLLER FUNC_ID_ZW_CREATE_NEW_PRIMARY bMode cb.
Definition ZW_AddNodeToNetwork (bMode : Z) (cb : bool) : M unit := learn FUNC_ID_ZW_ADD_NODE_TO_NETWORK FUNC_ID_ZW_ADD_NODE_TO_NETWORK bMode cb.
Definition ZW_RemoveNodeFromNetwork (bMode : Z) (cb : bool) : M unit :=
  learn FUNC_ID_ZW_REMOVE_NODE_FROM_NETWORK FUNC_ID_ZW_REMOVE_NODE_FROM_NETWORK bMode cb.
Definition ZW_SetLearnMode (mode : Z) (cb : bool) : M unit := learn FUNC_ID_ZW_SET_LEARN_MODE FUNC_ID_ZW_SET_LEARN_MODE mode cb.
Definition ZW_AddNodeToNetworkSmartStart (bMode : Z) (dsk : list Z) (cb : bool) : M unit :=
  start ;; completed 3 cb ;; push bMode ;; push_completed ;; pushes (take 8 dsk) ;; register FUNC_ID_ZW_ADD_NODE_TO_NETWORK cb ;;
  send FUNC_ID_ZW_ADD_NODE_TO_NETWORK.

(** Nodes and a callback; the response says whether the command was started. *)
Definition node_command (cmd : Z) (nodes params : list Z) (clear : bool) (cb : bool) : M Z :=
  start ;; completed 3 cb ;;
  (fix go l := match l with [] => mret tt | n :: l => set_node_id_in_buffer n ;; go l end) nodes ;;
  pushes params ;; push_completed ;; register cmd cb ;; (if clear then call cmd else call_again cmd) ;; answer 0.
Definition ZW_RemoveFailedNode (NodeID : Z) (cb : bool) : M Z := node_command FUNC_ID_ZW_REMOVE_FAILED_NODE_ID [NodeID] [] true cb.
Definition ZW_ReplaceFailedNode (NodeID : Z) (cb : bool) : M Z := node_command FUNC_ID_ZW_REPLACE_FAILED_NODE [NodeID] [] true cb.
Definition ZW_AssignReturnRoute (bSrcNodeID bDstNodeID : Z) (cb : bool) : M Z :=
  node_command FUNC_ID_ZW_ASSIGN_RETURN_ROUTE [bSrcNodeID; bDstNodeID] [] true cb.
Definition ZW_SetSUCNodeID (nodeID SUCState bTxOption bCapabilities : Z) (cb : bool) : M Z :=
  node_command FUNC_ID_ZW_SET_SUC_NODE_ID [nodeID] [SUCState; bTxOption; bCapabilities] true cb.
Definition ZW_RequestNetWorkUpdate (cb : bool) : M Z := node_command FUNC_ID_ZW_REQUEST_NETWORK_UPDATE [] [] true cb.

(** A local [byCompletedFunc] hides the static one. *)
Definition route_command (cmd nodeID : Z) (cb : bool) : M Z :=
  start ;; set_node_id_in_buffer nodeID ;; push (if cb then 3 else 0) ;; register cmd cb ;; call_again cmd ;; answer 0.
Definition ZW_DeleteReturnRoute (nodeID : Z) (cb : bool) : M Z := route_command FUNC_ID_ZW_DELETE_RETURN_ROUTE nodeID cb.
Definition ZW_AssignSUCReturnRoute (bSrcNodeID : Z) (cb : bool) : M Z := route_command FUNC_ID_ZW_ASSIGN_SUC_RETURN_ROUTE bSrcNodeID cb.
Definition ZW_DeleteSUCReturnRoute (nodeID : Z) (cb : bool) : M Z := route_command FUNC_ID_ZW_DELETE_SUC_RETURN_ROUTE nodeID cb.

Definition ZW_GetSUCNodeID : M Z :=
  start ;; call_empty FUNC_ID_ZW_GET_SUC_NODE_ID ;; s ← get;
  if lr_enabled s then h ← answer 0; l ← answer 1; mret (Z.lor (Z.shiftl h 8) l) else answer 0.
Definition ZW_SetSlaveLearnMode (node mode : Z) (cb : bool) : M Z :=
  start ;; completed 3 cb ;; pushes [node; mode] ;; push_completed ;; register FUNC_ID_ZW_SET_SLAVE_LEARN_MODE cb ;;
  r ← call_again FUNC_ID_ZW_SET_SLAVE_LEARN_MODE; if bool_decide (r = conFrameReceived) then answer 0 else mret 0.
(** The first byte of the parameters is left as it was. *)
Definition ZW_EnableSUC (state capabilities : Z) : M Z :=
  start ;; modify (set_idx 1) ;; pushes [state; capabilities] ;; call FUNC_ID_ZW_ENABLE_SUC ;; answer 0.
Definition ZW_RequestNodeInfo (nodeID : Z) : M Z := start ;; set_node_id_in_buffer nodeID ;; call FUNC_ID_ZW_REQUEST_NODE_INFO ;; answer 0.
Definition ZW_ExploreRequestInclusion : M Z := start ;; call FUNC_ID_ZW_EXPLORE_REQUEST_INCLUSION ;; answer 0.
Definition ZW_ExploreRequestExclusion : M Z := start ;; call FUNC_ID_ZW_EXPLORE_REQUEST_EXCLUSION ;; answer 0.
Definition ZW_GetBasic : M (list Z) := start ;; call_empty BASIC_GET ;; answers 3 29.
Definition ZW_isFailedNode (nodeID : Z) : M Z := start ;; set_node_id_in_buffer nodeID ;; call FUNC_ID_ZW_IS_FAILED_NODE_ID ;; answer 0.
Definition ZW_SetRoutingMAX (maxRouteTries : Z) : M unit := start ;; push maxRouteTries ;; call FUNC_ID_ZW_SET_ROUTING_MAX ;; mret tt.
Definition ZW_GetPriorityRoute (bNodeID : Z) : M (Z * list Z) :=
  start ;; push bNodeID ;; call FUNC_ID_ZW_GET_LAST_WORKING_ROUTE ;; x ← answers 2 5; r ← answer 1; mret (r, x).
Definition ZW_SetPriorityRoute (bNodeID : Z) (route : list Z) : M Z :=
  start ;; push bNodeID ;; pushes (take 5 route) ;; call_again FUNC_ID_ZW_SET_LAST_WORKING_ROUTE ;; answer 0.
Definition ZW_AutoProgrammingEnable : M unit := modify (fun s => set_con (ConHandle.put [0x01; 0x03; 0x00; 0x27; 0xdb] (con s)) s).
(** The response goes to ten bytes on the stack, which, and their number, are not set when none comes. *)
Definition ZW_GetBackgroundRSSI : M (list Z) :=
  r ← exchange FUNC_ID_ZW_GET_BACKGROUND_RSSI [];
  match r with
  | Some x =>
    if Nat.ltb 10 (length x) then fail OutOfBounds else
    rds x (Z.to_nat IDX_DATA) (Z.to_nat (Z.min (u8 (Z.of_nat (length x) - IDX_DATA)) 4))
  | None => fail OutOfBounds
  end.
Definition ZW_NVRGetValue (offset bLength : Z) : M (list Z) :=
  s ← get; b ← wrs (buffer s) 0 [offset; bLength]; modify (set_buffer b) ;;
  r ← exchange FUNC_ID_NVR_GET_VALUE [offset; bLength];
  match r with Some x => s ← get; b ← wrs (buffer s) 0 x; modify (set_buffer b) | None => mret tt end ;;
  answers 0 (Z.to_nat bLength).

(** Chunks of the bitmask of long range nodes; [len] grows with each chunk, and that many bytes are copied.  The
    offset of a chunk is a byte of its request.  A module that announces more and more chunks without a byte keeps the
    loop running; the model gives up after 32. *)
Definition lr_copy (chunk : Z) (len : nat) (nodelist : list Z) : M (bool * list Z) :=
  let room := Z.to_nat ((ZW_LR_MAX_NODE_ID - ZW_LR_MIN_NODE_ID) / 8 + 1 - chunk * 128) in
  x ← answers 3 (Nat.min len room);
  l ← (match x with [] => mret nodelist | _ => wrs nodelist (Z.to_nat (chunk * 128)) x end);
  mret (Nat.leb len room, l).
Fixpoint lr_loop (fuel : nat) (chunk : Z) (len : Z) (nodelist : list Z) : M (Z * list Z) :=
  match fuel with
  | O => fail OutOfFuel
  | S fuel =>
    s ← get; b ← wr (buffer s) 0 (u8 chunk); modify (set_buffer b) ;;
    SendFrameWithResponse FUNC_ID_SERIAL_API_GET_LR_NODES [u8 chunk] true ;;
    s ← get; cmd ← rd (buffer s) IDX_CMD;
    assert (cmd =? FUNC_ID_SERIAL_API_GET_LR_NODES) ;;
    more_nodes ← answer 0; n ← answer 2;
    let len := u16 (len + n) in
    '(fits, l) ← lr_copy chunk (Z.to_nat len) nodelist;
    if negb fits || (more_nodes =? 0) then mret (len, l) else lr_loop fuel (chunk + 1) len l
  end.
Definition SerialAPI_GetLRNodeList (lr_nodelist : list Z) : M (Z * list Z) :=
  s ← get; if negb (lr_enabled s) then mret (0, lr_nodelist) else lr_loop 32 0 0 lr_nodelist.

(** ** Initialisation *)

(** What the module says of itself: 69 bytes, of which the bit mask of its commands, and that of the setup
    commands, are used. *)
Definition store_capabilities (x : list Z) : M unit :=
  if Nat.ltb 69 (length x) then fail OutOfBounds else
  modify (fun s => set_supported_bitmask (splice 0 (take 29 (drop 8 x)) (supported_bitmask s)) s) ;;
  if Nat.ltb 37 (length x) then modify (set_supported_setup (at_ x 37)) else mret tt.

(** The callbacks that initialisation does not clear. *)
Definition kept_callbacks : list Z := [FUNC_ID_ZW_SET_SLAVE_LEARN_MODE; FUNC_ID_ZW_REMOVE_FAILED_NODE_ID; FUNC_ID_ZW_REPLACE_FAILED_NODE].

(** [rc]: whether the port could be opened; [info]: what the application says of the node, if it has a function
    that does. *)
Definition SerialAPI_Init (rc : bool) (info : option (Z * Z * Z * list Z * Z)) : M bool :=
  modify (fun s => set_con (ConHandle.ConInit rc (con s)) s) ;;
  if negb rc then mret false else
  modify (fun s => set_registered (List.filter (fun f => bool_decide (f ∈ kept_callbacks)) (registered s)) s) ;;
  r ← call_empty FUNC_ID_SERIAL_API_GET_CAPABILITIES;
  if bool_decide (r = conIdle) then mret false else
  s ← get; x ← answers 0 (Z.to_nat (byLen s - IDX_DATA)); store_capabilities x ;;
  modify (set_byLen 0) ;; start ;; push SERIAL_API_SETUP_CMD_SUPPORTED ;;
  s ← get;
  ok ← (if SupportsCommand FUNC_ID_SERIALAPI_SETUP s then
          r ← call FUNC_ID_SERIALAPI_SETUP;
          if bool_decide (r = conIdle) then mret false else a ← answer 1; modify (set_supported_setup a) ;; mret true
        else mret true);
  if negb (ok : bool) then mret false else
  ZW_Version ;; SerialAPI_GetInitData ;;
  match info with
  | Some (listening, generic, specific, nodeParm, parmLength) => SerialAPI_ApplicationNodeInformation listening generic specific nodeParm parmLength
  | None => mret tt
  end ;;
  mret true.

Definition SerialAPI_GetChipTypeAndVersion (s : SA) : Z * Z := (chip_type s, chip_version s).
Definition SerialAPI_Destroy : M unit := modify (set_chip_type 0).

End SerialCommands.
