(* ===== verification/SerialApiSpec.v ===== *)
(** * What the serial API does (src/serialapi/Serialapi.c)

    A command reaches the module and its response comes back although the module refuses it, does not answer or
    sends requests of its own meanwhile; those are queued in order.  What the commands do when no response comes. *)
From S2P Require Import Prelude Effects ConHandle SerialApi SerialCommands.
Import Effects SerialApi SerialCommands.
Import ConHandle(Con, T_CON_TYPE(..), serBuf, serBufLen, con_state, bChecksum_RX, rxActive, AckNakNeeded, input, SERBUF_MAX, SOF, ACK, NAK, CAN,
  stateSOFHunt, ConTxFrame, ConUpdate, with_input, checksum, frame_bytes, answered, frame_run, checksum_closed, tx_run, rx_loop_step).

Module SerialApiSpec.

(** ** One look at the line *)

(** The driver waits for a frame and has read everything. *)
Record calm (c : Con) : Prop := {
  cl_state : con_state c = stateSOFHunt;
  cl_active : rxActive c = false;
  cl_buf : length (serBuf c) = SERBUF_MAX;
  cl_input : input c = []
}.

(** A frame of the module, and what is kept of it. *)
Record frm := mkFrm { ftype : Z; fcmd : Z; fdata : list Z }.
Definition bytes (f : frm) : list Z := frame_bytes (fcmd f) (ftype f) (fdata f).
Definition content (f : frm) : list Z := [Z.of_nat (length (fdata f)) + 3; ftype f; fcmd f] ++ fdata f.
Definition short (f : frm) : Prop := (length (fdata f) <= 250)%nat.

(** What a look at the line finds. *)
Inductive says := Quiet | Frame (f : frm) | Ack | Refused (can : bool) | NoAck | GiveUp.
Definition poll_of (x : says) : poll :=
  match x with
  | Quiet => mkPoll [] false false false
  | Frame f => mkPoll (bytes f) false false false
  | Ack => mkPoll [ACK] false false false
  | Refused can => mkPoll [if can then CAN else NAK] false false false
  | NoAck => mkPoll [] false true false
  | GiveUp => mkPoll [] false false true
  end.

(** The driver after a frame; and after an answer to its own. *)
Definition got (f : frm) (c : Con) : Con :=
  answered (Z.of_nat (length (fdata f)) + 3) (ftype f :: fcmd f :: fdata f ++ [checksum (content f)]) [] ACK c.
Definition settled (c : Con) : Con :=
  ConHandle.mkCon (serBuf c) (serBufLen c) (con_state c) (bChecksum_RX c) (rxActive c) false (input c) (ConHandle.output c).

Lemma input_same c l : input c = l -> with_input l c = c.
Proof. intros <-. by destruct c. Qed.

Lemma calm_got f c : calm c -> short f -> calm (got f c).
Proof.
  intros [H1 H2 H3 H4] Hs. split; try done. cbn [got answered serBuf]. rewrite length_splice; [done|]. cbn [length]. rewrite length_app. cbn.
  unfold short in Hs. rewrite H3. unfold SERBUF_MAX. lia.
Qed.

Lemma got_run f c rxe acke : calm c -> short f -> ConUpdate true rxe acke (with_input (bytes f) c) = ConHandle.Done (got f c, conFrameReceived).
Proof.
  intros [H1 H2 H3 H4] Hs. unfold short in Hs. set (n := Z.of_nat (length (fdata f)) + 3). set (body := ftype f :: fcmd f :: fdata f ++ [checksum (content f)]).
  rewrite (frame_run rxe acke n body [] (with_input (bytes f) c)); try done.
  - assert (E : checksum (n :: body) = 0) by exact (checksum_closed (content f)). by rewrite E.
  - lia.
  - unfold body, n. cbn [length]. rewrite length_app. cbn. lia.
  - cbn [input with_input]. rewrite app_nil_r. reflexivity.
Qed.

Lemma got_content f c : calm c -> short f -> take (Z.to_nat (serBufLen (got f c))) (serBuf (got f c)) = content f.
Proof.
  intros [_ _ H3 _] Hs. cbn [got answered serBuf serBufLen]. set (n := Z.of_nat (length (fdata f)) + 3).
  replace (Z.to_nat n) with (length (content f)) by (unfold n, content; cbn [app length]; lia).
  change (n :: ftype f :: fcmd f :: fdata f ++ [checksum (content f)]) with (content f ++ [checksum (content f)]).
  rewrite ConHandle.take_splice_prefix by (rewrite length_app; lia). by rewrite take_app_length.
Qed.

(** The three bytes at the start of the buffer. *)
Lemma got_head f c : calm c -> short f -> at_ (serBuf (got f c)) 0 = Z.of_nat (length (fdata f)) + 3 /\ at_ (serBuf (got f c)) 1 = ftype f /\ at_ (serBuf (got f c)) 2 = fcmd f.
Proof. intros _ _. done. Qed.

(** What a look returns, and the driver after it. *)
Definition seen (x : says) (c : Con) : T_CON_TYPE * bool * Con :=
  match x with
  | Quiet => (conIdle, false, c)
  | Frame f => (conFrameReceived, false, got f c)
  | Ack => (conFrameSent, false, settled c)
  | Refused can => (if can then conTxWait else conTxErr, false, settled c)
  | NoAck => (conTxTimeout, false, settled c)
  | GiveUp => (conIdle, true, c)
  end.

(** An answer is only looked for while one is awaited. *)
Definition can_see (x : says) (c : Con) : Prop :=
  match x with Quiet | GiveUp => True | Frame f => short f | _ => AckNakNeeded c = true end.

Lemma quiet_run c acke : calm c -> (AckNakNeeded c && acke = false) -> ConUpdate true false acke (with_input [] c) = ConHandle.Done (c, conIdle).
Proof.
  intros H Ha. rewrite input_same by apply H. unfold ConUpdate. rewrite (cl_input _ H). cbn [length ConHandle.rx_loop]. unfold ConHandle.check_timers.
  rewrite (cl_active _ H). cbn [andb]. by rewrite Ha.
Qed.

Lemma noack_run c : calm c -> AckNakNeeded c = true -> ConUpdate true false true (with_input [] c) = ConHandle.Done (settled c, conTxTimeout).
Proof.
  intros H Ha. rewrite input_same by apply H. unfold ConUpdate. rewrite (cl_input _ H). cbn [length ConHandle.rx_loop]. unfold ConHandle.check_timers.
  rewrite (cl_active _ H). cbn [andb]. by rewrite Ha.
Qed.

Lemma byte_run b c : calm c -> AckNakNeeded c = true -> b = ACK \/ b = NAK \/ b = CAN ->
  ConUpdate true false false (with_input [b] c) = ConHandle.Done (settled c, if b =? ACK then conFrameSent else if b =? NAK then conTxErr else conTxWait).
Proof.
  intros H Ha Hb. unfold ConUpdate. cbn [input with_input length]. rewrite (rx_loop_step 0 true (with_input [b] c) b [] eq_refl).
  unfold ConHandle.rx_byte. cbn [with_input con_state]. rewrite (cl_state _ H). unfold ConHandle.sof_hunt. cbn [with_input AckNakNeeded]. rewrite Ha.
  unfold settled. rewrite (cl_input _ H). destruct Hb as [->|[->| ->]]; reflexivity.
Qed.

Lemma update_run x ps c : calm c -> can_see x c -> update_with (poll_of x) ps c = Ok (seen x c, ps).
Proof.
  intros H Hx. destruct ps as [|q ps]; unfold update_with; fold update_with; rewrite (cl_input _ H); cbn [app].
  all: destruct x as [|f| |can| |]; cbn [poll_of arrived rx_expired ack_expired wait_expired].
  all: try (rewrite quiet_run by (by rewrite ?andb_false_r); reflexivity).
  all: try (rewrite got_run by done; reflexivity).
  all: try (rewrite byte_run by (auto; by destruct can; auto); by try destruct can).
  all: by rewrite noack_run.
Qed.

Lemma update_ok x ps s (Q : T_CON_TYPE * bool -> SA -> Prop) : calm (con s) -> can_see x (con s) -> polls s = poll_of x :: ps ->
  Q (seen x (con s)).1 (set_con (seen x (con s)).2 (set_polls ps s)) -> wp update Q s.
Proof. intros H Hx E HQ. unfold wp, update. rewrite E, update_run by done. by destruct (seen x (con s)) as [[r w] c]. Qed.

Lemma calm_seen x c : calm c -> can_see x c -> calm (seen x c).2.
Proof.
  intros H Hx. destruct x; cbn; try done; [by apply calm_got|..]; destruct H as [H1 H2 H3 H4]; by split.
Qed.

(** ** Waiting and draining *)

(** Requests are queued while there is room. *)
Definition enqueue (q : list (list Z)) (f : frm) : list (list Z) :=
  if (ftype f =? REQUEST) && Nat.ltb (length q) MAX_RXQUEUE_LEN then q ++ [content f] else q.

(** From [s] to [s'] the frames came and the bytes were written; what is still to come, and whether an
    acknowledgement is awaited.  Nothing else changes but the notes on new starts of the port. *)
Record moved (fs : list frm) (out : list Z) (ack : bool) (ps : list poll) (rs : list nat) (s s' : SA) : Prop := {
  mv_calm : calm (con s');
  mv_queue : rxQueue s' = foldl enqueue (rxQueue s) fs;
  mv_out : ConHandle.output (con s') = ConHandle.output (con s) ++ out;
  mv_ack : AckNakNeeded (con s') = ack;
  mv_polls : polls s' = ps;
  mv_rounds : rounds s' = rs;
  mv_outs : exists k, outs s' = outs s ++ replicate k Reopened;
  mv_same : exists c q p r o, s' = set_outs o (set_rounds r (set_polls p (set_rxQueue q (set_con c s))))
}.

Lemma moved_trans fs1 o1 a1 p1 r1 fs2 o2 a2 p2 r2 s s1 s2 :
  moved fs1 o1 a1 p1 r1 s s1 -> moved fs2 o2 a2 p2 r2 s1 s2 -> moved (fs1 ++ fs2) (o1 ++ o2) a2 p2 r2 s s2.
Proof.
  intros [A1 A2 A3 A4 A5 A6 [k1 A7] (c1 & q1 & t1 & u1 & w1 & A8)] [B1 B2 B3 B4 B5 B6 [k2 B7] (c2 & q2 & t2 & u2 & w2 & B8)]. split; try done.
  - by rewrite B2, A2, foldl_app.
  - by rewrite B3, A3, app_assoc.
  - exists (k1 + k2)%nat. rewrite B7, A7, <- app_assoc. f_equal. by rewrite replicate_add.
  - exists c2, q2, t2, u2, w2. rewrite B8, A8. reflexivity.
Qed.

Lemma moved_refl s : calm (con s) -> moved [] [] (AckNakNeeded (con s)) (polls s) (rounds s) s s.
Proof.
  intros H. split; try done; [by rewrite app_nil_r|exists 0%nat; by rewrite app_nil_r|]. exists (con s), (rxQueue s), (polls s), (rounds s), (outs s). by destruct s.
Qed.

(** A look that brings no frame. *)
Definition looked (x : says) (ps : list poll) (s : SA) : SA := set_con (seen x (con s)).2 (set_polls ps s).

Definition ack_after (x : says) (a : bool) : bool := match x with Ack | Refused _ | NoAck => false | _ => a end.
Definition written (x : says) : list Z := match x with Frame _ => [ACK] | _ => [] end.

Lemma moved_looked x ps s : calm (con s) -> can_see x (con s) -> match x with Frame _ => False | _ => True end ->
  moved [] [] (ack_after x (AckNakNeeded (con s))) ps (rounds s) s (looked x ps s).
Proof.
  intros H Hx Hf. split; try done; [by apply calm_seen| | |exists 0%nat; by rewrite app_nil_r|].
  - rewrite app_nil_r. by destruct x.
  - by destruct x.
  - exists (seen x (con s)).2, (rxQueue s), ps, (rounds s), (outs s). by destruct s.
Qed.

(** What [WaitResponse] returns for what it sees. *)
Definition result (x : says) : T_CON_TYPE :=
  match x with Quiet => conIdle | Frame _ => conFrameReceived | Ack => conFrameSent | Refused can => if can then conTxWait else conTxErr | NoAck => conTxTimeout | GiveUp => conRxTimeout end.

(** Some looks in vain, and then something. *)
Definition waiting (n : nat) (x : says) : list poll := replicate n (poll_of Quiet) ++ [poll_of x].

Lemma wait_loop_ok n x ps fuel s (Q : T_CON_TYPE -> SA -> Prop) : calm (con s) -> can_see x (con s) -> x <> Quiet -> polls s = waiting n x ++ ps -> (n < fuel)%nat ->
  Q (result x) (looked x ps s) -> wp (wait_loop fuel) Q s.
Proof.
  revert fuel s. induction n as [|n IH]; intros [|fuel] s H Hx Hq E Hf HQ; try lia; cbn [wait_loop]; apply wp_bind.
  - apply (update_ok x ps); [done|done|exact E|]. fold (looked x ps s). destruct x as [| | |[]| |]; done.
  - apply (update_ok Quiet (waiting n x ++ ps)); [done|done|exact E|]. cbn [seen fst snd].
    apply (IH fuel (set_con (con s) (set_polls (waiting n x ++ ps) s))); [done|done|done|done|lia|]. unfold looked in *. by destruct s.
Qed.

Lemma wait_ok n x ps s (Q : T_CON_TYPE -> SA -> Prop) : calm (con s) -> can_see x (con s) -> x <> Quiet -> polls s = waiting n x ++ ps ->
  Q (result x) (looked x ps s) -> wp WaitResponse Q s.
Proof.
  intros H Hx Hq E HQ. apply step_get. apply (wait_loop_ok n x ps); try done. rewrite E. unfold waiting. rewrite !length_app, length_replicate. lia.
Qed.

(** A frame is queued. *)
Definition received (f : frm) (ps : list poll) (s : SA) : SA := set_rxQueue (enqueue (rxQueue s) f) (looked (Frame f) ps s).

Lemma moved_received f ps s : calm (con s) -> short f -> moved [f] [ACK] (AckNakNeeded (con s)) ps (rounds s) s (received f ps s).
Proof.
  intros H Hs. split; try done; [by apply (calm_seen (Frame f))|exists 0%nat; by rewrite app_nil_r|].
  exists (got f (con s)), (enqueue (rxQueue s) f), ps, (rounds s), (outs s). by destruct s.
Qed.

Lemma queue_ok f ps s (Q : unit -> SA -> Prop) : calm (con s) -> short f -> Q tt (received f ps s) -> wp queue_request Q (looked (Frame f) ps s).
Proof.
  intros H Hs HQ. apply step_get. destruct (got_head f (con s) H Hs) as (_ & E & _). unfold frame_type. cbn [looked con set_con seen snd]. rewrite E.
  unfold received, enqueue in HQ. destruct (ftype f =? REQUEST) eqn:Et; cbn [andb] in HQ.
  - unfold QueueFrame. apply step_get. unfold rxQueue_Len. cbn [looked rxQueue set_con set_polls]. rewrite Nat.leb_antisym. destruct (Nat.ltb _ _); cbn [negb].
    + apply end_modify. unfold frame. cbn [looked con set_con seen snd]. by rewrite got_content.
    + apply end_ret. unfold looked in *. by destruct s.
  - apply end_ret. unfold looked in *. by destruct s.
Qed.

Definition draining (fs : list frm) : list poll := map (fun f => poll_of (Frame f)) fs ++ [poll_of Quiet].

Lemma drain_loop_ok fs ps fuel s : calm (con s) -> Forall short fs -> polls s = draining fs ++ ps -> (length fs < fuel)%nat ->
  wp (drain_loop fuel) (fun _ s' => moved fs (replicate (length fs) ACK) (AckNakNeeded (con s)) ps (rounds s) s s') s.
Proof.
  revert fuel s. induction fs as [|f fs IH]; intros [|fuel] s H Hs E Hf; try (cbn in Hf; lia); cbn [drain_loop]; apply wp_bind.
  - apply (update_ok Quiet ps); [done|done|exact E|]. apply end_ret. exact (moved_looked Quiet ps s H I I).
  - apply list.Forall_cons in Hs as [Hf1 Hs]. apply (update_ok (Frame f) (draining fs ++ ps)); [done|done|exact E|]. cbn [seen fst snd].
    rewrite bool_decide_eq_true_2 by done. apply wp_bind. fold (looked (Frame f) (draining fs ++ ps) s). apply queue_ok; [done|done|].
    pose proof (moved_received f (draining fs ++ ps) s H Hf1) as M. eapply wp_mono; [apply (IH fuel _ (mv_calm _ _ _ _ _ _ _ M) Hs eq_refl); cbn in Hf; lia|].
    intros [] s' M2. rewrite (mv_ack _ _ _ _ _ _ _ M), (mv_rounds _ _ _ _ _ _ _ M) in M2. exact (moved_trans _ _ _ _ _ _ _ _ _ _ _ _ _ M M2).
Qed.

Lemma frames_avail fs l s : polls s = map (fun f => poll_of (Frame f)) fs ++ l -> (length fs <= avail s)%nat.
Proof.
  intros E. unfold avail. rewrite E, map_app, concat_app, length_app. assert (H : (length fs <= length (concat (map arrived (map (fun f => poll_of (Frame f)) fs))))%nat); [|lia].
  clear. induction fs as [|f fs IH]; [done|]. cbn [map concat length]. change (arrived (poll_of (Frame f))) with (bytes f). rewrite length_app.
  assert (1 <= length (bytes f))%nat by (unfold bytes, frame_bytes; cbn [length]; lia). lia.
Qed.

Lemma drain_ok fs ps s : calm (con s) -> Forall short fs -> polls s = draining fs ++ ps ->
  wp DrainRX (fun _ s' => moved fs (replicate (length fs) ACK) (AckNakNeeded (con s)) ps (rounds s) s s') s.
Proof.
  intros H Hs E. apply step_get. apply drain_loop_ok; try done. pose proof (frames_avail fs ([poll_of Quiet] ++ ps) s) as F. rewrite E in F. unfold draining in F.
  rewrite <- app_assoc in F. specialize (F eq_refl). lia.
Qed.

(** ** Sending until it is acknowledged *)

Definition acks (fs : list frm) : list Z := replicate (length fs) ACK.

Lemma acks_app a b : acks (a ++ b) = acks a ++ acks b.
Proof. unfold acks. by rewrite length_app, replicate_add. Qed.

Lemma tx_ok cmd param s : calm (con s) -> (length param <= 250)%nat ->
  wp (tx_frame cmd param) (fun _ s' => moved [] (frame_bytes cmd REQUEST param) true (polls s) (rounds s) s s') s.
Proof.
  intros H Hl. unfold wp, tx_frame. destruct (tx_run cmd REQUEST param (con s) Hl) as (c & E & Ho & Ha & Hs & Hb & Hi). rewrite E.
  split; try done; [|exists 0%nat; by rewrite app_nil_r|exists c, (rxQueue s), (polls s), (rounds s), (outs s); by destruct s].
  split; cbn [con set_con]; [by rewrite Hs, (cl_state _ H)| |by rewrite Hb, (cl_buf _ H)|by rewrite Hi, (cl_input _ H)].
  unfold ConTxFrame in E. destruct (255 <? _); [done|]. injection E as <-. apply H.
Qed.

Lemma pauses_ok fss ps s : calm (con s) -> Forall (Forall short) fss -> polls s = concat (map draining fss) ++ ps ->
  wp (repeat_drain (length fss)) (fun _ s' => moved (concat fss) (acks (concat fss)) (AckNakNeeded (con s)) ps (rounds s) s s') s.
Proof.
  revert s. induction fss as [|fs fss IH]; intros s H Hs E; cbn [repeat_drain length].
  - apply end_ret. cbn in E. rewrite <- E. by apply moved_refl.
  - apply list.Forall_cons in Hs as [H1 Hs]. apply wp_bind. eapply wp_mono; [apply (drain_ok fs (concat (map draining fss) ++ ps)); [done|done|]|].
    + rewrite E. cbn [map concat]. by rewrite <- app_assoc.
    + intros [] s1 M. eapply wp_mono; [apply (IH s1 (mv_calm _ _ _ _ _ _ _ M) Hs (mv_polls _ _ _ _ _ _ _ M))|]. intros [] s2 M2.
      rewrite (mv_ack _ _ _ _ _ _ _ M), (mv_rounds _ _ _ _ _ _ _ M) in M2. cbn [concat]. rewrite acks_app. exact (moved_trans _ _ _ _ _ _ _ _ _ _ _ _ _ M M2).
Qed.

Lemma pause_ok fss ps rs s : calm (con s) -> Forall (Forall short) fss -> polls s = concat (map draining fss) ++ ps -> rounds s = length fss :: rs ->
  wp pause (fun _ s' => moved (concat fss) (acks (concat fss)) (AckNakNeeded (con s)) ps rs s s') s.
Proof.
  intros H Hs E Er. apply step_get. rewrite Er. apply step_modify. eapply wp_mono; [apply (pauses_ok fss ps (set_rounds rs s)); done|].
  intros [] s' [A1 A2 A3 A4 A5 A6 A7 (c & q & p & r & o & A8)]. split; try done. exists c, q, p, r, o. exact A8.
Qed.

(** Frames that come while an acknowledgement is waited for, each after some looks in vain. *)
Definition coming (l : list (nat * frm)) : list poll := concat (map (fun x => waiting x.1 (Frame x.2)) l).

Lemma coming_ok cmd param l : forall fuel i ret s ps (Q : T_CON_TYPE -> SA -> Prop), calm (con s) -> Forall short (map snd l) -> polls s = coming l ++ ps -> 0 <= i < 20 ->
  (forall s' i' ret', moved (map snd l) (acks (map snd l)) (AckNakNeeded (con s)) ps (rounds s) s s' -> (i <= i' <= Z.max i 1) -> wp (send_loop fuel i' ret' cmd param) Q s') ->
  wp (send_loop (length l + fuel) i ret cmd param) Q s.
Proof.
  induction l as [|[n f] l IH]; intros fuel i ret s ps Q H Hs E Hi HQ; cbn [length Nat.add].
  - apply HQ; [|lia]. cbn in E. rewrite <- E. by apply moved_refl.
  - cbn [map snd] in *. apply list.Forall_cons in Hs as [H1 Hs]. cbn [send_loop]. rewrite (proj2 (Z.leb_gt _ _)) by lia. apply wp_bind.
    apply (wait_ok n (Frame f) (coming l ++ ps)); [done|done|done| |].
    { rewrite E. unfold coming. cbn [map concat fst snd]. by rewrite <- app_assoc. }
    cbn [result]. apply wp_bind, queue_ok; [done|done|]. pose proof (moved_received f (coming l ++ ps) s H H1) as M.
    apply (IH fuel _ _ _ ps); [apply M|done|done|destruct (Z.eqb_spec i 0); lia|].
    intros s' i' ret' M2 Hi'. apply HQ.
    + rewrite (mv_ack _ _ _ _ _ _ _ M), (mv_rounds _ _ _ _ _ _ _ M) in M2. exact (moved_trans _ _ _ _ _ _ _ _ _ _ _ _ _ M M2).
    + destruct (Z.eqb_spec i 0); lia.
Qed.

(** An attempt that fails: the frames that come, the failure, and the frames that come in the pause after it. *)
Record attempt := mkAttempt { came : list (nat * frm); looks : nat; failure : says; drains : list (list frm) }.

Record attempt_ok (a : attempt) : Prop := {
  ao_came : Forall short (map snd (came a));
  ao_drains : Forall (Forall short) (drains a);
  ao_failure : match failure a with Refused _ | NoAck | GiveUp => True | _ => False end
}.

Definition attempt_polls (a : attempt) : list poll := coming (came a) ++ waiting (looks a) (failure a) ++ concat (map draining (drains a)).
Definition attempt_frames (a : attempt) : list frm := map snd (came a) ++ concat (drains a).

Section Sending.
Context (cmd : Z) (param : list Z) (Hparam : (length param <= 250)%nat).
Definition request : list Z := frame_bytes cmd REQUEST param.

Lemma reopen_ok (b : bool) s : calm (con s) ->
  wp (if b then emit Reopened else mret tt) (fun _ s' => moved [] [] (AckNakNeeded (con s)) (polls s) (rounds s) s s') s.
Proof.
  intros H. destruct b; [|apply end_ret; by apply moved_refl]. apply end_modify. split; try done; [by rewrite app_nil_r|by exists 1%nat|].
  exists (con s), (rxQueue s), (polls s), (rounds s), (outs s ++ [Reopened]). by destruct s.
Qed.

(** The frame is sent again. *)
Lemma retry_ok (b : bool) fss ps rs s : calm (con s) -> Forall (Forall short) fss -> polls s = concat (map draining fss) ++ ps -> rounds s = length fss :: rs ->
  wp ((if b then emit Reopened else mret tt) ;; pause ;; tx_frame cmd param) (fun _ s' => moved (concat fss) (acks (concat fss) ++ request) true ps rs s s') s.
Proof.
  intros H Hs E Er. apply wp_bind. eapply wp_mono; [by apply reopen_ok|]. intros [] s1 M1. apply wp_bind.
  eapply wp_mono; [apply (pause_ok fss ps rs s1 (mv_calm _ _ _ _ _ _ _ M1) Hs); [by rewrite (mv_polls _ _ _ _ _ _ _ M1)|by rewrite (mv_rounds _ _ _ _ _ _ _ M1)]|].
  intros [] s2 M2. eapply wp_mono; [apply (tx_ok cmd param s2 (mv_calm _ _ _ _ _ _ _ M2) Hparam)|]. intros [] s3 M3.
  rewrite (mv_polls _ _ _ _ _ _ _ M2), (mv_rounds _ _ _ _ _ _ _ M2) in M3.
  pose proof (moved_trans _ _ _ _ _ _ _ _ _ _ _ _ _ M1 (moved_trans _ _ _ _ _ _ _ _ _ _ _ _ _ M2 M3)) as M. cbn [app] in M. by rewrite app_nil_r in M.
Qed.

(** The step of the loop at a failure. *)
Lemma send_loop_failure fuel i ret n x ps s (Q : T_CON_TYPE -> SA -> Prop) : calm (con s) -> AckNakNeeded (con s) = true -> match x with Refused _ | NoAck | GiveUp => True | _ => False end ->
  polls s = waiting n x ++ ps -> i < 20 ->
  wp ((if Z.land i 7 =? 7 then emit Reopened else mret tt) ;; pause ;; tx_frame cmd param)
    (fun _ s' => forall ret', wp (send_loop fuel (i + 1) ret' cmd param) Q s') (looked x ps s) ->
  wp (send_loop (S fuel) i ret cmd param) Q s.
Proof.
  intros H Ha Hx E Hi W. cbn [send_loop]. rewrite (proj2 (Z.leb_gt _ _)) by lia. apply wp_bind.
  apply (wait_ok n x ps); [done|by destruct x|by destruct x|done|].
  unfold wp, mbind, Eff_bind in W |- *. destruct x as [| | |[]| |]; try done; cbn [result].
  all: destruct ((if Z.land i 7 =? 7 then emit Reopened else mret tt) _) as [[[] s1]|]; [|done]; destruct (pause s1) as [[[] s2]|]; [|done];
    destruct (tx_frame cmd param s2) as [[[] s3]|]; [|done]; apply W.
Qed.

Lemma attempt_step a fuel i ret s ps rs (Q : T_CON_TYPE -> SA -> Prop) : calm (con s) -> attempt_ok a -> AckNakNeeded (con s) = true ->
  polls s = attempt_polls a ++ ps -> rounds s = length (drains a) :: rs -> 0 <= i -> Z.max i 1 < 20 ->
  (forall s' i' ret', moved (attempt_frames a) (acks (attempt_frames a) ++ request) true ps rs s s' -> i < i' <= Z.max i 1 + 1 -> wp (send_loop fuel i' ret' cmd param) Q s') ->
  wp (send_loop (length (came a) + S fuel) i ret cmd param) Q s.
Proof.
  intros H [A1 A2 A3] Ha E Er Hi Hm HQ. unfold attempt_polls in E. rewrite <- !app_assoc in E. apply (coming_ok cmd param (came a) (S fuel) i ret s _ Q H A1 E); [lia|].
  intros s1 i1 ret1 M1 Hi1. rewrite Ha in M1. set (ps1 := concat (map draining (drains a)) ++ ps).
  apply (send_loop_failure fuel i1 ret1 (looks a) (failure a) ps1 s1); [apply M1|apply M1|done|apply M1|lia|].
  assert (Hc : can_see (failure a) (con s1)) by (destruct (failure a); try done; apply M1).
  pose proof (moved_looked (failure a) ps1 s1 (mv_calm _ _ _ _ _ _ _ M1) Hc ltac:(by destruct (failure a))) as M2.
  eapply wp_mono; [apply (retry_ok (Z.land i1 7 =? 7) (drains a) ps rs (looked (failure a) ps1 s1)); [apply M2|done|done|]|].
  - rewrite (mv_rounds _ _ _ _ _ _ _ M2), (mv_rounds _ _ _ _ _ _ _ M1). exact Er.
  - intros [] s3 M3 ret'. apply HQ; [|lia]. pose proof (moved_trans _ _ _ _ _ _ _ _ _ _ _ _ _ M1 (moved_trans _ _ _ _ _ _ _ _ _ _ _ _ _ M2 M3)) as M.
    unfold attempt_frames. by rewrite acks_app, <- app_assoc.
Qed.

(** The rounds of the loop for some failed attempts. *)
Definition cost (l : list attempt) : nat := list_sum (map (fun a => S (length (came a))) l).

Lemma attempts_ok l : forall fuel i ret s ps rs (Q : T_CON_TYPE -> SA -> Prop), calm (con s) -> Forall attempt_ok l -> AckNakNeeded (con s) = true ->
  polls s = concat (map attempt_polls l) ++ ps -> rounds s = map (fun a => length (drains a)) l ++ rs -> 0 <= i -> Z.max i 1 + Z.of_nat (length l) < 20 ->
  (forall s' i' ret', moved (concat (map attempt_frames l)) (concat (map (fun a => acks (attempt_frames a) ++ request) l)) true ps rs s s' -> 0 <= i' < 20 ->
    wp (send_loop fuel i' ret' cmd param) Q s') ->
  wp (send_loop (cost l + fuel) i ret cmd param) Q s.
Proof.
  induction l as [|a l IH]; intros fuel i ret s ps rs Q H Hl Ha E Er Hi Hm HQ.
  - apply HQ; [|cbn in Hm; lia]. cbn in E, Er. rewrite <- E, <- Er, <- Ha. by apply moved_refl.
  - apply list.Forall_cons in Hl as [A Hl]. change (cost (a :: l)) with (S (length (came a)) + cost l)%nat.
    replace (S (length (came a)) + cost l + fuel)%nat with (length (came a) + S (cost l + fuel))%nat by lia. cbn [map concat length] in *. rewrite <- app_assoc in E.
    apply (attempt_step a (cost l + fuel) i ret s _ _ Q H A Ha E Er Hi); [lia|]. intros s1 i1 ret1 M1 Hi1.
    apply (IH fuel i1 ret1 s1 ps rs Q (mv_calm _ _ _ _ _ _ _ M1) Hl (mv_ack _ _ _ _ _ _ _ M1) (mv_polls _ _ _ _ _ _ _ M1) (mv_rounds _ _ _ _ _ _ _ M1)); [lia|lia|].
    intros s2 i2 ret2 M2 Hi2. apply HQ; [|done]. exact (moved_trans _ _ _ _ _ _ _ _ _ _ _ _ _ M1 M2).
Qed.

End Sending.

(** ** A whole exchange *)

(** The looks that find bytes: there are at least as many bytes. *)
Definition busy (l : list poll) : nat := length (List.filter (fun p => match arrived p with [] => false | _ => true end) l).

Lemma busy_app a b : busy (a ++ b) = (busy a + busy b)%nat.
Proof. unfold busy. by rewrite List.filter_app, length_app. Qed.

Lemma busy_avail s : (busy (polls s) <= avail s)%nat.
Proof.
  unfold avail. apply Nat.le_trans with (length (concat (map arrived (polls s)))); [|lia]. induction (polls s) as [|p l IH]; [done|]. unfold busy in *. cbn [List.filter map concat].
  rewrite length_app. destruct (arrived p); cbn [length]; lia.
Qed.

Lemma busy_coming l : (length l <= busy (coming l))%nat.
Proof.
  induction l as [|[n f] l IH]; [done|]. change (coming ((n, f) :: l)) with (waiting n (Frame f) ++ coming l). rewrite busy_app. unfold waiting. rewrite busy_app.
  change (busy [poll_of (Frame f)]) with 1%nat. cbn [length]. lia.
Qed.

Lemma busy_attempts l : (cost l <= length l + busy (concat (map attempt_polls l)))%nat.
Proof.
  induction l as [|a l IH]; [done|]. change (cost (a :: l)) with (S (length (came a)) + cost l)%nat. cbn [map concat length]. rewrite busy_app. unfold attempt_polls at 1.
  rewrite busy_app. pose proof (busy_coming (came a)). lia.
Qed.

(** What happens from a command to its response: frames before it, failed attempts, frames and the acknowledgement of
    the last one, other frames, the response. *)
Record talk := mkTalk {
  before : list frm; attempts : list attempt; last_came : list (nat * frm); ack_looks : nat; others : list (nat * says); res_looks : nat; res_data : list Z
}.

Definition other_frames (l : list (nat * says)) : list frm := flat_map (fun x => match x.2 with Frame f => [f] | _ => [] end) l.
Definition sent_polls (t : talk) : list poll :=
  draining (before t) ++ concat (map attempt_polls (attempts t)) ++ coming (last_came t) ++ waiting (ack_looks t) Ack.
Definition response_of (cmd : Z) (t : talk) : frm := mkFrm RESPONSE cmd (res_data t).
Definition talk_polls (cmd : Z) (t : talk) : list poll :=
  sent_polls t ++ concat (map (fun x => waiting x.1 x.2) (others t)) ++ waiting (res_looks t) (Frame (response_of cmd t)).
Definition sent_frames (t : talk) : list frm := before t ++ concat (map attempt_frames (attempts t)) ++ map snd (last_came t).
Definition talk_rounds (t : talk) : list nat := map (fun a => length (drains a)) (attempts t).
Definition sent_bytes (cmd : Z) (param : list Z) (t : talk) : list Z :=
  acks (before t) ++ request cmd param ++ concat (map (fun a => acks (attempt_frames a) ++ request cmd param) (attempts t)) ++ acks (map snd (last_came t)).

(** What may come between the acknowledgement and the response. *)
Definition other_ok (cmd : Z) (x : says) : Prop :=
  match x with Frame f => short f /\ (ftype f = REQUEST \/ fcmd f <> cmd) | GiveUp => True | _ => False end.

Record talk_ok (cmd : Z) (t : talk) : Prop := {
  tk_before : Forall short (before t);
  tk_attempts : Forall attempt_ok (attempts t) /\ (length (attempts t) <= 18)%nat;
  tk_came : Forall short (map snd (last_came t));
  tk_others : Forall (fun x => other_ok cmd x.2) (others t) /\ (length (others t) <= 2)%nat;
  tk_response : (length (res_data t) <= 250)%nat
}.

Lemma frame_sent_ok cmd param t s ps rs : calm (con s) -> talk_ok cmd t -> (length param <= 250)%nat -> SupportsCommand cmd s = true ->
  polls s = sent_polls t ++ ps -> rounds s = talk_rounds t ++ rs ->
  wp (SendFrame cmd param) (fun r s' => r = conFrameSent /\ moved (sent_frames t) (sent_bytes cmd param t) false ps rs s s') s.
Proof.
  intros H [T1 [T2 T2'] T3 _ _] Hp Hsup E Er. apply step_get. rewrite Hsup. cbn [negb]. unfold sent_polls in E. rewrite <- !app_assoc in E.
  apply wp_bind. eapply wp_mono; [apply (drain_ok (before t) _ s H T1 E)|]. intros [] s1 M1. apply wp_bind.
  eapply wp_mono; [apply (tx_ok cmd param s1 (mv_calm _ _ _ _ _ _ _ M1) Hp)|]. intros [] s2 M2. apply step_get.
  assert (Ep : polls s2 = concat (map attempt_polls (attempts t)) ++ coming (last_came t) ++ waiting (ack_looks t) Ack ++ ps) by (by rewrite (mv_polls _ _ _ _ _ _ _ M2), (mv_polls _ _ _ _ _ _ _ M1)).
  assert (Er2 : rounds s2 = talk_rounds t ++ rs) by (by rewrite (mv_rounds _ _ _ _ _ _ _ M2), (mv_rounds _ _ _ _ _ _ _ M1)).
  assert (Hf : exists f, (21 + avail s2 = cost (attempts t) + (length (last_came t) + S f))%nat).
  { exists (20 + avail s2 - cost (attempts t) - length (last_came t))%nat. pose proof (busy_avail s2) as B. rewrite Ep, !busy_app in B.
    pose proof (busy_attempts (attempts t)). pose proof (busy_coming (last_came t)). lia. }
  destruct Hf as [f ->]. apply (attempts_ok cmd param Hp (attempts t) (length (last_came t) + S f) 0 conIdle s2 _ rs _ (mv_calm _ _ _ _ _ _ _ M2) T2 (mv_ack _ _ _ _ _ _ _ M2) Ep Er2); [lia|lia|].
  intros s3 i3 ret3 M3 Hi3. apply (coming_ok cmd param (last_came t) (S f) i3 ret3 s3 _ _ (mv_calm _ _ _ _ _ _ _ M3) T3 (mv_polls _ _ _ _ _ _ _ M3) Hi3).
  intros s4 i4 ret4 M4 Hi4. cbn [send_loop]. rewrite (proj2 (Z.leb_gt _ _)) by lia. rewrite (mv_ack _ _ _ _ _ _ _ M3) in M4.
  apply wp_bind, (wait_ok (ack_looks t) Ack ps s4); [apply M4|apply M4|done|apply M4|]. apply end_ret. split; [done|].
  pose proof (moved_looked Ack ps s4 (mv_calm _ _ _ _ _ _ _ M4) (mv_ack _ _ _ _ _ _ _ M4) I) as M5. rewrite (mv_rounds _ _ _ _ _ _ _ M4), (mv_rounds _ _ _ _ _ _ _ M3) in M5.
  pose proof (moved_trans _ _ _ _ _ _ _ _ _ _ _ _ _ M1 (moved_trans _ _ _ _ _ _ _ _ _ _ _ _ _ M2 (moved_trans _ _ _ _ _ _ _ _ _ _ _ _ _ M3 (moved_trans _ _ _ _ _ _ _ _ _ _ _ _ _ M4 M5)))) as M.
  cbn [app] in M. rewrite !app_nil_r in M. exact M.
Qed.

(** The response after at most two other things. *)
Lemma response_ok cmd n f l : forall k s ps, calm (con s) -> AckNakNeeded (con s) = false -> Forall (fun x => other_ok cmd x.2) l -> short f -> ftype f = RESPONSE -> fcmd f = cmd ->
  polls s = concat (map (fun x => waiting x.1 x.2) l) ++ waiting n (Frame f) ++ ps -> (length l < k)%nat ->
  wp (response_loop k cmd) (fun r s' => r = Some (content f) /\ moved (other_frames l) (acks (other_frames l) ++ [ACK]) false ps (rounds s) s s') s.
Proof.
  induction l as [|[m x] l IH]; intros [|k] s ps H Ha Hl Hs Ht Hcmd E Hk; try (cbn in Hk; lia); cbn [response_loop]; apply wp_bind.
  - apply (wait_ok n (Frame f) ps s); [done|done|done|exact E|]. apply step_get. rewrite bool_decide_eq_true_2 by done.
    destruct (got_head f (con s) H Hs) as (E0 & E1 & E2). unfold frame_type. cbn [looked con set_con seen snd]. rewrite E0, E1, E2, Ht, Hcmd. cbn [Z.eqb RESPONSE REQUEST]. rewrite Z.eqb_refl.
    apply end_ret. split; [by rewrite <- (got_content f (con s) H Hs)|].
    destruct (moved_received f ps s H Hs) as [A1 A2 A3 A4 A5 A6 A7 _]. split; try done. exists (got f (con s)), (rxQueue s), ps, (rounds s), (outs s). by destruct s.
  - apply list.Forall_cons in Hl as [Hx Hl]. cbn [map concat fst snd] in E, Hx. rewrite <- app_assoc in E.
    set (ps1 := concat (map (fun x => waiting x.1 x.2) l) ++ waiting n (Frame f) ++ ps) in E.
    destruct x as [|g| |can| |]; try done; cbn [other_ok] in Hx.
    + destruct Hx as [Hg Hor]. apply (wait_ok m (Frame g) ps1 s); [done|done|done|exact E|]. apply step_get. rewrite bool_decide_eq_true_2 by done.
      destruct (got_head g (con s) H Hg) as (E0 & E1 & E2). unfold frame_type. cbn [looked con set_con seen snd]. rewrite E1, E2.
      assert (W : wp (response_loop k cmd) (fun r s' => r = Some (content f) /\ moved (other_frames ((m, Frame g) :: l)) (acks (other_frames ((m, Frame g) :: l)) ++ [ACK]) false ps (rounds s) s s') (received g ps1 s)).
      { pose proof (moved_received g ps1 s H Hg) as M. rewrite Ha in M.
        eapply wp_mono; [apply (IH k _ ps (mv_calm _ _ _ _ _ _ _ M) (mv_ack _ _ _ _ _ _ _ M) Hl Hs Ht Hcmd eq_refl); cbn in Hk; lia|].
        intros r s' [-> M2]. split; [done|]. exact (moved_trans _ _ _ _ _ _ _ _ _ _ _ _ _ M M2). }
      destruct (ftype g =? REQUEST) eqn:Et.
      * pose proof (queue_ok g ps1 s (fun _ s' => wp (response_loop k cmd) (fun r s' => r = Some (content f) /\
          moved (other_frames ((m, Frame g) :: l)) (acks (other_frames ((m, Frame g) :: l)) ++ [ACK]) false ps (rounds s) s s') s') H Hg W) as K.
        unfold queue_request in K. unfold wp, mbind, Eff_bind, get in K. unfold frame_type in K. cbn [looked con set_con seen snd] in K. rewrite E1, Et in K. apply wp_bind. exact K.
      * destruct Hor as [Hor|Hor]; [by rewrite Hor in Et|]. rewrite (proj2 (Z.eqb_neq _ _) Hor).
        replace (looked (Frame g) ps1 s) with (received g ps1 s); [exact W|]. unfold received, enqueue. rewrite Et. unfold looked. by destruct s.
    + apply (wait_ok m GiveUp ps1 s); [done|done|done|exact E|]. apply step_get. cbn [result]. rewrite bool_decide_eq_false_2 by done.
      pose proof (moved_looked GiveUp ps1 s H I I) as M. cbn [ack_after] in M. rewrite Ha in M.
      eapply wp_mono; [apply (IH k _ ps (mv_calm _ _ _ _ _ _ _ M) (mv_ack _ _ _ _ _ _ _ M) Hl Hs Ht Hcmd eq_refl); cbn in Hk; lia|].
      intros r s' [-> M2]. split; [done|]. exact (moved_trans _ _ _ _ _ _ _ _ _ _ _ _ _ M M2).
Qed.

Definition talk_frames (t : talk) : list frm := sent_frames t ++ other_frames (others t).
Definition talk_bytes (cmd : Z) (param : list Z) (t : talk) : list Z := sent_bytes cmd param t ++ acks (other_frames (others t)) ++ [ACK].

Lemma exchange_ok cmd param t s ps rs : calm (con s) -> talk_ok cmd t -> (length param <= 250)%nat -> SupportsCommand cmd s = true ->
  polls s = talk_polls cmd t ++ ps -> rounds s = talk_rounds t ++ rs ->
  wp (exchange cmd param) (fun r s' => r = Some (content (response_of cmd t)) /\ moved (talk_frames t) (talk_bytes cmd param t) false ps rs s s') s.
Proof.
  intros H T Hp Hsup E Er. apply wp_bind. unfold talk_polls in E. rewrite <- !app_assoc in E.
  eapply wp_mono; [apply (frame_sent_ok cmd param t s _ rs H T Hp Hsup E Er)|]. intros r s1 [-> M1]. rewrite bool_decide_eq_true_2 by done. destruct T as [_ _ _ [T4 T4'] T5].
  eapply wp_mono; [apply (response_ok cmd (res_looks t) (response_of cmd t) (others t) 3 s1 ps (mv_calm _ _ _ _ _ _ _ M1) (mv_ack _ _ _ _ _ _ _ M1) T4 T5 eq_refl eq_refl (mv_polls _ _ _ _ _ _ _ M1)); lia|].
  intros r s2 [-> M2]. split; [done|]. rewrite (mv_rounds _ _ _ _ _ _ _ M1) in M2. exact (moved_trans _ _ _ _ _ _ _ _ _ _ _ _ _ M1 M2).
Qed.

Lemma exchange_answered cmd param want t s ps rs : calm (con s) -> talk_ok cmd t -> (length param <= 250)%nat -> SupportsCommand cmd s = true -> length (buffer s) = BUF_SIZE ->
  (length (res_data t) <= 177)%nat -> polls s = talk_polls cmd t ++ ps -> rounds s = talk_rounds t ++ rs ->
  wp (SendFrameWithResponse cmd param want) (fun r s' => r = conFrameReceived /\
    exists s1, moved (talk_frames t) (talk_bytes cmd param t) false ps rs s s1 /\
      s' = (if want then set_byLen (Z.of_nat (length (content (response_of cmd t)))) else fun s => s) (set_buffer (splice 0 (content (response_of cmd t)) (buffer s)) s1)) s.
Proof.
  intros H T Hp Hsup Hb Hr E Er. apply wp_bind. eapply wp_mono; [by apply (exchange_ok cmd param t s ps rs)|]. intros r s1 [-> M]. apply step_get.
  destruct (mv_same _ _ _ _ _ _ _ M) as (c & q & p & u & o & Es). assert (Eb : buffer s1 = buffer s) by (by rewrite Es). rewrite Eb.
  apply wp_bind, wp_wrs; [rewrite Hb; unfold content; cbn [length app]; change (fdata (response_of cmd t)) with (res_data t); unfold BUF_SIZE; lia|].
  apply step_modify, wp_bind. destruct want; [apply end_modify|apply end_ret]; apply end_ret; (split; [done|]); exists s1; done.
Qed.

(** C27: A supported command of at most 250 parameter bytes reaches the module although up to 18 attempts are
    refused, not acknowledged in time or not answered at all, and whatever frames of at most 250 bytes the module
    sends before, between and in the pauses: the command is written once more after each failed attempt, every frame
    of the module is acknowledged, and its requests are queued in the order in which they came as long as fewer than
    ten wait.  A response of at most 177 bytes of data, which at most two other frames precede after the
    acknowledgement, is returned, unchanged, with its length. *)
Theorem serial_command_answered cmd param t s ps rs : calm (con s) -> talk_ok cmd t -> (length param <= 250)%nat -> SupportsCommand cmd s = true -> length (buffer s) = BUF_SIZE ->
  (length (res_data t) <= 177)%nat -> polls s = talk_polls cmd t ++ ps -> rounds s = talk_rounds t ++ rs ->
  exists s', SendFrameWithResponse cmd param true s = Ok (conFrameReceived, s') /\
    take (length (content (response_of cmd t))) (buffer s') = content (response_of cmd t) /\ byLen s' = Z.of_nat (length (content (response_of cmd t))) /\
    rxQueue s' = foldl enqueue (rxQueue s) (talk_frames t) /\ ConHandle.output (con s') = ConHandle.output (con s) ++ talk_bytes cmd param t /\
    calm (con s') /\ polls s' = ps.
Proof.
  intros H T Hp Hsup Hb Hr E Er. destruct (wp_run _ _ _ (exchange_answered cmd param true t s ps rs H T Hp Hsup Hb Hr E Er)) as (r & s' & Ex & -> & s1 & M & ->).
  exists (set_byLen (Z.of_nat (length (content (response_of cmd t)))) (set_buffer (splice 0 (content (response_of cmd t)) (buffer s)) s1)). split; [exact Ex|].
  destruct M as [A1 A2 A3 A4 A5 A6 A7 A8]. cbn [buffer byLen rxQueue con polls set_byLen set_buffer]. split; [|done]. by rewrite ConHandle.take_splice_prefix, take_ge by lia.
Qed.

(** ** Parameters *)

Record pushed (l : list Z) (s s' : SA) : Prop := {
  pu_take : take (Z.to_nat (idx s')) (buffer s') = take (Z.to_nat (idx s)) (buffer s) ++ l;
  pu_idx : idx s' = idx s + Z.of_nat (length l);
  pu_len : length (buffer s') = length (buffer s);
  pu_same : exists b i, s' = set_idx i (set_buffer b s)
}.

Lemma pushed_trans a b s s1 s2 : pushed a s s1 -> pushed b s1 s2 -> pushed (a ++ b) s s2.
Proof.
  intros [A1 A2 A3 (b1 & i1 & A4)] [B1 B2 B3 (b2 & i2 & B4)]. split; [by rewrite B1, A1, app_assoc|rewrite B2, A2, length_app; lia|by rewrite B3, A3|].
  exists b2, i2. by rewrite B4, A4.
Qed.

Lemma push_run x s : length (buffer s) = BUF_SIZE -> 0 <= idx s < Z.of_nat BUF_SIZE -> exists s', push x s = Ok (tt, s') /\ pushed [x] s s'.
Proof.
  intros Hb Hi. unfold BUF_SIZE in *. set (n := Z.to_nat (idx s)). assert (W : wp (push x) (fun _ s' => pushed [x] s s') s).
  { apply step_get, wp_bind, wp_wr; [lia|]. apply step_modify, end_modify. assert (Eu : u8 (idx s + 1) = idx s + 1) by (unfold u8; apply Z.mod_small; lia).
    split; cbn [idx buffer set_idx set_buffer]; rewrite ?Eu; [|cbn [length]; lia|by rewrite length_insert|by eexists _, _].
    replace (Z.to_nat (idx s + 1)) with (S n) by (unfold n; lia). fold n.
    rewrite (take_S_r _ n x); [by rewrite take_insert_ge by lia|]. apply list_lookup_insert_eq. unfold n. lia. }
  destruct (wp_run _ _ _ W) as ([] & s' & E & P). by exists s'.
Qed.

Lemma push_over x s : length (buffer s) = BUF_SIZE -> idx s = Z.of_nat BUF_SIZE -> push x s = Fault OutOfBounds.
Proof.
  intros Hb Hi. unfold push, mbind, Eff_bind, get, wr. rewrite Hi, Nat2Z.id, Hb, Nat.ltb_irrefl. reflexivity.
Qed.

Lemma pushes_run l : forall s, length (buffer s) = BUF_SIZE -> 0 <= idx s -> idx s + Z.of_nat (length l) <= Z.of_nat BUF_SIZE -> exists s', pushes l s = Ok (tt, s') /\ pushed l s s'.
Proof.
  induction l as [|x l IH]; intros s Hb H0 Hi.
  - exists s. split; [done|]. split; [by rewrite app_nil_r|cbn; lia|done|]. exists (buffer s), (idx s). by destruct s.
  - cbn [length] in Hi. destruct (push_run x s Hb ltac:(lia)) as (s1 & E1 & P1).
    destruct (IH s1) as (s2 & E2 & P2); [by rewrite (pu_len _ _ _ P1)|rewrite (pu_idx _ _ _ P1); cbn; lia|rewrite (pu_idx _ _ _ P1); cbn [length]; lia|].
    exists s2. split; [|exact (pushed_trans [x] l s s1 s2 P1 P2)]. cbn [pushes]. unfold mbind, Eff_bind. by rewrite E1.
Qed.

Lemma pushes_over l : forall s, length (buffer s) = BUF_SIZE -> 0 <= idx s <= Z.of_nat BUF_SIZE -> Z.of_nat BUF_SIZE < idx s + Z.of_nat (length l) -> pushes l s = Fault OutOfBounds.
Proof.
  induction l as [|x l IH]; intros s Hb H0 Hi; [cbn in Hi; lia|]. cbn [pushes]. unfold mbind, Eff_bind. destruct (decide (idx s = Z.of_nat BUF_SIZE)) as [He|He].
  - by rewrite push_over.
  - destruct (push_run x s Hb ltac:(lia)) as (s1 & E1 & P1). rewrite E1. apply IH; [by rewrite (pu_len _ _ _ P1)|rewrite (pu_idx _ _ _ P1); cbn; lia|].
    rewrite (pu_idx _ _ _ P1). cbn [length] in *. lia.
Qed.

(** ** Transmissions *)

Definition node_bytes (lr : bool) (node_id : Z) : list Z := (if lr then [u8 (Z.shiftr node_id 8)] else []) ++ [Z.land node_id 0xff].

Lemma length_node_bytes lr id : (length (node_bytes lr id) = if lr then 2 else 1)%nat.
Proof. by destruct lr. Qed.

Lemma node_run id s : length (buffer s) = BUF_SIZE -> 0 <= idx s <= 100 -> exists s', set_node_id_in_buffer id s = Ok (tt, s') /\ pushed (node_bytes (lr_enabled s) id) s s'.
Proof.
  intros Hb Hi. unfold set_node_id_in_buffer, mbind, Eff_bind, get, node_bytes. unfold BUF_SIZE in Hb. destruct (lr_enabled s); cbn [app].
  - destruct (push_run (u8 (Z.shiftr id 8)) s Hb ltac:(unfold BUF_SIZE; lia)) as (s1 & E1 & P1). rewrite E1.
    destruct (push_run (Z.land id 0xff) s1) as (s2 & E2 & P2); [by rewrite (pu_len _ _ _ P1)|rewrite (pu_idx _ _ _ P1); cbn; unfold BUF_SIZE; lia|].
    exists s2. split; [done|]. exact (pushed_trans _ _ _ _ _ P1 P2).
  - apply (push_run (Z.land id 0xff) s Hb). unfold BUF_SIZE. lia.
Qed.

(** The number the module calls back with, the parameters, and the state in which they are written. *)
Definition call_number (cb : bool) (s : SA) : Z := if cb then u8 (1 + Z.land (txnr s) 0xf7) else 0.
Definition send_data_params (nodeID : Z) (pData : list Z) (txOptions : Z) (cb : bool) (s : SA) : list Z :=
  node_bytes (lr_enabled s) nodeID ++ [Z.of_nat (length pData)] ++ pData ++ [txOptions; call_number cb s].
Definition begun (cb : bool) (s : SA) : SA := set_byCompletedFunc (call_number cb s) (set_byLen 0 (set_idx 0 s)).

(** What [ZW_SendData] does after its parameters. *)
Definition send_data_rest (cb : bool) : M Z :=
  register FUNC_ID_ZW_SEND_DATA cb ;;
  r ← call FUNC_ID_ZW_SEND_DATA;
  (if bool_decide (r = conFrameReceived) then modify (fun s => set_txnr (txnr s + 1) s)
   else s ← get; b ← wr (buffer s) IDX_DATA 0; modify (set_buffer b)) ;;
  a ← answer 0;
  (if a =? 1 then mret tt else register FUNC_ID_ZW_SEND_DATA false) ;; mret a.

Lemma send_data_split nodeID pData txOptions cb s (n := Z.of_nat (length pData)) : length (buffer s) = BUF_SIZE -> n <= 178 ->
  if Z.of_nat BUF_SIZE <? Z.of_nat (length (send_data_params nodeID pData txOptions cb s)) then ZW_SendData nodeID pData n txOptions cb s = Fault OutOfBounds
  else exists s1, ZW_SendData nodeID pData n txOptions cb s = send_data_rest cb s1 /\ pushed (send_data_params nodeID pData txOptions cb s) (begun cb s) s1.
Proof.
  intros Hb Hn. unfold ZW_SendData, send_data_params. rewrite (proj2 (Z.ltb_ge (Z.of_nat BUF_SIZE) (n + 2))) by (unfold BUF_SIZE; lia). assert (Et : take (Z.to_nat n) pData = pData) by (unfold n; rewrite Nat2Z.id; apply take_ge; lia). rewrite Et, !length_app, length_node_bytes. cbn [length].
  destruct (node_run nodeID (begun cb s)) as (s1 & E1 & P1); [done|cbn; lia|]. change (lr_enabled (begun cb s)) with (lr_enabled s) in P1. set (nb := node_bytes (lr_enabled s) nodeID) in *.
  assert (Hnb : idx s1 = if lr_enabled s then 2 else 1) by (rewrite (pu_idx _ _ _ P1); unfold nb; rewrite length_node_bytes; by destruct (lr_enabled s)).
  destruct (push_run n s1) as (s2 & E2 & P2); [by rewrite (pu_len _ _ _ P1)|rewrite Hnb; unfold BUF_SIZE; destruct (lr_enabled s); lia|].
  assert (Hi2 : idx s2 = if lr_enabled s then 3 else 2) by (rewrite (pu_idx _ _ _ P2), Hnb; by destruct (lr_enabled s)).
  assert (Hb2 : length (buffer s2) = BUF_SIZE) by (by rewrite (pu_len _ _ _ P2), (pu_len _ _ _ P1)).
  unfold start, completed, modify, get, mbind, Eff_bind. fold (begun cb s). change (set_byCompletedFunc (if cb then u8 (1 + Z.land (txnr (set_byLen 0 (set_idx 0 s))) 0xf7) else 0) (set_byLen 0 (set_idx 0 s))) with (begun cb s).
  rewrite E1, E2. unfold BUF_SIZE in *. destruct (Z.ltb_spec (Z.of_nat 180) (idx s2 + n)) as [Ho|Ho].
  - rewrite (pushes_over pData s2 Hb2) by (unfold BUF_SIZE; unfold n in Ho; rewrite ?Hi2 in *; destruct (lr_enabled s); lia).
    rewrite (proj2 (Z.ltb_lt _ _)) by (rewrite Hi2 in Ho; destruct (lr_enabled s); lia). done.
  - destruct (pushes_run pData s2 Hb2) as (s3 & E3 & P3); [rewrite Hi2; destruct (lr_enabled s); lia|exact Ho|]. rewrite E3.
    assert (Hb3 : length (buffer s3) = 180%nat) by (by rewrite (pu_len _ _ _ P3)). assert (Hi3 : idx s3 = idx s2 + n) by apply P3.
    destruct (decide (idx s3 = 180)) as [He|He].
    + rewrite (push_over txOptions s3 Hb3 He). rewrite (proj2 (Z.ltb_lt _ _)) by (rewrite Hi2 in *; destruct (lr_enabled s); lia). done.
    + destruct (push_run txOptions s3 Hb3) as (s4 & E4 & P4); [unfold BUF_SIZE; rewrite Hi2 in Hi3; destruct (lr_enabled s); lia|]. rewrite E4.
      pose proof (pushed_trans _ _ _ _ _ P1 (pushed_trans _ _ _ _ _ P2 (pushed_trans _ _ _ _ _ P3 P4))) as P.
      assert (Ec : byCompletedFunc s4 = call_number cb s) by (destruct (pu_same _ _ _ P) as (b & i & ->); done).
      assert (Hb4 : length (buffer s4) = 180%nat) by (by rewrite (pu_len _ _ _ P4)). assert (Hi4 : idx s4 = idx s3 + 1) by apply P4.
      unfold push_completed, mbind, Eff_bind, get. rewrite Ec. destruct (decide (idx s4 = 180)) as [He4|He4].
      * rewrite (push_over (call_number cb s) s4 Hb4 He4). rewrite (proj2 (Z.ltb_lt _ _)) by (rewrite Hi2 in *; destruct (lr_enabled s); lia). done.
      * destruct (push_run (call_number cb s) s4 Hb4) as (s5 & E5 & P5); [unfold BUF_SIZE; rewrite Hi2 in *; destruct (lr_enabled s); lia|]. rewrite E5.
        rewrite (proj2 (Z.ltb_ge _ _)) by (rewrite Hi2 in *; destruct (lr_enabled s); lia). exists s5. split; [done|].
        pose proof (pushed_trans _ _ _ _ _ P P5) as P6. by rewrite <- !app_assoc in P6.
Qed.

Lemma is_registered_own (f : Z) (b : bool) (l : list Z) (s : SA) : is_registered f (set_registered ((if b then [f] else []) ++ List.filter (fun g => negb (g =? f)) l) s) = b.
Proof.
  unfold is_registered. cbn [registered set_registered]. destruct b; [apply bool_decide_eq_true; left|]. apply bool_decide_eq_false. cbn [app].
  rewrite list_elem_of_In, filter_In. intros [_ H]. by rewrite Z.eqb_refl in H.
Qed.

(** A transmission the module takes, or turns down with [a]. *)
Record taken (a : Z) (cb : bool) (t : talk) (params : list Z) (s s' : SA) : Prop := {
  ta_out : ConHandle.output (con s') = ConHandle.output (con s) ++ talk_bytes FUNC_ID_ZW_SEND_DATA params t;
  ta_queue : rxQueue s' = foldl enqueue (rxQueue s) (talk_frames t);
  ta_registered : is_registered FUNC_ID_ZW_SEND_DATA s' = cb && (a =? 1);
  ta_txnr : txnr s' = txnr s + 1
}.

Lemma send_data_rest_ok params cb t a s s1 ps rs : pushed params (begun cb s) s1 -> length (buffer s) = BUF_SIZE -> (length params <= BUF_SIZE)%nat ->
  calm (con s) -> talk_ok FUNC_ID_ZW_SEND_DATA t -> SupportsCommand FUNC_ID_ZW_SEND_DATA s = true -> res_data t = [a] ->
  polls s = talk_polls FUNC_ID_ZW_SEND_DATA t ++ ps -> rounds s = talk_rounds t ++ rs ->
  wp (send_data_rest cb) (fun r s' => r = a /\ taken a cb t params s s') s1.
Proof.
  intros P Hb Hl H T Hsup Hr E Er. destruct (pu_same _ _ _ P) as (b & i & Es). unfold send_data_rest, call. apply step_modify. apply wp_bind, step_modify, step_get.
  set (s2 := set_byLen 0 _). assert (Ep : take (Z.to_nat (idx s2)) (buffer s2) = params) by exact (pu_take _ _ _ P). rewrite Ep.
  eapply wp_mono; [apply (exchange_answered FUNC_ID_ZW_SEND_DATA params true t s2 ps rs)|]; try (subst s2; by rewrite Es).
  - done.
  - unfold BUF_SIZE in Hl. lia.
  - change (buffer s2) with (buffer s1). by rewrite (pu_len _ _ _ P).
  - rewrite Hr. cbn. lia.
  - intros r s3 [-> (s4 & M & ->)]. rewrite bool_decide_eq_true_2 by done. apply step_modify.
    set (s5 := set_txnr _ _). assert (Ea : buffer s5 !! 3%nat = Some a).
    { change (buffer s5) with (splice 0 (content (response_of FUNC_ID_ZW_SEND_DATA t)) (buffer s2)). unfold content, response_of. cbn [fdata ftype fcmd]. by rewrite Hr. }
    apply wp_bind, step_get, (wp_rd _ _ a); [exact Ea|].
    destruct (mv_same _ _ _ _ _ _ _ M) as (c & q & p & u & o & E4).
    assert (F : registered s4 = registered s2 /\ txnr s4 = txnr s) by (rewrite E4; subst s2; by rewrite Es). destruct F as [F1 F2].
    assert (G : forall s6, con s6 = con s4 -> rxQueue s6 = rxQueue s4 -> txnr s6 = txnr s4 + 1 -> is_registered FUNC_ID_ZW_SEND_DATA s6 = cb && (a =? 1) -> taken a cb t params s s6).
    { intros s6 G1 G2 G3 G4. destruct M as [M1 M2 M3 M4 M5 M6 M7 M8]. split; [|rewrite G2, M2; subst s2; by rewrite Es|done|by rewrite G3, F2].
      rewrite G1, M3. subst s2. by rewrite Es. }
    apply wp_bind. destruct (a =? 1) eqn:Ea1.
    + apply end_ret, end_ret. split; [done|]. apply G; try done. unfold is_registered. change (registered s5) with (registered s4). rewrite F1. rewrite andb_true_r.
      exact (is_registered_own FUNC_ID_ZW_SEND_DATA cb (registered s1) s1).
    + apply end_modify, end_ret. split; [done|]. apply G; try done. rewrite andb_false_r. apply (is_registered_own FUNC_ID_ZW_SEND_DATA false).
Qed.

(** C29: [ZW_SendData] for every length of its data.  More than 178 bytes are refused and nothing is sent.  Up to 176
    bytes, 175 with node ids of two bytes, the frame to the module has the node, the length, the data, the options
    and the number of the callback; its answer is returned, and the callback is kept exactly if the answer is
    TRUE.  For the lengths between, which the check lets pass, the parameters are written past the end of the
    transmit buffer. *)
Theorem send_data_bounds nodeID pData txOptions cb s (n := Z.of_nat (length pData)) (room := if lr_enabled s then 175 else 176) :
  length (buffer s) = BUF_SIZE ->
  (178 < n -> ZW_SendData nodeID pData n txOptions cb s = Ok (0, s)) /\
  (room < n <= 178 -> ZW_SendData nodeID pData n txOptions cb s = Fault OutOfBounds) /\
  (n <= room -> forall t a ps rs, calm (con s) -> talk_ok FUNC_ID_ZW_SEND_DATA t -> SupportsCommand FUNC_ID_ZW_SEND_DATA s = true -> res_data t = [a] ->
    polls s = talk_polls FUNC_ID_ZW_SEND_DATA t ++ ps -> rounds s = talk_rounds t ++ rs ->
    exists s', ZW_SendData nodeID pData n txOptions cb s = Ok (a, s') /\ taken a cb t (send_data_params nodeID pData txOptions cb s) s s').
Proof.
  intros Hb. assert (Hlen : Z.of_nat (length (send_data_params nodeID pData txOptions cb s)) = n + (if lr_enabled s then 5 else 4)).
  { unfold send_data_params, n. rewrite !length_app, length_node_bytes. cbn [length]. destruct (lr_enabled s); lia. }
  split; [|split].
  - intros Hn. unfold ZW_SendData. by rewrite (proj2 (Z.ltb_lt (Z.of_nat BUF_SIZE) (n + 2))) by (unfold BUF_SIZE; lia).
  - intros Hn. pose proof (send_data_split nodeID pData txOptions cb s Hb ltac:(lia)) as D. fold n in D. rewrite Hlen in D.
    rewrite (proj2 (Z.ltb_lt _ _)) in D by (unfold BUF_SIZE, room in *; destruct (lr_enabled s); lia). exact D.
  - intros Hn t a ps rs H T Hsup Hr E Er. assert (Hn' : n <= 178) by (unfold room in Hn; destruct (lr_enabled s); lia).
    pose proof (send_data_split nodeID pData txOptions cb s Hb Hn') as D. fold n in D. rewrite Hlen in D.
    rewrite (proj2 (Z.ltb_ge _ _)) in D by (unfold BUF_SIZE, room in *; destruct (lr_enabled s); lia). destruct D as (s1 & -> & P).
    assert (Hp : (length (send_data_params nodeID pData txOptions cb s) <= BUF_SIZE)%nat) by (unfold BUF_SIZE, room in *; destruct (lr_enabled s); lia).
    destruct (wp_run _ _ _ (send_data_rest_ok _ cb t a s s1 ps rs P Hb Hp H T Hsup Hr E Er)) as (r & s' & Ex & -> & K). by exists s'.
Qed.

(** ** Requests reach the application *)

Lemma node_id_joined id : 0 <= id < 65536 -> Z.lor (Z.shiftl (u8 (Z.shiftr id 8)) 8) (Z.land id 0xff) = id.
Proof.
  intros H. unfold u8. rewrite Z.mod_small by (rewrite Z.shiftr_div_pow2 by lia; split; [apply Z.div_pos; lia|apply Z.div_lt_upper_bound; lia]).
  change 0xff with (Z.ones 8). apply Z.bits_inj'. intros k Hk. rewrite Z.lor_spec, Z.land_spec, Z.shiftl_spec by lia.
  destruct (Z.ltb_spec k 8).
  - rewrite Z.testbit_neg_r, Z.ones_spec_low by lia. by rewrite andb_true_r.
  - rewrite Z.shiftr_spec, Z.ones_spec_high by lia. rewrite andb_false_r, orb_false_r. f_equal. lia.
Qed.

Definition id_ok (lr : bool) (id : Z) : Prop := 0 <= id < if lr then 65536 else 256.

Lemma lookup_in (a : list Z) x b n : Z.to_nat n = length a -> (a ++ x :: b) !! Z.to_nat n = Some x.
Proof. intros ->. by apply list_lookup_middle. Qed.

Lemma read_node_ok id pre post n s (Q : Z * Z -> SA -> Prop) : id_ok (lr_enabled s) id -> n = Z.of_nat (length pre) ->
  Q (id, n + Z.of_nat (length (node_bytes (lr_enabled s) id))) s -> wp (read_node (pre ++ node_bytes (lr_enabled s) id ++ post) n) Q s.
Proof.
  intros Hid -> HQ. apply step_get. unfold node_bytes, id_ok in *. destruct (lr_enabled s); cbn [app] in *.
  - apply wp_bind, (wp_rd _ _ (u8 (Z.shiftr id 8))); [apply lookup_in; lia|]. apply wp_bind, (wp_rd _ _ (Z.land id 0xff)).
    { change (pre ++ u8 (Z.shiftr id 8) :: Z.land id 255 :: post) with (pre ++ [u8 (Z.shiftr id 8)] ++ Z.land id 255 :: post). rewrite app_assoc. apply lookup_in. rewrite length_app. cbn. lia. }
    apply end_ret. by rewrite node_id_joined.
  - apply wp_bind, (wp_rd _ _ (Z.land id 0xff)); [apply lookup_in; lia|]. apply end_ret. assert (E : Z.land id 0xff = id); [|by rewrite E].
    change 0xff with (Z.ones 8). rewrite Z.land_ones by lia. apply Z.mod_small. lia.
Qed.

(** A command for a node of the bridge, as the module sends it, with what follows the command. *)
Record command := mkCommand { c_status : Z; c_dest : Z; c_source : Z; c_cmd : list Z; c_rest : list Z }.
Definition command_frame (lr : bool) (c : command) : frm :=
  mkFrm REQUEST FUNC_ID_APPLICATION_COMMAND_HANDLER_BRIDGE
    (c_status c :: node_bytes lr (c_dest c) ++ node_bytes lr (c_source c) ++ Z.of_nat (length (c_cmd c)) :: c_cmd c ++ c_rest c).
Definition command_ok (lr : bool) (c : command) : Prop := id_ok lr (c_dest c) /\ id_ok lr (c_source c) /\ (length (c_cmd c) <= BUF_SIZE)%nat.
Definition delivered (c : command) : output := BridgeCommandReceived (c_status c) (c_dest c) (c_source c) (c_cmd c).

Section Polling.
Context (handlers : handler -> bool) (Hbridge : handlers ApplicationCommandHandler_Bridge = true).

Lemma bridge_ok c s (p := content (command_frame (lr_enabled s) c)) : command_ok (lr_enabled s) c -> length (pCmd s) = BUF_SIZE ->
  wp (Dispatch handlers p (Z.of_nat (length p)))
    (fun _ s' => exists b, length b = BUF_SIZE /\ s' = set_outs (outs s ++ [delivered c]) (set_pCmd b s)) s.
Proof.
  intros (H1 & H2 & H3) Hb. unfold Dispatch. set (lr := lr_enabled s) in *. set (d := node_bytes lr (c_dest c)). set (r := node_bytes lr (c_source c)).
  set (n := Z.of_nat (length (c_cmd c))). set (pre := [at_ p 0; REQUEST; FUNC_ID_APPLICATION_COMMAND_HANDLER_BRIDGE; c_status c]).
  assert (Ep : p = pre ++ d ++ r ++ n :: c_cmd c ++ c_rest c) by done.
  apply wp_bind, (wp_rd _ _ REQUEST); [done|]. change (REQUEST =? 1) with false. cbv iota. apply wp_bind, (wp_rd _ _ FUNC_ID_APPLICATION_COMMAND_HANDLER_BRIDGE); [done|].
  repeat match goal with |- context [FUNC_ID_APPLICATION_COMMAND_HANDLER_BRIDGE =? ?x] => let v := eval vm_compute in (FUNC_ID_APPLICATION_COMMAND_HANDLER_BRIDGE =? x) in
    change (FUNC_ID_APPLICATION_COMMAND_HANDLER_BRIDGE =? x) with v; cbv iota end.
  unfold bridge_handler. rewrite Hbridge. change (negb true || DetectBufferOverflow (IDX_DATA + 3)) with false. cbv iota.
  apply wp_bind. rewrite Ep. apply (read_node_ok (c_dest c) pre _ _ s); [done|done|]. fold lr d. cbn beta iota. apply wp_bind. rewrite app_assoc.
  apply (read_node_ok (c_source c) (pre ++ d) _ _ s); [done|fold lr d; unfold IDX_DATA; rewrite length_app; change (length pre) with 4%nat; lia|]. fold lr r. cbn beta iota. rewrite <- app_assoc.
  set (j := IDX_DATA + 1 + Z.of_nat (length d) + Z.of_nat (length r)). assert (Hj : Z.to_nat j = length (pre ++ d ++ r)) by (unfold j, IDX_DATA; rewrite !length_app; change (length pre) with 4%nat; lia).
  replace (pre ++ d ++ r ++ n :: c_cmd c ++ c_rest c) with ((pre ++ d ++ r) ++ n :: c_cmd c ++ c_rest c) by (by rewrite <- !app_assoc).
  apply wp_bind, (wp_rd _ _ n); [by apply lookup_in|]. apply wp_bind. unfold copy_cmd.
  assert (Hj1 : Z.to_nat (j + 1) = length ((pre ++ d ++ r) ++ [n])) by (rewrite length_app; cbn [length]; unfold j, IDX_DATA in *; lia).
  apply wp_bind. replace ((pre ++ d ++ r) ++ n :: c_cmd c ++ c_rest c) with (((pre ++ d ++ r) ++ [n]) ++ c_cmd c ++ c_rest c) by (rewrite <- !app_assoc; done).
  replace (Z.to_nat n) with (length (c_cmd c)) by (unfold n; lia). rewrite Hj1. apply wp_rds; [rewrite !length_app; cbn [length]; lia|]. unfold sub. rewrite drop_app_length, take_app_length. apply step_get, wp_bind, wp_wrs; [by rewrite Hb|].
  apply step_modify, end_ret. apply wp_bind, (wp_rd _ _ (c_status c)); [done|]. apply end_modify. eexists. split; [|reflexivity]. rewrite length_splice; [done|by rewrite Hb].
Qed.

(** A queue of at most ten commands: each round takes one, and then those that have come are added. *)
Definition push_all (q cs : list command) : list command := foldl (fun q c => if Nat.ltb (length q) MAX_RXQUEUE_LEN then q ++ [c] else q) q cs.
Fixpoint fifo (q : list command) (rounds : list (list command)) : list command * list command :=
  match rounds with
  | [] => ([], q)
  | cs :: rounds => let '(given, rest) := fifo (push_all (tail q) cs) rounds in (take 1 q ++ given, rest)
  end.

(** The commands given to the application so far. *)
Definition deliveries (l : list output) : list output := List.filter (fun o => match o with BridgeCommandReceived _ _ _ _ => true | _ => false end) l.

Lemma deliveries_app a b : deliveries (a ++ b) = deliveries a ++ deliveries b.
Proof. apply List.filter_app. Qed.

Definition waits (lr : bool) (c : command) : list Z := content (command_frame lr c).
Definition good (lr : bool) (c : command) : Prop := command_ok lr c /\ short (command_frame lr c).

Lemma enqueue_all lr q cs : foldl enqueue (map (waits lr) q) (map (command_frame lr) cs) = map (waits lr) (push_all q cs).
Proof.
  revert q. induction cs as [|c cs IH]; intros q; [done|]. cbn [map foldl push_all]. unfold push_all in *. cbn [foldl]. rewrite <- IH. f_equal.
  unfold enqueue. cbn [ftype command_frame Z.eqb REQUEST andb]. rewrite length_map. destruct (Nat.ltb _ _); [|done]. by rewrite map_app.
Qed.

Lemma push_all_good lr q cs : Forall (good lr) q -> Forall (good lr) cs -> Forall (good lr) (push_all q cs).
Proof.
  intros Hq Hc. revert q Hq. induction Hc as [|c cs H Hc IH]; intros q Hq; [done|]. unfold push_all in *. cbn [foldl]. apply IH. destruct (Nat.ltb _ _); [|done].
  apply list.Forall_app. split; [done|]. by apply list.Forall_cons.
Qed.

(** The serial API while commands wait in its queue. *)
Record polling (lr : bool) (q : list command) (s : SA) : Prop := {
  po_calm : calm (con s);
  po_cmd : length (pCmd s) = BUF_SIZE;
  po_queue : rxQueue s = map (waits lr) q;
  po_good : Forall (good lr) q;
  po_lr : lr_enabled s = lr
}.

(** The rest of a poll: frames that have come are queued. *)
Lemma poll_rest lr q cs ps s : polling lr q s -> Forall (good lr) cs -> polls s = draining (map (command_frame lr) cs) ++ ps ->
  wp (DrainRX ;; (if handlers ApplicationPoll then emit Polled else mret tt) ;; s ← get; mret (match rxQueue s with [] => false | _ => true end))
    (fun _ s' => polling lr (push_all q cs) s' /\ polls s' = ps /\ deliveries (outs s') = deliveries (outs s)) s.
Proof.
  intros [H1 H2 H3 H4 H5] Hc E. assert (Hs : Forall short (map (command_frame lr) cs)) by (apply List.Forall_map; eapply list.Forall_impl; [exact Hc|]; by intros c []).
  apply wp_bind. eapply wp_mono; [apply (drain_ok _ ps s H1 Hs E)|]. intros [] s1 M. destruct (mv_same _ _ _ _ _ _ _ M) as (c & qq & p & u & o & Es).
  assert (P : polling lr (push_all q cs) s1).
  { split; [apply M|by rewrite Es| |by apply push_all_good|by rewrite Es]. by rewrite (mv_queue _ _ _ _ _ _ _ M), H3, enqueue_all. }
  assert (D : deliveries (outs s1) = deliveries (outs s)).
  { destruct (mv_outs _ _ _ _ _ _ _ M) as [k Hk]. rewrite Hk, deliveries_app. assert (Er : deliveries (replicate k Reopened) = []) by (clear; induction k; cbn; done). by rewrite Er, app_nil_r. }
  apply wp_bind, (wp_mono _ (fun _ s2 => polling lr (push_all q cs) s2 /\ polls s2 = ps /\ deliveries (outs s2) = deliveries (outs s))).
  - destruct (handlers ApplicationPoll); [apply end_modify|apply end_ret; split; [done|]; split; [apply M|done]].
    split; [|split; [apply M|]]; [destruct P as [P1 P2 P3 P4 P5]; by split|]. cbn [outs set_outs]. rewrite deliveries_app, D. cbn. by rewrite app_nil_r.
  - intros [] s2 K. apply step_get, end_ret. exact K.
Qed.

Lemma poll_ok lr q cs ps s : polling lr q s -> Forall (good lr) cs -> polls s = draining (map (command_frame lr) cs) ++ ps ->
  wp (SerialAPI_Poll handlers) (fun _ s' => polling lr (push_all (tail q) cs) s' /\ polls s' = ps /\ deliveries (outs s') = deliveries (outs s) ++ map delivered (take 1 q)) s.
Proof.
  intros P Hc E. destruct P as [H1 H2 H3 H4 H5] eqn:EP. clear EP. unfold SerialAPI_Poll. apply step_get. rewrite H3. destruct q as [|c q]; cbn [map tail take].
  - apply step_ret. eapply wp_mono; [apply (poll_rest lr [] cs ps s P Hc E)|]. intros b s' (K1 & K2 & K3). rewrite app_nil_r. done.
  - apply list.Forall_cons in H4 as [[G1 G2] H4]. apply wp_bind, step_modify, step_modify. set (s1 := set_con _ _).
    assert (C1 : calm (con s1)).
    { destruct H1 as [A1 A2 A3 A4]. split; try done. cbn [con set_con s1 serBuf]. rewrite length_splice; [done|]. unfold short in G2. unfold waits, content. cbn [app length]. rewrite A3. unfold SERBUF_MAX. lia. }
    assert (L1 : lr_enabled s1 = lr) by exact H5. assert (Ew : waits lr c = content (command_frame (lr_enabled s1) c)) by (by rewrite L1).
    rewrite <- L1 in G1. rewrite Ew. eapply wp_mono; [apply (bridge_ok c s1 G1 H2)|]. intros [] s2 (b & Hb & ->).
    set (s2 := set_outs _ _). assert (P2 : polling lr q s2) by (by split). eapply wp_mono; [apply (poll_rest lr q cs ps s2 P2 Hc E)|].
    intros r s' (K1 & K2 & K3). split; [done|]. split; [done|]. rewrite K3. cbn [s2 outs set_outs]. by rewrite deliveries_app.
Qed.

Fixpoint poll_rounds (n : nat) : M unit := match n with O => mret tt | S n => SerialAPI_Poll handlers ;; poll_rounds n end.

(** C28: The commands of at most 180 bytes the module has sent for nodes of the bridge reach the application in the
    order in which they came, each once and unchanged: any number of calls of [SerialAPI_Poll], between which such
    commands arrive, behave like a queue that takes at most ten of them, from which each call takes one.  Commands
    that find ten waiting are lost, although the frame was acknowledged. *)
Theorem serial_poll_is_queue lr q css ps s : polling lr q s -> Forall (Forall (good lr)) css -> polls s = concat (map (fun cs => draining (map (command_frame lr) cs)) css) ++ ps ->
  exists s', poll_rounds (length css) s = Ok (tt, s') /\ deliveries (outs s') = deliveries (outs s) ++ map delivered (fifo q css).1 /\
    rxQueue s' = map (waits lr) (fifo q css).2 /\ polls s' = ps.
Proof.
  intros P Hc E. assert (W : wp (poll_rounds (length css)) (fun _ s' => deliveries (outs s') = deliveries (outs s) ++ map delivered (fifo q css).1 /\
    rxQueue s' = map (waits lr) (fifo q css).2 /\ polls s' = ps) s); [|destruct (wp_run _ _ _ W) as ([] & s' & Ex & K); by exists s'].
  revert q s P E. induction Hc as [|cs css H1 Hc IH]; intros q s P E; cbn [length poll_rounds].
  - apply end_ret. cbn. rewrite app_nil_r. split; [done|]. split; [apply P|exact E].
  - cbn [map concat] in E. rewrite <- app_assoc in E. apply wp_bind. eapply wp_mono; [apply (poll_ok lr q cs _ s P H1 E)|]. intros r s1 (P1 & E1 & D1).
    eapply wp_mono; [apply (IH _ s1 P1 E1)|]. intros [] s2 (K1 & K2 & K3). cbn [fifo]. destruct (fifo (push_all (tail q) cs) css) as [given rest]. cbn [fst snd] in *.
    split; [by rewrite K1, D1, map_app, app_assoc|done].
Qed.
End Polling.

End SerialApiSpec.
