(* ===== verification/SerialApiRuns.v ===== *)
(** * Runs of the serial API (src/serialapi/Serialapi.c)

    The theorems at work on concrete frames, and what the commands do when the module does not answer or its
    frames are longer than expected. *)
From S2P Require Import Prelude Effects ConHandle SerialApi SerialCommands SerialApiSpec.
Import Effects SerialApi SerialCommands SerialApiSpec.
Import ConHandle(frame_bytes, T_CON_TYPE(..)).

Module SerialApiRuns.

(** A module that takes every command; [lr]: with node ids of two bytes. *)
Definition con0 : ConHandle.Con := ConHandle.mkCon (replicate 255 0) 0 ConHandle.stateSOFHunt 0 false false [] [].
Definition sa0 (lr : bool) (ps : list poll) (rs : list nat) : SA :=
  mkSA con0 [] (replicate 180 0) (replicate 180 0) 0 0 0 lr (replicate 29 0xFF) 0 0 0 0 0 [] ps rs [].

(** The module says nothing, an ACK, or a frame. *)
Definition quiet : poll := poll_of Quiet.
Definition ack : poll := poll_of Ack.
Definition gives (f : frm) : poll := poll_of (Frame f).
Definition replies (cmd : Z) (l : list Z) : poll := gives (mkFrm RESPONSE cmd l).
Definition asks (tag : Z) : frm := mkFrm REQUEST 0xEE [tag].

Definition result {A} (m : M A) (s : SA) : A + fault := match m s with Ok (a, _) => inl a | Fault f => inr f end.
Definition written {A} (m : M A) (s : SA) : list Z := match m s with Ok (_, s') => ConHandle.output (con s') | Fault _ => [] end.
Definition told {A} (m : M A) (s : SA) : list output := match m s with Ok (_, s') => outs s' | Fault _ => [] end.
Definition queued {A} (m : M A) (s : SA) : list (list Z) := match m s with Ok (_, s') => rxQueue s' | Fault _ => [] end.
Definition all_handlers (h : handler) : bool := true.

(** ** The theorems at work *)

(** The first attempt is refused while a request comes, the second is not answered; a third reaches the module, and
    a request comes before the response. *)
Definition talk1 : talk :=
  mkTalk [asks 1] [mkAttempt [(0%nat, asks 2)] 1 (Refused true) [[asks 3]]; mkAttempt [] 0 NoAck [[]; [asks 4]]] [] 1 [(0%nat, Frame (asks 5))] 2 [1; 4; 11; 12; 13; 14].

Lemma talk1_ok cmd : talk_ok cmd talk1.
Proof.
  split; cbn.
  - repeat constructor.
  - split; [|lia]. repeat constructor.
  - constructor.
  - split; [|lia]. repeat constructor.
  - lia.
Qed.

Lemma con0_calm : calm con0.
Proof. by split. Qed.

Lemma serial_command_answered_witness :
  exists s', SendFrameWithResponse FUNC_ID_ZW_GET_RANDOM [4] true (sa0 false (talk_polls FUNC_ID_ZW_GET_RANDOM talk1 ++ []) (talk_rounds talk1 ++ [])) = Ok (conFrameReceived, s') /\
    map (fun f => at_ f 3) (rxQueue s') = [1; 2; 3; 4; 5] /\ sub 5 4 (buffer s') = [11; 12; 13; 14].
Proof.
  edestruct (serial_command_answered FUNC_ID_ZW_GET_RANDOM [4] talk1 (sa0 false (talk_polls FUNC_ID_ZW_GET_RANDOM talk1 ++ []) (talk_rounds talk1 ++ [])) [] [])
    as (s' & E & B & _ & Q & _).
  - apply con0_calm.
  - apply talk1_ok.
  - cbn. lia.
  - reflexivity.
  - reflexivity.
  - cbn. lia.
  - reflexivity.
  - reflexivity.
  - exists s'. split; [exact E|]. split; [by rewrite Q|]. revert B. generalize (buffer s'). intros b B.
    change (length (content (response_of FUNC_ID_ZW_GET_RANDOM talk1))) with 9%nat in B. unfold sub.
    change (take 4 (drop 5 b)) with (take (9 - 5) (drop 5 b)). by rewrite <- skipn_firstn_comm, B.
Defined.

(** Three bytes for node 5 are taken by the module; 177 overrun the buffer. *)
Definition talk2 : talk := mkTalk [] [] [] 0 [] 0 [1].

Lemma talk2_ok cmd : talk_ok cmd talk2.
Proof. split; cbn; try split; try constructor; lia. Qed.

Lemma send_data_bounds_witness :
  ZW_SendData 5 (replicate 177 7) 177 0 true (sa0 false [] []) = Fault OutOfBounds /\
  exists s', ZW_SendData 5 [0x20; 0x01; 0xFF] 3 0x25 true (sa0 false (talk_polls FUNC_ID_ZW_SEND_DATA talk2 ++ []) []) = Ok (1, s') /\
    ConHandle.output (con s') = frame_bytes FUNC_ID_ZW_SEND_DATA REQUEST [5; 3; 0x20; 0x01; 0xFF; 0x25; 1] ++ [0x06] /\ is_registered FUNC_ID_ZW_SEND_DATA s' = true.
Proof.
  split.
  - refine (proj1 (proj2 (send_data_bounds 5 (replicate 177 7) 0 true (sa0 false [] []) eq_refl)) _). cbn. lia.
  - destruct (proj2 (proj2 (send_data_bounds 5 [0x20; 0x01; 0xFF] 0x25 true (sa0 false (talk_polls FUNC_ID_ZW_SEND_DATA talk2 ++ []) []) eq_refl)) ltac:(cbn; lia) talk2 1 [] [])
      as (s' & E & [K1 _ K3 _]); [apply con0_calm|apply talk2_ok|vm_compute; reflexivity|reflexivity|reflexivity|reflexivity|].
    exists s'. split; [exact E|]. split; [rewrite K1|rewrite K3]; vm_compute; reflexivity.
Defined.

(** Two commands arrive before the first call and one before the second. *)
Definition command_of (lr : bool) (tag : Z) : command := mkCommand 0 1 (if lr then 300 else 30) [0x20; 0x01; tag] [].

Lemma command_of_good lr tag : good lr (command_of lr tag).
Proof. destruct lr; (split; [split; [|split]|]); unfold id_ok, short, BUF_SIZE; cbn; lia. Qed.

Definition arrivals : list (list command) := [[command_of true 1; command_of true 2]; [command_of true 3]; []].

Lemma serial_poll_is_queue_witness :
  exists s', poll_rounds all_handlers 3 (sa0 true (concat (map (fun cs => draining (map (command_frame true) cs)) arrivals) ++ []) []) = Ok (tt, s') /\
    deliveries (outs s') = [BridgeCommandReceived 0 1 300 [0x20; 0x01; 1]; BridgeCommandReceived 0 1 300 [0x20; 0x01; 2]] /\ length (rxQueue s') = 1%nat.
Proof.
  destruct (serial_poll_is_queue all_handlers eq_refl true [] arrivals [] (sa0 true (concat (map (fun cs => draining (map (command_frame true) cs)) arrivals) ++ []) []))
    as (s' & E & D & Q & _).
  - split; done.
  - repeat constructor; apply command_of_good.
  - reflexivity.
  - exists s'. split; [exact E|]. split; [rewrite D|rewrite Q]; vm_compute; reflexivity.
Defined.

(** ** What else happens *)

(** The module does not answer: the random bytes of the last call are returned once more. *)
Example random_repeated :
  result (a ← SerialAPI_GetRandom 4; b ← SerialAPI_GetRandom 4; mret (a, b)) (sa0 false [quiet; ack; replies FUNC_ID_ZW_GET_RANDOM [1; 4; 11; 12; 13; 14]] [])
  = inl (Some [11; 12; 13; 14], Some [11; 12; 13; 14]).
Proof. vm_compute. reflexivity. Qed.

(** No response to the question for the node id: the module is told to forget its network. *)
Example no_response_resets_module :
  result MemoryGetID (sa0 false [quiet; ack] []) = inl ([0; 0; 0; 0], 1)
  /\ written MemoryGetID (sa0 false [quiet; ack; poll_of GiveUp; poll_of GiveUp; poll_of GiveUp; quiet; ack] [])
     = frame_bytes FUNC_ID_MEMORY_GET_ID REQUEST [] ++ frame_bytes FUNC_ID_ZW_SET_DEFAULT REQUEST [0].
Proof. vm_compute. done. Qed.

(** Three requests between the acknowledgement and the response: the response is not looked for any more. *)
Example three_requests_hide_response :
  result (SendFrameWithResponse FUNC_ID_ZW_GET_VERSION [] true) (sa0 false [quiet; ack; gives (asks 1); gives (asks 2); gives (asks 3); replies FUNC_ID_ZW_GET_VERSION [1]] [])
  = inl conIdle.
Proof. vm_compute. reflexivity. Qed.

(** Of eleven requests the last is acknowledged and lost. *)
Example eleventh_request_lost (fs := map (fun n => asks (Z.of_nat n)) (seq 1 11)) :
  map (fun f => at_ f 3) (queued DrainRX (sa0 false (draining fs) [])) = [1; 2; 3; 4; 5; 6; 7; 8; 9; 10] /\ written DrainRX (sa0 false (draining fs) []) = replicate 11 0x06.
Proof. vm_compute. done. Qed.

(** A command of 181 bytes is copied past the end of [pCmd]. *)
Example long_command_overruns :
  result (Dispatch all_handlers (content (command_frame false (mkCommand 0 1 30 (replicate 181 0) []))) 188) (sa0 false [] []) = inr OutOfBounds.
Proof. vm_compute. reflexivity. Qed.

(** A response of more than 180 bytes is copied past the end of [buffer]. *)
Example long_response_overruns :
  result (SendFrameWithResponse FUNC_ID_MEMORY_GET_BUFFER [0; 0; 178] true) (sa0 false [quiet; ack; replies FUNC_ID_MEMORY_GET_BUFFER (replicate 178 0)] []) = inr OutOfBounds.
Proof. vm_compute. reflexivity. Qed.

(** Node 0x0105 is included, with status 0, at the places the frame has them: another node is reported, and the
    bytes that follow are shifted.  Without long range the variable for the node is not set. *)
Example included_node_misread (f := mkFrm REQUEST FUNC_ID_ZW_APPLICATION_CONTROLLER_UPDATE [0x86; 1; 5; 0; 0xC0; 0xC1; 0xC2; 0xC3; 0]) :
  told (Dispatch all_handlers (content f) 12) (sa0 true [] []) = [ControllerUpdate 0x86 0x500 [0xC0; 0xC1; 0xC2; 0xC3; 0] None]
  /\ result (Dispatch all_handlers (content f) 12) (sa0 false [] []) = inr OutOfBounds.
Proof. vm_compute. done. Qed.

(** The callback for a new primary controller is kept under another number than that of the command sent. *)
Example new_primary_not_told (status := fun cmd => content (mkFrm REQUEST cmd [3; 1])) :
  told (ZW_CreateNewPrimaryCtrl 2 true ;; Dispatch all_handlers (status FUNC_ID_ZW_NEW_CONTROLLER) 5) (sa0 false [quiet; ack] []) = []
  /\ told (ZW_CreateNewPrimaryCtrl 2 true ;; Dispatch all_handlers (status FUNC_ID_ZW_CREATE_NEW_PRIMARY) 5) (sa0 false [quiet; ack] []) = [Learned FUNC_ID_ZW_CREATE_NEW_PRIMARY 1 0 []].
Proof. vm_compute. done. Qed.

(** The state is sent as the second parameter, after what the buffer holds. *)
Example enable_suc_shifted : written (push 0x55 ;; ZW_EnableSUC 1 2) (sa0 false [quiet; ack] []) = frame_bytes FUNC_ID_ZW_ENABLE_SUC REQUEST [0x55; 1; 2].
Proof. vm_compute. reflexivity. Qed.

(** The node the multicast is sent from is written where the list of nodes goes, and is overwritten. *)
Example multicast_without_source :
  written (start ;; SerialAPI_ZW_SendDataMulti_Bridge 1 [5; 6] [0x20] 1 0x25 false) (sa0 false [quiet; ack] []) = frame_bytes FUNC_ID_ZW_SEND_DATA_MULTI_BRIDGE REQUEST [2; 5; 6; 1; 0x20; 0x25; 0].
Proof. vm_compute. reflexivity. Qed.

(** Two chunks of 128 bytes: for the second, 256 bytes are read from the buffer of 180. *)
Example second_chunk_overreads (chunk := fun more off => [more; off; 128] ++ replicate 128 0xAA) :
  result (SerialAPI_GetLRNodeList (replicate 512 0)) (sa0 true [quiet; ack; replies FUNC_ID_SERIAL_API_GET_LR_NODES (chunk 1 0); quiet; ack; replies FUNC_ID_SERIAL_API_GET_LR_NODES (chunk 0 1)] [])
  = inr OutOfBounds.
Proof. vm_compute. reflexivity. Qed.

(** The parameters of the last command are sent with the reset. *)
Example reset_with_parameters : written (start ;; pushes [7; 8] ;; ZW_SoftReset) (sa0 false [quiet; ack] []) = frame_bytes FUNC_ID_SERIAL_API_SOFT_RESET REQUEST [7; 8].
Proof. vm_compute. reflexivity. Qed.

(** No response: the number of channels and their strengths are what the stack holds. *)
Example background_rssi_unset : result ZW_GetBackgroundRSSI (sa0 false [quiet; ack] []) = inr OutOfBounds.
Proof. vm_compute. reflexivity. Qed.

(** Node ids of one byte are agreed on, and two bytes are still used. *)
Example ids_stay_wide :
  result (SerialAPI_DisableLR ;; s ← get; mret (lr_enabled s)) (set_supported_setup 0x80 (sa0 true [quiet; ack; replies FUNC_ID_SERIALAPI_SETUP [0x80; 1]] [])) = inl true.
Proof. vm_compute. reflexivity. Qed.

(** The two bytes of the build number 0x0102 are merged into one. *)
Example build_number_merged :
  result ZW_GetProtocolVersion (sa0 false [quiet; ack; replies FUNC_ID_ZW_GET_PROTOCOL_VERSION [0; 7; 15; 0; 1; 2]] []) = inl (Some ([0; 7; 15; 0], Some 3, None)).
Proof. vm_compute. reflexivity. Qed.

End SerialApiRuns.
