(* ===== verification/SerialTimers.v ===== *)
(** * Timers of the serial API (src/serialapi/Serialapi.c)

    Sixteen timers, named by their places, that call a function a number of times.  A function may itself start,
    restart and cancel timers. *)
From S2P Require Import Prelude Effects.
Import Effects.

Module SerialTimers.

Definition TIMERS : nat := 16.
Definition TIMER_FOREVER : Z := 0xFF.
Definition TIMER_ONE_TIME : Z := 0.

(** A place is free when it has no function; [running]: its timer of the operating system is set. *)
Record ZW_timer := mkTimer { fn : option Z; repeats : Z; interval : Z; running : bool }.
Definition no_timer : ZW_timer := mkTimer None 0 0 false.
Record TS := mkTS { timers : list ZW_timer; fired : list Z }.
Definition set_timers (l : list ZW_timer) (s : TS) : TS := mkTS l (fired s).
Definition set_fired (l : list Z) (s : TS) : TS := mkTS (timers s) l.
Abbreviation M := (Eff TS).

Definition timer (i : nat) : M ZW_timer := s ← get; of_option OutOfBounds (timers s !! i).
Definition put_timer (i : nat) (t : ZW_timer) : M unit := modify (fun s => set_timers (<[i := t]> (timers s)) s).

(** The first free place takes the timer; 0xFF: there is none. *)
Definition ZW_LTimerStart (func timerTicks n : Z) : M Z :=
  s ← get;
  match list_find (fun t => fn t = None) (timers s) with
  | Some (i, _) => put_timer i (mkTimer (Some func) n (timerTicks * 10) true) ;; mret (Z.of_nat i)
  | None => mret 0xFF
  end.

Definition ZW_LTimerRestart (handle : Z) : M Z :=
  if handle <? Z.of_nat TIMERS then t ← timer (Z.to_nat handle); put_timer (Z.to_nat handle) (mkTimer (fn t) (repeats t) (interval t) true) ;; mret 1 else mret 0.

Definition ZW_LTimerCancel (handle : Z) : M Z :=
  if handle <? Z.of_nat TIMERS then t ← timer (Z.to_nat handle); put_timer (Z.to_nat handle) (mkTimer None (repeats t) (interval t) false) ;; mret 1 else mret 0.

(** What a function does with timers. *)
Inductive call := Start (func ticks n : Z) | Restart (handle : Z) | Cancel (handle : Z).

Section Functions.
Context (prog : Z -> list call).

Fixpoint calls (l : list call) : M unit :=
  match l with
  | [] => mret tt
  | Start func ticks n :: l => ZW_LTimerStart func ticks n ;; calls l
  | Restart h :: l => ZW_LTimerRestart h ;; calls l
  | Cancel h :: l => ZW_LTimerCancel h ;; calls l
  end.

(** The fields are read again after the function has been called. *)
Definition timer_timeout (i : nat) : M unit :=
  t ← timer i;
  match fn t with Some c => modify (fun s => set_fired (fired s ++ [c]) s) ;; calls (prog c) | None => mret tt end ;;
  t ← timer i;
  let r := if (0 <? repeats t) && negb (repeats t =? TIMER_FOREVER) then repeats t - 1 else repeats t in
  if r =? 0 then put_timer i (mkTimer None r (interval t) (running t)) else put_timer i (mkTimer (fn t) r (interval t) true).

(** The operating system's timer of a place expires. *)
Definition expire (i : nat) : M unit := t ← timer i; put_timer i (mkTimer (fn t) (repeats t) (interval t) false) ;; timer_timeout i.
Fixpoint expire_times (n i : nat) : M unit := match n with O => mret tt | S n => expire i ;; expire_times n i end.

Lemma expire_run i t c s : timers s !! i = Some t -> fn t = Some c -> prog c = [] ->
  expire i s = Ok (tt, mkTS (<[i := let r := if (0 <? repeats t) && negb (repeats t =? TIMER_FOREVER) then repeats t - 1 else repeats t in
    if r =? 0 then mkTimer None r (interval t) false else mkTimer (Some c) r (interval t) true]> (timers s)) (fired s ++ [c])).
Proof.
  intros Hi Hf Hp. unfold expire, timer_timeout, timer, put_timer, mbind, Eff_bind, get, modify, of_option. rewrite Hi. cbn. rewrite list_lookup_insert_eq by (by eapply lookup_lt_Some). cbn.
  rewrite Hf, Hp. cbn. rewrite list_lookup_insert_eq by (by eapply lookup_lt_Some). cbn. destruct (_ =? 0); cbn; by rewrite list_insert_insert_eq.
Qed.

(** A timer for [n] calls, of a function that leaves the timers alone, makes exactly them and is then free. *)
Lemma timer_fires_n n : (1 <= n < 255)%nat -> forall i t c s, timers s !! i = Some t -> fn t = Some c -> prog c = [] -> repeats t = Z.of_nat n ->
  expire_times n i s = Ok (tt, mkTS (<[i := mkTimer None 0 (interval t) false]> (timers s)) (fired s ++ replicate n c)).
Proof.
  induction n as [|n IH]; intros Hn i t c s Hi Hf Hp Hr; [lia|]. cbn [expire_times]. unfold mbind, Eff_bind. rewrite (expire_run i t c s Hi Hf Hp). rewrite Hr.
  rewrite (proj2 (Z.ltb_lt _ _)) by lia. rewrite (proj2 (Z.eqb_neq (Z.of_nat (S n)) TIMER_FOREVER)) by (unfold TIMER_FOREVER; lia). cbn [andb negb]. cbv zeta.
  replace (Z.of_nat (S n) - 1) with (Z.of_nat n) by lia. destruct n as [|n]; [done|]. rewrite (proj2 (Z.eqb_neq _ _)) by lia.
  rewrite (IH ltac:(lia) i (mkTimer (Some c) (Z.of_nat (S n)) (interval t) true) c); try done; [|cbn; apply list_lookup_insert_eq; by eapply lookup_lt_Some].
  cbn [timers fired interval]. by rewrite list_insert_insert_eq, <- app_assoc.
Qed.
End Functions.

(** ** Runs *)

Definition idle : TS := mkTS (replicate TIMERS no_timer) [].
Definition outcome {A} (m : M A) : option (list Z * list (option Z)) := match m idle with Ok (_, s) => Some (fired s, map fn (take 3 (timers s))) | Fault _ => None end.

(** The function 1 cancels its own timer, which has expired, and starts another, for one call: the new timer is
    in the old place and is taken for the old one, so the function 2 is never called. *)
Example replacement_forgotten : outcome (ZW_LTimerStart 1 5 TIMER_ONE_TIME ;; expire (fun c => if c =? 1 then [Cancel 0; Start 2 5 TIMER_ONE_TIME] else []) 0) = Some ([1], [None; None; None]).
Proof. vm_compute. reflexivity. Qed.

(** The handle of a timer that is over cancels the timer that has taken its place. *)
Example stale_handle_cancels : outcome (ZW_LTimerStart 1 5 TIMER_ONE_TIME ;; expire (fun _ => []) 0 ;; ZW_LTimerStart 2 5 TIMER_ONE_TIME ;; ZW_LTimerCancel 0) = Some ([1], [None; None; None]).
Proof. vm_compute. reflexivity. Qed.

(** A timer for one time calls once. *)
Example one_time : outcome (ZW_LTimerStart 1 5 TIMER_ONE_TIME ;; expire (fun _ => []) 0) = Some ([1], [None; None; None]).
Proof. vm_compute. reflexivity. Qed.

End SerialTimers.
