(* ===== verification/ProvisioningList.v ===== *)
(** * The provisioning list (src/provisioning_list.c)

    The devices that may join the network, by their DSK, with a list of TLVs each.  They are kept in an array of
    slots and written to a file after every change; the file holds the C structures as they are in memory,
    pointers included, and is read when the gateway starts. *)
From S2P Require Import Prelude Effects.
From stdpp Require Import gmap strings.
#[local] Open Scope Z_scope.
Import Effects.

Module ProvisioningList.

Definition PROVISIONING_LIST_SIZE : nat := Z.to_nat 1000.
Definition PROVISIONING_LIST_DSK_MAX_SIZE : Z := 16.
Definition PVS_TLV_TYPE_ADV_JOIN : Z := 0x35.
Definition PVS_STATUS_PENDING : Z := 0.
Definition PVS_BOOTMODE_SMART_START : Z := 1.
Definition PVS_BOOTMODE_LONG_RANGE_SMART_START : Z := 2.

(** ** State *)

(** A pointer to a DSK: null, to freed or unset memory, or to a block of bytes. *)
Inductive ptr := Null | Bad | Block (l : list Z).
#[global] Instance ptr_eq_dec : EqDecision ptr.
Proof. solve_decision. Defined.

(** The length of a TLV is that of its value. *)
Record pvs_tlv := mkTlv { tlv_type : Z; tlv_value : list Z }.
Record provision := mkProvision { dsk : ptr; dsk_len : Z; status : Z; bootmode : Z; tlv_list : list pvs_tlv }.
Definition blank : provision := mkProvision Null 0 0 0 [].

(** The slots, the name of the file and the files of the system. *)
Record PL := mkPL { pvs_list : list provision; pvs_store_filename : option string; files : gmap string (list Z) }.
Definition set_pvs_list (l : list provision) (s : PL) : PL := mkPL l (pvs_store_filename s) (files s).
Definition set_pvs_store_filename (n : option string) (s : PL) : PL := mkPL (pvs_list s) n (files s).
Definition set_files (f : gmap string (list Z)) (s : PL) : PL := mkPL (pvs_list s) (pvs_store_filename s) f.

Abbreviation M := (Eff PL).

(** What memory holds when structures are written: the addresses of the blocks of a slot (8 bytes each), and the
    bytes between the fields. *)
Record image := mkImage { address : nat -> nat -> list Z; padding : nat -> list Z }.

(** The bytes behind a pointer. *)
Definition deref (p : ptr) : M (list Z) := match p with Block l => mret l | _ => fail OutOfBounds end.

(** A slot is changed. *)
Definition put_slot (i : nat) (p : provision) : M unit := modify (fun s => set_pvs_list (<[i := p]> (pvs_list s)) s).
Definition slot (i : nat) : M provision := s ← get; of_option OutOfBounds (pvs_list s !! i).

(** The first slot that passes a test. *)
Fixpoint first_slot (test : provision -> M bool) (i : nat) (l : list provision) : M (option nat) :=
  match l with
  | [] => mret None
  | p :: l => b ← test p; if b : bool then mret (Some i) else first_slot test (S i) l
  end.
Definition search (test : provision -> M bool) : M (option nat) := s ← get; first_slot test 0 (pvs_list s).

(** ** The file *)

Definition pvs_store_hdr : list Z := [122; 103; 119; 112; 118; 115; 115; 116; 111; 114; 101; 118; 49; 46; 48].
Definition pvs_entry : list Z := [112; 118; 115; 32; 101; 110; 116; 114; 121; 32].
(** "pvs entry %03d". *)
Definition pvs_fmt (ii : nat) : list Z :=
  let n := Z.of_nat ii in pvs_entry ++ [48 + n / 100 `mod` 10; 48 + n / 10 `mod` 10; 48 + n `mod` 10].
Definition u32_bytes (x : Z) : list Z := [Z.land x 0xFF; Z.land (Z.shiftr x 8) 0xFF; Z.land (Z.shiftr x 16) 0xFF; Z.land (Z.shiftr x 24) 0xFF].
Definition null_bytes : list Z := replicate 8 0.

(** [struct provision] and [struct pvs_tlv] on a 64-bit machine. *)
Definition sizeof_provision : nat := 32.
Definition sizeof_pvs_tlv : nat := 24.
Definition provision_bytes (m : image) (ii : nat) (p : provision) : list Z :=
  (match dsk p with Null => null_bytes | _ => address m ii 0 end) ++ [dsk_len p] ++ padding m 3 ++ u32_bytes (status p) ++ u32_bytes (bootmode p)
  ++ padding m 4 ++ (match tlv_list p with [] => null_bytes | _ => address m ii 1 end).
Definition pvs_tlv_bytes (m : image) (ii j : nat) (t : pvs_tlv) (last : bool) : list Z :=
  (if last then null_bytes else address m ii (S (S j))) ++ [tlv_type t; Z.of_nat (length (tlv_value t))] ++ padding m 6 ++ address m ii (S j).

Fixpoint tlvs_bytes (m : image) (ii j : nat) (l : list pvs_tlv) : list Z :=
  match l with
  | [] => []
  | t :: l => pvs_tlv_bytes m ii j t (match l with [] => true | _ => false end) ++ tlv_value t ++ tlvs_bytes m ii (S j) l
  end.

Definition pvs_list_dev_store (m : image) (p : provision) (ii : nat) : M (list Z) :=
  d ← deref (dsk p); mret (pvs_fmt ii ++ provision_bytes m ii p ++ d ++ tlvs_bytes m ii 0 (tlv_list p)).

Fixpoint store_all (m : image) (ii : nat) (l : list provision) : M (list Z) :=
  match l with
  | [] => mret []
  | p :: l =>
    x ← (if dsk_len p =? 0 then mret [] else pvs_list_dev_store m p ii);
    y ← store_all m (S ii) l; mret (x ++ y)
  end.

Section Files.
Context (writable : string -> bool) (default_name : string).

Definition pvs_list_persist_in_file (m : image) : M unit :=
  s ← get;
  match pvs_store_filename s with
  | None => mret tt
  | Some f =>
    if negb (writable f) then mret tt else
    x ← store_all m 0 (pvs_list s);
    modify (set_files (<[f := pvs_store_hdr ++ x]> (files s)))
  end.

(** [fread] of one element of [n] bytes: it, and what follows; nothing when the file is shorter, or [n] is 0. *)
Definition fread (n : nat) (bs : list Z) : option (list Z * list Z) :=
  if Nat.eqb n 0 || Nat.ltb (length bs) n then None else Some (take n bs, drop n bs).
Definition is_null (bs : list Z) : bool := bool_decide (bs = null_bytes).

(** A new TLV goes to the front of the list. *)
Definition pvs_tlv_insert_front (t : pvs_tlv) (l : list pvs_tlv) : list pvs_tlv := t :: l.

(** Each TLV says whether another one follows. *)
Fixpoint import_tlvs (fuel : nat) (acc : list pvs_tlv) (bs : list Z) : option (list pvs_tlv * list Z) :=
  match fuel with
  | O => None
  | S fuel =>
    match fread sizeof_pvs_tlv bs with
    | None => None
    | Some (t, bs) =>
      match fread (Z.to_nat (at_ t 9)) bs with
      | None => None
      | Some (v, bs) =>
        let acc := pvs_tlv_insert_front (mkTlv (at_ t 8) v) acc in
        if is_null (take 8 t) then Some (acc, bs) else import_tlvs fuel acc bs
      end
    end
  end.

(** The rest of the file, unless reading stops; a structure of which bytes are missing is copied unset. *)
Definition pvs_list_dev_import (bs : list Z) (ii : nat) : M (option (list Z)) :=
  match fread 13 bs with
  | None => mret None
  | Some (_, bs) =>
    match fread sizeof_provision bs with
    | None => fail OutOfBounds
    | Some (p, bs) =>
      let len := at_ p 8 in
      if len <? 4 then mret None else
      let '(d, bs) := match fread (Z.to_nat len) bs with Some (d, bs) => (Block d, bs) | None => (Bad, []) end in
      match (if is_null (drop 24 p) then Some ([], bs) else import_tlvs (S (length bs)) [] bs) with
      | None => mret None
      | Some (tlvs, bs) => put_slot ii (mkProvision d len (le_val (sub 12 4 p)) (le_val (sub 16 4 p)) tlvs) ;; mret (Some bs)
      end
    end
  end.

Fixpoint import_loop (n ii : nat) (bs : list Z) : M unit :=
  match n with
  | O => mret tt
  | S n => r ← pvs_list_dev_import bs ii; match r with None => mret tt | Some bs => import_loop n (S ii) bs end
  end.

(** FALSE: the file does not hold a provisioning list. *)
Definition pvs_list_import_file (bs : list Z) : M bool :=
  match fread 15 bs with
  | Some (h, bs) => if bool_decide (h = pvs_store_hdr) then import_loop PROVISIONING_LIST_SIZE 0 bs ;; mret true else mret false
  | None => mret false
  end.

Definition pvs_list_store_find_file (f : string) (s : PL) : bool := bool_decide (is_Some (files s !! f)).
Definition pvs_list_store_find (f : option string) (s : PL) : bool := pvs_list_store_find_file (default default_name f) s.

(** The file is created, or emptied. *)
Definition pvs_list_store_writeable_test (f : string) : M bool :=
  if writable f then modify (fun s => set_files (<[f := []]> (files s)) s) ;; mret true else mret false.

Definition pvs_list_store_setup_and_import_file (f : option string) (protect_file : bool) : M bool :=
  match f with
  | None => mret false
  | Some f =>
    s ← get;
    match files s !! f with
    | Some bs => r ← pvs_list_import_file bs; mret (r || negb protect_file)
    | None => pvs_list_store_writeable_test f
    end
  end.

Definition pvs_list_store_setup_and_import (f : option string) : M unit :=
  r ← pvs_list_store_setup_and_import_file f true;
  if negb (r : bool) then
    modify (set_pvs_store_filename (Some default_name)) ;;
    r ← pvs_list_store_setup_and_import_file (Some default_name) false;
    if negb (r : bool) then modify (set_pvs_store_filename None) else mret tt
  else modify (set_pvs_store_filename f).

(** [cfg]: what the reading of the configuration file does. *)
Definition provisioning_list_init (m : image) (storage_filename : option string) (cfg : M unit) : M unit :=
  modify (set_pvs_list (replicate PROVISIONING_LIST_SIZE blank)) ;;
  s ← get;
  (if negb (pvs_list_store_find storage_filename s) then
     ok ← (match storage_filename with Some f => pvs_list_store_writeable_test f | None => mret false end);
     (if ok : bool then modify (set_pvs_store_filename storage_filename)
      else d ← pvs_list_store_writeable_test default_name;
           modify (set_pvs_store_filename (if d : bool then Some default_name else None))) ;;
     cfg
   else pvs_list_store_setup_and_import storage_filename) ;;
  pvs_list_persist_in_file m.

(** ** Devices *)

Definition provisioning_list_get_count (s : PL) : Z := Z.of_nat (length (List.filter (fun p => negb (dsk_len p =? 0)) (pvs_list s))).

(** [included]: the devices the resource directory knows. *)
Fixpoint pending_loop (included : list Z -> bool) (l : list provision) : M Z :=
  match l with
  | [] => mret 0
  | p :: l =>
    x ← (if negb (dsk_len p =? 0) && (status p =? PVS_STATUS_PENDING)
            && ((bootmode p =? PVS_BOOTMODE_SMART_START) || (bootmode p =? PVS_BOOTMODE_LONG_RANGE_SMART_START))
         then d ← deref (dsk p); mret (if included d then 0 else 1) else mret 0);
    y ← pending_loop included l; mret (x + y)
  end.
Definition provisioning_list_pending_count (included : list Z -> bool) : M Z := s ← get; pending_loop included (pvs_list s).

Definition clear_slot (p : provision) : provision := if dsk_len p =? 0 then p else mkProvision Null 0 (status p) (bootmode p) [].
Definition provisioning_list_clear (m : image) : M unit :=
  modify (fun s => set_pvs_list (map clear_slot (pvs_list s)) s) ;; pvs_list_persist_in_file m.

(** The length of [key] is [dsk_len]. *)
Definition same_dsk (key : list Z) (p : provision) : M bool :=
  if negb (dsk_len p =? Z.of_nat (length key)) || bool_decide (dsk p = Null) then mret false
  else d ← deref (dsk p); mret (bool_decide (take (length key) d = key)).
Definition too_short (key : list Z) : bool := Nat.ltb (length key) 4.

Definition provisioning_list_dev_get (key : list Z) : M (option nat) := if too_short key then mret None else search (same_dsk key).

Definition pvs_dev_add (m : image) (key : list Z) (mode : Z) : M (option nat) :=
  r ← search (fun p => mret (dsk_len p =? 0));
  match r with
  | None => mret None
  | Some i => put_slot i (mkProvision (Block key) (Z.of_nat (length key)) PVS_STATUS_PENDING mode []) ;; pvs_list_persist_in_file m ;; mret (Some i)
  end.

Definition provisioning_list_dev_add (m : image) (key : list Z) (mode : Z) : M (option nat) :=
  if too_short key then mret None else
  r ← provisioning_list_dev_get key; match r with Some _ => mret None | None => pvs_dev_add m key mode end.

Definition provisioning_list_bootmode_set (m : image) (pvs : option nat) (mode : Z) : M bool :=
  match pvs with
  | None => mret false
  | Some i => p ← slot i; put_slot i (mkProvision (dsk p) (dsk_len p) (status p) mode (tlv_list p)) ;; pvs_list_persist_in_file m ;; mret true
  end.

Definition provisioning_list_dev_set (m : image) (key : list Z) (mode : Z) : M (option nat) :=
  if too_short key then mret None else
  prev ← provisioning_list_dev_get key;
  match prev with
  | Some i => p ← slot i; put_slot i (mkProvision (dsk p) (dsk_len p) (status p) mode (tlv_list p)) ;; pvs_list_persist_in_file m ;; mret prev
  | None => pvs_dev_add m key mode
  end.

Definition provisioning_list_dev_get_homeid (homeid : list Z) : M (option nat) :=
  search (fun p =>
    if (dsk_len p <? 12) || bool_decide (dsk p = Null) then mret false else
    d ← deref (dsk p); x ← rds d 8 4;
    mret (bool_decide ([Z.lor (at_ x 0) 0xC0; at_ x 1; at_ x 2; Z.land (at_ x 3) 0xFE] = homeid))).

Definition pvs_dev_get_idx (key : list Z) (start_idx : nat) : M (option nat) :=
  search (fun p =>
    if (dsk_len p <? Z.of_nat (length key + start_idx)) || bool_decide (dsk p = Null) then mret false else
    d ← deref (dsk p); x ← rds d start_idx (length key); mret (bool_decide (x = key))).

Definition provisioning_list_dev_match_challenge (challenge : list Z) : M (option nat) :=
  if Nat.leb (length challenge) 2 then mret None else pvs_dev_get_idx (drop 2 (take 16 challenge)) 2.

(** The pointer to the DSK is left as it is. *)
Definition provisioning_list_dev_remove (m : image) (key : list Z) : M bool :=
  if too_short key then mret false else
  r ← search (same_dsk key);
  match r with
  | None => mret false
  | Some i => p ← slot i; put_slot i (mkProvision Bad 0 (status p) (bootmode p) []) ;; pvs_list_persist_in_file m ;; mret true
  end.

Definition provisioning_list_status_set (m : image) (pvs : option nat) (st : Z) : M bool :=
  match pvs with
  | None => fail AssertFailed
  | Some i => p ← slot i; put_slot i (mkProvision (dsk p) (dsk_len p) st (bootmode p) (tlv_list p)) ;; pvs_list_persist_in_file m ;; mret true
  end.

(** ** TLVs *)

Definition provisioning_list_tlv_crt_flag (t : Z) : Z := if t =? PVS_TLV_TYPE_ADV_JOIN then 1 else 0.

Fixpoint pvs_tlv_get (l : list pvs_tlv) (type : Z) : option pvs_tlv :=
  match l with [] => None | t :: l => if tlv_type t =? type then Some t else pvs_tlv_get l type end.

(** The value of the first TLV of that type is replaced; without one the new TLV goes to the front. *)
Fixpoint tlv_replace (l : list pvs_tlv) (type : Z) (val : list Z) : list pvs_tlv :=
  match l with [] => [] | t :: l => if tlv_type t =? type then mkTlv type val :: l else t :: tlv_replace l type val end.
Definition pvs_tlv_set (l : list pvs_tlv) (type : Z) (val : list Z) : list pvs_tlv :=
  match pvs_tlv_get l type with Some _ => tlv_replace l type val | None => pvs_tlv_insert_front (mkTlv type val) l end.

Definition with_tlvs (l : list pvs_tlv) (p : provision) : provision := mkProvision (dsk p) (dsk_len p) (status p) (bootmode p) l.

Definition provisioning_list_tlv_get (pvs : option nat) (type : Z) : M (option pvs_tlv) :=
  match pvs with None => mret None | Some i => p ← slot i; mret (if dsk_len p =? 0 then None else pvs_tlv_get (tlv_list p) type) end.
Definition provisioning_list_tlv_dsk_get (key : list Z) (type : Z) : M (option pvs_tlv) :=
  r ← provisioning_list_dev_get key; match r with None => mret None | Some i => p ← slot i; mret (pvs_tlv_get (tlv_list p) type) end.

Definition provisioning_list_tlv_set (m : image) (pvs : option nat) (type : Z) (val : list Z) : M bool :=
  match pvs with
  | None => mret false
  | Some i =>
    p ← slot i;
    if (dsk_len p =? 0) || Nat.eqb (length val) 0 then mret false else
    put_slot i (with_tlvs (pvs_tlv_set (tlv_list p) type val) p) ;; pvs_list_persist_in_file m ;; mret true
  end.

Fixpoint tlv_unlink (l : list pvs_tlv) (type : Z) : option (list pvs_tlv) :=
  match l with [] => None | t :: l => if tlv_type t =? type then Some l else cons t <$> tlv_unlink l type end.
Definition provisioning_list_tlv_remove (m : image) (pvs : option nat) (type : Z) : M bool :=
  match pvs with
  | None => mret false
  | Some i =>
    p ← slot i;
    if dsk_len p =? 0 then mret false else
    match tlv_unlink (tlv_list p) type with
    | None => mret false
    | Some l => put_slot i (with_tlvs l p) ;; pvs_list_persist_in_file m ;; mret true
    end
  end.

(** ** Iterators *)

Record iter := mkIter { it_id : Z; it_cnt : nat; it_next : nat; entries : list (list Z) }.

Fixpoint iter_loop (l : list provision) : M (list (list Z)) :=
  match l with
  | [] => mret []
  | p :: l =>
    x ← (if bool_decide (dsk p = Null) || (dsk_len p <? 4) || (PROVISIONING_LIST_DSK_MAX_SIZE <? dsk_len p) then mret []
         else d ← deref (dsk p); mret [d]);
    y ← iter_loop l; mret (x ++ y)
  end.
Definition provisioning_list_iterator_get (id : Z) : M iter := s ← get; l ← iter_loop (pvs_list s); mret (mkIter id (length l) 0 l).
Definition provisioning_list_iter_get_next (it : iter) : M (option nat * iter) :=
  if Nat.leb (it_cnt it) (it_next it) then mret (None, it) else
  d ← of_option OutOfBounds (entries it !! it_next it);
  r ← provisioning_list_dev_get d; mret (r, mkIter (it_id it) (it_cnt it) (S (it_next it)) (entries it)).
Definition provisioning_list_iter_get_index (it : iter) (i : nat) : M (option nat) :=
  if Nat.leb (it_cnt it) i then mret None else d ← of_option OutOfBounds (entries it !! i); provisioning_list_dev_get d.

End Files.

End ProvisioningList.
