(* ===== verification/ProvisioningSpec.v ===== *)
(** * What the provisioning list does (src/provisioning_list.c)

    The list is a finite map from DSKs to devices, each with a finite map from types to values, and stays one when
    the gateway is started again from its file. *)
From S2P Require Import Prelude Effects ProvisioningList.
From stdpp Require Import gmap strings.
Import Effects ProvisioningList.
#[local] Open Scope Z_scope.

Module ProvisioningSpec.

(** ** The map *)

Record entry := mkEntry { e_status : Z; e_mode : Z; e_tlvs : gmap Z (list Z) }.
Abbreviation devices := (gmap (list Z) entry).

Definition tlv_pairs (l : list pvs_tlv) : list (Z * list Z) := map (fun t => (tlv_type t, tlv_value t)) l.
Definition tlv_map (l : list pvs_tlv) : gmap Z (list Z) := list_to_map (tlv_pairs l).
Definition view (p : provision) : entry := mkEntry (status p) (bootmode p) (tlv_map (tlv_list p)).
Definition dev_of (p : provision) : option (list Z * entry) :=
  if dsk_len p =? 0 then None else match dsk p with Block d => Some (d, view p) | _ => None end.
Definition devs (l : list provision) : list (list Z * entry) := omap dev_of l.
Definition device_map (l : list provision) : devices := list_to_map (devs l).

(** ** The invariant *)

Definition is_u32 (x : Z) : Prop := 0 <= x < 2 ^ 32.

Record tlvs_ok (l : list pvs_tlv) : Prop := {
  tv_types : NoDup (map tlv_type l);
  tv_lengths : Forall (fun t => (1 <= length (tlv_value t) <= 255)%nat) l
}.

(** A slot in use; a slot that is not has no TLVs. *)
Record used (d : list Z) (p : provision) : Prop := {
  us_dsk : dsk p = Block d;
  us_len : dsk_len p = Z.of_nat (length d);
  us_size : (4 <= length d <= 255)%nat;
  us_status : is_u32 (status p);
  us_mode : is_u32 (bootmode p);
  us_tlvs : tlvs_ok (tlv_list p)
}.
Definition free (p : provision) : Prop := dsk_len p = 0 /\ tlv_list p = [].
Definition slot_ok (p : provision) : Prop := free p \/ exists d, used d p.

Record slots_ok (l : list provision) : Prop := {
  sl_length : length l = PROVISIONING_LIST_SIZE;
  sl_slots : Forall slot_ok l;
  sl_unique : NoDup ((devs l).*1)
}.

Lemma dev_free p : free p -> dev_of p = None.
Proof. intros [H _]. unfold dev_of. by rewrite H. Qed.

Lemma dev_used d p : used d p -> dev_of p = Some (d, view p).
Proof. intros [H1 H2 H3 _ _ _]. unfold dev_of. rewrite H2, (proj2 (Z.eqb_neq _ _)) by lia. by rewrite H1. Qed.

Lemma devs_app a b : devs (a ++ b) = devs a ++ devs b.
Proof. apply omap_app. Qed.

Lemma devs_none p : dev_of p = None -> devs [p] = [].
Proof. intros E. unfold devs. cbn. by rewrite E. Qed.
Lemma devs_some p x : dev_of p = Some x -> devs [p] = [x].
Proof. intros E. unfold devs. cbn. by rewrite E. Qed.

(** ** Changes of one slot *)

Section Slot.
Context (l : list provision) (i : nat) (p : provision) (Hi : l !! i = Some p) (Hu : NoDup ((devs l).*1)).

Lemma devs_split : devs l = devs (take i l) ++ devs [p] ++ devs (drop (S i) l).
Proof. rewrite <- (take_drop_middle l i p Hi) at 1. by rewrite (cons_middle p), !devs_app. Qed.

Lemma devs_insert q : devs (<[i := q]> l) = devs (take i l) ++ devs [q] ++ devs (drop (S i) l).
Proof. rewrite insert_take_drop by (by eapply lookup_lt_Some). by rewrite (cons_middle q), !devs_app. Qed.

Lemma map_split d e : dev_of p = Some (d, e) ->
  device_map l = <[d := e]> (list_to_map (devs (take i l) ++ devs (drop (S i) l))) /\ (list_to_map (devs (take i l) ++ devs (drop (S i) l)) : devices) !! d = None.
Proof.
  intros E. assert (Es : devs l ≡ₚ (d, e) :: devs (take i l) ++ devs (drop (S i) l)).
  { rewrite devs_split, (devs_some p _ E). cbn [app]. symmetry. apply Permutation_middle. }
  assert (Hn : NoDup ((d, e) :: devs (take i l) ++ devs (drop (S i) l)).*1) by (by rewrite <- Es).
  split; [|apply not_elem_of_list_to_map_1; cbn in Hn; by apply NoDup_cons in Hn as [Hn _]].
  unfold device_map. by rewrite (list_to_map_proper _ _ Hu Es).
Qed.

Lemma map_replaced d e q e' : dev_of p = Some (d, e) -> dev_of q = Some (d, e') ->
  device_map (<[i := q]> l) = <[d := e']> (device_map l) /\ (devs (<[i := q]> l)).*1 = (devs l).*1.
Proof.
  intros E Eq. assert (F : (devs (<[i := q]> l)).*1 = (devs l).*1).
  { by rewrite devs_insert, devs_split, !fmap_app, (devs_some p _ E), (devs_some q _ Eq). }
  split; [|exact F]. destruct (map_split d e E) as [-> _]. rewrite insert_insert_eq. unfold device_map.
  rewrite <- F in Hu. rewrite (list_to_map_proper _ ((d, e') :: devs (take i l) ++ devs (drop (S i) l)) Hu); [done|].
  rewrite devs_insert, (devs_some q _ Eq). cbn [app]. symmetry. apply Permutation_middle.
Qed.

Lemma map_removed d e q : dev_of p = Some (d, e) -> dev_of q = None ->
  device_map (<[i := q]> l) = delete d (device_map l) /\ NoDup ((devs (<[i := q]> l)).*1).
Proof.
  intros E Eq. destruct (map_split d e E) as [-> N]. rewrite delete_insert_id by done. unfold device_map. rewrite devs_insert, (devs_none q Eq). cbn [app].
  split; [done|]. rewrite devs_split, (devs_some p _ E) in Hu. rewrite !fmap_app in *. cbn [fmap list_fmap app fst] in Hu. apply NoDup_app in Hu as (H1 & H2 & H3). apply NoDup_cons in H3 as [_ H3].
  apply NoDup_app. split; [done|]. split; [|done]. intros x Hx Hy. apply (H2 x Hx). by right.
Qed.

Lemma map_added d e q : dev_of p = None -> dev_of q = Some (d, e) -> device_map l !! d = None ->
  device_map (<[i := q]> l) = <[d := e]> (device_map l) /\ NoDup ((devs (<[i := q]> l)).*1).
Proof.
  intros E Eq N. assert (El : devs l = devs (take i l) ++ devs (drop (S i) l)) by (by rewrite devs_split, (devs_none p E)).
  assert (Ps : devs (<[i := q]> l) ≡ₚ (d, e) :: devs l).
  { rewrite devs_insert, El, (devs_some q _ Eq). symmetry. apply Permutation_middle. }
  assert (Hn : NoDup ((devs (<[i := q]> l)).*1)).
  { rewrite Ps. cbn [fmap list_fmap fst]. apply NoDup_cons. split; [|done]. by apply not_elem_of_list_to_map_2. }
  split; [|done]. unfold device_map. by rewrite (list_to_map_proper _ _ Hn Ps).
Qed.
End Slot.

(** ** Search *)

Lemma first_slot_run (test : provision -> M bool) (t : provision -> bool) l i s : Forall (fun p => test p s = Ok (t p, s)) l ->
  first_slot test i l s = Ok ((fun x => (i + x.1)%nat) <$> list_find (fun p => t p = true) l, s).
Proof.
  intros H. revert i. induction H as [|p l Hp H IH]; intros i; [done|]. cbn [first_slot list_find]. unfold mbind at 1, Eff_bind. rewrite Hp.
  destruct (t p) eqn:E; [rewrite decide_True by done; cbn; by rewrite Nat.add_0_r|]. rewrite decide_False by congruence. rewrite IH.
  destruct (list_find _ l) as [[k x]|]; [cbn; by rewrite Nat.add_succ_r|done].
Qed.

(** The slot of a device. *)
Definition has_dsk (key : list Z) (p : provision) : bool := match dev_of p with Some (d, _) => bool_decide (d = key) | None => false end.

Lemma same_dsk_run key p s : slot_ok p -> (4 <= length key)%nat -> same_dsk key p s = Ok (has_dsk key p, s).
Proof.
  intros [F|[d U]] Hk; unfold same_dsk, has_dsk.
  - rewrite (dev_free p F). destruct F as [F _]. rewrite F, (proj2 (Z.eqb_neq 0 _)) by lia. done.
  - rewrite (dev_used d p U). destruct U as [U1 U2 _ _ _ _]. rewrite U1, U2, (bool_decide_eq_false_2 (Block d = Null)) by done. rewrite orb_false_r.
    destruct (Z.eqb_spec (Z.of_nat (length d)) (Z.of_nat (length key))) as [E|E]; cbn [negb].
    + change (Ok (bool_decide (take (length key) d = key), s) = Ok (bool_decide (d = key), s)). by rewrite take_ge by lia.
    + rewrite bool_decide_eq_false_2; [done|]. by intros ->.
Qed.

Lemma has_dsk_true key p : has_dsk key p = true -> exists e, dev_of p = Some (key, e).
Proof. unfold has_dsk. destruct (dev_of p) as [[d e]|]; [|done]. intros H%bool_decide_eq_true. subst. by exists e. Qed.

Lemma lookup_device l i p d e : slots_ok l -> l !! i = Some p -> dev_of p = Some (d, e) -> device_map l !! d = Some e.
Proof. intros H Hi E. destruct (map_split l i p Hi (sl_unique _ H) d e E) as [-> _]. apply lookup_insert_eq. Qed.

Lemma lookup_absent l key : Forall (fun p => ~ has_dsk key p = true) l -> device_map l !! key = None.
Proof.
  intros H. apply not_elem_of_list_to_map_1. intros ([d e] & Ed & Hd)%list_elem_of_fmap. cbn in Ed. subst d.
  apply list_elem_of_omap in Hd as (p & Hp & E). eapply Forall_forall in H; [|exact Hp]. apply H. unfold has_dsk. rewrite E. by apply bool_decide_eq_true.
Qed.

(** What the search for a device finds. *)
Inductive found (l : list provision) (key : list Z) : option nat -> Prop :=
| FoundNone : device_map l !! key = None -> found l key None
| FoundSome i p e : l !! i = Some p -> used key p -> e = view p -> device_map l !! key = Some e -> found l key (Some i).

Lemma used_of p d e : slot_ok p -> dev_of p = Some (d, e) -> used d p /\ e = view p.
Proof. intros [F|[d' U]] E; [by rewrite (dev_free p F) in E|]. rewrite (dev_used d' p U) in E. injection E as <- <-. done. Qed.

Lemma find_dsk_run key s : slots_ok (pvs_list s) -> (4 <= length key)%nat -> exists r, search (same_dsk key) s = Ok (r, s) /\ found (pvs_list s) key r.
Proof.
  intros H Hk. unfold search, mbind, Eff_bind, get. rewrite (first_slot_run _ (has_dsk key)).
  2:{ eapply Forall_impl; [apply (sl_slots _ H)|]. intros p Hp. by apply same_dsk_run. }
  destruct (list_find (fun p => has_dsk key p = true) (pvs_list s)) as [[i p]|] eqn:E.
  - apply list_find_Some in E as (Hi & Hp & _). exists (Some i). split; [done|]. apply has_dsk_true in Hp as [e Hp].
    destruct (used_of p key e) as [U Ee]; [exact (proj1 (Forall_lookup _ _) (sl_slots _ H) i p Hi)|done|].
    econstructor; [exact Hi|exact U|exact Ee|]. by eapply lookup_device.
  - apply list_find_None in E. exists None. split; [done|]. constructor. by apply lookup_absent.
Qed.

Lemma short_absent l key : slots_ok l -> (length key < 4)%nat -> device_map l !! key = None.
Proof.
  intros H Hk. apply lookup_absent. eapply Forall_impl; [apply (sl_slots _ H)|]. intros p Hp [e E]%has_dsk_true. destruct (used_of p key e Hp E) as [[_ _ U _ _ _] _]. lia.
Qed.

Lemma dev_get_run key s : slots_ok (pvs_list s) -> exists r, provisioning_list_dev_get key s = Ok (r, s) /\ found (pvs_list s) key r.
Proof.
  intros H. unfold provisioning_list_dev_get, too_short. destruct (Nat.ltb_spec (length key) 4) as [Hk|Hk]; [|by apply find_dsk_run].
  exists None. split; [done|]. constructor. by apply short_absent.
Qed.

(** A free slot, unless the list is full. *)
Lemma size_devs l : slots_ok l -> size (device_map l) = length (devs l).
Proof.
  intros H. unfold device_map. pose proof (sl_unique _ H) as Hn. clear H. induction (devs l) as [|[d e] k IH]; [done|]. cbn [fmap list_fmap fst] in Hn. apply NoDup_cons in Hn as [Hd Hn].
  cbn [list_to_map foldr uncurry fst snd length]. rewrite map_size_insert_None; [by rewrite <- IH|]. by apply not_elem_of_list_to_map_1.
Qed.

Lemma count_devs l : Forall slot_ok l -> length (List.filter (fun p => negb (dsk_len p =? 0)) l) = length (devs l).
Proof.
  induction 1 as [|p l [F|[d U]] H IH]; [done|..]; change (devs (p :: l)) with (devs ([p] ++ l)); rewrite devs_app; cbn [List.filter].
  - rewrite (devs_none p (dev_free p F)). destruct F as [F _]. rewrite F. exact IH.
  - rewrite (devs_some p _ (dev_used d p U)). destruct U as [_ U2 U3 _ _ _]. rewrite U2, (proj2 (Z.eqb_neq _ _)) by lia. cbn. by rewrite IH.
Qed.

Lemma find_free_run s : slots_ok (pvs_list s) -> exists r, search (fun p => mret (dsk_len p =? 0)) s = Ok (r, s) /\
  match r with Some i => exists p, pvs_list s !! i = Some p /\ free p /\ (size (device_map (pvs_list s)) < PROVISIONING_LIST_SIZE)%nat | None => size (device_map (pvs_list s)) = PROVISIONING_LIST_SIZE end.
Proof.
  intros H. unfold search, mbind, Eff_bind, get. rewrite (first_slot_run _ (fun p => dsk_len p =? 0)) by (apply Forall_forall; done). rewrite (size_devs _ H).
  destruct (list_find (fun p => (dsk_len p =? 0) = true) (pvs_list s)) as [[i p]|] eqn:E.
  - apply list_find_Some in E as (Hi & Hp%Z.eqb_eq & _). exists (Some i). split; [done|]. exists p. split; [done|].
    assert (F : free p). { destruct (proj1 (Forall_lookup _ _) (sl_slots _ H) i p Hi) as [F|[d [_ U2 U3 _ _ _]]]; [done|lia]. } split; [done|].
    assert (Hl : forall k, (length (devs k) <= length k)%nat) by (intros k; induction k as [|x k IH]; [done|]; change (devs (x :: k)) with (omap dev_of (x :: k)); cbn; destruct (dev_of x); cbn; unfold devs in IH; lia).
    pose proof (f_equal length (devs_split _ i p Hi)) as D. pose proof (f_equal length (take_drop_middle _ i p Hi)) as T. rewrite (devs_none p (dev_free p F)) in D.
    rewrite !length_app in D. rewrite length_app, (sl_length _ H) in T. cbn [length] in D, T. pose proof (Hl (take i (pvs_list s))). pose proof (Hl (drop (S i) (pvs_list s))). lia.
  - apply list_find_None in E. exists None. split; [done|]. rewrite <- (sl_length _ H), <- (count_devs _ (sl_slots _ H)). clear H. induction E as [|p l Hp E IH]; [done|].
    cbn [List.filter]. destruct (dsk_len p =? 0); [done|]. cbn. by rewrite IH.
Qed.

(** ** TLVs *)

Lemma tlv_map_cons t l : tlv_map (t :: l) = <[tlv_type t := tlv_value t]> (tlv_map l).
Proof. done. Qed.

Lemma tlv_get_map l ty : tlv_map l !! ty = tlv_value <$> pvs_tlv_get l ty.
Proof.
  induction l as [|t l IH]; [apply lookup_empty|]. rewrite tlv_map_cons. cbn [pvs_tlv_get]. destruct (Z.eqb_spec (tlv_type t) ty) as [->|N]; [by rewrite lookup_insert_eq|].
  by rewrite lookup_insert_ne.
Qed.

Lemma tlv_replace_map l ty v t : pvs_tlv_get l ty = Some t -> tlv_map (tlv_replace l ty v) = <[ty := v]> (tlv_map l).
Proof.
  induction l as [|x l IH]; [done|]. cbn [pvs_tlv_get tlv_replace]. destruct (Z.eqb_spec (tlv_type x) ty) as [E|N]; intros H.
  - rewrite !tlv_map_cons, E. cbn [tlv_type tlv_value]. by rewrite insert_insert_eq.
  - rewrite !tlv_map_cons, (IH H). by rewrite insert_insert_ne.
Qed.

Lemma tlv_replace_types l ty v : map tlv_type (tlv_replace l ty v) = map tlv_type l.
Proof. induction l as [|x l IH]; [done|]. cbn [tlv_replace]. destruct (Z.eqb_spec (tlv_type x) ty) as [E|N]; cbn; [by rewrite E|by rewrite IH]. Qed.

Lemma no_tlv l ty : pvs_tlv_get l ty = None -> ty ∉ map tlv_type l.
Proof.
  induction l as [|x l IH]; [intros _; apply not_elem_of_nil|]. cbn [pvs_tlv_get map]. destruct (Z.eqb_spec (tlv_type x) ty) as [E|N]; [done|]. intros H. apply not_elem_of_cons. split; [congruence|by apply IH].
Qed.

Lemma tlv_set_ok l ty v : tlvs_ok l -> (1 <= length v <= 255)%nat -> tlv_map (pvs_tlv_set l ty v) = <[ty := v]> (tlv_map l) /\ tlvs_ok (pvs_tlv_set l ty v).
Proof.
  intros [H1 H2] Hv. unfold pvs_tlv_set. destruct (pvs_tlv_get l ty) as [t|] eqn:E.
  - split; [by eapply tlv_replace_map|]. split; [by rewrite tlv_replace_types|]. clear E H1. induction H2 as [|x l Hx H2 IH]; [constructor|]. cbn [tlv_replace].
    destruct (tlv_type x =? ty); by constructor.
  - split; [done|]. split; [|by constructor]. cbn. apply NoDup_cons. split; [by apply no_tlv|done].
Qed.

Lemma tlv_unlink_ok l ty : tlvs_ok l ->
  match tlv_unlink l ty with
  | Some l' => tlv_map l' = delete ty (tlv_map l) /\ tlvs_ok l' /\ is_Some (tlv_map l !! ty) /\ (forall x, x ∈ map tlv_type l' -> x ∈ map tlv_type l)
  | None => tlv_map l !! ty = None
  end.
Proof.
  induction l as [|x l IH]; intros [H1 H2]; [apply lookup_empty|]. cbn [tlv_unlink map] in *. apply NoDup_cons in H1 as [Hx H1]. apply Forall_cons in H2 as [Hl H2].
  rewrite !tlv_map_cons. destruct (Z.eqb_spec (tlv_type x) ty) as [E|N].
  - split; [|split; [done|split; [rewrite E, lookup_insert_eq; by eexists|intros y Hy; by right]]]. rewrite E, delete_insert_id; [done|]. rewrite <- E. apply not_elem_of_list_to_map_1.
    intros ([y v] & Ey & Hy)%list_elem_of_fmap. apply Hx. cbn in Ey. subst y. apply list_elem_of_In, in_map_iff in Hy as (z & [= <- <-] & Hz). apply list_elem_of_In. by apply in_map.
  - specialize (IH {| tv_types := H1; tv_lengths := H2 |}). destruct (tlv_unlink l ty) as [l'|]; cbn [fmap option_fmap option_map].
    + destruct IH as (I1 & [I2 I3] & I4 & I5). split; [rewrite tlv_map_cons, I1; by rewrite delete_insert_ne|]. split; [split; [|by constructor]|].
      * cbn. apply NoDup_cons. split; [|done]. intros Hy. apply Hx, I5, Hy.
      * split; [by rewrite lookup_insert_ne|]. intros y. cbn. rewrite !elem_of_cons. intros [->|Hy]; [by left|right; by apply I5].
    + by rewrite lookup_insert_ne.
Qed.

Lemma tlv_map_reverse l : tlvs_ok l -> tlv_map (rev l) = tlv_map l /\ tlvs_ok (rev l).
Proof.
  intros [H1 H2]. assert (P : tlv_pairs (rev l) ≡ₚ tlv_pairs l) by (unfold tlv_pairs; apply Permutation_map; symmetry; apply Permutation_rev).
  assert (Hk : forall k, (tlv_pairs k).*1 = map tlv_type k) by (intros k; induction k as [|x k IH]; [done|]; cbn; f_equal; exact IH).
  assert (N : NoDup (map tlv_type (rev l))) by (by rewrite <- Hk, P, Hk).
  split; [unfold tlv_map; apply list_to_map_proper; [by rewrite Hk|exact P]|]. split; [exact N|]. eapply Forall_forall. intros t Ht.
  apply (proj1 (Forall_forall _ _) H2). apply list_elem_of_In. apply list_elem_of_In in Ht. by apply in_rev.
Qed.

(** ** The file *)

Record image_ok (m : image) : Prop := {
  im_address : forall i j, length (address m i j) = 8%nat /\ address m i j <> null_bytes;
  im_padding : forall n, length (padding m n) = n
}.

(** What is written for a slot, and for all. *)
Definition dev_bytes (m : image) (ii : nat) (p : provision) : list Z :=
  match dsk p with Block d => pvs_fmt ii ++ provision_bytes m ii p ++ d ++ tlvs_bytes m ii 0 (tlv_list p) | _ => [] end.
Fixpoint slots_bytes (m : image) (ii : nat) (l : list provision) : list Z :=
  match l with [] => [] | p :: l => (if dsk_len p =? 0 then [] else dev_bytes m ii p) ++ slots_bytes m (S ii) l end.
Definition file_of (m : image) (l : list provision) : list Z := pvs_store_hdr ++ slots_bytes m 0 l.

Lemma store_all_run m l ii s : Forall slot_ok l -> store_all m ii l s = Ok (slots_bytes m ii l, s).
Proof.
  intros H. revert ii. induction H as [|p l Hp H IH]; intros ii; [done|]. cbn [store_all slots_bytes].
  assert (Hx : (if dsk_len p =? 0 then mret [] else pvs_list_dev_store m p ii) s = Ok (if dsk_len p =? 0 then [] else dev_bytes m ii p, s)).
  { destruct (Z.eqb_spec (dsk_len p) 0) as [E|E]; [done|]. destruct Hp as [[F _]|[d [U _ _ _ _ _]]]; [done|]. unfold pvs_list_dev_store, dev_bytes. by rewrite U. }
  rewrite (tm_bind_ok _ _ _ _ _ Hx), (tm_bind_ok _ _ _ _ _ (IH (S ii))). done.
Qed.

Lemma fread_app n a b : length a = n -> (1 <= n)%nat -> fread n (a ++ b) = Some (a, b).
Proof.
  intros <- Hn. unfold fread. rewrite (proj2 (Nat.eqb_neq _ _)) by lia. rewrite (proj2 (Nat.ltb_ge _ _)) by (rewrite length_app; lia). by rewrite take_app_length, drop_app_length.
Qed.

Lemma le_u32 x : is_u32 x -> le_val (u32_bytes x) = x.
Proof.
  intros H. unfold is_u32, u32_bytes in *. cbn [le_val]. change 0xFF with (Z.ones 8). rewrite !Z.land_ones, !Z.shiftr_div_pow2 by lia.
  change (2 ^ 8) with 256. change (2 ^ 16) with (256 * 256). change (2 ^ 24) with (256 * 256 * 256). rewrite <- !Z.div_div by lia.
  pose proof (Z.div_mod x 256 ltac:(lia)). pose proof (Z.div_mod (x / 256) 256 ltac:(lia)). pose proof (Z.div_mod (x / 256 / 256) 256 ltac:(lia)).
  pose proof (Z.mod_pos_bound x 256). pose proof (Z.mod_pos_bound (x / 256) 256). pose proof (Z.mod_pos_bound (x / 256 / 256) 256).
  rewrite (Z.mod_small (x / 256 / 256 / 256)); lia.
Qed.

Lemma bytes8 (l : list Z) : length l = 8%nat -> exists a b c d e f g h, l = [a; b; c; d; e; f; g; h].
Proof. intros H. do 8 (destruct l as [|? l]; [done|]). destruct l; [|done]. by repeat eexists. Qed.

(** The fields of a structure are read back. *)
Lemma provision_read m ii p (q := provision_bytes m ii p) : image_ok m -> is_u32 (status p) -> is_u32 (bootmode p) ->
  length q = sizeof_provision /\ at_ q 8 = dsk_len p /\ le_val (sub 12 4 q) = status p /\ le_val (sub 16 4 q) = bootmode p /\
  is_null (drop 24 q) = match tlv_list p with [] => true | _ => false end.
Proof.
  intros [A P] Hs Hm. set (x := match dsk p with Null => null_bytes | _ => address m ii 0 end). set (y := match tlv_list p with [] => null_bytes | _ => address m ii 1 end).
  assert (Hx : length x = 8%nat) by (unfold x; destruct (dsk p); by apply A || done). assert (Hy : length y = 8%nat) by (unfold y; destruct (tlv_list p); by apply A || done).
  assert (Eq : q = x ++ [dsk_len p] ++ padding m 3 ++ u32_bytes (status p) ++ u32_bytes (bootmode p) ++ padding m 4 ++ y) by done.
  assert (En : is_null y = match tlv_list p with [] => true | _ => false end).
  { unfold is_null, y. destruct (tlv_list p); [by apply bool_decide_eq_true|apply bool_decide_eq_false, A]. }
  clearbody x y q. subst q. destruct (bytes8 x Hx) as (? & ? & ? & ? & ? & ? & ? & ? & ->).
  pose proof (P 3%nat) as P3. pose proof (P 4%nat) as P4. destruct (padding m 3) as [|? [|? [|? [|? ?]]]]; try done. destruct (padding m 4) as [|? [|? [|? [|? [|? ?]]]]]; try done.
  cbn [app]. split; [by cbn; rewrite Hy|]. split; [done|]. split; [exact (le_u32 _ Hs)|]. split; [exact (le_u32 _ Hm)|exact En].
Qed.

Lemma tlv_read m ii j t last (q := pvs_tlv_bytes m ii j t last) : image_ok m ->
  length q = sizeof_pvs_tlv /\ at_ q 8 = tlv_type t /\ at_ q 9 = Z.of_nat (length (tlv_value t)) /\ is_null (take 8 q) = last.
Proof.
  intros [A P]. set (x := if last then null_bytes else address m ii (S (S j))). assert (Hx : length x = 8%nat) by (unfold x; destruct last; by apply A || done).
  assert (En : is_null x = last) by (unfold is_null, x; destruct last; [by apply bool_decide_eq_true|apply bool_decide_eq_false, A]).
  assert (Eq : q = x ++ [tlv_type t; Z.of_nat (length (tlv_value t))] ++ padding m 6 ++ address m ii (S j)) by done. clearbody x q. subst q.
  pose proof (P 6%nat) as P6. pose proof (proj1 (A ii (S j))) as Ha. destruct (bytes8 x Hx) as (? & ? & ? & ? & ? & ? & ? & ? & ->).
  split; [rewrite !length_app, P6, Ha; done|]. done.
Qed.

Lemma import_tlvs_ok m ii l rest : image_ok m -> Forall (fun t => (1 <= length (tlv_value t) <= 255)%nat) l -> l <> [] ->
  forall j acc fuel, (length l <= fuel)%nat -> import_tlvs fuel acc (tlvs_bytes m ii j l ++ rest) = Some (rev l ++ acc, rest).
Proof.
  intros Hm H. induction H as [|t l Ht H IH]; intros Hl j acc fuel Hf; [done|]. destruct fuel as [|fuel]; [cbn in Hf; lia|]. cbn [import_tlvs tlvs_bytes].
  rewrite <- !app_assoc. set (last := match l with [] => true | _ => false end). destruct (tlv_read m ii j t last Hm) as (E1 & E2 & E3 & E4).
  rewrite (fread_app sizeof_pvs_tlv) by (done || (unfold sizeof_pvs_tlv; lia)). rewrite E2, E3, E4, Nat2Z.id. rewrite fread_app by (done || lia). unfold pvs_tlv_insert_front.
  replace (mkTlv (tlv_type t) (tlv_value t)) with t by (by destruct t). destruct l as [|t' l']; [done|]. cbn [last]. rewrite IH by (done || (cbn in *; lia)).
  cbn [rev]. by rewrite <- !app_assoc.
Qed.

Lemma length_tlvs_bytes m ii l : image_ok m -> forall j, (length l <= length (tlvs_bytes m ii j l))%nat.
Proof.
  intros Hm. induction l as [|t l IH]; intros j; [done|]. cbn [tlvs_bytes length]. rewrite !length_app. specialize (IH (S j)).
  set (last := match l with [] => true | _ => false end). destruct (tlv_read m ii j t last Hm) as (E1 & _). rewrite E1. unfold sizeof_pvs_tlv. lia.
Qed.

(** A device as it is read: its TLVs are in reverse order. *)
Definition reread (p : provision) : provision := mkProvision (dsk p) (dsk_len p) (status p) (bootmode p) (rev (tlv_list p)).

Lemma dev_import_ok m ii k d p rest s : image_ok m -> used d p ->
  pvs_list_dev_import (dev_bytes m ii p ++ rest) k s = Ok (Some rest, set_pvs_list (<[k := reread p]> (pvs_list s)) s).
Proof.
  intros Hm [U1 U2 U3 U4 U5 [U6 U7]]. unfold pvs_list_dev_import, dev_bytes. rewrite U1, <- !app_assoc.
  rewrite (fread_app 13) by (done || lia). destruct (provision_read m ii p Hm U4 U5) as (E1 & E2 & E3 & E4 & E5).
  rewrite (fread_app sizeof_provision) by (done || (unfold sizeof_provision; lia)). cbv zeta. rewrite E2, E3, E4, E5, U2. rewrite (proj2 (Z.ltb_ge _ _)) by lia.
  rewrite Nat2Z.id, (fread_app (length d)) by (done || lia). unfold reread. rewrite U1, U2.
  destruct (tlv_list p) as [|t l] eqn:El; [done|]. rewrite import_tlvs_ok; [|done|done|done|rewrite length_app; pose proof (length_tlvs_bytes m ii (t :: l) Hm 0); lia].
  rewrite app_nil_r. done.
Qed.

(** The slots after a start: those in use come first. *)
Definition compact (l : list provision) : list provision := map reread (List.filter (fun p => negb (dsk_len p =? 0)) l).

Lemma compact_cons p l : compact (p :: l) = (if dsk_len p =? 0 then [] else [reread p]) ++ compact l.
Proof. unfold compact. cbn [List.filter]. by destruct (dsk_len p =? 0). Qed.

Lemma set_list_same s l : pvs_list s = l -> set_pvs_list l s = s.
Proof. intros <-. by destruct s. Qed.

Lemma import_loop_ok m l : image_ok m -> Forall slot_ok l -> forall ii a r s, pvs_list s = a ++ replicate r blank -> (length (compact l) <= r)%nat ->
  import_loop r (length a) (slots_bytes m ii l) s = Ok (tt, set_pvs_list (a ++ compact l ++ replicate (r - length (compact l)) blank) s).
Proof.
  intros Hm H. induction H as [|p l Hp H IH]; intros ii a r s Es Hr.
  - cbn [compact List.filter map app length]. rewrite Nat.sub_0_r, (set_list_same s _ Es). destruct r as [|r]; done.
  - rewrite compact_cons in *. cbn [slots_bytes]. destruct (Z.eqb_spec (dsk_len p) 0) as [E|E]; [by apply IH|]. destruct Hp as [[F _]|[d U]]; [done|]. cbn [app length] in *.
    destruct r as [|r]; [lia|]. cbn [import_loop]. rewrite (tm_bind_ok _ _ _ _ _ (dev_import_ok m ii (length a) d p _ s Hm U)).
    rewrite Es. cbn [replicate]. rewrite insert_app_r_alt by lia. rewrite Nat.sub_diag. cbn [insert list_insert].
    replace (S (length a)) with (length (a ++ [reread p])) by (rewrite length_app; cbn; lia). rewrite (IH (S ii) (a ++ [reread p]) r); [|cbn; by rewrite <- app_assoc|lia].
    by rewrite <- app_assoc.
Qed.

Lemma reread_used d p : used d p -> used d (reread p) /\ dev_of (reread p) = dev_of p.
Proof.
  intros U. destruct (tlv_map_reverse _ (us_tlvs _ _ U)) as [E T]. assert (V : used d (reread p)) by (destruct U as [U1 U2 U3 U4 U5 U6]; by split). split; [exact V|].
  rewrite (dev_used d _ V), (dev_used d _ U). unfold view, reread. cbn [status bootmode tlv_list]. by rewrite E.
Qed.

Lemma compact_ok l : Forall slot_ok l -> Forall slot_ok (compact l) /\ devs (compact l) = devs l.
Proof.
  induction 1 as [|p l Hp H [I1 I2]]; [done|]. rewrite compact_cons. change (devs (p :: l)) with (devs ([p] ++ l)). rewrite !devs_app, I2.
  destruct (Z.eqb_spec (dsk_len p) 0) as [E|E]; destruct Hp as [F|[d U]].
  - split; [done|]. by rewrite (devs_none p (dev_free p F)).
  - destruct U as [_ U2 U3 _ _ _]. lia.
  - by destruct F.
  - destruct (reread_used d p U) as [V Ev]. split; [constructor; [right; by exists d|done]|]. f_equal. rewrite (devs_some (reread p) (d, view p)), (devs_some p (d, view p)); try done; [by apply dev_used|].
    rewrite Ev. by apply dev_used.
Qed.

Lemma devs_blank n : devs (replicate n blank) = [].
Proof. induction n as [|n IH]; [done|]. exact IH. Qed.

Lemma restarted_ok l : slots_ok l -> let l' := compact l ++ replicate (PROVISIONING_LIST_SIZE - length (compact l)) blank in
  slots_ok l' /\ device_map l' = device_map l /\ (length (compact l) <= PROVISIONING_LIST_SIZE)%nat.
Proof.
  intros [H1 H2 H3] l'. destruct (compact_ok l H2) as [C1 C2]. assert (Hl : (length (compact l) <= PROVISIONING_LIST_SIZE)%nat).
  { rewrite <- H1. unfold compact. rewrite length_map. clear. induction l as [|p l IH]; [done|]. cbn [List.filter length]. destruct (negb _); cbn [length]; lia. }
  assert (D : devs l' = devs l) by (unfold l'; by rewrite devs_app, devs_blank, app_nil_r).
  split; [|split; [unfold device_map; by rewrite D|exact Hl]]. split.
  - unfold l'. rewrite length_app, length_replicate. lia.
  - apply Forall_app. split; [exact C1|]. apply Forall_replicate. by left.
  - by rewrite D.
Qed.

Lemma wp_done {A} (m : M A) (Q : A -> PL -> Prop) s a s' : m s = Ok (a, s') -> Q a s' -> wp m Q s.
Proof. intros E H. unfold wp. by rewrite E. Qed.

(** ** States *)

Section Runs.
Context (writable : string -> bool) (default_name : string) (f : string) (Hf : writable f = true).

(** The list is well formed and its file up to date. *)
Record kept (s : PL) : Prop := {
  kp_slots : slots_ok (pvs_list s);
  kp_name : pvs_store_filename s = Some f;
  kp_file : exists m, image_ok m /\ files s !! f = Some (file_of m (pvs_list s))
}.

(** After a change the file is written. *)
Lemma persist_ok m s : image_ok m -> slots_ok (pvs_list s) -> pvs_store_filename s = Some f ->
  wp (pvs_list_persist_in_file writable m) (fun _ s' => kept s' /\ pvs_list s' = pvs_list s) s.
Proof.
  intros Hm Hs Hn. unfold pvs_list_persist_in_file. apply step_get. rewrite Hn, Hf. cbn [negb]. apply wp_bind. eapply wp_done; [exact (store_all_run m (pvs_list s) 0 s (sl_slots _ Hs))|].
  apply end_modify. split; [|done]. split; [done|done|]. exists m. split; [done|]. cbn [files set_files]. by rewrite lookup_insert_eq.
Qed.

Lemma commit_ok m i q s : image_ok m -> pvs_store_filename s = Some f -> slots_ok (<[i := q]> (pvs_list s)) ->
  forall A (a : A), wp (put_slot i q ;; pvs_list_persist_in_file writable m ;; mret a) (fun r s' => r = a /\ kept s' /\ pvs_list s' = <[i := q]> (pvs_list s)) s.
Proof.
  intros Hm Hn Hs A a. apply step_modify, wp_bind. eapply wp_mono; [by apply persist_ok|]. intros [] s' [K E]. apply end_ret. by split.
Qed.

Lemma pvs_init_ok m s : image_ok m -> kept s ->
  wp (provisioning_list_init writable default_name m (Some f) (mret tt)) (fun _ s' => kept s' /\ device_map (pvs_list s') = device_map (pvs_list s)) s.
Proof.
  intros Hm [K1 K2 (m0 & Hm0 & K3)]. unfold provisioning_list_init. apply step_modify, step_get. unfold pvs_list_store_find, pvs_list_store_find_file. cbn [files set_pvs_list from_option id].
  rewrite K3, bool_decide_eq_true_2 by done. cbn [negb]. apply wp_bind. unfold pvs_list_store_setup_and_import, pvs_list_store_setup_and_import_file. apply wp_bind, step_get. cbn [files set_pvs_list]. rewrite K3.
  apply wp_bind. unfold pvs_list_import_file, file_of. rewrite fread_app by (done || lia). rewrite bool_decide_eq_true_2 by done.
  destruct (restarted_ok _ K1) as (R1 & R2 & R3).
  apply wp_bind. eapply wp_done; [exact (import_loop_ok m0 (pvs_list s) Hm0 (sl_slots _ K1) 0 [] PROVISIONING_LIST_SIZE
    (set_pvs_list (replicate PROVISIONING_LIST_SIZE blank) s) eq_refl R3)|].
  apply end_ret, end_ret. cbn [orb negb]. apply end_modify. eapply wp_mono; [apply (persist_ok m); [done|exact R1|done]|]. intros [] s' [P1 P2]. split; [done|]. rewrite P2. exact R2.
Qed.

(** The first start: there is no file yet. *)
Lemma slots_blank : slots_ok (replicate PROVISIONING_LIST_SIZE blank).
Proof. split; [apply length_replicate|apply Forall_replicate; by left|rewrite devs_blank; constructor]. Qed.

Lemma first_init_ok m s : image_ok m -> files s !! f = None ->
  wp (provisioning_list_init writable default_name m (Some f) (mret tt)) (fun _ s' => kept s' /\ device_map (pvs_list s') = ∅) s.
Proof.
  intros Hm Hn. unfold provisioning_list_init. apply step_modify, step_get. unfold pvs_list_store_find, pvs_list_store_find_file. cbn [files set_pvs_list from_option id].
  rewrite Hn, bool_decide_eq_false_2 by (by intros [? ?]). cbn [negb]. apply wp_bind. apply wp_bind. unfold pvs_list_store_writeable_test. rewrite Hf. apply step_modify, end_ret.
  apply wp_bind, end_modify, end_ret. eapply wp_mono; [apply (persist_ok m); [done|apply slots_blank|done]|]. intros [] s' [P1 P2]. split; [done|]. rewrite P2. unfold device_map. cbn [pvs_list set_pvs_store_filename set_files set_pvs_list]. by rewrite devs_blank.
Qed.
End Runs.

(** ** Operations on the map *)

(** What clients ask for; a device is named by its DSK.  [OpRestart]: the gateway is started again. *)
Inductive op :=
| OpAdd (d : list Z) (mode : Z) | OpSet (d : list Z) (mode : Z) | OpGet (d : list Z) | OpRemove (d : list Z) | OpStatus (d : list Z) (st : Z)
| OpMode (d : list Z) (mode : Z) | OpTlvSet (d : list Z) (ty : Z) (v : list Z) | OpTlvGet (d : list Z) (ty : Z) | OpTlvRemove (d : list Z) (ty : Z)
| OpCount | OpClear | OpRestart.
Inductive obs := Bool (b : bool) | Device (e : option entry) | Value (v : option (list Z)) | Number (n : Z) | Nothing.

Definition isSome {A} (x : option A) : bool := match x with Some _ => true | None => false end.

Definition exec (writable : string -> bool) (default_name f : string) (m : image) (o : op) : M obs :=
  match o with
  | OpAdd d mode => r ← provisioning_list_dev_add writable m d mode; mret (Bool (isSome r))
  | OpSet d mode => r ← provisioning_list_dev_set writable m d mode; mret (Bool (isSome r))
  | OpGet d => r ← provisioning_list_dev_get d; match r with Some i => p ← slot i; mret (Device (Some (view p))) | None => mret (Device None) end
  | OpRemove d => b ← provisioning_list_dev_remove writable m d; mret (Bool b)
  | OpStatus d st => r ← provisioning_list_dev_get d; match r with Some _ => b ← provisioning_list_status_set writable m r st; mret (Bool b) | None => mret (Bool false) end
  | OpMode d mode => r ← provisioning_list_dev_get d; b ← provisioning_list_bootmode_set writable m r mode; mret (Bool b)
  | OpTlvSet d ty v => r ← provisioning_list_dev_get d; b ← provisioning_list_tlv_set writable m r ty v; mret (Bool b)
  | OpTlvGet d ty => r ← provisioning_list_tlv_dsk_get d ty; mret (Value (tlv_value <$> r))
  | OpTlvRemove d ty => r ← provisioning_list_dev_get d; b ← provisioning_list_tlv_remove writable m r ty; mret (Bool b)
  | OpCount => s ← get; mret (Number (provisioning_list_get_count s))
  | OpClear => provisioning_list_clear writable m ;; mret Nothing
  | OpRestart => provisioning_list_init writable default_name m (Some f) (mret tt) ;; mret Nothing
  end.

Fixpoint run (writable : string -> bool) (default_name f : string) (l : list (image * op)) : M (list obs) :=
  match l with [] => mret [] | (m, o) :: l => a ← exec writable default_name f m o; b ← run writable default_name f l; mret (a :: b) end.

(** The same on a finite map that takes 1000 devices. *)
Definition new_device (d : list Z) (mode : Z) (D : devices) : obs * devices :=
  if Nat.ltb (size D) PROVISIONING_LIST_SIZE then (Bool true, <[d := mkEntry PVS_STATUS_PENDING mode ∅]> D) else (Bool false, D).

Definition spec_op (o : op) (D : devices) : obs * devices :=
  match o with
  | OpAdd d mode => if too_short d || isSome (D !! d) then (Bool false, D) else new_device d mode D
  | OpSet d mode =>
    if too_short d then (Bool false, D) else
    match D !! d with Some e => (Bool true, <[d := mkEntry (e_status e) mode (e_tlvs e)]> D) | None => new_device d mode D end
  | OpGet d => (Device (D !! d), D)
  | OpRemove d => (Bool (isSome (D !! d)), delete d D)
  | OpStatus d st => match D !! d with Some e => (Bool true, <[d := mkEntry st (e_mode e) (e_tlvs e)]> D) | None => (Bool false, D) end
  | OpMode d mode => match D !! d with Some e => (Bool true, <[d := mkEntry (e_status e) mode (e_tlvs e)]> D) | None => (Bool false, D) end
  | OpTlvSet d ty v =>
    match D !! d, v with
    | Some e, _ :: _ => (Bool true, <[d := mkEntry (e_status e) (e_mode e) (<[ty := v]> (e_tlvs e))]> D)
    | _, _ => (Bool false, D)
    end
  | OpTlvGet d ty => (Value (D !! d ≫= fun e => e_tlvs e !! ty), D)
  | OpTlvRemove d ty =>
    match D !! d with
    | Some e => if isSome (e_tlvs e !! ty) then (Bool true, <[d := mkEntry (e_status e) (e_mode e) (delete ty (e_tlvs e))]> D) else (Bool false, D)
    | None => (Bool false, D)
    end
  | OpCount => (Number (Z.of_nat (size D)), D)
  | OpClear => (Nothing, ∅)
  | OpRestart => (Nothing, D)
  end.
Fixpoint spec_run (l : list op) (D : devices) : list obs * devices :=
  match l with [] => ([], D) | o :: l => let '(a, D) := spec_op o D in let '(b, D) := spec_run l D in (a :: b, D) end.

(** Lengths are bytes, and the fields 32 bits wide. *)
Definition op_ok (o : op) : Prop :=
  match o with
  | OpAdd d mode | OpSet d mode => (length d <= 255)%nat /\ is_u32 mode
  | OpStatus _ x | OpMode _ x => is_u32 x
  | OpTlvSet _ _ v => (length v <= 255)%nat
  | _ => True
  end.

Lemma slots_changed l i q : slots_ok l -> slot_ok q -> NoDup (devs (<[i := q]> l)).*1 -> slots_ok (<[i := q]> l).
Proof. intros [H1 H2 H3] Hq Hn. split; [by rewrite length_insert|by apply Forall_insert|done]. Qed.

Lemma change_ok l i p d q : slots_ok l -> l !! i = Some p -> used d p -> used d q -> slots_ok (<[i := q]> l) /\ device_map (<[i := q]> l) = <[d := view q]> (device_map l).
Proof.
  intros H Hi U V. destruct (map_replaced l i p Hi (sl_unique _ H) d (view p) q (view q) (dev_used d p U) (dev_used d q V)) as [E N]. split; [|exact E].
  apply slots_changed; [done|right; by exists d|]. rewrite N. apply H.
Qed.

Section Steps.
Context (writable : string -> bool) (default_name f : string) (Hf : writable f = true).
Abbreviation keeps := (kept f).

(** The slot of a device is replaced. *)
Lemma replace_ok m i p d q s A (a : A) (Q : A -> PL -> Prop) : image_ok m -> keeps s -> pvs_list s !! i = Some p -> used d p -> used d q ->
  (forall s', keeps s' -> device_map (pvs_list s') = <[d := view q]> (device_map (pvs_list s)) -> Q a s') ->
  wp (put_slot i q ;; pvs_list_persist_in_file writable m ;; mret a) Q s.
Proof.
  intros Hm K Hi U V HQ. destruct (change_ok _ i p d q (kp_slots _ _ K) Hi U V) as [S E]. eapply wp_mono; [apply (commit_ok writable f Hf m i q s Hm (kp_name _ _ K) S)|].
  intros r s' (-> & K' & El). apply HQ; [done|]. by rewrite El.
Qed.

Lemma slot_run i p s B (k : provision -> M B) Q : pvs_list s !! i = Some p -> wp (k p) Q s -> wp (slot i ≫= k) Q s.
Proof. intros Hi H. apply wp_bind. unfold slot. apply step_get. by rewrite Hi. Qed.

(** A search gives a device, or there is none. *)
Lemma get_step d s B (k : option nat -> M B) Q : keeps s ->
  (device_map (pvs_list s) !! d = None -> wp (k None) Q s) ->
  (forall i p, pvs_list s !! i = Some p -> used d p -> device_map (pvs_list s) !! d = Some (view p) -> wp (k (Some i)) Q s) ->
  wp (provisioning_list_dev_get d ≫= k) Q s.
Proof.
  intros K H1 H2. apply wp_bind. destruct (dev_get_run d s (kp_slots _ _ K)) as (r & E & F). eapply wp_done; [exact E|]. destruct F as [F|i p e Hi U -> F]; [by apply H1|by apply (H2 i p)].
Qed.

Lemma add_ok m d mode s : image_ok m -> keeps s -> (4 <= length d <= 255)%nat -> is_u32 mode -> device_map (pvs_list s) !! d = None ->
  wp (pvs_dev_add writable m d mode) (fun r s' => keeps s' /\ (Bool (isSome r), device_map (pvs_list s')) = new_device d mode (device_map (pvs_list s))) s.
Proof.
  intros Hm K Hd Hmode Hn. destruct (find_free_run s (kp_slots _ _ K)) as (r & E & R). unfold pvs_dev_add. apply wp_bind. eapply wp_done; [exact E|]. unfold new_device.
  destruct r as [i|].
  - destruct R as (p & Hi & F & Hsize). rewrite (proj2 (Nat.ltb_lt _ _) Hsize). set (q := mkProvision (Block d) _ _ _ _).
    assert (V : used d q) by (split; try done; split; constructor).
    destruct (map_added _ i p Hi (sl_unique _ (kp_slots _ _ K)) d (view q) q (dev_free p F) (dev_used d q V) Hn) as [Ed Nd].
    eapply wp_mono; [apply (commit_ok writable f Hf m i q s Hm (kp_name _ _ K))|].
    + apply slots_changed; [apply K|right; by exists d|done].
    + intros r s' (-> & K' & El). split; [done|]. rewrite El, Ed. done.
  - rewrite R, Nat.ltb_irrefl. apply end_ret. done.
Qed.
End Steps.

Lemma cleared_ok l : slots_ok l -> slots_ok (map clear_slot l) /\ device_map (map clear_slot l) = ∅.
Proof.
  intros [H1 H2 _]. assert (F : Forall free (map clear_slot l)).
  { clear H1. induction H2 as [|p l Hp H2 IH]; constructor; [|exact IH]. unfold clear_slot. destruct (Z.eqb_spec (dsk_len p) 0) as [E|E]; [|done].
    destruct Hp as [F|[d [_ U2 U3 _ _ _]]]; [done|lia]. }
  assert (D : devs (map clear_slot l) = []). { induction F as [|p k Hp F IH]; [done|]. change (devs (p :: k)) with (devs ([p] ++ k)). by rewrite devs_app, IH, (devs_none p (dev_free p Hp)). }
  split; [split|unfold device_map; by rewrite D].
  - by rewrite length_map.
  - eapply Forall_impl; [exact F|]. by left.
  - rewrite D. constructor.
Qed.

Section Refinement.
Context (writable : string -> bool) (default_name f : string) (Hf : writable f = true).

(** Only the map is of interest after a step. *)
Definition agrees (o : op) (s : PL) (r : obs) (s' : PL) : Prop := kept f s' /\ (r, device_map (pvs_list s')) = spec_op o (device_map (pvs_list s)).

Lemma device_op_ok m o s : image_ok m -> kept f s -> op_ok o ->
  match o with OpAdd _ _ | OpSet _ _ | OpGet _ | OpRemove _ | OpStatus _ _ | OpMode _ _ => wp (exec writable default_name f m o) (agrees o s) s | _ => True end.
Proof.
  intros Hm K Ho. unfold agrees. destruct o as [d mode|d mode|d|d|d st|d mode|d ty v|d ty|d ty| | |]; try exact I; cbn [exec spec_op op_ok] in *.
  - destruct Ho as [Hd Hmode]. apply wp_bind. unfold provisioning_list_dev_add, too_short. destruct (Nat.ltb_spec (length d) 4) as [L|L]; [apply end_ret, end_ret; done|]. cbn [orb].
    apply (get_step f d s _ _ _ K); [intros E|intros i p Hi U E]; rewrite E; cbn [isSome].
    + eapply wp_mono; [by apply (add_ok writable f Hf m d mode s)|]. intros r s' [K' R]. apply end_ret. by split.
    + apply end_ret, end_ret. done.
  - destruct Ho as [Hd Hmode]. apply wp_bind. unfold provisioning_list_dev_set, too_short. destruct (Nat.ltb_spec (length d) 4) as [L|L]; [apply end_ret, end_ret; done|].
    apply (get_step f d s _ _ _ K); [intros E|intros i p Hi U E]; rewrite E.
    + eapply wp_mono; [by apply (add_ok writable f Hf m d mode s)|]. intros r s' [K' R]. apply end_ret. by split.
    + apply (slot_run i p _ _ _ _ Hi), (replace_ok writable f Hf m i p d _ s _ _ _ Hm K Hi U); [by destruct U; split|]. intros s' K' E'. apply end_ret. split; [done|]. by rewrite E'.
  - apply (get_step f d s _ _ _ K); [intros E|intros i p Hi U E]; rewrite E; [by apply end_ret|]. by apply (slot_run i p _ _ _ _ Hi), end_ret.
  - apply wp_bind. unfold provisioning_list_dev_remove, too_short. destruct (Nat.ltb_spec (length d) 4) as [L|L].
    + apply end_ret, end_ret. rewrite (short_absent _ d (kp_slots _ _ K) L). split; [done|]. rewrite delete_id; [done|]. by apply short_absent; [apply K|].
    + apply wp_bind. destruct (find_dsk_run d s (kp_slots _ _ K) L) as (r & E & F). eapply wp_done; [exact E|]. destruct F as [F|i p e Hi U -> F]; rewrite F.
      * apply end_ret, end_ret. split; [done|]. by rewrite delete_id.
      * apply (slot_run i p _ _ _ _ Hi). set (q := mkProvision Bad _ _ _ _). assert (Fq : free q) by done.
        destruct (map_removed _ i p Hi (sl_unique _ (kp_slots _ _ K)) d _ q (dev_used d p U) (dev_free q Fq)) as [Ed Nd].
        eapply wp_mono; [apply (commit_ok writable f Hf m i q s Hm (kp_name _ _ K))|]; [apply slots_changed; [apply K|by left|done]|].
        intros b s' (-> & K' & El). apply end_ret. split; [done|]. by rewrite El, Ed.
  - apply (get_step f d s _ _ _ K); [intros E|intros i p Hi U E]; rewrite E; [by apply end_ret|]. apply wp_bind. cbn [provisioning_list_status_set].
    apply (slot_run i p _ _ _ _ Hi), (replace_ok writable f Hf m i p d _ s _ _ _ Hm K Hi U); [by destruct U; split|]. intros s' K' E'. apply end_ret. split; [done|]. by rewrite E'.
  - apply (get_step f d s _ _ _ K); [intros E|intros i p Hi U E]; rewrite E; apply wp_bind; [by apply end_ret, end_ret|]. cbn [provisioning_list_bootmode_set].
    apply (slot_run i p _ _ _ _ Hi), (replace_ok writable f Hf m i p d _ s _ _ _ Hm K Hi U); [by destruct U; split|]. intros s' K' E'. apply end_ret. split; [done|]. by rewrite E'.
Qed.

Lemma used_nonzero d p : used d p -> (dsk_len p =? 0) = false.
Proof. intros [_ U2 U3 _ _ _]. rewrite U2. apply Z.eqb_neq. lia. Qed.

Lemma pvs_exec_ok m o s : image_ok m -> kept f s -> op_ok o -> wp (exec writable default_name f m o) (agrees o s) s.
Proof.
  intros Hm K Ho. pose proof (device_op_ok m o s Hm K Ho) as HD. unfold agrees in *. destruct o as [d mode|d mode|d|d|d st|d mode|d ty v|d ty|d ty| | |]; try exact HD; clear HD; cbn [exec spec_op op_ok] in *.
  - apply (get_step f d s _ _ _ K); [intros E|intros i p Hi U E]; rewrite E; apply wp_bind; [by apply end_ret, end_ret|]. cbn [provisioning_list_tlv_set].
    apply (slot_run i p _ _ _ _ Hi). rewrite (used_nonzero d p U). cbn [orb]. destruct v as [|x v]; [by apply end_ret, end_ret|]. cbn [length Nat.eqb].
    destruct (tlv_set_ok (tlv_list p) ty (x :: v) (us_tlvs _ _ U) ltac:(cbn in *; lia)) as [E1 E2].
    apply (replace_ok writable f Hf m i p d _ s _ _ _ Hm K Hi U); [by destruct U; split|]. intros s' K' E'. apply end_ret. split; [done|]. rewrite E'. unfold view at 1, with_tlvs. cbn [status bootmode tlv_list]. by rewrite E1.
  - apply wp_bind. unfold provisioning_list_tlv_dsk_get. apply (get_step f d s _ _ _ K); [intros E|intros i p Hi U E]; rewrite E; [by apply end_ret, end_ret|].
    apply (slot_run i p _ _ _ _ Hi), end_ret, end_ret. split; [done|]. cbn [mbind option_bind view e_tlvs]. by rewrite tlv_get_map.
  - apply (get_step f d s _ _ _ K); [intros E|intros i p Hi U E]; rewrite E; apply wp_bind; [by apply end_ret, end_ret|]. cbn [provisioning_list_tlv_remove].
    apply (slot_run i p _ _ _ _ Hi). rewrite (used_nonzero d p U). pose proof (tlv_unlink_ok (tlv_list p) ty (us_tlvs _ _ U)) as T. change (e_tlvs (view p)) with (tlv_map (tlv_list p)).
    destruct (tlv_unlink (tlv_list p) ty) as [l|]; [|rewrite T; by apply end_ret, end_ret]. destruct T as (T1 & T2 & [x T3] & _). rewrite T3. cbn [isSome].
    apply (replace_ok writable f Hf m i p d _ s _ _ _ Hm K Hi U); [by destruct U; split|]. intros s' K' E'. apply end_ret. split; [done|]. rewrite E'. unfold view at 1, with_tlvs. cbn [status bootmode tlv_list]. by rewrite T1.
  - apply step_get, end_ret. split; [done|]. unfold provisioning_list_get_count. by rewrite (count_devs _ (sl_slots _ (kp_slots _ _ K))), (size_devs _ (kp_slots _ _ K)).
  - apply wp_bind. unfold provisioning_list_clear. apply step_modify. destruct (cleared_ok _ (kp_slots _ _ K)) as [C1 C2].
    eapply wp_mono; [apply (persist_ok writable f Hf m); [done|exact C1|apply K]|]. intros [] s' [K' El]. apply end_ret. split; [done|]. rewrite El. cbn [pvs_list set_pvs_list]. by rewrite C2.
  - apply wp_bind. eapply wp_mono; [by apply (pvs_init_ok writable default_name f Hf m s)|]. intros [] s' [K' El]. apply end_ret. split; [done|]. by rewrite El.
Qed.

Lemma run_ok l : Forall (fun x => image_ok x.1 /\ op_ok x.2) l -> forall s, kept f s ->
  wp (run writable default_name f l) (fun r s' => kept f s' /\ (r, device_map (pvs_list s')) = spec_run (map snd l) (device_map (pvs_list s))) s.
Proof.
  induction 1 as [|[m o] l [Hm Ho] H IH]; intros s K; [by apply end_ret|]. cbn [run map snd spec_run]. apply wp_bind. eapply wp_mono; [by apply pvs_exec_ok|]. intros a s1 [K1 E1]. rewrite <- E1.
  apply wp_bind. eapply wp_mono; [by apply IH|]. intros b s2 [K2 E2]. rewrite <- E2. by apply end_ret.
Qed.

End Refinement.

(** C30: The provisioning list is a finite map from DSKs to devices with their status, boot mode and TLVs, for up to 1000
    devices, and outlives the process: after a first start any sequence of additions, changes, lookups, removals,
    clearing and restarts, in which the list is read back from the bytes of its file, gives the results it gives on
    the map, whatever addresses the file holds; no freed or unset memory is used. *)
Theorem provisioning_list_is_map (writable : string -> bool) default_name f m ops s : writable f = true -> files s !! f = None -> image_ok m ->
  Forall (fun x => image_ok x.1 /\ op_ok x.2) ops ->
  exists r s', (provisioning_list_init writable default_name m (Some f) (mret tt) ;; run writable default_name f ops) s = Ok (r, s') /\
    (r, device_map (pvs_list s')) = spec_run (map snd ops) ∅.
Proof.
  intros Hf Hn Hm Ho. apply wp_run, wp_bind. eapply wp_mono; [by apply (first_init_ok writable default_name f Hf m s)|]. intros [] s1 [K E]. rewrite <- E.
  eapply wp_mono; [by apply (run_ok writable default_name f Hf ops Ho s1 K)|]. by intros r s' [_ H].
Qed.

End ProvisioningSpec.
