(* ===== verification/ProvisioningRuns.v ===== *)
(** * Runs of the provisioning list (src/provisioning_list.c)

    The theorem at work on two devices, the other lookups, and files that were cut off. *)
From S2P Require Import Prelude Effects ProvisioningList ProvisioningSpec.
From stdpp Require Import gmap strings.
Import Effects ProvisioningList ProvisioningSpec.
#[local] Open Scope Z_scope.

Module ProvisioningRuns.

(** Addresses that tell the blocks of a slot apart. *)
Definition image1 : image := mkImage (fun i j => [Z.of_nat j * 16; Z.of_nat i; 0; 0; 0; 0x7F; 0; 1]) (fun n => replicate n 0xCC).

Lemma image1_ok : image_ok image1.
Proof. split; [intros i j; by split|intros n; apply length_replicate]. Qed.

Definition all_writable (f : string) : bool := true.
Definition store_name : string := "pvs.dat".
Definition default_file : string := "provisioning_list_store.dat".
Definition empty : PL := mkPL [] None ∅.

Definition key1 : list Z := [1; 2; 3; 4; 5; 6; 7; 8; 9; 10; 11; 12; 13; 14; 15; 16].
Definition key2 : list Z := [21; 22; 23; 24; 25; 26; 27; 28; 29; 30; 31; 32; 33; 34; 35; 36].

(** Two devices, three TLVs, a removal and two starts. *)
Definition session : list op :=
  [OpAdd key1 1; OpAdd key2 2; OpAdd key1 0; OpTlvSet key1 0x32 [65; 66]; OpTlvSet key1 0x33 [67]; OpTlvSet key1 0x32 [68]; OpRestart; OpTlvGet key1 0x32;
   OpStatus key2 1; OpTlvRemove key1 0x33; OpRemove key1; OpRestart; OpGet key2; OpGet key1; OpCount].

Lemma provisioning_list_is_map_witness :
  exists r s', (provisioning_list_init all_writable default_file image1 (Some store_name) (mret tt) ;; run all_writable default_file store_name (map (pair image1) session)) empty = Ok (r, s') /\
    r = [Bool true; Bool true; Bool false; Bool true; Bool true; Bool true; Nothing; Value (Some [68]); Bool true; Bool true; Bool true; Nothing;
         Device (Some (mkEntry 1 2 ∅)); Device None; Number 1].
Proof.
  destruct (provisioning_list_is_map all_writable default_file store_name image1 (map (pair image1) session) empty) as (r & s' & E & R).
  - reflexivity.
  - reflexivity.
  - apply image1_ok.
  - apply Forall_map, Forall_forall. intros o Ho. split; [apply image1_ok|]. cbn [snd]. unfold session in Ho. rewrite !elem_of_cons, elem_of_nil in Ho.
    destruct_or! Ho; try done; subst o; cbn; unfold is_u32; lia.
  - exists r, s'. split; [exact E|]. apply (f_equal fst) in R. cbn [fst] in R. rewrite R. vm_compute. reflexivity.
Defined.

Definition after (l : list op) : PL :=
  match (provisioning_list_init all_writable default_file image1 (Some store_name) (mret tt) ;; run all_writable default_file store_name (map (pair image1) l)) empty with
  | Ok (_, s) => s | Fault _ => empty
  end.
Definition result {A} (m : M A) (s : PL) : A + fault := match m s with Ok (a, _) => inl a | Fault e => inr e end.

(** A device that asks to join is found by the home id made of its DSK, and by the key it shows, whose first two
    bytes may be cleared. *)
Example device_found : result (provisioning_list_dev_get_homeid [0xDD; 30; 31; 32]) (after [OpAdd key1 1; OpAdd key2 1]) = inl (Some 1%nat).
Proof. vm_compute. reflexivity. Qed.
Example device_matched : result (provisioning_list_dev_match_challenge ([0; 0] ++ drop 2 key2 ++ replicate 16 9)) (after [OpAdd key1 1; OpAdd key2 1]) = inl (Some 1%nat).
Proof. vm_compute. reflexivity. Qed.

(** An iterator names the devices in the order of their slots; one that has been removed since is left out. *)
Example removed_device_skipped :
  result (it ← provisioning_list_iterator_get 7; provisioning_list_dev_remove all_writable image1 key1 ;;
          a ← provisioning_list_iter_get_next it; b ← provisioning_list_iter_get_next a.2; c ← provisioning_list_iter_get_next b.2; mret (a.1, b.1, c.1)) (after [OpAdd key1 1; OpAdd key2 1])
  = inl (None, Some 1%nat, None).
Proof. vm_compute. reflexivity. Qed.

(** Devices that wait for inclusion. *)
Example pending : result (provisioning_list_pending_count (fun d => bool_decide (d = key2))) (after [OpAdd key1 1; OpAdd key2 1; OpAdd [9; 9; 9; 9] 0; OpAdd [8; 8; 8; 8] 2]) = inl 2.
Proof. vm_compute. reflexivity. Qed.

(** ** What else happens *)

Definition cut_file (n : nat) (s : PL) : PL := set_files (alter (take n) store_name (files s)) s.
Definition restart : M unit := provisioning_list_init all_writable default_file image1 (Some store_name) (mret tt).

(** The file ends within the structure of a device: the structure is used although it is not set. *)
Example cut_in_structure : result restart (cut_file 40 (after [OpAdd key1 1])) = inr OutOfBounds.
Proof. vm_compute. reflexivity. Qed.

(** The file ends within a DSK: the device is kept with a DSK that is not set, and the list is written from it. *)
Example cut_in_dsk : result restart (cut_file 70 (after [OpAdd key1 1])) = inr OutOfBounds.
Proof. vm_compute. reflexivity. Qed.

(** The configured file does not exist and cannot be made: the list under the default name is emptied unread. *)
Example default_list_lost (only_default := fun n : string => bool_decide (n = default_file)) (s := after [OpAdd key1 1]) :
  result (provisioning_list_init only_default default_file image1 (Some "other"%string) (mret tt) ;; s ← get; mret (provisioning_list_get_count s, (length <$> files s !! default_file)))
    (set_files (<[default_file := default [] (files s !! store_name)]> ∅) s) = inl (0, Some 15%nat).
Proof. vm_compute. reflexivity. Qed.

(** A start turns the TLVs of each device around. *)
Example tlvs_turned (l := [OpAdd key1 1; OpTlvSet key1 1 [1]; OpTlvSet key1 2 [2]; OpTlvSet key1 3 [3]]) :
  map (fun s => map tlv_type (tlv_list (nth 0 (pvs_list s) blank))) [after l; after (l ++ [OpRestart]); after (l ++ [OpRestart; OpRestart])] = [[3; 2; 1]; [1; 2; 3]; [3; 2; 1]].
Proof. vm_compute. reflexivity. Qed.

End ProvisioningRuns.
